(* ===== verification/_CoqProject ===== *)
-Q . S2P
Prelude.v
Def.v
Chksum.v
Ip4Addr.v
Mem.v
Memp.v
PbufMem.v
Pbuf.v
PbufChain.v
PbufRead.v
PbufWrite.v
PbufRef.v
PbufShrink.v
PbufAlloc.v
PbufInst.v
PbufProps.v
Timeouts.v
DList.v
Hash.v
Hmap.v
Route.v
Etharp.v
Chain.v
Ip4Hdr.v
Ip4Reass.v
Ip4ReassOk.v
Ip4ReassProps.v
Ip4ReassDone.v
Ip4Frag.v
Ip4FragProps.v
Ip4Examples.v
Udp.v
UdpOk.v
UdpProps.v
UdpRound.v
UdpExamples.v
Ip4.v
Ip4Ok.v
Ip4Props.v
UdpIp.v
Icmp.v
IcmpProps.v
UdpIpExamples.v
Tcp.v
TcpRecv.v
TcpStream.v
TcpProps.v
TcpAck.v
TcpReceive.v
TcpOpt.v
TcpProcess.v
TcpClose.v
TcpHandshake.v
TcpOut.v
TcpSend.v
TcpOutput.v
TcpSendErrors.v
TcpSession.v
TcpSendExamples.v
TcpStack.v
TcpTimer.v
TcpTimerOk.v
TcpStackOk.v
TcpTimerProps.v
TcpTimeouts.v
TcpTimerExamples.v
TcpNetml.v
TcpNetmlProps.v
TcpNetmlSend.v
TcpNetmlRound.v
TcpNetmlAck.v
TcpNetmlExamples.v
TcpApi.v
TcpApiProps.v
TcpInput.v
TcpInputProps.v
TcpHeader.v
TcpEvents.v
TcpEventsProps.v
TcpInputExamples.v
