(* ===== verification/Prelude.v ===== *)
(** * libuzmq: the user-space TCP/IP stack under ZeroMQ

    libuzmq is ZeroMQ on a TCP/IP stack of its own: the C++ sources under [src/src]
    call the sockets of the lwIP stack under [src/lwip], whose core is C. This
    development models the C core in the configuration of the build
    ([src/src/lwipopts.h]) and proves what its parts promise each other.

    ** The parts and how they interact

    Memory comes from two allocators: the heap ([mem.c]) and the pools ([memp.c]).
    Packets ([pbuf.c]) are reference-counted chains of buffers that live in this
    memory. The link layer resolves addresses with ARP ([etharp.c]), which queues
    packets and is driven by frames, by packets to send and by a timer;
    [ip4_route] chooses the interface. TCP ([tcp_in.c], [tcp_out.c], [tcp.c]) builds
    streams from packets; the checksums ([inet_chksum.c]) and the byte order
    functions ([def.c]) serve all layers. Timers ([timeouts.c]) drive the
    protocols. The project's own containers ([list.c], [hash.c], [hmap.c]) index its
    connections.

    ** Files

    - [Prelude]: machine integers, the result type [outcome] of code that can
      fail an assertion ([Assert]), leave the language ([Undef]) or run out of fuel
      ([Diverge]), its notations, the lemmas and tactics that the files share.
    - [Def] ([core/def.c]), [Chksum] ([core/inet_chksum.c]), [Ip4Addr]
      ([core/ipv4/ip4_addr.c]): whole files, function by function.
    - [Mem] ([core/mem.c]): the heap, [struct mem] objects by their index, [lfree],
      first fit, merging. [Memp] ([core/memp.c]): pools as linked free elements.
    - [PbufMem]: what [pbuf.c] sees of memory, and the class [Allocator] with its
      laws [AllocatorLaws]; [PbufInst] proves the laws for [Mem] and [Memp] together.
      [Pbuf]: every function of [core/pbuf.c]. [PbufChain] has the predicates on
      chains; [PbufRead], [PbufWrite], [PbufRef], [PbufShrink], [PbufAlloc] and
      [PbufProps] hold the theorems, for every allocator that keeps the laws.
    - [Timeouts] ([core/timeouts.c]): the timer queue; handlers may change it.
    - [DList] ([core/list.c]), [Hash] ([core/hash.c]), [Hmap] ([core/hmap.c], [mlib/hmap.h]).
    - [Route]: [struct netif] and [ip4_route] of [core/ipv4/ip4.c].
    - [Etharp] ([core/ipv4/etharp.c]): the whole file; packet buffers and the link are
      the class [Packets] with the laws [PacketsLaws].
    - [Tcp]: the control block, sequence numbers, the receive window, the pool of
      segments, control segments and retransmission queues ([core/tcp.c],
      [core/tcp_out.c]). [TcpRecv]: the half of [tcp_receive] ([core/tcp_in.c]) that
      deals with text. [TcpStream]: its invariant, lemma by lemma. [TcpProps]: its
      properties. What is below TCP is the class [TcpNet].
    - [Chain]: packets as chains of payloads. [Ip4Hdr]: the IPv4 header. [Ip4Reass]:
      reassembly, [Ip4Frag]: fragmentation ([core/ipv4/ip4_frag.c]); pbufs, ICMP errors and
      the interface are the classes [ReassNet] and [FragNet]. [Ip4ReassOk]: the invariant
      [reass_ok] and what one call of [ip4_reass] does (the relation [step]); [Ip4ReassProps],
      [Ip4ReassDone], [Ip4FragProps]: the theorems; [Ip4Examples]: witnesses.
    - [Udp]: [core/udp.c] over the class [UdpNet]; [UdpOk]: the invariant [udp_ok] of the
      control blocks; [UdpProps] and [UdpRound]: choosing the socket, the calls, the datagram.
      [Ip4]: [core/ipv4/ip4.c] over the classes [IpUpper] (protocols above) and [IpLink]
      (interfaces); [Ip4Ok]: the header and its checksum; [Ip4Props]: input and output.
      [UdpIp]: UDP and IPv4 of two hosts together. [Icmp]: [core/ipv4/icmp.c] over [Ip4] and the
      class [IcmpNet]; [IcmpProps]. [UdpExamples], [UdpIpExamples]: witnesses.
    - [TcpAck]: the half of [tcp_receive] that deals with acknowledgements; the
      invariant [send_ok] of the send queues. [TcpReceive]: both halves together.
      [TcpOpt]: [tcp_parseopt]. [TcpProcess]: the state machine [tcp_process], aborting and
      purging; the application is the class [TcpApp]. [TcpClose] and [TcpHandshake]:
      its theorems.
    - [TcpOut]: [tcp_write], [tcp_send_fin], [tcp_split_unsent_seg] and [tcp_output]
      ([core/tcp_out.c]); pbufs and the link are the classes [TcpBufs] and [TcpLink].
      [TcpSend] and [TcpOutput]: the invariant [sender_ok] and what queueing and sending
      promise. [TcpSendErrors]: where they go wrong. [TcpSession]: sender and receiver
      together. [TcpSendExamples]: a link and sessions on it.
    - [TcpStack]: the control blocks of the stack and their lists, [tcp_close], [tcp_shutdown] and
      [tcp_abort]; [TcpTimer]: [tcp_tmr] and what it calls ([core/tcp.c]). The callbacks of the
      application are the class [TcpEvents]. [TcpStackOk]: the invariant [stack_ok] of the lists;
      [TcpTimerOk]: what the timers do with one connection; [TcpTimerProps], [TcpTimeouts]: the
      theorems; [TcpTimerExamples]: witnesses.
    - [TcpNetml]: the multi-node extension ([LWIP_NETML] in [tcp_in.c], [tcp_out.c], [netml.h]): segments in a
      store by their addresses, the nodes of a connection, [tcp_write_netml], [tcp_netml_input] and
      [tcp_output] of such connections; walks along a queue have the number of segments in the store as fuel,
      one more than any queue needs. [TcpNetmlProps]: receiving; [TcpNetmlSend]: writing; [TcpNetmlRound]: both
      together; [TcpNetmlAck]: acknowledgements; [TcpNetmlExamples]: witnesses.
    - [TcpApi]: the calls that make, bind and open connections ([tcp_alloc], [tcp_bind], [tcp_listen], [tcp_connect]) and changed addresses of
      interfaces ([core/tcp.c]); [TcpApiProps]: they keep [stack_ok]. [TcpHeader]: the checks of the TCP header; [TcpInput]: where a segment
      goes, listeners and TIME-WAIT; [TcpEvents]: segments of active connections and the callbacks they cause, and [tcp_input] as a whole
      ([core/tcp_in.c]); [TcpInputProps], [TcpEventsProps]: the theorems; [TcpInputExamples]: witnesses.
    ** What the theorems show

    - Heap and pools: clients that use the pointers they hold in any order get
      disjoint memory, every pointer is taken back, trimming fails its assertion only for the last block, allocation takes the first
      block that fits and fails only when there is none ([heap_clients_safe],
      [mem_malloc_first_fit], [malloc_free_roundtrip], [pool_clients_safe]).
    - Packets: every operation is described by the concatenated data, whatever the
      segmentation, with reference counts and length fields exact and other
      memory untouched ([pbuf_free_refcounts], [pbuf_alloc_pool],
      [pbuf_realloc_truncates], [copy_packet], [copy_partial_slice], ...).
    - Checksums: the algorithms agree with RFC 1071 and with each other, for any
      segmentation and alignment; pseudo headers as in RFC 793.
    - Timers: due timers run once, in order, and the queue stays sorted across
      wrap-around ([stack_timers_in_order]), but one that is exactly one interval late runs twice
      ([late_timer_runs_twice]); sleep times are exact.
    - Containers: the pointer structures refine sequences and finite maps.
    - ARP: every call with a whole header returns ([etharp_safe]; shorter ones: [short_header_undefined]), keeps the table consistent and keeps account of the
      packets it holds; learning, ageing and recycling as documented.
    - TCP reassembly: whatever the order, overlap and repetition of segments within
      the announced window, no assertion fails and what is passed on is the
      peer's stream ([receive_in_stream], [segments_in_any_order]); the announced
      window never shrinks ([recved_opens_window]).
    - Fragments: reassembly survives any input and accounts for its pbufs ([reass_safe]),
      gives on nothing but whole datagrams ([reass_only_whole]), every datagram whose fragments
      arrive ([reass_completes]), and gives up the others ([reass_gives_up]); fragmentation
      sends all of a datagram ([frag_sends_whole]), so that it arrives
      ([frag_reass_roundtrip]), but not with every MTU ([frag_loses_end]).
    - IPv4: which packets are taken, and, if the protocols above return, that [ip4_input] returns for every packet with four bytes in its
      first pbuf ([ip4_input_takes], [ip4_input_safe]); what is sent is valid ([ip4_output_valid]), its checksum added up on
      the way is right ([inline_chksum_inet]). UDP: bindings stay apart ([udp_calls_safe]), a datagram finds
      its socket ([udp_input_demux]), free ports are found ([udp_new_port_finds]), and what is sent is received, by UDP
      alone ([udp_send_receive]) and through IPv4 ([udp_over_ip]). ICMP: pings are answered
      ([icmp_echo_answered]), errors reported ([icmp_error_sent]), any message survived ([icmp_input_safe]).
    - TCP state machine: a segment with an acknowledgement in one of the states ESTABLISHED to LAST-ACK takes the connection
      where RFC 793 says, releases exactly what is acknowledged and keeps both
      directions consistent ([tcp_receive_both_halves], [process_follows_rfc793]);
      the handshake establishes these invariants ([handshake_establishes],
      [accepted_establishes]); refused connections are freed
      ([refused_connection_freed]); resets and SYNs that do not fit change nothing
      ([blind_segments_challenged]); duplicate acknowledgements and round-trip
      times ([fast_retransmit_once], [rtt_estimator_bounded]); options
      ([parseopt_total], [mss_option_roundtrip]).
    - TCP output: what is written is queued, sent and kept until it is acknowledged, at its
      place in the stream ([write_appends], [fin_behind_text], [output_in_stream]);
      from end to end, the reader gets a prefix of what was written, whatever the
      network does within the window, as long as nothing is written behind a fast retransmit ([session_end_to_end], for streams of up to 1 GiB
      less 64 KiB, so that a sequence number stands for one position).
    - TCP timers: they return whatever the callbacks do, as long as none frees a connection for which a FIN waits behind refused data ([timers_return]), resend what is not
      acknowledged ([timeout_resends]), try a pending close again ([close_retried]) and give up a silent peer
      ([silent_peer_given_up]), but leave a closed window closed ([zero_window_stalls]). The loops over the active
      connections have fuel, since callbacks can restart them; [timers_return] shows that some fuel is
      enough for every state.
    - Several nodes over one TCP connection: what is written for a node is queued ([write_netml_queues]), passed on
      by the peer as it was written ([netml_round_trip]), apart from the other nodes ([netml_streams]), and freed when
      it is acknowledged ([netml_ack_frees]); the application may refuse data ([refused_drops], [handler_delivers]).
      But reordering stops a node ([early_segment_stops]), a segment the driver holds is lost ([busy_segment_lost]),
      node numbers are not checked ([unknown_node_undefined]) and marks are wrong ([resend_marks]). The node queues of a connection are
      freed with it ([purge_nodes_frees]).
    - TCP calls and input: every series of legal calls keeps the lists right ([tcp_calls_keep_lists]), a free port is found ([tcp_new_port_finds]), unless the
      counter wraps ([wrapped_port_refused]); the header that is sent is the one that is read ([header_roundtrip]), a segment finds
      its connection ([demux_right]), a SYN opens one ([syn_opens_connection], [syn_packet_opens]), a connection in TIME-WAIT answers ([timewait_answers]), data and
      the end of the stream are reported ([segment_reported], [refused_data_kept], [close_in_callback]), a reset frees ([reset_frees]). Callbacks that free other
      blocks do harm in two places ([addr_changed_use_after_free], [aborted_connection_read]).
    - Errors: inputs for which the code stops, leaks or accepts what it should not
      ([mem_trim_at_end_aborts], [pbuf_dechain_dangling], [aton_overflow_accepted],
      [window_overrun_asserts], [output_overruns_window], [split_keeps_fin],
      [split_frees_twice], [small_mss_stops_write], [write_behind_retransmit], [unsent_ack_stops],
      [failed_connect_port_unreserved], [listener_closed_by_alloc]).

    ** Conventions, bounds and fuel

    A w-bit integer is a [Z] with its wrap-around written out ([u8], [u16], [u32],
    [u64]). [LWIP_ASSERT] and [LWIP_ERROR] end the process in this port: [Assert].
    Loops that are not structural carry fuel. A loop over a chain of pbufs has one
    more than the number of pbufs that exist, a walk through the heap one more than
    the number of headers, a walk through a hash chain one more than the number of
    nodes: a structure without a cycle is shorter. [check_loop] of [Timeouts] is
    proved to return for every fuel above the number of due timers. Theorems that a
    function returns are proved as such: the result is [Ret], never [Diverge].

    ** Not modelled

    IPv6, DHCP, AUTOIP, SACK, TCP timestamps and window scaling are compiled out.
    The socket layer ([api/]), [sys_arch.c] and the drivers are threads,
    mailboxes and device I/O around the core. [stats.c], [init.c] and [sys.c] have no
    behaviour of their own. The PPP, SNMP and application directories are not
    part of the build. The C++ sources of ZeroMQ are another language.
    Parameters: the protocols above IPv4 and the errors they cause ([IpUpper]), links, drivers and callbacks. The driver answers within its
    call: [seg_busy] of a segment changes only when it is sent, so a pbuf that the driver releases later is not seen.

    Not modelled: the hash table [seq_history] of DPDK ([NETML_AGG]), IGMP, raw sockets, Ethernet, interfaces and DNS. *)

From stdpp Require Export base tactics numbers list gmap.
From Stdlib Require Export ZArith Lia Bool.
Export List.ListNotations.

#[global] Open Scope Z_scope.

(** ** Machine integers

    A w-bit C integer is a [Z]; the conversions below are the C casts
    [(u8_t)x], [(u16_t)x], [(u32_t)x], [(size_t)x] on a 64-bit host. *)
Definition u8 (x : Z) : Z := x mod 2 ^ 8.
Definition u16 (x : Z) : Z := x mod 2 ^ 16.
Definition u32 (x : Z) : Z := x mod 2 ^ 32.
Definition u64 (x : Z) : Z := x mod 2 ^ 64.

(** [is_u w x]: [x] is a value of an unsigned [w]-bit type. *)
Definition is_u (w x : Z) : Prop := 0 <= x < 2 ^ w.

#[global] Instance is_u_dec w x : Decision (is_u w x).
Proof. unfold is_u. apply _. Defined.

Lemma u8_range x : 0 <= u8 x < 256.
Proof. apply Z.mod_pos_bound. reflexivity. Qed.
Lemma u16_range x : 0 <= u16 x < 65536.
Proof. apply Z.mod_pos_bound. reflexivity. Qed.
Lemma u32_range x : 0 <= u32 x < 4294967296.
Proof. apply Z.mod_pos_bound. reflexivity. Qed.
Lemma u64_range x : 0 <= u64 x < 18446744073709551616.
Proof. apply Z.mod_pos_bound. reflexivity. Qed.

Lemma u8_small x : 0 <= x < 256 -> u8 x = x.
Proof. apply Z.mod_small. Qed.
Lemma u16_small x : 0 <= x < 65536 -> u16 x = x.
Proof. apply Z.mod_small. Qed.
Lemma u32_small x : 0 <= x < 4294967296 -> u32 x = x.
Proof. apply Z.mod_small. Qed.
Lemma u64_small x : 0 <= x < 18446744073709551616 -> u64 x = x.
Proof. apply Z.mod_small. Qed.

(** Bit masks of the code, as arithmetic. *)
Lemma land_ones_mod x n : 0 <= n -> Z.land x (Z.ones n) = x mod 2 ^ n.
Proof. intros; apply Z.land_ones; lia. Qed.
Lemma land_ff x : Z.land x 0xff = x mod 256.
Proof. apply (Z.land_ones x 8); lia. Qed.
Lemma land_ffff x : Z.land x 0xffff = x mod 65536.
Proof. apply (Z.land_ones x 16); lia. Qed.
Lemma land_1 x : Z.land x 1 = x mod 2.
Proof. apply (Z.land_ones x 1); lia. Qed.
Lemma shiftr_8 x : Z.shiftr x 8 = x / 256.
Proof. apply (Z.shiftr_div_pow2 x 8); lia. Qed.
Lemma shiftr_16 x : Z.shiftr x 16 = x / 65536.
Proof. apply (Z.shiftr_div_pow2 x 16); lia. Qed.
Lemma shiftr_24 x : Z.shiftr x 24 = x / 16777216.
Proof. apply (Z.shiftr_div_pow2 x 24); lia. Qed.
Lemma shiftl_8 x : Z.shiftl x 8 = x * 256.
Proof. apply (Z.shiftl_mul_pow2 x 8); lia. Qed.
Lemma shiftl_16 x : Z.shiftl x 16 = x * 65536.
Proof. apply (Z.shiftl_mul_pow2 x 16); lia. Qed.
Lemma shiftl_24 x : Z.shiftl x 24 = x * 16777216.
Proof. apply (Z.shiftl_mul_pow2 x 24); lia. Qed.

(** Bitwise or of two numbers whose bits do not overlap is their sum. *)
Lemma lor_disjoint_add a b n :
  0 <= n -> 0 <= a < 2 ^ n -> b mod 2 ^ n = 0 -> Z.lor a b = a + b.
Proof.
  intros Hn Ha Hb.
  assert (Z.land a b = 0) as Hl.
  { apply Z.bits_inj'; intros i Hi. rewrite Z.land_spec, Z.bits_0.
    destruct (Z.lt_ge_cases i n) as [Hin|Hin].
    - rewrite <- (Z.mod_pow2_bits_low b n i), Hb, Z.bits_0 by lia. apply andb_false_r.
    - destruct (Z.eq_dec a 0) as [->|]; [by rewrite Z.bits_0|].
      rewrite (Z.bits_above_log2 a i); [done|lia|].
      apply Z.lt_le_trans with n; [apply Z.log2_lt_pow2|]; lia. }
  rewrite Z.add_nocarry_lxor by done. symmetry. by apply Z.lxor_lor.
Qed.

(** [lia] with divisions and remainders by constants. *)
Ltac zdm := Z.div_mod_to_equations; lia.

(** ** Outcomes

    A C function of the stack either returns, stops the process in a failed
    [LWIP_ASSERT]/[LWIP_ERROR] (both call [abort()] in this build:
    [LWIP_PLATFORM_ASSERT]), performs an access the language gives no meaning
    (a null or dangling pointer), or loops forever. Loops are modelled with a
    fuel argument; running out of it is [Diverge]. *)
Inductive outcome (A : Type) : Type :=
| Ret (a : A)
| Assert
| Undef
| Diverge.
Arguments Ret {A} a.
Arguments Assert {A}.
Arguments Undef {A}.
Arguments Diverge {A}.

#[global] Instance outcome_ret : MRet outcome := fun A a => Ret a.
#[global] Instance outcome_bind : MBind outcome := fun A B f m =>
  match m with
  | Ret a => f a
  | Assert => Assert
  | Undef => Undef
  | Diverge => Diverge
  end.

(** [LWIP_ASSERT(cond)]. *)
Definition lwip_assert (b : bool) : outcome unit := if b then Ret tt else Assert.
(** Reading through a pointer: no object there is undefined behaviour. *)
Definition deref {A} (o : option A) : outcome A :=
  match o with Some a => Ret a | None => Undef end.

Lemma ret_bind {A B} (a : A) (f : A -> outcome B) : (Ret a ≫= f) = f a.
Proof. reflexivity. Qed.
Lemma deref_Some {A} (o : option A) a : o = Some a -> deref o = Ret a.
Proof. by intros ->. Qed.
Lemma lwip_assert_true b : b = true -> lwip_assert b = Ret tt.
Proof. by intros ->. Qed.

(** ** Error codes of [err.h] *)
Inductive err_t : Set :=
| ERR_OK | ERR_MEM | ERR_BUF | ERR_TIMEOUT | ERR_RTE | ERR_INPROGRESS | ERR_VAL
| ERR_WOULDBLOCK | ERR_USE | ERR_ALREADY | ERR_ISCONN | ERR_CONN | ERR_IF
| ERR_ABRT | ERR_RST | ERR_CLSD | ERR_ARG.
#[global] Instance err_t_eq_dec : EqDecision err_t.
Proof. solve_decision. Defined.

(** ** Byte strings *)
Definition is_byte (b : Z) : Prop := 0 <= b < 256.
Definition bytes (l : list Z) : Prop := Forall is_byte l.

Lemma bytes_app l1 l2 : bytes (l1 ++ l2) <-> bytes l1 /\ bytes l2.
Proof. apply Forall_app. Qed.
Lemma bytes_cons b l : bytes (b :: l) <-> is_byte b /\ bytes l.
Proof. apply Forall_cons. Qed.
Lemma bytes_take n l : bytes l -> bytes (take n l).
Proof. apply Forall_take. Qed.
Lemma bytes_drop n l : bytes l -> bytes (drop n l).
Proof. apply Forall_drop. Qed.

(** ** Numbers in packets *)

(** The bytes of an address as it is stored (network order). *)
Definition ip_bytes (a : Z) : list Z :=
  [a mod 256; a / 256 mod 256; a / 65536 mod 256; a / 16777216 mod 256].
(** The bytes of [lwip_htons(x)] as it is stored. *)
Definition be16 (x : Z) : list Z := [x / 256 mod 256; x mod 256].
(** The fields of a packet. *)
Definition get8 (l : list Z) (i : nat) : Z := default 0 (l !! i).
(** 16-bit fields in host order, that is, [lwip_ntohs] of what is stored. *)
Definition get16 (l : list Z) (i : nat) : Z := get8 l i * 256 + get8 l (i + 1).
Definition get_ip (l : list Z) (i : nat) : Z :=
  get8 l i + 256 * get8 l (i + 1) + 65536 * get8 l (i + 2) + 16777216 * get8 l (i + 3).

Create HintDb uzmq discriminated.
#[export] Hint Resolve bytes_take bytes_drop : uzmq.
#[export] Hint Resolve Forall_nil_2 Forall_cons_2 : uzmq.

(** Two-at-a-time induction on lists, for code that consumes 16-bit words. *)
Lemma list_pair_ind {A} (P : list A -> Prop) :
  P [] -> (forall a, P [a]) -> (forall a b l, P l -> P (a :: b :: l)) -> forall l, P l.
Proof.
  intros H0 H1 H2 l.
  assert (P l /\ forall a, P (a :: l)) as [? _]; [|done].
  induction l as [|b l [IH1 IH2]]; split; eauto.
Qed.
