(* ===== verification/Def.v ===== *)
(** * [lwip/src/core/def.c]: byte order and non-standard string functions

    [lwip_htons], [lwip_htonl], [lwip_strnstr], [lwip_stricmp],
    [lwip_strnicmp] and [lwip_itoa], for the little-endian build.

    A C string is the list of its characters (values of a signed [char])
    before the terminating zero, so reading one past the end gives 0. *)

From S2P Require Import Prelude.

(** ** Byte order *)

(** [PP_HTONS] *)
Definition lwip_htons (n : Z) : Z :=
  u16 (Z.lor (Z.shiftl (Z.land n 0x00ff) 8) (Z.shiftr (Z.land n 0xff00) 8)).

(** [PP_HTONL] *)
Definition lwip_htonl (n : Z) : Z :=
  Z.lor (Z.lor (Z.lor
    (Z.shiftl (Z.land n 0x000000ff) 24)
    (Z.shiftl (Z.land n 0x0000ff00) 8))
    (Z.shiftr (Z.land n 0x00ff0000) 8))
    (Z.shiftr (Z.land n 0xff000000) 24).

(** ** Strings *)

Definition is_char (c : Z) : Prop := -128 <= c < 128.
Definition cstring (s : list Z) : Prop := Forall (fun c => is_char c /\ c <> 0) s.

(** [*p] of a C string: the terminator is read at the end. *)
Definition chr (s : list Z) : Z := match s with [] => 0 | c :: _ => c end.

(** [strncmp(p, token, strlen(token)) == 0] *)
Fixpoint starts_with (p token : list Z) {struct token} : bool :=
  match token with
  | [] => true
  | t :: token' =>
      match p with
      | [] => false
      | c :: p' => (c =? t) && starts_with p' token'
      end
  end.

(** The loop of [lwip_strnstr]: [off] is [p - buffer]. *)
Fixpoint strnstr_loop (p token : list Z) (off n : Z) : option Z :=
  match p with
  | [] => None
  | c :: p' =>
      if off + Z.of_nat (length token) <=? n then
        if (c =? chr token) && starts_with p token then Some off
        else strnstr_loop p' token (off + 1) n
      else None
  end.

(** Result: the offset of the returned pointer into [buffer], or [NULL]. *)
Definition lwip_strnstr (buffer token : list Z) (n : Z) : option Z :=
  match token with
  | [] => Some 0
  | _ => strnstr_loop buffer token 0 n
  end.

(** The body of the comparison loops: [true] is [return 1]. *)
Definition icmp_differ (c1 c2 : Z) : bool :=
  if c1 =? c2 then false
  else
    let c1_upc := Z.lor c1 0x20 in
    if (97 <=? c1_upc) && (c1_upc <=? 122) then
      let c2_upc := Z.lor c2 0x20 in negb (c1_upc =? c2_upc)
    else true.

Fixpoint lwip_stricmp (str1 str2 : list Z) : Z :=
  let c1 := chr str1 in
  let c2 := chr str2 in
  if icmp_differ c1 c2 then 1
  else match str1 with
       | [] => 0
       | _ :: str1' => if c1 =? 0 then 0 else lwip_stricmp str1' (tail str2)
       end.

(** [len--] on a [size_t] before the test [(len != 0) && (c1 != 0)]. *)
Fixpoint lwip_strnicmp (str1 str2 : list Z) (len : Z) : Z :=
  let c1 := chr str1 in
  let c2 := chr str2 in
  if icmp_differ c1 c2 then 1
  else
    let len := u64 (len - 1) in
    if len =? 0 then 0
    else match str1 with
         | [] => 0
         | _ :: str1' => if c1 =? 0 then 0 else lwip_strnicmp str1' (tail str2) len
         end.

(** [while ((n != 0) && (tmp > res))]: [k] is [tmp - res]; result is the
    buffer, the final [tmp] and the rest [n]. *)
Fixpoint itoa_loop (k : nat) (buf : list Z) (tmp : nat) (n : Z) : list Z * nat * Z :=
  if n =? 0 then (buf, tmp, n)
  else match k with
       | O => (buf, tmp, n)
       | S k' => itoa_loop k' (<[(tmp - 1)%nat := 48 + n mod 10]> buf) (tmp - 1) (n / 10)
       end.

(** [memmove(result + dst, result + src, n)] inside one buffer. *)
Definition memmove_within (buf : list Z) (dst src n : nat) : list Z :=
  take dst buf ++ take n (drop src buf) ++ drop (dst + n) buf.

(** [lwip_itoa(result, bufsize, number)]: [result] is the buffer before the
    call, [bufsize] its length; [-number] overflows for [INT_MIN]. *)
Definition lwip_itoa (result : list Z) (number : Z) : outcome (list Z) :=
  let bufsize := length result in
  if number =? - 2 ^ 31 then Undef
  else
    let n := if 0 <=? number then number else - number in
    if (bufsize <? 2)%nat then
      if (bufsize =? 1)%nat then Ret (<[0%nat := 0]> result) else Ret result
    else
      let (buf, res) :=
        if number <? 0 then (<[0%nat := 45]> result, 1%nat) else (result, 0%nat) in
      let tmp := (bufsize - 1)%nat in
      let buf := <[tmp := 0]> buf in
      let '(buf, tmp, n) := itoa_loop (tmp - res) buf tmp n in
      if negb (n =? 0) then Ret (<[0%nat := 0]> buf)
      else if (default 1 (buf !! tmp) =? 0) then
        Ret (<[(res + 1)%nat := 0]> (<[res := 48]> buf))
      else Ret (memmove_within buf res tmp (bufsize - tmp)).

(** ** Byte order: results *)

Lemma lwip_htons_arith n :
  0 <= n < 65536 -> lwip_htons n = (n mod 256) * 256 + n / 256.
Proof.
  intros Hn. unfold lwip_htons. rewrite land_ff, shiftl_8.
  assert (Z.shiftr (Z.land n 0xff00) 8 = n / 256) as ->.
  { rewrite Z.shiftr_land, shiftr_8. change (Z.shiftr 0xff00 8) with 0xff.
    rewrite land_ff. zdm. }
  rewrite Z.lor_comm, (lor_disjoint_add _ _ 8), u16_small; zdm.
Qed.

(** A byte of [n] selected in place. *)
Lemma land_byte n k : 0 <= k ->
  Z.land n (Z.shiftl 0xff k) = (n / 2 ^ k mod 256) * 2 ^ k.
Proof.
  intros Hk. rewrite <- land_ff, <- Z.shiftr_div_pow2, <- Z.shiftl_mul_pow2 by lia.
  apply Z.bits_inj'; intros i Hi.
  rewrite Z.land_spec, !Z.shiftl_spec, Z.land_spec by lia.
  destruct (Z.lt_ge_cases i k).
  - rewrite !(Z.testbit_neg_r _ (i - k)) by lia. by rewrite andb_false_r.
  - rewrite Z.shiftr_spec by lia. by replace (i - k + k) with i by lia.
Qed.

Lemma lwip_htonl_arith n :
  0 <= n < 2 ^ 32 ->
  lwip_htonl n = (n mod 256) * 16777216 + (n / 256 mod 256) * 65536
                 + (n / 65536 mod 256) * 256 + n / 16777216.
Proof.
  intros Hn. unfold lwip_htonl.
  pose proof (land_byte n 8 ltac:(lia)) as H8.
  pose proof (land_byte n 16 ltac:(lia)) as H16.
  pose proof (land_byte n 24 ltac:(lia)) as H24.
  change (Z.shiftl 255 8) with 0xff00 in H8.
  change (Z.shiftl 255 16) with 0xff0000 in H16.
  change (Z.shiftl 255 24) with 0xff000000 in H24.
  change (2 ^ 8) with 256 in H8. change (2 ^ 16) with 65536 in H16.
  change (2 ^ 24) with 16777216 in H24. change (2 ^ 32) with 4294967296 in Hn.
  rewrite land_ff, H8, H16, H24, shiftl_24, shiftl_8, shiftr_8, shiftr_24.
  rewrite Z.div_mul by lia.
  replace (n / 65536 mod 256 * 65536 / 256) with (n / 65536 mod 256 * 256) by zdm.
  replace (n / 16777216 mod 256) with (n / 16777216) by zdm.
  rewrite (Z.lor_comm (n mod 256 * _)), (lor_disjoint_add _ (n mod 256 * _) 24) by zdm.
  rewrite (Z.lor_comm (_ + _)), (lor_disjoint_add _ (_ + _) 16) by zdm.
  rewrite (Z.lor_comm (_ + _)), (lor_disjoint_add _ (_ + _) 8) by zdm.
  lia.
Qed.

(** Network order is an involution: the code uses [lwip_htons]/[lwip_htonl]
    in both directions. *)
Lemma lwip_htons_range n : 0 <= lwip_htons n < 65536.
Proof. apply u16_range. Qed.

Lemma htons_involutive n : 0 <= n < 65536 -> lwip_htons (lwip_htons n) = n.
Proof.
  intros. rewrite (lwip_htons_arith (lwip_htons n)) by apply lwip_htons_range.
  rewrite lwip_htons_arith by done. zdm.
Qed.

(** The four bytes of a 32-bit number written in base 256. *)
Lemma base256_digits a b c d :
  is_byte a -> is_byte b -> is_byte c -> is_byte d ->
  let x := a * 16777216 + b * 65536 + c * 256 + d in
  x mod 256 = d /\ x / 256 mod 256 = c /\ x / 65536 mod 256 = b /\ x / 16777216 = a.
Proof. unfold is_byte. intros. repeat split; zdm. Qed.

Lemma lwip_htonl_digits a b c d :
  is_byte a -> is_byte b -> is_byte c -> is_byte d ->
  lwip_htonl (a * 16777216 + b * 65536 + c * 256 + d)
  = d * 16777216 + c * 65536 + b * 256 + a.
Proof.
  intros Ha Hb Hc Hd. pose proof (base256_digits a b c d Ha Hb Hc Hd) as (H1 & H2 & H3 & H4).
  rewrite lwip_htonl_arith by (unfold is_byte in *; lia). by rewrite H1, H2, H3, H4.
Qed.

Lemma u32_digits n : 0 <= n < 2 ^ 32 ->
  exists a b c d, is_byte a /\ is_byte b /\ is_byte c /\ is_byte d /\
    n = a * 16777216 + b * 65536 + c * 256 + d.
Proof.
  intros. exists (n / 16777216), (n / 65536 mod 256), (n / 256 mod 256), (n mod 256).
  unfold is_byte. change (2 ^ 32) with 4294967296 in *. repeat split; zdm.
Qed.

Lemma lwip_htonl_range n : 0 <= n < 2 ^ 32 -> 0 <= lwip_htonl n < 2 ^ 32.
Proof.
  intros (a & b & c & d & Ha & Hb & Hc & Hd & ->)%u32_digits.
  rewrite lwip_htonl_digits by done. unfold is_byte in *. lia.
Qed.

Lemma htonl_involutive n : 0 <= n < 2 ^ 32 -> lwip_htonl (lwip_htonl n) = n.
Proof.
  intros (a & b & c & d & Ha & Hb & Hc & Hd & ->)%u32_digits.
  by rewrite !lwip_htonl_digits.
Qed.

(** ** Strings: results *)

(** [token] occurs in [buffer] at offset [i]. *)
Definition occurs_at (buffer token : list Z) (i : nat) : Prop :=
  starts_with (drop i buffer) token = true.

Lemma starts_with_prefix p token : starts_with p token = true <-> token `prefix_of` p.
Proof.
  revert p. induction token as [|t token IH]; intros p; simpl.
  - split; [intros _; apply prefix_nil|done].
  - destruct p as [|c p].
    + split; [done|]. intros H%prefix_nil_not. done.
    + rewrite andb_true_iff, Z.eqb_eq, IH. split.
      * intros [-> H]. by apply prefix_cons.
      * intros H. pose proof (prefix_cons_inv_1 _ _ _ _ H).
        pose proof (prefix_cons_inv_2 _ _ _ _ H). done.
Qed.

Lemma starts_with_chr c p token :
  token <> [] -> starts_with (c :: p) token = true -> c = chr token.
Proof. destruct token; simpl; [done|]. intros _ [?%Z.eqb_eq _]%andb_true_iff. done. Qed.

Lemma strnstr_loop_spec p token off n :
  token <> [] ->
  match strnstr_loop p token off n with
  | Some r => exists i : nat, r = off + Z.of_nat i /\ r + Z.of_nat (length token) <= n
              /\ occurs_at p token i /\ forall j, (j < i)%nat -> ~ occurs_at p token j
  | None => forall j, off + Z.of_nat j + Z.of_nat (length token) <= n -> ~ occurs_at p token j
  end.
Proof.
  intros Ht. revert off. induction p as [|c p IH]; intros off; simpl.
  - intros j _. unfold occurs_at. rewrite drop_nil. by destruct token.
  - destruct (Z.leb_spec (off + Z.of_nat (length token)) n) as [Hle|Hlt].
    2:{ intros j Hj. lia. }
    destruct (starts_with (c :: p) token) eqn:Hs.
    + pose proof (starts_with_chr _ _ _ Ht Hs) as Hc.
      rewrite (proj2 (Z.eqb_eq _ _) Hc). simpl.
      exists 0%nat. split; [lia|]. split; [lia|]. split; [exact Hs|]. intros j Hj. lia.
    + rewrite andb_false_r. specialize (IH (off + 1)).
      assert (~ occurs_at (c :: p) token 0) as H0.
      { unfold occurs_at. rewrite drop_0. by rewrite Hs. }
      destruct (strnstr_loop p token (off + 1) n) as [r|].
      * destruct IH as (i & Hr & Hb & Ho & Hmin). exists (S i).
        split; [lia|]. split; [done|]. split; [done|].
        intros [|j] Hj; [done|]. apply (Hmin j). lia.
      * intros [|j] Hj; [done|]. apply (IH j). lia.
Qed.

Definition tolower (c : Z) : Z := if (65 <=? c) && (c <=? 90) then c + 32 else c.

Lemma icmp_differ_tolower c1 c2 :
  is_char c1 -> is_char c2 -> icmp_differ c1 c2 = false <-> tolower c1 = tolower c2.
Proof.
  intros H1 H2.
  assert (forallb (fun a => forallb (fun b =>
            eqb (icmp_differ a b) (negb (tolower a =? tolower b)))
            (seqZ (-128) 256)) (seqZ (-128) 256) = true) as Hall by (vm_compute; reflexivity).
  rewrite forallb_forall in Hall. unfold is_char in *.
  specialize (Hall c1 ltac:(apply list_elem_of_In, elem_of_seqZ; lia)).
  rewrite forallb_forall in Hall.
  specialize (Hall c2 ltac:(apply list_elem_of_In, elem_of_seqZ; lia)).
  apply eqb_prop in Hall. rewrite Hall, negb_false_iff. apply Z.eqb_eq.
Qed.

Lemma is_char_chr s : cstring s -> is_char (chr s).
Proof. intros H. destruct H as [|c s [? _] _]; [unfold is_char; simpl; lia|done]. Qed.

Lemma tolower_0 c : is_char c -> c <> 0 -> tolower c <> 0.
Proof.
  unfold tolower, is_char. intros.
  destruct (Z.leb_spec 65 c), (Z.leb_spec c 90); simpl; lia.
Qed.

Lemma lwip_stricmp_spec s1 s2 :
  cstring s1 -> cstring s2 ->
  lwip_stricmp s1 s2 = 0 <-> map tolower s1 = map tolower s2.
Proof.
  intros H1. revert s2. induction H1 as [|c1 s1 [Hc1 Hz1] Hs1 IH]; intros s2 H2.
  - destruct H2 as [|c2 s2 [Hc2 Hz2] Hs2]; simpl; [done|].
    destruct (icmp_differ 0 c2) eqn:E; [done|].
    apply icmp_differ_tolower in E; [|unfold is_char; lia|done].
    change (tolower 0) with 0 in E. by destruct (tolower_0 c2 Hc2 Hz2).
  - destruct H2 as [|c2 s2 [Hc2 Hz2] Hs2]; simpl.
    + destruct (icmp_differ c1 0) eqn:E; [done|].
      apply icmp_differ_tolower in E; [|done|unfold is_char; lia].
      change (tolower 0) with 0 in E. by destruct (tolower_0 c1 Hc1 Hz1).
    + destruct (icmp_differ c1 c2) eqn:E.
      * split; [done|]. intros [=Heq _]. apply icmp_differ_tolower in Heq; congruence.
      * apply icmp_differ_tolower in E; [|done..].
        destruct (Z.eqb_spec c1 0); [done|].
        rewrite IH by done. rewrite E. split; congruence.
Qed.

Lemma lwip_strnicmp_spec s1 s2 len :
  cstring s1 -> cstring s2 -> 1 <= len < 2 ^ 64 ->
  lwip_strnicmp s1 s2 len = 0
  <-> map tolower (take (Z.to_nat len) s1) = map tolower (take (Z.to_nat len) s2).
Proof.
  intros H1. revert s2 len. induction H1 as [|c1 s1 [Hc1 Hz1] Hs1 IH]; intros s2 len H2 Hl.
  - rewrite take_nil. replace (Z.to_nat len) with (S (Z.to_nat (len - 1))) by lia.
    destruct H2 as [|c2 s2 [Hc2 Hz2] Hs2]; simpl.
    + by destruct (u64 (len - 1) =? 0).
    + destruct (icmp_differ 0 c2) eqn:E; [done|].
      apply icmp_differ_tolower in E; [|unfold is_char; lia|done].
      change (tolower 0) with 0 in E. by destruct (tolower_0 c2 Hc2 Hz2).
  - replace (Z.to_nat len) with (S (Z.to_nat (len - 1))) by lia.
    destruct H2 as [|c2 s2 [Hc2 Hz2] Hs2]; simpl.
    + destruct (icmp_differ c1 0) eqn:E; [done|].
      apply icmp_differ_tolower in E; [|done|unfold is_char; lia].
      change (tolower 0) with 0 in E. by destruct (tolower_0 c1 Hc1 Hz1).
    + destruct (icmp_differ c1 c2) eqn:E.
      * split; [done|]. intros [=Heq _]. apply icmp_differ_tolower in Heq; congruence.
      * apply icmp_differ_tolower in E; [|done..].
        rewrite u64_small by lia. rewrite E.
        destruct (Z.eqb_spec (len - 1) 0) as [->|]; [done|].
        destruct (Z.eqb_spec c1 0); [done|].
        rewrite IH by (done || lia). split; congruence.
Qed.

(** ** [lwip_itoa]: results *)

(** The C string a buffer holds. *)
Fixpoint c_str (buf : list Z) : list Z :=
  match buf with
  | [] => []
  | c :: buf' => if c =? 0 then [] else c :: c_str buf'
  end.

(** The decimal digits of [0 <= n < 10 ^ fuel], most significant first; none
    for 0. *)
Fixpoint dec (fuel : nat) (n : Z) : list Z :=
  match fuel with
  | O => []
  | S fuel' => if n =? 0 then [] else dec fuel' (n / 10) ++ [48 + n mod 10]
  end.

(** What [itoa] has to print: 2^31 has ten digits. *)
Definition decimal (number : Z) : list Z :=
  if number =? 0 then [48]
  else (if number <? 0 then [45] else []) ++ dec 10 (Z.abs number).

Lemma c_str_app s r : Forall (fun c => c <> 0) s -> c_str (s ++ 0 :: r) = s.
Proof.
  induction 1 as [|c s Hc _ IH]; simpl; [done|].
  destruct (Z.eqb_spec c 0); [done|]. by rewrite IH.
Qed.

Lemma dec_digits fuel n : 0 <= n -> Forall (fun c => 48 <= c <= 57) (dec fuel n).
Proof.
  revert n. induction fuel as [|f IH]; intros n Hn; simpl; [constructor|].
  destruct (n =? 0); [constructor|]. apply Forall_app. split; [apply IH; zdm|].
  constructor; [zdm|constructor].
Qed.

Lemma dec_nonempty fuel n : 0 < n -> (0 < fuel)%nat -> dec fuel n <> [].
Proof.
  destruct fuel; [lia|]. simpl. destruct (Z.eqb_spec n 0); [lia|].
  intros _ _ [_ ?]%app_nil. done.
Qed.

Lemma itoa_loop_spec k buf tmp n f :
  (tmp <= length buf)%nat -> (k <= tmp)%nat -> 0 <= n < 10 ^ Z.of_nat f ->
  let d := dec f n in
  let '(buf', tmp', n') := itoa_loop k buf tmp n in
  if (length d <=? k)%nat
  then n' = 0 /\ tmp' = (tmp - length d)%nat
       /\ buf' = take (tmp - length d) buf ++ d ++ drop tmp buf
  else n' <> 0 /\ length buf' = length buf.
Proof.
  revert k buf tmp n. induction f as [|f IH]; intros k buf tmp n Htmp Hk Hn.
  { assert (n = 0) as -> by (simpl in Hn; lia). destruct k; simpl.
    all: rewrite Nat.sub_0_r, take_drop; done. }
  destruct (Z.eqb_spec n 0) as [->|Hnz].
  { destruct k; simpl; rewrite Nat.sub_0_r, take_drop; done. }
  assert (0 <= n / 10 < 10 ^ Z.of_nat f) as Hn'.
  { rewrite Nat2Z.inj_succ, Z.pow_succ_r in Hn by lia. zdm. }
  destruct k as [|k]; cbn [itoa_loop dec]; rewrite (proj2 (Z.eqb_neq n 0) Hnz); simpl.
  { rewrite length_app. simpl. rewrite Nat.add_1_r. done. }
  specialize (IH k (<[(tmp - 1)%nat := 48 + n mod 10]> buf) (tmp - 1)%nat (n / 10)
                ltac:(rewrite length_insert; lia) ltac:(lia) Hn').
  simpl in IH. destruct (itoa_loop k _ _ _) as [[buf' tmp'] n'].
  rewrite length_app, length_insert in *. simpl.
  replace (length (dec f (n / 10)) + 1 <=? S k)%nat with (length (dec f (n / 10)) <=? k)%nat.
  2:{ destruct (Nat.leb_spec (length (dec f (n / 10))) k);
        destruct (Nat.leb_spec (length (dec f (n / 10)) + 1) (S k)); lia || done. }
  destruct (Nat.leb_spec (length (dec f (n / 10))) k); [|done].
  destruct IH as (-> & -> & ->). split; [done|]. split; [lia|].
  rewrite (insert_take_drop buf) by lia.
  rewrite take_app_le by (rewrite length_take; lia).
  rewrite take_take, drop_app_ge, length_take by (rewrite ?length_take; lia).
  replace (tmp - 1 - (tmp - 1) `min` length buf)%nat with 0%nat by lia.
  rewrite drop_0, <- app_assoc, Nat.min_l by lia.
  simpl. f_equal; [f_equal; lia|]. do 3 f_equal. lia.
Qed.

Lemma dec10_bound n : 0 <= n < 2 ^ 31 -> 0 <= n < 10 ^ Z.of_nat 10.
Proof. change (10 ^ Z.of_nat 10) with 10000000000. lia. Qed.

Lemma digits_nonzero d : Forall (fun c => 48 <= c <= 57) d -> Forall (fun c => c <> 0) d.
Proof. intros H. apply (Forall_impl _ _ _ H). intros; lia. Qed.

(** The final [memmove] leaves the sign and the digits, zero terminated. *)
Lemma itoa_memmove B sign d (bs : nat) :
  length B = bs -> (length sign + length d + 1 <= bs)%nat ->
  take (length sign) B = sign -> drop (bs - 1) B = [0] ->
  Forall (fun c => c <> 0) (sign ++ d) ->
  let tmp := (bs - 1 - length d)%nat in
  let buf := take tmp B ++ d ++ drop (bs - 1) B in
  c_str (memmove_within buf (length sign) tmp (bs - tmp)) = sign ++ d.
Proof.
  intros HB Hlen Hsign Hlast Hnz tmp buf. unfold memmove_within, buf. rewrite Hlast.
  rewrite take_app_le by (rewrite length_take; lia).
  rewrite take_take, Nat.min_l, Hsign by lia.
  rewrite drop_app_ge by (rewrite length_take; lia).
  rewrite length_take, Nat.min_l, Nat.sub_diag, drop_0 by lia.
  rewrite take_ge by (rewrite length_app; simpl; lia).
  rewrite <- (app_assoc d), (app_assoc sign d). simpl. by apply c_str_app.
Qed.

(** The buffer after the sign and the terminator are stored. *)
Lemma itoa_last_zero (B : list Z) (bs : nat) :
  length B = bs -> (1 <= bs)%nat -> drop (bs - 1) (<[(bs - 1)%nat := 0]> B) = [0].
Proof.
  intros HB Hbs. rewrite (insert_take_drop B) by lia.
  rewrite drop_app_ge, length_take by (rewrite length_take; lia).
  replace (bs - 1 - _)%nat with 0%nat by lia.
  rewrite drop_0, drop_ge by lia. done.
Qed.

Lemma itoa_sign_spec (result : list Z) (number : Z) :
  (2 <= length result)%nat ->
  let sign := if number <? 0 then [45] else [] in
  exists B0, (if number <? 0 then (<[0%nat:=45]> result, 1%nat) else (result, 0%nat))
             = (B0, length sign)
    /\ length B0 = length result /\ take (length sign) B0 = sign
    /\ (length sign <= 1)%nat /\ Forall (fun c => c <> 0) sign.
Proof.
  intros Hlen. destruct (number <? 0); simpl.
  - exists (<[0%nat:=45]> result). rewrite length_insert. destruct result; [simpl in Hlen; lia|].
    simpl. rewrite take_0. repeat split; try lia. repeat constructor. done.
  - exists result. rewrite take_0. repeat split; try lia. constructor.
Qed.

(** The first digit written is where the loop stopped. *)
Lemma itoa_lookup_first (B d rest : list Z) (tmp : nat) (c : Z) :
  (tmp <= length B)%nat -> (take tmp B ++ (c :: d) ++ rest) !! tmp = Some c.
Proof.
  intros. rewrite lookup_app_r by (rewrite length_take; lia).
  by rewrite length_take, Nat.min_l, Nat.sub_diag by lia.
Qed.

Lemma lwip_itoa_nonzero result number :
  - 2 ^ 31 < number < 2 ^ 31 -> number <> 0 -> (2 <= length result)%nat ->
  exists buf, lwip_itoa result number = Ret buf /\
    c_str buf = if (length (decimal number) + 1 <=? length result)%nat
                then decimal number else [].
Proof.
  intros Hr Hnz Hlen. unfold lwip_itoa, decimal.
  destruct (Z.eqb_spec number (- 2 ^ 31)); [lia|]. destruct (Z.eqb_spec number 0); [done|].
  destruct (Nat.ltb_spec (length result) 2); [lia|].
  replace (if 0 <=? number then number else - number) with (Z.abs number)
    by (destruct (Z.leb_spec 0 number); lia).
  destruct (itoa_sign_spec result number Hlen) as (B0 & -> & HB0 & Hs & Hs1 & Hsz).
  set (sign := if number <? 0 then [45] else []) in *. clearbody sign.
  pose proof (itoa_last_zero B0 (length result) HB0 ltac:(lia)) as HdB.
  set (B := <[(length result - 1)%nat := 0]> B0) in *.
  assert (length B = length result) as HB by (unfold B; by rewrite length_insert).
  pose proof (itoa_loop_spec (length result - 1 - length sign) B (length result - 1)
     (Z.abs number) 10 ltac:(lia) ltac:(lia) (dec10_bound (Z.abs number) ltac:(lia))) as Hloop.
  cbn zeta in Hloop. set (d := dec 10 (Z.abs number)) in *.
  assert (Forall (fun c => 48 <= c <= 57) d) as Hd by (apply dec_digits; lia).
  assert (d <> []) as Hdne by (apply dec_nonempty; lia).
  clearbody d. destruct (itoa_loop _ _ _ _) as [[buf tmp] rest].
  rewrite length_app.
  replace (length sign + length d + 1 <=? length result)%nat
    with (length d <=? length result - 1 - length sign)%nat
    by (apply eq_true_iff_eq; rewrite !Nat.leb_le; lia).
  destruct (Nat.leb_spec (length d) (length result - 1 - length sign)).
  - destruct Hloop as (-> & -> & ->). simpl. destruct d as [|c d]; [done|].
    rewrite itoa_lookup_first by (simpl in *; lia). simpl default.
    apply Forall_cons in Hd as Hd'. destruct Hd' as [Hc _].
    destruct (Z.eqb_spec c 0); [lia|]. eexists; split; [done|].
    apply itoa_memmove; try done; [simpl in *; lia| |].
    + unfold B. rewrite take_insert_ge by lia. done.
    + apply Forall_app. split; [done|]. by apply digits_nonzero.
  - destruct Hloop as [Hn0 Hbl]. destruct (Z.eqb_spec rest 0); [done|].
    eexists; split; [done|]. destruct buf as [|b buf]; [simpl in *; lia|]. done.
Qed.

Lemma lwip_itoa_zero result :
  (2 <= length result)%nat -> exists buf, lwip_itoa result 0 = Ret buf /\ c_str buf = [48].
Proof.
  intros Hlen. unfold lwip_itoa. simpl.
  destruct (Nat.ltb_spec (length result) 2); [lia|].
  replace (itoa_loop _ _ _ 0)
    with (<[(length result - 1)%nat := 0]> result, (length result - 1)%nat, 0)
    by (by destruct (length result - 1 - 0)%nat).
  simpl. rewrite list_lookup_insert_eq by lia. simpl.
  destruct result as [|a [|b r]]; simpl in *; try lia.
  eexists; split; [done|]. destruct r; done.
Qed.

(** ** Properties *)

(** [lwip_htonl] and [lwip_htons] reverse the bytes of the number, so they are
    involutions: [lwip_ntohl] and [lwip_ntohs], which are the same functions,
    undo them. *)
Theorem byte_order_roundtrip a b c d :
  is_byte a -> is_byte b -> is_byte c -> is_byte d ->
  let n := a * 16777216 + b * 65536 + c * 256 + d in
  lwip_htonl n = d * 16777216 + c * 65536 + b * 256 + a
  /\ lwip_htonl (lwip_htonl n) = n
  /\ lwip_htons (a * 256 + b) = b * 256 + a
  /\ lwip_htons (lwip_htons (a * 256 + b)) = a * 256 + b.
Proof.
  intros Ha Hb Hc Hd n. split; [by apply lwip_htonl_digits|]. unfold is_byte in *.
  split; [apply htonl_involutive; unfold n; lia|]. split; [|apply htons_involutive; lia].
  rewrite lwip_htons_arith by lia. zdm.
Qed.

Lemma byte_order_roundtrip_witness :
  let n := 127 * 16777216 + 0 * 65536 + 2 * 256 + 1 in
  lwip_htonl n = 1 * 16777216 + 2 * 65536 + 0 * 256 + 127
  /\ lwip_htonl (lwip_htonl n) = n
  /\ lwip_htons (127 * 256 + 0) = 0 * 256 + 127
  /\ lwip_htons (lwip_htons (127 * 256 + 0)) = 127 * 256 + 0.
Proof. apply (byte_order_roundtrip 127 0 2 1); split; done. Defined.

(** [lwip_strnstr] returns the first occurrence of the token that lies within
    the first [n] characters, and [NULL] only when there is none. *)
Theorem strnstr_first_occurrence buffer token n :
  0 <= n -> token <> [] ->
  match lwip_strnstr buffer token n with
  | Some r => exists i : nat, r = Z.of_nat i /\ r + Z.of_nat (length token) <= n
              /\ token `prefix_of` drop i buffer
              /\ forall j, (j < i)%nat -> ~ token `prefix_of` drop j buffer
  | None => forall j, Z.of_nat j + Z.of_nat (length token) <= n ->
                      ~ token `prefix_of` drop j buffer
  end.
Proof.
  intros Hn Ht. unfold lwip_strnstr. destruct token as [|t token']; [done|].
  pose proof (strnstr_loop_spec buffer (t :: token') 0 n Ht) as H. unfold occurs_at in H.
  destruct (strnstr_loop _ _ _ _) as [r|]; setoid_rewrite starts_with_prefix in H; [|exact H].
  destruct H as (i & -> & H). exists i. by rewrite Z.add_0_l in *.
Qed.

Lemma strnstr_first_occurrence_witness :
  match lwip_strnstr [97; 98; 97; 99; 97; 99] [97; 99] 6 with
  | Some r => exists i : nat, r = Z.of_nat i /\ r + Z.of_nat 2 <= 6
              /\ [97; 99] `prefix_of` drop i [97; 98; 97; 99; 97; 99]
              /\ forall j, (j < i)%nat -> ~ [97; 99] `prefix_of` drop j [97; 98; 97; 99; 97; 99]
  | None => forall j, Z.of_nat j + Z.of_nat 2 <= 6 ->
                      ~ [97; 99] `prefix_of` drop j [97; 98; 97; 99; 97; 99]
  end.
Proof. apply (strnstr_first_occurrence _ [97; 99] 6); done. Defined.

(** [lwip_stricmp] and [lwip_strnicmp] (length at least 1) return 0 exactly when
    the strings, resp. their first [len] characters, are equal up to the case of
    ASCII letters. *)
Theorem stricmp_case_insensitive s1 s2 len :
  cstring s1 -> cstring s2 -> 1 <= len < 2 ^ 64 ->
  (lwip_stricmp s1 s2 = 0 <-> map tolower s1 = map tolower s2)
  /\ (lwip_strnicmp s1 s2 len = 0
      <-> map tolower (take (Z.to_nat len) s1) = map tolower (take (Z.to_nat len) s2)).
Proof. split; [by apply lwip_stricmp_spec|by apply lwip_strnicmp_spec]. Qed.

Lemma stricmp_case_insensitive_witness :
  (lwip_stricmp [97; 66; 64] [65; 98; 64] = 0 <-> map tolower [97; 66; 64] = map tolower [65; 98; 64])
  /\ (lwip_strnicmp [97; 66; 64] [65; 98; 64] 2 = 0
      <-> map tolower (take (Z.to_nat 2) [97; 66; 64])
          = map tolower (take (Z.to_nat 2) [65; 98; 64])).
Proof.
  apply (stricmp_case_insensitive [97; 66; 64] [65; 98; 64] 2); [| |done];
    repeat constructor; done.
Defined.

(** With [len = 0] the counter of [lwip_strnicmp] wraps to [SIZE_MAX] before it
    is tested: strings of which no character should be compared are reported as
    different. *)
Theorem strnicmp_zero_length_compares : lwip_strnicmp [97] [98] 0 = 1.
Proof. reflexivity. Qed.

(** [lwip_itoa] writes the decimal representation of the number, and the empty
    string when the buffer is too small for it and its terminator; every
    [int] but [INT_MIN], every buffer of at least two bytes. *)
Theorem itoa_decimal result number :
  - 2 ^ 31 < number < 2 ^ 31 -> (2 <= length result)%nat ->
  exists buf, lwip_itoa result number = Ret buf /\
    c_str buf = if (length (decimal number) + 1 <=? length result)%nat
                then decimal number else [].
Proof.
  intros Hr Hlen. destruct (Z.eq_dec number 0) as [->|]; [|by apply lwip_itoa_nonzero].
  destruct (lwip_itoa_zero result Hlen) as (buf & Hi & Hc). exists buf. split; [done|].
  simpl. destruct result as [|? [|? ?]]; simpl in *; [lia..|done].
Qed.

Lemma itoa_decimal_witness :
  exists buf, lwip_itoa [9; 9; 9; 9; 9] (-120) = Ret buf /\
    c_str buf = if (length (decimal (-120)) + 1 <=? 5)%nat then decimal (-120) else [].
Proof. apply (itoa_decimal [9; 9; 9; 9; 9] (-120)); simpl; [done|lia]. Defined.
