(* ===== verification/Chksum.v ===== *)
(** * [lwip/src/core/inet_chksum.c]: the Internet checksum

    The three versions of [lwip_standard_chksum] (the build selects
    [LWIP_CHKSUM_ALGORITHM] 2), the checksums over pbuf chains, with and
    without the IPv4 pseudo header.

    Memory is the list of the bytes the function reads together with the
    address of the first one, whose alignment the code inspects. A pbuf chain
    is the list of its pbufs in order, each with its payload address and the
    [len] bytes there, which is all these functions read of it. *)

From S2P Require Import Prelude Def.

(** ** Macros of [inet_chksum.h] *)

Definition SWAP_BYTES_IN_WORD (w : Z) : Z :=
  Z.lor (Z.shiftl (Z.land w 0xff) 8) (Z.shiftr (Z.land w 0xff00) 8).

Definition FOLD_U32T (u : Z) : Z := u32 (Z.shiftr u 16 + Z.land u 0x0000ffff).

(** Little-endian loads: [*ps] and [*pl] of the code, and the two bytes of the
    [u16_t t] it fills through [((u8_t * )&t)[i]]. *)
Definition le16 (b0 b1 : Z) : Z := b0 + b1 * 256.
Definition le32 (b0 b1 b2 b3 : Z) : Z := le16 b0 b1 + le16 b2 b3 * 65536.

(** ** [lwip_standard_chksum], version 1 *)

Fixpoint chksum1_loop (octetptr : list Z) (acc : Z) : Z :=
  match octetptr with
  | o1 :: o2 :: octetptr' =>
      let src := Z.lor (Z.shiftl o1 8) o2 in
      chksum1_loop octetptr' (u32 (acc + src))
  | [o1] => u32 (acc + Z.shiftl o1 8)
  | [] => acc
  end.

Definition lwip_standard_chksum_1 (data : list Z) : Z :=
  let acc := chksum1_loop data 0 in
  let acc := u32 (Z.shiftr acc 16 + Z.land acc 0x0000ffff) in
  let acc := if negb (Z.land acc 0xffff0000 =? 0)
             then u32 (Z.shiftr acc 16 + Z.land acc 0x0000ffff) else acc in
  lwip_htons (u16 acc).

(** ** [lwip_standard_chksum], version 2 (the one that is built) *)

(** [while (len > 1)] over 16-bit words; also returns the bytes left. *)
Fixpoint chksum_words (ps : list Z) (sum : Z) : Z * list Z :=
  match ps with
  | b0 :: b1 :: ps' => chksum_words ps' (u32 (sum + le16 b0 b1))
  | rest => (sum, rest)
  end.

Definition lwip_standard_chksum_2 (dataptr : Z) (data : list Z) : Z :=
  let odd := Z.land dataptr 1 =? 1 in
  (* Get aligned to u16_t: the byte goes to t[1] *)
  let '(t1, pb) := match data with
                   | b :: pb => if odd then (b, pb) else (0, data)
                   | [] => (0, [])
                   end in
  let (sum, rest) := chksum_words pb 0 in
  let t0 := match rest with b :: _ => b | [] => 0 end in
  let sum := u32 (sum + le16 t0 t1) in
  let sum := FOLD_U32T sum in
  let sum := FOLD_U32T sum in
  let sum := if odd then SWAP_BYTES_IN_WORD sum else sum in
  u16 sum.

(** ** [lwip_standard_chksum], version 3 *)

(** "ping"/"pong": 32-bit addition that adds the carry back. *)
Definition add_carry (sum w : Z) : Z :=
  let tmp := u32 (sum + w) in
  if tmp <? sum then u32 (tmp + 1) else tmp.

(** [while (len > 7)] *)
Fixpoint chksum3_loop (pl : list Z) (sum : Z) : Z * list Z :=
  match pl with
  | b0 :: b1 :: b2 :: b3 :: b4 :: b5 :: b6 :: b7 :: pl' =>
      chksum3_loop pl' (add_carry (add_carry sum (le32 b0 b1 b2 b3)) (le32 b4 b5 b6 b7))
  | rest => (sum, rest)
  end.

Definition lwip_standard_chksum_3 (dataptr : Z) (data : list Z) : Z :=
  let odd := Z.land dataptr 1 =? 1 in
  let '(t1, pb, ps_addr) := match data with
                   | b :: pb => if odd then (b, pb, dataptr + 1) else (0, data, dataptr)
                   | [] => (0, [], dataptr)
                   end in
  let '(sum, ps) := match pb with
                    | b0 :: b1 :: ps => if negb (Z.land ps_addr 3 =? 0)
                                        then (le16 b0 b1, ps) else (0, pb)
                    | _ => (0, pb)
                    end in
  let (sum, ps) := chksum3_loop ps sum in
  let sum := FOLD_U32T sum in
  let (sum, rest) := chksum_words ps sum in
  let t0 := match rest with b :: _ => b | [] => 0 end in
  let sum := u32 (sum + le16 t0 t1) in
  let sum := FOLD_U32T sum in
  let sum := FOLD_U32T sum in
  let sum := if odd then SWAP_BYTES_IN_WORD sum else sum in
  u16 sum.

(** [LWIP_CHKSUM] *)
Definition LWIP_CHKSUM : Z -> list Z -> Z := lwip_standard_chksum_2.

(** ** Checksums over memory and pbuf chains *)

Record seg := Seg { payload : Z; seg_data : list Z }.
Definition seg_len (q : seg) : Z := Z.of_nat (length (seg_data q)).

(** [(u16_t)~(acc & 0xffffUL)] *)
Definition complement16 (acc : Z) : Z := u16 (Z.lnot (Z.land acc 0xffff)).

Definition inet_chksum (dataptr : Z) (data : list Z) : Z :=
  u16 (Z.lnot (LWIP_CHKSUM dataptr data)).

(** The body of the [for (q = p; q != NULL; q = q->next)] loops. *)
Definition chksum_pbuf_step (st : Z * bool) (q : seg) : Z * bool :=
  let '(acc, swapped) := st in
  let acc := u32 (acc + LWIP_CHKSUM (payload q) (seg_data q)) in
  let acc := FOLD_U32T acc in
  if negb (seg_len q mod 2 =? 0) then (SWAP_BYTES_IN_WORD acc, negb swapped)
  else (acc, swapped).

Definition inet_chksum_pbuf (p : list seg) : Z :=
  let '(acc, swapped) := foldl chksum_pbuf_step (0, false) p in
  let acc := if swapped then SWAP_BYTES_IN_WORD acc else acc in
  complement16 acc.

(** After the loop of the pseudo header versions. *)
Definition pseudo_finish (st : Z * bool) (proto proto_len : Z) : Z :=
  let '(acc, swapped) := st in
  let acc := if swapped then SWAP_BYTES_IN_WORD acc else acc in
  let acc := u32 (acc + lwip_htons (u16 proto)) in
  let acc := u32 (acc + lwip_htons proto_len) in
  let acc := FOLD_U32T acc in
  let acc := FOLD_U32T acc in
  complement16 acc.

Definition inet_cksum_pseudo_base (p : list seg) (proto proto_len acc : Z) : Z :=
  pseudo_finish (foldl chksum_pbuf_step (acc, false) p) proto proto_len.

(** The addresses of the pseudo header, folded to 16 bits. *)
Definition pseudo_addrs (src dest : Z) : Z :=
  let acc := Z.land src 0xffff in
  let acc := u32 (acc + Z.land (Z.shiftr src 16) 0xffff) in
  let acc := u32 (acc + Z.land dest 0xffff) in
  let acc := u32 (acc + Z.land (Z.shiftr dest 16) 0xffff) in
  let acc := FOLD_U32T acc in
  FOLD_U32T acc.

Definition inet_chksum_pseudo (p : list seg) (proto proto_len src dest : Z) : Z :=
  inet_cksum_pseudo_base p proto proto_len (pseudo_addrs src dest).

(** [ip_chksum_pseudo] with [LWIP_IPV6 == 0] *)
Definition ip_chksum_pseudo (p : list seg) (proto proto_len src dest : Z) : Z :=
  inet_chksum_pseudo p proto proto_len src dest.

(** The loop of [inet_cksum_pseudo_partial_base], with its assertion. *)
Fixpoint chksum_partial_loop (p : list seg) (st : Z * bool) (chksum_len : Z)
  : outcome (Z * bool) :=
  match p with
  | [] => Ret st
  | q :: p' =>
      if 0 <? chksum_len then
        let '(acc, swapped) := st in
        let chklen := if chksum_len <? seg_len q then chksum_len else seg_len q in
        let acc := u32 (acc + LWIP_CHKSUM (payload q) (take (Z.to_nat chklen) (seg_data q))) in
        let chksum_len := u16 (chksum_len - chklen) in
        _ ← lwip_assert (chksum_len <? 0x7fff);
        let acc := FOLD_U32T acc in
        chksum_partial_loop p'
          (if negb (seg_len q mod 2 =? 0) then (SWAP_BYTES_IN_WORD acc, negb swapped)
           else (acc, swapped)) chksum_len
      else Ret st
  end.

Definition inet_cksum_pseudo_partial_base (p : list seg) (proto proto_len chksum_len acc : Z)
  : outcome Z :=
  st ← chksum_partial_loop p (acc, false) chksum_len;
  Ret (pseudo_finish st proto proto_len).

Definition inet_chksum_pseudo_partial (p : list seg) (proto proto_len chksum_len src dest : Z)
  : outcome Z :=
  inet_cksum_pseudo_partial_base p proto proto_len chksum_len (pseudo_addrs src dest).

(** [ip_chksum_pseudo_partial] with [LWIP_IPV6 == 0] *)
Definition ip_chksum_pseudo_partial (p : list seg) (proto proto_len chksum_len src dest : Z)
  : outcome Z :=
  inet_chksum_pseudo_partial p proto proto_len chksum_len src dest.

Example chksum_example :
  lwip_standard_chksum_2 0 [0x45; 0; 0; 0x54; 1] = lwip_standard_chksum_2 3 [0x45; 0; 0; 0x54; 1]
  /\ lwip_standard_chksum_1 [0x45; 0; 0; 0x54; 1] = lwip_standard_chksum_3 1 [0x45; 0; 0; 0x54; 1].
Proof. split; reflexivity. Qed.

(** ** Specification: the ones' complement sum

    The sum of the little-endian 16-bit words of the data (a trailing odd byte
    is the low byte of the last word), reduced in ones' complement arithmetic:
    modulo 65535, where only the empty sum is represented by 0. *)

(** Sum of the bytes with weights [w], [257 - w], [w], ...; [w] is 1 or 256. *)
Fixpoint wsum (w : Z) (l : list Z) : Z :=
  match l with
  | [] => 0
  | b :: l' => b * w + wsum (257 - w) l'
  end.

Definition ocnorm (n : Z) : Z := if n =? 0 then 0 else (n - 1) mod 65535 + 1.

Definition ones_complement_sum (data : list Z) : Z := ocnorm (wsum 1 data).

(** ** Ones' complement equality

    [oc a b]: two natural numbers have the same ones' complement value. A
    partial equivalence on [Z] that addition respects. *)
Definition oc (a b : Z) : Prop :=
  0 <= a /\ 0 <= b /\ a mod 65535 = b mod 65535 /\ (a = 0 <-> b = 0).

#[global] Instance oc_per : RelationClasses.PER oc.
Proof.
  split.
  - intros a b (?&?&?&?). repeat split; naive_solver.
  - intros a b c (?&?&?&?) (?&?&?&?). repeat split; naive_solver congruence.
Qed.

#[global] Instance oc_add_proper : Proper (oc ==> oc ==> oc) Z.add.
Proof.
  intros a a' (?&?&?&?) b b' (?&?&?&?). split; [lia|]. split; [lia|]. split; [|lia].
  rewrite Z.add_mod, H1, H5, <- Z.add_mod by lia. done.
Qed.

#[global] Instance oc_scale_proper : Proper (oc ==> oc) (Z.mul 256).
Proof.
  intros a a' (?&?&?&?). split; [lia|]. split; [lia|]. split; [|lia].
  rewrite Z.mul_mod, H1, <- Z.mul_mod by lia. done.
Qed.

Lemma oc_refl a : 0 <= a -> oc a a.
Proof. by repeat split. Qed.

Lemma oc_ocnorm a b : oc a b -> ocnorm a = ocnorm b.
Proof.
  intros (Ha & Hb & Hm & Hz). unfold ocnorm.
  destruct (Z.eqb_spec a 0), (Z.eqb_spec b 0); [done|lia|lia|]. f_equal.
  rewrite Zminus_mod, Hm, <- Zminus_mod. done.
Qed.

Lemma ocnorm_small s : 0 <= s <= 65535 -> ocnorm s = s.
Proof.
  intros. unfold ocnorm. destruct (Z.eqb_spec s 0); [done|].
  rewrite Z.mod_small by lia. lia.
Qed.

Lemma oc_norm n : 0 <= n -> oc (ocnorm n) n.
Proof.
  intros. unfold ocnorm, oc. destruct (Z.eqb_spec n 0) as [->|]; [done|].
  repeat split; zdm.
Qed.

Lemma ocnorm_range n : 0 <= ocnorm n <= 65535.
Proof. unfold ocnorm. destruct (n =? 0); zdm. Qed.

(** The value the code computes is determined by [oc] and the 16-bit range. *)
Lemma oc_unique s n : 0 <= s <= 65535 -> oc s n -> s = ocnorm n.
Proof. intros Hs Ho. rewrite <- (oc_ocnorm _ _ Ho). symmetry. by apply ocnorm_small. Qed.

Lemma fold_arith u : 0 <= u < 2 ^ 32 -> FOLD_U32T u = u / 65536 + u mod 65536.
Proof.
  intros. unfold FOLD_U32T. rewrite shiftr_16, land_ffff. apply u32_small. zdm.
Qed.

Lemma oc_fold u : 0 <= u < 2 ^ 32 -> oc (FOLD_U32T u) u.
Proof. intros. rewrite fold_arith by done. unfold oc. repeat split; zdm. Qed.

Lemma fold_bound_32 u : 0 <= u < 2 ^ 32 -> 0 <= FOLD_U32T u <= 131070.
Proof. intros. rewrite fold_arith by done. zdm. Qed.
Lemma fold_bound_17 u : 0 <= u <= 131070 -> 0 <= FOLD_U32T u <= 65535.
Proof. intros. rewrite fold_arith by lia. zdm. Qed.

(** Two folds reduce any 32-bit sum to 16 bits. *)
Lemma fold_twice u : 0 <= u < 2 ^ 32 -> FOLD_U32T (FOLD_U32T u) = ocnorm u.
Proof.
  intros Hu. pose proof (fold_bound_32 u Hu) as H1.
  apply oc_unique; [by apply fold_bound_17|].
  transitivity (FOLD_U32T u); apply oc_fold; lia.
Qed.

Lemma swap_htons s : 0 <= s < 65536 -> SWAP_BYTES_IN_WORD s = lwip_htons s.
Proof.
  intros Hs. unfold lwip_htons, SWAP_BYTES_IN_WORD. symmetry. apply u16_small.
  rewrite land_ff, shiftl_8, Z.shiftr_land, shiftr_8.
  change (Z.shiftr 0xff00 8) with 0xff. rewrite land_ff, Z.lor_comm.
  rewrite (lor_disjoint_add _ _ 8) by zdm. zdm.
Qed.

Lemma swap_arith s : 0 <= s < 65536 -> SWAP_BYTES_IN_WORD s = s mod 256 * 256 + s / 256.
Proof. intros. rewrite swap_htons by done. by apply lwip_htons_arith. Qed.

Lemma oc_swap s : 0 <= s < 65536 -> oc (SWAP_BYTES_IN_WORD s) (256 * s).
Proof.
  intros. rewrite swap_arith by done.
  pose proof (Z.div_mod s 256 ltac:(lia)). pose proof (Z.mod_pos_bound s 256 ltac:(lia)).
  assert (0 <= s / 256) by zdm.
  split; [lia|]. split; [lia|]. split; [|lia].
  replace (256 * s) with (s mod 256 * 256 + s / 256 + s / 256 * 65535) by lia.
  by rewrite Z.mod_add.
Qed.

(** Swapping a reduced sum is the reduced sum with the byte lanes exchanged. *)
Lemma swap_ocnorm n : 0 <= n -> SWAP_BYTES_IN_WORD (ocnorm n) = ocnorm (256 * n).
Proof.
  intros Hn. pose proof (ocnorm_range n) as Hr.
  apply oc_unique.
  - rewrite swap_arith by lia. zdm.
  - transitivity (256 * ocnorm n); [apply oc_swap; lia|]. f_equiv. by apply oc_norm.
Qed.

Lemma ocnorm_add a b : 0 <= a -> 0 <= b -> ocnorm (ocnorm a + ocnorm b) = ocnorm (a + b).
Proof. intros. apply oc_ocnorm. f_equiv; by apply oc_norm. Qed.

(** *** Weighted byte sums *)

Definition lane (w : Z) : Prop := w = 1 \/ w = 256.
Lemma lane_flip w : lane w -> lane (257 - w).
Proof. unfold lane. lia. Qed.

Lemma wsum_nonneg w l : lane w -> bytes l -> 0 <= wsum w l.
Proof.
  intros Hw Hl. revert w Hw. induction Hl as [|b l Hb _ IH]; intros w Hw; simpl; [lia|].
  specialize (IH _ (lane_flip w Hw)). unfold lane, is_byte in *. lia.
Qed.

(** The weight with which a list of [n] bytes is continued. *)
Definition lane_after (w : Z) (n : nat) : Z := if Nat.even n then w else 257 - w.

Lemma wsum_app w l1 l2 :
  wsum w (l1 ++ l2) = wsum w l1 + wsum (lane_after w (length l1)) l2.
Proof.
  revert w. induction l1 as [|b l1 IH]; intros w; simpl; [done|].
  rewrite IH. unfold lane_after. rewrite Nat.even_succ, <- Nat.negb_even.
  destruct (Nat.even (length l1)); simpl; [lia|].
  replace (257 - (257 - w)) with w by lia. lia.
Qed.

Lemma wsum_zero w w' l : lane w -> lane w' -> bytes l -> wsum w l = 0 -> wsum w' l = 0.
Proof.
  intros Hw Hw' Hl. revert w w' Hw Hw'.
  induction Hl as [|b l Hb Hl IH]; intros w w' Hw Hw'; simpl; [done|].
  pose proof (wsum_nonneg (257 - w) l (lane_flip _ Hw) Hl). intros Hz.
  assert (b = 0 /\ wsum (257 - w) l = 0) as [-> Hz'] by (unfold lane, is_byte in *; lia).
  rewrite (IH (257 - w) (257 - w')) by eauto using lane_flip. lia.
Qed.

(** Exchanging the lanes multiplies by 256, since [256 * 256 = 1 mod 65535]. *)
Lemma wsum_flip_mod l w : lane w ->
  wsum (257 - w) l mod 65535 = (256 * wsum w l) mod 65535.
Proof.
  revert w. induction l as [|b l IH]; intros w Hw; simpl; [done|].
  rewrite Z.mul_add_distr_l, Z.add_mod, (Z.add_mod (256 * (b * w))) by lia.
  rewrite (IH (257 - w)) by by apply lane_flip. do 2 f_equal.
  destruct Hw as [-> | ->]; [f_equal; lia|].
  replace (256 * (b * 256)) with (b * (257 - 256) + b * 65535) by lia.
  by rewrite Z.mod_add.
Qed.

Lemma oc_wsum_flip l : bytes l -> oc (wsum 256 l) (256 * wsum 1 l).
Proof.
  intros Hl. pose proof (wsum_nonneg 256 l (or_intror eq_refl) Hl).
  pose proof (wsum_nonneg 1 l (or_introl eq_refl) Hl).
  split; [done|]. split; [lia|]. split; [apply (wsum_flip_mod l 1); by left|].
  split; intros H1.
  - rewrite (wsum_zero 256 1 l); [done|by right|by left|done..].
  - apply (wsum_zero 1 256 l); [by left|by right|done|lia].
Qed.

Lemma oc_wsum_unflip l : bytes l -> oc (256 * wsum 256 l) (wsum 1 l).
Proof.
  intros Hl. transitivity (256 * (256 * wsum 1 l)); [f_equiv; by apply oc_wsum_flip|].
  pose proof (wsum_nonneg 1 l (or_introl eq_refl) Hl).
  split; [lia|]. split; [lia|]. split; [|lia].
  replace (256 * (256 * wsum 1 l)) with (wsum 1 l + wsum 1 l * 65535) by lia.
  by rewrite Z.mod_add.
Qed.

(** ** The three versions compute the ones' complement sum *)

Lemma wsum1_pair b0 b1 l : wsum 1 (b0 :: b1 :: l) = le16 b0 b1 + wsum 1 l.
Proof. simpl. unfold le16. replace (257 - (257 - 1)) with 1 by lia. lia. Qed.

Lemma le16_range b0 b1 : is_byte b0 -> is_byte b1 -> 0 <= le16 b0 b1 <= 65535.
Proof. unfold is_byte, le16. lia. Qed.

(** The byte left over by the word loop. *)
Definition left_over (rest : list Z) : Z := match rest with b :: _ => b | [] => 0 end.

Lemma chksum_words_spec l sum :
  bytes l -> 0 <= sum -> sum + 65535 * Z.of_nat (length l / 2) < 2 ^ 32 ->
  exists r rest, chksum_words l sum = (r, rest) /\ is_byte (left_over rest)
    /\ r + left_over rest = sum + wsum 1 l
    /\ 0 <= r <= sum + 65535 * Z.of_nat (length l / 2).
Proof.
  revert sum. induction l as [|a|a b l IH] using list_pair_ind; intros sum Hl Hs Hb.
  - exists sum, []. simpl in *. unfold is_byte. repeat split; lia.
  - exists sum, [a]. apply Forall_cons in Hl as [Ha _]. unfold is_byte in *. simpl in *. repeat split; lia.
  - apply Forall_cons in Hl as [Ha Hl]. apply Forall_cons in Hl as [Hbb Hl].
    pose proof (le16_range a b Ha Hbb) as Hle.
    replace (length (a :: b :: l) / 2)%nat with (S (length l / 2)) in *.
    2:{ change (length (a :: b :: l)) with (1 * 2 + length l)%nat.
        by rewrite Nat.div_add_l by lia. }
    rewrite Nat2Z.inj_succ in Hb.
    cbn [chksum_words]. rewrite u32_small by lia.
    destruct (IH (sum + le16 a b)) as (r & rest & -> & Hr1 & Hr2 & Hr3); [done|lia|lia|].
    exists r, rest. rewrite wsum1_pair. split; [done|]. split; [done|]. lia.
Qed.

Lemma half_bound (n : nat) k : Z.of_nat n <= 2 * k -> Z.of_nat (n / 2) <= k.
Proof. intros. rewrite Nat2Z.inj_div. change (Z.of_nat 2) with 2. zdm. Qed.

Lemma half_bound_odd (n : nat) k : Z.of_nat n < 2 * k -> Z.of_nat (n / 2) < k.
Proof. intros. rewrite Nat2Z.inj_div. change (Z.of_nat 2) with 2. zdm. Qed.

(** Even and odd lanes, reduced and swapped back. *)
Lemma swap_lane data : bytes data ->
  SWAP_BYTES_IN_WORD (ocnorm (wsum 256 data)) = ones_complement_sum data.
Proof.
  intros Hd. rewrite swap_ocnorm by (apply wsum_nonneg; [by right|done]).
  apply oc_ocnorm. by apply oc_wsum_unflip.
Qed.

Lemma ones_complement_sum_range data : 0 <= ones_complement_sum data < 65536.
Proof. pose proof (ocnorm_range (wsum 1 data)). unfold ones_complement_sum. lia. Qed.

Lemma chksum_2_even pb b1 :
  bytes pb -> is_byte b1 -> 65535 * Z.of_nat (length pb / 2) + 65535 < 2 ^ 32 ->
  (let (sum, rest) := chksum_words pb 0 in
   FOLD_U32T (FOLD_U32T (u32 (sum + le16 (left_over rest) b1)))) = ocnorm (wsum 1 pb + b1 * 256).
Proof.
  intros Hp Hb Hbound.
  destruct (chksum_words_spec pb 0 Hp) as (r & rest & -> & Hl & Hr & Hr'); [lia..|].
  unfold is_byte, le16 in *. rewrite u32_small, fold_twice by lia. f_equal. lia.
Qed.

Lemma chksum_2_ok dataptr data :
  bytes data -> Z.of_nat (length data) <= 0x20000 ->
  lwip_standard_chksum_2 dataptr data = ones_complement_sum data.
Proof.
  intros Hd Hlen. unfold lwip_standard_chksum_2. cbv zeta.
  destruct data as [|b pb].
  { by destruct (Z.land dataptr 1 =? 1). }
  pose proof Hd as Hd'. apply Forall_cons in Hd' as [Hb Hpb].
  destruct (Z.land dataptr 1 =? 1).
  - pose proof (chksum_2_even pb b Hpb Hb) as H2. destruct (chksum_words pb 0) as [sum rest].
    fold (left_over rest). rewrite H2.
    + replace (wsum 1 pb + b * 256) with (wsum 256 (b :: pb)) by (change (wsum 256 (b :: pb)) with (b * 256 + wsum 1 pb); lia).
      rewrite swap_lane by done. apply u16_small, ones_complement_sum_range.
    + simpl length in Hlen. pose proof (half_bound_odd (length pb) 0x10000 ltac:(lia)). lia.
  - pose proof (chksum_2_even (b :: pb) 0 Hd ltac:(unfold is_byte; lia)) as H2.
    pose proof (half_bound (length (b :: pb)) 0x10000 ltac:(lia)) as Hh.
    destruct (chksum_words (b :: pb) 0) as [sum rest] eqn:E.
    fold (left_over rest).
    destruct (Z.eq_dec (Z.of_nat (length (b :: pb) / 2)) 0x10000) as [Heq|Hne].
    + (* 0x20000 bytes: no byte is left over *)
      destruct (chksum_words_spec (b :: pb) 0 Hd) as (r & rest' & E' & Hl & Hr & Hr'); [lia..|].
      rewrite E in E'. injection E' as <- <-.
      unfold is_byte, le16 in *. rewrite u32_small, fold_twice by lia.
      replace (sum + (left_over rest + 0 * 256)) with (wsum 1 (b :: pb)) by lia.
      apply u16_small, ones_complement_sum_range.
    + rewrite H2 by lia. replace (wsum 1 (b :: pb) + 0 * 256) with (wsum 1 (b :: pb)) by lia.
      apply u16_small, ones_complement_sum_range.
Qed.

(** Number of 16-bit words of a buffer, the odd byte included. *)
Definition words (l : list Z) : Z := Z.of_nat ((length l + 1) / 2).

Lemma words_pair a b l : words (a :: b :: l) = words l + 1.
Proof.
  unfold words. change (length (a :: b :: l) + 1)%nat with (1 * 2 + (length l + 1))%nat.
  rewrite Nat.div_add_l by lia. lia.
Qed.

Lemma words_le l k : Z.of_nat (length l) <= 2 * k -> words l <= k.
Proof. intros. unfold words. rewrite Nat2Z.inj_div. change (Z.of_nat 2) with 2. zdm. Qed.

Lemma wsum_le w l : lane w -> bytes l -> wsum w l <= 65535 * words l.
Proof.
  intros Hw. induction l as [|a|a b l IH] using list_pair_ind; intros Hl.
  - simpl. unfold words. lia.
  - apply Forall_cons in Hl as [Ha _]. unfold lane, is_byte in *.
    change (words [a]) with 1. simpl. lia.
  - apply Forall_cons in Hl as [Ha Hl]. apply Forall_cons in Hl as [Hb Hl].
    specialize (IH Hl). rewrite words_pair. unfold lane, is_byte in *.
    cbn [wsum]. replace (257 - (257 - w)) with w by lia. lia.
Qed.

Lemma chksum1_loop_spec l acc :
  bytes l -> 0 <= acc -> acc + 65535 * words l < 2 ^ 32 ->
  chksum1_loop l acc = acc + wsum 256 l.
Proof.
  revert acc. induction l as [|a|a b l IH] using list_pair_ind; intros acc Hl Ha Hb.
  - simpl. lia.
  - apply Forall_cons in Hl as [Hba _]. unfold is_byte in *. cbn [chksum1_loop wsum].
    change (words [a]) with 1 in Hb. rewrite shiftl_8, u32_small by lia. lia.
  - apply Forall_cons in Hl as [Hba Hl]. apply Forall_cons in Hl as [Hbb Hl].
    unfold is_byte in Hba, Hbb. rewrite words_pair in Hb. cbn [chksum1_loop wsum].
    rewrite shiftl_8, Z.lor_comm, (lor_disjoint_add _ _ 8) by zdm.
    assert (0 <= words l) by (unfold words; lia).
    rewrite u32_small, IH by (done || lia).
    replace (257 - (257 - 256)) with 256 by lia. lia.
Qed.

(** The conditional second fold of version 1 is the second fold. *)
Lemma fold_conditional u : 0 <= u < 2 ^ 32 ->
  (let acc := FOLD_U32T u in
   if negb (Z.land acc 0xffff0000 =? 0) then FOLD_U32T acc else acc) = ocnorm u.
Proof.
  intros Hu. pose proof (fold_bound_32 u Hu) as Hb. rewrite <- fold_twice by done. cbv zeta.
  set (a := FOLD_U32T u) in *. destruct (Z.eqb_spec (Z.land a 0xffff0000) 0) as [E|]; [|done].
  assert (a / 65536 = 0) as Hq.
  { assert (Z.shiftr (Z.land a 0xffff0000) 16 = 0) as E' by (by rewrite E).
    rewrite Z.shiftr_land, shiftr_16 in E'.
    change (Z.shiftr 4294901760 16) with 0xffff in E'. rewrite land_ffff in E'. zdm. }
  simpl. rewrite fold_arith by lia. clearbody a. clear E. zdm.
Qed.

Lemma chksum_1_ok data :
  bytes data -> Z.of_nat (length data) <= 0x20000 ->
  lwip_standard_chksum_1 data = ones_complement_sum data.
Proof.
  intros Hd Hlen. unfold lwip_standard_chksum_1. cbv zeta.
  pose proof (words_le data 0x10000 ltac:(lia)) as Hw.
  rewrite chksum1_loop_spec, Z.add_0_l by (done || lia).
  pose proof (wsum_nonneg 256 data (or_intror eq_refl) Hd).
  pose proof (wsum_le 256 data (or_intror eq_refl) Hd).
  fold (FOLD_U32T (wsum 256 data)). fold (FOLD_U32T (FOLD_U32T (wsum 256 data))).
  pose proof (fold_conditional (wsum 256 data) ltac:(lia)) as Hf. cbv zeta in Hf.
  rewrite Hf. pose proof (ocnorm_range (wsum 256 data)).
  rewrite u16_small, <- swap_htons by lia. by apply swap_lane.
Qed.

Lemma add_carry_range s w : 0 <= s < 2 ^ 32 -> 0 <= w < 2 ^ 32 -> 0 <= add_carry s w < 2 ^ 32.
Proof.
  intros. unfold add_carry. destruct (_ <? _); apply u32_range.
Qed.

Lemma oc_add_carry s w :
  0 <= s < 2 ^ 32 -> 0 <= w < 2 ^ 32 -> oc (add_carry s w) (s + w).
Proof.
  intros Hs Hw. unfold add_carry. change (2 ^ 32) with 4294967296 in *.
  destruct (Z.lt_ge_cases (s + w) 4294967296) as [Hlt|Hge].
  - rewrite u32_small by lia. destruct (Z.ltb_spec (s + w) s); [lia|]. apply oc_refl. lia.
  - assert (u32 (s + w) = s + w - 4294967296) as ->.
    { unfold u32. change (2 ^ 32) with 4294967296. zdm. }
    destruct (Z.ltb_spec (s + w - 4294967296) s); [|lia]. rewrite u32_small by lia.
    split; [lia|]. split; [lia|]. split; [|lia].
    replace (s + w) with (s + w - 4294967296 + 1 + 65537 * 65535) at 2 by lia.
    by rewrite Z.mod_add.
Qed.

Lemma le32_range a b c d : is_byte a -> is_byte b -> is_byte c -> is_byte d ->
  0 <= le32 a b c d < 2 ^ 32.
Proof. unfold is_byte, le32, le16. lia. Qed.

Lemma oc_le32 a b c d : is_byte a -> is_byte b -> is_byte c -> is_byte d ->
  oc (le32 a b c d) (le16 a b + le16 c d).
Proof.
  unfold is_byte, le32, le16. intros. split; [lia|]. split; [lia|]. split; [|lia].
  replace (a + b * 256 + (c + d * 256) * 65536)
    with (a + b * 256 + (c + d * 256) + (c + d * 256) * 65535) by lia.
  by rewrite Z.mod_add.
Qed.

Lemma chksum3_loop_spec n l sum :
  (length l <= n)%nat -> bytes l -> 0 <= sum < 2 ^ 32 ->
  exists r rest, chksum3_loop l sum = (r, rest) /\ 0 <= r < 2 ^ 32 /\ bytes rest
    /\ (length rest < 8)%nat /\ oc (r + wsum 1 rest) (sum + wsum 1 l).
Proof.
  revert l sum. induction n as [n IH] using lt_wf_ind. intros l sum Hn Hl Hs.
  destruct l as [|b0 [|b1 [|b2 [|b3 [|b4 [|b5 [|b6 [|b7 l]]]]]]]].
  1-8: eexists _, _; split; [reflexivity|]; repeat split; try done; simpl; try lia;
       pose proof (wsum_nonneg 1 _ (or_introl eq_refl) Hl) as Hw; simpl in Hw; lia.
  cbn [chksum3_loop]. unfold bytes in Hl. rewrite !Forall_cons in Hl.
  destruct Hl as (H0 & H1 & H2 & H3 & H4 & H5 & H6 & H7 & Hl).
  pose proof (le32_range b0 b1 b2 b3 H0 H1 H2 H3) as Ha.
  pose proof (le32_range b4 b5 b6 b7 H4 H5 H6 H7) as Hb.
  pose proof (add_carry_range _ _ Hs Ha) as Hc.
  simpl length in Hn.
  destruct (IH (n - 8)%nat ltac:(lia) l _ ltac:(lia) Hl (add_carry_range _ _ Hc Hb))
    as (r & rest & -> & Hr & Hrb & Hrl & Ho).
  exists r, rest. split; [done|]. split; [done|]. split; [done|]. split; [done|].
  transitivity (add_carry (add_carry sum (le32 b0 b1 b2 b3)) (le32 b4 b5 b6 b7) + wsum 1 l);
    [done|].
  rewrite !wsum1_pair, !Z.add_assoc.
  f_equiv; [|apply oc_refl, wsum_nonneg; [by left|done]].
  transitivity (add_carry sum (le32 b0 b1 b2 b3) + le32 b4 b5 b6 b7); [by apply oc_add_carry|].
  rewrite <- (Z.add_assoc _ (le16 b4 b5)). f_equiv; [|by apply oc_le32].
  transitivity (sum + le32 b0 b1 b2 b3); [by apply oc_add_carry|].
  rewrite <- Z.add_assoc. f_equiv; [apply oc_refl; lia|by apply oc_le32].
Qed.

(** The tail of version 3, from the 32-bit sum of the first words. *)
Lemma chksum3_tail ps s t1 :
  bytes ps -> 0 <= s < 2 ^ 32 -> is_byte t1 ->
  (let (sum, ps) := chksum3_loop ps s in
   let (sum, rest) := chksum_words ps (FOLD_U32T sum) in
   FOLD_U32T (FOLD_U32T (u32 (sum + le16 (left_over rest) t1))))
  = ocnorm (s + wsum 1 ps + t1 * 256).
Proof.
  intros Hp Hs Ht.
  destruct (chksum3_loop_spec (length ps) ps s (le_n _) Hp Hs)
    as (r & rest & -> & Hr & Hrb & Hrl & Ho).
  pose proof (fold_bound_32 r Hr) as Hf.
  assert (Z.of_nat (length rest / 2) <= 4) as Hh by (apply half_bound; lia).
  destruct (chksum_words_spec rest (FOLD_U32T r) Hrb) as (q & rest' & -> & Hl & Hq & Hq'); [lia..|].
  unfold is_byte in Ht, Hl. unfold le16. rewrite u32_small, fold_twice by lia.
  apply oc_ocnorm.
  replace (q + (left_over rest' + t1 * 256)) with (FOLD_U32T r + wsum 1 rest + t1 * 256) by lia.
  f_equiv; [|apply oc_refl; lia]. transitivity (r + wsum 1 rest); [|done].
  f_equiv; [by apply oc_fold|]. apply oc_refl, wsum_nonneg; [by left|done].
Qed.

Lemma chksum_3_ok dataptr data :
  bytes data -> lwip_standard_chksum_3 dataptr data = ones_complement_sum data.
Proof.
  intros Hd. unfold lwip_standard_chksum_3. cbv zeta.
  (* what is summed once the head is dealt with *)
  assert (forall t1 pb a, bytes pb -> is_byte t1 ->
    (let '(sum, ps) := match pb with
        | b0 :: b1 :: ps => if negb (Z.land a 3 =? 0) then (le16 b0 b1, ps) else (0, pb)
        | _ => (0, pb) end in
     let (sum, ps) := chksum3_loop ps sum in
     let (sum, rest) := chksum_words ps (FOLD_U32T sum) in
     FOLD_U32T (FOLD_U32T (u32 (sum + le16 (left_over rest) t1))))
    = ocnorm (wsum 1 pb + t1 * 256)) as Hgen.
  { intros t1 pb a Hp Ht.
    pose proof (chksum3_tail pb 0 t1 Hp ltac:(lia) Ht) as Htail. rewrite Z.add_0_l in Htail.
    destruct pb as [|b0 [|b1 ps]]; [done..|].
    destruct (negb (Z.land a 3 =? 0)); [|done]. clear Htail.
    unfold bytes in Hp. rewrite !Forall_cons in Hp. destruct Hp as (H0 & H1 & Hp).
    pose proof (le16_range _ _ H0 H1). rewrite chksum3_tail by (done || lia).
    by rewrite wsum1_pair. }
  destruct data as [|b pb].
  { destruct (Z.land dataptr 1 =? 1); reflexivity. }
  destruct (Z.land dataptr 1 =? 1).
  - pose proof Hd as [Hb Hpb]%Forall_cons.
    specialize (Hgen b pb (dataptr + 1) Hpb Hb).
    destruct (match pb with [] => _ | _ => _ end) as [sum ps].
    destruct (chksum3_loop ps sum) as [sum' ps'].
    destruct (chksum_words ps' (FOLD_U32T sum')) as [sum'' rest].
    fold (left_over rest). rewrite Hgen.
    replace (wsum 1 pb + b * 256) with (wsum 256 (b :: pb)) by (change (wsum 256 (b :: pb)) with (b * 256 + wsum 1 pb); lia).
    rewrite swap_lane by done. apply u16_small, ones_complement_sum_range.
  - specialize (Hgen 0 (b :: pb) dataptr Hd ltac:(unfold is_byte; lia)).
    cbv iota beta in Hgen. destruct (match pb with [] => (0, b :: pb) | _ => _ end) as [sum ps].
    destruct (chksum3_loop ps sum) as [sum' ps'].
    destruct (chksum_words ps' (FOLD_U32T sum')) as [sum'' rest].
    fold (left_over rest). rewrite Hgen, Z.mul_0_l, Z.add_0_r.
    apply u16_small, ones_complement_sum_range.
Qed.

(** ** Chains *)

(** [represents T st]: the accumulator of the chain loops stands for the sum
    [T], with its byte lanes exchanged when [swapped] is set. *)
Definition represents (T : Z) (st : Z * bool) : Prop :=
  0 <= T /\ fst st = ocnorm (if snd st then 256 * T else T).

(** One addition of the loops; [flip] tells whether this pbuf has odd length. *)
Definition chain_add (st : Z * bool) (addr : Z) (d : list Z) (flip : bool) : Z * bool :=
  let acc := FOLD_U32T (u32 (fst st + LWIP_CHKSUM addr d)) in
  if flip then (SWAP_BYTES_IN_WORD acc, negb (snd st)) else (acc, snd st).

Lemma oc_scale_twice n : 0 <= n -> oc (256 * (256 * n)) n.
Proof.
  intros. split; [lia|]. split; [lia|]. split; [|lia].
  replace (256 * (256 * n)) with (n + n * 65535) by lia. by rewrite Z.mod_add.
Qed.

Lemma represents_swap T (acc : Z) sw :
  represents T (acc, sw) -> represents T (SWAP_BYTES_IN_WORD acc, negb sw).
Proof.
  intros [HT Hacc]. simpl in Hacc. subst acc. split; [done|]. simpl.
  rewrite swap_ocnorm by (destruct sw; simpl; lia).
  destruct sw; simpl; [apply oc_ocnorm; by apply oc_scale_twice|done].
Qed.

Lemma represents_range T acc sw : represents T (acc, sw) -> 0 <= acc <= 65535.
Proof. intros [_ Hacc]. simpl in Hacc. subst acc. apply ocnorm_range. Qed.

Lemma represents_add T acc sw addr d :
  represents T (acc, sw) -> bytes d -> Z.of_nat (length d) <= 0x20000 ->
  represents (T + wsum (if sw then 256 else 1) d)
             (FOLD_U32T (u32 (acc + LWIP_CHKSUM addr d)), sw).
Proof.
  intros Hr Hd Hl. pose proof (represents_range _ _ _ Hr) as Ha. destruct Hr as [HT Hacc].
  simpl in Hacc. unfold LWIP_CHKSUM. rewrite chksum_2_ok by done.
  pose proof (ones_complement_sum_range d) as Hs.
  pose proof (wsum_nonneg 1 d (or_introl eq_refl) Hd) as Hw1.
  pose proof (wsum_nonneg 256 d (or_intror eq_refl) Hd) as Hw2.
  split; [destruct sw; lia|]. simpl. rewrite u32_small by lia.
  apply oc_unique; [apply fold_bound_17; lia|].
  transitivity (acc + ones_complement_sum d); [apply oc_fold; lia|]. rewrite Hacc.
  transitivity ((if sw then 256 * T else T) + wsum 1 d).
  { f_equiv; apply oc_norm; destruct sw; lia. }
  destruct sw; [|apply oc_refl; lia].
  rewrite Z.mul_add_distr_l. f_equiv; [apply oc_refl; lia|]. symmetry. by apply oc_wsum_unflip.
Qed.

Lemma represents_chain_add T st addr d flip :
  represents T st -> bytes d -> Z.of_nat (length d) <= 0x20000 ->
  represents (T + wsum (if snd st then 256 else 1) d) (chain_add st addr d flip).
Proof.
  destruct st as [acc sw]. intros Hr Hd Hl. unfold chain_add. simpl.
  pose proof (represents_add T acc sw addr d Hr Hd Hl). destruct flip; [|done].
  by apply represents_swap.
Qed.

Lemma seg_len_even q : (seg_len q mod 2 =? 0) = Nat.even (length (seg_data q)).
Proof.
  unfold seg_len. apply eq_true_iff_eq. rewrite Z.eqb_eq, Nat.even_spec. split.
  - intros H. exists (Z.to_nat (Z.of_nat (length (seg_data q)) / 2)). zdm.
  - intros [k ->]. rewrite Nat2Z.inj_mul, Z.mul_comm. by apply Z.mod_mul.
Qed.

Lemma step_chain_add st q :
  chksum_pbuf_step st q
  = chain_add st (payload q) (seg_data q) (negb (Nat.even (length (seg_data q)))).
Proof.
  destruct st as [acc sw]. unfold chksum_pbuf_step, chain_add. rewrite seg_len_even.
  by destruct (Nat.even _).
Qed.

(** The lane on which the next pbuf of the chain continues. *)
Lemma chain_add_lane st addr d (n : nat) :
  (if snd (chain_add st addr d (negb (Nat.even n))) then 256 else 1)
  = lane_after (if snd st then 256 else 1) n.
Proof.
  destruct st as [acc sw]. unfold chain_add, lane_after. simpl.
  destruct (Nat.even n), sw; reflexivity.
Qed.

(** The bytes of a chain, in order. *)
Definition chain_data (p : list seg) : list Z := concat (map seg_data p).

(** A well-formed chain: bytes, and [len] fits its [u16_t]. *)
Definition chain_ok (p : list seg) : Prop :=
  Forall (fun q => bytes (seg_data q) /\ seg_len q < 65536) p.

#[global] Instance chain_ok_dec p : Decision (chain_ok p).
Proof.
  apply Forall_dec. intros q. apply and_dec; [|apply _].
  apply Forall_dec. intros b. unfold is_byte. apply _.
Defined.

Lemma chain_bytes p : chain_ok p -> bytes (chain_data p).
Proof.
  induction 1 as [|q p [Hq _] _ IH]; [constructor|]. apply bytes_app. done.
Qed.

Lemma chain_loop_spec p T st :
  represents T st -> chain_ok p ->
  represents (T + wsum (if snd st then 256 else 1) (chain_data p))
             (foldl chksum_pbuf_step st p).
Proof.
  revert T st. induction p as [|q p IH]; intros T st Hr Hp.
  { change (chain_data []) with (@nil Z). simpl. by rewrite Z.add_0_r. }
  apply Forall_cons in Hp as [[Hq Hlen] Hp]. cbn [foldl]. rewrite step_chain_add.
  change (chain_data (q :: p)) with (seg_data q ++ chain_data p).
  rewrite wsum_app, Z.add_assoc, <- (chain_add_lane st (payload q) (seg_data q)).
  apply IH; [|done]. apply represents_chain_add; [done..|]. unfold seg_len in Hlen. lia.
Qed.

Lemma complement16_arith acc : 0 <= acc <= 65535 -> complement16 acc = 65535 - acc.
Proof.
  intros. unfold complement16. rewrite land_ffff, Z.mod_small by lia.
  unfold u16, Z.lnot. change (2 ^ 16) with 65536. zdm.
Qed.

Lemma represents_finish T acc sw :
  represents T (acc, sw) -> (if sw then SWAP_BYTES_IN_WORD acc else acc) = ocnorm T.
Proof.
  intros Hr. destruct sw; [|apply Hr]. by apply represents_swap in Hr as [_ Hr].
Qed.

Lemma represents_0 : represents 0 (0, false).
Proof. done. Qed.

Lemma inet_chksum_arith addr data :
  bytes data -> Z.of_nat (length data) <= 0x20000 ->
  inet_chksum addr data = 65535 - ones_complement_sum data.
Proof.
  intros. unfold inet_chksum, LWIP_CHKSUM. rewrite chksum_2_ok by done.
  pose proof (ones_complement_sum_range data).
  unfold u16, Z.lnot. change (2 ^ 16) with 65536. zdm.
Qed.

(** *** The pseudo header of RFC 793 *)

(** The memory image of a 32-bit number on a little-endian host: IP addresses
    are kept in network order, so these are the octets on the wire. *)
Definition u32_bytes (x : Z) : list Z :=
  [x mod 256; x / 256 mod 256; x / 65536 mod 256; x / 16777216 mod 256].

Definition pseudo_header (src dest proto proto_len : Z) : list Z :=
  u32_bytes src ++ u32_bytes dest ++ [0; proto; proto_len / 256; proto_len mod 256].

Lemma wsum_u32_bytes x : 0 <= x < 2 ^ 32 ->
  wsum 1 (u32_bytes x) = Z.land x 0xffff + Z.land (Z.shiftr x 16) 0xffff.
Proof.
  intros. unfold u32_bytes. rewrite !wsum1_pair, shiftr_16, !land_ffff. unfold le16.
  change (2 ^ 32) with 4294967296 in *. simpl wsum. zdm.
Qed.

Lemma bytes_u32_bytes x : bytes (u32_bytes x).
Proof. repeat constructor; zdm. Qed.

Lemma pseudo_addrs_ok src dest :
  0 <= src < 2 ^ 32 -> 0 <= dest < 2 ^ 32 ->
  pseudo_addrs src dest = ocnorm (wsum 1 (u32_bytes src ++ u32_bytes dest)).
Proof.
  intros Hs Hd. rewrite wsum_app. change (lane_after 1 (length (u32_bytes src))) with 1.
  rewrite !wsum_u32_bytes by done. unfold pseudo_addrs. cbv zeta.
  rewrite !land_ffff.
  pose proof (Z.mod_pos_bound src 65536 ltac:(lia)).
  pose proof (Z.mod_pos_bound dest 65536 ltac:(lia)).
  pose proof (Z.mod_pos_bound (Z.shiftr src 16) 65536 ltac:(lia)).
  pose proof (Z.mod_pos_bound (Z.shiftr dest 16) 65536 ltac:(lia)).
  rewrite (u32_small (src mod 65536 + _)) by lia.
  rewrite (u32_small (src mod 65536 + _ + _)) by lia.
  rewrite (u32_small (src mod 65536 + _ + _ + _)) by lia.
  rewrite fold_twice by lia. f_equal. lia.
Qed.

Lemma wsum_pseudo_tail proto proto_len :
  0 <= proto < 256 -> 0 <= proto_len < 65536 ->
  wsum 1 [0; proto; proto_len / 256; proto_len mod 256]
  = lwip_htons (u16 proto) + lwip_htons proto_len.
Proof.
  intros. rewrite !wsum1_pair. rewrite u16_small by lia. rewrite !lwip_htons_arith by lia.
  unfold le16. simpl wsum. zdm.
Qed.

Lemma pseudo_finish_ok T st proto proto_len :
  represents T st -> 0 <= proto < 256 -> 0 <= proto_len < 65536 ->
  pseudo_finish st proto proto_len
  = 65535 - ocnorm (T + wsum 1 [0; proto; proto_len / 256; proto_len mod 256]).
Proof.
  intros Hr Hp Hl. destruct st as [acc sw]. unfold pseudo_finish.
  rewrite (represents_finish T) by done. cbv zeta.
  pose proof (ocnorm_range T). pose proof (lwip_htons_range (u16 proto)).
  pose proof (lwip_htons_range proto_len). destruct Hr as [HT _].
  rewrite (u32_small (ocnorm T + _)) by lia.
  rewrite (u32_small (ocnorm T + _ + _)), fold_twice by lia.
  rewrite complement16_arith by apply ocnorm_range.
  rewrite <- Z.add_assoc, <- wsum_pseudo_tail by done. f_equal. apply oc_ocnorm.
  rewrite wsum_pseudo_tail by done.
  f_equiv; [by apply oc_norm|apply oc_refl; lia].
Qed.

(** The addresses, the rest of the pseudo header and the data, in the order the
    code adds them and in the order of the wire. *)
Lemma pseudo_sum src dest proto proto_len data :
  ocnorm (wsum 1 (u32_bytes src ++ u32_bytes dest) + wsum 1 data
          + wsum 1 [0; proto; proto_len / 256; proto_len mod 256])
  = ones_complement_sum (pseudo_header src dest proto proto_len ++ data).
Proof.
  unfold ones_complement_sum, pseudo_header. f_equal.
  rewrite <- !app_assoc, !(wsum_app 1).
  change (lane_after 1 (length (u32_bytes src))) with 1.
  change (lane_after 1 (length (u32_bytes dest))) with 1.
  change (lane_after 1 (length [0; proto; proto_len / 256; proto_len mod 256])) with 1.
  lia.
Qed.

Lemma represents_pseudo_addrs src dest :
  0 <= src < 2 ^ 32 -> 0 <= dest < 2 ^ 32 ->
  represents (wsum 1 (u32_bytes src ++ u32_bytes dest)) (pseudo_addrs src dest, false).
Proof.
  intros. split; [|by apply pseudo_addrs_ok].
  apply wsum_nonneg; [by left|]. apply bytes_app. split; apply bytes_u32_bytes.
Qed.

Lemma partial_loop_spec p st T chksum_len :
  represents T st -> chain_ok p -> 0 <= chksum_len < 0x7fff ->
  exists st', chksum_partial_loop p st chksum_len = Ret st' /\
    represents (T + wsum (if snd st then 256 else 1)
                  (take (Z.to_nat chksum_len) (chain_data p))) st'.
Proof.
  revert st T chksum_len. induction p as [|q p IH]; intros st T n Hr Hp Hn.
  { exists st. split; [done|]. change (chain_data []) with (@nil Z). rewrite take_nil.
    simpl. by rewrite Z.add_0_r. }
  apply Forall_cons in Hp as [[Hq Hlen] Hp]. cbn [chksum_partial_loop].
  destruct (Z.ltb_spec 0 n) as [Hpos|Hz].
  2:{ exists st. split; [done|]. replace (Z.to_nat n) with 0%nat by lia.
      rewrite take_0. simpl. by rewrite Z.add_0_r. }
  destruct st as [acc sw]. rewrite seg_len_even.
  fold (chain_add (acc, sw) (payload q)
    (take (Z.to_nat (if n <? seg_len q then n else seg_len q)) (seg_data q))
    (negb (Nat.even (length (seg_data q))))).
  change (chain_data (q :: p)) with (seg_data q ++ chain_data p).
  unfold seg_len in *. destruct (Z.ltb_spec n (Z.of_nat (length (seg_data q)))) as [Hlt|Hge].
  - rewrite Z.sub_diag. change (u16 0) with 0. simpl lwip_assert. rewrite ret_bind.
    rewrite take_app_le by lia.
    edestruct (IH (chain_add (acc, sw) (payload q) (take (Z.to_nat n) (seg_data q))
                     (negb (Nat.even (length (seg_data q)))))) as (st' & -> & Hst').
    { apply represents_chain_add; [done|by apply bytes_take|]. rewrite length_take. lia. }
    { done. }
    { lia. }
    exists st'. split; [done|]. rewrite take_0 in Hst'. simpl in Hst'.
    by rewrite Z.add_0_r in Hst'.
  - rewrite u16_small by lia. rewrite (proj2 (Z.ltb_lt _ 0x7fff)) by lia. simpl lwip_assert.
    rewrite ret_bind, Nat2Z.id, take_ge, take_app_ge, wsum_app, Z.add_assoc by lia.
    rewrite <- (chain_add_lane (acc, sw) (payload q) (seg_data q)).
    replace (Z.to_nat n - length (seg_data q))%nat
      with (Z.to_nat (n - Z.of_nat (length (seg_data q)))) by lia.
    apply IH; [|done|lia]. apply represents_chain_add; [done..|lia].
Qed.

(** ** Properties *)

(** The three implementations of [lwip_standard_chksum] (portable, 16-bit with
    unaligned head, unrolled 32-bit with carry) return, for a buffer at any
    address and up to the documented 0x20000 bytes, the same value: the ones'
    complement sum of its little-endian words. *)
Theorem chksum_algorithms_agree dataptr data :
  bytes data -> Z.of_nat (length data) <= 0x20000 ->
  lwip_standard_chksum_2 dataptr data = ones_complement_sum data
  /\ lwip_standard_chksum_1 data = ones_complement_sum data
  /\ lwip_standard_chksum_3 dataptr data = ones_complement_sum data.
Proof.
  intros. split; [by apply chksum_2_ok|]. split; [by apply chksum_1_ok|by apply chksum_3_ok].
Qed.

Lemma chksum_algorithms_agree_witness :
  let data := [0x45; 0; 0; 0x54; 1] in
  lwip_standard_chksum_2 7 data = ones_complement_sum data
  /\ lwip_standard_chksum_1 data = ones_complement_sum data
  /\ lwip_standard_chksum_3 7 data = ones_complement_sum data.
Proof.
  apply (chksum_algorithms_agree 7).
  - repeat constructor; done.
  - done.
Defined.

Lemma inet_chksum_pbuf_sum p : chain_ok p -> inet_chksum_pbuf p = 65535 - ones_complement_sum (chain_data p).
Proof.
  intros Hp. unfold inet_chksum_pbuf. pose proof (chain_loop_spec p 0 (0, false) represents_0 Hp) as Hr.
  destruct (foldl chksum_pbuf_step (0, false) p) as [acc sw].
  rewrite (represents_finish _ _ _ Hr), Z.add_0_l. apply complement16_arith, ocnorm_range.
Qed.

(** C39: The checksum of a pbuf chain does not depend on how the packet is split:
    it is the checksum of the concatenated payloads, also when pbufs have odd
    lengths and odd payload addresses. *)
Theorem chksum_pbuf_concat p addr :
  chain_ok p -> Z.of_nat (length (chain_data p)) <= 0x20000 ->
  inet_chksum_pbuf p = inet_chksum addr (chain_data p).
Proof.
  intros Hp Hl. rewrite inet_chksum_arith by (done || by apply chain_bytes).
  by apply inet_chksum_pbuf_sum.
Qed.

Lemma chksum_pbuf_concat_witness :
  inet_chksum_pbuf [Seg 3 [1; 2; 3]; Seg 8 [4]; Seg 20 [5; 6; 7]]
  = inet_chksum 0 [1; 2; 3; 4; 5; 6; 7].
Proof.
  apply (chksum_pbuf_concat [Seg 3 [1; 2; 3]; Seg 8 [4]; Seg 20 [5; 6; 7]] 0).
  - apply (bool_decide_unpack _). vm_compute. exact I.
  - done.
Defined.

(** The TCP/UDP checksum over a pbuf chain is the complemented ones' complement
    sum of the RFC 793 pseudo header followed by the data: for the whole chain,
    and for the first [chksum_len] bytes in the partial version. *)
Theorem chksum_pseudo_rfc793 p src dest proto proto_len chksum_len :
  chain_ok p -> 0 <= src < 2 ^ 32 -> 0 <= dest < 2 ^ 32 ->
  0 <= proto < 256 -> 0 <= proto_len < 65536 -> 0 <= chksum_len < 0x7fff ->
  ip_chksum_pseudo p proto proto_len src dest
  = 65535 - ones_complement_sum (pseudo_header src dest proto proto_len ++ chain_data p)
  /\ ip_chksum_pseudo_partial p proto proto_len chksum_len src dest
  = Ret (65535 - ones_complement_sum (pseudo_header src dest proto proto_len
                                      ++ take (Z.to_nat chksum_len) (chain_data p))).
Proof.
  intros Hp Hs Hd Hpr Hl Hc. pose proof (represents_pseudo_addrs src dest Hs Hd) as Hr0. split.
  - unfold ip_chksum_pseudo, inet_chksum_pseudo, inet_cksum_pseudo_base.
    pose proof (chain_loop_spec p _ _ Hr0 Hp) as Hr.
    rewrite (pseudo_finish_ok _ _ _ _ Hr) by done. by rewrite pseudo_sum.
  - unfold ip_chksum_pseudo_partial, inet_chksum_pseudo_partial, inet_cksum_pseudo_partial_base.
    destruct (partial_loop_spec p _ _ chksum_len Hr0 Hp Hc) as (st & -> & Hst).
    rewrite ret_bind, (pseudo_finish_ok _ _ _ _ Hst) by done. by rewrite pseudo_sum.
Qed.

Lemma chksum_pseudo_rfc793_witness :
  let p := [Seg 3 [1; 2; 3]; Seg 8 [4; 5]] in
  ip_chksum_pseudo p 6 5 0x0100007f 0x0200007f
  = 65535 - ones_complement_sum (pseudo_header 0x0100007f 0x0200007f 6 5 ++ chain_data p)
  /\ ip_chksum_pseudo_partial p 6 5 4 0x0100007f 0x0200007f
  = Ret (65535 - ones_complement_sum (pseudo_header 0x0100007f 0x0200007f 6 5
                                      ++ take (Z.to_nat 4) (chain_data p))).
Proof.
  apply (chksum_pseudo_rfc793 [Seg 3 [1; 2; 3]; Seg 8 [4; 5]] 0x0100007f 0x0200007f 6 5 4);
    try (split; [discriminate|reflexivity]).
  apply (bool_decide_unpack _). vm_compute. exact I.
Defined.

(** What a receiver verifies: a packet whose 16-bit checksum field, at an even
    offset, holds the checksum computed with that field zero has checksum 0. *)
Theorem chksum_verifies addr pre post c :
  bytes pre -> bytes post -> Nat.even (length pre) = true ->
  Z.of_nat (length pre + 2 + length post) <= 0x20000 ->
  c = inet_chksum addr (pre ++ [0; 0] ++ post) ->
  inet_chksum addr (pre ++ [c mod 256; c / 256] ++ post) = 0.
Proof.
  intros Hpre Hpost Hev Hlen ->.
  assert (bytes (pre ++ [0; 0] ++ post)) as Hb0.
  { rewrite !bytes_app. repeat split; try done. repeat constructor; done. }
  rewrite (inet_chksum_arith addr (pre ++ [0; 0] ++ post)) by
    (done || rewrite !length_app; simpl; lia).
  set (S := ones_complement_sum (pre ++ [0; 0] ++ post)).
  pose proof (ones_complement_sum_range (pre ++ [0; 0] ++ post)) as HS. fold S in HS.
  set (c := 65535 - S). assert (0 <= c <= 65535) as Hc by (unfold c; lia).
  rewrite inet_chksum_arith.
  2:{ rewrite !bytes_app. repeat split; try done. repeat constructor; zdm. }
  2:{ rewrite !length_app. simpl. lia. }
  unfold ones_complement_sum. rewrite !wsum_app.
  assert (lane_after 1 (length pre) = 1) as -> by (unfold lane_after; by rewrite Hev).
  change (lane_after 1 (length [c mod 256; c / 256])) with 1.
  rewrite wsum1_pair. change (wsum 1 []) with 0. unfold le16.
  assert (S = ocnorm (wsum 1 pre + wsum 1 post)) as HSn.
  { unfold S, ones_complement_sum. rewrite !wsum_app.
    assert (lane_after 1 (length pre) = 1) as -> by (unfold lane_after; by rewrite Hev).
    f_equal. }
  pose proof (wsum_nonneg 1 pre (or_introl eq_refl) Hpre).
  pose proof (wsum_nonneg 1 post (or_introl eq_refl) Hpost).
  rewrite <- (oc_unique 65535); [done|lia|].
  transitivity (c + S).
  { unfold c. replace (65535 - S + S) with 65535 by lia. by apply oc_refl. }
  replace (wsum 1 pre + _) with (c + (wsum 1 pre + wsum 1 post)) by zdm.
  f_equiv; [apply oc_refl; lia|]. rewrite HSn. apply oc_norm. lia.
Qed.

Lemma chksum_verifies_witness :
  let c := inet_chksum 2 ([0x45; 0; 0; 20] ++ [0; 0] ++ [1; 2; 3]) in
  inet_chksum 2 ([0x45; 0; 0; 20] ++ [c mod 256; c / 256] ++ [1; 2; 3]) = 0.
Proof.
  apply (chksum_verifies 2 [0x45; 0; 0; 20] [1; 2; 3]).
  - repeat constructor; done.
  - repeat constructor; done.
  - reflexivity.
  - done.
  - reflexivity.
Defined.
