(* ===== verification/Ip4Addr.v ===== *)
(** * [lwip/src/core/ipv4/ip4_addr.c]: IPv4 addresses

    Broadcast and netmask tests, and the conversions between addresses and
    their dotted notation ([zmq_lwip_init] parses its configuration with
    [ip4addr_aton]). Addresses are [u32_t] in network byte order, that is, on
    this little-endian host the first octet is the low byte. *)

From S2P Require Import Prelude Def.

Definition IPADDR_ANY : Z := 0x00000000.
Definition IPADDR_BROADCAST : Z := 0xffffffff.
Definition IPADDR_NONE : Z := 0xffffffff.
Definition IP4ADDR_STRLEN_MAX : Z := 16.
Definition NETIF_FLAG_BROADCAST : Z := 0x02.

(** The fields of [struct netif] these functions read. *)
Record netif := Netif { netif_flags : Z; netif_ip4_addr : Z; netif_ip4_netmask : Z }.

(** [~x] on a [u32_t] *)
Definition not32 (x : Z) : Z := u32 (Z.lnot x).

Definition ip4_addr_netcmp (addr1 addr2 mask : Z) : bool :=
  Z.land addr1 mask =? Z.land addr2 mask.

Definition ip4_addr_isbroadcast_u32 (addr : Z) (n : netif) : bool :=
  if (not32 addr =? IPADDR_ANY) || (addr =? IPADDR_ANY) then true
  else if Z.land (netif_flags n) NETIF_FLAG_BROADCAST =? 0 then false
  else if addr =? netif_ip4_addr n then false
  else if ip4_addr_netcmp addr (netif_ip4_addr n) (netif_ip4_netmask n)
          && (Z.land addr (not32 (netif_ip4_netmask n))
              =? Z.land IPADDR_BROADCAST (not32 (netif_ip4_netmask n)))
  then true
  else false.

(** [for (mask = 1UL << 31; mask != 0; mask >>= 1)] until the first zero bit *)
Fixpoint netmask_first_zero (fuel : nat) (nm mask : Z) : Z :=
  match fuel with
  | O => mask
  | S fuel' =>
      if mask =? 0 then mask
      else if Z.land nm mask =? 0 then mask
      else netmask_first_zero fuel' nm (Z.shiftr mask 1)
  end.

(** then check that there is no one *)
Fixpoint netmask_no_one (fuel : nat) (nm mask : Z) : bool :=
  match fuel with
  | O => true
  | S fuel' =>
      if mask =? 0 then true
      else if negb (Z.land nm mask =? 0) then false
      else netmask_no_one fuel' nm (Z.shiftr mask 1)
  end.

(** The mask starts at bit 31: 33 steps reach 0. *)
Definition ip4_addr_netmask_valid (netmask : Z) : bool :=
  let nm_hostorder := lwip_htonl netmask in
  let mask := netmask_first_zero 33 nm_hostorder (Z.shiftl 1 31) in
  netmask_no_one 33 nm_hostorder mask.

(** ** Dotted notation *)

Definition lwip_in_range (c lo up : Z) : bool := (lo <=? u8 c) && (u8 c <=? up).
Definition lwip_isdigit (c : Z) : bool := lwip_in_range c 48 57.
Definition lwip_isxdigit (c : Z) : bool :=
  lwip_isdigit c || lwip_in_range c 97 102 || lwip_in_range c 65 70.
Definition lwip_islower (c : Z) : bool := lwip_in_range c 97 122.
Definition lwip_isspace (c : Z) : bool :=
  (c =? 32) || (c =? 12) || (c =? 10) || (c =? 13) || (c =? 9) || (c =? 11).

(** The inner [for (;;)] of [ip4addr_aton]: the number and what follows it. *)
Fixpoint aton_digits (cp : list Z) (base val : Z) : Z * list Z :=
  match cp with
  | [] => (val, [])
  | c :: cp' =>
      if lwip_isdigit c then aton_digits cp' base (u32 (u32 (val * base) + u32 (c - 48)))
      else if (base =? 16) && lwip_isxdigit c then
        aton_digits cp' base
          (Z.lor (u32 (Z.shiftl val 4)) (u32 (c + 10 - (if lwip_islower c then 97 else 65))))
      else (val, cp)
  end.

(** One number, with its C prefix: 0x is hexadecimal, 0 octal. *)
Definition aton_number (cp : list Z) : option (Z * list Z) :=
  let c := chr cp in
  if negb (lwip_isdigit c) then None
  else if c =? 48 then
    let cp := tail cp in
    let c := chr cp in
    if (c =? 120) || (c =? 88) then Some (aton_digits (tail cp) 16 0)
    else Some (aton_digits cp 8 0)
  else Some (aton_digits cp 10 0).

(** The outer [for (;;)]; [k] is how many more parts fit in [parts[4]]. *)
Fixpoint aton_parts (k : nat) (parts : list Z) (cp : list Z) : option (list Z * Z * list Z) :=
  match aton_number cp with
  | None => None
  | Some (val, cp') =>
      if chr cp' =? 46 then
        match k with
        | O => None
        | S k' => aton_parts k' (parts ++ [val]) (tail cp')
        end
      else Some (parts, val, cp')
  end.

(** [ip4addr_aton]: the address (network order), or [None] for return 0. *)
Definition ip4addr_aton (cp : list Z) : option Z :=
  match aton_parts 3 [] cp with
  | None => None
  | Some (parts, val, cp) =>
      let c := chr cp in
      if negb (c =? 0) && negb (lwip_isspace c) then None
      else
        match parts with
        | [] => Some (lwip_htonl val)
        | [p0] =>
            if 0xffffff <? val then None
            else if 0xff <? p0 then None
            else Some (lwip_htonl (Z.lor val (u32 (Z.shiftl p0 24))))
        | [p0; p1] =>
            if 0xffff <? val then None
            else if (0xff <? p0) || (0xff <? p1) then None
            else Some (lwip_htonl (Z.lor val
                   (Z.lor (u32 (Z.shiftl p0 24)) (u32 (Z.shiftl p1 16)))))
        | [p0; p1; p2] =>
            if 0xff <? val then None
            else if (0xff <? p0) || (0xff <? p1) || (0xff <? p2) then None
            else Some (lwip_htonl (Z.lor val
                   (Z.lor (Z.lor (u32 (Z.shiftl p0 24)) (u32 (Z.shiftl p1 16)))
                          (u32 (Z.shiftl p2 8)))))
        | _ => None (* unhandled: LWIP_ASSERT, cannot be reached with parts[4] *)
        end
  end.

Definition ipaddr_addr (cp : list Z) : Z :=
  match ip4addr_aton cp with
  | Some val => val
  | None => IPADDR_NONE
  end.

(** [do { inv[i++] = '0' + *ap % 10; *ap /= 10; } while ( *ap)]; an octet has at
    most three digits, the size of [inv]. *)
Fixpoint ntoa_inv (fuel : nat) (ap : Z) : list Z :=
  match fuel with
  | O => []
  | S fuel' =>
      (48 + ap mod 10) :: (if ap / 10 =? 0 then [] else ntoa_inv fuel' (ap / 10))
  end.

(** [if (len++ >= buflen) return NULL; *rp++ = c;] for each character. *)
Fixpoint ntoa_put (buflen : Z) (out cs : list Z) : option (list Z) :=
  match cs with
  | [] => Some out
  | c :: cs' =>
      if buflen <=? Z.of_nat (length out) then None else ntoa_put buflen (out ++ [c]) cs'
  end.

(** The memory of [s_addr], read through [u8_t *ap]. *)
Definition octets (s_addr : Z) : list Z :=
  [s_addr mod 256; s_addr / 256 mod 256; s_addr / 65536 mod 256; s_addr / 16777216 mod 256].

(** The [for (n = 0; n < 4; n++)] loop. *)
Fixpoint ntoa_octets (buflen : Z) (out ap : list Z) : option (list Z) :=
  match ap with
  | [] => Some out
  | o :: ap' =>
      match ntoa_put buflen out (rev (ntoa_inv 3 o) ++ [46]) with
      | None => None
      | Some out' => ntoa_octets buflen out' ap'
      end
  end.

(** [ip4addr_ntoa_r]: the string, or [NULL] if the buffer is too small; the
    terminator replaces the last dot. *)
Definition ip4addr_ntoa_r (addr buflen : Z) : option (list Z) :=
  match ntoa_octets buflen [] (octets addr) with
  | None => None
  | Some out => Some (removelast out)
  end.

Definition ip4addr_ntoa (addr : Z) : option (list Z) := ip4addr_ntoa_r addr IP4ADDR_STRLEN_MAX.

(** "127.0.0.1" *)
Example ntoa_localhost :
  ip4addr_ntoa 0x0100007f = Some [49; 50; 55; 46; 48; 46; 48; 46; 49].
Proof. reflexivity. Qed.
Example aton_localhost :
  ip4addr_aton [49; 50; 55; 46; 48; 46; 48; 46; 49] = Some 0x0100007f.
Proof. reflexivity. Qed.

(** ** Dotted notation: results *)

Lemma aton_digits_stop ds rest base val :
  Forall (fun c => lwip_isdigit c = true) ds ->
  lwip_isdigit (chr rest) = false -> (base =? 16) = false ->
  aton_digits (ds ++ rest) base val
  = (foldl (fun v c => u32 (u32 (v * base) + u32 (c - 48))) val ds, rest).
Proof.
  intros Hds Hr Hb. revert val. induction Hds as [|c ds Hc _ IH]; intros val; simpl.
  - destruct rest as [|c rest]; simpl in *; [done|]. by rewrite Hr, Hb.
  - by rewrite Hc, IH.
Qed.

(** The characters printed for one octet. *)
Definition octet_str (o : Z) : list Z := rev (ntoa_inv 3 o).

(** What [aton] needs to know of the 256 printed octets, by evaluation. *)
Lemma octet_str_facts o : is_byte o ->
  Forall (fun c => lwip_isdigit c = true) (octet_str o)
  /\ (1 <= length (octet_str o) <= 3)%nat
  /\ foldl (fun v c => u32 (u32 (v * 10) + u32 (c - 48))) 0 (octet_str o) = o
  /\ (chr (octet_str o) = 48 -> octet_str o = [48]).
Proof.
  intros Ho.
  assert (forallb (fun o => forallb lwip_isdigit (octet_str o)
     && (1 <=? length (octet_str o))%nat && (length (octet_str o) <=? 3)%nat
     && (foldl (fun v c => u32 (u32 (v * 10) + u32 (c - 48))) 0 (octet_str o) =? o)
     && implb (chr (octet_str o) =? 48) (bool_decide (octet_str o = [48])))
     (seqZ 0 256) = true) as Hall by (vm_compute; reflexivity).
  rewrite forallb_forall in Hall.
  specialize (Hall o ltac:(apply list_elem_of_In, elem_of_seqZ; unfold is_byte in Ho; lia)).
  rewrite !andb_true_iff, forallb_forall, !Nat.leb_le, Z.eqb_eq in Hall.
  destruct Hall as ((((H1 & H2) & H3) & H4) & H5).
  split; [apply Forall_forall; intros x Hx; by apply H1, list_elem_of_In|].
  split; [done|]. split; [done|]. intros E. rewrite E in H5. simpl in H5.
  by apply bool_decide_eq_true in H5.
Qed.

Lemma aton_number_octet o rest :
  is_byte o -> chr rest = 46 \/ rest = [] -> aton_number (octet_str o ++ rest) = Some (o, rest).
Proof.
  intros Ho Hrest. destruct (octet_str_facts o Ho) as (Hd & Hlen & Hval & Hz).
  assert (lwip_isdigit (chr rest) = false) as Hnd by (destruct Hrest as [-> | ->]; reflexivity).
  destruct (octet_str o) as [|c cs] eqn:E; [simpl in Hlen; lia|].
  unfold aton_number. simpl chr. pose proof Hd as [Hc _]%Forall_cons. rewrite Hc. simpl negb.
  destruct (Z.eqb_spec c 48) as [->|Hne].
  - specialize (Hz eq_refl). injection Hz as ->. simpl in Hval. subst o. cbn [tail app].
    assert ((chr rest =? 120) || (chr rest =? 88) = false) as ->
      by (destruct Hrest as [-> | ->]; reflexivity).
    change rest with ([] ++ rest) at 1. by rewrite aton_digits_stop by (done || constructor).
  - rewrite aton_digits_stop by done. by rewrite Hval.
Qed.

(** The printed form of an address. *)
Definition dotted (a b c d : Z) : list Z :=
  octet_str a ++ 46 :: octet_str b ++ 46 :: octet_str c ++ 46 :: octet_str d.

Lemma lor_octets a b c d : is_byte a -> is_byte b -> is_byte c -> is_byte d ->
  Z.lor d (Z.lor (Z.lor (u32 (Z.shiftl a 24)) (u32 (Z.shiftl b 16))) (u32 (Z.shiftl c 8)))
  = a * 16777216 + b * 65536 + c * 256 + d.
Proof.
  unfold is_byte. intros. rewrite shiftl_24, shiftl_16, shiftl_8, !u32_small by lia.
  rewrite (Z.lor_comm (a * _)), (lor_disjoint_add (b * _) (a * _) 24) by zdm.
  rewrite (Z.lor_comm (_ + _)), (lor_disjoint_add (c * _) (_ + _) 16) by zdm.
  rewrite (lor_disjoint_add d _ 8) by zdm. lia.
Qed.

Lemma aton_dotted a b c d : is_byte a -> is_byte b -> is_byte c -> is_byte d ->
  ip4addr_aton (dotted a b c d) = Some (d * 16777216 + c * 65536 + b * 256 + a).
Proof.
  intros Ha Hb Hc Hd. unfold ip4addr_aton, dotted. cbn [aton_parts].
  rewrite aton_number_octet by (done || by left). simpl tail. simpl (_ =? 46).
  cbn [aton_parts]. rewrite aton_number_octet by (done || by left). simpl tail. simpl (_ =? 46).
  cbn [aton_parts]. rewrite aton_number_octet by (done || by left). simpl tail. simpl (_ =? 46).
  cbn [aton_parts]. rewrite <- (app_nil_r (octet_str d)), aton_number_octet by (done || by right).
  simpl. unfold is_byte in *.
  rewrite !(proj2 (Z.ltb_ge 255 _)) by lia. simpl.
  by rewrite lor_octets, lwip_htonl_digits.
Qed.

Lemma ntoa_put_ok buflen out cs :
  Z.of_nat (length out + length cs) <= buflen -> ntoa_put buflen out cs = Some (out ++ cs).
Proof.
  revert out. induction cs as [|c cs IH]; intros out Hl; simpl; [by rewrite app_nil_r|].
  simpl in Hl. destruct (Z.leb_spec buflen (Z.of_nat (length out))); [lia|].
  rewrite IH by (rewrite length_app; simpl; lia). by rewrite <- app_assoc.
Qed.

Lemma ntoa_dotted a b c d buflen : is_byte a -> is_byte b -> is_byte c -> is_byte d ->
  16 <= buflen -> ntoa_octets buflen [] [a; b; c; d] = Some (dotted a b c d ++ [46]).
Proof.
  intros Ha Hb Hc Hd Hl.
  destruct (octet_str_facts a Ha) as (_ & La & _). destruct (octet_str_facts b Hb) as (_ & Lb & _).
  destruct (octet_str_facts c Hc) as (_ & Lc & _). destruct (octet_str_facts d Hd) as (_ & Ld & _).
  cbn [ntoa_octets]. fold (octet_str a) (octet_str b) (octet_str c) (octet_str d).
  rewrite ntoa_put_ok by (rewrite ?length_app; simpl; lia).
  rewrite ntoa_put_ok by (rewrite ?length_app; simpl; lia).
  rewrite ntoa_put_ok by (rewrite ?length_app; simpl; lia).
  rewrite ntoa_put_ok by (rewrite ?length_app; simpl; lia).
  f_equal. unfold dotted. cbn [app]. repeat (rewrite <- app_assoc; cbn [app]). done.
Qed.

(** ** Netmasks: results *)

Lemma land_pow2_testbit nm i : 0 <= i -> (Z.land nm (2 ^ i) =? 0) = negb (Z.testbit nm i).
Proof.
  intros Hi. destruct (Z.testbit nm i) eqn:E; simpl.
  - apply Z.eqb_neq. intros H. assert (Z.testbit (Z.land nm (2 ^ i)) i = false) as H'
      by (rewrite H; apply Z.bits_0).
    rewrite Z.land_spec, E, Z.pow2_bits_true in H' by done. done.
  - apply Z.eqb_eq, Z.bits_inj'. intros j Hj. rewrite Z.land_spec, Z.bits_0.
    destruct (Z.eq_dec i j) as [->|Hne]; [by rewrite E|].
    rewrite Z.pow2_bits_false by done. apply andb_false_r.
Qed.

Lemma shiftr_pow2 i : 0 <= i -> Z.shiftr (2 ^ (i + 1)) 1 = 2 ^ i.
Proof. intros. rewrite Z.shiftr_div_pow2, Z.pow_add_r by lia. by rewrite Z.div_mul. Qed.

(** Bits [k .. i] are ones, bit [k - 1] is not. *)
Lemma netmask_first_zero_spec fuel nm (i : nat) :
  (i < fuel)%nat ->
  (netmask_first_zero fuel nm (2 ^ Z.of_nat i) = 0
   /\ forall j, 0 <= j <= Z.of_nat i -> Z.testbit nm j = true)
  \/ (exists k : nat, (k <= i)%nat /\ netmask_first_zero fuel nm (2 ^ Z.of_nat i) = 2 ^ Z.of_nat k
      /\ Z.testbit nm (Z.of_nat k) = false
      /\ forall j, Z.of_nat k < j <= Z.of_nat i -> Z.testbit nm j = true).
Proof.
  revert i. induction fuel as [|fuel IH]; intros i Hi; [lia|]. simpl.
  rewrite (proj2 (Z.eqb_neq (2 ^ Z.of_nat i) 0)) by (apply Z.pow_nonzero; lia).
  rewrite land_pow2_testbit by lia. destruct (Z.testbit nm (Z.of_nat i)) eqn:E; simpl.
  2:{ right. exists i. split; [lia|]. split; [done|]. split; [done|]. intros; lia. }
  destruct i as [|i].
  { left. split; [by destruct fuel|]. intros j Hj. replace j with (Z.of_nat 0) by lia. done. }
  rewrite Nat2Z.inj_succ, <- Z.add_1_r, shiftr_pow2 by lia.
  destruct (IH i ltac:(lia)) as [[H1 H2]|(k & Hk & H1 & H2 & H3)]; [left|right].
  - split; [done|]. intros j Hj. destruct (Z.eq_dec j (Z.of_nat (S i))) as [->|]; [done|].
    apply H2. lia.
  - exists k. split; [lia|]. split; [done|]. split; [done|]. intros j Hj.
    destruct (Z.eq_dec j (Z.of_nat (S i))) as [->|]; [done|]. apply H3. lia.
Qed.

Lemma netmask_no_one_0 fuel nm : netmask_no_one fuel nm 0 = true.
Proof. by destruct fuel. Qed.

Lemma netmask_no_one_spec fuel nm (i : nat) :
  (i < fuel)%nat ->
  netmask_no_one fuel nm (2 ^ Z.of_nat i) = true
  <-> forall j, 0 <= j <= Z.of_nat i -> Z.testbit nm j = false.
Proof.
  revert i. induction fuel as [|fuel IH]; intros i Hi; [lia|]. simpl.
  rewrite (proj2 (Z.eqb_neq (2 ^ Z.of_nat i) 0)) by (apply Z.pow_nonzero; lia).
  rewrite land_pow2_testbit, negb_involutive by lia.
  destruct (Z.testbit nm (Z.of_nat i)) eqn:E.
  { split; [done|]. intros H. rewrite H in E by lia. done. }
  destruct i as [|i].
  { split; [|intros; apply netmask_no_one_0]. intros _ j Hj. by replace j with (Z.of_nat 0) by lia. }
  rewrite Nat2Z.inj_succ, <- Z.add_1_r, shiftr_pow2, IH by lia. split; intros H j Hj.
  - destruct (Z.eq_dec j (Z.of_nat (S i))) as [->|]; [done|]. apply H. lia.
  - apply H. lia.
Qed.

(** A prefix of [k] ones as a 32-bit host order mask. *)
Definition prefix_mask (k : Z) : Z := Z.shiftl (Z.ones k) (32 - k).

Lemma prefix_mask_testbit k j : 0 <= k <= 32 -> 0 <= j ->
  Z.testbit (prefix_mask k) j = (32 - k <=? j) && (j <? 32).
Proof.
  intros Hk Hj. unfold prefix_mask. rewrite Z.shiftl_spec by done.
  destruct (Z.leb_spec (32 - k) j); [|by rewrite Z.testbit_neg_r by lia].
  rewrite Z.testbit_ones by lia. simpl. rewrite (proj2 (Z.leb_le 0 (j - (32 - k)))) by lia.
  simpl. apply eq_true_iff_eq. rewrite !Z.ltb_lt. lia.
Qed.

Lemma u32_high_bits nm j : 0 <= nm < 2 ^ 32 -> 32 <= j -> Z.testbit nm j = false.
Proof.
  intros Hn Hj. destruct (Z.eq_dec nm 0) as [->|]; [apply Z.bits_0|].
  apply Z.bits_above_log2; [lia|]. apply Z.lt_le_trans with 32; [|done].
  apply Z.log2_lt_pow2; lia.
Qed.

Lemma prefix_mask_intro nm k : 0 <= nm < 2 ^ 32 -> 0 <= k <= 32 ->
  (forall j, 0 <= j < 32 - k -> Z.testbit nm j = false) ->
  (forall j, 32 - k <= j < 32 -> Z.testbit nm j = true) -> nm = prefix_mask k.
Proof.
  intros Hn Hk H0 H1. apply Z.bits_inj'. intros j Hj. rewrite prefix_mask_testbit by done.
  destruct (Z.leb_spec (32 - k) j); [|by rewrite H0 by lia].
  destruct (Z.ltb_spec j 32); [by rewrite H1 by lia|]. by rewrite u32_high_bits.
Qed.

(** ** Broadcast: results *)

Lemma not32_bits x j : 0 <= x < 2 ^ 32 -> 0 <= j < 32 -> Z.testbit (not32 x) j = negb (Z.testbit x j).
Proof.
  intros Hx Hj. unfold not32, u32. rewrite Z.mod_pow2_bits_low by lia. apply Z.lnot_spec; lia.
Qed.

Lemma not32_range x : 0 <= not32 x < 2 ^ 32.
Proof. apply u32_range. Qed.

Lemma land_all_ones x : 0 <= x < 2 ^ 32 -> Z.land 0xffffffff x = x.
Proof.
  intros. rewrite Z.land_comm. change 0xffffffff with (Z.ones 32).
  rewrite Z.land_ones by lia. by apply Z.mod_small.
Qed.

(** The directed broadcast address of the subnet of [ip] under [mask]. *)
Definition directed_broadcast (ip mask : Z) : Z := Z.lor (Z.land ip mask) (not32 mask).

Lemma directed_broadcast_iff addr ip mask :
  0 <= addr < 2 ^ 32 -> 0 <= ip < 2 ^ 32 -> 0 <= mask < 2 ^ 32 ->
  Z.land addr mask = Z.land ip mask /\ Z.land addr (not32 mask) = not32 mask
  <-> addr = directed_broadcast ip mask.
Proof.
  intros Ha Hi Hm. unfold directed_broadcast. split.
  - intros [H1 H2]. apply Z.bits_inj'. intros j Hj. rewrite Z.lor_spec, <- H1, Z.land_spec.
    destruct (Z.lt_ge_cases j 32).
    + assert (Z.testbit (Z.land addr (not32 mask)) j = Z.testbit (not32 mask) j) as E by by rewrite H2.
      rewrite Z.land_spec in E. rewrite not32_bits in * by done.
      by destruct (Z.testbit addr j), (Z.testbit mask j).
    + rewrite !u32_high_bits by (done || apply not32_range). done.
  - intros ->. split; apply Z.bits_inj'; intros j Hj; rewrite ?Z.land_spec, ?Z.lor_spec, ?Z.land_spec.
    all: destruct (Z.lt_ge_cases j 32);
      [rewrite ?not32_bits by done; by destruct (Z.testbit ip j), (Z.testbit mask j)
      |rewrite !u32_high_bits by (done || apply not32_range); done].
Qed.

Lemma not32_zero addr : 0 <= addr < 2 ^ 32 -> (not32 addr =? 0) = (addr =? 0xffffffff).
Proof.
  intros. unfold not32, u32, Z.lnot. change (2 ^ 32) with 4294967296 in *.
  apply eq_true_iff_eq. rewrite !Z.eqb_eq. split; zdm.
Qed.

(** ** Properties *)

(** Printing an IPv4 address and parsing the text gives the address back, for
    every address, and 16 bytes ([IP4ADDR_STRLEN_MAX]) are always enough. *)
Theorem ntoa_aton_roundtrip addr :
  0 <= addr < 2 ^ 32 ->
  exists s, ip4addr_ntoa addr = Some s /\ (length s < 16)%nat /\ ip4addr_aton s = Some addr
            /\ ipaddr_addr s = addr.
Proof.
  intros (d & c & b & a & Hd & Hc & Hb & Ha & E)%u32_digits.
  pose proof (base256_digits d c b a Hd Hc Hb Ha) as (E1 & E2 & E3 & E4).
  exists (dotted a b c d). unfold ip4addr_ntoa, ip4addr_ntoa_r, octets. rewrite E, E1, E2, E3, E4.
  rewrite (Z.mod_small d) by done.
  rewrite ntoa_dotted by done. rewrite removelast_last.
  split; [done|]. unfold ipaddr_addr. rewrite aton_dotted by done. split; [|done].
  destruct (octet_str_facts a Ha) as (_ & La & _). destruct (octet_str_facts b Hb) as (_ & Lb & _).
  destruct (octet_str_facts c Hc) as (_ & Lc & _). destruct (octet_str_facts d Hd) as (_ & Ld & _).
  unfold dotted. rewrite !length_app. simpl. rewrite !length_app. simpl. rewrite !length_app. simpl. lia.
Qed.

Lemma ntoa_aton_roundtrip_witness :
  exists s, ip4addr_ntoa 0x0101a8c0 = Some s /\ (length s < 16)%nat
            /\ ip4addr_aton s = Some 0x0101a8c0 /\ ipaddr_addr s = 0x0101a8c0.
Proof. apply (ntoa_aton_roundtrip 0x0101a8c0). split; [discriminate|reflexivity]. Defined.

(** [ip4_addr_netmask_valid] accepts exactly the masks that are a prefix of
    ones followed by zeros in host order. *)
Theorem netmask_valid_iff netmask :
  0 <= netmask < 2 ^ 32 ->
  ip4_addr_netmask_valid netmask = true
  <-> exists k, 0 <= k <= 32 /\ lwip_htonl netmask = prefix_mask k.
Proof.
  intros Hn. pose proof (lwip_htonl_range netmask Hn) as Hr.
  unfold ip4_addr_netmask_valid. cbv zeta. set (nm := lwip_htonl netmask) in *. clearbody nm.
  change (Z.shiftl 1 31) with (2 ^ Z.of_nat 31).
  destruct (netmask_first_zero_spec 33 nm 31 ltac:(lia)) as [[-> H1]|(k & Hk & -> & H0 & H1)].
  - split; [|intros; apply netmask_no_one_0]. intros _. exists 32. split; [lia|].
    apply prefix_mask_intro; [done|lia|intros; lia|]. intros; apply H1; lia.
  - rewrite netmask_no_one_spec by lia. split.
    + intros H2. exists (31 - Z.of_nat k). split; [lia|].
      apply prefix_mask_intro; [done|lia|intros; apply H2; lia|intros; apply H1; lia].
    + intros (k' & Hk' & ->) j Hj.
      rewrite prefix_mask_testbit in H0 by lia. rewrite prefix_mask_testbit by lia.
      rewrite andb_false_iff, Z.leb_gt, Z.ltb_ge in *. lia.
Qed.

Lemma netmask_valid_iff_witness :
  ip4_addr_netmask_valid 0x00ffffff = true
  <-> exists k, 0 <= k <= 32 /\ lwip_htonl 0x00ffffff = prefix_mask k.
Proof. apply (netmask_valid_iff 0x00ffffff). split; [discriminate|reflexivity]. Defined.

(** On an interface that supports broadcast, the addresses recognised as
    broadcast are all-ones, all-zeros, and the directed broadcast address of
    the interface's subnet unless it is the interface's own address. *)
Theorem isbroadcast_iff addr n :
  0 <= addr < 2 ^ 32 -> 0 <= netif_ip4_addr n < 2 ^ 32 -> 0 <= netif_ip4_netmask n < 2 ^ 32 ->
  Z.land (netif_flags n) NETIF_FLAG_BROADCAST <> 0 ->
  ip4_addr_isbroadcast_u32 addr n = true
  <-> addr = IPADDR_BROADCAST \/ addr = IPADDR_ANY
      \/ addr = directed_broadcast (netif_ip4_addr n) (netif_ip4_netmask n)
         /\ addr <> netif_ip4_addr n.
Proof.
  intros Ha Hi Hm Hf. unfold ip4_addr_isbroadcast_u32, ip4_addr_netcmp.
  rewrite not32_zero by done. unfold IPADDR_ANY, IPADDR_BROADCAST.
  rewrite land_all_ones by apply not32_range.
  pose proof (directed_broadcast_iff addr _ _ Ha Hi Hm) as Hd.
  destruct (Z.eqb_spec addr 0xffffffff); [naive_solver|].
  destruct (Z.eqb_spec addr 0); [naive_solver|]. simpl.
  destruct (Z.eqb_spec (Z.land (netif_flags n) NETIF_FLAG_BROADCAST) 0); [done|].
  destruct (Z.eqb_spec addr (netif_ip4_addr n)); [naive_solver|].
  rewrite <- Hd.
  destruct (Z.eqb_spec (Z.land addr (netif_ip4_netmask n))
              (Z.land (netif_ip4_addr n) (netif_ip4_netmask n))); simpl; [|naive_solver].
  destruct (Z.eqb_spec (Z.land addr (not32 (netif_ip4_netmask n))) (not32 (netif_ip4_netmask n)));
    naive_solver.
Qed.

Lemma isbroadcast_iff_witness :
  let n := Netif 0x0a 0x0101a8c0 0x00ffffff in
  ip4_addr_isbroadcast_u32 0xff01a8c0 n = true
  <-> 0xff01a8c0 = IPADDR_BROADCAST \/ 0xff01a8c0 = IPADDR_ANY
      \/ 0xff01a8c0 = directed_broadcast (netif_ip4_addr n) (netif_ip4_netmask n)
         /\ 0xff01a8c0 <> netif_ip4_addr n.
Proof.
  apply (isbroadcast_iff 0xff01a8c0 (Netif 0x0a 0x0101a8c0 0x00ffffff)).
  - split; [discriminate|reflexivity].
  - split; [discriminate|reflexivity].
  - split; [discriminate|reflexivity].
  - discriminate.
Defined.

(** A number that does not fit 32 bits is accepted: the accumulation wraps, so
    "4294967296" is read as 0.0.0.0 ("0x" with no digit is too). *)
Theorem aton_overflow_accepted :
  ip4addr_aton [52; 50; 57; 52; 57; 54; 55; 50; 57; 54] = Some 0
  /\ ip4addr_aton [48; 120] = Some 0.
Proof. split; reflexivity. Qed.
