(* ===== verification/Mem.v ===== *)
(** * [lwip/src/core/mem.c]: the heap

    The allocator of the build ([MEM_LIBC_MALLOC], [MEM_USE_POOLS],
    [MEM_OVERFLOW_CHECK], [MEM_SANITY_CHECK] and
    [LWIP_ALLOW_MEM_FREE_FROM_OTHER_CONTEXT] are 0): [mem_init], [mem_malloc],
    [mem_calloc], [mem_free], [mem_trim], [plug_holes], [mem_link_valid].

    The heap is an array [ram] in which every block starts with a [struct mem]
    that links it to its neighbours. The model keeps the [struct mem] objects
    by their index into [ram] ([ptr_to_mem] and [mem_to_ptr] are the identity);
    headers of blocks that were merged stay behind as garbage, as in the C
    array. Pointers into the heap are byte offsets from [ram], and [None] is
    [NULL]. *)

From S2P Require Import Prelude.

(** ** Configuration *)

Definition MEM_ALIGNMENT : Z := 1.
Definition LWIP_MEM_ALIGN_SIZE (size : Z) : Z :=
  Z.land (size + MEM_ALIGNMENT - 1) (Z.lnot (MEM_ALIGNMENT - 1)).
Definition MEM_SIZE : Z := 40960000.
Definition MEM_SIZE_ALIGNED : Z := LWIP_MEM_ALIGN_SIZE MEM_SIZE.
Definition MIN_SIZE : Z := 12.
Definition MIN_SIZE_ALIGNED : Z := LWIP_MEM_ALIGN_SIZE MIN_SIZE.
(** Two [u32_t] ([mem_size_t]) and a [u8_t], padded. *)
Definition SIZEOF_STRUCT_MEM : Z := LWIP_MEM_ALIGN_SIZE 12.

Record mem := Mem { m_next : Z; m_prev : Z; m_used : bool }.

(** [ram], [lfree] and the structs; [ram_end] is at [MEM_SIZE_ALIGNED]. *)
Record heap := Heap { structs : gmap Z mem; lfree : Z }.

Definition ram_end : Z := MEM_SIZE_ALIGNED.

(** ** Accesses through [ptr_to_mem] *)

Definition get_mem (h : heap) (i : Z) : outcome mem := deref (structs h !! i).
Definition put_mem (h : heap) (i : Z) (m : mem) : heap := Heap (<[i := m]> (structs h)) (lfree h).
Definition set_lfree (h : heap) (i : Z) : heap := Heap (structs h) i.

(** [ptr_to_mem(i)->next = v], and so on *)
Definition set_next (h : heap) (i v : Z) : outcome heap :=
  m ← get_mem h i; Ret (put_mem h i (Mem v (m_prev m) (m_used m))).
Definition set_prev (h : heap) (i v : Z) : outcome heap :=
  m ← get_mem h i; Ret (put_mem h i (Mem (m_next m) v (m_used m))).
Definition set_used (h : heap) (i : Z) (v : bool) : outcome heap :=
  m ← get_mem h i; Ret (put_mem h i (Mem (m_next m) (m_prev m) v)).

(** [if (i != MEM_SIZE_ALIGNED) ptr_to_mem(i)->prev = v;] *)
Definition set_prev_unless_end (h : heap) (i v : Z) : outcome heap :=
  if negb (i =? MEM_SIZE_ALIGNED) then set_prev h i v else Ret h.

(** ** Operations *)

(** [plug_holes], "plug hole forward": merge the next block if it is free. *)
Definition plug_forward (h : heap) (mem : Z) : outcome heap :=
  m ← get_mem h mem;
  let nmem := m_next m in
  n ← get_mem h nmem;
  if negb (mem =? nmem) && negb (m_used n) && negb (nmem =? ram_end) then
    let h := if lfree h =? nmem then set_lfree h mem else h in
    h ← set_next h mem (m_next n);
    set_prev_unless_end h (m_next n) mem
  else Ret h.

(** "plug hole backward": merge with the previous block if that is free. *)
Definition plug_backward (h : heap) (mem : Z) : outcome heap :=
  m ← get_mem h mem;
  let pmem := m_prev m in
  p ← get_mem h pmem;
  if negb (pmem =? mem) && negb (m_used p) then
    let h := if lfree h =? mem then set_lfree h pmem else h in
    h ← set_next h pmem (m_next m);
    set_prev_unless_end h (m_next m) pmem
  else Ret h.

Definition plug_holes (h : heap) (mem : Z) : outcome heap :=
  m ← get_mem h mem;
  _ ← lwip_assert (0 <=? mem);
  _ ← lwip_assert (mem <? ram_end);
  _ ← lwip_assert (negb (m_used m));
  _ ← lwip_assert (m_next m <=? MEM_SIZE_ALIGNED);
  h ← plug_forward h mem;
  plug_backward h mem.

(** The state before [mem_init] is immaterial. *)
Definition mem_init : heap :=
  Heap (<[MEM_SIZE_ALIGNED := Mem MEM_SIZE_ALIGNED MEM_SIZE_ALIGNED true]>
        (<[0 := Mem MEM_SIZE_ALIGNED 0 false]> ∅)) 0.

Definition mem_link_valid (h : heap) (mem : Z) : outcome bool :=
  m ← get_mem h mem;
  let rmem_idx := mem in
  if (MEM_SIZE_ALIGNED <? m_next m) || (MEM_SIZE_ALIGNED <? m_prev m) then Ret false
  else
    bad_prev ← (if negb (m_prev m =? rmem_idx) then
                  p ← get_mem h (m_prev m); Ret (negb (m_next p =? rmem_idx))
                else Ret false);
    if bad_prev : bool then Ret false
    else
      bad_next ← (if negb (m_next m =? ram_end) then
                    n ← get_mem h (m_next m); Ret (negb (m_prev n =? rmem_idx))
                  else Ret false);
      Ret (negb bad_next).

(** [LWIP_MEM_ILLEGAL_FREE] is an assertion that always fails. *)
Definition mem_free (h : heap) (rmem : option Z) : outcome heap :=
  match rmem with
  | None => Ret h
  | Some rmem =>
      if negb (Z.land rmem (MEM_ALIGNMENT - 1) =? 0) then Assert
      else
        let mem := rmem - SIZEOF_STRUCT_MEM in
        if (mem <? 0) || (ram_end <? rmem + MIN_SIZE_ALIGNED) then Assert
        else
          m ← get_mem h mem;
          if negb (m_used m) then Assert
          else
            valid ← mem_link_valid h mem;
            if negb valid then Assert
            else
              h ← set_used h mem false;
              let h := if mem <? lfree h then set_lfree h mem else h in
              plug_holes h mem
  end.

(** Both branches of [mem_trim]: a free block at [ptr2], between [mem] and
    [next]. *)
Definition trim_split (h : heap) (mem ptr2 next : Z) : outcome heap :=
  let h := put_mem h ptr2 (Mem next mem false) in
  h ← set_next h mem ptr2;
  set_prev_unless_end h next ptr2.

(** Result: the returned pointer ([None]: [NULL]) and the heap. *)
Definition mem_trim (h : heap) (rmem new_size : Z) : outcome (option Z * heap) :=
  let newsize := u32 (LWIP_MEM_ALIGN_SIZE new_size) in
  let newsize := if newsize <? MIN_SIZE_ALIGNED then MIN_SIZE_ALIGNED else newsize in
  if (MEM_SIZE_ALIGNED <? newsize) || (newsize <? new_size) then Ret (None, h)
  else
    _ ← lwip_assert ((0 <=? rmem) && (rmem <? ram_end));
    let mem := rmem - SIZEOF_STRUCT_MEM in
    let ptr := mem in
    m ← get_mem h mem;
    let size := u32 (u32 (m_next m - ptr) - SIZEOF_STRUCT_MEM) in
    _ ← lwip_assert (newsize <=? size);
    if newsize =? size then Ret (Some rmem, h)
    else
      let ptr2 := u32 (ptr + SIZEOF_STRUCT_MEM + newsize) in
      m2 ← get_mem h (m_next m);
      if negb (m_used m2) then
        (* The next struct is unused, we can simply move it a little *)
        _ ← lwip_assert (negb (m_next m =? MEM_SIZE_ALIGNED));
        let next := m_next m2 in
        let h := if lfree h =? m_next m then set_lfree h ptr2 else h in
        h ← trim_split h ptr ptr2 next;
        Ret (Some rmem, h)
      else if newsize + SIZEOF_STRUCT_MEM + MIN_SIZE_ALIGNED <=? size then
        (* room for another struct mem *)
        _ ← lwip_assert (negb (m_next m =? MEM_SIZE_ALIGNED));
        let h := if ptr2 <? lfree h then set_lfree h ptr2 else h in
        h ← trim_split h ptr ptr2 (m_next m);
        Ret (Some rmem, h)
      else Ret (Some rmem, h).

(** [while (cur->used && cur != ram_end) cur = ptr_to_mem(cur->next);] *)
Fixpoint find_lfree (fuel : nat) (h : heap) (cur : Z) : outcome Z :=
  match fuel with
  | O => Diverge
  | S fuel' =>
      c ← get_mem h cur;
      if m_used c && negb (cur =? ram_end) then find_lfree fuel' h (m_next c) else Ret cur
  end.

(** Taking block [ptr]: split off the rest, or use all of it. *)
Definition malloc_take (h : heap) (ptr size : Z) (m : mem) : outcome heap :=
  if size + SIZEOF_STRUCT_MEM + MIN_SIZE_ALIGNED <=? u32 (m_next m - (ptr + SIZEOF_STRUCT_MEM)) then
    let ptr2 := u32 (ptr + SIZEOF_STRUCT_MEM + size) in
    _ ← lwip_assert (negb (ptr2 =? MEM_SIZE_ALIGNED));
    let h := put_mem h ptr2 (Mem (m_next m) ptr false) in
    h ← set_next h ptr ptr2;
    h ← set_used h ptr true;
    set_prev_unless_end h (m_next m) ptr2
  else set_used h ptr true.

(** The code once the block at [ptr] is found. Both loops visit each live block
    at most once, so the number of structs bounds them. *)
Definition malloc_found (h : heap) (size ptr : Z) (m : mem) : outcome (option Z * heap) :=
  h ← malloc_take h ptr size m;
  h ← (if ptr =? lfree h then
         cur ← find_lfree (S (S (base.size (structs h)))) h (lfree h);
         c ← get_mem h cur;
         _ ← lwip_assert ((cur =? ram_end) || negb (m_used c));
         Ret (set_lfree h cur)
       else Ret h);
  _ ← lwip_assert (ptr + SIZEOF_STRUCT_MEM + size <=? ram_end);
  Ret (Some (ptr + SIZEOF_STRUCT_MEM), h).

(** The [for] loop of [mem_malloc]. *)
Fixpoint malloc_loop (fuel : nat) (h : heap) (size ptr : Z) : outcome (option Z * heap) :=
  match fuel with
  | O => Diverge
  | S fuel' =>
      if ptr <? u32 (MEM_SIZE_ALIGNED - size) then
        m ← get_mem h ptr;
        if negb (m_used m) && (size <=? u32 (m_next m - (ptr + SIZEOF_STRUCT_MEM)))
        then malloc_found h size ptr m
        else malloc_loop fuel' h size (m_next m)
      else Ret (None, h)
  end.

Definition mem_malloc (h : heap) (size_in : Z) : outcome (option Z * heap) :=
  if size_in =? 0 then Ret (None, h)
  else
    let size := u32 (LWIP_MEM_ALIGN_SIZE size_in) in
    let size := if size <? MIN_SIZE_ALIGNED then MIN_SIZE_ALIGNED else size in
    if (MEM_SIZE_ALIGNED <? size) || (size <? size_in) then Ret (None, h)
    else malloc_loop (S (base.size (structs h))) h size (lfree h).

(** [mem_calloc]: [count * size] is computed in [size_t]; the zeroing concerns
    the block's contents, which are not part of this state. *)
Definition mem_calloc (h : heap) (count size : Z) : outcome (option Z * heap) :=
  let alloc_size := u64 (count * size) in
  if negb (u32 alloc_size =? alloc_size) then Ret (None, h)
  else mem_malloc h (u32 alloc_size).

Example mem_example :
  (r ← mem_malloc mem_init 100;
   let '(p, h) := r in
   r2 ← mem_malloc h 200;
   let '(q, h) := r2 in
   h ← mem_free h p;
   r3 ← mem_malloc h 50;
   Ret (p, q, fst r3, lfree (snd r3)))
  = Ret (Some 12, Some 124, Some 12, 62).
Proof. vm_compute. reflexivity. Qed.

(** ** The invariant: the heap is a list of blocks

    A block is its index and whether it is used; it ends where the next block,
    or [ram_end], begins. *)
Notation block := (Z * bool)%type.
Notation E := MEM_SIZE_ALIGNED.

Definition hd_addr (l : list block) (e : Z) : Z := match l with [] => e | (a, _) :: _ => a end.
Fixpoint last_addr (p : Z) (l : list block) : Z :=
  match l with [] => p | (a, _) :: l' => last_addr a l' end.
Fixpoint last_free (f : bool) (l : list block) : bool :=
  match l with [] => f | (_, u) :: l' => last_free (negb u) l' end.
Fixpoint first_free (l : list block) (e : Z) : Z :=
  match l with [] => e | (a, u) :: l' => if u : bool then first_free l' e else a end.

(** The structs link the blocks [l], after the block at [p] and up to [e]. *)
Fixpoint linked (S : gmap Z mem) (p : Z) (l : list block) (e : Z) : Prop :=
  match l with
  | [] => True
  | (a, u) :: l' =>
      S !! a = Some (Mem (hd_addr l' e) p u)
      /\ a + SIZEOF_STRUCT_MEM + MIN_SIZE_ALIGNED <= hd_addr l' e /\ linked S a l' e
  end.

(** No two neighbouring blocks are free; [f]: the block before is free. *)
Fixpoint coalesced (f : bool) (l : list block) : Prop :=
  match l with [] => True | (_, u) :: l' => (f = true -> u = true) /\ coalesced (negb u) l' end.

(** The heap holds the blocks [l]; its live structs are exactly theirs and the
    one at the end, and [lfree] is the lowest free block. *)
Record heap_wf (h : heap) (l : list block) : Prop := {
  ok_first : hd_addr l E = 0;
  ok_linked : linked (structs h) 0 l E;
  ok_end : structs h !! E = Some (Mem E E true);
  ok_lfree : lfree h = first_free l E }.
Definition heap_ok (h : heap) (l : list block) : Prop := heap_wf h l /\ coalesced false l.

(** The allocated regions: pointer and size. *)
Fixpoint live (l : list block) (e : Z) : list (Z * Z) :=
  match l with
  | [] => []
  | (a, u) :: l' =>
      (if u : bool
       then [(a + SIZEOF_STRUCT_MEM, hd_addr l' e - a - SIZEOF_STRUCT_MEM)] else [])
      ++ live l' e
  end.

(** The sizes of the configuration, as numbers. *)
Ltac heap_sizes :=
  change SIZEOF_STRUCT_MEM with 12 in *; change MIN_SIZE_ALIGNED with 12 in *;
  change MEM_SIZE_ALIGNED with 40960000 in *; change ram_end with 40960000 in *.

(** *** Lists of blocks *)

Lemma hd_addr_app l1 l2 e : hd_addr (l1 ++ l2) e = hd_addr l1 (hd_addr l2 e).
Proof. by destruct l1 as [|[]]. Qed.
Lemma last_addr_app p l1 l2 : last_addr p (l1 ++ l2) = last_addr (last_addr p l1) l2.
Proof. revert p. induction l1 as [|[a u] l1 IH]; simpl; auto. Qed.
Lemma first_free_app l1 l2 e : first_free (l1 ++ l2) e = first_free l1 (first_free l2 e).
Proof. induction l1 as [|[a []] l1 IH]; simpl; auto. Qed.
Lemma live_app l1 l2 e : live (l1 ++ l2) e = live l1 (hd_addr l2 e) ++ live l2 e.
Proof.
  induction l1 as [|[a u] l1 IH]; simpl; [done|]. by rewrite IH, hd_addr_app, app_assoc.
Qed.
Lemma last_free_app f l1 l2 : last_free f (l1 ++ l2) = last_free (last_free f l1) l2.
Proof. revert f. induction l1 as [|[a u] l1 IH]; simpl; auto. Qed.
Lemma coalesced_app f l1 l2 :
  coalesced f (l1 ++ l2) <-> coalesced f l1 /\ coalesced (last_free f l1) l2.
Proof. revert f. induction l1 as [|[a u] l1 IH]; intros f; simpl; [tauto|]. rewrite IH. tauto. Qed.
Lemma linked_app S p l1 l2 e :
  linked S p (l1 ++ l2) e <-> linked S p l1 (hd_addr l2 e) /\ linked S (last_addr p l1) l2 e.
Proof.
  revert p. induction l1 as [|[a u] l1 IH]; intros p; simpl; [tauto|].
  rewrite IH, hd_addr_app. tauto.
Qed.

Lemma coalesced_weaken f l : coalesced f l -> coalesced false l.
Proof. destruct l as [|[a u] l]; simpl; [done|]. intros [_ ?]. split; [done|]. done. Qed.

(** Whether the last block is free, and which block that is. *)
Lemma last_free_split l p : last_free false l = true ->
  exists l0 a, l = l0 ++ [(a, false)] /\ last_addr p l = a.
Proof.
  destruct l as [|[a u] l _] using rev_ind; simpl; [done|].
  rewrite last_free_app, last_addr_app. simpl. intros Hu. exists l, a.
  by destruct u.
Qed.

Lemma linked_end_lt S p l e : linked S p l e -> l <> [] -> hd_addr l e < e.
Proof.
  revert p. induction l as [|[a u] l IH]; intros p; simpl; [done|]. intros (_ & Ha & Hl) _.
  destruct l as [|[b v] l]; simpl in *.
  - heap_sizes. lia.
  - pose proof (IH a Hl). heap_sizes.
    assert (b < e) by auto. lia.
Qed.
Lemma linked_end_le S p l e : linked S p l e -> hd_addr l e <= e.
Proof. destruct l; [simpl; lia|]. intros H%linked_end_lt; [lia|done]. Qed.

(** [linked] depends on the structs between the first block and the end. *)
Lemma linked_frame S S' p l e : linked S p l e ->
  (forall a, hd_addr l e <= a < e -> S' !! a = S !! a) -> linked S' p l e.
Proof.
  revert p. induction l as [|[a u] l IH]; intros p; simpl; [done|]. intros (Ha & Hs & Hl) Hf.
  heap_sizes.
  pose proof (linked_end_le _ _ _ _ Hl).
  rewrite Hf by lia. split; [done|]. split; [done|]. apply IH; [done|]. intros b Hb. apply Hf. lia.
Qed.

(** The first block of [l] and its place. *)
Lemma linked_bounds S p l e a u : linked S p l e -> (a, u) ∈ l -> hd_addr l e <= a < e.
Proof.
  intros Hl (l1 & l2 & ->)%list_elem_of_split. apply linked_app in Hl as [H1 H2].
  rewrite hd_addr_app. pose proof (linked_end_le _ _ _ _ H1). simpl in *.
  assert (hd_addr ((a, u) :: l2) e < e) by (eapply linked_end_lt; done). simpl in *. lia.
Qed.

Lemma linked_last S p l e : linked S p l e -> p < hd_addr l e -> last_addr p l < e.
Proof.
  revert p. induction l as [|[a u] l IH]; intros p; simpl; [done|]. intros (_ & Hs & Hl) _.
  apply IH; [done|]. heap_sizes. lia.
Qed.

(** Every block has its own struct, and so has the end. *)
Lemma linked_length S p l e : linked S p l e -> is_Some (S !! e) -> (length l < size S)%nat.
Proof.
  revert S p. induction l as [|[a u] l IH]; intros S p Hl [x He].
  - simpl. pose proof (map_size_ne_0_lookup_2 S e (ex_intro _ x He)). lia.
  - simpl in Hl. destruct Hl as (Ha & Hs & Hl). pose proof (linked_end_le _ _ _ _ Hl).
    heap_sizes.
    assert (length l < size (delete a S))%nat as Hlt.
    { apply (IH _ a).
      - eapply linked_frame; [done|]. intros b Hb. apply lookup_delete_ne. lia.
      - rewrite lookup_delete_ne by lia. by exists x. }
    rewrite map_size_delete, Ha in Hlt. simpl in *.
    pose proof (map_size_ne_0_lookup_2 S e (ex_intro _ x He)). lia.
Qed.

(** *** Updates of the heap *)

Ltac hlia := heap_sizes; lia.

Lemma get_mem_ok h a m : structs h !! a = Some m -> get_mem h a = Ret m.
Proof. apply deref_Some. Qed.

(** A new predecessor for the blocks [l2]: [if (i != MEM_SIZE_ALIGNED)
    ptr_to_mem(i)->prev = q']. *)
Lemma set_prev_spec S lf q q' l2 : linked S q l2 E ->
  exists S', set_prev_unless_end (Heap S lf) (hd_addr l2 E) q' = Ret (Heap S' lf)
    /\ linked S' q' l2 E /\ (forall a, a < hd_addr l2 E \/ E <= a -> S' !! a = S !! a).
Proof.
  intros Hl. unfold set_prev_unless_end. destruct l2 as [|[b v] l2]; cbn [hd_addr].
  { rewrite Z.eqb_refl. simpl. eauto. }
  assert (b < E) as HbE by (apply linked_end_lt in Hl; done).
  rewrite (proj2 (Z.eqb_neq b E)) by lia. simpl. destruct Hl as (Hb & Hs & Hl).
  unfold set_prev. rewrite (get_mem_ok (Heap S lf) _ _ Hb). eexists. split; [done|]. simpl.
  rewrite lookup_insert_eq. split.
  - split; [done|]. split; [done|]. eapply linked_frame; [done|].
    intros a Ha. apply lookup_insert_ne. hlia.
  - intros a Ha. apply lookup_insert_ne. lia.
Qed.

(** Blocks [mid] become [mid'], which start at the same place: every operation
    of the allocator is such a step. *)
Lemma replace_blocks S S1 lf l1 mid mid' l2 :
  linked S 0 (l1 ++ mid ++ l2) E -> mid <> [] -> mid' <> [] -> hd_addr mid' E = hd_addr mid E ->
  linked S1 (last_addr 0 l1) mid' (hd_addr l2 E) ->
  (forall a, a < hd_addr mid E \/ hd_addr l2 E <= a -> S1 !! a = S !! a) ->
  exists S2, set_prev_unless_end (Heap S1 lf) (hd_addr l2 E) (last_addr 0 mid') = Ret (Heap S2 lf)
    /\ linked S2 0 (l1 ++ mid' ++ l2) E /\ S2 !! E = S !! E.
Proof.
  intros Hl Hm Hm' Hhd Hmid Hout.
  rewrite !linked_app in Hl. destruct Hl as (H1 & Hmid0 & H2).
  pose proof (linked_end_le _ _ _ _ H2) as He.
  assert (linked S1 (last_addr (last_addr 0 l1) mid) l2 E) as H2'.
  { eapply linked_frame; [done|]. intros a Ha. apply Hout. lia. }
  destruct (set_prev_spec S1 lf _ (last_addr 0 mid') l2 H2') as (S2 & -> & HS2 & Hfr).
  exists S2. split; [done|]. rewrite Hfr, Hout by lia. split; [|done].
  assert (forall x y, hd_addr (mid ++ x) y = hd_addr mid E) as Hh
    by (intros; destruct mid as [|[]]; done).
  assert (forall x y, hd_addr (mid' ++ x) y = hd_addr mid E) as Hh'
    by (intros; destruct mid' as [|[]]; done).
  assert (hd_addr mid E = hd_addr mid (hd_addr l2 E)) as Hmm by (destruct mid as [|[]]; done).
  assert (hd_addr mid' (hd_addr l2 E) = hd_addr mid E) as Hmm'
    by (rewrite <- Hhd; destruct mid' as [|[]]; done).
  pose proof (linked_end_lt _ _ _ _ Hmid0 Hm) as Hlt.
  rewrite !linked_app, Hh'. rewrite Hh in H1. split; [|split].
  - eapply linked_frame; [done|]. intros a Ha. rewrite Hfr, Hout by lia. done.
  - eapply linked_frame; [done|]. intros a Ha. rewrite Hfr by lia. done.
  - replace (last_addr (last_addr 0 l1) mid') with (last_addr 0 mid')
      by (destruct mid' as [|[]]; done). done.
Qed.

Definition merge_forward (l2 : list block) : list block :=
  match l2 with (_, false) :: l2' => l2' | _ => l2 end.
Definition merge_backward (l1 : list block) (a : Z) (l2 : list block) : list block :=
  if last_free false l1 then l1 ++ l2 else l1 ++ (a, false) :: l2.

(** What a heap of blocks [l1 ++ (a, u) :: l2] has at [a]. *)
Lemma wf_struct h l1 a u l2 : heap_wf h (l1 ++ (a, u) :: l2) ->
  structs h !! a = Some (Mem (hd_addr l2 E) (last_addr 0 l1) u)
  /\ 0 <= a /\ a + SIZEOF_STRUCT_MEM + MIN_SIZE_ALIGNED <= hd_addr l2 E <= E
  /\ (l1 <> [] -> last_addr 0 l1 < a) /\ (l1 = [] -> a = 0).
Proof.
  intros [Hf Hl He _]. rewrite hd_addr_app in Hf. simpl in Hf.
  apply linked_app in Hl as [H1 (Ha & Hs & H2)]. simpl in H1.
  pose proof (linked_end_le _ _ _ _ H1). pose proof (linked_end_le _ _ _ _ H2).
  split; [done|]. split; [hlia|]. split; [done|]. split; [|by intros ->].
  intros Hne. destruct l1 as [|[b v] l1]; [done|]. simpl in *. destruct H1 as (_ & Hs' & H1).
  apply (linked_last _ _ _ _ H1). hlia.
Qed.

(** The struct after [a]: a block of [l2] or the end. *)
Lemma wf_next h l1 a u l2 : heap_wf h (l1 ++ (a, u) :: l2) ->
  exists n, structs h !! hd_addr l2 E = Some n
    /\ m_used n = negb (match l2 with (_, false) :: _ => true | _ => false end)
    /\ (forall v l2', l2 = (hd_addr l2 E, v) :: l2' -> m_next n = hd_addr l2' E).
Proof.
  intros Hwf. pose proof (ok_end _ _ Hwf) as He. destruct l2 as [|[b v] l2].
  - exists (Mem E E true). split; [done|]. split; [done|]. done.
  - change (l1 ++ (a, u) :: (b, v) :: l2) with (l1 ++ [(a, u)] ++ (b, v) :: l2) in Hwf.
    rewrite app_assoc in Hwf. destruct (wf_struct _ _ _ _ _ Hwf) as (Hb & _).
    eexists. split; [exact Hb|]. simpl. split; [by destruct v|]. by intros v' l2' [= -> ->].
Qed.

Lemma first_free_merge l a (l2' : list block) b e :
  first_free (l ++ (a, false) :: (b, false) :: l2') e = first_free (l ++ (a, false) :: l2') e.
Proof. rewrite !first_free_app. done. Qed.

(** A free block of the list other than the lowest is not [lfree]. *)
Lemma first_free_lt S p l1 a l2 e : linked S p (l1 ++ (a, false) :: l2) e ->
  first_free (l1 ++ (a, false) :: l2) e <= a.
Proof.
  revert p. induction l1 as [|[b v] l1 IH]; intros p; simpl; [lia|]. intros (_ & Hs & Hl).
  destruct v; [by eapply IH|]. rewrite hd_addr_app in Hs.
  apply linked_app in Hl as [Hl _]. apply linked_end_le in Hl. simpl in *. hlia.
Qed.

(** *** [plug_holes] *)

Lemma wf_intro S lf l : hd_addr l E = 0 -> linked S 0 l E -> S !! E = Some (Mem E E true) ->
  lf = first_free l E -> heap_wf (Heap S lf) l.
Proof. by constructor. Qed.

Lemma linked_singleton S p a u e : S !! a = Some (Mem e p u) ->
  a + SIZEOF_STRUCT_MEM + MIN_SIZE_ALIGNED <= e -> linked S p [(a, u)] e.
Proof. by split. Qed.

Lemma plug_forward_spec h l1 a l2 : heap_wf h (l1 ++ (a, false) :: l2) ->
  exists h', plug_forward h a = Ret h' /\ heap_wf h' (l1 ++ (a, false) :: merge_forward l2).
Proof.
  intros Hwf. destruct (wf_struct _ _ _ _ _ Hwf) as (Ha & Ha0 & Hs & _).
  destruct (wf_next _ _ _ _ _ Hwf) as (n & Hn & Hu & Hnx). unfold plug_forward.
  rewrite (get_mem_ok _ _ _ Ha), ret_bind. cbn [m_next]. rewrite (get_mem_ok _ _ _ Hn), ret_bind, Hu.
  destruct l2 as [|[b [|]] l2]; cbn [negb]; rewrite ?andb_false_r; cbn [andb]; eauto.
  destruct Hwf as [Hf Hl He Hlf]. pose proof Hl as Hl'.
  apply linked_app in Hl' as [H1 Hl']. simpl in Hl'. destruct Hl' as (_ & Hs1 & Hb & Hs2 & H2).
  pose proof (linked_end_le _ _ _ _ H2) as Hle. rewrite (Hnx false l2 eq_refl). cbn [hd_addr] in *.
  rewrite (proj2 (Z.eqb_neq a b)), (proj2 (Z.eqb_neq b ram_end)) by hlia. cbn [negb andb].
  pose proof (first_free_lt _ _ _ _ _ _ Hl) as Hff.
  rewrite (proj2 (Z.eqb_neq (lfree h) b)) by (rewrite Hlf; hlia).
  unfold set_next. rewrite (get_mem_ok _ _ _ Ha), ret_bind. cbn [m_prev m_used].
  destruct (replace_blocks (structs h) (<[a := Mem (hd_addr l2 E) (last_addr 0 l1) false]> (structs h))
     (lfree h) l1 [(a, false); (b, false)] [(a, false)] l2) as (S2 & HS & HL & HE); try done.
  - apply linked_singleton; [apply lookup_insert_eq|hlia].
  - intros c Hc. cbn [hd_addr] in Hc. apply lookup_insert_ne. hlia.
  - exists (Heap S2 (lfree h)). split; [exact HS|]. apply wf_intro; try done.
    + rewrite hd_addr_app in *. done.
    + by rewrite HE.
    + by rewrite Hlf, first_free_merge.
Qed.

Lemma plug_backward_spec h l1 a l2 : heap_wf h (l1 ++ (a, false) :: l2) ->
  exists h', plug_backward h a = Ret h' /\ heap_wf h' (merge_backward l1 a l2).
Proof.
  intros Hwf. destruct (wf_struct _ _ _ _ _ Hwf) as (Ha & Ha0 & Hs & Hlast & Hnil).
  unfold plug_backward, merge_backward. rewrite (get_mem_ok _ _ _ Ha), ret_bind. cbn [m_prev m_next].
  destruct l1 as [|[b u] l0 _] using rev_ind.
  { rewrite (Hnil eq_refl) in *. cbn [last_addr]. rewrite (get_mem_ok _ _ _ Ha), ret_bind. simpl. eauto. }
  rewrite last_addr_app, last_free_app in *. cbn [last_addr last_free] in *.
  assert (b < a) as Hba by (apply Hlast; by destruct l0).
  rewrite <- app_assoc in Hwf. cbn [app] in Hwf.
  destruct (wf_struct _ _ _ _ _ Hwf) as (Hb & Hb0 & Hsb & _).
  rewrite (get_mem_ok _ _ _ Hb), ret_bind. cbn [m_used].
  rewrite (proj2 (Z.eqb_neq b a)) by lia. destruct u; cbn [negb andb].
  { rewrite <- app_assoc. eauto. }
  destruct Hwf as [Hf Hl He Hlf].
  assert (lfree h <= b) as Hff by (rewrite Hlf; eapply first_free_lt; done).
  rewrite (proj2 (Z.eqb_neq (lfree h) a)) by lia.
  unfold set_next. rewrite (get_mem_ok _ _ _ Hb), ret_bind. cbn [m_prev m_used hd_addr] in *.
  destruct (replace_blocks (structs h) (<[b := Mem (hd_addr l2 E) (last_addr 0 l0) false]> (structs h))
     (lfree h) l0 [(b, false); (a, false)] [(b, false)] l2) as (S2 & HS & HL & HE); try done.
  - apply linked_singleton; [apply lookup_insert_eq|hlia].
  - intros c Hc. cbn [hd_addr] in Hc. apply lookup_insert_ne. hlia.
  - exists (Heap S2 (lfree h)). split; [exact HS|]. rewrite <- app_assoc. apply wf_intro; try done.
    + rewrite hd_addr_app in *. done.
    + by rewrite HE.
    + by rewrite Hlf, first_free_merge.
Qed.

Lemma plug_holes_spec h l1 a l2 : heap_wf h (l1 ++ (a, false) :: l2) ->
  exists h', plug_holes h a = Ret h' /\ heap_wf h' (merge_backward l1 a (merge_forward l2)).
Proof.
  intros Hwf. destruct (wf_struct _ _ _ _ _ Hwf) as (Ha & Ha0 & Hs & _).
  unfold plug_holes. rewrite (get_mem_ok _ _ _ Ha), ret_bind. cbn [m_used m_next].
  rewrite !lwip_assert_true, !ret_bind by (rewrite ?Z.leb_le, ?Z.ltb_lt; (done || hlia)).
  destruct (plug_forward_spec _ _ _ _ Hwf) as (h1 & -> & Hwf1). rewrite ret_bind.
  by apply plug_backward_spec.
Qed.

Lemma merge_coalesced l1 a l2 :
  coalesced false l1 -> coalesced false l2 ->
  coalesced false (merge_backward l1 a (merge_forward l2)).
Proof.
  intros H1 H2. assert (coalesced true (merge_forward l2)) as H2'.
  { destruct l2 as [|[b [|]] l2]; simpl in *; tauto. }
  unfold merge_backward. destruct (last_free false l1) eqn:Hl; apply coalesced_app; rewrite Hl.
  - done.
  - split; [done|]. split; done.
Qed.

(** *** [mem_free] *)

Lemma mem_link_valid_ok h l1 a u l2 :
  heap_wf h (l1 ++ (a, u) :: l2) -> mem_link_valid h a = Ret true.
Proof.
  intros Hwf. destruct (wf_struct _ _ _ _ _ Hwf) as (Ha & Ha0 & Hs & Hlast & Hnil).
  unfold mem_link_valid. rewrite (get_mem_ok _ _ _ Ha), ret_bind. cbn [m_next m_prev].
  assert (last_addr 0 l1 <= a) as Hla
    by (destruct l1; [simpl; lia|]; specialize (Hlast ltac:(done)); lia).
  rewrite (proj2 (Z.ltb_ge E (hd_addr l2 E))), (proj2 (Z.ltb_ge E (last_addr 0 l1))) by hlia.
  cbn [orb].
  assert ((if negb (last_addr 0 l1 =? a)
           then p ← get_mem h (last_addr 0 l1); Ret (negb (m_next p =? a))
           else Ret false) = Ret false) as ->.
  { destruct (Z.eqb_spec (last_addr 0 l1) a) as [|Hne]; [done|]. cbn [negb].
    destruct l1 as [|[b v] l0 _] using rev_ind; [by destruct Hne; rewrite Hnil|].
    rewrite last_addr_app, <- app_assoc in *. cbn [last_addr app] in *.
    destruct (wf_struct _ _ _ _ _ Hwf) as (Hb & _).
    rewrite (get_mem_ok _ _ _ Hb), ret_bind. cbn [m_next hd_addr]. by rewrite Z.eqb_refl. }
  rewrite ret_bind. destruct (Z.eqb_spec (hd_addr l2 E) ram_end) as [|Hne]; [done|]. cbn [negb].
  destruct l2 as [|[b v] l2]; [done|]. cbn [hd_addr].
  replace (l1 ++ (a, u) :: (b, v) :: l2) with ((l1 ++ [(a, u)]) ++ (b, v) :: l2) in Hwf
    by (by rewrite <- app_assoc).
  destruct (wf_struct _ _ _ _ _ Hwf) as (Hb & _). rewrite (get_mem_ok _ _ _ Hb), ret_bind.
  cbn [m_prev]. rewrite last_addr_app. cbn [last_addr]. by rewrite Z.eqb_refl.
Qed.

Lemma first_free_ge S p l e : linked S p l e -> hd_addr l e <= first_free l e.
Proof.
  revert p. induction l as [|[c w] l IH]; intros p; simpl; [lia|].
  intros (_ & Hs & Hl). specialize (IH _ Hl). destruct w; [hlia|lia].
Qed.

Lemma first_free_mark S p l1 a l2 e : linked S p (l1 ++ (a, true) :: l2) e ->
  first_free (l1 ++ (a, false) :: l2) e
  = if a <? first_free (l1 ++ (a, true) :: l2) e then a else first_free (l1 ++ (a, true) :: l2) e.
Proof.
  revert p. induction l1 as [|[b v] l1 IH]; intros p Hl; simpl in *.
  - destruct Hl as (_ & Hs & Hl). pose proof (first_free_ge _ _ _ _ Hl).
    destruct (Z.ltb_spec a (first_free l2 e)); [done|hlia].
  - destruct Hl as (_ & Hs & Hl). destruct v; [by eapply IH|].
    apply linked_app in Hl as [Hl _]. apply linked_end_le in Hl. rewrite hd_addr_app in Hs.
    simpl in *. destruct (Z.ltb_spec a b); [hlia|done].
Qed.

(** Marking a block free, with the new [lfree]. *)
Lemma mark_free_wf h l1 a l2 : heap_wf h (l1 ++ (a, true) :: l2) ->
  exists h1, set_used h a false = Ret h1
    /\ heap_wf (if a <? lfree h1 then set_lfree h1 a else h1) (l1 ++ (a, false) :: l2).
Proof.
  intros Hwf. destruct (wf_struct _ _ _ _ _ Hwf) as (Ha & Ha0 & Hs & _).
  destruct Hwf as [Hf Hl He Hlf]. unfold set_used. rewrite (get_mem_ok _ _ _ Ha), ret_bind.
  eexists; split; [reflexivity|]. unfold put_mem, set_lfree. cbn [m_next m_prev lfree structs].
  set (S1 := <[a := Mem (hd_addr l2 E) (last_addr 0 l1) false]> (structs h)).
  assert (linked S1 0 (l1 ++ (a, false) :: l2) E) as Hl1.
  { rewrite linked_app in *. destruct Hl as (H1 & _ & Hs' & H2).
    split; [|split; [apply lookup_insert_eq|split; [done|]]].
    - eapply linked_frame; [done|]. intros c Hc. cbn [hd_addr] in Hc. apply lookup_insert_ne. lia.
    - eapply linked_frame; [done|]. intros c Hc. apply lookup_insert_ne. hlia. }
  assert (S1 !! E = Some (Mem E E true)) as HE1 by (unfold S1; rewrite lookup_insert_ne by hlia; done).
  assert (hd_addr (l1 ++ (a, false) :: l2) E = 0) as Hf1 by (rewrite hd_addr_app in *; done).
  assert (first_free (l1 ++ (a, false) :: l2) E = if a <? lfree h then a else lfree h) as Hnew
    by (rewrite Hlf; by eapply first_free_mark).
  destruct (a <? lfree h); apply wf_intro; done.
Qed.

Lemma ptr_aligned x : Z.land x (MEM_ALIGNMENT - 1) = 0.
Proof. apply Z.land_0_r. Qed.

(** Freeing an allocated block removes exactly that block, and merges the free
    neighbours. *)
Lemma mem_free_spec h l1 a l2 : heap_ok h (l1 ++ (a, true) :: l2) ->
  exists h', mem_free h (Some (a + SIZEOF_STRUCT_MEM)) = Ret h'
    /\ heap_ok h' (merge_backward l1 a (merge_forward l2)).
Proof.
  intros [Hwf Hco]. destruct (wf_struct _ _ _ _ _ Hwf) as (Ha & Ha0 & Hs & _).
  apply coalesced_app in Hco as [Hc1 Hc2]. cbn [coalesced] in Hc2. destruct Hc2 as [_ Hc2].
  unfold mem_free. rewrite ptr_aligned. cbn [Z.eqb negb].
  replace (a + SIZEOF_STRUCT_MEM - SIZEOF_STRUCT_MEM) with a by lia.
  rewrite (proj2 (Z.ltb_ge a 0)), (proj2 (Z.ltb_ge ram_end _)) by hlia. cbn [orb].
  rewrite (get_mem_ok _ _ _ Ha), ret_bind. cbn [m_used negb].
  rewrite (mem_link_valid_ok _ _ _ _ _ Hwf), ret_bind. cbn [negb].
  destruct (mark_free_wf _ _ _ _ Hwf) as (h1 & -> & Hwf1). rewrite ret_bind.
  destruct (plug_holes_spec _ _ _ _ Hwf1) as (h2 & -> & Hwf2).
  exists h2. split; [done|]. split; [done|]. by apply merge_coalesced.
Qed.

(** *** [mem_malloc] *)

(** No free block of [l] has room for [size] bytes. *)
Fixpoint no_fit (size : Z) (l : list block) (e : Z) : Prop :=
  match l with
  | [] => True
  | (a, u) :: l' =>
      (u = true \/ hd_addr l' e - a - SIZEOF_STRUCT_MEM < size) /\ no_fit size l' e
  end.

Lemma no_fit_app size l1 l2 e :
  no_fit size (l1 ++ l2) e <-> no_fit size l1 (hd_addr l2 e) /\ no_fit size l2 e.
Proof. induction l1 as [|[a u] l1 IH]; simpl; [tauto|]. rewrite IH, hd_addr_app. tauto. Qed.

(** What is split off when block [a] is taken. *)
Definition malloc_rest (a size : Z) (l2 : list block) : list block :=
  if size + SIZEOF_STRUCT_MEM + MIN_SIZE_ALIGNED <=? hd_addr l2 E - a - SIZEOF_STRUCT_MEM
  then [(a + SIZEOF_STRUCT_MEM + size, false)] else [].

Lemma find_lfree_spec S lf p l fuel : linked S p l E -> S !! E = Some (Mem E E true) ->
  (length l < fuel)%nat -> find_lfree fuel (Heap S lf) (hd_addr l E) = Ret (first_free l E).
Proof.
  revert p fuel. induction l as [|[a u] l IH]; intros p [|fuel] Hl He Hf; simpl in Hf; try lia;
    cbn [find_lfree hd_addr first_free].
  - rewrite (get_mem_ok (Heap S lf) _ _ He), ret_bind. done.
  - pose proof (linked_end_lt _ _ _ _ Hl ltac:(done)) as Hlt. cbn [hd_addr] in Hlt.
    destruct Hl as (Ha & Hs & Hl). rewrite (get_mem_ok (Heap S lf) _ _ Ha), ret_bind. cbn [m_used m_next].
    rewrite (proj2 (Z.eqb_neq a ram_end)) by hlia. cbn [negb]. rewrite andb_true_r.
    destruct u; [|done]. eapply IH; [done..|lia].
Qed.

Lemma first_free_cases S p l e : linked S p l e ->
  (forall y, first_free l y = y) \/ (exists b, b < e /\ forall y, first_free l y = b).
Proof.
  revert p. induction l as [|[a u] l IH]; intros p Hl; simpl; [by left|].
  pose proof (linked_end_lt _ _ _ _ Hl ltac:(done)). simpl in *. destruct Hl as (_ & _ & Hl).
  destruct u; [by eapply IH|]. right. by exists a.
Qed.

(** Taking the free block [a], whether it is split or not. *)
Lemma malloc_take_spec h l1 a l2 size :
  heap_wf h (l1 ++ (a, false) :: l2) -> MIN_SIZE_ALIGNED <= size ->
  size <= hd_addr l2 E - a - SIZEOF_STRUCT_MEM ->
  exists S', malloc_take h a size (Mem (hd_addr l2 E) (last_addr 0 l1) false)
             = Ret (Heap S' (lfree h))
    /\ linked S' 0 (l1 ++ ((a, true) :: malloc_rest a size l2) ++ l2) E
    /\ S' !! E = structs h !! E.
Proof.
  intros Hwf Hmin Hfit. destruct (wf_struct _ _ _ _ _ Hwf) as (Ha & Ha0 & Hs & _).
  destruct Hwf as [_ Hl He _]. unfold malloc_take, malloc_rest. cbn [m_next].
  assert (u32 (hd_addr l2 E - (a + SIZEOF_STRUCT_MEM)) = hd_addr l2 E - a - SIZEOF_STRUCT_MEM) as ->
    by (rewrite u32_small; hlia).
  destruct (Z.leb_spec (size + SIZEOF_STRUCT_MEM + MIN_SIZE_ALIGNED)
              (hd_addr l2 E - a - SIZEOF_STRUCT_MEM)) as [Hsp|Hsp].
  - assert (u32 (a + SIZEOF_STRUCT_MEM + size) = a + SIZEOF_STRUCT_MEM + size) as ->
      by (rewrite u32_small; hlia).
    set (p2 := a + SIZEOF_STRUCT_MEM + size) in *.
    assert (a < p2 < hd_addr l2 E) by (unfold p2; hlia).
    rewrite lwip_assert_true, ret_bind by (rewrite (proj2 (Z.eqb_neq p2 E)); [done|lia]).
    unfold put_mem. set (S1 := <[p2 := Mem (hd_addr l2 E) a false]> (structs h)).
    assert (S1 !! a = Some (Mem (hd_addr l2 E) (last_addr 0 l1) false)) as Ha1
      by (unfold S1; rewrite lookup_insert_ne by lia; done).
    unfold set_next. rewrite (get_mem_ok (Heap S1 (lfree h)) _ _ Ha1), !ret_bind. unfold put_mem.
    cbn [m_prev m_used structs lfree]. set (S2 := <[a := Mem p2 (last_addr 0 l1) false]> S1).
    unfold set_used. rewrite (get_mem_ok (Heap S2 (lfree h)) a (Mem p2 (last_addr 0 l1) false))
      by apply lookup_insert_eq.
    rewrite !ret_bind. unfold put_mem. cbn [m_next m_prev m_used structs lfree].
    set (S3 := <[a := Mem p2 (last_addr 0 l1) true]> S2).
    apply (replace_blocks (structs h) S3 (lfree h) l1 [(a, false)] [(a, true); (p2, false)] l2);
      try done.
    + split; [apply lookup_insert_eq|]. split; [cbn [hd_addr]; unfold p2; hlia|].
      apply linked_singleton; [|unfold p2; hlia].
      unfold S3, S2. rewrite !lookup_insert_ne by lia. apply lookup_insert_eq.
    + intros c Hc. cbn [hd_addr] in Hc. unfold S3, S2, S1.
      rewrite !lookup_insert_ne by lia. done.
  - unfold set_used. rewrite (get_mem_ok _ _ _ Ha), ret_bind. unfold put_mem.
    cbn [m_next m_prev m_used]. eexists. split; [done|]. cbn [app].
    rewrite lookup_insert_ne by hlia. split; [|done].
    rewrite linked_app in *. destruct Hl as (H1 & _ & Hs' & H2).
    split; [|split; [apply lookup_insert_eq|split; [done|]]].
    + eapply linked_frame; [done|]. intros c Hc. cbn [hd_addr] in Hc. apply lookup_insert_ne. lia.
    + eapply linked_frame; [done|]. intros c Hc. apply lookup_insert_ne. hlia.
Qed.

Lemma first_free_struct S l : linked S 0 l E -> S !! E = Some (Mem E E true) ->
  exists m, S !! first_free l E = Some m /\ ((first_free l E =? ram_end) || negb (m_used m)) = true.
Proof.
  intros Hl He. revert Hl. generalize 0. induction l as [|[a u] l IH]; intros p Hl; cbn [first_free].
  - exists (Mem E E true). done.
  - destruct Hl as (Ha & _ & Hl). destruct u; [by eapply IH|]. eexists. split; [done|].
    apply orb_true_r.
Qed.

Lemma taken_coalesced l1 a l2 size : coalesced false (l1 ++ (a, false) :: l2) ->
  coalesced false (l1 ++ ((a, true) :: malloc_rest a size l2) ++ l2).
Proof.
  rewrite !coalesced_app. intros [H1 [_ H2]]. cbn [negb] in H2. split; [done|].
  assert (coalesced false (malloc_rest a size l2 ++ l2)) as Hr.
  { unfold malloc_rest. destruct (_ <=? _); [by split|by eapply coalesced_weaken]. }
  apply coalesced_app in Hr as [Hr1 Hr2]. split; [by split|]. done.
Qed.

Lemma malloc_found_spec h l1 a l2 size :
  heap_ok h (l1 ++ (a, false) :: l2) -> MIN_SIZE_ALIGNED <= size ->
  size <= hd_addr l2 E - a - SIZEOF_STRUCT_MEM ->
  exists h', malloc_found h size a (Mem (hd_addr l2 E) (last_addr 0 l1) false)
             = Ret (Some (a + SIZEOF_STRUCT_MEM), h')
    /\ heap_ok h' (l1 ++ ((a, true) :: malloc_rest a size l2) ++ l2).
Proof.
  intros [Hwf Hco] Hmin Hfit. destruct (wf_struct _ _ _ _ _ Hwf) as (_ & Ha0 & Hs & _).
  destruct (malloc_take_spec _ _ _ _ _ Hwf Hmin Hfit) as (S' & HT & HL & HE).
  destruct Hwf as [Hf Hl He Hlf]. rewrite He in HE.
  unfold malloc_found. rewrite HT, ret_bind. cbn [lfree structs]. clear HT.
  set (l' := ((a, true) :: malloc_rest a size l2) ++ l2) in *.
  assert (hd_addr (l1 ++ l') E = 0) as Hf' by (rewrite hd_addr_app in *; done).
  assert (exists lf, (if a =? lfree h then
         cur ← find_lfree (S (S (base.size S'))) (Heap S' (lfree h)) (lfree h);
         c ← get_mem (Heap S' (lfree h)) cur;
         _ ← lwip_assert ((cur =? ram_end) || negb (m_used c));
         Ret (set_lfree (Heap S' (lfree h)) cur)
       else Ret (Heap S' (lfree h))) = Ret (Heap S' lf) /\ lf = first_free (l1 ++ l') E)
    as (lf & -> & ->).
  { rewrite first_free_app in *. cbn [first_free] in Hlf.
    pose proof (proj1 (linked_app _ _ _ _ _) HL) as [HL1 HL2].
    destruct (Z.eqb_spec a (lfree h)) as [Heq|Hne].
    - pose proof (linked_length _ _ _ _ HL2 (ex_intro _ _ HE)).
      pose proof (find_lfree_spec S' a (last_addr 0 l1) l' (S (S (base.size S'))) HL2 HE
                    ltac:(lia)) as HFL.
      change (hd_addr l' E) with a in HFL. rewrite <- Heq, HFL.
      rewrite ret_bind. destruct (first_free_struct S' (l1 ++ l') HL HE) as (m & Hm & Hmu).
      rewrite first_free_app in Hm, Hmu.
      destruct (first_free_cases _ _ _ _ HL1) as [Hall|(b & Hb & Hall)].
      + rewrite Hall in *. rewrite (get_mem_ok (Heap S' a) _ _ Hm), ret_bind, Hmu. eexists. split; done.
      + exfalso. rewrite Hall in Hlf. change (hd_addr l' E) with a in Hb. lia.
    - exists (lfree h). split; [done|]. rewrite Hlf.
      destruct (first_free_cases _ _ _ _ HL1) as [Hall|(b & Hb & Hall)].
      + rewrite Hall in Hlf. lia.
      + by rewrite !Hall. }
  rewrite ret_bind, lwip_assert_true, ret_bind by (apply Z.leb_le; hlia).
  eexists. split; [done|]. split; [by apply wf_intro|]. by apply taken_coalesced.
Qed.

(** Blocks this close to the end have no room. *)
Lemma no_fit_far S p l e size : linked S p l e -> e - size <= hd_addr l e -> no_fit size l e.
Proof.
  revert p. induction l as [|[b v] l IH]; intros p; simpl; [done|]. intros (_ & Hs & Hl) Hge.
  pose proof (linked_end_le _ _ _ _ Hl). split; [right; hlia|]. eapply IH; [done|hlia].
Qed.

(** The [for] loop: first fit among the blocks [l2]. *)
Lemma malloc_loop_spec h l1 l2 size fuel :
  heap_ok h (l1 ++ l2) -> MIN_SIZE_ALIGNED <= size <= E -> (length l2 < fuel)%nat ->
  (exists la a lb h', l2 = la ++ (a, false) :: lb /\ no_fit size la a
     /\ size <= hd_addr lb E - a - SIZEOF_STRUCT_MEM
     /\ malloc_loop fuel h size (hd_addr l2 E) = Ret (Some (a + SIZEOF_STRUCT_MEM), h')
     /\ heap_ok h' ((l1 ++ la) ++ ((a, true) :: malloc_rest a size lb) ++ lb))
  \/ (no_fit size l2 E /\ malloc_loop fuel h size (hd_addr l2 E) = Ret (None, h)).
Proof.
  revert l1 fuel. induction l2 as [|[a u] l2 IH]; intros l1 [|fuel] Hok Hsz Hfuel; simpl in Hfuel;
    try lia; cbn [malloc_loop].
  { right. split; [done|]. rewrite (u32_small (E - size)) by hlia.
    cbn [hd_addr]. rewrite (proj2 (Z.ltb_ge E (E - size))) by hlia. done. }
  rewrite (u32_small (E - size)) by hlia. cbn [hd_addr].
  pose proof (proj1 Hok) as Hwf. destruct (wf_struct _ _ _ _ _ Hwf) as (Ha & Ha0 & Hs & _).
  destruct (Z.ltb_spec a (E - size)) as [Hlt|Hge].
  2:{ right. split; [|done]. destruct Hwf as [_ [_ Hl]%linked_app _ _].
      eapply no_fit_far; [done|]. cbn [hd_addr]. hlia. }
  rewrite (get_mem_ok _ _ _ Ha), ret_bind. cbn [m_used m_next].
  rewrite (u32_small (hd_addr l2 E - (a + SIZEOF_STRUCT_MEM))) by hlia.
  destruct (negb u && (size <=? hd_addr l2 E - (a + SIZEOF_STRUCT_MEM))) eqn:Hfit.
  - apply andb_true_iff in Hfit as [Hu%negb_true_iff Hfit%Z.leb_le]. subst u. left.
    destruct (malloc_found_spec _ _ _ _ size Hok ltac:(lia) ltac:(lia)) as (h' & HF & Hok').
    exists [], a, l2, h'. rewrite app_nil_r. split; [done|]. split; [done|]. split; [lia|by split].
  - assert (u = true \/ hd_addr l2 E - a - SIZEOF_STRUCT_MEM < size) as Hno.
    { destruct u; [by left|right]. simpl in Hfit. apply Z.leb_gt in Hfit. lia. }
    rewrite cons_middle, app_assoc in Hok.
    destruct (IH _ fuel Hok Hsz ltac:(lia)) as [(la & b & lb & h' & -> & Hnf & Hf & HM & Hok')|[Hnf HM]].
    + left. exists ((a, u) :: la), b, lb, h'. rewrite HM.
      rewrite <- app_assoc in Hok'. cbn [app] in Hok'. rewrite hd_addr_app in Hno.
      split; [done|]. split; [by split|]. split; [done|]. split; [done|].
      by rewrite <- app_assoc in Hok' |- *.
    + right. by split.
Qed.

(** The blocks before [lfree] are used. *)
Lemma lfree_split l e : exists l1 l2, l = l1 ++ l2 /\ first_free l e = hd_addr l2 e
  /\ forall size e', no_fit size l1 e'.
Proof.
  induction l as [|[a u] l IH]; [by exists [], []|].
  destruct u; [|by exists [], ((a, false) :: l)]. destruct IH as (l1 & l2 & -> & Hf & Hn).
  exists ((a, true) :: l1), l2. split; [done|]. split; [done|]. intros. split; [by left|done].
Qed.

Lemma align_id x : LWIP_MEM_ALIGN_SIZE x = x.
Proof.
  unfold LWIP_MEM_ALIGN_SIZE, MEM_ALIGNMENT. change (Z.lnot (1 - 1)) with (-1).
  rewrite Z.land_m1_r. lia.
Qed.

Definition request (size : Z) : Z := Z.max size MIN_SIZE_ALIGNED.
Lemma request_eq x : 0 <= x < 2 ^ 32 ->
  (if u32 (LWIP_MEM_ALIGN_SIZE x) <? MIN_SIZE_ALIGNED then MIN_SIZE_ALIGNED
   else u32 (LWIP_MEM_ALIGN_SIZE x)) = request x.
Proof.
  intros Hx. rewrite align_id, u32_small by lia. unfold request.
  destruct (Z.ltb_spec x MIN_SIZE_ALIGNED); lia.
Qed.

(** [mem_malloc] takes the first free block that is large enough, and returns
    [NULL] without changing the heap exactly when there is none. *)
Lemma mem_malloc_spec h l size : heap_ok h l -> 0 < size < 2 ^ 32 ->
  (exists l1 a l2 h', l = l1 ++ (a, false) :: l2 /\ no_fit (request size) l1 a
     /\ request size <= hd_addr l2 E - a - SIZEOF_STRUCT_MEM
     /\ mem_malloc h size = Ret (Some (a + SIZEOF_STRUCT_MEM), h')
     /\ heap_ok h' (l1 ++ ((a, true) :: malloc_rest a (request size) l2) ++ l2))
  \/ (no_fit (request size) l E /\ mem_malloc h size = Ret (None, h)).
Proof.
  intros Hok Hsz. unfold mem_malloc. rewrite (proj2 (Z.eqb_neq size 0)) by lia.
  rewrite request_eq by lia. assert (size <= request size /\ MIN_SIZE_ALIGNED <= request size)
    as [Hr1 Hr2] by (unfold request; lia). generalize dependent (request size). intros rq Hr1 Hr2.
  pose proof (proj1 Hok) as [Hf Hl He Hlf].
  rewrite (proj2 (Z.ltb_ge rq size)), orb_false_r by lia.
  destruct (Z.ltb_spec E rq) as [Hbig|Hsmall].
  { right. split; [|done]. eapply no_fit_far; [done|]. lia. }
  destruct (lfree_split l E) as (l1 & l2 & -> & Hff & Hn). rewrite Hlf, Hff.
  assert (length l2 < S (base.size (structs h)))%nat as Hlen.
  { pose proof (linked_length _ _ _ _ Hl (ex_intro _ _ He)). rewrite length_app in *. lia. }
  destruct (malloc_loop_spec h l1 l2 rq _ Hok ltac:(lia) Hlen)
    as [(la & a & lb & h' & -> & Hnf & Hfit & HM & Hok')|[Hnf HM]].
  - left. exists (l1 ++ la), a, lb, h'. rewrite <- app_assoc. rewrite HM.
    split; [done|]. split; [by apply no_fit_app|]. done.
  - right. rewrite HM. split; [by apply no_fit_app|done].
Qed.

(** *** [mem_trim] *)

(** The blocks [(a, true) :: mid] become [(a, true) :: (p2, false)]. *)
Lemma trim_replace h lf l1 a mid p2 l2 :
  heap_wf h (l1 ++ ((a, true) :: mid) ++ l2) ->
  a + SIZEOF_STRUCT_MEM + MIN_SIZE_ALIGNED <= p2 ->
  p2 + SIZEOF_STRUCT_MEM + MIN_SIZE_ALIGNED <= hd_addr l2 E ->
  lf = first_free (l1 ++ (a, true) :: (p2, false) :: l2) E ->
  exists h', trim_split (Heap (structs h) lf) a p2 (hd_addr l2 E) = Ret h'
    /\ heap_wf h' (l1 ++ (a, true) :: (p2, false) :: l2).
Proof.
  intros Hwf Hp Hp2 ->. destruct (wf_struct h l1 a true (mid ++ l2) Hwf) as (Ha & Ha0 & Hs & _).
  destruct Hwf as [Hf Hl He Hlf]. unfold trim_split, put_mem. cbn [structs lfree].
  set (lf := first_free _ E). set (S1 := <[p2 := Mem (hd_addr l2 E) a false]> (structs h)).
  assert (hd_addr l2 E <= E).
  { rewrite !linked_app in Hl. destruct Hl as (_ & _ & Hl). by apply linked_end_le in Hl. }
  assert (S1 !! a = structs h !! a) as Ha1 by (apply lookup_insert_ne; hlia). rewrite Ha in Ha1.
  unfold set_next. rewrite (get_mem_ok (Heap S1 lf) _ _ Ha1), !ret_bind. unfold put_mem.
  cbn [structs m_prev m_used Mem.lfree].
  destruct (replace_blocks (structs h) (<[a := Mem p2 (last_addr 0 l1) true]> S1) lf l1
     ((a, true) :: mid) [(a, true); (p2, false)] l2) as (S2 & HS & HL & HE); try done.
  - split; [apply lookup_insert_eq|]. split; [done|]. apply linked_singleton; [|done].
    rewrite lookup_insert_ne by hlia. apply lookup_insert_eq.
  - intros c Hc. cbn [hd_addr] in Hc. unfold S1. rewrite !lookup_insert_ne by hlia. done.
  - exists (Heap S2 lf). split; [exact HS|]. apply wf_intro; try done.
    + rewrite hd_addr_app in *. done.
    + by rewrite HE.
Qed.

(** The new block list after a shrink to [sz]. *)
Definition trimmed (a sz : Z) (l2 : list block) : list block :=
  let p2 := a + SIZEOF_STRUCT_MEM + sz in
  if sz =? hd_addr l2 E - a - SIZEOF_STRUCT_MEM then l2
  else match l2 with
       | (_, false) :: l3 => (p2, false) :: l3
       | _ => if sz + SIZEOF_STRUCT_MEM + MIN_SIZE_ALIGNED <=? hd_addr l2 E - a - SIZEOF_STRUCT_MEM
              then (p2, false) :: l2 else l2
       end.

(** [lfree] follows a free block that moves from [b] to [b'], and a free block
    that appears at [b'] between used ones. *)
Lemma first_free_move S p l1 a b b' l2 e : linked S p l1 a -> a < b ->
  (if first_free (l1 ++ (a, true) :: (b, false) :: l2) e =? b then b'
   else first_free (l1 ++ (a, true) :: (b, false) :: l2) e)
  = first_free (l1 ++ (a, true) :: (b', false) :: l2) e.
Proof.
  intros Hl Hab. rewrite !first_free_app. cbn [first_free].
  destruct (first_free_cases _ _ _ _ Hl) as [H|(c & Hc & H)]; rewrite !H.
  - by rewrite Z.eqb_refl.
  - by rewrite (proj2 (Z.eqb_neq c b)) by lia.
Qed.

Lemma first_free_new S p l1 a b' l2 e : linked S p l1 a -> a < b' < first_free l2 e ->
  (if b' <? first_free (l1 ++ (a, true) :: l2) e then b'
   else first_free (l1 ++ (a, true) :: l2) e)
  = first_free (l1 ++ (a, true) :: (b', false) :: l2) e.
Proof.
  intros Hl Hab. rewrite !first_free_app. cbn [first_free].
  destruct (first_free_cases _ _ _ _ Hl) as [H|(c & Hc & H)]; rewrite !H.
  - by rewrite (proj2 (Z.ltb_lt b' _)) by lia.
  - by rewrite (proj2 (Z.ltb_ge b' c)) by lia.
Qed.

Lemma set_lfree_if (c : bool) h p :
  (if c then set_lfree h p else h) = Heap (structs h) (if c then p else lfree h).
Proof. by destruct c, h. Qed.

(** A block is shrunk, unless it is the last one, fills the heap and has room to
    split: that trips the assertion [mem->next != MEM_SIZE_ALIGNED]. *)
Definition trim_at_end (a sz : Z) (l2 : list block) : Prop :=
  l2 = [] /\ sz + SIZEOF_STRUCT_MEM + MIN_SIZE_ALIGNED <= E - a - SIZEOF_STRUCT_MEM.

Lemma trimmed_coalesced l1 a sz l2 : coalesced false (l1 ++ (a, true) :: l2) ->
  coalesced false (l1 ++ (a, true) :: trimmed a sz l2).
Proof.
  rewrite !coalesced_app. intros [H1 [_ H2]]. split; [done|]. split; [done|].
  unfold trimmed. destruct (sz =? _); [done|]. destruct l2 as [|[b [|]] l3].
  - destruct (_ <=? _); [by split|done].
  - destruct (_ <=? _); [simpl in *; tauto|done].
  - simpl in *; tauto.
Qed.

(** The next block is free: its start moves down to [p2]. *)
Lemma trim_into_free h l1 a b l3 p2 :
  heap_wf h (l1 ++ (a, true) :: (b, false) :: l3) ->
  a + SIZEOF_STRUCT_MEM + MIN_SIZE_ALIGNED <= p2 < b ->
  exists h', trim_split (if lfree h =? b then set_lfree h p2 else h) a p2 (hd_addr l3 E) = Ret h'
    /\ heap_wf h' (l1 ++ (a, true) :: (p2, false) :: l3).
Proof.
  intros Hwf Hp. pose proof (ok_linked _ _ Hwf) as [HL1 (_ & _ & _ & Hs3 & _)]%linked_app.
  rewrite set_lfree_if, (ok_lfree _ _ Hwf), (first_free_move (structs h) 0) by (done || hlia).
  apply (trim_replace h _ l1 a [(b, false)]); (done || hlia).
Qed.

(** The next block is used: a free block is made at [p2]. *)
Lemma trim_before_used h l1 a b l3 p2 :
  heap_wf h (l1 ++ (a, true) :: (b, true) :: l3) ->
  a + SIZEOF_STRUCT_MEM + MIN_SIZE_ALIGNED <= p2 ->
  p2 + SIZEOF_STRUCT_MEM + MIN_SIZE_ALIGNED <= b ->
  exists h', trim_split (if p2 <? lfree h then set_lfree h p2 else h) a p2 b = Ret h'
    /\ heap_wf h' (l1 ++ (a, true) :: (p2, false) :: (b, true) :: l3).
Proof.
  intros Hwf Hp Hp2. pose proof (ok_linked _ _ Hwf) as [HL1 (_ & _ & HL2)]%linked_app.
  pose proof (first_free_ge _ _ _ _ HL2) as Hfg. cbn [hd_addr] in Hfg.
  rewrite set_lfree_if, (ok_lfree _ _ Hwf), (first_free_new (structs h) 0) by (done || hlia).
  apply (trim_replace h _ l1 a [] p2 ((b, true) :: l3)); (done || hlia).
Qed.

Lemma mem_trim_spec h l1 a l2 new_size : heap_ok h (l1 ++ (a, true) :: l2) ->
  0 <= new_size -> request new_size <= hd_addr l2 E - a - SIZEOF_STRUCT_MEM ->
  ~ trim_at_end a (request new_size) l2 ->
  exists h', mem_trim h (a + SIZEOF_STRUCT_MEM) new_size = Ret (Some (a + SIZEOF_STRUCT_MEM), h')
    /\ heap_ok h' (l1 ++ (a, true) :: trimmed a (request new_size) l2).
Proof.
  intros [Hwf Hco] Hn Hsz Hend. pose proof (trimmed_coalesced _ _ (request new_size) _ Hco) as Hco'.
  destruct (wf_struct _ _ _ _ _ Hwf) as (Ha & Ha0 & Hs & _).
  destruct (wf_next _ _ _ _ _ Hwf) as (n & Hnx & Hu & Hnn).
  assert (new_size <= request new_size /\ MIN_SIZE_ALIGNED <= request new_size)
    as [Hr1 Hr2] by (unfold request; lia).
  unfold mem_trim. rewrite request_eq by hlia. generalize dependent (request new_size).
  intros sz Hsz Hend Hco' Hr1 Hr2.
  rewrite (proj2 (Z.ltb_ge E sz)), (proj2 (Z.ltb_ge sz new_size)) by hlia. cbn [orb].
  rewrite lwip_assert_true, ret_bind
    by (rewrite (proj2 (Z.leb_le _ _)), (proj2 (Z.ltb_lt _ _)) by hlia; done).
  replace (a + SIZEOF_STRUCT_MEM - SIZEOF_STRUCT_MEM) with a by lia.
  rewrite (get_mem_ok _ _ _ Ha), ret_bind. cbn [m_next].
  assert (u32 (u32 (hd_addr l2 E - a) - SIZEOF_STRUCT_MEM) = hd_addr l2 E - a - SIZEOF_STRUCT_MEM)
    as -> by (rewrite (u32_small (hd_addr l2 E - a)), u32_small; hlia).
  rewrite (lwip_assert_true (sz <=? _)), ret_bind by (apply Z.leb_le; lia). unfold trimmed in *.
  destruct (Z.eqb_spec sz (hd_addr l2 E - a - SIZEOF_STRUCT_MEM)) as [_|Hne].
  { eexists. split; [done|by split]. }
  rewrite (u32_small (a + SIZEOF_STRUCT_MEM + sz)) by hlia.
  rewrite (get_mem_ok _ _ _ Hnx), ret_bind, Hu. pose proof (ok_linked _ _ Hwf) as [_ (_ & _ & HL)]%linked_app.
  pose proof (linked_end_lt _ _ _ _ HL) as HbE.
  destruct l2 as [|[b [|]] l3]; cbn [negb hd_addr] in *.
  - rewrite (proj2 (Z.leb_gt _ _)) by (apply Z.nle_gt; intros ?; apply Hend; by split).
    rewrite (proj2 (Z.leb_gt _ _)) in Hco' by (apply Z.nle_gt; intros ?; apply Hend; by split).
    eexists. split; [done|by split].
  - destruct (Z.leb_spec (sz + SIZEOF_STRUCT_MEM + MIN_SIZE_ALIGNED) (b - a - SIZEOF_STRUCT_MEM));
      [|eexists; split; [done|by split]].
    rewrite lwip_assert_true, ret_bind
      by (rewrite (proj2 (Z.eqb_neq b E)); [done|specialize (HbE ltac:(done)); lia]).
    destruct (trim_before_used h l1 a b l3 (a + SIZEOF_STRUCT_MEM + sz)) as (h' & -> & Hwf');
      [done|hlia|hlia|]. exists h'. split; [done|by split].
  - rewrite lwip_assert_true, ret_bind
      by (rewrite (proj2 (Z.eqb_neq b E)); [done|specialize (HbE ltac:(done)); lia]).
    rewrite (Hnn false l3 eq_refl).
    destruct (trim_into_free h l1 a b l3 (a + SIZEOF_STRUCT_MEM + sz)) as (h' & -> & Hwf');
      [done|hlia|]. exists h'. split; [done|by split].
Qed.

(** *** Allocated regions *)

(** A region of the list of allocated ones is a used block. *)
Lemma live_split l e pre p sz post : live l e = pre ++ (p, sz) :: post ->
  exists l1 l2, l = l1 ++ (p - SIZEOF_STRUCT_MEM, true) :: l2
    /\ live l1 (p - SIZEOF_STRUCT_MEM) = pre /\ live l2 e = post /\ sz = hd_addr l2 e - p.
Proof.
  revert pre. induction l as [|[a u] l IH]; intros pre; simpl.
  { by destruct pre. }
  destruct u; simpl.
  - destruct pre as [|x pre]; simpl.
    + intros [= <- <- <-]. exists [], l. replace (a + SIZEOF_STRUCT_MEM - SIZEOF_STRUCT_MEM) with a by lia.
      repeat split. lia.
    + intros [= <- Hl]. destruct (IH _ Hl) as (l1 & l2 & -> & <- & <- & ->).
      exists ((a, true) :: l1), l2. rewrite hd_addr_app. done.
  - intros Hl. destruct (IH _ Hl) as (l1 & l2 & -> & <- & <- & ->). by exists ((a, false) :: l1), l2.
Qed.

(** The regions lie in order, apart from each other and inside the heap. *)
Fixpoint regions_ok (lo : Z) (rs : list (Z * Z)) (hi : Z) : Prop :=
  match rs with
  | [] => lo <= hi
  | (p, sz) :: rs' => lo + SIZEOF_STRUCT_MEM <= p /\ 0 < sz /\ regions_ok (p + sz) rs' hi
  end.

Lemma regions_ok_weaken lo lo' rs hi : lo' <= lo -> regions_ok lo rs hi -> regions_ok lo' rs hi.
Proof. destruct rs as [|[p sz] rs]; simpl; [lia|]. intros ? (? & ? & ?). split; [lia|done]. Qed.

Lemma linked_regions S p l e : linked S p l e -> regions_ok (hd_addr l e) (live l e) e.
Proof.
  revert p. induction l as [|[a u] l IH]; intros p; simpl; [lia|]. intros (_ & Hs & Hl).
  specialize (IH _ Hl). destruct u; simpl.
  - split; [lia|]. split; [hlia|]. eapply regions_ok_weaken; [|done]. lia.
  - eapply regions_ok_weaken; [|done]. hlia.
Qed.

Lemma no_fit_all size l e : no_fit size l e ->
  forall l1 a l2, l = l1 ++ (a, false) :: l2 -> hd_addr l2 e - a - SIZEOF_STRUCT_MEM < size.
Proof. intros H l1 a l2 ->. apply no_fit_app in H as [_ [[|] _]]; done. Qed.

Lemma live_merge l1 a l2 :
  live (merge_backward l1 a (merge_forward l2)) E = live l1 a ++ live l2 E.
Proof.
  assert (live (merge_forward l2) E = live l2 E) as Hf by (by destruct l2 as [|[b [|]] l2]).
  unfold merge_backward. destruct (last_free false l1) eqn:Hl.
  - rewrite live_app, Hf. f_equal. apply (last_free_split _ 0) in Hl as (l0 & b & -> & _).
    by rewrite !live_app.
  - rewrite live_app. cbn [live hd_addr app]. by rewrite Hf.
Qed.

Lemma live_taken a sz l2 : exists sz', sz <= hd_addr l2 E - a - SIZEOF_STRUCT_MEM ->
  sz <= sz' /\ live (((a, true) :: malloc_rest a sz l2) ++ l2) E
               = (a + SIZEOF_STRUCT_MEM, sz') :: live l2 E.
Proof.
  unfold malloc_rest. destruct (_ <=? _); cbn [app live hd_addr].
  - exists sz. intros _. split; [done|]. do 3 f_equal. lia.
  - eexists. intros H. split; [exact H|]. done.
Qed.

Lemma live_trimmed a sz l2 : exists sz', sz <= hd_addr l2 E - a - SIZEOF_STRUCT_MEM ->
  sz <= sz' <= hd_addr l2 E - a - SIZEOF_STRUCT_MEM
  /\ live ((a, true) :: trimmed a sz l2) E = (a + SIZEOF_STRUCT_MEM, sz') :: live l2 E.
Proof.
  unfold trimmed. destruct (Z.eqb_spec sz (hd_addr l2 E - a - SIZEOF_STRUCT_MEM)).
  { exists sz. intros _. split; [lia|]. cbn [live app]. do 3 f_equal. lia. }
  destruct l2 as [|[b [|]] l3]; [destruct (_ <=? _)|destruct (_ <=? _)|]; cbn [live hd_addr app].
  all: eexists; intros Hsz; split; [|reflexivity]; cbn [hd_addr] in *; lia.
Qed.

Lemma regions_bounds lo rs hi p sz : regions_ok lo rs hi -> (p, sz) ∈ rs ->
  lo + SIZEOF_STRUCT_MEM <= p /\ 0 < sz /\ p + sz <= hi.
Proof.
  revert lo. induction rs as [|[q t] rs IH]; intros lo; simpl; [by intros _ ?%elem_of_nil|].
  intros (Hq & Ht & Hrs) [Heq|Hin]%elem_of_cons.
  - simplify_eq. split; [done|]. split; [done|]. clear -Hrs.
    generalize dependent (q + t). induction rs as [|[p sz] rs IH]; simpl; [done|].
    intros z (? & ? & H). specialize (IH _ H). hlia.
  - destruct (IH _ Hrs Hin) as (? & ? & ?). split; [hlia|done].
Qed.

Lemma regions_disjoint lo rs hi p sz q t : regions_ok lo rs hi ->
  (p, sz) ∈ rs -> (q, t) ∈ rs -> (p = q /\ sz = t) \/ p + sz <= q \/ q + t <= p.
Proof.
  revert lo. induction rs as [|[r v] rs IH]; intros lo; simpl; [by intros _ ?%elem_of_nil|].
  intros (Hq & Ht & Hrs) [Hp|Hp]%elem_of_cons [Hq'|Hq']%elem_of_cons; simplify_eq.
  - by left.
  - destruct (regions_bounds _ _ _ _ _ Hrs Hq'). hlia.
  - destruct (regions_bounds _ _ _ _ _ Hrs Hp). hlia.
  - by eapply IH.
Qed.

Lemma regions_NoDup lo rs hi : regions_ok lo rs hi -> NoDup rs.*1.
Proof.
  revert lo. induction rs as [|[p sz] rs IH]; intros lo; [constructor|]. intros (Hp & Hsz & Hrs).
  constructor; [|by eapply IH]. intros ((q & t) & Heq & Hin)%list_elem_of_fmap. simpl in Heq. subst q.
  destruct (regions_bounds _ _ _ _ _ Hrs Hin). hlia.
Qed.

Lemma mem_init_ok : heap_ok mem_init [(0, false)].
Proof. split; [|done]. by split. Qed.

Lemma heap_ok_regions h l : heap_ok h l -> regions_ok 0 (live l E) E.
Proof.
  intros [[Hf Hl _ _] _]. apply linked_regions in Hl. by rewrite Hf in Hl.
Qed.

Lemma mem_free_live h l pre p sz post : heap_ok h l -> live l E = pre ++ (p, sz) :: post ->
  exists h' l', mem_free h (Some p) = Ret h' /\ heap_ok h' l' /\ live l' E = pre ++ post.
Proof.
  intros Hok (l1 & l2 & -> & <- & <- & _)%live_split.
  destruct (mem_free_spec _ _ _ _ Hok) as (h' & Hm & Hok').
  replace (p - SIZEOF_STRUCT_MEM + SIZEOF_STRUCT_MEM) with p in Hm by lia.
  eexists h', _. split; [done|]. split; [done|]. apply live_merge.
Qed.

Lemma mem_malloc_live h l size : heap_ok h l -> 0 < size < 2 ^ 32 ->
  (exists pre p sz post h' l', mem_malloc h size = Ret (Some p, h') /\ heap_ok h' l'
     /\ live l E = pre ++ post /\ live l' E = pre ++ (p, sz) :: post /\ size <= sz)
  \/ (mem_malloc h size = Ret (None, h) /\ no_fit (request size) l E).
Proof.
  intros Hok Hsz. assert (size <= request size) by (unfold request; lia).
  destruct (mem_malloc_spec h l size Hok Hsz)
    as [(l1 & a & l2 & h' & -> & _ & Hfit & HM & Hok')|[Hn HM]]; [left|by right].
  destruct (live_taken a (request size) l2) as (sz' & Hlive). destruct (Hlive Hfit) as [Hle Hl].
  eexists (live l1 a), _, sz', (live l2 E), h', _. split; [done|]. split; [done|].
  rewrite (live_app l1 ((a, false) :: l2)), (live_app l1 (_ ++ l2)), Hl. split; [done|]. split; [done|lia].
Qed.

(** The cases in which [mem_trim] stops. *)
Lemma mem_trim_stops h l1 a l2 n : heap_ok h (l1 ++ (a, true) :: l2) -> 0 <= n ->
  request n <= E ->
  hd_addr l2 E - a - SIZEOF_STRUCT_MEM < request n \/ trim_at_end a (request n) l2 ->
  mem_trim h (a + SIZEOF_STRUCT_MEM) n = Assert.
Proof.
  intros [Hwf Hco] Hn HE Hcase. destruct (wf_struct _ _ _ _ _ Hwf) as (Ha & Ha0 & Hs & _).
  destruct (wf_next _ _ _ _ _ Hwf) as (m2 & Hnx & Hu & _).
  assert (n <= request n) by (unfold request; lia).
  unfold mem_trim. rewrite request_eq by (unfold request in *; hlia).
  rewrite (proj2 (Z.ltb_ge E _)), (proj2 (Z.ltb_ge _ n)) by hlia. cbn [orb].
  rewrite lwip_assert_true, ret_bind
    by (rewrite (proj2 (Z.leb_le _ _)), (proj2 (Z.ltb_lt _ _)) by hlia; done).
  replace (a + SIZEOF_STRUCT_MEM - SIZEOF_STRUCT_MEM) with a by lia.
  rewrite (get_mem_ok _ _ _ Ha), ret_bind. cbn [m_next].
  assert (u32 (u32 (hd_addr l2 E - a) - SIZEOF_STRUCT_MEM) = hd_addr l2 E - a - SIZEOF_STRUCT_MEM)
    as -> by (rewrite (u32_small (hd_addr l2 E - a)), u32_small; hlia).
  destruct Hcase as [Hlt|[-> Hroom]].
  { by rewrite (proj2 (Z.leb_gt (request n) _)) by lia. }
  cbn [hd_addr] in *. rewrite (lwip_assert_true (request n <=? _)), ret_bind by (apply Z.leb_le; hlia).
  rewrite (proj2 (Z.eqb_neq (request n) _)) by hlia.
  rewrite (get_mem_ok _ _ _ Hnx), ret_bind, Hu. cbn [negb].
  by rewrite (proj2 (Z.leb_le _ _)) by lia.
Qed.

Lemma mem_trim_live h l pre p sz post n r h' :
  heap_ok h l -> live l E = pre ++ (p, sz) :: post -> 0 <= n < 2 ^ 32 ->
  mem_trim h p n = Ret (r, h') ->
  (r = None /\ h' = h) \/
  (r = Some p /\ exists l' sz', heap_ok h' l' /\ live l' E = pre ++ (p, sz') :: post
     /\ n <= sz' <= sz).
Proof.
  intros Hok (l1 & l2 & -> & <- & <- & ->)%live_split Hn HT.
  destruct (Z.le_gt_cases (request n) E) as [HE|HE].
  2:{ left. unfold mem_trim in HT. rewrite request_eq, (proj2 (Z.ltb_lt E _)) in HT by lia.
      cbn [orb] in HT. by injection HT as <- <-. }
  replace p with (p - SIZEOF_STRUCT_MEM + SIZEOF_STRUCT_MEM) in HT by lia.
  destruct (decide (hd_addr l2 E - (p - SIZEOF_STRUCT_MEM) - SIZEOF_STRUCT_MEM < request n
                    \/ trim_at_end (p - SIZEOF_STRUCT_MEM) (request n) l2)) as [Hst|Hst].
  { rewrite (mem_trim_stops _ _ _ _ _ Hok) in HT by (done || lia). done. }
  apply Decidable.not_or in Hst as [Hge Hnend]. apply Z.nlt_ge in Hge.
  destruct (mem_trim_spec _ _ _ _ n Hok ltac:(lia) ltac:(lia) Hnend) as (h1 & HT' & Hok').
  rewrite HT' in HT. injection HT as <- <-. right. split; [f_equal; lia|].
  destruct (live_trimmed (p - SIZEOF_STRUCT_MEM) (request n) l2) as (sz' & Hlive).
  destruct (Hlive Hge) as [Hle Hl]. eexists _, sz'. split; [done|]. rewrite live_app, Hl.
  replace (p - SIZEOF_STRUCT_MEM + SIZEOF_STRUCT_MEM) with p by lia.
  assert (n <= request n) by (unfold request; lia). split; [done|lia].
Qed.

Lemma trim_live_ok h l pre p sz post n :
  heap_ok h l -> live l MEM_SIZE_ALIGNED = pre ++ (p, sz) :: post ->
  0 <= n -> request n <= sz -> p + sz < MEM_SIZE_ALIGNED ->
  exists h' l' sz', mem_trim h p n = Ret (Some p, h') /\ heap_ok h' l'
    /\ live l' MEM_SIZE_ALIGNED = pre ++ (p, sz') :: post /\ n <= sz' <= sz.
Proof.
  intros Hok Hl Hn Hsz Hend. pose proof Hl as (l1 & l2 & -> & Hpre & Hpost & ->)%live_split.
  destruct (mem_trim_spec _ _ _ _ n Hok Hn ltac:(lia)) as (h' & HT & Hok').
  { intros [-> _]. cbn [hd_addr] in *. lia. }
  replace (p - SIZEOF_STRUCT_MEM + SIZEOF_STRUCT_MEM) with p in HT by lia.
  destruct (live_trimmed (p - SIZEOF_STRUCT_MEM) (request n) l2) as (sz' & Hlive).
  destruct (Hlive ltac:(lia)) as [Hle Hl']. eexists h', _, sz'. split; [done|]. split; [done|].
  rewrite live_app, Hl', <- Hpre, <- Hpost.
  replace (p - SIZEOF_STRUCT_MEM + SIZEOF_STRUCT_MEM) with p by lia.
  assert (n <= request n) by (unfold request; lia). split; [done|lia].
Qed.

(** ** Clients of the heap

    The heap together with the requests its clients hold: pointer and size.
    Clients free and trim only what they hold. *)
Inductive heap_reach : heap -> gmap Z Z -> Prop :=
| reach_init : heap_reach mem_init ∅
| reach_malloc h C size p h' :
    heap_reach h C -> 0 < size < 2 ^ 32 -> mem_malloc h size = Ret (Some p, h') ->
    heap_reach h' (<[p := size]> C)
| reach_malloc_null h C size h' :
    heap_reach h C -> 0 < size < 2 ^ 32 -> mem_malloc h size = Ret (None, h') -> heap_reach h' C
| reach_free h C p h' :
    heap_reach h C -> is_Some (C !! p) -> mem_free h (Some p) = Ret h' ->
    heap_reach h' (delete p C)
| reach_trim h C p size r h' :
    heap_reach h C -> is_Some (C !! p) -> 0 <= size < 2 ^ 32 ->
    mem_trim h p size = Ret (r, h') ->
    heap_reach h' (if r is Some _ then <[p := size]> C else C).

(** The requests are served by regions of the heap. *)
Definition served (C : gmap Z Z) (L : list (Z * Z)) : Prop :=
  forall p n, C !! p = Some n -> exists sz, (p, sz) ∈ L /\ n <= sz.

Lemma served_insert C pre p n sz post :
  served C (pre ++ post) -> n <= sz -> served (<[p := n]> C) (pre ++ (p, sz) :: post).
Proof.
  intros HC Hn q m. destruct (decide (q = p)) as [->|Hne].
  - rewrite lookup_insert_eq. intros [= ->]. exists sz. split; [|done]. set_solver.
  - rewrite lookup_insert_ne by done. intros (t & Hin & Ht)%HC. exists t. split; [|done]. set_solver.
Qed.

Lemma served_delete C pre p sz post :
  served C (pre ++ (p, sz) :: post) -> served (delete p C) (pre ++ post).
Proof.
  intros HC q m [Hne Hq]%lookup_delete_Some. destruct (HC _ _ Hq) as (t & Hin & Ht).
  exists t. split; [|done]. set_solver.
Qed.

Lemma served_reach h C : heap_reach h C -> exists l, heap_ok h l /\ served C (live l E).
Proof.
  induction 1 as [|h C size p h' _ (l & Hok & HC) Hsz HM|h C size h' _ (l & Hok & HC) Hsz HM
    |h C p h' _ (l & Hok & HC) [n Hp] HF|h C p size r h' _ (l & Hok & HC) [n Hp] Hsz HT].
  - exists [(0, false)]. split; [apply mem_init_ok|]. done.
  - destruct (mem_malloc_live h l size Hok Hsz)
      as [(pre & q & sz & post & h1 & l1 & HM' & Hok' & Hl & Hl' & Hle)|[HM' _]];
      rewrite HM' in HM; [|done]. injection HM as <- <-. exists l1. split; [done|].
    rewrite Hl'. apply served_insert; [by rewrite <- Hl|done].
  - destruct (mem_malloc_live h l size Hok Hsz)
      as [(pre & q & sz & post & h1 & l1 & HM' & _)|[HM' _]]; rewrite HM' in HM; [done|].
    injection HM as <-. eauto.
  - destruct (HC _ _ Hp) as (sz & (pre & post & Hl)%list_elem_of_split & _).
    destruct (mem_free_live _ _ _ _ _ _ Hok Hl) as (h1 & l1 & HF' & Hok' & Hl1).
    rewrite HF' in HF. injection HF as <-. exists l1. split; [done|]. rewrite Hl1.
    eapply served_delete. by rewrite <- Hl.
  - destruct (HC _ _ Hp) as (sz & (pre & post & Hl)%list_elem_of_split & _).
    destruct (mem_trim_live _ _ _ _ _ _ _ _ _ Hok Hl Hsz HT)
      as [[-> ->]|(-> & l1 & sz' & Hok' & Hl1 & Hle)]; [eauto|].
    exists l1. split; [done|]. rewrite Hl1. rewrite <- insert_delete_eq. 
    apply served_insert; [|lia]. eapply served_delete. by rewrite <- Hl.
Qed.

(** The block at [p] is the last one of the heap, and shrinking it to [k] bytes leaves room for another one. *)
Definition trims_at_end (h : heap) (p k : Z) : Prop :=
  exists m, structs h !! (p - SIZEOF_STRUCT_MEM) = Some m /\ m_next m = MEM_SIZE_ALIGNED /\ Z.max k MIN_SIZE_ALIGNED + SIZEOF_STRUCT_MEM + MIN_SIZE_ALIGNED <= MEM_SIZE_ALIGNED - p.
(** Shrinking a held block. *)
Lemma mem_trim_held h l p sz k : heap_ok h l -> (p, sz) ∈ live l E -> 0 <= k <= sz ->
  (trims_at_end h p k /\ mem_trim h p k = Assert) \/ (~ trims_at_end h p k /\ exists h', mem_trim h p k = Ret (Some p, h')).
Proof.
  intros Hok (pre & post & Hl)%list_elem_of_split Hk. destruct (live_split _ _ _ _ _ _ Hl) as (l1 & l2 & -> & _ & _ & ->).
  destruct (wf_struct _ _ _ _ _ (proj1 Hok)) as (Ha & Ha0 & Hs & _). pose proof (ok_linked _ _ (proj1 Hok)) as [_ (_ & _ & HL)]%linked_app.
  pose proof (linked_end_lt _ _ _ _ HL) as HbE. fold (request k) in *. unfold trims_at_end. fold (request k).
  assert (request k <= hd_addr l2 E - (p - SIZEOF_STRUCT_MEM) - SIZEOF_STRUCT_MEM) as Hr by (unfold request; lia).
  assert (hd_addr l2 E <= E) as HE by (by apply linked_end_le in HL).
  pose proof (mem_trim_stops _ _ _ _ k Hok) as Hstop. pose proof (mem_trim_spec _ _ _ _ k Hok) as Hspec. replace (p - SIZEOF_STRUCT_MEM + SIZEOF_STRUCT_MEM) with p in Hstop, Hspec by lia.
  destruct (decide (trim_at_end (p - SIZEOF_STRUCT_MEM) (request k) l2)) as [Ht|Ht].
  - left. split; [|apply Hstop; [lia|hlia|by right]]. destruct Ht as [-> Ht]. eexists. split; [exact Ha|]. split; [done|]. hlia.
  - right. split.
    + intros (m & Hm & Hn & Hle). apply Ht. rewrite Ha in Hm. injection Hm as <-. cbn [m_next] in Hn. split; [|hlia].
      destruct l2; [done|]. specialize (HbE ltac:(done)). lia.
    + destruct (Hspec ltac:(lia) Hr Ht) as (h' & -> & _). by exists h'.
Qed.

(** ** Properties *)

(** C33: After any sequence of allocations, frees and trims that returned, in which clients use only
    pointers they hold: the memory held is disjoint and inside the heap, every
    pointer held can be freed, and an allocation returns a pointer or [NULL]: no
    assertion fails, no struct is read that is not there, and no loop runs on. A block that is held can be made smaller, with one exception, where the
    assertion of [mem.c:790] fails: the block is the last one of the heap, and there is room for another one behind it. *)
Theorem heap_clients_safe h C : heap_reach h C ->
  (forall p n, C !! p = Some n ->
     SIZEOF_STRUCT_MEM <= p /\ p + n <= MEM_SIZE_ALIGNED /\ exists h', mem_free h (Some p) = Ret h')
  /\ (forall p n q k, C !! p = Some n -> C !! q = Some k -> p <> q -> p + n <= q \/ q + k <= p)
  /\ (forall size, 0 < size < 2 ^ 32 -> exists r h', mem_malloc h size = Ret (r, h'))
  /\ (forall p n k, C !! p = Some n -> 0 <= k <= n ->
     (trims_at_end h p k /\ mem_trim h p k = Assert) \/ (~ trims_at_end h p k /\ exists h', mem_trim h p k = Ret (Some p, h'))).
Proof.
  intros (l & Hok & HC)%served_reach. pose proof (heap_ok_regions _ _ Hok) as Hreg.
  split; [|split; [|split]].
  - intros p n (sz & Hin & Hn)%HC. destruct (regions_bounds _ _ _ _ _ Hreg Hin) as (? & ? & ?).
    split; [lia|]. split; [lia|]. apply list_elem_of_split in Hin as (pre & post & Hl).
    destruct (mem_free_live _ _ _ _ _ _ Hok Hl) as (h' & _ & ? & _). eauto.
  - intros p n q k (sz & Hp & Hn)%HC (t & Hq & Hk)%HC Hne.
    destruct (regions_disjoint _ _ _ _ _ _ _ Hreg Hp Hq) as [[]|[|]]; (done || lia).
  - intros size Hsz. destruct (mem_malloc_live _ _ _ Hok Hsz)
      as [(pre & p & sz & post & h' & l' & HM & _)|[HM _]]; eauto.
  - intros p n k (sz & Hin & Hn)%HC Hk. apply (mem_trim_held h l p sz); [done|done|lia].
Qed.

Lemma heap_clients_safe_witness :
  let h := Heap (<[0 := Mem 112 0 true]> (<[112 := Mem 40960000 0 false]> (structs mem_init))) 112 in
  SIZEOF_STRUCT_MEM <= 12 /\ 12 + 100 <= MEM_SIZE_ALIGNED /\ exists h', mem_free h (Some 12) = Ret h'.
Proof.
  apply (heap_clients_safe _ (<[12 := 100]> ∅)); [|by rewrite lookup_insert_eq].
  eapply (reach_malloc mem_init ∅ 100 12).
  - constructor.
  - done.
  - vm_compute. reflexivity.
Defined.

(** [mem_malloc] is first fit: it takes the lowest free block that has room for
    the request (at least 12 bytes), splitting off the rest when that is large
    enough for a block, and returns [NULL], the heap unchanged, exactly when no
    free block has room. *)
Theorem mem_malloc_first_fit h l size : heap_ok h l -> 0 < size < 2 ^ 32 ->
  (exists l1 a l2 h', l = l1 ++ (a, false) :: l2 /\ no_fit (request size) l1 a
     /\ request size <= hd_addr l2 MEM_SIZE_ALIGNED - a - SIZEOF_STRUCT_MEM
     /\ mem_malloc h size = Ret (Some (a + SIZEOF_STRUCT_MEM), h')
     /\ heap_ok h' (l1 ++ (a, true) :: malloc_rest a (request size) l2 ++ l2))
  \/ (no_fit (request size) l MEM_SIZE_ALIGNED /\ mem_malloc h size = Ret (None, h)).
Proof. apply mem_malloc_spec. Qed.

Lemma mem_malloc_first_fit_witness :
  exists h', mem_malloc mem_init 100 = Ret (Some (0 + SIZEOF_STRUCT_MEM), h')
    /\ heap_ok h' [(0, true); (112, false)].
Proof.
  destruct (mem_malloc_first_fit mem_init [(0, false)] 100 mem_init_ok) as [H|[[Hn _] _]].
  - done.
  - destruct H as ([|b [|c l1]] & a & l2 & h' & Heq & _ & _ & HM & Hok); simplify_eq/=. eauto.
  - destruct Hn; [done|exfalso; vm_compute in H; discriminate].
Defined.

(** Freeing what was just allocated restores the heap: the block is merged with
    the rest that was split off, and with nothing else. *)
Theorem malloc_free_roundtrip h l size p h' :
  heap_ok h l -> 0 < size < 2 ^ 32 -> mem_malloc h size = Ret (Some p, h') ->
  exists h'', mem_free h' (Some p) = Ret h'' /\ heap_ok h'' l.
Proof.
  intros Hok Hsz HM. destruct (mem_malloc_spec h l size Hok Hsz)
    as [(l1 & a & l2 & h1 & -> & _ & _ & HM' & Hok')|[_ HM']]; rewrite HM' in HM; [|done].
  injection HM as <- <-. destruct (mem_free_spec h1 l1 a (malloc_rest a (request size) l2 ++ l2) Hok')
    as (h'' & HF & Hok''). exists h''. split; [done|]. destruct Hok as [_ Hco].
  apply coalesced_app in Hco as [Hc1 (Hc & Hc2)]. unfold merge_backward in Hok''.
  destruct (last_free false l1); [by specialize (Hc eq_refl)|].
  replace (merge_forward (malloc_rest a (request size) l2 ++ l2)) with l2 in Hok''; [done|].
  unfold malloc_rest. destruct (_ <=? _); [done|]. destruct l2 as [|[b [|]] l2]; simpl in *; try done.
  by destruct Hc2 as [Hc2 _]; specialize (Hc2 eq_refl).
Qed.

Lemma malloc_free_roundtrip_witness :
  let h1 := Heap (<[0 := Mem 112 0 true]> (<[112 := Mem 40960000 0 false]> (structs mem_init))) 112 in
  exists h'', mem_free h1 (Some 12) = Ret h'' /\ heap_ok h'' [(0, false)].
Proof.
  intros h1. apply (malloc_free_roundtrip mem_init [(0, false)] 100 12 h1).
  - apply mem_init_ok.
  - done.
  - vm_compute. reflexivity.
Defined.

(** A double free is detected: freeing a block that is already free stops in
    the assertion of [LWIP_MEM_ILLEGAL_FREE]. *)
Theorem mem_double_free_detected h l1 a l2 :
  heap_ok h (l1 ++ (a, false) :: l2) -> mem_free h (Some (a + SIZEOF_STRUCT_MEM)) = Assert.
Proof.
  intros [Hwf _]. destruct (wf_struct _ _ _ _ _ Hwf) as (Ha & Ha0 & Hs & _).
  unfold mem_free. rewrite ptr_aligned. cbn [Z.eqb negb].
  replace (a + SIZEOF_STRUCT_MEM - SIZEOF_STRUCT_MEM) with a by lia.
  rewrite (proj2 (Z.ltb_ge a 0)), (proj2 (Z.ltb_ge ram_end _)) by hlia. cbn [orb].
  by rewrite (get_mem_ok _ _ _ Ha), ret_bind.
Qed.

Lemma mem_double_free_detected_witness : mem_free mem_init (Some (0 + SIZEOF_STRUCT_MEM)) = Assert.
Proof. apply (mem_double_free_detected mem_init [] 0 []). apply mem_init_ok. Defined.

(** [mem_trim] keeps the block where it is and gives the rest back: the region
    still has at least the requested size, the other regions are unchanged. *)
Theorem mem_trim_shrinks h l pre p sz post n :
  heap_ok h l -> live l MEM_SIZE_ALIGNED = pre ++ (p, sz) :: post ->
  0 <= n -> request n <= sz -> p + sz < MEM_SIZE_ALIGNED ->
  exists h' l' sz', mem_trim h p n = Ret (Some p, h') /\ heap_ok h' l'
    /\ live l' MEM_SIZE_ALIGNED = pre ++ (p, sz') :: post /\ n <= sz' <= sz.
Proof. apply trim_live_ok. Qed.

Lemma mem_trim_shrinks_witness :
  let h1 := Heap (<[0 := Mem 112 0 true]> (<[112 := Mem 40960000 0 false]> (structs mem_init))) 112 in
  exists h' l' sz', mem_trim h1 12 40 = Ret (Some 12, h') /\ heap_ok h' l'
    /\ live l' MEM_SIZE_ALIGNED = [(12, sz')] /\ 40 <= sz' <= 100.
Proof.
  intros h1. apply (mem_trim_shrinks h1 [(0, true); (112, false)] [] 12 100 [] 40); done.
Defined.

(** Trimming the block that reaches the end of the heap trips the assertion
    [mem->next != MEM_SIZE_ALIGNED], although the code after it handles that
    case: the process stops on a legal request. *)
Theorem mem_trim_at_end_aborts :
  (r ← mem_malloc mem_init (MEM_SIZE - SIZEOF_STRUCT_MEM);
   match fst r with
   | Some p => mem_trim (snd r) p 100
   | None => Ret r
   end) = Assert.
Proof. vm_compute. reflexivity. Qed.

(** [mem_calloc] never multiplies in 32 bits: a product that does not fit gives
    [NULL], any other request is [mem_malloc] of the exact product. *)
Theorem mem_calloc_no_overflow h count size :
  0 <= count < 2 ^ 32 -> 0 <= size < 2 ^ 32 ->
  mem_calloc h count size
  = if 2 ^ 32 <=? count * size then Ret (None, h) else mem_malloc h (count * size).
Proof.
  intros Hc Hs. unfold mem_calloc. rewrite (u64_small (count * size)) by nia.
  unfold u32. destruct (Z.leb_spec (2 ^ 32) (count * size)) as [Hbig|Hsmall].
  - pose proof (Z.mod_pos_bound (count * size) (2 ^ 32) ltac:(lia)).
    by rewrite (proj2 (Z.eqb_neq _ (count * size))) by lia.
  - rewrite Z.mod_small by nia. by rewrite Z.eqb_refl.
Qed.

Lemma mem_calloc_no_overflow_witness :
  mem_calloc mem_init 65536 65536
  = if 2 ^ 32 <=? 65536 * 65536 then Ret (None, mem_init) else mem_malloc mem_init (65536 * 65536).
Proof. apply (mem_calloc_no_overflow mem_init 65536 65536); done. Defined.
