(* ===== verification/Memp.v ===== *)
(** * [lwip/src/core/memp.c]: fixed-size pools

    [memp_init_pool], [memp_init], [memp_malloc], [memp_malloc_pool],
    [memp_free], [memp_free_pool] in the configuration of the build
    ([MEMP_MEM_MALLOC], [MEMP_OVERFLOW_CHECK], [MEMP_SANITY_CHECK] and the
    statistics are off, so [MEMP_SIZE] is 0).

    The free elements of a pool form a singly linked list whose links are
    stored in the elements themselves: a client that holds an element
    overwrites its link. The model keeps the word at the start of every element,
    by the element's address. *)

From S2P Require Import Prelude.

Record memp_desc := MempDesc { d_size : Z; d_num : nat; d_base : Z }.
(** [*desc->tab] and the [next] words of the elements. *)
Record pool := Pool { tab : option Z; links : gmap Z (option Z) }.

(** ** Operations *)

(** [for (i = 0; i < desc->num; ++i)]: [n] iterations are left. *)
Fixpoint memp_init_loop (desc : memp_desc) (n : nat) (memp : Z) (p : pool) : pool :=
  match n with
  | O => p
  | S n' => memp_init_loop desc n' (memp + d_size desc)
              (Pool (Some memp) (<[memp := tab p]> (links p)))
  end.

Definition memp_init_pool (desc : memp_desc) : pool :=
  memp_init_loop desc (d_num desc) (d_base desc) (Pool None ∅).

(** The pools of [memp_pools], in order. *)
Definition memp_init (descs : list memp_desc) : list pool := map memp_init_pool descs.

Definition do_memp_malloc_pool (p : pool) : outcome (option Z * pool) :=
  match tab p with
  | Some memp => next ← deref (links p !! memp); Ret (Some memp, Pool next (links p))
  | None => Ret (None, p)
  end.

(** A link can be stored in an element of the pool only. *)
Definition do_memp_free_pool (p : pool) (mem : Z) : outcome pool :=
  _ ← deref (links p !! mem);
  Ret (Pool (Some mem) (<[mem := tab p]> (links p))).

Definition memp_malloc_pool (p : option pool) : outcome (option Z * option pool) :=
  match p with
  | None => Assert
  | Some p => r ← do_memp_malloc_pool p; Ret (fst r, Some (snd r))
  end.

Definition memp_free_pool (p : option pool) (mem : option Z) : outcome (option pool) :=
  match p, mem with
  | None, _ => Assert
  | Some p, None => Ret (Some p)
  | Some p, Some mem => p ← do_memp_free_pool p mem; Ret (Some p)
  end.

(** [type] indexes [memp_pools]. *)
Definition memp_malloc (ps : list pool) (type : nat) : outcome (option Z * list pool) :=
  match ps !! type with
  | None => Assert
  | Some p => r ← do_memp_malloc_pool p; Ret (fst r, <[type := snd r]> ps)
  end.

Definition memp_free (ps : list pool) (type : nat) (mem : option Z) : outcome (list pool) :=
  match ps !! type with
  | None => Assert
  | Some p =>
      match mem with
      | None => Ret ps
      | Some mem => p ← do_memp_free_pool p mem; Ret (<[type := p]> ps)
      end
  end.

(** ** The invariant *)

Definition elems (desc : memp_desc) : list Z :=
  map (fun i => d_base desc + Z.of_nat i * d_size desc) (seq 0 (d_num desc)).

(** The links lead from [o] through the elements [l]. *)
Fixpoint free_list (links : gmap Z (option Z)) (o : option Z) (l : list Z) : Prop :=
  match l with
  | [] => o = None
  | a :: l' => o = Some a /\ exists n, links !! a = Some n /\ free_list links n l'
  end.

Record pool_ok (desc : memp_desc) (p : pool) (free held : list Z) : Prop := {
  pool_free : free_list (links p) (tab p) free;
  pool_elems : free ++ held ≡ₚ elems desc;
  pool_links : forall a, a ∈ elems desc -> is_Some (links p !! a) }.

Lemma elem_of_elems desc a : a ∈ elems desc <->
  exists i : nat, a = d_base desc + Z.of_nat i * d_size desc /\ (i < d_num desc)%nat.
Proof.
  unfold elems. rewrite list_elem_of_fmap. setoid_rewrite elem_of_seq. split.
  - intros (i & -> & Hi). exists i. split; [done|lia].
  - intros (i & -> & Hi). exists i. split; [done|lia].
Qed.

Lemma elems_apart desc a b : 0 < d_size desc -> a ∈ elems desc -> b ∈ elems desc -> a <> b ->
  a + d_size desc <= b \/ b + d_size desc <= a.
Proof.
  intros Hs (i & -> & _)%elem_of_elems (j & -> & _)%elem_of_elems Hne.
  assert (i <> j) by (intros ->; done). nia.
Qed.

Lemma elems_NoDup desc : 0 < d_size desc -> NoDup (elems desc).
Proof.
  intros Hs. apply NoDup_fmap_2_strong; [|apply NoDup_seq]. intros i j _ _ H. nia.
Qed.

Lemma free_list_insert links o l a n : a ∉ l -> free_list links o l ->
  free_list (<[a := n]> links) o l.
Proof.
  revert o. induction l as [|b l IH]; intros o Ha; simpl; [done|].
  intros [-> (m & Hb & Hl)]. apply not_elem_of_cons in Ha as [Hab Ha]. split; [done|].
  exists m. rewrite lookup_insert_ne by done. eauto.
Qed.

Section pool.
  Context (desc : memp_desc) (Hsize : 0 < d_size desc).

Lemma pool_ok_NoDup p free held : pool_ok desc p free held -> NoDup (free ++ held).
  Proof. intros [_ He _]. rewrite He. by apply elems_NoDup. Qed.

Lemma init_loop_ok n i p (l : list Z) :
    (i + n = d_num desc)%nat ->
    free_list (links p) (tab p) l ->
    l ≡ₚ map (fun i => d_base desc + Z.of_nat i * d_size desc) (seq 0 i) ->
    (forall a, a ∈ l -> is_Some (links p !! a)) ->
    exists l', pool_ok desc
      (memp_init_loop desc n (d_base desc + Z.of_nat i * d_size desc) p) l' [].
  Proof.
    revert i p l. induction n as [|n IH]; intros i p l Hi Hfl Hl Hlk; simpl.
    - exists l. split; [done| |].
      + rewrite app_nil_r, Hl. unfold elems. by replace i with (d_num desc) by lia.
      + intros a Ha. apply Hlk. rewrite Hl. unfold elems in Ha. by replace (d_num desc) with i in Ha by lia.
    - set (a := d_base desc + Z.of_nat i * d_size desc).
      assert (a ∉ l) as Ha.
      { rewrite Hl, list_elem_of_fmap. intros (j & Hj & ?%elem_of_seq). unfold a in Hj. nia. }
      replace (a + d_size desc) with (d_base desc + Z.of_nat (S i) * d_size desc) by (unfold a; lia).
      apply (IH (S i) _ (a :: l)); [lia| | |].
      + split; [done|]. exists (tab p). simpl. rewrite lookup_insert_eq. split; [done|].
        by apply free_list_insert.
      + rewrite seq_S, map_app, Hl. simpl. fold a. by rewrite Permutation_cons_append.
      + intros b [->|Hb]%elem_of_cons; simpl; [by rewrite lookup_insert_eq|].
        destruct (decide (a = b)) as [<-|]; [by rewrite lookup_insert_eq|].
        rewrite lookup_insert_ne by done. auto.
  Qed.

Lemma init_ok : exists free, pool_ok desc (memp_init_pool desc) free [].
  Proof.
    pose proof (init_loop_ok (d_num desc) 0 (Pool None ∅) []) as H.
    rewrite Z.mul_0_l, Z.add_0_r in H. apply H; [lia|done|done|]. by intros a ?%elem_of_nil.
  Qed.

  (** An allocation takes the head of the free list; only an exhausted pool
      gives [NULL]. *)
Lemma malloc_ok p free held : pool_ok desc p free held ->
    match free with
    | [] => do_memp_malloc_pool p = Ret (None, p)
    | a :: free' => exists p', do_memp_malloc_pool p = Ret (Some a, p')
                    /\ pool_ok desc p' free' (a :: held)
    end.
  Proof.
    intros [Hf He Hl]. unfold do_memp_malloc_pool. destruct free as [|a free]; simpl in Hf.
    - by rewrite Hf.
    - destruct Hf as [-> (n & Ha & Hf)]. rewrite Ha. simpl. eexists. split; [done|].
      split; [done| |done]. rewrite <- He. simpl. by rewrite Permutation_middle.
  Qed.

Lemma free_ok p free h1 a h2 : pool_ok desc p free (h1 ++ a :: h2) ->
    exists p', do_memp_free_pool p a = Ret p' /\ pool_ok desc p' (a :: free) (h1 ++ h2).
  Proof.
    intros Hok. pose proof (pool_ok_NoDup _ _ _ Hok) as Hnd. destruct Hok as [Hf He Hl].
    assert (a ∈ elems desc) as Hin.
    { rewrite <- He. apply elem_of_app. right. apply elem_of_app. right. by left. }
    unfold do_memp_free_pool. destruct (Hl a Hin) as [x Hx]. rewrite Hx. simpl.
    eexists. split; [done|]. split; simpl.
    - split; [done|]. exists (tab p). rewrite lookup_insert_eq. split; [done|].
      apply free_list_insert; [|done]. apply NoDup_app in Hnd as (_ & Hd & _).
      intros Ha. apply (Hd a Ha). apply elem_of_app. right. by left.
    - rewrite <- He, <- (Permutation_middle h1 h2 a). by rewrite Permutation_middle.
    - intros b Hb. destruct (decide (a = b)) as [<-|]; [by rewrite lookup_insert_eq|].
      rewrite lookup_insert_ne by done. auto.
  Qed.

  (** The client may write anything to an element it holds. *)
Lemma scribble_ok p free held a v : pool_ok desc p free held -> a ∈ held ->
    pool_ok desc (Pool (tab p) (<[a := v]> (links p))) free held.
  Proof.
    intros Hok Ha. pose proof (pool_ok_NoDup _ _ _ Hok) as Hnd. destruct Hok as [Hf He Hl].
    split; simpl; [|done|].
    - apply free_list_insert; [|done]. apply NoDup_app in Hnd as (_ & Hd & _).
      intros Hin. by apply (Hd a).
    - intros b Hb. destruct (decide (a = b)) as [<-|]; [by rewrite lookup_insert_eq|].
      rewrite lookup_insert_ne by done. auto.
  Qed.
End pool.

(** ** Clients of a pool *)

(** A pool with the elements its clients hold; holders overwrite the links. *)
Inductive pool_reach (desc : memp_desc) : pool -> list Z -> Prop :=
| pr_init : pool_reach desc (memp_init_pool desc) []
| pr_malloc p held a p' :
    pool_reach desc p held -> do_memp_malloc_pool p = Ret (Some a, p') ->
    pool_reach desc p' (a :: held)
| pr_free p h1 a h2 p' :
    pool_reach desc p (h1 ++ a :: h2) -> do_memp_free_pool p a = Ret p' ->
    pool_reach desc p' (h1 ++ h2)
| pr_write p held a v :
    pool_reach desc p held -> a ∈ held ->
    pool_reach desc (Pool (tab p) (<[a := v]> (links p))) held.

Lemma pool_reach_ok desc p held : 0 < d_size desc -> pool_reach desc p held ->
  exists free, pool_ok desc p free held.
Proof.
  intros Hs. induction 1 as [|p held a p' _ (free & Hok) HM|p h1 a h2 p' _ (free & Hok) HF
    |p held a v _ (free & Hok) Ha].
  - by apply init_ok.
  - pose proof (malloc_ok desc p free held Hok) as H. destruct free as [|b free].
    + rewrite H in HM. done.
    + destruct H as (p1 & H & Hok'). rewrite H in HM. injection HM as <- <-. eauto.
  - destruct (free_ok desc Hs _ _ _ _ _ Hok) as (p1 & H & Hok'). rewrite H in HF.
    injection HF as <-. eauto.
  - exists free. by apply scribble_ok.
Qed.

(** ** Properties *)

(** Whatever the clients of a pool do with the elements they hold, the pool
    hands out distinct, non-overlapping elements of its array, takes every held
    element back, and reports [NULL] exactly when all [num] elements are held. *)
Theorem pool_clients_safe desc p held : 0 < d_size desc -> pool_reach desc p held ->
  NoDup held
  /\ (forall a, a ∈ held -> a ∈ elems desc)
  /\ (forall a b, a ∈ held -> b ∈ held -> a <> b ->
        a + d_size desc <= b \/ b + d_size desc <= a)
  /\ (forall a, a ∈ held -> exists p', do_memp_free_pool p a = Ret p')
  /\ if (length held =? d_num desc)%nat
     then do_memp_malloc_pool p = Ret (None, p)
     else exists a p', do_memp_malloc_pool p = Ret (Some a, p') /\ a ∈ elems desc /\ a ∉ held.
Proof.
  intros Hs Hr. destruct (pool_reach_ok _ _ _ Hs Hr) as (free & Hok).
  pose proof (pool_ok_NoDup desc Hs _ _ _ Hok) as Hnd.
  assert (forall a, a ∈ free ++ held -> a ∈ elems desc) as Hin by (by setoid_rewrite (pool_elems _ _ _ _ Hok)).
  apply NoDup_app in Hnd as (_ & Hd & Hndh).
  split; [done|]. split; [set_solver|]. split.
  { intros a b Ha Hb. apply elems_apart; [done|set_solver..]. }
  split.
  { intros a (h1 & h2 & ->)%list_elem_of_split.
    destruct (free_ok desc Hs _ _ _ _ _ Hok) as (p' & ? & _). eauto. }
  assert (length free + length held = d_num desc)%nat as Hlen.
  { rewrite <- length_app, (pool_elems _ _ _ _ Hok). unfold elems. by rewrite length_map, length_seq. }
  pose proof (malloc_ok desc p free held Hok) as HM. destruct free as [|a free]; simpl in *.
  - destruct (Nat.eqb_spec (length held) (d_num desc)); [done|lia].
  - destruct (Nat.eqb_spec (length held) (d_num desc)); [lia|].
    destruct HM as (p' & HM & _). exists a, p'. split; [done|]. split; [set_solver|].
    apply Hd. by left.
Qed.

Lemma pool_clients_safe_witness :
  let desc := MempDesc 32 2 1000 in
  exists a p', do_memp_malloc_pool (Pool (Some 1000) (<[1032 := Some 1000]> (<[1000 := None]> ∅)))
               = Ret (Some a, p') /\ a ∈ elems desc /\ a ∉ [1032].
Proof.
  intros desc.
  apply (pool_clients_safe desc (Pool (Some 1000) (<[1032 := Some 1000]> (<[1000 := None]> ∅))) [1032]).
  - done.
  - eapply pr_malloc; [apply pr_init|]. vm_compute. reflexivity.
Defined.

(** The pool is a stack: what was freed last is handed out next, and the pool is
    then as before the free, whatever the element's memory held. *)
Theorem memp_lifo ps type p a v :
  ps !! type = Some p -> links p !! a = Some v ->
  exists ps', memp_free ps type (Some a) = Ret ps'
    /\ memp_malloc ps' type
       = Ret (Some a, <[type := Pool (tab p) (<[a := tab p]> (links p))]> ps).
Proof.
  intros Hp Ha. unfold memp_free, do_memp_free_pool. rewrite Hp, Ha. simpl.
  eexists. split; [done|]. apply lookup_lt_Some in Hp as Hlt. unfold memp_malloc, do_memp_malloc_pool.
  rewrite list_lookup_insert_eq by done. simpl. rewrite lookup_insert_eq. simpl.
  by rewrite list_insert_insert_eq.
Qed.

Lemma memp_lifo_witness :
  let p := Pool None (<[1000 := Some 7]> ∅) in
  exists ps', memp_free [p] 0 (Some 1000) = Ret ps'
    /\ memp_malloc ps' 0 = Ret (Some 1000, <[0%nat := Pool None (<[1000 := None]> (links p))]> [p]).
Proof. intros p. apply (memp_lifo [p] 0 p 1000 (Some 7)); reflexivity. Defined.
