(* ===== verification/PbufMem.v ===== *)
(** * Memory under the packet buffers

    What [pbuf.c] uses of its surroundings: the allocators of [mem.c] and
    [memp.c] behind an interface with laws, and the memory that pbuf structs and
    payloads live in.

    A pointer is an allocated block, named by its address, and an offset. Since
    the allocators keep blocks apart ([Mem.heap_clients_safe],
    [Memp.pool_clients_safe]), bytes of different blocks are independent. Access
    outside a block, to a block that was freed, or over the fields of a
    [struct pbuf] has no meaning ([Undef]). *)

From S2P Require Import Prelude.

(** ** The allocators *)

(** The pools [pbuf.c] allocates from. *)
Inductive memp_t : Set := MEMP_PBUF_POOL | MEMP_PBUF.
#[global] Instance memp_t_eq_dec : EqDecision memp_t.
Proof. solve_decision. Defined.

(** Where a block came from. *)
Inductive source : Set := FromPool (t : memp_t) | FromHeap | FromCustom.
#[global] Instance source_eq_dec : EqDecision source.
Proof. solve_decision. Defined.

(** sizes: [struct pbuf] is two pointers, two [u16_t] and four [u8_t] *)
Definition SIZEOF_STRUCT_PBUF : Z := 24.
(** [LWIP_MEM_ALIGN_SIZE(TCP_MSS + 40 + PBUF_LINK_HLEN)], [MEM_ALIGNMENT] is 1 *)
Definition PBUF_POOL_BUFSIZE_ALIGNED : Z := 1000 + 40 + 16.
Definition memp_size (t : memp_t) : Z :=
  match t with
  | MEMP_PBUF_POOL => SIZEOF_STRUCT_PBUF + PBUF_POOL_BUFSIZE_ALIGNED
  | MEMP_PBUF => SIZEOF_STRUCT_PBUF
  end.

(** Operations on the allocators' state [A]. [custom_free] is the function
    pointer stored in a custom pbuf ([Assert]: it is [NULL]); [try_callback] is
    [tcpip_try_callback(pbuf_free_ooseq_callback, NULL)]; [junk] is what fresh
    memory holds. *)
Class Allocator (A : Type) := {
  memp_malloc : memp_t -> A -> outcome (option Z * A);
  memp_free : memp_t -> Z -> A -> outcome A;
  mem_malloc : Z -> A -> outcome (option Z * A);
  mem_free : Z -> A -> outcome A;
  mem_trim : Z -> Z -> A -> outcome (option Z * A);
  custom_free : Z -> A -> outcome A;
  try_callback : A -> err_t * A;
  junk : A -> Z -> Z -> Z }.

(** What the allocators promise: [holds a H] says that the blocks [H] (with
    their source and size) are allocated. *)
Class AllocatorLaws (A : Type) `{Allocator A} := {
  holds : A -> gmap Z (source * Z) -> Prop;
  (** [mem_trim] may shrink this block *)
  trimmable : A -> Z -> Prop;
  memp_malloc_law a H t : holds a H ->
    exists r a', memp_malloc t a = Ret (r, a') /\
      match r with
      | None => holds a' H
      | Some p => H !! p = None /\ holds a' (<[p := (FromPool t, memp_size t)]> H)
      end;
  memp_free_law a H t p n : holds a H -> H !! p = Some (FromPool t, n) ->
    exists a', memp_free t p a = Ret a' /\ holds a' (delete p H);
  mem_malloc_law a H n : holds a H -> 0 < n < 2 ^ 32 ->
    exists r a', mem_malloc n a = Ret (r, a') /\
      match r with
      | None => holds a' H
      | Some p => H !! p = None /\ holds a' (<[p := (FromHeap, n)]> H)
      end;
  mem_free_law a H p n : holds a H -> H !! p = Some (FromHeap, n) ->
    exists a', mem_free p a = Ret a' /\ holds a' (delete p H);
  mem_trim_law a H p n m : holds a H -> H !! p = Some (FromHeap, n) -> 0 <= m <= n ->
    trimmable a p ->
    exists a', mem_trim p m a = Ret (Some p, a') /\ holds a' (<[p := (FromHeap, m)]> H);
  custom_free_law a H p n : holds a H -> H !! p = Some (FromCustom, n) ->
    exists a', custom_free p a = Ret a' /\ holds a' (delete p H);
  try_callback_law a H : holds a H -> holds (snd (try_callback a)) H }.

(** ** Pointers and structs *)

Record ptr := Ptr { blk : Z; off : Z }.
#[global] Instance ptr_eq_dec : EqDecision ptr.
Proof. solve_decision. Defined.
Definition ptr_add (q : ptr) (n : Z) : ptr := Ptr (blk q) (off q + n).

(** [struct pbuf] *)
Record pbuf := Pbuf {
  next : option Z;
  payload : option ptr;
  tot_len : Z;
  len : Z;
  type_internal : Z;
  flags : Z;
  ref : Z;
  if_idx : Z }.

Definition set_next (v : option Z) (b : pbuf) : pbuf :=
  Pbuf v (payload b) (tot_len b) (len b) (type_internal b) (flags b) (ref b) (if_idx b).
Definition set_payload (v : option ptr) (b : pbuf) : pbuf :=
  Pbuf (next b) v (tot_len b) (len b) (type_internal b) (flags b) (ref b) (if_idx b).
Definition set_tot_len (v : Z) (b : pbuf) : pbuf :=
  Pbuf (next b) (payload b) v (len b) (type_internal b) (flags b) (ref b) (if_idx b).
Definition set_len (v : Z) (b : pbuf) : pbuf :=
  Pbuf (next b) (payload b) (tot_len b) v (type_internal b) (flags b) (ref b) (if_idx b).
Definition set_ref (v : Z) (b : pbuf) : pbuf :=
  Pbuf (next b) (payload b) (tot_len b) (len b) (type_internal b) (flags b) v (if_idx b).

(** The structs, the bytes of every block, the allocators, and
    [pbuf_free_ooseq_pending]. *)
Record st (A : Type) := St {
  pbufs : gmap Z pbuf; bytes_of : gmap Z (list Z); al : A; ooseq_pending : bool }.
Arguments St {A} _ _ _ _.
Arguments pbufs {A} _.
Arguments bytes_of {A} _.
Arguments al {A} _.
Arguments ooseq_pending {A} _.

(** ** Byte ranges of a block *)

Definition range_ok (l : list Z) (o n : Z) : bool :=
  (0 <=? o) && (0 <=? n) && (o + n <=? Z.of_nat (length l)).
Definition slice (l : list Z) (o n : Z) : list Z := take (Z.to_nat n) (drop (Z.to_nat o) l).
Definition splice (l : list Z) (o : Z) (d : list Z) : list Z :=
  take (Z.to_nat o) l ++ d ++ drop (Z.to_nat o + length d) l.

Section access.
  Context {A : Type}.
  Implicit Types s : st A.

Definition get (s : st A) (p : Z) : outcome pbuf := deref (pbufs s !! p).
Definition put (s : st A) (p : Z) (b : pbuf) : st A :=
    St (<[p := b]> (pbufs s)) (bytes_of s) (al s) (ooseq_pending s).
  (** assignment to fields of [*p] *)
Definition modify (s : st A) (p : Z) (f : pbuf -> pbuf) : outcome (st A) :=
    b ← get s p; Ret (put s p (f b)).

  (** Not over the fields of a struct. *)
Definition clear_of_struct (s : st A) (q : ptr) : bool :=
    match pbufs s !! blk q with Some _ => SIZEOF_STRUCT_PBUF <=? off q | None => true end.

Definition load (s : st A) (q : option ptr) (n : Z) : outcome (list Z) :=
    if n =? 0 then Ret []
    else
      q ← deref q;
      l ← deref (bytes_of s !! blk q);
      if range_ok l (off q) n && clear_of_struct s q then Ret (slice l (off q) n) else Undef.

Definition store (s : st A) (q : option ptr) (d : list Z) : outcome (st A) :=
    if Z.of_nat (length d) =? 0 then Ret s
    else
      q ← deref q;
      l ← deref (bytes_of s !! blk q);
      if range_ok l (off q) (Z.of_nat (length d)) && clear_of_struct s q
      then Ret (St (pbufs s) (<[blk q := splice l (off q) d]> (bytes_of s)) (al s) (ooseq_pending s))
      else Undef.

  (** [MEMCPY(dst, src, n)]: overlapping ranges have no meaning. *)
Definition overlap (d q : ptr) (n : Z) : bool :=
    (blk d =? blk q) && (off d <? off q + n) && (off q <? off d + n).
Definition memcpy (s : st A) (d q : option ptr) (n : Z) : outcome (st A) :=
    match d, q with
    | Some d', Some q' =>
        if overlap d' q' n then Undef else l ← load s q n; store s d l
    | _, _ => l ← load s q n; store s d l
    end.

  (** [(u8_t * )payload + n] *)
Definition opt_add (q : option ptr) (n : Z) : option ptr := (fun q => ptr_add q n) <$> q.
End access.

(** ** Lemmas on byte ranges *)

Lemma length_slice l o n : range_ok l o n = true -> Z.of_nat (length (slice l o n)) = n.
Proof.
  unfold range_ok. rewrite !andb_true_iff, !Z.leb_le. intros [[? ?] ?].
  unfold slice. rewrite length_take, length_drop. lia.
Qed.

Lemma length_splice l o d : range_ok l o (Z.of_nat (length d)) = true ->
  length (splice l o d) = length l.
Proof.
  unfold range_ok. rewrite !andb_true_iff, !Z.leb_le. intros [[? ?] ?].
  unfold splice. rewrite !length_app, length_take, length_drop. lia.
Qed.

Lemma range_ok_splice l o d o' n : range_ok l o (Z.of_nat (length d)) = true ->
  range_ok (splice l o d) o' n = range_ok l o' n.
Proof. intros H. unfold range_ok. by rewrite length_splice. Qed.

Lemma slice_splice_same l o d : range_ok l o (Z.of_nat (length d)) = true ->
  slice (splice l o d) o (Z.of_nat (length d)) = d.
Proof.
  unfold range_ok. rewrite !andb_true_iff, !Z.leb_le. intros [[? ?] ?].
  unfold slice, splice. rewrite drop_app_ge; rewrite length_take; [|lia].
  replace (Z.to_nat o - Z.to_nat o `min` length l)%nat with 0%nat by lia.
  rewrite drop_0, Nat2Z.id. apply take_app_length.
Qed.

Lemma slice_app l o n m : 0 <= o -> 0 <= n -> 0 <= m ->
  slice l o (n + m) = slice l o n ++ slice l (o + n) m.
Proof.
  intros. unfold slice. rewrite Z2Nat.inj_add by lia.
  rewrite <- (take_drop (Z.to_nat n) (take (Z.to_nat n + Z.to_nat m) _)).
  rewrite take_take, Nat.min_l by lia. f_equal.
  rewrite <- take_drop_commute, drop_drop. do 2 f_equal. lia.
Qed.

(** A slice that ends before, or starts after, the bytes written. *)
Lemma slice_splice_before l o d o' n : range_ok l o (Z.of_nat (length d)) = true ->
  0 <= o' -> 0 <= n -> o' + n <= o -> slice (splice l o d) o' n = slice l o' n.
Proof.
  unfold range_ok. rewrite !andb_true_iff, !Z.leb_le. intros [[? ?] ?] Ho Hn Hle.
  unfold slice, splice. rewrite drop_app_le by (rewrite length_take; lia).
  rewrite take_app_le by (rewrite length_drop, length_take; lia).
  rewrite take_drop_commute, take_take, Nat.min_l by lia. by rewrite take_drop_commute.
Qed.

Lemma slice_splice_after l o d o' n : range_ok l o (Z.of_nat (length d)) = true ->
  o + Z.of_nat (length d) <= o' -> slice (splice l o d) o' n = slice l o' n.
Proof.
  unfold range_ok. rewrite !andb_true_iff, !Z.leb_le. intros [[? ?] ?] Hle.
  unfold slice, splice. f_equal. rewrite drop_app_ge by (rewrite length_take; lia).
  rewrite drop_app_ge by (rewrite length_take; lia). rewrite drop_drop, length_take. f_equal. lia.
Qed.

Lemma slice_0 l o : slice l o 0 = [].
Proof. done. Qed.

(** Slices and splices in terms of the parts of a list. *)
Lemma slice_mid (a b c : list Z) o n : o = Z.of_nat (length a) -> n = Z.of_nat (length b) ->
  slice (a ++ b ++ c) o n = b.
Proof. intros -> ->. unfold slice. rewrite !Nat2Z.id, drop_app_length. apply take_app_length. Qed.

Lemma splice_mid (a b c x : list Z) o : o = Z.of_nat (length a) -> length b = length x ->
  splice (a ++ b ++ c) o x = a ++ x ++ c.
Proof.
  intros -> Hb. unfold splice. rewrite Nat2Z.id, take_app_length. f_equal. f_equal.
  rewrite <- drop_drop, drop_app_length, <- Hb. apply drop_app_length.
Qed.

(** A range that is readable, as parts of the list. *)
Lemma range_split (l : list Z) o n : range_ok l o n = true ->
  exists a b c, l = a ++ b ++ c /\ Z.of_nat (length a) = o /\ Z.of_nat (length b) = n.
Proof.
  unfold range_ok. rewrite !andb_true_iff, !Z.leb_le. intros [[? ?] ?].
  exists (take (Z.to_nat o) l), (take (Z.to_nat n) (drop (Z.to_nat o) l)),
    (drop (Z.to_nat n) (drop (Z.to_nat o) l)).
  rewrite take_drop, take_drop, !length_take, length_drop. split; [done|]. lia.
Qed.

(** Writing inside a range. *)
Lemma slice_splice_inside l f n o x : range_ok l f n = true -> 0 <= o ->
  o + Z.of_nat (length x) <= n ->
  slice (splice l (f + o) x) f n = splice (slice l f n) o x.
Proof.
  intros (a & m & c & -> & <- & <-)%range_split Ho Hle.
  destruct (range_split m o (Z.of_nat (length x))) as (m1 & m2 & m3 & -> & <- & Hm2).
  { unfold range_ok. rewrite !andb_true_iff, !Z.leb_le. lia. }
  apply Nat2Z.inj in Hm2. rewrite (slice_mid a (m1 ++ m2 ++ m3) c) by done.
  rewrite (splice_mid m1 m2 m3 x) by done.
  replace (a ++ (m1 ++ m2 ++ m3) ++ c) with ((a ++ m1) ++ m2 ++ (m3 ++ c))
    by (by rewrite <- !app_assoc).
  rewrite (splice_mid (a ++ m1) m2 (m3 ++ c) x) by (rewrite ?length_app; lia).
  replace ((a ++ m1) ++ x ++ m3 ++ c) with (a ++ (m1 ++ x ++ m3) ++ c)
    by (by rewrite <- !app_assoc).
  apply slice_mid; [done|]. rewrite !length_app. lia.
Qed.
