(* ===== verification/Pbuf.v ===== *)
(** * [lwip/src/core/pbuf.c]: packet buffers

    A packet is a chain of pbufs; each describes [len] bytes at [payload], and
    [tot_len] is the length of the chain from there on. Pbufs are reference
    counted ([LWIP_PBUF_REF_T] is [u8_t]).

    The definitions follow the C functions; [Some p] is a pointer to the pbuf at
    address [p]. Loops over a chain carry fuel: the number of pbufs that exist
    bounds the length of every chain without a cycle. *)

From S2P Require Import Prelude PbufMem.

(** ** Constants of [pbuf.h] *)

Inductive pbuf_type : Set := PBUF_RAM | PBUF_ROM | PBUF_REF | PBUF_POOL.
Definition pbuf_type_value (t : pbuf_type) : Z :=
  match t with PBUF_RAM => 0x0280 | PBUF_ROM => 0x01 | PBUF_REF => 0x41 | PBUF_POOL => 0x0182 end.

Inductive pbuf_layer : Set := PBUF_TRANSPORT | PBUF_IP | PBUF_LINK | PBUF_RAW_TX | PBUF_RAW.
Definition pbuf_layer_value (l : pbuf_layer) : Z :=
  match l with
  | PBUF_TRANSPORT => 0 + 16 + 20 + 20 | PBUF_IP => 0 + 16 + 20 | PBUF_LINK => 0 + 16
  | PBUF_RAW_TX => 0 | PBUF_RAW => 0
  end.

Definition PBUF_TYPE_FLAG_STRUCT_DATA_CONTIGUOUS : Z := 0x80.
Definition PBUF_TYPE_ALLOC_SRC_MASK : Z := 0x0F.
Definition PBUF_TYPE_ALLOC_SRC_MASK_STD_HEAP : Z := 0x00.
Definition PBUF_TYPE_ALLOC_SRC_MASK_STD_MEMP_PBUF : Z := 0x01.
Definition PBUF_TYPE_ALLOC_SRC_MASK_STD_MEMP_PBUF_POOL : Z := 0x02.
Definition PBUF_FLAG_IS_CUSTOM : Z := 0x02.
Definition NETIF_NO_INDEX : Z := 0.

Definition pbuf_get_allocsrc (b : pbuf) : Z := Z.land (type_internal b) PBUF_TYPE_ALLOC_SRC_MASK.
Definition pbuf_is_custom (b : pbuf) : bool := negb (Z.land (flags b) PBUF_FLAG_IS_CUSTOM =? 0).
Definition pbuf_contiguous (b : pbuf) : bool :=
  negb (Z.land (type_internal b) PBUF_TYPE_FLAG_STRUCT_DATA_CONTIGUOUS =? 0).

Section pbuf.
Context {A : Type} `{!Allocator A}.
Notation state := (st A).

(** Enough for a loop that visits every pbuf of a chain once. *)
Definition chain_fuel (s : state) : nat := S (size (pbufs s)).

Definition with_al (s : state) (a : A) : state := St (pbufs s) (bytes_of s) a (ooseq_pending s).
(** A block [p] of [n] bytes appears, or disappears. *)
Definition new_block (s : state) (p n : Z) (a : A) : state :=
  St (pbufs s) (<[p := map (junk a p) (seqZ 0 n)]> (bytes_of s)) a (ooseq_pending s).
Definition drop_block (s : state) (p : Z) (a : A) : state :=
  St (delete p (pbufs s)) (delete p (bytes_of s)) a (ooseq_pending s).

(** ** Deallocation *)

Definition pbuf_dealloc (s : state) (p : Z) (b : pbuf) : outcome state :=
  if pbuf_is_custom b then
    a ← custom_free p (al s); Ret (drop_block s p a)
  else if pbuf_get_allocsrc b =? PBUF_TYPE_ALLOC_SRC_MASK_STD_MEMP_PBUF_POOL then
    a ← memp_free MEMP_PBUF_POOL p (al s); Ret (drop_block s p a)
  else if pbuf_get_allocsrc b =? PBUF_TYPE_ALLOC_SRC_MASK_STD_MEMP_PBUF then
    a ← memp_free MEMP_PBUF p (al s); Ret (drop_block s p a)
  else if pbuf_get_allocsrc b =? PBUF_TYPE_ALLOC_SRC_MASK_STD_HEAP then
    a ← mem_free p (al s); Ret (drop_block s p a)
  else Assert.

(** [while (p != NULL)] of [pbuf_free]; [count] is a [u8_t]. *)
Fixpoint pbuf_free_loop (fuel : nat) (s : state) (p : option Z) (count : Z) : outcome (Z * state) :=
  match p with
  | None => Ret (count, s)
  | Some p =>
      match fuel with
      | O => Diverge
      | S fuel' =>
          b ← get s p;
          _ ← lwip_assert (0 <? ref b);
          let r := u8 (ref b - 1) in
          let s := put s p (set_ref r b) in
          if r =? 0 then
            let q := next b in
            s ← pbuf_dealloc s p b;
            pbuf_free_loop fuel' s q (u8 (count + 1))
          else Ret (count, s)
      end
  end.

Definition pbuf_free (s : state) (p : option Z) : outcome (Z * state) :=
  match p with
  | None => Assert
  | Some _ => pbuf_free_loop (chain_fuel s) s p 0
  end.

(** ** Allocation *)

Definition pbuf_init_alloced_pbuf (s : state) (p : Z) (payload : option ptr) (tot_len len : Z)
    (type flags : Z) : state :=
  put s p (Pbuf None payload tot_len len (u8 type) flags 1 NETIF_NO_INDEX).

(** [PBUF_POOL_IS_EMPTY()] *)
Definition pbuf_pool_is_empty (s : state) : state :=
  if ooseq_pending s then s
  else
    let '(e, a) := try_callback (al s) in
    St (pbufs s) (bytes_of s) a (if decide (e = ERR_OK) then true else false).

Definition pbuf_alloc_reference (s : state) (payload : option ptr) (length : Z) (type : pbuf_type)
    : outcome (option Z * state) :=
  _ ← lwip_assert (match type with PBUF_REF | PBUF_ROM => true | _ => false end);
  r ← memp_malloc MEMP_PBUF (al s);
  match r with
  | (None, a) => Ret (None, with_al s a)
  | (Some p, a) =>
      let s := new_block s p (memp_size MEMP_PBUF) a in
      Ret (Some p, pbuf_init_alloced_pbuf s p payload length length (pbuf_type_value type) 0)
  end.

(** The [do ... while (rem_len > 0)] loop of the [PBUF_POOL] case: [p] is the
    head and [last] the last pbuf so far. *)
Fixpoint pool_alloc_loop (fuel : nat) (s : state) (p last : option Z) (offset rem_len : Z)
    : outcome (option Z * state) :=
  match fuel with
  | O => Diverge
  | S fuel' =>
      r ← memp_malloc MEMP_PBUF_POOL (al s);
      match r with
      | (None, a) =>
          let s := pbuf_pool_is_empty (with_al s a) in
          match p with
          | Some _ => r ← pbuf_free s p; Ret (None, snd r)
          | None => Ret (None, s)
          end
      | (Some q, a) =>
          let s := new_block s q (memp_size MEMP_PBUF_POOL) a in
          let qlen := Z.min rem_len (u16 (PBUF_POOL_BUFSIZE_ALIGNED - offset)) in
          let s := pbuf_init_alloced_pbuf s q (Some (Ptr q (SIZEOF_STRUCT_PBUF + offset)))
                     rem_len qlen (pbuf_type_value PBUF_POOL) 0 in
          _ ← lwip_assert (0 <? PBUF_POOL_BUFSIZE_ALIGNED - offset);
          s ← match last with
              | None => Ret s
              | Some last => modify s last (set_next (Some q))
              end;
          let p := match p with None => Some q | Some _ => p end in
          let rem_len := u16 (rem_len - qlen) in
          if 0 <? rem_len then pool_alloc_loop fuel' s p (Some q) 0 rem_len else Ret (p, s)
      end
  end.

(** Every pool pbuf after the first takes [PBUF_POOL_BUFSIZE_ALIGNED] bytes of a
    length below [2 ^ 16]. *)
Definition POOL_ALLOC_FUEL : nat := 66.

Definition pbuf_alloc (s : state) (layer : pbuf_layer) (length : Z) (type : pbuf_type)
    : outcome (option Z * state) :=
  let offset := u16 (pbuf_layer_value layer) in
  match type with
  | PBUF_REF | PBUF_ROM => pbuf_alloc_reference s None length type
  | PBUF_POOL => pool_alloc_loop POOL_ALLOC_FUEL s None None offset length
  | PBUF_RAM =>
      let payload_len := u16 (offset + length) in
      let alloc_len := u32 (SIZEOF_STRUCT_PBUF + payload_len) in
      if (payload_len <? length) || (alloc_len <? length) then Ret (None, s)
      else
        r ← mem_malloc alloc_len (al s);
        match r with
        | (None, a) => Ret (None, with_al s a)
        | (Some p, a) =>
            let s := new_block s p alloc_len a in
            Ret (Some p, pbuf_init_alloced_pbuf s p (Some (Ptr p (SIZEOF_STRUCT_PBUF + offset)))
                           length length (pbuf_type_value PBUF_RAM) 0)
        end
  end.

(** The custom pbuf [p] is memory of the caller. *)
Definition pbuf_alloced_custom (s : state) (l : pbuf_layer) (length : Z) (type : pbuf_type) (p : Z)
    (payload_mem : option ptr) (payload_mem_len : Z) : option Z * state :=
  let offset := u16 (pbuf_layer_value l) in
  if payload_mem_len <? offset + length then (None, s)
  else
    (Some p, pbuf_init_alloced_pbuf s p (opt_add payload_mem offset) length length
               (pbuf_type_value type) PBUF_FLAG_IS_CUSTOM).

(** ** Shrinking *)

(** [while (rem_len > q->len)]: the new last pbuf and its length. *)
Fixpoint realloc_loop (fuel : nat) (s : state) (q rem_len shrink : Z) : outcome (Z * Z * state) :=
  match fuel with
  | O => Diverge
  | S fuel' =>
      b ← get s q;
      if len b <? rem_len then
        let rem_len := u16 (rem_len - len b) in
        let s := put s q (set_tot_len (u16 (tot_len b - shrink)) b) in
        match next b with
        | None => Assert
        | Some q' => realloc_loop fuel' s q' rem_len shrink
        end
      else Ret (q, rem_len, s)
  end.

(** [mem_trim(q, (u8_t * )q->payload - (u8_t * )q + rem_len)] *)
Definition realloc_trim (s : state) (q rem_len : Z) : outcome state :=
  b ← get s q;
  if (pbuf_get_allocsrc b =? PBUF_TYPE_ALLOC_SRC_MASK_STD_HEAP) && negb (rem_len =? len b)
     && negb (pbuf_is_custom b) then
    pl ← deref (payload b);
    if negb (blk pl =? q) then Undef
    else
      let size := u32 (off pl + rem_len) in
      r ← mem_trim q size (al s);
      match r with
      | (None, _) => Assert
      | (Some _, a) =>
          l ← deref (bytes_of s !! q);
          Ret (St (pbufs s) (<[q := take (Z.to_nat size) l]> (bytes_of s)) a (ooseq_pending s))
      end
  else Ret s.

Definition pbuf_realloc (s : state) (p : option Z) (new_len : Z) : outcome state :=
  match p with
  | None => Assert
  | Some p =>
      b ← get s p;
      if tot_len b <=? new_len then Ret s
      else
        let shrink := u16 (tot_len b - new_len) in
        r ← realloc_loop (chain_fuel s) s p new_len shrink;
        let '(q, rem_len, s) := r in
        s ← realloc_trim s q rem_len;
        s ← modify s q (fun b => set_tot_len rem_len (set_len rem_len b));
        b ← get s q;
        s ← match next b with
            | None => Ret s
            | Some _ => r ← pbuf_free s (next b); Ret (snd r)
            end;
        modify s q (set_next None)
  end.

(** ** Headers: the result is 0 on success, 1 on failure *)

Definition pbuf_add_header_impl (s : state) (p : option Z) (header_size_increment : Z) (force : bool)
    : outcome (Z * state) :=
  match p with
  | None => Assert
  | Some p =>
      if 0xFFFF <? header_size_increment then Ret (1, s)
      else if header_size_increment =? 0 then Ret (0, s)
      else
        let increment_magnitude := u16 header_size_increment in
        b ← get s p;
        if u16 (increment_magnitude + tot_len b) <? increment_magnitude then Ret (1, s)
        else
          (* the new payload pointer, or failure *)
          pl ← (if pbuf_contiguous b then
                  pl ← deref (payload b);
                  let pl := ptr_add pl (- header_size_increment) in
                  if negb (blk pl =? p) then Undef
                  else Ret (if off pl <? SIZEOF_STRUCT_PBUF then None else Some pl)
                else if force then
                  pl ← deref (payload b); Ret (Some (ptr_add pl (- header_size_increment)))
                else Ret None);
          match pl with
          | None => Ret (1, s)
          | Some pl =>
              Ret (0, put s p (set_tot_len (u16 (tot_len b + increment_magnitude))
                                (set_len (u16 (len b + increment_magnitude))
                                  (set_payload (Some pl) b))))
          end
  end.

Definition pbuf_add_header (s : state) (p : option Z) (n : Z) : outcome (Z * state) :=
  pbuf_add_header_impl s p n false.
Definition pbuf_add_header_force (s : state) (p : option Z) (n : Z) : outcome (Z * state) :=
  pbuf_add_header_impl s p n true.

(** A failing [LWIP_ERROR] stops the process before its [return 1]. *)
Definition pbuf_remove_header (s : state) (p : option Z) (header_size_decrement : Z)
    : outcome (Z * state) :=
  match p with
  | None => Assert
  | Some p =>
      if 0xFFFF <? header_size_decrement then Ret (1, s)
      else if header_size_decrement =? 0 then Ret (0, s)
      else
        let increment_magnitude := u16 header_size_decrement in
        b ← get s p;
        _ ← lwip_assert (increment_magnitude <=? len b);
        Ret (0, put s p (set_tot_len (u16 (tot_len b - increment_magnitude))
                          (set_len (u16 (len b - increment_magnitude))
                            (set_payload (opt_add (payload b) header_size_decrement) b))))
  end.

Definition pbuf_header_impl (s : state) (p : option Z) (header_size_increment : Z) (force : bool)
    : outcome (Z * state) :=
  if header_size_increment <? 0 then pbuf_remove_header s p (- header_size_increment)
  else pbuf_add_header_impl s p header_size_increment force.
Definition pbuf_header (s : state) (p : option Z) (n : Z) : outcome (Z * state) :=
  pbuf_header_impl s p n false.
Definition pbuf_header_force (s : state) (p : option Z) (n : Z) : outcome (Z * state) :=
  pbuf_header_impl s p n true.

(** [while (free_left && p)] *)
Fixpoint free_header_loop (fuel : nat) (s : state) (p : option Z) (free_left : Z)
    : outcome (option Z * state) :=
  if free_left =? 0 then Ret (p, s)
  else
    match p with
    | None => Ret (p, s)
    | Some f =>
        match fuel with
        | O => Diverge
        | S fuel' =>
            b ← get s f;
            if len b <=? free_left then
              let free_left := u16 (free_left - len b) in
              s ← modify s f (set_next None);
              r ← pbuf_free s (Some f);
              free_header_loop fuel' (snd r) (next b) free_left
            else
              r ← pbuf_remove_header s p free_left;
              Ret (p, snd r)
        end
    end.

Definition pbuf_free_header (s : state) (q : option Z) (size : Z) : outcome (option Z * state) :=
  free_header_loop (chain_fuel s) s q size.

(** ** Chains *)

Fixpoint clen_loop (fuel : nat) (s : state) (p : option Z) (n : Z) : outcome Z :=
  match p with
  | None => Ret n
  | Some p =>
      match fuel with
      | O => Diverge
      | S fuel' => b ← get s p; clen_loop fuel' s (next b) (u16 (n + 1))
      end
  end.
Definition pbuf_clen (s : state) (p : option Z) : outcome Z := clen_loop (chain_fuel s) s p 0.

Definition pbuf_ref (s : state) (p : option Z) : outcome state :=
  match p with
  | None => Ret s
  | Some p =>
      b ← get s p;
      let r := u8 (ref b + 1) in
      let s := put s p (set_ref r b) in
      _ ← lwip_assert (0 <? r);
      Ret s
  end.

(** [for (p = h; p->next != NULL; p = p->next)]: the last pbuf. *)
Fixpoint cat_loop (fuel : nat) (s : state) (p t : Z) : outcome (Z * state) :=
  match fuel with
  | O => Diverge
  | S fuel' =>
      b ← get s p;
      match next b with
      | None => Ret (p, s)
      | Some q =>
          bt ← get s t;
          cat_loop fuel' (put s p (set_tot_len (u16 (tot_len b + tot_len bt)) b)) q t
      end
  end.

Definition pbuf_cat (s : state) (h t : option Z) : outcome state :=
  match h, t with
  | Some h, Some t =>
      r ← cat_loop (chain_fuel s) s h t;
      let '(p, s) := r in
      b ← get s p;
      _ ← lwip_assert (tot_len b =? len b);
      bt ← get s t;
      Ret (put s p (set_next (Some t) (set_tot_len (u16 (tot_len b + tot_len bt)) b)))
  | _, _ => Assert
  end.

Definition pbuf_chain (s : state) (h t : option Z) : outcome state :=
  s ← pbuf_cat s h t; pbuf_ref s t.

Definition pbuf_dechain (s : state) (p : Z) : outcome (option Z * state) :=
  b ← get s p;
  match next b with
  | Some q =>
      bq ← get s q;
      _ ← lwip_assert (tot_len bq =? tot_len b - len b);
      let s := put s q (set_tot_len (u16 (tot_len b - len b)) bq) in
      s ← modify s p (set_next None);
      s ← modify s p (set_tot_len (len b));
      r ← pbuf_free s (Some q);
      let '(tail_gone, s) := r in
      b ← get s p;
      _ ← lwip_assert (tot_len b =? len b);
      Ret (if 0 <? tail_gone then None else Some q, s)
  | None =>
      _ ← lwip_assert (tot_len b =? len b);
      Ret (None, s)
  end.

(** ** Copying *)

(** "pbuf_copy() does not allow packet queues!" *)
Definition queue_check (s : state) (p : option Z) : outcome unit :=
  match p with
  | None => Ret tt
  | Some p =>
      b ← get s p;
      if len b =? tot_len b then lwip_assert (match next b with None => true | _ => false end)
      else Ret tt
  end.

(** The [do ... while (p_from)] loop of [pbuf_copy]. *)
Fixpoint copy_loop (fuel : nat) (s : state) (p_to : option Z) (offset_to : Z)
    (p_from : option Z) (offset_from : Z) : outcome (err_t * state) :=
  match fuel with
  | O => Diverge
  | S fuel' =>
      pt ← deref p_to; bt ← get s pt;
      pf ← deref p_from; bf ← get s pf;
      let n := if len bf - offset_from <=? len bt - offset_to
               then len bf - offset_from else len bt - offset_to in
      s ← memcpy s (opt_add (payload bt) offset_to) (opt_add (payload bf) offset_from) n;
      let offset_to := offset_to + n in
      let offset_from := offset_from + n in
      _ ← lwip_assert (offset_to <=? len bt);
      _ ← lwip_assert (offset_from <=? len bf);
      let '(offset_from, p_from) :=
        if len bf <=? offset_from then (0, next bf) else (offset_from, p_from) in
      let '(offset_to, p_to, to_ok) :=
        if offset_to =? len bt
        then (0, next bt, match next bt, p_from with None, Some _ => false | _, _ => true end)
        else (offset_to, p_to, true) in
      _ ← lwip_assert to_ok;
      _ ← queue_check s p_from;
      _ ← queue_check s p_to;
      match p_from with
      | Some _ => copy_loop fuel' s p_to offset_to p_from offset_from
      | None => Ret (ERR_OK, s)
      end
  end.

Definition pbuf_copy (s : state) (p_to p_from : option Z) : outcome (err_t * state) :=
  match p_to, p_from with
  | Some t, Some f =>
      bt ← get s t; bf ← get s f;
      _ ← lwip_assert (tot_len bf <=? tot_len bt);
      copy_loop (chain_fuel s + chain_fuel s) s p_to 0 p_from 0
  | _, _ => Assert
  end.

(** [dataptr] is a buffer of the caller. Result: what was written to its start
    ([left] bytes of it so far), and [copied_total]. *)
Fixpoint copy_partial_loop (fuel : nat) (s : state) (p : option Z) (n offset : Z)
    (out : list Z) (copied_total : Z) : outcome (list Z * Z) :=
  if n =? 0 then Ret (out, copied_total)
  else
    match p with
    | None => Ret (out, copied_total)
    | Some p =>
        match fuel with
        | O => Diverge
        | S fuel' =>
            b ← get s p;
            if negb (offset =? 0) && (len b <=? offset) then
              copy_partial_loop fuel' s (next b) n (u16 (offset - len b)) out copied_total
            else
              let buf_copy_len := u16 (len b - offset) in
              let buf_copy_len := if n <? buf_copy_len then n else buf_copy_len in
              d ← load s (opt_add (payload b) offset) buf_copy_len;
              copy_partial_loop fuel' s (next b) (u16 (n - buf_copy_len)) 0 (out ++ d)
                (u16 (copied_total + buf_copy_len))
        end
    end.

Definition pbuf_copy_partial (s : state) (buf : option Z) (n offset : Z) : outcome (list Z * Z) :=
  match buf with
  | None => Assert
  | Some _ => copy_partial_loop (chain_fuel s) s buf n offset [] 0
  end.

Fixpoint skip_loop (fuel : nat) (s : state) (q : option Z) (offset_left : Z)
    : outcome (option Z * Z) :=
  match q with
  | None => Ret (q, offset_left)
  | Some p =>
      match fuel with
      | O => Diverge
      | S fuel' =>
          b ← get s p;
          if len b <=? offset_left then skip_loop fuel' s (next b) (u16 (offset_left - len b))
          else Ret (q, offset_left)
      end
  end.
Definition pbuf_skip_const (s : state) (p : option Z) (in_offset : Z) : outcome (option Z * Z) :=
  skip_loop (chain_fuel s) s p in_offset.
Definition pbuf_skip (s : state) (p : option Z) (in_offset : Z) : outcome (option Z * Z) :=
  pbuf_skip_const s p in_offset.

(** The result is the bytes at the returned pointer: in the payload, or copied
    to the caller's buffer; [None] is [NULL]. *)
Definition pbuf_get_contiguous (s : state) (p : option Z) (bufsize n offset : Z)
    : outcome (option (list Z)) :=
  match p with
  | None => Assert
  | Some _ =>
      _ ← lwip_assert (n <=? bufsize);
      r ← pbuf_skip_const s p offset;
      let '(q, out_offset) := r in
      match q with
      | None => Ret None
      | Some q' =>
          b ← get s q';
          if out_offset + n <=? len b then
            d ← load s (opt_add (payload b) out_offset) n; Ret (Some d)
          else
            r ← pbuf_copy_partial s q n out_offset;
            if negb (snd r =? n) then Ret None else Ret (Some (fst r))
      end
  end.

(** [for (p = buf; total_copy_len != 0; p = p->next)]; [d] is the rest of the
    data. *)
Fixpoint take_loop (fuel : nat) (s : state) (p : option Z) (d : list Z) : outcome state :=
  if Z.of_nat (length d) =? 0 then Ret s
  else
    match fuel with
    | O => Diverge
    | S fuel' =>
        match p with
        | None => Assert
        | Some p =>
            b ← get s p;
            let n := Z.min (Z.of_nat (length d)) (len b) in
            s ← store s (payload b) (take (Z.to_nat n) d);
            take_loop fuel' s (next b) (drop (Z.to_nat n) d)
        end
    end.

Definition pbuf_take (s : state) (buf : option Z) (d : list Z) : outcome (err_t * state) :=
  match buf with
  | None => Assert
  | Some p =>
      b ← get s p;
      _ ← lwip_assert (Z.of_nat (length d) <=? tot_len b);
      s ← take_loop (S (chain_fuel s)) s buf d;
      Ret (ERR_OK, s)
  end.

Definition pbuf_take_at (s : state) (buf : option Z) (d : list Z) (offset : Z)
    : outcome (err_t * state) :=
  r ← pbuf_skip s buf offset;
  let '(q, target_offset) := r in
  match q with
  | None => Ret (ERR_MEM, s)
  | Some q =>
      b ← get s q;
      if target_offset + Z.of_nat (length d) <=? tot_len b then
        _ ← lwip_assert (target_offset <? len b);
        let first_copy_len := u16 (Z.min (len b - target_offset) (Z.of_nat (length d))) in
        s ← store s (opt_add (payload b) target_offset) (take (Z.to_nat first_copy_len) d);
        let rest := drop (Z.to_nat first_copy_len) d in
        if 0 <? Z.of_nat (length rest) then pbuf_take s (next b) rest else Ret (ERR_OK, s)
      else Ret (ERR_MEM, s)
  end.

Definition pbuf_clone (s : state) (layer : pbuf_layer) (type : pbuf_type) (p : Z)
    : outcome (option Z * state) :=
  b ← get s p;
  r ← pbuf_alloc s layer (tot_len b) type;
  match r with
  | (None, s) => Ret (None, s)
  | (Some q, s) =>
      r ← pbuf_copy s (Some q) (Some p);
      _ ← lwip_assert (bool_decide (fst r = ERR_OK));
      Ret (Some q, snd r)
  end.

Definition pbuf_coalesce (s : state) (p : Z) (layer : pbuf_layer) : outcome (Z * state) :=
  b ← get s p;
  match next b with
  | None => Ret (p, s)
  | Some _ =>
      r ← pbuf_clone s layer PBUF_RAM p;
      match r with
      | (None, s) => Ret (p, s)
      | (Some q, s) => r ← pbuf_free s (Some p); Ret (q, snd r)
      end
  end.

(** ** Single bytes and searching *)

Definition pbuf_try_get_at (s : state) (p : option Z) (offset : Z) : outcome Z :=
  r ← pbuf_skip_const s p offset;
  let '(q, q_idx) := r in
  match q with
  | None => Ret (-1)
  | Some q =>
      b ← get s q;
      if q_idx <? len b then
        d ← load s (opt_add (payload b) q_idx) 1; Ret (default 0 (head d))
      else Ret (-1)
  end.

Definition pbuf_get_at (s : state) (p : option Z) (offset : Z) : outcome Z :=
  r ← pbuf_try_get_at s p offset; Ret (if 0 <=? r then u8 r else 0).

Definition pbuf_put_at (s : state) (p : option Z) (offset d : Z) : outcome state :=
  r ← pbuf_skip s p offset;
  let '(q, q_idx) := r in
  match q with
  | None => Ret s
  | Some q =>
      b ← get s q;
      if q_idx <? len b then store s (opt_add (payload b) q_idx) [d] else Ret s
  end.

(** [for (i = 0; i < n; i++)]; [s2] is the rest of the other buffer. *)
Fixpoint memcmp_loop (s : state) (q : option Z) (start i : Z) (s2 : list Z) : outcome Z :=
  match s2 with
  | [] => Ret 0
  | c :: s2' =>
      a ← pbuf_get_at s q (u16 (start + i));
      if negb (a =? c) then Ret (u16 (Z.min (i + 1) 0xFFFF))
      else memcmp_loop s q start (u16 (i + 1)) s2'
  end.

(** The loop that finds the pbuf is the one of [pbuf_skip_const]. *)
Definition pbuf_memcmp (s : state) (p : Z) (offset : Z) (s2 : list Z) : outcome Z :=
  b ← get s p;
  if tot_len b <? offset + Z.of_nat (length s2) then Ret 0xffff
  else
    r ← skip_loop (chain_fuel s) s (Some p) offset;
    let '(q, start) := r in
    memcmp_loop s q start 0 s2.

(** [for (i = start_offset; i <= max_cmp_start; i++)], [i] a [u16_t] *)
Fixpoint memfind_loop (fuel : nat) (s : state) (p : Z) (mem : list Z) (i max_cmp_start : Z)
    : outcome Z :=
  match fuel with
  | O => Diverge
  | S fuel' =>
      if i <=? max_cmp_start then
        plus ← pbuf_memcmp s p i mem;
        if plus =? 0 then Ret i else memfind_loop fuel' s p mem (u16 (i + 1)) max_cmp_start
      else Ret 0xFFFF
  end.

Definition pbuf_memfind (s : state) (p : Z) (mem : list Z) (start_offset : Z) : outcome Z :=
  b ← get s p;
  let mem_len := Z.of_nat (length mem) in
  let max_cmp_start := u16 (tot_len b - mem_len) in
  if mem_len + start_offset <=? tot_len b
  then memfind_loop (Z.to_nat 65537) s p mem start_offset max_cmp_start
  else Ret 0xFFFF.

(** [substr] is the C string without its terminator. *)
Definition pbuf_strstr (s : state) (p : Z) (substr : option (list Z)) : outcome Z :=
  match substr with
  | None | Some [] => Ret 0xFFFF
  | Some substr =>
      b ← get s p;
      if tot_len b =? 0xFFFF then Ret 0xFFFF
      else if 0xFFFF <=? Z.of_nat (length substr) then Ret 0xFFFF
      else pbuf_memfind s p substr 0
  end.

End pbuf.
