(* ===== verification/PbufChain.v ===== *)
(** * Chains of pbufs: the predicates the theorems about [pbuf.c] use

    [chain P o l]: from pointer [o], the structs [P] link the pbufs [l]
    (address and fields). [lens_ok l]: the length fields of a packet, with the
    invariant documented in [pbuf.h],
    [p->tot_len == p->len + (p->next ? p->next->tot_len : 0)].
    [contents s l ds]: the bytes each pbuf describes can be read and are [ds]. *)

From S2P Require Import Prelude PbufMem Pbuf.

Notation node := (Z * pbuf)%type.

Fixpoint chain (P : gmap Z pbuf) (o : option Z) (l : list node) : Prop :=
  match l with
  | [] => o = None
  | (p, b) :: l' => o = Some p /\ P !! p = Some b /\ chain P (next b) l'
  end.

Fixpoint total (l : list node) : Z :=
  match l with [] => 0 | (_, b) :: l' => len b + total l' end.

Fixpoint lens_ok (l : list node) : Prop :=
  match l with
  | [] => True
  | (_, b) :: l' => 0 <= len b /\ tot_len b = len b + total l' /\ tot_len b < 2 ^ 16 /\ lens_ok l'
  end.

Definition contents {A} (s : st A) (l : list node) (ds : list (list Z)) : Prop :=
  Forall2 (fun n d => load s (payload n.2) (len n.2) = Ret d) l ds.

(** ** Chains *)

Lemma chain_app P o l1 l2 : chain P o (l1 ++ l2) <->
  exists o', chain P o' l2 /\ forall l, chain P o' l -> chain P o (l1 ++ l).
Proof.
  split.
  - revert o. induction l1 as [|[p b] l1 IH]; intros o; simpl; [eauto|].
    intros (-> & Hp & H). destruct (IH _ H) as (o' & Hl2 & Hf). exists o'. split; [done|].
    intros l Hl. split; [done|]. split; [done|]. by apply Hf.
  - intros (o' & Hl2 & Hf). by apply Hf.
Qed.

Lemma chain_det P o l1 l2 : chain P o l1 -> chain P o l2 -> l1 = l2.
Proof.
  revert o l2. induction l1 as [|[p b] l1 IH]; intros o l2; simpl.
  - intros ->. destruct l2 as [|[q c] l2]; [done|]. by intros (? & _).
  - intros (-> & Hp & H1). destruct l2 as [|[q c] l2]; [done|]. intros ([= <-] & Hq & H2).
    rewrite Hp in Hq. injection Hq as <-. f_equal. by eapply IH.
Qed.

Lemma chain_suffix P o l1 p b l2 : chain P o (l1 ++ (p, b) :: l2) -> chain P (Some p) ((p, b) :: l2).
Proof.
  intros (o' & (-> & Hp & Hl) & _)%chain_app. by repeat split.
Qed.

Lemma chain_lookup P o l p b : chain P o l -> (p, b) ∈ l -> P !! p = Some b.
Proof.
  intros Hc (l1 & l2 & ->)%list_elem_of_split. apply chain_suffix in Hc. by destruct Hc as (_ & ? & _).
Qed.

(** A finite chain visits every pbuf once. *)
Lemma chain_NoDup P o l : chain P o l -> NoDup l.*1.
Proof.
  revert o. induction l as [|[p b] l IH]; intros o; simpl; [constructor|].
  intros (-> & Hp & Hl). constructor; [|by eapply IH].
  intros ((q & c) & Heq & Hin)%list_elem_of_fmap. simpl in Heq. subst q.
  apply list_elem_of_split in Hin as (l1 & l2 & ->).
  assert (P !! p = Some c) as Hc by (eapply chain_lookup; [done|]; set_solver).
  rewrite Hp in Hc. injection Hc as <-. apply chain_suffix in Hl as Hs.
  destruct Hs as (_ & _ & Hs). pose proof (chain_det _ _ _ _ Hl Hs) as Heq.
  apply (f_equal length) in Heq. rewrite length_app in Heq. simpl in Heq. lia.
Qed.

Lemma chain_length P o l : chain P o l -> (length l <= size P)%nat.
Proof.
  intros Hc. pose proof (chain_NoDup _ _ _ Hc) as Hnd.
  assert (list_to_set l.*1 ⊆ dom P) as Hsub.
  { intros p Hp%elem_of_list_to_set. apply list_elem_of_fmap in Hp as ((q & b) & -> & Hin).
    apply elem_of_dom. exists b. by eapply chain_lookup. }
  apply subseteq_size in Hsub. rewrite size_list_to_set, length_map in Hsub by done.
  by rewrite size_dom in Hsub.
Qed.

(** A chain depends on its own structs only. *)
Lemma chain_frame P P' o l : chain P o l -> (forall p, p ∈ l.*1 -> P' !! p = P !! p) -> chain P' o l.
Proof.
  revert o. induction l as [|[p b] l IH]; intros o; simpl; [done|].
  intros (-> & Hp & Hl) Hf. split; [done|]. rewrite Hf by set_solver. split; [done|].
  apply IH; [done|]. intros q Hq. apply Hf. set_solver.
Qed.

Lemma chain_insert P o l p b : chain P o l -> p ∉ l.*1 -> chain (<[p := b]> P) o l.
Proof.
  intros Hc Hp. eapply chain_frame; [done|]. intros q Hq. apply lookup_insert_ne. set_solver.
Qed.
Lemma chain_delete P o l p : chain P o l -> p ∉ l.*1 -> chain (delete p P) o l.
Proof.
  intros Hc Hp. eapply chain_frame; [done|]. intros q Hq. apply lookup_delete_ne. set_solver.
Qed.

(** ** Lengths *)

Lemma total_app l1 l2 : total (l1 ++ l2) = total l1 + total l2.
Proof. induction l1 as [|[p b] l1 IH]; simpl; [done|]. rewrite IH. lia. Qed.

Lemma lens_ok_app l1 l2 : lens_ok (l1 ++ l2) -> lens_ok l2.
Proof. induction l1 as [|[p b] l1 IH]; simpl; [done|]. intros (_ & _ & _ & ?). auto. Qed.

Lemma lens_ok_total l : lens_ok l -> 0 <= total l < 2 ^ 16.
Proof.
  induction l as [|[p b] l IH]; simpl; [done|]. intros (? & ? & ? & Hl). specialize (IH Hl). lia.
Qed.

Lemma lens_ok_prefix_total l1 l2 : lens_ok (l1 ++ l2) -> 0 <= total l1.
Proof.
  induction l1 as [|[p b] l1 IH]; simpl; [lia|]. intros (? & _ & _ & Hl). specialize (IH Hl). lia.
Qed.

(** ** Contents *)

Section contents.
  Context {A : Type}.
  Implicit Types s : st A.

Lemma load_length s q n d : load s q n = Ret d -> 0 <= n -> Z.of_nat (length d) = n.
  Proof.
    unfold load. intros H Hn. destruct (Z.eqb_spec n 0) as [->|]; [by injection H as <-|].
    destruct q as [q|]; simpl in H; [|done].
    destruct (bytes_of s !! blk q) as [l|]; simpl in H; [|done].
    destruct (range_ok l (off q) n) eqn:Hr; simpl in H; [|done].
    destruct (clear_of_struct s q); [|done]. injection H as <-. by apply length_slice.
  Qed.

  (** Reading a part of what can be read. *)
Lemma load_part s q n d o m : load s q n = Ret d -> 0 <= o -> 0 <= m -> o + m <= n ->
    load s (opt_add q o) m = Ret (slice d o m).
  Proof.
    intros H Ho Hm Hle. unfold load in *. destruct (Z.eqb_spec m 0) as [->|]; [done|].
    destruct (Z.eqb_spec n 0); [lia|]. destruct q as [[b f]|]; simpl in *; [|done].
    destruct (bytes_of s !! b) as [l|]; simpl in *; [|done].
    destruct (range_ok l f n) eqn:Hr; simpl in *; [|done].
    destruct (clear_of_struct s (Ptr b f)) eqn:Hcl; [|done]. injection H as <-.
    unfold range_ok in Hr. rewrite !andb_true_iff, !Z.leb_le in Hr. destruct Hr as [[Hf _] Hr].
    replace (range_ok l (f + o) m) with true.
    2:{ symmetry. unfold range_ok. rewrite !andb_true_iff, !Z.leb_le. lia. }
    replace (clear_of_struct s (ptr_add (Ptr b f) o)) with true.
    2:{ symmetry. unfold clear_of_struct in *. simpl in *. destruct (pbufs s !! b); [|done].
        apply Z.leb_le. apply Z.leb_le in Hcl. lia. }
    simpl. f_equal. unfold slice.
    replace (Z.to_nat n) with (Z.to_nat o + Z.to_nat (n - o))%nat by lia.
    rewrite <- take_drop_commute, take_take, drop_drop. do 2 (f_equal; try lia).
  Qed.

Lemma contents_length s l ds : contents s l ds -> lens_ok l ->
    Z.of_nat (length (concat ds)) = total l.
  Proof.
    induction 1 as [|[p b] d l ds Hd _ IH]; simpl; [done|]. intros (? & _ & _ & Hl).
    apply load_length in Hd; [|done]. rewrite length_app, Nat2Z.inj_add, IH by done. by simpl in *; lia.
  Qed.

Lemma contents_app s l1 l2 ds : contents s (l1 ++ l2) ds ->
    exists ds1 ds2, ds = ds1 ++ ds2 /\ contents s l1 ds1 /\ contents s l2 ds2.
  Proof.
    intros H. apply Forall2_app_inv_l in H as (ds1 & ds2 & ? & ? & ->). eauto.
  Qed.
End contents.

(** The fuel of the loops is enough. *)
Lemma chain_fuel_ok {A} (s : st A) o l : chain (pbufs s) o l -> (length l < chain_fuel s)%nat.
Proof. intros H%chain_length. unfold chain_fuel. lia. Qed.
