(* ===== verification/PbufRead.v ===== *)
(** * Reading packets: [pbuf_clen], [pbuf_skip], [pbuf_get_at],
    [pbuf_copy_partial], [pbuf_get_contiguous], [pbuf_memcmp], [pbuf_memfind],
    [pbuf_strstr]

    However a packet is split into pbufs, these functions see its concatenated
    data. *)

From S2P Require Import Prelude PbufMem Pbuf PbufChain.

Section read.
Context {A : Type} `{!Allocator A}.
Implicit Types s : st A.

(** [packet s o l d]: a well-formed packet with data [d]. *)
Definition packet (s : st A) (o : option Z) (l : list node) (d : list Z) : Prop :=
  chain (pbufs s) o l /\ lens_ok l /\ exists ds, contents s l ds /\ d = concat ds.

Lemma packet_length s o l d : packet s o l d -> Z.of_nat (length d) = total l.
Proof. intros (_ & Hl & ds & Hc & ->). by eapply contents_length. Qed.

Lemma packet_nil s : packet s None [] [].
Proof. split; [done|]. split; [done|]. exists []. split; [constructor|done]. Qed.

Lemma packet_cons s o p b l d : packet s o ((p, b) :: l) d ->
  o = Some p /\ pbufs s !! p = Some b /\ 0 <= len b < 2 ^ 16 /\ tot_len b = len b + total l
  /\ tot_len b < 2 ^ 16
  /\ exists d1 d2, load s (payload b) (len b) = Ret d1 /\ packet s (next b) l d2 /\ d = d1 ++ d2.
Proof.
  intros ((-> & Hp & Hc) & (H0 & Ht & Htl & Hl) & ds & Hd & ->). inversion Hd as [|? d1 ? ds2 Hd1 Hd2]; subst.
  pose proof (lens_ok_total _ Hl). split_and!; (done || lia || idtac).
  exists d1, (concat ds2). split; [done|]. split; [|done]. split; [done|]. split; [done|]. eauto.
Qed.

Lemma get_ok s p b : pbufs s !! p = Some b -> get s p = Ret b.
Proof. apply deref_Some. Qed.

(** ** Skipping *)

(** [skip_loop] drops whole pbufs: what is left starts inside the pbuf found. *)
Lemma skip_loop_spec fuel s o l d n :
  packet s o l d -> 0 <= n < 2 ^ 16 -> (length l < fuel)%nat ->
  exists o' l' d' n', skip_loop fuel s o n = Ret (o', n') /\ packet s o' l' d' /\ 0 <= n'
    /\ n' <= n /\ (exists k, d' = drop k d)
    /\ (forall k, 0 <= k -> drop (Z.to_nat (n' + k)) d' = drop (Z.to_nat (n + k)) d)
    /\ total l - n = total l' - n'
    /\ match l' with [] => o' = None | (p, b) :: _ => o' = Some p /\ n' < len b end.
Proof.
  revert o l d n. induction fuel as [|fuel IH]; intros o l d n Hpk Hn Hf; [lia|].
  destruct l as [|[p b] l].
  { assert (o = None) as -> by apply Hpk. exists None, [], d, n. simpl.
    split_and!; try (done || lia). by exists 0%nat. }
  destruct (packet_cons _ _ _ _ _ _ Hpk) as (-> & Hp & H0 & Ht & Htl & d1 & d2 & Hd1 & Hpk2 & ->).
  cbn [skip_loop]. rewrite (get_ok _ _ _ Hp), ret_bind.
  apply load_length in Hd1 as Hl1; [|lia].
  destruct (Z.leb_spec (len b) n) as [Hle|Hgt].
  - rewrite u16_small by lia.
    destruct (IH (next b) l d2 (n - len b) Hpk2 ltac:(lia) ltac:(simpl in Hf; lia))
      as (o' & l' & d' & n' & Hs & Hpk' & Hn' & Hle' & (k & ->) & Hdr & Htot & Hhd).
    exists o', l', (drop k d2), n'. split; [done|]. split; [done|]. split; [done|]. split; [lia|].
    split; [exists (length d1 + k)%nat; by rewrite <- drop_drop, drop_app_length|].
    split; [|split; [simpl; lia|done]].
    intros j Hj. rewrite Hdr by done. rewrite drop_app_ge by lia. f_equal. lia.
  - exists (Some p), ((p, b) :: l), (d1 ++ d2), n.
    split_and!; try (done || lia). by exists 0%nat.
Qed.

(** ** Single bytes *)

Lemma slice_1 d n x : 0 <= n -> d !! Z.to_nat n = Some x -> slice d n 1 = [x].
Proof.
  intros Hn Hx. unfold slice. rewrite <- (take_drop_middle d _ _ Hx) at 1.
  apply lookup_lt_Some in Hx. rewrite drop_app_ge by (rewrite length_take; lia).
  rewrite length_take, Nat.min_l, Nat.sub_diag by lia. done.
Qed.

(** The byte at an offset inside the first pbuf of a packet. *)
Lemma load_byte s p b l d n : packet s (Some p) ((p, b) :: l) d -> 0 <= n < len b ->
  exists x, d !! Z.to_nat n = Some x /\ load s (opt_add (payload b) n) 1 = Ret [x].
Proof.
  intros Hpk Hn.
  destruct (packet_cons _ _ _ _ _ _ Hpk) as (_ & Hp & H0 & Ht & Htl & d1 & d2 & Hd1 & _ & ->).
  apply load_length in Hd1 as Hl1; [|lia].
  destruct (lookup_lt_is_Some_2 d1 (Z.to_nat n) ltac:(lia)) as [x Hx].
  exists x. split; [by rewrite lookup_app_l by lia|].
  rewrite (load_part s (payload b) (len b) d1 n 1 Hd1) by lia. by rewrite (slice_1 d1 n x) by (done || lia).
Qed.

Lemma lookup_drop_0 (d : list Z) n : d !! n = drop n d !! 0%nat.
Proof. by rewrite lookup_drop, Nat.add_0_r. Qed.

Lemma try_get_at_spec s o l d n : packet s o l d -> 0 <= n < 2 ^ 16 ->
  pbuf_try_get_at s o n = Ret (default (-1) (d !! Z.to_nat n)).
Proof.
  intros Hpk Hn. pose proof (chain_fuel_ok _ _ _ (proj1 Hpk)) as Hf.
  destruct (skip_loop_spec _ s o l d n Hpk Hn Hf)
    as (o' & l' & d' & n' & Hs & Hpk' & Hn' & _ & _ & Hdr & _ & Hhd).
  specialize (Hdr 0 ltac:(lia)). rewrite !Z.add_0_r in Hdr.
  rewrite lookup_drop_0, <- Hdr, <- lookup_drop_0.
  unfold pbuf_try_get_at, pbuf_skip_const. rewrite Hs, ret_bind.
  destruct l' as [|[p b] l'].
  - subst o'. destruct Hpk' as (_ & _ & ds & Hds & ->). inversion Hds; subst. done.
  - destruct Hhd as [-> Hlt]. destruct (packet_cons _ _ _ _ _ _ Hpk') as (_ & Hp & _).
    rewrite (get_ok _ _ _ Hp), ret_bind. rewrite (proj2 (Z.ltb_lt n' (len b))) by lia.
    destruct (load_byte _ _ _ _ _ _ Hpk' (conj Hn' Hlt)) as (x & Hx & ->). by rewrite Hx.
Qed.

Lemma get_at_spec s o l d n : packet s o l d -> bytes d -> 0 <= n < 2 ^ 16 ->
  pbuf_get_at s o n = Ret (default 0 (d !! Z.to_nat n)).
Proof.
  intros Hpk Hb Hn. unfold pbuf_get_at. rewrite (try_get_at_spec _ _ _ _ _ Hpk Hn), ret_bind.
  destruct (d !! Z.to_nat n) as [x|] eqn:Hx; simpl; [|done].
  eapply Forall_lookup in Hx; [|exact Hb]. unfold is_byte in Hx.
  destruct (Z.leb_spec 0 x); [|lia]. by rewrite u8_small.
Qed.

(** ** Copying out *)

Lemma slice_nil n m : slice [] n m = [].
Proof. unfold slice. by rewrite drop_nil, take_nil. Qed.
Lemma slice_app_ge (d1 d2 : list Z) n m : Z.of_nat (length d1) <= n ->
  slice (d1 ++ d2) n m = slice d2 (n - Z.of_nat (length d1)) m.
Proof.
  intros H. unfold slice. rewrite drop_app_ge by lia. do 2 f_equal. lia.
Qed.
Lemma slice_app_lt (d1 d2 : list Z) n m : 0 <= n -> 0 <= m -> n <= Z.of_nat (length d1) ->
  slice (d1 ++ d2) n m
  = slice d1 n (Z.min m (Z.of_nat (length d1) - n))
    ++ slice d2 0 (m - Z.min m (Z.of_nat (length d1) - n)).
Proof.
  intros Hn Hm H. unfold slice. rewrite drop_app_le by lia. change (Z.to_nat 0) with 0%nat.
  rewrite drop_0. destruct (Z.le_gt_cases m (Z.of_nat (length d1) - n)).
  - rewrite Z.min_l, Z.sub_diag by lia. change (Z.to_nat 0) with 0%nat. rewrite take_0, app_nil_r.
    rewrite take_app_le; [done|]. rewrite length_drop. lia.
  - rewrite Z.min_r by lia. rewrite take_app_ge by (rewrite length_drop; lia).
    rewrite (take_ge (drop _ d1)) by (rewrite length_drop; lia). f_equal. f_equal.
    rewrite length_drop. lia.
Qed.
Lemma length_slice_min (d : list Z) n m : 0 <= n -> 0 <= m ->
  Z.of_nat (length (slice d n m)) = Z.max 0 (Z.min m (Z.of_nat (length d) - n)).
Proof. intros. unfold slice. rewrite length_take, length_drop. lia. Qed.

Lemma copy_partial_loop_spec fuel s o l d n offset out copied :
  packet s o l d -> 0 <= n < 2 ^ 16 -> 0 <= offset < 2 ^ 16 -> 0 <= copied -> copied + n < 2 ^ 16 ->
  (length l < fuel)%nat ->
  copy_partial_loop fuel s o n offset out copied
  = Ret (out ++ slice d offset n, copied + Z.of_nat (length (slice d offset n))).
Proof.
  revert o l d n offset out copied. induction fuel as [|fuel IH];
    intros o l d n offset out copied Hpk Hn Hof Hc0 Hc Hf; [lia|]. cbn [copy_partial_loop].
  destruct (Z.eqb_spec n 0) as [->|Hnz].
  { rewrite slice_0, app_nil_r. simpl. do 2 f_equal. lia. }
  destruct l as [|[p b] l].
  { destruct Hpk as (-> & _ & ds & Hds & ->). inversion Hds; subst. simpl.
    rewrite slice_nil, app_nil_r. simpl. do 2 f_equal. lia. }
  destruct (packet_cons _ _ _ _ _ _ Hpk) as (-> & Hp & H0 & Ht & Htl & d1 & d2 & Hd1 & Hpk2 & ->).
  rewrite (get_ok _ _ _ Hp), ret_bind. apply load_length in Hd1 as Hl1; [|lia].
  simpl in Hf. destruct (negb (offset =? 0) && (len b <=? offset)) eqn:Hskip.
  - apply andb_true_iff in Hskip as [_ Hle%Z.leb_le]. rewrite u16_small by lia.
    rewrite (IH _ l d2) by (done || lia). by rewrite slice_app_ge, Hl1 by lia.
  - assert (offset <= len b) as Hob.
    { apply andb_false_iff in Hskip as [H%negb_false_iff%Z.eqb_eq|H%Z.leb_gt]; lia. }
    rewrite (u16_small (len b - offset)) by lia.
    replace (if n <? len b - offset then n else len b - offset) with (Z.min n (len b - offset))
      by (destruct (Z.ltb_spec n (len b - offset)); lia).
    rewrite (load_part s (payload b) (len b) d1) by (done || lia). rewrite ret_bind.
    rewrite !u16_small by lia. rewrite (IH _ l d2) by (done || lia).
    rewrite slice_app_lt, Hl1 by lia. rewrite <- app_assoc, length_app, Nat2Z.inj_add.
    rewrite (length_slice_min d1), Hl1 by lia. do 2 f_equal. lia.
Qed.

Lemma copy_partial_spec s p l d n offset :
  packet s (Some p) l d -> 0 <= n < 2 ^ 16 -> 0 <= offset < 2 ^ 16 ->
  pbuf_copy_partial s (Some p) n offset = Ret (slice d offset n, Z.of_nat (length (slice d offset n))).
Proof.
  intros Hpk Hn Ho. unfold pbuf_copy_partial. pose proof (chain_fuel_ok _ _ _ (proj1 Hpk)).
  by rewrite (copy_partial_loop_spec _ s _ l d) by (done || lia).
Qed.

Lemma get_contiguous_spec s p l d bufsize n offset :
  packet s (Some p) l d -> 0 < n < 2 ^ 16 -> 0 <= offset < 2 ^ 16 -> n <= bufsize ->
  pbuf_get_contiguous s (Some p) bufsize n offset
  = Ret (if offset + n <=? Z.of_nat (length d) then Some (slice d offset n) else None).
Proof.
  intros Hpk Hn Ho Hbuf. unfold pbuf_get_contiguous.
  rewrite lwip_assert_true, ret_bind by (by apply Z.leb_le).
  pose proof (chain_fuel_ok _ _ _ (proj1 Hpk)) as Hf.
  destruct (skip_loop_spec _ s _ l d offset Hpk Ho Hf)
    as (o' & l' & d' & n' & Hs & Hpk' & Hn' & Hle & _ & Hdr & Htot & Hhd).
  unfold pbuf_skip_const. rewrite Hs, ret_bind.
  rewrite (packet_length _ _ _ _ Hpk). pose proof (packet_length _ _ _ _ Hpk') as Hld'.
  assert (slice d' n' n = slice d offset n) as Hsl.
  { unfold slice. specialize (Hdr 0 ltac:(lia)). rewrite !Z.add_0_r in Hdr. by rewrite Hdr. }
  destruct l' as [|[q b] l'].
  { subst o'. simpl in Htot. destruct (Z.leb_spec (offset + n) (total l)); [lia|done]. }
  destruct Hhd as [-> Hlt].
  destruct (packet_cons _ _ _ _ _ _ Hpk') as (_ & Hp & H0 & Ht & Htl & d1 & d2 & Hd1 & Hpk2 & ->).
  rewrite (get_ok _ _ _ Hp), ret_bind. apply load_length in Hd1 as Hl1; [|lia].
  simpl in Htot, Hld'. pose proof (packet_length _ _ _ _ Hpk2) as Hl2.
  pose proof (lens_ok_total l' (proj1 (proj2 Hpk2))).
  destruct (Z.leb_spec (n' + n) (len b)) as [Hin|Hout].
  - rewrite (load_part s _ _ _ _ _ Hd1) by lia. rewrite ret_bind.
    destruct (Z.leb_spec (offset + n) (total l)); [|lia].
    rewrite <- Hsl, slice_app_lt, Hl1 by lia. rewrite Z.min_l, Z.sub_diag by lia.
    by rewrite slice_0, app_nil_r.
  - rewrite (copy_partial_spec s q ((q, b) :: l') (d1 ++ d2)) by (done || lia). rewrite ret_bind, Hsl.
    simpl. rewrite length_slice_min, (packet_length _ _ _ _ Hpk) by lia.
    destruct (Z.leb_spec (offset + n) (total l)).
    + rewrite (proj2 (Z.eqb_eq _ _)) by lia. done.
    + rewrite (proj2 (Z.eqb_neq _ _)) by lia. done.
Qed.

(** ** Comparing and searching *)

(** Index of the first position of [b] at which [a] differs (or has ended). *)
Fixpoint mismatch (a b : list Z) {struct b} : option Z :=
  match b with
  | [] => None
  | y :: b' =>
      match a with
      | x :: a' => if x =? y then Z.succ <$> mismatch a' b' else Some 0
      | [] => Some 0
      end
  end.

Lemma mismatch_None a b : mismatch a b = None <-> b `prefix_of` a.
Proof.
  revert a. induction b as [|y b IH]; intros a; simpl; [split; [intros; apply prefix_nil|reflexivity]|].
  destruct a as [|x a]; [split; [done|intros H%prefix_nil_not; done]|].
  destruct (Z.eqb_spec x y) as [->|Hne].
  - rewrite fmap_None, IH. split; [by apply prefix_cons|by apply prefix_cons_inv_2].
  - split; [done|]. intros H%prefix_cons_inv_1. congruence.
Qed.

Lemma mismatch_bound a b k : mismatch a b = Some k -> 0 <= k < Z.of_nat (length b).
Proof.
  revert a k. induction b as [|y b IH]; intros a k; simpl; [done|].
  destruct a as [|x a]; [intros [= <-]; lia|]. destruct (x =? y); [|intros [= <-]; lia].
  destruct (mismatch a b) as [j|] eqn:Hj; simpl; intros [= <-]. specialize (IH _ _ Hj). lia.
Qed.

Lemma memcmp_loop_spec s o l d start i (s2 : list Z) :
  packet s o l d -> bytes d -> 0 <= start -> 0 <= i ->
  start + i + Z.of_nat (length s2) <= Z.of_nat (length d) ->
  memcmp_loop s o start i s2
  = Ret (match mismatch (drop (Z.to_nat (start + i)) d) s2 with None => 0 | Some k => i + k + 1 end).
Proof.
  intros Hpk Hb Hs. pose proof (packet_length _ _ _ _ Hpk) as Hl.
  pose proof (lens_ok_total l (proj1 (proj2 Hpk))) as Ht.
  revert i. induction s2 as [|c s2 IH]; intros i Hi Hle; [done|]. cbn [memcmp_loop length] in *.
  rewrite (u16_small (start + i)) by lia. rewrite (get_at_spec _ _ _ _ _ Hpk Hb), ret_bind by lia.
  destruct (lookup_lt_is_Some_2 d (Z.to_nat (start + i)) ltac:(lia)) as [x Hx].
  rewrite (drop_S d x (Z.to_nat (start + i))) by done. rewrite Hx. cbn [mismatch]. change (default 0 (Some x)) with x.
  destruct (Z.eqb_spec x c) as [->|]; cbn [negb].
  - rewrite u16_small by lia. rewrite IH by lia.
    replace (Z.to_nat (start + (i + 1))) with (S (Z.to_nat (start + i))) by lia.
    destruct (mismatch _ s2); simpl; f_equal; lia.
  - rewrite u16_small by lia. f_equal. lia.
Qed.

(** [pbuf_memcmp] compares the packet's data from [offset] on: 0xffff when the
    packet is too short, 0 when equal, else 1 + the index of the difference. *)
Lemma memcmp_spec s p l d offset (s2 : list Z) :
  packet s (Some p) l d -> bytes d -> 0 <= offset < 2 ^ 16 ->
  pbuf_memcmp s p offset s2
  = Ret (if Z.of_nat (length d) <? offset + Z.of_nat (length s2) then 0xffff
         else match mismatch (drop (Z.to_nat offset) d) s2 with None => 0 | Some k => k + 1 end).
Proof.
  intros Hpk Hb Ho. pose proof (packet_length _ _ _ _ Hpk) as Hl.
  destruct l as [|[q b] l]; [by destruct Hpk as [? _]|].
  destruct (packet_cons _ _ _ _ _ _ Hpk) as ([= <-] & Hp & _ & Ht & Htl & _).
  unfold pbuf_memcmp. rewrite (get_ok _ _ _ Hp), ret_bind. simpl in Hl. rewrite Hl, <- Ht.
  destruct (Z.ltb_spec (tot_len b) (offset + Z.of_nat (length s2))) as [|Hle]; [done|].
  pose proof (chain_fuel_ok _ _ _ (proj1 Hpk)) as Hf.
  destruct (skip_loop_spec _ s _ _ d offset Hpk Ho Hf)
    as (o' & l' & d' & n' & Hsk & Hpk' & Hn' & _ & (k & ->) & Hdr & Htot & _).
  rewrite Hsk, ret_bind. pose proof (packet_length _ _ _ _ Hpk') as Hl'. simpl in Htot.
  rewrite (memcmp_loop_spec _ _ _ _ _ _ _ Hpk' (bytes_drop k d Hb)) by lia.
  rewrite Z.add_0_r. specialize (Hdr 0 ltac:(lia)). rewrite !Z.add_0_r in Hdr. rewrite Hdr.
  f_equal.
Qed.
Lemma mismatch_zero_iff a b :
  (match mismatch a b with None => 0 | Some k => k + 1 end =? 0) = bool_decide (b `prefix_of` a).
Proof.
  destruct (mismatch a b) as [k|] eqn:Hk.
  - pose proof (mismatch_bound _ _ _ Hk). rewrite bool_decide_eq_false_2, Z.eqb_neq; [lia|].
    rewrite <- mismatch_None. congruence.
  - rewrite bool_decide_eq_true_2; [done|]. by apply mismatch_None.
Qed.

Lemma memfind_loop_spec fuel s p l d (mem : list Z) i m :
  packet s (Some p) l d -> bytes d -> m = Z.of_nat (length d) - Z.of_nat (length mem) ->
  m < 0xFFFF -> 0 <= i -> i <= 2 ^ 16 - 1 -> (Z.to_nat (m + 1 - i) < fuel)%nat ->
  exists r, memfind_loop fuel s p mem i m = Ret r /\
    ((r = 0xFFFF /\ forall k, i <= k <= m -> ~ mem `prefix_of` drop (Z.to_nat k) d)
     \/ (i <= r <= m /\ mem `prefix_of` drop (Z.to_nat r) d
         /\ forall k, i <= k < r -> ~ mem `prefix_of` drop (Z.to_nat k) d)).
Proof.
  intros Hpk Hb Hm Hm1. revert i. induction fuel as [|fuel IH]; intros i Hi Hi2 Hf; [lia|].
  cbn [memfind_loop]. destruct (Z.leb_spec i m) as [Him|Him].
  2:{ exists 0xFFFF. split; [done|]. left. split; [done|]. intros k Hk. lia. }
  rewrite (memcmp_spec _ _ _ _ _ _ Hpk Hb), ret_bind by lia.
  rewrite (proj2 (Z.ltb_ge _ _)) by lia. rewrite mismatch_zero_iff.
  case_bool_decide as Hpre.
  - exists i. split; [done|]. right. split; [lia|]. split; [done|]. intros k Hk. lia.
  - rewrite u16_small by lia. destruct (IH (i + 1)) as (r & Hr & Hcase); [lia..|].
    exists r. split; [done|]. destruct Hcase as [[-> Hn]|(Hr1 & Hr2 & Hn)]; [left|right].
    + split; [done|]. intros k Hk. destruct (Z.eq_dec k i) as [->|]; [done|]. apply Hn. lia.
    + split; [lia|]. split; [done|]. intros k Hk. destruct (Z.eq_dec k i) as [->|]; [done|]. apply Hn. lia.
Qed.
End read.

(** ** Properties *)

(** A packet of two pbufs, used by the witnesses below: [1 2 3] and [4 5]. *)
Definition demo : st unit :=
  St (<[1 := Pbuf (Some 2) (Some (Ptr 100 0)) 5 3 0x41 0 1 0]>
       (<[2 := Pbuf None (Some (Ptr 101 1)) 2 2 0x41 0 1 0]> ∅))
     (<[100 := [1; 2; 3]]> (<[101 := [9; 4; 5; 6]]> ∅)) tt false.
Definition demo_chain : list node :=
  [(1, Pbuf (Some 2) (Some (Ptr 100 0)) 5 3 0x41 0 1 0);
   (2, Pbuf None (Some (Ptr 101 1)) 2 2 0x41 0 1 0)].

Lemma demo_packet : packet demo (Some 1) demo_chain [1; 2; 3; 4; 5].
Proof.
  split; [by repeat split|]. split; [by repeat split|]. exists [[1; 2; 3]; [4; 5]].
  split; [|done]. repeat constructor.
Qed.

(** [pbuf_copy_partial] copies bytes [offset .. offset+len) of the packet's data,
    as far as the packet reaches, and returns how many; how the packet is split
    into pbufs does not matter. *)
Theorem copy_partial_slice {A} (s : st A) p l d n offset :
  packet s (Some p) l d -> 0 <= n < 2 ^ 16 -> 0 <= offset < 2 ^ 16 ->
  pbuf_copy_partial s (Some p) n offset = Ret (slice d offset n, Z.of_nat (length (slice d offset n))).
Proof. apply copy_partial_spec. Qed.

Lemma copy_partial_slice_witness :
  pbuf_copy_partial demo (Some 1) 3 1
  = Ret (slice [1; 2; 3; 4; 5] 1 3, Z.of_nat (length (slice [1; 2; 3; 4; 5] 1 3))).
Proof. apply (copy_partial_slice demo 1 demo_chain); [apply demo_packet|done|done]. Defined.

(** [pbuf_get_contiguous] gives the requested bytes of the packet, from its
    payload or from the caller's buffer, and [NULL] exactly when the packet is
    too short. *)
Theorem get_contiguous_slice {A} (s : st A) p l d bufsize n offset :
  packet s (Some p) l d -> 0 < n < 2 ^ 16 -> 0 <= offset < 2 ^ 16 -> n <= bufsize ->
  pbuf_get_contiguous s (Some p) bufsize n offset
  = Ret (if offset + n <=? Z.of_nat (length d) then Some (slice d offset n) else None).
Proof. apply get_contiguous_spec. Qed.

Lemma get_contiguous_slice_witness :
  pbuf_get_contiguous demo (Some 1) 10 3 1
  = Ret (if 1 + 3 <=? Z.of_nat (length [1; 2; 3; 4; 5])
         then Some (slice [1; 2; 3; 4; 5] 1 3) else None).
Proof. apply (get_contiguous_slice demo 1 demo_chain); [apply demo_packet|done|done|done]. Defined.

(** [pbuf_memcmp] returns 0xffff when the packet is too short, 0 when its data
    at [offset] is the other buffer, and otherwise one more than the index of the
    first difference; and [pbuf_get_at] and [pbuf_try_get_at] give the byte at an
    offset (0, resp. -1, past the end). *)
Theorem memcmp_get_at {A} (s : st A) p l d offset (s2 : list Z) :
  packet s (Some p) l d -> bytes d -> 0 <= offset < 2 ^ 16 ->
  pbuf_memcmp s p offset s2
  = Ret (if Z.of_nat (length d) <? offset + Z.of_nat (length s2) then 0xffff
         else match mismatch (drop (Z.to_nat offset) d) s2 with None => 0 | Some k => k + 1 end)
  /\ pbuf_get_at s (Some p) offset = Ret (default 0 (d !! Z.to_nat offset))
  /\ pbuf_try_get_at s (Some p) offset = Ret (default (-1) (d !! Z.to_nat offset)).
Proof.
  intros Hpk Hb Ho. split; [by eapply memcmp_spec|]. split; [by eapply get_at_spec|].
  by eapply try_get_at_spec.
Qed.

Lemma memcmp_get_at_witness :
  pbuf_memcmp demo 1 2 [3; 4; 6] = Ret 3 /\ pbuf_get_at demo (Some 1) 2 = Ret 3
  /\ pbuf_try_get_at demo (Some 1) 2 = Ret 3.
Proof.
  apply (memcmp_get_at demo 1 demo_chain [1; 2; 3; 4; 5] 2 [3; 4; 6]).
  - apply demo_packet.
  - repeat constructor; done.
  - done.
Defined.

(** [pbuf_memfind] returns the first offset, from [start_offset] on, at which
    the bytes occur in the packet, and 0xFFFF only if they do not occur
    (packets shorter than 0xFFFF, as documented). *)
Theorem memfind_first {A} (s : st A) p l d (mem : list Z) start :
  packet s (Some p) l d -> bytes d -> Z.of_nat (length d) < 0xFFFF -> 0 <= start < 2 ^ 16 ->
  exists r, pbuf_memfind s p mem start = Ret r /\
    ((r = 0xFFFF /\ forall k, start <= k -> k + Z.of_nat (length mem) <= Z.of_nat (length d) ->
        ~ mem `prefix_of` drop (Z.to_nat k) d)
     \/ (start <= r < 0xFFFF /\ mem `prefix_of` drop (Z.to_nat r) d
         /\ forall k, start <= k < r -> ~ mem `prefix_of` drop (Z.to_nat k) d)).
Proof.
  intros Hpk Hb Hd Hs. pose proof (packet_length _ _ _ _ Hpk) as Hl.
  destruct l as [|[q b] l]; [by destruct Hpk as [? _]|].
  destruct (packet_cons _ _ _ _ _ _ Hpk) as ([= <-] & Hp & _ & Ht & Htl & _).
  unfold pbuf_memfind. rewrite (get_ok _ _ _ Hp), ret_bind. simpl in Hl. rewrite Ht, <- Hl.
  destruct (Z.leb_spec (Z.of_nat (length mem) + start) (Z.of_nat (length d))) as [Hle|Hgt].
  2:{ exists 0xFFFF. split; [done|]. left. split; [done|]. intros k ? ?. lia. }
  rewrite u16_small by lia.
  destruct (memfind_loop_spec (Z.to_nat 65537) s p ((p, b) :: l) d mem start
              (Z.of_nat (length d) - Z.of_nat (length mem)) Hpk Hb eq_refl ltac:(lia) ltac:(lia)
              ltac:(lia) ltac:(lia)) as (r & Hr & Hcase).
  exists r. split; [done|]. destruct Hcase as [[-> Hn]|(Hr1 & Hr2 & Hn)]; [left|right].
  - split; [done|]. intros k ? ?. apply Hn. lia.
  - split; [lia|]. done.
Qed.

Lemma memfind_first_witness :
  exists r, pbuf_memfind demo 1 [3; 4] 0 = Ret r /\
    ((r = 0xFFFF /\ forall k, 0 <= k -> k + Z.of_nat (length [3; 4]) <= 5 ->
        ~ [3; 4] `prefix_of` drop (Z.to_nat k) [1; 2; 3; 4; 5])
     \/ (0 <= r < 0xFFFF /\ [3; 4] `prefix_of` drop (Z.to_nat r) [1; 2; 3; 4; 5]
         /\ forall k, 0 <= k < r -> ~ [3; 4] `prefix_of` drop (Z.to_nat k) [1; 2; 3; 4; 5])).
Proof.
  apply (memfind_first demo 1 demo_chain [1; 2; 3; 4; 5] [3; 4] 0).
  - apply demo_packet.
  - repeat constructor; done.
  - done.
  - done.
Defined.
