(* ===== verification/PbufWrite.v ===== *)
(** * Writing packets: [pbuf_put_at], [pbuf_take], [pbuf_take_at], [pbuf_copy]

    The functions that write payloads change the packet's concatenated data as
    a write to one buffer would, and no other memory. *)

From S2P Require Import Prelude PbufMem Pbuf PbufChain PbufRead.

(** The byte ranges [n1] at [q1] and [n2] at [q2] do not meet. *)
Definition disj (q1 : option ptr) (n1 : Z) (q2 : option ptr) (n2 : Z) : Prop :=
  match q1, q2 with
  | Some a, Some b => blk a <> blk b \/ off a + n1 <= off b \/ off b + n2 <= off a
  | _, _ => True
  end.
Definition disj_node (b1 b2 : node) : Prop :=
  disj (payload b1.2) (len b1.2) (payload b2.2) (len b2.2).

(** The pbufs of a chain describe separate memory. *)
Fixpoint separate (l : list node) : Prop :=
  match l with [] => True | n :: l' => Forall (disj_node n) l' /\ separate l' end.

Lemma disj_sym q1 n1 q2 n2 : disj q1 n1 q2 n2 -> disj q2 n2 q1 n1.
Proof. destruct q1, q2; simpl; try done. intros [|[|]]; auto. Qed.

(** A write into the pbufs [l]: structs and allocators are unchanged, and so is
    all memory apart from their payloads. *)
Definition same_sizes {A} (s s' : st A) : Prop :=
  forall k, length <$> bytes_of s' !! k = length <$> bytes_of s !! k.
Definition writes {A} (s s' : st A) (l : list node) : Prop :=
  pbufs s' = pbufs s /\ (al s' = al s /\ same_sizes s s')
  /\ forall q n, Forall (fun nd => disj (payload nd.2) (len nd.2) q n) l -> load s' q n = load s q n.

Lemma writes_refl {A} (s : st A) l : writes s s l.
Proof. by repeat split. Qed.

Lemma writes_trans {A} (s1 s2 s3 : st A) l : writes s1 s2 l -> writes s2 s3 l -> writes s1 s3 l.
Proof.
  intros (Hp1 & (Ha1 & Hs1) & H1) (Hp2 & (Ha2 & Hs2) & H2). split; [congruence|]. split.
  { split; [congruence|]. intros k. by rewrite Hs2, Hs1. }
  intros q n Hd. by rewrite H2, H1.
Qed.

Lemma writes_weaken {A} (s1 s2 : st A) l l' : writes s1 s2 l ->
  (forall n, n ∈ l -> n ∈ l') -> writes s1 s2 l'.
Proof.
  intros (Hp1 & Ha1 & H1) Hsub. split; [done|]. split; [done|]. intros q n Hd. apply H1.
  rewrite Forall_forall in Hd |- *. auto.
Qed.

Section write.
Context {A : Type} `{!Allocator A}.
Implicit Types s : st A.

(** Writing [x] at offset [o] of a range that can be read. *)
Lemma store_spec s q n d o (x : list Z) :
  load s q n = Ret d -> 0 <= o -> o + Z.of_nat (length x) <= n ->
  exists s', store s (opt_add q o) x = Ret s' /\ load s' q n = Ret (splice d o x)
    /\ pbufs s' = pbufs s /\ (al s' = al s /\ same_sizes s s')
    /\ forall q2 n2, disj q n q2 n2 -> load s' q2 n2 = load s q2 n2.
Proof.
  intros Hld Ho Hle. destruct x as [|x0 x'] eqn:Hx.
  { exists s. split; [done|]. split; [|done]. rewrite Hld. f_equal. unfold splice. simpl.
    by rewrite Nat.add_0_r, take_drop. }
  rewrite <- Hx in *. assert (0 < Z.of_nat (length x)) by (subst; simpl; lia). clear Hx x0 x'.
  unfold load in Hld. destruct (Z.eqb_spec n 0); [lia|]. destruct q as [[b f]|]; simpl in Hld; [|done].
  destruct (bytes_of s !! b) as [l|] eqn:Hb; simpl in Hld; [|done].
  destruct (range_ok l f n) eqn:Hr; simpl in Hld; [|done].
  destruct (clear_of_struct s (Ptr b f)) eqn:Hcl; [|done]. injection Hld as <-.
  pose proof Hr as Hr'. unfold range_ok in Hr'. rewrite !andb_true_iff, !Z.leb_le in Hr'.
  destruct Hr' as [[Hf _] Hend].
  assert (range_ok l (f + o) (Z.of_nat (length x)) = true) as Hrx.
  { unfold range_ok. rewrite !andb_true_iff, !Z.leb_le. lia. }
  assert (clear_of_struct s (Ptr b (f + o)) = true) as Hclx.
  { unfold clear_of_struct in *. simpl in *. destruct (pbufs s !! b); [|done].
    apply Z.leb_le. apply Z.leb_le in Hcl. lia. }
  unfold store. destruct (Z.eqb_spec (Z.of_nat (length x)) 0); [lia|]. simpl. unfold ptr_add. simpl.
  rewrite Hb. simpl. rewrite Hrx, Hclx. simpl. eexists. split; [done|].
  split; [|split; [done|split]].
  2:{ split; [done|]. intros k. simpl. destruct (decide (b = k)) as [<-|]; [|by rewrite lookup_insert_ne].
      rewrite lookup_insert_eq, Hb. simpl. by rewrite length_splice. }
  - unfold load. destruct (Z.eqb_spec n 0); [lia|]. simpl. rewrite lookup_insert_eq. simpl.
    rewrite range_ok_splice by done. rewrite Hr. unfold clear_of_struct in *. simpl in *. rewrite Hcl.
    f_equal. by apply slice_splice_inside.
  - intros [[b2 f2]|] n2 Hd; unfold load; destruct (Z.eqb_spec n2 0); try done. simpl in *.
    destruct (decide (b2 = b)) as [->|Hne]; [|by rewrite lookup_insert_ne].
    rewrite lookup_insert_eq, Hb. simpl. rewrite range_ok_splice by done.
    change (clear_of_struct _ (Ptr b f2)) with (clear_of_struct s (Ptr b f2)) at 1.
    destruct (range_ok l f2 n2) eqn:Hr2; [|done]. simpl. destruct (clear_of_struct s (Ptr b f2)); [|done].
    unfold range_ok in Hr2. rewrite !andb_true_iff, !Z.leb_le in Hr2. f_equal.
    destruct Hd as [|[Hd|Hd]]; [done|apply slice_splice_after|apply slice_splice_before]; (done || lia).
Qed.

(** ** Packets under writes *)

Definition hd_ptr (l : list node) : option Z := match l with [] => None | (p, _) :: _ => Some p end.

Lemma packet_hd s o l d : packet s o l d -> o = hd_ptr l.
Proof. intros (Hc & _). destruct l as [|[p b] l]; [done|]. by destruct Hc. Qed.

Lemma contents_writes s s' l0 l ds : contents s l ds -> writes s s' l0 ->
  Forall (fun n => Forall (fun n0 => disj_node n0 n) l0) l -> contents s' l ds.
Proof.
  intros Hc (_ & _ & Hw) Hd. induction Hc as [|[p b] d l ds Hl _ IH]; [constructor|].
  apply Forall_cons in Hd as [Hd1 Hd2]. constructor; [|by apply IH]. by rewrite Hw.
Qed.

Lemma packet_writes s s' l0 o l d : packet s o l d -> writes s s' l0 ->
  Forall (fun n => Forall (fun n0 => disj_node n0 n) l0) l -> packet s' o l d.
Proof.
  intros (Hc & Hl & ds & Hds & ->) Hw Hd. split; [by rewrite (proj1 Hw)|]. split; [done|].
  exists ds. split; [|done]. by eapply contents_writes.
Qed.

(** The rest of a packet, and putting it back after a change. *)
Lemma packet_app s o l1 l2 d : packet s o (l1 ++ l2) d ->
  exists d1 d2, d = d1 ++ d2 /\ Z.of_nat (length d1) = total l1 /\ packet s (hd_ptr l2) l2 d2
    /\ forall s' d2', writes s s' l2 -> Forall (fun n => Forall (fun n0 => disj_node n0 n) l2) l1 ->
         packet s' (hd_ptr l2) l2 d2' -> packet s' o (l1 ++ l2) (d1 ++ d2').
Proof.
  intros (Hc & Hl & ds & Hds & ->). apply contents_app in Hds as (ds1 & ds2 & -> & Hds1 & Hds2).
  pose proof (proj1 (chain_app _ _ _ _) Hc) as (o' & Hc2 & Hf).
  assert (o' = hd_ptr l2) as -> by (destruct l2 as [|[p b] l2]; [done|by destruct Hc2]).
  exists (concat ds1), (concat ds2). rewrite concat_app. split; [done|]. split.
  { clear -Hl Hds1. induction Hds1 as [|[p b] d1 l1 ds1 Hd1 _ IH]; simpl; [done|].
    destruct Hl as (H0 & _ & _ & Hl). rewrite length_app, Nat2Z.inj_add, IH by done.
    by rewrite (load_length _ _ _ _ Hd1). }
  split. { split; [done|]. split; [by eapply lens_ok_app|]. eauto. }
  intros s' d2' Hw Hd (Hc2' & Hl2' & ds2' & Hds2' & ->). split; [by rewrite (proj1 Hw)|].
  split; [done|]. exists (ds1 ++ ds2'). rewrite concat_app. split; [|done].
  apply Forall2_app; [|done]. by eapply contents_writes.
Qed.

Lemma separate_app l1 l2 : separate (l1 ++ l2) ->
  separate l2 /\ Forall (fun n => Forall (fun n0 => disj_node n0 n) l2) l1.
Proof.
  induction l1 as [|n l1 IH]; simpl; [by split; [|constructor]|]. intros [Hn Hs].
  destruct (IH Hs) as [H2 H1]. split; [done|]. constructor; [|done].
  apply Forall_app in Hn as [_ Hn]. eapply Forall_impl; [done|]. intros n0. apply disj_sym.
Qed.

(** A write into the first pbuf. *)
Lemma packet_store s o p b l d1 d2 n (x : list Z) :
  packet s o ((p, b) :: l) (d1 ++ d2) -> load s (payload b) (len b) = Ret d1 ->
  separate ((p, b) :: l) -> 0 <= n -> n + Z.of_nat (length x) <= len b ->
  exists s', store s (opt_add (payload b) n) x = Ret s' /\ writes s s' [(p, b)]
    /\ packet s' o ((p, b) :: l) (splice d1 n x ++ d2).
Proof.
  intros Hpk Hd1 [Hsep _] Hn Hle.
  destruct (store_spec s _ _ _ n x Hd1 Hn Hle) as (s' & Hst & Hld & HP & HA & Hfr).
  exists s'. split; [done|].
  assert (writes s s' [(p, b)]) as Hw.
  { split; [done|]. split; [done|]. intros q m [Hd _]%Forall_cons. by apply Hfr. }
  split; [done|]. destruct (packet_app s o [(p, b)] l (d1 ++ d2) Hpk) as (e1 & e2 & He & Hle1 & Hpk2 & _).
  destruct Hpk as (Hc & Hl & _). apply (load_length) in Hd1 as Hl1; [|by destruct Hl].
  simpl in Hle1. apply app_inj_1 in He as [<- <-]; [|lia].
  assert (packet s' (hd_ptr l) l d2) as (Hc' & Hl' & ds' & Hds' & ->).
  { eapply packet_writes; [done|done|]. eapply Forall_impl; [done|]. intros n0 Hd. by repeat constructor. }
  split; [by rewrite HP|]. split; [done|]. exists (splice d1 n x :: ds'). split; [|done]. by constructor.
Qed.

(** ** [pbuf_take] *)

Lemma splice_0 d (x : list Z) : (length x <= length d)%nat -> splice d 0 x = x ++ drop (length x) d.
Proof. done. Qed.

Lemma take_loop_spec fuel s o l d (x : list Z) :
  packet s o l d -> separate l -> (length x <= length d)%nat -> (length l < fuel)%nat ->
  exists s', take_loop fuel s o x = Ret s' /\ writes s s' l
    /\ packet s' o l (x ++ drop (length x) d).
Proof.
  revert s o l d x. induction fuel as [|fuel IH]; intros s o l d x Hpk Hsep Hx Hf; [lia|].
  cbn [take_loop]. destruct (Z.eqb_spec (Z.of_nat (length x)) 0) as [Hz|Hz].
  { exists s. split; [done|]. split; [apply writes_refl|]. destruct x; [done|simpl in Hz; lia]. }
  destruct l as [|[p b] l].
  { destruct Hpk as (_ & _ & ds & Hds & ->). inversion Hds; subst. simpl in Hx. lia. }
  destruct (packet_cons _ _ _ _ _ _ Hpk) as (-> & Hp & H0 & Ht & Htl & d1 & d2 & Hd1 & Hpk2 & ->).
  rewrite (get_ok _ _ _ Hp), ret_bind. apply load_length in Hd1 as Hl1; [|lia].
  set (n := Z.min (Z.of_nat (length x)) (len b)).
  assert (length (take (Z.to_nat n) x) = Z.to_nat n) as Hlt by (rewrite length_take; lia).
  destruct (packet_store s _ p b l d1 d2 0 (take (Z.to_nat n) x) Hpk Hd1 Hsep) as (s1 & Hst & Hw1 & Hpk1);
    [lia|lia|].
  assert (opt_add (payload b) 0 = payload b) as Hadd.
  { destruct (payload b) as [[? ?]|]; simpl; unfold ptr_add; simpl; rewrite ?Z.add_0_r; done. }
  rewrite Hadd in Hst. rewrite Hst, ret_bind.
  destruct Hsep as [Hsp Hsep]. simpl in Hf, Hx. rewrite length_app in Hx.
  destruct (packet_app s1 _ [(p, b)] l _ Hpk1) as (e1 & e2 & He & Hle1 & Hpk1' & Hback).
  simpl in Hle1. assert (length (splice d1 0 (take (Z.to_nat n) x)) = length d1) as Hls.
  { apply length_splice. unfold range_ok. rewrite !andb_true_iff, !Z.leb_le. lia. }
  apply app_inj_1 in He as [<- <-]; [|lia].
  rewrite <- (packet_hd _ _ _ _ Hpk2) in Hpk1', Hback.
  destruct (IH s1 (next b) l d2 (drop (Z.to_nat n) x) Hpk1' Hsep) as (s2 & Ht2 & Hw2 & Hpk2');
    [rewrite length_drop; lia|lia|].
  exists s2. split; [done|]. split.
  { eapply writes_trans; eapply writes_weaken; [done| |done|]; set_solver. }
  replace (x ++ drop (length x) (d1 ++ d2))
    with (splice d1 0 (take (Z.to_nat n) x) ++ drop (Z.to_nat n) x ++ drop (length (drop (Z.to_nat n) x)) d2).
  - apply (Hback s2); [done| |done]. repeat constructor.
    eapply Forall_impl; [done|]. intros n0. apply disj_sym.
  - rewrite splice_0, Hlt, length_drop by lia. destruct (Z.le_gt_cases (Z.of_nat (length x)) (len b)).
    + replace (Z.to_nat n) with (length x) by lia. rewrite (take_ge x), (drop_ge x), Nat.sub_diag by lia.
      rewrite drop_0, drop_app_le by lia. by rewrite <- app_assoc.
    + replace (Z.to_nat n) with (length d1) by lia.
      rewrite (drop_ge d1), (drop_app_ge d1), app_nil_r, app_assoc, take_drop by lia. done.
Qed.

Lemma take_spec s p l d (x : list Z) :
  packet s (Some p) l d -> separate l -> (length x <= length d)%nat ->
  exists s', pbuf_take s (Some p) x = Ret (ERR_OK, s') /\ writes s s' l
    /\ packet s' (Some p) l (x ++ drop (length x) d).
Proof.
  intros Hpk Hsep Hx. pose proof (packet_length _ _ _ _ Hpk) as Hl.
  pose proof (chain_fuel_ok _ _ _ (proj1 Hpk)) as Hf.
  destruct l as [|[q b] l]; [by destruct Hpk as [? _]|].
  destruct (packet_cons _ _ _ _ _ _ Hpk) as ([= <-] & Hp & _ & Ht & _).
  unfold pbuf_take. rewrite (get_ok _ _ _ Hp), ret_bind.
  rewrite lwip_assert_true, ret_bind by (apply Z.leb_le; simpl in Hl; lia).
  destruct (take_loop_spec (S (chain_fuel s)) s _ _ d x Hpk Hsep Hx ltac:(lia)) as (s' & -> & Hw & Hpk').
  exists s'. by rewrite ret_bind.
Qed.

(** ** Positions in a packet *)

Lemma skip_loop_split fuel s o l d n : packet s o l d -> 0 <= n < 2 ^ 16 -> (length l < fuel)%nat ->
  exists l1 l2 n', l = l1 ++ l2 /\ n = total l1 + n' /\ 0 <= n'
    /\ skip_loop fuel s o n = Ret (hd_ptr l2, n')
    /\ match l2 with [] => True | (_, b) :: _ => n' < len b end.
Proof.
  revert o l d n. induction fuel as [|fuel IH]; intros o l d n Hpk Hn Hf; [lia|].
  destruct l as [|[p b] l].
  { assert (o = None) as -> by apply Hpk. exists [], [], n. simpl. split_and!; (done || lia). }
  destruct (packet_cons _ _ _ _ _ _ Hpk) as (-> & Hp & H0 & _ & _ & d1 & d2 & _ & Hpk2 & _).
  cbn [skip_loop]. rewrite (get_ok _ _ _ Hp), ret_bind.
  destruct (Z.leb_spec (len b) n) as [Hle|Hgt].
  - rewrite u16_small by lia.
    destruct (IH (next b) l d2 (n - len b) Hpk2 ltac:(lia) ltac:(simpl in Hf; lia))
      as (l1 & l2 & n' & -> & Hn' & H0' & Hs & Hhd).
    exists ((p, b) :: l1), l2, n'. simpl. split_and!; (done || lia).
  - exists [], ((p, b) :: l), n. simpl. split_and!; (done || lia).
Qed.

(** A write at a position of the rest of the packet is one of the packet. *)
Lemma splice_app_r (d1 d2 : list Z) n (x : list Z) : 0 <= n ->
  splice (d1 ++ d2) (Z.of_nat (length d1) + n) x = d1 ++ splice d2 n x.
Proof.
  intros Hn. unfold splice. rewrite take_app_ge, drop_app_ge by lia. rewrite <- app_assoc.
  do 2 f_equal; [f_equal; lia|]. f_equal. f_equal. lia.
Qed.
Lemma splice_app_l (d1 d2 : list Z) n (x : list Z) :
  0 <= n -> n + Z.of_nat (length x) <= Z.of_nat (length d1) ->
  splice (d1 ++ d2) n x = splice d1 n x ++ d2.
Proof.
  intros Hn Hle. unfold splice. rewrite take_app_le, drop_app_le by lia. by rewrite <- !app_assoc.
Qed.

Lemma put_at_spec s o l d n x : packet s o l d -> separate l -> 0 <= n < 2 ^ 16 ->
  exists s', pbuf_put_at s o n x = Ret s' /\ writes s s' l
    /\ packet s' o l (if n <? Z.of_nat (length d) then splice d n [x] else d).
Proof.
  intros Hpk Hsep Hn. pose proof (chain_fuel_ok _ _ _ (proj1 Hpk)) as Hf.
  rewrite (packet_length _ _ _ _ Hpk).
  destruct (skip_loop_split _ s o l d n Hpk Hn Hf) as (l1 & l2 & n' & -> & -> & Hn' & Hs & Hhd).
  unfold pbuf_put_at, pbuf_skip, pbuf_skip_const. rewrite Hs, ret_bind, total_app.
  destruct (packet_app _ _ _ _ _ Hpk) as (d1 & d2 & -> & Hl1 & Hpk2 & Hback).
  destruct (separate_app _ _ Hsep) as [Hsep2 Hd12].
  destruct l2 as [|[p b] l2]; simpl hd_ptr in *.
  { exists s. simpl. destruct (Z.ltb_spec (total l1 + n') (total l1 + 0)); [lia|].
    split; [done|]. split; [apply writes_refl|done]. }
  destruct (packet_cons _ _ _ _ _ _ Hpk2) as (_ & Hp & H0 & Ht & _ & e1 & e2 & He1 & Hpk3 & ->).
  rewrite (get_ok _ _ _ Hp), ret_bind. rewrite (proj2 (Z.ltb_lt n' _)) by lia.
  pose proof (lens_ok_total l2 (proj1 (proj2 Hpk3))). simpl total.
  destruct (Z.ltb_spec (total l1 + n') (total l1 + (len b + total l2))); [|lia].
  destruct (packet_store _ _ p b l2 e1 e2 n' [x] Hpk2 He1 Hsep2 Hn' ltac:(simpl; lia))
    as (s' & -> & Hw & Hpk').
  apply load_length in He1 as Hle1; [|lia].
  assert (writes s s' ((p, b) :: l2)) as Hw' by (eapply writes_weaken; [done|set_solver]).
  exists s'. split; [done|]. split; [eapply writes_weaken; [done|set_solver]|].
  rewrite <- Hl1, splice_app_r, splice_app_l by (simpl; lia). by apply (Hback s').
Qed.

(** A write that runs over the end of the first part. *)
Lemma splice_across (e1 e2 : list Z) n (x : list Z) :
  0 <= n <= Z.of_nat (length e1) -> Z.of_nat (length e1) <= n + Z.of_nat (length x) ->
  let k := Z.to_nat (Z.of_nat (length e1) - n) in
  splice (e1 ++ e2) n x
  = splice e1 n (take k x) ++ drop k x ++ drop (length (drop k x)) e2.
Proof.
  intros Hn Hx k. unfold splice. rewrite take_app_le, drop_app_ge by lia.
  rewrite length_take, length_drop. rewrite (drop_ge e1) by lia. rewrite app_nil_r, <- app_assoc.
  f_equal. rewrite app_assoc, take_drop. f_equal. f_equal. lia.
Qed.

(** Writing [x] from offset [n] of the first pbuf on. *)
Definition take_from (s : st A) (b : pbuf) (n : Z) (x : list Z) : outcome (err_t * st A) :=
  let first_copy_len := u16 (Z.min (len b - n) (Z.of_nat (length x))) in
  s ← store s (opt_add (payload b) n) (take (Z.to_nat first_copy_len) x);
  let rest := drop (Z.to_nat first_copy_len) x in
  if 0 <? Z.of_nat (length rest) then pbuf_take s (next b) rest else Ret (ERR_OK, s).

Lemma take_from_spec s p b l d n (x : list Z) :
  packet s (Some p) ((p, b) :: l) d -> separate ((p, b) :: l) -> 0 <= n < len b ->
  n + Z.of_nat (length x) <= Z.of_nat (length d) ->
  exists s', take_from s b n x = Ret (ERR_OK, s') /\ writes s s' ((p, b) :: l)
    /\ packet s' (Some p) ((p, b) :: l) (splice d n x).
Proof.
  intros Hpk Hsep Hn Hx. pose proof (packet_length _ _ _ _ Hpk) as Hld.
  destruct (packet_cons _ _ _ _ _ _ Hpk) as (_ & Hp & H0 & Ht & Htl & e1 & e2 & He1 & Hpk2 & ->).
  apply load_length in He1 as Hl1; [|lia]. rewrite length_app in Hx, Hld. unfold take_from.
  rewrite (u16_small (Z.min _ _)) by lia. set (k := Z.min (len b - n) (Z.of_nat (length x))).
  destruct (packet_store _ _ p b l e1 e2 n (take (Z.to_nat k) x) Hpk He1 Hsep) as (s1 & -> & Hw1 & Hpk1);
    [lia|rewrite length_take; lia|]. rewrite ret_bind.
  assert (writes s s1 ((p, b) :: l)) as Hw1' by (eapply writes_weaken; [done|set_solver]).
  rewrite length_drop. destruct (Z.ltb_spec 0 (Z.of_nat (length x - Z.to_nat k))) as [Hmore|Hdone].
  2:{ exists s1. split; [done|]. split; [done|]. rewrite take_ge in Hpk1 by lia.
      by rewrite splice_app_l by lia. }
  destruct (packet_app s1 _ [(p, b)] l _ Hpk1) as (f1 & f2 & He & Hf1 & Hpk1' & Hback).
  simpl in Hf1. assert (length (splice e1 n (take (Z.to_nat k) x)) = length e1) as Hls.
  { apply length_splice. unfold range_ok. rewrite length_take, !andb_true_iff, !Z.leb_le. lia. }
  apply app_inj_1 in He as [<- <-]; [|lia].
  pose proof (packet_hd _ _ _ _ Hpk2) as Hnx. destruct l as [|[p2 b2] l].
  { destruct Hpk2 as (_ & _ & ds & Hds & ->). inversion Hds; subst. simpl in Hx. lia. }
  simpl hd_ptr in *. rewrite Hnx. destruct Hsep as [Hsp Hsep].
  destruct (take_spec s1 p2 _ e2 (drop (Z.to_nat k) x) Hpk1' Hsep) as (s2 & -> & Hw2 & Hpk2');
    [rewrite length_drop; lia|].
  exists s2. split; [done|]. split.
  { eapply writes_trans; [done|]. eapply writes_weaken; [done|set_solver]. }
  rewrite splice_across by lia. replace (Z.to_nat (Z.of_nat (length e1) - n)) with (Z.to_nat k) by lia.
  refine (Hback s2 _ Hw2 _ Hpk2'). constructor; [|constructor].
  eapply Forall_impl; [done|]. intros n0. apply disj_sym.
Qed.

Lemma take_at_spec s o l d (x : list Z) n :
  packet s o l d -> separate l -> 0 <= n < 2 ^ 16 -> Z.of_nat (length x) < 2 ^ 16 ->
  if (n <? Z.of_nat (length d)) && (n + Z.of_nat (length x) <=? Z.of_nat (length d))
  then exists s', pbuf_take_at s o x n = Ret (ERR_OK, s') /\ writes s s' l
         /\ packet s' o l (splice d n x)
  else pbuf_take_at s o x n = Ret (ERR_MEM, s).
Proof.
  intros Hpk Hsep Hn Hx. pose proof (chain_fuel_ok _ _ _ (proj1 Hpk)) as Hf.
  pose proof (packet_length _ _ _ _ Hpk) as Hld. rewrite Hld.
  destruct (skip_loop_split _ s o l d n Hpk Hn Hf) as (l1 & l2 & n' & -> & -> & Hn' & Hs & Hhd).
  unfold pbuf_take_at, pbuf_skip, pbuf_skip_const. rewrite Hs, ret_bind, total_app.
  destruct (packet_app _ _ _ _ _ Hpk) as (d1 & d2 & -> & Hl1 & Hpk2 & Hback).
  destruct (separate_app _ _ Hsep) as [Hsep2 Hd12].
  destruct l2 as [|[p b] l2]; simpl hd_ptr in *.
  { simpl. rewrite (proj2 (Z.ltb_ge (total l1 + n') _)) by lia. done. }
  destruct (packet_cons _ _ _ _ _ _ Hpk2) as (_ & Hp & H0 & Ht & _).
  pose proof (packet_length _ _ _ _ Hpk2) as Hl2.
  pose proof (lens_ok_total l2 ltac:(apply (lens_ok_app [(p, b)]), Hpk2)). simpl total in *.
  rewrite (get_ok _ _ _ Hp), ret_bind, Ht.
  rewrite (proj2 (Z.ltb_lt (total l1 + n') _)) by lia. cbn [andb].
  replace (total l1 + n' + Z.of_nat (length x) <=? total l1 + (len b + total l2))
    with (n' + Z.of_nat (length x) <=? len b + total l2)
    by (apply eq_true_iff_eq; rewrite !Z.leb_le; lia).
  destruct (Z.leb_spec (n' + Z.of_nat (length x)) (len b + total l2)) as [Hle|]; [|done].
  rewrite lwip_assert_true, ret_bind by (by apply Z.ltb_lt).
  destruct (take_from_spec s p b l2 d2 n' x Hpk2 Hsep2 ltac:(lia) ltac:(lia)) as (s' & HT & Hw & Hpk').
  exists s'. split; [exact HT|]. split; [eapply writes_weaken; [done|set_solver]|].
  rewrite <- Hl1, splice_app_r by lia. by apply (Hback s').
Qed.

(** ** [pbuf_copy] *)

Definition positive (l : list node) : Prop := Forall (fun n => 0 < len n.2) l.
(** The destination's payloads are apart from the source's. *)
Definition cross_disj (lt lf : list node) : Prop := Forall (fun f => Forall (fun t => disj_node t f) lt) lf.

Lemma positive_total l : positive l -> 0 <= total l /\ (l <> [] -> 0 < total l).
Proof.
  induction 1 as [|[p b] l Hb _ [IH1 _]]; simpl in *; [done|]. split; [lia|]. intros _. lia.
Qed.

Lemma queue_check_ok s o l d : packet s o l d -> positive l -> queue_check s o = Ret tt.
Proof.
  intros Hpk Hpos. destruct l as [|[p b] l]; [by rewrite (packet_hd _ _ _ _ Hpk)|].
  destruct (packet_cons _ _ _ _ _ _ Hpk) as (-> & Hp & _ & Ht & _ & d1 & d2 & _ & Hpk2 & _).
  unfold queue_check. rewrite (get_ok _ _ _ Hp), ret_bind.
  destruct (Z.eqb_spec (len b) (tot_len b)) as [Heq|]; [|done].
  apply Forall_cons in Hpos as [_ Hpos]. apply positive_total in Hpos as [_ Hpos].
  destruct l as [|nd l]; [|specialize (Hpos ltac:(done)); lia].
  by rewrite (packet_hd _ _ _ _ Hpk2).
Qed.

Lemma splice_splice (d y z : list Z) o : 0 <= o ->
  o + Z.of_nat (length y) + Z.of_nat (length z) <= Z.of_nat (length d) ->
  splice (splice d o y) (o + Z.of_nat (length y)) z = splice d o (y ++ z).
Proof.
  intros Ho Hle.
  destruct (range_split d o (Z.of_nat (length y) + Z.of_nat (length z)))
    as (a & m & c & -> & <- & Hm).
  { unfold range_ok. rewrite !andb_true_iff, !Z.leb_le. lia. }
  rewrite (splice_mid a m c (y ++ z)) by (rewrite ?length_app; lia).
  destruct (range_split m 0 (Z.of_nat (length y))) as ([|] & m1 & m2 & -> & ? & Hm1);
    [unfold range_ok; rewrite !andb_true_iff, !Z.leb_le; lia| |simpl in *; lia].
  simpl in *. rewrite length_app in Hm. rewrite <- (app_assoc m1 m2 c).
  rewrite (splice_mid a m1 (m2 ++ c) y) by lia.
  replace (a ++ y ++ m2 ++ c) with ((a ++ y) ++ m2 ++ c) by (by rewrite <- app_assoc).
  rewrite (splice_mid (a ++ y) m2 c z) by (rewrite ?length_app; lia). by rewrite <- !app_assoc.
Qed.

(** One [MEMCPY] of [pbuf_copy]. *)
Lemma copy_step s pt bt lt dt ot pf bf lf df ofr n :
  packet s (Some pt) ((pt, bt) :: lt) dt -> packet s (Some pf) ((pf, bf) :: lf) df ->
  separate ((pt, bt) :: lt) -> cross_disj ((pt, bt) :: lt) ((pf, bf) :: lf) ->
  0 <= ot -> 0 <= ofr -> 0 <= n -> ot + n <= len bt -> ofr + n <= len bf ->
  exists s1, memcpy s (opt_add (payload bt) ot) (opt_add (payload bf) ofr) n = Ret s1
    /\ writes s s1 ((pt, bt) :: lt)
    /\ packet s1 (Some pt) ((pt, bt) :: lt) (splice dt ot (slice df ofr n))
    /\ packet s1 (Some pf) ((pf, bf) :: lf) df.
Proof.
  intros Hpt Hpf Hsep Hcr Hot Hof Hn Hnt Hnf.
  destruct (packet_cons _ _ _ _ _ _ Hpt) as (_ & _ & Hlt & _ & _ & e1 & e2 & He1 & _ & ->).
  destruct (packet_cons _ _ _ _ _ _ Hpf) as (_ & _ & Hlf & _ & _ & f1 & f2 & Hf1 & _ & ->).
  apply load_length in He1 as Hle1; [|lia]. apply load_length in Hf1 as Hlf1; [|lia].
  pose proof (load_part s _ _ _ ofr n Hf1 Hof Hn Hnf) as Hld.
  assert (slice (f1 ++ f2) ofr n = slice f1 ofr n) as ->.
  { rewrite slice_app_lt, Z.min_l, Z.sub_diag, slice_0, app_nil_r by lia. done. }
  assert (Z.of_nat (length (slice f1 ofr n)) = n) as Hlsl by (rewrite length_slice_min; lia).
  destruct (packet_store s _ pt bt lt e1 e2 ot (slice f1 ofr n) Hpt He1 Hsep Hot ltac:(lia))
    as (s1 & Hst & Hw & Hpk1).
  assert (writes s s1 ((pt, bt) :: lt)) as Hw' by (eapply writes_weaken; [done|set_solver]).
  exists s1. split; [|split; [done|split]].
  - assert (disj (payload bt) (len bt) (payload bf) (len bf)) as Hd.
    { apply Forall_cons in Hcr as [Hcr _]. by apply Forall_cons in Hcr as [Hcr _]. }
    assert ((l ← load s (opt_add (payload bf) ofr) n; store s (opt_add (payload bt) ot) l) = Ret s1)
      as Hcp by (rewrite Hld; exact Hst).
    unfold memcpy. destruct (payload bt) as [qt|], (payload bf) as [qf|]; try exact Hcp. simpl in *.
    replace (overlap (ptr_add qt ot) (ptr_add qf ofr) n) with false; [exact Hcp|].
    symmetry. unfold overlap, ptr_add. simpl. rewrite !andb_false_iff, Z.eqb_neq, !Z.ltb_ge. lia.
  - by rewrite splice_app_l by lia.
  - eapply packet_writes; done.
Qed.

(** "on to next pbuf (if any)": the position [m] of the first pbuf, normalised. *)
Lemma advance s p b l d m : packet s (Some p) ((p, b) :: l) d -> 0 <= m <= len b ->
  exists l1 l' E d' m', (p, b) :: l = l1 ++ l' /\ d = E ++ d' /\ m = Z.of_nat (length E) + m' /\ 0 <= m'
    /\ (if m =? len b then (0, next b) else (m, Some p)) = (m', hd_ptr l')
    /\ packet s (hd_ptr l') l' d'
    /\ (m = len b -> l' = l) /\ (m < len b -> l' = (p, b) :: l /\ m' = m)
    /\ (positive ((p, b) :: l) ->
          positive l' /\ match l' with [] => m' = 0 | (_, b') :: _ => m' < len b' end)
    /\ (forall s' d'', separate ((p, b) :: l) -> writes s s' l' -> packet s' (hd_ptr l') l' d'' ->
          packet s' (Some p) ((p, b) :: l) (E ++ d'')).
Proof.
  intros Hpk Hm.
  destruct (packet_cons _ _ _ _ _ _ Hpk) as (_ & Hp & Hl & _ & _ & e1 & e2 & He1 & Hpk2 & ->).
  apply load_length in He1 as Hle1; [|lia]. destruct (Z.eqb_spec m (len b)) as [->|Hne].
  - destruct (packet_app s _ [(p, b)] l _ Hpk) as (d1 & d2 & Heq & Hd1 & Hpk2' & Hback). simpl in Hd1.
    apply app_inj_1 in Heq as [<- <-]; [|lia].
    exists [(p, b)], l, e1, e2, 0. rewrite (packet_hd _ _ _ _ Hpk2). split_and!; try (done || lia).
    + intros [_ Hpos]%Forall_cons. split; [done|]. destruct Hpos as [|[] ? Hb]; [done|exact Hb].
    + intros s' d'' Hsep Hw Hd. apply (Hback s'); try done. by apply (separate_app [(p, b)] l).
  - exists [], ((p, b) :: l), [], (e1 ++ e2), m. split_and!; try (done || lia).
    intros Hpos. split; [done|]. lia.
Qed.

Lemma copy_loop_spec fuel s lt dt ot lf df ofr :
  packet s (hd_ptr lt) lt dt -> packet s (hd_ptr lf) lf df -> separate lt -> cross_disj lt lf ->
  positive lt -> positive lf -> 0 <= ot -> 0 <= ofr ->
  match lt, lf with (_, bt) :: _, (_, bf) :: _ => ot < len bt /\ ofr < len bf | _, _ => False end ->
  Z.of_nat (length df) - ofr <= Z.of_nat (length dt) - ot ->
  (length lt + length lf <= fuel)%nat ->
  exists s', copy_loop fuel s (hd_ptr lt) ot (hd_ptr lf) ofr = Ret (ERR_OK, s')
    /\ writes s s' lt /\ packet s' (hd_ptr lt) lt (splice dt ot (drop (Z.to_nat ofr) df)).
Proof.
  revert s lt dt ot lf df ofr. induction fuel as [|fuel IH];
    intros s [|[pt bt] lt] dt ot [|[pf bf] lf] df ofr Hpt Hpf Hsep Hcr Hpost Hposf Hot Hof Hin Hle Hf;
    try done; simpl in Hf; try lia. destruct Hin as [Hbt Hbf]. simpl hd_ptr in *.
  destruct (packet_cons _ _ _ _ _ _ Hpt) as (_ & Hgt & Hlt & Htt & _ & e1 & e2 & He1 & Hpt2 & Hdt).
  destruct (packet_cons _ _ _ _ _ _ Hpf) as (_ & Hgf & Hlf & Htf & _ & f1 & f2 & Hf1 & Hpf2 & Hdf).
  apply load_length in He1 as Hle1; [|lia]. apply load_length in Hf1 as Hlf1; [|lia].
  cbn [copy_loop]. rewrite (deref_Some (Some pt) pt eq_refl), ret_bind, (get_ok _ _ _ Hgt), ret_bind.
  rewrite (deref_Some (Some pf) pf eq_refl), ret_bind, (get_ok _ _ _ Hgf), ret_bind.
  set (n := if len bf - ofr <=? len bt - ot then len bf - ofr else len bt - ot).
  assert (n = Z.min (len bf - ofr) (len bt - ot)) as Hn
    by (unfold n; destruct (Z.leb_spec (len bf - ofr) (len bt - ot)); lia). clearbody n.
  destruct (copy_step s pt bt lt dt ot pf bf lf df ofr n) as (s1 & -> & Hw1 & Hpt1 & Hpf1);
    try done; try lia. rewrite ret_bind.
  rewrite !lwip_assert_true, !ret_bind by (apply Z.leb_le; lia).
  pose proof (packet_length _ _ _ _ Hpt) as HlT. pose proof (packet_length _ _ _ _ Hpf) as HlF.
  pose proof (lens_ok_total lt (proj1 (proj2 Hpt2))). pose proof (lens_ok_total lf (proj1 (proj2 Hpf2))).
  simpl total in HlT, HlF.
  assert (Z.of_nat (length (slice df ofr n)) = n) as Hlsl.
  { rewrite length_slice_min by lia. lia. }
  assert (splice dt ot (drop (Z.to_nat ofr) df)
          = splice (splice dt ot (slice df ofr n)) (ot + n) (drop (Z.to_nat (ofr + n)) df)) as Hres.
  { rewrite <- Hlsl at 2. rewrite splice_splice; [|lia|rewrite length_drop; lia].
    f_equal. unfold slice. rewrite Z2Nat.inj_add, <- drop_drop by lia. by rewrite take_drop. }
  rewrite Hres. clear Hres. set (dt1 := splice dt ot (slice df ofr n)) in *.
  destruct (advance s1 pf bf lf df (ofr + n) Hpf1 ltac:(lia))
    as (lf1 & lf' & F & df' & fo & Hlfs & -> & HfE & Hfo & Hfeq & Hpf' & Hfe & Hfn & Hfp & _).
  destruct (advance s1 pt bt lt dt1 (ot + n) Hpt1 ltac:(lia))
    as (lt1 & lt' & T & dt' & to & Hlts & HdT & HtE & Hto & Hteq & Hpt' & Hte & Htn & Htp & Hback).
  replace (len bf <=? ofr + n) with (ofr + n =? len bf)
    by (apply eq_true_iff_eq; rewrite Z.leb_le, Z.eqb_eq; lia).
  rewrite Hfeq.
  replace (if ot + n =? len bt
     then (0, next bt, match next bt with Some _ => true | None => match hd_ptr lf' with Some _ => false | None => true end end)
     else (ot + n, Some pt, true))
    with (to, hd_ptr lt', match lt', lf' with [], _ :: _ => false | _, _ => true end).
  2:{ destruct (Z.eqb_spec (ot + n) (len bt)) as [He|Hne].
      - injection Hteq as <- ->. by destruct lt' as [|[]], lf' as [|[]].
      - destruct (Htn ltac:(lia)) as [-> ->]. by destruct lf' as [|[]]. }
  rewrite HdT, HtE, HfE, splice_app_r by done.
  replace (drop (Z.to_nat (Z.of_nat (length F) + fo)) (F ++ df')) with (drop (Z.to_nat fo) df')
    by (rewrite drop_app_ge by lia; f_equal; lia).
  pose proof (packet_length _ _ _ _ Hpf') as HlF'. pose proof (packet_length _ _ _ _ Hpt') as HlT'.
  pose proof (packet_length _ _ _ _ Hpt1) as HlT1. rewrite HdT, length_app in HlT1. simpl total in HlT1.
  rewrite length_app in HlF, Hle. pose proof Hsep as Hsep0.
  destruct (Hfp Hposf) as [Hposf' Hfo']. destruct (Htp Hpost) as [Hpost' Hto'].
  rewrite Hlfs in Hcr. rewrite Hlts in Hsep, Hcr.
  assert (queue_check s1 (hd_ptr lf') = Ret tt) as Hqf by (by eapply queue_check_ok).
  assert (queue_check s1 (hd_ptr lt') = Ret tt) as Hqt by (by eapply queue_check_ok).
  destruct lf' as [|[pf' bf'] lf'].
  { replace (match lt' with [] => true | _ => true end) with true by (by destruct lt').
    cbn [lwip_assert]. rewrite ret_bind, Hqf, ret_bind, Hqt, ret_bind. exists s1. split; [done|].
    split; [done|]. destruct Hpf' as (_ & _ & ds & Hds & ->). inversion Hds; subst ds. simpl concat.
    rewrite drop_nil. rewrite HdT in Hpt1. unfold splice. simpl. by rewrite Nat.add_0_r, take_drop. }
  pose proof (lens_ok_total lf' ltac:(apply (lens_ok_app [(pf', bf')]), Hpf')). simpl total in HlF'.
  destruct lt' as [|[pt' bt'] lt'].
  { exfalso. simpl in HlT'. lia. }
  cbn [lwip_assert]. rewrite ret_bind, Hqf, ret_bind, Hqt, ret_bind. cbn [hd_ptr].
  assert (cross_disj ((pt', bt') :: lt') ((pf', bf') :: lf')) as Hcr'.
  { apply Forall_app in Hcr as [_ Hcr]. unfold cross_disj. eapply Forall_impl; [exact Hcr|].
    intros nd Hnd. by apply Forall_app in Hnd as [_ Hnd]. }
  assert (length ((pt', bt') :: lt') + length ((pf', bf') :: lf') <= fuel)%nat as Hfuel.
  { apply (f_equal length) in Hlfs, Hlts. rewrite length_app in Hlfs, Hlts. simpl in *.
    destruct (Z.eq_dec (ofr + n) (len bf)) as [He|He].
    - specialize (Hfe He). apply (f_equal length) in Hfe. simpl in Hfe. lia.
    - assert (ot + n = len bt) as Ht' by lia. specialize (Hte Ht').
      apply (f_equal length) in Hte. simpl in Hte. lia. }
  destruct (IH s1 ((pt', bt') :: lt') dt' to ((pf', bf') :: lf') df' fo Hpt' Hpf'
              (proj1 (separate_app _ _ Hsep)) Hcr' Hpost' Hposf' Hto Hfo (conj Hto' Hfo') ltac:(lia) Hfuel)
    as (s2 & HC & Hw2 & Hpk2).
  exists s2. split; [exact HC|]. split; [|by apply Hback].
  eapply writes_trans; [done|]. eapply writes_weaken; [done|]. rewrite Hlts. set_solver.
Qed.

Lemma copy_spec s pt lt dt pf lf df :
  packet s (Some pt) lt dt -> packet s (Some pf) lf df -> separate lt -> cross_disj lt lf ->
  positive lt -> positive lf -> (length df <= length dt)%nat ->
  exists s', pbuf_copy s (Some pt) (Some pf) = Ret (ERR_OK, s') /\ writes s s' lt
    /\ packet s' (Some pt) lt (df ++ drop (length df) dt).
Proof.
  intros Hpt Hpf Hsep Hcr Hpost Hposf Hle.
  pose proof (packet_length _ _ _ _ Hpt) as HlT. pose proof (packet_length _ _ _ _ Hpf) as HlF.
  pose proof (chain_fuel_ok _ _ _ (proj1 Hpt)) as Hft.
  pose proof (chain_fuel_ok _ _ _ (proj1 Hpf)) as Hff.
  destruct lt as [|[pt' bt] lt]; [by destruct Hpt as [? _]|].
  destruct lf as [|[pf' bf] lf]; [by destruct Hpf as [? _]|].
  destruct (packet_cons _ _ _ _ _ _ Hpt) as ([= <-] & Hgt & _ & Htt & _).
  destruct (packet_cons _ _ _ _ _ _ Hpf) as ([= <-] & Hgf & _ & Htf & _).
  unfold pbuf_copy. rewrite (get_ok _ _ _ Hgt), ret_bind, (get_ok _ _ _ Hgf), ret_bind.
  simpl total in HlT, HlF. rewrite lwip_assert_true, ret_bind by (apply Z.leb_le; lia).
  apply Forall_cons in Hpost as Hpt0. apply Forall_cons in Hposf as Hpf0. simpl in Hpt0, Hpf0.
  destruct (copy_loop_spec (chain_fuel s + chain_fuel s) s ((pt, bt) :: lt) dt 0 ((pf, bf) :: lf) df 0 Hpt Hpf Hsep Hcr Hpost Hposf
              ltac:(lia) ltac:(lia) (conj (proj1 Hpt0) (proj1 Hpf0)) ltac:(lia) ltac:(lia)) as (s' & HC & Hw & Hpk).
  exists s'. split; [exact HC|]. by split.
Qed.
End write.

(** ** Properties *)

Definition demo_source : list node := [(3, Pbuf None (Some (Ptr 102 0)) 4 4 0x41 0 1 0)].
(** The packet [demo_chain], and a second packet [7 8 9 10]. *)
Definition demo2 : st unit :=
  St (<[3 := Pbuf None (Some (Ptr 102 0)) 4 4 0x41 0 1 0]> (pbufs demo))
     (<[102 := [7; 8; 9; 10]]> (bytes_of demo)) tt false.

Lemma demo_separate : separate demo_chain.
Proof. split; [|by split]. constructor; [by left|constructor]. Qed.
Lemma demo2_packets :
  packet demo2 (Some 1) demo_chain [1; 2; 3; 4; 5] /\ packet demo2 (Some 3) demo_source [7; 8; 9; 10].
Proof.
  split.
  - split; [by repeat split|]. split; [by repeat split|]. exists [[1; 2; 3]; [4; 5]].
    split; [|done]. repeat constructor.
  - split; [by repeat split|]. split; [by repeat split|]. exists [[7; 8; 9; 10]].
    split; [|done]. repeat constructor.
Qed.

(** [pbuf_take_at] writes the data at [offset] of the packet, across pbufs, and
    changes nothing else; it returns [ERR_MEM] without writing when the data does
    not fit. *)
Theorem take_at_splice {A} (s : st A) o l d (x : list Z) offset :
  packet s o l d -> separate l -> 0 <= offset < 2 ^ 16 -> Z.of_nat (length x) < 2 ^ 16 ->
  if (offset <? Z.of_nat (length d)) && (offset + Z.of_nat (length x) <=? Z.of_nat (length d))
  then exists s', pbuf_take_at s o x offset = Ret (ERR_OK, s') /\ writes s s' l
         /\ packet s' o l (splice d offset x)
  else pbuf_take_at s o x offset = Ret (ERR_MEM, s).
Proof. apply take_at_spec. Qed.

Lemma take_at_splice_witness :
  exists s', pbuf_take_at demo (Some 1) [21; 22] 2 = Ret (ERR_OK, s') /\ writes demo s' demo_chain
    /\ packet s' (Some 1) demo_chain (splice [1; 2; 3; 4; 5] 2 [21; 22]).
Proof.
  apply (take_at_splice demo (Some 1) demo_chain [1; 2; 3; 4; 5] [21; 22] 2).
  - apply demo_packet.
  - apply demo_separate.
  - done.
  - done.
Defined.

(** [pbuf_put_at] writes one byte, and ignores an offset past the end. *)
Theorem put_at_byte {A} (s : st A) o l d n x : packet s o l d -> separate l -> 0 <= n < 2 ^ 16 ->
  exists s', pbuf_put_at s o n x = Ret s' /\ writes s s' l
    /\ packet s' o l (if n <? Z.of_nat (length d) then splice d n [x] else d).
Proof. apply put_at_spec. Qed.

Lemma put_at_byte_witness :
  exists s', pbuf_put_at demo (Some 1) 3 77 = Ret s' /\ writes demo s' demo_chain
    /\ packet s' (Some 1) demo_chain
         (if 3 <? Z.of_nat (length [1; 2; 3; 4; 5]) then splice [1; 2; 3; 4; 5] 3 [77] else [1; 2; 3; 4; 5]).
Proof.
  apply (put_at_byte demo (Some 1) demo_chain [1; 2; 3; 4; 5] 3 77).
  - apply demo_packet.
  - apply demo_separate.
  - done.
Defined.

(** [pbuf_copy] copies the whole source packet to the start of the destination,
    whatever the two segmentations, and leaves the rest of the destination and
    all other memory alone. *)
Theorem copy_packet {A} (s : st A) pt lt dt pf lf df :
  packet s (Some pt) lt dt -> packet s (Some pf) lf df -> separate lt -> cross_disj lt lf ->
  positive lt -> positive lf -> (length df <= length dt)%nat ->
  exists s', pbuf_copy s (Some pt) (Some pf) = Ret (ERR_OK, s') /\ writes s s' lt
    /\ packet s' (Some pt) lt (df ++ drop (length df) dt).
Proof. apply copy_spec. Qed.

Lemma copy_packet_witness :
  exists s', pbuf_copy demo2 (Some 1) (Some 3) = Ret (ERR_OK, s') /\ writes demo2 s' demo_chain
    /\ packet s' (Some 1) demo_chain ([7; 8; 9; 10] ++ drop (length [7; 8; 9; 10]) [1; 2; 3; 4; 5]).
Proof.
  apply (copy_packet demo2 1 demo_chain [1; 2; 3; 4; 5] 3 demo_source [7; 8; 9; 10]).
  - apply demo2_packets.
  - apply demo2_packets.
  - apply demo_separate.
  - constructor; [|constructor]. constructor; [by left|]. constructor; [by left|constructor].
  - repeat constructor; done.
  - repeat constructor; done.
  - simpl. lia.
Defined.
