(* ===== verification/PbufRef.v ===== *)
(** * Reference counts and headers: [pbuf_free], [pbuf_ref], [pbuf_cat],
    [pbuf_chain], [pbuf_dechain], [pbuf_header], [pbuf_free_header],
    [pbuf_realloc]

    Proved against the laws of the allocators ([AllocatorLaws]), for any
    implementation of them. *)

From S2P Require Import Prelude PbufMem Pbuf PbufChain PbufRead PbufWrite.

(** The allocator a pbuf goes back to. *)
Definition src_of (b : pbuf) : option source :=
  if pbuf_is_custom b then Some FromCustom
  else if pbuf_get_allocsrc b =? PBUF_TYPE_ALLOC_SRC_MASK_STD_MEMP_PBUF_POOL
  then Some (FromPool MEMP_PBUF_POOL)
  else if pbuf_get_allocsrc b =? PBUF_TYPE_ALLOC_SRC_MASK_STD_MEMP_PBUF then Some (FromPool MEMP_PBUF)
  else if pbuf_get_allocsrc b =? PBUF_TYPE_ALLOC_SRC_MASK_STD_HEAP then Some FromHeap
  else None.

Section ref.
Context {A : Type} `{!Allocator A} `{!AllocatorLaws A}.
Implicit Types s : st A.

(** The blocks [H] are allocated; every pbuf is one of them, from the source
    its type says, and no other memory exists. *)
Record owned (s : st A) (H : gmap Z (source * Z)) : Prop := {
  owned_holds : holds (al s) H;
  owned_pbufs : forall p b, pbufs s !! p = Some b ->
    exists src n, src_of b = Some src /\ H !! p = Some (src, n);
  owned_bytes : forall k l, bytes_of s !! k = Some l ->
    exists src, H !! k = Some (src, Z.of_nat (length l)) }.

Lemma owned_drop s H p a : owned s H -> holds a (delete p H) -> owned (drop_block s p a) (delete p H).
Proof.
  intros [_ Hp Hb] Ha. split; simpl; [done| |].
  - intros q b [Hne Hq]%lookup_delete_Some. destruct (Hp _ _ Hq) as (src & n & ? & ?).
    exists src, n. by rewrite lookup_delete_ne.
  - intros k x [Hne Hk]%lookup_delete_Some. rewrite lookup_delete_ne by done. eauto.
Qed.

(** Fields other than type and flags do not matter to ownership. *)
Lemma owned_put s H p b b' : owned s H -> pbufs s !! p = Some b -> src_of b' = src_of b ->
  owned (put s p b') H.
Proof.
  intros [Ha Hp Hb] Hpb Hsrc. split; simpl; [done| |done].
  intros q c [[<- <-]|[Hne Hq]]%lookup_insert_Some; [|by apply Hp].
  destruct (Hp _ _ Hpb) as (src & n & ? & ?). exists src, n. by rewrite Hsrc.
Qed.

Lemma dealloc_ok s H p b : owned s H -> (exists n, H !! p = Some (default FromHeap (src_of b), n)) ->
  is_Some (src_of b) ->
  exists a, pbuf_dealloc s p b = Ret (drop_block s p a) /\ owned (drop_block s p a) (delete p H).
Proof.
  intros Ho [n Hn] [src Hsrc]. rewrite Hsrc in Hn. simpl in Hn.
  assert (forall a, holds a (delete p H) -> owned (drop_block s p a) (delete p H)) as Hd
    by (intros; by apply owned_drop).
  pose proof (owned_holds _ _ Ho) as Ha. unfold src_of in Hsrc. unfold pbuf_dealloc.
  destruct (pbuf_is_custom b).
  { injection Hsrc as <-. destruct (custom_free_law _ _ _ _ Ha Hn) as (a' & -> & Ha'). eauto. }
  destruct (_ =? PBUF_TYPE_ALLOC_SRC_MASK_STD_MEMP_PBUF_POOL).
  { injection Hsrc as <-. destruct (memp_free_law _ _ _ _ _ Ha Hn) as (a' & -> & Ha'). eauto. }
  destruct (_ =? PBUF_TYPE_ALLOC_SRC_MASK_STD_MEMP_PBUF).
  { injection Hsrc as <-. destruct (memp_free_law _ _ _ _ _ Ha Hn) as (a' & -> & Ha'). eauto. }
  destruct (_ =? PBUF_TYPE_ALLOC_SRC_MASK_STD_HEAP); [|done].
  injection Hsrc as <-. destruct (mem_free_law _ _ _ _ Ha Hn) as (a' & -> & Ha'). eauto.
Qed.

(** ** [pbuf_free] *)

(** The pbufs that are deallocated: those at the head with a count of one. *)
Fixpoint freed (l : list node) : list node :=
  match l with
  | (p, b) :: l' => if ref b =? 1 then (p, b) :: freed l' else []
  | [] => []
  end.
(** The structs after [pbuf_free]. *)
Fixpoint free_effect (P : gmap Z pbuf) (l : list node) : gmap Z pbuf :=
  match l with
  | [] => P
  | (p, b) :: l' =>
      if ref b =? 1 then free_effect (delete p P) l' else <[p := set_ref (ref b - 1) b]> P
  end.
Fixpoint deletes {V} (m : gmap Z V) (l : list node) : gmap Z V :=
  match l with [] => m | (p, _) :: l' => deletes (delete p m) l' end.

Definition refs_ok (l : list node) : Prop := Forall (fun n => 1 <= ref n.2 <= 255) l.

Lemma free_loop_spec fuel s o l count H :
  chain (pbufs s) o l -> owned s H -> refs_ok l -> (length l < fuel)%nat ->
  exists s', pbuf_free_loop fuel s o (u8 count) = Ret (u8 (count + Z.of_nat (length (freed l))), s')
    /\ pbufs s' = free_effect (pbufs s) l /\ bytes_of s' = deletes (bytes_of s) (freed l)
    /\ owned s' (deletes H (freed l)).
Proof.
  revert s o l count H. induction fuel as [|fuel IH]; intros s o l count H Hc Ho Hr Hf; [lia|].
  destruct l as [|[p b] l]; simpl in Hc.
  { subst o. simpl. exists s. rewrite Z.add_0_r. done. }
  destruct Hc as (-> & Hp & Hc). apply Forall_cons in Hr as [Hr1 Hr]. simpl in Hr1.
  cbn [pbuf_free_loop freed free_effect]. rewrite (get_ok _ _ _ Hp), ret_bind.
  rewrite lwip_assert_true, ret_bind by (apply Z.ltb_lt; lia).
  rewrite (u8_small (ref b - 1)) by lia.
  assert (p ∉ l.*1) as Hnin.
  { assert (chain (pbufs s) (Some p) ((p, b) :: l)) as Hc' by done.
    apply chain_NoDup in Hc'. by apply NoDup_cons in Hc' as [? _]. }
  destruct (Z.eqb_spec (ref b) 1) as [Heq|Hne].
  - rewrite (proj2 (Z.eqb_eq (ref b - 1) 0)) by lia.
    assert (owned (put s p (set_ref (ref b - 1) b)) H) as Ho' by (by eapply owned_put).
    destruct (owned_pbufs _ _ Ho _ _ Hp) as (src & n & Hsrc & Hn).
    destruct (dealloc_ok _ _ p b Ho') as (a & -> & Ho2); [rewrite Hsrc; eauto|by rewrite Hsrc|].
    rewrite ret_bind. simpl in Hf.
    destruct (IH (drop_block (put s p (set_ref (ref b - 1) b)) p a) (next b) l (count + 1) (delete p H))
      as (s' & HF & HP & HB & HO); [|done|done|lia|].
    { simpl. apply chain_delete; [|done]. by apply chain_insert. }
    exists s'. cbn [length deletes]. split.
    { etransitivity; [|etransitivity; [exact HF|]]; [|do 3 f_equal; lia].
      f_equal. unfold u8. by rewrite Z.add_mod_idemp_l. }
    simpl in HP, HB. rewrite delete_insert_eq in HP. done.
  - rewrite (proj2 (Z.eqb_neq (ref b - 1) 0)) by lia. eexists. split; [simpl; by rewrite Z.add_0_r|].
    split; [done|]. split; [done|]. by eapply owned_put.
Qed.

Lemma free_spec s p l H :
  chain (pbufs s) (Some p) l -> owned s H -> refs_ok l ->
  exists s', pbuf_free s (Some p) = Ret (u8 (Z.of_nat (length (freed l))), s')
    /\ pbufs s' = free_effect (pbufs s) l /\ bytes_of s' = deletes (bytes_of s) (freed l)
    /\ owned s' (deletes H (freed l)).
Proof.
  intros Hc Ho Hr. pose proof (chain_fuel_ok _ _ _ Hc) as Hf.
  apply (free_loop_spec (chain_fuel s) s (Some p) l 0 H); done.
Qed.

Lemma lookup_deletes {V} (m : gmap Z V) l q :
  deletes m l !! q = if decide (q ∈ l.*1) then None else m !! q.
Proof.
  revert m. induction l as [|[p b] l IH]; intros m; [done|].
  cbn [deletes]. rewrite IH, fmap_cons. cbn [fst]. destruct (decide (q ∈ l.*1)), (decide (q ∈ p :: l.*1)) as [Hin|Hin]; try done.
  - set_solver.
  - assert (q = p) as -> by set_solver. apply lookup_delete_eq.
  - apply lookup_delete_ne. set_solver.
Qed.

Lemma freed_sub l : forall n, n ∈ freed l -> n ∈ l.
Proof.
  induction l as [|[p b] l IH]; simpl; [done|]. destruct (ref b =? 1); [|by intros n ?%elem_of_nil].
  intros n [->|Hn]%elem_of_cons; [by left|right; auto].
Qed.

(** Where the structs end up: gone, one reference less, or untouched. *)
Lemma lookup_free_effect P o l q : chain P o l ->
  free_effect P l !! q
  = if decide (q ∈ (freed l).*1) then None
    else match drop (length (freed l)) l with
         | (p, b) :: _ => if decide (q = p) then Some (set_ref (ref b - 1) b) else P !! q
         | [] => P !! q
         end.
Proof.
  revert P o. induction l as [|[p b] l IH]; intros P o Hc.
  { done. }
  assert (p ∉ l.*1) as Hnin by (apply chain_NoDup in Hc; by apply NoDup_cons in Hc as [? _]).
  simpl in Hc. destruct Hc as (-> & Hp & Hc). cbn [free_effect freed].
  destruct (Z.eqb_spec (ref b) 1).
  - rewrite (IH _ (next b)) by (by apply chain_delete). cbn [length drop]. rewrite fmap_cons. cbn [fst].
    assert (forall n, n ∈ freed l -> n ∈ l) as Hsub by apply freed_sub.
    destruct (decide (q ∈ (freed l).*1)), (decide (q ∈ p :: (freed l).*1)) as [Hin|Hin]; try done.
    + set_solver.
    + assert (q = p) as -> by set_solver. rewrite lookup_delete_eq.
      destruct (drop (length (freed l)) l) as [|[p' b'] r] eqn:Hr; [done|].
      destruct (decide (p = p')) as [<-|]; [|done]. exfalso. apply Hnin.
      rewrite <- (take_drop (length (freed l)) l), Hr, fmap_app. set_solver.
    + rewrite lookup_delete_ne by set_solver. done.
  - simpl.
    destruct (decide (q = p)) as [->|]; [by rewrite lookup_insert_eq|by rewrite lookup_insert_ne].
Qed.


(** ** [pbuf_cat], [pbuf_dechain] *)

(** The head chain after [pbuf_cat]: its totals grow by [tt], its last pbuf
    points to [t]. *)
Fixpoint cat_nodes (l : list node) (t tt : Z) : list node :=
  match l with
  | [] => []
  | (p, b) :: l' =>
      (p, match l' with
          | [] => set_next (Some t) (set_tot_len (tot_len b + tt) b)
          | _ => set_tot_len (tot_len b + tt) b
          end) :: cat_nodes l' t tt
  end.

(** The same structs exist in both states, and the bytes are the same. *)
Definition same_memory (s s' : st A) : Prop :=
  bytes_of s' = bytes_of s /\ al s' = al s
  /\ forall k, is_Some (pbufs s' !! k) <-> is_Some (pbufs s !! k).

Lemma same_memory_put s p b b' : pbufs s !! p = Some b -> same_memory s (put s p b').
Proof.
  intros Hp. split; [done|]. split; [done|]. intros k. simpl.
  destruct (decide (p = k)) as [<-|]; [rewrite lookup_insert_eq, Hp; by split; eauto|].
  by rewrite lookup_insert_ne.
Qed.

Lemma same_memory_trans s1 s2 s3 : same_memory s1 s2 -> same_memory s2 s3 -> same_memory s1 s3.
Proof.
  intros (H1 & H2 & H3) (G1 & G2 & G3). split; [congruence|]. split; [congruence|].
  intros k. by rewrite G3, H3.
Qed.

Lemma load_same_memory s s' q n : same_memory s s' -> load s' q n = load s q n.
Proof.
  intros (Hb & _ & Hp). unfold load, clear_of_struct. rewrite Hb.
  destruct (n =? 0); [done|]. destruct q as [q|]; [|done]. simpl.
  destruct (bytes_of s !! blk q) as [l|]; [|done]. simpl. destruct (range_ok l (off q) n); [|done].
  simpl. specialize (Hp (blk q)). destruct (pbufs s' !! blk q), (pbufs s !! blk q); try done.
  - by destruct (proj1 Hp (ex_intro _ _ eq_refl)).
  - by destruct (proj2 Hp (ex_intro _ _ eq_refl)).
Qed.

Lemma contents_same_memory s s' l ds : same_memory s s' -> contents s l ds -> contents s' l ds.
Proof.
  intros Hm. induction 1 as [|n d l ds Hd _ IH]; constructor; [|done]. by rewrite (load_same_memory s s').
Qed.

(** [pbuf_cat] from the pbuf [p] on. *)
Definition cat_from (fuel : nat) (s : st A) (p t : Z) : outcome (st A) :=
  r ← cat_loop fuel s p t;
  let '(p, s) := r in
  b ← get s p;
  _ ← lwip_assert (tot_len b =? len b);
  bt ← get s t;
  Ret (put s p (set_next (Some t) (set_tot_len (u16 (tot_len b + tot_len bt)) b))).

Lemma cat_from_spec fuel s p l t bt lt :
  chain (pbufs s) (Some p) l -> chain (pbufs s) (Some t) ((t, bt) :: lt) -> lens_ok l ->
  lens_ok ((t, bt) :: lt) -> (forall q, q ∈ l.*1 -> q ∉ t :: lt.*1) ->
  total l + tot_len bt < 2 ^ 16 -> (length l <= fuel)%nat ->
  exists s', cat_from fuel s p t = Ret s' /\ same_memory s s'
    /\ chain (pbufs s') (Some p) (cat_nodes l t (tot_len bt) ++ (t, bt) :: lt)
    /\ (forall q, q ∉ l.*1 -> pbufs s' !! q = pbufs s !! q).
Proof.
  revert s p l. induction fuel as [|fuel IH]; intros s p l Hc Hct Hl Hlt Hdis Htot Hf.
  { destruct l; [done|simpl in Hf; lia]. }
  destruct l as [|[p' b] l]; [done|].
  assert (p' ∉ l.*1) as Hnin by (apply chain_NoDup in Hc; by apply NoDup_cons in Hc as [? _]).
  destruct Hc as ([= <-] & Hp & Hc). destruct Hl as (H0 & Ht & Htl & Hl).
  pose proof Hct as (_ & Hbt & _). pose proof (lens_ok_total l Hl). simpl in Htot, Hf.
  assert (0 <= tot_len bt).
  { destruct Hlt as (? & -> & _ & Hlt'). apply lens_ok_total in Hlt'. lia. }
  assert (p ∉ t :: lt.*1) as Hpt by (apply Hdis; by left).
  assert (p <> t) as Hne by set_solver.
  unfold cat_from. cbn [cat_loop]. rewrite (get_ok _ _ _ Hp), ret_bind.
  destruct l as [|[q c] l].
  - simpl in Hc. rewrite Hc, ret_bind, (get_ok _ _ _ Hp), ret_bind. simpl in Ht.
    rewrite lwip_assert_true, ret_bind by (apply Z.eqb_eq; lia). rewrite (get_ok _ _ _ Hbt), ret_bind.
    rewrite u16_small by lia. eexists. split; [done|]. split; [by eapply same_memory_put|]. split.
    + split; [done|]. split; [apply lookup_insert_eq|]. simpl.
      apply (chain_insert _ _ ((t, bt) :: lt)); [done|]. set_solver.
    + intros k Hk. simpl. apply lookup_insert_ne. set_solver.
  - pose proof Hc as (Hnx & _). rewrite Hnx in Hc |- *. rewrite (get_ok _ _ _ Hbt), ret_bind.
    rewrite u16_small by lia. set (b' := set_tot_len (tot_len b + tot_len bt) b).
    destruct (IH (put s p b') q ((q, c) :: l)) as (s' & Hs' & Hm & Hch & Hoth);
      [by apply (chain_insert (pbufs s))
      |apply (chain_insert (pbufs s) _ ((t, bt) :: lt)); [done|set_solver]
      |done|done|intros k Hk; apply Hdis; by right|simpl in *; lia|simpl in *; lia|].
    exists s'. split; [exact Hs'|]. split.
    { apply (same_memory_trans _ (put s p b')); [by eapply same_memory_put|done]. }
    split.
    + split; [done|]. split.
      * rewrite Hoth by done. simpl. apply lookup_insert_eq.
      * change (next _) with (next b). rewrite Hnx. exact Hch.
    + intros k Hk. rewrite Hoth by set_solver. simpl. apply lookup_insert_ne. set_solver.
Qed.

Lemma cat_nodes_contents s l t tt ds : contents s l ds -> contents s (cat_nodes l t tt) ds.
Proof.
  induction 1 as [|[p b] d l ds Hd _ IH]; simpl; constructor; [|done]. by destruct l.
Qed.

Lemma total_cat_nodes l t tt : total (cat_nodes l t tt) = total l.
Proof. induction l as [|[p b] l IH]; simpl; [done|]. rewrite IH. by destruct l. Qed.

Lemma lens_ok_cat l t lt : lens_ok l -> lens_ok lt -> total l + total lt < 2 ^ 16 ->
  lens_ok (cat_nodes l t (total lt) ++ lt).
Proof.
  intros Hl Hlt. induction l as [|[p b] l IH]; simpl; [done|]. intros Htot.
  destruct Hl as (H0 & Ht & Htl & Hl). specialize (IH Hl ltac:(lia)). rewrite total_app, total_cat_nodes.
  pose proof (lens_ok_total _ Hl). pose proof (lens_ok_total _ Hlt).
  destruct l; simpl in *; split_and!; (done || lia).
Qed.

Lemma cat_spec s h lh dh t lt dt :
  packet s (Some h) lh dh -> packet s (Some t) lt dt -> (forall q, q ∈ lh.*1 -> q ∉ lt.*1) ->
  total lh + total lt < 2 ^ 16 ->
  exists s', pbuf_cat s (Some h) (Some t) = Ret s' /\ same_memory s s'
    /\ packet s' (Some h) (cat_nodes lh t (total lt) ++ lt) (dh ++ dt).
Proof.
  intros (Hch & Hlh & dsh & Hdh & ->) (Hct & Hlt & dst & Hdt & ->) Hdis Htot.
  pose proof (chain_fuel_ok _ _ _ Hch) as Hf. destruct lt as [|[t' bt] lt]; [done|].
  pose proof Hct as ([= <-] & _). pose proof Hlt as (_ & Htt & _).
  destruct (cat_from_spec (chain_fuel s) s h lh t bt lt Hch Hct Hlh Hlt Hdis) as (s' & Hs & Hm & Hc & _).
  { simpl in *. lia. } { lia. }
  exists s'. split; [exact Hs|]. split; [done|]. simpl total. rewrite <- Htt.
  split; [done|]. split; [rewrite Htt; apply (lens_ok_cat lh t ((t, bt) :: lt)); done|].
  exists (dsh ++ dst). rewrite concat_app. split; [|done]. eapply contents_same_memory; [done|].
  apply Forall2_app; [by apply cat_nodes_contents|done].
Qed.

(** ** Packets that are not touched by a deallocation *)

(** The payload of [n] is not in one of the blocks [ps]. *)
Definition payload_outside (ps : list Z) (n : node) : Prop :=
  match payload n.2 with Some q => blk q ∉ ps | None => True end.

(** [s'] comes from [s] by dropping the blocks [ps]; structs outside [qs] are as
    before. *)
Definition dropped (s s' : st A) (ps qs : list Z) : Prop :=
  (forall k, k ∉ ps -> bytes_of s' !! k = bytes_of s !! k)
  /\ (forall k, k ∉ ps -> is_Some (pbufs s' !! k) <-> is_Some (pbufs s !! k))
  /\ (forall k, k ∉ qs -> pbufs s' !! k = pbufs s !! k).

Lemma load_dropped s s' ps qs q n : dropped s s' ps qs ->
  match q with Some q => blk q ∉ ps | None => True end -> load s' q n = load s q n.
Proof.
  intros (Hb & Hp & _) Hq. unfold load, clear_of_struct. destruct (n =? 0); [done|].
  destruct q as [q|]; [|done]. simpl. rewrite Hb by done. specialize (Hp (blk q) Hq).
  destruct (bytes_of s !! blk q) as [l|]; [|done]. simpl. destruct (range_ok l (off q) n); [|done].
  simpl. destruct (pbufs s' !! blk q), (pbufs s !! blk q); try done.
  - by destruct (proj1 Hp (ex_intro _ _ eq_refl)).
  - by destruct (proj2 Hp (ex_intro _ _ eq_refl)).
Qed.

Lemma contents_dropped s s' ps qs l ds : dropped s s' ps qs -> Forall (payload_outside ps) l ->
  contents s l ds -> contents s' l ds.
Proof.
  intros Hd Hout Hc. induction Hc as [|n d l ds Hn _ IH]; [constructor|].
  apply Forall_cons in Hout as [Ho1 Ho2]. constructor; [|by apply IH].
  by rewrite (load_dropped s s' ps qs).
Qed.

Lemma packet_dropped s s' ps qs o l d : dropped s s' ps qs -> Forall (payload_outside ps) l ->
  (forall k, k ∈ l.*1 -> k ∉ qs) -> packet s o l d -> packet s' o l d.
Proof.
  intros Hd Hout Hk (Hc & Hl & ds & Hds & ->). split.
  { eapply chain_frame; [done|]. intros k Hin. apply Hd. auto. }
  split; [done|]. exists ds. split; [|done]. by eapply contents_dropped.
Qed.

(** [pbuf_free] touches the chain it is given and drops what it deallocates. *)
Lemma free_dropped s p l H : chain (pbufs s) (Some p) l -> owned s H -> refs_ok l ->
  exists s' H', pbuf_free s (Some p) = Ret (u8 (Z.of_nat (length (freed l))), s')
    /\ dropped s s' (freed l).*1 l.*1 /\ pbufs s' = free_effect (pbufs s) l /\ owned s' H'.
Proof.
  intros Hc Ho Hr. destruct (free_spec s p l H Hc Ho Hr) as (s' & HF & HP & HB & HO).
  exists s', (deletes H (freed l)). split; [done|]. split; [|done].
  assert (forall n, n ∈ freed l -> n ∈ l) as Hsub by apply freed_sub. split; [|split].
  - intros k Hk. rewrite HB, lookup_deletes. by destruct (decide _).
  - intros k Hk. rewrite HP, (lookup_free_effect _ _ _ _ Hc). destruct (decide _); [done|].
    destruct (drop (length (freed l)) l) as [|[q b] r] eqn:Hr'; [done|].
    destruct (decide (k = q)) as [->|]; [|done].
    assert (pbufs s !! q = Some b) as ->; [|by split; eauto].
    eapply chain_lookup; [done|]. rewrite <- (take_drop (length (freed l)) l), Hr'. set_solver.
  - intros k Hk. rewrite HP, (lookup_free_effect _ _ _ _ Hc). destruct (decide _) as [Hin|]; [set_solver|].
    destruct (drop (length (freed l)) l) as [|[q b] r] eqn:Hr'; [done|].
    destruct (decide (k = q)) as [->|]; [|done]. exfalso. apply Hk.
    rewrite <- (take_drop (length (freed l)) l), Hr', fmap_app. set_solver.
Qed.

(** *** [pbuf_dechain] *)

Lemma set_tot_len_same b : set_tot_len (tot_len b) b = b.
Proof. by destruct b. Qed.
Lemma put_same s p b : pbufs s !! p = Some b -> put s p b = s.
Proof. intros Hp. destruct s as [P B a o]. unfold put. simpl in *. by rewrite insert_id. Qed.

Lemma dechain_spec s p b q c l H :
  chain (pbufs s) (Some p) ((p, b) :: (q, c) :: l) -> lens_ok ((p, b) :: (q, c) :: l) ->
  refs_ok ((q, c) :: l) -> owned s H ->
  exists s' H', pbuf_dechain s p
           = Ret (if 0 <? u8 (Z.of_nat (length (freed ((q, c) :: l)))) then None else Some q, s')
    /\ pbufs s' !! p = Some (set_tot_len (len b) (set_next None b))
    /\ (forall k, k ∈ (freed ((q, c) :: l)).*1 -> pbufs s' !! k = None)
    /\ dropped s s' (freed ((q, c) :: l)).*1 (p :: (q :: l.*1)) /\ owned s' H'.
Proof.
  intros Hc Hl Hr Ho.
  assert (p ∉ q :: l.*1) as Hnin by (apply chain_NoDup in Hc; by apply NoDup_cons in Hc as [? _]).
  destruct Hc as (_ & Hp & Hc). pose proof Hc as (Hnx & Hq & _).
  destruct Hl as (H0 & Ht & Htl & Hlq). pose proof (lens_ok_total _ Hlq) as Htq.
  destruct Hlq as (_ & Htc & _). simpl total in *.
  unfold pbuf_dechain. rewrite (get_ok _ _ _ Hp), ret_bind, Hnx, (get_ok _ _ _ Hq), ret_bind.
  rewrite lwip_assert_true, ret_bind by (apply Z.eqb_eq; lia).
  rewrite u16_small by lia. replace (tot_len b - len b) with (tot_len c) by lia.
  rewrite set_tot_len_same, put_same by done.
  unfold modify. rewrite (get_ok _ _ _ Hp), !ret_bind.
  rewrite (get_ok (put s p (set_next None b)) p (set_next None b)), !ret_bind by apply lookup_insert_eq.
  set (b' := set_tot_len (len b) (set_next None b)).
  set (s1 := put (put s p (set_next None b)) p b').
  assert (chain (pbufs s1) (Some q) ((q, c) :: l)) as Hc1.
  { rewrite <- Hnx. apply (chain_insert (<[p:=_]> (pbufs s))); [|done]. by apply (chain_insert (pbufs s)). }
  assert (owned s1 H) as Ho1.
  { eapply owned_put; [by eapply owned_put|simpl; apply lookup_insert_eq|done]. }
  destruct (free_dropped s1 q _ H Hc1 Ho1 Hr) as (s' & H' & -> & Hd & HP & HO). rewrite ret_bind.
  assert (pbufs s' !! p = Some b') as Hp'.
  { destruct Hd as (_ & _ & Hd). rewrite Hd by done. apply lookup_insert_eq. }
  rewrite (get_ok _ _ _ Hp'), ret_bind. rewrite lwip_assert_true, ret_bind by apply Z.eqb_refl.
  exists s', H'. split; [done|]. split; [done|]. split.
  { intros k Hk. rewrite HP, (lookup_free_effect _ _ _ _ Hc1). by destruct (decide _). }
  split; [|done]. destruct Hd as (Hd1 & Hd2 & Hd3). split; [|split].
  - intros k Hk. by rewrite Hd1.
  - intros k Hk. rewrite Hd2 by done. unfold s1. simpl. rewrite !lookup_insert_is_Some. destruct (decide (p = k)) as [<-|].
    + rewrite Hp. naive_solver.
    + naive_solver.
  - intros k Hk. rewrite Hd3 by set_solver. unfold s1. simpl. rewrite !lookup_insert_ne by set_solver. done.
Qed.
End ref.
