(* ===== verification/PbufShrink.v ===== *)
(** * Headers and lengths: [pbuf_add_header], [pbuf_remove_header],
    [pbuf_header], [pbuf_free_header], [pbuf_realloc]

    Removing bytes at the front or at the end of a packet. *)

From S2P Require Import Prelude PbufMem Pbuf PbufChain PbufRead PbufWrite PbufRef.

Section shrink.
Context {A : Type} `{!Allocator A} `{!AllocatorLaws A}.
Implicit Types s : st A.

(** ** Headers *)

(** The first pbuf after [n] bytes of its payload are hidden. *)
Definition hide (b : pbuf) (n : Z) : pbuf :=
  set_tot_len (tot_len b - n) (set_len (len b - n) (set_payload (opt_add (payload b) n) b)).

Lemma drop_slice (d : list Z) n m : 0 <= n -> Z.of_nat (length d) = n + m ->
  slice d n m = drop (Z.to_nat n) d.
Proof. intros. unfold slice. rewrite take_ge; [done|]. rewrite length_drop. lia. Qed.

Lemma chain_put_head P p b b' l : chain P (Some p) ((p, b) :: l) -> next b' = next b ->
  chain (<[p := b']> P) (Some p) ((p, b') :: l).
Proof.
  intros Hc Hn. assert (p ∉ l.*1) by (apply chain_NoDup in Hc; by apply NoDup_cons in Hc as [? _]).
  destruct Hc as (_ & _ & Hc). split; [done|]. split; [apply lookup_insert_eq|].
  rewrite Hn. by apply chain_insert.
Qed.

Lemma remove_header_spec s p b l d n :
  packet s (Some p) ((p, b) :: l) d -> 0 <= n <= len b ->
  exists s', pbuf_remove_header s (Some p) n = Ret (0, s') /\ same_memory s s'
    /\ (forall k, k <> p -> pbufs s' !! k = pbufs s !! k)
    /\ packet s' (Some p) ((p, hide b n) :: l) (drop (Z.to_nat n) d)
    /\ s' = put s p (hide b n).
Proof.
  intros Hpk Hn.
  destruct (packet_cons _ _ _ _ _ _ Hpk) as (_ & Hp & Hlb & Ht & Htl & d1 & d2 & Hd1 & Hpk2 & ->).
  pose proof (lens_ok_total l (proj1 (proj2 Hpk2))) as Htt.
  assert (pbuf_remove_header s (Some p) n = Ret (0, put s p (hide b n))) as ->.
  { unfold pbuf_remove_header. rewrite (proj2 (Z.ltb_ge 0xFFFF n)) by lia.
    destruct (Z.eqb_spec n 0) as [->|].
    - do 2 f_equal. rewrite put_same; [done|]. rewrite Hp. f_equal. unfold hide. rewrite !Z.sub_0_r.
      destruct b as [? [[? ?]|] ? ? ? ? ? ?]; unfold opt_add, ptr_add; simpl; rewrite ?Z.add_0_r; done.
    - rewrite (u16_small n), (get_ok _ _ _ Hp), ret_bind by lia.
      rewrite lwip_assert_true, ret_bind by (apply Z.leb_le; lia).
      unfold hide. by rewrite !u16_small by lia. }
  eexists. split; [done|]. assert (same_memory s (put s p (hide b n))) as Hm by (by eapply same_memory_put).
  split; [done|]. split; [intros k Hk; apply lookup_insert_ne; done|]. split; [|done].
  apply load_length in Hd1 as Hl1; [|lia]. destruct Hpk as (Hc & Hl & _).
  destruct Hpk2 as (Hc2 & Hl2 & ds2 & Hds2 & ->).
  split; [by apply (chain_put_head _ _ b)|]. split.
  { destruct Hl as (? & ? & ? & ?). simpl. split_and!; (done || lia). }
  exists (drop (Z.to_nat n) d1 :: ds2). split; [|by rewrite drop_app_le by lia].
  constructor; [|by eapply contents_same_memory].
  rewrite (load_same_memory s) by done. simpl.
  rewrite (load_part s _ _ _ n (len b - n) Hd1) by lia. f_equal. apply drop_slice; lia.
Qed.

(** ** [pbuf_free_header] *)

(** Every payload lies in its own pbuf's block, or outside all pbufs of the
    chain. *)
Definition blocks_apart (l : list node) : Prop :=
  forall n m, n ∈ l -> m ∈ l -> n.1 <> m.1 -> payload_outside [m.1] n.

Lemma blocks_apart_tail n l : blocks_apart (n :: l) -> blocks_apart l.
Proof. intros Hb x y Hx Hy. apply Hb; by right. Qed.

Lemma free_header_spec fuel s o l d n H :
  packet s o l d -> owned s H -> refs_ok l -> blocks_apart l -> 0 <= n < 2 ^ 16 ->
  (length l < fuel)%nat ->
  exists s' l' H', free_header_loop fuel s o n = Ret (hd_ptr l', s')
    /\ packet s' (hd_ptr l') l' (drop (Z.to_nat n) d) /\ owned s' H'
    /\ (forall k, k ∉ l.*1 -> pbufs s' !! k = pbufs s !! k).
Proof.
  revert s o l d n H. induction fuel as [|fuel IH]; intros s o l d n H Hpk Ho Hr Hb Hn Hf; [lia|].
  pose proof (packet_hd _ _ _ _ Hpk) as ->. cbn [free_header_loop].
  destruct (Z.eqb_spec n 0) as [->|Hnz].
  { exists s, l, H. change (Z.to_nat 0) with 0%nat. by rewrite drop_0. }
  destruct l as [|[p b] l]; simpl hd_ptr in *.
  { exists s, [], H. split; [done|]. destruct Hpk as (_ & _ & ds & Hds & ->). inversion Hds; subst.
    simpl concat. rewrite drop_nil. split; [apply packet_nil|done]. }
  destruct (packet_cons _ _ _ _ _ _ Hpk) as (_ & Hp & Hlb & Ht & Htl & d1 & d2 & Hd1 & Hpk2 & ->).
  rewrite (get_ok _ _ _ Hp), ret_bind. apply load_length in Hd1 as Hl1; [|lia].
  destruct (Z.leb_spec (len b) n) as [Hle|Hgt].
  - unfold modify. rewrite (get_ok _ _ _ Hp), !ret_bind. rewrite u16_small by lia.
    set (s1 := put s p (set_next None b)).
    assert (p ∉ l.*1) as Hnin by (apply proj1, chain_NoDup in Hpk; by apply NoDup_cons in Hpk as [? _]).
    assert (chain (pbufs s1) (Some p) [(p, set_next None b)]) as Hc1.
    { split; [done|]. split; [apply lookup_insert_eq|done]. }
    assert (owned s1 H) as Ho1 by (by eapply owned_put).
    apply Forall_cons in Hr as [Hr1 Hr].
    destruct (free_dropped s1 p _ H Hc1 Ho1) as (s2 & H2 & -> & Hd & HP & Ho2);
      [by constructor; [exact Hr1|constructor]|]. rewrite ret_bind. cbn [snd].
    assert (packet s2 (next b) l d2) as Hpk2'.
    { eapply (packet_dropped s1); [exact Hd| | |].
      - apply Forall_forall. intros nd Hnd.
        assert (payload_outside [p] nd) as Hout.
        { apply (Hb nd (p, b)); [by right|by left|]. simpl. intros <-. apply Hnin.
          by apply list_elem_of_fmap_2. }
        unfold payload_outside in *. destruct (payload nd.2); [|done].
        cbn [freed]. destruct (ref _ =? 1); [done|apply not_elem_of_nil].
      - intros k Hk [->|[]%elem_of_nil]%elem_of_cons. by apply Hnin.
      - destruct Hpk2 as (Hc2 & Hl2 & ds2 & Hds2 & ->). split; [by apply (chain_insert (pbufs s))|].
        split; [done|]. exists ds2. split; [|done]. eapply contents_same_memory; [|done].
        by eapply same_memory_put. }
    destruct (IH s2 (next b) l d2 (n - len b) H2 Hpk2' Ho2 Hr (blocks_apart_tail _ _ Hb) ltac:(lia)
                ltac:(simpl in Hf; lia)) as (s3 & l3 & H3 & HF & Hpk3 & Ho3 & Hoth).
    exists s3, l3, H3. split; [done|]. rewrite drop_app_ge by lia.
    replace (Z.to_nat n - length d1)%nat with (Z.to_nat (n - len b)) by lia. split; [done|]. split; [done|].
    intros k Hk. apply not_elem_of_cons in Hk as [Hkp Hk]. rewrite Hoth by done.
    destruct Hd as (_ & _ & Hd). rewrite Hd by (simpl; set_solver). simpl. by apply lookup_insert_ne.
  - destruct (remove_header_spec s p b l _ n Hpk ltac:(lia)) as (s' & -> & Hm & Hoth & Hpk' & ->).
    rewrite ret_bind. exists (put s p (hide b n)), ((p, hide b n) :: l), H.
    split; [done|]. split; [done|]. split; [by eapply owned_put|].
    intros k Hk. apply Hoth. set_solver.
Qed.

(** ** [pbuf_realloc] *)

(** A heap pbuf has its payload in its own block, after the struct. *)
Definition placed (n : node) : Prop :=
  src_of n.2 = Some FromHeap -> exists o, payload n.2 = Some (Ptr n.1 o) /\ 0 <= o < 2 ^ 31.

(** What lies outside the blocks [ps] reads as before. *)
Definition reads_same (s s' : st A) (ps : list Z) : Prop :=
  forall x n, match x with Some x => blk x ∉ ps | None => True end -> load s' x n = load s x n.

Lemma reads_same_refl s ps : reads_same s s ps.
Proof. done. Qed.
Lemma reads_same_trans s1 s2 s3 ps : reads_same s1 s2 ps -> reads_same s2 s3 ps -> reads_same s1 s3 ps.
Proof. intros H1 H2 x n Hx. by rewrite H2, H1. Qed.
Lemma reads_same_memory s s' ps : same_memory s s' -> reads_same s s' ps.
Proof. intros Hm x n _. by apply load_same_memory. Qed.

Lemma load_prefix s q n d m : load s q n = Ret d -> 0 <= m <= n ->
  load s q m = Ret (take (Z.to_nat m) d).
Proof.
  intros Hd Hm. pose proof (load_part s q n d 0 m Hd ltac:(lia) ltac:(lia) ltac:(lia)) as Hp.
  assert (opt_add q 0 = q) as Hq.
  { destruct q as [[? ?]|]; unfold opt_add, ptr_add; simpl; rewrite ?Z.add_0_r; done. }
  by rewrite Hq in Hp.
Qed.

Lemma take_range (l : list Z) o n m : range_ok l o n = true -> 0 <= m <= n ->
  range_ok (take (Z.to_nat (o + m)) l) o m = true
  /\ slice (take (Z.to_nat (o + m)) l) o m = slice l o m.
Proof.
  unfold range_ok. rewrite !andb_true_iff, !Z.leb_le, length_take. intros [[? ?] ?] Hm. split; [lia|].
  unfold slice. rewrite Z2Nat.inj_add by lia. rewrite <- take_drop_commute, take_take. f_equal. lia.
Qed.

Lemma src_of_heap b : pbuf_is_custom b = false ->
  pbuf_get_allocsrc b = PBUF_TYPE_ALLOC_SRC_MASK_STD_HEAP -> src_of b = Some FromHeap.
Proof. intros Hc Ha. unfold src_of. by rewrite Hc, Ha. Qed.

Lemma trim_spec s H q b d rem :
  pbufs s !! q = Some b -> load s (payload b) (len b) = Ret d -> owned s H -> placed (q, b) ->
  trimmable (al s) q -> 0 <= rem <= len b -> len b < 2 ^ 16 ->
  exists s1 H1, realloc_trim s q rem = Ret s1 /\ pbufs s1 = pbufs s
    /\ load s1 (payload b) rem = Ret (take (Z.to_nat rem) d) /\ owned s1 H1 /\ reads_same s s1 [q].
Proof.
  intros Hq Hd Ho Hpl Htr Hrem Hlen. unfold realloc_trim. rewrite (get_ok _ _ _ Hq), ret_bind.
  destruct (_ && _) eqn:Hcond.
  2:{ exists s, H. split; [done|]. split; [done|]. split; [by eapply load_prefix|]. split; [done|].
      apply reads_same_refl. }
  apply andb_true_iff in Hcond as [[Ha%Z.eqb_eq Hne%negb_true_iff%Z.eqb_neq]%andb_true_iff Hcu%negb_true_iff].
  pose proof (src_of_heap b Hcu Ha) as Hsrc. destruct (Hpl Hsrc) as (o & Hpay & Hor). simpl in Hpay.
  rewrite Hpay in *. simpl. rewrite Z.eqb_refl. simpl.
  unfold load in Hd. destruct (Z.eqb_spec (len b) 0); [lia|]. simpl in Hd.
  destruct (bytes_of s !! q) as [l|] eqn:Hl; simpl in Hd; [|done].
  destruct (range_ok l o (len b)) eqn:Hrg; simpl in Hd; [|done].
  destruct (clear_of_struct s (Ptr q o)) eqn:Hcl; [|done]. injection Hd as <-.
  pose proof (owned_bytes _ _ Ho _ _ Hl) as (src & HH).
  destruct (owned_pbufs _ _ Ho _ _ Hq) as (src' & sz & Hsrc' & HH'). rewrite Hsrc in Hsrc'.
  injection Hsrc' as <-. rewrite HH in HH'. injection HH' as -> <-.
  pose proof Hrg as Hrg'. unfold range_ok in Hrg'. rewrite !andb_true_iff, !Z.leb_le in Hrg'.
  rewrite (u32_small (o + rem)) by lia.
  destruct (mem_trim_law _ _ q _ (o + rem) (owned_holds _ _ Ho) HH ltac:(lia) Htr) as (a' & -> & Ha').
  simpl. set (s1 := St _ _ _ _). exists s1, (<[q := (FromHeap, o + rem)]> H).
  destruct (take_range l o (len b) rem Hrg Hrem) as [Hr1 Hs1].
  split; [done|]. split; [done|]. split; [|split].
  - unfold load. destruct (Z.eqb_spec rem 0) as [->|]; [done|]. simpl. rewrite lookup_insert_eq. simpl.
    rewrite Hr1. change (clear_of_struct s1 (Ptr q o)) with (clear_of_struct s (Ptr q o)). rewrite Hcl, Hs1.
    simpl. f_equal. unfold slice. rewrite take_take. f_equal. lia.
  - split; simpl; [done| |].
    + intros k c Hk. destruct (owned_pbufs _ _ Ho _ _ Hk) as (src & m & Hs & Hm).
      destruct (decide (q = k)) as [<-|]; [|rewrite lookup_insert_ne by done; eauto].
      rewrite HH in Hm. injection Hm as <- <-. rewrite lookup_insert_eq. eauto.
    + intros k x [[<- <-]|[Hne' Hk]]%lookup_insert_Some.
      * rewrite lookup_insert_eq, length_take. exists FromHeap. do 3 f_equal. lia.
      * rewrite lookup_insert_ne by done. by apply (owned_bytes _ _ Ho).
  - intros x m Hx. unfold load. destruct (m =? 0); [done|]. destruct x as [x|]; [|done]. simpl in *.
    rewrite lookup_insert_ne by set_solver. done.
Qed.

(** [pbuf_realloc] once the new last pbuf [q] is found. *)
Definition realloc_finish (s : st A) (q rem_len : Z) : outcome (st A) :=
  s ← realloc_trim s q rem_len;
  s ← modify s q (fun b => set_tot_len rem_len (set_len rem_len b));
  b ← get s q;
  s ← match next b with
      | None => Ret s
      | Some _ => r ← pbuf_free s (next b); Ret (snd r)
      end;
  modify s q (set_next None).

Lemma finish_spec s H q b l2 d rem :
  chain (pbufs s) (Some q) ((q, b) :: l2) -> load s (payload b) (len b) = Ret d -> owned s H ->
  refs_ok l2 -> placed (q, b) -> trimmable (al s) q -> payload_outside l2.*1 (q, b) ->
  0 <= rem <= len b -> len b < 2 ^ 16 ->
  exists s' H', realloc_finish s q rem = Ret s'
    /\ pbufs s' !! q = Some (set_next None (set_tot_len rem (set_len rem b)))
    /\ load s' (payload b) rem = Ret (take (Z.to_nat rem) d) /\ owned s' H'
    /\ (forall k, k ∉ q :: l2.*1 -> pbufs s' !! k = pbufs s !! k) /\ reads_same s s' (q :: l2.*1).
Proof.
  intros Hc Hd Ho Hr Hpl Htr Hout Hrem Hlen.
  assert (q ∉ l2.*1) as Hnin by (apply chain_NoDup in Hc; by apply NoDup_cons in Hc as [? _]).
  destruct Hc as (_ & Hq & Hc).
  destruct (trim_spec s H q b d rem Hq Hd Ho Hpl Htr Hrem Hlen) as (s1 & H1 & Ht & HP1 & Hl1 & Ho1 & Hs1).
  unfold realloc_finish, modify. rewrite Ht, ret_bind.
  assert (pbufs s1 !! q = Some b) as Hq1 by (by rewrite HP1).
  rewrite (get_ok _ _ _ Hq1), !ret_bind. set (b2 := set_tot_len rem (set_len rem b)).
  rewrite (get_ok (put s1 q b2) q b2), ret_bind by apply lookup_insert_eq.
  assert (same_memory s1 (put s1 q b2)) as Hm2 by (by eapply same_memory_put).
  assert (owned (put s1 q b2) H1) as Ho2 by (by eapply owned_put).
  assert (exists s3 H3, match next b2 with
      | None => Ret (put s1 q b2) | Some _ => r ← pbuf_free (put s1 q b2) (next b2); Ret (snd r) end = Ret s3
      /\ pbufs s3 !! q = Some b2 /\ owned s3 H3 /\ reads_same (put s1 q b2) s3 l2.*1
      /\ (forall k, k ∉ l2.*1 -> pbufs s3 !! k = pbufs (put s1 q b2) !! k)) as (s3 & H3 & -> & Hq3 & Ho3 & Hr3 & Hp3).
  { change (next b2) with (next b). destruct l2 as [|[r c] l2]; simpl in Hc.
    { rewrite Hc. exists (put s1 q b2), H1. split; [done|]. split; [apply lookup_insert_eq|]. done. }
    pose proof Hc as (Hnx & _). rewrite Hnx.
    assert (chain (pbufs (put s1 q b2)) (Some r) ((r, c) :: l2)) as Hc2.
    { rewrite <- Hnx. apply (chain_insert (pbufs s1)); [|done]. by rewrite HP1. }
    destruct (free_dropped _ _ _ _ Hc2 Ho2 Hr) as (s3 & H3 & -> & Hdr & _ & Ho3).
    rewrite ret_bind. exists s3, H3. split; [done|]. split.
    { destruct Hdr as (_ & _ & Hdr). rewrite Hdr by done. apply lookup_insert_eq. }
    split; [done|]. split; [|by apply Hdr]. intros x m Hx. eapply load_dropped; [done|].
    destruct x as [x|]; [|done]. intros Hin. apply Hx.
    apply list_elem_of_fmap in Hin as (nd & -> & Hnd). apply list_elem_of_fmap_2. by apply freed_sub. }
  rewrite ret_bind, (get_ok _ _ _ Hq3), ret_bind.
  assert (same_memory s3 (put s3 q (set_next None b2))) as Hm4 by (by eapply same_memory_put).
  exists (put s3 q (set_next None b2)), H3. split; [done|]. split; [apply lookup_insert_eq|]. split.
  { rewrite (load_same_memory s3) by done. rewrite Hr3 by exact Hout. by rewrite (load_same_memory s1). }
  split; [by eapply owned_put|]. split.
  - intros k Hk. simpl. rewrite lookup_insert_ne by set_solver. rewrite Hp3 by set_solver. simpl.
    rewrite lookup_insert_ne by set_solver. by rewrite HP1.
  - intros x m Hx. rewrite (load_same_memory s3) by done.
    rewrite Hr3 by (destruct x; [set_solver|done]). rewrite (load_same_memory s1) by done.
    apply Hs1. destruct x; [set_solver|done].
Qed.

Definition realloc_from (fuel : nat) (s : st A) (p rem_len shrink : Z) : outcome (st A) :=
  r ← realloc_loop fuel s p rem_len shrink;
  let '(q, rem_len, s) := r in realloc_finish s q rem_len.

Lemma outside_tail n l : blocks_apart (n :: l) -> n.1 ∉ l.*1 -> payload_outside l.*1 n.
Proof.
  intros Hb Hn. unfold payload_outside. destruct (payload n.2) as [x|] eqn:Hx; [|done].
  intros (m & Heq & Hm)%list_elem_of_fmap.
  assert (payload_outside [m.1] n) as Ho.
  { apply Hb; [by left|by right|]. intros Hnm. apply Hn. rewrite Hnm. by apply list_elem_of_fmap_2. }
  unfold payload_outside in Ho. rewrite Hx in Ho. apply Ho. rewrite Heq. by left.
Qed.

Lemma realloc_from_spec fuel s p l d rem H :
  packet s (Some p) l d -> owned s H -> refs_ok l -> blocks_apart l -> Forall placed l ->
  (forall n, n ∈ l -> trimmable (al s) n.1) -> 0 <= rem <= total l -> (length l <= fuel)%nat ->
  exists s' l' H', realloc_from fuel s p rem (total l - rem) = Ret s'
    /\ packet s' (Some p) l' (take (Z.to_nat rem) d) /\ owned s' H'
    /\ (forall k, k ∉ l.*1 -> pbufs s' !! k = pbufs s !! k) /\ reads_same s s' l.*1.
Proof.
  revert s p l d rem H. induction fuel as [|fuel IH]; intros s p l d rem H Hpk Ho Hr Hb Hpl Htr Hrem Hf.
  { destruct l; [by destruct Hpk as [? _]|simpl in Hf; lia]. }
  destruct l as [|[p' b] l]; [by destruct Hpk as [? _]|].
  destruct (packet_cons _ _ _ _ _ _ Hpk) as ([= <-] & Hp & Hlb & Ht & Htl & d1 & d2 & Hd1 & Hpk2 & ->).
  pose proof (lens_ok_total l (proj1 (proj2 Hpk2))) as Htt. simpl in Hrem, Hf.
  assert (p ∉ l.*1) as Hnin by (apply proj1, chain_NoDup in Hpk; by apply NoDup_cons in Hpk as [? _]).
  pose proof (outside_tail (p, b) l Hb Hnin) as Hout.
  apply load_length in Hd1 as Hl1; [|lia].
  apply Forall_cons in Hr as [_ Hr]. apply Forall_cons in Hpl as [Hpl1 Hpl].
  unfold realloc_from. cbn [realloc_loop]. rewrite (get_ok _ _ _ Hp), ret_bind. simpl total.
  destruct (Z.ltb_spec (len b) rem) as [Hlt|Hge].
  - destruct l as [|[q c] l]; [simpl in *; lia|]. pose proof (packet_hd _ _ _ _ Hpk2) as Hnx.
    rewrite Hnx in *. simpl hd_ptr in *.
    rewrite (u16_small (rem - len b)), (u16_small (tot_len b - _)) by lia.
    set (b' := set_tot_len (tot_len b - (len b + total ((q, c) :: l) - rem)) b).
    assert (same_memory s (put s p b')) as Hm by (by eapply same_memory_put).
    assert (packet (put s p b') (Some q) ((q, c) :: l) d2) as Hpk2'.
    { destruct Hpk2 as (Hc2 & Hl2 & ds2 & Hds2 & ->). split; [by apply (chain_insert (pbufs s))|].
      split; [done|]. exists ds2. split; [|done]. by eapply contents_same_memory. }
    destruct (IH (put s p b') q ((q, c) :: l) d2 (rem - len b) H Hpk2')
      as (s' & l' & H' & Hs' & Hpk' & Ho' & Hoth & Hrd);
      [by eapply owned_put|done|by eapply blocks_apart_tail|done|intros n Hin; apply Htr; by right|lia|lia|].
    replace (total ((q, c) :: l) - (rem - len b)) with (len b + total ((q, c) :: l) - rem) in Hs' by lia.
    exists s', ((p, b') :: l'), H'. split; [exact Hs'|]. split; [|split; [done|split]].
    + assert (pbufs s' !! p = Some b') as Hp'.
      { rewrite Hoth by done. apply lookup_insert_eq. }
      assert (load s' (payload b) (len b) = Ret d1) as Hd1'.
      { rewrite Hrd by exact Hout. by rewrite (load_same_memory s). }
      pose proof (packet_length _ _ _ _ Hpk') as Hlen'. pose proof (packet_length _ _ _ _ Hpk2) as Hlen2.
      rewrite length_take in Hlen'.
      destruct Hpk' as (Hc' & Hl' & ds' & Hds' & Hds). split; [|split].
      * split; [done|]. split; [done|]. simpl. by rewrite Hnx.
      * cbn [total] in *. simpl. split_and!; (done || lia).
      * exists (d1 :: ds'). split; [by constructor|]. cbn [concat]. rewrite <- Hds.
        rewrite take_app_ge by lia. f_equal. f_equal. lia.
    + intros k Hk. apply not_elem_of_cons in Hk as [Hkp Hk]. rewrite Hoth by done. simpl.
      by apply lookup_insert_ne.
    + intros x m Hx. rewrite Hrd by (destruct x; [set_solver|done]). by apply load_same_memory.
  - rewrite ret_bind. destruct (finish_spec s H p b l d1 rem (proj1 Hpk) Hd1 Ho Hr Hpl1)
      as (s' & H' & Hs' & Hq' & Hl' & Ho' & Hoth & Hrd); [apply (Htr (p, b)); by left|done|lia|lia|].
    exists s', [(p, set_next None (set_tot_len rem (set_len rem b)))], H'. split; [exact Hs'|].
    split; [|done]. split; [done|]. split; [simpl; split_and!; (done || lia)|].
    exists [take (Z.to_nat rem) d1]. split; [constructor; [exact Hl'|constructor]|].
    simpl. rewrite app_nil_r. by rewrite take_app_le by lia.
Qed.

Lemma realloc_spec s p l d n H :
  packet s (Some p) l d -> owned s H -> refs_ok l -> blocks_apart l -> Forall placed l ->
  (forall n, n ∈ l -> trimmable (al s) n.1) -> 0 <= n < 2 ^ 16 ->
  exists s' l' H', pbuf_realloc s (Some p) n = Ret s'
    /\ packet s' (Some p) l' (take (Z.to_nat n) d) /\ owned s' H'.
Proof.
  intros Hpk Ho Hr Hb Hpl Htr Hn. pose proof (chain_fuel_ok _ _ _ (proj1 Hpk)) as Hf.
  pose proof (packet_length _ _ _ _ Hpk) as Hlen.
  destruct l as [|[p' b] l]; [by destruct Hpk as [? _]|].
  destruct (packet_cons _ _ _ _ _ _ Hpk) as ([= <-] & Hp & Hlb & Ht & Htl & _).
  unfold pbuf_realloc. rewrite (get_ok _ _ _ Hp), ret_bind. simpl total in Hlen.
  destruct (Z.leb_spec (tot_len b) n) as [Hle|Hgt].
  { exists s, ((p, b) :: l), H. split; [done|]. by rewrite take_ge by lia. }
  rewrite u16_small by lia.
  destruct (realloc_from_spec (chain_fuel s) s p ((p, b) :: l) d n H Hpk Ho Hr Hb Hpl Htr)
    as (s' & l' & H' & Hs' & Hpk' & Ho' & _); [simpl; lia|lia|].
  exists s', l', H'. split; [|done]. rewrite Ht. exact Hs'.
Qed.
End shrink.
