(* ===== verification/PbufAlloc.v ===== *)
(** * Allocation: [pbuf_alloc], [pbuf_alloc_reference], [pbuf_clone],
    [pbuf_coalesce]

    A new packet has the requested length, room for headers in front, memory of
    its own and reference counts of one; a pool allocation that fails half-way
    gives everything back. *)

From S2P Require Import Prelude PbufMem Pbuf PbufChain PbufRead PbufWrite PbufRef PbufShrink.

Section alloc.
Context {A : Type} `{!Allocator A} `{!AllocatorLaws A}.
Implicit Types s : st A.

(** ** A fresh block that holds a pbuf *)

Lemma length_junk a p n : 0 <= n -> Z.of_nat (length (map (junk a p) (seqZ 0 n))) = n.
Proof. intros. rewrite length_map, length_seqZ. lia. Qed.

Lemma owned_fresh s H p : owned s H -> H !! p = None -> pbufs s !! p = None /\ bytes_of s !! p = None.
Proof.
  intros Ho Hp. split.
  - destruct (pbufs s !! p) as [b|] eqn:Hb; [|done].
    destruct (owned_pbufs _ _ Ho _ _ Hb) as (? & ? & _ & ?). congruence.
  - destruct (bytes_of s !! p) as [l|] eqn:Hl; [|done].
    destruct (owned_bytes _ _ Ho _ _ Hl) as (? & ?). congruence.
Qed.

(** The state with a new block [p] of [n] bytes and the struct [b] in it. *)
Definition fresh (s : st A) (p n : Z) (a : A) (b : pbuf) : st A := put (new_block s p n a) p b.

Lemma owned_fresh_pbuf s H p n a b src : owned s H -> H !! p = None -> 0 <= n ->
  holds a (<[p := (src, n)]> H) -> src_of b = Some src -> owned (fresh s p n a b) (<[p := (src, n)]> H).
Proof.
  intros [Ha Hp Hb] Hnew Hn Hh Hsrc. split; simpl; [done| |].
  - intros q c [[<- <-]|[Hne Hq]]%lookup_insert_Some; [rewrite lookup_insert_eq; eauto|].
    rewrite lookup_insert_ne by done. auto.
  - intros k l [[<- <-]|[Hne Hk]]%lookup_insert_Some.
    + rewrite lookup_insert_eq, length_junk by done. eauto.
    + rewrite lookup_insert_ne by done. auto.
Qed.

Lemma reads_same_fresh s p n a b : pbufs s !! p = None -> reads_same s (fresh s p n a b) [p].
Proof.
  intros Hp x m Hx. unfold load, clear_of_struct. destruct (m =? 0); [done|].
  destruct x as [x|]; [|done]. simpl in *. by rewrite !lookup_insert_ne by set_solver.
Qed.

Lemma load_fresh s p n a b o m : 24 <= o -> 0 <= m -> o + m <= n ->
  load (fresh s p n a b) (Some (Ptr p o)) m = Ret (slice (map (junk a p) (seqZ 0 n)) o m).
Proof.
  intros Ho Hm Hle. unfold load. destruct (Z.eqb_spec m 0) as [->|]; [done|]. simpl.
  rewrite lookup_insert_eq. simpl. unfold clear_of_struct. simpl. rewrite lookup_insert_eq.
  assert (range_ok (map (junk a p) (seqZ 0 n)) o m = true) as ->.
  { unfold range_ok. rewrite length_junk, !andb_true_iff, !Z.leb_le by lia. lia. }
  by rewrite (proj2 (Z.leb_le SIZEOF_STRUCT_PBUF o)).
Qed.

(** ** [PBUF_RAM] *)

Definition layer_room (layer : pbuf_layer) : Z := pbuf_layer_value layer.
Lemma layer_room_bound layer : 0 <= layer_room layer <= 56.
Proof. destruct layer; vm_compute; split; discriminate. Qed.

(** The struct of a fresh pbuf with header room. *)
Definition new_pbuf (p : Z) (layer : pbuf_layer) (tot len : Z) (type : pbuf_type) : pbuf :=
  Pbuf None (Some (Ptr p (SIZEOF_STRUCT_PBUF + layer_room layer))) tot len
       (u8 (pbuf_type_value type)) 0 1 NETIF_NO_INDEX.

Lemma alloc_ram_spec s H layer n : owned s H -> 0 <= n < 2 ^ 16 ->
  exists r s' H', pbuf_alloc s layer n PBUF_RAM = Ret (r, s') /\ owned s' H' /\
    match r with
    | None => pbufs s' = pbufs s /\ bytes_of s' = bytes_of s
    | Some p => H !! p = None /\ pbufs s' = <[p := new_pbuf p layer n n PBUF_RAM]> (pbufs s)
        /\ reads_same s s' [p]
        /\ exists d, packet s' (Some p) [(p, new_pbuf p layer n n PBUF_RAM)] d
    end.
Proof.
  intros Ho Hn. pose proof (layer_room_bound layer) as Hlr. unfold layer_room in *.
  unfold pbuf_alloc. rewrite (u16_small (pbuf_layer_value layer)) by lia.
  destruct (Z.le_gt_cases 65536 (pbuf_layer_value layer + n)) as [Hbig|Hok].
  { assert (u16 (pbuf_layer_value layer + n) = pbuf_layer_value layer + n - 65536) as ->
      by (unfold u16; zdm).
    rewrite (proj2 (Z.ltb_lt _ n)) by lia. simpl. eauto 10. }
  rewrite (u16_small (_ + n)) by lia. change SIZEOF_STRUCT_PBUF with 24. rewrite u32_small by lia.
  rewrite (proj2 (Z.ltb_ge _ n)), (proj2 (Z.ltb_ge _ n)) by lia. cbn [orb].
  destruct (mem_malloc_law (al s) H (24 + (pbuf_layer_value layer + n)) (owned_holds _ _ Ho))
    as (r & a & -> & Hr); [lia|]. rewrite ret_bind. destruct r as [p|].
  - destruct Hr as [Hnew Hh]. destruct (owned_fresh _ _ _ Ho Hnew) as [Hp0 _].
    eexists (Some p), _, _. split; [done|].
    change (pbuf_init_alloced_pbuf _ _ _ _ _ _ _)
      with (fresh s p (24 + (pbuf_layer_value layer + n)) a (new_pbuf p layer n n PBUF_RAM)).
    split; [by eapply owned_fresh_pbuf; try done; lia|]. split; [done|]. split; [done|].
    split; [by apply reads_same_fresh|]. eexists. split.
    { split; [done|]. split; [apply lookup_insert_eq|done]. }
    split; [simpl; split_and!; (done || lia)|]. eexists [_]. split; [|done].
    constructor; [|constructor]. simpl. apply load_fresh; unfold layer_room, SIZEOF_STRUCT_PBUF; lia.
  - eexists None, _, H. split; [done|]. split; [|done]. destruct Ho as [? ? ?]. by split.
Qed.

(** ** [PBUF_POOL] *)

Lemma chain_snoc P P' o l1 x b b' q c : chain P o (l1 ++ [(x, b)]) ->
  (forall k, k ∈ l1.*1 -> P' !! k = P !! k) -> P' !! x = Some b' -> next b' = Some q ->
  P' !! q = Some c -> next c = None -> chain P' o ((l1 ++ [(x, b')]) ++ [(q, c)]).
Proof.
  intros Hc Hf Hx Hn Hq Hnc. revert o Hc Hf. induction l1 as [|[y e] l1 IH]; intros o Hc Hf.
  - destruct Hc as (-> & _ & _). split; [done|]. split; [done|]. rewrite Hn. by repeat split.
  - destruct Hc as (-> & Hy & Hc). split; [done|]. split.
    + rewrite Hf; [done|]. by left.
    + apply IH; [done|]. intros k Hk. apply Hf. by right.
Qed.

(** The length fields of the first pbufs of a packet, [rem] bytes to come. *)
Fixpoint lens_rem (l : list node) (rem : Z) : Prop :=
  match l with
  | [] => True
  | (_, b) :: l' => 0 <= len b /\ tot_len b = len b + total l' + rem /\ tot_len b < 2 ^ 16
                    /\ lens_rem l' rem
  end.
Lemma lens_rem_0 l : lens_rem l 0 -> lens_ok l.
Proof.
  induction l as [|[p b] l IH]; simpl; [done|]. intros (? & ? & ? & ?). split_and!; (auto || lia).
Qed.
Lemma lens_rem_snoc l1 x b b' q c rem : lens_rem (l1 ++ [(x, b)]) rem -> len b' = len b ->
  tot_len b' = tot_len b -> 0 <= len c -> tot_len c = rem -> rem < 2 ^ 16 ->
  lens_rem ((l1 ++ [(x, b')]) ++ [(q, c)]) (rem - len c).
Proof.
  intros H Hl Ht Hc Hr Hrb. induction l1 as [|[y e] l1 IH]; simpl in *.
  - destruct H as (? & ? & ? & _). split_and!; (done || lia).
  - destruct H as (? & ? & ? & H). rewrite !total_app in *. simpl in *. split_and!; (auto || lia).
Qed.

(** A pbuf of the pool, with its payload in its own block. *)
Definition pool_node (n : node) : Prop :=
  ref n.2 = 1 /\ src_of n.2 = Some (FromPool MEMP_PBUF_POOL)
  /\ exists o, payload n.2 = Some (Ptr n.1 o).

(** [l] is what was allocated since [s0]. *)
Record pool_inv (s0 : st A) (H0 : gmap Z (source * Z)) (s : st A) (H : gmap Z (source * Z))
    (l : list node) (rem : Z) : Prop := {
  pi_chain : chain (pbufs s) (hd_ptr l) l;
  pi_lens : lens_rem l rem;
  pi_owned : owned s H;
  pi_nodes : Forall pool_node l;
  pi_new : forall k, k ∈ l.*1 -> H0 !! k = None;
  pi_same : forall k, k ∉ l.*1 ->
    pbufs s !! k = pbufs s0 !! k /\ bytes_of s !! k = bytes_of s0 !! k /\ H !! k = H0 !! k;
  pi_contents : exists ds, contents s l ds }.

Lemma pool_nodes_freed l : Forall pool_node l -> freed l = l /\ refs_ok l.
Proof.
  induction 1 as [|[p b] l (Hr & _) _ [IH1 IH2]]; simpl in *; [by split; [|constructor]|].
  rewrite (proj2 (Z.eqb_eq _ _) Hr), IH1. split; [done|]. constructor; [simpl; lia|done].
Qed.

Lemma free_effect_deletes P l : freed l = l -> free_effect P l = deletes P l.
Proof.
  revert P. induction l as [|[p b] l IH]; intros P; simpl; [done|].
  destruct (ref b =? 1); [|done]. intros [= Hl]. by apply IH.
Qed.

Lemma owned_pool_is_empty s H a : owned s H -> holds a H ->
  owned (pbuf_pool_is_empty (with_al s a)) H
  /\ pbufs (pbuf_pool_is_empty (with_al s a)) = pbufs s
  /\ bytes_of (pbuf_pool_is_empty (with_al s a)) = bytes_of s.
Proof.
  intros [_ Hp Hb] Ha. unfold pbuf_pool_is_empty. simpl. destruct (ooseq_pending s); simpl.
  - by repeat split.
  - pose proof (try_callback_law a H Ha) as Hc. destruct (try_callback a) as [e a']. simpl in *.
    by repeat split.
Qed.

(** The pool ran dry: what was allocated is given back. *)
Lemma pool_fail s0 H0 s H l rem a : owned s0 H0 -> pool_inv s0 H0 s H l rem -> holds a H ->
  exists s', match hd_ptr l with
             | Some _ => r ← pbuf_free (pbuf_pool_is_empty (with_al s a)) (hd_ptr l); Ret (None, snd r)
             | None => Ret (None, pbuf_pool_is_empty (with_al s a))
             end = Ret (@None Z, s')
    /\ pbufs s' = pbufs s0 /\ bytes_of s' = bytes_of s0 /\ owned s' H0.
Proof.
  intros Ho0 [Hc Hl Ho Hn Hnew Hsame Hds] Ha.
  destruct (owned_pool_is_empty s H a Ho Ha) as (Ho1 & HP1 & HB1).
  assert (forall k, k ∈ l.*1 -> pbufs s0 !! k = None /\ bytes_of s0 !! k = None) as Hnone.
  { intros k Hk. eapply owned_fresh; [done|]. auto. }
  assert (deletes (pbufs s) l = pbufs s0) as HPd.
  { apply map_eq. intros k. rewrite lookup_deletes. destruct (decide _) as [Hk|Hk].
    - by destruct (Hnone k Hk).
    - by destruct (Hsame k Hk) as (? & _). }
  assert (deletes (bytes_of s) l = bytes_of s0) as HBd.
  { apply map_eq. intros k. rewrite lookup_deletes. destruct (decide _) as [Hk|Hk].
    - by destruct (Hnone k Hk).
    - by destruct (Hsame k Hk) as (_ & ? & _). }
  assert (deletes H l = H0) as HHd.
  { apply map_eq. intros k. rewrite lookup_deletes. destruct (decide _) as [Hk|Hk]; [by rewrite Hnew|].
    by destruct (Hsame k Hk) as (_ & _ & ?). }
  destruct (pool_nodes_freed l Hn) as [Hfr Hr]. destruct l as [|[p b] l].
  - simpl in *. eexists. split; [done|]. rewrite HP1, HB1. subst. done.
  - cbn [hd_ptr] in *. destruct (free_spec (pbuf_pool_is_empty (with_al s a)) p ((p, b) :: l) H)
      as (s' & -> & HP & HB & HO); [by rewrite HP1|done|done|].
    rewrite ret_bind. exists s'. rewrite HP, HB, Hfr, free_effect_deletes, HP1, HB1 by done.
    rewrite Hfr in HO. by subst.
Qed.

(** The pbuf made in one iteration. *)
Definition pool_pbuf (q offset rem qlen : Z) : pbuf :=
  Pbuf None (Some (Ptr q (SIZEOF_STRUCT_PBUF + offset))) rem qlen (u8 (pbuf_type_value PBUF_POOL)) 0 1
       NETIF_NO_INDEX.

Lemma pool_pbuf_load s q a offset rem qlen : 0 <= offset -> 0 <= qlen ->
  qlen <= PBUF_POOL_BUFSIZE_ALIGNED - offset ->
  exists d, load (fresh s q (memp_size MEMP_PBUF_POOL) a (pool_pbuf q offset rem qlen))
              (payload (pool_pbuf q offset rem qlen)) qlen = Ret d.
Proof.
  intros. eexists. apply load_fresh; unfold memp_size, SIZEOF_STRUCT_PBUF in *; lia.
Qed.

Lemma pool_payload_outside l q : Forall pool_node l -> q ∉ l.*1 -> Forall (payload_outside [q]) l.
Proof.
  intros Hn Hq. rewrite Forall_forall in Hn |- *. intros n Hin. destruct (Hn n Hin) as (_ & _ & o & Ho).
  unfold payload_outside. rewrite Ho. simpl. intros [Heq|[]%elem_of_nil]%elem_of_cons.
  apply Hq. rewrite <- Heq. by apply list_elem_of_fmap_2.
Qed.

Lemma contents_reads s s' ps l ds : reads_same s s' ps -> Forall (payload_outside ps) l ->
  contents s l ds -> contents s' l ds.
Proof.
  intros Hrd Hout Hc. induction Hc as [|n d l ds Hn _ IH]; [constructor|].
  apply Forall_cons in Hout as [Ho1 Ho2]. constructor; [|by apply IH].
  by rewrite Hrd.
Qed.

(** The state after one iteration: the pbuf is made and linked. *)
Definition pool_linked (s1 : st A) (last : option Z) (q : Z) : outcome (st A) :=
  match last with
  | None => Ret s1
  | Some last => modify s1 last (set_next (Some q))
  end.

Lemma pool_step s0 H0 s H l rem q a offset qlen :
  pool_inv s0 H0 s H l rem -> H !! q = None ->
  holds a (<[q := (FromPool MEMP_PBUF_POOL, memp_size MEMP_PBUF_POOL)]> H) ->
  0 <= offset -> 0 <= qlen <= rem -> rem < 2 ^ 16 -> qlen <= PBUF_POOL_BUFSIZE_ALIGNED - offset ->
  exists s' H' l', pool_linked (fresh s q (memp_size MEMP_PBUF_POOL) a (pool_pbuf q offset rem qlen))
                     (fst <$> last l) q = Ret s'
    /\ pool_inv s0 H0 s' H' l' (rem - qlen) /\ last l' = Some (q, pool_pbuf q offset rem qlen)
    /\ hd_ptr l' = match hd_ptr l with None => Some q | Some p => Some p end
    /\ total l' = total l + qlen.
Proof.
  intros [Hc Hl Ho Hn Hnew Hsame [ds Hds]] Hq Ha Hof Hql Hrem Hfit.
  set (bq := pool_pbuf q offset rem qlen). set (s1 := fresh s q _ a bq).
  assert (q ∉ l.*1) as Hql'.
  { intros (n & -> & Hin)%list_elem_of_fmap.
    destruct n as [p b]. destruct (owned_pbufs _ _ Ho p b) as (? & ? & _ & ?); [|simpl in *; congruence].
    by eapply chain_lookup. }
  destruct (owned_fresh _ _ _ Ho Hq) as [Hpq Hbq].
  assert (pool_node (q, bq)) as Hnq by (split; [done|]; split; [done|]; by eexists).
  assert (owned s1 (<[q := (FromPool MEMP_PBUF_POOL, memp_size MEMP_PBUF_POOL)]> H)) as Ho1
    by (by apply owned_fresh_pbuf).
  destruct (pool_pbuf_load s q a offset rem qlen Hof ltac:(lia) Hfit) as [dq Hdq]. fold bq s1 in Hdq.
  assert (H0 !! q = None) as Hq0 by (destruct (Hsame q Hql') as (_ & _ & <-); done).
  assert (contents s1 l ds) as Hds1.
  { eapply contents_reads; [by apply reads_same_fresh|by apply pool_payload_outside|done]. }
  destruct l as [|[x b] l1 _] using rev_ind.
  - eexists s1, _, [(q, bq)]. split; [done|]. split; [|simpl; split_and!; (done || lia)]. split.
    + split; [done|]. split; [apply lookup_insert_eq|done].
    + simpl. split_and!; (done || lia).
    + exact Ho1.
    + by constructor.
    + intros k [->|[]%elem_of_nil]%elem_of_cons. done.
    + intros k Hk. assert (k <> q) by set_solver. simpl. rewrite !lookup_insert_ne by done.
      apply Hsame. set_solver.
    + exists [dq]. constructor; [exact Hdq|constructor].
  - rewrite last_snoc. assert (pbufs s !! x = Some b) as Hx by (eapply chain_lookup; [done|set_solver]).
    assert (q <> x) as Hqx by set_solver. assert (x ∉ l1.*1) as Hxl.
    { apply chain_NoDup in Hc. rewrite fmap_app in Hc. apply NoDup_app in Hc as (_ & Hd & _).
      intros Hin. apply (Hd x Hin). set_solver. }
    assert (pbufs s1 !! x = Some b) as Hx1 by (simpl; rewrite lookup_insert_ne; done).
    set (b' := set_next (Some q) b).
    exists (put s1 x b'), (<[q := (FromPool MEMP_PBUF_POOL, memp_size MEMP_PBUF_POOL)]> H),
      ((l1 ++ [(x, b')]) ++ [(q, bq)]).
    split. { simpl. unfold modify. by rewrite (get_ok _ _ _ Hx1). }
    assert (same_memory s1 (put s1 x b')) as Hm by (by eapply same_memory_put).
    split; [|split; [by rewrite last_snoc|split; [destruct l1 as [|[]]; done|rewrite !total_app; simpl; lia]]].
    assert (((l1 ++ [(x, b')]) ++ [(q, bq)]).*1 = (l1 ++ [(x, b)]).*1 ++ [q]) as Hfst
      by (rewrite !fmap_app; done).
    split.
    + replace (hd_ptr ((l1 ++ [(x, b')]) ++ [(q, bq)])) with (hd_ptr (l1 ++ [(x, b)]))
        by (destruct l1 as [|[]]; done).
      eapply (chain_snoc (pbufs s)); [done| |simpl; apply lookup_insert_eq|done| |done].
      * intros k Hk. simpl. rewrite !lookup_insert_ne by set_solver. done.
      * simpl. rewrite lookup_insert_ne by done. apply lookup_insert_eq.
    + change (rem - qlen) with (rem - len bq). eapply lens_rem_snoc; try done. simpl. lia.
    + by eapply owned_put.
    + apply Forall_app in Hn as [Hn1 Hn2]. apply Forall_app. split; [|by constructor].
      apply Forall_app. split; [done|]. apply Forall_cons in Hn2 as [Hn2 _]. by constructor.
    + rewrite Hfst. intros k [Hk|Hk]%elem_of_app; [auto|]. apply elem_of_cons in Hk as [->|[]%elem_of_nil]. done.
    + rewrite Hfst. intros k Hk. simpl. rewrite !lookup_insert_ne by set_solver. apply Hsame. set_solver.
    + exists (ds ++ [dq]). apply Forall2_app.
      * apply Forall2_app_inv_l in Hds1 as (ds1 & ds2 & Hd1 & Hd2 & ->).
        apply Forall2_app; [by eapply contents_same_memory|]. inversion Hd2 as [|? ? ? ? Hdx Hd3]; subst.
        inversion Hd3; subst. constructor; [|constructor]. simpl in *.
        by rewrite (load_same_memory s1).
      * constructor; [|constructor]. by rewrite (load_same_memory s1).
Qed.

Lemma pool_loop_spec fuel s0 H0 s H l offset rem :
  owned s0 H0 -> pool_inv s0 H0 s H l rem -> 0 <= offset <= 56 -> 0 <= rem < 2 ^ 16 ->
  rem <= 1000 * Z.of_nat fuel -> (0 < fuel)%nat ->
  exists r s' H', pool_alloc_loop fuel s (hd_ptr l) (fst <$> last l) offset rem = Ret (r, s')
    /\ owned s' H' /\
    match r with
    | None => pbufs s' = pbufs s0 /\ bytes_of s' = bytes_of s0 /\ H' = H0
    | Some p => exists l', hd_ptr l' = Some p /\ pool_inv s0 H0 s' H' l' 0 /\ total l' = total l + rem
    end.
Proof.
  intros Ho0. revert s H l offset rem. induction fuel as [|fuel IH];
    intros s H l offset rem Hinv Hof Hrem Hfuel Hf; [lia|]. cbn [pool_alloc_loop].
  destruct (memp_malloc_law (al s) H MEMP_PBUF_POOL (owned_holds _ _ (pi_owned _ _ _ _ _ _ Hinv)))
    as (r & a & -> & Hr). rewrite ret_bind. destruct r as [q|].
  2:{ destruct (pool_fail _ _ _ _ _ _ a Ho0 Hinv Hr) as (s' & Hs & HP & HB & Ho').
      exists None, s', H0. split; [exact Hs|]. done. }
  destruct Hr as [Hnew Ha]. change PBUF_POOL_BUFSIZE_ALIGNED with 1056.
  rewrite (u16_small (1056 - offset)) by lia. set (qlen := Z.min rem (1056 - offset)).
  rewrite lwip_assert_true, ret_bind by (apply Z.ltb_lt; lia).
  destruct (pool_step s0 H0 s H l rem q a offset qlen Hinv Hnew Ha ltac:(lia) ltac:(lia) ltac:(lia)
              ltac:(change PBUF_POOL_BUFSIZE_ALIGNED with 1056; lia))
    as (s' & H' & l' & Hlk & Hinv' & Hlast & Hhd & Htot).
  change (pbuf_init_alloced_pbuf _ _ _ _ _ _ _)
    with (fresh s q (memp_size MEMP_PBUF_POOL) a (pool_pbuf q offset rem qlen)).
  fold (pool_linked (fresh s q (memp_size MEMP_PBUF_POOL) a (pool_pbuf q offset rem qlen)) (fst <$> last l) q).
  rewrite Hlk, ret_bind, (u16_small (rem - qlen)) by lia.
  replace (match hd_ptr l with Some _ => hd_ptr l | None => Some q end) with (hd_ptr l')
    by (rewrite Hhd; by destruct (hd_ptr l)).
  destruct (Z.ltb_spec 0 (rem - qlen)) as [Hmore|Hend].
  - replace (Some q) with (fst <$> last l') by (by rewrite Hlast).
    destruct (IH s' H' l' 0 (rem - qlen) Hinv') as (r & s2 & H2 & HL & Ho2 & Hres);
      [lia|lia|lia|lia|].
    exists r, s2, H2. split; [done|]. split; [done|]. destruct r as [p|]; [|done].
    destruct Hres as (l2 & ? & ? & ?). exists l2. split; [done|]. split; [done|lia].
  - assert (rem - qlen = 0) as Hz by lia. rewrite Hz in Hinv'.
    exists (hd_ptr l'), s', H'. split; [done|]. split; [apply Hinv'|].
    destruct (hd_ptr l') as [p|] eqn:Hp; [|destruct l' as [|[]]; done].
    exists l'. split; [done|]. split; [done|lia].
Qed.

Lemma alloc_pool_spec s H layer n : owned s H -> 0 <= n < 2 ^ 16 ->
  exists r s' H', pbuf_alloc s layer n PBUF_POOL = Ret (r, s') /\ owned s' H' /\
    match r with
    | None => pbufs s' = pbufs s /\ bytes_of s' = bytes_of s /\ H' = H
    | Some p => exists l d, packet s' (Some p) l d /\ Z.of_nat (length d) = n /\ Forall pool_node l
        /\ (forall k, k ∈ l.*1 -> H !! k = None)
        /\ (forall k, k ∉ l.*1 -> pbufs s' !! k = pbufs s !! k /\ bytes_of s' !! k = bytes_of s !! k)
    end.
Proof.
  intros Ho Hn. pose proof (layer_room_bound layer) as Hlr. unfold layer_room in Hlr.
  unfold pbuf_alloc. rewrite (u16_small (pbuf_layer_value layer)) by lia.
  assert (pool_inv s H s H [] n) as Hinv.
  { split; try done. - by intros k ?%elem_of_nil. - exists []. constructor. }
  destruct (pool_loop_spec POOL_ALLOC_FUEL s H s H [] (pbuf_layer_value layer) n Ho Hinv)
    as (r & s' & H' & HL & Ho' & Hres); [lia|lia|change (Z.of_nat POOL_ALLOC_FUEL) with 66; lia|unfold POOL_ALLOC_FUEL; lia|].
  exists r, s', H'. split; [exact HL|]. split; [done|]. destruct r as [p|]; [|done].
  destruct Hres as (l & Hp & [Hc Hl _ Hnd Hnew Hsame [ds Hds]] & Htot).
  rewrite Hp in Hc. pose proof (lens_rem_0 _ Hl) as Hlo. exists l, (concat ds).
  assert (packet s' (Some p) l (concat ds)) as Hpk by (split; [done|]; split; [done|]; eauto).
  split; [done|]. split; [rewrite (packet_length _ _ _ _ Hpk); simpl in Htot; lia|].
  split; [done|]. split; [done|]. intros k Hk. destruct (Hsame k Hk) as (? & ? & _). done.
Qed.

(** ** Copies *)

Lemma owned_writes s s' l H : writes s s' l -> owned s H -> owned s' H.
Proof.
  intros (HP & (HA & HS) & _) [Ha Hp Hb]. split; [by rewrite HA|by rewrite HP|].
  intros k x Hx. specialize (HS k). rewrite Hx in HS. simpl in HS.
  destruct (bytes_of s !! k) as [y|] eqn:Hy; simpl in HS; [|done]. injection HS as ->. by apply Hb.
Qed.

(** What can be read lies in an allocated block. *)
Lemma load_block s H q n d k : load s q n = Ret d -> 0 < n -> owned s H -> H !! k = None ->
  match q with Some x => blk x ∉ [k] | None => True end.
Proof.
  intros Hd Hn Ho Hk. unfold load in Hd. destruct (Z.eqb_spec n 0); [lia|]. destruct q as [x|]; [|done].
  simpl in Hd. destruct (bytes_of s !! blk x) as [l|] eqn:Hl; simpl in Hd; [|done].
  destruct (owned_bytes _ _ Ho _ _ Hl) as (src & Hsrc). intros [Heq|[]%elem_of_nil]%elem_of_cons. congruence.
Qed.

Lemma payloads_outside s H l ds k : contents s l ds -> positive l -> owned s H -> H !! k = None ->
  Forall (payload_outside [k]) l.
Proof.
  intros Hc Hpos Ho Hk. induction Hc as [|n d l ds Hn _ IH]; [constructor|].
  apply Forall_cons in Hpos as [Hp1 Hp2]. constructor; [|by apply IH].
  unfold payload_outside. by eapply load_block.
Qed.

Lemma clone_spec s H layer p l d : packet s (Some p) l d -> positive l -> owned s H ->
  exists r s' H', pbuf_clone s layer PBUF_RAM p = Ret (r, s') /\ owned s' H' /\
    match r with
    | None => pbufs s' = pbufs s /\ bytes_of s' = bytes_of s
    | Some q => H !! q = None /\ pbufs s' !! q = Some (new_pbuf q layer (total l) (total l) PBUF_RAM)
        /\ packet s' (Some q) [(q, new_pbuf q layer (total l) (total l) PBUF_RAM)] d
        /\ packet s' (Some p) l d
    end.
Proof.
  intros Hpk Hpos Ho. pose proof (packet_length _ _ _ _ Hpk) as Hlen.
  pose proof (lens_ok_total l (proj1 (proj2 Hpk))) as Htot.
  assert (pbuf_clone s layer PBUF_RAM p
          = (r ← pbuf_alloc s layer (total l) PBUF_RAM;
             match r with
             | (None, s) => Ret (None, s)
             | (Some q, s) => r ← pbuf_copy s (Some q) (Some p);
                 _ ← lwip_assert (bool_decide (fst r = ERR_OK)); Ret (Some q, snd r)
             end)) as ->.
  { destruct l as [|[p' b] l]; [by destruct Hpk as [? _]|].
    destruct (packet_cons _ _ _ _ _ _ Hpk) as ([= <-] & Hp & _ & Ht & _).
    unfold pbuf_clone. by rewrite (get_ok _ _ _ Hp), ret_bind, Ht. }
  destruct (alloc_ram_spec s H layer (total l) Ho ltac:(lia)) as (r & s1 & H1 & -> & Ho1 & Hr).
  rewrite ret_bind. destruct r as [q|]; [|by eauto 10]. destruct Hr as (Hnew & HP & Hrd & d1 & Hpq).
  set (bq := new_pbuf q layer (total l) (total l) PBUF_RAM) in *.
  destruct (owned_fresh _ _ _ Ho Hnew) as [Hpq0 _].
  assert (Forall (payload_outside [q]) l) as Hout.
  { destruct Hpk as (_ & _ & ds & Hds & _). by eapply payloads_outside. }
  assert (packet s1 (Some p) l d) as Hp1.
  { destruct Hpk as (Hc & Hl & ds & Hds & ->). split; [|split; [done|]].
    - rewrite HP. apply chain_insert; [done|]. intros (n & -> & Hn)%list_elem_of_fmap.
      destruct n as [k b]. simpl in *. rewrite (chain_lookup _ _ _ _ _ Hc Hn) in Hpq0. done.
    - exists ds. split; [|done]. by eapply contents_reads. }
  assert (l <> []) as Hne by (intros ->; by destruct Hpk as [? _]).
  assert (positive [(q, bq)]) as Hposq.
  { constructor; [|constructor]. simpl. by apply positive_total. }
  assert (cross_disj [(q, bq)] l) as Hcr.
  { unfold cross_disj. eapply Forall_impl; [exact Hout|]. intros n Hn. constructor; [|constructor].
    unfold disj_node, disj, payload_outside in *. simpl. destruct (payload n.2); [|done]. left. set_solver. }
  pose proof (packet_length _ _ _ _ Hpq) as Hlq. simpl in Hlq.
  assert (separate [(q, bq)]) as Hsep by (split; [constructor|done]).
  destruct (copy_spec s1 q [(q, bq)] d1 p l d Hpq Hp1 Hsep Hcr Hposq Hpos ltac:(lia))
    as (s2 & -> & Hw & Hq2).
  rewrite ret_bind. simpl. exists (Some q), s2, H1. split; [done|]. split; [by eapply owned_writes|].
  split; [done|]. rewrite drop_ge, app_nil_r in Hq2 by lia.
  split; [rewrite (proj1 Hw), HP; apply lookup_insert_eq|]. split; [done|].
  eapply packet_writes; [done|done|]. done.
Qed.

Lemma coalesce_spec s H layer p l d : packet s (Some p) l d -> positive l -> owned s H -> refs_ok l ->
  exists q s' l' H', pbuf_coalesce s p layer = Ret (q, s') /\ packet s' (Some q) l' d /\ owned s' H'.
Proof.
  intros Hpk Hpos Ho Hr. destruct l as [|[p' b] l0] eqn:Hl; [by destruct Hpk as [? _]|]. rewrite <- Hl in *.
  assert (p' = p /\ pbufs s !! p = Some b) as [-> Hp].
  { rewrite Hl in Hpk. by destruct (packet_cons _ _ _ _ _ _ Hpk) as ([= <-] & Hp & _). }
  unfold pbuf_coalesce. rewrite (get_ok _ _ _ Hp), ret_bind. destruct (next b); [|by exists p, s, l, H].
  destruct (clone_spec s H layer p l d Hpk Hpos Ho) as (r & s1 & H1 & -> & Ho1 & Hres). rewrite ret_bind.
  destruct r as [q|].
  - destruct Hres as (Hnew & _ & Hq & Hp1). destruct (owned_fresh _ _ _ Ho Hnew) as [Hq0 _].
    assert (forall n, n ∈ l -> n.1 <> q) as Hne.
    { intros [k c] Hin <-. simpl in *. rewrite (chain_lookup _ _ _ _ _ (proj1 Hpk) Hin) in Hq0. done. }
    destruct (free_dropped s1 p l H1 (proj1 Hp1) Ho1 Hr) as (s2 & H2 & -> & Hd & _ & Ho2).
    rewrite ret_bind. exists q, s2, [(q, new_pbuf q layer (total l) (total l) PBUF_RAM)], H2.
    split; [done|]. split; [|done]. eapply packet_dropped; [exact Hd| | |exact Hq].
    + constructor; [|constructor]. simpl. intros (n & Heq & Hin)%list_elem_of_fmap.
      apply (Hne n); [by apply freed_sub|done].
    + intros k [->|[]%elem_of_nil]%elem_of_cons (n & Heq & Hin)%list_elem_of_fmap. by apply (Hne n).
  - destruct Hres as [HP HB]. exists p, s1, l, H1. split; [done|]. split; [|done].
    destruct Hpk as (Hc & Hll & ds & Hds & ->). split; [by rewrite HP|]. split; [done|].
    exists ds. split; [|done]. eapply (contents_reads s s1 []); [|by apply Forall_true; intros [? [? []]]; try done; apply not_elem_of_nil|done].
    intros x m _. unfold load, clear_of_struct. by rewrite HP, HB.
Qed.
End alloc.
