(* ===== verification/PbufInst.v ===== *)
(** * The allocators of the build implement the interface of [pbuf.c]

    [Mem]'s heap and two [Memp] pools, in separate address ranges, satisfy
    [AllocatorLaws]. Custom pbufs and application memory lie elsewhere; the
    custom free function of this instance does nothing. *)

From S2P Require Import Prelude Mem Memp PbufMem.

Definition POOL_BASE : Z := 2 ^ 28.
Definition PBUF_BASE : Z := 2 ^ 29.
Definition CUSTOM_BASE : Z := 2 ^ 40.
(** [PBUF_POOL_SIZE] and [MEMP_NUM_PBUF] of [lwipopts.h] are both 16000. *)
Definition NUM_POOL : nat := Z.to_nat 16000.
Definition pool_desc (t : memp_t) : memp_desc :=
  match t with
  | MEMP_PBUF_POOL => MempDesc (memp_size MEMP_PBUF_POOL) NUM_POOL POOL_BASE
  | MEMP_PBUF => MempDesc (memp_size MEMP_PBUF) NUM_POOL PBUF_BASE
  end.

Record allocs := Allocs { a_heap : heap; a_pool : pool; a_pbuf : pool }.

Definition get_pool (t : memp_t) (a : allocs) : pool :=
  match t with MEMP_PBUF_POOL => a_pool a | MEMP_PBUF => a_pbuf a end.
Definition set_pool (t : memp_t) (a : allocs) (p : pool) : allocs :=
  match t with
  | MEMP_PBUF_POOL => Allocs (a_heap a) p (a_pbuf a)
  | MEMP_PBUF => Allocs (a_heap a) (a_pool a) p
  end.

#[global] Instance stack_allocator : Allocator allocs := {
  memp_malloc t a := r ← do_memp_malloc_pool (get_pool t a); Ret (fst r, set_pool t a (snd r));
  memp_free t p a := q ← do_memp_free_pool (get_pool t a) p; Ret (set_pool t a q);
  mem_malloc n a :=
    r ← Mem.mem_malloc (a_heap a) n; Ret (fst r, Allocs (snd r) (a_pool a) (a_pbuf a));
  mem_free p a := h ← Mem.mem_free (a_heap a) (Some p); Ret (Allocs h (a_pool a) (a_pbuf a));
  mem_trim p n a :=
    r ← Mem.mem_trim (a_heap a) p n; Ret (fst r, Allocs (snd r) (a_pool a) (a_pbuf a));
  custom_free p a := Ret a;
  try_callback a := (ERR_OK, a);
  junk a p i := 0 }.

(** The state after [mem_init] and [memp_init]. *)
Definition alloc_init : allocs :=
  Allocs mem_init (memp_init_pool (pool_desc MEMP_PBUF_POOL)) (memp_init_pool (pool_desc MEMP_PBUF)).

(** What the concrete state holds: heap regions, pool elements, and memory
    beyond the stack's own. *)
Record stack_holds (a : allocs) (H : gmap Z (source * Z)) : Prop := {
  sh_heap : exists l, heap_ok (a_heap a) l /\
    forall p n, H !! p = Some (FromHeap, n) -> exists sz, (p, sz) ∈ live l MEM_SIZE_ALIGNED /\ n <= sz;
  sh_pool : forall t, exists free held, pool_ok (pool_desc t) (get_pool t a) free held /\
    forall p n, H !! p = Some (FromPool t, n) -> p ∈ held;
  sh_custom : forall p n, H !! p = Some (FromCustom, n) -> CUSTOM_BASE <= p }.

Lemma desc_size t : 0 < d_size (pool_desc t).
Proof. by destruct t. Qed.

Lemma num_pool : Z.of_nat NUM_POOL = 16000.
Proof. unfold NUM_POOL. lia. Qed.

(** The address ranges do not meet. *)
Definition in_range (src : source) (p : Z) : Prop :=
  match src with
  | FromHeap => 0 <= p < POOL_BASE
  | FromPool MEMP_PBUF_POOL => POOL_BASE <= p < PBUF_BASE
  | FromPool MEMP_PBUF => PBUF_BASE <= p < CUSTOM_BASE
  | FromCustom => CUSTOM_BASE <= p
  end.

Lemma in_range_inj s1 s2 p : in_range s1 p -> in_range s2 p -> s1 = s2.
Proof.
  unfold in_range, POOL_BASE, PBUF_BASE, CUSTOM_BASE.
  destruct s1 as [[]| |], s2 as [[]| |]; try done; lia.
Qed.

Lemma elems_in_range t p : p ∈ elems (pool_desc t) -> in_range (FromPool t) p.
Proof.
  intros (i & -> & Hi)%elem_of_elems. unfold in_range, POOL_BASE, PBUF_BASE, CUSTOM_BASE.
  pose proof num_pool. destruct t; simpl in *; unfold memp_size, SIZEOF_STRUCT_PBUF, PBUF_POOL_BUFSIZE_ALIGNED,
    POOL_BASE, PBUF_BASE in *; nia.
Qed.

Lemma live_in_range h l p sz : heap_ok h l -> (p, sz) ∈ live l MEM_SIZE_ALIGNED -> in_range FromHeap p.
Proof.
  intros Hok Hin. pose proof (heap_ok_regions _ _ Hok) as Hreg.
  destruct (regions_bounds _ _ _ _ _ Hreg Hin) as (? & ? & ?).
  unfold in_range, POOL_BASE. heap_sizes. lia.
Qed.

Lemma holds_in_range a H p src n : stack_holds a H -> H !! p = Some (src, n) -> in_range src p.
Proof.
  intros [(l & Hok & Hheap) Hpool Hcu] Hp. destruct src as [t| |].
  - destruct (Hpool t) as (free & held & Hpo & Hin). apply elems_in_range.
    rewrite <- (pool_elems _ _ _ _ Hpo). apply elem_of_app. right. by eapply Hin.
  - destruct (Hheap _ _ Hp) as (sz & Hin & _). by eapply live_in_range.
  - by eapply Hcu.
Qed.

(** Adding a block that was not held. *)
Lemma holds_add a H src p n : stack_holds a H -> in_range src p ->
  (src = FromHeap -> exists l, heap_ok (a_heap a) l /\
     forall q m, <[p := (src, n)]> H !! q = Some (FromHeap, m) -> exists sz, (q, sz) ∈ live l MEM_SIZE_ALIGNED /\ m <= sz) ->
  (forall t, src = FromPool t -> exists free held, pool_ok (pool_desc t) (get_pool t a) free held /\
     forall q m, <[p := (src, n)]> H !! q = Some (FromPool t, m) -> q ∈ held) ->
  stack_holds a (<[p := (src, n)]> H).
Proof.
  intros [(l & Hok & Hheap) Hpool Hcu] Hrg Hh Hp. split.
  - destruct (decide (src = FromHeap)) as [Hs|Hs]; [auto|]. exists l. split; [done|].
    intros q m [[<- [= -> _]]|[_ Hq]]%lookup_insert_Some; [done|auto].
  - intros t. destruct (decide (src = FromPool t)) as [Hs|Hs]; [auto|].
    destruct (Hpool t) as (free & held & Hpo & Hin). exists free, held. split; [done|].
    intros q m [[<- [= -> _]]|[_ Hq]]%lookup_insert_Some; [done|by eapply Hin].
  - intros q m [[<- [= -> _]]|[_ Hq]]%lookup_insert_Some; [exact Hrg|by eapply Hcu].
Qed.

(** The laws, one by one. *)
Lemma stack_memp_malloc a H t : stack_holds a H ->
  exists r a', memp_malloc t a = Ret (r, a') /\
    match r with
    | None => stack_holds a' H
    | Some p => H !! p = None /\ stack_holds a' (<[p := (FromPool t, memp_size t)]> H)
    end.
Proof.
  intros Hh. pose proof (sh_pool _ _ Hh t) as (free & held & Hok & Hin). simpl.
  pose proof (malloc_ok (pool_desc t) _ _ _ Hok) as HM. destruct free as [|p free].
  - rewrite HM. simpl. exists None. eexists. split; [done|]. by destruct a, t.
  - destruct HM as (q & -> & Hok'). simpl. exists (Some p), (set_pool t a q). split; [done|].
    assert (in_range (FromPool t) p) as Hrg.
    { apply elems_in_range. rewrite <- (pool_elems _ _ _ _ Hok). by left. }
    assert (H !! p = None) as Hnew.
    { destruct (H !! p) as [[src n]|] eqn:Hp; [|done]. exfalso.
      pose proof (in_range_inj _ _ _ Hrg (holds_in_range _ _ _ _ _ Hh Hp)) as <-.
      pose proof (pool_ok_NoDup _ (desc_size t) _ _ _ Hok) as Hnd. apply NoDup_app in Hnd as (_ & Hd & _).
      apply (Hd p); [by left|by eapply Hin]. }
    split; [done|].
    assert (stack_holds (set_pool t a q) H) as Hh'.
    { destruct Hh as [Hheap Hpool Hcu]. split; [by destruct t| |done].
      intros t'. destruct (decide (t' = t)) as [->|Hne].
      - exists free, (p :: held). split; [by destruct t|]. intros k n Hk. right. by eapply Hin.
      - destruct (Hpool t') as (f' & h' & ? & ?). exists f', h'. by destruct t, t'. }
    apply holds_add; [done|done|done|]. intros t' [= <-]. exists free, (p :: held). split; [by destruct t|].
    intros k n [[<- _]|[_ Hk]]%lookup_insert_Some; [by left|right; by eapply Hin].
Qed.

Lemma holds_delete a H p : stack_holds a H -> stack_holds a (delete p H).
Proof.
  intros [(l & Hok & Hheap) Hpool Hcu]. split.
  - exists l. split; [done|]. intros q n [_ Hq]%lookup_delete_Some. auto.
  - intros t. destruct (Hpool t) as (free & held & Hpo & Hin). exists free, held. split; [done|].
    intros q n [_ Hq]%lookup_delete_Some. by eapply Hin.
  - intros q n [_ Hq]%lookup_delete_Some. by eapply Hcu.
Qed.

Lemma stack_memp_free a H t p n : stack_holds a H -> H !! p = Some (FromPool t, n) ->
  exists a', memp_free t p a = Ret a' /\ stack_holds a' (delete p H).
Proof.
  intros Hh Hp. pose proof (sh_pool _ _ Hh t) as (free & held & Hok & Hin).
  pose proof (Hin _ _ Hp) as (h1 & h2 & ->)%list_elem_of_split.
  destruct (free_ok (pool_desc t) (desc_size t) _ _ _ _ _ Hok) as (q & HF & Hok'). simpl. rewrite HF. simpl.
  eexists. split; [done|]. destruct (holds_delete a H p Hh) as [Hheap Hpool Hcu]. split; [by destruct t| |done].
  intros t'. destruct (decide (t' = t)) as [->|Hne].
  - exists (p :: free), (h1 ++ h2). split; [by destruct t|]. intros k m [Hne Hk]%lookup_delete_Some.
    apply Hin in Hk. set_solver.
  - destruct (Hpool t') as (f' & h' & ? & ?). exists f', h'. by destruct t, t'.
Qed.

(** Changing the heap alone. *)
Lemma holds_heap a H h l : stack_holds a H -> heap_ok h l ->
  (forall p n, H !! p = Some (FromHeap, n) -> exists sz, (p, sz) ∈ live l MEM_SIZE_ALIGNED /\ n <= sz) ->
  stack_holds (Allocs h (a_pool a) (a_pbuf a)) H.
Proof.
  intros [_ Hpool Hcu] Hok Hl. split; [eauto| |done]. intros t. destruct (Hpool t) as (f & hd & ? & ?).
  exists f, hd. by destruct t.
Qed.

Lemma stack_mem_malloc a H n : stack_holds a H -> 0 < n < 2 ^ 32 ->
  exists r a', mem_malloc n a = Ret (r, a') /\
    match r with
    | None => stack_holds a' H
    | Some p => H !! p = None /\ stack_holds a' (<[p := (FromHeap, n)]> H)
    end.
Proof.
  intros Hh Hn. pose proof (sh_heap _ _ Hh) as (l & Hok & Hl). simpl.
  destruct (mem_malloc_live _ _ _ Hok Hn) as [(pre & p & sz & post & h' & l' & -> & Hok' & Hpre & Hpost & Hle)|[-> _]].
  - simpl. eexists (Some p), _. split; [done|].
    assert ((p, sz) ∈ live l' MEM_SIZE_ALIGNED) as Hin by (rewrite Hpost; set_solver).
    assert (forall k m, H !! k = Some (FromHeap, m) ->
              exists sz', (k, sz') ∈ live l' MEM_SIZE_ALIGNED /\ k <> p /\ m <= sz') as Hold.
    { intros k m Hk. destruct (Hl _ _ Hk) as (sz' & Hk' & Hm). exists sz'. rewrite Hpre in Hk'. rewrite Hpost.
      split; [set_solver|]. split; [|done]. intros ->.
      pose proof (heap_ok_regions _ _ Hok') as Hreg. rewrite Hpost in Hreg. clear -Hreg Hk'.
      assert (NoDup (pre ++ (p, sz) :: post).*1) as Hnd by (by eapply regions_NoDup).
      rewrite fmap_app, fmap_cons in Hnd. apply NoDup_app in Hnd as (_ & Hd & Hnd).
      apply NoDup_cons in Hnd as [Hnp _]. apply elem_of_app in Hk' as [Hk'|Hk'].
      - apply (Hd p); [by apply (list_elem_of_fmap_2' fst _ (p, sz'))|set_solver].
      - apply Hnp. by apply (list_elem_of_fmap_2' fst _ (p, sz')). }
    pose proof (live_in_range _ _ _ _ Hok' Hin) as Hrg.
    assert (H !! p = None) as Hnew.
    { destruct (H !! p) as [[src m]|] eqn:Hp; [|done]. exfalso.
      pose proof (in_range_inj _ _ _ Hrg (holds_in_range _ _ _ _ _ Hh Hp)) as <-.
      by destruct (Hold _ _ Hp) as (? & _ & ? & _). }
    split; [done|]. apply holds_add; [|done| |done].
    + eapply holds_heap; [done|done|]. intros k m Hk. destruct (Hold _ _ Hk) as (sz' & ? & _ & ?). eauto.
    + intros _. exists l'. split; [done|]. intros k m [[<- [= <-]]|[_ Hk]]%lookup_insert_Some; [eauto|].
      destruct (Hold _ _ Hk) as (sz' & ? & _ & ?). eauto.
  - simpl. exists None. eexists. split; [done|]. by destruct a.
Qed.

Lemma stack_mem_free a H p n : stack_holds a H -> H !! p = Some (FromHeap, n) ->
  exists a', mem_free p a = Ret a' /\ stack_holds a' (delete p H).
Proof.
  intros Hh Hp. pose proof (sh_heap _ _ Hh) as (l & Hok & Hl).
  destruct (Hl _ _ Hp) as (sz & (pre & post & Hlive)%list_elem_of_split & _).
  destruct (mem_free_live _ _ _ _ _ _ Hok Hlive) as (h' & l' & HF & Hok' & Hlive').
  change (mem_free p a) with (h ← Mem.mem_free (a_heap a) (Some p); Ret (Allocs h (a_pool a) (a_pbuf a))).
  rewrite HF, ret_bind. eexists. split; [done|].
  eapply holds_heap; [by apply holds_delete|done|]. intros k m [Hne Hk]%lookup_delete_Some.
  destruct (Hl _ _ Hk) as (sz' & Hin & Hm). exists sz'. split; [|done]. rewrite Hlive in Hin. rewrite Hlive'.
  set_solver.
Qed.

(** [mem_trim] must not be given the block that ends the heap
    ([Mem.mem_trim_at_end_aborts]). *)
Definition stack_trimmable (a : allocs) (p : Z) : Prop :=
  forall l sz, heap_ok (a_heap a) l -> (p, sz) ∈ live l MEM_SIZE_ALIGNED -> p + sz < MEM_SIZE_ALIGNED.

Lemma live_min S p l e q sz : linked S p l e -> (q, sz) ∈ live l e -> MIN_SIZE_ALIGNED <= sz.
Proof.
  revert p. induction l as [|[a u] l IH]; intros p; simpl; [by intros _ ?%elem_of_nil|].
  intros (_ & Hs & Hl). destruct u; simpl; [|by eapply IH].
  intros [[= -> ->]|Hin]%elem_of_cons; [lia|by eapply IH].
Qed.

Lemma stack_mem_trim a H p n m : stack_holds a H -> H !! p = Some (FromHeap, n) -> 0 <= m <= n ->
  stack_trimmable a p ->
  exists a', mem_trim p m a = Ret (Some p, a') /\ stack_holds a' (<[p := (FromHeap, m)]> H).
Proof.
  intros Hh Hp Hm Htr. pose proof (sh_heap _ _ Hh) as (l & Hok & Hl).
  destruct (Hl _ _ Hp) as (sz & Hin & Hn). pose proof (Htr _ _ Hok Hin) as Hend.
  pose proof (live_min _ _ _ _ _ _ (ok_linked _ _ (proj1 Hok)) Hin) as Hmin.
  pose proof (live_in_range _ _ _ _ Hok Hin) as Hrg.
  apply list_elem_of_split in Hin as (pre & post & Hlive).
  destruct (trim_live_ok (a_heap a) l pre p sz post m Hok Hlive) as (h' & l' & sz' & HT & Hok' & Hlive' & Hsz');
    [lia|unfold request; lia|done|].
  change (mem_trim p m a)
    with (r ← Mem.mem_trim (a_heap a) p m; Ret (fst r, Allocs (snd r) (a_pool a) (a_pbuf a))).
  rewrite HT, ret_bind. eexists. split; [done|].
  assert (forall k j, H !! k = Some (FromHeap, j) -> k <> p ->
            exists sz', (k, sz') ∈ live l' MEM_SIZE_ALIGNED /\ j <= sz') as Hold.
  { intros k j Hk Hne. destruct (Hl _ _ Hk) as (t & Hin & Hj). exists t. split; [|done].
    rewrite Hlive in Hin. rewrite Hlive'. set_solver. }
  assert (forall k j, <[p := (FromHeap, m)]> H !! k = Some (FromHeap, j) ->
            exists t, (k, t) ∈ live l' MEM_SIZE_ALIGNED /\ j <= t) as Hnew.
  { intros k j [[<- [= <-]]|[Hne Hk]]%lookup_insert_Some; [|by apply Hold].
    exists sz'. rewrite Hlive'. split; [set_solver|lia]. }
  rewrite <- insert_delete_eq in Hnew |- *.
  eapply (holds_add (Allocs h' (a_pool a) (a_pbuf a))); [|done|intros _; eauto|done].
  eapply holds_heap; [by apply holds_delete|done|].
  intros k j [Hne Hk]%lookup_delete_Some. by apply Hold.
Qed.

#[global] Instance stack_allocator_laws : AllocatorLaws allocs := {
  holds := stack_holds;
  trimmable := stack_trimmable;
  memp_malloc_law := stack_memp_malloc;
  memp_free_law := stack_memp_free;
  mem_malloc_law := stack_mem_malloc;
  mem_free_law := stack_mem_free;
  mem_trim_law := stack_mem_trim;
  custom_free_law a H p n Hh Hp := ex_intro _ a (conj eq_refl (holds_delete a H p Hh));
  try_callback_law a H Hh := Hh }.

(** After initialisation the allocators hold nothing. *)
Lemma alloc_init_holds : holds alloc_init ∅.
Proof.
  split.
  - exists [(0, false)]. split; [apply mem_init_ok|]. intros p n Hp. by rewrite lookup_empty in Hp.
  - intros t. destruct (init_ok (pool_desc t) (desc_size t)) as [free Hok].
    exists free, []. split; [by destruct t|]. intros p n Hp. by rewrite lookup_empty in Hp.
  - intros p n Hp. by rewrite lookup_empty in Hp.
Qed.
