(* ===== verification/PbufProps.v ===== *)
(** * Properties of [pbuf.c]: ownership, headers, lengths, allocation

    Stated for any allocators that satisfy [AllocatorLaws]; the witnesses use
    the allocators of the build ([PbufInst]). *)

From S2P Require Import Prelude Mem Memp PbufMem Pbuf PbufChain PbufRead PbufWrite PbufRef.
From S2P Require Import PbufShrink PbufAlloc PbufInst.

(** ** States for the witnesses *)

(** Custom pbufs, at addresses outside the stack's own memory. *)
Definition caddr (i : Z) : Z := CUSTOM_BASE + i.
Definition custom_pbuf (nx : option Z) (pay : Z) (tot l r : Z) : pbuf :=
  Pbuf nx (Some (Ptr (caddr pay) 1)) tot l 0x41 PBUF_FLAG_IS_CUSTOM r 0.

(** A packet of two pbufs, [1 2 3] and [4 5]; the second has another owner. *)
Definition node1 : node := (caddr 1, custom_pbuf (Some (caddr 2)) 100 5 3 1).
Definition node2 : node := (caddr 2, custom_pbuf None 101 2 2 2).
(** and a packet [6 7]. *)
Definition node3 : node := (caddr 3, custom_pbuf None 102 2 2 1).
Definition demo3 : st allocs :=
  St (<[node1.1 := node1.2]> (<[node2.1 := node2.2]> (<[node3.1 := node3.2]> ∅)))
     (<[caddr 100 := [0; 1; 2; 3]]> (<[caddr 101 := [0; 4; 5]]> (<[caddr 102 := [0; 6; 7]]> ∅)))
     alloc_init false.
Definition demo3_blocks : gmap Z (source * Z) :=
  <[caddr 1 := (FromCustom, 40)]> (<[caddr 2 := (FromCustom, 40)]> (<[caddr 3 := (FromCustom, 40)]>
    (<[caddr 100 := (FromCustom, 4)]> (<[caddr 101 := (FromCustom, 3)]>
      (<[caddr 102 := (FromCustom, 3)]> ∅))))).
Definition empty_state : st allocs := St ∅ ∅ alloc_init false.

Lemma custom_holds (H : gmap Z (source * Z)) :
  map_Forall (fun p x => fst x = FromCustom /\ CUSTOM_BASE <= p) H -> holds alloc_init H.
Proof.
  intros Hall. pose proof alloc_init_holds as [(l & Hok & _) Hpool _]. split.
  - exists l. split; [done|]. intros p n Hp. by destruct (Hall _ _ Hp).
  - intros t. destruct (Hpool t) as (free & held & ? & _). exists free, held. split; [done|].
    intros p n Hp. by destruct (Hall _ _ Hp).
  - intros p n Hp. by destruct (Hall _ _ Hp).
Qed.

Lemma demo3_owned : owned demo3 demo3_blocks.
Proof.
  split.
  - apply custom_holds. apply (bool_decide_unpack _). vm_compute. exact I.
  - assert (map_Forall (fun p b => src_of b = Some FromCustom /\ demo3_blocks !! p = Some (FromCustom, 40))
              (pbufs demo3)) as Hall by (apply (bool_decide_unpack _); vm_compute; exact I).
    intros p b Hp. destruct (Hall _ _ Hp) as [? ?]. eauto.
  - assert (map_Forall (fun k l => demo3_blocks !! k = Some (FromCustom, Z.of_nat (length l)))
              (bytes_of demo3)) as Hall by (apply (bool_decide_unpack _); vm_compute; exact I).
    intros k l Hk. eexists. by apply Hall.
Qed.

Lemma demo3_packets :
  packet demo3 (Some (caddr 1)) [node1; node2] [1; 2; 3; 4; 5]
  /\ packet demo3 (Some (caddr 3)) [node3] [6; 7].
Proof.
  split.
  - split; [by repeat split|]. split; [by repeat split|]. exists [[1; 2; 3]; [4; 5]].
    split; [|done]. repeat constructor.
  - split; [by repeat split|]. split; [by repeat split|]. exists [[6; 7]].
    split; [|done]. repeat constructor.
Qed.

Lemma demo3_refs : refs_ok [node1; node2].
Proof. repeat constructor; simpl; lia. Qed.

Lemma empty_owned : owned empty_state ∅.
Proof.
  split; [apply alloc_init_holds| |]; intros p b Hp; unfold empty_state in Hp; simpl in Hp; by rewrite lookup_empty in Hp.
Qed.

(** ** Properties *)

(** C34: [pbuf_free] takes one reference from a chain: the pbufs at its head whose
    count was one are deallocated, the first other one loses a reference, and
    everything else is untouched; the result is the number of pbufs
    deallocated, as a [u8_t]. *)
Theorem pbuf_free_refcounts {A} `{!Allocator A} `{!AllocatorLaws A} (s : st A) p l H :
  chain (pbufs s) (Some p) l -> owned s H -> refs_ok l ->
  exists s', pbuf_free s (Some p) = Ret (u8 (Z.of_nat (length (freed l))), s')
    /\ owned s' (deletes H (freed l))
    /\ bytes_of s' = deletes (bytes_of s) (freed l)
    /\ forall q, pbufs s' !! q
         = if decide (q ∈ (freed l).*1) then None
           else match drop (length (freed l)) l with
                | (p, b) :: _ => if decide (q = p) then Some (set_ref (ref b - 1) b) else pbufs s !! q
                | [] => pbufs s !! q
                end.
Proof.
  intros Hc Ho Hr. destruct (free_spec s p l H Hc Ho Hr) as (s' & HF & HP & HB & HO).
  exists s'. split; [done|]. split; [done|]. split; [done|].
  intros q. rewrite HP. by eapply lookup_free_effect.
Qed.

Lemma pbuf_free_refcounts_witness :
  exists s', pbuf_free demo3 (Some (caddr 1)) = Ret (1, s')
    /\ owned s' (deletes demo3_blocks [node1])
    /\ bytes_of s' = deletes (bytes_of demo3) [node1]
    /\ forall q, pbufs s' !! q
         = if decide (q ∈ [caddr 1]) then None
           else if decide (q = caddr 2) then Some (set_ref 1 node2.2) else pbufs demo3 !! q.
Proof.
  apply (pbuf_free_refcounts demo3 (caddr 1) [node1; node2] demo3_blocks).
  - apply demo3_packets.
  - apply demo3_owned.
  - apply demo3_refs.
Defined.

(** [pbuf_cat] makes one packet of two: its data is the concatenation, the
    length fields are right again, no reference count and no byte changes. *)
Theorem pbuf_cat_concat {A} (s : st A) h lh dh t lt dt :
  packet s (Some h) lh dh -> packet s (Some t) lt dt -> (forall q, q ∈ lh.*1 -> q ∉ lt.*1) ->
  total lh + total lt < 2 ^ 16 ->
  exists s', pbuf_cat s (Some h) (Some t) = Ret s' /\ same_memory s s'
    /\ packet s' (Some h) (cat_nodes lh t (total lt) ++ lt) (dh ++ dt).
Proof. apply cat_spec. Qed.

Lemma pbuf_cat_concat_witness :
  exists s', pbuf_cat demo3 (Some (caddr 1)) (Some (caddr 3)) = Ret s' /\ same_memory demo3 s'
    /\ packet s' (Some (caddr 1)) (cat_nodes [node1; node2] (caddr 3) (total [node3]) ++ [node3])
         ([1; 2; 3; 4; 5] ++ [6; 7]).
Proof.
  apply (pbuf_cat_concat demo3 (caddr 1) [node1; node2] [1; 2; 3; 4; 5] (caddr 3) [node3] [6; 7]).
  - apply demo3_packets.
  - apply demo3_packets.
  - intros q Hq. apply (bool_decide_unpack _). revert q Hq. apply Forall_forall.
    repeat constructor; vm_compute; exact I.
  - done.
Defined.

(** [pbuf_dechain] separates the first pbuf from the rest and drops its
    reference to the rest; it returns [NULL] when the number of pbufs this
    deallocated is not a multiple of 256, and the rest otherwise. *)
Theorem pbuf_dechain_splits {A} `{!Allocator A} `{!AllocatorLaws A} (s : st A) p b q c l H :
  chain (pbufs s) (Some p) ((p, b) :: (q, c) :: l) -> lens_ok ((p, b) :: (q, c) :: l) ->
  refs_ok ((q, c) :: l) -> owned s H ->
  exists s' H', pbuf_dechain s p
           = Ret (if 0 <? u8 (Z.of_nat (length (freed ((q, c) :: l)))) then None else Some q, s')
    /\ pbufs s' !! p = Some (set_tot_len (len b) (set_next None b))
    /\ (forall k, k ∈ (freed ((q, c) :: l)).*1 -> pbufs s' !! k = None)
    /\ owned s' H'.
Proof.
  intros Hc Hl Hr Ho.
  destruct (dechain_spec s p b q c l H Hc Hl Hr Ho) as (s' & H' & HD & Hp & Hk & _ & Ho'). eauto 10.
Qed.

Lemma pbuf_dechain_splits_witness :
  exists s' H', pbuf_dechain demo3 (caddr 1) = Ret (Some (caddr 2), s')
    /\ pbufs s' !! caddr 1 = Some (set_tot_len 3 (set_next None node1.2))
    /\ (forall k, k ∈ @nil Z -> pbufs s' !! k = None) /\ owned s' H'.
Proof.
  apply (pbuf_dechain_splits demo3 (caddr 1) node1.2 (caddr 2) node2.2 [] demo3_blocks).
  - apply demo3_packets.
  - apply demo3_packets.
  - apply (Forall_cons_1 _ _ _ demo3_refs).
  - apply demo3_owned.
Defined.

(** A chain of 257 custom pbufs of one byte. *)
Definition long_chain : st allocs :=
  St (list_to_map (map (fun i => (caddr i, Pbuf (if i =? 256 then None else Some (caddr (i + 1)))
        None (257 - i) 1 0x41 PBUF_FLAG_IS_CUSTOM 1 0)) (seqZ 0 257)))
     ∅ (Allocs mem_init (Pool None ∅) (Pool None ∅)) false.
(** The count of [pbuf_free] is a [u8_t]: after a chain of 257 pbufs is
    dechained, the 256 pbufs behind the first are gone, but [pbuf_dechain]
    returns a pointer to one of them. *)
Theorem pbuf_dechain_dangling :
  match pbuf_dechain long_chain (caddr 0) with
  | Ret (Some q, s') => pbufs s' !! q = None
  | _ => False
  end.
Proof. vm_compute. reflexivity. Qed.

(** [pbuf_remove_header] hides the first bytes of a packet, and
    [pbuf_add_header_force] reveals the same bytes again: the state is as
    before. *)
Theorem pbuf_header_roundtrip {A} (s : st A) p b l d n :
  packet s (Some p) ((p, b) :: l) d -> 0 <= n <= len b -> pbuf_contiguous b = false ->
  is_Some (payload b) ->
  exists s', pbuf_remove_header s (Some p) n = Ret (0, s')
    /\ packet s' (Some p) ((p, hide b n) :: l) (drop (Z.to_nat n) d)
    /\ pbuf_add_header_force s' (Some p) n = Ret (0, s).
Proof.
  intros Hpk Hn Hct [pl Hpl].
  destruct (remove_header_spec s p b l d n Hpk Hn) as (s' & HR & _ & _ & Hpk' & ->).
  eexists. split; [done|]. split; [done|].
  destruct (packet_cons _ _ _ _ _ _ Hpk) as (_ & Hp & Hlb & Ht & Htl & d1 & d2 & _ & Hpk2 & _).
  pose proof (lens_ok_total l (proj1 (proj2 Hpk2))) as Htt.
  unfold pbuf_add_header_force, pbuf_add_header_impl. rewrite (proj2 (Z.ltb_ge 0xFFFF n)) by lia.
  assert (put (put s p (hide b n)) p b = s) as Hback.
  { unfold put. simpl. rewrite insert_insert_eq, insert_id by done. by destruct s. }
  assert (hide b 0 = b) as Hhide0.
  { unfold hide. rewrite !Z.sub_0_r. destruct b as [? [[? ?]|] ? ? ? ? ? ?]; simpl;
      unfold opt_add, ptr_add; simpl; rewrite ?Z.add_0_r; done. }
  destruct (Z.eqb_spec n 0) as [->|].
  { rewrite Hhide0. do 2 f_equal. by apply put_same. }
  rewrite (u16_small n), (get_ok _ p (hide b n)), ret_bind by (lia || apply lookup_insert_eq).
  change (tot_len (hide b n)) with (tot_len b - n). change (len (hide b n)) with (len b - n).
  rewrite u16_small by lia. rewrite (proj2 (Z.ltb_ge _ n)) by lia.
  change (pbuf_contiguous (hide b n)) with (pbuf_contiguous b). rewrite Hct.
  change (payload (hide b n)) with (opt_add (payload b) n). rewrite Hpl. simpl.
  rewrite !u16_small by lia. do 2 f_equal. rewrite <- Hback at 2. f_equal.
  destruct b as [? ? ? ? ? ? ? ?]. unfold hide, set_payload, set_len, set_tot_len, ptr_add. simpl in *.
  subst. destruct pl. simpl. f_equal; [do 2 f_equal|..]; lia.
Qed.

Lemma pbuf_header_roundtrip_witness :
  exists s', pbuf_remove_header demo3 (Some (caddr 1)) 2 = Ret (0, s')
    /\ packet s' (Some (caddr 1)) [(caddr 1, hide node1.2 2); node2]
         (drop (Z.to_nat 2) [1; 2; 3; 4; 5])
    /\ pbuf_add_header_force s' (Some (caddr 1)) 2 = Ret (0, demo3).
Proof.
  apply (pbuf_header_roundtrip demo3 (caddr 1) node1.2 [node2] [1; 2; 3; 4; 5] 2).
  - apply demo3_packets.
  - done.
  - reflexivity.
  - eexists. reflexivity.
Defined.

(** [pbuf_free_header] removes [size] bytes from the front of a packet,
    releasing the pbufs that become empty. *)
Theorem pbuf_free_header_drops {A} `{!Allocator A} `{!AllocatorLaws A} (s : st A) o l d size H :
  packet s o l d -> owned s H -> refs_ok l -> blocks_apart l -> 0 <= size < 2 ^ 16 ->
  exists s' o' l' H', pbuf_free_header s o size = Ret (o', s')
    /\ packet s' o' l' (drop (Z.to_nat size) d) /\ owned s' H'.
Proof.
  intros Hpk Ho Hr Hb Hs. pose proof (chain_fuel_ok _ _ _ (proj1 Hpk)) as Hf.
  destruct (free_header_spec (chain_fuel s) s o l d size H Hpk Ho Hr Hb Hs Hf)
    as (s' & l' & H' & HF & Hpk' & Ho' & _). eauto 10.
Qed.

Lemma demo3_apart : blocks_apart [node1; node2].
Proof.
  intros n m Hn Hm _. unfold payload_outside.
  assert (Forall (fun n => match payload n.2 with Some q => blk q ∉ [caddr 1; caddr 2] | None => True end)
            [node1; node2]) as Hall by (repeat constructor; apply (bool_decide_unpack _); vm_compute; exact I).
  rewrite Forall_forall in Hall. specialize (Hall n Hn). destruct (payload n.2) as [q|]; [|done].
  assert (m.1 ∈ [caddr 1; caddr 2]) as Hm' by (apply (list_elem_of_fmap_2 fst _ _ Hm)). set_solver.
Qed.

Lemma pbuf_free_header_drops_witness :
  exists s' o' l' H', pbuf_free_header demo3 (Some (caddr 1)) 4 = Ret (o', s')
    /\ packet s' o' l' (drop (Z.to_nat 4) [1; 2; 3; 4; 5]) /\ owned s' H'.
Proof.
  apply (pbuf_free_header_drops demo3 (Some (caddr 1)) [node1; node2] [1; 2; 3; 4; 5] 4 demo3_blocks).
  - apply demo3_packets.
  - apply demo3_owned.
  - apply demo3_refs.
  - apply demo3_apart.
  - done.
Defined.

(** [pbuf_realloc] truncates a packet to [new_len] bytes, trimming the heap
    block of the new last pbuf and releasing the pbufs behind it. *)
Theorem pbuf_realloc_truncates {A} `{!Allocator A} `{!AllocatorLaws A} (s : st A) p l d new_len H :
  packet s (Some p) l d -> owned s H -> refs_ok l -> blocks_apart l -> Forall placed l ->
  (forall n, n ∈ l -> trimmable (al s) n.1) -> 0 <= new_len < 2 ^ 16 ->
  exists s' l' H', pbuf_realloc s (Some p) new_len = Ret s'
    /\ packet s' (Some p) l' (take (Z.to_nat new_len) d) /\ owned s' H'.
Proof. apply realloc_spec. Qed.

Lemma pbuf_realloc_truncates_witness :
  exists s' l' H', pbuf_realloc demo3 (Some (caddr 1)) 2 = Ret s'
    /\ packet s' (Some (caddr 1)) l' (take (Z.to_nat 2) [1; 2; 3; 4; 5]) /\ owned s' H'.
Proof.
  apply (pbuf_realloc_truncates demo3 (caddr 1) [node1; node2] [1; 2; 3; 4; 5] 2 demo3_blocks).
  - apply demo3_packets.
  - apply demo3_owned.
  - apply demo3_refs.
  - apply demo3_apart.
  - repeat constructor; discriminate.
  - intros n Hn l sz Hok Hin. exfalso. pose proof (live_in_range _ _ _ _ Hok Hin) as Hrg.
    assert (n.1 ∈ [caddr 1; caddr 2]) as Hn' by (apply (list_elem_of_fmap_2 fst _ _ Hn)).
    unfold in_range, POOL_BASE in Hrg. unfold caddr, CUSTOM_BASE in Hn'. set_unfold. lia.
  - done.
Defined.

(** [pbuf_alloc] of a [PBUF_RAM] pbuf gives one pbuf of the requested length in
    fresh memory, with the header room of the layer in front of its payload and
    one reference, or [NULL], everything else unchanged; a length that
    overflows 16 bits together with the header room gives [NULL]. *)
Theorem pbuf_alloc_ram {A} `{!Allocator A} `{!AllocatorLaws A} (s : st A) H layer n : owned s H -> 0 <= n < 2 ^ 16 ->
  exists r s' H', pbuf_alloc s layer n PBUF_RAM = Ret (r, s') /\ owned s' H' /\
    match r with
    | None => pbufs s' = pbufs s /\ bytes_of s' = bytes_of s
    | Some p => H !! p = None /\ pbufs s' = <[p := new_pbuf p layer n n PBUF_RAM]> (pbufs s)
        /\ reads_same s s' [p]
        /\ exists d, packet s' (Some p) [(p, new_pbuf p layer n n PBUF_RAM)] d
    end.
Proof. apply alloc_ram_spec. Qed.

Lemma pbuf_alloc_ram_witness :
  exists r s' H', pbuf_alloc empty_state PBUF_IP 100 PBUF_RAM = Ret (r, s') /\ owned s' H' /\
    match r with
    | None => pbufs s' = pbufs empty_state /\ bytes_of s' = bytes_of empty_state
    | Some p => (∅ : gmap Z (source * Z)) !! p = None
        /\ pbufs s' = <[p := new_pbuf p PBUF_IP 100 100 PBUF_RAM]> (pbufs empty_state)
        /\ reads_same empty_state s' [p]
        /\ exists d, packet s' (Some p) [(p, new_pbuf p PBUF_IP 100 100 PBUF_RAM)] d
    end.
Proof. apply (pbuf_alloc_ram empty_state ∅ PBUF_IP 100); [apply empty_owned|done]. Defined.

(** [pbuf_alloc] of a [PBUF_POOL] packet gives a chain of pool pbufs of the
    requested total length, all in fresh memory; when the pool runs out half-way,
    the pbufs taken so far are given back and the result is [NULL]: nothing
    leaks. *)
Theorem pbuf_alloc_pool {A} `{!Allocator A} `{!AllocatorLaws A} (s : st A) H layer n : owned s H -> 0 <= n < 2 ^ 16 ->
  exists r s' H', pbuf_alloc s layer n PBUF_POOL = Ret (r, s') /\ owned s' H' /\
    match r with
    | None => pbufs s' = pbufs s /\ bytes_of s' = bytes_of s /\ H' = H
    | Some p => exists l d, packet s' (Some p) l d /\ Z.of_nat (length d) = n /\ Forall pool_node l
        /\ (forall k, k ∈ l.*1 -> H !! k = None)
        /\ (forall k, k ∉ l.*1 -> pbufs s' !! k = pbufs s !! k /\ bytes_of s' !! k = bytes_of s !! k)
    end.
Proof. apply alloc_pool_spec. Qed.

Lemma pbuf_alloc_pool_witness :
  exists r s' H', pbuf_alloc empty_state PBUF_RAW 3000 PBUF_POOL = Ret (r, s') /\ owned s' H' /\
    match r with
    | None => pbufs s' = pbufs empty_state /\ bytes_of s' = bytes_of empty_state /\ H' = ∅
    | Some p => exists l d, packet s' (Some p) l d /\ Z.of_nat (length d) = 3000 /\ Forall pool_node l
        /\ (forall k, k ∈ l.*1 -> (∅ : gmap Z (source * Z)) !! k = None)
        /\ (forall k, k ∉ l.*1 -> pbufs s' !! k = pbufs empty_state !! k
                                  /\ bytes_of s' !! k = bytes_of empty_state !! k)
    end.
Proof. apply (pbuf_alloc_pool empty_state ∅ PBUF_RAW 3000); [apply empty_owned|done]. Defined.

(** [pbuf_clone] gives a single new pbuf with the same data as the packet, which
    stays intact; [pbuf_coalesce] gives a packet with the same data. *)
Theorem pbuf_clone_copies {A} `{!Allocator A} `{!AllocatorLaws A} (s : st A) H layer p l d :
  packet s (Some p) l d -> positive l -> owned s H -> refs_ok l ->
  (exists r s' H', pbuf_clone s layer PBUF_RAM p = Ret (r, s') /\ owned s' H' /\
    match r with
    | None => pbufs s' = pbufs s /\ bytes_of s' = bytes_of s
    | Some q => H !! q = None /\ pbufs s' !! q = Some (new_pbuf q layer (total l) (total l) PBUF_RAM)
        /\ packet s' (Some q) [(q, new_pbuf q layer (total l) (total l) PBUF_RAM)] d
        /\ packet s' (Some p) l d
    end)
  /\ exists q s' l' H', pbuf_coalesce s p layer = Ret (q, s') /\ packet s' (Some q) l' d /\ owned s' H'.
Proof. intros. split; [by apply clone_spec|by eapply coalesce_spec]. Qed.

Lemma pbuf_clone_copies_witness :
  exists q s' l' H', pbuf_coalesce demo3 (caddr 1) PBUF_RAW = Ret (q, s')
    /\ packet s' (Some q) l' [1; 2; 3; 4; 5] /\ owned s' H'.
Proof.
  apply (pbuf_clone_copies demo3 demo3_blocks PBUF_RAW (caddr 1) [node1; node2] [1; 2; 3; 4; 5]).
  - apply demo3_packets.
  - repeat constructor.
  - apply demo3_owned.
  - apply demo3_refs.
Defined.
