(* ===== verification/Timeouts.v ===== *)
(** * [lwip/src/core/timeouts.c]: the timeout queue

    [sys_timeout], [sys_untimeout], [sys_check_timeouts],
    [sys_restart_timeouts], [sys_timeouts_sleeptime], the cyclic timers of
    the stack and the on-demand TCP timer. Times are 32-bit millisecond
    counters that wrap around. The queue is the singly linked list
    [next_timeout]; a list element carries the address of its [struct
    sys_timeo], which is taken from and returned to the pool
    [MEMP_SYS_TIMEOUT] of [Memp].

    The functions behind the function pointers ([tcp_tmr], the handlers of the
    cyclic timers, the handlers of other modules) are the record [callbacks]:
    each may change the whole state, the queue included. *)

From S2P Require Import Prelude Memp.
From Stdlib Require Import Sorting.Sorted.

Definition LWIP_MAX_TIMEOUT : Z := 0x7fffffff.
Definition SYS_TIMEOUTS_SLEEPTIME_INFINITE : Z := 0xFFFFFFFF.
Definition LWIP_UINT32_MAX : Z := 0xffffffff.
Definition TCP_TMR_INTERVAL : Z := 250.

Definition TIME_LESS_THAN (t compare_to : Z) : bool := LWIP_MAX_TIMEOUT <? u32 (t - compare_to).

(** [lwip_cyclic_timers] in this build (IPv4 with reassembly, ARP, IGMP and
    DNS; no DHCP, no AUTOIP). *)
Inductive cyclic_fn : Set := tcp_tmr | ip_reass_tmr | etharp_tmr | igmp_tmr | dns_tmr.
Definition lwip_cyclic_timers : list (Z * cyclic_fn) :=
  [(TCP_TMR_INTERVAL, tcp_tmr); (1000, ip_reass_tmr); (1000, etharp_tmr);
   (100, igmp_tmr); (1000, dns_tmr)].

(** Function pointers and [void *] arguments of timeouts. *)
Inductive handler : Set := h_tcpip_tcp_timer | h_lwip_cyclic_timer | h_other (f : Z).
Inductive arg : Set := arg_null | arg_cyclic (i : nat) | arg_other (a : Z).
#[global] Instance cyclic_fn_eq_dec : EqDecision cyclic_fn.
Proof. solve_decision. Defined.
#[global] Instance handler_eq_dec : EqDecision handler.
Proof. solve_decision. Defined.
#[global] Instance arg_eq_dec : EqDecision arg.
Proof. solve_decision. Defined.

Record sys_timeo := SysTimeo { addr : Z; time : Z; h : option handler; h_arg : arg }.

(** The static variables of the file, the pool, the clock that [sys_now] reads
    and the rest of the program. *)
Record tstate (W : Type) := TState {
  next_timeout : list sys_timeo;
  current_timeout_due_time : Z;
  tcpip_tcp_timer_active : bool;
  timeo_pool : pool;
  sys_now : Z;
  world : W }.
Arguments TState {W}.
Arguments next_timeout {W}.
Arguments current_timeout_due_time {W}.
Arguments tcpip_tcp_timer_active {W}.
Arguments timeo_pool {W}.
Arguments sys_now {W}.
Arguments world {W}.

Record callbacks (W : Type) := Callbacks {
  run_cyclic : cyclic_fn -> tstate W -> outcome (tstate W);
  run_other : Z -> arg -> tstate W -> outcome (tstate W);
  tcp_pcbs : W -> bool  (* tcp_active_pcbs || tcp_tw_pcbs *) }.
Arguments run_cyclic {W}.
Arguments run_other {W}.
Arguments tcp_pcbs {W}.

Section timeouts.
  Context {W : Type} (cb : callbacks W).
  Implicit Type s : tstate W.

Definition set_queue (q : list sys_timeo) s : tstate W :=
  TState q (current_timeout_due_time s) (tcpip_tcp_timer_active s) (timeo_pool s) (sys_now s) (world s).
Definition set_pool (p : pool) s : tstate W :=
  TState (next_timeout s) (current_timeout_due_time s) (tcpip_tcp_timer_active s) p (sys_now s) (world s).
Definition set_due (t : Z) s : tstate W :=
  TState (next_timeout s) t (tcpip_tcp_timer_active s) (timeo_pool s) (sys_now s) (world s).
Definition set_active (b : bool) s : tstate W :=
  TState (next_timeout s) (current_timeout_due_time s) b (timeo_pool s) (sys_now s) (world s).

(** The [for] loop of [sys_timeout_abs]: [t] is the current element, [l] the
    elements after it. *)
Fixpoint insert_after (timeout t : sys_timeo) (l : list sys_timeo) : list sys_timeo :=
  match l with
  | [] => [t; timeout]
  | t_next :: l' =>
      if TIME_LESS_THAN (time timeout) (time t_next) then t :: timeout :: l
      else t :: insert_after timeout t_next l'
  end.

Definition sys_timeout_abs (abs_time : Z) (handler : option handler) (a : arg) s : outcome (tstate W) :=
  '(m, p) ← do_memp_malloc_pool (timeo_pool s);
  match m with
  | None => Assert
  | Some m =>
      let timeout := SysTimeo m abs_time handler a in
      let s := set_pool p s in
      match next_timeout s with
      | [] => Ret (set_queue [timeout] s)
      | t :: l =>
          if TIME_LESS_THAN (time timeout) (time t) then Ret (set_queue (timeout :: t :: l) s)
          else Ret (set_queue (insert_after timeout t l) s)
      end
  end.

Definition sys_timeout (msecs : Z) (handler : option handler) (a : arg) s : outcome (tstate W) :=
  lwip_assert (msecs <=? LWIP_UINT32_MAX / 4);;
  sys_timeout_abs (u32 (sys_now s + msecs)) handler a s.

Definition tcpip_tcp_timer s : outcome (tstate W) :=
  s ← run_cyclic cb tcp_tmr s;
  if tcp_pcbs cb (world s) then sys_timeout TCP_TMR_INTERVAL (Some h_tcpip_tcp_timer) arg_null s
  else Ret (set_active false s).

Definition tcp_timer_needed s : outcome (tstate W) :=
  if negb (tcpip_tcp_timer_active s) && tcp_pcbs cb (world s) then
    sys_timeout TCP_TMR_INTERVAL (Some h_tcpip_tcp_timer) arg_null (set_active true s)
  else Ret s.

(** [arg] points into [lwip_cyclic_timers]. *)
Definition lwip_cyclic_timer (a : arg) s : outcome (tstate W) :=
  match a with
  | arg_cyclic i =>
      '(interval_ms, handler) ← deref (lwip_cyclic_timers !! i);
      s ← run_cyclic cb handler s;
      let now := sys_now s in
      let next_timeout_time := u32 (current_timeout_due_time s + interval_ms) in
      if TIME_LESS_THAN next_timeout_time now then
        sys_timeout_abs (u32 (now + interval_ms)) (Some h_lwip_cyclic_timer) a s
      else sys_timeout_abs next_timeout_time (Some h_lwip_cyclic_timer) a s
  | _ => Undef
  end.

(** Index 0 of the table ([tcp_tmr]) is started on demand. *)
Fixpoint init_loop (i : nat) (timers : list (Z * cyclic_fn)) s : outcome (tstate W) :=
  match timers with
  | [] => Ret s
  | (interval_ms, _) :: timers' =>
      s ← sys_timeout interval_ms (Some h_lwip_cyclic_timer) (arg_cyclic i) s;
      init_loop (S i) timers' s
  end.
Definition sys_timeouts_init s : outcome (tstate W) := init_loop 1 (drop 1 lwip_cyclic_timers) s.

(** The [for] loop of [sys_untimeout]: [before] are the elements passed, in
    order. *)
Fixpoint untimeout_loop (handler : option handler) (a : arg) (before l : list sys_timeo) s
  : outcome (tstate W) :=
  match l with
  | [] => Ret s
  | t :: l' =>
      if decide (h t = handler /\ h_arg t = a) then
        let s := set_queue (before ++ l') s in
        p ← do_memp_free_pool (timeo_pool s) (addr t); Ret (set_pool p s)
      else untimeout_loop handler a (before ++ [t]) l' s
  end.
Definition sys_untimeout (handler : option handler) (a : arg) s : outcome (tstate W) :=
  untimeout_loop handler a [] (next_timeout s) s.

(** [handler(arg)]. *)
Definition call_handler (handler : handler) (a : arg) s : outcome (tstate W) :=
  match handler with
  | h_tcpip_tcp_timer => tcpip_tcp_timer s
  | h_lwip_cyclic_timer => lwip_cyclic_timer a s
  | h_other f => run_other cb f a s
  end.

(** The [do]..[while (1)] of [sys_check_timeouts]. *)
Fixpoint check_loop (fuel : nat) (now : Z) s : outcome (tstate W) :=
  match fuel with
  | O => Diverge
  | S fuel =>
      match next_timeout s with
      | [] => Ret s
      | tmptimeout :: l =>
          if TIME_LESS_THAN now (time tmptimeout) then Ret s
          else
            let s := set_due (time tmptimeout) (set_queue l s) in
            p ← do_memp_free_pool (timeo_pool s) (addr tmptimeout);
            let s := set_pool p s in
            s ← match h tmptimeout with
                | None => Ret s
                | Some handler => call_handler handler (h_arg tmptimeout) s
                end;
            check_loop fuel now s
      end
  end.
Definition sys_check_timeouts (fuel : nat) s : outcome (tstate W) := check_loop fuel (sys_now s) s.

Definition rebase (now base : Z) (t : sys_timeo) : sys_timeo :=
  SysTimeo (addr t) (u32 (u32 (time t - base) + now)) (h t) (h_arg t).
Definition sys_restart_timeouts s : tstate W :=
  match next_timeout s with
  | [] => s
  | t :: _ => set_queue (map (rebase (sys_now s) (time t)) (next_timeout s)) s
  end.

Definition sys_timeouts_sleeptime s : outcome Z :=
  match next_timeout s with
  | [] => Ret SYS_TIMEOUTS_SLEEPTIME_INFINITE
  | t :: _ =>
      if TIME_LESS_THAN (time t) (sys_now s) then Ret 0
      else
        let ret := u32 (time t - sys_now s) in
        lwip_assert (ret <=? LWIP_MAX_TIMEOUT);; Ret ret
  end.
End timeouts.

(** ** Time windows

    The times in the queue and the clock lie in a window of [2^31] ms that
    starts at [base]; [ahead base t] is the position of [t] in it. There the
    comparison modulo [2^32] is the order of the positions. *)
Definition ahead (base t : Z) : Z := u32 (t - base).
Definition in_window (base t : Z) : Prop := ahead base t <= LWIP_MAX_TIMEOUT.
#[global] Instance in_window_dec base t : Decision (in_window base t).
Proof. unfold in_window. apply _. Defined.

Lemma TIME_LESS_THAN_window base t c : in_window base t -> in_window base c ->
  TIME_LESS_THAN t c = (ahead base t <? ahead base c).
Proof.
  unfold in_window, TIME_LESS_THAN, ahead, LWIP_MAX_TIMEOUT, u32. intros Ht Hc.
  destruct (_ <? _) eqn:E1; destruct (Z.ltb_spec ((t - base) mod 2 ^ 32) ((c - base) mod 2 ^ 32));
    try reflexivity; [apply Z.ltb_lt in E1|apply Z.ltb_ge in E1];
    change (2 ^ 32) with 4294967296 in *; zdm.
Qed.

Lemma ahead_add base t n : 0 <= n -> ahead base t + n <= LWIP_MAX_TIMEOUT ->
  ahead base (u32 (t + n)) = ahead base t + n.
Proof.
  unfold ahead, u32, LWIP_MAX_TIMEOUT. change (2 ^ 32) with 4294967296. intros Hn H. zdm.
Qed.

Lemma ahead_nonneg base t : 0 <= ahead base t.
Proof. apply u32_range. Qed.

Definition pos (base : Z) (e : sys_timeo) : Z := ahead base (time e).
Definition queue_ok (base : Z) (q : list sys_timeo) : Prop :=
  Forall (fun e => in_window base (time e)) q /\ StronglySorted (fun e1 e2 => pos base e1 <= pos base e2) q.

Lemma queue_ok_cons base e q : queue_ok base (e :: q) <->
  in_window base (time e) /\ Forall (fun e' => pos base e <= pos base e') q /\ queue_ok base q.
Proof.
  unfold queue_ok. rewrite Forall_cons. split.
  - intros [[He Hw] Hs]. inversion Hs; subst. done.
  - intros (He & Hle & Hw & Hs). split; [done|]. by constructor.
Qed.

(** The first elements [q1] are not later than [x], the others are. *)
Definition insert_point (base x : Z) (q1 q2 : list sys_timeo) : Prop :=
  Forall (fun e => pos base e <= x) q1 /\ Forall (fun e => x < pos base e) q2.

Lemma queue_ok_insert base n q1 q2 : in_window base (time n) -> queue_ok base (q1 ++ q2) ->
  insert_point base (pos base n) q1 q2 -> queue_ok base (q1 ++ n :: q2).
Proof.
  intros Hn Hq [H1 H2]. induction q1 as [|e q1 IH]; simpl in *; rewrite queue_ok_cons.
  - split; [done|]. split; [|done]. eapply Forall_impl; [done|]. simpl; intros; lia.
  - apply queue_ok_cons in Hq as (He & Hle & Hq). apply Forall_cons in H1 as [He1 H1].
    split; [done|]. split; [|by apply IH].
    apply Forall_app in Hle as [Hl1 Hl2]. apply Forall_app; split; [done|]. by constructor.
Qed.

Lemma insert_after_point base n t l : in_window base (time n) -> queue_ok base (t :: l) ->
  pos base t <= pos base n ->
  exists q1 q2, t :: l = q1 ++ q2 /\ insert_after n t l = q1 ++ n :: q2 /\
    insert_point base (pos base n) q1 q2.
Proof.
  intros Hn. revert t. induction l as [|t' l IH]; intros t (Ht & Hle & Hq)%queue_ok_cons Htn; simpl.
  - exists [t], []. split; [done|]. split; [done|]. split; [by constructor|constructor].
  - apply queue_ok_cons in Hq as Hq'. destruct Hq' as (Ht' & Hle' & _).
    rewrite (TIME_LESS_THAN_window base) by done.
    destruct (Z.ltb_spec (ahead base (time n)) (ahead base (time t'))).
    + exists [t], (t' :: l). split; [done|]. split; [done|].
      split; [by constructor|]. constructor; [done|].
      eapply Forall_impl; [apply Hle'|]. intros e. unfold pos. lia.
    + destruct (IH t' Hq) as (q1 & q2 & -> & -> & [H1 H2]); [unfold pos; lia|].
      exists (t :: q1), q2. split; [done|]. split; [done|]. split; [by constructor|done].
Qed.

(** ** The invariant of the queue and its pool *)
Section invariant.
  Context {W : Type} (desc : memp_desc) (Hsize : 0 < d_size desc).
  Implicit Type s : tstate W.

Record tinv (base : Z) s : Prop := {
    tinv_queue : queue_ok base (next_timeout s);
    tinv_pool : exists free, pool_ok desc (timeo_pool s) free (map addr (next_timeout s)) }.

Lemma tinv_length base s : tinv base s -> (length (next_timeout s) <= d_num desc)%nat.
  Proof.
    intros [_ [free [_ He _]]]. apply Permutation_length in He. revert He.
    unfold elems. rewrite length_app, !length_map, length_seq. lia.
  Qed.

  (** A timeout is queued behind the timeouts that are due before it or at
      the same time; only an exhausted pool stops the process. *)
Lemma sys_timeout_abs_ok base s t hd a : tinv base s -> in_window base t ->
    if decide (length (next_timeout s) < d_num desc)%nat then
      exists s' m q1 q2, sys_timeout_abs t hd a s = Ret s' /\
        next_timeout s = q1 ++ q2 /\ next_timeout s' = q1 ++ SysTimeo m t hd a :: q2 /\
        insert_point base (ahead base t) q1 q2 /\ tinv base s' /\
        s' = set_queue (next_timeout s') (set_pool (timeo_pool s') s)
    else sys_timeout_abs t hd a s = Assert.
  Proof.
    intros [Hq [free Hp]] Ht. pose proof (malloc_ok desc _ _ _ Hp) as Hm.
    assert (length free + length (next_timeout s) = d_num desc)%nat as Hlen.
    { destruct Hp as [_ He _]. apply Permutation_length in He. revert He.
      unfold elems. rewrite length_app, !length_map, length_seq. lia. }
    unfold sys_timeout_abs. destruct free as [|m free].
    - simpl in Hlen. rewrite decide_False by lia. by rewrite Hm.
    - simpl in Hlen. rewrite decide_True by lia. destruct Hm as (p' & -> & Hp'). simpl.
      set (n := SysTimeo m t hd a).
      assert (exists q1 q2, next_timeout s = q1 ++ q2 /\
        match next_timeout s with
        | [] => Ret (set_queue [n] (set_pool p' s))
        | t0 :: l => if TIME_LESS_THAN t (time t0) then Ret (set_queue (n :: t0 :: l) (set_pool p' s))
                     else Ret (set_queue (insert_after n t0 l) (set_pool p' s))
        end = Ret (set_queue (q1 ++ n :: q2) (set_pool p' s)) /\
        insert_point base (ahead base t) q1 q2) as (q1 & q2 & E & -> & Hip).
      { destruct (next_timeout s) as [|t0 l].
        - exists [], []. split; [done|]. split; [done|]. split; constructor.
        - pose proof Hq as (H0 & Hle & Hl)%queue_ok_cons.
          rewrite (TIME_LESS_THAN_window base) by done.
          destruct (Z.ltb_spec (ahead base t) (ahead base (time t0))).
          + exists [], (t0 :: l). split; [done|]. split; [done|]. split; [constructor|].
            constructor; [done|]. eapply Forall_impl; [apply Hle|]. intros e. unfold pos. lia.
          + destruct (insert_after_point base n t0 l) as (q1 & q2 & E & -> & Hip); [done..|].
            by exists q1, q2. }
      eexists _, m, q1, q2. split; [done|]. split; [done|]. split; [done|]. split; [done|].
      split; [|done]. split; simpl.
      + apply queue_ok_insert; [done| |done]. by rewrite <- E.
      + exists free. rewrite E in Hp'. rewrite map_app in *. simpl. 
        destruct Hp' as [Hf He Hl]. split; [done| |done]. rewrite <- He. simpl.
        by rewrite <- Permutation_middle.
  Qed.
End invariant.

(** ** [sys_check_timeouts]

    [expired base nw e]: the timeout [e] is due at the time [nw]. *)
Definition expired (base nw : Z) (e : sys_timeo) : Prop := pos base e <= ahead base nw.
#[global] Instance expired_dec base nw e : Decision (expired base nw e).
Proof. unfold expired. apply _. Defined.

Lemma filter_none {A} (P : A -> Prop) `{forall x, Decision (P x)} (l : list A) :
  Forall (fun x => ~ P x) l -> filter P l = [].
Proof. induction 1; [done|]. by rewrite filter_cons_False. Qed.

Lemma not_expired_rest base nw e q : queue_ok base (e :: q) -> ~ expired base nw e ->
  filter (expired base nw) (e :: q) = [].
Proof.
  intros (_ & Hle & _)%queue_ok_cons He. apply filter_none. constructor; [done|].
  eapply Forall_impl; [done|]. unfold expired in *. simpl. intros; lia.
Qed.

Lemma expired_insert base nw x q1 q2 n : insert_point base x q1 q2 ->
  pos base n = x -> ahead base nw < x ->
  filter (expired base nw) (q1 ++ n :: q2) = filter (expired base nw) (q1 ++ q2).
Proof.
  intros _ Hn Hx. rewrite !filter_app, filter_cons_False; [done|]. unfold expired. lia.
Qed.

Section check.
  Context {W E : Type} (cb : callbacks W) (desc : memp_desc) (Hsize : 0 < d_size desc).
  Context (calls : W -> list E) (ev : handler -> arg -> E) (good : sys_timeo -> Prop).
  Context (base nw lim : Z).
  Implicit Type s : tstate W.

Definition fired (e : sys_timeo) : list E :=
    match h e with None => [] | Some hd => [ev hd (h_arg e)] end.

  (** Between two handlers: the clock has not run past [lim]. *)
Record tgood s : Prop := {
    good_inv : tinv desc base s;
    good_entries : Forall good (next_timeout s);
    good_clock : ahead base nw <= ahead base (sys_now s) <= lim }.

  (** What a handler may do when it is called for the due timeout [e]: it
      keeps the invariant, queues only timeouts that are due after [nw] and
      leaves the due ones in place. *)
Definition well_behaved : Prop :=
    forall e hd s, good e -> h e = Some hd -> expired base nw e ->
      current_timeout_due_time s = time e -> tgood s ->
      (length (next_timeout s) < d_num desc)%nat ->
      exists s', call_handler cb hd (h_arg e) s = Ret s' /\ tgood s' /\
        filter (expired base nw) (next_timeout s') = filter (expired base nw) (next_timeout s) /\
        calls (world s') = calls (world s) ++ [ev hd (h_arg e)].

Lemma dequeue_ok s e q : tgood s -> next_timeout s = e :: q ->
    exists p, do_memp_free_pool (timeo_pool s) (addr e) = Ret p /\
      tgood (set_pool p (set_due (time e) (set_queue q s))) /\
      (length q < d_num desc)%nat.
  Proof.
    intros [[Hq [free Hp]] Hg Hc] E0. rewrite E0 in *.
    destruct (free_ok desc Hsize _ _ [] _ _ Hp) as (p & Hf & Hp').
    exists p. split; [done|]. apply queue_ok_cons in Hq as (_ & _ & Hq).
    split; [split; [split|..]; simpl; eauto; by apply Forall_cons in Hg as [_ ?]|].
    destruct Hp as [_ He _]. apply Permutation_length in He. revert He.
    unfold elems. rewrite length_app, !length_map, length_seq. simpl. lia.
  Qed.

Lemma check_loop_ok n fuel s : well_behaved -> in_window base nw -> tgood s ->
    length (filter (expired base nw) (next_timeout s)) = n -> (n < fuel)%nat ->
    exists s', check_loop cb fuel nw s = Ret s' /\ tgood s' /\
      filter (expired base nw) (next_timeout s') = [] /\
      calls (world s') = calls (world s) ++
        concat (map fired (filter (expired base nw) (next_timeout s))).
  Proof.
    intros Hwb Hnw. revert fuel s. induction n as [|n IH]; intros fuel s Hs Hn Hfl;
      (destruct fuel as [|fuel]; [lia|]); cbn [check_loop];
      destruct (next_timeout s) as [|e q] eqn:Eq.
    - exists s. rewrite Eq. simpl. by rewrite app_nil_r.
    - pose proof (tinv_queue _ _ _ (good_inv _ Hs)) as Hq. rewrite Eq in Hq.
      rewrite (TIME_LESS_THAN_window base); [|done|by apply queue_ok_cons in Hq as (? & _)].
      destruct (Z.ltb_spec (ahead base nw) (ahead base (time e))) as [Hlt|Hge].
      + exists s. split; [done|]. split; [done|]. rewrite Eq.
        rewrite (not_expired_rest base nw e q) by (done || unfold expired, pos; lia).
        split; [done|]. simpl. by rewrite app_nil_r.
      + rewrite filter_cons_True in Hn by (unfold expired, pos; lia). done.
    - done.
    - pose proof (tinv_queue _ _ _ (good_inv _ Hs)) as Hq. rewrite Eq in Hq.
      rewrite (TIME_LESS_THAN_window base); [|done|by apply queue_ok_cons in Hq as (? & _)].
      destruct (Z.ltb_spec (ahead base nw) (ahead base (time e))) as [Hlt|Hge].
      { rewrite (not_expired_rest base nw e q) in Hn by (done || unfold expired, pos; lia). done. }
      rewrite filter_cons_True in Hn |- * by (unfold expired, pos; lia).
      destruct (dequeue_ok s e q Hs Eq) as (p & Hf & Hs1 & Hlen). simpl in Hf |- *. rewrite Hf.
      simpl. injection Hn as Hn.
      assert (exists s2, match h e with
        | None => Ret (set_pool p (set_due (time e) (set_queue q s)))
        | Some hd => call_handler cb hd (h_arg e) (set_pool p (set_due (time e) (set_queue q s)))
        end = Ret s2 /\ tgood s2 /\
        filter (expired base nw) (next_timeout s2) = filter (expired base nw) q /\
        calls (world s2) = calls (world s) ++ fired e) as (s2 & -> & Hs2 & Hq2 & Hc2).
      { unfold fired. destruct (h e) as [hd|] eqn:Eh.
        - apply (Hwb e hd (set_pool p (set_due (time e) (set_queue q s)))); try done.
          + pose proof (good_entries _ Hs) as Hg. rewrite Eq in Hg. by apply Forall_cons in Hg as [? _].
        - eexists. split; [done|]. rewrite app_nil_r. done. }
      simpl. destruct (IH fuel s2 Hs2) as (s' & Hl & Hs' & Hnone & Hc'); [by rewrite Hq2|lia|].
      exists s'. split; [done|]. split; [done|]. split; [done|].
      rewrite Hc', Hc2, Hq2. simpl. by rewrite app_assoc.
  Qed.
End check.

(** ** The timers of the stack

    The queue holds the on-demand TCP timer and the cyclic timers; their
    functions take time but do not queue timeouts themselves. *)
Lemma cyclic_interval i iv f : lwip_cyclic_timers !! i = Some (iv, f) -> 0 < iv <= 1000.
Proof. do 5 (destruct i as [|i]; [intros [= <- <-]; unfold TCP_TMR_INTERVAL; lia|]). done. Qed.

Definition stack_event (hd : handler) (a : arg) : option cyclic_fn :=
  match hd, a with
  | h_tcpip_tcp_timer, _ => Some tcp_tmr
  | h_lwip_cyclic_timer, arg_cyclic i => snd <$> (lwip_cyclic_timers !! i)
  | _, _ => None
  end.

Section stack.
  Context {W : Type} (cb : callbacks W) (desc : memp_desc) (Hsize : 0 < d_size desc).
  Context (calls : W -> list (option cyclic_fn)) (base nw lim : Z).
  Implicit Type s : tstate W.

  (** A timer of the stack. A cyclic timer that is exactly one interval late
      is due again at once; it is excluded here. *)
Definition stack_timer (e : sys_timeo) : Prop :=
    h e = Some h_tcpip_tcp_timer \/
    h e = Some h_lwip_cyclic_timer /\ exists i iv f, h_arg e = arg_cyclic i /\
      lwip_cyclic_timers !! i = Some (iv, f) /\ (expired base nw e -> pos base e + iv <> ahead base nw).

  (** The timer functions leave the queue alone, record their call and
      return before the clock has passed [lim]. *)
Definition quiet_callbacks : Prop := forall f s, ahead base (sys_now s) <= lim ->
    exists s', run_cyclic cb f s = Ret s' /\ next_timeout s' = next_timeout s /\
      timeo_pool s' = timeo_pool s /\ current_timeout_due_time s' = current_timeout_due_time s /\
      calls (world s') = calls (world s) ++ [Some f] /\
      ahead base (sys_now s) <= ahead base (sys_now s') <= lim.

  Context (Hquiet : quiet_callbacks) (Hlim : lim + 1000 <= LWIP_MAX_TIMEOUT).
Notation tgood := (tgood desc stack_timer base nw lim).

  (** Queueing a stack timer that is due after [nw]. *)
Lemma rearm_ok s t hd a : tgood s -> (length (next_timeout s) < d_num desc)%nat ->
    in_window base t -> ahead base nw < ahead base t ->
    (forall m, stack_timer (SysTimeo m t hd a)) ->
    exists s', sys_timeout_abs t hd a s = Ret s' /\ tgood s' /\
      filter (expired base nw) (next_timeout s') = filter (expired base nw) (next_timeout s) /\
      world s' = world s.
  Proof.
    intros [Hi Hg Hc] Hlen Ht Hlt Hst.
    pose proof (sys_timeout_abs_ok desc base s t hd a Hi Ht) as H. rewrite decide_True in H by done.
    destruct H as (s' & m & q1 & q2 & -> & E1 & E2 & Hip & Hi' & Es'). exists s'. split; [done|].
    rewrite E1 in Hg. apply Forall_app in Hg as [Hg1 Hg2]. split; [split; [done|..]|split].
    - rewrite E2. apply Forall_app. split; [done|]. by constructor.
    - by rewrite Es'.
    - rewrite E1, E2. by apply (expired_insert base nw (ahead base t)).
    - by rewrite Es'.
  Qed.

Lemma run_cyclic_ok f s : tgood s -> exists s', run_cyclic cb f s = Ret s' /\ tgood s' /\
    next_timeout s' = next_timeout s /\ current_timeout_due_time s' = current_timeout_due_time s /\
    calls (world s') = calls (world s) ++ [Some f].
  Proof.
    intros [Hi Hg Hc]. destruct (Hquiet f s) as (s' & -> & Eq & Ep & Ed & Ec & Hck); [lia|].
    exists s'. split; [done|]. split; [|done]. split; [|by rewrite Eq|lia].
    destruct Hi as [Hq Hp]. split; [by rewrite Eq|by rewrite Eq, Ep].
  Qed.

Lemma late_timer s e t : tgood s -> ahead base t <= LWIP_MAX_TIMEOUT ->
    ahead base nw < ahead base t -> forall m hd a, h e = Some hd -> stack_timer e -> h_arg e = a ->
    stack_timer (SysTimeo m t (Some hd) a).
  Proof.
    intros Hs Ht Hlt m hd a Eh Hst <-. destruct Hst as [E|[E (i & iv & f & Ea & Ei & _)]].
    - left. simpl. by rewrite Eh in E.
    - right. simpl. split; [by rewrite Eh in E|]. exists i, iv, f. split; [done|]. split; [done|].
      unfold expired, pos. simpl. lia.
  Qed.

Lemma stack_well_behaved : well_behaved cb desc calls stack_event stack_timer base nw lim.
  Proof.
    intros e hd s Hst Eh He Hdue Hs Hlen.
    destruct Hst as [E|[E (i & iv & f & Ea & Ei & Hne)]]; rewrite Eh in E; injection E as ->; simpl.
    - unfold tcpip_tcp_timer. destruct (run_cyclic_ok tcp_tmr s Hs) as (s1 & -> & Hs1 & Eq & _ & Ec).
      simpl. destruct (tcp_pcbs cb (world s1)).
      + unfold sys_timeout. simpl. pose proof (good_clock _ _ _ _ _ _ Hs1) as Hck.
        assert (ahead base (u32 (sys_now s1 + TCP_TMR_INTERVAL)) = ahead base (sys_now s1) + 250) as Ha.
        { apply ahead_add; [done|]. unfold TCP_TMR_INTERVAL. lia. }
        destruct (rearm_ok s1 (u32 (sys_now s1 + TCP_TMR_INTERVAL)) (Some h_tcpip_tcp_timer) arg_null Hs1)
          as (s2 & -> & Hs2 & Hf & Hw); [by rewrite Eq|unfold in_window; lia|lia|by left|].
        exists s2. split; [done|]. split; [done|]. by rewrite Hf, Hw, Eq.
      + eexists. split; [done|]. split; [|by simpl; rewrite Eq].
        destruct Hs1 as [[Hq Hp] Hg Hck]. split; [split|..]; simpl; done.
    - rewrite Ea. unfold lwip_cyclic_timer. rewrite Ei. simpl.
      pose proof (cyclic_interval _ _ _ Ei) as Hiv.
      destruct (run_cyclic_ok f s Hs) as (s1 & -> & Hs1 & Eq & Ed & Ec). simpl.
      pose proof (good_clock _ _ _ _ _ _ Hs1) as Hck. rewrite Ed, Hdue.
      specialize (Hne He). unfold expired, pos in He, Hne.
      assert (ahead base (u32 (time e + iv)) = ahead base (time e) + iv) as Ha by (apply ahead_add; lia).
      assert (ahead base (u32 (sys_now s1 + iv)) = ahead base (sys_now s1) + iv) as Hb by (apply ahead_add; lia).
      rewrite (TIME_LESS_THAN_window base), Ha; [|unfold in_window; lia..].
      pose proof (ahead_nonneg base (sys_now s1)).
      destruct (Z.ltb_spec (ahead base (time e) + iv) (ahead base (sys_now s1))).
      all: edestruct (rearm_ok s1) as (s2 & -> & Hs2 & Hf & Hw);
        [done|by rewrite Eq| |
         |intros m; eapply late_timer; [done| | |done|by right; split; [done|exists i, iv, f]|done]|
         exists s2; split; [done|]; split; [done|]; by rewrite Hf, Hw, Eq, Ec];
        unfold in_window; lia.
  Qed.
End stack.

(** ** Cancelling, sleeping, rebasing *)
Section operations.
  Context {W : Type} (desc : memp_desc) (Hsize : 0 < d_size desc).
  Implicit Type s : tstate W.

Definition matches (hd : option handler) (a : arg) (e : sys_timeo) : Prop := h e = hd /\ h_arg e = a.

  (** [q'] is [q] without its first element that matches. *)
Definition first_removed (hd : option handler) (a : arg) (q q' : list sys_timeo) : Prop :=
    (Forall (fun e => ~ matches hd a e) q /\ q' = q) \/
    exists q1 e q2, q = q1 ++ e :: q2 /\ Forall (fun e => ~ matches hd a e) q1 /\
      matches hd a e /\ q' = q1 ++ q2.

Lemma first_removed_mid hd a q1 e q2 q' : Forall (fun e => ~ matches hd a e) q1 -> matches hd a e ->
    first_removed hd a (q1 ++ e :: q2) q' -> q' = q1 ++ q2.
  Proof.
    intros H1 He [[Hall _]|(r1 & x & r2 & Er & Hr & Hx & ->)].
    { rewrite Forall_app, Forall_cons in Hall. tauto. }
    revert r1 Er Hr. induction q1 as [|y q1 IH]; intros [|z r1] Er Hr; simpl in *; simplify_eq.
    - done.
    - apply Forall_cons in Hr as [? _]. done.
    - apply Forall_cons in H1 as [? _]. done.
    - apply Forall_cons in H1 as [_ H1]. apply Forall_cons in Hr as [_ Hr]. f_equal. by apply IH.
  Qed.

  (** Moving the whole queue keeps it in order. *)
Lemma queue_ok_shift base base' f c q : queue_ok base q ->
    Forall (fun e => pos base' (f e) = pos base e - c /\ 0 <= c) q -> queue_ok base' (map f q).
  Proof.
    induction q as [|e q IH]; intros Hq Hf; simpl; [by split; constructor|].
    apply queue_ok_cons in Hq as (He & Hle & Hq). apply Forall_cons in Hf as [[Hfe Hc] Hf].
    apply queue_ok_cons. split; [|split; [|by apply IH]].
    - unfold in_window, pos in *. lia.
    - apply Forall_fmap. rewrite Forall_forall in Hf, Hle |- *. intros x Hx. simpl.
      destruct (Hf x Hx). specialize (Hle x Hx). lia.
  Qed.

Lemma queue_ok_delete base q1 e q2 : queue_ok base (q1 ++ e :: q2) -> queue_ok base (q1 ++ q2).
  Proof.
    induction q1 as [|x q1 IH]; simpl; rewrite ?queue_ok_cons; [by intros (_ & _ & ?)|].
    intros (Hx & Hle & Hq). rewrite Forall_app, Forall_cons in Hle. rewrite Forall_app. naive_solver.
  Qed.

Lemma untimeout_loop_ok base hd a l : forall before s, tinv desc base s ->
    next_timeout s = before ++ l -> Forall (fun e => ~ matches hd a e) before ->
    exists s', untimeout_loop hd a before l s = Ret s' /\ tinv desc base s' /\
      first_removed hd a (next_timeout s) (next_timeout s') /\
      s' = set_queue (next_timeout s') (set_pool (timeo_pool s') s).
  Proof.
    induction l as [|t l IH]; intros before s [Hq [free Hp]] E0 Hb; simpl.
    - exists s. split; [done|]. split; [by split; eauto|]. split; [|by destruct s].
      left. split; [|done]. by rewrite E0, app_nil_r.
    - destruct (decide (h t = hd /\ h_arg t = a)) as [Hm|Hm].
      + rewrite E0 in Hq, Hp. rewrite map_app in Hp.
        destruct (free_ok desc Hsize _ _ _ _ _ Hp) as (p & -> & Hp'). simpl.
        eexists. split; [done|]. split; [|split; [|done]].
        * split; simpl; [by eapply queue_ok_delete|]. exists (addr t :: free). by rewrite map_app.
        * right. exists before, t, l. done.
      + apply (IH (before ++ [t]) s); [by split; eauto|by rewrite E0, <- app_assoc|].
        apply Forall_app. split; [done|]. by constructor.
  Qed.

Lemma sys_untimeout_ok base hd a s : tinv desc base s ->
    exists s', sys_untimeout hd a s = Ret s' /\ tinv desc base s' /\
      first_removed hd a (next_timeout s) (next_timeout s') /\
      s' = set_queue (next_timeout s') (set_pool (timeo_pool s') s).
  Proof. intros Hs. by apply (untimeout_loop_ok base hd a (next_timeout s) [] s). Qed.
End operations.

(** ** Properties *)

(** C36: [sys_check_timeouts] on a queue with only the timers of the stack (the cyclic ones and the one of TCP), whose functions queue no timeouts of their own, and with no
    cyclic timer exactly one interval late ([late_timer_runs_twice] shows what happens then): it returns, has called
    the function of every timeout that was due, each once and in the order
    of the due times (equal times in the order of queueing), leaves no due
    timeout behind and keeps the queue sorted, also across the wrap-around of the
    clock. One iteration per due timeout and one more are enough. *)
Theorem stack_timers_in_order {W} (cb : callbacks W) desc calls base lim fuel (s : tstate W) :
  0 < d_size desc -> quiet_callbacks cb calls base lim -> lim + 1000 <= LWIP_MAX_TIMEOUT ->
  tgood desc (stack_timer base (sys_now s)) base (sys_now s) lim s ->
  (length (filter (expired base (sys_now s)) (next_timeout s)) < fuel)%nat ->
  exists s', sys_check_timeouts cb fuel s = Ret s' /\
    calls (world s') = calls (world s) ++
      concat (map (fired stack_event) (filter (expired base (sys_now s)) (next_timeout s))) /\
    filter (expired base (sys_now s)) (next_timeout s') = [] /\
    tgood desc (stack_timer base (sys_now s)) base (sys_now s) lim s'.
Proof.
  intros Hsz Hq Hl Hs Hf.
  pose proof (stack_well_behaved cb desc calls base (sys_now s) lim Hq Hl) as Hwb.
  edestruct (check_loop_ok cb desc Hsz calls stack_event) as (s' & H1 & H2 & H3 & H4); [exact Hwb| |exact Hs|reflexivity|exact Hf|eauto].
  pose proof (good_clock _ _ _ _ _ _ Hs). unfold in_window. lia.
Qed.

(** A queue across the wrap-around: IGMP due at 0xFFFFFFF0, ARP at 5, reassembly
    at 5 (queued later), DNS at 2000; the clock shows 7. *)
Definition demo_desc : memp_desc := MempDesc 32 8 4096.
Definition demo_world := list (option cyclic_fn).
Definition demo_lim : Z := 10000.
Definition demo_base : Z := 0xFFFFFF00.
Definition demo_tick (t : Z) : Z :=
  if ahead demo_base t + 3 <=? demo_lim then u32 (t + 3) else t.
Definition demo_cb : callbacks demo_world :=
  Callbacks demo_world
    (fun f s => Ret (TState (next_timeout s) (current_timeout_due_time s) (tcpip_tcp_timer_active s)
                       (timeo_pool s) (demo_tick (sys_now s)) (world s ++ [Some f])))
    (fun _ _ s => Ret s) (fun _ => true).
Definition demo_queue : list sys_timeo :=
  [SysTimeo 4128 0xFFFFFFF0 (Some h_lwip_cyclic_timer) (arg_cyclic 3);
   SysTimeo 4160 5 (Some h_lwip_cyclic_timer) (arg_cyclic 2);
   SysTimeo 4096 5 (Some h_lwip_cyclic_timer) (arg_cyclic 1);
   SysTimeo 4192 2000 (Some h_lwip_cyclic_timer) (arg_cyclic 4)].
(** The pool with four elements in use, the others linked in order. *)
Definition demo_pool : pool :=
  Pool (Some 4224) (list_to_map [(4096, None); (4128, None); (4160, None); (4192, None);
    (4224, Some 4256); (4256, Some 4288); (4288, Some 4320); (4320, None)]).
Definition demo_state (q : list sys_timeo) (p : pool) : tstate demo_world :=
  TState q 0 false p 7 [].

Lemma demo_quiet : quiet_callbacks demo_cb (fun w => w) demo_base demo_lim.
Proof.
  intros f s Hs. eexists. split; [done|]. simpl. repeat (split; [done|]).
  unfold demo_tick. destruct (Z.leb_spec (ahead demo_base (sys_now s) + 3) demo_lim); [|lia].
  rewrite ahead_add; [lia|lia|]. unfold demo_lim, LWIP_MAX_TIMEOUT in *. lia.
Qed.

Lemma demo_pool_ok : pool_ok demo_desc demo_pool [4224; 4256; 4288; 4320] (map addr demo_queue).
Proof.
  split.
  - simpl. repeat (split; [done|]; eexists; split; [reflexivity|]). done.
  - apply NoDup_Permutation; [apply (bool_decide_unpack _); vm_compute; exact I..|].
    intros x. unfold elems. cbn. rewrite !elem_of_cons, elem_of_nil. tauto.
  - intros a. unfold elems. cbn. rewrite !elem_of_cons, elem_of_nil.
    intros [->|[->|[->|[->|[->|[->|[->|[->|[]]]]]]]]]; eexists; reflexivity.
Qed.

Lemma demo_tinv : tinv demo_desc demo_base (demo_state demo_queue demo_pool).
Proof.
  split; [|eexists; apply demo_pool_ok].
  split; [repeat (constructor; [vm_compute; discriminate|]); constructor|].
  repeat constructor; vm_compute; discriminate.
Qed.

Lemma demo_good : tgood demo_desc (stack_timer demo_base 7) demo_base 7 demo_lim (demo_state demo_queue demo_pool).
Proof.
  split; [apply demo_tinv| |vm_compute; split; discriminate].
  unfold demo_state, demo_queue. simpl.
  do 4 (apply Forall_cons; split; [right; split; [done|]; simpl;
    eexists _, _, _; split; [done|]; split; [reflexivity|]; intros _; vm_compute; discriminate|]).
  apply Forall_nil_2.
Qed.

Lemma stack_timers_in_order_witness : exists s',
  sys_check_timeouts demo_cb 4 (demo_state demo_queue demo_pool) = Ret s' /\
  world s' = [Some igmp_tmr; Some etharp_tmr; Some ip_reass_tmr] /\
  map time (next_timeout s') = [84; 1005; 1005; 2000].
Proof.
  destruct (stack_timers_in_order demo_cb demo_desc (fun w => w) demo_base demo_lim 4
    (demo_state demo_queue demo_pool)) as (s' & H & Hc & _).
  - reflexivity.
  - apply demo_quiet.
  - vm_compute. discriminate.
  - apply demo_good.
  - vm_compute. lia.
  - exists s'. split; [exact H|]. vm_compute in H. injection H as <-. split; reflexivity.
Defined.

(** A cyclic timer that is exactly one interval late is queued again for the present time, and runs twice in one call: IGMP is due at 100, the clock shows 200. *)
Definition still_cb : callbacks demo_world :=
  Callbacks demo_world
    (fun f s => Ret (TState (next_timeout s) (current_timeout_due_time s) (tcpip_tcp_timer_active s) (timeo_pool s) (sys_now s) (world s ++ [Some f])))
    (fun _ _ s => Ret s) (fun _ => true).
Example late_timer_runs_twice :
  match sys_check_timeouts still_cb 4 (TState [SysTimeo 4128 100 (Some h_lwip_cyclic_timer) (arg_cyclic 3)] 0 false demo_pool 200 []) with
  | Ret s' => world s' = [Some igmp_tmr; Some igmp_tmr] /\ map time (next_timeout s') = [300]
  | _ => False
  end.
Proof. by vm_compute. Qed.

(** [sys_timeout] queues the timeout behind those that are due before it or at
    the same time and keeps the queue sorted and its pool consistent; it stops
    the process exactly when the time is too long or the pool is empty. *)
Theorem sys_timeout_queues {W} desc base (s : tstate W) msecs hd a :
  tinv desc base s -> 0 <= msecs ->
  (msecs <= LWIP_UINT32_MAX / 4 -> ahead base (sys_now s) + msecs <= LWIP_MAX_TIMEOUT) ->
  if decide (msecs <= LWIP_UINT32_MAX / 4 /\ (length (next_timeout s) < d_num desc)%nat) then
    exists s' m q1 q2, sys_timeout msecs hd a s = Ret s' /\
      next_timeout s = q1 ++ q2 /\
      next_timeout s' = q1 ++ SysTimeo m (u32 (sys_now s + msecs)) hd a :: q2 /\
      insert_point base (ahead base (sys_now s) + msecs) q1 q2 /\ tinv desc base s'
  else sys_timeout msecs hd a s = Assert.
Proof.
  intros Hs Hm Hw. unfold sys_timeout. destruct (Z.leb_spec msecs (LWIP_UINT32_MAX / 4)) as [Hle|Hgt].
  - specialize (Hw Hle). pose proof (ahead_add base (sys_now s) msecs Hm Hw) as Ha.
    pose proof (sys_timeout_abs_ok desc base s (u32 (sys_now s + msecs)) hd a Hs) as H.
    destruct (decide (length (next_timeout s) < d_num desc)%nat) as [Hl|Hl].
    + rewrite decide_True by done. destruct H as (s' & m & q1 & q2 & H1 & H2 & H3 & H4 & H5 & _);
        [unfold in_window; lia|]. rewrite Ha in H4. exists s', m, q1, q2. done.
    + rewrite decide_False by tauto. apply H. unfold in_window. lia.
  - rewrite decide_False by lia. done.
Qed.
Lemma sys_timeout_queues_witness :
  exists s', sys_timeout 1993 (Some (h_other 9)) (arg_other 1) (demo_state demo_queue demo_pool) = Ret s' /\
    map time (next_timeout s') = [0xFFFFFFF0; 5; 5; 2000; 2000] /\
    map h_arg (next_timeout s') = [arg_cyclic 3; arg_cyclic 2; arg_cyclic 1; arg_cyclic 4; arg_other 1].
Proof.
  pose proof (sys_timeout_queues demo_desc demo_base (demo_state demo_queue demo_pool) 1993
    (Some (h_other 9)) (arg_other 1) demo_tinv) as H.
  rewrite decide_True in H by (split; vm_compute; [discriminate|lia]).
  destruct H as (s' & m & q1 & q2 & H & _); [lia|vm_compute; discriminate|].
  exists s'. split; [exact H|]. vm_compute in H. injection H as <-. split; reflexivity.
Defined.

(** [sys_timeouts_sleeptime] is exact: during the sleep no timeout becomes due
    before it is over, and one is due when it is over. *)
Theorem sleeptime_exact {W} desc base (s : tstate W) dt :
  tinv desc base s -> 0 <= dt -> ahead base (sys_now s) + dt <= LWIP_MAX_TIMEOUT ->
  exists d, sys_timeouts_sleeptime s = Ret d /\
    (filter (expired base (u32 (sys_now s + dt))) (next_timeout s) = [] <-> dt < d).
Proof.
  intros [Hq _] Hdt Hw. pose proof (ahead_add base (sys_now s) dt Hdt Hw) as Ha.
  pose proof (ahead_nonneg base (sys_now s)) as H0.
  unfold sys_timeouts_sleeptime. destruct (next_timeout s) as [|e q].
  - eexists. split; [done|]. split; [|done]. intros _.
    unfold SYS_TIMEOUTS_SLEEPTIME_INFINITE, LWIP_MAX_TIMEOUT in *. lia.
  - pose proof Hq as (He & _ & _)%queue_ok_cons.
    assert (filter (expired base (u32 (sys_now s + dt))) (e :: q) = [] <->
            ahead base (sys_now s) + dt < ahead base (time e)) as Hf.
    { rewrite <- Ha. split.
      - intros Hn. destruct (decide (expired base (u32 (sys_now s + dt)) e)) as [Hx|Hx].
        + by rewrite filter_cons_True in Hn.
        + unfold expired, pos in Hx. lia.
      - intros Hlt. apply not_expired_rest; [done|]. unfold expired, pos. lia. }
    rewrite (TIME_LESS_THAN_window base); [|done|unfold in_window; lia].
    destruct (Z.ltb_spec (ahead base (time e)) (ahead base (sys_now s))).
    + eexists. split; [done|]. rewrite Hf. lia.
    + assert (u32 (time e - sys_now s) = ahead base (time e) - ahead base (sys_now s)) as Hd.
      { unfold in_window, ahead, u32, LWIP_MAX_TIMEOUT in *. change (2 ^ 32) with 4294967296 in *. zdm. }
      rewrite Hd. rewrite lwip_assert_true by (unfold in_window in He; apply Z.leb_le; lia).
      eexists. split; [done|]. rewrite Hf. lia.
Qed.
Lemma sleeptime_exact_witness :
  let s := demo_state (drop 3 demo_queue) demo_pool in
  sys_timeouts_sleeptime (demo_state demo_queue demo_pool) = Ret 0 /\
  sys_timeouts_sleeptime s = Ret 1993 /\
  exists d, sys_timeouts_sleeptime (demo_state demo_queue demo_pool) = Ret d /\
    (filter (expired demo_base (u32 (7 + 0))) demo_queue = [] <-> 0 < d).
Proof.
  simpl. split; [reflexivity|]. split; [reflexivity|].
  apply (sleeptime_exact demo_desc demo_base (demo_state demo_queue demo_pool) 0 demo_tinv);
    vm_compute; discriminate.
Defined.

(** Cancelling a timeout restores the queue: [sys_untimeout] removes the timeout
    that [sys_timeout] queued (when no other has its handler and argument), and the
    timeout's memory goes back to the pool. *)
Theorem timeout_untimeout_roundtrip {W} desc base (s : tstate W) msecs hd a :
  0 < d_size desc -> tinv desc base s -> Forall (fun e => ~ matches hd a e) (next_timeout s) ->
  0 <= msecs <= LWIP_UINT32_MAX / 4 -> ahead base (sys_now s) + msecs <= LWIP_MAX_TIMEOUT ->
  (length (next_timeout s) < d_num desc)%nat ->
  exists s1 s2, sys_timeout msecs hd a s = Ret s1 /\ Exists (matches hd a) (next_timeout s1) /\
    sys_untimeout hd a s1 = Ret s2 /\ next_timeout s2 = next_timeout s /\ tinv desc base s2.
Proof.
  intros Hsz Hs Hno [Hm0 Hm] Hw Hl. unfold sys_timeout.
  rewrite lwip_assert_true by (apply Z.leb_le; lia).
  pose proof (sys_timeout_abs_ok desc base s (u32 (sys_now s + msecs)) hd a Hs) as H.
  rewrite decide_True in H by done. rewrite (ahead_add base) in H by done.
  destruct H as (s1 & m & q1 & q2 & H1 & E & E1 & _ & Hs1 & _).
  { unfold in_window. rewrite ahead_add; lia. }
  destruct (sys_untimeout_ok desc Hsz base hd a s1 Hs1) as (s2 & H2 & Hs2 & Hrem & _).
  exists s1, s2. simpl. split; [done|]. split; [rewrite E1; apply Exists_app; right; by left|].
  split; [done|]. split; [|done]. rewrite E, Forall_app in Hno. destruct Hno as [Hn1 Hn2].
  rewrite E1 in Hrem. rewrite E. by apply (first_removed_mid hd a q1 (SysTimeo m (u32 (sys_now s + msecs)) hd a) q2).
Qed.
Lemma timeout_untimeout_roundtrip_witness : exists s1 s2 : tstate demo_world,
  sys_timeout 50 (Some h_tcpip_tcp_timer) arg_null (demo_state demo_queue demo_pool) = Ret s1 /\
  Exists (matches (Some h_tcpip_tcp_timer) arg_null) (next_timeout s1) /\
  sys_untimeout (Some h_tcpip_tcp_timer) arg_null s1 = Ret s2 /\
  next_timeout s2 = demo_queue /\ tinv demo_desc demo_base s2.
Proof.
  apply (timeout_untimeout_roundtrip demo_desc demo_base (demo_state demo_queue demo_pool)).
  - reflexivity.
  - apply demo_tinv.
  - repeat (apply Forall_cons; split; [intros [? _]; discriminate|]). apply Forall_nil_2.
  - vm_compute. split; discriminate.
  - vm_compute. discriminate.
  - vm_compute. lia.
Defined.

(** [sys_restart_timeouts] makes the first timeout due now and keeps the
    distances between the timeouts, so the queue stays sorted. *)
Theorem restart_rebases {W} desc base (s : tstate W) :
  tinv desc base s ->
  let s' := sys_restart_timeouts s in
  tinv desc (sys_now s) s' /\
  map (pos (sys_now s)) (next_timeout s') =
    map (fun e => pos base e - pos base (hd e (next_timeout s))) (next_timeout s).
Proof.
  intros [Hq Hp]. unfold sys_restart_timeouts. destruct (next_timeout s) as [|e0 q] eqn:Eq.
  { split; [|by rewrite Eq]. split; rewrite Eq; [by split; constructor|by rewrite <- Eq, Eq]. }
  pose proof Hq as (H0 & Hle & Hq')%queue_ok_cons.
  assert (forall e, in_window base (time e) -> pos base e0 <= pos base e ->
    pos (sys_now s) (rebase (sys_now s) (time e0) e) = pos base e - pos base e0) as Hpos.
  { intros e. unfold pos, in_window, ahead, rebase, u32, LWIP_MAX_TIMEOUT in *. simpl.
    change (2 ^ 32) with 4294967296 in *. intros. zdm. }
  assert (Forall (fun e => in_window base (time e) /\ pos base e0 <= pos base e) (e0 :: q)) as Hall.
  { constructor; [split; [done|lia]|]. apply Forall_and. split; [apply Hq'|done]. }
  assert (map (pos (sys_now s)) (map (rebase (sys_now s) (time e0)) (e0 :: q)) =
          map (fun e => pos base e - pos base e0) (e0 :: q)) as Hmap.
  { rewrite map_map. apply map_ext_in. intros e Hin%list_elem_of_In.
    rewrite Forall_forall in Hall. destruct (Hall e Hin). by apply Hpos. }
  split; [|done]. split; cbn [next_timeout set_queue timeo_pool].
  - apply (queue_ok_shift base (sys_now s) _ (pos base e0)); [done|].
    eapply Forall_impl; [exact Hall|]. simpl. intros e [? ?]. split; [by apply Hpos|]. unfold pos, ahead in *. pose proof (u32_range (time e0 - base)). lia.
  - destruct Hp as [free Hp]. exists free. by rewrite map_map.
Qed.
Lemma restart_rebases_witness :
  let s := demo_state demo_queue demo_pool in
  tinv demo_desc 7 (sys_restart_timeouts s) /\
  map time (next_timeout (sys_restart_timeouts s)) = [7; 28; 28; 2023].
Proof.
  split; [apply (restart_rebases demo_desc demo_base (demo_state demo_queue demo_pool) demo_tinv)|].
  reflexivity.
Defined.
