(* ===== verification/DList.v ===== *)
(** * [lwip/src/core/list.c] and [include/mlib/list.h]: the doubly linked lists

    A list is a ring of [struct list] nodes, the head among them. The nodes
    are kept by address in a finite map; every assignment of the source is one
    update of the map, so aliased nodes (an empty list, neighbours that
    coincide) behave as in the code. [assert] is active in this build. *)

From S2P Require Import Prelude.

Record node := Node { prev : Z; next : Z }.
Notation nodes := (gmap Z node).

Definition get (h : nodes) (x : Z) : outcome node := deref (h !! x).
Definition set_next (h : nodes) (x v : Z) : outcome nodes :=
  n ← get h x; Ret (<[x := Node (prev n) v]> h).
Definition set_prev (h : nodes) (x v : Z) : outcome nodes :=
  n ← get h x; Ret (<[x := Node v (next n)]> h).

(** ** Operations *)

Definition list_init (h : nodes) (list : Z) : outcome nodes :=
  h ← set_prev h list list; set_next h list list.

Definition list_insert (h : nodes) (before elem : Z) : outcome nodes :=
  b ← get h before;
  h ← set_prev h elem (prev b);
  h ← set_next h elem before;
  b ← get h before;
  h ← set_next h (prev b) elem;
  set_prev h before elem.

Definition list_splice (h : nodes) (before first last : Z) : outcome nodes :=
  if first =? last then Ret h
  else
    l ← get h last;
    let last := prev l in
    f ← get h first; l ← get h last;
    h ← set_next h (prev f) (next l);
    f ← get h first; l ← get h last;
    h ← set_prev h (next l) (prev f);
    b ← get h before;
    h ← set_prev h first (prev b);
    h ← set_next h last before;
    b ← get h before;
    h ← set_next h (prev b) first;
    set_prev h before last.

Definition list_push_front (h : nodes) (list elem : Z) : outcome nodes :=
  l ← get h list; list_insert h (next l) elem.

Definition list_push_back (h : nodes) (list elem : Z) : outcome nodes :=
  list_insert h list elem.

Definition list_replace (h : nodes) (element position : Z) : outcome nodes :=
  p ← get h position;
  h ← set_next h element (next p);
  e ← get h element;
  h ← set_prev h (next e) element;
  p ← get h position;
  h ← set_prev h element (prev p);
  e ← get h element;
  set_next h (prev e) element.

Definition list_remove (h : nodes) (elem : Z) : outcome (Z * nodes) :=
  e ← get h elem;
  h ← set_next h (prev e) (next e);
  e ← get h elem;
  h ← set_prev h (next e) (prev e);
  e ← get h elem;
  Ret (next e, h).

Definition list_pop_front (h : nodes) (list : Z) : outcome (Z * nodes) :=
  l ← get h list;
  let front := next l in
  '(_, h) ← list_remove h front; Ret (front, h).

Definition list_pop_back (h : nodes) (list : Z) : outcome (Z * nodes) :=
  l ← get h list;
  let back := prev l in
  '(_, h) ← list_remove h back; Ret (back, h).

Definition list_is_empty (h : nodes) (list : Z) : outcome bool :=
  l ← get h list; Ret (next l =? list).

Definition list_front (h : nodes) (list : Z) : outcome Z :=
  e ← list_is_empty h list;
  lwip_assert (negb e);;
  l ← get h list; Ret (next l).

Definition list_back (h : nodes) (list : Z) : outcome Z :=
  e ← list_is_empty h list;
  lwip_assert (negb e);;
  l ← get h list; Ret (prev l).

(** [for (e = list->next; e != list; e = e->next) cnt++], [cnt] a [size_t]. *)
Fixpoint size_loop (fuel : nat) (h : nodes) (list e cnt : Z) : outcome Z :=
  match fuel with
  | O => Diverge
  | S fuel =>
      if e =? list then Ret cnt
      else n ← get h e; size_loop fuel h list (next n) (u64 (cnt + 1))
  end.
Definition list_size (h : nodes) (list : Z) : outcome Z :=
  l ← get h list; size_loop (S (size h)) h list (next l) 0.

(** ** Rings

    [path h x l y]: following [next] from [x] leads through [l] to [y], and
    [prev] leads back. *)
Definition nxt (h : nodes) (x : Z) : option Z := next <$> (h !! x).
Definition prv (h : nodes) (x : Z) : option Z := prev <$> (h !! x).
Definition linked (h : nodes) (x y : Z) : Prop := nxt h x = Some y /\ prv h y = Some x.
Fixpoint path (h : nodes) (x : Z) (l : list Z) (y : Z) : Prop :=
  match l with
  | [] => linked h x y
  | z :: l' => linked h x z /\ path h z l' y
  end.
(** The list with the head node [hd] has the elements [l]. *)
Definition ring (h : nodes) (hd : Z) (l : list Z) : Prop :=
  NoDup (hd :: l) /\ path h hd l hd.

Lemma path_app h x l1 z l2 y :
  path h x (l1 ++ z :: l2) y <-> path h x l1 z /\ path h z l2 y.
Proof. revert x. induction l1 as [|w l1 IH]; intros x; simpl; [done|]. rewrite IH. tauto. Qed.

(** A path depends on the [next] fields of its nodes but the last and on the
    [prev] fields of its nodes but the first. *)
Lemma path_ext h h' x l y :
  (forall z, z ∈ x :: l -> nxt h' z = nxt h z) -> (forall z, z ∈ l ++ [y] -> prv h' z = prv h z) ->
  path h x l y -> path h' x l y.
Proof.
  revert x. induction l as [|w l IH]; intros x Hn Hp; simpl.
  - intros [H1 H2]. split; [rewrite Hn|rewrite Hp]; done || set_solver.
  - intros [[H1 H2] Hl]. split; [split; [rewrite Hn|rewrite Hp]; done || set_solver|].
    apply IH; [..|done]; intros z Hz; [apply Hn|apply Hp]; set_solver.
Qed.

(** Any node of a ring can serve as its head. *)
Lemma ring_rotate h x l1 y l2 : ring h x (l1 ++ y :: l2) -> ring h y (l2 ++ x :: l1).
Proof.
  intros [Hnd Hp]. apply path_app in Hp as [H1 H2]. split; [|by apply path_app].
  assert (y :: l2 ++ x :: l1 ≡ₚ x :: l1 ++ y :: l2) as ->; [|done].
  rewrite <- !Permutation_middle, (Permutation_app_comm l2 l1). apply Permutation_swap.
Qed.

(** The last node of [x :: l]. *)
Fixpoint tail (x : Z) (l : list Z) : Z := match l with [] => x | w :: l' => tail w l' end.
Lemma tail_in x l : tail x l ∈ x :: l.
Proof. revert x. induction l as [|w l IH]; intros x; simpl; [by left|]. right. apply IH. Qed.
Lemma tail_app x l1 y l2 : tail x (l1 ++ y :: l2) = tail y l2.
Proof. revert x. induction l1; intros x; simpl; done. Qed.
Lemma path_tail h x l y : path h x l y -> prv h y = Some (tail x l) /\ nxt h (tail x l) = Some y.
Proof.
  revert x. induction l as [|w l IH]; intros x; simpl; [by intros [? ?]|]. intros [_ Hp]. by apply IH.
Qed.

(** Redirecting the last link of a path from [y] to [y']. *)
Lemma path_move h h' x l y y' : NoDup (x :: l) -> path h x l y ->
  (forall z, z ∈ x :: l -> z <> tail x l -> nxt h' z = nxt h z) ->
  (forall z, z ∈ l -> prv h' z = prv h z) ->
  nxt h' (tail x l) = Some y' -> prv h' y' = Some (tail x l) -> path h' x l y'.
Proof.
  revert x. induction l as [|w l IH]; intros x; simpl; [by split|].
  intros [Hx Hnd]%NoDup_cons [[H1 H2] Hp] Hn Hpr Ht Hy. split.
  - split; [rewrite Hn; [done|by left|]|rewrite Hpr; [done|by left]].
    intros ->. apply Hx. apply tail_in.
  - apply IH; try done; intros z Hz; [intros; apply Hn; [by right|done]|apply Hpr; by right].
Qed.

Lemma nxt_insert h x n z : nxt (<[x := n]> h) z = if decide (x = z) then Some (next n) else nxt h z.
Proof.
  unfold nxt. destruct (decide (x = z)) as [<-|]; [by rewrite lookup_insert_eq|by rewrite lookup_insert_ne].
Qed.
Lemma prv_insert h x n z : prv (<[x := n]> h) z = if decide (x = z) then Some (prev n) else prv h z.
Proof.
  unfold prv. destruct (decide (x = z)) as [<-|]; [by rewrite lookup_insert_eq|by rewrite lookup_insert_ne].
Qed.
Lemma node_get_ok h x : x ∈ dom h -> exists n, get h x = Ret n /\ nxt h x = Some (next n) /\ prv h x = Some (prev n).
Proof.
  intros [n Hn]%elem_of_dom. exists n. unfold get, nxt, prv. by rewrite Hn.
Qed.

(** [h'] is [h] with the [next] fields [N] and the [prev] fields [P]. *)
Record same_but (h h' : nodes) (N P : Z -> option Z) : Prop := {
  sb_dom : dom h' = dom h;
  sb_nxt : forall z, nxt h' z = match N z with Some v => Some v | None => nxt h z end;
  sb_prv : forall z, prv h' z = match P z with Some v => Some v | None => prv h z end }.

Lemma set_next_ok h x v : x ∈ dom h -> exists h', set_next h x v = Ret h' /\
  same_but h h' (fun z => if decide (x = z) then Some v else None) (fun _ => None).
Proof.
  intros Hx. destruct (node_get_ok h x Hx) as (n & Hg & Hn & Hp). unfold set_next. rewrite Hg. simpl.
  eexists. split; [done|]. split.
  - rewrite dom_insert_L. set_solver.
  - intros z. rewrite nxt_insert. by destruct (decide (x = z)).
  - intros z. rewrite prv_insert. destruct (decide (x = z)) as [<-|]; [by rewrite Hp|done].
Qed.
Lemma set_prev_ok h x v : x ∈ dom h -> exists h', set_prev h x v = Ret h' /\
  same_but h h' (fun _ => None) (fun z => if decide (x = z) then Some v else None).
Proof.
  intros Hx. destruct (node_get_ok h x Hx) as (n & Hg & Hn & Hp). unfold set_prev. rewrite Hg. simpl.
  eexists. split; [done|]. split.
  - rewrite dom_insert_L. set_solver.
  - intros z. rewrite nxt_insert. destruct (decide (x = z)) as [<-|]; [by rewrite Hn|done].
  - intros z. rewrite prv_insert. by destruct (decide (x = z)).
Qed.

Lemma linked_dom h x y : linked h x y -> x ∈ dom h /\ y ∈ dom h.
Proof.
  unfold linked, nxt, prv. rewrite !elem_of_dom. intros [Hx Hy].
  destruct (h !! x), (h !! y); simpl in *; by split; eauto.
Qed.
Lemma path_dom h x l y z : path h x l y -> z ∈ x :: l ++ [y] -> z ∈ dom h.
Proof.
  revert x. induction l as [|w l IH]; intros x; simpl.
  - intros [Hx Hy]%linked_dom. set_solver.
  - intros [[Hx Hw]%linked_dom Hp] [->|Hz]%elem_of_cons; [done|]. by apply (IH w).
Qed.

(** One read or write of a sequence: run it and record what it leaves in the
    fields. The domains are kept in terms of the first map. *)
Ltac in_dom :=
  repeat match goal with H : dom ?h' = dom _ |- _ ∈ dom ?h' => rewrite H end;
  match goal with H : ?a ∈ dom ?h |- ?b ∈ dom ?h => replace b with a by congruence; exact H end.
Ltac fields := repeat match goal with
  | H : forall z, nxt ?h z = _ |- context [nxt ?h _] => rewrite H
  | H : forall z, prv ?h z = _ |- context [prv ?h _] => rewrite H
  end.
Ltac heap_step :=
  match goal with
  | |- context [get ?h ?x] =>
      let n := fresh "n" in let Hn := fresh "Hn" in let Hp := fresh "Hp" in
      destruct (node_get_ok h x) as (n & -> & Hn & Hp); [in_dom|]
  | |- context [set_next ?h ?x ?v] =>
      let h' := fresh "h" in let Hd := fresh "Hd" in let Hn := fresh "Hn" in let Hp := fresh "Hp" in
      destruct (set_next_ok h x v) as (h' & -> & [Hd Hn Hp]); [in_dom|];
      match goal with H : dom h = dom _ |- _ => rewrite H in Hd | _ => idtac end
  | |- context [set_prev ?h ?x ?v] =>
      let h' := fresh "h" in let Hd := fresh "Hd" in let Hn := fresh "Hn" in let Hp := fresh "Hp" in
      destruct (set_prev_ok h x v) as (h' & -> & [Hd Hn Hp]); [in_dom|];
      match goal with H : dom h = dom _ |- _ => rewrite H in Hd | _ => idtac end
  end; cbn [mbind outcome_bind].

(** A read whose [next] field is not used. *)
Ltac read_prev :=
  match goal with
  | |- context [get ?h ?x] =>
      let n := fresh "n" in let Hp := fresh "Hp" in
      destruct (node_get_ok h x) as (n & -> & _ & Hp); [in_dom|]
  end; cbn [mbind outcome_bind].
(** Express what was read in terms of the first map. *)
Ltac settle := repeat match goal with
  | H : forall z, nxt ?h z = _, E : nxt ?h _ = Some _ |- _ => rewrite H in E
  | H : forall z, prv ?h z = _, E : prv ?h _ = Some _ |- _ => rewrite H in E
  | E : context [decide _] |- _ =>
      match type of E with forall _, _ => fail 1 | _ => case_decide; try done end
  end; simplify_eq;
  repeat match goal with
  | H : prev ?a = _ |- context [prev ?a] => rewrite H
  | H : next ?a = _ |- context [next ?a] => rewrite H
  end.
(** Conclude: the last map, field by field. *)
Ltac conclude := eexists; split; [reflexivity|]; split; [congruence| |];
  intros z; fields; repeat case_decide; simplify_eq; congruence.

Lemma list_insert_ok h before elem p :
  before ∈ dom h -> elem ∈ dom h -> p ∈ dom h -> prv h before = Some p -> elem <> before -> elem <> p ->
  exists h', list_insert h before elem = Ret h' /\
    same_but h h' (fun z => if decide (z = p) then Some elem else if decide (z = elem) then Some before else None)
                  (fun z => if decide (z = before) then Some elem else if decide (z = elem) then Some p else None).
Proof.
  intros Hb He Hpd Hpb Hne Hnp. unfold list_insert.
  heap_step; settle. do 2 heap_step. heap_step; settle.
  do 2 heap_step. conclude.
Qed.

Lemma list_remove_ok h elem p n :
  elem ∈ dom h -> p ∈ dom h -> n ∈ dom h -> prv h elem = Some p -> nxt h elem = Some n ->
  elem <> p -> elem <> n ->
  exists h', list_remove h elem = Ret (n, h') /\
    same_but h h' (fun z => if decide (z = p) then Some n else None)
                  (fun z => if decide (z = n) then Some p else None).
Proof.
  intros He Hpd Hnd Hpe Hne Hep Hen. unfold list_remove.
  heap_step; settle. heap_step. heap_step; settle. heap_step. heap_step; settle. conclude.
Qed.

Lemma list_replace_ok h element position p n :
  element ∈ dom h -> position ∈ dom h -> p ∈ dom h -> n ∈ dom h ->
  prv h position = Some p -> nxt h position = Some n ->
  element <> position -> element <> p -> element <> n -> position <> p -> position <> n ->
  exists h', list_replace h element position = Ret h' /\
    same_but h h' (fun z => if decide (z = p) then Some element else if decide (z = element) then Some n else None)
                  (fun z => if decide (z = n) then Some element else if decide (z = element) then Some p else None).
Proof.
  intros He Hpo Hpd Hnd Hpp Hnp H1 H2 H3 H4 H5. unfold list_replace.
  heap_step; settle. heap_step. heap_step; settle. heap_step. heap_step; settle. heap_step.
  heap_step; settle. heap_step. conclude.
Qed.

Lemma list_splice_ok h before first last lst p pb :
  before ∈ dom h -> first ∈ dom h -> last ∈ dom h -> lst ∈ dom h -> p ∈ dom h -> pb ∈ dom h ->
  first <> last -> prv h last = Some lst -> nxt h lst = Some last -> prv h first = Some p ->
  prv h before = Some pb -> before <> last -> before <> first -> pb <> lst -> pb <> p -> p <> lst -> p <> first ->
  exists h', list_splice h before first last = Ret h' /\
    same_but h h' (fun z => if decide (z = p) then Some last else if decide (z = lst) then Some before
                            else if decide (z = pb) then Some first else None)
                  (fun z => if decide (z = last) then Some p else if decide (z = first) then Some pb
                            else if decide (z = before) then Some lst else None).
Proof.
  intros. unfold list_splice. destruct (Z.eqb_spec first last); [done|].
  heap_step; settle. heap_step; settle. heap_step; settle. heap_step. heap_step; settle. heap_step; settle.
  heap_step. read_prev; settle. heap_step. heap_step. read_prev; settle. heap_step. heap_step. conclude.
Qed.

(** ** The operations on rings *)

(** The successor of the last element of [l2] in the ring of [hd]. *)
Definition head_of (l : list Z) (hd : Z) : Z := match l with [] => hd | x :: _ => x end.

(** An element in the middle of a ring is the last one of the ring seen from
    its successor. *)
Lemma ring_at_end h hd l1 x l2 : ring h hd (l1 ++ x :: l2) ->
  exists l, ring h (head_of l2 hd) (l ++ [x]) /\ head_of l2 hd :: l ≡ₚ hd :: l1 ++ l2 /\
    forall h' m, ring h' (head_of l2 hd) (l ++ m) -> ring h' hd (l1 ++ m ++ l2).
Proof.
  intros Hr. destruct l2 as [|y l2]; simpl.
  - exists l1. split; [done|]. split; [by rewrite app_nil_r|]. intros h' m. by rewrite app_nil_r.
  - exists (l2 ++ hd :: l1). split; [|split].
    + rewrite <- app_assoc. simpl. apply ring_rotate. by rewrite <- app_assoc.
    + rewrite <- !Permutation_middle, (Permutation_app_comm l2 l1). apply Permutation_swap.
    + intros h' m Hr'. rewrite <- app_assoc in Hr'. simpl in Hr'. apply ring_rotate in Hr'.
      by rewrite <- app_assoc in Hr'.
Qed.

Lemma ring_dom h hd l z : ring h hd l -> z ∈ hd :: l -> z ∈ dom h.
Proof. intros [_ Hp] Hz. apply (path_dom h hd l hd); [done|]. set_solver. Qed.

(** Nodes outside [X] keep their fields. *)
Definition frame (h h' : nodes) (X : list Z) : Prop :=
  dom h' = dom h /\ forall z, z ∉ X -> nxt h' z = nxt h z /\ prv h' z = prv h z.

Lemma frame_ring h h' X hd l : frame h h' X -> (forall z, z ∈ hd :: l -> z ∉ X) -> ring h hd l -> ring h' hd l.
Proof.
  intros [_ Hf] Hd [Hnd Hp]. split; [done|].
  eapply path_ext; [| |done]; intros z Hz; apply Hf, Hd; set_solver.
Qed.

Lemma ring_insert h hd l e : ring h hd l -> e ∈ dom h -> e ∉ hd :: l ->
  exists h', list_insert h hd e = Ret h' /\ frame h h' (e :: hd :: l) /\ ring h' hd (l ++ [e]).
Proof.
  intros Hr He Hn. pose proof Hr as [Hnd Hp]. destruct (path_tail _ _ _ _ Hp) as [Hpt Hnt].
  pose proof (tail_in hd l) as Ht.
  destruct (list_insert_ok h hd e (tail hd l)) as (h' & -> & [Hd Hnx Hpv]);
    [eapply ring_dom; [done|set_solver]|done|by eapply ring_dom|done|set_solver|set_solver|].
  exists h'. split; [done|]. split; [split; [done|]|split].
  - intros z Hz. rewrite Hnx, Hpv. rewrite !decide_False; [done|set_solver..].
  - rewrite app_comm_cons, NoDup_app. split; [done|]. split; [set_solver|apply NoDup_singleton].
  - apply path_app. split.
    + apply (path_move h _ _ _ hd); [done|done|..].
      * intros z Hz Hzt. rewrite Hnx, !decide_False; set_solver.
      * intros z Hz. apply NoDup_cons in Hnd as [? _]. rewrite Hpv, !decide_False; set_solver.
      * by rewrite Hnx, decide_True.
      * rewrite Hpv, decide_False, decide_True; set_solver.
    + split; [rewrite Hnx, decide_False, decide_True|rewrite Hpv, decide_True]; set_solver.
Qed.

Lemma ring_insert_before h hd l1 x l2 e : ring h hd (l1 ++ x :: l2) -> e ∈ dom h -> e ∉ hd :: l1 ++ x :: l2 ->
  exists h', list_insert h x e = Ret h' /\ frame h h' (e :: hd :: l1 ++ x :: l2) /\
    ring h' hd (l1 ++ e :: x :: l2).
Proof.
  intros Hr He Hn. apply ring_rotate in Hr.
  destruct (ring_insert h x (l2 ++ hd :: l1) e Hr He) as (h' & Hi & [Hd Hf] & Hr'); [set_solver|].
  exists h'. split; [done|]. split; [split; [done|]; intros z Hz; apply Hf; set_solver|].
  rewrite <- app_assoc in Hr'. simpl in Hr'. apply ring_rotate in Hr'. by rewrite <- app_assoc in Hr'.
Qed.

Lemma ring_remove h hd l1 e l2 : ring h hd (l1 ++ e :: l2) ->
  exists h', list_remove h e = Ret (head_of l2 hd, h') /\ frame h h' (hd :: l1 ++ l2) /\
    ring h' hd (l1 ++ l2).
Proof.
  intros Hr. destruct (ring_at_end _ _ _ _ _ Hr) as (l & Hr' & Hperm & Hback).
  set (n := head_of l2 hd) in *. pose proof Hr' as [Hnd Hp]. apply path_app in Hp as [Hp He].
  destruct (path_tail _ _ _ _ Hp) as [Hpt Hnt]. pose proof (tail_in n l) as Ht.
  rewrite app_comm_cons in Hnd. apply NoDup_app in Hnd as (Hnd & Hne & _).
  assert (e ∉ n :: l) as Hen by (intros ?; eapply Hne; [done|by left]).
  destruct He as [He1 He2].
  destruct (list_remove_ok h e (tail n l) n) as (h' & -> & [Hd Hnx Hpv]); try done;
    try (eapply ring_dom; [exact Hr'|set_solver]); [set_solver..|].
  exists h'. split; [done|]. split.
  - split; [done|]. intros z Hz. rewrite <- Hperm in Hz. rewrite Hnx, Hpv.
    rewrite !decide_False; [done|set_solver..].
  - apply (Hback h' []). rewrite app_nil_r. split; [done|].
    apply (path_move h _ _ _ e); [done|done|..].
    + intros z Hz Hzt. by rewrite Hnx, decide_False.
    + intros z Hz. apply NoDup_cons in Hnd as [? _]. rewrite Hpv, decide_False; set_solver.
    + by rewrite Hnx, decide_True.
    + by rewrite Hpv, decide_True.
Qed.

Lemma ring_replace h hd l1 x l2 e : ring h hd (l1 ++ x :: l2) -> e ∈ dom h -> e ∉ hd :: l1 ++ x :: l2 ->
  exists h', list_replace h e x = Ret h' /\ frame h h' (e :: hd :: l1 ++ l2) /\
    ring h' hd (l1 ++ e :: l2).
Proof.
  intros Hr Hed Hefresh. destruct (ring_at_end _ _ _ _ _ Hr) as (l & Hr' & Hperm & Hback).
  set (n := head_of l2 hd) in *. pose proof Hr' as [Hnd Hp]. apply path_app in Hp as [Hp Hx].
  destruct (path_tail _ _ _ _ Hp) as [Hpt Hnt]. pose proof (tail_in n l) as Ht.
  rewrite app_comm_cons in Hnd. apply NoDup_app in Hnd as (Hnd & Hne & _).
  assert (x ∉ n :: l) as Hxn by (intros ?; eapply Hne; [done|by left]).
  assert (e ∉ n :: l) as Hen.
  { rewrite Hperm. set_solver. }
  destruct Hx as [Hx1 Hx2].
  destruct (list_replace_ok h e x (tail n l) n) as (h' & -> & [Hd Hnx Hpv]); try done;
    try (eapply ring_dom; [exact Hr'|set_solver]); [set_solver..|].
  exists h'. split; [done|]. split.
  - split; [done|]. intros z Hz. rewrite <- Hperm in Hz. rewrite Hnx, Hpv.
    rewrite !decide_False; [done|set_solver..].
  - apply (Hback h' [e]). split.
    + rewrite app_comm_cons, NoDup_app. split; [done|]. split; [set_solver|apply NoDup_singleton].
    + apply path_app. split.
      * apply (path_move h _ _ _ x); [done|done|..].
        -- intros z Hz Hzt. rewrite Hnx, !decide_False; set_solver.
        -- intros z Hz. apply NoDup_cons in Hnd as [? _]. rewrite Hpv, !decide_False; set_solver.
        -- by rewrite Hnx, decide_True.
        -- rewrite Hpv, decide_False, decide_True; set_solver.
      * split; [rewrite Hnx, decide_False, decide_True|rewrite Hpv, decide_True]; set_solver.
Qed.

Lemma size_loop_ok h hd l x cnt fuel : path h x l hd -> x <> hd -> hd ∉ l -> (S (length l) < fuel)%nat ->
  size_loop fuel h hd x cnt = Ret (foldr (fun _ c => u64 (c + 1)) cnt (x :: l)).
Proof.
  intros Hp Hx Hl Hf.
  enough (forall l x cnt fuel, path h x l hd -> x <> hd -> hd ∉ l -> (S (length l) < fuel)%nat ->
    size_loop fuel h hd x cnt = Ret (foldr (fun _ c => u64 (c + 1)) cnt (x :: l))) as H by (by apply H).
  clear. induction l as [|y l IH]; intros x cnt fuel Hp Hx Hl Hf;
    (destruct fuel as [|fuel]; [lia|]); cbn [size_loop]; rewrite (proj2 (Z.eqb_neq x hd)) by done.
  - destruct Hp as [Hn _]. unfold get, nxt in *. destruct (h !! x) as [n|]; [|done].
    injection Hn as Hn. simpl. rewrite Hn. destruct fuel as [|fuel]; [simpl in Hf; lia|]. simpl.
    by rewrite Z.eqb_refl.
  - destruct Hp as [[Hn _] Hp]. unfold get, nxt in *. destruct (h !! x) as [n|]; [|done].
    injection Hn as Hn. simpl. rewrite Hn.
    rewrite IH; [|done|set_solver|set_solver|simpl in Hf; lia].
    f_equal. clear. simpl. induction l as [|z l IHl]; simpl; [done|]. by rewrite IHl.
Qed.

Lemma u64_count {A} (l : list A) : foldr (fun _ c => u64 (c + 1)) 0 l = u64 (Z.of_nat (length l)).
Proof.
  induction l as [|x l IH]; [done|]. simpl. rewrite IH. unfold u64.
  rewrite Zplus_mod_idemp_l. f_equal. lia.
Qed.

Lemma ring_next h hd l : ring h hd l -> exists n, get h hd = Ret n /\ next n = head_of l hd /\ prev n = tail hd l.
Proof.
  intros Hr. pose proof Hr as [_ Hp]. destruct (path_tail _ _ _ _ Hp) as [Hpt _].
  destruct (node_get_ok h hd) as (n & Hg & Hn & Hpv); [eapply ring_dom; [done|by left]|].
  exists n. split; [done|]. rewrite Hpv in Hpt. injection Hpt as Hpt. split; [|done].
  destruct l as [|x l]; simpl in Hp; [destruct Hp as [E _]|destruct Hp as [[E _] _]];
    rewrite Hn in E; by injection E.
Qed.

Lemma ring_size h hd l : ring h hd l -> list_size h hd = Ret (u64 (Z.of_nat (length l))).
Proof.
  intros Hr. pose proof Hr as [Hnd Hp]. unfold list_size.
  destruct (ring_next h hd l Hr) as (n & -> & Hn & _). cbn [mbind outcome_bind]. rewrite Hn.
  destruct l as [|x l]; cbn [head_of]; [by simpl; rewrite Z.eqb_refl|]. destruct Hp as [_ Hp].
  assert (length (hd :: x :: l) <= size (dom h))%nat as Hsz.
  { rewrite <- (size_list_to_set (C := gset Z)) by done. apply subseteq_size.
    intros z Hz%elem_of_list_to_set. by eapply ring_dom. }
  rewrite size_dom in Hsz. apply NoDup_cons in Hnd as [Hh _].
  rewrite (size_loop_ok h hd l x 0 (S (size h))); [by rewrite u64_count|done|set_solver|set_solver|simpl in Hsz; lia].
Qed.

Lemma ring_is_empty h hd l : ring h hd l -> list_is_empty h hd = Ret (bool_decide (l = [])).
Proof.
  intros Hr. unfold list_is_empty. destruct (ring_next h hd l Hr) as (n & -> & Hn & _). simpl. rewrite Hn.
  destruct Hr as [Hnd _]. destruct l as [|x l]; simpl; [by rewrite Z.eqb_refl|].
  apply NoDup_cons in Hnd as [Hh _]. rewrite (proj2 (Z.eqb_neq x hd)) by set_solver. done.
Qed.

(** [list_splice] moves the elements [first]..[last] (without [last]) of one
    list to the end of another. *)
Lemma ring_splice h last r first seg before l :
  ring h last (r ++ first :: seg) -> ring h before l ->
  (forall z, z ∈ before :: l -> z ∉ last :: r ++ first :: seg) ->
  exists h', list_splice h before first last = Ret h' /\
    frame h h' ((last :: r ++ first :: seg) ++ before :: l) /\
    ring h' last r /\ ring h' before (l ++ first :: seg).
Proof.
  intros Hr1 Hr2 Hdis. pose proof Hr1 as [Hnd1 Hp1]. pose proof Hr2 as [Hnd2 Hp2].
  apply path_app in Hp1 as [Hpr Hps]. destruct (path_tail _ _ _ _ Hpr) as [Hf1 Hf2].
  destruct (path_tail _ _ _ _ Hps) as [Hl1 Hl2]. destruct (path_tail _ _ _ _ Hp2) as [Hb1 Hb2].
  pose proof (tail_in last r) as Tp. pose proof (tail_in first seg) as Tl. pose proof (tail_in before l) as Tb.
  rewrite app_comm_cons in Hnd1. apply NoDup_app in Hnd1 as (Hndr & Hrs & Hnds).
  assert (forall z, z ∈ before :: l -> z ∈ last :: r -> False) as D1 by (intros z ? ?; apply (Hdis z); set_solver).
  assert (forall z, z ∈ before :: l -> z ∈ first :: seg -> False) as D2 by (intros z ? ?; apply (Hdis z); set_solver).
  assert (forall z w, z ∈ last :: r -> w ∈ first :: seg -> w <> z) as D3 by (intros z w ? ? ->; by eapply Hrs).
  assert (before ∈ before :: l) as Ib by by left. assert (first ∈ first :: seg) as If by by left.
  assert (last ∈ last :: r) as Il by by left.
  set (p := tail last r) in *. set (lst := tail first seg) in *. set (pb := tail before l) in *.
  assert (forall z, z ∈ last :: r -> z ∈ dom h) as M1.
  { intros z Hz. eapply ring_dom; [exact Hr1|]. rewrite app_comm_cons. apply elem_of_app. by left. }
  assert (forall z, z ∈ first :: seg -> z ∈ dom h) as M2.
  { intros z Hz. eapply ring_dom; [exact Hr1|]. rewrite app_comm_cons. apply elem_of_app. by right. }
  assert (forall z, z ∈ before :: l -> z ∈ dom h) as M3 by (intros z Hz; by eapply ring_dom).
  assert (forall z w, z ∈ before :: l -> w ∈ last :: r -> z <> w) as N1 by (intros z w ? ? ->; eauto).
  assert (forall z w, z ∈ before :: l -> w ∈ first :: seg -> z <> w) as N2 by (intros z w ? ? ->; eauto).
  destruct (list_splice_ok h before first last lst p pb) as (h' & -> & [Hd Hnx Hpv]);
    [by auto..|by apply D3|done|done|done|done|by apply N1|by apply N2|by apply N2|by apply N1| | |].
  { intros ->. by apply (D3 lst lst). }
  { intros E. by apply (D3 p first). }
  assert (forall z, z ∈ last :: r -> z <> p -> nxt h' z = nxt h z) as K1.
  { intros z Hz Hzp. rewrite Hnx, !decide_False; [done|..|done];
      intros ->; [by apply (N1 pb pb)|by apply (D3 lst lst)]. }
  assert (forall z, z ∈ first :: seg -> z <> lst -> nxt h' z = nxt h z) as K2.
  { intros z Hz Hzp. rewrite Hnx, !decide_False; [done|..|done|]; intros ->;
      [by apply (N2 pb pb)|by apply (D3 p p)]. }
  assert (forall z, z ∈ before :: l -> z <> pb -> nxt h' z = nxt h z) as K3.
  { intros z Hz Hzp. rewrite Hnx, !decide_False; [done|done|..]; intros ->;
      [by apply (N2 lst lst)|by apply (N1 p p)]. }
  assert (forall z, z ∈ r -> prv h' z = prv h z) as P1.
  { intros z Hz. assert (z ∈ last :: r) by by right. apply NoDup_cons in Hndr as [Hlr _].
    rewrite Hpv, !decide_False; [done|..]; intros ->;
      [by apply (N1 before before)|by apply (D3 first first)|done]. }
  assert (forall z, z ∈ seg -> prv h' z = prv h z) as P2.
  { intros z Hz. assert (z ∈ first :: seg) by by right. apply NoDup_cons in Hnds as [Hfs _].
    rewrite Hpv, !decide_False; [done|..]; intros ->;
      [by apply (N2 before before)|done|by apply (D3 last last)]. }
  assert (forall z, z ∈ l -> prv h' z = prv h z) as P3.
  { intros z Hz. assert (z ∈ before :: l) by by right. apply NoDup_cons in Hnd2 as [Hbl _].
    rewrite Hpv, !decide_False; [done|..]; intros ->;
      [done|by apply (N2 first first)|by apply (N1 last last)]. }
  exists h'. split; [done|]. split; [|split].
  - split; [done|]. intros z Hz. rewrite app_comm_cons, <- app_assoc, !not_elem_of_app in Hz.
    destruct Hz as (Z1 & Z2 & Z3). rewrite Hnx, Hpv, !decide_False; [done|..]; intros ->; done.
  - split; [done|]. apply (path_move h _ _ _ first); [done..| |].
    + by rewrite Hnx, decide_True.
    + by rewrite Hpv, decide_True.
  - split.
    + rewrite app_comm_cons, NoDup_app. split; [done|]. split; [|done]. intros z ? ?. by apply (D2 z).
    + apply path_app. split.
      * apply (path_move h _ _ _ before); [done..| |].
        -- rewrite Hnx, decide_False, decide_False, decide_True; [done|done|by apply N2|by apply N1].
        -- rewrite Hpv, decide_False, decide_True; [done|done|by apply D3].
      * apply (path_move h _ _ _ last); [done..| |].
        -- rewrite Hnx, decide_False, decide_True; [done|done|by apply D3].
        -- rewrite Hpv, decide_False, decide_False, decide_True; [done|done|by apply N2|by apply N1].
Qed.

(** ** The lists as sequences

    The calls a client makes on one list, and what they do to the sequence of
    its elements. *)
Inductive op : Set :=
| PushFront (e : Z) | PushBack (e : Z) | InsertBefore (x e : Z) | Replace (e x : Z)
| Remove (e : Z) | PopFront | PopBack | Front | Back | Size | IsEmpty.

Definition run_op (h : nodes) (hd : Z) (o : op) : outcome (Z * nodes) :=
  match o with
  | PushFront e => h ← list_push_front h hd e; Ret (0, h)
  | PushBack e => h ← list_push_back h hd e; Ret (0, h)
  | InsertBefore x e => h ← list_insert h x e; Ret (0, h)
  | Replace e x => h ← list_replace h e x; Ret (0, h)
  | Remove e => list_remove h e
  | PopFront => list_pop_front h hd
  | PopBack => list_pop_back h hd
  | Front => v ← list_front h hd; Ret (v, h)
  | Back => v ← list_back h hd; Ret (v, h)
  | Size => v ← list_size h hd; Ret (v, h)
  | IsEmpty => b ← list_is_empty h hd; Ret (if (b : bool) then 1 else 0, h)
  end.
Fixpoint run_ops (h : nodes) (hd : Z) (os : list op) : outcome (list Z * nodes) :=
  match os with
  | [] => Ret ([], h)
  | o :: os => '(v, h) ← run_op h hd o; '(vs, h) ← run_ops h hd os; Ret (v :: vs, h)
  end.

(** The elements before and after the first occurrence of [x]. *)
Fixpoint cut (x : Z) (l : list Z) : option (list Z * list Z) :=
  match l with
  | [] => None
  | y :: l' => if decide (x = y) then Some ([], l')
               else match cut x l' with None => None | Some (l1, l2) => Some (y :: l1, l2) end
  end.
(** [D]: the nodes there are; [None]: the call is not allowed (an element
    that is in the list already, a pop of an empty list, ...). *)
Definition fresh_elem (D : gset Z) (hd : Z) (l : list Z) (e : Z) : Prop := e ∈ D /\ e ∉ hd :: l.
#[global] Instance fresh_elem_dec D hd l e : Decision (fresh_elem D hd l e).
Proof. unfold fresh_elem. apply _. Defined.
Definition spec_op (D : gset Z) (hd : Z) (l : list Z) (o : op) : option (Z * list Z) :=
  match o with
  | PushFront e => if decide (fresh_elem D hd l e) then Some (0, e :: l) else None
  | PushBack e => if decide (fresh_elem D hd l e) then Some (0, l ++ [e]) else None
  | InsertBefore x e =>
      if decide (fresh_elem D hd l e) then match cut x l with None => None | Some (l1, l2) => Some (0, l1 ++ e :: x :: l2) end else None
  | Replace e x =>
      if decide (fresh_elem D hd l e) then match cut x l with None => None | Some (l1, l2) => Some (0, l1 ++ e :: l2) end else None
  | Remove e => match cut e l with None => None | Some (l1, l2) => Some (head_of l2 hd, l1 ++ l2) end
  | PopFront => match l with [] => None | e :: l' => Some (e, l') end
  | PopBack => match rev l with [] => None | e :: l' => Some (e, rev l') end
  | Front => match l with [] => None | e :: _ => Some (e, l) end
  | Back => match rev l with [] => None | e :: _ => Some (e, l) end
  | Size => Some (u64 (Z.of_nat (length l)), l)
  | IsEmpty => Some (if decide (l = []) then 1 else 0, l)
  end.
Fixpoint spec_ops (D : gset Z) (hd : Z) (l : list Z) (os : list op) : option (list Z * list Z) :=
  match os with
  | [] => Some ([], l)
  | o :: os =>
      match spec_op D hd l o with
      | None => None
      | Some (v, l) => match spec_ops D hd l os with None => None | Some (vs, l) => Some (v :: vs, l) end
      end
  end.

Lemma cut_app x l l1 l2 : cut x l = Some (l1, l2) -> l = l1 ++ x :: l2.
Proof.
  revert l1 l2. induction l as [|y l IH]; intros l1 l2; simpl; [done|].
  case_decide as E; [by intros [= <- <-]; subst|].
  destruct (cut x l) as [[m1 m2]|]; simpl; [|done]. intros [= <- <-]. simpl. f_equal. by apply IH.
Qed.

Lemma frame_dom h h' X : frame h h' X -> dom h' = dom h.
Proof. by intros [? _]. Qed.

Lemma rev_last (l l' : list Z) e : rev l = e :: l' -> l = rev l' ++ [e].
Proof. intros H. rewrite <- (rev_involutive l), H. done. Qed.

Lemma list_op_refines h hd l o v l' : ring h hd l -> spec_op (dom h) hd l o = Some (v, l') ->
  exists h', run_op h hd o = Ret (v, h') /\ dom h' = dom h /\ ring h' hd l'.
Proof.
  intros Hr Hs. destruct (ring_next h hd l Hr) as (n & Hg & Hn & Hp).
  destruct o as [e|e|x e|e x|e| | | | | |]; simpl in Hs |- *.
  - case_decide as Hfr; [|done]. injection Hs as <- <-. destruct Hfr as [Hd He].
    unfold list_push_front. rewrite Hg. simpl. rewrite Hn. destruct l as [|x l]; simpl.
    + destruct (ring_insert h hd [] e) as (h' & -> & [Hd' _] & Hr'); eauto.
    + destruct (ring_insert_before h hd [] x l e) as (h' & -> & [Hd' _] & Hr'); eauto.
  - case_decide as Hfr; [|done]. injection Hs as <- <-. destruct Hfr as [Hd He].
    destruct (ring_insert h hd l e) as (h' & H & [Hd' _] & Hr'); [done..|].
    unfold list_push_back. rewrite H. eauto.
  - case_decide as Hfr; [|done]. destruct Hfr as [Hd He].
    destruct (cut x l) as [[l1 l2]|] eqn:Hc; [|done]. injection Hs as <- <-. apply cut_app in Hc as ->.
    destruct (ring_insert_before h hd l1 x l2 e) as (h' & -> & [Hd' _] & Hr'); eauto.
  - case_decide as Hfr; [|done]. destruct Hfr as [Hd He].
    destruct (cut x l) as [[l1 l2]|] eqn:Hc; [|done]. injection Hs as <- <-. apply cut_app in Hc as ->.
    destruct (ring_replace h hd l1 x l2 e) as (h' & -> & [Hd' _] & Hr'); eauto.
  - destruct (cut e l) as [[l1 l2]|] eqn:Hc; [|done]. injection Hs as <- <-. apply cut_app in Hc as ->.
    destruct (ring_remove h hd l1 e l2) as (h' & -> & [Hd' _] & Hr'); eauto.
  - destruct l as [|e l]; [done|]. injection Hs as <- <-. unfold list_pop_front. rewrite Hg. simpl.
    rewrite Hn. destruct (ring_remove h hd [] e l) as (h' & Hrm & [Hd' _] & Hr'); [done|].
    simpl. rewrite Hrm. eauto.
  - destruct (rev l) as [|e m] eqn:Hrev; [done|]. injection Hs as <- <-. apply rev_last in Hrev as ->.
    unfold list_pop_back. rewrite Hg. simpl. rewrite Hp, tail_app.
    destruct (ring_remove h hd (rev m) e []) as (h' & Hrm & [Hd' _] & Hr'); [done|].
    simpl. rewrite Hrm. rewrite app_nil_r in Hr'. eauto.
  - destruct l as [|e l]; [done|]. injection Hs as <- <-. unfold list_front.
    rewrite (ring_is_empty _ _ _ Hr), Hg. simpl. rewrite Hn. eauto.
  - destruct (rev l) as [|e m] eqn:Hrev; [done|]. injection Hs as <- <-. apply rev_last in Hrev as ->.
    unfold list_back. rewrite (ring_is_empty _ _ _ Hr), Hg. rewrite bool_decide_eq_false_2 by (by destruct (rev m)).
    simpl. rewrite Hp, tail_app. eauto.
  - injection Hs as <- <-. rewrite (ring_size _ _ _ Hr). eauto.
  - injection Hs as <- <-. rewrite (ring_is_empty _ _ _ Hr). simpl. exists h. split; [|done].
    by destruct l.
Qed.

(** ** Properties *)

(** C37: The pointer structure implements the sequence: any series of calls that is
    allowed on the sequence runs on the nodes without an invalid access, returns
    the same values and ends in a well-formed ring of the resulting elements. *)
Theorem list_refines_sequence h hd l os vs l' :
  ring h hd l -> spec_ops (dom h) hd l os = Some (vs, l') ->
  exists h', run_ops h hd os = Ret (vs, h') /\ ring h' hd l'.
Proof.
  revert h l vs. induction os as [|o os IH]; intros h l vs Hr Hs; simpl in Hs |- *.
  - injection Hs as <- <-. eauto.
  - destruct (spec_op (dom h) hd l o) as [[v m]|] eqn:Ho; [|done]. simpl in Hs.
    destruct (spec_ops (dom h) hd m os) as [[ws k]|] eqn:Hos; [|done]. injection Hs as <- <-.
    destruct (list_op_refines h hd l o v m Hr Ho) as (h1 & -> & Hd & Hr1). simpl.
    rewrite <- Hd in Hos. destruct (IH h1 m ws Hr1 Hos) as (h' & -> & Hr'). simpl. eauto.
Qed.

(** Five nodes, node 1 an initialised head. *)
Definition demo_nodes : nodes :=
  list_to_map [(1, Node 1 1); (2, Node 0 0); (3, Node 0 0); (4, Node 0 0); (5, Node 0 0)].
Lemma demo_ring : ring demo_nodes 1 [].
Proof. split; [apply NoDup_singleton|]. split; reflexivity. Qed.

Lemma list_refines_sequence_witness : exists h',
  run_ops demo_nodes 1 [PushBack 2; PushFront 3; InsertBefore 2 4; Replace 5 3; Size; Remove 4; PopBack; Front]
    = Ret ([0; 0; 0; 0; 3; 2; 2; 5], h') /\ ring h' 1 [5].
Proof.
  apply (list_refines_sequence demo_nodes 1 []).
  - apply demo_ring.
  - vm_compute. reflexivity.
Defined.

(** [list_splice] moves a run of elements of one list to the end of another and
    touches no third list. *)
Theorem splice_moves h last r first seg before l hd3 l3 :
  ring h last (r ++ first :: seg) -> ring h before l -> ring h hd3 l3 ->
  (forall z, z ∈ before :: l -> z ∉ last :: r ++ first :: seg) ->
  (forall z, z ∈ hd3 :: l3 -> z ∉ (last :: r ++ first :: seg) ++ before :: l) ->
  exists h', list_splice h before first last = Ret h' /\
    ring h' last r /\ ring h' before (l ++ first :: seg) /\ ring h' hd3 l3.
Proof.
  intros H1 H2 H3 D1 D2. destruct (ring_splice h last r first seg before l H1 H2 D1) as (h' & Hs & Hf & R1 & R2).
  exists h'. split; [done|]. split; [done|]. split; [done|]. by apply (frame_ring _ _ _ _ _ Hf).
Qed.
Definition demo_three : nodes :=
  list_to_map [(1, Node 3 2); (2, Node 1 3); (3, Node 2 1); (4, Node 5 5); (5, Node 4 4); (6, Node 6 6)].
Lemma splice_moves_witness : exists h', list_splice demo_three 4 2 1 = Ret h' /\
  ring h' 1 [] /\ ring h' 4 [5; 2; 3] /\ ring h' 6 [].
Proof.
  apply (splice_moves demo_three 1 [] 2 [3] 4 [5] 6 []).
  - split; [apply (bool_decide_unpack _); vm_compute; exact I|]. repeat split; reflexivity.
  - split; [apply (bool_decide_unpack _); vm_compute; exact I|]. repeat split; reflexivity.
  - split; [apply NoDup_singleton|]. split; reflexivity.
  - intros z. simpl. rewrite !elem_of_cons, !elem_of_nil. intuition lia.
  - intros z. simpl. rewrite !elem_of_cons, !elem_of_nil. intuition lia.
Defined.
