(* ===== verification/Hash.v ===== *)
(** * [lwip/src/core/hash.c] and [include/mlib/hash.h]: Jenkins' hash

    32-bit words are numbers below [2^32]; the three chaining variables are
    threaded through the lines of the macros [HASH_MIX] and [HASH_FINAL]. *)

From S2P Require Import Prelude.

Definition HASH_ROT (x k : Z) : Z := Z.lor (u32 (Z.shiftl x k)) (Z.shiftr x (32 - k)).

(** One line of [HASH_MIX]: [a -= c; a ^= HASH_ROT(c, k); c += b;] *)
Definition mix_line (a b c k : Z) : Z * Z :=
  (Z.lxor (u32 (a - c)) (HASH_ROT c k), u32 (c + b)).
Definition HASH_MIX (a b c : Z) : Z * Z * Z :=
  let '(a, c) := mix_line a b c 4 in
  let '(b, a) := mix_line b c a 6 in
  let '(c, b) := mix_line c a b 8 in
  let '(a, c) := mix_line a b c 16 in
  let '(b, a) := mix_line b c a 19 in
  let '(c, b) := mix_line c a b 4 in
  (a, b, c).

(** One line of [HASH_FINAL]: [c ^= b; c -= HASH_ROT(b, k);] *)
Definition final_line (c b k : Z) : Z := u32 (Z.lxor c b - HASH_ROT b k).
Definition HASH_FINAL (a b c : Z) : Z * Z * Z :=
  let c := final_line c b 14 in
  let a := final_line a c 11 in
  let b := final_line b a 25 in
  let c := final_line c b 16 in
  let a := final_line a c 4 in
  let b := final_line b a 14 in
  let c := final_line c b 24 in
  (a, b, c).

(** The [while (n > 3)] loop and the [switch] of [hash_words]. *)
Fixpoint words_loop (p : list Z) (a b c : Z) : Z :=
  match p with
  | [] => c
  | [p0] => let '(_, _, c) := HASH_FINAL (u32 (a + p0)) b c in c
  | [p0; p1] => let '(_, _, c) := HASH_FINAL (u32 (a + p0)) (u32 (b + p1)) c in c
  | [p0; p1; p2] => let '(_, _, c) := HASH_FINAL (u32 (a + p0)) (u32 (b + p1)) (u32 (c + p2)) in c
  | p0 :: p1 :: p2 :: p' =>
      let '(a, b, c) := HASH_MIX (u32 (a + p0)) (u32 (b + p1)) (u32 (c + p2)) in
      words_loop p' a b c
  end.
(** [hash_words(p, n, basis)] with the [n] words [p]. *)
Definition hash_words (p : list Z) (basis : Z) : Z :=
  let init := u32 (0xdeadbeef + u32 (Z.shiftl (u32 (Z.of_nat (length p))) 2) + basis) in
  words_loop p init init init.

Definition hash_3words (a b c : Z) : Z :=
  let a := u32 (a + 0xdeadbeef) in
  let b := u32 (b + 0xdeadbeef) in
  let c := u32 (c + 0xdeadbeef) in
  let '(_, _, c) := HASH_FINAL a b c in c.

Definition hash_2words (a b : Z) : Z := hash_3words a b 0.

(** The word at four bytes of a little-endian host. *)
Definition word4 (b0 b1 b2 b3 : Z) : Z := b0 + 256 * b1 + 65536 * b2 + 16777216 * b3.
(** [memcpy(tmp, p, n)] into the zeroed [tmp], as words. *)
Definition byte_at (p : list Z) (i : nat) : Z := default 0 (p !! i).
Definition tmp_word (p : list Z) (i : nat) : Z :=
  word4 (byte_at p (4 * i)) (byte_at p (4 * i + 1)) (byte_at p (4 * i + 2)) (byte_at p (4 * i + 3)).

(** The [while (n >= sizeof tmp)] loop of [hash_bytes] and its tail. *)
Fixpoint bytes_loop (p : list Z) (a b c : Z) : Z :=
  match p with
  | b0 :: b1 :: b2 :: b3 :: b4 :: b5 :: b6 :: b7 :: b8 :: b9 :: b10 :: b11 :: p' =>
      let '(a, b, c) := HASH_MIX (u32 (a + word4 b0 b1 b2 b3)) (u32 (b + word4 b4 b5 b6 b7))
                          (u32 (c + word4 b8 b9 b10 b11)) in
      bytes_loop p' a b c
  | [] => c
  | _ =>
      let '(_, _, c) := HASH_FINAL (u32 (a + tmp_word p 0)) (u32 (b + tmp_word p 1))
                          (u32 (c + tmp_word p 2)) in c
  end.
Definition hash_bytes (p : list Z) (basis : Z) : Z :=
  let init := u32 (0xdeadbeef + Z.of_nat (length p) + basis) in
  bytes_loop p init init init.

(** ** Inverses of the mixing steps *)
Definition unmix_line (a' b c' k : Z) : Z * Z :=
  let c := u32 (c' - b) in (u32 (Z.lxor a' (HASH_ROT c k) + c), c).
Definition HASH_UNMIX (a b c : Z) : Z * Z * Z :=
  let '(c, b) := unmix_line c a b 4 in
  let '(b, a) := unmix_line b c a 19 in
  let '(a, c) := unmix_line a b c 16 in
  let '(c, b) := unmix_line c a b 8 in
  let '(b, a) := unmix_line b c a 6 in
  let '(a, c) := unmix_line a b c 4 in
  (a, b, c).
Definition unfinal_line (c' b k : Z) : Z := Z.lxor (u32 (c' + HASH_ROT b k)) b.
Definition HASH_UNFINAL (a b c : Z) : Z * Z * Z :=
  let c := unfinal_line c b 24 in
  let b := unfinal_line b a 14 in
  let a := unfinal_line a c 4 in
  let c := unfinal_line c b 16 in
  let b := unfinal_line b a 25 in
  let a := unfinal_line a c 11 in
  let c := unfinal_line c b 14 in
  (a, b, c).

Lemma is_u32_land x : is_u 32 x <-> Z.land x (Z.ones 32) = x.
Proof.
  rewrite Z.land_ones by lia. unfold is_u. split; [apply Z.mod_small|].
  intros <-. apply Z.mod_pos_bound. lia.
Qed.
Lemma is_u32_lxor x y : is_u 32 x -> is_u 32 y -> is_u 32 (Z.lxor x y).
Proof.
  rewrite !is_u32_land. intros Hx Hy. rewrite <- Hx, <- Hy.
  apply Z.bits_inj'. intros n Hn. rewrite !Z.land_spec, !Z.lxor_spec, !Z.land_spec.
  destruct (Z.testbit x n), (Z.testbit y n), (Z.testbit (Z.ones 32) n); done.
Qed.
Lemma is_u32_lor x y : is_u 32 x -> is_u 32 y -> is_u 32 (Z.lor x y).
Proof.
  rewrite !is_u32_land. intros Hx Hy. rewrite <- Hx, <- Hy.
  apply Z.bits_inj'. intros n Hn. rewrite !Z.land_spec, !Z.lor_spec, !Z.land_spec.
  destruct (Z.testbit x n), (Z.testbit y n), (Z.testbit (Z.ones 32) n); done.
Qed.
Lemma is_u32_u32 x : is_u 32 (u32 x).
Proof. apply u32_range. Qed.
Lemma is_u32_rot x k : 0 <= k <= 32 -> is_u 32 x -> is_u 32 (HASH_ROT x k).
Proof.
  intros Hk [H0 Hx]. apply is_u32_lor; [apply is_u32_u32|]. rewrite Z.shiftr_div_pow2 by lia.
  assert (0 < 2 ^ (32 - k)) by (apply Z.pow_pos_nonneg; lia).
  split; [apply Z.div_pos; lia|]. apply Z.div_lt_upper_bound; [lia|]. nia.
Qed.
#[export] Hint Resolve is_u32_u32 is_u32_lxor : uzmq.

Lemma lxor_cancel x y : Z.lxor (Z.lxor x y) y = x.
Proof. by rewrite Z.lxor_assoc, Z.lxor_nilpotent, Z.lxor_0_r. Qed.
Lemma u32_sub_add x y : is_u 32 x -> u32 (u32 (x - y) + y) = x.
Proof. unfold u32, is_u. intros. change (2 ^ 32) with 4294967296 in *. zdm. Qed.
Lemma u32_add_sub x y : is_u 32 x -> u32 (u32 (x + y) - y) = x.
Proof. unfold u32, is_u. intros. change (2 ^ 32) with 4294967296 in *. zdm. Qed.

Lemma unmix_mix_line a b c k : is_u 32 a -> is_u 32 c ->
  unmix_line (mix_line a b c k).1 b (mix_line a b c k).2 k = (a, c).
Proof.
  intros Ha Hc. unfold unmix_line, mix_line. simpl.
  by rewrite u32_add_sub, lxor_cancel, u32_sub_add.
Qed.
Lemma mix_line_range a b c k : 0 <= k <= 32 -> is_u 32 c ->
  is_u 32 (mix_line a b c k).1 /\ is_u 32 (mix_line a b c k).2.
Proof. intros. split; simpl; auto using is_u32_u32, is_u32_lxor, is_u32_rot. Qed.
Lemma unfinal_final_line c b k : is_u 32 c -> is_u 32 b -> unfinal_line (final_line c b k) b k = c.
Proof.
  intros. unfold unfinal_line, final_line. rewrite u32_sub_add by auto using is_u32_lxor.
  apply lxor_cancel.
Qed.

(** One line run forwards: name its results and keep what is known of them. *)
Ltac run_mix_line :=
  match goal with
  | |- context [mix_line ?a ?b ?c ?k] =>
      let E := fresh "E" in let R1 := fresh "R" in let R2 := fresh "R" in
      let x := fresh "x" in let z := fresh "z" in
      destruct (mix_line_range a b c k) as [R1 R2]; [lia|assumption|];
      pose proof (unmix_mix_line a b c k) as E;
      destruct (mix_line a b c k) as [x z]; cbn [fst snd] in E, R1, R2;
      specialize (E ltac:(assumption) ltac:(assumption))
  end.
Ltac run_unmix := repeat match goal with E : unmix_line ?a ?b ?c ?k = _ |- context [unmix_line ?a ?b ?c ?k] => rewrite E end.

Lemma mix_invertible a b c : is_u 32 a -> is_u 32 b -> is_u 32 c ->
  exists a' b' c', HASH_MIX a b c = (a', b', c') /\ is_u 32 a' /\ is_u 32 b' /\ is_u 32 c' /\
    HASH_UNMIX a' b' c' = (a, b, c).
Proof.
  intros Ha Hb Hc. unfold HASH_MIX. do 6 run_mix_line. eexists _, _, _. split; [reflexivity|].
  split; [done|]. split; [done|]. split; [done|]. unfold HASH_UNMIX. by run_unmix.
Qed.

Lemma final_invertible a b c : is_u 32 a -> is_u 32 b -> is_u 32 c ->
  exists a' b' c', HASH_FINAL a b c = (a', b', c') /\ is_u 32 a' /\ is_u 32 b' /\ is_u 32 c' /\
    HASH_UNFINAL a' b' c' = (a, b, c).
Proof.
  intros Ha Hb Hc. unfold HASH_FINAL.
  do 7 match goal with
  | |- context [final_line ?c ?b ?k] =>
      let E := fresh "E" in let R := fresh "R" in let x := fresh "x" in
      pose proof (unfinal_final_line c b k ltac:(assumption) ltac:(assumption)) as E;
      assert (is_u 32 (final_line c b k)) as R by apply is_u32_u32;
      set (x := final_line c b k) in *; clearbody x
  end.
  eexists _, _, _. split; [reflexivity|]. split; [done|]. split; [done|]. split; [done|].
  unfold HASH_UNFINAL.
  by repeat match goal with E : unfinal_line ?a ?b ?k = _ |- context [unfinal_line ?a ?b ?k] => rewrite E end.
Qed.

(** ** Words and bytes *)
Definition le_bytes (w : Z) : list Z :=
  [w mod 256; w / 256 mod 256; w / 65536 mod 256; w / 16777216 mod 256].
Definition le_words (ws : list Z) : list Z := concat (map le_bytes ws).

Lemma word4_le w : is_u 32 w ->
  word4 (w mod 256) (w / 256 mod 256) (w / 65536 mod 256) (w / 16777216 mod 256) = w.
Proof. unfold is_u, word4. change (2 ^ 32) with 4294967296. intros. zdm. Qed.

Lemma length_le_words ws : length (le_words ws) = (4 * length ws)%nat.
Proof. induction ws as [|w ws IH]; [done|]. unfold le_words in *. simpl. rewrite IH. lia. Qed.

Lemma words_bytes_loop k : forall ws a b c, (length ws <= k)%nat -> (length ws mod 3 <> 0)%nat ->
  Forall (is_u 32) ws -> is_u 32 b -> is_u 32 c ->
  words_loop ws a b c = bytes_loop (le_words ws) a b c.
Proof.
  induction k as [|k IH]; intros ws a b c Hk Hm Hw Hb Hc; [by destruct ws; simpl in *; [|lia]|].
  assert (forall x, is_u 32 x -> u32 (x + 0) = x) as H0.
  { intros x Hx. rewrite Z.add_0_r. by apply u32_small. }
  destruct ws as [|w0 [|w1 [|w2 [|w3 ws]]]]; [done| | |done|].
  - apply Forall_cons in Hw as [W0 _]. cbn -[HASH_FINAL u32 word4 tmp_word]. unfold tmp_word. cbn -[HASH_FINAL u32 word4].
    change (word4 0 0 0 0) with 0. rewrite word4_le by done. by rewrite (H0 b), (H0 c).
  - apply Forall_cons in Hw as [W0 [W1 _]%Forall_cons]. cbn -[HASH_FINAL u32 word4 tmp_word]. unfold tmp_word.
    cbn -[HASH_FINAL u32 word4]. change (word4 0 0 0 0) with 0. rewrite !word4_le by done. by rewrite (H0 c).
  - apply Forall_cons in Hw as [W0 [W1 [W2 Hw]%Forall_cons]%Forall_cons].
    change (le_words (w0 :: w1 :: w2 :: w3 :: ws)) with
      (le_bytes w0 ++ le_bytes w1 ++ le_bytes w2 ++ le_words (w3 :: ws)).
    unfold le_bytes at 1 2 3. cbn [app bytes_loop]. rewrite !word4_le by done.
    change (words_loop (w0 :: w1 :: w2 :: w3 :: ws) a b c) with
      (let '(a, b, c) := HASH_MIX (u32 (a + w0)) (u32 (b + w1)) (u32 (c + w2)) in
       words_loop (w3 :: ws) a b c).
    destruct (mix_invertible (u32 (a + w0)) (u32 (b + w1)) (u32 (c + w2))) as
      (a' & b' & c' & -> & _ & Hb' & Hc' & _); [apply is_u32_u32..|].
    apply IH; [simpl in *; lia| |done|done|done].
    replace (length (w0 :: w1 :: w2 :: w3 :: ws)) with (length (w3 :: ws) + 1 * 3)%nat in Hm by (simpl; lia).
    by rewrite Nat.Div0.mod_add in Hm.
Qed.

(** ** Properties *)

(** Mixing loses nothing: [HASH_MIX] and [HASH_FINAL] are one-to-one on triples
    of 32-bit words, so two inputs of the same length whose blocks leave different
    chaining variables keep them different. *)
Theorem hash_mix_invertible a b c : is_u 32 a -> is_u 32 b -> is_u 32 c ->
  (let '(a', b', c') := HASH_MIX a b c in HASH_UNMIX a' b' c' = (a, b, c)) /\
  (let '(a', b', c') := HASH_FINAL a b c in HASH_UNFINAL a' b' c' = (a, b, c)).
Proof.
  intros Ha Hb Hc. destruct (mix_invertible a b c) as (a1 & b1 & c1 & -> & _ & _ & _ & H1); [done..|].
  destruct (final_invertible a b c) as (a2 & b2 & c2 & -> & _ & _ & _ & H2); done.
Qed.
Lemma hash_mix_invertible_witness :
  (let '(a', b', c') := HASH_MIX 1 2 0xffffffff in HASH_UNMIX a' b' c' = (1, 2, 0xffffffff)) /\
  (let '(a', b', c') := HASH_FINAL 1 2 0xffffffff in HASH_UNFINAL a' b' c' = (1, 2, 0xffffffff)).
Proof. apply (hash_mix_invertible 1 2 0xffffffff); split; vm_compute; (discriminate || reflexivity). Defined.

(** The word hash is the byte hash of the words' little-endian bytes (except for
    a multiple of three words, where [hash_bytes] leaves out the final mixing), and
    the hash of three words is [hash_words] of them with a corrected basis. *)
Theorem hash_words_bytes ws basis a b c :
  Forall (is_u 32) ws -> (length ws mod 3 <> 0)%nat ->
  hash_words ws basis = hash_bytes (le_words ws) basis /\
  hash_3words a b c = hash_words [a; b; c] (u32 (-12)).
Proof.
  intros Hw Hm. split.
  - unfold hash_words, hash_bytes. rewrite length_le_words.
    assert (forall n, u32 (0xdeadbeef + u32 (Z.shiftl (u32 (Z.of_nat n)) 2) + basis) =
                      u32 (0xdeadbeef + Z.of_nat (4 * n) + basis)) as H.
    { intros n. rewrite (Z.shiftl_mul_pow2 _ 2) by lia. unfold u32. change (2 ^ 32) with 4294967296.
      change (2 ^ 2) with 4. zdm. }
    rewrite H. apply (words_bytes_loop (length ws)); auto using is_u32_u32.
  - unfold hash_3words, hash_words.
    change (u32 (0xdeadbeef + u32 (Z.shiftl (u32 (Z.of_nat (length [a; b; c]))) 2) + u32 (-12))) with 0xdeadbeef.
    unfold words_loop. by rewrite (Z.add_comm a), (Z.add_comm b), (Z.add_comm c).
Qed.
Lemma hash_words_bytes_witness :
  hash_words [1; 2; 3; 0xdeadbeef] 7 = hash_bytes (le_words [1; 2; 3; 0xdeadbeef]) 7 /\
  hash_3words 1 2 3 = hash_words [1; 2; 3] (u32 (-12)).
Proof.
  apply (hash_words_bytes [1; 2; 3; 0xdeadbeef] 7 1 2 3).
  - repeat (apply Forall_cons; split; [split; vm_compute; (discriminate || reflexivity)|]). apply Forall_nil_2.
  - vm_compute. discriminate.
Defined.
