(* ===== verification/Hmap.v ===== *)
(** * [lwip/src/core/hmap.c] and [include/mlib/hmap.h]: the hash tables

    A table has an array of [mask + 1] chains; a table of one chain uses the
    field [one] of its own struct, so a table knows its address. The nodes
    are embedded in the clients' objects and kept by address. [malloc] is the
    parameter [malloc_ok], which says whether a request succeeds; [xmalloc]
    ends the process when it does not. *)

From S2P Require Import Prelude.

Record hnode := HNode { hash : Z; hnext : option Z }.
(** [&map->one] of the table at an address, or an array of its own. *)
Inductive bptr := AtOne (owner : Z) | AtHeap (l : list (option Z)).
Record hmap := Hmap { buckets : bptr; one : option Z; mask : Z; n : Z }.
Notation hnodes := (gmap Z hnode).

Definition SIZE_MAX : Z := 2 ^ 64 - 1.
(** The local variable of [resize]; other objects have non-negative addresses. *)
Definition TMP : Z := -1.

Definition get_bucket (self : Z) (m : hmap) (i : Z) : outcome (option Z) :=
  match buckets m with
  | AtOne o => if (o =? self) && (i =? 0) then Ret (one m) else Undef
  | AtHeap l => deref (l !! Z.to_nat i)
  end.
Definition set_bucket (self : Z) (m : hmap) (i : Z) (v : option Z) : outcome hmap :=
  match buckets m with
  | AtOne o => if (o =? self) && (i =? 0) then Ret (Hmap (buckets m) v (mask m) (n m)) else Undef
  | AtHeap l => _ ← deref (l !! Z.to_nat i);
      Ret (Hmap (AtHeap (<[Z.to_nat i := v]> l)) (one m) (mask m) (n m))
  end.
Definition set_n (m : hmap) (v : Z) : hmap := Hmap (buckets m) (one m) (mask m) v.
Definition get_node (N : hnodes) (a : Z) : outcome hnode := deref (N !! a).

(** ** Operations *)

Definition hmap_init (self : Z) : hmap := Hmap (AtOne self) None 0 0.

(** The array given to [free], if any; another table's [one] cannot be freed. *)
Definition hmap_destroy (self : Z) (m : hmap) : outcome (option (list (option Z))) :=
  match buckets m with
  | AtOne o => if o =? self then Ret None else Undef
  | AtHeap l => Ret (Some l)
  end.

Definition hmap_swap (a : Z) (ma : hmap) (b : Z) (mb : hmap) : hmap * hmap :=
  let tmp := ma in
  let ma := mb in
  let mb := tmp in
  let ma := match buckets ma with
            | AtOne o => if o =? b then Hmap (AtOne a) (one ma) (mask ma) (n ma) else ma
            | AtHeap _ => ma
            end in
  let mb := match buckets mb with
            | AtOne o => if o =? a then Hmap (AtOne b) (one mb) (mask mb) (n mb) else mb
            | AtHeap _ => mb
            end in
  (ma, mb).

Definition hmap_insert_fast (self : Z) (N : hnodes) (m : hmap) (node h : Z) : outcome (hnodes * hmap) :=
  let i := Z.land h (mask m) in
  b ← get_bucket self m i;
  _ ← get_node N node;
  let N := <[node := HNode h b]> N in
  m ← set_bucket self m i (Some node);
  Ret (N, set_n m (u64 (n m + 1))).

(** The inner loop of [resize]: move the chain that starts at [node]. *)
Fixpoint move_chain (fuel : nat) (N : hnodes) (tmp : hmap) (node : option Z) : outcome (hnodes * hmap) :=
  match fuel with
  | O => Diverge
  | S fuel =>
      match node with
      | None => Ret (N, tmp)
      | Some a =>
          nd ← get_node N a;
          let next := hnext nd in
          '(N, tmp) ← hmap_insert_fast TMP N tmp a (hash nd);
          move_chain fuel N tmp next
      end
  end.
(** The outer loop: [k] chains are left, the next one is number [i]. *)
Fixpoint move_chains (k : nat) (i : Z) (self : Z) (N : hnodes) (m tmp : hmap) : outcome (hnodes * hmap) :=
  match k with
  | O => Ret (N, tmp)
  | S k =>
      b ← get_bucket self m i;
      '(N, tmp) ← move_chain (S (size N)) N tmp b;
      move_chains k (i + 1) self N m tmp
  end.

Section alloc.
  Context (malloc_ok : Z -> bool).

Definition resize (self : Z) (N : hnodes) (m : hmap) (new_mask : Z) : outcome (hnodes * hmap) :=
  lwip_assert (Z.land new_mask (u64 (new_mask + 1)) =? 0);;
  lwip_assert (negb (new_mask =? SIZE_MAX));;
  let tmp := hmap_init TMP in
  tmp ← (if new_mask =? 0 then Ret tmp
         else let sz := u64 (8 * u64 (new_mask + 1)) in
              lwip_assert (malloc_ok sz);;
              (* the loop that clears the chains writes [new_mask + 1] words *)
              deref (if 8 * (new_mask + 1) <=? sz then Some tt else None);;
              Ret (Hmap (AtHeap (replicate (Z.to_nat (new_mask + 1)) None)) (one tmp) new_mask (n tmp)));
  '(N, tmp) ← move_chains (S (Z.to_nat (mask m))) 0 self N m tmp;
  let '(m, tmp) := hmap_swap self m TMP tmp in
  _ ← hmap_destroy TMP tmp;
  Ret (N, m).

Definition calc_mask (capacity : Z) : Z :=
  let mask := capacity / 2 in
  let mask := Z.lor mask (Z.shiftr mask 1) in
  let mask := Z.lor mask (Z.shiftr mask 2) in
  let mask := Z.lor mask (Z.shiftr mask 4) in
  let mask := Z.lor mask (Z.shiftr mask 8) in
  let mask := Z.lor mask (Z.shiftr mask 16) in
  let mask := Z.lor mask (Z.shiftr mask 32) in
  Z.lor mask (Z.shiftl (Z.land mask 1) 1).

Definition hmap_expand (self : Z) (N : hnodes) (m : hmap) : outcome (hnodes * hmap) :=
  let new_mask := calc_mask (n m) in
  if mask m <? new_mask then resize self N m new_mask else Ret (N, m).

Definition hmap_shrink (self : Z) (N : hnodes) (m : hmap) : outcome (hnodes * hmap) :=
  let new_mask := calc_mask (n m) in
  if new_mask <? mask m then resize self N m new_mask else Ret (N, m).

Definition hmap_reserve (self : Z) (N : hnodes) (m : hmap) (cap : Z) : outcome (hnodes * hmap) :=
  let new_mask := calc_mask cap in
  if mask m <? new_mask then resize self N m new_mask else Ret (N, m).

Definition hmap_insert (self : Z) (N : hnodes) (m : hmap) (node h : Z) : outcome (hnodes * hmap) :=
  '(N, m) ← hmap_insert_fast self N m node h;
  if mask m <? n m / 2 then hmap_expand self N m else Ret (N, m).
End alloc.

(** Where a [struct hmap_node **] points: a chain's head or a [next] field. *)
Inductive loc := LBucket (i : Z) | LNext (a : Z).
Definition read_loc (self : Z) (N : hnodes) (m : hmap) (l : loc) : outcome (option Z) :=
  match l with
  | LBucket i => get_bucket self m i
  | LNext a => nd ← get_node N a; Ret (hnext nd)
  end.
Definition write_loc (self : Z) (N : hnodes) (m : hmap) (l : loc) (v : option Z) : outcome (hnodes * hmap) :=
  match l with
  | LBucket i => m ← set_bucket self m i v; Ret (N, m)
  | LNext a => nd ← get_node N a; Ret (<[a := HNode (hash nd) v]> N, m)
  end.

(** [while ( *bucket != node) bucket = &( *bucket)->next;] *)
Fixpoint remove_loop (fuel : nat) (self : Z) (N : hnodes) (m : hmap) (node : Z) (bucket : loc) : outcome loc :=
  match fuel with
  | O => Diverge
  | S fuel =>
      v ← read_loc self N m bucket;
      if decide (v = Some node) then Ret bucket
      else match v with
           | None => Undef
           | Some a => remove_loop fuel self N m node (LNext a)
           end
  end.
Definition hmap_remove (self : Z) (N : hnodes) (m : hmap) (node : Z) : outcome (hnodes * hmap) :=
  nd ← get_node N node;
  bucket ← remove_loop (S (size N)) self N m node (LBucket (Z.land (hash nd) (mask m)));
  nd ← get_node N node;
  '(N, m) ← write_loc self N m bucket (hnext nd);
  Ret (N, set_n m (u64 (n m - 1))).

Definition hmap_remove_and_shrink (self : Z) (N : hnodes) (m : hmap) (node : Z) : outcome (hnodes * hmap) :=
  hmap_remove self N m node.

(** [hmap_next_with_hash__]. *)
Fixpoint next_with_hash_loop (fuel : nat) (N : hnodes) (node : option Z) (h : Z) : outcome (option Z) :=
  match fuel with
  | O => Diverge
  | S fuel =>
      match node with
      | None => Ret None
      | Some a => nd ← get_node N a;
          if hash nd =? h then Ret node else next_with_hash_loop fuel N (hnext nd) h
      end
  end.
Definition hmap_first_with_hash (self : Z) (N : hnodes) (m : hmap) (h : Z) : outcome (option Z) :=
  b ← get_bucket self m (Z.land h (mask m)); next_with_hash_loop (S (size N)) N b h.
Definition hmap_next_with_hash (N : hnodes) (node : Z) : outcome (option Z) :=
  nd ← get_node N node; next_with_hash_loop (S (size N)) N (hnext nd) (hash nd).

(** [HMAP_FOR_EACH_WITH_HASH]: the nodes the loop visits. *)
Fixpoint each_with_hash (fuel : nat) (N : hnodes) (node : option Z) : outcome (list Z) :=
  match fuel with
  | O => Diverge
  | S fuel =>
      match node with
      | None => Ret []
      | Some a => next ← hmap_next_with_hash N a;
          l ← each_with_hash fuel N next; Ret (a :: l)
      end
  end.
Definition hmap_for_each_with_hash (self : Z) (N : hnodes) (m : hmap) (h : Z) : outcome (list Z) :=
  node ← hmap_first_with_hash self N m h; each_with_hash (S (size N)) N node.

(** ** The masks *)

(** [y] has the bit [i] exactly when [x] has one of the bits [i], ..., [i+w-1]. *)
Definition smeared (w x y : Z) : Prop :=
  forall i, 0 <= i -> Z.testbit y i = true <-> exists j, i <= j < i + w /\ Z.testbit x j = true.

Lemma smear_step w s x y : 0 < s <= w -> smeared w x y -> smeared (w + s) x (Z.lor y (Z.shiftr y s)).
Proof.
  intros Hs H i Hi. rewrite Z.lor_spec, Z.shiftr_spec, orb_true_iff, (H i), (H (i + s)) by lia. split.
  - intros [(j & Hj & Hb)|(j & Hj & Hb)]; exists j; (split; [lia|done]).
  - intros (j & Hj & Hb). destruct (Z_lt_le_dec j (i + w)); [left|right]; exists j; (split; [lia|done]).
Qed.

Lemma smeared_ones x y : 0 < x < 2 ^ 64 -> smeared 64 x y -> 0 <= y -> y = Z.ones (Z.log2 x + 1).
Proof.
  intros Hx H Hy. apply Z.bits_inj'. intros i Hi.
  pose proof (Z.log2_nonneg x). assert (Z.log2 x < 64) by (apply Z.log2_lt_pow2; lia).
  rewrite Z.testbit_ones_nonneg by lia. apply eq_true_iff_eq. rewrite (H i Hi), Z.ltb_lt. split.
  - intros (j & Hj & Hb). destruct (Z_lt_le_dec (Z.log2 x) j); [|lia].
    by rewrite Z.bits_above_log2 in Hb by lia.
  - intros Hl. exists (Z.log2 x). split; [lia|]. apply Z.bit_log2. lia.
Qed.

(** The masks are the numbers of the form [2^k - 1]; the new one leaves at most
    about two nodes per chain. *)
Lemma calc_mask_ok c : 0 <= c < 2 ^ 64 ->
  exists k, 0 <= k <= 63 /\ calc_mask c = 2 ^ k - 1 /\ c / 2 <= calc_mask c /\
    calc_mask c <= Z.max 3 c.
Proof.
  intros Hc. destruct (Z.eq_dec (c / 2) 0) as [E|E].
  { exists 0. assert (calc_mask c = 0) as -> by (unfold calc_mask; rewrite E; reflexivity). lia. }
  assert (0 < c / 2 < 2 ^ 63) as Hx by (change (2 ^ 63) with 9223372036854775808; change (2 ^ 64) with 18446744073709551616 in Hc; zdm).
  set (x := c / 2) in *.
  assert (smeared 1 x x) as H0.
  { intros i Hi. split; [intros Hb; exists i; split; [lia|done]|]. intros (j & Hj & Hb).
    by replace i with j by lia. }
  apply (smear_step 1 1) in H0; [|lia]. apply (smear_step 2 2) in H0; [|lia].
  apply (smear_step 4 4) in H0; [|lia]. apply (smear_step 8 8) in H0; [|lia].
  apply (smear_step 16 16) in H0; [|lia]. apply (smear_step 32 32) in H0; [|lia].
  unfold calc_mask. fold x. cbv zeta in H0 |- *.
  match type of H0 with smeared _ _ ?y => set (m := y) in * end.
  assert (m = Z.ones (Z.log2 x + 1)) as Hm.
  { apply smeared_ones; [split; [lia|]; apply Z.lt_trans with (2 ^ 63); [lia|done]|done|].
    unfold m. repeat first [apply Z.lor_nonneg; split|apply Z.shiftr_nonneg]; lia. }
  clearbody m. pose proof (Z.log2_nonneg x) as Hl0. pose proof (Z.log2_spec x ltac:(lia)) as [Hlo Hhi].
  assert (Z.log2 x < 63) as Hl1 by (apply Z.log2_lt_pow2; lia).
  assert (Z.land m 1 = 1) as ->.
  { rewrite Hm, land_1, Z.ones_equiv, <- Z.sub_1_r, Z.pow_add_r by lia.
    change (2 ^ 1) with 2. zdm. }
  change (Z.shiftl 1 1) with 2.
  exists (Z.max 2 (Z.log2 x + 1)). split; [lia|].
  assert (Z.lor m 2 = 2 ^ Z.max 2 (Z.log2 x + 1) - 1) as ->.
  { rewrite Hm. destruct (Z.eq_dec (Z.log2 x) 0) as [->|]; [done|].
    rewrite Z.max_r, Z.sub_1_r, <- Z.ones_equiv by lia. apply Z.bits_inj'. intros i Hi.
    rewrite Z.lor_spec, Z.testbit_ones_nonneg by lia. destruct (Z.eq_dec i 1) as [->|].
    - rewrite (proj2 (Z.ltb_lt _ _)) by lia. done.
    - change 2 with (2 ^ 1). rewrite Z.pow2_bits_false by lia. apply orb_false_r. }
  split; [done|].
  destruct (Z.eq_dec (Z.log2 x) 0) as [E0|].
  - rewrite E0 in *. change (2 ^ Z.succ 0) with 2 in Hhi. change (2 ^ (2 `max` (0 + 1)) - 1) with 3. split; lia.
  - rewrite Z.max_r by lia. rewrite <- Z.add_1_r in Hhi. split; [lia|].
    rewrite Z.pow_add_r by lia. change (2 ^ 1) with 2. unfold x in *. zdm.
Qed.

(** ** The invariant: chains *)
Fixpoint hchain (N : hnodes) (o : option Z) (l : list Z) : Prop :=
  match l with
  | [] => o = None
  | a :: l' => o = Some a /\ exists nd, N !! a = Some nd /\ hchain N (hnext nd) l'
  end.

Definition heads (self : Z) (m : hmap) : option (list (option Z)) :=
  match buckets m with
  | AtOne o => if o =? self then Some [one m] else None
  | AtHeap l => Some l
  end.

(** The table [m] at [self] has the chains [bs]. *)
Record hmap_ok (self : Z) (N : hnodes) (m : hmap) (bs : list (list Z)) : Prop := {
  ok_heads : exists hs, heads self m = Some hs /\ Forall2 (hchain N) hs bs;
  ok_mask : exists k, 0 <= k <= 63 /\ mask m = 2 ^ k - 1 /\ Z.of_nat (length bs) = 2 ^ k;
  ok_place : forall i l a nd, bs !! i = Some l -> a ∈ l -> N !! a = Some nd ->
    Z.land (hash nd) (mask m) = Z.of_nat i;
  ok_nodup : NoDup (concat bs);
  ok_n : n m = Z.of_nat (length (concat bs)) }.

Lemma hchain_elem N o l a : hchain N o l -> a ∈ l -> is_Some (N !! a).
Proof.
  revert o. induction l as [|b l IH]; intros o; [by intros _ ?%elem_of_nil|].
  intros [-> (nd & Hb & Hl)] [->|Ha]%elem_of_cons; [eauto|by eapply IH].
Qed.
Lemma hchain_frame N N' o l : (forall a, a ∈ l -> N' !! a = N !! a) -> hchain N o l -> hchain N' o l.
Proof.
  revert o. induction l as [|b l IH]; intros o Hf; [done|]. intros [-> (nd & Hb & Hl)].
  split; [done|]. exists nd. rewrite Hf by by left. split; [done|]. apply IH; [|done].
  intros a Ha. apply Hf. by right.
Qed.
Lemma hchain_length N o l : hchain N o l -> NoDup l -> (length l <= size N)%nat.
Proof.
  intros Hc Hnd. rewrite <- (size_list_to_set (C := gset Z) l Hnd), <- (size_dom (D := gset Z)).
  apply subseteq_size. intros a Ha%elem_of_list_to_set. apply elem_of_dom. by eapply hchain_elem.
Qed.

Lemma elem_of_concat (bs : list (list Z)) a :
  a ∈ concat bs <-> exists i l, bs !! i = Some l /\ a ∈ l.
Proof.
  induction bs as [|b bs IH]; simpl.
  - split; [by intros ?%elem_of_nil|by intros (i & l & ? & _)].
  - rewrite elem_of_app, IH. split.
    + intros [Ha|(i & l & Hi & Ha)]; [by exists 0%nat, b|by exists (S i), l].
    + intros ([|i] & l & Hi & Ha); simpl in Hi; [left; by simplify_eq|right; eauto].
Qed.

Lemma concat_update (bs : list (list Z)) i l l' : bs !! i = Some l ->
  l' ++ concat bs ≡ₚ l ++ concat (<[i := l']> bs).
Proof.
  revert i. induction bs as [|b bs IH]; intros [|i] Hi; simpl in *; [done..| |].
  - simplify_eq. rewrite !app_assoc, (Permutation_app_comm l' l). done.
  - rewrite !app_assoc, (Permutation_app_comm l' b), (Permutation_app_comm l b), <- !app_assoc.
    by rewrite (IH i Hi).
Qed.

Lemma ok_chain self N m bs i l : hmap_ok self N m bs -> bs !! i = Some l ->
  exists hs o, heads self m = Some hs /\ hs !! i = Some o /\ hchain N o l /\ (i < length hs)%nat.
Proof.
  intros Hok Hi. destruct (ok_heads _ _ _ _ Hok) as (hs & Hh & Hf).
  destruct (Forall2_lookup_r _ _ _ _ _ Hf Hi) as (o & Ho & Hc). exists hs, o.
  split; [done|]. split; [done|]. split; [done|]. by eapply lookup_lt_Some.
Qed.

Lemma get_bucket_ok self m hs i : heads self m = Some hs -> 0 <= i ->
  get_bucket self m i = deref (hs !! Z.to_nat i).
Proof.
  unfold heads, get_bucket. destruct (buckets m) as [o|l]; [|by intros [= <-]].
  destruct (o =? self); intros [= <-]; simpl. intros Hi. destruct (Z.eqb_spec i 0) as [->|]; [done|].
  destruct (Z.to_nat i) as [|k] eqn:E; [lia|]. done.
Qed.
Lemma set_bucket_ok self m hs i v : heads self m = Some hs -> 0 <= i -> (Z.to_nat i < length hs)%nat ->
  exists m', set_bucket self m i v = Ret m' /\ heads self m' = Some (<[Z.to_nat i := v]> hs) /\
    mask m' = mask m /\ n m' = n m.
Proof.
  unfold heads, set_bucket. destruct (buckets m) as [o|l].
  - destruct (o =? self) eqn:Eo; intros [= <-]; simpl. intros Hi Hl.
    assert (i = 0) as -> by lia. simpl. eexists. split; [done|]. simpl. by rewrite Eo.
  - intros [= <-] Hi Hl. destruct (lookup_lt_is_Some_2 _ _ Hl) as [x ->]. simpl. eauto.
Qed.

Lemma mask_index self N m bs h : hmap_ok self N m bs -> 0 <= h ->
  exists l, bs !! Z.to_nat (Z.land h (mask m)) = Some l /\ 0 <= Z.land h (mask m).
Proof.
  intros Hok Hh. destruct (ok_mask _ _ _ _ Hok) as (k & Hk & Hm & Hl).
  rewrite Hm, Z.sub_1_r, <- Z.ones_equiv, Z.land_ones by lia.
  pose proof (Z.mod_pos_bound h (2 ^ k)). assert (0 < 2 ^ k) by (apply Z.pow_pos_nonneg; lia).
  destruct (lookup_lt_is_Some_2 bs (Z.to_nat (h mod 2 ^ k))) as [l Hl']; [lia|]. exists l. split; [done|lia].
Qed.

Lemma hashes_insert (N : hnodes) a h b x :
  hash <$> (<[a := HNode h b]> N !! x) = if decide (a = x) then Some h else hash <$> (N !! x).
Proof. destruct (decide (a = x)) as [<-|]; [by rewrite lookup_insert_eq|by rewrite lookup_insert_ne]. Qed.

Lemma chains_replace N N' hs bs i o l : Forall2 (hchain N) hs bs -> hchain N' o l ->
  (forall a, a ∈ concat (<[i := []]> bs) -> N' !! a = N !! a) ->
  Forall2 (hchain N') (<[i := o]> hs) (<[i := l]> bs).
Proof.
  intros Hf Hc. revert i. induction Hf as [|o' l' hs bs Hc' Hf IH]; intros i Hfr; [by destruct i|].
  destruct i as [|i]; simpl in *.
  - constructor; [done|]. clear IH. induction Hf as [|o2 l2 hs bs Hc2 Hf IH]; constructor.
    + apply (hchain_frame N); [|done]. intros a Ha. apply Hfr. simpl. apply elem_of_app. by left.
    + apply IH. intros a Ha. apply Hfr. simpl. apply elem_of_app. by right.
  - constructor; [|apply IH]; [apply (hchain_frame N); [|done]|]; intros a Ha; apply Hfr, elem_of_app; eauto.
Qed.

Lemma insert_fast_ok self N m bs a h : hmap_ok self N m bs -> a ∈ dom N -> a ∉ concat bs -> 0 <= h ->
  Z.of_nat (length (concat bs)) < 2 ^ 60 ->
  exists N' m' bs', hmap_insert_fast self N m a h = Ret (N', m') /\ hmap_ok self N' m' bs' /\
    concat bs' ≡ₚ a :: concat bs /\ mask m' = mask m /\ length bs' = length bs /\ dom N' = dom N /\
    (forall x, x <> a -> N' !! x = N !! x) /\
    (forall x, hash <$> (N' !! x) = if decide (a = x) then Some h else hash <$> (N !! x)).
Proof.
  intros Hok Ha Hnot Hh Hlen. destruct (mask_index _ _ _ _ h Hok Hh) as (l & Hl & Hi).
  set (i := Z.land h (mask m)) in *.
  destruct (ok_chain _ _ _ _ _ _ Hok Hl) as (hs & o & Hhs & Ho & Hc & Hlt).
  unfold hmap_insert_fast. fold i. rewrite (get_bucket_ok self m hs i) by done. rewrite Ho. simpl.
  pose proof Ha as [nd Hnd]%elem_of_dom. unfold get_node. rewrite Hnd. simpl.
  destruct (set_bucket_ok self m hs i (Some a)) as (m' & -> & Hh' & Hm' & Hn'); [done..|]. simpl.
  assert (a :: concat bs ≡ₚ concat (<[Z.to_nat i := a :: l]> bs)) as Hperm.
  { apply (Permutation_app_inv_l l). rewrite <- (concat_update bs _ l (a :: l) Hl).
    rewrite <- Permutation_middle. done. }
  assert (forall x, x ∈ concat bs -> <[a := HNode h o]> N !! x = N !! x) as Hfr.
  { intros x Hx. rewrite lookup_insert_ne; [done|]. by intros ->. }
  eexists _, _, (<[Z.to_nat i := a :: l]> bs). split; [reflexivity|].
  split; [|split; [by rewrite Hperm|]]; cbn [mask set_n].
  - split.
    + exists (<[Z.to_nat i := Some a]> hs). split; [done|].
      destruct (ok_heads _ _ _ _ Hok) as (hs' & E & Hf). rewrite Hhs in E. injection E as <-.
      apply (chains_replace N); [done| |].
      * split; [done|]. exists (HNode h o). rewrite lookup_insert_eq. split; [done|]. simpl.
        apply (hchain_frame N); [|done]. intros x Hx. apply Hfr. apply elem_of_concat. eauto.
      * intros x Hx. apply Hfr. pose proof (concat_update bs _ l [] Hl) as Hp. simpl in Hp.
        rewrite Hp. apply elem_of_app. by right.
    + simpl. rewrite Hm'. destruct (ok_mask _ _ _ _ Hok) as (k & ? & ? & ?). exists k.
      by rewrite length_insert.
    + simpl. rewrite Hm'. intros j lj x nd' Hj Hx Hnx.
      destruct (decide (a = x)) as [<-|Hax].
      * rewrite lookup_insert_eq in Hnx. injection Hnx as <-. simpl. fold i.
        destruct (decide (j = Z.to_nat i)) as [->|Hne]; [lia|].
        rewrite list_lookup_insert_ne in Hj by done. exfalso. apply Hnot, elem_of_concat. eauto.
      * rewrite lookup_insert_ne in Hnx by done. destruct (decide (j = Z.to_nat i)) as [->|Hne].
        -- rewrite list_lookup_insert_eq in Hj by (by eapply lookup_lt_Some). injection Hj as <-.
           apply elem_of_cons in Hx as [->|Hx]; [done|]. by apply (ok_place _ _ _ _ Hok _ l x nd').
        -- rewrite list_lookup_insert_ne in Hj by done. by apply (ok_place _ _ _ _ Hok _ lj x nd').
    + rewrite <- Hperm. constructor; [done|]. apply (ok_nodup _ _ _ _ Hok).
    + simpl. rewrite <- Hperm, Hn', (ok_n _ _ _ _ Hok). simpl. rewrite u64_small; [lia|].
      change (2 ^ 60) with 1152921504606846976 in Hlen. lia.
  - split; [done|]. split; [by rewrite length_insert|]. split; [rewrite dom_insert_L; set_solver|].
    split; [intros x Hx; by rewrite lookup_insert_ne by done|]. intros x. apply hashes_insert.
Qed.

(** What moving nodes to another table leaves unchanged. *)
Definition same_hashes (N N' : hnodes) : Prop :=
  dom N' = dom N /\ forall x, hash <$> (N' !! x) = hash <$> (N !! x).
Definition hashes_nonneg (N : hnodes) : Prop := forall a nd, N !! a = Some nd -> 0 <= hash nd.

Lemma same_hashes_nonneg N N' : same_hashes N N' -> hashes_nonneg N -> hashes_nonneg N'.
Proof.
  intros [_ Hh] Hn a nd Ha. specialize (Hh a). rewrite Ha in Hh.
  destruct (N !! a) as [nd'|] eqn:E; [|done]. simpl in Hh. injection Hh as ->. by apply (Hn a).
Qed.

Lemma move_chain_ok l : forall fuel N tmp o bs, (length l < fuel)%nat -> hchain N o l ->
  hashes_nonneg N -> hmap_ok TMP N tmp bs -> NoDup (l ++ concat bs) ->
  Z.of_nat (length (l ++ concat bs)) < 2 ^ 60 ->
  exists N' tmp' bs', move_chain fuel N tmp o = Ret (N', tmp') /\ hmap_ok TMP N' tmp' bs' /\
    concat bs' ≡ₚ l ++ concat bs /\ mask tmp' = mask tmp /\ same_hashes N N' /\
    (forall x, x ∉ l -> N' !! x = N !! x).
Proof.
  induction l as [|a l IH]; intros fuel N tmp o bs Hf Hc Hpos Hok Hnd Hlen;
    (destruct fuel as [|fuel]; [simpl in Hf; lia|]); simpl.
  - simpl in Hc. subst o. exists N, tmp, bs. split; [done|]. split; [done|]. split; [done|]. split; [done|]. by repeat split.
  - destruct Hc as [-> (nd & Ha & Hc)]. unfold get_node. rewrite Ha. simpl.
    simpl in Hnd. apply NoDup_cons in Hnd as [Hna Hnd]. rewrite not_elem_of_app in Hna.
    destruct (insert_fast_ok TMP N tmp bs a (hash nd) Hok) as
      (N1 & tmp1 & bs1 & -> & Hok1 & Hp1 & Hm1 & Hl1 & Hd1 & Hfr1 & Hh1);
      [by eapply elem_of_dom_2|tauto|by apply (Hpos a)|rewrite length_app in Hlen; simpl in Hlen; lia|]. simpl.
    assert (same_hashes N N1) as Hs1.
    { split; [done|]. intros x. rewrite Hh1. case_decide as E; [by rewrite <- E, Ha|done]. }
    destruct (IH fuel N1 tmp1 (hnext nd) bs1) as (N2 & tmp2 & bs2 & -> & Hok2 & Hp2 & Hm2 & [Hd2 Hh2] & Hfr2).
    + simpl in Hf. lia.
    + apply (hchain_frame N); [|done]. intros x Hx. apply Hfr1. intros ->. tauto.
    + by eapply same_hashes_nonneg.
    + done.
    + rewrite Hp1. rewrite <- Permutation_middle. constructor; [|done]. rewrite not_elem_of_app. tauto.
    + rewrite Hp1. rewrite <- Permutation_middle. done.
    + exists N2, tmp2, bs2. split; [done|]. split; [done|].
      split; [rewrite Hp2, Hp1; by rewrite <- Permutation_middle|]. split; [by rewrite Hm2|].
      split; [split; [by rewrite Hd2|intros x; rewrite Hh2; apply Hs1]|].
      intros x Hx. apply not_elem_of_cons in Hx as [Hxa Hxl]. rewrite Hfr2 by done. by apply Hfr1.
Qed.

Lemma move_chains_ok bs0 : forall k i self N m tmp hs bs, k = length bs0 -> heads self m = Some hs ->
  Forall2 (hchain N) (drop i hs) bs0 -> (i <= length hs)%nat ->
  hashes_nonneg N -> hmap_ok TMP N tmp bs -> NoDup (concat bs0 ++ concat bs) ->
  Z.of_nat (length (concat bs0 ++ concat bs)) < 2 ^ 60 ->
  exists N' tmp' bs', move_chains k (Z.of_nat i) self N m tmp = Ret (N', tmp') /\ hmap_ok TMP N' tmp' bs' /\
    concat bs' ≡ₚ concat bs0 ++ concat bs /\ mask tmp' = mask tmp /\ same_hashes N N'.
Proof.
  induction bs0 as [|l bs0 IH]; intros k i self N m tmp hs bs -> Hhs Hf Hi Hpos Hok Hnd Hlen; cbn [move_chains length].
  - exists N, tmp, bs. split; [done|]. split; [done|]. split; [done|]. split; [done|]. by repeat split.
  - destruct (drop i hs) as [|o hs'] eqn:Ed; [by inversion Hf|]. apply Forall2_cons in Hf as [Hc Hf].
    assert (hs !! i = Some o) as Ho by (rewrite <- (Nat.add_0_r i), <- lookup_drop, Ed; done).
    rewrite (get_bucket_ok self m hs) by (done || lia). rewrite Nat2Z.id, Ho. cbn [deref mbind outcome_bind].
    simpl in Hnd, Hlen. rewrite <- app_assoc in Hnd, Hlen.
    assert (l ++ concat bs0 ++ concat bs ≡ₚ concat bs0 ++ l ++ concat bs) as Hsw.
    { rewrite !app_assoc. by rewrite (Permutation_app_comm l). }
    pose proof Hnd as Hnd'. rewrite Hsw in Hnd'. apply NoDup_app in Hnd' as (_ & Hdis & Hnd2).
    destruct (move_chain_ok l (S (size N)) N tmp o bs) as
      (N1 & tmp1 & bs1 & -> & Hok1 & Hp1 & Hm1 & Hs1 & Hfr1); try done.
    { apply NoDup_app in Hnd as (Hl & _). pose proof (hchain_length _ _ _ Hc Hl). lia. }
    { rewrite !length_app in *. lia. }
    cbn [mbind outcome_bind]. replace (Z.of_nat i + 1) with (Z.of_nat (S i)) by lia.
    destruct (IH (length bs0) (S i) self N1 m tmp1 hs bs1) as (N2 & tmp2 & bs2 & -> & Hok2 & Hp2 & Hm2 & [Hd2 Hh2]);
      try done.
    + replace (drop (S i) hs) with hs' by (rewrite (drop_S _ o i) in Ed by done; by injection Ed).
      clear - Hf Hfr1 Hnd. apply NoDup_app in Hnd as (_ & Hd & _).
      induction Hf as [|o' l' hs bs0 Hc' Hf IH]; constructor.
      * apply (hchain_frame N); [|done]. intros x Hx. apply Hfr1. intros Hl. apply (Hd x Hl). simpl. set_solver.
      * apply IH. intros x Hx ?. apply (Hd x Hx). simpl. set_solver.
    + apply lookup_lt_Some in Ho. lia.
    + by eapply same_hashes_nonneg.
    + rewrite Hp1, <- Hsw. done.
    + rewrite Hp1, <- Hsw. done.
    + exists N2, tmp2, bs2. split; [done|]. split; [done|].
      split; [simpl; rewrite <- app_assoc, Hsw, Hp2, Hp1; done|]. split; [by rewrite Hm2|].
      destruct Hs1 as [Hd1 Hh1]. split; [by rewrite Hd2|]. intros x. by rewrite Hh2.
Qed.

(** An empty table. *)
Lemma hmap_init_ok self N : hmap_ok self N (hmap_init self) [[]].
Proof.
  split; simpl.
  - exists [None]. unfold heads. simpl. rewrite Z.eqb_refl. split; [done|]. by repeat constructor.
  - exists 0. split; [lia|]. done.
  - intros [|i] l a nd; simpl; [|done]. intros [= <-] ?%elem_of_nil. done.
  - constructor.
  - done.
Qed.

Lemma concat_replicate_nil k : concat (replicate k ([] : list Z)) = [].
Proof. induction k; done. Qed.

Lemma cleared_ok N k : 0 <= k <= 63 ->
  hmap_ok TMP N (Hmap (AtHeap (replicate (Z.to_nat (2 ^ k - 1 + 1)) None)) None (2 ^ k - 1) 0)
    (replicate (Z.to_nat (2 ^ k)) []).
Proof.
  intros Hk. assert (0 < 2 ^ k) by (apply Z.pow_pos_nonneg; lia).
  split; simpl; rewrite ?concat_replicate_nil.
  - eexists. split; [done|]. replace (2 ^ k - 1 + 1) with (2 ^ k) by lia.
    apply Forall2_replicate. done.
  - exists k. split; [lia|]. split; [done|]. rewrite length_replicate. lia.
  - intros i l a nd Hi. apply lookup_replicate in Hi as [-> _]. by intros ?%elem_of_nil.
  - constructor.
  - done.
Qed.

(** The swap that ends [resize]. *)
Lemma swap_ok self N m tmp bs hs : self <> TMP -> heads self m = Some hs -> hmap_ok TMP N tmp bs ->
  let '(m', tmp') := hmap_swap self m TMP tmp in
  hmap_ok self N m' bs /\ mask m' = mask tmp /\ exists r, hmap_destroy TMP tmp' = Ret r.
Proof.
  intros Hself Hhs [(hs' & Hh & Hf) Hm Hp Hnd Hn]. unfold hmap_swap, hmap_destroy, heads in *.
  destruct (buckets m) as [o|l] eqn:Em; [destruct (Z.eqb_spec o self) as [Eo|]; [|done]|];
    (destruct (buckets tmp) as [o'|l'] eqn:Et; [destruct (Z.eqb_spec o' TMP) as [Eo'|]; [|done]|]);
    (split; [split; try done; exists hs'; unfold heads; simpl; rewrite ?Et, ?Z.eqb_refl; done|]);
    (split; [done|]); simpl; rewrite ?Em, ?Eo, ?Z.eqb_refl; simpl; rewrite ?Z.eqb_refl; eauto.
Qed.

Section resizing.
  Context (malloc_ok : Z -> bool) (Hmalloc : forall sz, malloc_ok sz = true).

  (** Resizing keeps the nodes and their hashes and installs the new mask. *)
Lemma resize_ok self N m bs k : self <> TMP -> hmap_ok self N m bs -> hashes_nonneg N -> 0 <= k <= 59 ->
    Z.of_nat (length (concat bs)) < 2 ^ 60 ->
    exists N' m' bs', resize malloc_ok self N m (2 ^ k - 1) = Ret (N', m') /\ hmap_ok self N' m' bs' /\
      concat bs' ≡ₚ concat bs /\ mask m' = 2 ^ k - 1 /\ same_hashes N N'.
  Proof.
    intros Hself Hok Hpos Hk Hlen. unfold resize.
    assert (0 < 2 ^ k <= 2 ^ 59) as Hpk.
    { split; [apply Z.pow_pos_nonneg; lia|apply Z.pow_le_mono_r; lia]. }
    change (2 ^ 59) with 576460752303423488 in Hpk.
    rewrite (u64_small (2 ^ k - 1 + 1)) by lia. replace (2 ^ k - 1 + 1) with (2 ^ k) by lia.
    rewrite (lwip_assert_true (_ =? 0)); cycle 1.
    { rewrite Z.sub_1_r, <- Z.ones_equiv, Z.land_comm, Z.land_ones, Z.mod_same by lia. done. }
    rewrite (lwip_assert_true (negb _)); cycle 1.
    { rewrite (proj2 (Z.eqb_neq _ _)); [done|]. unfold SIZE_MAX. change (2 ^ 64) with 18446744073709551616. lia. }
    cbn [mbind outcome_bind]. rewrite (u64_small (8 * 2 ^ k)) by lia. rewrite Hmalloc, (proj2 (Z.leb_le (8 * 2 ^ k) _)) by lia.
    cbn [lwip_assert deref mbind outcome_bind].
    set (tmp := if 2 ^ k - 1 =? 0 then _ else _).
    assert (exists bs1 tm, tmp = Ret tm /\ hmap_ok TMP N tm bs1 /\ concat bs1 = [] /\ mask tm = 2 ^ k - 1) as
      (bs1 & tm & -> & Hok1 & Hc1 & Hm1).
    { unfold tmp. destruct (Z.eqb_spec (2 ^ k - 1) 0) as [E|E].
      - eexists _, _. split; [done|]. split; [apply hmap_init_ok|]. split; [done|]. simpl. lia.
      - eexists _, _. split; [done|]. split; [|split; [apply (concat_replicate_nil (Z.to_nat (2 ^ k)))|done]].
        pose proof (cleared_ok N k ltac:(lia)) as H. replace (2 ^ k - 1 + 1) with (2 ^ k) in H by lia. exact H. }
    cbn [mbind outcome_bind]. destruct (ok_heads _ _ _ _ Hok) as (hs & Hhs & Hf).
    destruct (ok_mask _ _ _ _ Hok) as (k0 & Hk0 & Hmk0 & Hlk0).
    assert (0 < 2 ^ k0) by (apply Z.pow_pos_nonneg; lia).
    destruct (move_chains_ok bs (S (Z.to_nat (mask m))) 0 self N m tm hs bs1) as
      (N' & tmp' & bs' & Hmv & Hok' & Hp' & Hm' & Hs'); try done.
    { rewrite Hmk0. lia. }
    { lia. }
    { rewrite Hc1, app_nil_r. apply (ok_nodup _ _ _ _ Hok). }
    { rewrite Hc1, app_nil_r. done. }
    change (Z.of_nat 0) with 0 in Hmv. rewrite Hmv. cbn [mbind outcome_bind].
    rewrite Hc1, app_nil_r in Hp'.
    pose proof (swap_ok self N' m tmp' bs' hs Hself Hhs Hok') as Hsw.
    destruct (hmap_swap self m TMP tmp') as [m' t']. destruct Hsw as (Hokm & Hmm & r & ->).
    cbn [mbind outcome_bind]. exists N', m', bs'. split; [done|]. split; [done|]. split; [done|].
    split; [by rewrite Hmm, Hm'|done].
  Qed.
End resizing.

(** ** Removing a node *)
Fixpoint last_loc (loc0 : loc) (l : list Z) : loc :=
  match l with [] => loc0 | a :: l' => last_loc (LNext a) l' end.

Lemma remove_loop_ok self N m a l2 : forall l1 loc0 o fuel,
  read_loc self N m loc0 = Ret o -> hchain N o (l1 ++ a :: l2) -> a ∉ l1 -> (length l1 < fuel)%nat ->
  remove_loop fuel self N m a loc0 = Ret (last_loc loc0 l1).
Proof.
  induction l1 as [|b l1 IH]; intros loc0 o fuel Hr Hc Ha Hf;
    (destruct fuel as [|fuel]; [simpl in Hf; lia|]); simpl; rewrite Hr; simpl.
  - destruct Hc as [-> _]. by rewrite decide_True.
  - destruct Hc as [-> (nd & Hb & Hc)]. apply not_elem_of_cons in Ha as [Hab Ha].
    rewrite decide_False by congruence. apply (IH _ (hnext nd)); [|done|done|simpl in Hf; lia].
    unfold read_loc, get_node. by rewrite Hb.
Qed.

(** Redirecting the last link of [l1] past [a]. *)
Lemma hchain_skip N a nd l2 : N !! a = Some nd -> forall l1 b o, hchain N o (b :: l1 ++ a :: l2) ->
  NoDup (b :: l1 ++ a :: l2) ->
  exists z ndz, last_loc (LNext b) l1 = LNext z /\ z ∈ b :: l1 /\ N !! z = Some ndz /\
    hchain (<[z := HNode (hash ndz) (hnext nd)]> N) o (b :: l1 ++ l2).
Proof.
  intros Ha l1. induction l1 as [|c l1 IH]; intros b o Hc Hnd.
  - destruct Hc as [-> (ndb & Hb & Hc)]. simpl in Hc. destruct Hc as [Hn (nda & Ha' & Hl2)].
    rewrite Ha in Ha'. injection Ha' as <-. exists b, ndb. split; [done|]. split; [by left|]. split; [done|].
    split; [done|]. rewrite lookup_insert_eq. eexists. split; [done|]. simpl.
    apply (hchain_frame N); [|done]. intros x Hx. apply lookup_insert_ne. intros ->.
    apply NoDup_cons in Hnd as [Hnb _]. apply Hnb. simpl. by right.
  - destruct Hc as [-> (ndb & Hb & Hc)]. apply NoDup_cons in Hnd as [Hnb Hnd].
    destruct (IH c _ Hc Hnd) as (z & ndz & Hl & Hz & Hnz & Hc'). exists z, ndz.
    split; [done|]. split; [by right|]. split; [done|]. split; [done|]. exists ndb. split; [|done].
    rewrite lookup_insert_ne; [done|]. intros ->. apply Hnb. revert Hz.
    change (c :: l1 ++ a :: l2) with ((c :: l1) ++ a :: l2). rewrite elem_of_app. tauto.
Qed.

Lemma remove_ok self N m bs a : hmap_ok self N m bs -> hashes_nonneg N -> a ∈ concat bs ->
  Z.of_nat (length (concat bs)) < 2 ^ 60 ->
  exists N' m' bs', hmap_remove self N m a = Ret (N', m') /\ hmap_ok self N' m' bs' /\
    concat bs ≡ₚ a :: concat bs' /\ mask m' = mask m /\ same_hashes N N'.
Proof.
  intros Hok Hpos Hin Hlen. apply elem_of_concat in Hin as (i & l & Hi & Ha).
  destruct (ok_chain _ _ _ _ _ _ Hok Hi) as (hs & o & Hhs & Ho & Hc & Hlt).
  destruct (hchain_elem _ _ _ _ Hc Ha) as [nd Hnd].
  pose proof (ok_place _ _ _ _ Hok _ _ _ _ Hi Ha Hnd) as Hpl.
  apply list_elem_of_split in Ha as (l1 & l2 & El). subst l.
  assert (NoDup (l1 ++ a :: l2)) as Hnl.
  { pose proof (ok_nodup _ _ _ _ Hok) as H. pose proof (concat_update bs i _ [] Hi) as Hp. simpl in Hp.
    rewrite Hp in H. by apply NoDup_app in H as (? & _). }
  assert (a ∉ l1) as Hal1.
  { intros ?. apply NoDup_app in Hnl as (_ & Hd & _). apply (Hd a); [done|by left]. }
  unfold hmap_remove, get_node. rewrite Hnd. cbn [deref mbind outcome_bind]. rewrite Hpl.
  rewrite (remove_loop_ok self N m a l2 l1 (LBucket (Z.of_nat i)) o); [|
    |done|done|pose proof (hchain_length _ _ _ Hc Hnl) as Hz; rewrite length_app in Hz; simpl in Hz; lia];
    [|simpl; rewrite (get_bucket_ok self m hs) by (done || lia); by rewrite Nat2Z.id, Ho].
  cbn [deref mbind outcome_bind].
  set (bs' := <[i := l1 ++ l2]> bs).
  assert (concat bs ≡ₚ a :: concat bs') as Hperm.
  { apply (Permutation_app_inv_l (l1 ++ l2)). unfold bs'.
    rewrite (concat_update bs i _ (l1 ++ l2) Hi). rewrite <- !app_assoc. simpl.
    rewrite <- !Permutation_middle. by rewrite app_assoc. }
  assert (length bs' = length bs) as Hlb by apply length_insert.
  assert (exists N' m', write_loc self N m (last_loc (LBucket (Z.of_nat i)) l1) (hnext nd) = Ret (N', m') /\
    mask m' = mask m /\ n m' = n m /\ same_hashes N N' /\
    exists hs', heads self m' = Some hs' /\ Forall2 (hchain N') hs' bs') as
    (N' & m' & -> & Hm' & Hn' & [Hd' Hh'] & hs' & Hhs' & Hf').
  { destruct (ok_heads _ _ _ _ Hok) as (hs0 & E & Hf). rewrite Hhs in E. injection E as <-.
    destruct l1 as [|b l1].
    - simpl. destruct (set_bucket_ok self m hs (Z.of_nat i) (hnext nd)) as (m' & -> & Hh' & Hm' & Hn');
        [done|lia|by rewrite Nat2Z.id|]. simpl. exists N, m'. split; [done|]. split; [done|]. split; [done|].
      split; [by split|]. eexists. split; [done|]. rewrite Nat2Z.id.
      apply (chains_replace N); [done| |done]. destruct Hc as [_ (nd' & Hnd' & Hc)].
      rewrite Hnd in Hnd'. by injection Hnd' as <-.
    - destruct (hchain_skip N a nd l2 Hnd l1 b o Hc Hnl) as (z & ndz & Hl & Hz & Hnz & Hc').
      simpl. rewrite Hl. unfold write_loc, get_node. rewrite Hnz. simpl.
      eexists _, m. split; [done|]. split; [done|]. split; [done|]. split; [split|].
      + rewrite dom_insert_L. apply elem_of_dom_2 in Hnz. set_solver.
      + intros x. rewrite hashes_insert. case_decide as Ex; [by rewrite <- Ex, Hnz|done].
      + exists hs. split; [done|]. rewrite <- (list_insert_id hs i o) by done. apply (chains_replace N); [done|done|].
        intros x Hx. rewrite lookup_insert_ne; [done|]. intros ->.
        pose proof (ok_nodup _ _ _ _ Hok) as H. pose proof (concat_update bs i _ [] Hi) as Hp. simpl in Hp.
        rewrite Hp in H. rewrite app_comm_cons in H. apply NoDup_app in H as (_ & Hd & _).
        apply (Hd x); [|done]. change (b :: l1 ++ a :: l2) with ((b :: l1) ++ a :: l2). apply elem_of_app. by left. }
  cbn [mbind outcome_bind]. eexists _, _, bs'. split; [reflexivity|].
  split; [|split; [done|split; [done|by split]]]. split; cbn [mask set_n n].
  - exists hs'. done.
  - simpl. rewrite Hm', Hlb. apply (ok_mask _ _ _ _ Hok).
  - simpl. rewrite Hm'. intros j lj x ndx Hj Hx Hnx. specialize (Hh' x). rewrite Hnx in Hh'.
    destruct (N !! x) as [ndx'|] eqn:Enx; [|done]. simpl in Hh'. injection Hh' as ->.
    destruct (decide (i = j)) as [<-|Hne].
    + unfold bs' in Hj. rewrite list_lookup_insert_eq in Hj by (by eapply lookup_lt_Some). injection Hj as <-.
      apply (ok_place _ _ _ _ Hok _ _ x _ Hi); [|done]. set_solver.
    + unfold bs' in Hj. rewrite list_lookup_insert_ne in Hj by done. by apply (ok_place _ _ _ _ Hok _ lj x _).
  - pose proof (ok_nodup _ _ _ _ Hok) as H. rewrite Hperm in H. by apply NoDup_cons in H as [_ ?].
  - simpl. rewrite Hn', (ok_n _ _ _ _ Hok), Hperm. simpl. rewrite Hperm in Hlen. simpl in Hlen.
    change (2 ^ 60) with 1152921504606846976 in Hlen. rewrite u64_small; lia.
Qed.

(** ** Searching *)
Definition has_hash (N : hnodes) (h a : Z) : Prop := hash <$> (N !! a) = Some h.
#[global] Instance has_hash_dec N h a : Decision (has_hash N h a).
Proof. unfold has_hash. apply _. Defined.

Lemma each_chain N h l : forall o f1 f2, hchain N o l -> NoDup l -> (length l < f1)%nat -> (length l < f2)%nat ->
  (node ← next_with_hash_loop f1 N o h; each_with_hash f2 N node) = Ret (filter (has_hash N h) l).
Proof.
  induction l as [|a l IH]; intros o f1 f2 Hc Hnd H1 H2; simpl in H1, H2;
    (destruct f1 as [|f1]; [lia|]); (destruct f2 as [|f2]; [lia|]); simpl.
  - simpl in Hc. by rewrite Hc.
  - pose proof (hchain_length _ _ _ Hc Hnd) as Hsz. simpl in Hsz.
    destruct Hc as [-> (nd & Ha & Hc)]. apply NoDup_cons in Hnd as [_ Hnd].
    unfold get_node. rewrite Ha. cbn [deref mbind outcome_bind].
    destruct (Z.eqb_spec (hash nd) h) as [E|E].
    + rewrite filter_cons_True by (unfold has_hash; rewrite Ha; simpl; by rewrite E).
      unfold hmap_next_with_hash, get_node. cbn [each_with_hash mbind outcome_bind].
      unfold hmap_next_with_hash, get_node. rewrite Ha. cbn [deref mbind outcome_bind]. rewrite E.
      pose proof (IH (hnext nd) (S (size N)) f2 Hc Hnd ltac:(lia) ltac:(lia)) as H.
      destruct (next_with_hash_loop (S (size N)) N (hnext nd) h) as [x| | |]; simpl in H |- *; try done.
      by rewrite H.
    + rewrite filter_cons_False by (unfold has_hash; rewrite Ha; simpl; congruence).
      apply (IH (hnext nd) f1 (S f2)); [done|done|lia|lia].
Qed.

Lemma find_ok self N m bs h : hmap_ok self N m bs -> 0 <= h ->
  exists l, hmap_for_each_with_hash self N m h = Ret l /\ NoDup l /\
    forall a, a ∈ l <-> a ∈ concat bs /\ has_hash N h a.
Proof.
  intros Hok Hh. destruct (mask_index _ _ _ _ h Hok Hh) as (l & Hl & Hi).
  destruct (ok_chain _ _ _ _ _ _ Hok Hl) as (hs & o & Hhs & Ho & Hc & Hlt).
  assert (NoDup l) as Hnl.
  { pose proof (ok_nodup _ _ _ _ Hok) as H. pose proof (concat_update bs _ _ [] Hl) as Hp. simpl in Hp.
    rewrite Hp in H. by apply NoDup_app in H as (? & _). }
  pose proof (hchain_length _ _ _ Hc Hnl) as Hsz.
  unfold hmap_for_each_with_hash, hmap_first_with_hash.
  rewrite (get_bucket_ok self m hs), Ho by done. cbn [deref mbind outcome_bind].
  pose proof (each_chain N h l o (S (size N)) (S (size N)) Hc Hnl ltac:(lia) ltac:(lia)) as H.
  exists (filter (has_hash N h) l). split; [exact H|]. split; [by apply NoDup_filter|].
  intros a. rewrite list_elem_of_filter, elem_of_concat. split.
  - intros [Ha Hin]. split; [eauto|done].
  - intros [(j & lj & Hj & Hin) Ha]. split; [done|].
    pose proof Ha as Ha'. unfold has_hash in Ha'. destruct (N !! a) as [nd|] eqn:E; [|done].
    simpl in Ha'. injection Ha' as Ha'.
    pose proof (ok_place _ _ _ _ Hok _ _ _ _ Hj Hin E) as Hpl. rewrite Ha' in Hpl.
    rewrite Hpl, Nat2Z.id, Hj in Hl. by injection Hl as <-.
Qed.

(** ** The tables as maps from nodes to hashes *)
Definition hmap_rep (self : Z) (N : hnodes) (m : hmap) (M : gmap Z Z) : Prop :=
  hashes_nonneg N /\ exists bs, hmap_ok self N m bs /\
    forall a h, M !! a = Some h <-> a ∈ concat bs /\ has_hash N h a.

Lemma rep_elem self N m bs (M : gmap Z Z) a : hmap_ok self N m bs ->
  (forall a h, M !! a = Some h <-> a ∈ concat bs /\ has_hash N h a) -> a ∈ concat bs <-> is_Some (M !! a).
Proof.
  intros Hok HM. split.
  - intros Ha. pose proof Ha as (i & l & Hi & Hl)%elem_of_concat.
    destruct (ok_chain _ _ _ _ _ _ Hok Hi) as (hs & o & _ & _ & Hc & _).
    destruct (hchain_elem _ _ _ _ Hc Hl) as [nd Hnd]. exists (hash nd). apply HM. split; [done|].
    unfold has_hash. by rewrite Hnd.
  - intros [h Hh]. by apply HM in Hh as [? _].
Qed.

Lemma rep_size self N m bs (M : gmap Z Z) : hmap_ok self N m bs ->
  (forall a h, M !! a = Some h <-> a ∈ concat bs /\ has_hash N h a) -> size M = length (concat bs).
Proof.
  intros Hok HM. rewrite <- (size_dom (D := gset Z)), <- (size_list_to_set (C := gset Z) (concat bs))
    by apply (ok_nodup _ _ _ _ Hok).
  f_equal. apply set_eq. intros a. rewrite elem_of_dom, elem_of_list_to_set. by rewrite (rep_elem self N m bs M).
Qed.

Lemma rep_same self N N' m' bs bs' (M : gmap Z Z) : hmap_ok self N' m' bs' -> hashes_nonneg N ->
  (forall a h, M !! a = Some h <-> a ∈ concat bs /\ has_hash N h a) ->
  concat bs' ≡ₚ concat bs -> same_hashes N N' -> hmap_rep self N' m' M.
Proof.
  intros Hok Hpos HM Hp Hs. split; [by eapply same_hashes_nonneg|]. exists bs'. split; [done|].
  intros a h. rewrite HM, Hp. unfold has_hash. by rewrite (proj2 Hs a).
Qed.

(** The calls of a client on one table. *)
Inductive op : Set :=
| Insert (a h : Z) | InsertFast (a h : Z) | RemoveNode (a : Z) | Expand | Shrink | Reserve (c : Z) | Find (h : Z).

Definition run_op (malloc_ok : Z -> bool) (self : Z) (N : hnodes) (m : hmap) (o : op)
  : outcome (list Z * hnodes * hmap) :=
  match o with
  | Insert a h => '(N, m) ← hmap_insert malloc_ok self N m a h; Ret ([], N, m)
  | InsertFast a h => '(N, m) ← hmap_insert_fast self N m a h; Ret ([], N, m)
  | RemoveNode a => '(N, m) ← hmap_remove_and_shrink self N m a; Ret ([], N, m)
  | Expand => '(N, m) ← hmap_expand malloc_ok self N m; Ret ([], N, m)
  | Shrink => '(N, m) ← hmap_shrink malloc_ok self N m; Ret ([], N, m)
  | Reserve c => '(N, m) ← hmap_reserve malloc_ok self N m c; Ret ([], N, m)
  | Find h => l ← hmap_for_each_with_hash self N m h; Ret (l, N, m)
  end.
(** What the call may assume and what it does to the map; [D]: the nodes there are. *)
Definition spec_op (D : gset Z) (M : gmap Z Z) (o : op) : option (gmap Z Z) :=
  match o with
  | Insert a h | InsertFast a h =>
      if decide (a ∈ D /\ M !! a = None /\ 0 <= h) then Some (<[a := h]> M) else None
  | RemoveNode a => if decide (is_Some (M !! a)) then Some (delete a M) else None
  | Expand | Shrink => Some M
  | Reserve c => if decide (0 <= c < 2 ^ 58) then Some M else None
  | Find h => if decide (0 <= h) then Some M else None
  end.
(** The nodes a search returns. *)
Definition found (M : gmap Z Z) (o : op) (l : list Z) : Prop :=
  match o with
  | Find h => NoDup l /\ forall a, a ∈ l <-> M !! a = Some h
  | _ => l = []
  end.

Section refinement.
  Context (malloc_ok : Z -> bool) (Hmalloc : forall sz, malloc_ok sz = true).
  Context (self : Z) (Hself : self <> TMP).

Lemma resize_rep N m M c : hmap_rep self N m M -> Z.of_nat (size M) < 2 ^ 58 -> 0 <= c < 2 ^ 58 ->
    exists N' m', resize malloc_ok self N m (calc_mask c) = Ret (N', m') /\ hmap_rep self N' m' M /\
      dom N' = dom N /\ mask m' = calc_mask c /\ n m' = n m.
  Proof.
    intros (Hpos & bs & Hok & HM) Hsz Hc.
    destruct (calc_mask_ok c) as (k & Hk & Hcm & _ & Hub).
    { change (2 ^ 58) with 288230376151711744 in Hc. change (2 ^ 64) with 18446744073709551616. lia. }
    assert (k <= 59) as Hk59.
    { destruct (Z_le_gt_dec k 59); [done|]. exfalso.
      assert (2 ^ 60 <= 2 ^ k) by (apply Z.pow_le_mono_r; lia).
      change (2 ^ 60) with 1152921504606846976 in *. change (2 ^ 58) with 288230376151711744 in *. lia. }
    rewrite (rep_size self N m bs M Hok HM) in Hsz. rewrite Hcm.
    destruct (resize_ok malloc_ok Hmalloc self N m bs k Hself Hok Hpos) as
      (N' & m' & bs' & -> & Hok' & Hp & Hm & Hs); [lia|change (2 ^ 60) with 1152921504606846976;
       change (2 ^ 58) with 288230376151711744 in *; lia|].
    exists N', m'. split; [done|]. split; [by eapply rep_same|]. split; [apply Hs|]. split; [done|].
    by rewrite (ok_n _ _ _ _ Hok'), Hp, (ok_n _ _ _ _ Hok).
  Qed.

Lemma rep_n N m M : hmap_rep self N m M -> n m = Z.of_nat (size M).
  Proof. intros (_ & bs & Hok & HM). by rewrite (rep_size self N m bs M), (ok_n _ _ _ _ Hok). Qed.

  (** [hmap_expand] and [hmap_shrink], [hmap_reserve] resize or do nothing. *)
Lemma maybe_resize N m M c (b : bool) : hmap_rep self N m M -> Z.of_nat (size M) < 2 ^ 58 -> 0 <= c < 2 ^ 58 ->
    exists N' m', (if b then resize malloc_ok self N m (calc_mask c) else Ret (N, m)) = Ret (N', m') /\
      hmap_rep self N' m' M /\ dom N' = dom N /\ n m' = n m /\ mask m' = (if b then calc_mask c else mask m).
  Proof.
    intros Hr Hsz Hc. destruct b; [|by exists N, m].
    destruct (resize_rep N m M c Hr Hsz Hc) as (N' & m' & H & Hr' & Hd & Hm & Hn). exists N', m'. eauto.
  Qed.

Lemma insert_fast_rep N m M a h : hmap_rep self N m M -> Z.of_nat (size M) < 2 ^ 58 -> a ∈ dom N ->
    M !! a = None -> 0 <= h ->
    exists N' m', hmap_insert_fast self N m a h = Ret (N', m') /\ hmap_rep self N' m' (<[a := h]> M) /\
      dom N' = dom N /\ mask m' = mask m.
  Proof.
    intros (Hpos & bs & Hok & HM) Hsz Ha Hnone Hh.
    assert (a ∉ concat bs) as Hna.
    { rewrite (rep_elem self N m bs M a Hok HM), Hnone. by intros [? ?]. }
    rewrite (rep_size self N m bs M Hok HM) in Hsz.
    destruct (insert_fast_ok self N m bs a h Hok Ha Hna Hh) as
      (N' & m' & bs' & -> & Hok' & Hp & Hm & _ & Hd & Hfr & Hhs).
    { change (2 ^ 58) with 288230376151711744 in Hsz. change (2 ^ 60) with 1152921504606846976. lia. }
    exists N', m'. split; [done|]. split; [|done]. split.
    - intros x nd Hx. specialize (Hhs x). rewrite Hx in Hhs. simpl in Hhs. case_decide.
      + by injection Hhs as ->.
      + destruct (N !! x) as [nd'|] eqn:E; [|done]. injection Hhs as ->. by apply (Hpos x).
    - exists bs'. split; [done|]. intros x hx. unfold has_hash. rewrite Hhs, Hp, elem_of_cons.
      destruct (decide (a = x)) as [<-|Hax].
      + rewrite lookup_insert_eq. intuition congruence.
      + rewrite lookup_insert_ne by done. rewrite HM. unfold has_hash. intuition congruence.
  Qed.

Lemma remove_rep N m M a : hmap_rep self N m M -> Z.of_nat (size M) < 2 ^ 58 -> is_Some (M !! a) ->
    exists N' m', hmap_remove self N m a = Ret (N', m') /\ hmap_rep self N' m' (delete a M) /\ dom N' = dom N.
  Proof.
    intros (Hpos & bs & Hok & HM) Hsz Ha.
    apply (rep_elem self N m bs M a Hok HM) in Ha as Hin.
    rewrite (rep_size self N m bs M Hok HM) in Hsz.
    destruct (remove_ok self N m bs a Hok Hpos Hin) as (N' & m' & bs' & -> & Hok' & Hp & _ & Hs).
    { change (2 ^ 58) with 288230376151711744 in Hsz. change (2 ^ 60) with 1152921504606846976. lia. }
    exists N', m'. split; [done|]. split; [|apply Hs]. split; [by eapply same_hashes_nonneg|].
    exists bs'. split; [done|]. intros x hx. unfold has_hash. rewrite (proj2 Hs x).
    pose proof (ok_nodup _ _ _ _ Hok) as Hnd. rewrite Hp in Hnd. apply NoDup_cons in Hnd as [Hna _].
    destruct (decide (a = x)) as [<-|Hax].
    - rewrite lookup_delete_eq. split; [done|tauto].
    - rewrite lookup_delete_ne, HM, Hp, elem_of_cons by done. unfold has_hash. intuition congruence.
  Qed.

Lemma hmap_op_refines N m M o M' : hmap_rep self N m M -> Z.of_nat (size M) < 2 ^ 57 ->
    spec_op (dom N) M o = Some M' ->
    exists l N' m', run_op malloc_ok self N m o = Ret (l, N', m') /\ found M o l /\
      hmap_rep self N' m' M' /\ dom N' = dom N /\
      match o with Insert _ _ => n m' / 2 <= mask m' | _ => True end.
  Proof.
    intros Hr Hsz Hs. change (2 ^ 57) with 144115188075855872 in Hsz.
    pose proof (rep_n N m M Hr) as Hn.
    assert (Z.of_nat (size M) < 2 ^ 58) as Hsz' by (change (2 ^ 58) with 288230376151711744; lia).
    assert (0 <= n m < 2 ^ 58) as Hnr by lia.
    destruct o as [a h|a h|a| | |c|h]; simpl in Hs |- *.
    - case_decide as Hpre; [|done]. injection Hs as <-. destruct Hpre as (Ha & Hnone & Hh).
      unfold hmap_insert.
      destruct (insert_fast_rep N m M a h Hr Hsz' Ha Hnone Hh) as (N1 & m1 & -> & Hr1 & Hd1 & Hm1).
      cbn [mbind outcome_bind].
      pose proof (rep_n _ _ _ Hr1) as Hn1. rewrite map_size_insert_None in Hn1 by done.
      assert (0 <= n m1 < 2 ^ 58) as Hn1r by (change (2 ^ 58) with 288230376151711744; lia).
      destruct (calc_mask_ok (n m1)) as (k & Hk & Hcm & Hlo & _).
      { change (2 ^ 58) with 288230376151711744 in Hn1r. change (2 ^ 64) with 18446744073709551616. lia. }
      assert (Z.of_nat (size (<[a:=h]> M)) < 2 ^ 58) as Hsz1 by (rewrite <- (rep_n _ _ _ Hr1); lia).
      destruct (Z.ltb_spec (mask m1) (n m1 / 2)) as [Hlt|Hge].
      + unfold hmap_expand. rewrite (proj2 (Z.ltb_lt _ _)) by lia.
        destruct (resize_rep N1 m1 _ (n m1) Hr1 Hsz1 Hn1r) as (N2 & m2 & -> & Hr2 & Hd2 & Hm2 & Hn2).
        eexists _, _, _. split; [reflexivity|]. split; [done|]. split; [done|].
        split; [by rewrite Hd2|]. rewrite Hm2, Hn2. done.
      + eexists _, _, _. split; [reflexivity|]. by repeat (split; [done|]).
    - case_decide as Hpre; [|done]. injection Hs as <-. destruct Hpre as (Ha & Hnone & Hh).
      destruct (insert_fast_rep N m M a h Hr Hsz' Ha Hnone Hh) as (N1 & m1 & -> & Hr1 & Hd1 & Hm1).
      eexists _, _, _. split; [reflexivity|]. done.
    - case_decide as Hpre; [|done]. injection Hs as <-. unfold hmap_remove_and_shrink.
      destruct (remove_rep N m M a Hr Hsz' Hpre) as (N1 & m1 & -> & Hr1 & Hd1).
      eexists _, _, _. split; [reflexivity|]. done.
    - injection Hs as <-. unfold hmap_expand.
      destruct (maybe_resize N m M (n m) (mask m <? calc_mask (n m)) Hr Hsz' Hnr) as (N' & m' & -> & Hr' & Hd' & _).
      eexists _, _, _. split; [reflexivity|]. done.
    - injection Hs as <-. unfold hmap_shrink.
      destruct (maybe_resize N m M (n m) (calc_mask (n m) <? mask m) Hr Hsz' Hnr) as (N' & m' & -> & Hr' & Hd' & _).
      eexists _, _, _. split; [reflexivity|]. done.
    - case_decide as Hc; [|done]. injection Hs as <-. unfold hmap_reserve.
      destruct (maybe_resize N m M c (mask m <? calc_mask c) Hr Hsz' Hc) as (N' & m' & -> & Hr' & Hd' & _).
      eexists _, _, _. split; [reflexivity|]. done.
    - case_decide as Hh; [|done]. injection Hs as <-. pose proof Hr as (_ & bs & Hok & HM).
      destruct (find_ok self N m bs h Hok Hh) as (l & -> & Hnd & Hl).
      eexists _, _, _. split; [reflexivity|]. split; [|done]. split; [done|]. intros a. by rewrite Hl, HM.
  Qed.
End refinement.

(** ** Properties *)
Fixpoint run_ops (malloc_ok : Z -> bool) (self : Z) (N : hnodes) (m : hmap) (os : list op)
  : outcome (list (list Z) * hnodes * hmap) :=
  match os with
  | [] => Ret ([], N, m)
  | o :: os =>
      '(l, N, m) ← run_op malloc_ok self N m o;
      '(ls, N, m) ← run_ops malloc_ok self N m os; Ret (l :: ls, N, m)
  end.
(** The results and the final map a series of calls may have. *)
Fixpoint spec_ops (D : gset Z) (M : gmap Z Z) (os : list op) (ls : list (list Z)) (M' : gmap Z Z) : Prop :=
  match os, ls with
  | [], [] => M' = M
  | o :: os, l :: ls => found M o l /\ exists M1, spec_op D M o = Some M1 /\ spec_ops D M1 os ls M'
  | _, _ => False
  end.
(** The calls respect the contract of the table. *)
Fixpoint allowed (D : gset Z) (M : gmap Z Z) (os : list op) : bool :=
  match os with
  | [] => true
  | o :: os => match spec_op D M o with None => false | Some M1 => allowed D M1 os end
  end.

(** C38: The hash table implements a map from nodes to hashes: any allowed series of
    insertions, removals, resizings and searches runs without an invalid access,
    every search visits exactly the nodes with the hash, each once, and the
    table stays well formed. *)
Theorem hmap_refines_map malloc_ok self os : (forall sz, malloc_ok sz = true) -> self <> TMP ->
  forall N m M, hmap_rep self N m M -> Z.of_nat (size N) < 2 ^ 57 -> allowed (dom N) M os = true ->
  exists ls N' m' M', run_ops malloc_ok self N m os = Ret (ls, N', m') /\
    spec_ops (dom N) M os ls M' /\ hmap_rep self N' m' M'.
Proof.
  intros Hmalloc Hself. induction os as [|o os IH]; intros N m M Hr Hsz Hal; simpl in Hal |- *.
  - by exists [], N, m, M.
  - destruct (spec_op (dom N) M o) as [M1|] eqn:Ho; [|done].
    assert (size M <= size N)%nat as HMN.
    { rewrite <- !(size_dom (D := gset Z)). apply subseteq_size. intros a [h Ha]%elem_of_dom.
      destruct Hr as (_ & bs & _ & HM). apply HM in Ha as [_ Ha]. unfold has_hash in Ha.
      destruct (N !! a) as [nd|] eqn:E; [|done]. by eapply elem_of_dom_2. }
    destruct (hmap_op_refines malloc_ok Hmalloc self Hself N m M o M1 Hr) as (l & N1 & m1 & -> & Hf & Hr1 & Hd & _);
      [lia|done|]. cbn [mbind outcome_bind].
    destruct (IH N1 m1 M1 Hr1) as (ls & N2 & m2 & M2 & -> & Hs & Hr2).
    + rewrite <- !(size_dom (D := gset Z)), Hd, size_dom in *. done.
    + by rewrite Hd.
    + cbn [mbind outcome_bind]. exists (l :: ls), N2, m2, M2. split; [done|]. split; [|done].
      split; [done|]. exists M1. split; [done|]. by rewrite <- Hd.
Qed.

(** Six nodes, no one in the table yet. *)
Definition demo_hnodes : hnodes :=
  list_to_map [(1, HNode 0 None); (2, HNode 0 None); (3, HNode 0 None);
               (4, HNode 0 None); (5, HNode 0 None); (6, HNode 0 None)].
Lemma demo_rep : hmap_rep 100 demo_hnodes (hmap_init 100) ∅.
Proof.
  split.
  - intros a nd Ha. apply elem_of_list_to_map_2 in Ha. repeat (apply elem_of_cons in Ha as [Ha|Ha];
      [by simplify_eq|]). by apply elem_of_nil in Ha.
  - exists [[]]. split; [apply hmap_init_ok|]. intros a h. rewrite lookup_empty. simpl.
    split; [done|]. by intros [?%elem_of_nil _].
Qed.

Lemma hmap_refines_map_witness : exists N' m',
  run_ops (fun _ => true) 100 demo_hnodes (hmap_init 100)
    [Insert 1 7; Insert 2 11; Insert 3 7; Insert 4 15; Insert 5 7; RemoveNode 3; Find 7; Shrink; Find 11] =
  Ret ([[]; []; []; []; []; []; [5; 1]; []; [2]], N', m') /\ mask m' = 3.
Proof.
  destruct (hmap_refines_map (fun _ => true) 100
    [Insert 1 7; Insert 2 11; Insert 3 7; Insert 4 15; Insert 5 7; RemoveNode 3; Find 7; Shrink; Find 11]
    (fun _ => eq_refl) ltac:(discriminate) demo_hnodes (hmap_init 100) ∅) as (ls & N' & m' & M' & H & _).
  - apply demo_rep.
  - vm_compute. reflexivity.
  - vm_compute. reflexivity.
  - exists N', m'. rewrite H. vm_compute in H. injection H as <- <- <-. split; reflexivity.
Defined.

(** [hmap_insert] keeps the chains short: afterwards there are at most about two
    nodes per chain, however many were inserted. *)
Theorem hmap_insert_load malloc_ok self N m M a h : (forall sz, malloc_ok sz = true) -> self <> TMP ->
  hmap_rep self N m M -> Z.of_nat (size M) < 2 ^ 57 -> a ∈ dom N -> M !! a = None -> 0 <= h ->
  exists N' m', hmap_insert malloc_ok self N m a h = Ret (N', m') /\ hmap_rep self N' m' (<[a := h]> M) /\
    n m' = Z.of_nat (size M) + 1 /\ n m' / 2 <= mask m'.
Proof.
  intros Hmalloc Hself Hr Hsz Ha Hnone Hh.
  destruct (hmap_op_refines malloc_ok Hmalloc self Hself N m M (Insert a h) (<[a := h]> M) Hr Hsz) as
    (l & N' & m' & Hrun & _ & Hr' & _ & Hload).
  { simpl. by rewrite decide_True. }
  simpl in Hrun. destruct (hmap_insert malloc_ok self N m a h) as [[N1 m1]| | |]; simplify_eq/=.
  exists N', m'. split; [done|]. split; [done|]. split; [|done].
  rewrite (rep_n self N' m' _ Hr'), map_size_insert_None by done. lia.
Qed.
Lemma hmap_insert_load_witness : exists N' m',
  hmap_insert (fun _ => true) 100 demo_hnodes (hmap_init 100) 4 9 = Ret (N', m') /\ n m' = 1 /\ n m' / 2 <= mask m'.
Proof.
  destruct (hmap_insert_load (fun _ => true) 100 demo_hnodes (hmap_init 100) ∅ 4 9) as (N' & m' & H & _ & Hn & Hl).
  - reflexivity.
  - discriminate.
  - apply demo_rep.
  - vm_compute. reflexivity.
  - apply elem_of_dom. eexists. vm_compute. reflexivity.
  - reflexivity.
  - lia.
  - exists N', m'. split; [exact H|]. split; [exact Hn|exact Hl].
Defined.
