(* ===== verification/Route.v ===== *)
(** * Interfaces and [ip4_route] ([lwip/src/core/ipv4/ip4.c])

    The fields of [struct netif] that routing and ARP read, the interface
    list, and the choice of the interface for a destination, in the
    configuration of the build (several interfaces, multicast options on,
    loopback traffic through any interface). *)

From S2P Require Import Prelude Def Ip4Addr.

Definition NETIF_FLAG_UP : Z := 0x01.
Definition NETIF_FLAG_LINK_UP : Z := 0x04.

(** An interface: the fields [ip4_addr_isbroadcast_u32] reads, the gateway and
    the hardware address. *)
Record iface := Iface { base : netif; gw : Z; hwaddr : list Z; hwaddr_len : Z }.
Definition flags (n : iface) : Z := netif_flags (base n).
Definition ip_addr (n : iface) : Z := netif_ip4_addr (base n).
Definition netmask (n : iface) : Z := netif_ip4_netmask (base n).

Definition netif_is_up (n : iface) : bool := negb (Z.land (flags n) NETIF_FLAG_UP =? 0).
Definition netif_is_link_up (n : iface) : bool := negb (Z.land (flags n) NETIF_FLAG_LINK_UP =? 0).

(** Tests on addresses (network order: the first octet is the low byte). *)
Definition ip4_addr_isany_val (a : Z) : bool := a =? IPADDR_ANY.
Definition ip4_addr_ismulticast (a : Z) : bool := Z.land a (lwip_htonl 0xf0000000) =? lwip_htonl 0xe0000000.
Definition ip4_addr_islinklocal (a : Z) : bool := Z.land a (lwip_htonl 0xffff0000) =? lwip_htonl 0xa9fe0000.
Definition ip4_addr_isloopback (a : Z) : bool := Z.land a (lwip_htonl 0xff000000) =? lwip_htonl (Z.shiftl 127 24).

(** [netif_list], [netif_default] and [ip4_default_multicast_netif]; an interface
    is named by its address. *)
Record netifs := Netifs {
  netif_list : list (Z * iface);
  netif_default : option (Z * iface);
  ip4_default_multicast_netif : option Z }.

Definition usable (n : iface) : bool :=
  netif_is_up n && netif_is_link_up n && negb (ip4_addr_isany_val (ip_addr n)).

(** The first [NETIF_FOREACH] of [ip4_route]. *)
Fixpoint route_loop (dest : Z) (l : list (Z * iface)) : option Z :=
  match l with
  | [] => None
  | (a, n) :: l' =>
      if usable n then
        if ip4_addr_netcmp dest (ip_addr n) (netmask n) then Some a
        else if (Z.land (flags n) NETIF_FLAG_BROADCAST =? 0) && (dest =? gw n) then Some a
        else route_loop dest l'
      else route_loop dest l'
  end.
(** The second one: any interface that is up. *)
Fixpoint first_up (l : list (Z * iface)) : option Z :=
  match l with
  | [] => None
  | (a, n) :: l' => if netif_is_up n then Some a else first_up l'
  end.

Definition ip4_route (N : netifs) (dest : Z) : option Z :=
  match (if ip4_addr_ismulticast dest then ip4_default_multicast_netif N else None) with
  | Some a => Some a
  | None =>
      match route_loop dest (netif_list N) with
      | Some a => Some a
      | None =>
          if ip4_addr_isloopback dest then
            match netif_default N with
            | Some (d, n) => if netif_is_up n then Some d else first_up (netif_list N)
            | None => first_up (netif_list N)
            end
          else
            match netif_default N with
            | None => None
            | Some (d, n) =>
                if negb (netif_is_up n) || negb (netif_is_link_up n) || ip4_addr_isany_val (ip_addr n)
                   || ip4_addr_isloopback dest
                then None else Some d
            end
      end
  end.

(** ** Properties *)

(** What a directly connected interface is. *)
Definition connects (dest : Z) (n : iface) : bool :=
  usable n && (ip4_addr_netcmp dest (ip_addr n) (netmask n)
               || (Z.land (flags n) NETIF_FLAG_BROADCAST =? 0) && (dest =? gw n)).

(** [a] names the first interface of [l] that connects to [dest]. *)
Definition first_connected (dest : Z) (l : list (Z * iface)) (a : Z) : Prop :=
  exists l1 n l2, l = l1 ++ (a, n) :: l2 /\ connects dest n = true /\
    Forall (fun x => connects dest x.2 = false) l1.

Lemma route_loop_spec dest l :
  match route_loop dest l with
  | Some a => first_connected dest l a
  | None => Forall (fun x => connects dest x.2 = false) l
  end.
Proof.
  induction l as [|[a n] l IH]; simpl; [constructor|].
  assert ((if usable n then
             if ip4_addr_netcmp dest (ip_addr n) (netmask n) then Some a
             else if (Z.land (flags n) NETIF_FLAG_BROADCAST =? 0) && (dest =? gw n) then Some a
             else route_loop dest l
           else route_loop dest l) = if connects dest n then Some a else route_loop dest l) as ->.
  { unfold connects. destruct (usable n); [|done]. simpl.
    destruct (ip4_addr_netcmp _ _ _); [done|]. by destruct (_ && _). }
  destruct (connects dest n) eqn:E.
  - exists [], n, l. split; [done|]. split; [done|constructor].
  - destruct (route_loop dest l) as [b|].
    + destruct IH as (l1 & m & l2 & -> & Hc & Hl). exists ((a, n) :: l1), m, l2.
      split; [done|]. split; [done|]. by constructor.
    + by constructor.
Qed.

Lemma first_up_spec l a : first_up l = Some a -> exists n, (a, n) ∈ l /\ netif_is_up n = true.
Proof.
  induction l as [|[b m] l IH]; simpl; [done|]. destruct (netif_is_up m) eqn:E.
  - intros [= <-]. exists m. split; [by left|done].
  - intros H. destruct (IH H) as (n & Hn & Hu). exists n. split; [by right|done].
Qed.

(** A route goes through the multicast interface for multicast, else through the
    first usable interface that is connected to the destination, else, for
    other traffic than loopback, through the default interface if that is
    usable; loopback traffic may use any interface that is up, and a
    connected destination always has a route. *)
Theorem ip4_route_correct N dest :
  match ip4_route N dest with
  | Some a =>
      (ip4_addr_ismulticast dest = true /\ ip4_default_multicast_netif N = Some a) \/
      first_connected dest (netif_list N) a \/
      (Forall (fun x => connects dest x.2 = false) (netif_list N) /\
       exists n, netif_is_up n = true /\
         if ip4_addr_isloopback dest then netif_default N = Some (a, n) \/ (a, n) ∈ netif_list N
         else netif_default N = Some (a, n) /\ usable n = true)
  | None => Forall (fun x => connects dest x.2 = false) (netif_list N)
  end.
Proof.
  unfold ip4_route. pose proof (route_loop_spec dest (netif_list N)) as Hr.
  destruct (if ip4_addr_ismulticast dest then _ else _) as [m|] eqn:Em.
  { left. by destruct (ip4_addr_ismulticast dest). }
  destruct (route_loop dest (netif_list N)) as [a|]; [by right; left|].
  destruct (ip4_addr_isloopback dest) eqn:El.
  - assert (match first_up (netif_list N) with
            | Some a => exists n, netif_is_up n = true /\ (netif_default N = Some (a, n) \/ (a, n) ∈ netif_list N)
            | None => True end) as Hup.
    { destruct (first_up (netif_list N)) as [a|] eqn:E; [|done].
      destruct (first_up_spec _ _ E) as (n & Hin & Hu). eauto. }
    destruct (netif_default N) as [[d n]|]; [destruct (netif_is_up n) eqn:Eu; [right; right; eauto|]|];
      destruct (first_up (netif_list N)); eauto.
  - destruct (netif_default N) as [[d n]|]; [|done]. unfold usable.
    destruct (netif_is_up n) eqn:Eu; [|done]. destruct (netif_is_link_up n) eqn:Ek; [|done].
    destruct (ip4_addr_isany_val (ip_addr n)) eqn:Ea; [done|]. simpl. right; right. split; [done|].
    exists n. by rewrite Eu, Ek, Ea.
Qed.
