(* ===== verification/Etharp.v ===== *)
(** * [lwip/src/core/ipv4/etharp.c]: the ARP cache

    The whole file in the configuration of the build: one queued packet per
    entry ([ARP_QUEUEING] 0), static entries, entries per interface
    ([ETHARP_TABLE_MATCH_NETIF]), one global hint ([etharp_cached_entry]), the
    table cleared on release ([LWIP_DEBUG]); no AUTOIP, no DHCP.

    The packet buffers and the link are the class [Packets]: what the cache
    does to packets, as operations of a state. [PacketsLaws] is what the cache
    relies on: the references it counts stay valid. *)

From S2P Require Import Prelude Def Ip4Addr Route.

Definition ARP_TABLE_SIZE : nat := 10.
Definition ARP_MAXAGE : Z := 300.
Definition ARP_MAXPENDING : Z := 5.
Definition ARP_AGE_REREQUEST_USED_UNICAST : Z := ARP_MAXAGE - 30.
Definition ARP_AGE_REREQUEST_USED_BROADCAST : Z := ARP_MAXAGE - 15.
Definition ETHARP_FLAG_TRY_HARD : Z := 1.
Definition ETHARP_FLAG_FIND_ONLY : Z := 2.
Definition ETHARP_FLAG_STATIC_ENTRY : Z := 4.
Definition ETH_HWADDR_LEN : Z := 6.
Definition ETHTYPE_IP : Z := 0x0800.
Definition ETHTYPE_ARP : Z := 0x0806.
Definition ARP_REQUEST : Z := 1.
Definition ARP_REPLY : Z := 2.
Definition ethbroadcast : list Z := [0xff; 0xff; 0xff; 0xff; 0xff; 0xff].
Definition ethzero : list Z := [0; 0; 0; 0; 0; 0].

Inductive etharp_state : Set :=
| ETHARP_STATE_EMPTY | ETHARP_STATE_PENDING | ETHARP_STATE_STABLE
| ETHARP_STATE_STABLE_REREQUESTING_1 | ETHARP_STATE_STABLE_REREQUESTING_2 | ETHARP_STATE_STATIC.
#[global] Instance etharp_state_eq_dec : EqDecision etharp_state.
Proof. solve_decision. Defined.
(** [state >= ETHARP_STATE_STABLE]. *)
Definition is_stable (s : etharp_state) : bool :=
  match s with ETHARP_STATE_EMPTY | ETHARP_STATE_PENDING => false | _ => true end.

Record etharp_entry := Entry {
  e_q : option Z; e_ipaddr : Z; e_netif : option Z; e_ethaddr : list Z; e_ctime : Z; e_state : etharp_state }.

Definition set_q (v : option Z) (e : etharp_entry) : etharp_entry :=
  Entry v (e_ipaddr e) (e_netif e) (e_ethaddr e) (e_ctime e) (e_state e).
Definition set_ipaddr (v : Z) (e : etharp_entry) : etharp_entry :=
  Entry (e_q e) v (e_netif e) (e_ethaddr e) (e_ctime e) (e_state e).
Definition set_netif (v : option Z) (e : etharp_entry) : etharp_entry :=
  Entry (e_q e) (e_ipaddr e) v (e_ethaddr e) (e_ctime e) (e_state e).
Definition set_ethaddr (v : list Z) (e : etharp_entry) : etharp_entry :=
  Entry (e_q e) (e_ipaddr e) (e_netif e) v (e_ctime e) (e_state e).
Definition set_ctime (v : Z) (e : etharp_entry) : etharp_entry :=
  Entry (e_q e) (e_ipaddr e) (e_netif e) (e_ethaddr e) v (e_state e).
Definition set_state (v : etharp_state) (e : etharp_entry) : etharp_entry :=
  Entry (e_q e) (e_ipaddr e) (e_netif e) (e_ethaddr e) (e_ctime e) v.

(** ** Packets

    [pbuf_free p]; [chain_of q]: [len], [tot_len] and [PBUF_NEEDS_COPY] of the pbufs of the packet [q]; [pbuf_clone q]: a copy of it
    ([PBUF_LINK], [PBUF_RAM]); [pbuf_ref q]; [arp_pbuf hdr]: a new pbuf
    with the ARP header [hdr]; [payload p]: the [p->len] bytes at [p->payload];
    [ethernet_output netif p src dst type]. *)
Class Packets (PS : Type) := {
  pbuf_free : PS -> Z -> outcome PS;
  chain_of : PS -> Z -> outcome (list (Z * Z * bool));
  pbuf_clone : PS -> Z -> outcome (option Z * PS);
  pbuf_ref : PS -> Z -> outcome PS;
  arp_pbuf : PS -> list Z -> outcome (option Z * PS);
  payload : PS -> Z -> outcome (list Z);
  ethernet_output : PS -> Z -> Z -> list Z -> list Z -> Z -> outcome (err_t * PS) }.

(** The cache: [arp_table], [etharp_cached_entry]; the packets; the interfaces. *)
Record arp (PS : Type) := Arp {
  arp_table : list etharp_entry;
  etharp_cached_entry : nat;
  packets : PS }.
Arguments Arp {PS}.
Arguments arp_table {PS}.
Arguments etharp_cached_entry {PS}.
Arguments packets {PS}.

(** ** The ARP header *)

Definition SIZEOF_ETHARP_HDR : Z := 28.

Definition etharp_hdr_bytes (opcode : Z) (shwaddr : list Z) (sipaddr : Z) (dhwaddr : list Z) (dipaddr : Z) : list Z :=
  be16 1 ++ be16 ETHTYPE_IP ++ [ETH_HWADDR_LEN; 4] ++ be16 opcode
  ++ shwaddr ++ ip_bytes sipaddr ++ dhwaddr ++ ip_bytes dipaddr.

Record etharp_hdr := EtharpHdr {
  hwtype : Z; proto : Z; hwlen : Z; protolen : Z; opcode : Z;
  shwaddr : list Z; sipaddr : Z; dhwaddr : list Z; dipaddr : Z }.
Definition parse_hdr (l : list Z) : etharp_hdr :=
  EtharpHdr (get16 l 0) (get16 l 2) (get8 l 4) (get8 l 5) (get16 l 6)
    (take 6 (drop 8 l)) (get_ip l 14) (take 6 (drop 18 l)) (get_ip l 24).

Section etharp.
  Context {PS : Type} `{!Packets PS} (N : netifs).
  Implicit Type s : arp PS.

(** An interface of [netif_list], by its address. *)
Definition get_netif (a : Z) : outcome iface := deref (list_to_map (M := gmap Z iface) (netif_list N) !! a).

Definition with_table (t : list etharp_entry) s : arp PS := Arp t (etharp_cached_entry s) (packets s).
Definition with_packets (p : PS) s : arp PS := Arp (arp_table s) (etharp_cached_entry s) p.
Definition get_entry (i : nat) s : outcome etharp_entry := deref (arp_table s !! i).
Definition put_entry (i : nat) (e : etharp_entry) s : arp PS := with_table (<[i := e]> (arp_table s)) s.

(** ** Sending *)

Definition etharp_raw (netif : Z) (ethsrc_addr ethdst_addr hwsrc_addr : list Z) (ipsrc_addr : Z)
    (hwdst_addr : list Z) (ipdst_addr opcode : Z) s : outcome (err_t * arp PS) :=
  '(p, ps) ← arp_pbuf (packets s)
    (etharp_hdr_bytes opcode hwsrc_addr ipsrc_addr hwdst_addr ipdst_addr);
  match p with
  | None => Ret (ERR_MEM, with_packets ps s)
  | Some p =>
      n ← get_netif netif;
      lwip_assert (hwaddr_len n =? ETH_HWADDR_LEN);;
      '(_, ps) ← ethernet_output ps netif p ethsrc_addr ethdst_addr ETHTYPE_ARP;
      ps ← pbuf_free ps p;
      Ret (ERR_OK, with_packets ps s)
  end.

Definition etharp_request_dst (netif : Z) (ipaddr : Z) (hw_dst_addr : list Z) s : outcome (err_t * arp PS) :=
  n ← get_netif netif;
  etharp_raw netif (hwaddr n) hw_dst_addr (hwaddr n) (ip_addr n) ethzero ipaddr ARP_REQUEST s.

Definition etharp_request (netif ipaddr : Z) s : outcome (err_t * arp PS) :=
  etharp_request_dst netif ipaddr ethbroadcast s.

(** ** The table *)

Definition etharp_free_entry (i : nat) s : outcome (arp PS) :=
  e ← get_entry i s;
  s ← match e_q e with
      | Some p => ps ← pbuf_free (packets s) p; Ret (put_entry i (set_q None e) (with_packets ps s))
      | None => Ret s
      end;
  Ret (put_entry i (Entry None 0 None ethzero 0 ETHARP_STATE_EMPTY) s).

(** The body of the loop of [etharp_tmr]. *)
Definition tmr_entry (i : nat) s : outcome (arp PS) :=
  e ← get_entry i s;
  if decide (e_state e <> ETHARP_STATE_EMPTY /\ e_state e <> ETHARP_STATE_STATIC) then
    let e := set_ctime (u16 (e_ctime e + 1)) e in
    let s := put_entry i e s in
    if (ARP_MAXAGE <=? e_ctime e)
       || (bool_decide (e_state e = ETHARP_STATE_PENDING) && (ARP_MAXPENDING <=? e_ctime e)) then
      etharp_free_entry i s
    else match e_state e with
         | ETHARP_STATE_STABLE_REREQUESTING_1 =>
             Ret (put_entry i (set_state ETHARP_STATE_STABLE_REREQUESTING_2 e) s)
         | ETHARP_STATE_STABLE_REREQUESTING_2 => Ret (put_entry i (set_state ETHARP_STATE_STABLE e) s)
         | ETHARP_STATE_PENDING =>
             netif ← deref (e_netif e);
             '(_, s) ← etharp_request netif (e_ipaddr e) s; Ret s
         | _ => Ret s
         end
  else Ret s.
(** [k] entries are left, the next one is [i]. *)
Fixpoint tmr_loop (k i : nat) s : outcome (arp PS) :=
  match k with
  | O => Ret s
  | S k => s ← tmr_entry i s; tmr_loop k (i + 1) s
  end.
Definition etharp_tmr s : outcome (arp PS) := tmr_loop ARP_TABLE_SIZE 0 s.

(** The candidates [etharp_find_entry] remembers; [None] is [ARP_TABLE_SIZE]. *)
Record cand := Cand {
  empty_at : option nat; old_pending : option nat; old_stable : option nat; old_queue : option nat;
  age_pending : Z; age_stable : Z; age_queue : Z }.
Definition no_cand : cand := Cand None None None None 0 0 0.

(** One entry that is not the searched one: remember it. *)
Definition remember (i : nat) (e : etharp_entry) (c : cand) : cand :=
  match e_state e with
  | ETHARP_STATE_EMPTY =>
      match empty_at c with
      | None => Cand (Some i) (old_pending c) (old_stable c) (old_queue c)
                  (age_pending c) (age_stable c) (age_queue c)
      | Some _ => c
      end
  | ETHARP_STATE_PENDING =>
      match e_q e with
      | Some _ => if age_queue c <=? e_ctime e then
                    Cand (empty_at c) (old_pending c) (old_stable c) (Some i)
                      (age_pending c) (age_stable c) (e_ctime e)
                  else c
      | None => if age_pending c <=? e_ctime e then
                  Cand (empty_at c) (Some i) (old_stable c) (old_queue c)
                    (e_ctime e) (age_stable c) (age_queue c)
                else c
      end
  | ETHARP_STATE_STATIC => c
  | _ => if age_stable c <=? e_ctime e then
           Cand (empty_at c) (old_pending c) (Some i) (old_queue c)
             (age_pending c) (e_ctime e) (age_queue c)
         else c
  end.
(** The entry matches the address and the interface ([None]: any). *)
Definition entry_matches (ipaddr : option Z) (netif : option Z) (e : etharp_entry) : bool :=
  bool_decide (e_state e <> ETHARP_STATE_EMPTY)
  && bool_decide (ipaddr = Some (e_ipaddr e))
  && (bool_decide (netif = None) || bool_decide (netif = e_netif e)).
(** The sweep: the index of a match or the candidates. *)
Fixpoint find_sweep (ipaddr netif : option Z) (i : nat) (l : list etharp_entry) (c : cand) : nat + cand :=
  match l with
  | [] => inr c
  | e :: l' => if entry_matches ipaddr netif e then inl i
               else find_sweep ipaddr netif (i + 1) l' (remember i e c)
  end.
(** Recycling: the least destructive candidate. *)
Definition choose (c : cand) s : outcome (option nat * arp PS) :=
  match empty_at c with
  | Some i => Ret (Some i, s)
  | None =>
      match old_stable c with
      | Some i =>
          e ← get_entry i s;
          lwip_assert (bool_decide (e_q e = None));;
          s ← etharp_free_entry i s; Ret (Some i, s)
      | None =>
          match old_pending c with
          | Some i => s ← etharp_free_entry i s; Ret (Some i, s)
          | None =>
              match old_queue c with
              | Some i => s ← etharp_free_entry i s; Ret (Some i, s)
              | None => Ret (None, s)
              end
          end
      end
  end.
(** [None]: [ERR_MEM]. *)
Definition etharp_find_entry (ipaddr : option Z) (flags : Z) (netif : option Z) s
  : outcome (option nat * arp PS) :=
  match find_sweep ipaddr netif 0 (arp_table s) no_cand with
  | inl i => Ret (Some i, s)
  | inr c =>
      if negb (Z.land flags ETHARP_FLAG_FIND_ONLY =? 0)
         || (bool_decide (empty_at c = None) && (Z.land flags ETHARP_FLAG_TRY_HARD =? 0)) then Ret (None, s)
      else
        '(r, s) ← choose c s;
        match r with
        | None => Ret (None, s)
        | Some i =>
            e ← get_entry i s;
            lwip_assert (bool_decide (e_state e = ETHARP_STATE_EMPTY));;
            let e := match ipaddr with Some a => set_ipaddr a e | None => e end in
            let e := set_ctime 0 e in
            let e := set_netif netif e in
            Ret (Some i, put_entry i e s)
        end
  end.

Definition nonunicast (ipaddr : Z) (n : iface) : bool :=
  ip4_addr_isany_val ipaddr || ip4_addr_isbroadcast_u32 ipaddr (base n) || ip4_addr_ismulticast ipaddr.

Definition etharp_update_arp_entry (netif ipaddr : Z) (ethaddr : list Z) (flags : Z) s
  : outcome (err_t * arp PS) :=
  n ← get_netif netif;
  lwip_assert (hwaddr_len n =? ETH_HWADDR_LEN);;
  if nonunicast ipaddr n then Ret (ERR_ARG, s)
  else
    '(r, s) ← etharp_find_entry (Some ipaddr) flags (Some netif) s;
    match r with
    | None => Ret (ERR_MEM, s)
    | Some i =>
        e ← get_entry i s;
        if negb (Z.land flags ETHARP_FLAG_STATIC_ENTRY =? 0)
           || negb (bool_decide (e_state e = ETHARP_STATE_STATIC)) then
          let st := if negb (Z.land flags ETHARP_FLAG_STATIC_ENTRY =? 0) then ETHARP_STATE_STATIC
                    else ETHARP_STATE_STABLE in
          let e := set_ctime 0 (set_ethaddr ethaddr (set_netif (Some netif) (set_state st e))) in
          let s := put_entry i e s in
          match e_q e with
          | None => Ret (ERR_OK, s)
          | Some p =>
              let s := put_entry i (set_q None e) s in
              '(_, ps) ← ethernet_output (packets s) netif p (hwaddr n) ethaddr ETHTYPE_IP;
              ps ← pbuf_free ps p;
              Ret (ERR_OK, with_packets ps s)
          end
        else Ret (ERR_VAL, s)
    end.

Definition etharp_add_static_entry (ipaddr : Z) (ethaddr : list Z) s : outcome (err_t * arp PS) :=
  match ip4_route N ipaddr with
  | None => Ret (ERR_RTE, s)
  | Some netif =>
      etharp_update_arp_entry netif ipaddr ethaddr (Z.lor ETHARP_FLAG_TRY_HARD ETHARP_FLAG_STATIC_ENTRY) s
  end.

Definition etharp_remove_static_entry (ipaddr : Z) s : outcome (err_t * arp PS) :=
  '(r, s) ← etharp_find_entry (Some ipaddr) ETHARP_FLAG_FIND_ONLY None s;
  match r with
  | None => Ret (ERR_MEM, s)
  | Some i =>
      e ← get_entry i s;
      if decide (e_state e = ETHARP_STATE_STATIC) then s ← etharp_free_entry i s; Ret (ERR_OK, s)
      else Ret (ERR_ARG, s)
  end.

Fixpoint cleanup_loop (k i : nat) (netif : Z) s : outcome (arp PS) :=
  match k with
  | O => Ret s
  | S k =>
      e ← get_entry i s;
      s ← (if decide (e_state e <> ETHARP_STATE_EMPTY /\ e_netif e = Some netif) then etharp_free_entry i s
           else Ret s);
      cleanup_loop k (i + 1) netif s
  end.
Definition etharp_cleanup_netif (netif : Z) s : outcome (arp PS) := cleanup_loop ARP_TABLE_SIZE 0 netif s.

(** The index, the hardware and the IP address; [None]: -1. *)
Definition etharp_find_addr (netif : Z) (ipaddr : Z) s : outcome (option (nat * list Z * Z) * arp PS) :=
  '(r, s) ← etharp_find_entry (Some ipaddr) ETHARP_FLAG_FIND_ONLY (Some netif) s;
  match r with
  | None => Ret (None, s)
  | Some i =>
      e ← get_entry i s;
      if is_stable (e_state e) then Ret (Some (i, e_ethaddr e, e_ipaddr e), s) else Ret (None, s)
  end.

Definition etharp_get_entry (i : nat) s : option (Z * option Z * list Z) :=
  match arp_table s !! i with
  | Some e => if is_stable (e_state e) then Some (e_ipaddr e, e_netif e, e_ethaddr e) else None
  | None => None
  end.

(** ** Packets in and out *)

(** The checks of [etharp_input] on the header at [p->payload], which is read without a look at [p->len]: reading behind the end
    of the pbuf is undefined. If they pass, all of the header is used. *)
Definition arp_checks (l : list Z) : outcome bool :=
  let len := Z.of_nat (length l) in
  if len <? 2 then Undef
  else if negb (hwtype (parse_hdr l) =? 1) then Ret false
  else if len <? 5 then Undef
  else if negb (hwlen (parse_hdr l) =? ETH_HWADDR_LEN) then Ret false
  else if len <? 6 then Undef
  else if negb (protolen (parse_hdr l) =? 4) || negb (proto (parse_hdr l) =? ETHTYPE_IP) then Ret false
  else if len <? SIZEOF_ETHARP_HDR then Undef
  else Ret true.

(** [for_us] of [etharp_input]: the request is for our address. *)
Definition for_us (n : iface) (dip : Z) : bool :=
  if ip4_addr_isany_val (ip_addr n) then false else dip =? ip_addr n.

Definition etharp_input (p netif : Z) s : outcome (arp PS) :=
  n ← get_netif netif;
  l ← payload (packets s) p;
  valid ← arp_checks l;
  let hdr := parse_hdr l in
  if negb valid then
    ps ← pbuf_free (packets s) p; Ret (with_packets ps s)
  else
    let us := for_us n (dipaddr hdr) in
    '(_, s) ← etharp_update_arp_entry netif (sipaddr hdr) (shwaddr hdr)
                (if us then ETHARP_FLAG_TRY_HARD else ETHARP_FLAG_FIND_ONLY) s;
    s ← (if (opcode hdr =? ARP_REQUEST) && us then
           '(_, s) ← etharp_raw netif (hwaddr n) (shwaddr hdr) (hwaddr n) (ip_addr n)
                       (shwaddr hdr) (sipaddr hdr) ARP_REPLY s; Ret s
         else Ret s);
    ps ← pbuf_free (packets s) p; Ret (with_packets ps s).

Definition etharp_output_to_arp_index (netif q : Z) (arp_idx : nat) s : outcome (err_t * arp PS) :=
  e ← get_entry arp_idx s;
  lwip_assert (is_stable (e_state e));;
  n ← get_netif netif;
  s ← (if decide (e_state e = ETHARP_STATE_STABLE) then
         if ARP_AGE_REREQUEST_USED_BROADCAST <=? e_ctime e then
           '(err, s) ← etharp_request netif (e_ipaddr e) s;
           Ret (if decide (err = ERR_OK) then put_entry arp_idx (set_state ETHARP_STATE_STABLE_REREQUESTING_1 e) s
                else s)
         else if ARP_AGE_REREQUEST_USED_UNICAST <=? e_ctime e then
           '(err, s) ← etharp_request_dst netif (e_ipaddr e) (e_ethaddr e) s;
           Ret (if decide (err = ERR_OK) then put_entry arp_idx (set_state ETHARP_STATE_STABLE_REREQUESTING_1 e) s
                else s)
         else Ret s
       else Ret s);
  '(err, ps) ← ethernet_output (packets s) netif q (hwaddr n) (e_ethaddr e) ETHTYPE_IP;
  Ret (err, with_packets ps s).

(** The loop of [etharp_query] over the pbufs of the packet: must it be copied? *)
Fixpoint copy_needed (c : list (Z * Z * bool)) : outcome bool :=
  match c with
  | [] => Ret false
  | (len, tot_len, volatile) :: c =>
      lwip_assert (negb (len =? tot_len) || bool_decide (c = []));;
      if (volatile : bool) then Ret true else copy_needed c
  end.
(** A copy of the packet [q] or a reference to it. *)
Definition hold (ps : PS) (q : Z) : outcome (option Z * PS) :=
  c ← chain_of ps q;
  copy ← copy_needed c;
  if (copy : bool) then pbuf_clone ps q else ps ← pbuf_ref ps q; Ret (Some q, ps).
(** [etharp_query] after the entry [i] was found: queue the packet on a
    pending entry, in place of the one that was queued. *)
Definition query_queue (i : nat) (q : Z) s : outcome (err_t * arp PS) :=
  '(p, ps) ← hold (packets s) q;
  let s := with_packets ps s in
  match p with
  | None => Ret (ERR_MEM, s)
  | Some p =>
      e ← get_entry i s;
      s ← match e_q e with
          | Some old => ps ← pbuf_free (packets s) old; Ret (with_packets ps s)
          | None => Ret s
          end;
      Ret (ERR_OK, put_entry i (set_q (Some p) e) s)
  end.
Definition etharp_query (netif ipaddr : Z) (q : option Z) s : outcome (err_t * arp PS) :=
  n ← get_netif netif;
  if nonunicast ipaddr n then Ret (ERR_ARG, s)
  else
    '(r, s) ← etharp_find_entry (Some ipaddr) ETHARP_FLAG_TRY_HARD (Some netif) s;
    match r with
    | None => Ret (ERR_MEM, s)
    | Some i =>
        e ← get_entry i s;
        let is_new_entry := bool_decide (e_state e = ETHARP_STATE_EMPTY) in
        let e := if is_new_entry then set_netif (Some netif) (set_state ETHARP_STATE_PENDING e) else e in
        let s := put_entry i e s in
        '(result, s) ← (if is_new_entry || bool_decide (q = None) then etharp_request netif ipaddr s
                        else Ret (ERR_MEM, s));
        match q with
        | None => Ret (result, s)
        | Some q =>
            e ← get_entry i s;
            if is_stable (e_state e) then
              let s := Arp (arp_table s) i (packets s) in
              '(err, ps) ← ethernet_output (packets s) netif q (hwaddr n) (e_ethaddr e) ETHTYPE_IP;
              Ret (err, with_packets ps s)
            else if decide (e_state e = ETHARP_STATE_PENDING) then query_queue i q s
            else Ret (result, s)
        end
    end.

(** The loop of [etharp_output] over the stable entries. *)
Fixpoint find_stable (netif dst_addr : Z) (i : nat) (l : list etharp_entry) : option nat :=
  match l with
  | [] => None
  | e :: l' =>
      if is_stable (e_state e) && bool_decide (e_netif e = Some netif) && (dst_addr =? e_ipaddr e) then Some i
      else find_stable netif dst_addr (i + 1) l'
  end.
(** [mcastaddr]. *)
Definition multicast_ethaddr (ipaddr : Z) : list Z :=
  [0x01; 0x00; 0x5e; Z.land (ipaddr / 256 mod 256) 0x7f; ipaddr / 65536 mod 256; ipaddr / 16777216 mod 256].
(** The next hop of a unicast packet; [None]: no route. *)
Definition next_hop (n : iface) (ipaddr : Z) : option Z :=
  if negb (ip4_addr_netcmp ipaddr (ip_addr n) (netmask n)) && negb (ip4_addr_islinklocal ipaddr) then
    if negb (ip4_addr_isany_val (gw n)) then Some (gw n) else None
  else Some ipaddr.

Definition etharp_output (netif q ipaddr : Z) s : outcome (err_t * arp PS) :=
  n ← get_netif netif;
  if ip4_addr_isbroadcast_u32 ipaddr (base n) then
    '(err, ps) ← ethernet_output (packets s) netif q (hwaddr n) ethbroadcast ETHTYPE_IP;
    Ret (err, with_packets ps s)
  else if ip4_addr_ismulticast ipaddr then
    '(err, ps) ← ethernet_output (packets s) netif q (hwaddr n) (multicast_ethaddr ipaddr) ETHTYPE_IP;
    Ret (err, with_packets ps s)
  else
    match next_hop n ipaddr with
    | None => Ret (ERR_RTE, s)
    | Some dst_addr =>
        c ← get_entry (etharp_cached_entry s) s;
        if is_stable (e_state c) && bool_decide (e_netif c = Some netif) && (dst_addr =? e_ipaddr c) then
          etharp_output_to_arp_index netif q (etharp_cached_entry s) s
        else
          match find_stable netif dst_addr 0 (arp_table s) with
          | Some i => etharp_output_to_arp_index netif q i (Arp (arp_table s) i (packets s))
          | None => etharp_query netif dst_addr (Some q) s
          end
    end.
End etharp.

(** ** What the cache relies on

    [refs s l]: the references [l] (a packet as often as it is referenced) are
    valid, and those of packets: only the last pbuf of a packet has [len] equal to [tot_len]. The count of the references of a pbuf has eight bits. *)
Fixpoint one_packet (c : list (Z * Z * bool)) : Prop :=
  match c with [] => True | (len, tot_len, _) :: c => (len = tot_len -> c = []) /\ one_packet c end.
Class PacketsLaws (PS : Type) `{!Packets PS} := {
  refs : PS -> list Z -> Prop;
  refs_perm s l l' : l ≡ₚ l' -> refs s l -> refs s l';
  free_ref s p l : refs s (p :: l) -> exists s', pbuf_free s p = Ret s' /\ refs s' l;
  chain_ref s q l : refs s (q :: l) -> exists c, chain_of s q = Ret c /\ one_packet c;
  clone_ref s q l : refs s (q :: l) -> exists r s', pbuf_clone s q = Ret (r, s') /\ refs s' (option_list r ++ q :: l);
  ref_ref s q l : refs s (q :: l) -> (length (filter (.= q) (q :: l)) < 255)%nat -> exists s', pbuf_ref s q = Ret s' /\ refs s' (q :: q :: l);
  arp_pbuf_ref s hdr l : refs s l -> length hdr = 28%nat ->
    exists r s', arp_pbuf s hdr = Ret (r, s') /\ refs s' (option_list r ++ l);
  output_ref s netif p src dst type l : refs s (p :: l) -> length src = 6%nat -> length dst = 6%nat ->
    exists e s', ethernet_output s netif p src dst type = Ret (e, s') /\ refs s' (p :: l) }.

Lemma copy_needed_ok c : one_packet c -> exists b, copy_needed c = Ret b.
Proof.
  induction c as [|[[len tot] v] c IH]; [by eexists|]. intros [H1 H2]. simpl.
  assert (negb (len =? tot) || bool_decide (c = []) = true) as ->.
  { destruct (Z.eqb_spec len tot) as [E|]; [|done]. simpl. apply bool_decide_eq_true. auto. }
  simpl. destruct v; [by eexists|auto].
Qed.
Lemma hold_ref {PS} `{!Packets PS} `{!PacketsLaws PS} (s : PS) q l : refs s (q :: l) -> (length (filter (.= q) (q :: l)) < 255)%nat ->
  exists r s', hold s q = Ret (r, s') /\ refs s' (option_list r ++ q :: l).
Proof.
  intros Hr Hc. unfold hold. destruct (chain_ref s q l Hr) as (c & -> & H1). cbn [mbind outcome_bind].
  destruct (copy_needed_ok c H1) as ([] & ->); cbn [mbind outcome_bind]; [by apply clone_ref|].
  destruct (ref_ref s q l Hr Hc) as (s' & -> & H). by exists (Some q), s'.
Qed.

(** The packets the table holds. *)
Definition queued (t : list etharp_entry) : list Z := omap e_q t.

Lemma queued_insert t i e e' : t !! i = Some e ->
  option_list (e_q e) ++ queued (<[i := e']> t) ≡ₚ option_list (e_q e') ++ queued t.
Proof.
  revert i. induction t as [|x t IH]; intros [|i] Hi; simpl in *; [done..| |]; unfold queued in *; simpl.
  - simplify_eq. destruct (e_q e) as [a|], (e_q e') as [b|]; simpl; try done. apply Permutation_swap.
  - specialize (IH i Hi). destruct (e_q x) as [a|]; [|done].
    destruct (e_q e) as [b|], (e_q e') as [c|]; simpl in *.
    + rewrite (Permutation_swap a), IH. apply Permutation_swap.
    + rewrite Permutation_swap, IH. done.
    + rewrite IH. apply Permutation_swap.
    + by rewrite IH.
Qed.

Section laws.
  Context {PS : Type} `{!Packets PS} `{!PacketsLaws PS} (N : netifs).
  Implicit Type s : arp PS.

  (** The table's references and the caller's references [l] are valid. *)
Definition owns s (l : list Z) : Prop := refs (packets s) (l ++ queued (arp_table s)).

Lemma owns_perm s l l' : l ≡ₚ l' -> owns s l -> owns s l'.
  Proof. unfold owns. intros Hp. apply refs_perm. by rewrite Hp. Qed.

  (** An entry is replaced: what it held goes to the caller, what it holds
      comes from the caller. *)
Lemma owns_put s i e e' l : arp_table s !! i = Some e -> owns s (option_list (e_q e') ++ l) ->
    owns (put_entry i e' s) (option_list (e_q e) ++ l).
  Proof.
    unfold owns. intros Hi. apply refs_perm. simpl. pose proof (queued_insert (arp_table s) i e e' Hi) as Hq.
    rewrite <- !app_assoc, (Permutation_app_comm l), (Permutation_app_comm l), !app_assoc.
    apply Permutation_app_tail. by rewrite Hq.
  Qed.
  (** The entry keeps what it holds. *)
Lemma owns_put_same s i e e' l : arp_table s !! i = Some e -> e_q e' = e_q e -> owns s l ->
    owns (put_entry i e' s) l.
  Proof.
    intros Hi Hq. unfold owns. apply refs_perm. simpl. apply Permutation_app_head.
    pose proof (queued_insert (arp_table s) i e e' Hi) as H. rewrite Hq in H.
    symmetry. by apply (Permutation_app_inv_l (option_list (e_q e))).
  Qed.

Definition empty_entry : etharp_entry := Entry None 0 None ethzero 0 ETHARP_STATE_EMPTY.

Lemma put_put i e e' s : put_entry i e (put_entry i e' s) = put_entry i e s.
  Proof. unfold put_entry, with_table. simpl. by rewrite list_insert_insert_eq. Qed.

Lemma free_entry_ok s i e l : arp_table s !! i = Some e -> owns s l ->
    exists ps, etharp_free_entry i s = Ret (put_entry i empty_entry (with_packets ps s)) /\
      owns (put_entry i empty_entry (with_packets ps s)) l.
  Proof.
    intros Hi Ho. unfold etharp_free_entry, get_entry. rewrite Hi. simpl.
    destruct (e_q e) as [p|] eqn:Eq; simpl.
    - pose proof (owns_put s i e empty_entry l Hi Ho) as H. unfold owns in H. simpl in H. rewrite Eq in H.
      destruct (free_ref _ _ _ H) as (ps & -> & Hps). simpl. exists ps.
      split; [|done]. by rewrite put_put.
    - exists (packets s). destruct s as [t c ps]. split; [done|].
      pose proof (owns_put (Arp t c ps) i e empty_entry l Hi Ho) as H. by rewrite Eq in H.
  Qed.

  (** The interfaces have Ethernet addresses. *)
Definition ethernet_netifs : Prop := forall a n, list_to_map (M := gmap Z iface) (netif_list N) !! a = Some n ->
    hwaddr_len n = ETH_HWADDR_LEN /\ length (hwaddr n) = 6%nat.
Definition known (a : Z) : Prop := is_Some (list_to_map (M := gmap Z iface) (netif_list N) !! a).

Lemma length_hdr op sh si dh di : length sh = 6%nat -> length dh = 6%nat ->
    length (etharp_hdr_bytes op sh si dh di) = 28%nat.
  Proof. intros H1 H2. unfold etharp_hdr_bytes. rewrite !length_app, H1, H2. done. Qed.

  Context (Hnet : ethernet_netifs).

Lemma get_netif_ok a : known a -> exists n, get_netif N a = Ret n /\ hwaddr_len n = ETH_HWADDR_LEN /\
    length (hwaddr n) = 6%nat.
  Proof. intros [n Hn]. exists n. unfold get_netif. rewrite Hn. split; [done|]. by apply (Hnet a). Qed.

Lemma raw_ok netif es ed hs ips hdw ipd op s l : known netif -> owns s l -> length es = 6%nat ->
    length ed = 6%nat -> length hs = 6%nat -> length hdw = 6%nat ->
    exists err ps, etharp_raw N netif es ed hs ips hdw ipd op s = Ret (err, with_packets ps s) /\
      owns (with_packets ps s) l.
  Proof.
    intros Hk Ho L1 L2 L3 L4. unfold etharp_raw.
    destruct (arp_pbuf_ref (packets s) (etharp_hdr_bytes op hs ips hdw ipd) _ Ho) as (r & ps & -> & Hr);
      [by apply length_hdr|]. cbn [mbind outcome_bind].
    destruct r as [p|]; simpl in Hr; [|by exists ERR_MEM, ps].
    destruct (get_netif_ok netif Hk) as (n & -> & Hl & _). cbn [mbind outcome_bind].
    rewrite lwip_assert_true by (by apply Z.eqb_eq). cbn [mbind outcome_bind].
    destruct (output_ref ps netif p es ed ETHTYPE_ARP _ Hr L1 L2) as (e & ps1 & -> & Hr1). cbn [mbind outcome_bind].
    destruct (free_ref _ _ _ Hr1) as (ps2 & -> & Hr2). cbn [mbind outcome_bind]. by exists ERR_OK, ps2.
  Qed.

Lemma request_dst_ok netif ip dst s l : known netif -> owns s l -> length dst = 6%nat ->
    exists err ps, etharp_request_dst N netif ip dst s = Ret (err, with_packets ps s) /\
      owns (with_packets ps s) l.
  Proof.
    intros Hk Ho L. unfold etharp_request_dst. destruct (get_netif_ok netif Hk) as (n & -> & _ & Hl).
    cbn [mbind outcome_bind]. by apply raw_ok.
  Qed.
Lemma request_ok netif ip s l : known netif -> owns s l ->
    exists err ps, etharp_request N netif ip s = Ret (err, with_packets ps s) /\ owns (with_packets ps s) l.
  Proof. intros. by apply request_dst_ok. Qed.
End laws.

(** ** The invariant of the table *)
Definition nonempty (e : etharp_entry) : Prop := e_state e <> ETHARP_STATE_EMPTY.
Definition same_key (e e' : etharp_entry) : Prop := e_ipaddr e = e_ipaddr e' /\ e_netif e = e_netif e'.

Definition entry_ok (N : netifs) (e : etharp_entry) : Prop :=
  match e_state e with
  | ETHARP_STATE_EMPTY => e_q e = None
  | ETHARP_STATE_PENDING => (exists a, e_netif e = Some a /\ known N a) /\ 0 <= e_ctime e < ARP_MAXPENDING
  | ETHARP_STATE_STATIC => e_q e = None /\ length (e_ethaddr e) = 6%nat
  | _ => e_q e = None /\ length (e_ethaddr e) = 6%nat /\ 0 <= e_ctime e < ARP_MAXAGE
  end.

(** Ten entries, each consistent with its state, and no two for one address
    on one interface. *)
Record table_ok (N : netifs) (t : list etharp_entry) : Prop := {
  table_length : length t = ARP_TABLE_SIZE;
  table_entries : Forall (entry_ok N) t;
  table_unique : forall i j e e', t !! i = Some e -> t !! j = Some e' -> nonempty e -> nonempty e' ->
    same_key e e' -> i = j }.

Lemma table_put N t i e' : table_ok N t -> entry_ok N e' ->
  (nonempty e' -> forall j e, j <> i -> t !! j = Some e -> nonempty e -> ~ same_key e e') ->
  table_ok N (<[i := e']> t).
Proof.
  intros [Hl He Hu] Hok Hnew. split.
  - by rewrite length_insert.
  - by apply Forall_insert.
  - intros j k e1 e2 Hj Hk Hn1 Hn2 Hs.
    apply list_lookup_insert_Some in Hj as [(-> & <- & Hj)|(Hij & Hj)];
      apply list_lookup_insert_Some in Hk as [(-> & <- & Hk)|(Hik & Hk)]; [done|..].
    + exfalso. apply (Hnew Hn1 k e2); [done|done|done|]. destruct Hs. by split.
    + exfalso. by apply (Hnew Hn2 j e1).
    + by eapply Hu.
Qed.

(** Replacing an entry by one with its key, or by an empty one. *)
Lemma table_update N t i e e' : table_ok N t -> t !! i = Some e -> entry_ok N e' ->
  (nonempty e' -> nonempty e /\ same_key e e') -> table_ok N (<[i := e']> t).
Proof.
  intros Hok Hi He' Hk. apply table_put; [done|done|]. intros Hne j e2 Hj Hj2 Hn2 Hs.
  destruct (Hk Hne) as [Hn Hs']. apply Hj. eapply (table_unique _ _ Hok); [done|done|done|done|].
  destruct Hs, Hs'. split; congruence.
Qed.

Lemma entry_age N e : entry_ok N e -> nonempty e -> e_state e <> ETHARP_STATE_STATIC -> 0 <= e_ctime e.
Proof. unfold entry_ok, nonempty. destruct (e_state e); intuition lia. Qed.

(** ** The sweep of [etharp_find_entry] *)
Definition stable_dyn (e : etharp_entry) : Prop :=
  is_stable (e_state e) = true /\ e_state e <> ETHARP_STATE_STATIC.
Definition pending_noq (e : etharp_entry) : Prop := e_state e = ETHARP_STATE_PENDING /\ e_q e = None.
Definition pending_q (e : etharp_entry) : Prop := e_state e = ETHARP_STATE_PENDING /\ e_q e <> None.

(** [r] is the oldest entry of a kind, or there is none. *)
Definition oldest (P : etharp_entry -> Prop) (t : list etharp_entry) (r : option nat) (age : Z) : Prop :=
  match r with
  | Some i => exists e, t !! i = Some e /\ P e /\ e_ctime e = age /\
      forall j e', t !! j = Some e' -> P e' -> e_ctime e' <= age
  | None => age = 0 /\ forall j e', t !! j = Some e' -> ~ P e'
  end.
Definition first_empty (t : list etharp_entry) (r : option nat) : Prop :=
  match r with
  | Some i => exists e, t !! i = Some e /\ ~ nonempty e /\
      forall j e', (j < i)%nat -> t !! j = Some e' -> nonempty e'
  | None => forall j e', t !! j = Some e' -> nonempty e'
  end.
Record cand_ok (t : list etharp_entry) (c : cand) : Prop := {
  c_empty : first_empty t (empty_at c);
  c_stable : oldest stable_dyn t (old_stable c) (age_stable c);
  c_pending : oldest pending_noq t (old_pending c) (age_pending c);
  c_queue : oldest pending_q t (old_queue c) (age_queue c) }.

Lemma lookup_snoc_cases (t : list etharp_entry) e j e' : (t ++ [e]) !! j = Some e' ->
  t !! j = Some e' \/ j = length t /\ e' = e.
Proof.
  rewrite lookup_app_Some. intros [?|[Hl Hj]]; [by left|]. right.
  destruct (j - length t)%nat eqn:E; simpl in Hj; [|done]. split; [lia|congruence].
Qed.

(** A further entry of another kind, an older one, a younger one. *)
Lemma oldest_other P t r age e : oldest P t r age -> ~ P e -> oldest P (t ++ [e]) r age.
Proof.
  intros Ho Hn. destruct r as [i|].
  - destruct Ho as (x & Hi & Hx & Ha & Hmax). exists x. split; [by apply lookup_app_l_Some|].
    split; [done|]. split; [done|]. intros j e' Hj He'.
    apply lookup_snoc_cases in Hj as [Hj|[-> ->]]; [by eapply Hmax|done].
  - destruct Ho as [Ha Hnone]. split; [done|]. intros j e' Hj.
    apply lookup_snoc_cases in Hj as [Hj|[-> ->]]; [by eapply Hnone|done].
Qed.
Lemma oldest_step (P : etharp_entry -> Prop) t r age e : oldest P t r age -> P e -> 0 <= e_ctime e ->
  oldest P (t ++ [e]) (if age <=? e_ctime e then Some (length t) else r) (if age <=? e_ctime e then e_ctime e else age).
Proof.
  intros Ho He Hpos. destruct (Z.leb_spec age (e_ctime e)) as [Hle|Hlt].
  - exists e. split; [rewrite lookup_app_r, Nat.sub_diag by lia; done|]. split; [done|]. split; [done|].
    intros j e' Hj He'. apply lookup_snoc_cases in Hj as [Hj|[-> ->]]; [|lia].
    destruct r as [i|]; [|by destruct (proj2 Ho _ _ Hj)]. destruct Ho as (x & _ & _ & _ & Hmax).
    specialize (Hmax _ _ Hj He'). lia.
  - destruct r as [i|]; [|destruct Ho as [-> _]; lia]. destruct Ho as (x & Hi & Hx & Ha & Hmax).
    exists x. split; [by apply lookup_app_l_Some|]. split; [done|]. split; [done|]. intros j e' Hj He'.
    apply lookup_snoc_cases in Hj as [Hj|[-> ->]]; [by eapply Hmax|lia].
Qed.
Lemma first_empty_step t r e : first_empty t r -> nonempty e \/ is_Some r -> first_empty (t ++ [e]) r.
Proof.
  intros Hf Hor. destruct r as [i|]; simpl in *.
  - destruct Hf as (x & Hi & Hx & Hlt). exists x. split; [by apply lookup_app_l_Some|]. split; [done|].
    intros j e' Hj Hj'. apply lookup_snoc_cases in Hj' as [Hj'|[-> ->]]; [by eapply Hlt|].
    apply lookup_lt_Some in Hi. lia.
  - destruct Hor as [He|[? ?]]; [|done]. intros j e' Hj.
    apply lookup_snoc_cases in Hj as [Hj|[-> ->]]; [by eapply Hf|done].
Qed.
Lemma first_empty_new t e : first_empty t None -> ~ nonempty e -> first_empty (t ++ [e]) (Some (length t)).
Proof.
  intros Hf He. exists e. split; [rewrite lookup_app_r, Nat.sub_diag by lia; done|]. split; [done|].
  intros j e' Hj Hj'. apply (Hf j). rewrite lookup_app_l in Hj' by lia. done.
Qed.

#[local] Arguments first_empty : simpl never.
#[local] Arguments oldest : simpl never.

(** Every kind of entry is remembered in its place; the others do not change. *)
Ltac kinds Es Eq := unfold nonempty, stable_dyn, pending_noq, pending_q; rewrite ?Es, ?Eq; simpl; intuition discriminate.
Ltac by_kind := split; simpl; eauto using oldest_other, first_empty_step, first_empty_new.

Lemma remember_stable t e c : stable_dyn e -> 0 <= e_ctime e -> cand_ok t c ->
  cand_ok (t ++ [e]) (if age_stable c <=? e_ctime e then
    Cand (empty_at c) (old_pending c) (Some (length t)) (old_queue c) (age_pending c) (e_ctime e) (age_queue c) else c).
Proof.
  intros P1 Hage [Hem Hst Hpe Hqu]. pose proof (oldest_step stable_dyn t _ _ e Hst P1 Hage) as Ho.
  assert (nonempty e /\ ~ pending_noq e /\ ~ pending_q e) as (N0 & N1 & N2).
  { destruct P1 as [P1 P2]. destruct (e_state e) eqn:Es; try done; kinds Es Es. }
  revert Ho. destruct (age_stable c <=? e_ctime e); intros Ho; by_kind.
Qed.

Lemma remember_ok N t e c : entry_ok N e -> cand_ok t c -> cand_ok (t ++ [e]) (remember (length t) e c).
Proof.
  intros He Hc. pose proof Hc as [Hem Hst Hpe Hqu]. unfold entry_ok in He. unfold remember.
  destruct (e_state e) eqn:Es.
  - assert (~ nonempty e /\ ~ stable_dyn e /\ ~ pending_noq e /\ ~ pending_q e) as (N0 & N1 & N2 & N3) by kinds Es Es.
    destruct (empty_at c) as [k|] eqn:Ec; [|by_kind]. split; rewrite ?Ec; eauto using oldest_other, first_empty_step.
  - destruct He as (_ & Hage). destruct (e_q e) as [q|] eqn:Eq.
    + assert (nonempty e /\ ~ stable_dyn e /\ pending_q e /\ ~ pending_noq e) as (N0 & N1 & P1 & N2) by kinds Es Eq.
      pose proof (oldest_step pending_q t _ _ e Hqu P1 ltac:(lia)) as Ho. revert Ho.
      destruct (age_queue c <=? e_ctime e); intros Ho; by_kind.
    + assert (nonempty e /\ ~ stable_dyn e /\ pending_noq e /\ ~ pending_q e) as (N0 & N1 & P1 & N2) by kinds Es Eq.
      pose proof (oldest_step pending_noq t _ _ e Hpe P1 ltac:(lia)) as Ho. revert Ho.
      destruct (age_pending c <=? e_ctime e); intros Ho; by_kind.
  - apply remember_stable; [kinds Es Es|lia|done].
  - apply remember_stable; [kinds Es Es|lia|done].
  - apply remember_stable; [kinds Es Es|lia|done].
  - assert (nonempty e /\ ~ stable_dyn e /\ ~ pending_noq e /\ ~ pending_q e) as (N0 & N1 & N2 & N3) by kinds Es Es.
    by_kind.
Qed.

Lemma find_sweep_ok N ip nf : forall l t c, Forall (entry_ok N) l -> cand_ok t c ->
  match find_sweep ip nf (length t) l c with
  | inl i => exists e, (t ++ l) !! i = Some e /\ entry_matches ip nf e = true /\ (length t <= i)%nat
  | inr c' => Forall (fun e => entry_matches ip nf e = false) l /\ cand_ok (t ++ l) c'
  end.
Proof.
  induction l as [|e l IH]; intros t c Hl Hc; simpl; [by rewrite app_nil_r|].
  apply Forall_cons in Hl as [He Hl]. destruct (entry_matches ip nf e) eqn:Em.
  - exists e. split; [rewrite lookup_app_r, Nat.sub_diag by lia; done|]. split; [done|lia].
  - specialize (IH (t ++ [e]) (remember (length t) e c) Hl (remember_ok N t e c He Hc)).
    rewrite length_app in IH. simpl in IH. rewrite <- app_assoc in IH. simpl in IH.
    destruct (find_sweep ip nf (length t + 1) l (remember (length t) e c)) as [i|c'].
    + destruct IH as (x & Hx & Hm & Hle). exists x. split; [done|]. split; [done|lia].
    + destruct IH as [Hf Hc']. split; [by constructor|done].
Qed.

Lemma no_cand_ok : cand_ok [] no_cand.
Proof. by repeat split. Qed.

Lemma find_sweep_table N ip nf t : table_ok N t ->
  match find_sweep ip nf 0 t no_cand with
  | inl i => exists e, t !! i = Some e /\ entry_matches ip nf e = true
  | inr c => (forall j e, t !! j = Some e -> entry_matches ip nf e = false) /\ cand_ok t c
  end.
Proof.
  intros Ht. pose proof (find_sweep_ok N ip nf t [] no_cand (table_entries _ _ Ht) no_cand_ok) as H.
  simpl in H. destruct (find_sweep ip nf 0 t no_cand) as [i|c].
  - destruct H as (e & He & Hm & _). eauto.
  - destruct H as [Hf Hc]. split; [|done]. intros j e Hj. rewrite Forall_forall in Hf. apply Hf.
    by eapply list_elem_of_lookup_2.
Qed.

(** The entry that [etharp_find_entry] gives up for a new address. *)
Inductive victim (t : list etharp_entry) (i : nat) (e : etharp_entry) : Prop :=
| victim_empty : ~ nonempty e -> victim t i e
| victim_stable : (forall j x, t !! j = Some x -> nonempty x) -> stable_dyn e ->
    (forall j x, t !! j = Some x -> stable_dyn x -> e_ctime x <= e_ctime e) -> victim t i e
| victim_pending : (forall j x, t !! j = Some x -> nonempty x /\ ~ stable_dyn x) -> pending_noq e ->
    (forall j x, t !! j = Some x -> pending_noq x -> e_ctime x <= e_ctime e) -> victim t i e
| victim_queue : (forall j x, t !! j = Some x -> nonempty x /\ ~ stable_dyn x /\ ~ pending_noq x) -> pending_q e ->
    (forall j x, t !! j = Some x -> pending_q x -> e_ctime x <= e_ctime e) -> victim t i e.

Section operations.
  Context {PS : Type} `{!Packets PS} `{!PacketsLaws PS} (N : netifs) (Hnet : ethernet_netifs N).
  Implicit Type s : arp PS.

  (** The invariant of the component; the caller holds the references [l]. *)
Record arp_ok s (l : list Z) : Prop := {
    ok_table : table_ok N (arp_table s);
    ok_hint : (etharp_cached_entry s < ARP_TABLE_SIZE)%nat;
    ok_refs : owns s l }.

Lemma arp_entry s l i e : arp_ok s l -> arp_table s !! i = Some e -> entry_ok N e.
  Proof. intros [Ht _ _] Hi. eapply Forall_lookup_1; [apply (table_entries _ _ Ht)|done]. Qed.

Definition no_match (t : list etharp_entry) (ip : Z) (nf : option Z) : Prop :=
    forall j e, t !! j = Some e -> entry_matches (Some ip) nf e = false.
Definition new_entry (ip : Z) (nf : option Z) (eth : list Z) : etharp_entry :=
    Entry None ip nf eth 0 ETHARP_STATE_EMPTY.

  (** What [etharp_find_entry] for the address [ip] on [nf] may do. *)
Inductive find_result (ip : Z) (nf : option Z) (fl : Z) s (l : list Z) : option nat -> arp PS -> Prop :=
  | FoundEntry i e : arp_table s !! i = Some e -> entry_matches (Some ip) nf e = true ->
      find_result ip nf fl s l (Some i) s
  | NoEntry : no_match (arp_table s) ip nf ->
      (Z.land fl ETHARP_FLAG_FIND_ONLY = 0 -> Z.land fl ETHARP_FLAG_TRY_HARD <> 0 ->
       forall j e, arp_table s !! j = Some e -> e_state e = ETHARP_STATE_STATIC) ->
      find_result ip nf fl s l None s
  | NewEntry i e eth s' : no_match (arp_table s) ip nf -> Z.land fl ETHARP_FLAG_FIND_ONLY = 0 ->
      arp_table s !! i = Some e -> victim (arp_table s) i e ->
      arp_table s' = <[i := new_entry ip nf eth]> (arp_table s) ->
      arp_ok s' l -> find_result ip nf fl s l (Some i) s'.

Lemma free_slot s l i e : arp_ok s l -> arp_table s !! i = Some e ->
    exists ps, etharp_free_entry i s = Ret (put_entry i empty_entry (with_packets ps s)) /\
      arp_ok (put_entry i empty_entry (with_packets ps s)) l.
  Proof.
    intros [Ht Hh Ho] Hi. destruct (free_entry_ok s i e l Hi Ho) as (ps & H & Hps). exists ps.
    split; [done|]. split; [|done|done]. simpl. eapply table_update; [done|done|done|]. intros Hn. by destruct Hn.
  Qed.

  (** [choose] hands out the victim's slot, emptied. *)
Lemma choose_ok s l c : arp_ok s l -> cand_ok (arp_table s) c ->
    (exists i e e' s', choose c s = Ret (Some i, s') /\ arp_table s !! i = Some e /\ victim (arp_table s) i e /\
       e_state e' = ETHARP_STATE_EMPTY /\ e_q e' = None /\ arp_table s' = <[i := e']> (arp_table s) /\ arp_ok s' l) \/
    (choose c s = Ret (None, s) /\ forall j e, arp_table s !! j = Some e -> e_state e = ETHARP_STATE_STATIC).
  Proof.
    intros Hok [Hem Hst Hpe Hqu]. unfold choose.
    assert (forall i e, arp_table s !! i = Some e -> victim (arp_table s) i e ->
      exists i0 e0 e' s', (s0 ← etharp_free_entry i s; Ret (Some i, s0)) = Ret (Some i0, s') /\
        arp_table s !! i0 = Some e0 /\ victim (arp_table s) i0 e0 /\ e_state e' = ETHARP_STATE_EMPTY /\ e_q e' = None /\
        arp_table s' = <[i0 := e']> (arp_table s) /\ arp_ok s' l) as Hfree.
    { intros i e Hi Hv. destruct (free_slot s l i e Hok Hi) as (ps & -> & Hps).
      eexists i, e, empty_entry, _. split; [reflexivity|]. by repeat (split; [done|]). }
    destruct (empty_at c) as [i|].
    { left. destruct Hem as (e & Hi & Hn & _). exists i, e, e, s. split; [done|]. split; [done|].
      split; [by apply victim_empty|].
      assert (e_state e = ETHARP_STATE_EMPTY) as Es by (unfold nonempty in Hn; by destruct (decide (e_state e = ETHARP_STATE_EMPTY))).
      split; [done|]. pose proof (arp_entry _ _ _ _ Hok Hi) as He. unfold entry_ok in He. rewrite Es in He.
      split; [done|]. by rewrite list_insert_id. }
    destruct (old_stable c) as [i|].
    { left. destruct Hst as (e & Hi & Hp & Ha & Hmax). unfold get_entry. rewrite Hi. cbn [deref mbind outcome_bind].
      pose proof (arp_entry _ _ _ _ Hok Hi) as He.
      rewrite lwip_assert_true; cycle 1.
      { apply bool_decide_eq_true. destruct Hp as [Hp _]. unfold entry_ok in He.
        destruct (e_state e); try done; tauto. }
      cbn [mbind outcome_bind]. apply (Hfree i e Hi). apply victim_stable; [done|done|]. by rewrite Ha. }
    destruct (old_pending c) as [i|].
    { left. destruct Hpe as (e & Hi & Hp & Ha & Hmax). apply (Hfree i e Hi). apply victim_pending; [|done|by rewrite Ha].
      intros j x Hj. split; [by eapply Hem|by eapply Hst]. }
    destruct (old_queue c) as [i|].
    { left. destruct Hqu as (e & Hi & Hp & Ha & Hmax). apply (Hfree i e Hi). apply victim_queue; [|done|by rewrite Ha].
      intros j x Hj. split; [by eapply Hem|]. split; [by eapply Hst|by eapply Hpe]. }
    right. split; [done|]. intros j e Hj. pose proof (proj2 Hst _ _ Hj) as N1. pose proof (proj2 Hpe _ _ Hj) as N2.
    pose proof (proj2 Hqu _ _ Hj) as N3. pose proof (Hem _ _ Hj) as N4.
    unfold stable_dyn, pending_noq, pending_q, nonempty in *. destruct (e_state e); simpl in *; try done.
    - destruct (e_q e); [exfalso; apply N3; by split|exfalso; apply N2; by split].
    - exfalso. by apply N1.
    - exfalso. by apply N1.
    - exfalso. by apply N1.
  Qed.

Lemma find_entry_ok s l ip fl nf : arp_ok s l ->
    exists r s', etharp_find_entry (Some ip) fl nf s = Ret (r, s') /\ find_result ip nf fl s l r s'.
  Proof.
    intros Hok. unfold etharp_find_entry.
    pose proof (find_sweep_table N (Some ip) nf (arp_table s) (ok_table _ _ Hok)) as Hsw.
    destruct (find_sweep (Some ip) nf 0 (arp_table s) no_cand) as [i|c].
    { destruct Hsw as (e & Hi & Hm). exists (Some i), s. split; [done|]. by apply (FoundEntry _ _ _ _ _ i e). }
    destruct Hsw as [Hno Hc].
    destruct (Z.eqb_spec (Z.land fl ETHARP_FLAG_FIND_ONLY) 0) as [Hfo|Hfo]; cycle 1.
    { exists None, s. split; [done|]. apply NoEntry; [done|]. done. }
    simpl. destruct (bool_decide (empty_at c = None) && (Z.land fl ETHARP_FLAG_TRY_HARD =? 0)) eqn:Eth.
    { exists None, s. split; [done|]. apply NoEntry; [done|].
      apply andb_true_iff in Eth as [_ Eth%Z.eqb_eq]. done. }
    destruct (choose_ok s l c Hok Hc) as [(i & e & e' & s' & -> & Hi & Hv & Es & Eq & Ht & Hok')|[-> Hall]];
      cbn [mbind outcome_bind]; cycle 1.
    { exists None, s. split; [done|]. by apply NoEntry. }
    unfold get_entry. rewrite Ht, list_lookup_insert_eq by (by eapply lookup_lt_Some). cbn [deref mbind outcome_bind].
    rewrite lwip_assert_true by (by apply bool_decide_eq_true). cbn [mbind outcome_bind].
    eexists (Some i), _. split; [reflexivity|].
    assert (set_netif nf (set_ctime 0 (set_ipaddr ip e')) = new_entry ip nf (e_ethaddr e')) as ->.
    { unfold new_entry, set_netif, set_ctime, set_ipaddr. simpl. by rewrite Es, Eq. }
    apply (NewEntry _ _ _ _ _ i e (e_ethaddr e')); [done..| |].
    - simpl. rewrite Ht, list_insert_insert_eq. done.
    - destruct Hok' as [Ht' Hh Ho]. split; [|done|eapply owns_put_same; [|simpl; by rewrite Eq|done]].
      + simpl. eapply table_update; [done| |done|intros Hn; by destruct Hn].
        rewrite Ht, list_lookup_insert_eq; [done|by eapply lookup_lt_Some].
      + rewrite Ht, list_lookup_insert_eq; [done|by eapply lookup_lt_Some].
  Qed.

  (** The slot [i] is the one for the address [ip] on [nf]. *)
Record slot s (l : list Z) (ip nf : Z) (i : nat) (e : etharp_entry) : Prop := {
    slot_ok : arp_ok s l;
    slot_at : arp_table s !! i = Some e;
    slot_key : e_ipaddr e = ip /\ e_netif e = Some nf;
    slot_only : forall j e', j <> i -> arp_table s !! j = Some e' -> nonempty e' ->
      ~ (e_ipaddr e' = ip /\ e_netif e' = Some nf) }.

Lemma matches_key ip nf e : entry_matches (Some ip) (Some nf) e = true <->
    nonempty e /\ e_ipaddr e = ip /\ e_netif e = Some nf.
  Proof.
    unfold entry_matches, nonempty. rewrite !andb_true_iff, orb_true_iff, !bool_decide_eq_true.
    intuition congruence.
  Qed.

Lemma find_slot s l ip nf fl i s' : arp_ok s l -> find_result ip (Some nf) fl s l (Some i) s' ->
    exists e, slot s' l ip nf i e.
  Proof.
    intros Hok Hf. inversion Hf as [i' e Hi Hm|Hno|i' e eth s2 Hno Hfl Hi Hv Ht Hok']; subst.
    - exists e. apply matches_key in Hm as (Hn & Hip & Hnf). split; [done|done|done|].
      intros j e' Hj Hj' Hn' [E1 E2]. apply Hj. eapply (table_unique _ _ (ok_table _ _ Hok)); [done|done|done|done|].
      split; congruence.
    - exists (new_entry ip (Some nf) eth). split; [done| |done|].
      + rewrite Ht, list_lookup_insert_eq; [done|by eapply lookup_lt_Some].
      + intros j e' Hj Hj' Hn' Hk. rewrite Ht, list_lookup_insert_ne in Hj' by done.
        pose proof (Hno _ _ Hj') as Hm. apply not_true_iff_false in Hm. apply Hm. by apply matches_key.
  Qed.

  (** Filling the slot. *)
Lemma slot_put s l ip nf i e e' : slot s l ip nf i e -> entry_ok N e' -> e_ipaddr e' = ip -> e_netif e' = Some nf ->
    e_q e' = e_q e -> slot (put_entry i e' s) l ip nf i e'.
  Proof.
    intros [[Ht Hh Ho] Hi Hk Hon] He' Hip Hnf Hq. split.
    - split; [|done|by eapply owns_put_same]. simpl. apply table_put; [done|done|].
      intros _ j x Hj Hx Hn [E1 E2]. apply (Hon j x Hj Hx Hn). split; congruence.
    - simpl. rewrite list_lookup_insert_eq; [done|by eapply lookup_lt_Some].
    - done.
    - simpl. intros j x Hj Hx. rewrite list_lookup_insert_ne in Hx by done. exact (Hon j x Hj Hx).
  Qed.

Lemma hint_ok s l i : arp_ok s l -> (i < ARP_TABLE_SIZE)%nat -> arp_ok (Arp (arp_table s) i (packets s)) l.
  Proof. intros [Ht Hh Ho] Hi. by split. Qed.
Lemma packets_ok s l l' ps : arp_ok s l -> owns (with_packets ps s) l' -> arp_ok (with_packets ps s) l'.
  Proof. intros [Ht Hh Ho] Hi. by split. Qed.
Lemma index_ok s l i e : arp_ok s l -> arp_table s !! i = Some e -> (i < ARP_TABLE_SIZE)%nat.
  Proof. intros [Ht _ _] Hi. rewrite <- (table_length _ _ Ht). by eapply lookup_lt_Some. Qed.

  (** Sending a packet the caller holds. *)
Lemma output_ok s l p netif src dst type : arp_ok s (p :: l) -> length src = 6%nat -> length dst = 6%nat ->
    exists e ps, ethernet_output (packets s) netif p src dst type = Ret (e, ps) /\
      arp_ok (with_packets ps s) (p :: l).
  Proof.
    intros Hok H1 H2. destruct (output_ref (packets s) netif p src dst type _ (ok_refs _ _ Hok) H1 H2) as (e & ps & H & Hr).
    exists e, ps. split; [done|]. by eapply packets_ok.
  Qed.
  (** Giving up a reference. *)
Lemma drop_ok s l p : arp_ok s (p :: l) ->
    exists ps, pbuf_free (packets s) p = Ret ps /\ arp_ok (with_packets ps s) l.
  Proof.
    intros Hok. destruct (free_ref _ _ _ (ok_refs _ _ Hok)) as (ps & H & Hr). exists ps. split; [done|].
    by eapply packets_ok.
  Qed.

  (** What an update leaves in the table. *)
Definition learned (ip nf : Z) (eth : list Z) (st : etharp_state) : etharp_entry :=
    Entry None ip (Some nf) eth 0 st.

Lemma update_ok s l nf ip eth fl : arp_ok s l -> known N nf -> length eth = 6%nat ->
    exists err s' n, etharp_update_arp_entry N nf ip eth fl s = Ret (err, s') /\ arp_ok s' l /\
      get_netif N nf = Ret n /\
      if nonunicast ip n then err = ERR_ARG /\ s' = s
      else match err with
           | ERR_OK => exists i, slot s' l ip nf i (learned ip nf eth
               (if Z.land fl ETHARP_FLAG_STATIC_ENTRY =? 0 then ETHARP_STATE_STABLE else ETHARP_STATE_STATIC))
           | ERR_VAL => s' = s /\ exists i e, slot s l ip nf i e /\ e_state e = ETHARP_STATE_STATIC
           | _ => err = ERR_MEM /\ s' = s /\ no_match (arp_table s) ip (Some nf)
           end.
  Proof.
    intros Hok Hk Hl. unfold etharp_update_arp_entry.
    destruct (get_netif_ok N Hnet nf Hk) as (n & -> & Hln & Hlh). cbn [mbind outcome_bind].
    rewrite lwip_assert_true by (by apply Z.eqb_eq). cbn [mbind outcome_bind].
    destruct (nonunicast ip n) eqn:Enu; [by exists ERR_ARG, s, n; rewrite Enu|].
    destruct (find_entry_ok s l ip fl (Some nf) Hok) as (r & s1 & -> & Hf). cbn [mbind outcome_bind].
    destruct r as [i|]; cycle 1.
    { inversion Hf; subst. exists ERR_MEM, s1, n. rewrite Enu. done. }
    destruct (find_slot _ _ _ _ _ _ _ Hok Hf) as (e & Hs). pose proof Hs as [Hok1 Hi [Hip Hnf] Hon].
    unfold get_entry. rewrite Hi. cbn [deref mbind outcome_bind].
    destruct (negb (Z.land fl ETHARP_FLAG_STATIC_ENTRY =? 0) || negb (bool_decide (e_state e = ETHARP_STATE_STATIC))) eqn:Ew;
      cycle 1.
    { apply orb_false_iff in Ew as [_ Ew%negb_false_iff%bool_decide_eq_true].
      assert (s1 = s) as ->.
      { inversion Hf as [i' x Hx Hm| |i' x eth0 s2 Hno Hfl Hx Hv Ht Hok']; subst; [done|].
        rewrite Ht, list_lookup_insert_eq in Hi by (by eapply lookup_lt_Some). injection Hi as Hi. by rewrite <- Hi in Ew. }
      exists ERR_VAL, s, n. rewrite Enu. split; [done|]. split; [done|]. split; [done|]. split; [done|]. eauto. }
    set (st := if negb (Z.land fl ETHARP_FLAG_STATIC_ENTRY =? 0) then ETHARP_STATE_STATIC else ETHARP_STATE_STABLE).
    assert ((if Z.land fl ETHARP_FLAG_STATIC_ENTRY =? 0 then ETHARP_STATE_STABLE else ETHARP_STATE_STATIC) = st) as ->
      by (unfold st; by destruct (_ =? 0)).
    assert (entry_ok N (learned ip nf eth st)) as Hlok.
    { unfold entry_ok, learned, st. destruct (negb _); simpl; [done|]. split; [done|]. split; [done|].
      unfold ARP_MAXAGE. lia. }
    cbv zeta. cbn [set_ctime set_ethaddr set_netif set_state e_q].
    destruct (e_q e) as [p|] eqn:Eq.
    - assert (put_entry i (set_q None (set_ctime 0 (set_ethaddr eth (set_netif (Some nf) (set_state st e)))))
                (put_entry i (set_ctime 0 (set_ethaddr eth (set_netif (Some nf) (set_state st e)))) s1)
              = put_entry i (learned ip nf eth st) s1) as ->.
      { rewrite put_put. unfold learned, set_q, set_ctime, set_ethaddr, set_netif, set_state. simpl. by rewrite Hip. }
      assert (arp_ok (put_entry i (learned ip nf eth st) s1) (p :: l)) as Hok2.
      { destruct Hok1 as [Ht1 Hh1 Ho1]. split; [|done|].
        - simpl. apply table_put; [done|done|]. intros _ j x Hj Hx Hn [E1 E2]. exact (Hon j x Hj Hx Hn (conj E1 E2)).
        - pose proof (owns_put s1 i e (learned ip nf eth st) l Hi Ho1) as H. by rewrite Eq in H. }
      destruct (output_ok _ l p nf (hwaddr n) eth ETHTYPE_IP Hok2 Hlh Hl) as (er & ps & -> & Hok3).
      cbn [mbind outcome_bind]. destruct (drop_ok _ l p Hok3) as (ps' & Hfr & Hok4).
      simpl in Hfr. rewrite Hfr. cbn [mbind outcome_bind].
      eexists ERR_OK, _, n. rewrite Enu. split; [reflexivity|]. split; [exact Hok4|]. split; [done|].
      exists i. split; [exact Hok4| |done|].
      + simpl. rewrite list_lookup_insert_eq; [done|by eapply lookup_lt_Some].
      + simpl. intros j x Hj Hx. rewrite list_lookup_insert_ne in Hx by done. exact (Hon j x Hj Hx).
    - assert (set_ctime 0 (set_ethaddr eth (set_netif (Some nf) (set_state st e))) = learned ip nf eth st) as ->.
      { unfold learned, set_ctime, set_ethaddr, set_netif, set_state. simpl. by rewrite Hip, Eq. }
      pose proof (slot_put s1 l ip nf i e (learned ip nf eth st) Hs Hlok eq_refl eq_refl) as Hsl.
      specialize (Hsl (eq_sym Eq)). eexists ERR_OK, _, n. rewrite Enu. split; [reflexivity|].
      split; [apply (slot_ok _ _ _ _ _ _ Hsl)|]. split; [done|]. by exists i.
  Qed.

Lemma request_arp_ok s l nf ip : arp_ok s l -> known N nf ->
    exists err ps, etharp_request N nf ip s = Ret (err, with_packets ps s) /\ arp_ok (with_packets ps s) l.
  Proof.
    intros Hok Hk. destruct (request_ok N Hnet nf ip s l Hk (ok_refs _ _ Hok)) as (err & ps & H & Ho).
    exists err, ps. split; [done|]. by eapply packets_ok.
  Qed.

  (** The caller has few references of [q]: with one in every entry there is room for another one. *)
Definition few (q : Z) (l : list Z) : Prop := (length (filter (.= q) l) + ARP_TABLE_SIZE < 255)%nat.
Lemma few_perm q l l' : l ≡ₚ l' -> few q l -> few q l'.
  Proof. unfold few. by intros ->. Qed.
Lemma few_refs s l q : arp_ok s (q :: l) -> few q (q :: l) -> (length (filter (.= q) (q :: l ++ queued (arp_table s))) < 255)%nat.
  Proof.
    intros Hok Hf. unfold few in Hf. pose proof (table_length _ _ (ok_table _ _ Hok)) as Hl.
    change (q :: l ++ queued (arp_table s)) with ((q :: l) ++ queued (arp_table s)). rewrite filter_app, length_app.
    assert (length (filter (.= q) (queued (arp_table s))) <= length (arp_table s))%nat; [|lia].
    etransitivity; [apply length_filter|]. unfold queued. clear. induction (arp_table s) as [|x t IH]; [done|]. unfold omap in *. simpl. destruct (e_q x); simpl; lia.
  Qed.
Lemma query_queue_ok s l ip nf i e q : slot s (q :: l) ip nf i e -> e_state e = ETHARP_STATE_PENDING -> few q (q :: l) ->
    exists err s', query_queue i q s = Ret (err, s') /\ arp_ok s' (q :: l).
  Proof.
    intros Hs Hp Hfew. pose proof Hs as [Hok Hi [Hip Hnf] Hon]. unfold query_queue.
    destruct (hold_ref (packets s) q (l ++ queued (arp_table s)) (ok_refs _ _ Hok) (few_refs s l q Hok Hfew)) as (r & ps & -> & Hr).
    cbn [mbind outcome_bind]. destruct r as [p|]; simpl in Hr.
    - unfold get_entry. simpl. rewrite Hi. cbn [deref mbind outcome_bind].
      assert (arp_ok (with_packets ps s) (p :: q :: l)) as Hok1 by (by eapply packets_ok).
      assert (arp_ok (put_entry i (set_q (Some p) e) (with_packets ps s)) (option_list (e_q e) ++ q :: l)) as Hok2.
      { destruct Hok1 as [Ht1 Hh1 Ho1]. split; [|done|by apply owns_put]. simpl.
        eapply table_update; [done|done| |done]. pose proof (arp_entry _ _ _ _ Hok Hi) as He. unfold entry_ok in *.
        simpl. by rewrite Hp in *. }
      destruct (e_q e) as [old|]; simpl in Hok2 |- *; [|eauto].
      destruct (drop_ok _ _ _ Hok2) as (ps' & Hf & Hok3). simpl in Hf. rewrite Hf. cbn [mbind outcome_bind].
      eexists _, _. split; [reflexivity|]. exact Hok3.
    - eexists _, _. split; [done|]. by eapply packets_ok.
  Qed.

Lemma query_ok s l nf ip q : arp_ok s (option_list q ++ l) -> known N nf -> (forall x, q = Some x -> few x (x :: l)) ->
    exists err s', etharp_query N nf ip q s = Ret (err, s') /\ arp_ok s' (option_list q ++ l).
  Proof.
    intros Hok Hk Hfew. unfold etharp_query.
    destruct (get_netif_ok N Hnet nf Hk) as (n & -> & Hln & Hlh). cbn [mbind outcome_bind].
    destruct (nonunicast ip n); [by exists ERR_ARG, s|].
    destruct (find_entry_ok s _ ip ETHARP_FLAG_TRY_HARD (Some nf) Hok) as (r & s1 & -> & Hf). cbn [mbind outcome_bind].
    destruct r as [i|]; [|inversion Hf; subst; by exists ERR_MEM, s1].
    destruct (find_slot _ _ _ _ _ _ _ Hok Hf) as (e & Hs). pose proof Hs as [Hok1 Hi [Hip Hnf] Hon].
    unfold get_entry. rewrite Hi. cbn [deref mbind outcome_bind]. cbv zeta.
    set (new := bool_decide (e_state e = ETHARP_STATE_EMPTY)).
    set (e1 := if new then set_netif (Some nf) (set_state ETHARP_STATE_PENDING e) else e).
    assert (slot (put_entry i e1 s1) (option_list q ++ l) ip nf i e1 /\ e_state e1 <> ETHARP_STATE_EMPTY) as [Hs1 Hne1].
    { unfold e1, new. pose proof (arp_entry _ _ _ _ Hok1 Hi) as He.
      destruct (decide (e_state e = ETHARP_STATE_EMPTY)) as [Es|Es].
      - rewrite bool_decide_eq_true_2 by done. split; [|done]. eapply slot_put; [done| |done|done|done].
        unfold entry_ok in *. simpl. rewrite Es in He. split; [by exists nf|]. 
        inversion Hf as [i' x Hx Hm| |i' x eth0 s2 Hno Hfl Hx Hv Ht Hok']; subst.
        + rewrite Hi in Hx. injection Hx as <-. apply matches_key in Hm as (Hm & _). done.
        + rewrite Ht, list_lookup_insert_eq in Hi by (by eapply lookup_lt_Some). injection Hi as <-. simpl.
          unfold ARP_MAXPENDING. lia.
      - rewrite bool_decide_eq_false_2 by done. split; [|done]. eapply slot_put; done. }
    assert (exists result ps, (if new || bool_decide (q = None) then etharp_request N nf ip (put_entry i e1 s1)
      else Ret (ERR_MEM, put_entry i e1 s1)) = Ret (result, with_packets ps (put_entry i e1 s1)) /\
      arp_ok (with_packets ps (put_entry i e1 s1)) (option_list q ++ l)) as (result & ps & -> & Hok2).
    { destruct (new || bool_decide (q = None)).
      - apply request_arp_ok; [apply (slot_ok _ _ _ _ _ _ Hs1)|done].
      - exists ERR_MEM, (packets s1). split; [done|]. apply (slot_ok _ _ _ _ _ _ Hs1). }
    cbn [mbind outcome_bind]. destruct q as [q|]; [|eauto].
    assert (slot (with_packets ps (put_entry i e1 s1)) (q :: l) ip nf i e1) as Hs2.
    { destruct Hs1 as [_ H1 H2 H3]. by split. }
    rewrite (slot_at _ _ _ _ _ _ Hs2). cbn [deref mbind outcome_bind].
    pose proof (arp_entry _ _ _ _ Hok2 (slot_at _ _ _ _ _ _ Hs2)) as He1.
    destruct (is_stable (e_state e1)) eqn:Est.
    - pose proof (hint_ok _ _ i Hok2 (index_ok _ _ _ _ Hok2 (slot_at _ _ _ _ _ _ Hs2))) as Hok3.
      destruct (output_ok _ l q nf (hwaddr n) (e_ethaddr e1) ETHTYPE_IP Hok3 Hlh) as (er & ps' & Ho & Hok4).
      { unfold entry_ok in He1. destruct (e_state e1); try done; tauto. }
      rewrite Ho. cbn [mbind outcome_bind]. eexists _, _. split; [reflexivity|]. exact Hok4.
    - rewrite decide_True by (by destruct (e_state e1)). eapply query_queue_ok; [done|by destruct (e_state e1)|by apply Hfew].
  Qed.

Lemma find_stable_spec nf ip : forall t k,
    match find_stable nf ip k t with
    | Some i => exists e, t !! (i - k)%nat = Some e /\ (k <= i)%nat /\ is_stable (e_state e) = true
    | None => True
    end.
  Proof.
    induction t as [|e t IH]; intros k; simpl; [done|].
    destruct (is_stable (e_state e)) eqn:Es; simpl; [destruct (bool_decide _ && _)|].
    - exists e. rewrite Nat.sub_diag. split; [done|]. split; [lia|done].
    - specialize (IH (k + 1)%nat). destruct (find_stable nf ip (k + 1) t) as [i|]; [|done].
      destruct IH as (x & Hx & Hle & Hst). exists x. replace (i - k)%nat with (Datatypes.S (i - (k + 1))) by lia.
      split; [done|]. split; [lia|done].
    - specialize (IH (k + 1)%nat). destruct (find_stable nf ip (k + 1) t) as [i|]; [|done].
      destruct IH as (x & Hx & Hle & Hst). exists x. replace (i - k)%nat with (Datatypes.S (i - (k + 1))) by lia.
      split; [done|]. split; [lia|done].
  Qed.

Lemma output_to_index_ok s l nf q i e : arp_ok s (q :: l) -> known N nf -> arp_table s !! i = Some e ->
    is_stable (e_state e) = true ->
    exists err s', etharp_output_to_arp_index N nf q i s = Ret (err, s') /\ arp_ok s' (q :: l).
  Proof.
    intros Hok Hk Hi Hst. unfold etharp_output_to_arp_index. unfold get_entry. rewrite Hi.
    cbn [deref mbind outcome_bind]. rewrite lwip_assert_true by done. cbn [mbind outcome_bind].
    destruct (get_netif_ok N Hnet nf Hk) as (n & -> & Hln & Hlh). cbn [mbind outcome_bind].
    pose proof (arp_entry _ _ _ _ Hok Hi) as He.
    assert (length (e_ethaddr e) = 6%nat) as Hle by (unfold entry_ok in He; destruct (e_state e); try done; tauto).
    assert (forall dst, length dst = 6%nat -> e_state e = ETHARP_STATE_STABLE -> exists s1,
      ('(err, s0) ← etharp_request_dst N nf (e_ipaddr e) dst s;
       Ret (if decide (err = ERR_OK) then put_entry i (set_state ETHARP_STATE_STABLE_REREQUESTING_1 e) s0 else s0))
      = Ret s1 /\ arp_ok s1 (q :: l)) as Hreq.
    { intros dst Hd Es. destruct (request_dst_ok N Hnet nf (e_ipaddr e) dst s _ Hk (ok_refs _ _ Hok) Hd) as (err & ps & -> & Ho).
      cbn [mbind outcome_bind]. assert (arp_ok (with_packets ps s) (q :: l)) as Hok1 by (by eapply packets_ok).
      eexists. split; [reflexivity|]. case_decide; [|done]. destruct Hok1 as [Ht1 Hh1 Ho1].
      split; [|done|by eapply owns_put_same]. simpl. eapply table_update; [done|done| |].
      - unfold entry_ok in *. simpl. by rewrite Es in He.
      - intros _. split; [|done]. unfold nonempty. by rewrite Es. }
    match goal with |- exists _ _, mbind _ ?X = _ /\ _ =>
      assert (exists s1, X = Ret s1 /\ arp_ok s1 (q :: l)) as (s1 & -> & Hok1) end.
    { case_decide as Es; [|eauto]. destruct (_ <=? e_ctime e); [apply Hreq; [done|done]|].
      destruct (_ <=? e_ctime e); [by apply Hreq|eauto]. }
    cbn [mbind outcome_bind].
    destruct (output_ok _ l q nf (hwaddr n) (e_ethaddr e) ETHTYPE_IP Hok1 Hlh Hle) as (er & ps & -> & Hok2).
    cbn [mbind outcome_bind]. eauto.
  Qed.

Lemma etharp_output_ok s l nf q ip : arp_ok s (q :: l) -> known N nf -> few q (q :: l) ->
    exists err s', etharp_output N nf q ip s = Ret (err, s') /\ arp_ok s' (q :: l).
  Proof.
    intros Hok Hk Hfew. unfold etharp_output.
    destruct (get_netif_ok N Hnet nf Hk) as (n & -> & Hln & Hlh). cbn [mbind outcome_bind].
    destruct (ip4_addr_isbroadcast_u32 ip (base n)).
    { destruct (output_ok _ l q nf (hwaddr n) ethbroadcast ETHTYPE_IP Hok Hlh eq_refl) as (er & ps & -> & Hok2).
      cbn [mbind outcome_bind]. eauto. }
    destruct (ip4_addr_ismulticast ip).
    { destruct (output_ok _ l q nf (hwaddr n) (multicast_ethaddr ip) ETHTYPE_IP Hok Hlh eq_refl) as (er & ps & -> & Hok2).
      cbn [mbind outcome_bind]. eauto. }
    destruct (next_hop n ip) as [dst|]; [|eauto].
    destruct (lookup_lt_is_Some_2 (arp_table s) (etharp_cached_entry s)) as [c Hc].
    { rewrite (table_length _ _ (ok_table _ _ Hok)). apply (ok_hint _ _ Hok). }
    unfold get_entry. rewrite Hc. cbn [deref mbind outcome_bind].
    destruct (is_stable (e_state c)) eqn:Est; simpl; [destruct (bool_decide _ && _); [by eapply output_to_index_ok|]|].
    all: pose proof (find_stable_spec nf dst (arp_table s) 0) as Hfs;
      destruct (find_stable nf dst 0 (arp_table s)) as [i|]; [|apply (query_ok s l nf dst (Some q)); [done|done|by intros ? [= <-]]];
      destruct Hfs as (x & Hx & _ & Hsx); rewrite Nat.sub_0_r in Hx;
      eapply output_to_index_ok; [apply hint_ok; [done|by eapply index_ok]|done|done|done].
  Qed.

  (** *** Ageing: one tick of an entry *)
Definition tick (e : etharp_entry) : etharp_entry :=
    if decide (e_state e = ETHARP_STATE_EMPTY \/ e_state e = ETHARP_STATE_STATIC) then e
    else
      let age := e_ctime e + 1 in
      if (ARP_MAXAGE <=? age) || (bool_decide (e_state e = ETHARP_STATE_PENDING) && (ARP_MAXPENDING <=? age))
      then empty_entry
      else set_state (match e_state e with
                      | ETHARP_STATE_STABLE_REREQUESTING_1 => ETHARP_STATE_STABLE_REREQUESTING_2
                      | ETHARP_STATE_STABLE_REREQUESTING_2 => ETHARP_STATE_STABLE
                      | st => st
                      end) (set_ctime age e).

Lemma tick_ok e : entry_ok N e -> entry_ok N (tick e) /\ (nonempty (tick e) -> nonempty e /\ same_key e (tick e)).
  Proof.
    intros He. unfold tick. case_decide as Hd; [by split|].
    destruct ((ARP_MAXAGE <=? e_ctime e + 1) || _) eqn:Eo; [by split; [|intros Hn; destruct Hn]|].
    apply orb_false_iff in Eo as [E1%Z.leb_gt E2]. unfold entry_ok, nonempty, same_key in *.
    split; [|by intros _; split; [intros ?; tauto|]].
    destruct (e_state e) eqn:Es; simpl; try tauto; try (intuition lia).
    apply andb_false_iff in E2 as [E2|E2]; [by apply bool_decide_eq_false in E2|].
    apply Z.leb_gt in E2. intuition lia.
  Qed.

Lemma tmr_entry_ok s l i e : arp_ok s l -> arp_table s !! i = Some e ->
    exists s', tmr_entry N i s = Ret s' /\ arp_ok s' l /\ arp_table s' = <[i := tick e]> (arp_table s).
  Proof.
    intros Hok Hi. unfold tmr_entry, get_entry. rewrite Hi. cbn [deref mbind outcome_bind].
    pose proof (arp_entry _ _ _ _ Hok Hi) as He. destruct (tick_ok e He) as [Htok Htk].
    assert (forall s1 ps, s1 = put_entry i (tick e) (with_packets ps s) -> owns (with_packets ps s) l ->
      e_q (tick e) = e_q e -> arp_ok s1 l) as Hfin.
    { intros s1 ps -> Ho Hq. destruct Hok as [Ht Hh Ho']. split; [|done|by eapply owns_put_same].
      simpl. by eapply table_update. }
    unfold tick in *. case_decide as Hd.
    - rewrite decide_False by tauto. exists s. split; [done|]. split; [done|]. by rewrite list_insert_id.
    - rewrite decide_True by tauto. cbv zeta.
      assert (u16 (e_ctime e + 1) = e_ctime e + 1) as ->.
      { apply u16_small. unfold entry_ok, ARP_MAXAGE, ARP_MAXPENDING in He. destruct (e_state e); intuition lia. }
      set (e1 := set_ctime (e_ctime e + 1) e) in *.
      change (e_ctime e1) with (e_ctime e + 1). change (e_state e1) with (e_state e).
      change (e_netif e1) with (e_netif e). change (e_ipaddr e1) with (e_ipaddr e).
      destruct ((ARP_MAXAGE <=? e_ctime e + 1) || _).
      + assert (arp_table (put_entry i e1 s) !! i = Some e1) as Hi1.
        { simpl. rewrite list_lookup_insert_eq; [done|by eapply lookup_lt_Some]. }
        assert (owns (put_entry i e1 s) l) as Ho1 by (eapply owns_put_same; [done|done|apply (ok_refs _ _ Hok)]).
        destruct (free_entry_ok (put_entry i e1 s) i e1 l Hi1 Ho1) as (ps & -> & Ho2).
        eexists. split; [reflexivity|]. split; [|simpl; by rewrite list_insert_insert_eq].
        destruct Hok as [Ht Hh Ho']. split; [|done|done]. simpl. rewrite list_insert_insert_eq. by eapply table_update.
      + assert (owns (with_packets (packets s) s) l) as Ho by (destruct s; apply (ok_refs _ _ Hok)).
        assert (forall e', put_entry i e' s = put_entry i e' (with_packets (packets s) s)) as Hsame by (by destruct s).
        destruct (e_state e) eqn:Es; try tauto.
        * unfold entry_ok in He. rewrite Es in He. destruct He as ((a & Hnf & Hk) & Hage). rewrite Hnf. simpl.
          assert (set_state ETHARP_STATE_PENDING e1 = e1) as E1.
          { unfold e1, set_state, set_ctime. simpl. by rewrite Es. }
          rewrite E1 in *.
          assert (arp_ok (put_entry i e1 s) l) as Hok1 by (by apply (Hfin _ (packets s))).
          destruct (request_arp_ok _ _ a (e_ipaddr e) Hok1 Hk) as (err & ps & -> & Hok2). cbn [mbind outcome_bind].
          eexists. split; [reflexivity|]. done.
        * assert (set_state ETHARP_STATE_STABLE e1 = e1) as E1.
          { unfold e1, set_state, set_ctime. simpl. by rewrite Es. }
          rewrite E1 in *. eexists. split; [reflexivity|]. split; [|done]. by apply (Hfin _ (packets s)).
        * rewrite put_put. eexists. split; [reflexivity|]. split; [|done]. by apply (Hfin _ (packets s)).
        * rewrite put_put. eexists. split; [reflexivity|]. split; [|done]. by apply (Hfin _ (packets s)).
  Qed.

Lemma tmr_loop_ok k : forall i s l, arp_ok s l -> (i + k = ARP_TABLE_SIZE)%nat ->
    exists s', tmr_loop N k i s = Ret s' /\ arp_ok s' l /\
      arp_table s' = take i (arp_table s) ++ map tick (drop i (arp_table s)).
  Proof.
    induction k as [|k IH]; intros i s l Hok Hi; simpl.
    - exists s. split; [done|]. split; [done|]. pose proof (table_length _ _ (ok_table _ _ Hok)) as Hl.
      rewrite drop_ge, take_ge by lia. simpl. by rewrite app_nil_r.
    - pose proof (table_length _ _ (ok_table _ _ Hok)) as Hl.
      destruct (lookup_lt_is_Some_2 (arp_table s) i) as [e He]; [lia|].
      destruct (tmr_entry_ok s l i e Hok He) as (s1 & -> & Hok1 & Ht1). cbn [mbind outcome_bind].
      destruct (IH (i + 1)%nat s1 l Hok1) as (s2 & -> & Hok2 & Ht2); [lia|].
      exists s2. split; [done|]. split; [done|]. rewrite Ht2, Ht1.
      rewrite (drop_S _ e i He). simpl.
      rewrite drop_insert_lt by lia. rewrite Nat.add_1_r in *.
      rewrite (take_S_r _ _ (tick e)) by (rewrite list_lookup_insert_eq; [done|by eapply lookup_lt_Some]).
      rewrite take_insert_ge by lia. by rewrite <- app_assoc.
  Qed.

Lemma cleanup_loop_ok nf k : forall i s l, arp_ok s l -> (i + k = ARP_TABLE_SIZE)%nat ->
    exists s', cleanup_loop k i nf s = Ret s' /\ arp_ok s' l /\
      forall j e, arp_table s' !! j = Some e ->
        if decide (j < i)%nat then arp_table s !! j = Some e
        else exists x, arp_table s !! j = Some x /\
          e = if decide (nonempty x /\ e_netif x = Some nf) then empty_entry else x.
  Proof.
    induction k as [|k IH]; intros i s l Hok Hi; simpl.
    - exists s. split; [done|]. split; [done|]. intros j e Hj.
      pose proof (index_ok _ _ _ _ Hok Hj). rewrite decide_True by lia. done.
    - pose proof (table_length _ _ (ok_table _ _ Hok)) as Hl.
      destruct (lookup_lt_is_Some_2 (arp_table s) i) as [e He]; [lia|].
      unfold get_entry. rewrite He. cbn [deref mbind outcome_bind].
      match goal with |- exists _, mbind _ ?X = _ /\ _ =>
        assert (exists s1, X = Ret s1 /\ arp_ok s1 l /\
          arp_table s1 = <[i := if decide (nonempty e /\ e_netif e = Some nf) then empty_entry else e]> (arp_table s))
        as (s1 & -> & Hok1 & Ht1) end.
      { case_decide as HP; case_decide as HP'; [|exfalso; tauto|exfalso; tauto|].
        - destruct (free_slot s l i e Hok He) as (ps & -> & Hps). eauto.
        - exists s. split; [done|]. split; [done|]. by rewrite list_insert_id. }
      cbn [mbind outcome_bind]. destruct (IH (i + 1)%nat s1 l Hok1) as (s2 & -> & Hok2 & Hall); [lia|].
      exists s2. split; [done|]. split; [done|]. intros j x Hj. specialize (Hall j x Hj). rewrite Ht1 in Hall.
      destruct (decide (j = i)) as [->|Hne].
      + rewrite decide_True in Hall by lia. rewrite list_lookup_insert_eq in Hall by (by eapply lookup_lt_Some).
        injection Hall as <-. rewrite decide_False by lia. by exists e.
      + rewrite list_lookup_insert_ne in Hall by done.
        destruct (decide (j < i)%nat); [by rewrite decide_True in Hall by lia|]. by rewrite decide_False in Hall by lia.
  Qed.

Lemma remove_static_ok s l ip : arp_ok s l ->
    exists err s', etharp_remove_static_entry ip s = Ret (err, s') /\ arp_ok s' l.
  Proof.
    intros Hok. unfold etharp_remove_static_entry.
    destruct (find_entry_ok s l ip ETHARP_FLAG_FIND_ONLY None Hok) as (r & s1 & -> & Hf). cbn [mbind outcome_bind].
    inversion Hf as [i e Hi Hm|Hno|i e eth s2 Hno Hfl Hi Hv Ht Hok']; subst; [|eauto|done].
    unfold get_entry. rewrite Hi. cbn [deref mbind outcome_bind]. case_decide; [|eauto].
    destruct (free_slot s1 l i e Hok Hi) as (ps & -> & Hps). cbn [mbind outcome_bind]. eauto.
  Qed.

Lemma arp_checks_ok hdr : (28 <= length hdr)%nat -> exists b, arp_checks hdr = Ret b.
  Proof.
    intros Hl. unfold arp_checks, SIZEOF_ETHARP_HDR. rewrite !(proj2 (Z.ltb_ge _ _)) by lia.
    repeat (match goal with |- context [if ?b then _ else _] => destruct b; [by eexists|] end). by eexists.
  Qed.
Lemma input_ok s l p nf hdr : arp_ok s (p :: l) -> known N nf -> payload (packets s) p = Ret hdr ->
    (28 <= length hdr)%nat -> exists s', etharp_input N p nf s = Ret s' /\ arp_ok s' l.
  Proof.
    intros Hok Hk Hh Hlen. unfold etharp_input.
    destruct (get_netif_ok N Hnet nf Hk) as (n & Hgn & Hln & Hlh). rewrite Hgn. cbn [mbind outcome_bind].
    rewrite Hh. cbn [mbind outcome_bind]. destruct (arp_checks_ok hdr Hlen) as (valid & ->). cbn [mbind outcome_bind]. cbv zeta. destruct valid; cbn [negb]; cycle 1.
    { destruct (drop_ok s l p Hok) as (ps & -> & Hok1). cbn [mbind outcome_bind]. eauto. }
    assert (length (shwaddr (parse_hdr hdr)) = 6%nat) as Hls.
    { simpl. rewrite length_take, length_drop. lia. }
    destruct (update_ok s _ nf (sipaddr (parse_hdr hdr)) (shwaddr (parse_hdr hdr))
      (if for_us n (dipaddr (parse_hdr hdr)) then ETHARP_FLAG_TRY_HARD else ETHARP_FLAG_FIND_ONLY) Hok Hk Hls)
      as (err & s1 & n' & -> & Hok1 & _). cbn [mbind outcome_bind].
    match goal with |- exists _, mbind _ ?X = _ /\ _ =>
      assert (exists ps, X = Ret (with_packets ps s1) /\ arp_ok (with_packets ps s1) (p :: l)) as (ps & -> & Hok2) end.
    { destruct (_ && _); [|exists (packets s1); by destruct s1].
      destruct (raw_ok N Hnet nf (hwaddr n) (shwaddr (parse_hdr hdr)) (hwaddr n) (ip_addr n) (shwaddr (parse_hdr hdr))
        (sipaddr (parse_hdr hdr)) ARP_REPLY s1 _ Hk (ok_refs _ _ Hok1)) as (er & ps & -> & Ho); [done..|].
      cbn [mbind outcome_bind]. exists ps. split; [done|]. by eapply packets_ok. }
    cbn [mbind outcome_bind]. destruct (drop_ok _ l p Hok2) as (ps' & -> & Hok3). cbn [mbind outcome_bind]. eauto.
  Qed.
End operations.

(** ** Properties *)

(** The calls into the cache; the caller holds the packets it passes. *)
Inductive arp_op : Type :=
| Tmr | AddStatic (ip : Z) (eth : list Z) | RemoveStatic (ip : Z) | Cleanup (nf : Z)
| Input (p nf : Z) | Output (nf q ip : Z) | Query (nf ip : Z) (q : option Z).

Section properties.
  Context {PS : Type} `{!Packets PS} `{!PacketsLaws PS} (N : netifs).
  Implicit Type s : arp PS.

Definition run_arp (o : arp_op) s : outcome (arp PS) :=
  match o with
  | Tmr => etharp_tmr N s
  | AddStatic ip eth => '(_, s) ← etharp_add_static_entry N ip eth s; Ret s
  | RemoveStatic ip => '(_, s) ← etharp_remove_static_entry ip s; Ret s
  | Cleanup nf => etharp_cleanup_netif nf s
  | Input p nf => etharp_input N p nf s
  | Output nf q ip => '(_, s) ← etharp_output N nf q ip s; Ret s
  | Query nf ip q => '(_, s) ← etharp_query N nf ip q s; Ret s
  end.

(** When a call is allowed while the caller holds [l], and what it holds then:
    [etharp_input] consumes its packet, the others do not. *)
Definition arp_allowed (s : arp PS) (l : list Z) (o : arp_op) (l' : list Z) : Prop :=
  match o with
  | Tmr | RemoveStatic _ | Cleanup _ => l' = l
  | AddStatic ip eth => l' = l /\ length eth = 6%nat /\ (forall a, ip4_route N ip = Some a -> known N a)
  | Input p nf => l ≡ₚ p :: l' /\ known N nf /\ exists h, payload (packets s) p = Ret h /\ (28 <= length h)%nat
  | Output nf q ip => l' = l /\ known N nf /\ q ∈ l /\ few q l
  | Query nf ip q => l' = l /\ known N nf /\ forall x, q = Some x -> x ∈ l /\ few x l
  end.
End properties.

Lemma arp_ok_perm {PS} `{!Packets PS} `{!PacketsLaws PS} N (s : arp PS) l l' : l ≡ₚ l' -> arp_ok N s l -> arp_ok N s l'.
Proof. intros Hp [H1 H2 H3]. split; [done|done|]. by eapply owns_perm. Qed.

(** C35: The ARP cache is safe: every call of its interface, an ARP message in a first pbuf with at least the 28 bytes of its header, or a packet of which the
    caller has fewer than 245 references, returns (no assertion
    fails, no entry or packet that does not exist is accessed), keeps the table
    consistent (each entry's queue, age and interface as its state demands,
    one entry per address and interface) and keeps account of the packets: every
    reference the table or the caller holds stays valid, and what the table
    gives up is freed. *)
Theorem etharp_safe {PS} `{!Packets PS} `{!PacketsLaws PS} N (s : arp PS) l o l' :
  ethernet_netifs N -> arp_ok N s l -> arp_allowed N s l o l' ->
  exists s', run_arp N o s = Ret s' /\ arp_ok N s' l'.
Proof.
  intros Hnet Hok Hal. destruct o as [|ip eth|ip|nf|p nf|nf q ip|nf ip q]; simpl in Hal |- *.
  - subst l'. destruct (tmr_loop_ok N Hnet ARP_TABLE_SIZE 0 s l Hok eq_refl) as (s' & H & Hok' & _). eauto.
  - destruct Hal as (-> & Hl & Hr). unfold etharp_add_static_entry. destruct (ip4_route N ip) as [nf|]; [|eauto].
    destruct (update_ok N Hnet s l nf ip eth (Z.lor ETHARP_FLAG_TRY_HARD ETHARP_FLAG_STATIC_ENTRY) Hok (Hr nf eq_refl) Hl)
      as (err & s' & n & -> & Hok' & _). eauto.
  - subst l'. destruct (remove_static_ok N s l ip Hok) as (err & s' & -> & Hok'). eauto.
  - subst l'. destruct (cleanup_loop_ok N nf ARP_TABLE_SIZE 0 s l Hok eq_refl) as (s' & H & Hok' & _). eauto.
  - destruct Hal as (Hp & Hk & h & Hh & Hl). apply (input_ok N Hnet s l' p nf h); [|done..]. by eapply arp_ok_perm.
  - destruct Hal as (-> & Hk & Hq & Hf). apply elem_of_Permutation in Hq as [k Hp].
    destruct (etharp_output_ok N Hnet s k nf q ip) as (err & s' & -> & Hok'); [by eapply arp_ok_perm|done|by eapply few_perm|].
    exists s'. split; [done|]. eapply arp_ok_perm; [by symmetry|done].
  - destruct Hal as (-> & Hk & Hq). destruct q as [q|].
    + specialize (Hq q eq_refl) as [Hq Hf]. apply elem_of_Permutation in Hq as [k Hp].
      destruct (query_ok N Hnet s k nf ip (Some q)) as (err & s' & -> & Hok'); [by eapply arp_ok_perm|done|intros ? [= <-]; by eapply few_perm|].
      exists s'. split; [done|]. eapply arp_ok_perm; [by symmetry|done].
    + destruct (query_ok N Hnet s l nf ip None Hok Hk ltac:(done)) as (err & s' & -> & Hok'). eauto.
Qed.

(** An ARP message makes its sender known: after [etharp_update_arp_entry] for a
    unicast address (with room: not every entry static, and no static entry for
    the address) the address is found with the new hardware address. *)
Theorem etharp_learns {PS} `{!Packets PS} `{!PacketsLaws PS} N (s : arp PS) l nf n ip eth :
  ethernet_netifs N -> arp_ok N s l -> get_netif N nf = Ret n -> length eth = 6%nat -> nonunicast ip n = false ->
  (forall j e, arp_table s !! j = Some e -> e_ipaddr e = ip -> e_state e <> ETHARP_STATE_STATIC) ->
  (exists j e, arp_table s !! j = Some e /\ e_state e <> ETHARP_STATE_STATIC) ->
  exists s' i, etharp_update_arp_entry N nf ip eth ETHARP_FLAG_TRY_HARD s = Ret (ERR_OK, s') /\
    arp_ok N s' l /\ etharp_find_addr nf ip s' = Ret (Some (i, eth, ip), s').
Proof.
  intros Hnet Hok Hn Hl Hu Hns (j & e & Hj & Hje).
  assert (known N nf) as Hk by (unfold get_netif in Hn; destruct (list_to_map _ !! nf) eqn:E; [by eexists|done]).
  destruct (update_ok N Hnet s l nf ip eth ETHARP_FLAG_TRY_HARD Hok Hk Hl) as (err & s' & n' & Hup & Hok' & Hn' & Hres).
  rewrite Hn in Hn'. injection Hn' as <-. rewrite Hu in Hres.
  assert (err = ERR_OK) as ->.
  { assert (err = ERR_MEM -> False) as Hmem.
    { intros ->. destruct Hres as (_ & -> & Hno). revert Hup. unfold etharp_update_arp_entry. rewrite Hn.
      cbn [mbind outcome_bind]. rewrite Hu. destruct (lwip_assert _); try done. cbn [mbind outcome_bind].
      destruct (find_entry_ok N s l ip ETHARP_FLAG_TRY_HARD (Some nf) Hok) as (r & s1 & -> & Hf). cbn [mbind outcome_bind].
      destruct r as [i|].
      - unfold get_entry. destruct (arp_table s1 !! i) as [x|]; [|done]. cbn [deref mbind outcome_bind].
        destruct (_ || _); [|done]. destruct (e_q _); [|done].
        destruct (ethernet_output _ _ _ _ _ _) as [[? ps]| | |]; try done. cbn [mbind outcome_bind].
        by destruct (pbuf_free _ _).
      - inversion Hf as [| H1 H2 |]; subst. intros _. apply Hje. by apply (H2 eq_refl ltac:(done) j). }
    destruct err; try (exfalso; apply Hmem; by destruct Hres as [? _]); [done|].
    destruct Hres as (-> & i & x & Hsl & Hst). exfalso. apply (Hns i x); [by apply (slot_at _ _ _ _ _ _ _ Hsl)| |done].
    apply (slot_key _ _ _ _ _ _ _ Hsl). }
  destruct Hres as (i & Hsl). exists s', i. split; [done|]. split; [done|].
  unfold etharp_find_addr.
  destruct (find_entry_ok N s' l ip ETHARP_FLAG_FIND_ONLY (Some nf) Hok') as (r & s1 & -> & Hf). cbn [mbind outcome_bind].
  pose proof (slot_at _ _ _ _ _ _ _ Hsl) as Hi.
  inversion Hf as [i' x Hx Hm|Hno|i' x eth0 s2 Hno Hfl]; subst; [| |done].
  - assert (i' = i) as ->.
    { apply matches_key in Hm as (Hnx & Hip & Hnf). destruct (decide (i' = i)) as [|Hne]; [done|].
      exfalso. exact (slot_only _ _ _ _ _ _ _ Hsl i' x Hne Hx Hnx (conj Hip Hnf)). }
    unfold get_entry. rewrite Hi. done.
  - pose proof (Hno _ _ Hi) as Hm. apply not_true_iff_false in Hm. exfalso. apply Hm. by apply matches_key.
Qed.

(** [k] calls of [etharp_tmr]. *)
Fixpoint ticks {PS} `{!Packets PS} (N : netifs) (k : nat) (s : arp PS) : outcome (arp PS) :=
  match k with
  | O => Ret s
  | S k => s ← etharp_tmr N s; ticks N k s
  end.
(** An entry survives [k] ticks. *)
Definition survives (k : nat) (e : etharp_entry) : Prop :=
  match e_state e with
  | ETHARP_STATE_EMPTY => False
  | ETHARP_STATE_STATIC => True
  | ETHARP_STATE_PENDING => e_ctime e + Z.of_nat k < ARP_MAXPENDING
  | _ => e_ctime e + Z.of_nat k < ARP_MAXAGE
  end.

Lemma survives_0 N e : entry_ok N e -> survives 0 e <-> nonempty e.
Proof. unfold survives, nonempty, entry_ok. destruct (e_state e); intuition (lia || discriminate). Qed.
Lemma survives_tick N k e : entry_ok N e -> survives k (tick e) <-> survives (S k) e.
Proof.
  intros He. unfold tick. case_decide as Hd.
  - unfold survives. destruct (e_state e); intuition discriminate.
  - unfold entry_ok, survives, ARP_MAXAGE, ARP_MAXPENDING in *.
    destruct (e_state e) eqn:Es; simpl; try tauto;
      repeat (match goal with |- context [?a <=? ?b] => destruct (Z.leb_spec a b) end); simpl; try rewrite Es; simpl; lia.
Qed.

(** Entries age out exactly on time: with a tick per second, a resolved entry
    lives [ARP_MAXAGE] = 300 s and a pending one [ARP_MAXPENDING] = 5 s after its last
    update, and static entries live forever. *)
Theorem arp_entries_expire {PS} `{!Packets PS} `{!PacketsLaws PS} N (s : arp PS) l k :
  ethernet_netifs N -> arp_ok N s l ->
  exists s', ticks N k s = Ret s' /\ arp_ok N s' l /\
    forall j e, arp_table s !! j = Some e ->
      exists e', arp_table s' !! j = Some e' /\ (nonempty e' <-> survives k e).
Proof.
  intros Hnet. revert s. induction k as [|k IH]; intros s Hok.
  - exists s. split; [done|]. split; [done|]. intros j e Hj. exists e. split; [done|].
    by rewrite (survives_0 N) by (by eapply arp_entry).
  - cbn [ticks]. destruct (tmr_loop_ok N Hnet ARP_TABLE_SIZE 0 s l Hok eq_refl) as (s1 & H1 & Hok1 & Ht1).
    unfold etharp_tmr. rewrite H1. cbn [mbind outcome_bind].
    destruct (IH s1 Hok1) as (s2 & -> & Hok2 & Hall). exists s2. split; [done|]. split; [done|].
    intros j e Hj. destruct (Hall j (tick e)) as (e' & He' & Hiff).
    + rewrite Ht1. rewrite drop_0. simpl. change (map tick (arp_table s)) with (tick <$> arp_table s).
      by rewrite list_lookup_fmap, Hj.
    + exists e'. split; [done|]. rewrite Hiff. apply (survives_tick N). exact (arp_entry N s l j e Hok Hj).
Qed.

(** Room for a new address is made in the least destructive way: an empty
    entry is used if there is one, else the oldest resolved one, else the oldest
    pending one without a packet, else the oldest pending one; a static entry is
    never given up, and a search without [ETHARP_FLAG_TRY_HARD] gives up none. *)
Theorem etharp_recycles {PS} `{!Packets PS} `{!PacketsLaws PS} N (s : arp PS) l ip nf fl :
  arp_ok N s l -> no_match (arp_table s) ip nf -> Z.land fl ETHARP_FLAG_FIND_ONLY = 0 ->
  Z.land fl ETHARP_FLAG_TRY_HARD <> 0 ->
  exists r s', etharp_find_entry (Some ip) fl nf s = Ret (r, s') /\
    match r with
    | Some i => exists e eth, arp_table s !! i = Some e /\ victim (arp_table s) i e /\
        e_state e <> ETHARP_STATE_STATIC /\ arp_ok N s' l /\
        arp_table s' = <[i := new_entry ip nf eth]> (arp_table s)
    | None => s' = s /\ forall j e, arp_table s !! j = Some e -> e_state e = ETHARP_STATE_STATIC
    end.
Proof.
  intros Hok Hno Hfo Hth. destruct (find_entry_ok N s l ip fl nf Hok) as (r & s' & H & Hf).
  exists r, s'. split; [done|]. inversion Hf as [i e Hi Hm|_ Hall|i e eth s2 _ _ Hi Hv Ht Hok']; subst.
  - by rewrite (Hno _ _ Hi) in Hm.
  - split; [done|]. by apply Hall.
  - exists e, eth. split; [done|]. split; [done|]. split; [|done].
    destruct Hv as [Hn|_ [_ Hst] _|_ [Hp _] _|_ [Hp _] _]; unfold nonempty in *; [|done|congruence..].
    destruct (e_state e); try done. exfalso. by apply Hn.
Qed.

(** What [etharp_raw] sends is what [etharp_input] reads. *)
Theorem arp_header_roundtrip op sh si dh di :
  0 <= op < 65536 -> length sh = 6%nat -> length dh = 6%nat -> is_u 32 si -> is_u 32 di ->
  parse_hdr (etharp_hdr_bytes op sh si dh di) = EtharpHdr 1 ETHTYPE_IP ETH_HWADDR_LEN 4 op sh si dh di.
Proof.
  intros Hop Hs Hd Hsi Hdi.
  destruct sh as [|s0 [|s1 [|s2 [|s3 [|s4 [|s5 [|? ?]]]]]]]; try done.
  destruct dh as [|d0 [|d1 [|d2 [|d3 [|d4 [|d5 [|? ?]]]]]]]; try done.
  unfold is_u in *. change (2 ^ 32) with 4294967296 in *.
  unfold parse_hdr, etharp_hdr_bytes, get_ip, get16, get8, ip_bytes, be16. simpl.
  f_equal; zdm.
Qed.
Lemma arp_header_roundtrip_witness :
  parse_hdr (etharp_hdr_bytes ARP_REQUEST [2; 0; 0; 0; 0; 1] 0x0100000a ethzero 0x0200000a) =
  EtharpHdr 1 ETHTYPE_IP ETH_HWADDR_LEN 4 ARP_REQUEST [2; 0; 0; 0; 0; 1] 0x0100000a ethzero 0x0200000a.
Proof.
  apply arp_header_roundtrip; [vm_compute; split; (discriminate || reflexivity)|reflexivity|reflexivity|
    split; vm_compute; (discriminate || reflexivity)|split; vm_compute; (discriminate || reflexivity)].
Defined.

(** ** A link for the witnesses

    Packets are numbers; the link counts the references, hands out new numbers
    and records the frames. *)
Record link := Link { held : list Z; fresh_id : Z; frames : list (Z * Z * list Z * Z) }.

Fixpoint remove_one (p : Z) (l : list Z) : option (list Z) :=
  match l with
  | [] => None
  | q :: l' => if decide (q = p) then Some l'
               else match remove_one p l' with None => None | Some m => Some (q :: m) end
  end.
Lemma remove_one_perm p l m : l ≡ₚ p :: m -> exists m', remove_one p l = Some m' /\ m' ≡ₚ m.
Proof.
  revert m. induction l as [|q l IH]; intros m Hp; [by apply Permutation_nil_l in Hp|]. simpl.
  case_decide as E.
  - subst q. exists l. split; [done|]. by apply Permutation_cons_inv in Hp.
  - assert (q ∈ p :: m) as Hq by (rewrite <- Hp; by left). apply elem_of_cons in Hq as [?|Hq]; [done|].
    apply elem_of_Permutation in Hq as [k Hk]. rewrite Hk, Permutation_swap in Hp.
    apply Permutation_cons_inv in Hp. destruct (IH k Hp) as (m' & -> & Hm'). exists (q :: m').
    split; [done|]. by rewrite Hm', Hk.
Qed.

#[global] Instance link_packets : Packets link := {
  pbuf_free s p := match remove_one p (held s) with
                   | Some l => Ret (Link l (fresh_id s) (frames s)) | None => Undef end;
  chain_of s q := if decide (q ∈ held s) then Ret [(20, 60, false); (40, 40, false)] else Undef;
  pbuf_clone s q := Ret (None, s);
  pbuf_ref s q := if decide (q ∈ held s) then Ret (Link (q :: held s) (fresh_id s) (frames s)) else Undef;
  arp_pbuf s hdr := Ret (Some (fresh_id s), Link (fresh_id s :: held s) (fresh_id s + 1) (frames s));
  payload s p := Ret (if p =? 52 then take 20 (etharp_hdr_bytes ARP_REPLY [2; 0; 0; 0; 0; 9] 0x0900000a [2; 0; 0; 0; 0; 1] 0x0100000a) else etharp_hdr_bytes ARP_REPLY [2; 0; 0; 0; 0; 9] 0x0900000a [2; 0; 0; 0; 0; 1] 0x0100000a);
  ethernet_output s nf p src dst type :=
    if decide (p ∈ held s) then Ret (ERR_OK, Link (held s) (fresh_id s) (frames s ++ [(nf, p, dst, type)])) else Undef }.

#[global] Instance link_laws : PacketsLaws link.
Proof.
  refine {| refs := fun s l => held s ≡ₚ l |}.
  - intros s l l' Hp Hr. by rewrite Hr.
  - intros s p l Hr. simpl. destruct (remove_one_perm p (held s) l Hr) as (m & -> & Hm). eauto.
  - intros s q l Hr. simpl. rewrite decide_True by (rewrite Hr; by left). by eexists.
  - intros s q l Hr. by exists None, s.
  - intros s q l Hr _. simpl. rewrite decide_True by (rewrite Hr; by left). eexists. split; [done|]. simpl. by rewrite Hr.
  - intros s hdr l Hr _. eexists (Some _), _. split; [done|]. simpl. by rewrite Hr.
  - intros s nf p src dst type l Hr _ _. simpl. rewrite decide_True by (rewrite Hr; by left). eauto.
Defined.

(** One interface, 10.0.0.1/24 with 02:00:00:00:00:01 and the gateway 10.0.0.254. *)
Definition demo_iface : iface := Iface (Netif 7 0x0100000a 0x00ffffff) 0xfe00000a [2; 0; 0; 0; 0; 1] 6.
Definition demo_netifs : netifs := Netifs [(1, demo_iface)] (Some (1, demo_iface)) None.
(** The empty cache; the caller holds the packets 50 and 51. *)
Definition demo_arp : arp link := Arp (replicate 10 empty_entry) 0 (Link [50; 51] 100 []).

Lemma demo_ethernet : ethernet_netifs demo_netifs.
Proof.
  intros a n Ha. simpl in Ha. apply lookup_insert_Some in Ha as [[_ <-]|[_ Ha]]; [done|].
  by rewrite lookup_empty in Ha.
Qed.
Lemma demo_known : known demo_netifs 1.
Proof. eexists. reflexivity. Qed.
Lemma demo_arp_ok : arp_ok demo_netifs demo_arp [50; 51].
Proof.
  split; [|simpl; unfold ARP_TABLE_SIZE; lia|unfold owns; simpl; reflexivity]. split; [done| |].
  - apply Forall_replicate. done.
  - intros i j e e' Hi _ Hn. apply lookup_replicate in Hi as [-> _]. by destruct Hn.
Qed.

(** A packet to 10.0.0.9: it is queued, a request goes out; the reply (packet 51)
    sends it to the address of the sender. *)
Lemma etharp_safe_witness : exists s1 s2,
  run_arp demo_netifs (Output 1 50 0x0900000a) demo_arp = Ret s1 /\ arp_ok demo_netifs s1 [50; 51] /\
  run_arp demo_netifs (Input 51 1) s1 = Ret s2 /\ arp_ok demo_netifs s2 [50] /\
  frames (packets s2) = [(1, 100, ethbroadcast, ETHTYPE_ARP); (1, 50, [2; 0; 0; 0; 0; 9], ETHTYPE_IP)].
Proof.
  destruct (etharp_safe demo_netifs demo_arp [50; 51] (Output 1 50 0x0900000a) [50; 51] demo_ethernet demo_arp_ok)
    as (s1 & H1 & Hok1).
  - split; [reflexivity|]. split; [apply demo_known|]. split; [by left|]. unfold few. apply (bool_decide_unpack _). by vm_compute.
  - destruct (etharp_safe demo_netifs s1 [50; 51] (Input 51 1) [50] demo_ethernet Hok1) as (s2 & H2 & Hok2).
    + split; [apply Permutation_swap|]. split; [apply demo_known|]. eexists. split; [reflexivity|]. apply (bool_decide_unpack _). by vm_compute.
    + exists s1, s2. split; [exact H1|]. split; [exact Hok1|]. split; [exact H2|]. split; [exact Hok2|].
      vm_compute in H1. injection H1 as <-. vm_compute in H2. injection H2 as <-. reflexivity.
Defined.

(** The packet 52 ends behind the first eighteen bytes of a valid header: the addresses are read behind its end. *)
Example short_header_undefined : etharp_input demo_netifs 52 1 demo_arp = Undef.
Proof. by vm_compute. Qed.

Lemma etharp_learns_witness : exists s' i,
  etharp_update_arp_entry demo_netifs 1 0x0900000a [2; 0; 0; 0; 0; 9] ETHARP_FLAG_TRY_HARD demo_arp = Ret (ERR_OK, s') /\
  arp_ok demo_netifs s' [50; 51] /\
  etharp_find_addr 1 0x0900000a s' = Ret (Some (i, [2; 0; 0; 0; 0; 9], 0x0900000a), s').
Proof.
  apply (etharp_learns demo_netifs demo_arp [50; 51] 1 demo_iface).
  - apply demo_ethernet.
  - apply demo_arp_ok.
  - reflexivity.
  - reflexivity.
  - reflexivity.
  - intros j e Hj. apply lookup_replicate in Hj as [-> _]. discriminate.
  - exists 0%nat, empty_entry. split; [reflexivity|discriminate].
Defined.

(** A resolved entry of age 100, a pending one of age 2 with a packet, a static one. *)
Definition aged_arp : arp link :=
  Arp ([Entry None 0x0900000a (Some 1) [2; 0; 0; 0; 0; 9] 100 ETHARP_STATE_STABLE;
        Entry (Some 51) 0x0800000a (Some 1) ethzero 2 ETHARP_STATE_PENDING;
        Entry None 0x0700000a (Some 1) [2; 0; 0; 0; 0; 7] 0 ETHARP_STATE_STATIC] ++ replicate 7 empty_entry)
    0 (Link [50; 51] 100 []).
Lemma aged_arp_ok : arp_ok demo_netifs aged_arp [50].
Proof.
  split; [|simpl; unfold ARP_TABLE_SIZE; lia|unfold owns; simpl; reflexivity]. split; [done| |].
  - simpl. unfold ARP_MAXAGE, ARP_MAXPENDING.
    apply Forall_cons; split; [by repeat split|]. apply Forall_cons; split; [split; [exists 1; split; [done|apply demo_known]|done]|].
    apply Forall_cons; split; [done|]. repeat (apply Forall_cons; split; [done|]). apply Forall_nil_2.
  - intros i j e e' Hi Hj Hn Hn' [Hs _].
    assert (forall k x, arp_table aged_arp !! k = Some x -> nonempty x ->
      k = 0%nat /\ e_ipaddr x = 0x0900000a \/ k = 1%nat /\ e_ipaddr x = 0x0800000a \/ k = 2%nat /\ e_ipaddr x = 0x0700000a) as H.
    { intros k x Hk Hx. do 3 (destruct k as [|k]; [injection Hk as <-; tauto|]).
      simpl in Hk. change (replicate 7 empty_entry !! k = Some x) in Hk. apply lookup_replicate in Hk as [-> _]. by destruct Hx. }
    destruct (H _ _ Hi Hn) as [[-> E]|[[-> E]|[-> E]]]; destruct (H _ _ Hj Hn') as [[-> E']|[[-> E']|[-> E']]]; congruence.
Qed.

Lemma arp_entries_expire_witness : exists s',
  ticks demo_netifs 3 aged_arp = Ret s' /\ arp_ok demo_netifs s' [50] /\
  map e_state (take 3 (arp_table s')) = [ETHARP_STATE_STABLE; ETHARP_STATE_EMPTY; ETHARP_STATE_STATIC] /\
  held (packets s') = [50].
Proof.
  destruct (arp_entries_expire demo_netifs aged_arp [50] 3 demo_ethernet aged_arp_ok) as (s' & H & Hok & _).
  exists s'. split; [exact H|]. split; [exact Hok|]. vm_compute in H. injection H as <-. split; reflexivity.
Defined.

Lemma etharp_recycles_witness : exists r s',
  etharp_find_entry (Some 0x0900000a) ETHARP_FLAG_TRY_HARD (Some 1) demo_arp = Ret (r, s') /\ r = Some 0%nat.
Proof.
  destruct (etharp_recycles demo_netifs demo_arp [50; 51] 0x0900000a (Some 1) ETHARP_FLAG_TRY_HARD demo_arp_ok)
    as (r & s' & H & _).
  - intros j e Hj. apply lookup_replicate in Hj as [-> _]. reflexivity.
  - reflexivity.
  - discriminate.
  - exists r, s'. split; [exact H|]. vm_compute in H. by injection H as <- _.
Defined.
