(* ===== verification/Chain.v ===== *)
(** * Packets as chains of payloads

    A packet of the protocol files is the chain of the payloads of its pbufs. That the
    operations of [pbuf.c] do to real chains what is done to the payloads here is
    what [PbufProps] shows ([pbuf_realloc_truncates], [pbuf_cat_concat],
    [pbuf_header_roundtrip]). *)

From S2P Require Import Prelude.

Definition chain : Type := list (list Z).

(** [p->tot_len]. *)
Definition tot_len (p : chain) : Z := Z.of_nat (length (concat p)).
(** [pbuf_clen(p)]. *)
Definition chain_clen (p : chain) : Z := Z.of_nat (length p).
(** [pbuf_realloc]: the loop over the pbufs that stay. *)
Fixpoint realloc_chain (p : chain) (n : Z) : chain :=
  match p with
  | [] => []
  | c :: p' => if Z.of_nat (length c) <? n then c :: realloc_chain p' (n - Z.of_nat (length c))
               else [take (Z.to_nat n) c]
  end.
Definition chain_realloc (p : chain) (n : Z) : chain := if tot_len p <=? n then p else realloc_chain p n.

(** ** Flags *)

(** [x & m], as a condition. *)
Definition has (x m : Z) : bool := negb (Z.land x m =? 0).

Lemma land_pow2 x k : 0 <= k -> (Z.land x (2 ^ k) =? 0) = negb (Z.testbit x k).
Proof.
  intros Hk. apply eq_true_iff_eq. rewrite Z.eqb_eq, negb_true_iff. split.
  - intros H. apply (f_equal (fun y => Z.testbit y k)) in H.
    rewrite Z.land_spec, Z.pow2_bits_true, andb_true_r, Z.bits_0 in H; done.
  - intros H. apply Z.bits_inj'. intros i Hi. rewrite Z.land_spec, Z.bits_0, Z.pow2_bits_eqb by done.
    destruct (Z.eqb_spec k i) as [<-|]; [by rewrite H|apply andb_false_r].
Qed.
Lemma has_pow2 x k : 0 <= k -> has x (2 ^ k) = Z.testbit x k.
Proof. intros. unfold has. by rewrite land_pow2, negb_involutive. Qed.
Lemma has_or x m n : has x (Z.lor m n) = has x m || has x n.
Proof.
  unfold has. rewrite Z.land_lor_distr_r. apply eq_true_iff_eq.
  rewrite orb_true_iff, !negb_true_iff, !Z.eqb_neq, Z.lor_eq_0_iff. lia.
Qed.

Lemma has_lor_self x m : m <> 0 -> has (Z.lor x m) m = true.
Proof.
  intros Hm. unfold has. apply negb_true_iff, Z.eqb_neq. rewrite Z.land_lor_distr_l, Z.land_diag. intros H%Z.lor_eq_0_iff. tauto.
Qed.

(** ** Lemmas *)
Lemma tot_len_nonneg p : 0 <= tot_len p.
Proof. unfold tot_len. lia. Qed.
Lemma realloc_chain_take p n : 0 <= n -> concat (realloc_chain p n) = take (Z.to_nat n) (concat p).
Proof.
  revert n. induction p as [|c p IH]; intros n Hn; simpl; [by rewrite take_nil|].
  destruct (Z.ltb_spec (Z.of_nat (length c)) n).
  - simpl. rewrite IH, take_app by lia. rewrite (take_ge c) by lia. do 2 f_equal. lia.
  - simpl. rewrite app_nil_r, take_app_le by lia. done.
Qed.
(** Truncating a chain truncates its data. *)
Lemma chain_realloc_take p n : 0 <= n -> concat (chain_realloc p n) = take (Z.to_nat n) (concat p).
Proof.
  intros Hn. unfold chain_realloc, tot_len. destruct (Z.leb_spec (Z.of_nat (length (concat p))) n).
  - by rewrite take_ge by lia.
  - by apply realloc_chain_take.
Qed.
Lemma chain_realloc_ne p n : p <> [] -> chain_realloc p n <> [].
Proof.
  unfold chain_realloc. destruct (tot_len p <=? n); [done|]. destruct p as [|c p]; [done|]. simpl.
  by destruct (_ <? _).
Qed.
