(* ===== verification/Ip4Hdr.v ===== *)
(** * The IPv4 header ([prot/ip4.h])

    The fields of [struct ip_hdr]; numbers of two bytes are in host byte order, addresses
    as they are in memory. A packet is a header and the chain of what is behind it:
    the first element is the rest of the pbuf that holds the header. *)

From S2P Require Import Prelude Def Chksum Ip4Addr Route Chain.

Definition IP_HLEN : Z := 20.
Definition IP_RF : Z := 0x8000.
Definition IP_DF : Z := 0x4000.
Definition IP_MF : Z := 0x2000.
Definition IP_OFFMASK : Z := 0x1fff.
Definition IP_PROTO_ICMP : Z := 1.
Definition IP_PROTO_IGMP : Z := 2.
Definition IP_PROTO_TCP : Z := 6.
Definition IP_PROTO_UDP : Z := 17.

Record ip_hdr := IpHdr {
  iph_v_hl : Z; iph_tos : Z; iph_len : Z; iph_id : Z; iph_offset : Z; iph_ttl : Z; iph_proto : Z; iph_chksum : Z;
  iph_src : Z; iph_dest : Z }.
Record packet := Packet { p_hdr : ip_hdr; p_body : chain }.

Definition IPH_V (h : ip_hdr) : Z := Z.shiftr (iph_v_hl h) 4.
Definition IPH_HL (h : ip_hdr) : Z := Z.land (iph_v_hl h) 0x0f.
Definition IPH_HL_BYTES (h : ip_hdr) : Z := u8 (IPH_HL h * 4).
Definition IPH_OFFSET_BYTES (h : ip_hdr) : Z := u16 (Z.land (iph_offset h) IP_OFFMASK * 8).

Definition set_len (v : Z) (h : ip_hdr) : ip_hdr :=
  IpHdr (iph_v_hl h) (iph_tos h) v (iph_id h) (iph_offset h) (iph_ttl h) (iph_proto h) (iph_chksum h) (iph_src h) (iph_dest h).
Definition set_offset (v : Z) (h : ip_hdr) : ip_hdr :=
  IpHdr (iph_v_hl h) (iph_tos h) (iph_len h) (iph_id h) v (iph_ttl h) (iph_proto h) (iph_chksum h) (iph_src h) (iph_dest h).
Definition set_chksum (v : Z) (h : ip_hdr) : ip_hdr :=
  IpHdr (iph_v_hl h) (iph_tos h) (iph_len h) (iph_id h) (iph_offset h) (iph_ttl h) (iph_proto h) v (iph_src h) (iph_dest h).

(** The bytes of the header: two-byte numbers with the high byte first, the checksum and the
    addresses as the little-endian host holds them. *)
Definition le16_bytes (x : Z) : list Z := [x mod 256; x / 256 mod 256].
Definition iph_bytes (h : ip_hdr) : list Z :=
  [iph_v_hl h; iph_tos h] ++ be16 (iph_len h) ++ be16 (iph_id h) ++ be16 (iph_offset h) ++ [iph_ttl h; iph_proto h]
  ++ le16_bytes (iph_chksum h) ++ ip_bytes (iph_src h) ++ ip_bytes (iph_dest h).

(** [inet_chksum(iphdr, IP_HLEN)]; the sum does not depend on where the header is. *)
Definition iph_sum (h : ip_hdr) : Z := inet_chksum 0 (iph_bytes h).
(** The checksum is computed over the header with the field 0. *)
Definition with_chksum (h : ip_hdr) : ip_hdr := let h := set_chksum 0 h in set_chksum (iph_sum h) h.

(** [tot_len] and [pbuf_clen] of a packet, with the header. *)
Definition pkt_len (p : packet) : Z := IP_HLEN + tot_len (p_body p).
Definition pkt_clen (p : packet) : Z := chain_clen (p_body p).

(** ** The packet being processed *)

(** The packet that is being processed: [current_netif], [current_input_netif] with its index, the addresses. *)
Record ip_ctx := Ctx { ctx_netif : iface; ctx_inp : iface; ctx_inp_idx : Z; ctx_src : Z; ctx_dest : Z }.
Definition ip4_addr_isbroadcast (addr : Z) (n : iface) : bool := ip4_addr_isbroadcast_u32 addr (base n).

(** The interface that a pointer is to. *)
Definition find_netif (i : Z) (l : list (Z * iface)) : option iface :=
  match list_find (fun x => x.1 = i) l with Some (_, (_, n)) => Some n | None => None end.

(** [pbuf_remove_header] and [pbuf_realloc] on pbufs with addresses. *)
Definition remove_hdr (n : Z) (p : list seg) : list seg :=
  match p with Seg a d :: p' => Seg (a + n) (drop (Z.to_nat n) d) :: p' | [] => [] end.
Fixpoint realloc_segs (p : list seg) (n : Z) : list seg :=
  match p with
  | [] => []
  | Seg a d :: p' => if Z.of_nat (length d) <? n then Seg a d :: realloc_segs p' (n - Z.of_nat (length d)) else [Seg a (take (Z.to_nat n) d)]
  end.

(** The header at the beginning of [d]. *)
Definition hdr_of (d : list Z) : ip_hdr :=
  IpHdr (get8 d 0) (get8 d 1) (get16 d 2) (get16 d 4) (get16 d 6) (get8 d 8) (get8 d 9) (le16 (get8 d 10) (get8 d 11)) (get_ip d 12) (get_ip d 16).

(** ** Storing a checksum *)

Lemma ocnorm_full k : 1 <= k -> ocnorm (65535 * k) = 65535.
Proof.
  intros Hk. unfold ocnorm. rewrite (proj2 (Z.eqb_neq _ _)) by lia. replace (65535 * k - 1) with (65534 + (k - 1) * 65535) by lia.
  rewrite Z.mod_add by lia. done.
Qed.
Lemma ocnorm_complement T c : 0 <= T -> c = 65535 - ocnorm T \/ ocnorm T = 65535 /\ c = 65535 -> ocnorm (T + c) = 65535.
Proof.
  intros HT Hc. unfold ocnorm in Hc. destruct (Z.eqb_spec T 0) as [->|Hne].
  { destruct Hc as [->|[? _]]; [done|lia]. }
  pose proof (Z.div_mod (T - 1) 65535 ltac:(lia)) as Hd. pose proof (Z.mod_pos_bound (T - 1) 65535 ltac:(lia)) as Hm.
  pose proof (Z.div_pos (T - 1) 65535 ltac:(lia) ltac:(lia)).
  destruct Hc as [->|[Hr ->]].
  - replace (T + _) with (65535 * ((T - 1) / 65535 + 1)) by lia. apply ocnorm_full. lia.
  - replace (T + _) with (65535 * ((T - 1) / 65535 + 2)) by lia. apply ocnorm_full. lia.
Qed.

(** A checksum computed over a field of 0 is stored in the field; 0xffff may stand for 0. *)
Lemma sum_complement pre post c : bytes pre -> bytes post -> Nat.even (length pre) = true ->
  let S := ones_complement_sum (pre ++ [0; 0] ++ post) in
  c = 65535 - S \/ S = 65535 /\ c = 65535 -> ones_complement_sum (pre ++ le16_bytes c ++ post) = 65535.
Proof.
  intros Hpre Hpost Hev. unfold ones_complement_sum.
  assert (forall b0 b1, wsum 1 (pre ++ [b0; b1] ++ post) = wsum 1 pre + wsum 1 post + le16 b0 b1) as Hw.
  { intros b0 b1. rewrite !wsum_app. assert (lane_after 1 (length pre) = 1) as -> by (unfold lane_after; by rewrite Hev).
    change (lane_after 1 (length [b0; b1])) with 1. rewrite wsum1_pair. change (wsum 1 []) with 0. lia. }
  rewrite Hw. change (le16 0 0) with 0. rewrite Z.add_0_r. set (T := wsum 1 pre + wsum 1 post). cbv zeta. intros Hc0.
  pose proof (ocnorm_range T) as Hr. assert (0 <= c <= 65535) as Hc by lia.
  unfold le16_bytes. rewrite Hw. fold T. assert (le16 (c mod 256) (c / 256 mod 256) = c) as ->.
  { unfold le16. rewrite (Z.mod_small (c / 256)); [|split; [apply Z.div_pos; lia|apply Z.div_lt_upper_bound; lia]].
    pose proof (Z.div_mod c 256 ltac:(lia)). lia. }
  assert (0 <= T) by (pose proof (wsum_nonneg 1 pre ltac:(by left) Hpre); pose proof (wsum_nonneg 1 post ltac:(by left) Hpost); lia).
  by apply ocnorm_complement.
Qed.
