(* ===== verification/Ip4Reass.v ===== *)
(** * IPv4 reassembly ([ip4_frag.c], [IP_REASSEMBLY])

    A fragment that waits has its header replaced by [struct ip_reass_helper]; the pointers
    [next_pbuf] in the helpers make the list of fragments of a datagram. The list of datagrams,
    [reassdatagrams], and the fragments of each are lists; a datagram is named by its position, and
    a pointer to the predecessor is a position too. *)

From S2P Require Import Prelude Chain Chksum Ip4Hdr.

Definition IP_REASS_MAXAGE : Z := 3.
Definition IP_REASS_MAX_PBUFS : Z := 4.
Definition IP_REASS_FLAG_LASTFRAG : Z := 0x01.

(** A queued fragment: [start] and [end] of the helper, and what is behind it. *)
Record fragment := Frag { f_start : Z; f_end : Z; f_body : chain }.
(** [struct ip_reassdata]. *)
Record reassdata := Reass { r_p : list fragment; r_iphdr : ip_hdr; r_len : Z; r_flags : Z; r_timer : Z }.
Definition set_r_p (v : list fragment) (r : reassdata) : reassdata := Reass v (r_iphdr r) (r_len r) (r_flags r) (r_timer r).
Definition set_r_iphdr (v : ip_hdr) (r : reassdata) : reassdata := Reass (r_p r) v (r_len r) (r_flags r) (r_timer r).
Definition set_r_last (n : Z) (r : reassdata) : reassdata :=
  Reass (r_p r) (r_iphdr r) n (Z.lor (r_flags r) IP_REASS_FLAG_LASTFRAG) (r_timer r).
Definition set_r_timer (v : Z) (r : reassdata) : reassdata := Reass (r_p r) (r_iphdr r) (r_len r) (r_flags r) v.

(** [pbuf_free] of a chain of so many pbufs, and [icmp_time_exceeded(p, ICMP_TE_FRAG)]. *)
Class ReassNet (N : Type) := {
  rs_free : N -> Z -> N;
  time_exceeded : N -> packet -> N }.

(** [reassdatagrams], [ip_reass_pbufcount], the free elements of [MEMP_REASSDATA]. *)
Record reass (N : Type) := RS { datagrams : list reassdata; pbufcount : Z; avail : Z; rnet : N }.
Arguments RS {N}.
Arguments datagrams {N}.
Arguments pbufcount {N}.
Arguments avail {N}.
Arguments rnet {N}.

Section reass.
  Context {N : Type} `{!ReassNet N}.
  Implicit Type s : reass N.

Definition set_datagrams (v : list reassdata) s : reass N := RS v (pbufcount s) (avail s) (rnet s).
Definition set_pbufcount (v : Z) s : reass N := RS (datagrams s) v (avail s) (rnet s).
Definition set_rnet (v : N) s : reass N := RS (datagrams s) (pbufcount s) (avail s) v.
Definition free_pbufs (k : Z) s : reass N := set_rnet (rs_free (rnet s) k) s.

Definition IP_ADDRESSES_AND_ID_MATCH (a b : ip_hdr) : bool :=
  (iph_src a =? iph_src b) && (iph_dest a =? iph_dest b) && (iph_id a =? iph_id b).

(** ** Removing datagrams *)

Definition ip_reass_dequeue_datagram (ipr : nat) (prev : option nat) s : outcome (reass N) :=
  let s' l := RS l (pbufcount s) (avail s + 1) (rnet s) in
  if (ipr =? 0)%nat then Ret (s' (drop 1 (datagrams s)))
  else
    match prev with
    | None => Assert
    | Some j => Ret (s' (take (S j) (datagrams s) ++ drop (S ipr) (datagrams s)))
    end.

(** The loop that frees the queued pbufs. *)
Fixpoint free_fragments (l : list fragment) (pbufs_freed : Z) s : outcome (Z * reass N) :=
  match l with
  | [] => Ret (pbufs_freed, s)
  | f :: l' =>
      let clen := chain_clen (f_body f) in
      lwip_assert (pbufs_freed + clen <=? 0xffff);;
      free_fragments l' (u16 (pbufs_freed + clen)) (free_pbufs clen s)
  end.

Definition ip_reass_free_complete_datagram (ipr : nat) (prev : option nat) s : outcome (Z * reass N) :=
  lwip_assert (negb (bool_decide (prev = Some ipr)));;
  lwip_assert (match prev with Some j => (S j =? ipr)%nat | None => true end);;
  r ← deref (datagrams s !! ipr);
  match r_p r with
  | [] => Undef
  | f :: rest =>
      '(pbufs_freed, l, s) ←
        (if f_start f =? 0 then
           let s := set_rnet (time_exceeded (rnet s) (Packet (r_iphdr r) (f_body f))) s in
           let clen := chain_clen (f_body f) in
           lwip_assert (0 + clen <=? 0xffff);;
           Ret (u16 (0 + clen), rest, free_pbufs clen s)
         else Ret (0, f :: rest, s));
      '(pbufs_freed, s) ← free_fragments l pbufs_freed s;
      s ← ip_reass_dequeue_datagram ipr prev s;
      lwip_assert (pbufs_freed <=? pbufcount s);;
      Ret (pbufs_freed, set_pbufcount (u16 (pbufcount s - pbufs_freed)) s)
  end.

(** The search for the oldest of the other datagrams: its position, its timer and its predecessor, and how
    many others there are. *)
Fixpoint find_oldest (fraghdr : ip_hdr) (l : list reassdata) (i : nat) (prev : option nat)
    (oldest : option (nat * Z * option nat)) (others : Z) : option (nat * Z * option nat) * Z :=
  match l with
  | [] => (oldest, others)
  | r :: l' =>
      let '(oldest, others) :=
        if IP_ADDRESSES_AND_ID_MATCH (r_iphdr r) fraghdr then (oldest, others)
        else
          (match oldest with
           | None => Some (i, r_timer r, prev)
           | Some (_, t, _) => if r_timer r <=? t then Some (i, r_timer r, prev) else oldest
           end, others + 1) in
      find_oldest fraghdr l' (S i) (match l' with [] => prev | _ => Some i end) oldest others
  end.

Fixpoint remove_loop (fuel : nat) (fraghdr : ip_hdr) (pbufs_needed pbufs_freed : Z) s : outcome (Z * reass N) :=
  match fuel with
  | O => Diverge
  | S fuel =>
      let '(oldest, others) := find_oldest fraghdr (datagrams s) 0 None None 0 in
      '(pbufs_freed, s) ←
        (match oldest with
         | None => Ret (pbufs_freed, s)
         | Some (i, _, prev) => '(n, s) ← ip_reass_free_complete_datagram i prev s; Ret (pbufs_freed + n, s)
         end);
      if (pbufs_freed <? pbufs_needed) && (1 <? others) then remove_loop fuel fraghdr pbufs_needed pbufs_freed s
      else Ret (pbufs_freed, s)
  end.
Definition ip_reass_remove_oldest_datagram (fraghdr : ip_hdr) (pbufs_needed : Z) s : outcome (Z * reass N) :=
  remove_loop (S (length (datagrams s))) fraghdr pbufs_needed 0 s.

(** ** Adding *)

(** The new entry is the first of the list. *)
Definition ip_reass_enqueue_new_datagram (fraghdr : ip_hdr) (clen : Z) s : outcome (bool * reass N) :=
  let enqueue s :=
    Ret (true, RS (Reass [] fraghdr 0 0 IP_REASS_MAXAGE :: datagrams s) (pbufcount s) (avail s - 1) (rnet s)) in
  if 0 <? avail s then enqueue s
  else
    '(n, s) ← ip_reass_remove_oldest_datagram fraghdr clen s;
    if (clen <=? n) && (0 <? avail s) then enqueue s else Ret (false, s).

(** The walk along the fragments: those in front of the new one, those behind it, and whether there was no
    hole so far; [None]: the new one is dropped. *)
Fixpoint insert_frag (new : fragment) (prev : option fragment) (valid : bool) (l : list fragment)
    : outcome (option (list fragment * list fragment * bool)) :=
  match l with
  | [] =>
      match prev with
      | Some v =>
          lwip_assert (f_end v <=? f_start new);;
          Ret (Some ([], [], valid && (f_end v =? f_start new)))
      | None => Ret (Some ([], [], valid))
      end
  | q :: l' =>
      if f_start new <? f_start q then
        match prev with
        | Some v =>
            if (f_start new <? f_end v) || (f_start q <? f_end new) then Ret None
            else Ret (Some ([], l, valid && (f_end v =? f_start new)))
        | None => if f_start q <? f_end new then Ret None else Ret (Some ([], l, valid))
        end
      else if f_start new =? f_start q then Ret None
      else if f_start new <? f_end q then Ret None
      else
        let valid := match prev with Some v => valid && (f_end v =? f_start q) | None => valid end in
        r ← insert_frag new (Some q) valid l';
        Ret (match r with Some (b, a, v) => Some (q :: b, a, v) | None => None end)
  end.

(** No holes behind [prev]. *)
Fixpoint no_holes (prev : fragment) (l : list fragment) : bool :=
  match l with
  | [] => true
  | q :: l' => (f_end prev =? f_start q) && no_holes q l'
  end.

Inductive validate := TELEGRAM_FINISHED | PBUF_QUEUED | PBUF_DROPPED.

Definition ip_reass_chain_frag_into_datagram_and_validate (ipr : reassdata) (new_p : packet) (is_last : bool)
    : outcome (validate * reassdata) :=
  let len := iph_len (p_hdr new_p) in
  let hlen := IPH_HL_BYTES (p_hdr new_p) in
  if len <? hlen then Ret (PBUF_DROPPED, ipr)
  else
    let len := u16 (len - hlen) in
    let offset := IPH_OFFSET_BYTES (p_hdr new_p) in
    let new := Frag offset (u16 (offset + len)) (p_body new_p) in
    if f_end new <? offset then Ret (PBUF_DROPPED, ipr)
    else
      r ← insert_frag new None true (r_p ipr);
      match r with
      | None => Ret (PBUF_DROPPED, ipr)
      | Some (b, a, valid) =>
          let l := b ++ new :: a in
          let ipr := set_r_p l ipr in
          if is_last || has (r_flags ipr) IP_REASS_FLAG_LASTFRAG then
            let valid := valid && (match l with f :: _ => f_start f =? 0 | [] => false end) && no_holes new a in
            lwip_assert (negb valid || negb (length l =? 1)%nat);;
            Ret (if (valid : bool) then TELEGRAM_FINISHED else PBUF_QUEUED, ipr)
          else Ret (PBUF_QUEUED, ipr)
      end.

(** ** [ip4_reass] *)

Definition drop_packet (p : packet) s : option packet * reass N := (None, free_pbufs (pkt_clen p) s).

(** The queued fragments become one packet. *)
Definition join (r : reassdata) : packet :=
  let h := set_offset 0 (set_len (u16 (r_len r + IP_HLEN)) (r_iphdr r)) in
  Packet (with_chksum h) (concat (f_body <$> r_p r)).

(** [nullreturn_ipr]: an entry without fragments goes too. *)
Definition nullreturn_ipr (ipr : nat) (p : packet) s : outcome (option packet * reass N) :=
  r ← deref (datagrams s !! ipr);
  match r_p r with
  | [] => lwip_assert (ipr =? 0)%nat;; s ← ip_reass_dequeue_datagram ipr None s; Ret (drop_packet p s)
  | _ => Ret (drop_packet p s)
  end.

(** The part after the entry [ipr] was found or made. *)
Definition reass_into (ipr : nat) (p : packet) s : outcome (option packet * reass N) :=
  let h := p_hdr p in
  r ← deref (datagrams s !! ipr);
  let offset := IPH_OFFSET_BYTES h in
  let len := u16 (iph_len h - IPH_HL_BYTES h) in
  let datagram_len := u16 (offset + len) in
  let is_last := negb (has (iph_offset h) IP_MF) in
  if is_last && ((datagram_len <? offset) || (0xffff - IP_HLEN <? datagram_len)) then nullreturn_ipr ipr p s
  else
    '(valid, r) ← ip_reass_chain_frag_into_datagram_and_validate r p is_last;
    let s := set_datagrams (<[ipr := r]> (datagrams s)) s in
    match valid with
    | PBUF_DROPPED => nullreturn_ipr ipr p s
    | _ =>
        let s := set_pbufcount (u16 (pbufcount s + pkt_clen p)) s in
        let r := if is_last then set_r_last datagram_len r else r in
        let s := set_datagrams (<[ipr := r]> (datagrams s)) s in
        match valid with
        | TELEGRAM_FINISHED =>
            let q := join r in
            s ← ip_reass_dequeue_datagram ipr (match ipr with O => None | S j => Some j end) s;
            lwip_assert (pkt_clen q <=? pbufcount s);;
            Ret (Some q, set_pbufcount (u16 (pbufcount s - pkt_clen q)) s)
        | _ => Ret (None, s)
        end
    end.

Fixpoint find_datagram (h : ip_hdr) (l : list reassdata) (i : nat) : option nat :=
  match l with
  | [] => None
  | r :: l' => if IP_ADDRESSES_AND_ID_MATCH (r_iphdr r) h then Some i else find_datagram h l' (S i)
  end.

(** The header of the first fragment is kept. *)
Definition keep_first_hdr (h : ip_hdr) (r : reassdata) : reassdata :=
  if (Z.land (iph_offset h) IP_OFFMASK =? 0) && negb (Z.land (iph_offset (r_iphdr r)) IP_OFFMASK =? 0)
  then set_r_iphdr h r else r.

Definition ip4_reass (p : packet) s : outcome (option packet * reass N) :=
  let h := p_hdr p in
  let clen := pkt_clen p in
  if negb (IPH_HL_BYTES h =? IP_HLEN) then Ret (drop_packet p s)
  else if iph_len h <? IPH_HL_BYTES h then Ret (drop_packet p s)
  else
    '(room, s) ←
      (if IP_REASS_MAX_PBUFS <? pbufcount s + clen then
         '(n, s) ← ip_reass_remove_oldest_datagram h clen s;
         Ret (negb (n =? 0) && (pbufcount s + clen <=? IP_REASS_MAX_PBUFS), s)
       else Ret (true, s));
    if negb room then Ret (drop_packet p s)
    else
      match find_datagram h (datagrams s) 0 with
      | Some i =>
          reass_into i p (set_datagrams (alter (keep_first_hdr h) i (datagrams s)) s)
      | None =>
          '(ok, s) ← ip_reass_enqueue_new_datagram h clen s;
          if (ok : bool) then reass_into 0 p s else Ret (drop_packet p s)
      end.

(** ** The timer *)

Fixpoint reass_tmr_loop (fuel : nat) (i : nat) (prev : option nat) s : outcome (reass N) :=
  match fuel with
  | O => Diverge
  | S fuel =>
      match datagrams s !! i with
      | None => Ret s
      | Some r =>
          if 0 <? r_timer r then
            reass_tmr_loop fuel (S i) (Some i) (set_datagrams (<[i := set_r_timer (r_timer r - 1) r]> (datagrams s)) s)
          else
            '(_, s) ← ip_reass_free_complete_datagram i prev s;
            reass_tmr_loop fuel i prev s
      end
  end.
Definition ip_reass_tmr s : outcome (reass N) := reass_tmr_loop (S (length (datagrams s))) 0 None s.
End reass.
