(* ===== verification/Ip4ReassOk.v ===== *)
(** * What reassembly keeps: the invariant of [Ip4Reass]

    The fragments of a datagram are in order and apart from each other, no two datagrams have the same
    addresses and identification, and [ip_reass_pbufcount] counts the pbufs that wait. *)

From stdpp Require Import sorting.
From S2P Require Import Prelude Chain Chksum Ip4Hdr Ip4Reass.

(** ** Fragments in order *)

Definition apart (a b : fragment) : Prop := f_start a < f_start b /\ f_end a <= f_start b.
Record frag_ok (f : fragment) : Prop := {
  fo_range : 0 <= f_start f <= f_end f /\ f_end f <= 0xffff;
  fo_body : f_body f <> [];
  fo_len : tot_len (f_body f) = f_end f - f_start f }.

(** No hole from the beginning of the datagram on. *)
Definition gapless (prev : option fragment) (l : list fragment) : bool :=
  match prev, l with
  | Some v, _ => no_holes v l
  | None, f :: l' => no_holes f l'
  | None, [] => true
  end.
Definition complete (l : list fragment) : bool :=
  match l with f :: l' => (f_start f =? 0) && no_holes f l' | [] => false end.

Lemma no_holes_app v x y z : no_holes v (x ++ y :: z) = no_holes v (x ++ [y]) && no_holes y z.
Proof.
  revert v. induction x as [|q x IH]; intros v; simpl; [by rewrite andb_true_r|]. by rewrite IH, andb_assoc.
Qed.
Lemma gapless_app x y z : gapless None (x ++ y :: z) = gapless None (x ++ [y]) && no_holes y z.
Proof. destruct x as [|q x]; simpl; [done|]. apply no_holes_app. Qed.
Lemma complete_split l : complete l = gapless None l && match l with f :: _ => f_start f =? 0 | [] => false end.
Proof. destruct l; simpl; [done|]. apply andb_comm. Qed.

Lemma insert_frag_ok new : frag_ok new -> forall l prev valid,
  StronglySorted apart (match prev with Some v => v :: l | None => l end) ->
  (forall v, prev = Some v -> apart v new) ->
  exists r, insert_frag new prev valid l = Ret r /\
    match r with
    | None => exists q, q ∈ l /\ ~ apart q new /\ ~ apart new q
    | Some (b, a, v) => l = b ++ a /\ Forall (fun x => apart x new) b /\ Forall (apart new) a /\
        v = valid && gapless prev (b ++ [new])
    end.
Proof.
  intros Hnew. induction l as [|q l IH]; intros prev valid Hs Hp; cbn [insert_frag].
  { destruct prev as [v|].
    - destruct (Hp v eq_refl) as [H1 H2]. rewrite (proj2 (Z.leb_le _ _)) by lia. eexists. split; [reflexivity|].
      split_and!; try done. simpl. by rewrite andb_true_r.
    - eexists. split; [reflexivity|]. split_and!; try done. simpl. by rewrite andb_true_r. }
  assert (StronglySorted apart (q :: l)) as Hsl.
  { destruct prev as [v|]; [by apply StronglySorted_inv in Hs as [? _]|done]. }
  pose proof (StronglySorted_inv Hsl) as [_ Hq].
  destruct (Z.ltb_spec (f_start new) (f_start q)) as [Hlt|Hge].
  - assert (f_end new <= f_start q -> Forall (apart new) (q :: l)) as Hbehind.
    { intros He. constructor; [by split|]. eapply Forall_impl; [exact Hq|]. intros x [H1 H2]. unfold apart. lia. }
    destruct (Z.ltb_spec (f_start q) (f_end new)) as [Hov|Hov].
    + exists None. split; [destruct prev; [by rewrite orb_true_r|done]|]. exists q. split; [left|]. unfold apart. lia.
    + destruct prev as [v|].
      * destruct (Hp v eq_refl) as [H1 H2]. rewrite (proj2 (Z.ltb_ge (f_start new) (f_end v))) by lia. cbn [orb].
        eexists. split; [reflexivity|]. split_and!; try done; [by apply Hbehind|]. simpl. by rewrite andb_true_r.
      * eexists. split; [reflexivity|]. split_and!; try done; [by apply Hbehind|]. simpl. by rewrite andb_true_r.
  - destruct (Z.eqb_spec (f_start new) (f_start q)) as [Heq|Hne].
    { exists None. split; [done|]. exists q. split; [left|]. unfold apart. lia. }
    destruct (Z.ltb_spec (f_start new) (f_end q)) as [Hov|Hov].
    { exists None. split; [done|]. exists q. split; [left|]. unfold apart. lia. }
    assert (apart q new) as Hqn by (unfold apart; lia).
    destruct (IH (Some q) (match prev with Some v => valid && (f_end v =? f_start q) | None => valid end)) as (r & -> & Hr); [done| |].
    { by intros v [= <-]. }
    cbn [mbind outcome_bind]. eexists. split; [reflexivity|]. destruct r as [[[b a] v]|].
    + destruct Hr as (-> & Hb & Ha & ->). split_and!; try done; [by constructor|]. destruct prev; simpl; [by rewrite andb_assoc|done].
    + destruct Hr as (x & Hx & Hx'). exists x. split; [by right|done].
Qed.

(** ** A fragment joins a datagram *)

(** A fragment as [ip4_input] hands it on: its pbufs hold what the header says, and it is not a whole
    datagram. *)
Record is_frag (p : packet) : Prop := {
  if_body : p_body p <> [];
  if_len : iph_len (p_hdr p) = pkt_len p;
  if_max : pkt_len p <= 0xffff;
  if_part : has (iph_offset (p_hdr p)) IP_MF = false -> IPH_OFFSET_BYTES (p_hdr p) <> 0 }.

Definition is_last (p : packet) : bool := negb (has (iph_offset (p_hdr p)) IP_MF).
Definition frag_of (p : packet) : fragment :=
  let o := IPH_OFFSET_BYTES (p_hdr p) in Frag o (o + tot_len (p_body p)) (p_body p).
(** It fits into a datagram of 64 KiB. *)
Definition fits (p : packet) : Prop :=
  f_end (frag_of p) <= 0xffff /\ (is_last p = true -> f_end (frag_of p) <= 0xffff - IP_HLEN).

Lemma offset_range h : 0 <= IPH_OFFSET_BYTES h <= 65528.
Proof.
  unfold IPH_OFFSET_BYTES. change IP_OFFMASK with (Z.ones 13). rewrite Z.land_ones by lia.
  pose proof (Z.mod_pos_bound (iph_offset h) (2 ^ 13) ltac:(lia)). rewrite u16_small; lia.
Qed.
Lemma frag_of_ok p : is_frag p -> f_end (frag_of p) <= 0xffff -> frag_ok (frag_of p).
Proof.
  intros [Hb Hl Hm Hp] He. pose proof (offset_range (p_hdr p)). pose proof (tot_len_nonneg (p_body p)).
  split; simpl in *; [lia|done|lia].
Qed.

Section joins.
  Context (p : packet) (r : reassdata).
  Hypothesis Hp : is_frag p.
  Hypothesis Hhl : IPH_HL_BYTES (p_hdr p) = IP_HLEN.
  Hypothesis Hs : StronglySorted apart (r_p r).
  Hypothesis Hf : r_p r = [] -> r_flags r = 0.

(** The fragment clashes with another one or is too long. *)
Definition clashes : Prop := ~ fits p \/ exists q, q ∈ r_p r /\ ~ apart q (frag_of p) /\ ~ apart (frag_of p) q.

Lemma sorted_join b a n : StronglySorted apart (b ++ a) -> Forall (fun x => apart x n) b -> Forall (apart n) a ->
  StronglySorted apart (b ++ n :: a).
Proof.
  intros Hba Hb Ha. apply StronglySorted_app_2.
  - intros x y Hx [->|Hy]%elem_of_cons; [by rewrite Forall_forall in Hb; apply Hb|].
    by eapply StronglySorted_app_1_elem_of.
  - by eapply StronglySorted_app_1_l.
  - constructor; [by eapply StronglySorted_app_1_r|done].
Qed.

Lemma validate_ok : exists v r', ip_reass_chain_frag_into_datagram_and_validate r p (is_last p) = Ret (v, r') /\
    match v with
    | PBUF_DROPPED => r' = r /\ clashes
    | _ => exists l, r' = set_r_p l r /\ f_end (frag_of p) <= 0xffff /\ l ≡ₚ frag_of p :: r_p r /\ StronglySorted apart l /\
        (v = TELEGRAM_FINISHED <-> (is_last p = true \/ has (r_flags r) IP_REASS_FLAG_LASTFRAG = true) /\ complete l = true)
    end.
Proof.
  pose proof (offset_range (p_hdr p)). pose proof (tot_len_nonneg (p_body p)) as Ht. pose proof Hp as [Hb Hl Hm Hpart].
  unfold ip_reass_chain_frag_into_datagram_and_validate. rewrite Hl, Hhl. unfold pkt_len in *.
  rewrite (proj2 (Z.ltb_ge _ IP_HLEN)) by lia. replace (IP_HLEN + tot_len (p_body p) - IP_HLEN) with (tot_len (p_body p)) by lia.
  rewrite (u16_small (tot_len _)) by (unfold IP_HLEN in *; lia). cbn [f_end].
  destruct (decide (f_end (frag_of p) <= 0xffff)) as [He|He]; simpl in He; cycle 1.
  { rewrite (proj2 (Z.ltb_lt _ _)).
    - eexists _, _. split; [reflexivity|]. split; [done|]. left. intros [F1 _]. done.
    - unfold u16, IP_HLEN in *. rewrite <- (Z.mod_add _ (-1)), Z.mod_small by lia. lia. }
  rewrite (u16_small (IPH_OFFSET_BYTES _ + _)), (proj2 (Z.ltb_ge _ (IPH_OFFSET_BYTES _))) by lia. change (Frag _ _ _) with (frag_of p).
  destruct (insert_frag_ok (frag_of p) (frag_of_ok p Hp He) (r_p r) None true Hs) as (x & -> & Hx); [done|].
  cbn [mbind outcome_bind]. destruct x as [[[b a] v]|]; [|eexists _, _; split; [reflexivity|]; split; [done|by right]].
  destruct Hx as (Hba & Hb1 & Ha1 & ->). cbn [andb]. set (l := b ++ frag_of p :: a).
  assert (gapless None (b ++ [frag_of p]) && match l with f :: _ => f_start f =? 0 | [] => false end && no_holes (frag_of p) a = complete l) as ->.
  { rewrite complete_split. subst l. rewrite (gapless_app b (frag_of p) a), <- !andb_assoc. f_equal. apply andb_comm. }
  assert (l ≡ₚ frag_of p :: r_p r /\ StronglySorted apart l) as [Hperm Hsort].
  { subst l. rewrite Hba. split; [by rewrite Permutation_middle|]. apply sorted_join; try done. by rewrite <- Hba. }
  change (r_flags (set_r_p l r)) with (r_flags r).
  destruct (is_last p || has (r_flags r) IP_REASS_FLAG_LASTFRAG) eqn:Hlast.
  - assert (negb (complete l) || negb (length l =? 1)%nat = true) as ->.
    { destruct (complete l) eqn:Hc; [|done]. cbn [negb orb]. apply negb_true_iff, Nat.eqb_neq. intros H1.
      apply Permutation_length in Hperm as Hlen. simpl in Hlen. rewrite H1 in Hlen. injection Hlen as Hlen. symmetry in Hlen. apply nil_length_inv in Hlen.
      rewrite Hlen in Hba. symmetry in Hba. apply app_eq_nil in Hba as [-> ->]. subst l. simpl in Hc. rewrite andb_true_r in Hc.
      rewrite (Hf Hlen) in Hlast. change (has 0 _) with false in Hlast. rewrite orb_false_r in Hlast.
      unfold is_last in Hlast. apply negb_true_iff in Hlast. specialize (Hpart Hlast). apply Z.eqb_eq in Hc. done. }
    cbn [lwip_assert mbind outcome_bind]. eexists _, _. split; [reflexivity|]. apply orb_true_iff in Hlast.
    destruct (complete l) eqn:Hc; exists l; (do 4 (split; [done|])); (split; [done|intros [_ ?]; congruence]).
  - eexists _, _. split; [reflexivity|]. exists l. split_and!; try done. apply orb_false_iff in Hlast as [-> ->]. naive_solver.
Qed.
End joins.

(** ** The invariant *)

Definition key (h : ip_hdr) : Z * Z * Z := (iph_src h, iph_dest h, iph_id h).
Definition rkey (r : reassdata) : Z * Z * Z := key (r_iphdr r).
Lemma match_key a b : IP_ADDRESSES_AND_ID_MATCH a b = bool_decide (key a = key b).
Proof.
  unfold IP_ADDRESSES_AND_ID_MATCH, key. apply eq_true_iff_eq. rewrite !andb_true_iff, !Z.eqb_eq, bool_decide_eq_true. split; [by intros [[-> ->] ->]|by intros [= -> -> ->]].
Qed.

(** The pbufs of fragments, of a datagram and of datagrams. *)
Definition pbufs (l : list fragment) : Z := foldr (fun f n => chain_clen (f_body f) + n) 0 l.
Definition held (l : list reassdata) : Z := foldr (fun r n => pbufs (r_p r) + n) 0 l.

Lemma pbufs_app l1 l2 : pbufs (l1 ++ l2) = pbufs l1 + pbufs l2.
Proof. induction l1; simpl; lia. Qed.
Lemma held_app l1 l2 : held (l1 ++ l2) = held l1 + held l2.
Proof. induction l1; simpl; lia. Qed.
Lemma pbufs_nonneg l : 0 <= pbufs l.
Proof. induction l; simpl; unfold chain_clen in *; lia. Qed.
Lemma held_nonneg l : 0 <= held l.
Proof. induction l as [|r l]; simpl; [done|]. pose proof (pbufs_nonneg (r_p r)). lia. Qed.
Lemma pbufs_perm l1 l2 : l1 ≡ₚ l2 -> pbufs l1 = pbufs l2.
Proof. induction 1; simpl; lia. Qed.
Lemma pbufs_pos l : Forall frag_ok l -> l <> [] -> 0 < pbufs l.
Proof.
  intros Hl Hn. destruct Hl as [|f l [_ Hb _] Hl]; [done|]. simpl. pose proof (pbufs_nonneg l). unfold chain_clen.
  destruct (f_body f); [done|]. simpl. lia.
Qed.
Lemma clen_join l : chain_clen (concat (f_body <$> l)) = pbufs l.
Proof.
  induction l as [|f l IH]; [done|]. change (chain_clen (f_body f ++ concat (f_body <$> l)) = chain_clen (f_body f) + pbufs l).
  rewrite <- IH. unfold chain_clen. rewrite length_app. lia.
Qed.

Record dgram_ok (r : reassdata) : Prop := {
  do_sorted : StronglySorted apart (r_p r);
  do_frags : Forall frag_ok (r_p r);
  do_some : r_p r <> [];
  do_timer : 0 <= r_timer r <= IP_REASS_MAXAGE }.

(** What [pbuf_free] and [icmp_time_exceeded] do to the number of pbufs in use. *)
Class ReassLaws (N : Type) `{!ReassNet N} := {
  rs_use : N -> Z;
  use_free n k : rs_use (rs_free n k) = rs_use n - k;
  use_exceeded n p : rs_use (time_exceeded n p) = rs_use n }.

Section invariant.
  Context {N : Type} `{!ReassNet N} `{!ReassLaws N}.
  Implicit Type s : reass N.

Record reass_ok s : Prop := {
  ro_dgrams : Forall dgram_ok (datagrams s);
  ro_keys : NoDup (rkey <$> datagrams s);
  ro_count : pbufcount s = held (datagrams s);
  ro_max : pbufcount s <= IP_REASS_MAX_PBUFS;
  ro_avail : 0 <= avail s }.

(** Pbufs that do not wait here, and the elements of the pool. *)
Definition others s : Z := rs_use (rnet s) - pbufcount s.
Definition elements s : Z := avail s + Z.of_nat (length (datagrams s)).

Lemma free_fragments_ok l : forall n s, 0 <= n -> n + pbufs l <= 0xffff ->
  exists m, free_fragments l n s = Ret (n + pbufs l, set_rnet m s) /\ rs_use m = rs_use (rnet s) - pbufs l.
Proof.
  induction l as [|f l IH]; intros n s Hn Hl; cbn [free_fragments pbufs foldr] in *.
  { exists (rnet s). rewrite Z.add_0_r. split; [by destruct s|lia]. }
  change (foldr _ 0 l) with (pbufs l) in *. pose proof (pbufs_nonneg l). unfold chain_clen in *.
  rewrite (proj2 (Z.leb_le _ _)), u16_small by lia. cbn [lwip_assert mbind outcome_bind].
  destruct (IH (n + Z.of_nat (length (f_body f))) (free_pbufs (Z.of_nat (length (f_body f))) s)) as (m & -> & Hm); [lia|lia|].
  exists m. split; [f_equal; f_equal; lia|]. rewrite Hm. simpl. rewrite use_free. lia.
Qed.

(** The predecessor of the element behind [l]. *)
Definition prev_of (l : list reassdata) : option nat := match length l with O => None | S j => Some j end.

Lemma dequeue_datagram_ok l1 r l2 s prev : datagrams s = l1 ++ r :: l2 -> (l1 <> [] -> prev = prev_of l1) ->
  ip_reass_dequeue_datagram (length l1) prev s = Ret (RS (l1 ++ l2) (pbufcount s) (avail s + 1) (rnet s)).
Proof.
  intros Hl Hp. unfold ip_reass_dequeue_datagram. rewrite Hl. destruct l1 as [|r1 l1]; [done|]. cbn [length Nat.eqb].
  rewrite (Hp ltac:(done)). cbn [prev_of length]. do 3 f_equal.
  - by rewrite take_app_length' by done.
  - rewrite cons_middle, app_assoc. apply drop_app_length'. rewrite length_app. simpl. lia.
Qed.

Lemma free_complete_ok l1 r l2 s : datagrams s = l1 ++ r :: l2 -> reass_ok s ->
  exists m, ip_reass_free_complete_datagram (length l1) (prev_of l1) s =
      Ret (pbufs (r_p r), RS (l1 ++ l2) (pbufcount s - pbufs (r_p r)) (avail s + 1) m) /\
    rs_use m = rs_use (rnet s) - pbufs (r_p r).
Proof.
  intros Hl [Hd Hk Hc Hm Ha]. unfold ip_reass_free_complete_datagram.
  assert (bool_decide (prev_of l1 = Some (length l1)) = false) as ->.
  { apply bool_decide_eq_false. unfold prev_of. destruct (length l1); [done|]. injection 1. lia. }
  assert ((match prev_of l1 with Some j => (S j =? length l1)%nat | None => true end) = true) as ->.
  { unfold prev_of. destruct (length l1); [done|]. apply Nat.eqb_refl. }
  cbn [negb lwip_assert mbind outcome_bind]. rewrite Hl, list_lookup_middle by done. cbn [deref mbind outcome_bind].
  rewrite Hl in Hd. apply Forall_app in Hd as [_ [[_ _ Hne _] _]%Forall_cons].
  rewrite Hc, Hl, held_app in *. cbn [held foldr] in *. change (foldr _ 0 l2) with (held l2) in *.
  pose proof (held_nonneg l1). pose proof (held_nonneg l2). unfold IP_REASS_MAX_PBUFS in Hm.
  assert (0 <= pbufs (r_p r)) by apply pbufs_nonneg. destruct (r_p r) as [|f fs] eqn:Hr; [done|].
  set (go := if f_start f =? 0 then _ else _).
  assert (exists n fs' s', go = Ret (n, fs', s') /\ 0 <= n /\ n + pbufs fs' = pbufs (f :: fs) /\ (exists m, s' = set_rnet m s) /\
    rs_use (rnet s') = rs_use (rnet s) - n) as (n & fs' & s1 & -> & Hn & Hsum & [m1 ->] & Huse).
  { subst go. destruct (f_start f =? 0); [|by exists 0, (f :: fs), s; split_and!; try done; [exists (rnet s); by destruct s|lia]].
    cbn [pbufs foldr] in *. change (foldr _ 0 fs) with (pbufs fs) in *. pose proof (pbufs_nonneg fs). unfold chain_clen in *.
    rewrite Z.add_0_l. rewrite (proj2 (Z.leb_le _ _)), u16_small by lia. cbn [lwip_assert mbind outcome_bind].
    eexists _, _, _. split; [reflexivity|]. split_and!; [lia|done|by eexists|]. simpl. by rewrite use_free, use_exceeded. }
  cbn [mbind outcome_bind].
  destruct (free_fragments_ok fs' n (set_rnet m1 s)) as (m2 & -> & Hm2); [done|lia|]. cbn [mbind outcome_bind].
  rewrite (dequeue_datagram_ok l1 r l2) by done. cbn [mbind outcome_bind pbufcount set_rnet]. rewrite Hsum.
  rewrite Hc, (proj2 (Z.leb_le _ _)) by lia. cbn [lwip_assert mbind outcome_bind]. exists m2. rewrite u16_small by lia. split; [done|].
  rewrite Hm2. simpl in *. lia.
Qed.

(** ** Room for a new fragment *)

Lemma reass_ok_remove l1 r l2 s m : datagrams s = l1 ++ r :: l2 -> reass_ok s ->
  reass_ok (RS (l1 ++ l2) (pbufcount s - pbufs (r_p r)) (avail s + 1) m).
Proof.
  intros Hl [Hd Hk Hc Hm Ha]. rewrite Hl in *. rewrite held_app in Hc. simpl in Hc. pose proof (pbufs_nonneg (r_p r)).
  split; simpl; try lia.
  - apply Forall_app in Hd as [? [? ?]%Forall_cons]. by apply Forall_app.
  - rewrite fmap_app in *. simpl in Hk. apply NoDup_app in Hk as (H1 & H2 & [_ H3]%NoDup_cons). apply NoDup_app.
    split_and!; try done. intros x Hx Hx'. apply (H2 x Hx). by right.
  - rewrite held_app. lia.
Qed.

(** A datagram that may be removed for one with header [h]: its position, its timer, its predecessor. *)
Definition candidate (h : ip_hdr) (L : list reassdata) (c : nat * Z * option nat) : Prop :=
  exists l1 r l2, L = l1 ++ r :: l2 /\ c = (length l1, r_timer r, prev_of l1) /\ rkey r <> key h.
Definition strange (h : ip_hdr) (l : list reassdata) : list reassdata := filter (fun r => rkey r <> key h) l.

Lemma find_oldest_ok h l : forall pre pv o n, (l <> [] -> pv = prev_of pre) -> (forall c, o = Some c -> candidate h (pre ++ l) c) ->
  exists o', find_oldest h l (length pre) pv o n = (o', n + Z.of_nat (length (strange h l))) /\
    (forall c, o' = Some c -> candidate h (pre ++ l) c) /\ (o' = None -> o = None /\ strange h l = []).
Proof.
  unfold strange. induction l as [|r l IH]; intros pre pv o n Hpv Ho; cbn [find_oldest].
  { exists o. split; [f_equal; simpl; lia|]. by split. }
  rewrite match_key. change (key (r_iphdr r)) with (rkey r).
  set (res := if bool_decide _ then _ else _).
  assert (exists o1 n1, res = (o1, n1) /\ (forall c, o1 = Some c -> candidate h (pre ++ r :: l) c) /\
    n1 = n + (if decide (rkey r <> key h) then 1 else 0) /\ (o1 = None -> o = None /\ rkey r = key h)) as (o1 & n1 & -> & Ho1 & -> & Hn1).
  { subst res. case_bool_decide as Hk.
    - exists o, n. rewrite decide_False by tauto. split_and!; try done. lia.
    - rewrite decide_True by done. eexists _, _. split; [reflexivity|]. specialize (Hpv ltac:(done)).
      assert (candidate h (pre ++ r :: l) (length pre, r_timer r, pv)) as Hc by (exists pre, r, l; by rewrite Hpv).
      destruct o as [[[j t] v]|]; [destruct (_ <=? t)|]; split_and!; try done; intros c [= <-]; done || by apply Ho. }
  destruct (IH (pre ++ [r]) (match l with [] => pv | _ => Some (length pre) end) o1 (n + (if decide (rkey r <> key h) then 1 else 0)))
    as (o2 & Hrun & Ho2 & Hn2).
  - intros Hl. destruct l; [done|]. unfold prev_of. by rewrite length_app, Nat.add_comm.
  - by rewrite <- app_assoc.
  - rewrite length_app, Nat.add_comm in Hrun. simpl in Hrun. rewrite <- app_assoc in Ho2. exists o2. rewrite filter_cons. split_and!.
    + rewrite Hrun. f_equal. destruct (decide _); simpl; lia.
    + done.
    + intros Hn. destruct (Hn2 Hn) as [-> Hl]. destruct (Hn1 eq_refl) as [Ho' Hk]. by rewrite decide_False by tauto.
Qed.

(** Datagrams other than that of [h] were removed, with [n] pbufs. *)
Record made_room (h : ip_hdr) (n : Z) s s' : Prop := {
  mr_ok : reass_ok s';
  mr_sub : datagrams s' `sublist_of` datagrams s;
  mr_same : filter (fun r => rkey r = key h) (datagrams s') = filter (fun r => rkey r = key h) (datagrams s);
  mr_count : n = pbufcount s - pbufcount s' /\ 0 <= n;
  mr_none : n = 0 -> s' = s;
  mr_others : others s' = others s;
  mr_elements : elements s' = elements s }.

Lemma made_room_refl h s : reass_ok s -> made_room h 0 s s.
Proof. intros. split; done || lia. Qed.

Lemma made_room_in h n s s' r : made_room h n s s' -> rkey r = key h -> r ∈ datagrams s' <-> r ∈ datagrams s.
Proof.
  intros Hmr Hr. transitivity (r ∈ filter (fun r => rkey r = key h) (datagrams s')); [by rewrite list_elem_of_filter; naive_solver|].
  rewrite (mr_same _ _ _ _ Hmr), list_elem_of_filter. naive_solver.
Qed.
Lemma made_room_key h n s s' : made_room h n s s' -> key h ∈ rkey <$> datagrams s' <-> key h ∈ rkey <$> datagrams s.
Proof.
  intros Hmr. rewrite !list_elem_of_fmap.
  split; intros (r & Hr & Hin); exists r; (split; [done|]); apply (made_room_in _ _ _ _ r Hmr); done.
Qed.

Lemma oldest_loop_ok h need fuel : forall freed s, reass_ok s -> (length (strange h (datagrams s)) < fuel)%nat ->
  exists n s', remove_loop fuel h need freed s = Ret (freed + n, s') /\ made_room h n s s' /\ (need <= freed + n \/ strange h (datagrams s') = []).
Proof.
  induction fuel as [|fuel IH]; intros freed s Hok Hfuel; [lia|]. cbn [remove_loop].
  destruct (find_oldest_ok h (datagrams s) [] None None 0) as (o & Hfind & Ho & Hnone); [done|done|]. simpl in Hfind, Ho. rewrite Hfind.
  destruct o as [c|]; cycle 1.
  { destruct (Hnone eq_refl) as [_ Hno]. rewrite Hno. cbn [mbind outcome_bind]. rewrite andb_false_r. exists 0, s. rewrite Z.add_0_r.
    split; [done|]. split; [by apply made_room_refl|by right]. }
  destruct (Ho c eq_refl) as (l1 & r & l2 & Hl & -> & Hk). destruct (free_complete_ok l1 r l2 s Hl Hok) as (m & -> & Hm).
  cbn [mbind outcome_bind]. pose proof (reass_ok_remove l1 r l2 s m Hl Hok) as Hok1. set (s1 := RS _ _ _ m) in *.
  assert (0 < pbufs (r_p r)) as Hpos.
  { pose proof (ro_dgrams _ Hok) as Hd. rewrite Hl in Hd. apply Forall_app in Hd as [_ [[_ H1 H2 _] _]%Forall_cons]. by apply pbufs_pos. }
  assert (made_room h (pbufs (r_p r)) s s1) as Hmr.
  { split; simpl; try done; try lia; rewrite ?Hl.
    - apply sublist_app; [done|by constructor].
    - by rewrite !filter_app, filter_cons, decide_False by done.
    - unfold others. simpl. lia.
    - unfold elements. simpl. rewrite Hl, !length_app. simpl. lia. }
  assert (length (strange h (datagrams s)) = S (length (strange h (datagrams s1)))) as Hlen.
  { unfold strange. rewrite Hl. simpl. rewrite !filter_app, filter_cons, decide_True, !length_app by done. simpl. lia. }
  destruct (_ && _) eqn:Hgo.
  2:{ exists (pbufs (r_p r)), s1. split; [done|]. split; [done|]. apply andb_false_iff in Hgo as [?%Z.ltb_ge|?%Z.ltb_ge]; [by left|right].
      apply nil_length_inv. lia. }
  destruct (IH (freed + pbufs (r_p r)) s1 Hok1) as (n & s2 & -> & [R1 R2 R3 [R4 R5] R6 R7 R8] & Hen); [lia|].
  exists (pbufs (r_p r) + n), s2. rewrite Z.add_assoc. split; [done|]. split; [|exact Hen]. destruct Hmr as [_ M2 M3 [M4 _] _ M7 M8].
  split; try done; try lia; try congruence. by etransitivity.
Qed.

Lemma remove_oldest_ok h need s : reass_ok s ->
  exists n s', ip_reass_remove_oldest_datagram h need s = Ret (n, s') /\ made_room h n s s' /\ (need <= n \/ strange h (datagrams s') = []).
Proof.
  intros Hok. apply (oldest_loop_ok h need _ 0 s Hok). pose proof (length_filter (fun r => rkey r <> key h) (datagrams s)). unfold strange. lia.
Qed.

(** ** Into a datagram *)

(** The datagram of [r] with the fragment [p] and its fragments [l]. *)
Definition grown (p : packet) (l : list fragment) (r : reassdata) : reassdata :=
  let r := set_r_p l r in if is_last p then set_r_last (f_end (frag_of p)) r else r.
Definition last_seen (r : reassdata) : bool := has (r_flags r) IP_REASS_FLAG_LASTFRAG.

(** What becomes of a fragment [p] for the datagram [r] between [l1] and [l2]. *)
Inductive joined (p : packet) (l1 : list reassdata) (r : reassdata) (l2 : list reassdata) s : option packet -> reass N -> Prop :=
| joined_dropped m : clashes p r -> rs_use m = rs_use (rnet s) - pkt_clen p ->
    joined p l1 r l2 s None (if decide (r_p r = []) then RS l2 (pbufcount s) (avail s + 1) m
                             else RS (l1 ++ r :: l2) (pbufcount s) (avail s) m)
| joined_queued l : fits p -> l ≡ₚ frag_of p :: r_p r -> StronglySorted apart l -> last_seen (grown p l r) && complete l = false ->
    joined p l1 r l2 s None (RS (l1 ++ grown p l r :: l2) (pbufcount s + pkt_clen p) (avail s) (rnet s))
| joined_finished l : fits p -> l ≡ₚ frag_of p :: r_p r -> StronglySorted apart l -> last_seen (grown p l r) = true -> complete l = true ->
    joined p l1 r l2 s (Some (join (grown p l r))) (RS (l1 ++ l2) (pbufcount s - pbufs (r_p r)) (avail s + 1) (rnet s)).

Lemma last_seen_grown p l r : last_seen (grown p l r) = is_last p || last_seen r.
Proof.
  unfold grown, last_seen. destruct (is_last p); [|done]. simpl. by rewrite has_lor_self.
Qed.
Lemma grown_p p l r : r_p (grown p l r) = l /\ r_iphdr (grown p l r) = r_iphdr r /\ r_timer (grown p l r) = r_timer r.
Proof. unfold grown. by destruct (is_last p). Qed.

Lemma reass_into_ok p l1 r l2 s : is_frag p -> IPH_HL_BYTES (p_hdr p) = IP_HLEN -> datagrams s = l1 ++ r :: l2 ->
  StronglySorted apart (r_p r) -> (r_p r = [] -> r_flags r = 0 /\ l1 = []) ->
  pbufs (r_p r) <= pbufcount s -> pbufcount s + pkt_clen p <= IP_REASS_MAX_PBUFS ->
  exists o s', reass_into (length l1) p s = Ret (o, s') /\ joined p l1 r l2 s o s'.
Proof.
  intros Hp Hhl Hl Hs Hf Hcnt Hmax. pose proof (offset_range (p_hdr p)). pose proof (tot_len_nonneg (p_body p)) as Ht. pose proof Hp as [Hb Hlen Hm Hpart].
  unfold reass_into. rewrite Hl, list_lookup_middle by done. cbn [deref mbind outcome_bind]. rewrite Hlen, Hhl. unfold pkt_len in *.
  replace (IP_HLEN + tot_len (p_body p) - IP_HLEN) with (tot_len (p_body p)) by lia. rewrite (u16_small (tot_len _)) by (unfold IP_HLEN in *; lia).
  change (negb (has (iph_offset (p_hdr p)) IP_MF)) with (is_last p).
  assert (clashes p r -> exists o s', nullreturn_ipr (length l1) p s = Ret (o, s') /\ joined p l1 r l2 s o s') as Hdrop.
  { intros Hcl. unfold nullreturn_ipr. rewrite Hl, list_lookup_middle by done. cbn [deref mbind outcome_bind].
    pose proof (joined_dropped p l1 r l2 s (rs_free (rnet s) (pkt_clen p)) Hcl (use_free _ _)) as Hj. destruct (r_p r) eqn:Hr.
    - destruct (Hf eq_refl) as [_ ->]. cbn [length Nat.eqb lwip_assert mbind outcome_bind]. change 0%nat with (length (@nil reassdata)).
      rewrite (dequeue_datagram_ok [] r l2) by done. cbn [mbind outcome_bind]. eexists _, _. split; [reflexivity|exact Hj].
    - rewrite decide_False in Hj by done. eexists _, _. split; [reflexivity|]. destruct s. simpl in *. subst. exact Hj. }
  destruct (is_last p && _) eqn:Hov.
  { apply Hdrop. left. intros [F1 F2]. apply andb_true_iff in Hov as [Hla Hov]. specialize (F2 Hla). simpl in *.
    unfold IP_HLEN in *. rewrite u16_small in Hov by lia. apply orb_true_iff in Hov as [?%Z.ltb_lt|?%Z.ltb_lt]; lia. }
  destruct (validate_ok p r Hp Hhl Hs) as (v & r' & Hv & Hres); [by intros [? _]%Hf|].
  rewrite Hv. cbn [mbind outcome_bind]. rewrite insert_app_r_alt, Nat.sub_diag by done. cbn [list_insert].
  assert (v = PBUF_DROPPED \/ v <> PBUF_DROPPED) as [->|Hnd] by (destruct v; auto).
  { destruct Hres as [-> Hcl]. change (<[0%nat:=r]> (r :: l2)) with (r :: l2). rewrite <- Hl.
    assert (set_datagrams (datagrams s) s = s) as -> by (by destruct s). by apply Hdrop. }
  assert (exists l, r' = set_r_p l r /\ f_end (frag_of p) <= 0xffff /\ l ≡ₚ frag_of p :: r_p r /\ StronglySorted apart l /\
    (v = TELEGRAM_FINISHED <-> (is_last p = true \/ last_seen r = true) /\ complete l = true)) as (l & -> & He & Hperm & Hsort & Hfin).
  { destruct v; [exact Hres|exact Hres|done]. }
  assert (fits p) as Hfits.
  { split; [done|]. intros Hla. rewrite Hla in Hov. simpl in *. rewrite u16_small in Hov by lia. apply orb_false_iff in Hov as [_ ?%Z.ltb_ge]. done. }
  rewrite (u16_small (IPH_OFFSET_BYTES _ + _)) by (simpl in He; lia).
  assert (0 <= pkt_clen p) by (unfold pkt_clen, chain_clen; lia). assert (0 <= pbufs (r_p r)) by apply pbufs_nonneg.
  unfold IP_REASS_MAX_PBUFS in Hmax. rewrite (u16_small (pbufcount s + _)) by lia.
  change (if is_last p then _ else _) with (grown p l r).
  assert (last_seen (grown p l r) = true <-> is_last p = true \/ last_seen r = true) as Hls.
  { by rewrite last_seen_grown, orb_true_iff. }
  destruct v; [| |done].
  - destruct Hfin as [Hfin _]. destruct (Hfin eq_refl) as [F1 F2].
    rewrite (dequeue_datagram_ok l1 (grown p l r) l2); [| |by destruct l1].
    2:{ simpl. by rewrite insert_app_r_alt, Nat.sub_diag by done. }
    cbn [mbind outcome_bind]. simpl pbufcount.
    assert (pkt_clen (join (grown p l r)) = pkt_clen p + pbufs (r_p r)) as Hj.
    { unfold pkt_clen, join. simpl. destruct (grown_p p l r) as (-> & _). by rewrite clen_join, (pbufs_perm _ _ Hperm). }
    rewrite Hj, (proj2 (Z.leb_le _ _)), u16_small by lia. cbn [lwip_assert mbind outcome_bind]. eexists _, _. split; [reflexivity|].
    replace (pbufcount s + pkt_clen p - (pkt_clen p + pbufs (r_p r))) with (pbufcount s - pbufs (r_p r)) by lia.
    apply joined_finished; try done. by apply Hls.
  - eexists _, _. split; [reflexivity|]. unfold set_datagrams, set_pbufcount. cbn [datagrams pbufcount avail rnet].
    rewrite insert_app_r_alt, Nat.sub_diag by done. change (<[0%nat:=grown p l r]> (set_r_p l r :: l2)) with (grown p l r :: l2).
    apply joined_queued; try done. apply andb_false_iff. destruct (complete l); [left|by right].
    apply not_true_iff_false. rewrite Hls. intros Hl'. destruct Hfin as [_ Hfin]. by specialize (Hfin (conj Hl' eq_refl)).
Qed.

(** ** [ip4_reass] *)

Lemma find_datagram_ok h l : forall i,
  match find_datagram h l i with
  | Some j => exists l1 r l2, l = l1 ++ r :: l2 /\ j = (i + length l1)%nat /\ rkey r = key h
  | None => key h ∉ rkey <$> l
  end.
Proof.
  induction l as [|r l IH]; intros i; cbn [find_datagram].
  { apply not_elem_of_nil. }
  rewrite match_key. change (key (r_iphdr r)) with (rkey r). case_bool_decide as Hk.
  { exists [], r, l. split; [done|]. split; [simpl; lia|done]. }
  specialize (IH (S i)). destruct (find_datagram h l (S i)) as [j|].
  - destruct IH as (l1 & r' & l2 & -> & -> & Hr). exists (r :: l1), r', l2. split; [done|]. split; [simpl; lia|done].
  - simpl. rewrite not_elem_of_cons. split; [congruence|done].
Qed.

Lemma made_room_trans h n1 n2 s s1 s2 : made_room h n1 s s1 -> made_room h n2 s1 s2 -> made_room h (n1 + n2) s s2.
Proof.
  intros [A1 A2 A3 [A4 A4'] A5 A6 A7] [B1 B2 B3 [B4 B4'] B5 B6 B7]. split; try done; try lia; try congruence; [by etransitivity|].
  intros Hn. rewrite (B5 ltac:(lia)). apply A5. lia.
Qed.

(** The entry for the first fragment of a datagram. *)
Definition fresh (h : ip_hdr) : reassdata := Reass [] h 0 0 IP_REASS_MAXAGE.

(** The pbufs of the datagram of [h]. *)
Definition own (h : ip_hdr) s : Z := held (filter (fun r => rkey r = key h) (datagrams s)).
Lemma held_split h l : held l = held (filter (fun r => rkey r = key h) l) + held (strange h l).
Proof.
  unfold strange. induction l as [|r l IH]; [done|]. rewrite !filter_cons. destruct (decide (rkey r = key h)).
  - rewrite (decide_False (P := rkey r <> key h)) by tauto. simpl. lia.
  - rewrite (decide_True (P := rkey r <> key h)) by done. simpl. lia.
Qed.

(** What [ip4_reass] did with [p]. *)
Inductive step (p : packet) s : option packet -> reass N -> Prop :=
| step_refused n s1 m : made_room (p_hdr p) n s s1 -> rs_use m = rs_use (rnet s1) - pkt_clen p ->
    IPH_HL_BYTES (p_hdr p) <> IP_HLEN \/ IP_REASS_MAX_PBUFS < own (p_hdr p) s + pkt_clen p \/
      avail s = 0 /\ key (p_hdr p) ∉ rkey <$> datagrams s ->
    step p s None (set_rnet m s1)
| step_known n s1 l1 r l2 o s' : made_room (p_hdr p) n s s1 -> datagrams s1 = l1 ++ r :: l2 -> rkey r = key (p_hdr p) ->
    pbufcount s1 + pkt_clen p <= IP_REASS_MAX_PBUFS ->
    joined p l1 (keep_first_hdr (p_hdr p) r) l2 (set_datagrams (l1 ++ keep_first_hdr (p_hdr p) r :: l2) s1) o s' -> step p s o s'
| step_new n s1 o s' : made_room (p_hdr p) n s s1 -> key (p_hdr p) ∉ rkey <$> datagrams s1 -> 0 < avail s1 ->
    pbufcount s1 + pkt_clen p <= IP_REASS_MAX_PBUFS ->
    joined p [] (fresh (p_hdr p)) (datagrams s1) (RS (fresh (p_hdr p) :: datagrams s1) (pbufcount s1) (avail s1 - 1) (rnet s1)) o s' ->
    step p s o s'.

Lemma keep_first_hdr_same h r : r_p (keep_first_hdr h r) = r_p r /\ r_flags (keep_first_hdr h r) = r_flags r /\
  r_timer (keep_first_hdr h r) = r_timer r /\ r_len (keep_first_hdr h r) = r_len r /\ (rkey r = key h -> rkey (keep_first_hdr h r) = key h).
Proof. unfold keep_first_hdr. destruct (_ && _); split_and!; done. Qed.

Lemma enqueue_ok h clen s : reass_ok s -> key h ∉ rkey <$> datagrams s ->
  exists ok s', ip_reass_enqueue_new_datagram h clen s = Ret (ok, s') /\
    if (ok : bool) then exists n s1, made_room h n s s1 /\ 0 < avail s1 /\
      s' = RS (fresh h :: datagrams s1) (pbufcount s1) (avail s1 - 1) (rnet s1)
    else avail s = 0 /\ exists n, made_room h n s s'.
Proof.
  intros Hok Hk. unfold ip_reass_enqueue_new_datagram. pose proof (ro_avail _ Hok) as Ha. destruct (Z.ltb_spec 0 (avail s)).
  { eexists _, _. split; [reflexivity|]. exists 0, s. split; [by apply made_room_refl|done]. }
  destruct (remove_oldest_ok h clen s Hok) as (n & s1 & -> & Hmr & _). cbn [mbind outcome_bind].
  destruct (clen <=? n); cbn [andb]; [|eexists _, _; split; [reflexivity|]; split; [lia|by exists n]].
  destruct (Z.ltb_spec 0 (avail s1)); (eexists _, _; split; [reflexivity|]); [by exists n, s1|split; [lia|by exists n]].
Qed.

(** Only its own fragments keep a new one out. *)
Lemma no_room p n s s1 : reass_ok s -> is_frag p -> made_room (p_hdr p) n s s1 -> IP_REASS_MAX_PBUFS < pbufcount s + pkt_clen p ->
  pkt_clen p <= n \/ strange (p_hdr p) (datagrams s1) = [] -> n = 0 \/ IP_REASS_MAX_PBUFS < pbufcount s1 + pkt_clen p ->
  IP_REASS_MAX_PBUFS < own (p_hdr p) s + pkt_clen p.
Proof.
  intros Hok Hp Hmr Hfull Hen Hn. pose proof (ro_max _ Hok). destruct (mr_count _ _ _ _ Hmr) as [Hc _].
  assert (0 < pkt_clen p) by (unfold pkt_clen, chain_clen; pose proof (if_body _ Hp); destruct (p_body p); [done|simpl; lia]).
  destruct Hen as [Hen|Hst]; [lia|]. unfold own. rewrite <- (mr_same _ _ _ _ Hmr).
  pose proof (ro_count _ (mr_ok _ _ _ _ Hmr)) as Hc1. pose proof (held_split (p_hdr p) (datagrams s1)) as Hsp. rewrite Hst in Hsp. cbn [held foldr] in Hsp.
  destruct Hn as [Hn0|Hn]; [|lia]. rewrite (mr_none _ _ _ _ Hmr Hn0) in *. lia.
Qed.

Lemma step_ok p s : reass_ok s -> is_frag p -> exists o s', ip4_reass p s = Ret (o, s') /\ step p s o s'.
Proof.
  intros Hok Hp. unfold ip4_reass.
  assert (forall n s1, made_room (p_hdr p) n s s1 -> IPH_HL_BYTES (p_hdr p) <> IP_HLEN \/ IP_REASS_MAX_PBUFS < own (p_hdr p) s + pkt_clen p \/
      avail s = 0 /\ key (p_hdr p) ∉ rkey <$> datagrams s ->
    exists o s', Ret (drop_packet p s1) = Ret (o, s') /\ step p s o s') as Hdrop.
  { intros n s1 Hmr Hwhy. eexists _, _. split; [reflexivity|]. eapply step_refused; try done. apply use_free. }
  destruct (Z.eqb_spec (IPH_HL_BYTES (p_hdr p)) IP_HLEN) as [Hhl|Hhl]; cbn [negb].
  2:{ apply (Hdrop 0); [by apply made_room_refl|by left]. }
  rewrite Hhl, (if_len _ Hp). pose proof (tot_len_nonneg (p_body p)).
  rewrite (proj2 (Z.ltb_ge _ _)) by (unfold pkt_len; lia).
  set (room := if IP_REASS_MAX_PBUFS <? _ then _ else _).
  assert (exists ok n s1, room = Ret (ok, s1) /\ made_room (p_hdr p) n s s1 /\
    if (ok : bool) then pbufcount s1 + pkt_clen p <= IP_REASS_MAX_PBUFS else IP_REASS_MAX_PBUFS < own (p_hdr p) s + pkt_clen p)
    as (ok & n & s1 & -> & Hmr & Hroom).
  { subst room. destruct (Z.ltb_spec IP_REASS_MAX_PBUFS (pbufcount s + pkt_clen p)).
    - destruct (remove_oldest_ok (p_hdr p) (pkt_clen p) s Hok) as (n & s1 & -> & Hmr & Hen). cbn [mbind outcome_bind].
      eexists _, n, s1. split; [reflexivity|]. split; [done|]. destruct (negb _ && _) eqn:E; [by apply andb_true_iff in E as [_ ?%Z.leb_le]|].
      eapply no_room; try done. apply andb_false_iff in E as [?%negb_false_iff%Z.eqb_eq|?%Z.leb_gt]; [by left|by right].
    - exists true, 0, s. split; [done|]. split; [by apply made_room_refl|done]. }
  cbn [mbind outcome_bind]. destruct ok; cbn [negb]; [|apply (Hdrop n); auto].
  pose proof (mr_ok _ _ _ _ Hmr) as Hok1. pose proof (find_datagram_ok (p_hdr p) (datagrams s1) 0) as Hfind.
  destruct (find_datagram _ _ 0) as [j|].
  - destruct Hfind as (l1 & r & l2 & Hl & -> & Hk). simpl plus.
    assert (alter (keep_first_hdr (p_hdr p)) (length l1) (datagrams s1) = l1 ++ keep_first_hdr (p_hdr p) r :: l2) as ->.
    { rewrite Hl. by rewrite alter_app_r_alt, Nat.sub_diag. }
    destruct (keep_first_hdr_same (p_hdr p) r) as (K1 & K2 & K3 & K4 & K5).
    pose proof (ro_dgrams _ Hok1) as Hd. rewrite Hl in Hd. apply Forall_app in Hd as [_ [[D1 D2 D3 D4] _]%Forall_cons].
    destruct (reass_into_ok p l1 (keep_first_hdr (p_hdr p) r) l2 (set_datagrams (l1 ++ keep_first_hdr (p_hdr p) r :: l2) s1))
      as (o & s' & Hrun & Hj); rewrite ?K1; try done.
    { simpl. rewrite (ro_count _ Hok1), Hl, held_app. simpl. pose proof (held_nonneg l1). pose proof (held_nonneg l2). lia. }
    exists o, s'. split; [exact Hrun|]. by eapply step_known.
  - destruct (enqueue_ok (p_hdr p) (pkt_clen p) s1 Hok1 Hfind) as (ok & s2 & -> & He). cbn [mbind outcome_bind]. destruct ok.
    + destruct He as (n2 & s3 & Hmr2 & Hav & ->). pose proof (made_room_trans _ _ _ _ _ _ Hmr Hmr2) as Hmr3.
      pose proof (ro_count _ (mr_ok _ _ _ _ Hmr2)) as Hc. pose proof (held_nonneg (datagrams s3)).
      destruct (mr_count _ _ _ _ Hmr2) as [Hn2 Hn2'].
      destruct (reass_into_ok p [] (fresh (p_hdr p)) (datagrams s3) (RS (fresh (p_hdr p) :: datagrams s3) (pbufcount s3) (avail s3 - 1) (rnet s3)))
        as (o & s' & Hrun & Hj); try done; simpl; try lia.
      { constructor. }
      exists o, s'. split; [exact Hrun|]. eapply step_new; try done; [|lia].
      intros Hin. apply Hfind. apply list_elem_of_fmap in Hin as (r & -> & Hr). apply list_elem_of_fmap_2.
      eapply elem_of_sublist; [exact Hr|]. apply (mr_sub _ _ _ _ Hmr2).
    + destruct He as [Hav [n2 Hmr2]]. pose proof (made_room_trans _ _ _ _ _ _ Hmr Hmr2) as Hmr3. apply (Hdrop _ _ Hmr3).
      right. right. split; [|by rewrite <- (made_room_key _ _ _ _ Hmr)]. pose proof (mr_elements _ _ _ _ Hmr) as Hel. pose proof (sublist_length _ _ (mr_sub _ _ _ _ Hmr)) as Hsl.
      pose proof (ro_avail _ Hok). unfold elements in Hel. lia.
Qed.

Definition clen_opt (o : option packet) : Z := match o with Some q => pkt_clen q | None => 0 end.

Lemma frags_perm p l r : is_frag p -> fits p -> l ≡ₚ frag_of p :: r_p r -> Forall frag_ok (r_p r) ->
  Forall frag_ok l /\ l <> [] /\ pbufs l = pkt_clen p + pbufs (r_p r).
Proof.
  intros Hp [Hf _] Hl Hr. split_and!.
  - rewrite Hl. constructor; [by apply frag_of_ok|done].
  - intros ->. by apply Permutation_nil_cons in Hl.
  - by rewrite (pbufs_perm _ _ Hl).
Qed.

(** Joining keeps the invariant; [r] may be the entry just made. *)
Lemma joined_ok p l1 r l2 s o s' : is_frag p -> joined p l1 r l2 s o s' -> datagrams s = l1 ++ r :: l2 ->
  Forall dgram_ok l1 -> Forall dgram_ok l2 -> NoDup (rkey <$> datagrams s) ->
  StronglySorted apart (r_p r) -> Forall frag_ok (r_p r) -> 0 <= r_timer r <= IP_REASS_MAXAGE -> (r_p r = [] -> l1 = []) ->
  pbufcount s = held (datagrams s) -> pbufcount s + pkt_clen p <= IP_REASS_MAX_PBUFS -> 0 <= avail s ->
  reass_ok s' /\ others s' = others s - pkt_clen p + clen_opt o /\ elements s' = elements s.
Proof.
  intros Hp Hj Hl H1 H2 Hk Hs Hf Ht Hn Hc Hm Ha. unfold others, elements. rewrite Hl in *. rewrite held_app in Hc. cbn [held foldr] in Hc.
  change (foldr _ 0 l2) with (held l2) in Hc. pose proof (pbufs_nonneg (r_p r)). assert (0 <= pkt_clen p) by (unfold pkt_clen, chain_clen; lia).
  rewrite fmap_app in Hk. cbn [fmap list_fmap] in Hk.
  assert (NoDup (rkey <$> l1 ++ l2)) as Hk12.
  { rewrite fmap_app. apply NoDup_app in Hk as (K1 & K2 & [_ K3]%NoDup_cons). apply NoDup_app. split_and!; try done.
    intros x Hx Hx'. apply (K2 x Hx). by right. }
  rewrite length_app. cbn [length].
  destruct Hj as [m Hcl Hu|l Hfit Hperm Hsort Hfin|l Hfit Hperm Hsort Hls Hcm]; cbn [clen_opt].
  - destruct (decide _) as [Hr|Hr].
    + rewrite (Hn Hr), Hr in *. cbn in *. split; [split; simpl; try done; lia|]. split; [lia|lia].
    + split; [split; simpl; try done; try lia|].
      * apply Forall_app. split; [done|]. by constructor.
      * by rewrite fmap_app.
      * rewrite held_app. simpl. lia.
      * split; [simpl; lia|]. simpl. rewrite length_app. simpl. lia.
  - destruct (frags_perm p l r Hp Hfit Hperm Hf) as (F1 & F2 & F3). destruct (grown_p p l r) as (G1 & G2 & G3).
    split; [split; simpl; try done|].
    + apply Forall_app. split; [done|]. constructor; [|done]. split; rewrite ?G1, ?G3; done.
    + rewrite fmap_app. cbn [fmap list_fmap]. unfold rkey at 2. by rewrite G2.
    + rewrite held_app. cbn [held foldr]. change (foldr _ 0 l2) with (held l2). rewrite G1, F3. lia.
    + split; simpl; [lia|]. rewrite length_app. simpl. lia.
  - destruct (frags_perm p l r Hp Hfit Hperm Hf) as (F1 & F2 & F3). destruct (grown_p p l r) as (G1 & G2 & G3).
    assert (pkt_clen (join (grown p l r)) = pkt_clen p + pbufs (r_p r)) as ->.
    { unfold pkt_clen, join. simpl. by rewrite G1, clen_join. }
    split; [split; simpl; try done; try lia|].
    + by apply Forall_app.
    + rewrite held_app. lia.
    + split; simpl; [lia|]. rewrite length_app. lia.
Qed.

Lemma step_keeps p s o s' : reass_ok s -> is_frag p -> step p s o s' ->
  reass_ok s' /\ others s' = others s - pkt_clen p + clen_opt o /\ elements s' = elements s.
Proof.
  intros Hok Hp Hst. destruct Hst as [n s1 m Hmr Hu Hwhy|n s1 l1 r l2 o s' Hmr Hl Hk Hm Hj|n s1 o s' Hmr Hk Ha Hm Hj];
    destruct Hmr as [[M1 M2 M3 M4 M5] _ _ _ _ MO ME]; rewrite <- MO, <- ME.
  - split; [by split|]. split; [unfold others; simpl; lia|done].
  - destruct (keep_first_hdr_same (p_hdr p) r) as (K1 & K2 & K3 & K4 & K5). rewrite Hl in M1, M2, M3.
    apply Forall_app in M1 as [D1 [[E1 E2 E3 E4] D2]%Forall_cons].
    eapply joined_ok in Hj; try done; rewrite ?K1, ?K3; try done.
    + unfold others, elements in *. simpl in *. rewrite Hl, !length_app in *. exact Hj.
    + simpl. rewrite fmap_app in *. simpl in *. by rewrite K5, <- Hk.
    + simpl. rewrite M3, !held_app. simpl. by rewrite K1.
  - eapply joined_ok in Hj; try done; simpl; try lia; try (by constructor).
    unfold others, elements in *. simpl in *. destruct Hj as (J1 & J2 & J3). split_and!; [done|lia|lia].
Qed.
End invariant.
