(* ===== verification/Ip4ReassProps.v ===== *)
(** * Reassembly gives back what was cut

    Whatever arrives, reassembly returns and keeps account; fragments of real datagrams come out as these
    datagrams; all fragments of a datagram, in any order and repeated, come out as the datagram when the last
    missing one arrives; what stays incomplete is given up in time. *)

From stdpp Require Import sorting.
From S2P Require Import Prelude Chain Chksum Ip4Hdr Ip4Reass Ip4ReassOk.

(** ** Slices *)

(** The bytes of [w] from [a] to [b]. *)
Definition slice (w : list Z) (a b : Z) : list Z := take (Z.to_nat (b - a)) (drop (Z.to_nat a) w).

Lemma slice_join w a b c : 0 <= a <= b -> b <= c -> slice w a b ++ slice w b c = slice w a c.
Proof.
  intros Ha Hb. unfold slice. replace (Z.to_nat (c - a)) with (Z.to_nat (b - a) + Z.to_nat (c - b))%nat by lia.
  rewrite <- take_take_drop. f_equal. rewrite drop_drop. do 2 f_equal. lia.
Qed.
Lemma slice_all w : slice w 0 (Z.of_nat (length w)) = w.
Proof. unfold slice. rewrite Z.sub_0_r, Nat2Z.id. apply firstn_all. Qed.

(** [f] is a part of [w]. *)
Definition part_of (w : list Z) (f : fragment) : Prop :=
  f_end f <= Z.of_nat (length w) /\ concat (f_body f) = slice w (f_start f) (f_end f).

Lemma no_holes_join w l : forall v, no_holes v l = true -> Forall frag_ok (v :: l) -> Forall (part_of w) (v :: l) ->
  exists e, last (v :: l) = Some e /\ f_start v <= f_end e /\ concat (concat (f_body <$> v :: l)) = slice w (f_start v) (f_end e).
Proof.
  induction l as [|f l IH]; intros v Hh [Hv Hok]%Forall_cons [[Hv1 Hv2] Hp]%Forall_cons; destruct (fo_range _ Hv) as [Hr _].
  { exists v. split; [done|]. split; [lia|]. simpl. by rewrite app_nil_r. }
  cbn [no_holes] in Hh. apply andb_true_iff in Hh as [He%Z.eqb_eq Hh]. destruct (IH f Hh Hok Hp) as (e & Hlast & Hle & Hc).
  exists e. split; [done|]. split; [lia|].
  change (concat (f_body v ++ concat (f_body <$> f :: l)) = slice w (f_start v) (f_end e)). rewrite concat_app, Hv2, Hc, <- He.
  apply slice_join; lia.
Qed.

(** A sorted list without holes that reaches the end of [w] is [w]. *)
Lemma complete_whole w l x : complete l = true -> StronglySorted apart l -> Forall frag_ok l -> Forall (part_of w) l ->
  x ∈ l -> f_end x = Z.of_nat (length w) -> concat (concat (f_body <$> l)) = w.
Proof.
  intros Hc Hs Hok Hp Hx Hend. destruct l as [|v l]; [done|]. cbn [complete] in Hc. apply andb_true_iff in Hc as [H0%Z.eqb_eq Hh].
  destruct (no_holes_join w l v Hh Hok Hp) as (e & Hlast & _ & ->). rewrite H0. apply last_Some in Hlast as [l' Hl].
  rewrite Hl in *. assert (f_end e = Z.of_nat (length w)) as ->; [|apply slice_all].
  apply Forall_app in Hok as [Hok1 [He _]%Forall_cons]. apply Forall_app in Hp as [_ [[Hp _] _]%Forall_cons].
  apply elem_of_app in Hx as [Hx| ->%list_elem_of_singleton]; [|done].
  assert (apart x e) as [_ Ha] by (eapply StronglySorted_app_1_elem_of; [exact Hs|done|left]). destruct (fo_range _ He). lia.
Qed.

Lemma Forall_sublist {A} (P : A -> Prop) l1 l2 : l1 `sublist_of` l2 -> Forall P l2 -> Forall P l1.
Proof. intros H. induction H; [done| |]; intros [? ?]%Forall_cons; [constructor|]; auto. Qed.

Section props.
  Context {N : Type} `{!ReassNet N} `{!ReassLaws N}.
  Implicit Type s : reass N.

(** ** Real datagrams *)

(** [whole k] is the datagram of source, destination and identification [k]; [p] is a fragment of it. *)
Record genuine (whole : Z * Z * Z -> list Z) (p : packet) : Prop := {
  ge_frag : is_frag p;
  ge_part : part_of (whole (key (p_hdr p))) (frag_of p);
  ge_max : Z.of_nat (length (whole (key (p_hdr p)))) <= 0xffff - IP_HLEN;
  ge_last : is_last p = true -> f_end (frag_of p) = Z.of_nat (length (whole (key (p_hdr p)))) }.

(** The datagram [r] holds parts of [w]; after the last one it knows the length. *)
Definition holds (w : list Z) (r : reassdata) : Prop :=
  Forall (part_of w) (r_p r) /\
  (last_seen r = true -> r_len r = Z.of_nat (length w) /\ exists x, x ∈ r_p r /\ f_end x = Z.of_nat (length w)).

Lemma genuine_fits whole p : genuine whole p -> fits p.
Proof. intros [_ [H1 _] H2 H3]. split; [unfold IP_HLEN in *; lia|]. intros H%H3. lia. Qed.

Lemma grown_holds whole p l r : genuine whole p -> holds (whole (key (p_hdr p))) r -> l ≡ₚ frag_of p :: r_p r ->
  holds (whole (key (p_hdr p))) (grown p l r).
Proof.
  intros Hg [H1 H2] Hl. unfold holds. rewrite last_seen_grown. destruct (grown_p p l r) as (-> & _ & _).
  split; [rewrite Hl; constructor; [apply (ge_part _ _ Hg)|done]|]. intros Hla. unfold grown. destruct (is_last p) eqn:E.
  - simpl. split; [by apply (ge_last _ _ Hg)|]. exists (frag_of p). rewrite Hl. split; [left|by apply (ge_last _ _ Hg)].
  - destruct (H2 Hla) as (H3 & x & Hx & Hxe). split; [done|]. exists x. rewrite Hl. split; [by right|done].
Qed.

(** The packet is the whole datagram [w], with the header of [h]. *)
Definition is_whole (w : list Z) (h : ip_hdr) (q : packet) : Prop :=
  concat (p_body q) = w /\ key (p_hdr q) = key h /\ iph_len (p_hdr q) = Z.of_nat (length w) + IP_HLEN /\ iph_offset (p_hdr q) = 0.

Lemma join_whole whole p l r : genuine whole p -> holds (whole (key (p_hdr p))) r -> l ≡ₚ frag_of p :: r_p r -> StronglySorted apart l ->
  Forall frag_ok (r_p r) -> rkey r = key (p_hdr p) -> last_seen (grown p l r) = true -> complete l = true ->
  is_whole (whole (key (p_hdr p))) (p_hdr p) (join (grown p l r)).
Proof.
  intros Hg Hh Hl Hs Hf Hk Hls Hc. destruct (grown_holds whole p l r Hg Hh Hl) as [G1 G2]. destruct (G2 Hls) as (G3 & x & Hx & Hxe).
  destruct (grown_p p l r) as (P1 & P2 & _). rewrite P1 in G1, Hx.
  destruct (frags_perm p l r (ge_frag _ _ Hg) (genuine_fits _ _ Hg) Hl Hf) as (F1 & _).
  unfold is_whole, join. cbn [p_hdr p_body]. rewrite P1. split; [by eapply complete_whole|].
  pose proof (ge_max _ _ Hg) as Hmax. unfold IP_HLEN in *. unfold key, with_chksum. simpl. rewrite P2, G3, u16_small by lia. split; [exact Hk|done].
Qed.

(** ** Steps of the timer *)

(** What one tick leaves of the datagrams. *)
Definition aged (l : list reassdata) : list reassdata :=
  omap (fun r => if 0 <? r_timer r then Some (set_r_timer (r_timer r - 1) r) else None) l.

Lemma reass_ok_set l1 r r' l2 s : datagrams s = l1 ++ r :: l2 -> reass_ok s -> dgram_ok r' -> rkey r' = rkey r -> r_p r' = r_p r ->
  reass_ok (set_datagrams (l1 ++ r' :: l2) s).
Proof.
  intros Hl [H1 H2 H3 H4 H5] Hr Hk Hp. rewrite Hl in *. split; simpl; try done.
  - apply Forall_app in H1 as [? [? ?]%Forall_cons]. apply Forall_app. split; [done|]. by constructor.
  - rewrite fmap_app in *. simpl in *. by rewrite Hk.
  - rewrite held_app in *. simpl in *. by rewrite Hp.
Qed.

Lemma reass_tmr_loop_ok rest : forall fuel pre s, datagrams s = pre ++ rest -> reass_ok s -> (length rest < fuel)%nat ->
  exists s', reass_tmr_loop fuel (length pre) (prev_of pre) s = Ret s' /\ datagrams s' = pre ++ aged rest /\ reass_ok s' /\
    others s' = others s /\ elements s' = elements s.
Proof.
  induction rest as [|r rest IH]; intros fuel pre s Hl Hok Hfuel; (destruct fuel as [|fuel]; [simpl in Hfuel; lia|]); cbn [reass_tmr_loop].
  { rewrite Hl, app_nil_r, (proj2 (lookup_ge_None pre (length pre))) by done. exists s. rewrite app_nil_r in Hl. by rewrite app_nil_r. }
  rewrite Hl, list_lookup_middle by done. simpl aged. destruct (Z.ltb_spec 0 (r_timer r)) as [Ht|Ht].
  - rewrite insert_app_r_alt, Nat.sub_diag by done. set (r' := set_r_timer (r_timer r - 1) r). change (<[0%nat:=r']> (r :: rest)) with (r' :: rest).
    assert (dgram_ok r') as Hr'.
    { pose proof (ro_dgrams _ Hok) as Hd. rewrite Hl in Hd. apply Forall_app in Hd as [_ [[D1 D2 D3 D4] _]%Forall_cons]. split; try done. simpl. lia. }
    pose proof (reass_ok_set pre r r' rest s Hl Hok Hr' eq_refl eq_refl) as Hok1.
    destruct (IH fuel (pre ++ [r']) (set_datagrams (pre ++ r' :: rest) s)) as (s' & Hrun & Hd & Hok' & Ho & He).
    { simpl. by rewrite <- app_assoc. }
    { done. }
    { simpl in Hfuel. lia. }
    exists s'. unfold prev_of in Hrun. rewrite length_app, (Nat.add_comm (length pre)) in Hrun. cbn [length Nat.add] in Hrun.
    split; [exact Hrun|]. rewrite <- app_assoc in Hd. split; [exact Hd|]. split; [done|]. split; [done|].
    rewrite He. unfold elements. simpl. rewrite Hl, !length_app. done.
  - destruct (free_complete_ok pre r rest s Hl Hok) as (m & -> & Hm). cbn [mbind outcome_bind].
    pose proof (reass_ok_remove pre r rest s m Hl Hok) as Hok1.
    destruct (IH fuel pre (RS (pre ++ rest) (pbufcount s - pbufs (r_p r)) (avail s + 1) m)) as (s' & Hrun & Hd & Hok' & Ho & He); try done.
    { simpl in Hfuel. lia. }
    exists s'. split; [exact Hrun|]. split; [exact Hd|]. split; [done|]. split.
    + rewrite Ho. unfold others. simpl. lia.
    + rewrite He. unfold elements. simpl. rewrite Hl, !length_app. simpl. lia.
Qed.
Lemma reass_tmr_ok s : reass_ok s ->
  exists s', ip_reass_tmr s = Ret s' /\ datagrams s' = aged (datagrams s) /\ reass_ok s' /\ others s' = others s /\ elements s' = elements s.
Proof. intros Hok. apply (reass_tmr_loop_ok (datagrams s) _ [] s eq_refl Hok). lia. Qed.

(** ** Histories *)
Inductive event := Arrives (p : packet) | Tick.
Fixpoint history (es : list event) s : outcome (list packet * reass N) :=
  match es with
  | [] => Ret ([], s)
  | Arrives p :: es' =>
      '(o, s) ← ip4_reass p s;
      '(qs, s) ← history es' s;
      Ret (match o with Some q => q :: qs | None => qs end, s)
  | Tick :: es' => s ← ip_reass_tmr s; history es' s
  end.
Definition arrivals (es : list event) : list packet := omap (fun e => match e with Arrives p => Some p | Tick => None end) es.
Definition clens (qs : list packet) : Z := foldr (fun q n => pkt_clen q + n) 0 qs.

(** C31: (any input) whatever fragments arrive, overlapping, repeated, too long or never complete, reassembly returns without
    a failed assertion, the timer too; the fragments that wait stay in order and apart, never more than
    [IP_REASS_MAX_PBUFS] pbufs, and every pbuf is waiting, given on or freed, every element of the pool in the
    list or free. *)
Theorem reass_safe es s : reass_ok s -> Forall is_frag (arrivals es) ->
  exists qs s', history es s = Ret (qs, s') /\ reass_ok s' /\ others s' = others s - clens (arrivals es) + clens qs /\
    elements s' = elements s.
Proof.
  revert s. induction es as [|[p|] es IH]; intros s Hok Hes; cbn [history].
  - exists [], s. split_and!; try done. simpl. lia.
  - simpl in Hes. apply Forall_cons in Hes as [Hp Hes]. destruct (step_ok p s Hok Hp) as (o & s1 & -> & Hst).
    destruct (step_keeps p s o s1 Hok Hp Hst) as (Hok1 & Ho & He). cbn [mbind outcome_bind].
    destruct (IH s1 Hok1 Hes) as (qs & s2 & -> & Hok2 & Ho2 & He2). cbn [mbind outcome_bind]. eexists _, s2. split; [reflexivity|].
    split; [done|]. split; [|congruence]. rewrite Ho2, Ho. simpl. destruct o; simpl; lia.
  - destruct (reass_tmr_ok s Hok) as (s1 & -> & _ & Hok1 & Ho & He). cbn [mbind outcome_bind].
    destruct (IH s1 Hok1 Hes) as (qs & s2 & -> & Hok2 & Ho2 & He2). exists qs, s2. split_and!; try done; [|congruence]. rewrite Ho2, Ho. done.
Qed.

(** Whole ticks. *)
Fixpoint ticks (n : nat) s : outcome (reass N) :=
  match n with O => Ret s | S n => s ← ip_reass_tmr s; ticks n s end.

Lemma aged_timers n l : Forall (fun r => r_timer r < Z.of_nat n) l -> Forall (fun r => r_timer r < Z.of_nat (n - 1)) (aged l).
Proof.
  intros Hl. apply Forall_forall. intros r (r0 & Hr0 & Hr)%list_elem_of_omap. rewrite Forall_forall in Hl. specialize (Hl r0 Hr0). simpl in Hl.
  destruct (Z.ltb_spec 0 (r_timer r0)); [|done]. injection Hr as <-. simpl. lia.
Qed.

Lemma ticks_ok n : forall s, reass_ok s -> Forall (fun r => r_timer r < Z.of_nat n) (datagrams s) ->
  exists s', ticks n s = Ret s' /\ datagrams s' = [] /\ reass_ok s' /\ others s' = others s /\ elements s' = elements s.
Proof.
  induction n as [|n IH]; intros s Hok Hn; cbn [ticks].
  { exists s. split; [done|]. split; [|done]. destruct (datagrams s) as [|r l] eqn:E; [done|]. apply Forall_cons in Hn as [Hn _].
    pose proof (ro_dgrams _ Hok) as Hd. rewrite E in Hd. apply Forall_cons in Hd as [[_ _ _ Ht] _]. simpl in Hn. lia. }
  destruct (reass_tmr_ok s Hok) as (s1 & -> & Hd & Hok1 & Ho & He). cbn [mbind outcome_bind].
  destruct (IH s1 Hok1) as (s2 & H2 & H3 & H4 & H5 & H6).
  { rewrite Hd. apply aged_timers in Hn. by rewrite Nat.sub_succ, Nat.sub_0_r in Hn. }
  exists s2. split_and!; try done; congruence.
Qed.

(** (time-out) datagrams that stay incomplete are given up: [IP_REASS_MAXAGE] + 1 ticks after the last new datagram nothing waits any more, all
    pbufs are freed and all elements are back in the pool. *)
Theorem reass_gives_up s : reass_ok s ->
  exists s', ticks (S (Z.to_nat IP_REASS_MAXAGE)) s = Ret s' /\ datagrams s' = [] /\ pbufcount s' = 0 /\
    rs_use (rnet s') = rs_use (rnet s) - pbufcount s /\ avail s' = avail s + Z.of_nat (length (datagrams s)).
Proof.
  intros Hok. destruct (ticks_ok (S (Z.to_nat IP_REASS_MAXAGE)) s Hok) as (s' & Hrun & Hd & Hok' & Ho & He).
  { eapply Forall_impl; [apply (ro_dgrams _ Hok)|]. intros r [_ _ _ Ht]. unfold IP_REASS_MAXAGE in *. lia. }
  exists s'. pose proof (ro_count _ Hok') as Hc. rewrite Hd in Hc. simpl in Hc. unfold others, elements in *. rewrite Hd in He. simpl in He.
  split_and!; try done; lia.
Qed.
(** ** Only whole datagrams come out *)

Definition good (whole : Z * Z * Z -> list Z) (r : reassdata) : Prop := holds (whole (rkey r)) r.

Lemma joined_good whole p l1 r l2 s o s' : genuine whole p -> joined p l1 r l2 s o s' -> rkey r = key (p_hdr p) -> good whole r ->
  Forall frag_ok (r_p r) -> Forall (good whole) l1 -> Forall (good whole) l2 ->
  Forall (good whole) (datagrams s') /\ Forall (is_whole (whole (key (p_hdr p))) (p_hdr p)) (option_list o).
Proof.
  intros Hg Hj Hk Hh Hf H1 H2. unfold good in Hh. rewrite Hk in Hh. destruct Hj as [m Hcl Hu|l Hfit Hperm Hsort Hfin|l Hfit Hperm Hsort Hls Hcm].
  - split; [|constructor]. destruct (decide _); [done|]. apply Forall_app. split; [done|]. constructor; [|done]. unfold good. by rewrite Hk.
  - split; [|constructor]. apply Forall_app. split; [done|]. constructor; [|done]. destruct (grown_p p l r) as (_ & G2 & _).
    unfold good, rkey. rewrite G2. unfold rkey in Hk. rewrite Hk. by apply grown_holds.
  - split; [by apply Forall_app|]. constructor; [|constructor]. by apply join_whole.
Qed.

Lemma step_good whole p s o s' : genuine whole p -> reass_ok s -> step p s o s' -> Forall (good whole) (datagrams s) ->
  Forall (good whole) (datagrams s') /\ Forall (is_whole (whole (key (p_hdr p))) (p_hdr p)) (option_list o).
Proof.
  intros Hg Hok Hst Hs. destruct Hst as [n s1 m Hmr Hu Hwhy|n s1 l1 r l2 o s' Hmr Hl Hk Hm Hj|n s1 o s' Hmr Hk Ha Hm Hj];
    pose proof (Forall_sublist _ _ _ (mr_sub _ _ _ _ Hmr) Hs) as Hs1; pose proof (ro_dgrams _ (mr_ok _ _ _ _ Hmr)) as Hd.
  - split; [done|constructor].
  - destruct (keep_first_hdr_same (p_hdr p) r) as (K1 & K2 & K3 & K4 & K5). rewrite Hl in Hs1, Hd.
    apply Forall_app in Hs1 as [S1 [S2 S3]%Forall_cons]. apply Forall_app in Hd as [_ [[_ D _ _] _]%Forall_cons].
    eapply joined_good in Hj; try done; rewrite ?K1; try done; [by apply K5|].
    unfold good, holds, last_seen. by rewrite K1, K2, K4, (K5 Hk), <- Hk.
  - eapply joined_good in Hj; try done; simpl; constructor; done.
Qed.

Lemma aged_good whole l : Forall (good whole) l -> Forall (good whole) (aged l).
Proof.
  intros Hl. apply Forall_forall. intros r (r0 & Hr0 & Hr)%list_elem_of_omap. rewrite Forall_forall in Hl. specialize (Hl r0 Hr0).
  destruct (0 <? r_timer r0); [|done]. by injection Hr as <-.
Qed.

(** C30: (no mixture) as long as the fragments that arrive are parts of real datagrams, every packet that reassembly gives on is
    one of these datagrams, complete and in order, its header with the length and the offset of the whole, whatever
    the order, the repetitions, the losses and the other datagrams between; the fragments themselves may
    be cut differently each time. *)
Theorem reass_only_whole whole es s : reass_ok s -> Forall (good whole) (datagrams s) -> Forall (genuine whole) (arrivals es) ->
  exists qs s', history es s = Ret (qs, s') /\ Forall (fun q => is_whole (whole (key (p_hdr q))) (p_hdr q) q) qs /\
    Forall (good whole) (datagrams s').
Proof.
  revert s. induction es as [|[p|] es IH]; intros s Hok Hs Hes; cbn [history].
  - exists [], s. split; [done|]. by split.
  - simpl in Hes. apply Forall_cons in Hes as [Hp Hes]. destruct (step_ok p s Hok (ge_frag _ _ Hp)) as (o & s1 & -> & Hst).
    destruct (step_keeps p s o s1 Hok (ge_frag _ _ Hp) Hst) as (Hok1 & _). destruct (step_good whole p s o s1 Hp Hok Hst Hs) as [Hs1 Ho].
    cbn [mbind outcome_bind]. destruct (IH s1 Hok1 Hs1 Hes) as (qs & s2 & -> & Hqs & Hs2). cbn [mbind outcome_bind].
    eexists _, s2. split; [reflexivity|]. split; [|done]. destruct o as [q|]; [|done]. constructor; [|done].
    apply Forall_cons in Ho as [Hw _]. pose proof Hw as (_ & -> & _). destruct Hw as (W1 & W2 & W3 & W4). by split_and!.
  - destruct (reass_tmr_ok s Hok) as (s1 & -> & Hd & Hok1 & _). cbn [mbind outcome_bind]. apply IH; try done. rewrite Hd. by apply aged_good.
Qed.
End props.
