(* ===== verification/Ip4ReassDone.v ===== *)
(** * All fragments of a datagram make the datagram

    A datagram is cut into fragments that follow each other; they arrive in any order, some more than
    once, while the timer ticks. When the last missing one arrives the datagram is given on, and not before. *)

From stdpp Require Import sorting.
From S2P Require Import Prelude Chain Chksum Ip4Hdr Ip4Reass Ip4ReassOk Ip4ReassProps.

#[export] Instance ip_hdr_eq_dec : EqDecision ip_hdr := ltac:(solve_decision).
#[export] Instance packet_eq_dec : EqDecision packet := ltac:(solve_decision).

(** ** Lists of fragments *)

#[export] Instance apart_anti : AntiSymm (=) apart.
Proof. intros a b [H1 _] [H2 _]. lia. Qed.

Lemma sorted_twice f l l' : StronglySorted apart l -> l ≡ₚ f :: l' -> f ∈ l' -> False.
Proof.
  intros Hs Hl Hf. assert (NoDup l) as Hd.
  { clear Hl. induction Hs as [|x l Hs IH Hx]; constructor; [|done]. intros Hin. rewrite Forall_forall in Hx. destruct (Hx x Hin). lia. }
  rewrite Hl in Hd. by apply NoDup_cons in Hd as [? _].
Qed.

(** A list without holes covers everything up to its end. *)
Lemma no_holes_covers l : forall v e t, no_holes v l = true -> last (v :: l) = Some e -> f_start v <= t < f_end e ->
  exists y, y ∈ v :: l /\ f_start y <= t < f_end y.
Proof.
  induction l as [|f l IH]; intros v e t Hh He Ht.
  { injection He as <-. exists v. split; [left|done]. }
  cbn [no_holes] in Hh. apply andb_true_iff in Hh as [Hv%Z.eqb_eq Hh]. destruct (decide (t < f_end v)).
  - exists v. split; [left|lia].
  - destruct (IH f e t Hh He) as (y & Hy & Hty); [lia|]. exists y. split; [by right|done].
Qed.
Lemma complete_covers l x t : complete l = true -> StronglySorted apart l -> Forall frag_ok l -> x ∈ l -> 0 <= t < f_end x ->
  exists y, y ∈ l /\ f_start y <= t < f_end y.
Proof.
  intros Hc Hs Hok Hx Ht. destruct l as [|v l]; [done|]. cbn [complete] in Hc. apply andb_true_iff in Hc as [H0%Z.eqb_eq Hh].
  destruct (last (v :: l)) as [e|] eqn:He; [|by apply last_None in He].
  apply (no_holes_covers l v e t Hh He). apply last_Some in He as [l' Hl]. rewrite Hl in Hs, Hok, Hx.
  apply Forall_app in Hok as [_ [[He _ _] _]%Forall_cons]. apply elem_of_app in Hx as [Hx| ->%list_elem_of_singleton]; [|lia].
  assert (apart x e) as [_ Ha] by (eapply StronglySorted_app_1_elem_of; [exact Hs|done|left]). lia.
Qed.

Lemma fmap_key_inj {A B} (f : A -> B) l x y : NoDup (f <$> l) -> x ∈ l -> y ∈ l -> f x = f y -> x = y.
Proof.
  induction l as [|z l IH]; intros Hd Hx Hy Hf; [by apply not_elem_of_nil in Hx|]. simpl in Hd. apply NoDup_cons in Hd as [Hz Hd].
  apply elem_of_cons in Hx as [->|Hx]; apply elem_of_cons in Hy as [->|Hy]; [done| | |by apply IH].
  - destruct Hz. rewrite Hf. by apply list_elem_of_fmap_2.
  - destruct Hz. rewrite <- Hf. by apply list_elem_of_fmap_2.
Qed.

(** ** A datagram in fragments *)

(** [P] are the fragments of the datagram with key [k], in order; [first] and [fin] are the first and the last. *)
Record fragments_of (k : Z * Z * Z) (P : list packet) (first fin : packet) : Prop := {
  fr_first : head P = Some first;
  fr_fin : last P = Some fin;
  fr_frag : Forall (fun p => is_frag p /\ IPH_HL_BYTES (p_hdr p) = IP_HLEN /\ key (p_hdr p) = k /\ 0 < tot_len (p_body p)) P;
  fr_last : forall p, p ∈ P -> is_last p = true <-> p = fin;
  fr_tiles : complete (frag_of <$> P) = true;
  fr_max : f_end (frag_of fin) <= 0xffff - IP_HLEN }.

(** The datagram. *)
Definition datagram (P : list packet) (first fin : packet) : packet :=
  Packet (with_chksum (set_offset 0 (set_len (f_end (frag_of fin) + IP_HLEN) (p_hdr first)))) (concat (p_body <$> P)).

Section whole.
  Context (k : Z * Z * Z) (P : list packet) (first fin : packet) (HP : fragments_of k P first fin).

Lemma no_holes_sorted l : forall v, no_holes v l = true -> Forall (fun f => f_start f < f_end f) (v :: l) -> StronglySorted apart (v :: l).
Proof.
  induction l as [|f l IH]; intros v Hh [Hv Hl]%Forall_cons; [repeat constructor|].
  cbn [no_holes] in Hh. apply andb_true_iff in Hh as [He%Z.eqb_eq Hh]. specialize (IH f Hh Hl). constructor; [done|].
  apply StronglySorted_inv in IH as [_ Hf]. constructor; [unfold apart; lia|]. apply Forall_cons in Hl as [Hf' _].
  eapply Forall_impl; [exact Hf|]. intros x [H1 H2]. unfold apart. lia.
Qed.
Lemma pieces_sorted : StronglySorted apart (frag_of <$> P).
Proof.
  pose proof (fr_tiles _ _ _ _ HP) as Hc. pose proof (fr_frag _ _ _ _ HP) as Hf. destruct P as [|p l]; [constructor|].
  rewrite fmap_cons in *. apply andb_true_iff in Hc as [_ Hh]. apply (no_holes_sorted _ _ Hh). rewrite <- fmap_cons.
  apply Forall_fmap. eapply Forall_impl; [exact Hf|]. intros q (_ & _ & _ & Hq). simpl. lia.
Qed.
Lemma fin_in : fin ∈ P.
Proof. eapply last_Some_elem_of, (fr_fin _ _ _ _ HP). Qed.
Lemma pieces_apart p q : p ∈ P -> q ∈ P -> p <> q -> apart (frag_of p) (frag_of q) \/ apart (frag_of q) (frag_of p).
Proof.
  pose proof pieces_sorted as Hs. revert Hs. generalize P. intros l. induction l as [|x l IH]; intros Hs Hp Hq Hne; [by apply not_elem_of_nil in Hp|].
  simpl in Hs. apply StronglySorted_inv in Hs as [Hs Hx]. rewrite Forall_fmap, Forall_forall in Hx.
  apply elem_of_cons in Hp as [->|Hp]; apply elem_of_cons in Hq as [->|Hq]; [done| | |by apply IH].
  - left. by apply Hx.
  - right. by apply Hx.
Qed.
Lemma piece_of p : p ∈ P -> is_frag p /\ IPH_HL_BYTES (p_hdr p) = IP_HLEN /\ key (p_hdr p) = k /\ 0 < tot_len (p_body p).
Proof. pose proof (fr_frag _ _ _ _ HP) as Hf. rewrite Forall_forall in Hf. apply Hf. Qed.
Lemma piece_end p : p ∈ P -> f_end (frag_of p) <= f_end (frag_of fin).
Proof.
  intros Hp. destruct (decide (p = fin)) as [->|Hne]; [done|]. destruct (piece_of _ Hp) as (_ & _ & _ & Hpos).
  destruct (piece_of _ fin_in) as (_ & _ & _ & Hpos').
  pose proof pieces_sorted as Hs. pose proof (fr_fin _ _ _ _ HP) as Hfin. apply last_Some in Hfin as [l Hl]. rewrite Hl in Hs, Hp. rewrite fmap_app in Hs.
  apply elem_of_app in Hp as [Hp| ->%list_elem_of_singleton]; [|done].
  assert (apart (frag_of p) (frag_of fin)) as [_ Ha].
  { eapply StronglySorted_app_1_elem_of; [exact Hs|by apply list_elem_of_fmap_2|left]. }
  simpl in *. lia.
Qed.
Lemma piece_fits p : p ∈ P -> fits p.
Proof.
  intros Hp. pose proof (piece_end p Hp). pose proof (fr_max _ _ _ _ HP). split; [unfold IP_HLEN in *; lia|]. intros _. lia.
Qed.

(** Fragments of [P] in order that are complete and have the last one are all of [P]. *)
Lemma complete_all l got : l ≡ₚ frag_of <$> got -> Forall (.∈ P) got -> StronglySorted apart l -> complete l = true -> fin ∈ got ->
  forall x, x ∈ P -> x ∈ got.
Proof.
  intros Hl Hg Hs Hc Hfin x Hx. assert (forall q, q ∈ got -> q ∈ P) as Hin by (by rewrite Forall_forall in Hg).
  assert (Forall frag_ok l) as Hok.
  { rewrite Hl, Forall_fmap. apply Forall_forall. intros q Hq. simpl. destruct (piece_of _ (Hin q Hq)) as (Hf & _).
    apply frag_of_ok; [done|]. by destruct (piece_fits q (Hin q Hq)). }
  destruct (piece_of _ Hx) as ([] & _ & _ & Hpos). pose proof (piece_end x Hx) as He. pose proof (offset_range (p_hdr x)).
  destruct (complete_covers l (frag_of fin) (f_start (frag_of x)) Hc Hs Hok) as (y & Hy & Hty).
  { rewrite Hl. by apply list_elem_of_fmap_2. }
  { simpl in *. lia. }
  rewrite Hl in Hy. apply list_elem_of_fmap in Hy as (q & -> & Hq). destruct (decide (x = q)) as [->|Hne]; [done|].
  destruct (pieces_apart x q Hx (Hin q Hq) Hne) as [[A1 A2]|[A1 A2]]; simpl in *; lia.
Qed.

(** ** What a datagram has collected *)

Record collected (got : list packet) (t : Z) (r : reassdata) : Prop := {
  cd_key : rkey r = k;
  cd_p : r_p r ≡ₚ frag_of <$> got;
  cd_last : last_seen r = true <-> fin ∈ got;
  cd_len : fin ∈ got -> r_len r = f_end (frag_of fin);
  cd_timer : t <= r_timer r }.
(** The header is that of one of them, of the first one if it is there. *)
Definition header (got : list packet) (r : reassdata) : Prop :=
  (exists q, q ∈ got /\ r_iphdr r = p_hdr q) /\ (first ∈ got -> r_iphdr r = p_hdr first).

Lemma grown_collected p l got t r : p ∈ P -> collected got t r -> l ≡ₚ frag_of p :: r_p r -> collected (p :: got) t (grown p l r).
Proof.
  intros Hp [H1 H2 H3 H4 H5] Hl. destruct (grown_p p l r) as (G1 & G2 & G3). pose proof (fr_last _ _ _ _ HP p Hp) as Hla. split.
  - unfold rkey. by rewrite G2.
  - by rewrite G1, Hl, H2.
  - rewrite last_seen_grown, orb_true_iff, Hla, H3, elem_of_cons. naive_solver.
  - intros Hin. unfold grown. destruct (is_last p) eqn:E; simpl.
    + by rewrite (proj1 Hla eq_refl).
    + apply H4. apply elem_of_cons in Hin as [Hin|Hin]; [|done]. symmetry in Hin. apply Hla in Hin. congruence.
  - by rewrite G3.
Qed.

Lemma first_piece p : p ∈ P -> Z.land (iph_offset (p_hdr p)) IP_OFFMASK = 0 <-> p = first.
Proof.
  intros Hp. assert (Z.land (iph_offset (p_hdr p)) IP_OFFMASK = 0 <-> f_start (frag_of p) = 0) as ->.
  { simpl. unfold IPH_OFFSET_BYTES. change IP_OFFMASK with (Z.ones 13). rewrite Z.land_ones by lia.
    pose proof (Z.mod_pos_bound (iph_offset (p_hdr p)) (2 ^ 13) ltac:(lia)). rewrite u16_small; lia. }
  assert (first ∈ P /\ f_start (frag_of first) = 0) as [Hf H0].
  { pose proof (fr_first _ _ _ _ HP) as Hf. pose proof (fr_tiles _ _ _ _ HP) as Hc. destruct P as [|x l]; [done|]. injection Hf as ->.
    split; [left|]. rewrite fmap_cons in Hc. apply andb_true_iff in Hc as [?%Z.eqb_eq _]. done. }
  split; [|by intros ->]. intros Hs. destruct (decide (p = first)) as [|Hne]; [done|].
  destruct (pieces_apart p first Hp Hf Hne) as [[A _]|[A _]]; lia.
Qed.
Lemma keep_header p got r : p ∈ P -> Forall (.∈ P) got -> header got r -> header (p :: got) (keep_first_hdr (p_hdr p) r).
Proof.
  intros Hp Hg [(q & Hq & Hr) Hf]. rewrite Forall_forall in Hg. pose proof (first_piece p Hp) as F. unfold keep_first_hdr.
  destruct (Z.eqb_spec (Z.land (iph_offset (p_hdr p)) IP_OFFMASK) 0) as [E|E]; cbn [andb].
  - apply F in E as ->. destruct (Z.eqb_spec (Z.land (iph_offset (r_iphdr r)) IP_OFFMASK) 0) as [E'|E']; cbn [negb].
    + rewrite Hr in E'. apply (first_piece q (Hg q Hq)) in E' as ->. split; [exists first; split; [left|done]|done].
    + split; [exists first; split; [left|done]|done].
  - split; [exists q; split; [by right|done]|]. intros [<-|Hin]%elem_of_cons; [by destruct E; apply F|by apply Hf].
Qed.
Lemma keep_collected p got t r : p ∈ P -> collected got t r -> collected got t (keep_first_hdr (p_hdr p) r).
Proof.
  intros Hp [H1 H2 H3 H4 H5]. destruct (keep_first_hdr_same (p_hdr p) r) as (K1 & K2 & K3 & K4 & K5). destruct (piece_of _ Hp) as (_ & _ & Hk & _).
  split; rewrite ?K1, ?K3, ?K4; try done; [rewrite K5; congruence|]. unfold last_seen. by rewrite K2.
Qed.

(** When nothing is missing the fragments are all of [P] and the datagram is the one that was cut. *)
Lemma all_pieces l got : l ≡ₚ frag_of <$> got -> NoDup got -> (forall x, x ∈ P <-> x ∈ got) -> StronglySorted apart l -> l = frag_of <$> P.
Proof.
  intros Hl Hn Hall Hs. apply (StronglySorted_unique apart); [done|apply pieces_sorted|].
  assert (NoDup P) as HnP.
  { apply (NoDup_fmap_1 frag_of). pose proof pieces_sorted as HsP. induction HsP as [|x l' Hs' IH Hx]; constructor; [|done].
    intros Hin. rewrite Forall_forall in Hx. destruct (Hx x Hin). lia. }
  rewrite Hl. apply fmap_Permutation, NoDup_Permutation; [done|done|]. intros x. by rewrite Hall.
Qed.
Lemma join_all got t r : collected got t r -> header got r -> (forall x, x ∈ P <-> x ∈ got) -> r_p r = frag_of <$> P ->
  join r = datagram P first fin.
Proof.
  intros [H1 H2 H3 H4 H5] [_ Hf] Hall Hl.
  assert (first ∈ P) as Hin.
  { pose proof (fr_first _ _ _ _ HP) as Hh. destruct P; [done|]. injection Hh as ->. left. }
  unfold join, datagram. rewrite (H4 (proj1 (Hall fin) fin_in)), Hl, (Hf (proj1 (Hall first) Hin)).
  pose proof (fr_max _ _ _ _ HP). destruct (piece_of _ fin_in) as (_ & _ & _ & Hpos). pose proof (offset_range (p_hdr fin)).
  unfold IP_HLEN in *. rewrite u16_small by (simpl in *; lia). by rewrite <- list_fmap_compose.
Qed.

(** ** Collecting *)

Definition count_ticks (es : list event) : Z := foldr (fun e n => match e with Tick => n + 1 | _ => n end) 0 es.
Lemma count_nonneg es : 0 <= count_ticks es.
Proof. induction es as [|[|] es]; simpl; lia. Qed.
Lemma length_omap_le l : (length (aged l) <= length l)%nat.
Proof. induction l as [|r l IH]; simpl; [done|]. destruct (0 <? r_timer r); simpl; lia. Qed.
Lemma history_app {N} `{!ReassNet N} es1 : forall es2 (s : reass N),
  history (es1 ++ es2) s = ('(qs1, s1) ← history es1 s; '(qs2, s2) ← history es2 s1; Ret (qs1 ++ qs2, s2)).
Proof.
  induction es1 as [|[p|] es1 IH]; intros es2 s; cbn [history app].
  - cbn [mbind outcome_bind]. by destruct (history es2 s) as [[qs s']| | |].
  - destruct (ip4_reass p s) as [[o s1]| | |]; try done. cbn [mbind outcome_bind]. rewrite IH.
    destruct (history es1 s1) as [[qs1 s2]| | |]; try done. cbn [mbind outcome_bind]. by destruct (history es2 s2) as [[qs2 s3]| | |], o.
  - destruct (ip_reass_tmr s) as [s1| | |]; try done. cbn [mbind outcome_bind]. apply IH.
Qed.

Section collecting.
  Context {N : Type} `{!ReassNet N} `{!ReassLaws N}.
  Implicit Type s : reass N.
  Hypothesis Hsum : clens P <= IP_REASS_MAX_PBUFS.

(** The fragments [got] are waiting, for [t] more ticks at least; before the first one there is an element for it. *)
Definition collecting (got : list packet) (t : Z) s : Prop :=
  NoDup got /\ Forall (.∈ P) got /\
  match got with
  | [] => k ∉ rkey <$> datagrams s /\ 0 < avail s
  | _ => exists r, r ∈ datagrams s /\ collected got t r /\ header got r
  end.

Lemma clens_fmap l : clens l = pbufs (frag_of <$> l).
Proof. induction l as [|p l IH]; [done|]. cbn [clens foldr]. change (foldr _ 0 l) with (clens l). by rewrite IH. Qed.
Lemma clens_sub l : NoDup l -> Forall (.∈ P) l -> clens l <= IP_REASS_MAX_PBUFS.
Proof.
  intros Hn Hl. rewrite Forall_forall in Hl. apply NoDup_submseteq in Hl as Hsub; [|done]. apply submseteq_Permutation in Hsub as [l' Hperm].
  rewrite clens_fmap in *. apply (fmap_Permutation frag_of) in Hperm. rewrite (pbufs_perm _ _ Hperm), fmap_app, pbufs_app in Hsum.
  pose proof (pbufs_nonneg (frag_of <$> l')). lia.
Qed.

Lemma collecting_one got t s r : reass_ok s -> r ∈ datagrams s -> rkey r = k -> collecting got t s -> got <> [] /\ collected got t r /\ header got r.
Proof.
  intros Hok Hr Hk (_ & _ & Hc). destruct got as [|q got].
  - destruct Hc as [[] _]. rewrite <- Hk. by apply list_elem_of_fmap_2.
  - destruct Hc as (r' & Hr' & Hc & Hh). split; [done|]. rewrite (fmap_key_inj rkey (datagrams s) r r'); try done; [apply (ro_keys _ Hok)|].
    by rewrite Hk, (cd_key _ _ _ Hc).
Qed.
Lemma collecting_own got t s p : reass_ok s -> collecting got t s -> key (p_hdr p) = k -> own (p_hdr p) s = clens got.
Proof.
  intros Hok Hco Hk. unfold own. assert (forall l, NoDup (rkey <$> l) -> (forall r, r ∈ l -> r ∈ datagrams s) ->
    held (filter (fun r => rkey r = key (p_hdr p)) l) = if decide (k ∈ rkey <$> l) then clens got else 0) as H.
  { rewrite Hk. induction l as [|r l IH]; intros Hn Hin; [done|]. rewrite fmap_cons in *. apply NoDup_cons in Hn as [Hr Hn].
    rewrite filter_cons. specialize (IH Hn ltac:(intros; apply Hin; by right)). destruct (decide (rkey r = k)) as [E|E].
    - rewrite (decide_True (P := k ∈ _)) by (rewrite E; left). rewrite E in Hr. rewrite decide_False in IH by done.
      cbn [held foldr]. change (foldr _ 0 ?x) with (held x). rewrite IH.
      destruct (collecting_one got t s r Hok) as (_ & Hc & _); [apply Hin; left|done|done|].
      rewrite (pbufs_perm _ _ (cd_p _ _ _ Hc)), clens_fmap. lia.
    - rewrite IH. destruct (decide (k ∈ rkey <$> l)) as [Hi|Hi]; [by rewrite decide_True by (by right)|].
      rewrite decide_False; [done|]. rewrite not_elem_of_cons. split; [congruence|done]. }
  rewrite H; [|apply (ro_keys _ Hok)|done]. destruct (decide _) as [Hd|Hd]; [done|]. destruct got as [|q got]; [done|].
  destruct Hco as (_ & _ & r & Hr & Hc & _). destruct Hd. rewrite <- (cd_key _ _ _ Hc). by apply list_elem_of_fmap_2.
Qed.

Lemma collecting_room p n got t s s1 : key (p_hdr p) = k -> made_room (p_hdr p) n s s1 -> collecting got t s -> collecting got t s1.
Proof.
  intros Hk Hmr (H1 & H2 & H3). split; [done|]. split; [done|]. destruct got as [|q got].
  - destruct H3 as [H3 H4]. rewrite <- Hk in *. rewrite (made_room_key _ _ _ _ Hmr). split; [done|].
    pose proof (mr_elements _ _ _ _ Hmr) as He. pose proof (sublist_length _ _ (mr_sub _ _ _ _ Hmr)). unfold elements in He. lia.
  - destruct H3 as (r & Hr & Hc & Hh). exists r. split; [|done]. apply (made_room_in _ _ _ _ r Hmr); [|done]. by rewrite Hk, (cd_key _ _ _ Hc).
Qed.

(** What the arrival of [p] does when [got] are waiting. *)
Definition collects (p : packet) (got : list packet) (t : Z) (o : option packet) s : Prop :=
  if decide (p ∈ got) then o = None /\ collecting got t s
  else if decide (Forall (.∈ p :: got) P) then o = Some (datagram P first fin) /\ k ∉ rkey <$> datagrams s
  else o = None /\ collecting (p :: got) t s.

Lemma no_clash p got t r : p ∈ P -> Forall (.∈ P) got -> collected got t r -> p ∉ got -> ~ clashes p r.
Proof.
  intros Hp Hg Hc Hn [Hf|(q & Hq & A1 & A2)]; [by destruct Hf; apply piece_fits|].
  rewrite (cd_p _ _ _ Hc) in Hq. apply list_elem_of_fmap in Hq as (g & -> & Hgin). rewrite Forall_forall in Hg.
  destruct (pieces_apart g p (Hg g Hgin) Hp); [by intros ->|done|done].
Qed.

Lemma joined_collects p got t l1 r l2 s o s' : p ∈ P -> NoDup got -> Forall (.∈ P) got -> collected got t r -> header (p :: got) r ->
  joined p l1 r l2 s o s' -> k ∉ rkey <$> l1 ++ l2 -> collects p got t o s'.
Proof.
  intros Hp Hnd Hg Hc Hh Hj Hk. unfold collects. destruct (decide (p ∈ got)) as [Hin|Hin].
  - assert (frag_of p ∈ r_p r) as Hfr by (rewrite (cd_p _ _ _ Hc); by apply list_elem_of_fmap_2).
    destruct Hj as [m Hcl Hu|l Hfit Hperm Hsort Hfin|l Hfit Hperm Hsort Hls Hcm]; [|by destruct (sorted_twice (frag_of p) l (r_p r))..].
    split; [done|]. rewrite decide_False by (intros E; rewrite E in Hfr; by apply not_elem_of_nil in Hfr).
    split; [done|]. split; [done|]. destruct got as [|g got]; [by apply not_elem_of_nil in Hin|].
    exists r. split; [simpl; apply elem_of_app; right; left|]. split; [done|]. destruct Hh as [(q & Hq & Hr) Hf].
    split; [|intros Hfi; apply Hf; by right]. exists q. split; [|done]. by apply elem_of_cons in Hq as [->|Hq].
  - assert (NoDup (p :: got)) as Hnd' by (by constructor). assert (Forall (.∈ P) (p :: got)) as Hg' by (by constructor).
    assert (forall l, l ≡ₚ frag_of p :: r_p r -> l ≡ₚ frag_of <$> p :: got) as Hp' by (intros l ->; by rewrite (cd_p _ _ _ Hc)).
    assert (Forall (.∈ p :: got) P -> forall x, x ∈ P <-> x ∈ p :: got) as Hall.
    { rewrite !Forall_forall in *. intros HA x. split; [apply HA|apply Hg']. }
    destruct Hj as [m Hcl Hu|l Hfit Hperm Hsort Hfin|l Hfit Hperm Hsort Hls Hcm]; [by destruct (no_clash p got t r)| |];
      pose proof (grown_collected p l got t r Hp Hc Hperm) as Hgr; destruct (grown_p p l r) as (G1 & G2 & _).
    + rewrite decide_False.
      * split; [done|]. split; [done|]. split; [done|]. exists (grown p l r). split; [simpl; apply elem_of_app; right; left|]. split; [done|].
        unfold header. by rewrite G2.
      * intros HA. specialize (Hall HA). apply andb_false_iff in Hfin as [Hfin|Hfin].
        -- assert (last_seen (grown p l r) = true); [|congruence]. apply (cd_last _ _ _ Hgr), Hall, fin_in.
        -- rewrite (all_pieces l (p :: got)), (fr_tiles _ _ _ _ HP) in Hfin; try done. by apply Hp'.
    + pose proof (proj1 (cd_last _ _ _ Hgr) Hls) as Hfin.
      pose proof (complete_all l (p :: got) (Hp' l Hperm) Hg' Hsort Hcm Hfin) as HA. rewrite decide_True by (by apply Forall_forall).
      split; [|done]. f_equal. apply (join_all (p :: got) t); try done.
      * unfold header. by rewrite G2.
      * apply Hall. by apply Forall_forall.
      * rewrite G1. apply (all_pieces l (p :: got)); try done; [by apply Hp'|]. apply Hall. by apply Forall_forall.
Qed.

Lemma step_collects p got t s o s' : p ∈ P -> reass_ok s -> step p s o s' -> collecting got t s -> t <= IP_REASS_MAXAGE -> collects p got t o s'.
Proof.
  intros Hp Hok Hst Hco Ht. destruct (piece_of _ Hp) as (Hf & Hhl & Hk & _).
  destruct Hst as [n s1 m Hmr Hu Hwhy|n s1 l1 r l2 o s' Hmr Hl Hr Hm Hj|n s1 o s' Hmr Hkn Ha Hm Hj];
    pose proof (collecting_room p n got t s s1 Hk Hmr Hco) as (H1 & H2 & H3).
  - unfold collects. destruct (decide (p ∈ got)) as [Hin|Hin]; [by split|]. exfalso. destruct Hwhy as [?|[Hwhy|[Hwhy Hwhy']]]; [done| |].
    + rewrite (collecting_own got t s p Hok Hco Hk) in Hwhy. pose proof (clens_sub (p :: got)) as Hcs. cbn [clens foldr] in Hcs.
      change (foldr _ 0 got) with (clens got) in Hcs. assert (pkt_clen p + clens got <= IP_REASS_MAX_PBUFS); [|lia]. apply Hcs; by constructor.
    + destruct Hco as (_ & _ & Hco). destruct got as [|q got]; [lia|]. destruct Hco as (r & Hr & Hc & _). apply Hwhy'. rewrite Hk, <- (cd_key _ _ _ Hc).
      by apply list_elem_of_fmap_2.
  - pose proof (mr_ok _ _ _ _ Hmr) as Hok1. rewrite Hk in Hr.
    destruct (collecting_one got t s1 r Hok1) as (Hne & Hc & Hh); [rewrite Hl; apply elem_of_app; right; left|done|done|].
    eapply (joined_collects p got t l1 (keep_first_hdr (p_hdr p) r)); try done; [by apply keep_collected|by apply keep_header|].
    pose proof (ro_keys _ Hok1) as Hkeys. rewrite Hl, fmap_app, fmap_cons in Hkeys. rewrite fmap_app, <- Hr.
    apply NoDup_app in Hkeys as (_ & K1 & [K2 _]%NoDup_cons). rewrite not_elem_of_app. split; [|done]. intros Hx. apply (K1 _ Hx). left.
  - destruct got as [|q got].
    + eapply (joined_collects p [] t [] (fresh (p_hdr p))); try done; [|split; [exists p; split; [left|done]|by intros ->%list_elem_of_singleton]|by rewrite <- Hk].
      assert (fin ∉ @nil packet) as Hno by apply not_elem_of_nil. by split.
    + destruct H3 as (r & Hr & Hc & _). destruct Hkn. rewrite Hk, <- (cd_key _ _ _ Hc). by apply list_elem_of_fmap_2.
Qed.

Lemma tick_collects got t s s' : collecting got t s -> 0 < t -> datagrams s' = aged (datagrams s) -> elements s' = elements s ->
  collecting got (t - 1) s'.
Proof.
  intros (H1 & H2 & H3) Ht Hd He. split; [done|]. split; [done|]. rewrite Hd. destruct got as [|q got].
  - destruct H3 as [H3 H4]. split.
    + intros (r & Hk & (r0 & Hr0 & Hr)%list_elem_of_omap)%list_elem_of_fmap. destruct (0 <? r_timer r0); [|done]. injection Hr as <-.
      apply H3. change (k = rkey r0) in Hk. rewrite Hk. by apply list_elem_of_fmap_2.
    + unfold elements in He. rewrite Hd in He. pose proof (length_omap_le (datagrams s)) as Hle. lia.
  - destruct H3 as (r & Hr & [C1 C2 C3 C4 C5] & Hh). exists (set_r_timer (r_timer r - 1) r). split; [|split; [|done]].
    + apply list_elem_of_omap. exists r. split; [done|]. rewrite (proj2 (Z.ltb_lt _ _)) by lia. done.
    + split; try done. simpl. lia.
Qed.

Lemma history_collects es : forall got t s, reass_ok s -> collecting got t s -> Forall (.∈ P) (arrivals es) -> count_ticks es <= t <= IP_REASS_MAXAGE ->
  (exists x, x ∈ P /\ x ∉ got /\ x ∉ arrivals es) ->
  exists got' s', history es s = Ret ([], s') /\ reass_ok s' /\ collecting got' (t - count_ticks es) s' /\
    forall x, x ∈ got' <-> x ∈ got \/ x ∈ arrivals es.
Proof.
  induction es as [|[p|] es IH]; intros got t s Hok Hco Hes Ht (x & Hx & Hx1 & Hx2); cbn [history].
  - exists got, s. split; [done|]. split; [done|]. simpl. rewrite Z.sub_0_r. split; [done|]. intros y. split; [by left|]. intros [?|?%not_elem_of_nil]; done.
  - change (arrivals (Arrives p :: es)) with (p :: arrivals es) in *. apply Forall_cons in Hes as [Hp Hes]. apply not_elem_of_cons in Hx2 as [Hxp Hx2].
    change (count_ticks (Arrives p :: es)) with (count_ticks es) in *.
    destruct (piece_of _ Hp) as (Hf & _). destruct (step_ok p s Hok Hf) as (o & s1 & -> & Hst).
    destruct (step_keeps p s o s1 Hok Hf Hst) as (Hok1 & _). pose proof (step_collects p got t s o s1 Hp Hok Hst Hco ltac:(lia)) as Hcs.
    cbn [mbind outcome_bind]. assert (exists got1, o = None /\ collecting got1 t s1 /\ forall y, y ∈ got1 <-> y ∈ got \/ y = p) as (got1 & -> & Hco1 & Hg1).
    { unfold collects in Hcs. destruct (decide (p ∈ got)) as [Hin|Hin].
      - destruct Hcs as [-> Hcs]. exists got. split; [done|]. split; [done|]. intros y. split; [by left|]. by intros [?| ->].
      - rewrite decide_False in Hcs.
        + destruct Hcs as [-> Hcs]. exists (p :: got). split; [done|]. split; [done|]. intros y. rewrite elem_of_cons. tauto.
        + rewrite Forall_forall. intros HA. destruct (proj1 (elem_of_cons _ _ _) (HA x Hx)); done. }
    destruct (IH got1 t s1 Hok1 Hco1 Hes Ht) as (got' & s' & -> & Hok' & Hco' & Hg').
    { exists x. split; [done|]. split; [|done]. rewrite Hg1. by intros [?|?]. }
    exists got', s'. split; [done|]. split; [done|]. split; [done|]. intros y. rewrite Hg', Hg1, elem_of_cons. tauto.
  - change (arrivals (Tick :: es)) with (arrivals es) in *. assert (count_ticks (Tick :: es) = count_ticks es + 1) as Hct by (simpl; lia).
    destruct (reass_tmr_ok s Hok) as (s1 & -> & Hd & Hok1 & _ & He). cbn [mbind outcome_bind]. pose proof (count_nonneg es).
    destruct (IH got (t - 1) s1 Hok1) as (got' & s' & Hrun & Hok' & Hco' & Hg'); try done; [|lia|by exists x|].
    { by apply (tick_collects got t s); try done; [lia]. }
    exists got', s'. split; [done|]. split; [done|]. rewrite Hct. replace (t - (count_ticks es + 1)) with (t - 1 - count_ticks es) by lia. done.
Qed.

Lemma reass_completes_ok es p s : reass_ok s -> k ∉ rkey <$> datagrams s -> 0 < avail s ->
  Forall (.∈ P) (arrivals es) -> count_ticks es <= IP_REASS_MAXAGE ->
  p ∈ P -> p ∉ arrivals es -> (forall x, x ∈ P -> x = p \/ x ∈ arrivals es) ->
  exists s', history (es ++ [Arrives p]) s = Ret ([datagram P first fin], s') /\ k ∉ rkey <$> datagrams s' /\ reass_ok s'.
Proof.
  intros Hok Hk Ha Hes Ht Hp Hnp Hall.
  destruct (history_collects es [] IP_REASS_MAXAGE s Hok) as (got & s1 & Hrun & Hok1 & Hco & Hgot); try done.
  { split; [constructor|]. split; [constructor|]. done. }
  { exists p. split; [done|]. split; [apply not_elem_of_nil|done]. }
  rewrite history_app, Hrun. cbn [mbind outcome_bind history app]. destruct (piece_of _ Hp) as (Hf & _).
  destruct (step_ok p s1 Hok1 Hf) as (o & s2 & -> & Hst). destruct (step_keeps p s1 o s2 Hok1 Hf Hst) as (Hok2 & _).
  pose proof (count_nonneg es).
  pose proof (step_collects p got _ s1 o s2 Hp Hok1 Hst Hco ltac:(lia)) as Hcs. unfold collects in Hcs.
  rewrite decide_False, decide_True in Hcs.
  - destruct Hcs as [-> Hcs]. cbn [mbind outcome_bind]. exists s2. done.
  - apply Forall_forall. intros x Hx. apply elem_of_cons. destruct (Hall x Hx) as [?|?]; [by left|]. right. apply Hgot. by right.
  - rewrite Hgot. by intros [?%not_elem_of_nil|?].
Qed.
End collecting.
End whole.

(** C32: (any order) all fragments of a datagram that fits into [IP_REASS_MAX_PBUFS] arrive, in any order, some of them
    several times, with at most [IP_REASS_MAXAGE] ticks between: nothing is given on before the last missing one, and with it the
    datagram that was cut, its bytes in order under the header of the first fragment; other datagrams may be waiting. *)
Theorem reass_completes {N} `{!ReassNet N} `{!ReassLaws N} k P first fin es p (s : reass N) : fragments_of k P first fin ->
  clens P <= IP_REASS_MAX_PBUFS -> reass_ok s -> k ∉ rkey <$> datagrams s -> 0 < avail s ->
  Forall (.∈ P) (arrivals es) -> count_ticks es <= IP_REASS_MAXAGE ->
  p ∈ P -> p ∉ arrivals es -> (forall x, x ∈ P -> x = p \/ x ∈ arrivals es) ->
  exists s', history (es ++ [Arrives p]) s = Ret ([datagram P first fin], s') /\ k ∉ rkey <$> datagrams s' /\ reass_ok s'.
Proof. intros HP Hsum. by apply reass_completes_ok. Qed.
