(* ===== verification/Ip4Frag.v ===== *)
(** * IPv4 fragmentation ([ip4_frag.c], [IP_FRAG])

    A datagram is sent in fragments: a pbuf with the header, and [PBUF_REF]s that mirror a part of
    the original chain. The pointer [p] into the chain is the rest of the chain from that pbuf on; [poff] counts from the
    end of the header in the first pbuf. *)

From S2P Require Import Prelude Chain Chksum Ip4Hdr Ip4Reass Ip4ReassOk Ip4ReassProps Ip4ReassDone.

(** [pbuf_alloc(PBUF_LINK, IP_HLEN, PBUF_RAM)], an element of [MEMP_FRAG_PBUF], [netif->output], and [pbuf_free] of the
    header pbuf with so many mirrors: [ipfrag_free_pbuf_custom] gives each one back. *)
Class FragNet (N : Type) := {
  frag_ram : N -> bool * N;
  frag_ref : N -> bool * N;
  frag_output : N -> packet -> N;
  frag_free : N -> nat -> N }.

Section frag.
  Context {N : Type} `{!FragNet N}.
  Implicit Type n : N.

(** The loop [while (left_to_copy)]: the mirrors so far, [None] when an element is missing. The length given to [pbuf_alloced_custom] is that of the
    memory, with no room for a header in front, so it does not fail. *)
Fixpoint mirror (c : chain) (poff left_to_copy : Z) (acc : chain) n : outcome (option (chain * chain * Z) * N) :=
  match c with
  | [] => Undef
  | b :: c' =>
      let plen := u16 (Z.of_nat (length b) - poff) in
      lwip_assert (poff <=? Z.of_nat (length b));;
      let newpbuflen := Z.min left_to_copy plen in
      if newpbuflen =? 0 then mirror c' 0 left_to_copy acc n
      else
        let '(ok, n) := frag_ref n in
        if negb ok then Ret (None, frag_free n (length acc))
        else
          let acc := acc ++ [take (Z.to_nat newpbuflen) (drop (Z.to_nat poff) b)] in
          let left_to_copy := u16 (left_to_copy - newpbuflen) in
          if left_to_copy =? 0 then Ret (Some (acc, c, u16 (poff + newpbuflen)), n)
          else mirror c' 0 left_to_copy acc n
  end.

(** The header of a fragment. *)
Definition frag_hdr (h : ip_hdr) (ofo fragsize : Z) (mf : bool) : ip_hdr :=
  let tmp := Z.land IP_OFFMASK ofo in
  let tmp := if mf then Z.lor tmp IP_MF else tmp in
  with_chksum (set_len (u16 (fragsize + IP_HLEN)) (set_offset tmp h)).

(** The loop [while (left)]; the packets sent so far are kept. *)
Fixpoint frag_loop (fuel : nat) (mtu nfb : Z) (h : ip_hdr) (mf_set : bool) (c : chain) (poff left ofo : Z) (sent : list packet) n
    : outcome (err_t * list packet * N) :=
  match fuel with
  | O => Diverge
  | S fuel =>
      if left =? 0 then Ret (ERR_OK, sent, n)
      else
        let fragsize := Z.min left (u16 (nfb * 8)) in
        let '(ok, n) := frag_ram n in
        if negb ok then Ret (ERR_MEM, sent, n)
        else
          '(r, n) ← (if fragsize =? 0 then Ret (Some ([], c, poff), n) else mirror c poff fragsize [] n);
          match r with
          | None => Ret (ERR_MEM, sent, n)
          | Some (mirrors, c, poff) =>
              let last := left <=? mtu - IP_HLEN in
              let q := Packet (frag_hdr h ofo fragsize (negb last || mf_set)) ([] :: mirrors) in
              let n := frag_free (frag_output n q) (length mirrors) in
              frag_loop fuel mtu nfb h mf_set c poff (u16 (left - fragsize)) (u16 (ofo + nfb)) (sent ++ [q]) n
          end
  end.

Definition ip4_frag (fuel : nat) (mtu : Z) (p : packet) n : outcome (err_t * list packet * N) :=
  let nfb := u16 (Z.quot (mtu - IP_HLEN) 8) in
  let h := p_hdr p in
  if negb (IPH_HL_BYTES h =? IP_HLEN) then Ret (ERR_VAL, [], n)
  else
    let tmp := iph_offset h in
    frag_loop fuel mtu nfb h (has tmp IP_MF) (p_body p) 0 (u16 (pkt_len p - IP_HLEN)) (Z.land tmp IP_OFFMASK) [] n.
End frag.

(** What the allocators and the interface do to the number of pbufs in use: what the interface keeps of a packet it has taken itself. *)
Class FragLaws (N : Type) `{!FragNet N} := {
  frag_use : N -> Z;
  use_ram n : frag_use (frag_ram n).2 = frag_use n + (if (frag_ram n).1 then 1 else 0);
  use_ref n : frag_use (frag_ref n).2 = frag_use n + (if (frag_ref n).1 then 1 else 0);
  use_out n p : frag_use (frag_output n p) = frag_use n;
  use_frag_free n k : frag_use (frag_free n k) = frag_use n - 1 - Z.of_nat k }.

(** ** Mirroring *)

(** The bytes from the position [poff] of the chain on. *)
Definition from (c : chain) (poff : Z) : list Z := drop (Z.to_nat poff) (concat c).
Definition pos_ok (c : chain) (poff : Z) : Prop :=
  0 <= poff <= Z.of_nat (length (default [] (head c))) /\ tot_len c <= 0xffff.

Section mirror.
  Context {N : Type} `{!FragNet N} `{!FragLaws N}.
  Implicit Type n : N.

Lemma mirror_ok c : forall poff left acc n, pos_ok c poff -> 0 < left <= Z.of_nat (length (from c poff)) ->
  exists r n', mirror c poff left acc n = Ret (r, n') /\
    match r with
    | None => frag_use n' = frag_use n - 1 - Z.of_nat (length acc)
    | Some (m, c', poff') => exists new, m = acc ++ new /\ concat new = take (Z.to_nat left) (from c poff) /\
        from c' poff' = drop (Z.to_nat left) (from c poff) /\ pos_ok c' poff' /\ frag_use n' = frag_use n + Z.of_nat (length new)
    end.
Proof.
  induction c as [|b c IH]; intros poff left acc n [Hp Ht] Hl; unfold from in *; cbn [mirror].
  { simpl in *. rewrite drop_nil in Hl. simpl in Hl. lia. }
  simpl in Hp. unfold tot_len in Ht. simpl concat in *. rewrite length_app in Ht.
  rewrite (proj2 (Z.leb_le _ _)), u16_small by lia. cbn [lwip_assert mbind outcome_bind].
  assert (drop (Z.to_nat poff) (b ++ concat c) = drop (Z.to_nat poff) b ++ concat c) as E by (apply drop_app_le; lia). rewrite E in *.
  rewrite length_app, length_drop in Hl. set (d := drop (Z.to_nat poff) b) in *.
  assert (Z.of_nat (length b) - poff = Z.of_nat (length d)) as -> by (subst d; rewrite length_drop; lia).
  assert (pos_ok c 0) as Hc0 by (split; [lia|unfold tot_len; lia]).
  destruct (Z.eqb_spec (Z.min left (Z.of_nat (length d))) 0) as [Hz|Hz].
  { assert (d = []) as Hd by (apply nil_length_inv; lia). rewrite Hd in *. simpl app. apply (IH 0 left acc n Hc0). rewrite drop_0. simpl in Hl.
    subst d. rewrite <- length_drop, Hd in Hl. simpl in Hl. lia. }
  pose proof (use_ref n) as Hu. destruct (frag_ref n) as [ok n1]. simpl in Hu. destruct ok; cbn [negb].
  2:{ eexists _, _. split; [reflexivity|]. simpl. rewrite use_frag_free. lia. }
  assert (Z.of_nat (length d) <= 0xffff) by (subst d; rewrite length_drop; lia).
  rewrite <- length_drop in Hl. change (drop (Z.to_nat poff) b) with d in Hl.
  destruct (Z.leb_spec left (Z.of_nat (length d))) as [Hle|Hle].
  - rewrite Z.min_l, Z.sub_diag by lia. change (u16 0 =? 0) with true. eexists _, _. split; [reflexivity|].
    eexists. split; [reflexivity|]. simpl. rewrite app_nil_r, take_app_le by lia. split; [done|].
    assert (Z.of_nat (length d) = Z.of_nat (length b) - poff) by (subst d; rewrite length_drop; lia). rewrite u16_small by lia. split; [|split; [|lia]].
    + rewrite <- E, drop_drop. f_equal. lia.
    + split; [simpl; lia|]. unfold tot_len. simpl. rewrite length_app. lia.
  - rewrite Z.min_r, u16_small by lia. rewrite (proj2 (Z.eqb_neq (left - _) 0)) by lia.
    destruct (IH 0 (left - Z.of_nat (length d)) (acc ++ [take (Z.to_nat (Z.of_nat (length d))) d]) n1 Hc0) as (r & n' & -> & Hr).
    { rewrite drop_0. lia. }
    eexists _, _. split; [reflexivity|]. destruct r as [[[m c'] poff']|].
    + destruct Hr as (new & -> & Hn & Hf & Hp' & Hu'). rewrite drop_0 in Hn, Hf.
      exists (d :: new). rewrite <- app_assoc. simpl. rewrite Nat2Z.id, firstn_all. split; [done|].
      replace (Z.to_nat left) with (length d + Z.to_nat (left - Z.of_nat (length d)))%nat by lia.
      rewrite take_app_add, drop_app_add, Hn. split; [done|]. split; [done|]. split; [done|]. lia.
    + rewrite Hr, length_app. simpl. lia.
Qed.
End mirror.

(** ** The cut *)

(** [P] are the fragments of [data], which begins at [8 * ofo]; [done]: all of them. *)
Inductive cut (mtu : Z) (h : ip_hdr) (mf : bool) : Z -> list Z -> list packet -> bool -> Prop :=
| cut_done ofo : cut mtu h mf ofo [] [] true
| cut_stop ofo data : cut mtu h mf ofo data [] false
| cut_next ofo data q P all : data <> [] ->
    let nfb := (mtu - IP_HLEN) / 8 in
    let len := Z.of_nat (length data) in
    let size := Z.min len (8 * nfb) in
    p_hdr q = frag_hdr h ofo size (negb (len <=? mtu - IP_HLEN) || mf) ->
    p_body q <> [] -> concat (p_body q) = take (Z.to_nat size) data ->
    cut mtu h mf (ofo + nfb) (drop (Z.to_nat size) data) P all ->
    cut mtu h mf ofo data (q :: P) all.

Lemma length_nonzero {A} (l : list A) : l <> [] -> (0 < length l)%nat.
Proof. destruct l; [done|simpl; lia]. Qed.

Section loop.
  Context {N : Type} `{!FragNet N} `{!FragLaws N}.
  Context (mtu : Z) (h : ip_hdr) (mf : bool) (Hmtu : 28 <= mtu <= 0xffff).
  Implicit Type n : N.

Lemma nfb_range : 1 <= (mtu - IP_HLEN) / 8 /\ 8 * ((mtu - IP_HLEN) / 8) <= mtu - IP_HLEN.
Proof. unfold IP_HLEN. pose proof (Z.div_mod (mtu - 20) 8 ltac:(lia)). pose proof (Z.mod_pos_bound (mtu - 20) 8 ltac:(lia)). lia. Qed.
Lemma nfb_u16 : u16 (Z.quot (mtu - IP_HLEN) 8) = (mtu - IP_HLEN) / 8.
Proof. destruct nfb_range. rewrite Z.quot_div_nonneg by (unfold IP_HLEN; lia). apply u16_small. unfold IP_HLEN in *. lia. Qed.

Lemma frag_loop_ok fuel : forall c poff ofo sent n, pos_ok c poff -> (length (from c poff) < fuel)%nat ->
  0 <= ofo -> (from c poff <> [] -> 8 * ofo + Z.of_nat (length (from c poff)) <= 0xffff) ->
  exists err P all n', frag_loop fuel mtu ((mtu - IP_HLEN) / 8) h mf c poff (Z.of_nat (length (from c poff))) ofo sent n = Ret (err, sent ++ P, n') /\
    cut mtu h mf ofo (from c poff) P all /\ err = (if all then ERR_OK else ERR_MEM) /\ frag_use n' = frag_use n.
Proof.
  destruct nfb_range as [Hn1 Hn2]. induction fuel as [|fuel IH]; intros c poff ofo sent n Hp Hfuel Hofo Hmax; [lia|]. cbn [frag_loop].
  set (data := from c poff) in *. set (nfb := (mtu - IP_HLEN) / 8) in *. assert (mtu - IP_HLEN <= 65515) by (unfold IP_HLEN; lia).
  destruct (Z.eqb_spec (Z.of_nat (length data)) 0) as [Hz|Hz].
  { exists ERR_OK, [], true, n. rewrite app_nil_r. split; [done|]. split; [|done]. rewrite (nil_length_inv data) by lia. constructor. }
  assert (data <> []) as Hne by (intros E; by rewrite E in Hz). specialize (Hmax Hne).
  pose proof (use_ram n) as Hu. destruct (frag_ram n) as [ok n1]. simpl in Hu. destruct ok; cbn [negb].
  2:{ exists ERR_MEM, [], false, n1. rewrite app_nil_r. split; [done|]. split; [constructor|]. split; [done|lia]. }
  rewrite (u16_small (nfb * 8)), (Z.mul_comm nfb) by lia. set (size := Z.min _ (8 * nfb)).
  rewrite (proj2 (Z.eqb_neq size 0)) by lia.
  destruct (mirror_ok c poff size [] n1 Hp) as (r & n2 & -> & Hr); [fold data; lia|]. cbn [mbind outcome_bind].
  destruct r as [[[m c'] poff']|].
  - destruct Hr as (new & -> & Hnew & Hf & Hp' & Hu2). fold data in Hnew, Hf. simpl app.
    set (q := Packet _ _). assert (Z.of_nat (length (from c' poff')) = Z.of_nat (length data) - size) as Hl by (rewrite Hf, length_drop; lia).
    rewrite (u16_small (Z.of_nat (length data) - size)), (u16_small (ofo + nfb)), <- Hl by lia.
    destruct (IH c' poff' (ofo + nfb) (sent ++ [q]) (frag_free (frag_output n2 q) (length new)) Hp') as (err & P & all & n' & -> & Hc & He & Hu').
    { lia. }
    { lia. }
    { intros Hne'%length_nonzero. lia. }
    exists err, (q :: P), all, n'. rewrite <- app_assoc. split; [done|]. split; [|split; [done|]].
    + apply cut_next; try done. by rewrite Hf in Hc.
    + rewrite Hu', use_frag_free, use_out. lia.
  - exists ERR_MEM, [], false, n2. rewrite app_nil_r. split; [done|]. split; [constructor|]. split; [done|]. simpl in Hr. lia.
Qed.
End loop.

(** ** The fragments *)

Lemma frag_hdr_fields h ofo size mf : 0 <= ofo < 8192 -> 0 <= size <= 0xffff - IP_HLEN ->
  IPH_OFFSET_BYTES (frag_hdr h ofo size mf) = 8 * ofo /\ has (iph_offset (frag_hdr h ofo size mf)) IP_MF = mf /\
  iph_len (frag_hdr h ofo size mf) = size + IP_HLEN /\ key (frag_hdr h ofo size mf) = key h /\
  IPH_HL_BYTES (frag_hdr h ofo size mf) = IPH_HL_BYTES h.
Proof.
  intros Ho Hs. unfold frag_hdr, IPH_OFFSET_BYTES, IPH_HL_BYTES, IPH_HL, key, with_chksum. simpl.
  assert (Z.land IP_OFFMASK ofo = ofo) as ->.
  { rewrite Z.land_comm. change IP_OFFMASK with (Z.ones 13). rewrite Z.land_ones by lia. apply Z.mod_small. lia. }
  assert (Z.land ofo IP_MF = 0) as Hmf.
  { rewrite <- (Z.mod_small ofo (2 ^ 13)) by lia. rewrite <- Z.land_ones, <- Z.land_assoc by lia. apply Z.land_0_r. }
  assert (Z.land ofo IP_OFFMASK = ofo) as Hof.
  { change IP_OFFMASK with (Z.ones 13). rewrite Z.land_ones by lia. apply Z.mod_small. lia. }
  unfold IP_HLEN in *. rewrite (u16_small (size + 20)) by lia. split_and!; try done.
  - destruct mf.
    + rewrite Z.land_lor_distr_l, Hof. change (Z.land IP_MF IP_OFFMASK) with 0. rewrite Z.lor_0_r, u16_small; lia.
    + rewrite Hof, u16_small; lia.
  - destruct mf; [by apply has_lor_self|]. unfold has. by rewrite Hmf.
Qed.

(** A list of fragments from [8 * ofo] on, the last one without [IP_MF]. *)
Record pieces (h : ip_hdr) (ofo len : Z) (P : list packet) (first fin : packet) : Prop := {
  pc_first : head P = Some first;
  pc_fin : last P = Some fin;
  pc_frag : Forall (fun p => is_frag p /\ IPH_HL_BYTES (p_hdr p) = IP_HLEN /\ key (p_hdr p) = key h /\ 0 < tot_len (p_body p)) P;
  pc_last : forall p, p ∈ P -> is_last p = true <-> p = fin;
  pc_start : f_start (frag_of first) = 8 * ofo;
  pc_tiles : match frag_of <$> P with f :: l => no_holes f l | [] => true end = true;
  pc_end : f_end (frag_of fin) = 8 * ofo + len }.

(** One fragment: its fields. *)
Lemma one_piece mtu h ofo data q : 28 <= mtu <= 0xffff -> IPH_HL_BYTES h = IP_HLEN ->
  0 <= ofo -> 8 * ofo + Z.of_nat (length data) <= 0xffff - IP_HLEN -> data <> [] -> 0 < ofo \/ mtu - IP_HLEN < Z.of_nat (length data) ->
  let nfb := (mtu - IP_HLEN) / 8 in
  let len := Z.of_nat (length data) in
  let size := Z.min len (8 * nfb) in
  p_hdr q = frag_hdr h ofo size (negb (len <=? mtu - IP_HLEN) || false) -> p_body q <> [] -> concat (p_body q) = take (Z.to_nat size) data ->
  is_frag q /\ IPH_HL_BYTES (p_hdr q) = IP_HLEN /\ key (p_hdr q) = key h /\ tot_len (p_body q) = size /\ 0 < size /\
  is_last q = (len <=? mtu - IP_HLEN) /\ f_start (frag_of q) = 8 * ofo /\ pkt_len q <= mtu.
Proof.
  intros Hmtu Hhl Ho Hmax Hne Hpart nfb len size Hh Hb Hc. apply length_nonzero in Hne. destruct (nfb_range mtu Hmtu) as [N1 N2].
  fold nfb in N1, N2. unfold IP_HLEN in *.
  assert (tot_len (p_body q) = size) as Ht by (unfold tot_len; rewrite Hc, length_take; lia).
  destruct (frag_hdr_fields h ofo size (negb (len <=? mtu - 20) || false)) as (F1 & F2 & F3 & F4 & F5); [lia|unfold IP_HLEN; lia|].
  rewrite <- Hh in *. rewrite orb_false_r in F2. assert (is_last q = (len <=? mtu - 20)) as Hla.
  { unfold is_last. by rewrite F2, negb_involutive. }
  unfold pkt_len, IP_HLEN in *. split_and!; try done; try lia.
  split; try done; unfold pkt_len, IP_HLEN; try lia. rewrite F1. intros Hm. rewrite F2 in Hm. apply negb_false_iff, Z.leb_le in Hm. lia.
Qed.

Section pieces.
  Context (mtu : Z) (h : ip_hdr) (Hmtu : 28 <= mtu <= 0xffff) (Hhl : IPH_HL_BYTES h = IP_HLEN).
Let nfb := (mtu - IP_HLEN) / 8.

(** With an MTU whose payload is a multiple of eight bytes. *)
Lemma cut_pieces ofo data P : (mtu - IP_HLEN) mod 8 = 0 -> cut mtu h false ofo data P true -> 0 <= ofo -> 8 * ofo + Z.of_nat (length data) <= 0xffff - IP_HLEN -> data <> [] ->
  0 < ofo \/ 8 * nfb < Z.of_nat (length data) ->
  exists first fin, pieces h ofo (Z.of_nat (length data)) P first fin /\ concat (concat (p_body <$> P)) = data /\ Forall (fun q => pkt_len q <= mtu) P.
Proof.
  intros Hdiv. assert (8 * nfb = mtu - IP_HLEN) as nfb_eq by (unfold nfb; pose proof (Z.div_mod (mtu - IP_HLEN) 8); lia).
  assert (0 < nfb) as Hnfb by (unfold IP_HLEN in *; lia).
  intros Hcut. remember true as all eqn:Hall. induction Hcut as [ofo| |ofo data q P all Hne n len size Hh Hb Hc Hcut IH]; intros Ho Hmax Hd Hpart; [done|done|].
  subst n. fold nfb in size, Hcut, IH. rewrite nfb_eq in Hpart. destruct (one_piece mtu h ofo data q) as (Q1 & Q2 & Q3 & Q4 & Q5 & Q6 & Q7 & Q8); try done.
  rewrite <- nfb_eq in Q6, Hpart. fold nfb len size in Q4, Q5, Q6. specialize (IH Hall).
  assert (f_end (frag_of q) = 8 * ofo + size) as Q9 by (simpl in *; lia).
  destruct (Z.leb_spec len (8 * nfb)) as [Hle|Hle].
  - assert (drop (Z.to_nat size) data = []) as Hrest by (apply nil_length_inv; rewrite length_drop; lia). rewrite Hrest, Hall in Hcut.
    inversion Hcut; subst; [|done]. exists q, q. split; [|split].
    + split; try done; [constructor; [by rewrite Q4|constructor]| |lia]. intros p ->%list_elem_of_singleton. done.
    + rewrite fmap_cons. simpl. rewrite app_nil_r, Hc. apply take_ge. lia.
    + by constructor.
  - assert (size = 8 * nfb) as Hsz by lia. assert (Z.of_nat (length (drop (Z.to_nat size) data)) = len - size) as Hl by (rewrite length_drop; lia).
    rewrite Hl in IH. destruct IH as (first & fin & [P1 P2 P3 P4 P5 P6 P7] & Hdata & Hm); [lia|lia| |lia|].
    { intros E. rewrite E in Hl. simpl in Hl. lia. }
    exists q, fin. split; [|split; [|by constructor]].
    + split; try done; [|by constructor; [rewrite Q4|]| | |].
      * rewrite last_cons. by rewrite P2.
      * intros p [->|Hp]%elem_of_cons; [|by apply P4]. rewrite Q6. split; [done|]. intros ->.
        assert (is_last fin = true); [|congruence]. apply P4; [by eapply last_Some_elem_of|done].
      * destruct P as [|x P]; [done|]. injection P1 as ->. rewrite !fmap_cons in *. cbn [no_holes]. rewrite P6, andb_true_r. apply Z.eqb_eq. lia.
      * lia.
    + rewrite fmap_cons. simpl concat. rewrite concat_app, Hc, Hdata. apply take_drop.
Qed.

(** When the last fragment but one could take all but a few bytes, it is marked as the last one. *)
Lemma cut_early data P : cut mtu h false 0 data P true -> 16 * nfb < Z.of_nat (length data) <= 8 * nfb + (mtu - IP_HLEN) ->
  Z.of_nat (length data) <= 0xffff - IP_HLEN ->
  exists q1 q2 q3, P = [q1; q2; q3] /\ fragments_of (key h) [q1; q2] q1 q2 /\ concat (p_body q1 ++ p_body q2) = take (Z.to_nat (16 * nfb)) data.
Proof.
  intros Hcut Hlen Hmax. destruct (nfb_range mtu Hmtu) as [N1 N2]. fold nfb in N1, N2.
  assert (mtu - IP_HLEN < 8 * nfb + 8) as N3.
  { unfold nfb. pose proof (Z.div_mod (mtu - IP_HLEN) 8). pose proof (Z.mod_pos_bound (mtu - IP_HLEN) 8). lia. }
  inversion Hcut as [| |? ? q1 P1 ? D1 n1 l1 s1 Hh1 Hb1 Hc1 Hcut1]; subst; [simpl in Hlen; lia|].
  assert (s1 = 8 * nfb) as Hs1 by (subst s1 l1 n1; fold nfb; lia). subst n1. fold nfb in Hcut1.
  assert (Z.of_nat (length (drop (Z.to_nat s1) data)) = Z.of_nat (length data) - 8 * nfb) as L1 by (rewrite length_drop; lia).
  inversion Hcut1 as [| |? ? q2 P2 ? D2 n2 l2 s2 Hh2 Hb2 Hc2 Hcut2]; subst; [match goal with E : [] = _ |- _ => rewrite <- E in L1 end; simpl in L1; lia|].
  assert (s2 = 8 * nfb) as Hs2 by (subst s2 l2 n2; fold nfb; lia). subst n2. fold nfb in Hcut2.
  assert (Z.of_nat (length (drop (Z.to_nat s2) (drop (Z.to_nat s1) data))) = Z.of_nat (length data) - 16 * nfb) as L2 by (rewrite length_drop; lia).
  inversion Hcut2 as [| |? ? q3 P3 ? D3 n3 l3 s3 Hh3 Hb3 Hc3 Hcut3]; subst; [match goal with E : [] = _ |- _ => rewrite <- E in L2 end; simpl in L2; lia|].
  assert (drop (Z.to_nat s3) (drop (Z.to_nat s2) (drop (Z.to_nat s1) data)) = []) as Hrest.
  { apply nil_length_inv. rewrite length_drop. subst s3 l3 n3. fold nfb. unfold IP_HLEN in *. lia. }
  rewrite Hrest in Hcut3. inversion Hcut3; subst; [|done].
  destruct (one_piece mtu h 0 data q1) as (A1 & A2 & A3 & A4 & A5 & A6 & A7 & _); try done; [lia|].
  destruct (one_piece mtu h (0 + nfb) (drop (Z.to_nat s1) data) q2) as (B1 & B2 & B3 & B4 & B5 & B6 & B7 & _); try done; [lia|lia|lia|].
  change (tot_len (p_body q1) = s1) in A4. change (tot_len (p_body q2) = s2) in B4.
  rewrite (proj2 (Z.leb_gt _ _)) in A6 by (unfold IP_HLEN in *; lia). rewrite (proj2 (Z.leb_le _ _)) in B6 by lia.
  exists q1, q2, q3. split; [done|]. split.
  - split; try done.
    + constructor; [split_and!; try done; lia|]. constructor; [split_and!; try done; lia|constructor].
    + intros p Hp. apply elem_of_cons in Hp as [->|Hp%list_elem_of_singleton]; [|subst p; done]. split; [congruence|]. intros ->. congruence.
    + simpl in *. rewrite andb_true_r. apply andb_true_iff. split; apply Z.eqb_eq; lia.
    + simpl in *. lia.
  - rewrite concat_app, Hc1, Hc2, Hs1, Hs2. replace (Z.to_nat (16 * nfb)) with (Z.to_nat (8 * nfb) + Z.to_nat (8 * nfb))%nat by lia.
    by rewrite take_take_drop.
Qed.
End pieces.
