(* ===== verification/Ip4FragProps.v ===== *)
(** * Cutting and joining datagrams

    What [ip4_frag] sends, that reassembly makes the datagram of it again, and two MTUs it does not work for. *)

From S2P Require Import Prelude Chain Chksum Ip4Hdr Ip4Reass Ip4ReassOk Ip4ReassProps Ip4ReassDone Ip4Frag.

(** A whole datagram, with a header that describes it. *)
Record sendable (p : packet) : Prop := {
  se_hl : IPH_HL_BYTES (p_hdr p) = IP_HLEN;
  se_len : iph_len (p_hdr p) = pkt_len p;
  se_max : pkt_len p <= 0xffff;
  se_offset : Z.land (iph_offset (p_hdr p)) IP_OFFMASK = 0;
  se_mf : has (iph_offset (p_hdr p)) IP_MF = false }.

(** The same packet in other pbufs. *)
Definition received (q q' : packet) : Prop :=
  p_hdr q' = p_hdr q /\ concat (p_body q') = concat (p_body q) /\ p_body q' <> [].

Lemma cut_received mtu h mf ofo data P all : cut mtu h mf ofo data P all -> forall R, Forall2 received P R -> cut mtu h mf ofo data R all.
Proof.
  induction 1 as [ofo|ofo data|ofo data q P all Hne nfb len size Hh Hb Hc Hcut IH]; intros R HR.
  - apply Forall2_nil_inv_l in HR as ->. constructor.
  - apply Forall2_nil_inv_l in HR as ->. constructor.
  - apply Forall2_cons_inv_l in HR as (q' & R' & (H1 & H2 & H3) & HR & ->). apply cut_next; try done; [by rewrite H1|by rewrite H2|by apply IH].
Qed.
Lemma cut_prefix mtu h mf ofo data P all : cut mtu h mf ofo data P all -> concat (concat (p_body <$> P)) `prefix_of` data.
Proof.
  induction 1 as [ofo|ofo data|ofo data q P all Hne nfb len size Hh Hb Hc Hcut IH]; [done|apply prefix_nil|].
  rewrite fmap_cons. simpl. rewrite concat_app, Hc. rewrite <- (take_drop (Z.to_nat size) data) at 2. by apply prefix_app.
Qed.
Lemma cut_first mtu h mf ofo data P first all : cut mtu h mf ofo data P all -> head P = Some first ->
  exists size m, p_hdr first = frag_hdr h ofo size m.
Proof. intros Hc Hf. destruct Hc as [| |ofo data q P all Hne nfb len size Hh Hb Hc Hcut]; [done|done|]. injection Hf as ->. by eexists _, _. Qed.

Lemma pieces_fragments h len P first fin : pieces h 0 len P first fin -> len <= 0xffff - IP_HLEN -> fragments_of (key h) P first fin.
Proof.
  intros [P1 P2 P3 P4 P5 P6 P7] Hl. split; try done; [|lia]. destruct P as [|x P]; [done|]. injection P1 as ->. rewrite fmap_cons in *.
  cbn [complete]. by rewrite P5, P6.
Qed.

Lemma pieces_differ k q fin : fragments_of k [q; q] q fin -> False.
Proof.
  intros HF. pose proof (fr_tiles _ _ _ _ HF) as Ht. rewrite !fmap_cons in Ht. apply andb_true_iff in Ht as [H0%Z.eqb_eq [H1%Z.eqb_eq _]%andb_true_iff].
  destruct (piece_of _ _ _ _ HF q ltac:(left)) as (_ & _ & _ & Hpos). simpl in *. lia.
Qed.

Section props.
  Context {N : Type} `{!FragNet N} `{!FragLaws N}.
  Implicit Type n : N.

Lemma ip4_frag_cut fuel mtu p n : 28 <= mtu <= 0xffff -> sendable p -> (length (concat (p_body p)) < fuel)%nat ->
  exists err P all n', ip4_frag fuel mtu p n = Ret (err, P, n') /\ cut mtu (p_hdr p) false 0 (concat (p_body p)) P all /\
    err = (if all then ERR_OK else ERR_MEM) /\ frag_use n' = frag_use n.
Proof.
  intros Hmtu [H1 H2 H3 H4 H5] Hfuel. unfold ip4_frag. rewrite H1, Z.eqb_refl, H4, H5, (nfb_u16 mtu Hmtu). cbn [negb].
  unfold pkt_len, tot_len, IP_HLEN in H3.
  assert (u16 (pkt_len p - IP_HLEN) = Z.of_nat (length (from (p_body p) 0))) as ->.
  { unfold from, pkt_len, IP_HLEN, tot_len. rewrite drop_0, u16_small; lia. }
  destruct (frag_loop_ok mtu (p_hdr p) false Hmtu fuel (p_body p) 0 0 [] n) as (err & P & all & n' & Hrun & Hc & He & Hu); try done.
  - split; [lia|unfold tot_len; lia].
  - unfold from. rewrite drop_0. lia.
  - exists err, P, all, n'. unfold from in Hc. rewrite drop_0 in Hc. done.
Qed.

(** (fragmentation) with an MTU whose payload is a multiple of eight bytes, a datagram longer than the MTU is sent in fragments none of which is
    longer than the MTU: they follow each other from offset 0 on, all but the last with [IP_MF], and hold the bytes of the
    datagram in order; without memory a part of the datagram was sent and [ERR_MEM] is returned. Either way nothing that was allocated stays. *)
Theorem frag_sends_whole fuel mtu p n : 28 <= mtu <= 0xffff -> (mtu - IP_HLEN) mod 8 = 0 -> sendable p -> mtu < pkt_len p ->
  (length (concat (p_body p)) < fuel)%nat ->
  exists err P n', ip4_frag fuel mtu p n = Ret (err, P, n') /\ frag_use n' = frag_use n /\
    (err = ERR_OK /\ (exists first fin, fragments_of (key (p_hdr p)) P first fin) /\
       concat (concat (p_body <$> P)) = concat (p_body p) /\ Forall (fun q => pkt_len q <= mtu) P
     \/ err = ERR_MEM /\ concat (concat (p_body <$> P)) `prefix_of` concat (p_body p)).
Proof.
  intros Hmtu Hdiv Hp Hlong Hfuel. destruct (ip4_frag_cut fuel mtu p n Hmtu Hp Hfuel) as (err & P & all & n' & Hrun & Hc & -> & Hu).
  exists (if all then ERR_OK else ERR_MEM), P, n'. split; [done|]. split; [done|]. pose proof (se_max _ Hp) as Hm. unfold pkt_len, tot_len, IP_HLEN in *.
  destruct all; [left|right; split; [done|by eapply cut_prefix]]. split; [done|].
  destruct (cut_pieces mtu (p_hdr p) Hmtu (se_hl _ Hp) 0 (concat (p_body p)) P) as (first & fin & Hpc & Hd & Hl); try done.
  - unfold IP_HLEN. lia.
  - intros E. rewrite E in Hlong. simpl in Hlong. lia.
  - right. pose proof (nfb_range mtu Hmtu) as [_ ?]. unfold IP_HLEN in *. lia.
  - split; [|done]. exists first, fin. apply (pieces_fragments _ _ _ _ _ Hpc). unfold IP_HLEN. lia.
Qed.

(** ** Round trip *)

Context {M : Type} `{!ReassNet M} `{!ReassLaws M}.

Lemma with_chksum_ext h h' : set_chksum 0 h = set_chksum 0 h' -> with_chksum h = with_chksum h'.
Proof. unfold with_chksum. by intros ->. Qed.

(** Joined fragments of [h] have the header of [h]. *)
Lemma datagram_hdr h P first fin size m len : p_hdr first = frag_hdr h 0 size m -> iph_len h = len + IP_HLEN -> f_end (frag_of fin) = len ->
  p_hdr (datagram P first fin) = with_chksum (set_offset 0 h).
Proof.
  intros Hf Hl He. unfold datagram. cbn [p_hdr]. rewrite Hf, He, <- Hl. by apply with_chksum_ext.
Qed.

(** C29: (round trip) over a link whose MTU leaves a multiple of eight bytes for the data ([frag_loses_end] shows what happens with the others), what [ip4_frag] sent is received, each
    fragment in pbufs of its own, [IP_REASS_MAX_PBUFS] (four) at most, in any order and some more than
    once, within [IP_REASS_MAXAGE] (three) ticks, with a free element for a new datagram: reassembly gives exactly one packet, with the bytes of the datagram and its header, the
    flags 0 and the checksum computed anew. *)
Theorem frag_reass_roundtrip fuel mtu p n P n' R es x (s : reass M) : 28 <= mtu <= 0xffff -> (mtu - IP_HLEN) mod 8 = 0 -> sendable p ->
  mtu < pkt_len p -> (length (concat (p_body p)) < fuel)%nat -> ip4_frag fuel mtu p n = Ret (ERR_OK, P, n') -> Forall2 received P R ->
  clens R <= IP_REASS_MAX_PBUFS -> reass_ok s -> key (p_hdr p) ∉ rkey <$> datagrams s -> 0 < avail s ->
  Forall (.∈ R) (arrivals es) -> count_ticks es <= IP_REASS_MAXAGE ->
  x ∈ R -> x ∉ arrivals es -> (forall y, y ∈ R -> y = x \/ y ∈ arrivals es) ->
  exists q s', history (es ++ [Arrives x]) s = Ret ([q], s') /\ concat (p_body q) = concat (p_body p) /\
    p_hdr q = with_chksum (set_offset 0 (p_hdr p)).
Proof.
  intros Hmtu Hdiv Hp Hlong Hfuel Hsent HR Hcl Hok Hk Ha Hes Ht Hx Hx' Hall.
  destruct (ip4_frag_cut fuel mtu p n Hmtu Hp Hfuel) as (err & P' & all & n1 & Hrun & Hc & He & Hu). rewrite Hrun in Hsent.
  injection Hsent as -> -> ->. destruct all; [|done]. pose proof (cut_received _ _ _ _ _ _ _ Hc R HR) as HcR.
  pose proof (se_max _ Hp) as Hm. pose proof (se_len _ Hp) as Hlen. unfold pkt_len, tot_len in *.
  destruct (cut_pieces mtu (p_hdr p) Hmtu (se_hl _ Hp) 0 (concat (p_body p)) R) as (first & fin & Hpc & Hd & Hl); try done.
  - unfold IP_HLEN in *. lia.
  - intros E. rewrite E in Hlong. unfold IP_HLEN in Hlong. simpl in Hlong. lia.
  - right. pose proof (nfb_range mtu Hmtu) as [_ ?]. unfold IP_HLEN in *. lia.
  - assert (fragments_of (key (p_hdr p)) R first fin) as HF by (apply (pieces_fragments _ _ _ _ _ Hpc); unfold IP_HLEN in *; lia).
    destruct (reass_completes_ok _ R first fin HF Hcl es x s) as (s' & Hh & _); try done.
    exists (datagram R first fin), s'. split; [exact Hh|]. split; [exact Hd|].
    destruct (cut_first _ _ _ _ _ _ first _ HcR (pc_first _ _ _ _ _ _ Hpc)) as (size & m & Hf).
    eapply datagram_hdr; [exact Hf| |apply (pc_end _ _ _ _ _ _ Hpc)]. lia.
Qed.

(** ** MTUs that do not work *)

(** (defect) with an MTU whose payload is not a multiple of eight bytes, the last fragment but one is marked as the last one when
    what it leaves over would still have fitted into the MTU ([last = left <= mtu - IP_HLEN]): [ip4_frag] reports success, and the receiver of the first two fragments
    gives on a datagram without its end. *)
Theorem frag_loses_end fuel mtu p n P n' R (s : reass M) : 28 <= mtu <= 0xffff -> sendable p ->
  let nfb := (mtu - IP_HLEN) / 8 in
  16 * nfb < tot_len (p_body p) <= 8 * nfb + (mtu - IP_HLEN) ->
  (length (concat (p_body p)) < fuel)%nat -> ip4_frag fuel mtu p n = Ret (ERR_OK, P, n') -> Forall2 received P R ->
  reass_ok s -> key (p_hdr p) ∉ rkey <$> datagrams s -> 0 < avail s -> clens (take 2 R) <= IP_REASS_MAX_PBUFS ->
  length P = 3%nat /\ exists q s', history (Arrives <$> take 2 R) s = Ret ([q], s') /\
    concat (p_body q) = take (Z.to_nat (16 * nfb)) (concat (p_body p)) /\ concat (p_body q) <> concat (p_body p).
Proof.
  intros Hmtu Hp nfb Hlen Hfuel Hsent HR Hok Hk Ha Hcl. pose proof (se_max _ Hp) as Hm. unfold pkt_len, tot_len in *.
  destruct (ip4_frag_cut fuel mtu p n Hmtu Hp Hfuel) as (err & P' & all & n1 & Hrun & Hc & He & Hu). rewrite Hrun in Hsent.
  injection Hsent as -> -> ->. destruct all; [|done]. apply cut_received with (R := R) in Hc; [|done].
  destruct (cut_early mtu (p_hdr p) Hmtu (se_hl _ Hp) (concat (p_body p)) R Hc) as (q1 & q2 & q3 & -> & HF & Hd); [exact Hlen|unfold IP_HLEN in *; lia|].
  split; [by apply Forall2_length in HR|].
  assert (q2 <> q1) as Hne by (by intros ->; apply (pieces_differ _ _ _ HF)).
  destruct (reass_completes_ok _ [q1; q2] q1 q2 HF Hcl [Arrives q1] q2 s) as (s' & Hh & _); try done.
  - repeat constructor.
  - right. left.
  - by intros E%list_elem_of_singleton.
  - intros y [->|Hy%list_elem_of_singleton]%elem_of_cons; [right; left|by left].
  - exists (datagram [q1; q2] q1 q2), s'. split; [exact Hh|].
    assert (concat (p_body (datagram [q1; q2] q1 q2)) = take (Z.to_nat (16 * nfb)) (concat (p_body p))) as ->.
    { simpl. rewrite app_nil_r. exact Hd. }
    split; [done|]. intros E. apply (f_equal length) in E. rewrite length_take in E. destruct (nfb_range mtu Hmtu) as [N1 _]. fold nfb in N1. lia.
Qed.

Lemma frag_loop_stuck mtu h mf : (forall n, (frag_ram n).1 = true) -> forall fuel c poff left ofo sent n, 0 < left < 65536 ->
  frag_loop fuel mtu 0 h mf c poff left ofo sent n = Diverge.
Proof.
  intros Hram. induction fuel as [|fuel IH]; intros c poff left ofo sent n Hleft; [done|].
  cbn [frag_loop]. rewrite (proj2 (Z.eqb_neq _ _)) by lia. change (u16 (0 * 8)) with 0. rewrite Z.min_r by lia.
  pose proof (Hram n) as Hn. destruct (frag_ram n) as [ok n1]. simpl in Hn. subst ok. cbn [negb Z.eqb mbind outcome_bind].
  rewrite Z.sub_0_r, (u16_small left) by lia. by apply IH.
Qed.

(** (defect) on an interface with an MTU from 20 to 27, where no eight bytes fit behind the header, [ip4_frag] sends fragments without data for ever. *)
Theorem frag_never_ends fuel mtu p n : 20 <= mtu < 28 -> IPH_HL_BYTES (p_hdr p) = IP_HLEN -> 0 < tot_len (p_body p) <= 0xffff ->
  (forall n, (frag_ram n).1 = true) -> ip4_frag fuel mtu p n = Diverge.
Proof.
  intros Hmtu Hhl Hlen Hram. unfold ip4_frag. rewrite Hhl, Z.eqb_refl. cbn [negb].
  assert (u16 (Z.quot (mtu - IP_HLEN) 8) = 0) as -> by (unfold IP_HLEN; rewrite Z.quot_small by lia; done).
  assert (0 < u16 (pkt_len p - IP_HLEN)) as Hleft by (unfold pkt_len, IP_HLEN; rewrite u16_small; lia).
  assert (u16 (pkt_len p - IP_HLEN) < 65536) as Hmax by apply u16_range.
  apply frag_loop_stuck; [done|lia].
Qed.
End props.
