(* ===== verification/Ip4Examples.v ===== *)
(** * Examples of fragmentation and reassembly

    Networks that count the pbufs in use, and a datagram of 20 bytes over an MTU of 28. *)

From S2P Require Import Prelude Chain Chksum Ip4Hdr Ip4Reass Ip4ReassOk Ip4ReassProps Ip4ReassDone Ip4Frag Ip4FragProps.

#[export] Instance count_net : ReassNet Z := { rs_free n k := n - k; time_exceeded n _ := n }.
#[export] Instance count_laws : ReassLaws Z := { rs_use n := n; use_free n k := eq_refl; use_exceeded n p := eq_refl }.
#[export] Instance count_frag : FragNet Z := {
  frag_ram n := (true, n + 1); frag_ref n := (true, n + 1); frag_output n _ := n; frag_free n k := n - 1 - Z.of_nat k }.
#[export] Instance count_frag_laws : FragLaws Z := {
  frag_use n := n; use_ram n := eq_refl; use_ref n := eq_refl; use_out n p := eq_refl; use_frag_free n k := eq_refl }.

Definition hdr (len : Z) : ip_hdr := IpHdr 0x45 0 len 7 0 64 17 0 167772161 167772162.
Definition data (n : nat) : list Z := Z.of_nat <$> seq 1 n.
Definition dgram (n : nat) : packet := Packet (hdr (Z.of_nat n + 20)) [data n].
Definition sent (mtu : Z) (n : nat) : list packet :=
  match ip4_frag 50 mtu (dgram n) 0 with Ret (_, P, _) => P | _ => [] end.
(** The fragments as they are received, each in one pbuf. *)
Definition arrived (mtu : Z) (n : nat) : list packet := (fun q => Packet (p_hdr q) [concat (p_body q)]) <$> sent mtu n.
Definition piece (i : nat) : packet := default (dgram 0) (arrived 28 20 !! i).
Definition start : reass Z := RS [] 0 1 3.

Lemma start_ok : reass_ok start.
Proof. split; simpl; try constructor; try done. Qed.
Lemma piece_ok i : (i < 3)%nat -> is_frag (piece i) /\ IPH_HL_BYTES (p_hdr (piece i)) = IP_HLEN /\ key (p_hdr (piece i)) = (167772161, 167772162, 7) /\
  0 < tot_len (p_body (piece i)).
Proof. intros Hi. destruct i as [|[|[|i]]]; [..|lia]; (split; [split; vm_compute; congruence|]); by vm_compute. Qed.
Lemma pieces_ok : fragments_of (167772161, 167772162, 7) (arrived 28 20) (piece 0) (piece 2).
Proof.
  assert (arrived 28 20 = [piece 0; piece 1; piece 2]) as -> by (by vm_compute). split; try done.
  - repeat (constructor; [apply piece_ok; lia|]). constructor.
  - intros p Hp. rewrite !elem_of_cons, elem_of_nil in Hp. destruct Hp as [->|[->|[->|[]]]]; split; vm_compute; congruence.
Qed.

Lemma reass_safe_witness : Forall is_frag (arrivals [Arrives (piece 2); Tick; Arrives (piece 2); Arrives (piece 0)]) /\
  exists qs s', history [Arrives (piece 2); Tick; Arrives (piece 2); Arrives (piece 0)] start = Ret (qs, s') /\ reass_ok s' /\
    others s' = others start - clens (arrivals [Arrives (piece 2); Tick; Arrives (piece 2); Arrives (piece 0)]) + clens qs /\ elements s' = elements start.
Proof.
  assert (Forall is_frag (arrivals [Arrives (piece 2); Tick; Arrives (piece 2); Arrives (piece 0)])) as H.
  { repeat (constructor; [apply piece_ok; lia|]). constructor. }
  split; [exact H|]. exact (reass_safe _ start start_ok H).
Defined.

(** One fragment is waiting. *)
Definition waiting : reass Z := RS [Reass [frag_of (piece 1)] (p_hdr (piece 1)) 0 0 3] 1 0 3.
Lemma waiting_frag_ok : reass_ok waiting.
Proof.
  split; simpl; try done; [|repeat constructor; by apply not_elem_of_nil]. constructor; [|constructor]. split; simpl; try done; repeat constructor.
  - vm_compute; congruence.
  - vm_compute; congruence.
  - vm_compute; congruence.
  - vm_compute; congruence.
Qed.
Lemma reass_gives_up_witness : reass_ok waiting /\ datagrams waiting <> [] /\
  exists s', ticks (S (Z.to_nat IP_REASS_MAXAGE)) waiting = Ret s' /\ datagrams s' = [] /\ pbufcount s' = 0 /\
    rs_use (rnet s') = rs_use (rnet waiting) - pbufcount waiting /\ avail s' = avail waiting + Z.of_nat (length (datagrams waiting)).
Proof. split; [exact waiting_frag_ok|]. split; [done|]. exact (reass_gives_up waiting waiting_frag_ok). Defined.

Definition mixed : list event := [Arrives (piece 2); Tick; Arrives (piece 2); Arrives (piece 0); Tick].
Definition whole_of (k : Z * Z * Z) : list Z := data 20.

Lemma piece_genuine i : (i < 3)%nat -> genuine whole_of (piece i).
Proof.
  intros Hi. destruct (piece_ok i Hi) as (Hf & _). split; [done| | |].
  - destruct i as [|[|[|i]]]; [..|lia]; split; vm_compute; congruence.
  - unfold whole_of, data. rewrite length_fmap, length_seq. vm_compute. congruence.
  - destruct i as [|[|[|i]]]; [..|lia]; vm_compute; congruence.
Qed.
Lemma reass_only_whole_witness : Forall (genuine whole_of) (arrivals (mixed ++ [Arrives (piece 1)])) /\
  exists qs s', history (mixed ++ [Arrives (piece 1)]) start = Ret (qs, s') /\
    Forall (fun q => is_whole (whole_of (key (p_hdr q))) (p_hdr q) q) qs /\ Forall (good whole_of) (datagrams s').
Proof.
  assert (Forall (genuine whole_of) (arrivals (mixed ++ [Arrives (piece 1)]))) as H.
  { repeat (constructor; [apply piece_genuine; lia|]). constructor. }
  split; [exact H|]. exact (reass_only_whole whole_of _ start start_ok (List.Forall_nil _) H).
Defined.

Lemma mixed_in : Forall (.∈ arrived 28 20) (arrivals mixed).
Proof.
  assert (arrived 28 20 = [piece 0; piece 1; piece 2]) as -> by (by vm_compute). simpl. repeat constructor; set_solver.
Qed.
Lemma mixed_missing : piece 1 ∉ arrivals mixed.
Proof. apply (bool_decide_unpack (piece 1 ∉ arrivals mixed)). by vm_compute. Qed.
Lemma mixed_all x : x ∈ arrived 28 20 -> x = piece 1 \/ x ∈ arrivals mixed.
Proof. assert (arrived 28 20 = [piece 0; piece 1; piece 2]) as -> by (by vm_compute). simpl. set_solver. Qed.
Lemma piece1_in : piece 1 ∈ arrived 28 20.
Proof. assert (arrived 28 20 = [piece 0; piece 1; piece 2]) as -> by (by vm_compute). set_solver. Qed.

Lemma reass_completes_witness : exists s', history (mixed ++ [Arrives (piece 1)]) start = Ret ([datagram (arrived 28 20) (piece 0) (piece 2)], s') /\
  (167772161, 167772162, 7) ∉ rkey <$> datagrams s' /\ reass_ok s'.
Proof.
  apply (reass_completes (167772161, 167772162, 7) (arrived 28 20) (piece 0) (piece 2) mixed (piece 1) start pieces_ok); try done.
  - exact start_ok.
  - apply not_elem_of_nil.
  - exact mixed_in.
  - exact piece1_in.
  - exact mixed_missing.
  - exact mixed_all.
Defined.

Lemma dgram_sendable n : (n <= 1000)%nat -> sendable (dgram n).
Proof.
  intros Hn. assert (pkt_len (dgram n) = Z.of_nat n + 20) as Hl.
  { unfold pkt_len, tot_len, dgram, data, IP_HLEN. simpl. rewrite app_nil_r, length_fmap, length_seq. lia. }
  split; try done; rewrite Hl; lia.
Qed.

Lemma frag_sends_whole_witness : exists err P n', ip4_frag 50 28 (dgram 20) 0 = Ret (err, P, n') /\ frag_use n' = frag_use 0 /\
    (err = ERR_OK /\ (exists first fin, fragments_of (key (p_hdr (dgram 20))) P first fin) /\
       concat (concat (p_body <$> P)) = concat (p_body (dgram 20)) /\ Forall (fun q => pkt_len q <= 28) P
     \/ err = ERR_MEM /\ concat (concat (p_body <$> P)) `prefix_of` concat (p_body (dgram 20))).
Proof. apply (frag_sends_whole 50 28 (dgram 20) 0); [lia|done|apply dgram_sendable; lia|done|vm_compute; lia]. Defined.

Lemma arrived_received mtu n : Forall2 received (sent mtu n) (arrived mtu n).
Proof. unfold arrived. apply Forall2_fmap_r, Forall_Forall2_diag, Forall_true. intros q. split; [done|]. split; [simpl; apply app_nil_r|done]. Qed.

Lemma frag_reass_roundtrip_witness : exists q s', history (mixed ++ [Arrives (piece 1)]) start = Ret ([q], s') /\
  concat (p_body q) = data 20 /\ p_hdr q = with_chksum (set_offset 0 (hdr 40)).
Proof.
  apply (frag_reass_roundtrip 50 28 (dgram 20) 0 (sent 28 20) 0 (arrived 28 20) mixed (piece 1) start); try done.
  - vm_compute. lia.
  - apply arrived_received.
  - exact start_ok.
  - apply not_elem_of_nil.
  - exact mixed_in.
  - exact piece1_in.
  - exact mixed_missing.
  - exact mixed_all.
Defined.

(** 17 bytes over an MTU of 29: only 16 come out. *)
Lemma frag_loses_end_witness : length (sent 29 17) = 3%nat /\ exists q s', history (Arrives <$> take 2 (arrived 29 17)) start = Ret ([q], s') /\
    concat (p_body q) = take 16 (data 17) /\ concat (p_body q) <> data 17.
Proof.
  apply (frag_loses_end 50 29 (dgram 17) 0 (sent 29 17) 0 (arrived 29 17) start); try done.
  - vm_compute. lia.
  - apply arrived_received.
  - exact start_ok.
  - apply not_elem_of_nil.
Defined.

Lemma frag_never_ends_witness : ip4_frag 1000 24 (dgram 4) 0 = Diverge.
Proof. apply (frag_never_ends 1000 24 (dgram 4) 0); [lia|done|done|done]. Defined.

(** ** Two surprises *)

(** A fragment of [n] bytes at [8 * o]. *)
Definition frag_at (id o : Z) (mf : bool) (n : nat) : packet :=
  Packet (IpHdr 0x45 0 (Z.of_nat n + 20) id (o + (if mf then IP_MF else 0)) 64 17 0 167772161 167772162) [data n].

(** A fragment behind the end of the datagram is not refused when it arrives before the last one: the datagram that is given
    on has more bytes than its header says. *)
Lemma reass_keeps_surplus :
  match history [Arrives (frag_at 7 0 true 8); Arrives (frag_at 7 2 true 8); Arrives (frag_at 7 1 false 8)] start with
  | Ret ([q], _) => iph_len (p_hdr q) = 36 /\ pkt_len q = 44
  | _ => False
  end.
Proof. by vm_compute. Qed.

(** With one element for datagrams, a fragment of two pbufs makes the datagram before it go and is dropped all the same, although
    there was room: only one pbuf was freed. *)
Lemma reass_drops_both :
  match history [Arrives (frag_at 7 0 true 8)] start with
  | Ret ([], s) =>
      match history [Arrives (Packet (p_hdr (frag_at 8 0 true 8)) [data 4; data 4])] s with
      | Ret ([], s') => datagrams s' = [] /\ avail s' = 1 /\ pbufcount s' = 0
      | _ => False
      end
  | _ => False
  end.
Proof. by vm_compute. Qed.
