(* ===== verification/Udp.v ===== *)
(** * UDP ([core/udp.c])

    Control blocks are named by their addresses; [udp_pcbs] is the list of the active ones.
    A packet is the list of its pbufs with the addresses of their payloads, which the checksum inspects. The
    application's callback and the layers below are called last in [udp_input]: what it does with the packet
    is its result. UDP-Lite, broadcast options and delivery to all sockets are compiled out. *)

From stdpp Require Import gmap.
From S2P Require Import Prelude Def Chksum Ip4Addr Route Chain Ip4Hdr.

Definition UDP_HLEN : Z := 8.
Definition UDP_TTL : Z := 255.
Definition UDP_LOCAL_PORT_RANGE_START : Z := 0xc000.
Definition UDP_LOCAL_PORT_RANGE_END : Z := 0xffff.
Definition UDP_FLAGS_NOCHKSUM : Z := 0x01.
Definition UDP_FLAGS_CONNECTED : Z := 0x04.
Definition UDP_FLAGS_MULTICAST_LOOP : Z := 0x08.
Definition SOF_REUSEADDR : Z := 0x04.
Definition NETIF_NO_INDEX : Z := 0.

(** [struct udp_pcb]; [recv] says whether a callback is set. *)
Record udp_pcb := UdpPcb {
  local_ip : Z; remote_ip : Z; netif_idx : Z; so_options : Z; tos : Z; ttl : Z;
  udp_flags : Z; local_port : Z; remote_port : Z; mcast_ip4 : Z; mcast_ifindex : Z; mcast_ttl : Z; recv : bool }.
Definition set_local (ip port : Z) (p : udp_pcb) : udp_pcb :=
  UdpPcb ip (remote_ip p) (netif_idx p) (so_options p) (tos p) (ttl p) (udp_flags p) port (remote_port p) (mcast_ip4 p) (mcast_ifindex p) (mcast_ttl p) (recv p).
Definition set_remote (ip port fl : Z) (p : udp_pcb) : udp_pcb :=
  UdpPcb (local_ip p) ip (netif_idx p) (so_options p) (tos p) (ttl p) fl (local_port p) port (mcast_ip4 p) (mcast_ifindex p) (mcast_ttl p) (recv p).
Definition set_netif_idx (v : Z) (p : udp_pcb) : udp_pcb :=
  UdpPcb (local_ip p) (remote_ip p) v (so_options p) (tos p) (ttl p) (udp_flags p) (local_port p) (remote_port p) (mcast_ip4 p) (mcast_ifindex p) (mcast_ttl p) (recv p).
Definition set_recv (v : bool) (p : udp_pcb) : udp_pcb :=
  UdpPcb (local_ip p) (remote_ip p) (netif_idx p) (so_options p) (tos p) (ttl p) (udp_flags p) (local_port p) (remote_port p) (mcast_ip4 p) (mcast_ifindex p) (mcast_ttl p) v.

(** A datagram as it is given to [ip_output_if_src]. *)
Record datagram_out := DatagramOut {
  d_segs : list seg; d_src : Z; d_dst : Z; d_ttl : Z; d_tos : Z; d_proto : Z; d_netif : Z; d_mcastloop : bool }.

(** [pbuf_alloc(PBUF_IP, UDP_HLEN, PBUF_RAM)] with the address of its payload, its [pbuf_free], and [ip_output_if_src]. *)
Class UdpNet (N : Type) := {
  udp_hdr_alloc : N -> option Z * N;
  udp_hdr_free : N -> N;
  udp_ip_output : N -> datagram_out -> err_t * N }.

(** The control blocks, [udp_pcbs], [udp_port], the free elements of [MEMP_UDP_PCB], the interfaces with their indices. *)
Record udp (N : Type) := Udp {
  pcbs : gmap Z udp_pcb; udp_pcbs : list Z; udp_port : Z; free_pcbs : list Z; nets : netifs; index_of : Z -> Z; unet : N }.
Arguments Udp {N}.
Arguments pcbs {N}.
Arguments udp_pcbs {N}.
Arguments udp_port {N}.
Arguments free_pcbs {N}.
Arguments nets {N}.
Arguments index_of {N}.
Arguments unet {N}.

Section udp.
  Context {N : Type} `{!UdpNet N}.
  Implicit Type u : udp N.

Definition set_pcbs (v : gmap Z udp_pcb) u : udp N := Udp v (udp_pcbs u) (udp_port u) (free_pcbs u) (nets u) (index_of u) (unet u).
Definition set_udp_pcbs (v : list Z) u : udp N := Udp (pcbs u) v (udp_port u) (free_pcbs u) (nets u) (index_of u) (unet u).
Definition set_udp_port (v : Z) u : udp N := Udp (pcbs u) (udp_pcbs u) v (free_pcbs u) (nets u) (index_of u) (unet u).
Definition set_free_pcbs (v : list Z) u : udp N := Udp (pcbs u) (udp_pcbs u) (udp_port u) v (nets u) (index_of u) (unet u).
Definition set_unet (v : N) u : udp N := Udp (pcbs u) (udp_pcbs u) (udp_port u) (free_pcbs u) (nets u) (index_of u) v.
Definition upd_pcb (a : Z) (f : udp_pcb -> udp_pcb) u : udp N := set_pcbs (alter f a (pcbs u)) u.

(** ** Ports *)

Definition UDP_ENSURE_LOCAL_PORT_RANGE (port : Z) : Z :=
  u16 (Z.land port (u16 (Z.lnot UDP_LOCAL_PORT_RANGE_START)) + UDP_LOCAL_PORT_RANGE_START).
(** [rand] is what [LWIP_RAND()] gives. *)
Definition udp_init (rand : Z) u : udp N := set_udp_port (UDP_ENSURE_LOCAL_PORT_RANGE rand) u.

(** The loop over the control blocks. *)
Definition port_used (port : Z) u : bool :=
  existsb (fun a => match pcbs u !! a with Some p => local_port p =? port | None => false end) (udp_pcbs u).
Fixpoint new_port_loop (fuel : nat) (n : Z) u : outcome (Z * udp N) :=
  match fuel with
  | O => Diverge
  | S fuel =>
      let u := set_udp_port (if udp_port u =? UDP_LOCAL_PORT_RANGE_END then UDP_LOCAL_PORT_RANGE_START else u16 (udp_port u + 1)) u in
      if port_used (udp_port u) u then
        let n := u16 (n + 1) in
        if UDP_LOCAL_PORT_RANGE_END - UDP_LOCAL_PORT_RANGE_START <? n then Ret (0, u)
        else new_port_loop fuel n u
      else Ret (udp_port u, u)
  end.
Definition udp_new_port u : outcome (Z * udp N) := new_port_loop (Z.to_nat 0x4001) 0 u.

Definition has_reuse (p : udp_pcb) : bool := has (so_options p) SOF_REUSEADDR.

(** Whether [ipcb] keeps [pcb] from binding to [ip], [port]. *)
Definition clash (pcb ipcb : udp_pcb) (ip port : Z) : bool :=
  (negb (has_reuse pcb) || negb (has_reuse ipcb)) &&
  ((local_port ipcb =? port) && ((local_ip ipcb =? ip) || ip4_addr_isany_val ip || ip4_addr_isany_val (local_ip ipcb))).
Definition bound_already (pcb : Z) (p : udp_pcb) (ip port : Z) u : bool :=
  existsb (fun a => negb (pcb =? a) && match pcbs u !! a with Some q => clash p q ip port | None => false end) (udp_pcbs u).

(** At the front of the list, unless it is there already. *)
Definition activate (pcb : Z) u : udp N := if decide (pcb ∈ udp_pcbs u) then u else set_udp_pcbs (pcb :: udp_pcbs u) u.

Definition udp_bind (pcb ip port : Z) u : outcome (err_t * udp N) :=
  p ← deref (pcbs u !! pcb);
  '(port, u) ← (if port =? 0 then udp_new_port u else Ret (if bound_already pcb p ip port u then 0 else port, u));
  if port =? 0 then Ret (ERR_USE, u)
  else Ret (ERR_OK, activate pcb (upd_pcb pcb (set_local ip port) u)).

Definition udp_bind_netif (pcb : Z) (netif : option Z) u : outcome (udp N) :=
  _ ← deref (pcbs u !! pcb);
  Ret (upd_pcb pcb (set_netif_idx (match netif with Some i => index_of u i | None => NETIF_NO_INDEX end)) u).

Definition udp_connect (pcb ip port : Z) u : outcome (err_t * udp N) :=
  p ← deref (pcbs u !! pcb);
  '(err, u) ← (if local_port p =? 0 then udp_bind pcb (local_ip p) (local_port p) u else Ret (ERR_OK, u));
  if bool_decide (err <> ERR_OK) then Ret (err, u)
  else Ret (ERR_OK, activate pcb (upd_pcb pcb (fun p => set_remote ip port (Z.lor (udp_flags p) UDP_FLAGS_CONNECTED) p) u)).

Definition udp_disconnect (pcb : Z) u : outcome (udp N) :=
  _ ← deref (pcbs u !! pcb);
  Ret (upd_pcb pcb (fun p => set_netif_idx NETIF_NO_INDEX (set_remote IPADDR_ANY 0 (Z.land (udp_flags p) (Z.land (Z.lnot UDP_FLAGS_CONNECTED) 0xff)) p)) u).

Definition udp_recv (pcb : Z) (cb : bool) u : outcome (udp N) :=
  _ ← deref (pcbs u !! pcb);
  Ret (upd_pcb pcb (set_recv cb) u).

(** Unlinking the first occurrence. *)
Fixpoint unlink (pcb : Z) (l : list Z) : list Z :=
  match l with
  | [] => []
  | a :: l' => if a =? pcb then l' else a :: unlink pcb l'
  end.
Definition udp_remove (pcb : Z) u : outcome (udp N) :=
  _ ← deref (pcbs u !! pcb);
  Ret (Udp (delete pcb (pcbs u)) (unlink pcb (udp_pcbs u)) (udp_port u) (pcb :: free_pcbs u) (nets u) (index_of u) (unet u)).

Definition udp_new u : option Z * udp N :=
  match free_pcbs u with
  | [] => (None, u)
  | a :: l => (Some a, set_free_pcbs l (set_pcbs (<[a := UdpPcb 0 0 0 0 0 UDP_TTL 0 0 0 0 0 UDP_TTL false]> (pcbs u)) u))
  end.

(** Without IPv6 the type is not used. *)
Definition udp_new_ip_type (type : Z) u : option Z * udp N := udp_new u.

Definition udp_netif_ip_addr_changed (old_addr new_addr : Z) u : udp N :=
  if negb (ip4_addr_isany_val old_addr) && negb (ip4_addr_isany_val new_addr) then
    foldl (fun u a => upd_pcb a (fun p => if local_ip p =? old_addr then set_local new_addr (local_port p) p else p) u) u (udp_pcbs u)
  else u.

(** ** Input *)

Definition udp_input_local_match (c : ip_ctx) (p : udp_pcb) (broadcast : bool) : bool :=
  if negb (netif_idx p =? NETIF_NO_INDEX) && negb (netif_idx p =? ctx_inp_idx c) then false
  else if broadcast then
    ip4_addr_isany_val (local_ip p) || (ctx_dest c =? IPADDR_BROADCAST) || ip4_addr_netcmp (local_ip p) (ctx_dest c) (netmask (ctx_inp c))
  else ip4_addr_isany_val (local_ip p) || (local_ip p =? ctx_dest c).

Definition remote_match (c : ip_ctx) (src : Z) (p : udp_pcb) : bool :=
  (remote_port p =? src) && (ip4_addr_isany_val (remote_ip p) || (remote_ip p =? ctx_src c)).

(** The best unconnected control block so far. *)
Definition better (c : ip_ctx) (broadcast : bool) (uncon : option (Z * udp_pcb)) (a : Z) (p : udp_pcb) : option (Z * udp_pcb) :=
  match uncon with
  | None => Some (a, p)
  | Some (_, q) =>
      if broadcast && (ctx_dest c =? IPADDR_BROADCAST) then
        if negb (local_ip q =? ip_addr (ctx_inp c)) && (local_ip p =? ip_addr (ctx_inp c)) then Some (a, p) else uncon
      else if negb (ip4_addr_isany_val (local_ip p)) then Some (a, p)
      else uncon
  end.

(** The search: the control block, and the list, in which a full match was moved to the front. *)
Fixpoint find_pcb (c : ip_ctx) (src dest : Z) (broadcast : bool) (m : gmap Z udp_pcb) (before l : list Z) (uncon : option (Z * udp_pcb))
    : outcome (option (Z * udp_pcb) * list Z) :=
  match l with
  | [] => Ret (uncon, before)
  | a :: l' =>
      p ← deref (m !! a);
      if (local_port p =? dest) && udp_input_local_match c p broadcast then
        let uncon := if negb (has (udp_flags p) UDP_FLAGS_CONNECTED) then better c broadcast uncon a p else uncon in
        if remote_match c src p then Ret (Some (a, p), match before with [] => l | _ => a :: before ++ l' end)
        else find_pcb c src dest broadcast m (before ++ [a]) l' uncon
      else find_pcb c src dest broadcast m (before ++ [a]) l' uncon
  end.

(** What becomes of the packet: it is given to the callback of a control block, or freed, or returned with an ICMP error and
    freed. *)
Inductive verdict := Delivered (pcb : Z) (p : list seg) (addr port : Z) | Dropped | Unreachable.

Definition udp_input (c : ip_ctx) (p : list seg) u : outcome (verdict * udp N) :=
  match p with
  | [] => Undef
  | Seg _ d :: _ =>
      if Z.of_nat (length d) <? UDP_HLEN then Ret (Dropped, u)
      else
        let broadcast := ip4_addr_isbroadcast (ctx_dest c) (ctx_netif c) in
        let src := get16 d 0 in
        let dest := get16 d 2 in
        '(pcb, l) ← find_pcb c src dest broadcast (pcbs u) [] (udp_pcbs u) None;
        let u := set_udp_pcbs l u in
        let for_us := match pcb with Some _ => true | None => ip_addr (ctx_inp c) =? ctx_dest c end in
        if for_us then
          if negb (get16 d 6 =? 0) &&
             negb (ip_chksum_pseudo p IP_PROTO_UDP (Z.of_nat (length (chain_data p))) (ctx_src c) (ctx_dest c) =? 0)
          then Ret (Dropped, u)
          else
            match pcb with
            | Some (a, q) => Ret (if recv q then Delivered a (remove_hdr UDP_HLEN p) (ctx_src c) src else Dropped, u)
            | None =>
                Ret (if negb broadcast && negb (ip4_addr_ismulticast (ctx_dest c)) then Unreachable else Dropped, u)
            end
        else Ret (Dropped, u)
  end.

(** ** Output *)

(** A packet of the application: the room in front of the payload of its first pbuf, and its pbufs. *)
Record app_pbuf := AppPbuf { headroom : Z; segs : list seg }.
Definition app_len (p : app_pbuf) : Z := Z.of_nat (length (chain_data (segs p))).

Definition put_hdr (hdr : list Z) (q : list seg) : list seg :=
  match q with Seg a d :: q' => Seg (a - UDP_HLEN) (hdr ++ d) :: q' | [] => [] end.
Definition udp_hdr_bytes (src dest len chksum : Z) : list Z := be16 src ++ be16 dest ++ be16 len ++ le16_bytes chksum.

(** [q] is the packet without the header, which goes in front: in the first pbuf or in a new one. *)
Definition udp_build (pcb : udp_pcb) (put : list Z -> list seg) (dst_ip dst_port src_ip netif : Z) : datagram_out :=
  let len := Z.of_nat (length (chain_data (put (udp_hdr_bytes 0 0 0 0)))) in
  let q := put (udp_hdr_bytes (local_port pcb) dst_port len 0) in
  let chksum :=
    if negb (has (udp_flags pcb) UDP_FLAGS_NOCHKSUM) then
      let c := ip_chksum_pseudo q IP_PROTO_UDP len src_ip dst_ip in if c =? 0 then 0xffff else c
    else 0 in
  DatagramOut (put (udp_hdr_bytes (local_port pcb) dst_port len chksum)) src_ip dst_ip
    (if ip4_addr_ismulticast dst_ip then mcast_ttl pcb else ttl pcb) (tos pcb) IP_PROTO_UDP netif
    (has (udp_flags pcb) UDP_FLAGS_MULTICAST_LOOP && ip4_addr_ismulticast dst_ip).

Definition udp_sendto_if_src (pcb : Z) (p : app_pbuf) (dst_ip dst_port netif src_ip : Z) u : outcome (err_t * udp N) :=
  b ← deref (pcbs u !! pcb);
  '(err, u) ← (if local_port b =? 0 then udp_bind pcb (local_ip b) (local_port b) u else Ret (ERR_OK, u));
  if bool_decide (err <> ERR_OK) then Ret (err, u)
  else
    b ← deref (pcbs u !! pcb);
    if u16 (app_len p + UDP_HLEN) <? app_len p then Ret (ERR_MEM, u)
    else if UDP_HLEN <=? headroom p then
      let '(err, n) := udp_ip_output (unet u) (udp_build b (fun h => put_hdr h (segs p)) dst_ip dst_port src_ip netif) in
      Ret (err, set_unet n u)
    else
      let '(q, n) := udp_hdr_alloc (unet u) in
      match q with
      | None => Ret (ERR_MEM, set_unet n u)
      | Some a =>
          let put h := Seg a h :: (if app_len p =? 0 then [] else segs p) in
          let '(err, n) := udp_ip_output n (udp_build b put dst_ip dst_port src_ip netif) in
          Ret (err, set_unet (udp_hdr_free n) u)
      end.

Definition udp_sendto_if (pcb : Z) (p : app_pbuf) (dst_ip dst_port netif : Z) u : outcome (err_t * udp N) :=
  b ← deref (pcbs u !! pcb);
  n ← deref (find_netif netif (netif_list (nets u)));
  if ip4_addr_isany_val (local_ip b) || ip4_addr_ismulticast (local_ip b) then
    udp_sendto_if_src pcb p dst_ip dst_port netif (ip_addr n) u
  else if negb (local_ip b =? ip_addr n) then Ret (ERR_RTE, u)
  else udp_sendto_if_src pcb p dst_ip dst_port netif (local_ip b) u.

Definition netif_get_by_index (idx : Z) u : option Z :=
  if idx =? NETIF_NO_INDEX then None
  else match list_find (fun x => index_of u x.1 = idx) (netif_list (nets u)) with Some (_, (i, _)) => Some i | None => None end.

(** The interface for a packet of [b] to [dst_ip]. *)
Definition udp_netif (b : udp_pcb) (dst_ip : Z) u : option Z :=
  if negb (netif_idx b =? NETIF_NO_INDEX) then netif_get_by_index (netif_idx b) u
  else
    let netif :=
      if ip4_addr_ismulticast dst_ip then
        if negb (mcast_ifindex b =? NETIF_NO_INDEX) then netif_get_by_index (mcast_ifindex b) u
        else if negb (ip4_addr_isany_val (mcast_ip4 b)) && negb (mcast_ip4 b =? IPADDR_BROADCAST) then ip4_route (nets u) (mcast_ip4 b)
        else None
      else None in
    match netif with Some i => Some i | None => ip4_route (nets u) dst_ip end.

Definition udp_sendto (pcb : Z) (p : app_pbuf) (dst_ip dst_port : Z) u : outcome (err_t * udp N) :=
  b ← deref (pcbs u !! pcb);
  match udp_netif b dst_ip u with
  | None => Ret (ERR_RTE, u)
  | Some netif => udp_sendto_if pcb p dst_ip dst_port netif u
  end.

Definition udp_send (pcb : Z) (p : app_pbuf) u : outcome (err_t * udp N) :=
  b ← deref (pcbs u !! pcb);
  udp_sendto pcb p (remote_ip b) (remote_port b) u.
End udp.
