(* ===== verification/UdpOk.v ===== *)
(** * What UDP keeps: ports, bindings and the list of control blocks

    The invariant [udp_ok] of [Udp], the search for a free port, and the calls of the application. *)

From stdpp Require Import gmap.
From S2P Require Import Prelude Def Chksum Ip4Addr Route Chain Ip4Hdr Udp.

Section ok.
  Context {N : Type} `{!UdpNet N}.
  Implicit Type u : udp N.

(** [q] is in the way of [p]. *)
Definition conflict (p q : udp_pcb) : bool := clash p q (local_ip p) (local_port p).

Record udp_ok u : Prop := {
  uo_list : NoDup (udp_pcbs u);
  uo_held : forall a, a ∈ udp_pcbs u -> is_Some (pcbs u !! a);
  uo_free : NoDup (free_pcbs u) /\ forall a, a ∈ free_pcbs u -> pcbs u !! a = None;
  uo_range : UDP_LOCAL_PORT_RANGE_START <= udp_port u <= UDP_LOCAL_PORT_RANGE_END;
  uo_bound : forall a p, pcbs u !! a = Some p -> a ∈ udp_pcbs u <-> local_port p <> 0;
  uo_alone : forall a b p q, a ∈ udp_pcbs u -> b ∈ udp_pcbs u -> a <> b -> pcbs u !! a = Some p -> pcbs u !! b = Some q -> conflict p q = false }.

(** ** A free port *)

Definition used (port : Z) u : Prop := exists a p, a ∈ udp_pcbs u /\ pcbs u !! a = Some p /\ local_port p = port.
Lemma port_used_spec port u : port_used port u = true <-> used port u.
Proof.
  unfold port_used, used. rewrite existsb_exists. split.
  - intros (a & Ha%list_elem_of_In & H). destruct (pcbs u !! a) as [p|] eqn:E; [|done]. apply Z.eqb_eq in H. by exists a, p.
  - intros (a & p & Ha & Hp & <-). exists a. split; [by apply list_elem_of_In|]. rewrite Hp. apply Z.eqb_refl.
Qed.

(** The [k]th port behind [p]. *)
Definition nth_port (p k : Z) : Z := UDP_LOCAL_PORT_RANGE_START + (p - UDP_LOCAL_PORT_RANGE_START + k) mod 0x4000.
Definition in_range (p : Z) : Prop := UDP_LOCAL_PORT_RANGE_START <= p <= UDP_LOCAL_PORT_RANGE_END.

Lemma nth_port_range p k : in_range (nth_port p k).
Proof. unfold in_range, nth_port, UDP_LOCAL_PORT_RANGE_START, UDP_LOCAL_PORT_RANGE_END. pose proof (Z.mod_pos_bound (p - 0xc000 + k) 0x4000). lia. Qed.
Lemma nth_port_0 p : in_range p -> nth_port p 0 = p.
Proof.
  unfold in_range, nth_port, UDP_LOCAL_PORT_RANGE_START, UDP_LOCAL_PORT_RANGE_END. intros. rewrite Z.mod_small; lia.
Qed.
Lemma nth_port_next p k :
  (if nth_port p k =? UDP_LOCAL_PORT_RANGE_END then UDP_LOCAL_PORT_RANGE_START else u16 (nth_port p k + 1)) = nth_port p (k + 1).
Proof.
  unfold nth_port, UDP_LOCAL_PORT_RANGE_START, UDP_LOCAL_PORT_RANGE_END. rewrite (Z.add_assoc _ k 1). set (x := p - 0xc000 + k).
  pose proof (Z.mod_pos_bound x 0x4000). rewrite (Z.add_mod x 1) by lia. change (1 mod 0x4000) with 1.
  destruct (Z.eqb_spec (0xc000 + x mod 0x4000) 0xffff) as [E|E].
  - replace (x mod 0x4000) with 0x3fff by lia. done.
  - rewrite u16_small by lia. rewrite (Z.mod_small (x mod 0x4000 + 1)) by lia. lia.
Qed.
Lemma nth_port_onto p q : in_range q -> exists k, 1 <= k <= 0x4000 /\ nth_port p k = q.
Proof.
  unfold in_range, nth_port, UDP_LOCAL_PORT_RANGE_START, UDP_LOCAL_PORT_RANGE_END. intros Hq. set (d := (q - p - 1) mod 0x4000).
  pose proof (Z.mod_pos_bound (q - p - 1) 0x4000). exists (d + 1). split; [unfold d; lia|].
  replace (p - 49152 + (d + 1)) with (d + (p - 49151)) by lia. unfold d. rewrite Zplus_mod_idemp_l.
  replace (q - p - 1 + (p - 49151)) with (q - 49152) by lia. rewrite Z.mod_small; lia.
Qed.

Lemma new_port_loop_ok p fuel : forall n u, udp_port u = nth_port p n -> 0 <= n < 0x4000 -> 0x4000 - n < Z.of_nat fuel + 1 ->
  (forall k, 1 <= k <= n -> used (nth_port p k) u) ->
  exists port x, new_port_loop fuel n u = Ret (port, set_udp_port x u) /\ in_range x /\
    (port = 0 /\ (forall q, in_range q -> used q u) \/ port = x /\ ~ used x u).
Proof.
  induction fuel as [|fuel IH]; intros n u Hp Hn Hfuel Hused; [lia|]. cbn [new_port_loop]. rewrite Hp, nth_port_next.
  set (x := nth_port p (n + 1)). change (udp_port (set_udp_port x u)) with x.
  change (port_used x (set_udp_port x u)) with (port_used x u).
  destruct (port_used x u) eqn:E.
  - apply port_used_spec in E. rewrite u16_small by lia.
    assert (forall k, 1 <= k <= n + 1 -> used (nth_port p k) u) as Hused'.
    { intros k Hk. destruct (decide (k = n + 1)) as [->|]; [done|]. apply Hused. lia. }
    unfold UDP_LOCAL_PORT_RANGE_END at 1, UDP_LOCAL_PORT_RANGE_START at 1. destruct (Z.ltb_spec (0xffff - 0xc000) (n + 1)).
    + exists 0, x. split; [done|]. split; [apply nth_port_range|]. left. split; [done|]. intros q Hq.
      destruct (nth_port_onto p q Hq) as (k & Hk & <-). apply Hused'. lia.
    + destruct (IH (n + 1) (set_udp_port x u)) as (port & x' & -> & Hx' & Hres); [done|lia|lia|done|]. exists port, x'. done.
  - exists x, x. split; [done|]. split; [apply nth_port_range|]. right. split; [done|]. rewrite <- port_used_spec. congruence.
Qed.

Lemma new_port_ok u : in_range (udp_port u) ->
  exists port x, udp_new_port u = Ret (port, set_udp_port x u) /\ in_range x /\
    (port = 0 /\ (forall q, in_range q -> used q u) \/ port = x /\ ~ used x u).
Proof.
  intros Hr. apply (new_port_loop_ok (udp_port u)); [by rewrite nth_port_0|lia|lia|]. intros k Hk. lia.
Qed.

(** ** Changing one control block *)

Lemma conflict_sym p q : conflict p q = conflict q p.
Proof.
  unfold conflict, clash. rewrite (orb_comm (negb (has_reuse p))), (Z.eqb_sym (local_port q)), (Z.eqb_sym (local_ip q)). do 2 f_equal.
  rewrite <- !orb_assoc. f_equal. apply orb_comm.
Qed.
Lemma upd_pcb_insert a f p u : pcbs u !! a = Some p -> upd_pcb a f u = set_pcbs (<[a := f p]> (pcbs u)) u.
Proof. intros H. unfold upd_pcb. f_equal. rewrite <- (insert_id (pcbs u) a p H) at 1. apply alter_insert_eq. Qed.

(** [p] does not collide with the others. *)
Definition fits_in (a : Z) (p : udp_pcb) u : Prop :=
  local_port p <> 0 /\ forall b q, b ∈ udp_pcbs u -> a <> b -> pcbs u !! b = Some q -> conflict p q = false.

(** A new value for [a], and a new list that differs at most in [a]. *)
Lemma udp_ok_gen a p' l u : udp_ok u -> is_Some (pcbs u !! a) -> NoDup l -> (forall b, b <> a -> b ∈ l <-> b ∈ udp_pcbs u) ->
  (a ∈ l /\ fits_in a p' u \/ a ∉ l /\ local_port p' = 0) -> udp_ok (set_udp_pcbs l (set_pcbs (<[a := p']> (pcbs u)) u)).
Proof.
  intros [H1 H2 [H3 H3'] H4 H5 H6] [p Ha] Hn Hl Hf. split; simpl; try done.
  - intros b Hb. destruct (decide (a = b)) as [->|]; [by rewrite lookup_insert_eq|]. rewrite lookup_insert_ne by done. by apply H2, Hl.
  - split; [done|]. intros b Hb. rewrite lookup_insert_ne; [by apply H3'|]. intros ->. by rewrite (H3' b Hb) in Ha.
  - intros b q Hq. destruct (decide (a = b)) as [->|].
    + rewrite lookup_insert_eq in Hq. injection Hq as <-. destruct Hf as [[? [? _]]|[? ?]]; done.
    + rewrite lookup_insert_ne in Hq by done. rewrite Hl by done. by apply H5.
  - intros b c q r Hb Hc Hbc Hq Hr. destruct (decide (a = b)) as [->|Hab].
    + rewrite lookup_insert_eq in Hq. injection Hq as <-. rewrite lookup_insert_ne in Hr by done. destruct Hf as [[_ [_ Hf]]|[? _]]; [|done].
      apply (Hf c); [by apply Hl|done|done].
    + rewrite lookup_insert_ne in Hq by done. apply Hl in Hb; [|done]. destruct (decide (a = c)) as [->|Hac].
      * rewrite lookup_insert_eq in Hr. injection Hr as <-. rewrite conflict_sym. destruct Hf as [[_ [_ Hf]]|[? _]]; [|done]. by apply (Hf b).
      * rewrite lookup_insert_ne in Hr by done. apply Hl in Hc; [|done]. by apply (H6 b c).
Qed.
Lemma udp_ok_put a f p u : udp_ok u -> pcbs u !! a = Some p -> fits_in a (f p) u -> udp_ok (activate a (upd_pcb a f u)).
Proof.
  intros Hok Ha Hf. rewrite (upd_pcb_insert _ _ _ _ Ha). unfold activate. simpl. destruct (decide (a ∈ udp_pcbs u)).
  - assert (set_pcbs (<[a:=f p]> (pcbs u)) u = set_udp_pcbs (udp_pcbs u) (set_pcbs (<[a:=f p]> (pcbs u)) u)) as -> by (by destruct u).
    apply udp_ok_gen; [done|by exists p|apply (uo_list _ Hok)|done|by left].
  - apply (udp_ok_gen a (f p) (a :: udp_pcbs u)); [done|by exists p|constructor; [done|apply (uo_list _ Hok)]| |left; split; [left|done]].
    intros b Hb. rewrite elem_of_cons. naive_solver.
Qed.
Lemma fits_self a p p' u : udp_ok u -> pcbs u !! a = Some p -> local_port p <> 0 -> local_port p' = local_port p -> local_ip p' = local_ip p ->
  so_options p' = so_options p -> fits_in a p' u.
Proof.
  intros Hok Hp Hne E1 E2 E3. split; [by rewrite E1|]. intros b q Hb Hab Hq. pose proof (proj2 (uo_bound _ Hok a p Hp) Hne) as Ha.
  rewrite <- (uo_alone _ Hok a b p q Ha Hb Hab Hp Hq). unfold conflict, clash, has_reuse. by rewrite E1, E2, E3.
Qed.
Lemma udp_ok_same a f u : udp_ok u -> is_Some (pcbs u !! a) ->
  (forall p, local_port (f p) = local_port p /\ local_ip (f p) = local_ip p /\ so_options (f p) = so_options p) -> udp_ok (upd_pcb a f u).
Proof.
  intros Hok [p Hp] Hf. destruct (Hf p) as (E1 & E2 & E3). rewrite (upd_pcb_insert _ _ _ _ Hp).
  assert (set_pcbs (<[a:=f p]> (pcbs u)) u = set_udp_pcbs (udp_pcbs u) (set_pcbs (<[a:=f p]> (pcbs u)) u)) as -> by (by destruct u).
  apply udp_ok_gen; [done|by exists p|apply (uo_list _ Hok)|done|]. pose proof (uo_bound _ Hok a p Hp) as Hb.
  destruct (decide (local_port p = 0)) as [E|E]; [right|left].
  - split; [by intros ?%Hb|congruence].
  - split; [by apply Hb|by apply (fits_self a p)].
Qed.

(** ** The calls *)

(** The port that [udp_bind] takes; 0: there is none. *)
Definition bind_port (a : Z) (p : udp_pcb) (ip port : Z) u : outcome (Z * udp N) :=
  if port =? 0 then udp_new_port u else Ret (if bound_already a p ip port u then 0 else port, u).
Definition cannot_bind (a : Z) (p : udp_pcb) (ip port : Z) u : Prop :=
  port = 0 /\ (forall q, in_range q -> used q u) \/
  exists b q, b ∈ udp_pcbs u /\ a <> b /\ pcbs u !! b = Some q /\ clash p q ip port = true.

Lemma bind_port_ok a p ip port u : udp_ok u -> exists port' x, bind_port a p ip port u = Ret (port', set_udp_port x u) /\ in_range x /\
    (port' = 0 /\ cannot_bind a p ip port u \/ port' <> 0 /\ (port <> 0 -> port' = port) /\ fits_in a (set_local ip port' p) u).
Proof.
  intros Hok. unfold bind_port. destruct (Z.eqb_spec port 0) as [->|Hp0].
  - destruct (new_port_ok u (uo_range _ Hok)) as (port' & x & -> & Hx & Hres). exists port', x. split; [done|]. split; [done|].
    destruct Hres as [[-> Hall]|[-> Hnu]]; [left; split; [done|by left]|right].
    assert (x <> 0) by (unfold in_range, UDP_LOCAL_PORT_RANGE_START in Hx; lia). split; [done|]. split; [done|].
    split; [done|]. intros b q Hb Hab Hq. unfold conflict, clash. simpl. rewrite (proj2 (Z.eqb_neq (local_port q) x)), andb_false_r; [done|].
    intros E. apply Hnu. by exists b, q.
  - exists (if bound_already a p ip port u then 0 else port), (udp_port u). split; [by destruct u|]. split; [apply (uo_range _ Hok)|].
    unfold bound_already. destruct (existsb _ _) eqn:E.
    + left. split; [done|]. right. apply existsb_exists in E as (b & Hb%list_elem_of_In & E).
      apply andb_true_iff in E as [E1%negb_true_iff%Z.eqb_neq E2]. destruct (pcbs u !! b) as [q|] eqn:Hq; [|done]. by exists b, q.
    + right. split; [done|]. split; [done|]. split; [done|]. intros b q Hb Hab Hq.
      change (clash p q ip port = false). apply not_true_iff_false. intros Hc. apply not_true_iff_false in E. apply E. apply existsb_exists.
      exists b. split; [by apply list_elem_of_In|]. rewrite Hq, Hc, andb_true_r. by apply negb_true_iff, Z.eqb_neq.
Qed.

(** What binding [a] leaves alone. *)
Record same_but (a : Z) u u' : Prop := {
  sb_free : free_pcbs u' = free_pcbs u;
  sb_unet : unet u' = unet u;
  sb_nets : nets u' = nets u;
  sb_index : index_of u' = index_of u;
  sb_pcbs : forall b, b <> a -> pcbs u' !! b = pcbs u !! b;
  sb_list : forall b, b <> a -> b ∈ udp_pcbs u' <-> b ∈ udp_pcbs u }.

Lemma activate_in a u : a ∈ udp_pcbs (activate a u).
Proof. unfold activate. destruct (decide _); [done|left]. Qed.
Lemma activate_same a u : pcbs (activate a u) = pcbs u.
Proof. unfold activate. by destruct (decide _). Qed.
Lemma alter_same a f u : same_but a u (activate a (upd_pcb a f u)).
Proof.
  unfold activate. destruct (decide _); split; simpl; try done; intros b Hb; try (by rewrite lookup_alter_ne by done).
  rewrite elem_of_cons. naive_solver.
Qed.

Lemma udp_bind_ok a p ip port u : udp_ok u -> pcbs u !! a = Some p ->
  exists err u', udp_bind a ip port u = Ret (err, u') /\ udp_ok u' /\ same_but a u u' /\
    (err = ERR_OK /\ a ∈ udp_pcbs u' /\ (exists port', pcbs u' !! a = Some (set_local ip port' p) /\ port' <> 0 /\ (port <> 0 -> port' = port))
     \/ err = ERR_USE /\ pcbs u' = pcbs u /\ udp_pcbs u' = udp_pcbs u /\ cannot_bind a p ip port u).
Proof.
  intros Hok Hp. unfold udp_bind. rewrite Hp. cbn [deref mbind outcome_bind].
  change (if port =? 0 then _ else _) with (bind_port a p ip port u).
  destruct (bind_port_ok a p ip port u Hok) as (port' & x & -> & Hx & Hres). cbn [mbind outcome_bind].
  assert (udp_ok (set_udp_port x u)) as Hok1 by (destruct Hok; by split).
  destruct Hres as [[-> Hcan]|(Hne & Hpp & Hfit)].
  - exists ERR_USE, (set_udp_port x u). split; [done|]. split; [done|]. split; [by split|]. by right.
  - rewrite (proj2 (Z.eqb_neq _ _)) by done. eexists _, _. split; [reflexivity|]. split; [by apply (udp_ok_put a _ p)|].
    destruct (alter_same a (set_local ip port') (set_udp_port x u)) as [S1 S2 S3 S4 S5 S6]. split; [by split|].
    left. split; [done|]. split; [apply activate_in|]. exists port'. split; [|done]. rewrite activate_same. simpl. by rewrite lookup_alter_eq, Hp.
Qed.

Lemma udp_connect_ok a p ip port u : udp_ok u -> pcbs u !! a = Some p ->
  exists err u', udp_connect a ip port u = Ret (err, u') /\ udp_ok u' /\ same_but a u u' /\
    (err = ERR_OK /\ a ∈ udp_pcbs u' /\ (exists q, pcbs u' !! a = Some q /\ remote_ip q = ip /\ remote_port q = port /\
        has (udp_flags q) UDP_FLAGS_CONNECTED = true /\ local_port q <> 0 /\ (local_port p <> 0 -> local_port q = local_port p) /\ local_ip q = local_ip p)
     \/ err = ERR_USE /\ pcbs u' = pcbs u /\ udp_pcbs u' = udp_pcbs u).
Proof.
  intros Hok Hp. unfold udp_connect. rewrite Hp. cbn [deref mbind outcome_bind]. set (go := if local_port p =? 0 then _ else _).
  set (f := fun p => set_remote ip port (Z.lor (udp_flags p) UDP_FLAGS_CONNECTED) p).
  assert (exists err u1, go = Ret (err, u1) /\ udp_ok u1 /\ same_but a u u1 /\
    (err = ERR_OK /\ (exists q, pcbs u1 !! a = Some q /\ fits_in a (f q) u1 /\ local_ip q = local_ip p /\ (local_port p <> 0 -> local_port q = local_port p))
     \/ err = ERR_USE /\ pcbs u1 = pcbs u /\ udp_pcbs u1 = udp_pcbs u)) as (err & u1 & -> & Hok1 & Hsame & Hres).
  { subst go. destruct (Z.eqb_spec (local_port p) 0) as [E|E].
    - destruct (udp_bind_ok a p (local_ip p) (local_port p) u Hok Hp) as (err & u1 & -> & Hok1 & Hs & [(-> & Hin & port' & Hq & Hne & _)|(-> & H1 & H2 & _)]).
      + exists ERR_OK, u1. split; [done|]. split; [done|]. split; [done|]. left. split; [done|]. eexists. split; [exact Hq|].
        split; [|done]. by apply (fits_self a _ _ _ Hok1 Hq).
      + exists ERR_USE, u1. split; [done|]. split; [done|]. split; [done|]. by right.
    - exists ERR_OK, u. split; [done|]. split; [done|]. split; [by split|]. left. split; [done|]. exists p. split; [done|]. split; [|done].
      by apply (fits_self a p). }
  cbn [mbind outcome_bind]. destruct Hres as [(-> & q & Hq & Hfit & E1 & E2)|(-> & H1 & H2)].
  - rewrite bool_decide_false by tauto. eexists _, _. split; [reflexivity|]. split; [by apply (udp_ok_put a f q)|].
    destruct (alter_same a f u1) as [S1 S2 S3 S4 S5 S6], Hsame as [T1 T2 T3 T4 T5 T6]. split; [split; try congruence|].
    + intros b Hb. rewrite S5 by done. by apply T5.
    + intros b Hb. rewrite S6 by done. by apply T6.
    + left. split; [done|]. split; [apply activate_in|]. exists (f q). rewrite activate_same. simpl. rewrite lookup_alter_eq, Hq. split; [done|].
      split; [done|]. split; [done|]. split; [by apply has_lor_self|]. split; [apply Hfit|done].
  - exists ERR_USE, u1. split; [done|]. split; [done|]. split; [done|]. by right.
Qed.

Lemma unlink_in a b l : NoDup l -> b ∈ unlink a l <-> b ∈ l /\ b <> a.
Proof.
  induction l as [|x l IH]; intros Hn; simpl; [rewrite !elem_of_nil; tauto|]. apply NoDup_cons in Hn as [Hx Hn].
  destruct (Z.eqb_spec x a) as [->|Hne].
  - rewrite elem_of_cons. split; [intros Hb; split; [by right|by intros ->]|]. by intros [[->|?] ?].
  - rewrite !elem_of_cons, (IH Hn). naive_solver.
Qed.
Lemma unlink_nodup a l : NoDup l -> NoDup (unlink a l).
Proof.
  induction l as [|x l IH]; intros Hn; simpl; [done|]. apply NoDup_cons in Hn as [Hx Hn]. destruct (x =? a); [done|].
  constructor; [|by apply IH]. rewrite unlink_in by done. tauto.
Qed.

Lemma udp_remove_ok a u : udp_ok u -> is_Some (pcbs u !! a) ->
  exists u', udp_remove a u = Ret u' /\ udp_ok u' /\ pcbs u' = delete a (pcbs u) /\ free_pcbs u' = a :: free_pcbs u /\ a ∉ udp_pcbs u'.
Proof.
  intros [H1 H2 [H3 H3'] H4 H5 H6] [p Ha]. unfold udp_remove. rewrite Ha. cbn [deref mbind outcome_bind]. eexists. split; [reflexivity|].
  split; [|split; [done|]; split; [done|]; simpl; rewrite unlink_in by done; tauto]. split; simpl; try done.
  - by apply unlink_nodup.
  - intros b. rewrite unlink_in by done. intros [Hb Hne]. rewrite lookup_delete_ne by done. by apply H2.
  - split; [constructor; [intros Hin; by rewrite (H3' a Hin) in Ha|done]|]. intros b [->|Hb]%elem_of_cons; [apply lookup_delete_eq|].
    rewrite lookup_delete_None. right. by apply H3'.
  - intros b q. rewrite lookup_delete_Some, unlink_in by done. intros [Hne Hq]. rewrite <- (H5 b q Hq). naive_solver.
  - intros b c q r. rewrite !unlink_in by done. intros [Hb ?] [Hc ?] Hbc Hq Hr. rewrite lookup_delete_ne in Hq, Hr by done. by apply (H6 b c).
Qed.

Lemma udp_new_ok u : udp_ok u -> exists o u', udp_new u = (o, u') /\ udp_ok u' /\
  match o with
  | Some a => free_pcbs u = a :: free_pcbs u' /\ pcbs u !! a = None /\ udp_pcbs u' = udp_pcbs u /\ a ∉ udp_pcbs u' /\
      exists p, pcbs u' = <[a := p]> (pcbs u) /\ local_port p = 0 /\ remote_port p = 0 /\ udp_flags p = 0
  | None => free_pcbs u = [] /\ u' = u
  end.
Proof.
  intros Hok. pose proof Hok as [H1 H2 [H3 H3'] H4 H5 H6]. unfold udp_new. destruct (free_pcbs u) as [|a l] eqn:E; [by exists None, u|].
  assert (pcbs u !! a = None) as Ha by (apply H3'; left). assert (a ∉ udp_pcbs u) as Hna by (intros [p Hp]%H2; congruence).
  eexists _, _. split; [reflexivity|]. split; [|by split_and!; try done; eexists]. apply NoDup_cons in H3 as [Hal Hl]. split; simpl; try done.
  - intros b Hb. rewrite lookup_insert_ne by (by intros ->). by apply H2.
  - split; [done|]. intros b Hb. rewrite lookup_insert_ne by (by intros ->). apply H3'. by right.
  - intros b q Hq. destruct (decide (a = b)) as [->|].
    + rewrite lookup_insert_eq in Hq. injection Hq as <-. simpl. tauto.
    + rewrite lookup_insert_ne in Hq by done. by apply H5.
  - intros b c q r Hb Hc Hbc Hq Hr. rewrite lookup_insert_ne in Hq by (by intros ->). rewrite lookup_insert_ne in Hr by (by intros ->). by apply (H6 b c).
Qed.

(** Sending changes no binding but that of a control block without a port. *)
Lemma udp_sendto_if_src_ok a b p dst_ip dst_port netif src_ip u : udp_ok u -> pcbs u !! a = Some b ->
  exists err u', udp_sendto_if_src a p dst_ip dst_port netif src_ip u = Ret (err, u') /\ udp_ok u'.
Proof.
  intros Hok Hb. unfold udp_sendto_if_src. rewrite Hb. cbn [deref mbind outcome_bind]. set (go := if local_port b =? 0 then _ else _).
  assert (exists err u1, go = Ret (err, u1) /\ udp_ok u1 /\ is_Some (pcbs u1 !! a)) as (err & u1 & -> & Hok1 & [b1 Hb1]).
  { subst go. destruct (Z.eqb_spec (local_port b) 0).
    - destruct (udp_bind_ok a b (local_ip b) (local_port b) u Hok Hb) as (err & u1 & -> & Hok1 & _ & Hres). exists err, u1. split; [done|]. split; [done|].
      destruct Hres as [(_ & _ & port' & -> & _)|(_ & -> & _)]; [done|by exists b].
    - exists ERR_OK, u. split; [done|]. split; [done|by exists b]. }
  cbn [mbind outcome_bind]. assert (forall n, udp_ok (set_unet n u1)) as Hn by (intros n; destruct Hok1; by split).
  destruct (bool_decide (err <> ERR_OK)); [by eexists _, _|]. rewrite Hb1. cbn [deref mbind outcome_bind].
  destruct (_ <? app_len p); [by eexists _, _|]. destruct (UDP_HLEN <=? headroom p).
  - destruct (udp_ip_output _ _) as [e n]. by eexists _, _.
  - destruct (udp_hdr_alloc _) as [[q|] n]; [|by eexists _, _]. destruct (udp_ip_output _ _) as [e n']. by eexists _, _.
Qed.
End ok.
