(* ===== verification/UdpProps.v ===== *)
(** * Datagrams find their sockets

    Which control block [udp_input] chooses, what the calls of an application keep, and that a datagram that is sent is
    received. *)

From stdpp Require Import gmap.
From S2P Require Import Prelude Def Chksum Ip4Addr Route Chain Ip4Hdr Udp UdpOk.

(** ** The choice *)

Section choice.
  Context (c : ip_ctx) (src dest : Z) (bc : bool) (m : gmap Z udp_pcb).

(** A control block that the datagram may be for, one that it is certainly for, and one that takes datagrams from anyone. *)
Definition accepts (p : udp_pcb) : bool := (local_port p =? dest) && udp_input_local_match c p bc.
Definition full (p : udp_pcb) : bool := accepts p && remote_match c src p.
Definition open_pcb (p : udp_pcb) : bool := accepts p && negb (has (udp_flags p) UDP_FLAGS_CONNECTED).
(** Of these, one bound to an address is preferred; for a broadcast to all networks one bound to that of the interface. *)
Definition preferred (p : udp_pcb) : bool :=
  if bc && (ctx_dest c =? IPADDR_BROADCAST) then local_ip p =? ip_addr (ctx_inp c) else negb (ip4_addr_isany_val (local_ip p)).

Definition none_full (l : list Z) : Prop := forall b q, b ∈ l -> m !! b = Some q -> full q = false.
(** [a] is the best one of [l] that takes datagrams from anyone. *)
Definition best_open (l : list Z) (a : Z) (p : udp_pcb) : Prop :=
  a ∈ l /\ m !! a = Some p /\ open_pcb p = true /\
  forall b q, b ∈ l -> m !! b = Some q -> open_pcb q = true -> preferred q = true -> preferred p = true.
Definition best_of (l : list Z) (o : option (Z * udp_pcb)) : Prop :=
  match o with
  | Some (a, p) => best_open l a p
  | None => forall b q, b ∈ l -> m !! b = Some q -> open_pcb q = false
  end.

Inductive chosen (l : list Z) (a : Z) (p : udp_pcb) : Prop :=
| chosen_full l1 l2 : l = l1 ++ a :: l2 -> m !! a = Some p -> full p = true -> none_full l1 -> chosen l a p
| chosen_open : none_full l -> best_open l a p -> chosen l a p.

Lemma best_next l o a p : m !! a = Some p -> best_of l o ->
  best_of (l ++ [a]) (if open_pcb p then better c bc o a p else o).
Proof.
  intros Ha Hb. assert (forall b q, b ∈ l ++ [a] -> m !! b = Some q -> b ∈ l \/ b = a /\ q = p) as Hin.
  { intros b q [?|Hb'%list_elem_of_singleton]%elem_of_app Hq; [by left|right; subst b; split; [done|congruence]]. }
  assert (best_open (l ++ [a]) a p <-> open_pcb p = true /\ forall b q, b ∈ l -> m !! b = Some q -> open_pcb q = true -> preferred q = true -> preferred p = true) as Hnew.
  { split; [intros (_ & _ & H1 & H2); split; [done|]; intros b q Hbl; apply (H2 b q); apply elem_of_app; by left|].
    intros [H1 H2]. split; [apply elem_of_app; right; left|]. split; [done|]. split; [done|]. intros b q Hbl Hq.
    destruct (Hin b q Hbl Hq) as [Hb1|[-> ->]]; [by apply (H2 b q)|done]. }
  destruct (open_pcb p) eqn:Hop.
  - destruct o as [[b q]|]; simpl in Hb |- *.
    + destruct Hb as (B1 & B2 & B3 & B4).
      assert ((preferred q = true -> preferred p = true) -> best_open (l ++ [a]) a p) as Hp.
      { intros Hpq. apply Hnew. split; [done|]. intros x y Hx Hy Ho Hpr. apply Hpq. by apply (B4 x y). }
      assert ((preferred p = true -> preferred q = true) -> best_open (l ++ [a]) b q) as Hq.
      { intros Hpq. split; [apply elem_of_app; by left|]. split; [done|]. split; [done|]. intros x y Hx Hy.
        destruct (Hin x y Hx Hy) as [Hx'|[-> ->]]; [by apply (B4 x y)|]. intros _. apply Hpq. }
      unfold preferred in *. destruct (bc && _).
      * destruct (local_ip q =? _) eqn:E1, (local_ip p =? _) eqn:E2; simpl; (apply Hp; done) || (apply Hq; done).
      * destruct (negb (ip4_addr_isany_val (local_ip p))) eqn:E; [by apply Hp|by apply Hq].
    + apply Hnew. split; [done|]. intros b q Hbl Hq Ho. by rewrite (Hb b q Hbl Hq) in Ho.
  - destruct o as [[b q]|]; simpl in Hb |- *.
    + destruct Hb as (B1 & B2 & B3 & B4). split; [apply elem_of_app; by left|]. split; [done|]. split; [done|]. intros x y Hx Hy Ho.
      destruct (Hin x y Hx Hy) as [Hx'|[-> ->]]; [by apply (B4 x y)|congruence].
    + intros x y Hx Hy. destruct (Hin x y Hx Hy) as [Hx'|[-> ->]]; [by apply (Hb x y)|done].
Qed.

Lemma find_pcb_ok l : forall before o, (forall a, a ∈ l -> is_Some (m !! a)) -> none_full before -> best_of before o ->
  exists r l', find_pcb c src dest bc m before l o = Ret (r, l') /\ l' ≡ₚ before ++ l /\
    match r with
    | Some (a, p) => chosen (before ++ l) a p /\ (full p = true -> head l' = Some a)
    | None => forall b q, b ∈ before ++ l -> m !! b = Some q -> open_pcb q = false /\ full q = false
    end.
Proof.
  induction l as [|a l IH]; intros before o Hl Hnf Hb; cbn [find_pcb].
  { rewrite app_nil_r. exists o, before. split; [done|]. split; [done|]. destruct o as [[a p]|]; simpl in Hb.
    - split; [by apply chosen_open|]. intros Hf. destruct Hb as (B1 & B2 & _). by rewrite (Hnf a p B1 B2) in Hf.
    - intros b q Hbl Hq. split; [by apply (Hb b)|by apply (Hnf b)]. }
  destruct (Hl a ltac:(left)) as [p Hp]. rewrite Hp. cbn [deref mbind outcome_bind]. fold (accepts p).
  assert (full p = false -> exists r l', find_pcb c src dest bc m (before ++ [a]) l (if open_pcb p then better c bc o a p else o) = Ret (r, l') /\ l' ≡ₚ before ++ a :: l /\
    match r with
    | Some (b, q) => chosen (before ++ a :: l) b q /\ (full q = true -> head l' = Some b)
    | None => forall b q, b ∈ before ++ a :: l -> m !! b = Some q -> open_pcb q = false /\ full q = false
    end) as Hgo.
  { intros Hf. destruct (IH (before ++ [a]) (if open_pcb p then better c bc o a p else o)) as (r & l' & H1 & H2 & H3).
    - intros b Hbl. apply Hl. by right.
    - intros b q [Hbl|Hbl%list_elem_of_singleton]%elem_of_app Hq; [by apply (Hnf b)|]. subst b. congruence.
    - by apply best_next.
    - rewrite <- app_assoc in H2, H3. by exists r, l'. }
  unfold full, open_pcb in *. destruct (accepts p) eqn:Hacc; cbn [andb] in Hgo |- *; [|by apply Hgo].
  destruct (remote_match c src p) eqn:Hr; [|by apply Hgo].
  eexists _, _. split; [reflexivity|]. split.
  { destruct before as [|b before]; [done|]. by rewrite <- Permutation_middle. }
  split; [|by destruct before]. apply (chosen_full _ a p before l); try done. unfold full. by rewrite Hacc.
Qed.
End choice.

Section props.
  Context {N : Type} `{!UdpNet N}.
  Implicit Type u : udp N.

(** The checksum of the datagram is absent or right. *)
Definition chksum_good (c : ip_ctx) (p : list seg) (d : list Z) : Prop :=
  get16 d 6 = 0 \/ ip_chksum_pseudo p IP_PROTO_UDP (Z.of_nat (length (chain_data p))) (ctx_src c) (ctx_dest c) = 0.

Lemma udp_ok_perm l u : udp_ok u -> l ≡ₚ udp_pcbs u -> udp_ok (set_udp_pcbs l u).
Proof.
  intros [H1 H2 H3 H4 H5 H6] Hl. split; simpl; try done.
  - by rewrite Hl.
  - intros a. rewrite Hl. apply H2.
  - intros a p. rewrite Hl. apply H5.
  - intros a b p q. rewrite !Hl. apply H6.
Qed.

(** No control block for the datagram. *)
Definition nobody (c : ip_ctx) (src dest : Z) (bc : bool) u : Prop :=
  forall b q, b ∈ udp_pcbs u -> pcbs u !! b = Some q -> open_pcb c dest bc q = false /\ full c src dest bc q = false.

Lemma chosen_connected c src dest bc m l a p : chosen c src dest bc m l a p -> has (udp_flags p) UDP_FLAGS_CONNECTED = true -> remote_match c src p = true.
Proof.
  intros [l1 l2 _ _ Hf _|_ (_ & _ & Ho & _)] Hc; [by apply andb_true_iff in Hf as [_ ?]|].
  unfold open_pcb in Ho. rewrite Hc in Ho. by rewrite andb_false_r in Ho.
Qed.

(** What is said of the packet [p] with the first bytes [d]. *)
Definition verdict_right (c : ip_ctx) (p : list seg) (d : list Z) u u' (v : verdict) : Prop :=
  let src := get16 d 0 in
  let dest := get16 d 2 in
  let bc := ip4_addr_isbroadcast (ctx_dest c) (ctx_netif c) in
  match v with
  | Delivered x q addr port => addr = ctx_src c /\ port = src /\ chain_data q = drop 8 (chain_data p) /\ chksum_good c p d /\
      exists b, chosen c src dest bc (pcbs u) (udp_pcbs u) x b /\ recv b = true /\
        (has (udp_flags b) UDP_FLAGS_CONNECTED = true -> remote_match c src b = true) /\ (full c src dest bc b = true -> head (udp_pcbs u') = Some x)
  | Dropped => ~ chksum_good c p d \/ (exists x b, chosen c src dest bc (pcbs u) (udp_pcbs u) x b /\ recv b = false) \/
      nobody c src dest bc u /\ (ip_addr (ctx_inp c) <> ctx_dest c \/ bc = true \/ ip4_addr_ismulticast (ctx_dest c) = true)
  | Unreachable => chksum_good c p d /\ nobody c src dest bc u /\ ip_addr (ctx_inp c) = ctx_dest c /\ bc = false /\ ip4_addr_ismulticast (ctx_dest c) = false
  end.

Lemma udp_input_ok c a d rest u : udp_ok u -> UDP_HLEN <= Z.of_nat (length d) ->
  exists v u', udp_input c (Seg a d :: rest) u = Ret (v, u') /\ udp_ok u' /\ pcbs u' = pcbs u /\ udp_pcbs u' ≡ₚ udp_pcbs u /\ free_pcbs u' = free_pcbs u /\
    verdict_right c (Seg a d :: rest) d u u' v.
Proof.
  intros Hok Hd. unfold udp_input. rewrite (proj2 (Z.ltb_ge _ _)) by done. set (p := Seg a d :: rest). set (bc := ip4_addr_isbroadcast _ _).
  destruct (find_pcb_ok c (get16 d 0) (get16 d 2) bc (pcbs u) (udp_pcbs u) [] None) as (r & l & -> & Hperm & Hr).
  { apply (uo_held _ Hok). }
  { intros b q Hb. by apply not_elem_of_nil in Hb. }
  { intros b q Hb. by apply not_elem_of_nil in Hb. }
  cbn [mbind outcome_bind]. simpl in Hperm, Hr. pose proof (udp_ok_perm l u Hok Hperm) as Hok1.
  set (bad := negb (get16 d 6 =? 0) && _).
  assert (bad = false <-> chksum_good c p d) as Hbad.
  { subst bad. unfold chksum_good. rewrite andb_false_iff, !negb_false_iff, !Z.eqb_eq. done. }
  assert (forall v, verdict_right c p d u (set_udp_pcbs l u) v -> exists v' u', Ret (v, set_udp_pcbs l u) = Ret (v', u') /\ udp_ok u' /\ pcbs u' = pcbs u /\
    udp_pcbs u' ≡ₚ udp_pcbs u /\ free_pcbs u' = free_pcbs u /\ verdict_right c p d u u' v') as Hret.
  { intros v Hv. exists v, (set_udp_pcbs l u). done. }
  destruct r as [[x b]|].
  - destruct Hr as [Hch Hhead]. destruct bad.
    + apply Hret. left. rewrite <- Hbad. done.
    + apply Hret. destruct (recv b) eqn:Hrecv; [|right; left; by exists x, b]. split; [done|]. split; [done|]. split.
      { unfold p, chain_data. simpl. rewrite drop_app_le; [done|]. unfold UDP_HLEN in Hd. lia. }
      split; [by apply Hbad|]. exists b. split; [done|]. split; [done|]. split; [by eapply chosen_connected|done].
  - destruct (Z.eqb_spec (ip_addr (ctx_inp c)) (ctx_dest c)) as [He|He].
    + destruct bad; [apply Hret; left; by rewrite <- Hbad|]. apply Hret. destruct (negb bc && negb (ip4_addr_ismulticast (ctx_dest c))) eqn:E.
      * apply andb_true_iff in E as [E1%negb_true_iff E2%negb_true_iff]. split; [by apply Hbad|]. done.
      * right. right. split; [exact Hr|]. right. by apply andb_false_iff in E as [E%negb_false_iff|E%negb_false_iff]; [left|right].
    + apply Hret. right. right. split; [exact Hr|]. by left.
Qed.

(** C21: (demultiplexing) a datagram goes to the first active control block that it matches with both addresses and ports, and if there is none to
    an unconnected one with its port, preferably one bound to its address; a connected one gets datagrams from its peer only; with
    a wrong checksum it goes to nobody, and without a taker it is answered only when it was sent to this host alone. The list is only
    reordered: a full match comes to the front. *)
Theorem udp_input_demux c a d rest u : udp_ok u -> UDP_HLEN <= Z.of_nat (length d) ->
  exists v u', udp_input c (Seg a d :: rest) u = Ret (v, u') /\ udp_ok u' /\ pcbs u' = pcbs u /\ udp_pcbs u' ≡ₚ udp_pcbs u /\
    verdict_right c (Seg a d :: rest) d u u' v.
Proof. intros Hok Hd. destruct (udp_input_ok c a d rest u Hok Hd) as (v & u' & H1 & H2 & H3 & H4 & _ & H5). by exists v, u'. Qed.

(** ** Any calls *)

Inductive call :=
| New | Bind (a ip port : Z) | BindNetif (a : Z) (n : option Z) | Connect (a ip port : Z) | Disconnect (a : Z) | SetRecv (a : Z) (cb : bool)
| SetOptions (a v : Z) | Remove (a : Z) | SendToIf (a : Z) (p : app_pbuf) (ip port netif : Z) | SendTo (a : Z) (p : app_pbuf) (ip port : Z)
| Send (a : Z) (p : app_pbuf) | Input (c : ip_ctx) (p : list seg).

(** [ip_set_option] and the like. *)
Definition set_so_options (v : Z) (p : udp_pcb) : udp_pcb :=
  UdpPcb (local_ip p) (remote_ip p) (netif_idx p) v (tos p) (ttl p) (udp_flags p) (local_port p) (remote_port p) (mcast_ip4 p) (mcast_ifindex p) (mcast_ttl p) (recv p).

Definition run (x : call) u : outcome (udp N) :=
  match x with
  | New => Ret (udp_new u).2
  | Bind a ip port => '(_, u) ← udp_bind a ip port u; Ret u
  | BindNetif a n => udp_bind_netif a n u
  | Connect a ip port => '(_, u) ← udp_connect a ip port u; Ret u
  | Disconnect a => udp_disconnect a u
  | SetRecv a cb => udp_recv a cb u
  | SetOptions a v => Ret (upd_pcb a (set_so_options v) u)
  | Remove a => udp_remove a u
  | SendToIf a p ip port netif => '(_, u) ← udp_sendto_if a p ip port netif u; Ret u
  | SendTo a p ip port => '(_, u) ← udp_sendto a p ip port u; Ret u
  | Send a p => '(_, u) ← udp_send a p u; Ret u
  | Input c p => '(_, u) ← udp_input c p u; Ret u
  end.

(** The application uses control blocks it has, sets options before it binds, and the interfaces that routing finds are in the list. *)
Definition routes_ok u : Prop := forall b ip i, udp_netif b ip u = Some i -> is_Some (find_netif i (netif_list (nets u))).
Definition legal (x : call) u : Prop :=
  match x with
  | New => True
  | Bind a _ _ | BindNetif a _ | Connect a _ _ | Disconnect a | SetRecv a _ | Remove a => is_Some (pcbs u !! a)
  | SetOptions a _ => is_Some (pcbs u !! a) /\ a ∉ udp_pcbs u
  | SendToIf a _ _ _ i => is_Some (pcbs u !! a) /\ is_Some (find_netif i (netif_list (nets u)))
  | SendTo a _ _ _ | Send a _ => is_Some (pcbs u !! a) /\ routes_ok u
  | Input _ p => p <> []
  end.

Lemma sendto_if_ok a p ip port i u : udp_ok u -> is_Some (pcbs u !! a) -> is_Some (find_netif i (netif_list (nets u))) ->
  exists err u', udp_sendto_if a p ip port i u = Ret (err, u') /\ udp_ok u'.
Proof.
  intros Hok [b Hb] [n Hn]. unfold udp_sendto_if. rewrite Hb, Hn. cbn [deref mbind outcome_bind].
  destruct (_ || _); [by eapply udp_sendto_if_src_ok|]. destruct (negb _); [by eexists _, _|]. by eapply udp_sendto_if_src_ok.
Qed.
Lemma sendto_ok a p ip port u : udp_ok u -> is_Some (pcbs u !! a) -> routes_ok u -> exists err u', udp_sendto a p ip port u = Ret (err, u') /\ udp_ok u'.
Proof.
  intros Hok [b Hb] Hr. unfold udp_sendto. rewrite Hb. cbn [deref mbind outcome_bind]. destruct (udp_netif b ip u) as [i|] eqn:E; [|by eexists _, _].
  apply sendto_if_ok; [done|by exists b|by eapply Hr].
Qed.

Lemma call_ok x u : udp_ok u -> legal x u -> exists u', run x u = Ret u' /\ udp_ok u'.
Proof.
  intros Hok Hx. destruct x as [|a ip port|a n|a ip port|a|a cb|a v|a|a p ip port i|a p ip port|a p|c p]; simpl in Hx |- *.
  - destruct (udp_new_ok u Hok) as (o & u' & -> & H & _). by exists u'.
  - destruct Hx as [p Hp]. destruct (udp_bind_ok a p ip port u Hok Hp) as (err & u' & -> & H & _). by exists u'.
  - unfold udp_bind_netif. destruct Hx as [p Hp]. rewrite Hp. eexists. split; [reflexivity|]. by apply udp_ok_same; [|exists p|].
  - destruct Hx as [p Hp]. destruct (udp_connect_ok a p ip port u Hok Hp) as (err & u' & -> & H & _). by exists u'.
  - unfold udp_disconnect. destruct Hx as [p Hp]. rewrite Hp. eexists. split; [reflexivity|]. by apply udp_ok_same; [|exists p|].
  - unfold udp_recv. destruct Hx as [p Hp]. rewrite Hp. eexists. split; [reflexivity|]. by apply udp_ok_same; [|exists p|].
  - eexists. split; [reflexivity|]. destruct Hx as [[p Hp] Hna]. rewrite (upd_pcb_insert _ _ _ _ Hp).
    assert (local_port p = 0) as H0. { destruct (decide (local_port p = 0)) as [|E]; [done|]. by apply (uo_bound _ Hok a p Hp) in E. }
    assert (set_pcbs (<[a:=set_so_options v p]> (pcbs u)) u = set_udp_pcbs (udp_pcbs u) (set_pcbs (<[a:=set_so_options v p]> (pcbs u)) u)) as -> by (by destruct u).
    apply udp_ok_gen; [done|by exists p|apply (uo_list _ Hok)|done|by right].
  - destruct (udp_remove_ok a u Hok Hx) as (u' & -> & H & _). by exists u'.
  - destruct Hx as [H1 H2]. destruct (sendto_if_ok a p ip port i u Hok H1 H2) as (err & u' & -> & H). by exists u'.
  - destruct Hx as [H1 H2]. destruct (sendto_ok a p ip port u Hok H1 H2) as (err & u' & -> & H). by exists u'.
  - destruct Hx as [[b Hb] H2]. unfold udp_send. rewrite Hb. cbn [deref mbind outcome_bind].
    destruct (sendto_ok a p (remote_ip b) (remote_port b) u Hok) as (err & u' & -> & H); [by exists b|done|]. by exists u'.
  - destruct p as [|[a d] rest]; [done|]. destruct (Z.leb_spec UDP_HLEN (Z.of_nat (length d))) as [Hl|Hl].
    + destruct (udp_input_ok c a d rest u Hok Hl) as (v & u' & -> & H & _). by exists u'.
    + unfold udp_input. rewrite (proj2 (Z.ltb_lt _ _)) by done. by exists u.
Qed.

Fixpoint runs (xs : list call) u : outcome (udp N) :=
  match xs with [] => Ret u | x :: xs => u ← run x u; runs xs u end.
Fixpoint all_legal (xs : list call) u : Prop :=
  match xs with [] => True | x :: xs => legal x u /\ forall u', run x u = Ret u' -> all_legal xs u' end.

(** C20: (bindings) an application makes any calls on control blocks that it has, except that it changes the options of a block only while this is not bound, the addresses of
    the interfaces stay as they are, and datagrams arrive: every call returns; the active control
    blocks are those with a port, and no two of them are bound to the same port and to addresses that overlap, unless both
    allow it with [SOF_REUSEADDR]. *)
Theorem udp_calls_safe xs u : udp_ok u -> all_legal xs u -> exists u', runs xs u = Ret u' /\ udp_ok u'.
Proof.
  revert u. induction xs as [|x xs IH]; intros u Hok Hl; [by exists u|]. destruct Hl as [H1 H2]. cbn [runs].
  destruct (call_ok x u Hok H1) as (u1 & Hrun & Hok1). rewrite Hrun. cbn [mbind outcome_bind]. by apply IH; [|apply H2].
Qed.

(** (free ports) [udp_new_port] ends; it finds a port of the range that nobody uses, or says 0 when all 16384 are in use. *)
Theorem udp_new_port_finds u : in_range (udp_port u) ->
  exists port u', udp_new_port u = Ret (port, u') /\ in_range (udp_port u') /\
    (port = 0 /\ (forall q, in_range q -> used q u) \/ in_range port /\ ~ used port u).
Proof.
  intros Hr. destruct (new_port_ok u Hr) as (port & x & -> & Hx & Hres). exists port, (set_udp_port x u). split; [done|]. split; [done|].
  destruct Hres as [?|[-> ?]]; [by left|by right].
Qed.
End props.
