(* ===== verification/UdpRound.v ===== *)
(** * A datagram that is sent is received

    The header and the checksum that [udp_sendto_if_src] writes are the ones that [udp_input] reads. *)

From stdpp Require Import gmap.
From S2P Require Import Prelude Def Chksum Ip4Addr Route Chain Ip4Hdr Udp UdpOk UdpProps.

(** ** The checksum *)

(** A checksum of 0 is sent as 0xffff. *)
Definition nonzero_sum (c : Z) : Z := if c =? 0 then 0xffff else c.

Lemma sum_stored pre post : bytes pre -> bytes post -> Nat.even (length pre) = true ->
  ones_complement_sum (pre ++ le16_bytes (nonzero_sum (65535 - ones_complement_sum (pre ++ [0; 0] ++ post))) ++ post) = 65535.
Proof.
  intros Hpre Hpost Hev. apply sum_complement; [done|done|done|]. unfold nonzero_sum. destruct (Z.eqb_spec (65535 - ones_complement_sum (pre ++ [0; 0] ++ post)) 0); [right; lia|by left].
Qed.

(** ** The header *)

Lemma be16_get x l i : 0 <= x < 65536 -> l !! i = Some (x / 256 mod 256) -> l !! (i + 1)%nat = Some (x mod 256) -> get16 l i = x.
Proof.
  intros Hx H1 H2. unfold get16, get8. rewrite H1, H2. simpl. rewrite (Z.mod_small (x / 256)); [|split; [apply Z.div_pos; lia|apply Z.div_lt_upper_bound; lia]].
  pose proof (Z.div_mod x 256 ltac:(lia)). lia.
Qed.
Lemma get16_prefix l l' i : (i + 1 < length l)%nat -> get16 (l ++ l') i = get16 l i.
Proof. intros. unfold get16, get8. by rewrite !lookup_app_l by lia. Qed.
Lemma udp_hdr_fields s d len c l : 0 <= s < 65536 -> 0 <= d < 65536 ->
  get16 (udp_hdr_bytes s d len c ++ l) 0 = s /\ get16 (udp_hdr_bytes s d len c ++ l) 2 = d.
Proof. intros. split; apply be16_get; done. Qed.
Lemma bytes_be16 x : 0 <= x -> bytes (be16 x).
Proof. intros. repeat constructor; apply Z.mod_pos_bound; lia. Qed.
Lemma bytes_le16 x : bytes (le16_bytes x).
Proof. repeat constructor; apply Z.mod_pos_bound; lia. Qed.

Lemma pseudo_bytes src dst len : 0 <= len < 65536 -> bytes (pseudo_header src dst IP_PROTO_UDP len) /\
  length (pseudo_header src dst IP_PROTO_UDP len) = 12%nat.
Proof.
  intros Hl. split; [|done]. unfold pseudo_header. rewrite !bytes_app. split; [apply bytes_u32_bytes|]. split; [apply bytes_u32_bytes|].
  repeat constructor; try done; try (apply Z.mod_pos_bound; lia); [apply Z.div_pos; lia|apply Z.div_lt_upper_bound; lia].
Qed.

(** [put] puts a header in front of [data]. *)
Record puts (put : list Z -> list seg) (data : list Z) : Prop := {
  pu_data : forall h, chain_data (put h) = h ++ data;
  pu_ok : forall h, bytes h -> length h = 8%nat -> chain_ok (put h) }.

Section round.
  Context (b : udp_pcb) (put : list Z -> list seg) (data : list Z) (dst_ip dst_port src_ip netif : Z).
  Hypothesis Hput : puts put data.
  Hypothesis Hdata : bytes data.
  Hypothesis Hlen : Z.of_nat (length data) + UDP_HLEN <= 0xffff.
  Hypothesis Hports : 0 <= local_port b < 65536 /\ 0 <= dst_port < 65536.
  Hypothesis Haddrs : 0 <= src_ip < 2 ^ 32 /\ 0 <= dst_ip < 2 ^ 32.
Let len := Z.of_nat (length data) + UDP_HLEN.

Lemma udp_build_bytes : exists c, chain_data (d_segs (udp_build b put dst_ip dst_port src_ip netif)) = udp_hdr_bytes (local_port b) dst_port len c ++ data /\
  (c = 0 \/ c <> 0 /\ ones_complement_sum (pseudo_header src_ip dst_ip IP_PROTO_UDP len ++ udp_hdr_bytes (local_port b) dst_port len c ++ data) = 65535).
Proof.
  unfold udp_build. cbn [d_segs]. rewrite !(pu_data _ _ Hput).
  assert (Z.of_nat (length (udp_hdr_bytes 0 0 0 0 ++ data)) = len) as -> by (rewrite length_app; unfold len, UDP_HLEN; simpl; lia).
  eexists. split; [reflexivity|]. destruct (negb _); [|by left]. right.
  set (c0 := ip_chksum_pseudo _ _ _ _ _). fold (nonzero_sum c0). split.
  { unfold nonzero_sum. destruct (Z.eqb_spec c0 0); done. }
  assert (0 <= len < 65536) as Hl by (unfold len, UDP_HLEN in *; lia).
  assert (bytes (udp_hdr_bytes (local_port b) dst_port len 0)) as Hb.
  { unfold udp_hdr_bytes. rewrite !bytes_app. split_and!; [apply bytes_be16; lia|apply bytes_be16; lia|apply bytes_be16; lia|apply bytes_le16]. }
  assert (c0 = 65535 - ones_complement_sum (pseudo_header src_ip dst_ip IP_PROTO_UDP len ++ udp_hdr_bytes (local_port b) dst_port len 0 ++ data)) as ->.
  { unfold c0. destruct (chksum_pseudo_rfc793 (put (udp_hdr_bytes (local_port b) dst_port len 0)) src_ip dst_ip IP_PROTO_UDP len 0) as [-> _]; try done; try lia.
    - by apply (pu_ok _ _ Hput).
    - by rewrite (pu_data _ _ Hput). }
  destruct (pseudo_bytes src_ip dst_ip len Hl) as [HP HL].
  set (pre := pseudo_header src_ip dst_ip IP_PROTO_UDP len ++ be16 (local_port b) ++ be16 dst_port ++ be16 len).
  assert (forall x, pseudo_header src_ip dst_ip IP_PROTO_UDP len ++ udp_hdr_bytes (local_port b) dst_port len x ++ data = pre ++ le16_bytes x ++ data) as E.
  { intros x. unfold pre, udp_hdr_bytes. by rewrite <- !app_assoc. }
  rewrite !E. apply sum_stored; [|done|done]. unfold pre. rewrite !bytes_app. split_and!; [done|apply bytes_be16; lia|apply bytes_be16; lia|apply bytes_be16; lia].
Qed.

(** The same bytes in other pbufs. *)
Lemma received_good c q a d rest : q = Seg a d :: rest -> UDP_HLEN <= Z.of_nat (length d) -> chain_ok q ->
  chain_data q = chain_data (d_segs (udp_build b put dst_ip dst_port src_ip netif)) -> ctx_src c = src_ip -> ctx_dest c = dst_ip ->
  chksum_good c q d /\ get16 d 0 = local_port b /\ get16 d 2 = dst_port /\ drop 8 (chain_data q) = data.
Proof.
  intros -> Hd Hok Hbytes Hsrc Hdst. destruct udp_build_bytes as (x & Hx & Hsum). rewrite Hx in Hbytes.
  assert (forall i, (i + 1 < length d)%nat -> get16 d i = get16 (udp_hdr_bytes (local_port b) dst_port len x ++ data) i) as Hget.
  { intros i Hi. rewrite <- Hbytes. unfold chain_data. simpl. by rewrite get16_prefix. }
  unfold UDP_HLEN in Hd. destruct (udp_hdr_fields (local_port b) dst_port len x data) as [F1 F2]; [lia|lia|].
  split; [|split; [rewrite Hget by lia; done|split; [rewrite Hget by lia; done|by rewrite Hbytes]]].
  unfold chksum_good. rewrite Hsrc, Hdst. destruct Hsum as [->|[Hne Hs]].
  - left. by rewrite Hget by lia.
  - right. destruct (chksum_pseudo_rfc793 (Seg a d :: rest) src_ip dst_ip IP_PROTO_UDP len 0) as [H _]; try done; try lia.
    { unfold len, UDP_HLEN in *. lia. }
    assert (Z.of_nat (length (chain_data (Seg a d :: rest))) = len) as ->; [|rewrite H, Hbytes; lia].
    rewrite Hbytes, length_app. unfold len, UDP_HLEN. simpl. lia.
Qed.
End round.

Lemma puts_front a d rest : bytes d -> Z.of_nat (length d) + UDP_HLEN <= 0xffff -> chain_ok rest ->
  puts (fun h => put_hdr h (Seg a d :: rest)) (chain_data (Seg a d :: rest)).
Proof.
  intros Hd Hl Hok. split.
  - intros h. unfold chain_data. simpl. by rewrite <- app_assoc.
  - intros h Hh H8. constructor; [|done]. split; [by apply bytes_app|]. unfold seg_len, UDP_HLEN in *. simpl. rewrite length_app. lia.
Qed.
Lemma puts_new a p : chain_ok (segs p) -> puts (fun h => Seg a h :: (if app_len p =? 0 then [] else segs p)) (chain_data (segs p)).
Proof.
  intros Hok. unfold app_len. split.
  - intros h. unfold chain_data at 1. simpl. f_equal. destruct (Z.eqb_spec (Z.of_nat (length (chain_data (segs p)))) 0); [|done].
    symmetry. simpl. apply nil_length_inv. lia.
  - intros h Hh H8. constructor; [split; [done|unfold seg_len; simpl; lia]|]. destruct (_ =? 0); [constructor|done].
Qed.

Section theorem.
  Context {N : Type} `{!UdpNet N}.
  Implicit Type u : udp N.

(** The datagram reaches an application: [w] takes it from [c], in the pbufs [q]. *)
Definition arrives (sport dport : Z) (payload : list Z) (g : datagram_out) : Prop :=
  forall (w : udp N) c q x d rest, udp_ok w -> q = Seg x d :: rest -> UDP_HLEN <= Z.of_nat (length d) -> chain_ok q ->
    chain_data q = chain_data (d_segs g) -> ctx_src c = d_src g -> ctx_dest c = d_dst g ->
    let bc := ip4_addr_isbroadcast (ctx_dest c) (ctx_netif c) in
    ~ nobody c sport dport bc w -> (forall y r, chosen c sport dport bc (pcbs w) (udp_pcbs w) y r -> recv r = true) ->
    exists y r w', udp_input c q w = Ret (Delivered y r (d_src g) sport, w') /\ chain_data r = payload /\
      exists s, chosen c sport dport bc (pcbs w) (udp_pcbs w) y s.

Lemma build_arrives b put data dst_ip dst_port src_ip netif : puts put data -> bytes data -> Z.of_nat (length data) + UDP_HLEN <= 0xffff ->
  0 <= local_port b < 65536 -> 0 <= dst_port < 65536 -> 0 <= src_ip < 2 ^ 32 -> 0 <= dst_ip < 2 ^ 32 ->
  arrives (local_port b) dst_port data (udp_build b put dst_ip dst_port src_ip netif).
Proof.
  intros Hput Hdata Hlen Hp1 Hp2 Hsrc Hdst w c q x d rest Hok -> Hd Hch Hbytes Hcs Hcd bc Hsome Hrecv.
  destruct (received_good b put data dst_ip dst_port src_ip netif Hput Hdata Hlen (conj Hp1 Hp2) (conj Hsrc Hdst) c _ x d rest eq_refl Hd Hch Hbytes Hcs Hcd)
    as (Hgood & F1 & F2 & F3).
  destruct (udp_input_ok c x d rest w Hok Hd) as (v & w' & Hrun & _ & _ & _ & _ & Hv). unfold verdict_right in Hv. rewrite F1, F2 in Hv.
  destruct v as [y r addr port| |].
  - destruct Hv as (-> & -> & Hr & _ & s & Hs & _). exists y, r, w'. rewrite <- Hcs. split; [done|]. split; [congruence|by exists s].
  - destruct Hv as [Hv|[(y & s & Hs & Hv)|[Hv _]]]; [done| |done]. by rewrite (Hrecv y s Hs) in Hv.
  - by destruct Hv as (_ & Hv & _).
Qed.

(** (round trip) [udp_sendto_if_src] on a bound control block either has no memory for a header, or hands one datagram to IP; whoever
    receives the bytes of it under the same addresses, in whatever pbufs, passes the checksum, and the application there gets exactly
    the data, with the address and the port of the sender. *)
Theorem udp_send_receive a b p dst_ip dst_port netif src_ip u : udp_ok u -> pcbs u !! a = Some b -> 0 < local_port b < 65536 ->
  segs p <> [] -> chain_ok (segs p) -> app_len p + UDP_HLEN <= 0xffff -> 0 <= dst_port < 65536 -> 0 <= src_ip < 2 ^ 32 -> 0 <= dst_ip < 2 ^ 32 ->
  exists err u', udp_sendto_if_src a p dst_ip dst_port netif src_ip u = Ret (err, u') /\
    ((err = ERR_MEM /\ headroom p < UDP_HLEN /\ (udp_hdr_alloc (unet u)).1 = None) \/
     exists g n n', udp_ip_output n g = (err, n') /\ d_src g = src_ip /\ d_dst g = dst_ip /\ d_netif g = netif /\
       arrives (local_port b) dst_port (chain_data (segs p)) g).
Proof.
  intros Hok Hb Hport Hne Hch Hlen Hdp Hs Hd. unfold udp_sendto_if_src. rewrite Hb. cbn [deref mbind outcome_bind].
  rewrite (proj2 (Z.eqb_neq (local_port b) 0)) by lia. cbn [mbind outcome_bind]. rewrite bool_decide_false by tauto.
  rewrite Hb. cbn [deref mbind outcome_bind]. assert (0 <= app_len p) by (unfold app_len; lia).
  rewrite (u16_small (app_len p + UDP_HLEN)), (proj2 (Z.ltb_ge _ (app_len p))) by (unfold UDP_HLEN in *; lia).
  pose proof (chain_bytes _ Hch) as Hbytes. destruct (Z.leb_spec UDP_HLEN (headroom p)) as [Hh|Hh].
  - destruct (udp_ip_output _ _) as [err n] eqn:E. eexists _, _. split; [reflexivity|]. right. eexists _, _, _. split; [exact E|].
    split; [done|]. split; [done|]. split; [done|]. unfold app_len in Hlen. destruct (segs p) as [|[x d] rest]; [done|].
    apply Forall_cons in Hch as [[Hd1 Hd2] Hch]. simpl in Hd1. unfold chain_data in Hlen. simpl in Hlen. rewrite length_app in Hlen.
    apply build_arrives; try done; [apply puts_front; try done; lia| |lia]. unfold chain_data. simpl. rewrite length_app. lia.
  - destruct (udp_hdr_alloc (unet u)) as [[x|] n]; [|by eexists _, _; split; [reflexivity|]; left].
    destruct (udp_ip_output _ _) as [err n'] eqn:E. eexists _, _. split; [reflexivity|]. right. eexists _, _, _. split; [exact E|].
    split; [done|]. split; [done|]. split; [done|]. apply build_arrives; try done; [by apply puts_new|lia].
Qed.
End theorem.
