(* ===== verification/UdpExamples.v ===== *)
(** * Examples of UDP *)

From stdpp Require Import gmap.
From S2P Require Import Prelude Def Chksum Ip4Addr Route Chain Ip4Hdr Udp UdpOk UdpProps UdpRound.

#[export] Instance wire : UdpNet (list datagram_out) := {
  udp_hdr_alloc n := (Some 1000, n); udp_hdr_free n := n; udp_ip_output n g := (ERR_OK, n ++ [g]) }.

Definition ip_a : Z := 0x0100000a.
Definition ip_b : Z := 0x0200000a.
Definition eth : iface := Iface (Netif 0x07 ip_b 0x00ffffff) 0 [] 6.
Definition sock (ip port rip rport fl opt : Z) : udp_pcb := UdpPcb ip rip 0 opt 0 255 fl port rport 0 0 255 true.
Definition host (m : list (Z * udp_pcb)) (fr : list Z) : udp (list datagram_out) :=
  Udp (list_to_map m) (m.*1) 0xc000 fr (Netifs [(1, eth)] (Some (1, eth)) None) (fun i => i) [].

Lemma host_ok m fr : NoDup (m.*1) -> NoDup fr -> Forall (fun a => a ∉ m.*1) fr -> Forall (fun x => local_port x.2 <> 0) m ->
  Forall (fun x => Forall (fun y => x.1 = y.1 \/ conflict x.2 y.2 = false) m) m -> udp_ok (host m fr).
Proof.
  intros H1 H2 H3 H4 H5.
  assert (forall a p, (list_to_map m : gmap Z udp_pcb) !! a = Some p <-> (a, p) ∈ m) as Hm by (intros a p; symmetry; by apply elem_of_list_to_map).
  rewrite !Forall_forall in *. split; simpl; try done.
  - intros a [[a' p] [-> Hin]]%list_elem_of_fmap. exists p. by apply Hm.
  - split; [done|]. intros a Ha. apply not_elem_of_list_to_map_1. by apply H3.
  - intros a p Hp%Hm. split; [intros _; apply (H4 (a, p) Hp)|]. intros _. apply list_elem_of_fmap. by exists (a, p).
  - intros a b p q _ _ Hab Hp%Hm Hq%Hm. specialize (H5 (a, p) Hp). rewrite Forall_forall in H5. destruct (H5 (b, q) Hq); done.
Qed.

(** A socket bound to any address, one connected to [ip_a], port 9, and a second host. *)
Definition receiver : udp (list datagram_out) := host [(1, sock 0 7 0 0 0 4); (2, sock ip_b 7 ip_a 9 4 4)] [3].
Definition sender : udp (list datagram_out) := host [(5, sock 0 9 0 0 0 0)] [].
Lemma receiver_ok : udp_ok receiver.
Proof. apply host_ok; apply (bool_decide_unpack _); by vm_compute. Qed.
Lemma sender_ok : udp_ok sender.
Proof. apply host_ok; apply (bool_decide_unpack _); by vm_compute. Qed.

Definition from_a : ip_ctx := Ctx eth eth 1 ip_a ip_b.
Definition hello : app_pbuf := AppPbuf 0 [Seg 3 [104; 105; 33]].
Definition sent_dgram : option datagram_out :=
  match udp_sendto_if_src 5 hello ip_b 7 1 ip_a sender with Ret (_, u) => head (unet u) | _ => None end.
Definition wire_bytes : list Z := match sent_dgram with Some g => chain_data (d_segs g) | None => [] end.

Lemma udp_input_demux_witness : exists v u', udp_input from_a [Seg 0 wire_bytes] receiver = Ret (v, u') /\ udp_ok u' /\ pcbs u' = pcbs receiver /\
  udp_pcbs u' ≡ₚ udp_pcbs receiver /\ verdict_right from_a [Seg 0 wire_bytes] wire_bytes receiver u' v.
Proof. apply (udp_input_demux from_a 0 wire_bytes [] receiver receiver_ok). by vm_compute. Defined.
(** The connected socket gets it and comes to the front. *)
Lemma hello_delivered : match udp_input from_a [Seg 0 wire_bytes] receiver with
  | Ret (Delivered a p addr port, u) => a = 2 /\ chain_data p = [104; 105; 33] /\ addr = ip_a /\ port = 9 /\ udp_pcbs u = [2; 1]
  | _ => False
  end.
Proof. by vm_compute. Qed.

Lemma udp_send_receive_witness : exists err u', udp_sendto_if_src 5 hello ip_b 7 1 ip_a sender = Ret (err, u') /\
  ((err = ERR_MEM /\ headroom hello < UDP_HLEN /\ (udp_hdr_alloc (unet sender)).1 = None) \/
   exists g n n', udp_ip_output n g = (err, n') /\ d_src g = ip_a /\ d_dst g = ip_b /\ d_netif g = 1 /\
     arrives (N := list datagram_out) 9 7 [104; 105; 33] g).
Proof.
  apply (udp_send_receive 5 (sock 0 9 0 0 0 0) hello ip_b 7 1 ip_a sender sender_ok); try done.
  apply (bool_decide_unpack _). by vm_compute.
Defined.

Definition session : list call := [New; SetOptions 3 4; Bind 3 ip_b 7; Connect 3 ip_a 10; SendToIf 3 hello ip_a 10 1; Input from_a [Seg 0 wire_bytes]; Remove 1].
Ltac legal_step := split; [|let u := fresh "u" in let H := fresh "H" in intros u H; vm_compute in H; injection H as <-].
Lemma session_legal : all_legal session receiver.
Proof.
  legal_step; [done|]. legal_step; [split; [by eexists|apply (bool_decide_unpack _); by vm_compute]|]. legal_step; [by eexists|].
  legal_step; [by eexists|]. legal_step; [split; by eexists|]. legal_step; [done|]. legal_step; [by eexists|]. exact I.
Qed.
Lemma udp_calls_safe_witness : exists u', runs session receiver = Ret u' /\ udp_ok u'.
Proof. apply (udp_calls_safe session receiver receiver_ok). exact session_legal. Defined.

Lemma udp_new_port_finds_witness : exists port u', udp_new_port receiver = Ret (port, u') /\ in_range (udp_port u') /\
    (port = 0 /\ (forall q, in_range q -> used q receiver) \/ in_range port /\ ~ used port receiver).
Proof. apply (udp_new_port_finds receiver). by vm_compute. Defined.

(** ** A change of address *)

(** Two sockets with one port, each bound to an address of its own: when the interface gets the address of the second one, both are bound to it, without
    [SOF_REUSEADDR]. *)
Definition two_addrs : udp (list datagram_out) := host [(1, sock ip_a 7 0 0 0 0); (2, sock ip_b 7 0 0 0 0)] [].
Lemma addr_change_collides : udp_ok two_addrs /\
  let u := udp_netif_ip_addr_changed ip_a ip_b two_addrs in
  exists p q, pcbs u !! 1 = Some p /\ pcbs u !! 2 = Some q /\ conflict p q = true.
Proof.
  split; [apply host_ok; apply (bool_decide_unpack _); by vm_compute|]. eexists _, _. split; [by vm_compute|]. split; by vm_compute.
Qed.
