(* ===== verification/Ip4.v ===== *)
(** * IPv4 input and output ([core/ipv4/ip4.c])

    In the configuration of the build: no forwarding, options allowed, loopback over any interface, the header checksum
    summed up while the header is written. The protocols above, the interfaces and the groups of IGMP are classes. *)

From S2P Require Import Prelude Def Chksum Ip4Addr Route Chain Ip4Hdr Ip4Reass Ip4Frag.

Definition IP_HLEN_MAX : Z := 60.
Definition NETIF_FLAG_IGMP : Z := 0x20.
Definition IPADDR_LOOPBACK : Z := 0x7f000001.
Definition IPADDR_ALLSYSTEMS : Z := 0xe0000001.

Definition ip4_set_default_multicast_netif (netif : option Z) (ns : netifs) : netifs := Netifs (netif_list ns) (netif_default ns) netif.

Inductive raw_input_state := RAW_INPUT_NONE | RAW_INPUT_EATEN | RAW_INPUT_DELIVERED.

(** The protocols above, which may fail as the code of this stack does; each gets the packet behind the header, and the header for its own use.
    [proto_unreach] is [icmp_dest_unreach(p, ICMP_DUR_PROTO)], with the packet and its header ([Icmp.icmp_dest_unreach] with the routes and the link, which are part of [N]). [place] puts a packet that was
    joined from fragments at its addresses. *)
Class IpUpper (N : Type) := {
  igmp_lookfor_group : N -> Z -> Z -> bool;
  raw_in : ip_ctx -> list seg -> N -> raw_input_state * N;
  udp_in : ip_ctx -> list Z -> list seg -> N -> outcome N;
  tcp_in : ip_ctx -> list Z -> list seg -> N -> outcome N;
  icmp_in : ip_ctx -> list Z -> list seg -> N -> outcome N;
  igmp_in : ip_ctx -> list Z -> list seg -> N -> outcome N;
  proto_unreach : list seg -> N -> outcome N;
  place : chain -> list seg }.

(** ** Input *)

Definition ip4_input_accept (dest : Z) (n : iface) : bool :=
  netif_is_up n && negb (ip4_addr_isany_val (ip_addr n)) &&
  ((dest =? ip_addr n) || ip4_addr_isbroadcast dest n || (dest =? lwip_htonl IPADDR_LOOPBACK)).

(** The interfaces with their indices, reassembly, and the rest. *)
Record ip (N : Type) := Ip { inets : netifs; iindex : Z -> Z; ireass : reass N }.
Arguments Ip {N}.
Arguments inets {N}.
Arguments iindex {N}.
Arguments ireass {N}.

Section input.
  Context {N : Type} `{!ReassNet N} `{!IpUpper N}.
  Implicit Type s : ip N.
Definition set_ireass (v : reass N) s : ip N := Ip (inets s) (iindex s) v.
Definition inet s : N := rnet (ireass s).
Definition set_inet (v : N) s : ip N := set_ireass (set_rnet v (ireass s)) s.

(** The checks of the header; the packet, trimmed. *)
Definition ip4_check (p : list seg) : outcome (option (list seg)) :=
  match p with
  | [] => Undef
  | Seg _ d :: _ =>
      v ← deref (d !! 0%nat);
      if negb (Z.shiftr v 4 =? 4) then Ret None
      else
        let iphdr_hlen := u8 (Z.land v 0x0f * 4) in
        l0 ← deref (d !! 2%nat);
        l1 ← deref (d !! 3%nat);
        let iphdr_len := l0 * 256 + l1 in
        let p := if iphdr_len <? Z.of_nat (length (chain_data p)) then realloc_segs p iphdr_len else p in
        match p with
        | [] => Undef
        | Seg a d :: _ =>
            if (Z.of_nat (length d) <? iphdr_hlen) || (Z.of_nat (length (chain_data p)) <? iphdr_len) || (iphdr_hlen <? IP_HLEN) then Ret None
            else if negb (inet_chksum a (take (Z.to_nat iphdr_hlen) d) =? 0) then Ret None
            else Ret (Some p)
        end
  end.

(** The interface that takes a packet for [dest], [None]: it is not for us; and whether its source is checked. *)
Definition ip4_select (src dest : Z) (inp : Z * iface) s : option (Z * iface) * bool :=
  if ip4_addr_ismulticast dest then
    if negb (Z.land (flags inp.2) NETIF_FLAG_IGMP =? 0) && igmp_lookfor_group (inet s) inp.1 dest then
      (Some inp, negb ((dest =? lwip_htonl IPADDR_ALLSYSTEMS) && ip4_addr_isany_val src))
    else (None, true)
  else if ip4_input_accept dest inp.2 then (Some inp, true)
  else
    (match list_find (fun n => n.1 <> inp.1 /\ ip4_input_accept dest n.2 = true) (netif_list (inets s)) with
     | Some (_, n) => Some n
     | None => None
     end, true).

(** What is done with a packet until the protocols above see it: dropped, kept by reassembly, or passed on. *)
Definition ip4_receive (p : list seg) (inp : Z * iface) s : outcome (option (ip_ctx * Z * list seg) * ip N) :=
  o ← ip4_check p;
  match o with
  | None => Ret (None, s)
  | Some [] => Undef
  | Some (Seg a d :: rest) =>
      let iphdr := hdr_of d in
      let '(netif, check_ip_src) := ip4_select (iph_src iphdr) (iph_dest iphdr) inp s in
      if check_ip_src && (ip4_addr_isbroadcast (iph_src iphdr) inp.2 || ip4_addr_ismulticast (iph_src iphdr)) then Ret (None, s)
      else
        match netif with
        | None => Ret (None, s)
        | Some netif =>
            let c := Ctx netif.2 inp.2 (iindex s inp.1) (iph_src iphdr) (iph_dest iphdr) in
            let iphdr_hlen := IPH_HL_BYTES iphdr in
            if has (iph_offset iphdr) (Z.lor IP_OFFMASK IP_MF) then
              '(q, r) ← ip4_reass (Packet iphdr (drop (Z.to_nat IP_HLEN) d :: (seg_data <$> rest))) (ireass s);
              match q with
              | None => Ret (None, set_ireass r s)
              | Some q =>
                  match p_body q with
                  | [] => Undef
                  | b :: body => Ret (Some (c, iphdr_hlen, place ((iph_bytes (p_hdr q) ++ b) :: body)), set_ireass r s)
                  end
              end
            else Ret (Some (c, iphdr_hlen, Seg a d :: rest), s)
        end
  end.

(** [ip4_input]; a packet that is not passed on is freed or kept. *)
Definition ip4_input (p : list seg) (inp : Z * iface) s : outcome (ip N) :=
  '(o, s) ← ip4_receive p inp s;
  match o with
  | None => Ret s
  | Some (_, _, []) => Undef
  | Some (c, iphdr_hlen, Seg a d :: rest) =>
      let p := Seg a d :: rest in
      let '(raw_status, n) := raw_in c p (inet s) in
      match raw_status with
      | RAW_INPUT_EATEN => Ret (set_inet n s)
      | _ =>
          let hdr := take (Z.to_nat iphdr_hlen) d in
          let q := remove_hdr iphdr_hlen p in
          let proto := get8 d 9 in
          n ←
            if proto =? IP_PROTO_UDP then udp_in c hdr q n
            else if proto =? IP_PROTO_TCP then tcp_in c hdr q n
            else if proto =? IP_PROTO_ICMP then icmp_in c hdr q n
            else if proto =? IP_PROTO_IGMP then igmp_in c hdr q n
            else
              match raw_status with
              | RAW_INPUT_DELIVERED => Ret n
              | _ =>
                  if negb (ip4_addr_isbroadcast (ctx_dest c) (ctx_netif c)) && negb (ip4_addr_ismulticast (ctx_dest c)) then proto_unreach p n else Ret n
              end;
          Ret (set_inet n s)
      end
  end.
End input.

(** ** Output *)

(** [netif->output] and [netif_loop_output], and the MTU of an interface. *)
Class IpLink (N : Type) := {
  netif_output : N -> Z -> list seg -> Z -> err_t * N;
  netif_loop_output : N -> Z -> list seg -> err_t * N;
  netif_mtu : Z -> Z }.

Record ipout (N : Type) := IpOut { ip_id : Z; onet : N }.
Arguments IpOut {N}.
Arguments ip_id {N}.
Arguments onet {N}.

(** The words of the options, as the host reads them. *)
Fixpoint words_sum (l : list Z) : Z := match l with b0 :: b1 :: l' => le16 b0 b1 + words_sum l' | _ => 0 end.

Definition pad4 (opts : list Z) : list Z := opts ++ repeat 0 (Z.to_nat (Z.land (Z.of_nat (length opts) + 3) (Z.lnot 3)) - length opts).

(** The checksum, summed up while the header is written. *)
Definition inline_chksum (v_hl tos len id ttl proto src dest : Z) (opts : list Z) : Z :=
  let chk_sum := u32 (words_sum opts) in
  let chk_sum := u32 (chk_sum + lwip_htons (Z.lor proto (Z.shiftl ttl 8))) in
  let chk_sum := u32 (chk_sum + Z.land dest 0xffff) in
  let chk_sum := u32 (chk_sum + Z.shiftr dest 16) in
  let chk_sum := u32 (chk_sum + lwip_htons (Z.lor tos (Z.shiftl v_hl 8))) in
  let chk_sum := u32 (chk_sum + lwip_htons len) in
  let chk_sum := u32 (chk_sum + lwip_htons id) in
  let chk_sum := u32 (chk_sum + Z.land src 0xffff) in
  let chk_sum := u32 (chk_sum + Z.shiftr src 16) in
  let chk_sum := u32 (Z.shiftr chk_sum 16 + Z.land chk_sum 0xffff) in
  let chk_sum := u32 (Z.shiftr chk_sum 16 + chk_sum) in
  u16 (Z.lnot chk_sum).

Section output.
  Context {N : Type} `{!FragNet N} `{!IpLink N}.
  Implicit Type o : ipout N.

(** The part after the header: to ourselves, in fragments or as it is. *)
Definition ip4_send (fuel : nat) (h : ip_hdr) (opts : list Z) (a : Z) (d : list Z) (rest : list seg) (mcastloop : bool) (netif : Z) (n : iface) o : outcome (err_t * ipout N) :=
  let q := Seg a (iph_bytes h ++ opts ++ d) :: rest in
  let dest := iph_dest h in
  if (dest =? ip_addr n) || ip4_addr_isloopback dest then
    let '(err, m) := netif_loop_output (onet o) netif q in Ret (err, IpOut (ip_id o) m)
  else
    let m := if mcastloop then (netif_loop_output (onet o) netif q).2 else onet o in
    if negb (netif_mtu netif =? 0) && (netif_mtu netif <? u16 (Z.of_nat (length (chain_data q)))) then
      '(err, _, m) ← ip4_frag fuel (netif_mtu netif) (Packet h (d :: (seg_data <$> rest))) m;
      Ret (err, IpOut (ip_id o) m)
    else
      let '(err, m) := netif_output m netif q dest in Ret (err, IpOut (ip_id o) m).

(** Whether [pbuf_add_header] finds [n] bytes in front of a packet of [tot] bytes, [room] of them free. *)
Definition add_header_ok (room tot n : Z) : bool := (n =? 0) || (negb (u16 (n + tot) <? n) && (n <=? room)).

(** The header is made here; [headroom] bytes are free in front of the packet. *)
Definition ip4_output_if_opt_src (fuel : nat) (headroom : Z) (p : list seg) (mcastloop : bool) (src dest ttl tos proto : Z) (netif : Z) (n : iface) (ip_options : list Z) o
    : outcome (err_t * ipout N) :=
  match p with
  | [] => Undef
  | Seg a d :: rest =>
      let optlen := Z.of_nat (length ip_options) in
      if IP_HLEN_MAX - IP_HLEN <? optlen then Ret (ERR_VAL, o)
      else
        let opts := pad4 ip_options in
        let optlen_aligned := Z.of_nat (length opts) in
        let ip_hlen := IP_HLEN + optlen_aligned in
        let tot := Z.of_nat (length (chain_data p)) in
        if negb (add_header_ok headroom tot optlen_aligned) then Ret (ERR_BUF, o)
        else if negb (add_header_ok (headroom - optlen_aligned) (tot + optlen_aligned) IP_HLEN) then Ret (ERR_BUF, o)
        else
          let len := tot + ip_hlen in
          let v_hl := u8 (Z.lor (Z.shiftl 4 4) (ip_hlen / 4)) in
          let chksum := inline_chksum v_hl tos len (ip_id o) ttl proto src dest opts in
          let h := IpHdr v_hl tos len (ip_id o) 0 (u8 ttl) (u8 proto) chksum src dest in
          ip4_send fuel h opts (a - ip_hlen) d rest mcastloop netif n (IpOut (u16 (ip_id o + 1)) (onet o))
  end.
Definition ip4_output_if_src (fuel : nat) (headroom : Z) (p : list seg) (mcastloop : bool) (src dest ttl tos proto : Z) (netif : Z) (n : iface) o : outcome (err_t * ipout N) :=
  ip4_output_if_opt_src fuel headroom p mcastloop src dest ttl tos proto netif n [] o.
Definition ip4_output_if_opt (fuel : nat) (headroom : Z) (p : list seg) (mcastloop : bool) (src dest ttl tos proto : Z) (netif : Z) (n : iface) (ip_options : list Z) o
    : outcome (err_t * ipout N) :=
  ip4_output_if_opt_src fuel headroom p mcastloop (if ip4_addr_isany_val src then ip_addr n else src) dest ttl tos proto netif n ip_options o.
Definition ip4_output_if (fuel : nat) (headroom : Z) (p : list seg) (mcastloop : bool) (src dest ttl tos proto : Z) (netif : Z) (n : iface) o : outcome (err_t * ipout N) :=
  ip4_output_if_opt fuel headroom p mcastloop src dest ttl tos proto netif n [] o.
(** Along the route to [dest]; [ip4_route_src] without the hook is [ip4_route]. *)
Definition ip4_output (fuel : nat) (headroom : Z) (p : list seg) (mcastloop : bool) (src dest ttl tos proto : Z) (ns : netifs) o : outcome (err_t * ipout N) :=
  match ip4_route ns dest with
  | None => Ret (ERR_RTE, o)
  | Some netif =>
      n ← deref (find_netif netif (netif_list ns));
      ip4_output_if fuel headroom p mcastloop src dest ttl tos proto netif n o
  end.

(** The header is in the packet already ([LWIP_IP_HDRINCL]). *)
Definition ip4_output_hdrincl (fuel : nat) (p : list seg) (mcastloop : bool) (netif : Z) (n : iface) o : outcome (err_t * ipout N) :=
  match p with
  | [] => Undef
  | Seg a d :: rest =>
      if Z.of_nat (length d) <? IP_HLEN then Ret (ERR_BUF, o)
      else ip4_send fuel (hdr_of d) [] a (drop (Z.to_nat IP_HLEN) d) rest mcastloop netif n o
  end.
End output.
