(* ===== verification/Ip4Ok.v ===== *)
(** * The header on the wire

    The header is read back from its bytes, its checksum is right, and the checksum that is summed up while the header is
    written is the one of [inet_chksum]. *)

From S2P Require Import Prelude Def Chksum Ip4Addr Route Chain Ip4Hdr Ip4Reass Ip4ReassOk Ip4Frag Ip4.

Record hdr_ok (h : ip_hdr) : Prop := {
  ho_v_hl : 0 <= iph_v_hl h < 256; ho_tos : 0 <= iph_tos h < 256; ho_len : 0 <= iph_len h < 65536; ho_id : 0 <= iph_id h < 65536;
  ho_offset : 0 <= iph_offset h < 65536; ho_ttl : 0 <= iph_ttl h < 256; ho_proto : 0 <= iph_proto h < 256; ho_chksum : 0 <= iph_chksum h < 65536;
  ho_src : 0 <= iph_src h < 2 ^ 32; ho_dest : 0 <= iph_dest h < 2 ^ 32 }.

Lemma be16_value x : 0 <= x < 65536 -> x / 256 mod 256 * 256 + x mod 256 = x.
Proof. intros. change 65536 with (256 * 256) in *. pose proof (Z.div_mod x 256 ltac:(lia)). rewrite (Z.mod_small (x / 256)); [lia|]. split; [apply Z.div_pos; lia|apply Z.div_lt_upper_bound; lia]. Qed.
Lemma ip_value x : 0 <= x < 2 ^ 32 -> x mod 256 + 256 * (x / 256 mod 256) + 65536 * (x / 65536 mod 256) + 16777216 * (x / 16777216 mod 256) = x.
Proof. intros. change (2 ^ 32) with 4294967296 in *. zdm. Qed.

Lemma hdr_of_bytes h l : hdr_ok h -> hdr_of (iph_bytes h ++ l) = h.
Proof.
  intros []. destruct h as [v t len id off ttl pr ck src dst]. simpl in *. unfold hdr_of, get16, get_ip, get8, le16, iph_bytes. simpl.
  rewrite !be16_value, !ip_value by done. f_equal. pose proof (be16_value ck). lia.
Qed.
Lemma iph_bytes_ok h : hdr_ok h -> bytes (iph_bytes h) /\ length (iph_bytes h) = 20%nat.
Proof.
  intros []. split; [|done]. destruct h as [v t len id off ttl pr ck src dst]. simpl in *. unfold iph_bytes. simpl.
  repeat (apply Forall_cons; split; [first [done|apply Z.mod_pos_bound; lia]|]). done.
Qed.

(** ** The checksum *)

Lemma set_chksum_ok c h : hdr_ok h -> 0 <= c < 65536 -> hdr_ok (set_chksum c h).
Proof. intros [] Hc. by split. Qed.
Lemma iph_split h : iph_bytes h = take 10 (iph_bytes h) ++ le16_bytes (iph_chksum h) ++ drop 12 (iph_bytes h).
Proof. done. Qed.

(** A header whose checksum was computed over the field 0, with its options. *)
Lemma chksum_field h opts : hdr_ok h -> bytes opts -> (length opts <= 40)%nat -> iph_chksum h = inet_chksum 0 (iph_bytes (set_chksum 0 h) ++ opts) ->
  ones_complement_sum (iph_bytes h ++ opts) = 65535.
Proof.
  intros Hh Hb Ho Hc. pose proof (set_chksum_ok 0 h Hh ltac:(lia)) as H0. destruct (iph_bytes_ok _ H0) as [Hb0 Hl0].
  rewrite inet_chksum_arith in Hc; [|by apply bytes_app|rewrite length_app, Hl0; lia].
  rewrite iph_split, <- !app_assoc. destruct (iph_bytes_ok _ Hh) as [Hbh Hlh].
  apply sum_complement; [by apply bytes_take|apply bytes_app; split; [by apply bytes_drop|done]|done|]. left. rewrite Hc. do 2 f_equal.
Qed.

(** ** The checksum while the header is written *)

Lemma words_sum_wsum l : Nat.even (length l) = true -> words_sum l = wsum 1 l.
Proof.
  induction l as [| |b0 b1 l IH] using list_pair_ind; intros He; [done|done|]. cbn [words_sum]. rewrite wsum1_pair, IH; [done|exact He].
Qed.
Lemma lor_bytes a b : 0 <= a < 256 -> 0 <= b < 256 -> lwip_htons (Z.lor a (Z.shiftl b 8)) = le16 b a.
Proof.
  intros. rewrite shiftl_8, (lor_disjoint_add _ _ 8); [|lia|done|apply Z.mod_mul; lia].
  rewrite lwip_htons_arith by lia. unfold le16. zdm.
Qed.
Lemma be16_le x : 0 <= x < 65536 -> le16 (x / 256 mod 256) (x mod 256) = lwip_htons x.
Proof. intros. rewrite lwip_htons_arith by done. unfold le16. zdm. Qed.
Lemma ip_halves x : 0 <= x < 2 ^ 32 ->
  le16 (x mod 256) (x / 256 mod 256) = Z.land x 0xffff /\ le16 (x / 65536 mod 256) (x / 16777216 mod 256) = Z.shiftr x 16.
Proof. intros. rewrite land_ffff, shiftr_16. unfold le16. change (2 ^ 32) with 4294967296 in *. split; zdm. Qed.
Lemma wsum_header v t len id ttl pr src dst : 0 <= v < 256 -> 0 <= t < 256 -> 0 <= len < 65536 -> 0 <= id < 65536 -> 0 <= ttl < 256 -> 0 <= pr < 256 ->
  0 <= src < 2 ^ 32 -> 0 <= dst < 2 ^ 32 ->
  wsum 1 (iph_bytes (IpHdr v t len id 0 ttl pr 0 src dst)) =
    lwip_htons (Z.lor pr (Z.shiftl ttl 8)) + Z.land dst 0xffff + Z.shiftr dst 16 + lwip_htons (Z.lor t (Z.shiftl v 8)) + lwip_htons len + lwip_htons id +
    Z.land src 0xffff + Z.shiftr src 16.
Proof.
  intros. rewrite (lor_bytes pr ttl), (lor_bytes t v) by done. destruct (ip_halves src) as [<- <-]; [done|]. destruct (ip_halves dst) as [<- <-]; [done|].
  rewrite <- (be16_le len), <- (be16_le id) by done. unfold iph_bytes. cbn [app be16 le16_bytes ip_bytes iph_v_hl iph_tos iph_len iph_id iph_offset iph_ttl iph_proto iph_chksum iph_src iph_dest].
  unfold ip_bytes. rewrite !wsum1_pair. change (wsum 1 []) with 0. change (le16 (0 / 256 mod 256) (0 mod 256)) with 0. change (le16 (0 mod 256) (0 / 256 mod 256)) with 0. lia.
Qed.

(** The last steps: the second sum is not masked, but the bits above 16 are dropped when it is stored. *)
Lemma inline_fold S : 0 <= S < 2 ^ 32 ->
  let c := u32 (Z.shiftr S 16 + Z.land S 0xffff) in u16 (Z.lnot (u32 (Z.shiftr c 16 + c))) = 65535 - ocnorm S.
Proof.
  intros HS c. rewrite <- (fold_twice S HS). change c with (FOLD_U32T S). pose proof (fold_bound_32 S HS) as Hb.
  rewrite (fold_arith (FOLD_U32T S)) by lia. set (x := FOLD_U32T S) in *. rewrite shiftr_16, u32_small by zdm. unfold u16, Z.lnot. zdm.
Qed.

Lemma inline_chksum_ok v t len id ttl pr src dst opts : 0 <= v < 256 -> 0 <= t < 256 -> 0 <= len < 65536 -> 0 <= id < 65536 -> 0 <= ttl < 256 ->
  0 <= pr < 256 -> 0 <= src < 2 ^ 32 -> 0 <= dst < 2 ^ 32 -> bytes opts -> Nat.even (length opts) = true -> (length opts <= 40)%nat ->
  inline_chksum v t len id ttl pr src dst opts = inet_chksum 0 (iph_bytes (IpHdr v t len id 0 ttl pr 0 src dst) ++ opts).
Proof.
  intros Hv Ht Hlen Hid Httl Hpr Hsrc Hdst Hb Hev Ho. set (h := IpHdr v t len id 0 ttl pr 0 src dst).
  assert (hdr_ok h) as Hh by (split; simpl; lia). destruct (iph_bytes_ok h Hh) as [Hhb Hhl].
  rewrite inet_chksum_arith; [|by apply bytes_app|rewrite length_app, Hhl; lia].
  unfold ones_complement_sum. rewrite wsum_app, Hhl. change (lane_after 1 20) with 1. unfold h. rewrite wsum_header by done.
  unfold inline_chksum. rewrite (words_sum_wsum opts Hev).
  assert (0 <= wsum 1 opts <= 65535 * 20) as Hw.
  { split; [apply wsum_nonneg; [by left|done]|]. pose proof (wsum_le 1 opts ltac:(by left) Hb). pose proof (words_le opts 20 ltac:(lia)). lia. }
  pose proof (lwip_htons_range (Z.lor pr (Z.shiftl ttl 8))). pose proof (lwip_htons_range (Z.lor t (Z.shiftl v 8))).
  pose proof (lwip_htons_range len). pose proof (lwip_htons_range id).
  assert (forall x, 0 <= x < 2 ^ 32 -> 0 <= Z.land x 0xffff <= 65535 /\ 0 <= Z.shiftr x 16 <= 65535) as Hx.
  { intros x Hx. rewrite land_ffff, shiftr_16. change (2 ^ 32) with 4294967296 in *. zdm. }
  pose proof (Hx src Hsrc) as [? ?]. pose proof (Hx dst Hdst) as [? ?].
  generalize dependent (lwip_htons (Z.lor pr (Z.shiftl ttl 8))). generalize dependent (lwip_htons (Z.lor t (Z.shiftl v 8))).
  generalize dependent (lwip_htons len). generalize dependent (lwip_htons id). generalize dependent (Z.land src 0xffff). generalize dependent (Z.shiftr src 16).
  generalize dependent (Z.land dst 0xffff). generalize dependent (Z.shiftr dst 16). generalize dependent (wsum 1 opts).
  intros w Hw x1 H1 x2 H2 x3 H3 x4 H4 x5 H5 x6 H6 x7 H7 x8 H8. cbv zeta. rewrite !(u32_small w), !(u32_small (w + x8)) by lia.
  rewrite !(u32_small (w + x8 + x2)), !(u32_small (w + x8 + x2 + x1)) by lia.
  rewrite !(u32_small (w + x8 + x2 + x1 + x7)), !(u32_small (w + x8 + x2 + x1 + x7 + x6)), !(u32_small (w + x8 + x2 + x1 + x7 + x6 + x5)) by lia.
  rewrite !(u32_small (w + x8 + x2 + x1 + x7 + x6 + x5 + x4)), !(u32_small (w + x8 + x2 + x1 + x7 + x6 + x5 + x4 + x3)) by lia.
  rewrite inline_fold by lia. do 2 f_equal. lia.
Qed.

(** (checksum on the fly) the checksum that [ip4_output_if_opt_src] adds up while it writes the fields of the header and the options, with one mask left out in the last fold, is the one
    [inet_chksum] computes over the finished header. *)
Theorem inline_chksum_inet v t len id ttl pr src dst opts : 0 <= v < 256 -> 0 <= t < 256 -> 0 <= len < 65536 -> 0 <= id < 65536 -> 0 <= ttl < 256 ->
  0 <= pr < 256 -> 0 <= src < 2 ^ 32 -> 0 <= dst < 2 ^ 32 -> bytes opts -> Nat.even (length opts) = true -> (length opts <= 40)%nat ->
  inline_chksum v t len id ttl pr src dst opts = inet_chksum 0 (iph_bytes (IpHdr v t len id 0 ttl pr 0 src dst) ++ opts).
Proof. apply inline_chksum_ok. Qed.
