(* ===== verification/Ip4Props.v ===== *)
(** * What IPv4 takes, and what it sends

    The checks of [ip4_input] against a description of a valid header, that it never fails on a packet from the network, and that a packet from
    [ip4_output_if_opt_src] is valid. *)

From S2P Require Import Prelude Def Chksum Ip4Addr Route Chain Ip4Hdr Ip4Reass Ip4ReassOk Ip4Frag Ip4 Ip4Ok.

(** ** Packets that are taken *)

(** [l] begins with a valid datagram. *)
Record valid_ip (l : list Z) : Prop := {
  vi_version : IPH_V (hdr_of l) = 4;
  vi_hlen : IP_HLEN <= IPH_HL_BYTES (hdr_of l) <= iph_len (hdr_of l);
  vi_len : iph_len (hdr_of l) <= Z.of_nat (length l);
  vi_chksum : ones_complement_sum (take (Z.to_nat (IPH_HL_BYTES (hdr_of l))) l) = 65535 }.

Lemma get8_app l l' i : (i < length l)%nat -> get8 (l ++ l') i = get8 l i.
Proof. intros. unfold get8. by rewrite lookup_app_l. Qed.
Lemma hdr_of_app l l' : (20 <= length l)%nat -> hdr_of (l ++ l') = hdr_of l.
Proof. intros. unfold hdr_of, get16, get_ip. rewrite !get8_app by lia. done. Qed.
Lemma get8_take l n i : (i < n)%nat -> get8 (take n l) i = get8 l i.
Proof. intros. unfold get8. by rewrite lookup_take_lt. Qed.
Lemma hdr_of_take l n : (20 <= n)%nat -> hdr_of (take n l) = hdr_of l.
Proof. intros. unfold hdr_of, get16, get_ip. rewrite !get8_take by lia. done. Qed.
Lemma get8_range l i : bytes l -> 0 <= get8 l i < 256.
Proof.
  intros H. unfold get8. destruct (l !! i) as [x|] eqn:E; simpl; [|lia]. unfold bytes in H. rewrite Forall_lookup in H. apply (H i x E).
Qed.
Lemma hl_bytes h : IPH_HL_BYTES h = Z.land (iph_v_hl h) 0x0f * 4 /\ 0 <= IPH_HL_BYTES h <= 60.
Proof.
  unfold IPH_HL_BYTES, IPH_HL. change 0x0f with (Z.ones 4). rewrite Z.land_ones by lia.
  pose proof (Z.mod_pos_bound (iph_v_hl h) (2 ^ 4) ltac:(lia)). rewrite u8_small by lia. lia.
Qed.

(** Trimming. *)
Lemma realloc_segs_take p n : 0 <= n -> chain_data (realloc_segs p n) = take (Z.to_nat n) (chain_data p).
Proof.
  unfold chain_data. revert n. induction p as [|[a d] p IH]; intros n Hn; simpl; [by rewrite take_nil|].
  destruct (Z.ltb_spec (Z.of_nat (length d)) n).
  - simpl. rewrite IH, take_app by lia. rewrite (take_ge d) by lia. do 2 f_equal. lia.
  - simpl. rewrite app_nil_r, take_app_le by lia. done.
Qed.
Lemma realloc_segs_first a d rest n : 0 <= n -> exists rest', realloc_segs (Seg a d :: rest) n = Seg a (take (Z.to_nat n) d) :: rest'.
Proof. intros Hn. simpl. destruct (Z.ltb_spec (Z.of_nat (length d)) n); [|by eexists]. eexists. by rewrite take_ge by lia. Qed.
Lemma realloc_segs_ok p n : chain_ok p -> chain_ok (realloc_segs p n).
Proof.
  intros Hp. revert n. induction Hp as [|[a d] p [Hd Hl] Hp IH]; intros n; [constructor|]. simpl. destruct (_ <? _).
  - constructor; [done|apply IH].
  - constructor; [|constructor]. split; [by apply bytes_take|]. unfold seg_len in *. simpl in *. rewrite length_take. lia.
Qed.

(** [ip4_check] takes the valid datagrams with the header in the first pbuf, and gives them on without what is behind them. *)
Lemma ip4_check_ok a d rest : (4 <= length d)%nat -> chain_ok (Seg a d :: rest) ->
  exists o, ip4_check (Seg a d :: rest) = Ret o /\
    let l := chain_data (Seg a d :: rest) in
    match o with
    | Some q => valid_ip l /\ chain_ok q /\ chain_data q = take (Z.to_nat (iph_len (hdr_of l))) l /\
        exists d' rest', q = Seg a d' :: rest' /\ IPH_HL_BYTES (hdr_of l) <= Z.of_nat (length d') <= Z.of_nat (length d) /\
          d' = take (Z.to_nat (iph_len (hdr_of l))) d
    | None => ~ (valid_ip l /\ IPH_HL_BYTES (hdr_of l) <= Z.of_nat (length d))
    end.
Proof.
  intros H4 Hok. set (p := Seg a d :: rest) in *. set (l := chain_data p).
  assert (l = d ++ chain_data rest) as Hl by done. pose proof (chain_bytes p Hok) as Hb. fold l in Hb.
  assert (forall i, (i < 4)%nat -> d !! i = Some (get8 l i)) as Hget.
  { intros i Hi. destruct (lookup_lt_is_Some_2 d i) as [x Hx]; [lia|]. rewrite Hx, Hl. unfold get8. by rewrite lookup_app_l, Hx by lia. }
  unfold ip4_check. cbn match. unfold p at 1. cbn match. fold l. rewrite (Hget 0%nat), (Hget 2%nat), (Hget 3%nat) by lia. cbn [deref mbind outcome_bind].
  change (get8 l 2 * 256 + get8 l 3) with (iph_len (hdr_of l)). change (get8 l 0) with (iph_v_hl (hdr_of l)).
  change (Z.shiftr (iph_v_hl (hdr_of l)) 4) with (IPH_V (hdr_of l)). change (u8 (Z.land (iph_v_hl (hdr_of l)) 0x0f * 4)) with (IPH_HL_BYTES (hdr_of l)).
  set (hlen := IPH_HL_BYTES (hdr_of l)). set (len := iph_len (hdr_of l)).
  assert (0 <= len < 65536) as Hlen by (pose proof (get8_range l 2 Hb); pose proof (get8_range l 3 Hb); change len with (get8 l 2 * 256 + get8 l 3); lia).
  pose proof (hl_bytes (hdr_of l)) as [_ Hhl]. fold hlen in Hhl.
  destruct (Z.eqb_spec (IPH_V (hdr_of l)) 4) as [Hv|Hv]; cbn [negb]; [|by exists None; split; [|intros [[] _]]].
  assert (exists d' rest', (if len <? Z.of_nat (length l) then realloc_segs p len else p) = Seg a d' :: rest' /\ d' = take (Z.to_nat len) d /\
    chain_ok (Seg a d' :: rest') /\ chain_data (Seg a d' :: rest') = take (Z.to_nat len) l) as (d' & rest' & -> & Hd' & Hok' & Hl').
  { destruct (Z.ltb_spec len (Z.of_nat (length l))).
    - destruct (realloc_segs_first a d rest len) as [r Hr]; [lia|]. exists (take (Z.to_nat len) d), r. rewrite <- Hr. split; [done|]. split; [done|].
      split; [by apply realloc_segs_ok|]. apply realloc_segs_take. lia.
    - exists d, rest. split; [done|]. rewrite Hl, length_app in *. rewrite !take_ge by (rewrite ?length_app; lia). done. }
  cbn match. rewrite Hl'. assert (length d' = Nat.min (Z.to_nat len) (length d)) as Hld by (by rewrite Hd', length_take). rewrite length_take.
  destruct (_ || _ || _) eqn:E.
  { exists None. split; [done|]. intros [[_ V2 V3 _] V5]. fold hlen len in V2, V3, V5. unfold IP_HLEN in *. rewrite !orb_true_iff, !Z.ltb_lt in E. lia. }
  rewrite !orb_false_iff, !Z.ltb_ge in E. destruct E as [[E1 E2] E3]. unfold IP_HLEN in *.
  assert (take (Z.to_nat hlen) d' = take (Z.to_nat hlen) l) as ->.
  { rewrite Hd', take_take, Nat.min_l by lia. rewrite Hl, take_app_le by lia. done. }
  rewrite inet_chksum_arith; [|by apply bytes_take|rewrite length_take; lia].
  destruct (Z.eqb_spec (65535 - ones_complement_sum (take (Z.to_nat hlen) l)) 0) as [Hc|Hc]; cbn [negb].
  - eexists. split; [reflexivity|]. split; [split; fold hlen len; unfold IP_HLEN; try done; lia|]. split; [done|]. split; [done|]. exists d', rest'. split; [done|]. fold hlen. split; [lia|done].
  - exists None. split; [done|]. intros [[_ _ _ V4] _]. fold hlen in V4. lia.
Qed.

(** What [place] is: the packet, with an address for each pbuf. *)
Class PlaceLaw (N : Type) `{!IpUpper N} := { place_data c : seg_data <$> place c = c }.

Section input.
  Context {N : Type} `{!ReassNet N} `{!ReassLaws N} `{!IpUpper N} `{!PlaceLaw N}.
  Implicit Type s : ip N.

(** ** Packets that are for us *)

(** A datagram to [dest] that arrived at [inp] is for the interface [n]: a group that [inp] has joined, or an address of an interface, of [inp] first. *)
Definition for_netif (dest : Z) (inp n : Z * iface) s : Prop :=
  if ip4_addr_ismulticast dest then n = inp /\ has (flags inp.2) NETIF_FLAG_IGMP = true /\ igmp_lookfor_group (inet s) inp.1 dest = true
  else ip4_input_accept dest n.2 = true /\
    (n = inp \/ ip4_input_accept dest inp.2 = false /\ exists l1 l2, netif_list (inets s) = l1 ++ n :: l2 /\ n.1 <> inp.1 /\
      Forall (fun m => m.1 = inp.1 \/ ip4_input_accept dest m.2 = false) l1).
(** A source that is a broadcast or group address is refused; only a query of IGMP may come from 0.0.0.0, which counts as a broadcast address. *)
Definition good_source (src dest : Z) (inp : iface) : Prop :=
  (ip4_addr_isbroadcast src inp = false /\ ip4_addr_ismulticast src = false) \/ (dest = lwip_htonl IPADDR_ALLSYSTEMS /\ src = 0).

Lemma ip4_select_ok src dest inp s : exists o chk, ip4_select src dest inp s = (o, chk) /\
  (chk = false -> dest = lwip_htonl IPADDR_ALLSYSTEMS /\ src = 0 /\ is_Some o) /\
  (is_Some o -> chk = true -> ~ (dest = lwip_htonl IPADDR_ALLSYSTEMS /\ src = 0 /\ ip4_addr_ismulticast dest = true)) /\
  match o with Some n => for_netif dest inp n s | None => forall n, ~ for_netif dest inp n s end.
Proof.
  unfold ip4_select, for_netif. destruct (ip4_addr_ismulticast dest).
  - change (negb (Z.land (flags inp.2) NETIF_FLAG_IGMP =? 0)) with (has (flags inp.2) NETIF_FLAG_IGMP).
    destruct (has _ _ && _) eqn:E; eexists _, _; (split; [reflexivity|]).
    + apply andb_true_iff in E as [E1 E2]. unfold ip4_addr_isany_val. split; [|split; [|done]].
      * intros H%negb_false_iff%andb_true_iff. rewrite !Z.eqb_eq in H. destruct H. done.
      * intros _ H%negb_true_iff [-> [-> _]]. done.
    + split; [done|]. split; [by intros []|]. intros n (_ & H1 & H2). by rewrite H1, H2 in E.
  - destruct (ip4_input_accept dest inp.2) eqn:Ei.
    { eexists _, _. split; [reflexivity|]. split; [done|]. split; [by intros _ _ (_ & _ & ?)|]. split; [done|by left]. }
    eexists _, _. split; [reflexivity|]. split; [done|]. split; [by intros _ _ (_ & _ & ?)|].
    destruct (list_find _ _) as [[i n]|] eqn:E.
    + apply list_find_Some in E as (H1 & [H2 H3] & H4). split; [done|]. right. split; [done|].
      exists (take i (netif_list (inets s))), (drop (S i) (netif_list (inets s))). split; [by rewrite take_drop_middle|]. split; [done|].
      apply Forall_lookup. intros j m [Hj Hlt]%lookup_take_Some. specialize (H4 j m Hj Hlt).
      destruct (decide (m.1 = inp.1)); [by left|]. right. destruct (ip4_input_accept dest m.2); [|done]. tauto.
    + apply list_find_None in E. intros n [H1 [->|(_ & l1 & l2 & Hl & H2 & _)]]; [congruence|]. rewrite Hl in E.
      apply Forall_app in E as [_ [E _]%Forall_cons]. apply E. done.
Qed.

(** ** [ip4_receive] *)

(** A packet of one datagram as reassembly gets it. *)
Definition as_packet (l : list Z) (q : list seg) : packet :=
  Packet (hdr_of l) (match q with Seg _ d :: rest => drop (Z.to_nat IP_HLEN) d :: (seg_data <$> rest) | [] => [] end).

Lemma as_packet_len l a d rest : IP_HLEN <= Z.of_nat (length d) -> chain_data (Seg a d :: rest) = l -> pkt_len (as_packet l (Seg a d :: rest)) = Z.of_nat (length l).
Proof.
  intros Hd <-. unfold pkt_len, tot_len, as_packet, chain_data, IP_HLEN in *. simpl. rewrite !length_app, length_drop.
  change (map seg_data rest) with (seg_data <$> rest). lia.
Qed.

Lemma offset_split x : has x (Z.lor IP_OFFMASK IP_MF) = true -> has x IP_MF = false -> u16 (Z.land x IP_OFFMASK * 8) <> 0.
Proof.
  rewrite has_or. intros [H|H]%orb_true_iff H'; [|congruence]. unfold has in H. apply negb_true_iff, Z.eqb_neq in H.
  change IP_OFFMASK with (Z.ones 13) in *. rewrite Z.land_ones in * by lia. pose proof (Z.mod_pos_bound x (2 ^ 13) ltac:(lia)). rewrite u16_small; lia.
Qed.

Lemma joined_body p l1 r l2 (s s' : reass N) q : is_frag p -> joined p l1 r l2 s (Some q) s' -> p_body q <> [].
Proof.
  intros Hp Hj E. inversion Hj as [| |l Hfit Hperm Hs Hls Hc Hq]; subst. unfold join in E. cbn [p_body] in E. destruct (grown_p p l r) as [G _]. rewrite G in E.
  pose proof (clen_join l) as Hcl. rewrite E, (pbufs_perm _ _ Hperm) in Hcl. cbn [pbufs foldr] in Hcl. change (foldr _ 0 (r_p r)) with (pbufs (r_p r)) in Hcl.
  pose proof (pbufs_nonneg (r_p r)). destruct Hp as [Hb _ _ _]. change (f_body (frag_of p)) with (p_body p) in Hcl. unfold chain_clen in Hcl.
  destruct (p_body p); [done|]. simpl in Hcl. lia.
Qed.
Lemma step_body p (r r' : reass N) q : is_frag p -> step p r (Some q) r' -> p_body q <> [].
Proof. intros Hp Hst. inversion Hst; subst; by eapply joined_body. Qed.

Lemma valid_frag l a d rest : valid_ip l -> bytes l -> IPH_HL_BYTES (hdr_of l) <= Z.of_nat (length d) -> chain_data (Seg a d :: rest) = take (Z.to_nat (iph_len (hdr_of l))) l ->
  has (iph_offset (hdr_of l)) (Z.lor IP_OFFMASK IP_MF) = true -> is_frag (as_packet l (Seg a d :: rest)).
Proof.
  intros [V1 V2 V3 V4] Hb Hd Hl Hf. pose proof (get8_range l 2 Hb). pose proof (get8_range l 3 Hb).
  assert (0 <= iph_len (hdr_of l) < 65536) by (change (iph_len (hdr_of l)) with (get8 l 2 * 256 + get8 l 3); lia).
  assert (pkt_len (as_packet l (Seg a d :: rest)) = iph_len (hdr_of l)) as Hlen.
  { change (pkt_len (as_packet l (Seg a d :: rest))) with (pkt_len (as_packet (take (Z.to_nat (iph_len (hdr_of l))) l) (Seg a d :: rest))).
    rewrite (as_packet_len _ a d rest ltac:(lia) Hl), length_take. lia. }
  split; [done|by rewrite Hlen|lia|]. intros Hm. by apply offset_split.
Qed.

(** What is decided about a packet [l] whose first pbuf holds [k] bytes. *)
Definition takes (l : list Z) (k : nat) (inp : Z * iface) s : Prop :=
  valid_ip l /\ IPH_HL_BYTES (hdr_of l) <= Z.of_nat k /\ good_source (iph_src (hdr_of l)) (iph_dest (hdr_of l)) inp.2 /\
  exists n, for_netif (iph_dest (hdr_of l)) inp n s.

Lemma ip4_receive_ok a d rest inp s : (4 <= length d)%nat -> chain_ok (Seg a d :: rest) -> reass_ok (ireass s) ->
  exists o s', ip4_receive (Seg a d :: rest) inp s = Ret (o, s') /\ reass_ok (ireass s') /\ inets s' = inets s /\ iindex s' = iindex s /\
    let l := chain_data (Seg a d :: rest) in
    let h := hdr_of l in
    (~ takes l (length d) inp s -> o = None /\ s' = s) /\
    (takes l (length d) inp s -> exists n q, for_netif (iph_dest h) inp n s /\ chain_ok q /\ chain_data q = take (Z.to_nat (iph_len h)) l /\
      let c := Ctx n.2 inp.2 (iindex s inp.1) (iph_src h) (iph_dest h) in
      if has (iph_offset h) (Z.lor IP_OFFMASK IP_MF) then
        is_frag (as_packet l q) /\
        exists k r, ip4_reass (as_packet l q) (ireass s) = Ret (k, r) /\ s' = set_ireass r s /\
        match k, o with
        | None, None => True
        | Some k, Some (c', hlen, q') => c' = c /\ hlen = IPH_HL_BYTES h /\ exists b body, p_body k = b :: body /\ seg_data <$> q' = (iph_bytes (p_hdr k) ++ b) :: body
        | _, _ => False
        end
      else s' = s /\ o = Some (c, IPH_HL_BYTES h, q) /\ exists d' rest', q = Seg a d' :: rest' /\ d' = take (Z.to_nat (iph_len h)) d).
Proof.
  intros H4 Hok Hr. set (l := chain_data (Seg a d :: rest)). unfold ip4_receive.
  destruct (ip4_check_ok a d rest H4 Hok) as (o & -> & Ho). fold l in Ho. cbn [mbind outcome_bind]. cbv zeta in Ho.
  destruct o as [q|].
  2:{ exists None, s. split_and!; try done. intros (T1 & T2 & _). exfalso. by apply Ho. }
  destruct Ho as (Hv & Hqok & Hq & d' & rest' & -> & Hd' & Htk). pose proof (vi_hlen _ Hv) as [Hh1 Hh2]. unfold IP_HLEN in Hh1.
  assert (hdr_of d' = hdr_of l) as Hhdr.
  { rewrite <- (hdr_of_app d' (chain_data rest')) by lia. change (d' ++ chain_data rest') with (chain_data (Seg a d' :: rest')). rewrite Hq. apply hdr_of_take. lia. }
  rewrite Hhdr. destruct (ip4_select_ok (iph_src (hdr_of l)) (iph_dest (hdr_of l)) inp s) as (o & chk & -> & Hc1 & Hc2 & Hsel).
  cbn match. destruct (chk && _) eqn:Hsrc.
  { apply andb_true_iff in Hsrc as [-> Hsrc%orb_true_iff]. exists None, s. split_and!; try done. intros (_ & _ & [[G1 G2]|[G1 G2]] & n & Hn).
    - rewrite G1, G2 in Hsrc. by destruct Hsrc.
    - destruct o as [m|]; [|by destruct (Hsel n)]. destruct (Hc2 ltac:(done) eq_refl). by rewrite G1. }
  assert (good_source (iph_src (hdr_of l)) (iph_dest (hdr_of l)) inp.2) as Hgood.
  { destruct chk; [left; by apply orb_false_iff in Hsrc|]. right. by destruct (Hc1 eq_refl) as (? & ? & _). }
  destruct o as [n|].
  2:{ exists None, s. split_and!; try done. intros (_ & _ & _ & n & Hn). by destruct (Hsel n). }
  assert (takes l (length d) inp s) as Htakes by (split; [done|]; split; [lia|]; split; [done|]; by exists n).
  destruct (has _ _) eqn:Hfr.
  - pose proof (valid_frag l a d' rest' Hv (chain_bytes _ Hok) ltac:(lia) Hq Hfr) as Hisf. fold (as_packet l (Seg a d' :: rest')).
    destruct (step_ok _ (ireass s) Hr Hisf) as (k & r & Hrun & Hst). destruct (step_keeps _ _ _ _ Hr Hisf Hst) as (Hr' & _).
    rewrite Hrun. cbn [mbind outcome_bind]. destruct k as [k|].
    + pose proof (step_body _ _ _ _ Hisf Hst) as Hb. destruct (p_body k) as [|b body] eqn:E; [done|]. eexists _, _. split; [reflexivity|]. split; [done|].
      split; [done|]. split; [done|]. split; [done|]. intros _. exists n, (Seg a d' :: rest'). split_and!; try done. exists (Some k), r. split_and!; try done.
      exists b, body. split; [done|apply place_data].
    + eexists _, _. split; [reflexivity|]. split; [done|]. split; [done|]. split; [done|]. split; [done|]. intros _. exists n, (Seg a d' :: rest'). split_and!; try done.
      by exists None, r.
  - eexists _, _. split; [reflexivity|]. split; [done|]. split; [done|]. split; [done|]. split; [done|]. intros _. exists n, (Seg a d' :: rest'). split_and!; try done.
    by exists d', rest'.
Qed.
End input.

(** ** The properties *)

Section properties.
  Context {N : Type} `{!ReassNet N} `{!ReassLaws N} `{!IpUpper N} `{!PlaceLaw N}.
  Implicit Type s : ip N.

(** A packet from the network: the driver hands over the first four bytes in one pbuf. *)
Definition from_wire (p : list seg) : Prop := chain_ok p /\ exists a d rest, p = Seg a d :: rest /\ (4 <= length d)%nat.

(** The protocols above return. *)
Definition is_ret (r : outcome N) : Prop := exists n, r = Ret n.
Definition upper_returns : Prop :=
  (forall c h p n, is_ret (udp_in c h p n) /\ is_ret (tcp_in c h p n) /\ is_ret (icmp_in c h p n) /\ is_ret (igmp_in c h p n)) /\ forall p n, is_ret (proto_unreach p n).
Lemma ip4_input_ok p inp s : upper_returns -> from_wire p -> reass_ok (ireass s) -> exists s', ip4_input p inp s = Ret s' /\ reass_ok (ireass s').
Proof.
  intros [Hup Hpu] (Hok & a & d & rest & -> & H4) Hr. destruct (ip4_receive_ok a d rest inp s H4 Hok Hr) as (o & s1 & Hrun & Hr1 & _ & _ & H1 & H2).
  unfold ip4_input. rewrite Hrun. cbn [mbind outcome_bind]. destruct o as [[[c hlen] q]|]; [|by exists s1].
  assert (forall v, reass_ok (ireass (set_inet v s1))) as Hset by (intros v; destruct Hr1; by split).
  destruct q as [|[x y] q].
  - exfalso. assert (~ ~ takes (chain_data (Seg a d :: rest)) (length d) inp s) as Hn by (intros Hn; by destruct (H1 Hn)). apply Hn. intros Ht.
    destruct (H2 Ht) as (n & q & _ & _ & _ & Hq). destruct (has _ _).
    + destruct Hq as (_ & k & r & _ & _ & Hk). destruct k as [k|]; [|done]. by destruct Hk as (_ & _ & b & body & _ & Hk).
    + by destruct Hq as (_ & Hq & d' & rest' & -> & _).
  - destruct (raw_in _ _ _) as [st m]. set (r := if _ =? IP_PROTO_UDP then _ else _).
    assert (is_ret r) as [n Hn].
    { subst r. destruct (_ =? _); [apply Hup|]. destruct (_ =? _); [apply Hup|]. destruct (_ =? _); [apply Hup|]. destruct (_ =? _); [apply Hup|].
      destruct st; try (by eexists); (destruct (_ && _); [apply Hpu|by eexists]). }
    destruct st; [rewrite Hn; cbn [mbind outcome_bind]|..|rewrite Hn; cbn [mbind outcome_bind]]; eexists; (split; [reflexivity|apply Hset]).
Qed.

Fixpoint inputs (ps : list (list seg * (Z * iface))) s : outcome (ip N) :=
  match ps with [] => Ret s | (p, inp) :: ps => s ← ip4_input p inp s; inputs ps s end.

(** (any input) whatever packets arrive at whatever interfaces, with at least four bytes in their first pbufs: if the protocols above return, [ip4_input] returns,
    without a failed assertion or an access outside of the packet, and what waits for reassembly stays in order and bounded. *)
Theorem ip4_input_safe ps s : upper_returns -> Forall (fun x => from_wire x.1) ps -> reass_ok (ireass s) -> exists s', inputs ps s = Ret s' /\ reass_ok (ireass s').
Proof.
  intros Hup Hps. revert s. induction Hps as [|[p inp] ps Hp _ IH]; intros s Hr; [by exists s|]. cbn [inputs].
  destruct (ip4_input_ok p inp s Hup Hp Hr) as (s1 & -> & Hr1). cbn [mbind outcome_bind]. by apply IH.
Qed.

(** C19: (what is taken) a packet is given on exactly when it begins with a valid header of version 4 that lies in the first pbuf, it holds as many bytes as the header says, the checksum is
    right, the source is no broadcast or group address (an IGMP query apart) and the destination is an address of an interface, of the one it came from
    first, or a group that was joined there: without what is behind the datagram, under the addresses of the header, or as
    what reassembly makes of it. Otherwise it is dropped and nothing changes. *)
Theorem ip4_input_takes a d rest inp s : (4 <= length d)%nat -> chain_ok (Seg a d :: rest) -> reass_ok (ireass s) ->
  exists o s', ip4_receive (Seg a d :: rest) inp s = Ret (o, s') /\
    let l := chain_data (Seg a d :: rest) in
    let h := hdr_of l in
    (~ takes l (length d) inp s -> o = None /\ s' = s) /\
    (takes l (length d) inp s -> exists n q, for_netif (iph_dest h) inp n s /\ chain_data q = take (Z.to_nat (iph_len h)) l /\
      let c := Ctx n.2 inp.2 (iindex s inp.1) (iph_src h) (iph_dest h) in
      if has (iph_offset h) (Z.lor IP_OFFMASK IP_MF) then
        is_frag (as_packet l q) /\
        exists k r, ip4_reass (as_packet l q) (ireass s) = Ret (k, r) /\ s' = set_ireass r s /\
        match k, o with
        | None, None => True
        | Some k, Some (c', hlen, q') => c' = c /\ hlen = IPH_HL_BYTES h /\ exists b body, p_body k = b :: body /\ seg_data <$> q' = (iph_bytes (p_hdr k) ++ b) :: body
        | _, _ => False
        end
      else s' = s /\ o = Some (c, IPH_HL_BYTES h, q)).
Proof.
  intros H4 Hok Hr. destruct (ip4_receive_ok a d rest inp s H4 Hok Hr) as (o & s' & Hrun & _ & _ & _ & H1 & H2). exists o, s'. split; [done|]. split; [done|].
  intros Ht. destruct (H2 Ht) as (n & q & Hn & _ & Hq & Hcase). exists n, q. split; [done|]. split; [done|]. cbv zeta. destruct (has _ _); [done|].
  destruct Hcase as (? & ? & _). done.
Qed.

(** The first four bytes are read before [len] is looked at. *)
Lemma ip4_input_reads_beyond a inp s : ip4_input [Seg a [0x45; 0]] inp s = Undef.
Proof. done. Qed.
End properties.

(** ** Packets that are sent *)

Lemma pad4_ok opts : bytes opts -> (length opts <= 40)%nat -> exists k, length (pad4 opts) = (4 * k)%nat /\ (k <= 10)%nat /\ bytes (pad4 opts) /\ opts `prefix_of` pad4 opts.
Proof.
  intros Hb Hl. unfold pad4. set (n := length opts) in *.
  assert (Z.land (Z.of_nat n + 3) (Z.lnot 3) = 4 * ((Z.of_nat n + 3) / 4)) as ->.
  { rewrite <- Z.ldiff_land. change 3 with (Z.ones 2) at 2. rewrite Z.ldiff_ones_r, Z.shiftl_mul_pow2, Z.shiftr_div_pow2 by lia. change (2 ^ 2) with 4. lia. }
  exists (Z.to_nat ((Z.of_nat n + 3) / 4)). rewrite length_app, repeat_length. fold n.
  assert (0 <= (Z.of_nat n + 3) / 4 <= 10 /\ Z.of_nat n <= 4 * ((Z.of_nat n + 3) / 4)) by zdm. split; [lia|]. split; [lia|]. split; [|by eexists].
  apply bytes_app. split; [done|]. apply Forall_forall. intros x Hx%list_elem_of_In%repeat_spec. subst x. done.
Qed.

Lemma v_hl_ok k : 5 <= k <= 15 -> let v := u8 (Z.lor (Z.shiftl 4 4) k) in 0 <= v < 256 /\ Z.shiftr v 4 = 4 /\ u8 (Z.land v 0x0f * 4) = 4 * k.
Proof.
  intros Hk. assert (k = 5 \/ k = 6 \/ k = 7 \/ k = 8 \/ k = 9 \/ k = 10 \/ k = 11 \/ k = 12 \/ k = 13 \/ k = 14 \/ k = 15) as E by lia.
  repeat (destruct E as [->|E]; [done|]). by subst k.
Qed.

Lemma sent_valid h opts data pad : hdr_ok h -> IPH_V h = 4 -> bytes opts -> (length opts <= 40)%nat -> IPH_HL_BYTES h = IP_HLEN + Z.of_nat (length opts) ->
  iph_len h = IPH_HL_BYTES h + Z.of_nat (length data) -> iph_chksum h = inet_chksum 0 (iph_bytes (set_chksum 0 h) ++ opts) ->
  let l := iph_bytes h ++ opts ++ data ++ pad in
  hdr_of l = h /\ valid_ip l /\ take (Z.to_nat (iph_len h)) l = iph_bytes h ++ opts ++ data.
Proof.
  intros Hh Hv Hb Ho Hhl Hlen Hc l. destruct (iph_bytes_ok h Hh) as [Hbh Hlh].
  assert (hdr_of l = h) as E by (by apply hdr_of_bytes). split; [done|]. unfold IP_HLEN in *. split.
  - split; rewrite E; unfold IP_HLEN; try done; [lia| |].
    + unfold l. rewrite !length_app, Hlh. lia.
    + unfold l. rewrite app_assoc, take_app_le, take_ge by (rewrite length_app; lia). by apply chksum_field.
  - unfold l. rewrite !app_assoc, <- (app_assoc (iph_bytes h)). rewrite take_app_le, take_ge; rewrite ?length_app, ?Hlh; [done|lia|lia].
Qed.

Section output.
  Context {N : Type} `{!FragNet N} `{!IpLink N}.
  Implicit Type o : ipout N.

(** [h] is a header for [data] with the options [opts]: whoever gets the bytes, and padding behind them, takes them for a valid datagram. *)
Definition describes (h : ip_hdr) (opts data : list Z) : Prop :=
  IPH_HL_BYTES h = IP_HLEN + Z.of_nat (length opts) /\ has (iph_offset h) (Z.lor IP_OFFMASK IP_MF) = false /\ iph_len h = IPH_HL_BYTES h + Z.of_nat (length data) /\
  forall pad, let l := iph_bytes h ++ opts ++ data ++ pad in
    hdr_of l = h /\ valid_ip l /\ take (Z.to_nat (iph_len h)) l = iph_bytes h ++ opts ++ data.

Lemma add_header_spec room tot n : 0 <= n <= 0xffff -> 0 <= tot <= 0xffff -> add_header_ok room tot n = (n =? 0) || ((n + tot <=? 0xffff) && (n <=? room)).
Proof.
  intros Hn Ht. unfold add_header_ok. f_equal. f_equal. destruct (Z.leb_spec (n + tot) 0xffff).
  - rewrite u16_small by lia. by rewrite (proj2 (Z.ltb_ge _ _)) by lia.
  - assert (u16 (n + tot) = n + tot - 65536) as ->; [|by rewrite (proj2 (Z.ltb_lt _ _)) by lia].
    unfold u16. replace (n + tot) with (n + tot - 65536 + 1 * 65536) at 1 by lia. rewrite Z.mod_add, Z.mod_small; lia.
Qed.

Lemma two_headers room tot n : 0 <= n <= 40 -> 0 <= tot <= 0xffff -> 0 <= room ->
  add_header_ok room tot n && add_header_ok (room - n) (tot + n) IP_HLEN = negb ((room <? IP_HLEN + n) || (0xffff <? IP_HLEN + n + tot)).
Proof.
  intros Hn Ht Hr. unfold IP_HLEN. rewrite (add_header_spec room) by lia. destruct (_ || _) eqn:E.
  - assert (n + tot <= 0xffff /\ n <= room) as [H1 H2].
    { apply orb_true_iff in E as [E%Z.eqb_eq|[E1%Z.leb_le E2%Z.leb_le]%andb_true_iff]; lia. }
    rewrite add_header_spec by lia. apply eq_true_iff_eq. simpl. rewrite andb_true_iff, negb_true_iff, orb_false_iff, !Z.leb_le, !Z.ltb_ge. lia.
  - apply orb_false_iff in E as [E1%Z.eqb_neq E2%andb_false_iff]. rewrite !Z.leb_gt in E2. simpl. symmetry. apply negb_false_iff, orb_true_iff. rewrite !Z.ltb_lt. lia.
Qed.

Lemma ip4_output_ok fuel headroom a d rest mcl src dest ttl tos proto netif n opts o : bytes opts -> 0 <= headroom ->
  Z.of_nat (length (chain_data (Seg a d :: rest))) <= 0xffff -> 0 <= ttl < 256 -> 0 <= tos < 256 -> 0 <= proto < 256 -> 0 <= ip_id o < 65536 ->
  0 <= src < 2 ^ 32 -> 0 <= dest < 2 ^ 32 ->
  let data := chain_data (Seg a d :: rest) in
  let hlen := IP_HLEN + Z.of_nat (length (pad4 opts)) in
  let r := ip4_output_if_opt_src fuel headroom (Seg a d :: rest) mcl src dest ttl tos proto netif n opts o in
  if 40 <? Z.of_nat (length opts) then r = Ret (ERR_VAL, o)
  else if (headroom <? hlen) || (0xffff <? hlen + Z.of_nat (length data)) then r = Ret (ERR_BUF, o)
  else exists h, describes h (pad4 opts) data /\ hdr_ok h /\ iph_src h = src /\ iph_dest h = dest /\ iph_proto h = proto /\ iph_ttl h = ttl /\ iph_id h = ip_id o /\
    r = ip4_send fuel h (pad4 opts) (a - hlen) d rest mcl netif n (IpOut (u16 (ip_id o + 1)) (onet o)).
Proof.
  intros Hb Hroom Htot Httl Htos Hpr Hid Hsrc Hdst data hlen r. unfold r, ip4_output_if_opt_src. fold data. change (IP_HLEN_MAX - IP_HLEN) with 40.
  destruct (Z.ltb_spec 40 (Z.of_nat (length opts))) as [Ho|Ho]; [done|].
  destruct (pad4_ok opts Hb ltac:(lia)) as (k & Hk & Hk10 & Hpb & _). fold data in Htot. fold hlen.
  assert (hlen = 20 + 4 * Z.of_nat k) as Hhl by (unfold hlen, IP_HLEN; lia).
  pose proof (two_headers headroom (Z.of_nat (length data)) (Z.of_nat (length (pad4 opts))) ltac:(lia) ltac:(lia) Hroom) as Hadd. fold hlen in Hadd.
  destruct (_ || _) eqn:E.
  { apply andb_false_iff in Hadd as [->| ->]; [done|]. by destruct (negb _). }
  apply andb_true_iff in Hadd as [-> ->]. cbn [negb]. apply orb_false_iff in E as [E1%Z.ltb_ge E2%Z.ltb_ge].
  replace (hlen / 4) with (5 + Z.of_nat k) by (rewrite Hhl; zdm). destruct (v_hl_ok (5 + Z.of_nat k) ltac:(lia)) as (V1 & V2 & V3).
  set (v := u8 (Z.lor (Z.shiftl 4 4) (5 + Z.of_nat k))) in *. rewrite !u8_small by lia. set (len := Z.of_nat (length data) + hlen).
  assert (0 <= len < 65536) as Hlen by (unfold len; lia).
  rewrite inline_chksum_ok; try done; [|rewrite Hk; apply Nat.even_spec; exists (2 * k)%nat; lia|lia]. set (c := inet_chksum 0 _).
  assert (0 <= c < 65536) as Hc by apply u16_range. set (h := IpHdr v tos len (ip_id o) 0 ttl proto c src dest).
  assert (hdr_ok h) as Hh by (split; simpl; lia). assert (IPH_HL_BYTES h = hlen) as Hhb by (unfold IPH_HL_BYTES, IPH_HL, h; simpl iph_v_hl; rewrite V3; lia).
  exists h. split; [|split_and!; done]. split; [done|]. split; [done|]. split; [rewrite Hhb; unfold h, len; simpl; lia|]. intros pad.
  apply sent_valid; try done; [lia|]. rewrite Hhb. unfold h, len. simpl. lia.
Qed.

(** C22: (what is sent) [ip4_output_if_opt_src] refuses more than 40 bytes of options, and a packet without room in front or that would become longer than 65535 bytes; otherwise it hands the packet
    on behind a header for these addresses, with the next identification and the options padded with 0: one that
    [ip4_input] finds valid, with the length and the checksum right, also when the link adds padding. *)
Theorem ip4_output_valid fuel headroom a d rest mcl src dest ttl tos proto netif n opts o : bytes opts -> 0 <= headroom ->
  Z.of_nat (length (chain_data (Seg a d :: rest))) <= 0xffff -> 0 <= ttl < 256 -> 0 <= tos < 256 -> 0 <= proto < 256 -> 0 <= ip_id o < 65536 ->
  0 <= src < 2 ^ 32 -> 0 <= dest < 2 ^ 32 ->
  let data := chain_data (Seg a d :: rest) in
  let hlen := IP_HLEN + Z.of_nat (length (pad4 opts)) in
  let r := ip4_output_if_opt_src fuel headroom (Seg a d :: rest) mcl src dest ttl tos proto netif n opts o in
  if 40 <? Z.of_nat (length opts) then r = Ret (ERR_VAL, o)
  else if (headroom <? hlen) || (0xffff <? hlen + Z.of_nat (length data)) then r = Ret (ERR_BUF, o)
  else exists h, describes h (pad4 opts) data /\ hdr_ok h /\ iph_src h = src /\ iph_dest h = dest /\ iph_proto h = proto /\ iph_ttl h = ttl /\ iph_id h = ip_id o /\
    r = ip4_send fuel h (pad4 opts) (a - hlen) d rest mcl netif n (IpOut (u16 (ip_id o + 1)) (onet o)).
Proof. apply ip4_output_ok. Qed.
End output.
