(* ===== verification/UdpIp.v ===== *)
(** * UDP over IPv4

    The datagram that UDP builds goes through IPv4 on both sides: header, padding by the link, checks, trimming, and the socket. *)

From stdpp Require Import gmap.
From S2P Require Import Prelude Def Chksum Ip4Addr Route Chain Ip4Hdr Ip4Reass Ip4ReassOk Ip4Frag Ip4 Ip4Ok Ip4Props Udp UdpOk UdpProps UdpRound.

Lemma remove_hdr_data k a d rest : 0 <= k <= Z.of_nat (length d) -> chain_data (remove_hdr k (Seg a d :: rest)) = drop (Z.to_nat k) (chain_data (Seg a d :: rest)).
Proof. intros Hk. unfold chain_data. simpl. by rewrite drop_app_le by lia. Qed.
Lemma remove_hdr_chain k p : chain_ok p -> chain_ok (remove_hdr k p).
Proof.
  intros Hp. destruct Hp as [|[a d] rest [H1 H2] Hr]; [constructor|]. simpl. constructor; [|done]. split; [by apply bytes_drop|]. unfold seg_len in *. simpl in *.
  rewrite length_drop. lia.
Qed.

Lemma ip4_send_direct {N} `{!FragNet N} `{!IpLink N} fuel h opts a d rest netif n (o : ipout N) :
  iph_dest h <> ip_addr n -> ip4_addr_isloopback (iph_dest h) = false ->
  let q := Seg a (iph_bytes h ++ opts ++ d) :: rest in
  netif_mtu netif = 0 \/ Z.of_nat (length (chain_data q)) <= netif_mtu netif -> Z.of_nat (length (chain_data q)) <= 0xffff ->
  ip4_send fuel h opts a d rest false netif n o = (let '(err, m) := netif_output (onet o) netif q (iph_dest h) in Ret (err, IpOut (ip_id o) m)).
Proof.
  intros H1 H2 q Hm Hq. unfold ip4_send. rewrite (proj2 (Z.eqb_neq _ _)), H2 by done. cbn [orb]. fold q. rewrite u16_small by lia.
  assert (negb (netif_mtu netif =? 0) && (netif_mtu netif <? Z.of_nat (length (chain_data q))) = false) as ->; [|done].
  destruct (Z.eqb_spec (netif_mtu netif) 0); [done|]. cbn [negb andb]. apply Z.ltb_ge. lia.
Qed.

(** Without options, and with enough room. *)
Lemma ip4_output_plain {N} `{!FragNet N} `{!IpLink N} fuel room a d rest mcl src dest ttl tos proto netif n (o : ipout N) :
  Z.of_nat (length (chain_data (Seg a d :: rest))) + IP_HLEN <= 0xffff -> IP_HLEN <= room -> 0 <= ttl < 256 -> 0 <= tos < 256 -> 0 <= proto < 256 ->
  0 <= ip_id o < 65536 -> 0 <= src < 2 ^ 32 -> 0 <= dest < 2 ^ 32 ->
  exists h, describes h [] (chain_data (Seg a d :: rest)) /\ hdr_ok h /\ iph_src h = src /\ iph_dest h = dest /\ iph_proto h = proto /\
    ip4_output_if_src fuel room (Seg a d :: rest) mcl src dest ttl tos proto netif n o =
      ip4_send fuel h [] (a - IP_HLEN) d rest mcl netif n (IpOut (u16 (ip_id o + 1)) (onet o)).
Proof.
  intros Hlen Hroom Httl Htos Hpr Hid Hsrc Hdst. unfold ip4_output_if_src.
  pose proof (ip4_output_ok fuel room a d rest mcl src dest ttl tos proto netif n [] o ltac:(constructor) ltac:(unfold IP_HLEN in *; lia) ltac:(unfold IP_HLEN in *; lia)
    Httl Htos Hpr Hid Hsrc Hdst) as H. cbv zeta in H. change (pad4 []) with (@nil Z) in H. change (40 <? Z.of_nat (length (@nil Z))) with false in H.
  change (IP_HLEN + Z.of_nat (length (@nil Z))) with IP_HLEN in H. cbn match in H.
  assert ((room <? IP_HLEN) || (0xffff <? IP_HLEN + Z.of_nat (length (chain_data (Seg a d :: rest)))) = false) as E.
  { apply orb_false_iff. rewrite !Z.ltb_ge. unfold IP_HLEN in *. lia. }
  rewrite E in H. destruct H as (h & H1 & H2 & H3 & H4 & H5 & _ & _ & H6). exists h. done.
Qed.

Section stack.
  Context {N : Type} `{!FragNet N} `{!IpLink N}.
  Context {M : Type} `{!ReassNet M} `{!ReassLaws M} `{!IpUpper M} `{!PlaceLaw M}.
  Context {W : Type} `{!UdpNet W}.

(** C18: (the stack) a datagram of a socket goes out through IPv4 to another host in one packet. The host receives its bytes, in whatever pbufs with the headers in the first one, with
    padding behind them: IPv4 gives on a packet of protocol 17 under the addresses of the sender and of the socket, and [udp_input] gives
    exactly the data to the socket it chooses, with the address and the port of the sender. *)
Theorem udp_over_ip fuel room a d rest b dst_ip dst_port src_ip netif n (o : ipout N) :
  let put h := put_hdr h (Seg a d :: rest) in
  let g := udp_build b put dst_ip dst_port src_ip netif in
  chain_ok (Seg a d :: rest) -> Z.of_nat (length (chain_data (Seg a d :: rest))) + UDP_HLEN + IP_HLEN <= 0xffff -> IP_HLEN <= room ->
  0 <= local_port b < 65536 -> 0 <= dst_port < 65536 -> 0 <= src_ip < 2 ^ 32 -> 0 <= dst_ip < 2 ^ 32 -> 0 <= d_ttl g < 256 -> 0 <= d_tos g < 256 -> 0 <= ip_id o < 65536 ->
  dst_ip <> ip_addr n -> ip4_addr_isloopback dst_ip = false -> d_mcastloop g = false ->
  netif_mtu netif = 0 \/ Z.of_nat (length (chain_data (Seg a d :: rest))) + UDP_HLEN + IP_HLEN <= netif_mtu netif ->
  exists q, ip4_output_if_src fuel room (d_segs g) (d_mcastloop g) (d_src g) (d_dst g) (d_ttl g) (d_tos g) (d_proto g) netif n o =
      (let '(err, m) := netif_output (onet o) netif q dst_ip in Ret (err, IpOut (u16 (ip_id o + 1)) m)) /\
    forall (s : ip M) inp n' x y r pad, reass_ok (ireass s) -> chain_ok (Seg x y :: r) -> chain_data (Seg x y :: r) = chain_data q ++ pad ->
      IP_HLEN + UDP_HLEN <= Z.of_nat (length y) -> for_netif dst_ip inp n' s -> good_source src_ip dst_ip inp.2 ->
    exists m q', let c := Ctx m.2 inp.2 (iindex s inp.1) src_ip dst_ip in
      ip4_receive (Seg x y :: r) inp s = Ret (Some (c, IP_HLEN, q'), s) /\ get8 (chain_data q') 9 = IP_PROTO_UDP /\ for_netif dst_ip inp m s /\
      forall w : udp W, udp_ok w -> let bc := ip4_addr_isbroadcast dst_ip m.2 in
        ~ nobody c (local_port b) dst_port bc w ->
        (forall z k, chosen c (local_port b) dst_port bc (pcbs w) (udp_pcbs w) z k -> recv k = true) ->
        exists z v w', udp_input c (remove_hdr IP_HLEN q') w = Ret (Delivered z v src_ip (local_port b), w') /\ chain_data v = chain_data (Seg a d :: rest) /\
          exists k, chosen c (local_port b) dst_port bc (pcbs w) (udp_pcbs w) z k.
Proof.
  intros put g Hok Hlen Hroom Hp1 Hp2 Hsrc Hdst Httl Htos Hid Hself Hloop Hmc Hmtu. unfold UDP_HLEN, IP_HLEN in Hlen, Hmtu.
  set (data := chain_data (Seg a d :: rest)) in *.
  assert (exists a' d', d_segs g = Seg a' d' :: rest) as (a' & d' & Hseg) by (by eexists _, _).
  assert (puts put data) as Hput.
  { apply Forall_cons in Hok as [[Hd _] Hrest]. apply puts_front; try done. unfold data, chain_data, UDP_HLEN in *. simpl in *. rewrite length_app in Hlen. lia. }
  assert (length (chain_data (d_segs g)) = (8 + length data)%nat) as Hgl by (unfold g, udp_build; cbn [d_segs]; rewrite (pu_data _ _ Hput), length_app; done).
  rewrite Hseg in Hgl. change (d_src g) with src_ip. change (d_dst g) with dst_ip. change (d_proto g) with IP_PROTO_UDP. rewrite Hseg, Hmc.
  destruct (ip4_output_plain fuel room a' d' rest false src_ip dst_ip (d_ttl g) (d_tos g) IP_PROTO_UDP netif n o)
    as (h & (D1 & D2 & D3 & D4) & Hh & H1 & H2 & H3 & Hrun); try done; try (unfold IP_HLEN in *; lia).
  set (q := Seg (a' - IP_HLEN) (iph_bytes h ++ [] ++ d') :: rest). destruct (iph_bytes_ok h Hh) as [Hbh Hlh].
  assert (chain_data q = iph_bytes h ++ chain_data (Seg a' d' :: rest)) as Hq by (unfold q, chain_data; change ([] ++ d') with d'; cbn [map seg_data concat]; by rewrite <- app_assoc).
  exists q. split.
  { rewrite Hrun, ip4_send_direct; rewrite ?H2; try done; fold q; rewrite Hq, length_app, Hlh, Hgl; lia. }
  intros s inp n' x y r pad Hr Hxok Hx Hy Hn Hgs. assert (chain_data (Seg x y :: r) = iph_bytes h ++ [] ++ chain_data (Seg a' d' :: rest) ++ pad) as Hx'.
  { rewrite Hx, Hq, <- app_assoc. done. }
  destruct (D4 pad) as (Hhdr & Hv & Htake). rewrite <- Hx' in Hhdr, Hv, Htake. change (IP_HLEN + Z.of_nat (length (@nil Z))) with IP_HLEN in D1. unfold IP_HLEN, UDP_HLEN in Hy.
  destruct (ip4_receive_ok x y r inp s) as (out & s' & Hrec & _ & _ & _ & _ & Htk); [lia|done|done|]. cbv zeta in Htk. rewrite Hhdr, H1, H2, D2, D1 in Htk.
  destruct Htk as (m & q' & Hm & Hq'ok & Hq' & Hfr).
  { unfold takes. rewrite Hhdr, H1, H2, D1. unfold IP_HLEN. split; [done|]. split; [lia|]. split; [done|by exists n']. }
  destruct Hfr as (-> & -> & d1 & r1 & Hq'1 & Hd1).
  rewrite Htake in Hq'. exists m, q'. split; [done|]. split.
  { rewrite Hq'. change (get8 (iph_bytes h ++ _) 9) with (iph_proto h). done. }
  split; [done|]. intros w Hw bc Hsome Hrecv. unfold IP_HLEN in Hd1.
  assert (28 <= Z.of_nat (length d1)) as Hd1l by (rewrite Hd1, D3, D1, Hgl, length_take; unfold IP_HLEN; lia).
  assert (arrives (N := W) (local_port b) dst_port data g) as Harr.
  { apply build_arrives; try done; [by apply chain_bytes|unfold UDP_HLEN; lia]. }
  destruct (Harr w (Ctx m.2 inp.2 (iindex s inp.1) src_ip dst_ip) (remove_hdr IP_HLEN q') (x + IP_HLEN) (drop (Z.to_nat IP_HLEN) d1) r1) as (z & v & w' & Hz); try done.
  - by rewrite Hq'1.
  - rewrite length_drop. unfold IP_HLEN, UDP_HLEN. lia.
  - by apply remove_hdr_chain.
  - rewrite Hq'1, remove_hdr_data, <- Hq'1, Hq', Hseg by (unfold IP_HLEN; lia). by rewrite drop_app_length'.
  - exists z, v, w'. exact Hz.
Qed.
End stack.
