(* ===== verification/Icmp.v ===== *)
(** * ICMP ([core/ipv4/icmp.c])

    Echo requests are answered and errors reported. [icmp_input] gets the header of the packet, which [ip4_input] has left in
    front of it, and [room], the number of bytes in front of the message in its first pbuf; neither broadcasts nor multicasts are answered in this configuration. *)

From S2P Require Import Prelude Def Chksum Ip4Addr Route Chain Ip4Hdr Ip4Frag Ip4.

Definition ICMP_ER : Z := 0.
Definition ICMP_DUR : Z := 3.
Definition ICMP_ECHO : Z := 8.
Definition ICMP_TE : Z := 11.
Definition ICMP_TTL : Z := 255.
Definition ICMP_HLEN : Z := 8.
Definition ICMP_DEST_UNREACH_DATASIZE : Z := 8.
Definition PBUF_LINK_HLEN : Z := 16.

Inductive icmp_dur_type := ICMP_DUR_NET | ICMP_DUR_HOST | ICMP_DUR_PROTO | ICMP_DUR_PORT | ICMP_DUR_FRAG | ICMP_DUR_SR.
Definition dur_code (t : icmp_dur_type) : Z :=
  match t with ICMP_DUR_NET => 0 | ICMP_DUR_HOST => 1 | ICMP_DUR_PROTO => 2 | ICMP_DUR_PORT => 3 | ICMP_DUR_FRAG => 4 | ICMP_DUR_SR => 5 end.
Inductive icmp_te_type := ICMP_TE_TTL | ICMP_TE_FRAG.
Definition te_code (t : icmp_te_type) : Z := match t with ICMP_TE_TTL => 0 | ICMP_TE_FRAG => 1 end.

(** [pbuf_alloc(layer, length, PBUF_RAM)] for [PBUF_LINK] and for [PBUF_IP]: the address of the payload and the room in front of it; [pbuf_free] of a
    chain of so many pbufs. *)
Class IcmpNet (N : Type) := {
  alloc_link : N -> Z -> option (Z * Z) * N;
  alloc_ip : N -> Z -> option (Z * Z) * N;
  icmp_free : N -> Z -> N }.

Definition set_ttl (v : Z) (h : ip_hdr) : ip_hdr :=
  IpHdr (iph_v_hl h) (iph_tos h) (iph_len h) (iph_id h) (iph_offset h) v (iph_proto h) (iph_chksum h) (iph_src h) (iph_dest h).
Definition set_addrs (src dest : Z) (h : ip_hdr) : ip_hdr :=
  IpHdr (iph_v_hl h) (iph_tos h) (iph_len h) (iph_id h) (iph_offset h) (iph_ttl h) (iph_proto h) (iph_chksum h) src dest.

(** The header of the reply: that of the request with other addresses and a new checksum; its options stay. *)
Definition reply_hdr (src dest : Z) (hdr : list Z) : list Z :=
  let opts := drop (Z.to_nat IP_HLEN) hdr in
  let h := set_chksum 0 (set_ttl ICMP_TTL (set_addrs src dest (hdr_of hdr))) in
  iph_bytes (set_chksum (inet_chksum 0 (iph_bytes h ++ opts)) h) ++ opts.

(** The checksum of the reply. *)
Definition adjust_chksum (c : Z) : Z :=
  if lwip_htons (0xffff - Z.shiftl ICMP_ECHO 8) <? c then u16 (c + lwip_htons (u16 (Z.shiftl ICMP_ECHO 8)) + 1)
  else u16 (c + lwip_htons (Z.shiftl ICMP_ECHO 8)).
(** The first pbuf of the message, [type] and [chksum] replaced. *)
Definition reply_msg (d : list Z) : list Z :=
  match d with
  | _ :: code :: c0 :: c1 :: d' => [ICMP_ER; code] ++ le16_bytes (adjust_chksum (le16 c0 c1)) ++ d'
  | _ => d
  end.

Section icmp.
  Context {N : Type} `{!FragNet N} `{!IpLink N} `{!IcmpNet N}.
  Implicit Type o : ipout N.

Definition set_onet (v : N) o : ipout N := IpOut (ip_id o) v.
Definition free_packet (p : list seg) o : ipout N := set_onet (icmp_free (onet o) (Z.of_nat (length p))) o.

(** [p], or a copy of it with room for the headers; [None]: there is no memory. *)
Definition echo_pbuf (hlen room : Z) (p : list seg) o : option (Z * list seg) * ipout N :=
  let tot := Z.of_nat (length (chain_data p)) in
  if add_header_ok room tot (hlen + PBUF_LINK_HLEN) then (Some (room, p), o)
  else if u16 (tot + hlen) <? tot then (None, free_packet p o)
  else
    match alloc_link (onet o) (u16 (tot + hlen)) with
    | (None, n) => (None, free_packet p (set_onet n o))
    | (Some (a, r), n) => (Some (r + hlen, [Seg (a + hlen) (chain_data p)]), free_packet p (set_onet n o))
    end.

(** The reply is sent, and the packet freed. *)
Definition send_reply (fuel : nat) (c : ip_ctx) (hdr : list Z) (room : Z) (p : list seg) (netif : Z) o : outcome (ipout N) :=
  match p with
  | [] => Undef
  | Seg a d :: rest =>
      let hlen := IPH_HL_BYTES (hdr_of hdr) in
      if add_header_ok room (Z.of_nat (length (chain_data p))) hlen then
        '(_, o) ← ip4_output_hdrincl fuel (Seg (a - hlen) (reply_hdr (ctx_dest c) (ctx_src c) hdr ++ reply_msg d) :: rest) false netif (ctx_inp c) o;
        Ret (free_packet p o)
      else Ret (free_packet p o)
  end.

Definition icmp_input (fuel : nat) (c : ip_ctx) (hdr : list Z) (room : Z) (p : list seg) (netif : Z) o : outcome (ipout N) :=
  match p with
  | [] => Undef
  | Seg a d :: _ =>
      let hlen := IPH_HL_BYTES (hdr_of hdr) in
      if hlen <? IP_HLEN then Ret (free_packet p o)
      else if Z.of_nat (length d) <? 4 then Ret (free_packet p o)
      else
        type ← deref (d !! 0%nat);
        if type =? ICMP_ECHO then
          if ip4_addr_ismulticast (ctx_dest c) then Ret (free_packet p o)
          else if ip4_addr_isbroadcast (ctx_dest c) (ctx_netif c) then Ret (free_packet p o)
          else if Z.of_nat (length (chain_data p)) <? ICMP_HLEN then Ret (free_packet p o)
          else if negb (inet_chksum_pbuf p =? 0) then Ret (free_packet p o)
          else
            match echo_pbuf hlen room p o with
            | (None, o) => Ret o
            | (Some (room, p), o) => send_reply fuel c hdr room p netif o
            end
        else Ret (free_packet p o)
  end.

(** The message of an error: [type], [code] and the first bytes of the packet. *)
Definition error_msg (type code chksum : Z) (d : list Z) : list Z :=
  [type; code] ++ le16_bytes chksum ++ [0; 0; 0; 0] ++ take (Z.to_nat (IP_HLEN + ICMP_DEST_UNREACH_DATASIZE)) d.

Definition icmp_send_response (fuel : nat) (p : list seg) (type code : Z) (ns : netifs) o : outcome (ipout N) :=
  match alloc_ip (onet o) (ICMP_HLEN + IP_HLEN + ICMP_DEST_UNREACH_DATASIZE) with
  | (None, n) => Ret (set_onet n o)
  | (Some (a, r), n) =>
      let o := set_onet n o in
      match p with
      | [] => Undef
      | Seg _ d :: _ =>
          if Z.of_nat (length d) <? IP_HLEN + ICMP_DEST_UNREACH_DATASIZE then Undef
          else
            let iphdr_src := iph_src (hdr_of d) in
            match ip4_route ns iphdr_src with
            | None => Ret (set_onet (icmp_free (onet o) 1) o)
            | Some netif =>
                n ← deref (find_netif netif (netif_list ns));
                let chksum := inet_chksum a (error_msg type code 0 d) in
                '(_, o) ← ip4_output_if fuel r [Seg a (error_msg type code chksum d)] false IPADDR_ANY iphdr_src ICMP_TTL 0 IP_PROTO_ICMP netif n o;
                Ret (set_onet (icmp_free (onet o) 1) o)
            end
      end
  end.
Definition icmp_dest_unreach (fuel : nat) (p : list seg) (t : icmp_dur_type) (ns : netifs) o : outcome (ipout N) := icmp_send_response fuel p ICMP_DUR (dur_code t) ns o.
Definition icmp_time_exceeded (fuel : nat) (p : list seg) (t : icmp_te_type) (ns : netifs) o : outcome (ipout N) := icmp_send_response fuel p ICMP_TE (te_code t) ns o.
End icmp.
