(* ===== verification/IcmpProps.v ===== *)
(** * Pings are answered, errors reported

    The reply to an echo request has the data of the request and valid checksums; errors quote the beginning of the packet. *)

From S2P Require Import Prelude Def Chksum Ip4Addr Route Chain Ip4Hdr Ip4Reass Ip4ReassOk Ip4Frag Ip4FragProps Ip4 Ip4Ok Ip4Props UdpIp Icmp.

(** ** Checksums *)

Lemma ocnorm_valid T : 0 <= T -> ocnorm T = 65535 <-> 0 < T /\ T mod 65535 = 0.
Proof.
  intros HT. unfold ocnorm. destruct (Z.eqb_spec T 0) as [->|Hne]; [split; [done|lia]|].
  split; [intros H; split; [lia|]|intros [_ H]]; zdm.
Qed.

Lemma adjust_arith c : 0 <= c < 65536 -> 0 <= adjust_chksum c < 65536 /\ adjust_chksum c = (if 0xfff7 <? c then c + 8 - 65535 else c + 8).
Proof.
  intros Hc. unfold adjust_chksum. change (lwip_htons (0xffff - Z.shiftl ICMP_ECHO 8)) with 0xfff7.
  change (lwip_htons (u16 (Z.shiftl ICMP_ECHO 8))) with 8. change (lwip_htons (Z.shiftl ICMP_ECHO 8)) with 8.
  split; [destruct (_ <? _); apply u16_range|]. destruct (Z.ltb_spec 0xfff7 c); [|by rewrite u16_small by lia].
  unfold u16. replace (c + 8 + 1) with (c + 8 - 65535 + 1 * 65536) by lia. rewrite Z.mod_add, Z.mod_small; lia.
Qed.

(** Changing the type and the checksum keeps the sum valid. *)
Lemma reply_sum d l : bytes (d ++ l) -> (4 <= length d)%nat -> d !! 0%nat = Some ICMP_ECHO -> ones_complement_sum (d ++ l) = 65535 ->
  ones_complement_sum (reply_msg d ++ l) = 65535.
Proof.
  intros Hb H4 H0 Hs. destruct d as [|t [|code [|c0 [|c1 d]]]]; simpl in H4; try lia. injection H0 as ->. cbn [reply_msg].
  unfold bytes in Hb. cbn [app] in Hb. apply Forall_cons in Hb as [_ [Hcode [Hc0 [Hc1 Hb]%Forall_cons]%Forall_cons]%Forall_cons].
  unfold ones_complement_sum in *. unfold le16_bytes. cbn [app] in *. rewrite !wsum1_pair in *. unfold is_byte in *.
  set (c := le16 c0 c1) in *. assert (0 <= c < 65536) as Hc by (unfold c, le16; lia). destruct (adjust_arith c Hc) as [Hr Hadj].
  assert (le16 (adjust_chksum c mod 256) (adjust_chksum c / 256 mod 256) = adjust_chksum c) as ->.
  { unfold le16. rewrite (Z.mod_small (_ / 256)); [|split; [apply Z.div_pos; lia|apply Z.div_lt_upper_bound; lia]]. pose proof (Z.div_mod (adjust_chksum c) 256 ltac:(lia)). lia. }
  assert (0 <= wsum 1 (d ++ l)) as Hw by (apply wsum_nonneg; [by left|done]).
  unfold le16, ICMP_ER, ICMP_ECHO in *. set (R := wsum 1 (d ++ l)) in *. rewrite Hadj.
  rewrite ocnorm_valid in Hs by lia. destruct Hs as [Hs1 Hs2]. destruct (Z.ltb_spec 0xfff7 c); rewrite ocnorm_valid by lia; split; try lia.
  - zdm.
  - rewrite <- Hs2. f_equal. lia.
Qed.
Lemma reply_msg_length d : length (reply_msg d) = length d.
Proof. by destruct d as [|t [|code [|c0 [|c1 d]]]]. Qed.
Lemma reply_msg_bytes d : bytes d -> bytes (reply_msg d).
Proof.
  intros Hb. destruct d as [|t [|code [|c0 [|c1 d]]]]; try done. unfold bytes in *. rewrite !Forall_cons in Hb. destruct Hb as (_ & Hc & _ & _ & Hb).
  cbn [reply_msg]. apply Forall_cons. split; [done|]. apply Forall_cons. split; [done|]. apply Forall_app. split; [|done].
  repeat constructor; apply Z.mod_pos_bound; lia.
Qed.
Lemma reply_msg_data d : drop 4 (reply_msg d) = drop 4 d /\ ((4 <= length d)%nat -> reply_msg d !! 0%nat = Some ICMP_ER).
Proof. destruct d as [|t [|code [|c0 [|c1 d]]]]; simpl; (split; [done|intros; done || lia]). Qed.

(** ** Headers *)

Lemma get16_range l i : bytes l -> 0 <= get16 l i < 65536.
Proof. intros Hb. unfold get16. pose proof (get8_range l i Hb). pose proof (get8_range l (i + 1) Hb). lia. Qed.
Lemma get_ip_range l i : bytes l -> 0 <= get_ip l i < 2 ^ 32.
Proof.
  intros Hb. unfold get_ip. pose proof (get8_range l i Hb). pose proof (get8_range l (i + 1) Hb). pose proof (get8_range l (i + 2) Hb).
  pose proof (get8_range l (i + 3) Hb). lia.
Qed.
Lemma hdr_of_ok l : bytes l -> hdr_ok (hdr_of l).
Proof.
  intros Hb. split; simpl; try (by apply get8_range); try (by apply get16_range); try (by apply get_ip_range).
  unfold le16. pose proof (get8_range l 10 Hb). pose proof (get8_range l 11 Hb). lia.
Qed.

(** [hdr] is the header of a whole datagram with [n] bytes behind it. *)
Record whole_hdr (hdr : list Z) (n : nat) : Prop := {
  wh_bytes : bytes hdr;
  wh_version : IPH_V (hdr_of hdr) = 4;
  wh_hlen : IP_HLEN <= IPH_HL_BYTES (hdr_of hdr) /\ IPH_HL_BYTES (hdr_of hdr) = Z.of_nat (length hdr);
  wh_len : iph_len (hdr_of hdr) = Z.of_nat (length hdr + n);
  wh_offset : has (iph_offset (hdr_of hdr)) (Z.lor IP_OFFMASK IP_MF) = false }.

(** So it is in a packet that [ip4_input] gives on. *)
Lemma valid_whole_hdr l : bytes l -> valid_ip l -> has (iph_offset (hdr_of l)) (Z.lor IP_OFFMASK IP_MF) = false ->
  whole_hdr (take (Z.to_nat (IPH_HL_BYTES (hdr_of l))) l) (Z.to_nat (iph_len (hdr_of l) - IPH_HL_BYTES (hdr_of l))).
Proof.
  intros Hb [V1 [V2 V2'] V3 _] Ho. unfold IP_HLEN in V2. assert (hdr_of (take (Z.to_nat (IPH_HL_BYTES (hdr_of l))) l) = hdr_of l) as E by (apply hdr_of_take; lia).
  split; rewrite ?E; try done; [by apply bytes_take|rewrite length_take; unfold IP_HLEN; lia|rewrite length_take; lia].
Qed.

(** The header of the reply is valid, and describes as many bytes. *)
Lemma reply_hdr_ok src dest hdr msg n : whole_hdr hdr n -> length msg = n -> 0 <= src < 2 ^ 32 -> 0 <= dest < 2 ^ 32 ->
  exists h opts, reply_hdr src dest hdr = iph_bytes h ++ opts /\ length (reply_hdr src dest hdr) = length hdr /\ hdr_ok h /\ bytes opts /\
    iph_src h = src /\ iph_dest h = dest /\ iph_proto h = iph_proto (hdr_of hdr) /\ iph_id h = iph_id (hdr_of hdr) /\ iph_offset h = iph_offset (hdr_of hdr) /\ describes h opts msg.
Proof.
  intros [W1 W2 [W3 W3'] W4 W5] Hmsg Hsrc Hdst. pose proof (hdr_of_ok hdr W1) as []. pose proof (hl_bytes (hdr_of hdr)) as [_ Hhl60]. unfold IP_HLEN in W3.
  set (opts := drop 20 hdr). assert (length hdr = 20 + length opts)%nat as Hlh by (unfold opts; rewrite length_drop; lia).
  assert (bytes opts) as Hob by (by apply bytes_drop). set (h0 := set_chksum 0 (set_ttl ICMP_TTL (set_addrs src dest (hdr_of hdr)))).
  assert (hdr_ok h0) as Hh0 by (split; try done; simpl; unfold ICMP_TTL; lia). set (c := inet_chksum 0 (iph_bytes h0 ++ opts)).
  assert (0 <= c < 65536) as Hc by apply u16_range. set (h := set_chksum c h0). pose proof (set_chksum_ok c h0 Hh0 Hc) as Hh. fold h in Hh.
  exists h, opts. destruct (iph_bytes_ok h Hh) as [_ Hlen]. assert (reply_hdr src dest hdr = iph_bytes h ++ opts) as E by done.
  split; [done|]. split; [by rewrite E, length_app, Hlen|]. split_and!; try done. unfold describes.
  change (IPH_HL_BYTES h) with (IPH_HL_BYTES (hdr_of hdr)). unfold IP_HLEN. split; [lia|]. split; [done|]. split.
  - change (iph_len h) with (iph_len (hdr_of hdr)). change (IPH_HL_BYTES h) with (IPH_HL_BYTES (hdr_of hdr)). lia.
  - intros pad. apply sent_valid; try done; [lia| |]; change (IPH_HL_BYTES h) with (IPH_HL_BYTES (hdr_of hdr)); unfold IP_HLEN; [lia|].
    change (iph_len h) with (iph_len (hdr_of hdr)). lia.
Qed.

(** ** Sending *)

(** What the calls do to the number of pbufs in use above the interfaces, and the room in front of a new pbuf. *)
Class IcmpLaws (N : Type) `{!FragNet N} `{!FragLaws N} `{!IpLink N} `{!IcmpNet N} := {
  use_alloc_link n k : frag_use (alloc_link n k).2 = frag_use n + (if (alloc_link n k).1 then 1 else 0);
  use_alloc_ip n k : frag_use (alloc_ip n k).2 = frag_use n + (if (alloc_ip n k).1 then 1 else 0);
  room_link n k a r : (alloc_link n k).1 = Some (a, r) -> PBUF_LINK_HLEN <= r;
  room_ip n k a r : (alloc_ip n k).1 = Some (a, r) -> PBUF_LINK_HLEN + IP_HLEN <= r;
  use_icmp_free n k : frag_use (icmp_free n k) = frag_use n - k;
  use_netif_output n i q d : frag_use (netif_output n i q d).2 = frag_use n;
  use_loop_output n i q : frag_use (netif_loop_output n i q).2 = frag_use n }.

Section sending.
  Context {N : Type} `{!FragNet N} `{!FragLaws N} `{!IpLink N} `{!IcmpNet N} `{!IcmpLaws N}.
  Implicit Type o : ipout N.

(** An MTU that [ip4_frag] can work with. *)
Definition mtu_ok (netif : Z) : Prop := netif_mtu netif = 0 \/ 28 <= netif_mtu netif <= 0xffff.

Lemma ip4_send_ok fuel h opts a d rest mcl netif n o : mtu_ok netif -> (IPH_HL_BYTES h = IP_HLEN -> sendable (Packet h (d :: (seg_data <$> rest)))) ->
  (length (chain_data (Seg a d :: rest)) < fuel)%nat ->
  exists err o', ip4_send fuel h opts a d rest mcl netif n o = Ret (err, o') /\ frag_use (onet o') = frag_use (onet o) /\ ip_id o' = ip_id o.
Proof.
  intros Hmtu Hs Hf. unfold ip4_send. set (q := Seg a (iph_bytes h ++ opts ++ d) :: rest). pose proof (use_loop_output (onet o) netif q) as Hl.
  destruct (netif_loop_output (onet o) netif q) as [e1 m1]. simpl in Hl. destruct (_ || _); [by eexists _, _|].
  set (m := if mcl then _ else _). assert (frag_use m = frag_use (onet o)) as Hm by (unfold m; by destruct mcl).
  destruct (_ && _) eqn:E.
  - apply andb_true_iff in E as [E%negb_true_iff%Z.eqb_neq _]. destruct Hmtu as [?|Hmtu]; [done|].
    destruct (decide (IPH_HL_BYTES h = IP_HLEN)) as [Hhl|Hhl].
    + destruct (ip4_frag_cut fuel (netif_mtu netif) _ m Hmtu (Hs Hhl) Hf) as (err & P & all & n' & -> & _ & _ & Hu). cbn [mbind outcome_bind].
      eexists _, _. split; [reflexivity|]. split; [simpl; congruence|done].
    + unfold ip4_frag. cbn [p_hdr]. rewrite (proj2 (Z.eqb_neq _ _) Hhl). cbn [negb mbind outcome_bind]. by eexists _, _.
  - pose proof (use_netif_output m netif q (iph_dest h)) as Ho. destruct (netif_output _ _ _ _) as [e2 m2]. simpl in Ho. eexists _, _. split; [reflexivity|].
    split; [simpl; congruence|done].
Qed.

Lemma not_fragment x : has x (Z.lor IP_OFFMASK IP_MF) = false -> Z.land x IP_OFFMASK = 0 /\ has x IP_MF = false.
Proof. rewrite has_or. intros [H1 H2]%orb_false_iff. split; [|done]. unfold has in H1. by apply negb_false_iff, Z.eqb_eq in H1. Qed.

(** A packet with its header, described by [h], is sent. *)
Lemma ip4_output_hdrincl_ok fuel a h opts d rest mcl netif n o : hdr_ok h -> describes h opts (d ++ chain_data rest) -> iph_len h <= 0xffff -> mtu_ok netif ->
  (length (opts ++ d ++ chain_data rest) < fuel)%nat ->
  ip4_output_hdrincl fuel (Seg a ((iph_bytes h ++ opts) ++ d) :: rest) mcl netif n o = ip4_send fuel h [] a (opts ++ d) rest mcl netif n o /\
  exists err o', ip4_send fuel h [] a (opts ++ d) rest mcl netif n o = Ret (err, o') /\ frag_use (onet o') = frag_use (onet o) /\ ip_id o' = ip_id o.
Proof.
  intros Hh (D1 & D2 & D3 & _) Hmax Hmtu Hf. destruct (iph_bytes_ok h Hh) as [_ Hl]. split.
  - unfold ip4_output_hdrincl. rewrite !length_app, Hl, (proj2 (Z.ltb_ge _ _)) by (unfold IP_HLEN; lia).
    rewrite <- app_assoc, hdr_of_bytes by done. by rewrite drop_app_length'.
  - apply ip4_send_ok; [done| |unfold chain_data in *; simpl; rewrite !length_app in *; lia]. intros Hhl. rewrite Hhl in *. destruct (not_fragment _ D2) as [N1 N2].
    assert (pkt_len (Packet h ((opts ++ d) :: (seg_data <$> rest))) = iph_len h) as E.
    { unfold pkt_len, tot_len, IP_HLEN in *. simpl. rewrite !length_app in *. unfold chain_data in D3. change (seg_data <$> rest) with (map seg_data rest). lia. }
    split; simpl; try done; congruence.
Qed.

Lemma ip4_send_reply h opts a d rest netif n fuel o : iph_dest h <> ip_addr n -> ip4_addr_isloopback (iph_dest h) = false ->
  let q := Seg a (iph_bytes h ++ opts ++ d) :: rest in
  netif_mtu netif = 0 \/ Z.of_nat (length (chain_data q)) <= netif_mtu netif -> Z.of_nat (length (chain_data q)) <= 0xffff ->
  ip4_send fuel h [] a (opts ++ d) rest false netif n o = (let '(err, m) := netif_output (onet o) netif q (iph_dest h) in Ret (err, IpOut (ip_id o) m)).
Proof. intros H1 H2 q Hm Hq. by apply (ip4_send_direct fuel h [] a (opts ++ d) rest netif n o). Qed.

(** ** Echo *)

Definition clen (p : list seg) : Z := Z.of_nat (length p).
Lemma free_packet_use p o : frag_use (onet (free_packet p o)) = frag_use (onet o) - clen p.
Proof. apply use_icmp_free. Qed.

(** What [echo_pbuf] gives has the data of [p], and room for the header. *)
Lemma echo_pbuf_ok hdr room p a d rest o : whole_hdr hdr (length (chain_data p)) -> p = Seg a d :: rest -> chain_ok p ->
  let hlen := Z.of_nat (length hdr) in
  let tot := Z.of_nat (length (chain_data p)) in
  (exists n, echo_pbuf hlen room p o = (None, free_packet p (set_onet n o)) /\ (alloc_link (onet o) (tot + hlen)).1 = None /\ frag_use n = frag_use (onet o)) \/
  exists r a' d' rest' o', echo_pbuf hlen room p o = (Some (r, Seg a' d' :: rest'), o') /\ add_header_ok r tot hlen = true /\
    chain_data (Seg a' d' :: rest') = chain_data p /\ (length d <= length d')%nat /\ chain_ok rest' /\ ip_id o' = ip_id o /\
    frag_use (onet o') - clen (Seg a' d' :: rest') = frag_use (onet o) - clen p.
Proof.
  intros Hw Hp Hok hlen tot. destruct (wh_hlen _ _ Hw) as [Hh1 Hh2]. pose proof (wh_len _ _ Hw) as Hlen. pose proof (ho_len _ (hdr_of_ok hdr (wh_bytes _ _ Hw))) as Hmax.
  unfold IP_HLEN in Hh1. assert (hlen = IPH_HL_BYTES (hdr_of hdr)) as Hhl by (unfold hlen; lia). pose proof (hl_bytes (hdr_of hdr)) as [_ Hhl60].
  unfold echo_pbuf. fold tot. assert (tot + hlen < 65536 /\ 0 <= tot) as [Ht Ht0] by (unfold tot, hlen; lia).
  destruct (add_header_ok room tot (hlen + PBUF_LINK_HLEN)) eqn:E.
  - right. exists room, a, d, rest, o. rewrite Hp at 1. split; [done|]. rewrite add_header_spec in E |- * by (unfold PBUF_LINK_HLEN; lia). unfold PBUF_LINK_HLEN in E.
    apply orb_true_iff in E as [E%Z.eqb_eq|[E1%Z.leb_le E2%Z.leb_le]%andb_true_iff]; [lia|].
    split; [apply orb_true_iff; right; apply andb_true_iff; rewrite !Z.leb_le; lia|]. rewrite <- Hp. split; [done|]. split; [done|]. split; [|done]. rewrite Hp in Hok. by inversion Hok.
  - rewrite u16_small, (proj2 (Z.ltb_ge _ _)) by lia. pose proof (use_alloc_link (onet o) (tot + hlen)) as Hu. pose proof (room_link (onet o) (tot + hlen)) as Hr.
    destruct (alloc_link (onet o) (tot + hlen)) as [[[x r]|] n]; simpl in Hu, Hr.
    + right. eexists _, _, _, _, _. split; [reflexivity|]. specialize (Hr x r eq_refl). unfold PBUF_LINK_HLEN in Hr.
      split; [rewrite add_header_spec by lia; apply orb_true_iff; right; apply andb_true_iff; rewrite !Z.leb_le; lia|].
      split; [unfold chain_data at 1; simpl; by rewrite app_nil_r|]. split; [rewrite Hp; unfold chain_data; simpl; rewrite length_app; lia|]. split; [constructor|]. split; [done|].
      rewrite free_packet_use. unfold clen. simpl. lia.
    + left. exists n. split; [done|]. split; [done|]. lia.
Qed.

Lemma send_reply_ok fuel c hdr room a d rest netif o : whole_hdr hdr (length (chain_data (Seg a d :: rest))) ->
  add_header_ok room (Z.of_nat (length (chain_data (Seg a d :: rest)))) (Z.of_nat (length hdr)) = true -> 0 <= ctx_src c < 2 ^ 32 -> 0 <= ctx_dest c < 2 ^ 32 ->
  mtu_ok netif -> (length hdr + length (chain_data (Seg a d :: rest)) < fuel)%nat ->
  exists h opts e o', hdr_ok h /\ length (iph_bytes h ++ opts) = length hdr /\ describes h opts (reply_msg d ++ chain_data rest) /\
    iph_src h = ctx_dest c /\ iph_dest h = ctx_src c /\ iph_proto h = iph_proto (hdr_of hdr) /\
    ip4_send fuel h [] (a - Z.of_nat (length hdr)) (opts ++ reply_msg d) rest false netif (ctx_inp c) o = Ret (e, o') /\
    send_reply fuel c hdr room (Seg a d :: rest) netif o = Ret (free_packet (Seg a d :: rest) o') /\ frag_use (onet o') = frag_use (onet o) /\ ip_id o' = ip_id o.
Proof.
  intros Hw Hadd Hs Hd Hmtu Hf. destruct (wh_hlen _ _ Hw) as [_ Hhl].
  assert (length (reply_msg d ++ chain_data rest) = length (chain_data (Seg a d :: rest))) as Hml by (unfold chain_data; simpl; by rewrite !length_app, reply_msg_length).
  destruct (reply_hdr_ok (ctx_dest c) (ctx_src c) hdr (reply_msg d ++ chain_data rest) _ Hw Hml Hd Hs) as (h & opts & E & Hl & Hh & Ho & H1 & H2 & H3 & _ & _ & Hdesc).
  assert (length (iph_bytes h ++ opts) = length hdr) as Hl' by (by rewrite <- E). destruct (iph_bytes_ok h Hh) as [_ H20]. rewrite length_app in Hl'.
  destruct (ip4_output_hdrincl_ok fuel (a - Z.of_nat (length hdr)) h opts (reply_msg d) rest false netif (ctx_inp c) o) as (Hout & e & o' & Hsend & Hu & Hid); try done.
  { pose proof (ho_len _ Hh). lia. }
  { rewrite length_app, Hml. lia. }
  exists h, opts, e, o'. split; [done|]. split; [by rewrite length_app|]. split; [exact Hdesc|]. split_and!; try done.
  unfold send_reply. by rewrite Hhl, Hadd, E, Hout, Hsend.
Qed.

Lemma icmp_input_ok fuel c hdr room p netif o : whole_hdr hdr (length (chain_data p)) -> p <> [] -> chain_ok p -> 0 <= ctx_src c < 2 ^ 32 -> 0 <= ctx_dest c < 2 ^ 32 ->
  mtu_ok netif -> (length hdr + length (chain_data p) < fuel)%nat ->
  exists o', icmp_input fuel c hdr room p netif o = Ret o' /\ frag_use (onet o') = frag_use (onet o) - clen p /\ ip_id o' = ip_id o.
Proof.
  intros Hw Hne Hok Hs Hd Hmtu Hf. destruct p as [|[a d] rest]; [done|]. set (p := Seg a d :: rest) in *. unfold icmp_input. cbn match.
  assert (exists o', Ret (free_packet p o) = Ret o' /\ frag_use (onet o') = frag_use (onet o) - clen p /\ ip_id o' = ip_id o) as Hdrop.
  { eexists. split; [reflexivity|]. split; [apply free_packet_use|done]. }
  unfold p at 1. cbn match. destruct (_ <? IP_HLEN); [done|]. destruct (Z.ltb_spec (Z.of_nat (length d)) 4); [done|].
  destruct (lookup_lt_is_Some_2 d 0) as [t Ht]; [lia|]. rewrite Ht. cbn [deref mbind outcome_bind]. destruct (t =? ICMP_ECHO); [|done].
  destruct (ip4_addr_ismulticast _); [done|]. destruct (ip4_addr_isbroadcast _ _); [done|]. destruct (_ <? ICMP_HLEN); [done|]. destruct (negb _); [done|].
  destruct (wh_hlen _ _ Hw) as [_ Hhl]. rewrite Hhl.
  destruct (echo_pbuf_ok hdr room p a d rest o Hw eq_refl Hok) as [(n & -> & _ & Hn)|(r & a' & d' & rest' & o1 & -> & Hadd & Hdata & _ & _ & Hid & Hu)].
  - eexists. split; [reflexivity|]. split; [rewrite free_packet_use; simpl; lia|done].
  - destruct (send_reply_ok fuel c hdr r a' d' rest' netif o1) as (h & opts & e & o2 & _ & _ & _ & _ & _ & _ & _ & -> & Hu2 & Hid2); rewrite ?Hdata; try done.
    eexists. split; [reflexivity|]. split; [rewrite free_packet_use; lia|]. simpl. congruence.
Qed.

(** (any message) [icmp_input] returns for any message behind a valid header, whatever its type and length; the pbufs of the packet and of the copy are given back, and fragmenting the reply does not run on. *)
Theorem icmp_input_safe fuel c hdr room p netif o : whole_hdr hdr (length (chain_data p)) -> p <> [] -> chain_ok p -> 0 <= ctx_src c < 2 ^ 32 -> 0 <= ctx_dest c < 2 ^ 32 ->
  mtu_ok netif -> (length hdr + length (chain_data p) < fuel)%nat ->
  exists o', icmp_input fuel c hdr room p netif o = Ret o' /\ frag_use (onet o') = frag_use (onet o) - clen p /\ ip_id o' = ip_id o.
Proof. apply icmp_input_ok. Qed.

(** [l] is the reply to the request [hdr], [msg]: valid for whoever gets it, with the addresses swapped and the data of the request. *)
Record is_reply (c : ip_ctx) (hdr msg l : list Z) : Prop := {
  ir_valid : forall pad, valid_ip (l ++ pad) /\ take (Z.to_nat (iph_len (hdr_of (l ++ pad)))) (l ++ pad) = l;
  ir_src : iph_src (hdr_of l) = ctx_dest c;
  ir_dest : iph_dest (hdr_of l) = ctx_src c;
  ir_proto : iph_proto (hdr_of l) = iph_proto (hdr_of hdr);
  ir_sum : ones_complement_sum (drop (length hdr) l) = 65535;
  ir_type : drop (length hdr) l !! 0%nat = Some ICMP_ER;
  ir_data : drop (length hdr + 4) l = drop 4 msg }.

(** C23: (ping) an echo request to an address of ours, not a broadcast, with a correct checksum is answered when there is memory: with the data of the request, the addresses swapped, and both checksums
    correct, the one of ICMP by an update of the old one; the options of the request come back too. The pbufs are all given back. *)
Theorem icmp_echo_answered fuel c hdr room a d rest netif o : let p := Seg a d :: rest in
  whole_hdr hdr (length (chain_data p)) -> chain_ok p -> 0 <= ctx_src c < 2 ^ 32 -> 0 <= ctx_dest c < 2 ^ 32 ->
  mtu_ok netif -> (length hdr + length (chain_data p) < fuel)%nat ->
  (4 <= length d)%nat -> ICMP_HLEN <= Z.of_nat (length (chain_data p)) -> d !! 0%nat = Some ICMP_ECHO -> ones_complement_sum (chain_data p) = 65535 ->
  ip4_addr_ismulticast (ctx_dest c) = false -> ip4_addr_isbroadcast (ctx_dest c) (ctx_netif c) = false ->
  ctx_src c <> ip_addr (ctx_inp c) -> ip4_addr_isloopback (ctx_src c) = false ->
  netif_mtu netif = 0 \/ Z.of_nat (length hdr + length (chain_data p)) <= netif_mtu netif ->
  exists o', icmp_input fuel c hdr room p netif o = Ret o' /\ frag_use (onet o') = frag_use (onet o) - clen p /\
    ((alloc_link (onet o) (Z.of_nat (length (chain_data p) + length hdr))).1 = None \/
     exists n q e n' k, netif_output n netif q (ctx_src c) = (e, n') /\ o' = IpOut (ip_id o) (icmp_free n' k) /\ is_reply c hdr (chain_data p) (chain_data q)).
Proof.
  intros p Hw Hok Hs Hd Hmtu Hf H4 H8 H0 Hsum Hmc Hbc Hself Hloop Hfit.
  destruct (icmp_input_ok fuel c hdr room p netif o Hw ltac:(done) Hok Hs Hd Hmtu Hf) as (o' & Hrun & Huse & _). exists o'. split; [done|]. split; [done|].
  unfold icmp_input in Hrun. unfold p in Hrun at 1. cbn match in Hrun. destruct (wh_hlen _ _ Hw) as [Hh1 Hh2]. rewrite (proj2 (Z.ltb_ge _ IP_HLEN)) in Hrun by lia.
  rewrite (proj2 (Z.ltb_ge (Z.of_nat (length d)) 4)), H0, Hmc, Hbc in Hrun by lia. cbn [deref mbind outcome_bind] in Hrun. rewrite Z.eqb_refl in Hrun.
  rewrite (proj2 (Z.ltb_ge _ ICMP_HLEN)), inet_chksum_pbuf_sum, Hsum in Hrun by done. cbn [Z.sub Z.eqb negb] in Hrun. rewrite Hh2 in Hrun.
  destruct (echo_pbuf_ok hdr room p a d rest o Hw eq_refl Hok) as [(n & _ & Hn & _)|(r & a' & d' & rest' & o1 & He & Hadd & Hdata & Hd4 & _ & Hid & _)].
  { left. by rewrite Nat2Z.inj_add. }
  right. rewrite He in Hrun.
  destruct (send_reply_ok fuel c hdr r a' d' rest' netif o1) as (h & opts & e & o2 & Hh & Hl & Hdesc & H1 & H2 & H3 & Hsend & Hrep & _ & Hid2); rewrite ?Hdata; try done.
  rewrite Hrep in Hrun. injection Hrun as <-.
  assert (d' ++ chain_data rest' = chain_data p) as Hdr by done.
  assert (length (reply_msg d' ++ chain_data rest') = length (chain_data p)) as Hml by (by rewrite <- Hdr, !length_app, reply_msg_length).
  set (q := Seg (a' - Z.of_nat (length hdr)) (iph_bytes h ++ opts ++ reply_msg d') :: rest').
  assert (chain_data q = (iph_bytes h ++ opts) ++ reply_msg d' ++ chain_data rest') as Hq.
  { unfold q, chain_data. cbn [map seg_data concat]. by rewrite !app_assoc. }
  pose proof (wh_len _ _ Hw) as Hlen. pose proof (ho_len _ (hdr_of_ok hdr (wh_bytes _ _ Hw))) as Hmax.
  pose proof (ip4_send_reply h opts (a' - Z.of_nat (length hdr)) (reply_msg d') rest' netif (ctx_inp c) fuel o1) as Hdir. cbv zeta in Hdir.
  change (Seg _ (iph_bytes h ++ opts ++ reply_msg d') :: rest') with q in Hdir.
  rewrite Hdir in Hsend; rewrite ?H2; try done; try (rewrite Hq, length_app, Hl, Hml; lia).
  rewrite H2 in Hsend. destruct (netif_output (onet o1) netif q (ctx_src c)) as [e1 n1] eqn:Eout. injection Hsend as <- <-.
  exists (onet o1), q, e1, n1, (clen (Seg a' d' :: rest')). split; [done|]. split; [by unfold free_packet, set_onet; simpl; rewrite Hid|].
  destruct Hdesc as (_ & _ & _ & Hv). rewrite Hq.
  assert (d' !! 0%nat = Some ICMP_ECHO) as H0'.
  { destruct d' as [|x d']; [simpl in Hd4; lia|]. destruct d as [|y d]; [done|]. unfold chain_data in Hdr. simpl in Hdr. injection Hdr as -> _. done. }
  assert (hdr_of ((iph_bytes h ++ opts) ++ reply_msg d' ++ chain_data rest') = h) as Hhdr by (rewrite <- app_assoc; by apply hdr_of_bytes).
  split; rewrite ?Hhdr; try done.
  - intros pad. destruct (Hv pad) as (V0 & V1 & V2). rewrite <- !app_assoc in *. by rewrite V0.
  - rewrite drop_app_length' by done. apply reply_sum; [rewrite Hdr; by apply chain_bytes|lia|done|by rewrite Hdr].
  - rewrite drop_app_length' by done. rewrite lookup_app_l by (rewrite reply_msg_length; lia). apply reply_msg_data. lia.
  - rewrite <- drop_drop, drop_app_length' by done. rewrite drop_app_le by (rewrite reply_msg_length; lia). destruct (reply_msg_data d') as [-> _].
    rewrite <- Hdr, drop_app_le by lia. done.
Qed.

(** ** Errors *)

Ltac bytes_lit := repeat (apply Forall_cons; split; [unfold is_byte; lia|]); apply Forall_nil; done.

Lemma error_msg_ok type code a d : 0 <= type < 256 -> 0 <= code < 256 -> bytes d -> (28 <= length d)%nat ->
  let m := error_msg type code (inet_chksum a (error_msg type code 0 d)) d in
  bytes m /\ length m = 36%nat /\ ones_complement_sum m = 65535 /\ drop 8 m = take 28 d.
Proof.
  intros Ht Hc Hb Hd m. assert (forall x, length (error_msg type code x d) = 36%nat) as Hl by (intros x; unfold error_msg; rewrite !length_app, length_take, Nat.min_l by (unfold IP_HLEN, ICMP_DEST_UNREACH_DATASIZE; lia); done).
  assert (forall x, bytes (error_msg type code x d)) as Hbm.
  { intros x. unfold error_msg. rewrite !bytes_app. split_and!; [bytes_lit|repeat constructor; apply Z.mod_pos_bound; lia|bytes_lit|by apply bytes_take]. }
  split; [apply Hbm|]. split; [apply Hl|]. split; [|done]. unfold m. rewrite inet_chksum_arith by (done || rewrite Hl; lia). unfold error_msg at 1.
  apply sum_complement; [bytes_lit|rewrite bytes_app; split; [bytes_lit|by apply bytes_take]|done|by left].
Qed.

(** [l] reports an error: from [src] to [dest], with the beginning of [d]. *)
Record is_error (src dest type code : Z) (d l : list Z) : Prop := {
  ie_valid : forall pad, valid_ip (l ++ pad) /\ take (Z.to_nat (iph_len (hdr_of (l ++ pad)))) (l ++ pad) = l;
  ie_src : iph_src (hdr_of l) = src;
  ie_dest : iph_dest (hdr_of l) = dest;
  ie_proto : iph_proto (hdr_of l) = IP_PROTO_ICMP;
  ie_sum : ones_complement_sum (drop 20 l) = 65535;
  ie_code : take 2 (drop 20 l) = [type; code];
  ie_quote : drop 28 l = take 28 d }.

(** (error messages) [icmp_send_response] returns for a packet whose first pbuf has its header and eight bytes more, and gives its memory back; with memory, a route to
    the source and an interface that can take it, it sends one valid packet from that interface to the source, whose message has a
    correct checksum and quotes these 28 bytes. *)
Theorem icmp_error_sent fuel x d rest type code ns o : bytes d -> (28 <= length d)%nat -> 0 <= type < 256 -> 0 <= code < 256 -> 0 <= ip_id o < 65536 -> (36 < fuel)%nat ->
  (forall i, ip4_route ns (iph_src (hdr_of d)) = Some i -> mtu_ok i /\ exists n, find_netif i (netif_list ns) = Some n /\ 0 <= ip_addr n < 2 ^ 32) ->
  exists o', icmp_send_response fuel (Seg x d :: rest) type code ns o = Ret o' /\ frag_use (onet o') = frag_use (onet o) /\
    forall i n, ip4_route ns (iph_src (hdr_of d)) = Some i -> find_netif i (netif_list ns) = Some n -> (alloc_ip (onet o) 36).1 <> None ->
      iph_src (hdr_of d) <> ip_addr n -> ip4_addr_isloopback (iph_src (hdr_of d)) = false -> netif_mtu i = 0 \/ 56 <= netif_mtu i ->
      exists m q e m', netif_output m i q (iph_src (hdr_of d)) = (e, m') /\ o' = IpOut (u16 (ip_id o + 1)) (icmp_free m' 1) /\
        is_error (ip_addr n) (iph_src (hdr_of d)) type code d (chain_data q).
Proof.
  intros Hb Hd Ht Hc Hid Hf Hroute. unfold icmp_send_response. change (ICMP_HLEN + IP_HLEN + ICMP_DEST_UNREACH_DATASIZE) with 36.
  pose proof (use_alloc_ip (onet o) 36) as Hu. pose proof (room_ip (onet o) 36) as Hr. destruct (alloc_ip (onet o) 36) as [[[a r]|] m]; simpl in Hu, Hr.
  2:{ eexists. split; [reflexivity|]. split; [simpl; lia|]. by intros i n _ _ []. }
  specialize (Hr a r eq_refl). unfold PBUF_LINK_HLEN, IP_HLEN in Hr. rewrite (proj2 (Z.ltb_ge (Z.of_nat (length d)) _)) by (unfold IP_HLEN, ICMP_DEST_UNREACH_DATASIZE; lia).
  destruct (ip4_route ns _) as [i|]; [|eexists; split; [reflexivity|]; split; [simpl; rewrite use_icmp_free; lia|done]].
  destruct (Hroute i eq_refl) as (Hmtu & n & Hn & Hip). rewrite Hn. cbn [deref mbind outcome_bind].
  set (dst := iph_src (hdr_of d)) in *. assert (0 <= dst < 2 ^ 32) as Hdst by (by apply get_ip_range).
  destruct (error_msg_ok type code a d Ht Hc Hb Hd) as (M1 & M2 & M3 & M4). set (msg := error_msg type code (inet_chksum a (error_msg type code 0 d)) d) in *. assert (take 2 msg = [type; code]) as M5 by done. clearbody msg.
  assert (forall z, chain_data [Seg z msg] = msg) as Hmsg by (intros z; unfold chain_data; simpl; by rewrite app_nil_r).
  unfold ip4_output_if, ip4_output_if_opt. change (ip4_addr_isany_val IPADDR_ANY) with true. cbn match.
  destruct (ip4_output_plain fuel r a msg [] false (ip_addr n) dst ICMP_TTL 0 IP_PROTO_ICMP i n (set_onet m o)) as (h & Hdesc & Hh & H1 & H2 & H3 & Hrun);
    try done; try (rewrite Hmsg, M2; unfold IP_HLEN; lia); try (unfold IP_HLEN; lia). unfold ip4_output_if_src in Hrun. rewrite Hrun. rewrite Hmsg in Hdesc.
  destruct Hdesc as (D1 & D2 & D3 & D4). destruct (not_fragment _ D2) as [N1 N2]. change (IP_HLEN + Z.of_nat (length (@nil Z))) with IP_HLEN in D1. rewrite D1, M2 in D3.
  destruct (ip4_send_ok fuel h [] (a - IP_HLEN) msg [] false i n (IpOut (u16 (ip_id (set_onet m o) + 1)) (onet (set_onet m o)))) as (e & o1 & Hs & Hu1 & Hid1); [done| |by rewrite Hmsg, M2|].
  { intros _. assert (pkt_len (Packet h [msg]) = 56) as E by (unfold pkt_len, tot_len, IP_HLEN; simpl; rewrite app_nil_r, M2; lia).
    split; simpl p_hdr; simpl fmap; rewrite ?E; try done; rewrite D3; done. }
  rewrite Hs. cbn [mbind outcome_bind]. eexists. split; [reflexivity|]. simpl in Hu1, Hid1. split; [simpl; rewrite use_icmp_free; lia|].
  intros i' n' [= <-] Hn' _ Hself Hloop Hfit. rewrite Hn in Hn'. injection Hn' as <-. set (q := [Seg (a - IP_HLEN) (iph_bytes h ++ msg)]).
  assert (chain_data q = iph_bytes h ++ msg) as Hq by (unfold q, chain_data; cbn [map seg_data concat]; by rewrite app_nil_r). destruct (iph_bytes_ok h Hh) as [_ H20].
  rewrite (ip4_send_direct fuel h [] (a - IP_HLEN) msg [] i n) in Hs; rewrite ?H2; try done; change (Seg (a - IP_HLEN) (iph_bytes h ++ [] ++ msg) :: []) with q in *;
    try (rewrite Hq, length_app, H20, M2; lia).
  rewrite H2 in Hs. destruct (netif_output _ i q dst) as [e1 n1] eqn:Eo. injection Hs as <- <-. eexists _, q, e1, n1. split; [exact Eo|]. split; [done|].
  assert (hdr_of (chain_data q) = h) as Hhdr by (rewrite Hq; by apply hdr_of_bytes). split; rewrite ?Hhdr; try done.
  - intros pad. destruct (D4 pad) as (V0 & V1 & V2). rewrite Hq, <- app_assoc. change ([] ++ msg ++ pad) with (msg ++ pad) in *. change ([] ++ msg) with msg in V2. by rewrite V0.
  - rewrite Hq, drop_app_length' by done. done.
  - rewrite Hq, drop_app_length' by done. done.
  - rewrite Hq. change 28%nat with (20 + 8)%nat at 1. rewrite <- drop_drop, drop_app_length' by done. done.
Qed.
(** A shorter packet makes it read behind the first pbuf. *)
Lemma icmp_error_overreads fuel x d rest type code ns o : Z.of_nat (length d) < 28 -> (alloc_ip (onet o) 36).1 <> None ->
  icmp_send_response fuel (Seg x d :: rest) type code ns o = Undef.
Proof.
  intros Hd Ha. unfold icmp_send_response. change (ICMP_HLEN + IP_HLEN + ICMP_DEST_UNREACH_DATASIZE) with 36. destruct (alloc_ip (onet o) 36) as [[[a r]|] m]; [|done].
  by rewrite (proj2 (Z.ltb_lt _ _)) by (unfold IP_HLEN, ICMP_DEST_UNREACH_DATASIZE; lia).
Qed.
End sending.
