(* ===== verification/UdpIpExamples.v ===== *)
(** * Examples of IPv4, of UDP over it and of ICMP *)

From stdpp Require Import gmap.
From S2P Require Import Prelude Def Chksum Ip4Addr Route Chain Ip4Hdr Ip4Reass Ip4ReassOk Ip4Frag Ip4Examples Udp UdpOk UdpProps UdpRound UdpExamples Ip4 Ip4Ok Ip4Props UdpIp Icmp IcmpProps.

(** Nothing is above, no groups are joined. *)
#[export] Instance no_upper : IpUpper Z := {
  igmp_lookfor_group n i a := false; raw_in c p n := (RAW_INPUT_NONE, n); udp_in c h p n := Ret (n - Z.of_nat (length p)); tcp_in c h p n := Ret n; icmp_in c h p n := Ret n;
  igmp_in c h p n := Ret n; proto_unreach p n := Ret n; place c := Seg 0 <$> c }.
#[export] Instance no_place : PlaceLaw Z.
Proof. split. intros c. change (seg_data <$> (Seg 0 <$> c) = c). rewrite <- list_fmap_compose. apply list_fmap_id. Qed.

(** A link that keeps what is sent. *)
#[export] Instance kept_frag : FragNet (list (list seg)) := {
  frag_ram n := (true, n); frag_ref n := (true, n); frag_output n p := n; frag_free n k := n }.
#[export] Instance kept_link : IpLink (list (list seg)) := {
  netif_output n i q d := (ERR_OK, n ++ [q]); netif_loop_output n i q := (ERR_OK, n ++ [q]); netif_mtu i := 1500 }.

Definition host_b : ip Z := Ip (Netifs [(1, eth)] (Some (1, eth)) None) (fun i => i) start.
Definition eth_a : iface := Iface (Netif 0x07 ip_a 0x00ffffff) 0 [] 6.

Definition sent_packet (opts : list Z) : list (list seg) :=
  match ip4_output_if_opt_src 9 100 [Seg 200 [1; 2; 3]; Seg 300 [4]] false ip_a ip_b 64 0 17 1 eth_a opts (IpOut 7 []) with Ret (_, o) => onet o | _ => [] end.
Definition sent_bytes : list Z := concat (chain_data <$> sent_packet []).

Lemma ip4_output_valid_witness : exists h, describes h [148; 4; 0; 0] [1; 2; 3; 4] /\ iph_dest h = ip_b /\
  ip4_output_if_opt_src 9 100 [Seg 200 [1; 2; 3]; Seg 300 [4]] false ip_a ip_b 64 0 17 1 eth_a [148; 4] (IpOut 7 []) =
    ip4_send 9 h [148; 4; 0; 0] (200 - 24) [1; 2; 3] [Seg 300 [4]] false 1 eth_a (IpOut 8 []).
Proof.
  pose proof (ip4_output_valid 9 100 200 [1; 2; 3] [Seg 300 [4]] false ip_a ip_b 64 0 17 1 eth_a [148; 4] (IpOut 7 [])
    ltac:(apply (bool_decide_unpack _); by vm_compute) ltac:(lia) ltac:(by vm_compute) ltac:(lia) ltac:(lia) ltac:(lia) ltac:(simpl; lia) ltac:(by vm_compute) ltac:(by vm_compute)) as H.
  destruct H as (h & H1 & _ & _ & H2 & _ & _ & _ & H3). exists h. split; [exact H1|]. split; [exact H2|]. exact H3.
Defined.

Lemma ip4_input_takes_witness : (exists n, for_netif ip_b (1, eth) n host_b) /\
  exists o s', ip4_receive [Seg 40 (sent_bytes ++ [0; 0])] (1, eth) host_b = Ret (o, s') /\ exists n q, for_netif ip_b (1, eth) n host_b /\
    chain_data q = sent_bytes /\ o = Some (Ctx n.2 eth 1 ip_a ip_b, 20, q).
Proof.
  assert (for_netif ip_b (1, eth) (1, eth) host_b) as Hn by (split; [done|by left]). split; [by exists (1, eth)|].
  destruct (ip4_input_takes 40 (sent_bytes ++ [0; 0]) [] (1, eth) host_b) as (o & s' & Hrun & _ & H); [by apply (bool_decide_unpack _); vm_compute|by apply (bool_decide_unpack _); vm_compute|exact start_ok|].
  exists o, s'. split; [exact Hrun|]. destruct H as (n & q & H1 & H2 & H3).
  { split; [|split; [by vm_compute|split; [left; split; by vm_compute|by exists (1, eth)]]]. split; [by vm_compute|split; vm_compute; congruence|vm_compute; congruence|by vm_compute]. }
  change (has _ _) with false in H3. destruct H3 as [_ H3]. exists n, q. split; [exact H1|]. split; [rewrite H2; by vm_compute|]. rewrite H3. done.
Defined.

(** A packet, two fragments, and a packet of nothing but a version. *)
Definition frag_bytes (i : nat) : list Z := iph_bytes (p_hdr (piece i)) ++ concat (p_body (piece i)).
Definition traffic : list (list seg * (Z * iface)) :=
  (fun l => ([Seg 40 l], (1, eth))) <$> [sent_bytes; frag_bytes 2; frag_bytes 0; [0x45; 0; 0; 20]; frag_bytes 1].
Lemma ip4_input_safe_witness : exists s', inputs traffic host_b = Ret s' /\ reass_ok (ireass s').
Proof.
  apply (ip4_input_safe traffic host_b); [by split; intros; split_and?; eexists| |exact start_ok].
  repeat (constructor; [split; [by apply (bool_decide_unpack _); vm_compute|eexists _, _, _; split; [reflexivity|by apply (bool_decide_unpack _); vm_compute]]|]). constructor.
Defined.

Lemma inline_chksum_inet_witness : inline_chksum 0x46 0 28 7 64 2 ip_a ip_b [148; 4; 0; 0] =
  inet_chksum 0 (iph_bytes (IpHdr 0x46 0 28 7 0 64 2 0 ip_a ip_b) ++ [148; 4; 0; 0]).
Proof. apply (inline_chksum_inet 0x46 0 28 7 64 2 ip_a ip_b [148; 4; 0; 0]); try (by vm_compute); try done; [apply (bool_decide_unpack _); by vm_compute|simpl; lia]. Defined.

(** The datagram of [hello] goes to port 7 of the second host. *)
Definition from_sock : udp_pcb := sock 0 9 0 0 0 0.
Lemma udp_over_ip_witness : exists q c q' z v w',
  ip4_output_if_src 9 100 (d_segs (udp_build from_sock (fun h => put_hdr h [Seg 203 [104; 105; 33]]) ip_b 7 ip_a 1)) false ip_a ip_b 255 0 17 1 eth_a (IpOut 7 []) =
    Ret (ERR_OK, IpOut 8 [q]) /\
  ip4_receive [Seg 40 (chain_data q ++ [0; 0; 0])] (1, eth) host_b = Ret (Some (c, 20, q'), host_b) /\
  udp_input c (remove_hdr 20 q') receiver = Ret (Delivered z v ip_a 9, w') /\ chain_data v = [104; 105; 33].
Proof.
  destruct (udp_over_ip (N := list (list seg)) (M := Z) (W := list datagram_out) 9 100 203 [104; 105; 33] [] from_sock ip_b 7 ip_a 1 eth_a (IpOut 7 [])) as (q & H1 & H2);
    [by apply (bool_decide_unpack _); vm_compute|by vm_compute|by vm_compute|by vm_compute|by vm_compute|by vm_compute|by vm_compute|by vm_compute|by vm_compute|by vm_compute|
     by vm_compute|by vm_compute|by vm_compute|right; by vm_compute|].
  assert (chain_ok [Seg 40 (chain_data q ++ [0; 0; 0])] /\ 28 <= Z.of_nat (length (chain_data q ++ [0; 0; 0]))) as [Hq1 Hq2].
  { vm_compute in H1. injection H1 as <-. split; [by apply (bool_decide_unpack _); vm_compute|by vm_compute]. }
  assert (for_netif ip_b (1, eth) (1, eth) host_b) as Hn by (split; [done|by left]).
  destruct (H2 host_b (1, eth) (1, eth) 40 (chain_data q ++ [0; 0; 0]) [] [0; 0; 0] start_ok Hq1) as (m & q' & H3 & _ & Hm & H4);
    [unfold chain_data at 1; simpl; by rewrite app_nil_r|exact Hq2|exact Hn|left; by vm_compute|].
  assert (m = (1, eth)) as ->. { destruct Hm as [_ [->|[Hm _]]]; [done|by vm_compute in Hm]. }
  assert (forall z k, pcbs receiver !! z = Some k -> recv k = true) as Hrecv.
  { intros z k Hk%elem_of_list_to_map_2. rewrite !elem_of_cons, elem_of_nil in Hk. destruct Hk as [[= -> ->]|[[= -> ->]|[]]]; done. }
  destruct (H4 receiver receiver_ok) as (z & v & w' & H5 & H6 & _).
  { intros Hnb. destruct (Hnb 1 (sock 0 7 0 0 0 4)) as [Hx _]; [left|done|by vm_compute in Hx]. }
  { intros z k Hc. apply (Hrecv z). destruct Hc as [l1 l2 _ Hk _ _|_ (_ & Hk & _)]; exact Hk. }
  exists q, (Ctx eth eth 1 ip_a ip_b), q', z, v, w'. split; [exact H1|]. split; [exact H3|]. split; [exact H5|exact H6].
Defined.

(** The number of pbufs in use, and the packets sent. *)
Definition net : Type := Z * list (list seg).
#[export] Instance net_frag : FragNet net := {
  frag_ram n := (true, (n.1 + 1, n.2)); frag_ref n := (true, (n.1 + 1, n.2)); frag_output n p := n; frag_free n k := (n.1 - 1 - Z.of_nat k, n.2) }.
#[export] Instance net_frag_laws : FragLaws net := {
  frag_use n := n.1; use_ram n := eq_refl; use_ref n := eq_refl; use_out n p := eq_refl; use_frag_free n k := eq_refl }.
#[export] Instance net_link : IpLink net := {
  netif_output n i q d := (ERR_OK, (n.1, n.2 ++ [q])); netif_loop_output n i q := (ERR_OK, n); netif_mtu i := 1500 }.
#[export] Instance net_icmp : IcmpNet net := {
  alloc_link n k := (Some (1000, 16), (n.1 + 1, n.2)); alloc_ip n k := (Some (2000, 36), (n.1 + 1, n.2)); icmp_free n k := (n.1 - k, n.2) }.
#[export] Instance net_laws : IcmpLaws net.
Proof. by split; try done; intros n k a r [= <- <-]. Qed.

(** A ping from [ip_a] to [ip_b]. *)
Definition ping_msg : list Z := [8; 0] ++ le16_bytes (inet_chksum 0 [8; 0; 0; 0; 1; 2; 3; 4; 97; 98; 99]) ++ [1; 2; 3; 4; 97; 98; 99].
Definition ping_hdr : list Z := iph_bytes (with_chksum (IpHdr 0x45 0 31 9 0 64 1 0 ip_a ip_b)).
Definition ping : list seg := [Seg 40 (take 9 ping_msg); Seg 80 (drop 9 ping_msg)].
Definition at_b : ip_ctx := Ctx eth eth 1 ip_a ip_b.
Definition out0 : ipout net := IpOut 7 (2, []).
Lemma ping_whole : whole_hdr ping_hdr (length (chain_data ping)).
Proof. split; [apply (bool_decide_unpack _); by vm_compute|by vm_compute|split; vm_compute; congruence|by vm_compute|by vm_compute]. Qed.
Lemma ping_ok : chain_ok ping.
Proof. apply (bool_decide_unpack _). by vm_compute. Qed.

Lemma icmp_input_safe_witness : exists o', icmp_input 100 at_b ping_hdr 0 ping 1 out0 = Ret o' /\ frag_use (onet o') = frag_use (onet out0) - clen ping /\ ip_id o' = ip_id out0.
Proof.
  apply (icmp_input_safe 100 at_b ping_hdr 0 ping 1 out0 ping_whole); [done|exact ping_ok|by vm_compute|by vm_compute|right; by vm_compute|].
  apply (bool_decide_unpack _). by vm_compute.
Defined.

Lemma icmp_echo_answered_witness : exists o', icmp_input 100 at_b ping_hdr 0 ping 1 out0 = Ret o' /\ frag_use (onet o') = frag_use (onet out0) - clen ping /\
  exists n q e n' k, netif_output n 1 q ip_a = (e, n') /\ o' = IpOut 7 (icmp_free n' k) /\ is_reply at_b ping_hdr ping_msg (chain_data q).
Proof.
  destruct (icmp_echo_answered 100 at_b ping_hdr 0 40 (take 9 ping_msg) [Seg 80 (drop 9 ping_msg)] 1 out0 ping_whole ping_ok) as (o' & H1 & H2 & H3);
    [by vm_compute|by vm_compute|right; by vm_compute|by apply (bool_decide_unpack _); vm_compute|by apply (bool_decide_unpack _); vm_compute|by vm_compute|by vm_compute|by vm_compute|
     by vm_compute|by vm_compute|by vm_compute|by vm_compute|right; by vm_compute|].
  exists o'. split; [exact H1|]. split; [exact H2|]. destruct H3 as [H3|H3]; [by vm_compute in H3|exact H3].
Defined.
(** With room in front of it the request itself becomes the reply. *)
Lemma ping_in_place : match icmp_input 100 at_b ping_hdr 40 ping 1 out0 with
  | Ret o => o = IpOut 7 (0, [[Seg 20 (reply_hdr ip_b ip_a ping_hdr ++ reply_msg (take 9 ping_msg)); Seg 80 (drop 9 ping_msg)]])
  | _ => False
  end.
Proof. by vm_compute. Qed.

Definition routes : netifs := Netifs [(1, eth)] (Some (1, eth)) None.
Definition refused : list Z := ping_hdr ++ [1; 2; 3; 4; 5; 6; 7; 8].
Lemma icmp_error_sent_witness : exists o', icmp_send_response 100 [Seg 60 refused] ICMP_DUR 2 routes out0 = Ret o' /\ frag_use (onet o') = 2 /\
  exists m q e m', netif_output m 1 q ip_a = (e, m') /\ o' = IpOut 8 (icmp_free m' 1) /\ is_error ip_b ip_a ICMP_DUR 2 refused (chain_data q).
Proof.
  destruct (icmp_error_sent 100 60 refused [] ICMP_DUR 2 routes out0) as (o' & H1 & H2 & H3);
    [by apply (bool_decide_unpack _); vm_compute|by apply (bool_decide_unpack _); vm_compute|done|done|by vm_compute|by apply (bool_decide_unpack _); vm_compute| |].
  - intros i Hi. vm_compute in Hi. injection Hi as <-. split; [right; by vm_compute|]. exists eth. split; by vm_compute.
  - exists o'. split; [exact H1|]. split; [exact H2|]. apply (H3 1 eth); try by vm_compute. right. by vm_compute.
Defined.
