(* ===== verification/Tcp.v ===== *)
(** * TCP: control blocks, segments, sequence numbers ([tcp.c], [tcp_out.c], [tcp_priv.h])

    The data of a connection and the operations that the input path
    ([TcpRecv], [TcpAck], [TcpProcess]) is made of: sequence-number comparison, the
    receive window, the segment pool, empty acknowledgements, retransmission.

    The configuration of the build: no SACK, no timestamps, no window scaling
    ([tcpwnd_size_t] is [u16_t]), [TCP_OVERSIZE] 0, out-of-sequence queueing
    without limits.

    A packet is the chain of the payloads of its pbufs ([Chain]). The pool of segments ([MEMP_TCP_SEG]) is the number
    of free elements: [Memp.pool_clients_safe] shows that allocation fails
    exactly when there is none. What is below TCP (the allocation of a header, routing and
    [ip_output_if]) is the class [TcpNet]. *)

From S2P Require Import Prelude Def Chain.

(** ** Sequence numbers *)
Definition s32 (x : Z) : Z := let y := u32 x in if y <? 2 ^ 31 then y else y - 2 ^ 32.
Definition s16 (x : Z) : Z := let y := u16 x in if y <? 2 ^ 15 then y else y - 2 ^ 16.
Definition TCP_SEQ_LT (a b : Z) : bool := s32 (a - b) <? 0.
Definition TCP_SEQ_LEQ (a b : Z) : bool := s32 (a - b) <=? 0.
Definition TCP_SEQ_GT (a b : Z) : bool := 0 <? s32 (a - b).
Definition TCP_SEQ_GEQ (a b : Z) : bool := 0 <=? s32 (a - b).
Definition TCP_SEQ_BETWEEN (a b c : Z) : bool := TCP_SEQ_GEQ a b && TCP_SEQ_LEQ a c.

(** ** Constants *)
Definition TCP_FIN : Z := 0x01.
Definition TCP_SYN : Z := 0x02.
Definition TCP_RST : Z := 0x04.
Definition TCP_PSH : Z := 0x08.
Definition TCP_ACK : Z := 0x10.
Definition TCP_MSS : Z := 1000.
Definition TCP_WND : Z := 4 * TCP_MSS.
Definition TCP_WND_UPDATE_THRESHOLD : Z := Z.min (TCP_WND / 4) (TCP_MSS * 4).
Definition TCP_SYNMAXRTX : Z := 6.
Definition TF_ACK_DELAY : Z := 0x01.
Definition TF_ACK_NOW : Z := 0x02.
Definition TF_INFR : Z := 0x04.
Definition TF_RXCLOSED : Z := 0x10.
Definition TF_RTO : Z := 0x0800.
Definition TF_RESET : Z := 0x08.
Definition TF_CLOSED : Z := 0x10.
Definition TF_GOT_FIN : Z := 0x20.

(** ** Control blocks *)
Inductive tcp_state : Set :=
| CLOSED | LISTEN | SYN_SENT | SYN_RCVD | ESTABLISHED | FIN_WAIT_1 | FIN_WAIT_2
| CLOSE_WAIT | CLOSING | LAST_ACK | TIME_WAIT.
#[global] Instance tcp_state_eq_dec : EqDecision tcp_state.
Proof. solve_decision. Defined.
(** The value of the enumeration constant. *)
Definition state_num (s : tcp_state) : Z :=
  match s with
  | CLOSED => 0 | LISTEN => 1 | SYN_SENT => 2 | SYN_RCVD => 3 | ESTABLISHED => 4 | FIN_WAIT_1 => 5
  | FIN_WAIT_2 => 6 | CLOSE_WAIT => 7 | CLOSING => 8 | LAST_ACK => 9 | TIME_WAIT => 10
  end.

(** [struct tcp_seg]: the sequence number (host order) and the flags of its TCP
    header, [len], the data, and whether the driver still holds the first
    pbuf ([p->ref != 1]). [seg_busy] is set by what the link says when the segment is
    sent; a driver that gives the pbuf back later, between two calls, is not modelled. *)
Record tcp_seg := Seg {
  seg_seqno : Z; seg_len : Z; seg_flags : Z; seg_p : chain; seg_busy : bool; seg_mss : bool }.
Definition set_seg_len (v : Z) (s : tcp_seg) : tcp_seg :=
  Seg (seg_seqno s) v (seg_flags s) (seg_p s) (seg_busy s) (seg_mss s).
Definition set_seg_flags (v : Z) (s : tcp_seg) : tcp_seg :=
  Seg (seg_seqno s) (seg_len s) v (seg_p s) (seg_busy s) (seg_mss s).
Definition set_seg_p (v : chain) (s : tcp_seg) : tcp_seg :=
  Seg (seg_seqno s) (seg_len s) (seg_flags s) v (seg_busy s) (seg_mss s).

(** [TCP_TCPLEN], of a length and header flags, and of a segment. *)
Definition tcp_len (len fl : Z) : Z := len + (if has fl (Z.lor TCP_FIN TCP_SYN) then 1 else 0).
Definition TCP_TCPLEN (s : tcp_seg) : Z := tcp_len (seg_len s) (seg_flags s).

(** The variables of [struct tcp_pcb], grouped: receiver, sender, congestion
    control, timers and round-trip times. *)
Record receiver := Receiver {
  rcv_nxt : Z; rcv_wnd : Z; rcv_ann_wnd : Z; rcv_ann_right_edge : Z; ooseq : list tcp_seg }.
Record sender := Sender {
  snd_nxt : Z; snd_wl1 : Z; snd_wl2 : Z; snd_lbb : Z; snd_wnd : Z; snd_wnd_max : Z; snd_buf : Z; snd_queuelen
    : Z; lastack : Z; unsent : list tcp_seg; unacked : list tcp_seg }.
Record congestion := Congestion {
  cwnd : Z; ssthresh : Z; bytes_acked : Z; dupacks : Z }.
Record timing := Timing {
  rtime : Z; rttest : Z; rtseq : Z; sa : Z; sv : Z; rto : Z; nrtx : Z; rto_end : Z; polltmr : Z; tmr : Z;
    keep_cnt_sent : Z; persist_probe : Z; persist_cnt : Z; persist_backoff : Z; pollinterval : Z; keep_idle :
    Z; keepalive : bool }.
(** [struct tcp_pcb] without the callbacks, the keepalive settings and the
    per-worker state. *)
Record tcp_pcb := Pcb {
  state : tcp_state; flags : Z; mss : Z; local_ip : Z; local_port : Z; remote_ip : Z; remote_port : Z;
    is_bypass : bool; refused_data : option chain; rcv : receiver; snd : sender; cng : congestion; tim :
    timing }.

Definition set_state (v : tcp_state) (p : tcp_pcb) : tcp_pcb :=
  Pcb v (flags p) (mss p) (local_ip p) (local_port p) (remote_ip p) (remote_port p) (is_bypass p)
    (refused_data p) (rcv p) (snd p) (cng p) (tim p).
Definition set_flags (v : Z) (p : tcp_pcb) : tcp_pcb :=
  Pcb (state p) v (mss p) (local_ip p) (local_port p) (remote_ip p) (remote_port p) (is_bypass p)
    (refused_data p) (rcv p) (snd p) (cng p) (tim p).
Definition set_mss (v : Z) (p : tcp_pcb) : tcp_pcb :=
  Pcb (state p) (flags p) v (local_ip p) (local_port p) (remote_ip p) (remote_port p) (is_bypass p)
    (refused_data p) (rcv p) (snd p) (cng p) (tim p).
Definition set_local_ip (v : Z) (p : tcp_pcb) : tcp_pcb :=
  Pcb (state p) (flags p) (mss p) v (local_port p) (remote_ip p) (remote_port p) (is_bypass p) (refused_data
    p) (rcv p) (snd p) (cng p) (tim p).
Definition set_local_port (v : Z) (p : tcp_pcb) : tcp_pcb :=
  Pcb (state p) (flags p) (mss p) (local_ip p) v (remote_ip p) (remote_port p) (is_bypass p) (refused_data p)
    (rcv p) (snd p) (cng p) (tim p).
Definition set_remote_ip (v : Z) (p : tcp_pcb) : tcp_pcb :=
  Pcb (state p) (flags p) (mss p) (local_ip p) (local_port p) v (remote_port p) (is_bypass p) (refused_data p)
    (rcv p) (snd p) (cng p) (tim p).
Definition set_remote_port (v : Z) (p : tcp_pcb) : tcp_pcb :=
  Pcb (state p) (flags p) (mss p) (local_ip p) (local_port p) (remote_ip p) v (is_bypass p) (refused_data p)
    (rcv p) (snd p) (cng p) (tim p).
Definition set_is_bypass (v : bool) (p : tcp_pcb) : tcp_pcb :=
  Pcb (state p) (flags p) (mss p) (local_ip p) (local_port p) (remote_ip p) (remote_port p) v (refused_data p)
    (rcv p) (snd p) (cng p) (tim p).
Definition set_refused_data (v : option chain) (p : tcp_pcb) : tcp_pcb :=
  Pcb (state p) (flags p) (mss p) (local_ip p) (local_port p) (remote_ip p) (remote_port p) (is_bypass p) v
    (rcv p) (snd p) (cng p) (tim p).
Definition set_rcv (v : receiver) (p : tcp_pcb) : tcp_pcb :=
  Pcb (state p) (flags p) (mss p) (local_ip p) (local_port p) (remote_ip p) (remote_port p) (is_bypass p)
    (refused_data p) v (snd p) (cng p) (tim p).
Definition set_snd (v : sender) (p : tcp_pcb) : tcp_pcb :=
  Pcb (state p) (flags p) (mss p) (local_ip p) (local_port p) (remote_ip p) (remote_port p) (is_bypass p)
    (refused_data p) (rcv p) v (cng p) (tim p).
Definition set_cng (v : congestion) (p : tcp_pcb) : tcp_pcb :=
  Pcb (state p) (flags p) (mss p) (local_ip p) (local_port p) (remote_ip p) (remote_port p) (is_bypass p)
    (refused_data p) (rcv p) (snd p) v (tim p).
Definition set_tim (v : timing) (p : tcp_pcb) : tcp_pcb :=
  Pcb (state p) (flags p) (mss p) (local_ip p) (local_port p) (remote_ip p) (remote_port p) (is_bypass p)
    (refused_data p) (rcv p) (snd p) (cng p) v.
Definition set_rcv_nxt (v : Z) (p : tcp_pcb) : tcp_pcb :=
  let r := rcv p in set_rcv (Receiver v (rcv_wnd r) (rcv_ann_wnd r) (rcv_ann_right_edge r) (ooseq r)) p.
Definition set_rcv_wnd (v : Z) (p : tcp_pcb) : tcp_pcb :=
  let r := rcv p in set_rcv (Receiver (rcv_nxt r) v (rcv_ann_wnd r) (rcv_ann_right_edge r) (ooseq r)) p.
Definition set_rcv_ann_wnd (v : Z) (p : tcp_pcb) : tcp_pcb :=
  let r := rcv p in set_rcv (Receiver (rcv_nxt r) (rcv_wnd r) v (rcv_ann_right_edge r) (ooseq r)) p.
Definition set_rcv_ann_right_edge (v : Z) (p : tcp_pcb) : tcp_pcb :=
  let r := rcv p in set_rcv (Receiver (rcv_nxt r) (rcv_wnd r) (rcv_ann_wnd r) v (ooseq r)) p.
Definition set_ooseq (v : list tcp_seg) (p : tcp_pcb) : tcp_pcb :=
  let r := rcv p in set_rcv (Receiver (rcv_nxt r) (rcv_wnd r) (rcv_ann_wnd r) (rcv_ann_right_edge r) v) p.
Definition set_snd_nxt (v : Z) (p : tcp_pcb) : tcp_pcb :=
  let r := snd p in set_snd (Sender v (snd_wl1 r) (snd_wl2 r) (snd_lbb r) (snd_wnd r) (snd_wnd_max r) (snd_buf
    r) (snd_queuelen r) (lastack r) (unsent r) (unacked r)) p.
Definition set_snd_wl1 (v : Z) (p : tcp_pcb) : tcp_pcb :=
  let r := snd p in set_snd (Sender (snd_nxt r) v (snd_wl2 r) (snd_lbb r) (snd_wnd r) (snd_wnd_max r) (snd_buf
    r) (snd_queuelen r) (lastack r) (unsent r) (unacked r)) p.
Definition set_snd_wl2 (v : Z) (p : tcp_pcb) : tcp_pcb :=
  let r := snd p in set_snd (Sender (snd_nxt r) (snd_wl1 r) v (snd_lbb r) (snd_wnd r) (snd_wnd_max r) (snd_buf
    r) (snd_queuelen r) (lastack r) (unsent r) (unacked r)) p.
Definition set_snd_lbb (v : Z) (p : tcp_pcb) : tcp_pcb :=
  let r := snd p in set_snd (Sender (snd_nxt r) (snd_wl1 r) (snd_wl2 r) v (snd_wnd r) (snd_wnd_max r) (snd_buf
    r) (snd_queuelen r) (lastack r) (unsent r) (unacked r)) p.
Definition set_snd_wnd (v : Z) (p : tcp_pcb) : tcp_pcb :=
  let r := snd p in set_snd (Sender (snd_nxt r) (snd_wl1 r) (snd_wl2 r) (snd_lbb r) v (snd_wnd_max r) (snd_buf
    r) (snd_queuelen r) (lastack r) (unsent r) (unacked r)) p.
Definition set_snd_wnd_max (v : Z) (p : tcp_pcb) : tcp_pcb :=
  let r := snd p in set_snd (Sender (snd_nxt r) (snd_wl1 r) (snd_wl2 r) (snd_lbb r) (snd_wnd r) v (snd_buf r)
    (snd_queuelen r) (lastack r) (unsent r) (unacked r)) p.
Definition set_snd_buf (v : Z) (p : tcp_pcb) : tcp_pcb :=
  let r := snd p in set_snd (Sender (snd_nxt r) (snd_wl1 r) (snd_wl2 r) (snd_lbb r) (snd_wnd r) (snd_wnd_max
    r) v (snd_queuelen r) (lastack r) (unsent r) (unacked r)) p.
Definition set_snd_queuelen (v : Z) (p : tcp_pcb) : tcp_pcb :=
  let r := snd p in set_snd (Sender (snd_nxt r) (snd_wl1 r) (snd_wl2 r) (snd_lbb r) (snd_wnd r) (snd_wnd_max
    r) (snd_buf r) v (lastack r) (unsent r) (unacked r)) p.
Definition set_lastack (v : Z) (p : tcp_pcb) : tcp_pcb :=
  let r := snd p in set_snd (Sender (snd_nxt r) (snd_wl1 r) (snd_wl2 r) (snd_lbb r) (snd_wnd r) (snd_wnd_max
    r) (snd_buf r) (snd_queuelen r) v (unsent r) (unacked r)) p.
Definition set_unsent (v : list tcp_seg) (p : tcp_pcb) : tcp_pcb :=
  let r := snd p in set_snd (Sender (snd_nxt r) (snd_wl1 r) (snd_wl2 r) (snd_lbb r) (snd_wnd r) (snd_wnd_max
    r) (snd_buf r) (snd_queuelen r) (lastack r) v (unacked r)) p.
Definition set_unacked (v : list tcp_seg) (p : tcp_pcb) : tcp_pcb :=
  let r := snd p in set_snd (Sender (snd_nxt r) (snd_wl1 r) (snd_wl2 r) (snd_lbb r) (snd_wnd r) (snd_wnd_max
    r) (snd_buf r) (snd_queuelen r) (lastack r) (unsent r) v) p.
Definition set_cwnd (v : Z) (p : tcp_pcb) : tcp_pcb :=
  let r := cng p in set_cng (Congestion v (ssthresh r) (bytes_acked r) (dupacks r)) p.
Definition set_ssthresh (v : Z) (p : tcp_pcb) : tcp_pcb :=
  let r := cng p in set_cng (Congestion (cwnd r) v (bytes_acked r) (dupacks r)) p.
Definition set_bytes_acked (v : Z) (p : tcp_pcb) : tcp_pcb :=
  let r := cng p in set_cng (Congestion (cwnd r) (ssthresh r) v (dupacks r)) p.
Definition set_dupacks (v : Z) (p : tcp_pcb) : tcp_pcb :=
  let r := cng p in set_cng (Congestion (cwnd r) (ssthresh r) (bytes_acked r) v) p.
Definition set_rtime (v : Z) (p : tcp_pcb) : tcp_pcb :=
  let r := tim p in set_tim (Timing v (rttest r) (rtseq r) (sa r) (sv r) (rto r) (nrtx r) (rto_end r) (polltmr
    r) (tmr r) (keep_cnt_sent r) (persist_probe r) (persist_cnt r) (persist_backoff r) (pollinterval r)
    (keep_idle r) (keepalive r)) p.
Definition set_rttest (v : Z) (p : tcp_pcb) : tcp_pcb :=
  let r := tim p in set_tim (Timing (rtime r) v (rtseq r) (sa r) (sv r) (rto r) (nrtx r) (rto_end r) (polltmr
    r) (tmr r) (keep_cnt_sent r) (persist_probe r) (persist_cnt r) (persist_backoff r) (pollinterval r)
    (keep_idle r) (keepalive r)) p.
Definition set_rtseq (v : Z) (p : tcp_pcb) : tcp_pcb :=
  let r := tim p in set_tim (Timing (rtime r) (rttest r) v (sa r) (sv r) (rto r) (nrtx r) (rto_end r) (polltmr
    r) (tmr r) (keep_cnt_sent r) (persist_probe r) (persist_cnt r) (persist_backoff r) (pollinterval r)
    (keep_idle r) (keepalive r)) p.
Definition set_sa (v : Z) (p : tcp_pcb) : tcp_pcb :=
  let r := tim p in set_tim (Timing (rtime r) (rttest r) (rtseq r) v (sv r) (rto r) (nrtx r) (rto_end r)
    (polltmr r) (tmr r) (keep_cnt_sent r) (persist_probe r) (persist_cnt r) (persist_backoff r) (pollinterval
    r) (keep_idle r) (keepalive r)) p.
Definition set_sv (v : Z) (p : tcp_pcb) : tcp_pcb :=
  let r := tim p in set_tim (Timing (rtime r) (rttest r) (rtseq r) (sa r) v (rto r) (nrtx r) (rto_end r)
    (polltmr r) (tmr r) (keep_cnt_sent r) (persist_probe r) (persist_cnt r) (persist_backoff r) (pollinterval
    r) (keep_idle r) (keepalive r)) p.
Definition set_rto (v : Z) (p : tcp_pcb) : tcp_pcb :=
  let r := tim p in set_tim (Timing (rtime r) (rttest r) (rtseq r) (sa r) (sv r) v (nrtx r) (rto_end r)
    (polltmr r) (tmr r) (keep_cnt_sent r) (persist_probe r) (persist_cnt r) (persist_backoff r) (pollinterval
    r) (keep_idle r) (keepalive r)) p.
Definition set_nrtx (v : Z) (p : tcp_pcb) : tcp_pcb :=
  let r := tim p in set_tim (Timing (rtime r) (rttest r) (rtseq r) (sa r) (sv r) (rto r) v (rto_end r)
    (polltmr r) (tmr r) (keep_cnt_sent r) (persist_probe r) (persist_cnt r) (persist_backoff r) (pollinterval
    r) (keep_idle r) (keepalive r)) p.
Definition set_rto_end (v : Z) (p : tcp_pcb) : tcp_pcb :=
  let r := tim p in set_tim (Timing (rtime r) (rttest r) (rtseq r) (sa r) (sv r) (rto r) (nrtx r) v (polltmr
    r) (tmr r) (keep_cnt_sent r) (persist_probe r) (persist_cnt r) (persist_backoff r) (pollinterval r)
    (keep_idle r) (keepalive r)) p.
Definition set_polltmr (v : Z) (p : tcp_pcb) : tcp_pcb :=
  let r := tim p in set_tim (Timing (rtime r) (rttest r) (rtseq r) (sa r) (sv r) (rto r) (nrtx r) (rto_end r)
    v (tmr r) (keep_cnt_sent r) (persist_probe r) (persist_cnt r) (persist_backoff r) (pollinterval r)
    (keep_idle r) (keepalive r)) p.
Definition set_tmr (v : Z) (p : tcp_pcb) : tcp_pcb :=
  let r := tim p in set_tim (Timing (rtime r) (rttest r) (rtseq r) (sa r) (sv r) (rto r) (nrtx r) (rto_end r)
    (polltmr r) v (keep_cnt_sent r) (persist_probe r) (persist_cnt r) (persist_backoff r) (pollinterval r)
    (keep_idle r) (keepalive r)) p.
Definition set_keep_cnt_sent (v : Z) (p : tcp_pcb) : tcp_pcb :=
  let r := tim p in set_tim (Timing (rtime r) (rttest r) (rtseq r) (sa r) (sv r) (rto r) (nrtx r) (rto_end r)
    (polltmr r) (tmr r) v (persist_probe r) (persist_cnt r) (persist_backoff r) (pollinterval r) (keep_idle r)
    (keepalive r)) p.
Definition set_persist_probe (v : Z) (p : tcp_pcb) : tcp_pcb :=
  let r := tim p in set_tim (Timing (rtime r) (rttest r) (rtseq r) (sa r) (sv r) (rto r) (nrtx r) (rto_end r)
    (polltmr r) (tmr r) (keep_cnt_sent r) v (persist_cnt r) (persist_backoff r) (pollinterval r) (keep_idle r)
    (keepalive r)) p.
Definition set_persist_cnt (v : Z) (p : tcp_pcb) : tcp_pcb :=
  let r := tim p in set_tim (Timing (rtime r) (rttest r) (rtseq r) (sa r) (sv r) (rto r) (nrtx r) (rto_end r)
    (polltmr r) (tmr r) (keep_cnt_sent r) (persist_probe r) v (persist_backoff r) (pollinterval r) (keep_idle
    r) (keepalive r)) p.
Definition set_persist_backoff (v : Z) (p : tcp_pcb) : tcp_pcb :=
  let r := tim p in set_tim (Timing (rtime r) (rttest r) (rtseq r) (sa r) (sv r) (rto r) (nrtx r) (rto_end r)
    (polltmr r) (tmr r) (keep_cnt_sent r) (persist_probe r) (persist_cnt r) v (pollinterval r) (keep_idle r)
    (keepalive r)) p.
Definition set_pollinterval (v : Z) (p : tcp_pcb) : tcp_pcb :=
  let r := tim p in set_tim (Timing (rtime r) (rttest r) (rtseq r) (sa r) (sv r) (rto r) (nrtx r) (rto_end r)
    (polltmr r) (tmr r) (keep_cnt_sent r) (persist_probe r) (persist_cnt r) (persist_backoff r) v (keep_idle
    r) (keepalive r)) p.
Definition set_keep_idle (v : Z) (p : tcp_pcb) : tcp_pcb :=
  let r := tim p in set_tim (Timing (rtime r) (rttest r) (rtseq r) (sa r) (sv r) (rto r) (nrtx r) (rto_end r)
    (polltmr r) (tmr r) (keep_cnt_sent r) (persist_probe r) (persist_cnt r) (persist_backoff r) (pollinterval
    r) v (keepalive r)) p.
Definition set_keepalive (v : bool) (p : tcp_pcb) : tcp_pcb :=
  let r := tim p in set_tim (Timing (rtime r) (rttest r) (rtseq r) (sa r) (sv r) (rto r) (nrtx r) (rto_end r)
    (polltmr r) (tmr r) (keep_cnt_sent r) (persist_probe r) (persist_cnt r) (persist_backoff r) (pollinterval
    r) (keep_idle r) v) p.

Definition tcp_set_flags (m : Z) (p : tcp_pcb) : tcp_pcb := set_flags (u16 (Z.lor (flags p) m)) p.
Definition tcp_clear_flags (m : Z) (p : tcp_pcb) : tcp_pcb :=
  set_flags (u16 (Z.land (flags p) (Z.land (Z.lnot m) 0xffff))) p.
Definition tcp_ack_now (p : tcp_pcb) : tcp_pcb := tcp_set_flags TF_ACK_NOW p.
Definition tcp_ack (p : tcp_pcb) : tcp_pcb :=
  if has (flags p) TF_ACK_DELAY then tcp_ack_now (tcp_clear_flags TF_ACK_DELAY p)
  else tcp_set_flags TF_ACK_DELAY p.

(** [TCP_WND_INC]: addition that stops at the maximum. *)
Definition TCP_WND_INC (wnd inc : Z) : Z := if wnd <=? u16 (wnd + inc) then u16 (wnd + inc) else 0xffff.

(** ** The receive window ([tcp.c]) *)

Definition tcp_update_rcv_ann_wnd (p : tcp_pcb) : outcome (Z * tcp_pcb) :=
  let r := rcv p in
  let new_right_edge := u32 (rcv_nxt r + rcv_wnd r) in
  if TCP_SEQ_GEQ new_right_edge (u32 (rcv_ann_right_edge r + Z.min (TCP_WND / 2) (mss p))) then
    Ret (u32 (new_right_edge - rcv_ann_right_edge r), set_rcv_ann_wnd (rcv_wnd r) p)
  else if TCP_SEQ_GT (rcv_nxt r) (rcv_ann_right_edge r) then Ret (0, set_rcv_ann_wnd 0 p)
  else
    let new_rcv_ann_wnd := u32 (rcv_ann_right_edge r - rcv_nxt r) in
    lwip_assert (new_rcv_ann_wnd <=? 0xffff);;
    Ret (0, set_rcv_ann_wnd new_rcv_ann_wnd p).

Definition tcp_recved (p : tcp_pcb) (n : Z) : outcome tcp_pcb :=
  if negb (is_bypass p) then Ret p
  else
    lwip_assert (negb (bool_decide (state p = LISTEN)));;
    let wnd := u16 (rcv_wnd (rcv p) + n) in
    let p := set_rcv_wnd (if (TCP_WND <? wnd) || (wnd <? rcv_wnd (rcv p)) then TCP_WND else wnd) p in
    '(wnd_inflation, p) ← tcp_update_rcv_ann_wnd p;
    Ret (if TCP_WND_UPDATE_THRESHOLD <=? wnd_inflation then tcp_ack_now p else p).

(** ** Below TCP *)

(** The header of a control segment. *)
Record ctl_hdr := CtlHdr {
  h_src : Z; h_dest : Z; h_seqno : Z; h_ackno : Z; h_flags : Z; h_wnd : Z; h_bypass : bool }.

(** [hdr_alloc]: the [pbuf_alloc] of [tcp_output_alloc_header_common];
    [output_control]: [tcp_output_control_segment] from a local to a remote address. *)
Class TcpNet (N : Type) := {
  hdr_alloc : N -> bool * N;
  output_control : N -> Z -> Z -> ctl_hdr -> err_t * N }.

(** The variables of [tcp_in.c] during the processing of a segment, the
    connection, the number of free segments, the clock and the network.
    [i_seqno], [i_len], [i_flags], [i_p] are [inseg]; [in_wnd] is [tcphdr->wnd] and
    [in_flags] is [flags]. *)
Record input (N : Type) := Input {
  pcb : tcp_pcb; i_seqno : Z; i_len : Z; i_flags : Z; i_p : option chain; seqno : Z; ackno : Z; in_flags : Z;
  in_wnd : Z; tcplen : Z; recv_acked : Z; recv_flags : Z; recv_data : option chain; segs_avail : Z; tcp_ticks
  : Z; net : N }.
Arguments Input {N}.
Arguments pcb {N}.
Arguments i_seqno {N}.
Arguments i_len {N}.
Arguments i_flags {N}.
Arguments i_p {N}.
Arguments seqno {N}.
Arguments ackno {N}.
Arguments in_flags {N}.
Arguments in_wnd {N}.
Arguments tcplen {N}.
Arguments recv_acked {N}.
Arguments recv_flags {N}.
Arguments recv_data {N}.
Arguments segs_avail {N}.
Arguments tcp_ticks {N}.
Arguments net {N}.

Section input.
  Context {N : Type}.

Definition set_pcb (v : tcp_pcb) (s : input N) : input N :=
  Input v (i_seqno s) (i_len s) (i_flags s) (i_p s) (seqno s) (ackno s) (in_flags s) (in_wnd s) (tcplen s)
    (recv_acked s) (recv_flags s) (recv_data s) (segs_avail s) (tcp_ticks s) (net s).
Definition set_i_seqno (v : Z) (s : input N) : input N :=
  Input (pcb s) v (i_len s) (i_flags s) (i_p s) (seqno s) (ackno s) (in_flags s) (in_wnd s) (tcplen s)
    (recv_acked s) (recv_flags s) (recv_data s) (segs_avail s) (tcp_ticks s) (net s).
Definition set_i_len (v : Z) (s : input N) : input N :=
  Input (pcb s) (i_seqno s) v (i_flags s) (i_p s) (seqno s) (ackno s) (in_flags s) (in_wnd s) (tcplen s)
    (recv_acked s) (recv_flags s) (recv_data s) (segs_avail s) (tcp_ticks s) (net s).
Definition set_i_flags (v : Z) (s : input N) : input N :=
  Input (pcb s) (i_seqno s) (i_len s) v (i_p s) (seqno s) (ackno s) (in_flags s) (in_wnd s) (tcplen s)
    (recv_acked s) (recv_flags s) (recv_data s) (segs_avail s) (tcp_ticks s) (net s).
Definition set_i_p (v : option chain) (s : input N) : input N :=
  Input (pcb s) (i_seqno s) (i_len s) (i_flags s) v (seqno s) (ackno s) (in_flags s) (in_wnd s) (tcplen s)
    (recv_acked s) (recv_flags s) (recv_data s) (segs_avail s) (tcp_ticks s) (net s).
Definition set_seqno (v : Z) (s : input N) : input N :=
  Input (pcb s) (i_seqno s) (i_len s) (i_flags s) (i_p s) v (ackno s) (in_flags s) (in_wnd s) (tcplen s)
    (recv_acked s) (recv_flags s) (recv_data s) (segs_avail s) (tcp_ticks s) (net s).
Definition set_ackno (v : Z) (s : input N) : input N :=
  Input (pcb s) (i_seqno s) (i_len s) (i_flags s) (i_p s) (seqno s) v (in_flags s) (in_wnd s) (tcplen s)
    (recv_acked s) (recv_flags s) (recv_data s) (segs_avail s) (tcp_ticks s) (net s).
Definition set_in_flags (v : Z) (s : input N) : input N :=
  Input (pcb s) (i_seqno s) (i_len s) (i_flags s) (i_p s) (seqno s) (ackno s) v (in_wnd s) (tcplen s)
    (recv_acked s) (recv_flags s) (recv_data s) (segs_avail s) (tcp_ticks s) (net s).
Definition set_in_wnd (v : Z) (s : input N) : input N :=
  Input (pcb s) (i_seqno s) (i_len s) (i_flags s) (i_p s) (seqno s) (ackno s) (in_flags s) v (tcplen s)
    (recv_acked s) (recv_flags s) (recv_data s) (segs_avail s) (tcp_ticks s) (net s).
Definition set_tcplen (v : Z) (s : input N) : input N :=
  Input (pcb s) (i_seqno s) (i_len s) (i_flags s) (i_p s) (seqno s) (ackno s) (in_flags s) (in_wnd s) v
    (recv_acked s) (recv_flags s) (recv_data s) (segs_avail s) (tcp_ticks s) (net s).
Definition set_recv_acked (v : Z) (s : input N) : input N :=
  Input (pcb s) (i_seqno s) (i_len s) (i_flags s) (i_p s) (seqno s) (ackno s) (in_flags s) (in_wnd s) (tcplen
    s) v (recv_flags s) (recv_data s) (segs_avail s) (tcp_ticks s) (net s).
Definition set_recv_flags (v : Z) (s : input N) : input N :=
  Input (pcb s) (i_seqno s) (i_len s) (i_flags s) (i_p s) (seqno s) (ackno s) (in_flags s) (in_wnd s) (tcplen
    s) (recv_acked s) v (recv_data s) (segs_avail s) (tcp_ticks s) (net s).
Definition set_recv_data (v : option chain) (s : input N) : input N :=
  Input (pcb s) (i_seqno s) (i_len s) (i_flags s) (i_p s) (seqno s) (ackno s) (in_flags s) (in_wnd s) (tcplen
    s) (recv_acked s) (recv_flags s) v (segs_avail s) (tcp_ticks s) (net s).
Definition set_segs_avail (v : Z) (s : input N) : input N :=
  Input (pcb s) (i_seqno s) (i_len s) (i_flags s) (i_p s) (seqno s) (ackno s) (in_flags s) (in_wnd s) (tcplen
    s) (recv_acked s) (recv_flags s) (recv_data s) v (tcp_ticks s) (net s).
Definition set_tcp_ticks (v : Z) (s : input N) : input N :=
  Input (pcb s) (i_seqno s) (i_len s) (i_flags s) (i_p s) (seqno s) (ackno s) (in_flags s) (in_wnd s) (tcplen
    s) (recv_acked s) (recv_flags s) (recv_data s) (segs_avail s) v (net s).
Definition set_net (v : N) (s : input N) : input N :=
  Input (pcb s) (i_seqno s) (i_len s) (i_flags s) (i_p s) (seqno s) (ackno s) (in_flags s) (in_wnd s) (tcplen
    s) (recv_acked s) (recv_flags s) (recv_data s) (segs_avail s) (tcp_ticks s) v.

Definition upd (f : tcp_pcb -> tcp_pcb) (s : input N) : input N := set_pcb (f (pcb s)) s.

(** [tcp_seg_free], [tcp_segs_free]: [k] segments go back to the pool. Their pbufs, which are freed with them, are
    values here; they are counted where the functions that send allocate them ([TcpOut.discard]). *)
Definition segs_freed (k : nat) (s : input N) : input N := set_segs_avail (segs_avail s + Z.of_nat k) s.
Definition tcp_seg_free (s : input N) : input N := segs_freed 1 s.
Definition tcp_segs_free (l : list tcp_seg) (s : input N) : input N := segs_freed (length l) s.

(** [tcp_seg_copy(&inseg)]: the copy shares header and data. *)
Definition tcp_seg_copy (s : input N) : outcome (option tcp_seg * input N) :=
  if segs_avail s <=? 0 then Ret (None, s)
  else
    p ← deref (i_p s);
    Ret (Some (Seg (i_seqno s) (i_len s) (i_flags s) p true false), set_segs_avail (segs_avail s - 1) s).

Context `{!TcpNet N}.

(** ** Control segments ([tcp_out.c]) *)

(** [tcp_output_alloc_header]: the header, if there is memory. *)
Definition tcp_output_alloc_header (seq : Z) (s : input N) : option ctl_hdr * input N :=
  let p := pcb s in
  let '(ok, n) := hdr_alloc (net s) in
  let s := set_net n s in
  if ok then
    (Some (CtlHdr (local_port p) (remote_port p) seq (rcv_nxt (rcv p)) TCP_ACK (rcv_ann_wnd (rcv p))
             (is_bypass p)),
     upd (set_rcv_ann_right_edge (u32 (rcv_nxt (rcv p) + rcv_ann_wnd (rcv p)))) s)
  else (None, s).

Definition tcp_send_empty_ack (s : input N) : err_t * input N :=
  let '(h, s) := tcp_output_alloc_header (snd_nxt (snd (pcb s))) s in
  match h with
  | None => (ERR_BUF, upd (tcp_set_flags (Z.lor TF_ACK_DELAY TF_ACK_NOW)) s)
  | Some h =>
      let '(err, n) := output_control (net s) (local_ip (pcb s)) (remote_ip (pcb s)) h in
      let s := set_net n s in
      (err, if decide (err = ERR_OK) then upd (tcp_clear_flags (Z.lor TF_ACK_DELAY TF_ACK_NOW)) s
            else upd (tcp_set_flags (Z.lor TF_ACK_DELAY TF_ACK_NOW)) s)
  end.

(** [tcp_rst(pcb, seqno, ackno, local_ip, remote_ip, local_port, remote_port, is_bypass)]. The window is
    [PP_HTONS(TCP_WND)] already when [tcp_output_alloc_header_common] converts it to network order. *)
Definition tcp_rst (seq ack : Z) (lip rip lport rport : Z) (bypass : bool) (s : input N) : input N :=
  let '(ok, n) := hdr_alloc (net s) in
  let s := set_net n s in
  if ok then
    let '(_, n) := output_control (net s) lip rip
                     (CtlHdr lport rport seq ack (Z.lor TCP_RST TCP_ACK) (lwip_htons TCP_WND) bypass) in
    set_net n s
  else s.
End input.

(** ** Retransmission ([tcp_out.c]) *)

(** The place of a segment in the sorted [unsent] queue. *)
Fixpoint insert_unsent (seg : tcp_seg) (q : list tcp_seg) : list tcp_seg :=
  match q with
  | [] => [seg]
  | c :: q' => if TCP_SEQ_LT (seg_seqno c) (seg_seqno seg) then c :: insert_unsent seg q' else seg :: q
  end.

Definition tcp_rexmit (p : tcp_pcb) : err_t * tcp_pcb :=
  match unacked (snd p) with
  | [] => (ERR_VAL, p)
  | seg :: rest =>
      if seg_busy seg then (ERR_VAL, p)
      else
        let p := set_unsent (insert_unsent seg (unsent (snd p))) (set_unacked rest p) in
        let p := if nrtx (tim p) <? 0xff then set_nrtx (nrtx (tim p) + 1) p else p in
        (ERR_OK, set_rttest 0 p)
  end.

Definition tcp_rexmit_fast (p : tcp_pcb) : tcp_pcb :=
  if negb (bool_decide (unacked (snd p) = [])) && negb (has (flags p) TF_INFR) then
    match tcp_rexmit p with
    | (ERR_OK, p) =>
        let t := Z.min (cwnd (cng p)) (snd_wnd (snd p)) / 2 in
        let p := set_ssthresh (if t <? 2 * mss p then u16 (2 * mss p) else t) p in
        let p := set_cwnd (u16 (ssthresh (cng p) + 3 * mss p)) p in
        set_rtime 0 (tcp_set_flags TF_INFR p)
    | (_, p) => p
    end
  else p.

(** [tcp_rexmit_rto_prepare]: all unacked segments go back in front of the
    unsent ones. *)
Definition tcp_rexmit_rto_prepare (p : tcp_pcb) : err_t * tcp_pcb :=
  match last (unacked (snd p)) with
  | None => (ERR_VAL, p)
  | Some seg =>
      if existsb seg_busy (unacked (snd p)) then (ERR_VAL, p)
      else
        let p := set_unacked [] (set_unsent (unacked (snd p) ++ unsent (snd p)) p) in
        let p := tcp_set_flags TF_RTO p in
        (ERR_OK, set_rttest 0 (set_rto_end (u32 (seg_seqno seg + TCP_TCPLEN seg)) p))
  end.

(** ** Sequence numbers as positions

    Sequence numbers are positions of an unbounded stream modulo 2^32; numbers
    of positions less than 2^31 apart compare as the positions do. *)

Lemma u32_idemp a : u32 (u32 a) = u32 a.
Proof. apply Z.mod_mod. done. Qed.
Lemma u32_add_l a n : u32 (u32 a + n) = u32 (a + n).
Proof. apply Zplus_mod_idemp_l. Qed.
Lemma u32_add_r a n : u32 (n + u32 a) = u32 (n + a).
Proof. apply Zplus_mod_idemp_r. Qed.
Lemma u32_sub_l a n : u32 (u32 a - n) = u32 (a - n).
Proof. apply Zminus_mod_idemp_l. Qed.
Lemma u32_sub_r a n : u32 (n - u32 a) = u32 (n - a).
Proof. apply Zminus_mod_idemp_r. Qed.
#[global] Hint Rewrite u32_idemp u32_add_l u32_add_r u32_sub_l u32_sub_r : seq.

Lemma u16_u32 x : u16 (u32 x) = u16 x.
Proof. unfold u16, u32. rewrite <- Znumtheory.Zmod_div_mod; [done|lia|lia|]. by exists (2 ^ 16). Qed.
(** The distance of two sequence numbers, as a 16-bit number. *)
Lemma u16_distance a b : 0 <= a - b < 2 ^ 16 -> u16 (u32 a - u32 b) = a - b.
Proof. intros. rewrite <- u16_u32. autorewrite with seq. rewrite u16_u32. by apply u16_small. Qed.

Lemma s32_u32 a b : s32 (u32 a - u32 b) = s32 (a - b).
Proof. unfold s32. by autorewrite with seq. Qed.
Lemma s32_small x : - 2 ^ 31 <= x < 2 ^ 31 -> s32 x = x.
Proof.
  intros Hx. unfold s32, u32. destruct (Z.le_gt_cases 0 x).
  - rewrite Z.mod_small by lia. destruct (Z.ltb_spec x (2 ^ 31)); lia.
  - rewrite <- (Z.mod_add x 1), Z.mod_small by lia. destruct (Z.ltb_spec (x + 1 * 2 ^ 32) (2 ^ 31)); lia.
Qed.
Lemma s16_small x : - 2 ^ 15 <= x < 2 ^ 15 -> s16 x = x.
Proof.
  intros Hx. unfold s16, u16. destruct (Z.le_gt_cases 0 x).
  - rewrite Z.mod_small by lia. destruct (Z.ltb_spec x (2 ^ 15)); lia.
  - rewrite <- (Z.mod_add x 1), Z.mod_small by lia. destruct (Z.ltb_spec (x + 1 * 2 ^ 16) (2 ^ 15)); lia.
Qed.
Definition near (a b : Z) : Prop := - 2 ^ 31 < a - b < 2 ^ 31.

Lemma seq_lt a b : near a b -> TCP_SEQ_LT (u32 a) (u32 b) = (a <? b).
Proof. unfold near, TCP_SEQ_LT. intros. rewrite s32_u32, s32_small by lia. destruct (Z.ltb_spec a b); lia. Qed.
Lemma seq_leq a b : near a b -> TCP_SEQ_LEQ (u32 a) (u32 b) = (a <=? b).
Proof. unfold near, TCP_SEQ_LEQ. intros. rewrite s32_u32, s32_small by lia. destruct (Z.leb_spec a b); lia. Qed.
Lemma seq_gt a b : near a b -> TCP_SEQ_GT (u32 a) (u32 b) = (b <? a).
Proof. unfold near, TCP_SEQ_GT. intros. rewrite s32_u32, s32_small by lia. destruct (Z.ltb_spec b a); lia. Qed.
Lemma seq_geq a b : near a b -> TCP_SEQ_GEQ (u32 a) (u32 b) = (b <=? a).
Proof. unfold near, TCP_SEQ_GEQ. intros. rewrite s32_u32, s32_small by lia. destruct (Z.leb_spec b a); lia. Qed.
Lemma seq_between a b c : near a b -> near a c ->
  TCP_SEQ_BETWEEN (u32 a) (u32 b) (u32 c) = (b <=? a) && (a <=? c).
Proof. intros. unfold TCP_SEQ_BETWEEN. by rewrite seq_geq, seq_leq. Qed.
Lemma seq_eq a b : near a b -> (u32 a =? u32 b) = (a =? b).
Proof.
  intros Hn. destruct (Z.eqb_spec a b) as [->|Hne]; [apply Z.eqb_refl|]. apply Z.eqb_neq. intros He.
  apply Hne. assert (s32 (a - b) = 0) as H by (rewrite <- s32_u32, He, Z.sub_diag; done).
  rewrite s32_small in H by (unfold near in Hn; lia). lia.
Qed.

(** ** Flags *)
Lemma has_fin x : has x TCP_FIN = Z.testbit x 0.
Proof. by apply (has_pow2 x 0). Qed.
Lemma has_syn x : has x TCP_SYN = Z.testbit x 1.
Proof. by apply (has_pow2 x 1). Qed.
Lemma fin_lor x : has (Z.lor x TCP_FIN) TCP_FIN = true.
Proof. rewrite has_fin, Z.lor_spec. apply orb_true_r. Qed.
Lemma syn_lor x : has (Z.lor x TCP_FIN) TCP_SYN = has x TCP_SYN.
Proof. rewrite !has_syn, Z.lor_spec. apply orb_false_r. Qed.
Lemma tcp_len_nosyn len fl : has fl TCP_SYN = false -> tcp_len len fl = len + (if has fl TCP_FIN then 1 else 0).
Proof. intros H. unfold tcp_len. by rewrite has_or, H, orb_false_r. Qed.
