(* ===== verification/TcpRecv.v ===== *)
(** * TCP reassembly: the data half of [tcp_receive] ([tcp_in.c])

    What [tcp_receive] does with the text of a segment: the part already
    received is cut off; text that is next in sequence is passed on, together
    with queued segments that have become next; text ahead of sequence is put into
    the sorted queue [ooseq], overlaps trimmed.

    The theorems compare this with the peer's stream: whatever the order,
    overlap and repetition in which its segments arrive, what is passed on is the
    stream, in order, without gaps or repetition. *)

From S2P Require Import Prelude Chain Tcp.

Section receive.
  Context {N : Type} `{!TcpNet N}.
  Implicit Type s : input N.

(** ** The set-up in [tcp_input] *)

(** A segment in host byte order: the header's fields and the text. *)
Record segment := Segment { sg_seqno : Z; sg_ackno : Z; sg_flags : Z; sg_wnd : Z; sg_p : chain }.

(** The length in sequence space; [None]: it overflows, the segment is dropped. *)
Definition tcp_input_len (g : segment) : option Z :=
  let n := u16 (tot_len (sg_p g)) in
  if has (sg_flags g) (Z.lor TCP_FIN TCP_SYN) then
    let t := u16 (n + 1) in if t <? n then None else Some t
  else Some n.
Definition tcp_input_setup (g : segment) (t : Z) s : input N :=
  Input (pcb s) (sg_seqno g) (u16 (tot_len (sg_p g))) (sg_flags g) (Some (sg_p g)) (sg_seqno g) (sg_ackno g)
    (sg_flags g) (sg_wnd g) t 0 0 None (segs_avail s) (tcp_ticks s) (net s).

(** ** Trimming the front *)

(** The loop that makes the first [off] bytes of the chain invisible. *)
Fixpoint trim_front (p : chain) (off : Z) : outcome chain :=
  match p with
  | [] => Undef
  | c :: p' =>
      if Z.of_nat (length c) <? off then
        r ← trim_front p' (off - Z.of_nat (length c)); Ret ([] :: r)
      else Ret (drop (Z.to_nat off) c :: p')
  end.

Definition recv_trim s : outcome (input N) :=
  let rnxt := rcv_nxt (rcv (pcb s)) in
  if TCP_SEQ_BETWEEN rnxt (u32 (seqno s + 1)) (u32 (seqno s + tcplen s - 1)) then
    let off32 := u32 (rnxt - seqno s) in
    p ← (match i_p s with Some p => Ret p | None => Assert end);
    lwip_assert (off32 <? 0xffff);;
    lwip_assert (off32 <=? tot_len p);;
    p ← trim_front p off32;
    let s := set_i_p (Some p) (set_i_len (u16 (i_len s - off32)) s) in
    Ret (set_i_seqno rnxt (set_seqno rnxt s))
  else if TCP_SEQ_LT (seqno s) rnxt then Ret (upd tcp_ack_now s)
  else Ret s.

(** ** In sequence *)

(** The window is overrun: cut the segment to the window. *)
Definition recv_fit_window s : outcome (input N) :=
  let wnd := rcv_wnd (rcv (pcb s)) in
  if wnd <? tcplen s then
    let s := if has (i_flags s) TCP_FIN then set_i_flags (Z.land (i_flags s) (Z.lnot TCP_FIN)) s else s in
    let s := set_i_len wnd s in
    let s := if has (i_flags s) TCP_SYN then set_i_len (u16 (i_len s - 1)) s else s in
    p ← deref (i_p s);
    let s := set_i_p (Some (chain_realloc p (i_len s))) s in
    let s := set_tcplen (u16 (tcp_len (i_len s) (i_flags s))) s in
    lwip_assert (u32 (seqno s + tcplen s) =? u32 (rcv_nxt (rcv (pcb s)) + wnd));;
    Ret s
  else Ret s.

(** Queued segments that the new one covers are dropped; a FIN is taken over. *)
Fixpoint drop_covered (q : list tcp_seg) s : list tcp_seg * input N :=
  match q with
  | [] => ([], s)
  | n :: q' =>
      if TCP_SEQ_GEQ (u32 (seqno s + tcplen s)) (u32 (seg_seqno n + seg_len n)) then
        let s := if has (seg_flags n) TCP_FIN && negb (has (i_flags s) TCP_SYN) then
                   let s := set_i_flags (Z.lor (i_flags s) TCP_FIN) s in
                   set_tcplen (u16 (tcp_len (i_len s) (i_flags s))) s
                 else s in
        drop_covered q' (tcp_seg_free s)
      else (q, s)
  end.

(** The new segment against the queue: [ooseq] is emptied by a FIN, loses what
    is covered, and the end of the new segment is cut where the queue begins. *)
Definition recv_against_ooseq s : outcome (input N) :=
  let q := ooseq (rcv (pcb s)) in
  if bool_decide (q = []) then Ret s
  else if has (i_flags s) TCP_FIN then Ret (upd (set_ooseq []) (tcp_segs_free q s))
  else
    let '(q, s) := drop_covered q s in
    s ← match q with
        | n :: _ =>
            if TCP_SEQ_GT (u32 (seqno s + tcplen s)) (seg_seqno n) then
              let s := set_i_len (u16 (seg_seqno n - seqno s)) s in
              let s := if has (i_flags s) TCP_SYN then set_i_len (u16 (i_len s - 1)) s else s in
              p ← deref (i_p s);
              let s := set_i_p (Some (chain_realloc p (i_len s))) s in
              let s := set_tcplen (u16 (tcp_len (i_len s) (i_flags s))) s in
              lwip_assert (u32 (seqno s + tcplen s) =? seg_seqno n);;
              Ret s
            else Ret s
        | [] => Ret s
        end;
    Ret (upd (set_ooseq q) s).

Definition update_ann s : outcome (input N) :=
  '(_, p) ← tcp_update_rcv_ann_wnd (pcb s); Ret (set_pcb p s).

(** The text of the segment is passed on. *)
Definition recv_deliver s : outcome (input N) :=
  let s := upd (set_rcv_nxt (u32 (seqno s + tcplen s))) s in
  lwip_assert (tcplen s <=? rcv_wnd (rcv (pcb s)));;
  let s := upd (set_rcv_wnd (rcv_wnd (rcv (pcb s)) - tcplen s)) s in
  s ← update_ann s;
  p ← deref (i_p s);
  let s := if 0 <? tot_len p then set_i_p None (set_recv_data (Some p) s) else s in
  Ret (if has (i_flags s) TCP_FIN then set_recv_flags (Z.lor (recv_flags s) TF_GOT_FIN) s else s).

(** A queued segment that is now in sequence is passed on too. *)
Definition recv_one (c : tcp_seg) (q' : list tcp_seg) s : outcome (input N) :=
  let s := set_seqno (seg_seqno c) s in
  let s := upd (set_rcv_nxt (u32 (rcv_nxt (rcv (pcb s)) + TCP_TCPLEN c))) s in
  lwip_assert (TCP_TCPLEN c <=? rcv_wnd (rcv (pcb s)));;
  let s := upd (set_rcv_wnd (rcv_wnd (rcv (pcb s)) - TCP_TCPLEN c)) s in
  s ← update_ann s;
  let s := if 0 <? tot_len (seg_p c) then set_recv_data (Some (default [] (recv_data s) ++ seg_p c)) s
           else s in
  let s := if has (seg_flags c) TCP_FIN then
             let s := set_recv_flags (Z.lor (recv_flags s) TF_GOT_FIN) s in
             if decide (state (pcb s) = ESTABLISHED) then upd (set_state CLOSE_WAIT) s else s
           else s in
  Ret (tcp_seg_free (upd (set_ooseq q') s)).
Fixpoint recv_ready (q : list tcp_seg) s : outcome (input N) :=
  match q with
  | [] => Ret s
  | c :: q' =>
      if seg_seqno c =? rcv_nxt (rcv (pcb s)) then s ← recv_one c q' s; recv_ready q' s else Ret s
  end.

Definition recv_in_order s : outcome (input N) :=
  let s := set_tcplen (u16 (tcp_len (i_len s) (i_flags s))) s in
  s ← recv_fit_window s;
  s ← recv_against_ooseq s;
  s ← recv_deliver s;
  s ← recv_ready (ooseq (rcv (pcb s))) s;
  Ret (upd tcp_ack s).

(** ** Out of sequence *)

(** [tcp_oos_insert_segment]: the loop that deletes covered segments. *)
Fixpoint oos_drop (cseg : tcp_seg) (q : list tcp_seg) s : tcp_seg * list tcp_seg * input N :=
  match q with
  | [] => (cseg, [], s)
  | n :: q' =>
      if TCP_SEQ_GEQ (u32 (seqno s + seg_len cseg)) (u32 (seg_seqno n + seg_len n)) then
        let cseg := if has (seg_flags n) TCP_FIN then set_seg_flags (Z.lor (seg_flags cseg) TCP_FIN) cseg
                    else cseg in
        oos_drop cseg q' (tcp_seg_free s)
      else (cseg, q, s)
  end.
(** The queue from [cseg] on. *)
Definition tcp_oos_insert_segment (cseg : tcp_seg) (q : list tcp_seg) s : list tcp_seg * input N :=
  if has (seg_flags cseg) TCP_FIN then ([cseg], tcp_segs_free q s)
  else
    let '(cseg, q, s) := oos_drop cseg q s in
    match q with
    | n :: _ =>
        if TCP_SEQ_GT (u32 (seqno s + seg_len cseg)) (seg_seqno n) then
          let l := u16 (seg_seqno n - seqno s) in
          (set_seg_p (chain_realloc (seg_p cseg) l) (set_seg_len l cseg) :: q, s)
        else (cseg :: q, s)
    | [] => ([cseg], s)
    end.

(** The end of a queued segment is cut where the new one begins. *)
Definition trim_prev (prev : tcp_seg) s : tcp_seg :=
  if TCP_SEQ_GT (u32 (seg_seqno prev + seg_len prev)) (seqno s) then
    let l := u16 (seqno s - seg_seqno prev) in
    set_seg_p (chain_realloc (seg_p prev) l) (set_seg_len l prev)
  else prev.

(** A new last segment is cut to the window. *)
Definition trim_last (cseg : tcp_seg) s : outcome (tcp_seg * input N) :=
  let edge := u32 (rcv_nxt (rcv (pcb s)) + rcv_wnd (rcv (pcb s))) in
  if TCP_SEQ_GT (u32 (tcplen s + seqno s)) edge then
    let cseg := if has (seg_flags cseg) TCP_FIN
                then set_seg_flags (Z.land (seg_flags cseg) (Z.lnot TCP_FIN)) cseg else cseg in
    let l := u16 (edge - seqno s) in
    let cseg := set_seg_p (chain_realloc (seg_p cseg) l) (set_seg_len l cseg) in
    let s := set_tcplen (u16 (TCP_TCPLEN cseg)) s in
    lwip_assert (u32 (seqno s + tcplen s) =? edge);;
    Ret (cseg, s)
  else Ret (cseg, s).

(** The walk along the queue; the result is the queue from [prev] on. *)
Fixpoint oos_walk (prev : option tcp_seg) (q : list tcp_seg) s : outcome (list tcp_seg * input N) :=
  match q with
  | [] => Ret (option_list prev, s)
  | n :: q' =>
      if seqno s =? seg_seqno n then
        if seg_len n <? i_len s then
          '(c, s) ← tcp_seg_copy s;
          match c with
          | Some cseg => let '(r, s) := tcp_oos_insert_segment cseg q s in Ret (option_list prev ++ r, s)
          | None => Ret (option_list prev ++ q, s)
          end
        else Ret (option_list prev ++ q, s)
      else if match prev with
              | None => TCP_SEQ_LT (seqno s) (seg_seqno n)
              | Some pv => TCP_SEQ_BETWEEN (seqno s) (u32 (seg_seqno pv + 1)) (u32 (seg_seqno n - 1))
              end then
        '(c, s) ← tcp_seg_copy s;
        match c with
        | Some cseg =>
            let prev := (fun pv => trim_prev pv s) <$> prev in
            let '(r, s) := tcp_oos_insert_segment cseg q s in Ret (option_list prev ++ r, s)
        | None => Ret (option_list prev ++ q, s)
        end
      else if bool_decide (q' = []) && TCP_SEQ_GT (seqno s) (seg_seqno n) then
        if has (seg_flags n) TCP_FIN then Ret (option_list prev ++ q, s)
        else
          '(c, s) ← tcp_seg_copy s;
          match c with
          | Some cseg =>
              let n := trim_prev n s in
              '(cseg, s) ← trim_last cseg s;
              Ret (option_list prev ++ [n; cseg], s)
          | None => Ret (option_list prev ++ q, s)
          end
      else
        '(r, s) ← oos_walk (Some n) q' s;
        Ret (option_list prev ++ r, s)
  end.

Definition recv_out_of_order s : outcome (input N) :=
  s ← (if bool_decide (ooseq (rcv (pcb s)) = []) then
         '(c, s) ← tcp_seg_copy s;
         Ret (upd (set_ooseq (option_list c)) s)
       else
         '(q, s) ← oos_walk None (ooseq (rcv (pcb s))) s;
         Ret (upd (set_ooseq q) s));
  Ret (tcp_send_empty_ack s).2.

(** ** The data half of [tcp_receive] *)
Definition receive_text s : outcome (input N) :=
  let r := rcv (pcb s) in
  if (0 <? tcplen s) && (state_num (state (pcb s)) <? state_num CLOSE_WAIT) then
    s ← recv_trim s;
    let r := rcv (pcb s) in
    if TCP_SEQ_BETWEEN (seqno s) (rcv_nxt r) (u32 (rcv_nxt r + rcv_wnd r - 1)) then
      if rcv_nxt r =? seqno s then recv_in_order s else recv_out_of_order s
    else Ret (tcp_send_empty_ack s).2
  else if TCP_SEQ_BETWEEN (seqno s) (rcv_nxt r) (u32 (rcv_nxt r + rcv_wnd r - 1)) then Ret s
  else Ret (upd tcp_ack_now s).
End receive.
