(* ===== verification/TcpStream.v ===== *)
(** * TCP reassembly delivers the peer's stream

    The peer's stream is a function from positions to bytes and, once it closed,
    the position of its FIN. A segment carries a piece of it. [recv_ok R E p] is
    the invariant of the receiving half of a connection: everything before
    position [R] has been passed on, [E] is the right edge of the window that
    was announced, and the queue holds pieces of the stream between them, in
    order and without overlap. *)

From S2P Require Import Prelude Chain Tcp TcpRecv.

Section stream.
  Context (byte_at : Z -> Z) (fin : option Z).

(** The bytes of the stream at [a], [a + 1], ... *)
Definition stream (a n : Z) : list Z := byte_at <$> seqZ a n.
(** Where the text of the stream before position [x] ends. *)
Definition upto (x : Z) : Z := match fin with Some F => Z.min x F | None => x end.

Lemma length_stream a n : 0 <= n -> Z.of_nat (length (stream a n)) = n.
Proof. intros. unfold stream. rewrite length_fmap, length_seqZ. lia. Qed.
Lemma stream_nil a n : n <= 0 -> stream a n = [].
Proof. intros. unfold stream. by rewrite seqZ_nil. Qed.
Lemma stream_app a n m : 0 <= n -> 0 <= m -> stream a (n + m) = stream a n ++ stream (a + n) m.
Proof. intros. unfold stream. by rewrite seqZ_app, fmap_app. Qed.
Lemma stream_take a n k : 0 <= k <= n -> take (Z.to_nat k) (stream a n) = stream a k.
Proof.
  intros. replace n with (k + (n - k)) by lia. rewrite stream_app by lia.
  apply take_app_length'. pose proof (length_stream a k). lia.
Qed.
Lemma stream_drop a n k : 0 <= k <= n -> drop (Z.to_nat k) (stream a n) = stream (a + k) (n - k).
Proof.
  intros. replace n with (k + (n - k)) at 1 by lia. rewrite stream_app by lia.
  apply drop_app_length'. pose proof (length_stream a k). lia.
Qed.

(** ** Pieces of the stream *)

(** [n] bytes of text at position [a], and a FIN if [fl] has the flag. *)
Record piece (a n fl : Z) (p : chain) : Prop := {
  pc_len : 0 <= n;
  pc_data : concat p = stream a n;
  pc_syn : has fl TCP_SYN = false;
  pc_fin : has fl TCP_FIN = true -> fin = Some (a + n);
  pc_end : forall F, fin = Some F -> a + n <= F;
  pc_pos : 0 < tcp_len n fl }.

Definition seg_at (a : Z) (g : tcp_seg) : Prop :=
  seg_seqno g = u32 a /\ piece a (seg_len g) (seg_flags g) (seg_p g).

(** The queue: pieces of the stream in order between [lo] and [hi], a FIN last. *)
Fixpoint queue_ok (lo hi : Z) (q : list tcp_seg) : Prop :=
  match q with
  | [] => True
  | g :: q' => exists a, lo <= a /\ seg_at a g /\ a + TCP_TCPLEN g <= hi /\
                 (has (seg_flags g) TCP_FIN = true -> q' = []) /\ queue_ok (a + seg_len g) hi q'
  end.

Lemma queue_weaken lo lo' hi hi' q : lo' <= lo -> hi <= hi' -> queue_ok lo hi q -> queue_ok lo' hi' q.
Proof.
  revert lo lo'. induction q as [|g q IH]; intros lo lo' Hlo Hhi; simpl; [done|].
  intros (a & Ha & Hg & He & Hf & Hq). exists a. split; [lia|]. split; [done|]. split; [lia|].
  split; [done|]. eapply IH; [|done|done]. lia.
Qed.

Lemma piece_tcplen a n fl p : piece a n fl p -> tcp_len n fl = n + (if has fl TCP_FIN then 1 else 0).
Proof. intros H. apply tcp_len_nosyn. by apply (pc_syn _ _ _ _ H). Qed.
Lemma tcplen_at a g : seg_at a g -> TCP_TCPLEN g = seg_len g + (if has (seg_flags g) TCP_FIN then 1 else 0).
Proof. intros [_ H]. by apply piece_tcplen in H. Qed.
Lemma seg_at_bounds a g : seg_at a g -> 0 <= seg_len g /\ seg_len g <= TCP_TCPLEN g <= seg_len g + 1 /\ 0 < TCP_TCPLEN g.
Proof.
  intros H. pose proof (tcplen_at _ _ H) as Ht. destruct H as [_ H]. pose proof (pc_len _ _ _ _ H).
  pose proof (pc_pos _ _ _ _ H). unfold TCP_TCPLEN in *. destruct (has (seg_flags g) TCP_FIN); lia.
Qed.

(** A shorter piece without a FIN. *)
Lemma piece_trim a n fl p k : piece a n fl p -> 0 < k <= n -> has fl TCP_FIN = false ->
  piece a k fl (chain_realloc p k).
Proof.
  intros H Hk Hf. split; [lia| |by apply (pc_syn _ _ _ _ H)|by rewrite Hf| |].
  - rewrite chain_realloc_take by lia. rewrite (pc_data _ _ _ _ H). apply stream_take. lia.
  - intros F HF. pose proof (pc_end _ _ _ _ H F HF). lia.
  - rewrite tcp_len_nosyn by apply (pc_syn _ _ _ _ H). destruct (has fl TCP_FIN); lia.
Qed.
(** The FIN that follows a piece becomes its own. *)
Lemma piece_take_fin a n fl p : piece a n fl p -> fin = Some (a + n) -> piece a n (Z.lor fl TCP_FIN) p.
Proof.
  intros H HF. split; try apply H.
  - by rewrite syn_lor, (pc_syn _ _ _ _ H).
  - done.
  - rewrite tcp_len_nosyn, fin_lor; [pose proof (pc_len _ _ _ _ H); lia|]. by rewrite syn_lor, (pc_syn _ _ _ _ H).
Qed.
(** A queued segment with a FIN that a piece covers ends where the piece ends. *)
Lemma covered_fin a n fl p b g : piece a n fl p -> seg_at b g -> has (seg_flags g) TCP_FIN = true ->
  b + seg_len g <= a + n ->
  piece a n (Z.lor fl TCP_FIN) p /\ a + tcp_len n (Z.lor fl TCP_FIN) = b + TCP_TCPLEN g /\
  tcp_len n fl <= tcp_len n (Z.lor fl TCP_FIN).
Proof.
  intros Hp Hg HF Hcov. pose proof (tcplen_at _ _ Hg) as Hgt. rewrite HF in Hgt. destruct Hg as [_ Hgp].
  pose proof (pc_fin _ _ _ _ Hgp HF) as Hfin. pose proof (pc_end _ _ _ _ Hp _ Hfin).
  assert (fin = Some (a + n)) as HfR by (rewrite Hfin; f_equal; lia).
  pose proof (piece_take_fin _ _ _ _ Hp HfR) as Hp2. pose proof (piece_tcplen _ _ _ _ Hp2) as Ht2.
  rewrite fin_lor in Ht2. pose proof (piece_tcplen _ _ _ _ Hp). split; [done|]. destruct (has fl TCP_FIN); lia.
Qed.
(** The front of a piece is cut off. *)
Lemma trim_front_ok p off : 0 <= off <= tot_len p -> p <> [] ->
  exists p', trim_front p off = Ret p' /\ p' <> [] /\ concat p' = drop (Z.to_nat off) (concat p).
Proof.
  revert off. induction p as [|c p IH]; intros off Hoff Hne; [done|]. simpl.
  destruct (Z.ltb_spec (Z.of_nat (length c)) off) as [Hlt|Hge].
  - unfold tot_len in Hoff. simpl in Hoff. rewrite length_app in Hoff.
    destruct (IH (off - Z.of_nat (length c))) as (p' & -> & _ & Hp').
    + unfold tot_len. lia.
    + intros ->. simpl in Hoff. lia.
    + exists ([] :: p'). split; [done|]. split; [done|]. simpl. rewrite Hp', drop_app_ge by lia. f_equal. lia.
  - eexists. split; [done|]. split; [done|]. simpl. by rewrite drop_app_le by lia.
Qed.

(** ** The receive window *)

(** [R]: the next position; [E]: the announced right edge. *)
Record window_ok (R E : Z) (p : tcp_pcb) : Prop := {
  wo_nxt : rcv_nxt (rcv p) = u32 R;
  wo_edge : rcv_ann_right_edge (rcv p) = u32 E;
  wo_wnd : 0 <= rcv_wnd (rcv p) <= 0xffff;
  wo_ann : E <= R + rcv_ann_wnd (rcv p) <= R + rcv_wnd (rcv p);
  wo_le : R <= E;
  wo_mss : 0 <= mss p <= 0xffff }.

Lemma update_ann_ok R E p : window_ok R E p \/
    (exists R0 p0, window_ok R0 E p0 /\ R0 <= R <= E /\
       p = set_rcv_wnd (rcv_wnd (rcv p0) - (R - R0)) (set_rcv_nxt (u32 R) p0)) ->
  exists v a, tcp_update_rcv_ann_wnd p = Ret (v, set_rcv_ann_wnd a p) /\ window_ok R E (set_rcv_ann_wnd a p).
Proof.
  intros Hw.
  assert (rcv_nxt (rcv p) = u32 R /\ rcv_ann_right_edge (rcv p) = u32 E /\ 0 <= rcv_wnd (rcv p) <= 0xffff /\
          E <= R + rcv_wnd (rcv p) /\ R <= E /\ 0 <= mss p <= 0xffff) as (H1 & H2 & H3 & H4 & H5 & H6).
  { destruct Hw as [[? ? ? ? ? ?]|(R0 & p0 & [? ? ? ? ? ?] & HR & ->)]; simpl in *; repeat split; try done; lia. }
  clear Hw. unfold tcp_update_rcv_ann_wnd. change (TCP_WND / 2) with 2000. rewrite H1, H2. autorewrite with seq.
  rewrite seq_geq by (unfold near; lia).
  rewrite seq_gt by (unfold near; lia).
  destruct (Z.leb_spec (E + Z.min 2000 (mss p)) (R + rcv_wnd (rcv p))) as [Hl|Hl].
  - do 2 eexists. split; [done|]. split; simpl; try done; lia.
  - rewrite (proj2 (Z.ltb_ge E R)) by lia. rewrite u32_small by lia.
    rewrite (proj2 (Z.leb_le (E - R) 0xffff)) by lia. simpl.
    do 2 eexists. split; [done|]. split; simpl; try done; lia.
Qed.

(** ** Steps of the receive path *)
Context {N : Type} `{!TcpNet N}.
Implicit Type s : input N.

(** What the text half of [tcp_receive] leaves alone. *)
Definition rest_same s s' : Prop :=
  snd (pcb s') = snd (pcb s) /\ cng (pcb s') = cng (pcb s) /\ tim (pcb s') = tim (pcb s) /\
  (state (pcb s') = state (pcb s) \/
     state (pcb s) = ESTABLISHED /\ state (pcb s') = CLOSE_WAIT /\ has (recv_flags s') TF_GOT_FIN = true) /\
  (recv_flags s' = recv_flags s \/ recv_flags s' = Z.lor (recv_flags s) TF_GOT_FIN) /\
  (ackno s', in_flags s', in_wnd s', recv_acked s', tcp_ticks s') =
    (ackno s, in_flags s, in_wnd s, recv_acked s, tcp_ticks s).

Lemma got_fin_set x : has (Z.lor x TF_GOT_FIN) TF_GOT_FIN = true.
Proof. change TF_GOT_FIN with (2 ^ 5). rewrite has_pow2, Z.lor_spec by lia. apply orb_true_r. Qed.
#[local] Hint Resolve got_fin_set : core.
Lemma rest_refl s : rest_same s s.
Proof. by repeat split; auto. Qed.
Lemma rest_trans s1 s2 s3 : rest_same s1 s2 -> rest_same s2 s3 -> rest_same s1 s3.
Proof.
  intros (A1 & A2 & A3 & A4 & AF & A5) (B1 & B2 & B3 & B4 & BF & B5).
  repeat split; try congruence.
  - destruct A4 as [A4|(A4 & A4' & A6)], B4 as [B4|(B4 & B4' & B6)]; rewrite ?A4, ?A4' in *; auto; try congruence;
      right; (split_and!; try congruence); destruct BF as [->| ->]; auto.
  - destruct AF as [AF|AF], BF as [BF|BF]; rewrite BF, AF; auto. right. by rewrite <- Z.lor_assoc, Z.lor_diag.
Qed.

(** Two states that differ in fields which [rest_same] does not look at. *)
Ltac rest := unfold rest_same; simpl in *; repeat split; auto 6.

(** Segments in the pool and in the queue. *)
Definition segs_total s : Z := segs_avail s + Z.of_nat (length (ooseq (rcv (pcb s)))).

(** The text passed on by a step. *)
Definition passed s : list Z := concat (default [] (recv_data s)).

(** A step from position [R] to [R'] that keeps the edge [E]. *)
Record advances (R E : Z) s (R' : Z) s' : Prop := {
  ad_window : window_ok R' E (pcb s');
  ad_queue : queue_ok (R' + 1) E (ooseq (rcv (pcb s')));
  ad_le : R <= R';
  ad_wnd : R' + rcv_wnd (rcv (pcb s')) = R + rcv_wnd (rcv (pcb s));
  ad_data : passed s' = passed s ++ stream R (upto R' - R);
  ad_fin : has (recv_flags s') TF_GOT_FIN =
             has (recv_flags s) TF_GOT_FIN || bool_decide (R < R' /\ fin = Some (R' - 1));
  ad_end : forall F, fin = Some F -> R' <= Z.max R (F + 1);
  ad_segs : segs_total s' = segs_total s;
  ad_rest : rest_same s s' }.

(** How far the queue reaches from [x] without a gap. *)
Fixpoint reach (x : Z) (q : list tcp_seg) : Z :=
  match q with
  | [] => x
  | g :: q' => if seg_seqno g =? u32 x then reach (x + TCP_TCPLEN g) q' else x
  end.

Lemma passed_snoc s p n a : concat p = stream a n -> 0 <= n ->
  passed (if 0 <? tot_len p then set_recv_data (Some (default [] (recv_data s) ++ p)) s else s)
  = passed s ++ stream a n.
Proof.
  intros Hp Hn. assert (tot_len p = n) as Ht by (unfold tot_len; rewrite Hp; by apply length_stream).
  unfold passed. destruct (Z.ltb_spec 0 (tot_len p)); simpl.
  - by rewrite concat_app, Hp.
  - by rewrite stream_nil, app_nil_r by lia.
Qed.

Lemma step_ann R E s T : window_ok R E (pcb s) -> 0 <= T -> R + T <= E ->
  exists a, let p := set_rcv_ann_wnd a (set_rcv_wnd (rcv_wnd (rcv (pcb s)) - T) (set_rcv_nxt (u32 (R + T)) (pcb s))) in
    update_ann (upd (set_rcv_wnd (rcv_wnd (rcv (pcb s)) - T)) (upd (set_rcv_nxt (u32 (R + T))) s))
    = Ret (set_pcb p s) /\ window_ok (R + T) E p.
Proof.
  intros Hw HT He.
  destruct (update_ann_ok (R + T) E
    (set_rcv_wnd (rcv_wnd (rcv (pcb s)) - T) (set_rcv_nxt (u32 (R + T)) (pcb s)))) as (v & a & Hu & Hok).
  { right. exists R, (pcb s). split; [done|]. split; [lia|]. do 2 f_equal. lia. }
  exists a. split; [|done]. unfold update_ann. simpl. by rewrite Hu.
Qed.

Lemma recv_one_ok c q s R E : window_ok R E (pcb s) -> ooseq (rcv (pcb s)) = c :: q -> seg_at R c ->
  R + TCP_TCPLEN c <= E ->
  exists s', recv_one c q s = Ret s' /\ window_ok (R + TCP_TCPLEN c) E (pcb s') /\ ooseq (rcv (pcb s')) = q /\
    rcv_wnd (rcv (pcb s')) = rcv_wnd (rcv (pcb s)) - TCP_TCPLEN c /\
    passed s' = passed s ++ stream R (seg_len c) /\
    has (recv_flags s') TF_GOT_FIN = has (recv_flags s) TF_GOT_FIN || has (seg_flags c) TCP_FIN /\
    segs_total s' = segs_total s /\ rest_same s s'.
Proof.
  intros Hw Hq Hc He. pose proof (seg_at_bounds _ _ Hc) as (Hc0 & Hc1 & Hc2). destruct Hc as [Hseq Hpc].
  pose proof Hw as [Hn Hed Hwnd Hann Hle Hmss]. unfold recv_one. cbn [pcb rcv set_seqno upd set_pcb].
  rewrite Hn, u32_add_l. rewrite (proj2 (Z.leb_le (TCP_TCPLEN c) _)) by (simpl; lia).
  cbn [lwip_assert mbind outcome_bind].
  destruct (step_ann R E (set_seqno (seg_seqno c) s) (TCP_TCPLEN c) Hw) as (a & Hu & Hok); [lia|done|].
  simpl in Hu, Hok. unfold upd in *. simpl in *. rewrite Hu. cbn [mbind outcome_bind].
  clear Hu. eexists. split; [done|].
  set (s1 := set_pcb _ (set_seqno (seg_seqno c) s)).
  assert (passed (if 0 <? tot_len (seg_p c) then set_recv_data (Some (default [] (recv_data s1) ++ seg_p c)) s1
                  else s1) = passed s ++ stream R (seg_len c)) as Hp.
  { rewrite (passed_snoc s1 (seg_p c) (seg_len c) R); [done|by apply pc_data in Hpc|done]. }
  revert Hp. subst s1. clear Hwnd Hann Hw.
  destruct (0 <? tot_len (seg_p c)); simpl; intros Hp;
    (destruct (has (seg_flags c) TCP_FIN); simpl; [destruct (decide (state (pcb s) = ESTABLISHED)); simpl|]);
    rewrite ?got_fin_set, ?orb_true_r, ?orb_false_r;
    (split_and!; [|done|done|done|done| |by rest];
      [destruct Hok; by split|unfold segs_total; rewrite Hq; simpl; lia]).
Qed.

(** A piece is passed on first, then the queue. *)
Lemma advance_cons R E s n fl p s1 R' s2 :
  piece R n fl p -> upto R = R ->
  rcv_wnd (rcv (pcb s1)) = rcv_wnd (rcv (pcb s)) - tcp_len n fl ->
  passed s1 = passed s ++ stream R n ->
  has (recv_flags s1) TF_GOT_FIN = has (recv_flags s) TF_GOT_FIN || has fl TCP_FIN ->
  segs_total s1 = segs_total s -> rest_same s s1 ->
  (has fl TCP_FIN = true -> R' = R + tcp_len n fl) ->
  advances (R + tcp_len n fl) E s1 R' s2 -> advances R E s R' s2.
Proof.
  intros Hp Hlive D1 P1 F1 T1 K1 Hf [W2 Q2 L2 D2 P2 F2 Z2 T2 K2].
  pose proof (piece_tcplen _ _ _ _ Hp) as Htl. pose proof (pc_end _ _ _ _ Hp) as Hend.
  pose proof (pc_len _ _ _ _ Hp) as Hn. pose proof (pc_fin _ _ _ _ Hp) as Hfin.
  pose proof (pc_pos _ _ _ _ Hp) as Hpos. split; try done; try lia.
  - rewrite P2, P1, <- app_assoc. f_equal. destruct (has fl TCP_FIN).
    + rewrite (Hf eq_refl). unfold upto. rewrite (Hfin eq_refl). rewrite (stream_nil (R + _)) by lia.
      rewrite app_nil_r. f_equal. lia.
    + rewrite Htl, Z.add_0_r. rewrite <- stream_app; [f_equal; lia|lia|].
      unfold upto. destruct fin as [F|]; [specialize (Hend F eq_refl)|]; lia.
  - rewrite F2, F1, <- orb_assoc. f_equal. destruct (has fl TCP_FIN).
    + rewrite (Hf eq_refl). rewrite bool_decide_true with (P := R < _ /\ _); [done|].
      split; [lia|]. rewrite (Hfin eq_refl). f_equal. lia.
    + simpl. apply bool_decide_ext. rewrite Htl, Z.add_0_r. split; intros [H1 H2]; (split; [|done]); [lia|].
      specialize (Hend _ H2). lia.
  - intros F HF. specialize (Z2 F HF). specialize (Hend F HF). destruct (has fl TCP_FIN); lia.
  - by eapply rest_trans.
Qed.

Lemma recv_ready_ok q : forall s R E, window_ok R E (pcb s) -> ooseq (rcv (pcb s)) = q -> queue_ok R E q ->
  q = [] \/ upto R = R ->
  exists s', recv_ready q s = Ret s' /\ advances R E s (reach R q) s'.
Proof.
  assert (forall s R E q, window_ok R E (pcb s) -> ooseq (rcv (pcb s)) = q -> queue_ok (R + 1) E q ->
            upto R <= R -> advances R E s R s) as Hstop.
  { intros s R E q' Hw Hq Hok Hlive. split; rewrite ?Hq; try done; try lia.
    - rewrite stream_nil, app_nil_r; [done|]. lia.
    - rewrite bool_decide_false, orb_false_r; [done|lia].
    - apply rest_refl. }
  assert (forall x, upto x <= x) as Hupto by (intros; unfold upto; destruct fin; lia).
  induction q as [|c q IH]; intros s R E Hw Hq Hok Hlive.
  - exists s. split; [done|]. by apply (Hstop _ _ _ []).
  - simpl in Hok. destruct Hok as (a & Ha & Hc & He & Hf & Hok). destruct Hlive as [|Hlive]; [done|].
    pose proof (seg_at_bounds _ _ Hc) as (Hc0 & Hc1 & Hc2). pose proof (tcplen_at _ _ Hc) as Htl.
    pose proof Hw as [Hn Hed Hwnd Hann Hle Hmss]. pose proof Hc as [Hseq Hpc].
    simpl. rewrite Hn, Hseq, seq_eq by (unfold near; lia). destruct (Z.eqb_spec a R) as [->|Hne].
    2:{ exists s. split; [done|]. apply (Hstop _ _ _ (c :: q)); try done. exists a. split_and!; try done; lia. }
    destruct (recv_one_ok c q s R E Hw Hq Hc He) as (s1 & -> & W1 & Q1 & D1 & P1 & F1 & T1 & K1).
    cbn [mbind outcome_bind].
    assert (upto R = R /\ upto (R + seg_len c) = R + seg_len c) as [_ Hl].
    { split; [done|]. pose proof (pc_end _ _ _ _ Hpc) as Hend. unfold upto. destruct fin as [F|]; [|done].
      specialize (Hend F eq_refl). lia. }
    destruct (IH s1 (R + TCP_TCPLEN c) E W1 Q1) as (s2 & -> & A2).
    + destruct (has (seg_flags c) TCP_FIN); [by rewrite Hf|]. by rewrite Htl, Z.add_0_r.
    + destruct (has (seg_flags c) TCP_FIN); [left; by apply Hf|]. right. by rewrite Htl, Z.add_0_r.
    + exists s2. split; [done|]. eapply advance_cons; try done. intros HF. by rewrite (Hf HF).
Qed.

(** ** A segment that is next in sequence *)

(** The incoming segment is the piece at [a]. *)
Record incoming (a : Z) s : Prop := {
  in_seq : seqno s = u32 a;
  in_hseq : i_seqno s = u32 a;
  in_piece : exists p, i_p s = Some p /\ p <> [] /\ piece a (i_len s) (i_flags s) p }.

(** [drop_covered] changes no more than the flags, the length and the pool. *)
Definition relabel (f t k : Z) s : input N := set_segs_avail k (set_tcplen t (set_i_flags f s)).
Lemma relabel_id s : s = relabel (i_flags s) (tcplen s) (segs_avail s) s.
Proof. by destruct s. Qed.

Lemma drop_covered_ok q : forall lo hi R s p, queue_ok lo hi q -> seqno s = u32 R -> R <= lo -> hi <= R + 0xffff ->
  piece R (i_len s) (i_flags s) p -> tcplen s = tcp_len (i_len s) (i_flags s) -> R + tcplen s <= hi ->
  (has (i_flags s) TCP_FIN = true -> q = []) ->
  exists f t k q1, drop_covered q s = (q1, relabel f t k s) /\ piece R (i_len s) f p /\
    t = tcp_len (i_len s) f /\ tcplen s <= t /\ R + t <= hi /\ (has f TCP_FIN = true -> q1 = []) /\
    k + Z.of_nat (length q1) = segs_avail s + Z.of_nat (length q) /\
    match q1 with
    | [] => True
    | n :: q' => exists b, lo <= b /\ seg_at b n /\ b + TCP_TCPLEN n <= hi /\
        (has (seg_flags n) TCP_FIN = true -> q' = []) /\ queue_ok (b + seg_len n) hi q' /\
        R + i_len s < b + seg_len n
    end.
Proof.
  induction q as [|n q IH]; intros lo hi R s p Hok Hs Hlo Hhi Hp Ht He Hf.
  - exists (i_flags s), (tcplen s), (segs_avail s), []. simpl. split; [by rewrite <- relabel_id|].
    split_and!; try done; try lia.
  - pose proof Hok as (b & Hb & Hn & Hbe & Hnf & Hq). pose proof (seg_at_bounds _ _ Hn) as (Hn0 & Hn1 & Hn2).
    pose proof (piece_tcplen _ _ _ _ Hp) as Htl. pose proof (pc_len _ _ _ _ Hp) as Hl.
    assert (has (i_flags s) TCP_FIN = false) as HF.
    { destruct (has (i_flags s) TCP_FIN); [|done]. by specialize (Hf eq_refl). }
    rewrite HF in Htl. rewrite Z.add_0_r in Htl.
    simpl. rewrite Hs, (proj1 Hn). autorewrite with seq. rewrite seq_geq by (unfold near; lia).
    destruct (Z.leb_spec (b + seg_len n) (R + tcplen s)) as [Hcov|Hcov].
    2:{ exists (i_flags s), (tcplen s), (segs_avail s), (n :: q). split; [by rewrite <- relabel_id|].
        split_and!; try done; try lia.
        exists b. split_and!; try done. lia. }
    rewrite (pc_syn _ _ _ _ Hp), andb_true_r. destruct (has (seg_flags n) TCP_FIN) eqn:Hnfin.
    + (* the FIN is taken over: the queue ends here *)
      rewrite (Hnf eq_refl). simpl.
      destruct (covered_fin _ _ _ _ _ _ Hp Hn Hnfin) as (Hp2 & Ht2 & Ht3); [lia|].
      exists (Z.lor (i_flags s) TCP_FIN), (tcp_len (i_len s) (Z.lor (i_flags s) TCP_FIN)), (segs_avail s + 1), [].
      split; [|split_and!; try done; simpl; lia].
      unfold relabel. simpl. rewrite u16_small by lia. done.
    + destruct (IH lo hi R (tcp_seg_free s) p) as (f & t & k & q1 & -> & H); try done.
      * eapply queue_weaken; [| |exact Hq]; lia.
      * simpl. by rewrite HF.
      * destruct H as (H1 & H2 & H3 & H4 & H5 & H6 & H7). exists f, t, k, q1.
        split; [done|]. split_and!; try done. simpl in *. lia.
Qed.

Lemma reach_ge lo hi q : forall x, queue_ok lo hi q -> x <= reach x q.
Proof.
  revert lo. induction q as [|g q IH]; intros lo x; simpl; [lia|]. intros (a & _ & Hg & _ & _ & Hq).
  pose proof (seg_at_bounds _ _ Hg). destruct (seg_seqno g =? u32 x); [|lia].
  specialize (IH _ (x + TCP_TCPLEN g) Hq). lia.
Qed.

(** The piece left of the incoming segment at [R] and the queue behind it. *)
Record aligned (R E : Z) s : Prop := {
  al_in : incoming R s;
  al_len : tcplen s = tcp_len (i_len s) (i_flags s);
  al_edge : R + tcplen s <= E;
  al_queue : queue_ok (R + i_len s) E (ooseq (rcv (pcb s)));
  al_fin : has (i_flags s) TCP_FIN = true -> ooseq (rcv (pcb s)) = [] }.

(** Facts on states that differ in known fields. *)
Ltac fields Hw :=
  split_and!; try done; try lia; try (destruct Hw; by split);
  try (unfold segs_total; simpl in *; lia); try (by rest).

Lemma recv_against_ok R E s : window_ok R E (pcb s) -> incoming R s ->
  tcplen s = tcp_len (i_len s) (i_flags s) -> R + tcplen s <= E ->
  queue_ok (R + 1) E (ooseq (rcv (pcb s))) ->
  exists s1, recv_against_ooseq s = Ret s1 /\ aligned R E s1 /\ window_ok R E (pcb s1) /\
    R + tcplen s <= reach (R + tcplen s1) (ooseq (rcv (pcb s1))) /\
    rcv_wnd (rcv (pcb s1)) = rcv_wnd (rcv (pcb s)) /\ segs_total s1 = segs_total s /\
    recv_data s1 = recv_data s /\ recv_flags s1 = recv_flags s /\ rest_same s s1.
Proof.
  intros Hw Hin Ht He Hq. pose proof Hin as [Hs Hhs (p & Hip & Hne & Hp)].
  pose proof (piece_tcplen _ _ _ _ Hp) as Htl. pose proof (pc_len _ _ _ _ Hp) as Hl.
  pose proof (pc_pos _ _ _ _ Hp) as Hpos. pose proof Hw as [Hn Hed Hwnd Hann Hle Hmss].
  unfold recv_against_ooseq. case_bool_decide as Hnil.
  { exists s. split; [done|]. rewrite Hnil in *. split; [by split; rewrite ?Hnil|]. simpl.
    split_and!; try done; try lia. apply rest_refl. }
  destruct (has (i_flags s) TCP_FIN) eqn:HF.
  { eexists. split; [done|]. split; [split; try done; split; try done; by exists p|]. simpl.
    fields Hw. }
  destruct (drop_covered_ok (ooseq (rcv (pcb s))) (R + 1) E R s p) as
    (f & t & k & q1 & -> & Hpf & -> & Htt & Hte & Hff & Hk & Hq1); try done; try lia; [by rewrite HF|].
  pose proof (piece_tcplen _ _ _ _ Hpf) as Hfl.
  destruct q1 as [|n q'].
  - eexists. split; [done|]. split; [split; try done; split; try done; by exists p|]. simpl in *.
    fields Hw.
  - destruct Hq1 as (b & Hb & Hbn & Hbe & Hnf & Hbq & Hcov). pose proof (seg_at_bounds _ _ Hbn) as (Hn0 & Hn1 & Hn2).
    assert (has f TCP_FIN = false) as Hf0 by (destruct (has f TCP_FIN); [by specialize (Hff eq_refl)|done]).
    rewrite Hf0, Z.add_0_r in Hfl.
    cbn [seqno tcplen relabel set_segs_avail set_tcplen set_i_flags i_flags i_p i_len].
    rewrite Hs, (proj1 Hbn). autorewrite with seq. rewrite seq_gt by (unfold near; lia).
    destruct (Z.ltb_spec b (R + tcp_len (i_len s) f)) as [Hov|Hov].
    + (* cut the end *)
      simpl. rewrite (pc_syn _ _ _ _ Hpf). simpl. rewrite Hip. simpl. rewrite u16_distance by lia.
      pose proof (piece_trim _ _ _ _ (b - R) Hpf) as Hpt. specialize (Hpt ltac:(lia) Hf0).
      pose proof (piece_tcplen _ _ _ _ Hpt) as Htt'. rewrite Hf0, Z.add_0_r in Htt'.
      rewrite Htt', u16_small, Hs by lia. autorewrite with seq. replace (R + (b - R)) with b by lia.
      rewrite Z.eqb_refl. simpl. eexists. split; [done|].
      split; [split; simpl; try done; try lia|].
      * split; try done. exists (chain_realloc p (b - R)). split; [done|].
        split; [by apply chain_realloc_ne|done].
      * exists b. split; [lia|]. done.
      * simpl. replace (R + (b - R)) with b by lia. rewrite (proj1 Hbn), Z.eqb_refl.
        assert (R + tcplen s <= reach (b + TCP_TCPLEN n) q') as Hr.
        { pose proof (reach_ge _ _ _ (b + TCP_TCPLEN n) Hbq). lia. }
        fields Hw.
    + simpl. eexists. split; [done|]. split; [split; simpl; try done; try lia|].
      * split; try done. by exists p.
      * exists b. split; [lia|]. done.
      * simpl. assert (R + tcplen s <= reach (R + tcp_len (i_len s) f) (n :: q')) as Hr.
        { etransitivity; [|apply (reach_ge b E)]; [lia|]. exists b. split; [lia|done]. }
        simpl in Hr. fields Hw.
Qed.

Lemma recv_deliver_ok R E s : window_ok R E (pcb s) -> aligned R E s -> recv_data s = None ->
  exists s1, recv_deliver s = Ret s1 /\ window_ok (R + tcplen s) E (pcb s1) /\
    ooseq (rcv (pcb s1)) = ooseq (rcv (pcb s)) /\
    rcv_wnd (rcv (pcb s1)) = rcv_wnd (rcv (pcb s)) - tcplen s /\
    passed s1 = passed s ++ stream R (i_len s) /\
    has (recv_flags s1) TF_GOT_FIN = has (recv_flags s) TF_GOT_FIN || has (i_flags s) TCP_FIN /\
    segs_total s1 = segs_total s /\ rest_same s s1.
Proof.
  intros Hw [[Hs _ (p & Hip & _ & Hp)] Ht He _ _] Hd. pose proof Hw as [Hn Hed Hwnd Hann Hle Hmss].
  pose proof (pc_pos _ _ _ _ Hp) as Hpos. unfold recv_deliver. rewrite Hs, u32_add_l.
  rewrite (proj2 (Z.leb_le (tcplen s) _)) by (simpl; lia). cbn [lwip_assert mbind outcome_bind].
  destruct (step_ann R E s (tcplen s) Hw) as (a & Hu & Hok); [lia|done|].
  unfold upd in *. simpl in *. rewrite Hu. cbn [mbind outcome_bind]. simpl. rewrite Hip. simpl.
  eexists. split; [done|]. clear Hu Hw.
  assert (tot_len p = i_len s) as Htot.
  { unfold tot_len. rewrite (pc_data _ _ _ _ Hp). apply length_stream. apply Hp. }
  assert (passed s = []) as Hnone by (unfold passed; by rewrite Hd).
  pose proof (pc_data _ _ _ _ Hp) as Hdata. pose proof (pc_len _ _ _ _ Hp) as Hlen.
  rewrite Hnone. simpl.
  destruct (Z.ltb_spec 0 (tot_len p)); simpl; destruct (has (i_flags s) TCP_FIN); simpl;
    rewrite ?got_fin_set, ?orb_true_r, ?orb_false_r; (split_and!; try done);
    try (by destruct Hok; split); try (by rest);
    unfold passed; simpl; rewrite ?Hd; simpl; rewrite ?stream_nil by lia; done.
Qed.

Lemma advances_flags R E s R' s' f : (f = tcp_ack \/ f = tcp_ack_now) -> advances R E s R' s' ->
  advances R E s R' (upd f s').
Proof.
  intros Hf [W Q L D P F Z T K]. unfold rest_same in K.
  assert (exists v, f (pcb s') = set_flags v (pcb s')) as [v Hv].
  { destruct Hf as [-> | ->]; [|eexists; reflexivity]. unfold tcp_ack, tcp_ack_now, tcp_set_flags, tcp_clear_flags, set_flags.
    destruct (has (flags (pcb s')) TF_ACK_DELAY); simpl; eexists; reflexivity. }
  unfold upd. rewrite Hv. split; try done. by destruct W.
Qed.

(** The incoming segment is next in sequence. *)
Lemma recv_in_order_ok R E s : window_ok R E (pcb s) -> incoming R s ->
  R + tcp_len (i_len s) (i_flags s) <= E -> queue_ok (R + 1) E (ooseq (rcv (pcb s))) -> upto R = R ->
  recv_data s = None ->
  exists s' R', recv_in_order s = Ret s' /\ advances R E s R' s' /\ R + tcp_len (i_len s) (i_flags s) <= R'.
Proof.
  intros Hw Hin He Hq Hlive Hd. unfold recv_in_order.
  pose proof Hw as [Hn Hed Hwnd Hann Hle Hmss]. pose proof Hin as [Hs Hhs (p & Hip & Hne & Hp)].
  pose proof (pc_pos _ _ _ _ Hp). rewrite u16_small by lia.
  set (s0 := set_tcplen (tcp_len (i_len s) (i_flags s)) s).
  assert (recv_fit_window s0 = Ret s0) as ->.
  { unfold recv_fit_window. simpl. by rewrite (proj2 (Z.ltb_ge _ _)) by lia. }
  cbn [mbind outcome_bind].
  destruct (recv_against_ok R E s0) as (s1 & -> & A1 & W1 & R1 & D1 & T1 & P1 & F1 & K1); try done.
  { split; try done. by exists p. }
  cbn [mbind outcome_bind].
  assert (recv_data s1 = None) as Hd1.
  { by rewrite P1. }
  destruct (recv_deliver_ok R E s1 W1 A1 Hd1) as (s2 & -> & W2 & Q2 & D2 & P2 & F2 & T2 & K2).
  cbn [mbind outcome_bind]. destruct A1 as [[_ _ (p1 & _ & _ & Hp1)] L1 E1 Q1 HF1].
  pose proof (piece_tcplen _ _ _ _ Hp1) as Htl1.
  rewrite <- Q2 in Q1, HF1, R1.
  destruct (recv_ready_ok (ooseq (rcv (pcb s2))) s2 (R + tcplen s1) E W2 eq_refl) as (s3 & -> & A3).
  { destruct (has (i_flags s1) TCP_FIN) eqn:HF; [by rewrite HF1|]. by rewrite L1, Htl1, Z.add_0_r. }
  { destruct (has (i_flags s1) TCP_FIN) eqn:HF; [left; by apply HF1|]. right. rewrite L1, Htl1, Z.add_0_r.
    pose proof (pc_end _ _ _ _ Hp1) as Hend. unfold upto. destruct fin as [F|]; [|done].
    specialize (Hend F eq_refl). lia. }
  cbn [mbind outcome_bind]. do 2 eexists. split; [done|]. split; [|exact R1].
  apply advances_flags; [by left|]. rewrite L1 in *.
  apply (advance_cons R E s (i_len s1) (i_flags s1) p1 s2); try done.
  all: try (rewrite D2, D1; done). all: try (rewrite P2; unfold passed; by rewrite P1). all: try (by rewrite F2, F1).
  all: try (by rewrite T2, T1). all: try (by eapply rest_trans).
  all: try (intros HF; by rewrite (HF1 HF)).
Qed.

(** ** A segment ahead of sequence *)

Lemma oos_drop_ok q : forall a hi cseg s, queue_ok (a + 1) hi q -> seqno s = u32 a -> hi <= a + 0xffff ->
  seg_at a cseg -> a + TCP_TCPLEN cseg <= hi -> (has (seg_flags cseg) TCP_FIN = true -> q = []) ->
  exists f k q1, oos_drop cseg q s = (set_seg_flags f cseg, q1, set_segs_avail k s) /\
    seg_at a (set_seg_flags f cseg) /\ a + TCP_TCPLEN (set_seg_flags f cseg) <= hi /\
    (has f TCP_FIN = true -> q1 = []) /\
    k + Z.of_nat (length q1) = segs_avail s + Z.of_nat (length q) /\
    match q1 with
    | [] => True
    | n :: q' => exists b, a + 1 <= b /\ seg_at b n /\ b + TCP_TCPLEN n <= hi /\
        (has (seg_flags n) TCP_FIN = true -> q' = []) /\ queue_ok (b + seg_len n) hi q' /\
        a + seg_len cseg < b + seg_len n
    end.
Proof.
  induction q as [|n q IH]; intros a hi cseg s Hok Hs Hhi Hc He Hf.
  - exists (seg_flags cseg), (segs_avail s), []. destruct cseg, s. split; [done|]. by split_and!.
  - pose proof Hok as (b & Hb & Hn & Hbe & Hnf & Hq). pose proof (seg_at_bounds _ _ Hn) as (Hn0 & Hn1 & Hn2).
    pose proof (seg_at_bounds _ _ Hc) as (Hc0 & Hc1 & Hc2).
    simpl. rewrite Hs, (proj1 Hn). autorewrite with seq. rewrite seq_geq by (unfold near; lia).
    destruct (Z.leb_spec (b + seg_len n) (a + seg_len cseg)) as [Hcov|Hcov].
    2:{ exists (seg_flags cseg), (segs_avail s), (n :: q). split; [by destruct cseg, s|].
        replace (set_seg_flags (seg_flags cseg) cseg) with cseg by (by destruct cseg).
        split_and!; try done. exists b. split_and!; try done; lia. }
    destruct (has (seg_flags n) TCP_FIN) eqn:Hnfin.
    + rewrite (Hnf eq_refl). simpl. destruct Hc as [Hcs Hcp].
      destruct (covered_fin _ _ _ _ _ _ Hcp Hn Hnfin) as (Hp2 & Ht2 & Ht3); [lia|].
      exists (Z.lor (seg_flags cseg) TCP_FIN), (segs_avail s + 1), []. split; [done|].
      split_and!; try done; simpl; [|lia]. unfold TCP_TCPLEN at 1. simpl. lia.
    + destruct (IH a hi cseg (tcp_seg_free s)) as (f & k & q1 & -> & H1 & H2 & H3 & H4 & H5); try done.
      * eapply queue_weaken; [| |exact Hq]; lia.
      * intros HF. by specialize (Hf HF).
      * exists f, k, q1. split; [done|]. split_and!; try done. simpl in *. lia.
Qed.

Lemma seg_trim a g k : seg_at a g -> 0 < k <= seg_len g -> has (seg_flags g) TCP_FIN = false ->
  seg_at a (set_seg_p (chain_realloc (seg_p g) k) (set_seg_len k g)) /\
  TCP_TCPLEN (set_seg_p (chain_realloc (seg_p g) k) (set_seg_len k g)) = k.
Proof.
  intros [Hs Hp] Hk HF. assert (seg_at a (set_seg_p (chain_realloc (seg_p g) k) (set_seg_len k g))) as H.
  { split; [done|]. simpl. by apply (piece_trim _ (seg_len g)). }
  split; [done|]. rewrite (tcplen_at _ _ H). simpl. rewrite HF. lia.
Qed.

(** The queue with the new segment in front. *)
Lemma oos_insert_ok a hi q cseg s : queue_ok (a + 1) hi q -> seqno s = u32 a -> hi <= a + 0xffff ->
  seg_at a cseg -> a + TCP_TCPLEN cseg <= hi ->
  exists r k, tcp_oos_insert_segment cseg q s = (r, set_segs_avail k s) /\ queue_ok a hi r /\
    k + Z.of_nat (length r) = segs_avail s + 1 + Z.of_nat (length q).
Proof.
  intros Hq Hs Hhi Hc He. pose proof (seg_at_bounds _ _ Hc) as (Hc0 & Hc1 & Hc2).
  unfold tcp_oos_insert_segment. destruct (has (seg_flags cseg) TCP_FIN) eqn:HF.
  { do 2 eexists. split; [done|]. simpl. split; [|lia]. exists a. split_and!; try done; lia. }
  destruct (oos_drop_ok q a hi cseg s) as (f & k & q1 & -> & H1 & H2 & H3 & H4 & H5); try done; [by rewrite HF|].
  destruct q1 as [|n q'].
  { do 2 eexists. split; [done|]. simpl in *. split; [|lia]. exists a. split_and!; try done; lia. }
  destruct H5 as (b & Hb & Hn & Hbe & Hnf & Hbq & Hcov). simpl. rewrite Hs, (proj1 Hn). autorewrite with seq.
  pose proof (seg_at_bounds _ _ Hn). pose proof (seg_at_bounds _ _ H1) as Hb1. simpl in Hb1.
  rewrite seq_gt by (unfold near; lia).
  assert (has f TCP_FIN = false) as Hf0 by (destruct (has f TCP_FIN); [by specialize (H3 eq_refl)|done]).
  destruct (Z.ltb_spec b (a + seg_len cseg)) as [Hov|Hov]; do 2 eexists; (split; [done|]); simpl in *;
    (split; [|lia]).
  - rewrite u16_distance by lia. destruct (seg_trim a (set_seg_flags f cseg) (b - a) H1) as [Hg Hgt]; simpl; [lia|done|].
    simpl in Hg, Hgt. exists a. split_and!; try done; try lia; try (by rewrite Hf0). exists b. simpl.
    split_and!; try done. lia.
  - exists a. split_and!; try done; try lia; try (by rewrite Hf0). exists b. by split_and!.
Qed.

(** A segment of the same sequence number is replaced by a longer one. *)
Lemma oos_replace_ok a hi n q cseg s : seg_at a n -> seg_len n < seg_len cseg ->
  a + TCP_TCPLEN n <= hi -> (has (seg_flags n) TCP_FIN = true -> q = []) -> queue_ok (a + seg_len n) hi q ->
  seqno s = u32 a -> hi <= a + 0xffff -> seg_at a cseg -> a + TCP_TCPLEN cseg <= hi ->
  exists r k, tcp_oos_insert_segment cseg (n :: q) s = (r, set_segs_avail k s) /\ queue_ok a hi r /\
    k + Z.of_nat (length r) = segs_avail s + 1 + Z.of_nat (length (n :: q)).
Proof.
  intros Hn Hlt Hne Hnf Hq Hs Hhi Hc He. pose proof (seg_at_bounds _ _ Hn) as (Hn0 & Hn1 & Hn2).
  pose proof (seg_at_bounds _ _ Hc) as (Hc0 & Hc1 & Hc2).
  destruct (has (seg_flags n) TCP_FIN) eqn:Hnfin.
  { (* the stream ends with the shorter segment *)
    destruct Hn as [_ Hn], Hc as [_ Hc]. pose proof (pc_end _ _ _ _ Hc _ (pc_fin _ _ _ _ Hn Hnfin)). lia. }
  pose proof (tcplen_at _ _ Hn) as Htl. rewrite Hnfin in Htl.
  destruct (oos_insert_ok a hi q cseg (tcp_seg_free s)) as (r & k & Hr & Hok & Hk); try done.
  { eapply queue_weaken; [| |exact Hq]; lia. }
  exists r, k. simpl in Hk |- *. split; [|split; [done|lia]]. revert Hr. unfold tcp_oos_insert_segment.
  destruct (has (seg_flags cseg) TCP_FIN).
  - intros [= <- <-]. unfold tcp_segs_free, segs_freed. simpl. do 2 f_equal. lia.
  - simpl. rewrite Hs, (proj1 Hn). autorewrite with seq. rewrite seq_geq by (unfold near; lia).
    rewrite (proj2 (Z.leb_le _ _)), Hnfin by lia. intros ->. done.
Qed.

Lemma trim_prev_ok a b hi pv s : seg_at b pv -> b < a -> has (seg_flags pv) TCP_FIN = false ->
  seqno s = u32 a -> a <= b + 0xffff -> b + TCP_TCPLEN pv <= hi -> hi <= a + 0xffff ->
  seg_at b (trim_prev pv s) /\ has (seg_flags (trim_prev pv s)) TCP_FIN = false /\
  b + seg_len (trim_prev pv s) <= a /\ b + TCP_TCPLEN (trim_prev pv s) <= hi.
Proof.
  intros Hp Hb HF Hs Hn He Hhi. pose proof (seg_at_bounds _ _ Hp) as (Hp0 & Hp1 & Hp2). unfold trim_prev.
  rewrite Hs, (proj1 Hp). autorewrite with seq. rewrite seq_gt by (unfold near; lia).
  destruct (Z.ltb_spec a (b + seg_len pv)) as [Hov|Hov]; [|split_and!; done].
  rewrite u16_distance by lia. destruct (seg_trim b pv (a - b) Hp) as [Hg Hgt]; [lia|done|].
  split_and!; try done; simpl; lia.
Qed.

(** [tcp_seg_copy] of the incoming segment. *)
Lemma seg_copy_ok a s : incoming a s ->
  exists c, tcp_seg_copy s = Ret (c, set_segs_avail (segs_avail s - Z.of_nat (length (option_list c))) s) /\
    match c with
    | Some g => seg_at a g /\ seg_len g = i_len s /\ TCP_TCPLEN g = tcp_len (i_len s) (i_flags s)
    | None => True
    end.
Proof.
  intros [Hs Hhs (p & Hip & Hne & Hp)]. unfold tcp_seg_copy. destruct (segs_avail s <=? 0).
  - exists None. split; [|done]. simpl. rewrite Z.sub_0_r. by destruct s.
  - rewrite Hip. simpl. eexists (Some _). split; [done|]. by split_and!.
Qed.

(** The walk stands before [q], [prev] at position [b] lies before [a]. *)
Definition after (b : Z) (prev : option tcp_seg) : Z :=
  match prev with Some pv => b + seg_len pv | None => b end.
Definition walk_ok (b lo hi a : Z) (prev : option tcp_seg) (q : list tcp_seg) : Prop :=
  queue_ok (after b prev) hi q /\ lo <= b /\
  match prev with
  | Some pv => b < a /\ seg_at b pv /\ b + TCP_TCPLEN pv <= hi /\ has (seg_flags pv) TCP_FIN = false
  | None => True
  end.

Lemma walk_push b lo hi a prev q x r : walk_ok b lo hi a prev q -> after b prev <= x -> queue_ok x hi r ->
  queue_ok lo hi (option_list prev ++ r).
Proof.
  intros (_ & Hlo & Hp) Hx Hr. destruct prev as [pv|]; simpl in *.
  - destruct Hp as (Hb & Hpv & He & Hf). exists b. rewrite Hf. split_and!; try done.
    eapply queue_weaken; [exact Hx|reflexivity|done].
  - eapply queue_weaken; [|reflexivity|done]. lia.
Qed.
Lemma walk_trim b lo hi a prev q r s : walk_ok b lo hi a prev q -> lo <= a -> seqno s = u32 a ->
  a <= hi -> hi <= lo + 0xffff ->
  queue_ok a hi r -> queue_ok lo hi (option_list ((fun pv => trim_prev pv s) <$> prev) ++ r).
Proof.
  intros (_ & Hlo & Hp) Hla Hs Ha Hhi Hr. destruct prev as [pv|]; simpl in *.
  - destruct Hp as (Hb & Hpv & He & Hf). destruct (trim_prev_ok a b hi pv s) as (H1 & H2 & H3 & H4); try done; try lia.
    exists b. rewrite H2. split_and!; try done. by eapply queue_weaken; [| |exact Hr].
  - by eapply queue_weaken; [| |exact Hr].
Qed.

Lemma oos_walk_ok q : forall prev b lo hi W a s, walk_ok b lo hi a prev q -> incoming a s ->
  tcplen s = tcp_len (i_len s) (i_flags s) -> lo <= a -> a + tcplen s <= hi -> hi <= W <= lo + 0xffff ->
  u32 (rcv_nxt (rcv (pcb s)) + rcv_wnd (rcv (pcb s))) = u32 W -> q <> [] ->
  exists r k, oos_walk prev q s = Ret (r, set_segs_avail k s) /\ queue_ok lo hi r /\
    k + Z.of_nat (length r) = segs_avail s + Z.of_nat (length (option_list prev ++ q)).
Proof.
  induction q as [|n q IH]; intros prev b lo hi W a s Hwk Hin Ht Hla He HW Hedge Hne; [done|]. clear Hne.
  pose proof Hin as [Hs Hhs (p & Hip & Hpne & Hp)]. pose proof (pc_pos _ _ _ _ Hp) as Hpos.
  pose proof Hwk as (Hq & Hb & Hprev).
  pose proof Hq as (c & Hc & Hn & Hne & Hnf & Hq'). pose proof (seg_at_bounds _ _ Hn) as (Hn0 & Hn1 & Hn2).
  assert (lo <= after b prev /\ match prev with Some pv => b < a /\ b < c | None => True end) as [Hlc Hbc].
  { destruct prev as [pv|]; simpl in *; [|by split; lia]. destruct Hprev as (H1 & H2 & H3 & H4).
    pose proof (tcplen_at _ _ H2) as H5. rewrite H4 in H5. pose proof (seg_at_bounds _ _ H2). lia. }
  destruct (seg_copy_ok a s Hin) as (cs & Hcopy & Hcs).
  assert (exists r k, Ret (option_list prev ++ n :: q, s) = Ret (r, set_segs_avail k s) /\ queue_ok lo hi r /\
    k + Z.of_nat (length r) = segs_avail s + Z.of_nat (length (option_list prev ++ n :: q))) as Hsame.
  { exists (option_list prev ++ n :: q), (segs_avail s). split; [by destruct s|]. split; [|done].
    by eapply (walk_push b lo hi a prev (n :: q) c); [| |exists c]. }
  cbn [oos_walk]. rewrite Hcopy, Hs, (proj1 Hn). rewrite seq_eq by (unfold near; lia).
  destruct (Z.eqb_spec a c) as [<-|Hac].
  - (* the same position *)
    destruct (Z.ltb_spec (seg_len n) (i_len s)) as [Hlt|]; [|done].
    destruct cs as [g|]; cbn [mbind outcome_bind]; [|simpl; rewrite Z.sub_0_r; by destruct s].
    destruct Hcs as (Hg & Hgl & Hgt). change (Z.of_nat (length (option_list (Some g)))) with 1.
    destruct (oos_replace_ok a hi n q g (set_segs_avail (segs_avail s - 1) s)) as (r & k & -> & Hr & Hk);
      try done; try lia.
    exists (option_list prev ++ r), k. split; [done|]. split; [by eapply walk_push|].
    rewrite !length_app in *. simpl in *. lia.
  - assert ((match prev with
             | Some pv => TCP_SEQ_BETWEEN (u32 a) (u32 (seg_seqno pv + 1)) (u32 (u32 c - 1))
             | None => TCP_SEQ_LT (u32 a) (u32 c)
             end) = (a <? c)) as ->.
    { destruct prev as [pv|]; [|apply seq_lt; unfold near; lia]. destruct Hprev as (_ & [-> _] & _).
      autorewrite with seq. rewrite seq_between by (unfold near; lia).
      destruct (Z.ltb_spec a c), (Z.leb_spec (b + 1) a), (Z.leb_spec a (c - 1)); simpl; lia. }
    destruct (Z.ltb_spec a c) as [Hlt|Hge].
    + (* before [n] *)
      destruct cs as [g|]; cbn [mbind outcome_bind]; [|simpl; rewrite Z.sub_0_r; by destruct s].
      destruct Hcs as (Hg & Hgl & Hgt). change (Z.of_nat (length (option_list (Some g)))) with 1.
      destruct (oos_insert_ok a hi (n :: q) g (set_segs_avail (segs_avail s - 1) s)) as (r & k & -> & Hr & Hk);
        try done; try lia; [exists c; split_and!; try done; lia|].
      eexists _, k. split; [done|]. split; [eapply walk_trim; try done; lia|].
      rewrite !length_app in *. destruct prev; simpl in *; lia.
    + rewrite seq_gt by (unfold near; lia). rewrite (proj2 (Z.ltb_lt c a)), andb_true_r by lia.
      case_bool_decide as Hlast.
      * (* behind the last one *)
        subst q. destruct (has (seg_flags n) TCP_FIN) eqn:HF; [done|].
        destruct cs as [g|]; cbn [mbind outcome_bind]; [|simpl; rewrite Z.sub_0_r; by destruct s].
        destruct Hcs as (Hg & Hgl & Hgt). change (Z.of_nat (length (option_list (Some g)))) with 1.
        set (s1 := set_segs_avail _ s).
        assert (trim_last g s1 = Ret (g, s1)) as ->.
        { unfold trim_last. subst s1. simpl. rewrite Hedge, Hs. autorewrite with seq.
          rewrite seq_gt by (unfold near; lia). by rewrite (proj2 (Z.ltb_ge _ _)) by lia. }
        cbn [mbind outcome_bind]. eexists _, _. split; [done|].
        destruct (trim_prev_ok a c hi n s1) as (H1 & H2 & H3 & H4); try done; try lia.
        split; [|rewrite !length_app; simpl; lia].
        eapply (walk_push b lo hi a prev [n] c); [done|done|]. exists c. rewrite H2. split_and!; try done.
        exists a. split_and!; try done. lia.
      * destruct (IH (Some n) c (after b prev) hi W a s) as (r & k & -> & Hr & Hk); try done; try lia.
        { split; [done|]. split; [done|]. split_and!; try done; try lia.
          destruct (has (seg_flags n) TCP_FIN); [|done]. by specialize (Hnf eq_refl). }
        cbn [mbind outcome_bind]. eexists _, k. split; [done|].
        split; [eapply (walk_push b lo hi a prev); [exact Hwk|reflexivity|done]|].
        rewrite !length_app in *. simpl in *. lia.
Qed.

(** ** The text half of [tcp_receive] *)

(** An empty ACK is sent or not: the edge may move, the rest is the same. *)
Lemma send_empty_ack_ok R E s : window_ok R E (pcb s) ->
  exists E' fl n, (tcp_send_empty_ack s).2 = set_net n (upd (set_flags fl) (upd (set_rcv_ann_right_edge (u32 E')) s)) /\
    E <= E' <= R + rcv_ann_wnd (rcv (pcb s)).
Proof.
  intros [Hn Hed Hwnd Hann Hle Hmss]. unfold tcp_send_empty_ack, tcp_output_alloc_header.
  destruct (hdr_alloc (net s)) as [[] n]; simpl.
  - destruct (output_control n _ _ _) as [err n']. simpl. rewrite Hn. autorewrite with seq.
    exists (R + rcv_ann_wnd (rcv (pcb s))). destruct (decide _); eexists _, n'; (split; [reflexivity|lia]).
  - exists E, (u16 (Z.lor (flags (pcb s)) (Z.lor TF_ACK_DELAY TF_ACK_NOW))), n. split; [|lia]. rewrite <- Hed.
    by destruct s as [[? ? ? ? ? ? ? ? ? []]].
Qed.

Lemma advances_ack R E s R' s' : advances R E s R' s' ->
  exists E', E <= E' /\ advances R E' s R' (tcp_send_empty_ack s').2.
Proof.
  intros [W Q L D P F Z T K]. destruct (send_empty_ack_ok R' E s' W) as (E' & fl & n & -> & HE).
  exists E'. split; [lia|]. destruct W as [Hn Hed Hwnd Hann Hle Hmss]. split; try done; simpl in *.
  - split; simpl; try done; lia.
  - by eapply queue_weaken; [| |exact Q]; lia.
Qed.

(** The part of the segment that was received before is cut off. *)
Lemma recv_trim_ok a R s : rcv_nxt (rcv (pcb s)) = u32 R -> incoming a s ->
  tcplen s = tcp_len (i_len s) (i_flags s) -> tcplen s <= 0xffff -> R - 2 ^ 30 <= a <= R + 0xffff ->
  exists s1, recv_trim s = Ret s1 /\
    (if a <? R then
       if R <? a + tcplen s then
         incoming R s1 /\ i_flags s1 = i_flags s /\ i_len s1 = i_len s - (R - a) /\
         exists p l, s1 = set_i_seqno (u32 R) (set_seqno (u32 R) (set_i_p p (set_i_len l s)))
       else s1 = upd tcp_ack_now s
     else s1 = s).
Proof.
  intros Hn [Hs Hhs (p & Hip & Hne & Hp)] Ht Hmax Ha.
  pose proof (piece_tcplen _ _ _ _ Hp) as Htl. pose proof (pc_pos _ _ _ _ Hp) as Hpos.
  pose proof (pc_len _ _ _ _ Hp) as Hl.
  unfold recv_trim. rewrite Hn, Hs. rewrite <- Z.add_sub_assoc. autorewrite with seq.
  rewrite seq_between by (unfold near; lia). rewrite seq_lt by (unfold near; lia).
  destruct (Z.ltb_spec a R) as [HaR|HaR]; [destruct (Z.ltb_spec R (a + tcplen s)) as [HRb|HRb]|].
  - rewrite (proj2 (Z.leb_le (a + 1) R)), (proj2 (Z.leb_le R (a + (tcplen s - 1)))) by lia. simpl.
    rewrite Hip. simpl. rewrite (u32_small (R - a)) by lia. rewrite (proj2 (Z.ltb_lt _ _)) by lia. simpl.
    assert (tot_len p = i_len s) as Htot.
    { unfold tot_len. rewrite (pc_data _ _ _ _ Hp). apply length_stream. lia. }
    assert (R - a <= i_len s <= 0xffff) as Hoff by (destruct (has (i_flags s) TCP_FIN); lia).
    rewrite Htot, (proj2 (Z.leb_le _ _)) by lia. simpl.
    destruct (trim_front_ok p (R - a)) as (p' & -> & Hp' & Hd); [lia|done|]. simpl.
    rewrite u16_small by lia. eexists. split; [done|]. split; [|split; [done|split; [done|by eexists _, _]]].
    split; try done. simpl. exists p'. split; [done|]. split; [done|].
    destruct Hp as [P1 P2 P3 P4 P5 P6]. split; try done; try lia.
    + rewrite Hd, P2. rewrite stream_drop by lia. f_equal; lia.
    + intros HF. rewrite (P4 HF). f_equal. lia.
    + intros F HF. specialize (P5 F HF). lia.
    + rewrite tcp_len_nosyn by done. destruct (has (i_flags s) TCP_FIN); lia.
  - rewrite (proj2 (Z.leb_gt R (a + (tcplen s - 1)))), andb_false_r by lia. by eexists.
  - rewrite (proj2 (Z.leb_gt (a + 1) R)) by lia. by eexists.
Qed.

(** The receiving half of a connection: all before [R] was passed on, the window
    was announced up to [E], the queue holds what lies between. *)
Definition recv_ok (R E : Z) (p : tcp_pcb) : Prop := window_ok R E p /\ queue_ok (R + 1) E (ooseq (rcv p)).

(** The segment that is processed carries the piece of the stream at [a], which may
    repeat what was received and stays within the window. *)
Record arrives (a R E : Z) s : Prop := {
  ar_in : incoming a s;
  ar_len : tcplen s = tcp_len (i_len s) (i_flags s);
  ar_max : tcplen s <= 0xffff;
  ar_past : R - 2 ^ 30 <= a;
  ar_edge : a + tcplen s <= E;
  ar_fresh : recv_data s = None;
  ar_state : state_num (state (pcb s)) < state_num CLOSE_WAIT }.

(** No step, from the same position. *)
Lemma advances_none R E s s' : recv_ok R E (pcb s') -> rcv_wnd (rcv (pcb s')) = rcv_wnd (rcv (pcb s)) ->
  recv_data s' = recv_data s -> recv_flags s' = recv_flags s -> segs_total s' = segs_total s -> rest_same s s' ->
  advances R E s R s'.
Proof.
  intros [Hw Hq] Hwnd Hd Hf Ht Hr. split; try done; try lia.
  - unfold passed. rewrite Hd, stream_nil, app_nil_r; [done|]. unfold upto. destruct fin; lia.
  - rewrite Hf, bool_decide_false, orb_false_r; [done|lia].
Qed.

Lemma recv_out_of_order_ok a R E s : recv_ok R E (pcb s) -> arrives a R E s -> R < a ->
  exists s' E', recv_out_of_order s = Ret s' /\ E <= E' /\ advances R E' s R s'.
Proof.
  intros [Hw Hq] [Hin Ht Hmax Hpast He Hd Hst] Ha. unfold recv_out_of_order.
  pose proof Hw as [Hn Hed Hwnd Hann Hle Hmss]. pose proof Hin as [Hs Hhs (p & Hip & Hne & Hp)].
  pose proof (pc_pos _ _ _ _ Hp) as Hpos.
  assert (exists r k, queue_ok (R + 1) E r /\
    k + Z.of_nat (length r) = segs_avail s + Z.of_nat (length (ooseq (rcv (pcb s)))) /\
    (if bool_decide (ooseq (rcv (pcb s)) = []) then
         '(c, s) ← tcp_seg_copy s; Ret (upd (set_ooseq (option_list c)) s)
       else '(q, s) ← oos_walk None (ooseq (rcv (pcb s))) s; Ret (upd (set_ooseq q) s))
    = Ret (upd (set_ooseq r) (set_segs_avail k s))) as (r & k & Hr & Hk & ->).
  { case_bool_decide as Hnil.
    - destruct (seg_copy_ok a s Hin) as (c & -> & Hc). cbn [mbind outcome_bind]. eexists _, _.
      split; [|split; [|reflexivity]]; [|rewrite Hnil; simpl; lia]. destruct c as [g|]; [|done]. simpl.
      destruct Hc as (Hg & Hgl & Hgt). exists a. split_and!; try done; lia.
    - destruct (oos_walk_ok (ooseq (rcv (pcb s))) None (R + 1) (R + 1) E (R + rcv_wnd (rcv (pcb s))) a s)
        as (r & k & -> & Hr & Hk); try done; try lia.
      + rewrite Hn. by autorewrite with seq.
      + exists r, k. by split_and!. }
  cbn [mbind outcome_bind].
  destruct (advances_ack R E s R (upd (set_ooseq r) (set_segs_avail k s))) as (E' & HE & Hadv).
  - apply advances_none; [split; [by destruct Hw; split|done]|done|done|done|exact Hk|by rest].
  - by exists (tcp_send_empty_ack (upd (set_ooseq r) (set_segs_avail k s))).2, E'.
Qed.

Lemma receive_text_ok a R E s : recv_ok R E (pcb s) -> arrives a R E s -> upto R = R ->
  exists s' R' E', receive_text s = Ret s' /\ E <= E' /\ advances R E' s R' s' /\
    (a <= R -> a + tcplen s <= R').
Proof.
  intros [Hw Hq] Harr Hlive. pose proof Harr as [Hin Ht Hmax Hpast He Hd Hst].
  pose proof Hw as [Hn Hed Hwnd Hann Hle Hmss]. pose proof Hin as [Hs Hhs (p & Hip & Hne & Hp)].
  pose proof (pc_pos _ _ _ _ Hp) as Hpos. unfold receive_text.
  rewrite (proj2 (Z.ltb_lt 0 (tcplen s))), (proj2 (Z.ltb_lt (state_num _) _)) by lia. cbn [andb].
  destruct (recv_trim_ok a R s) as (s1 & -> & Hs1); try done; try lia. cbn [mbind outcome_bind].
  destruct (Z.ltb_spec a R) as [HaR|HaR]; [destruct (Z.ltb_spec R (a + tcplen s)) as [HRb|HRb]|].
  - destruct Hs1 as (Hin1 & Hf1 & Hl1 & p1 & l & ->). simpl in Hl1. subst l. cbn [pcb rcv seqno set_i_seqno set_seqno set_i_p set_i_len].
    rewrite Hn. rewrite <- Z.add_sub_assoc. autorewrite with seq.
    rewrite seq_between by (unfold near; lia). rewrite Z.leb_refl, (proj2 (Z.leb_le R _)), Z.eqb_refl by lia. cbn [andb].
    pose proof (piece_tcplen _ _ _ _ Hp) as Htl. destruct Hin1 as [I1 I2 (p2 & I3 & I4 & I5)].
    pose proof (piece_tcplen _ _ _ _ I5) as Htl1. simpl in I3, I4, I5, Htl1.
    destruct (recv_in_order_ok R E (set_i_seqno (u32 R) (set_seqno (u32 R) (set_i_p p1 (set_i_len (i_len s - (R - a)) s)))))
      as (s' & R' & -> & Hadv & HR'); try done; simpl in *; try lia.
    { split; try done. by exists p2. }
    exists s', R', E. split; [done|]. split; [lia|]. split; [|lia]. destruct Hadv; by split.
  - subst s1. simpl. rewrite Hn, Hs. rewrite <- Z.add_sub_assoc. autorewrite with seq.
    rewrite seq_between by (unfold near; lia). rewrite (proj2 (Z.leb_gt R a)) by lia. cbn [andb].
    destruct (advances_ack R E s R (upd tcp_ack_now s)) as (E' & HE & Hadv).
    + apply advances_flags; [by right|]. apply advances_none; try done. apply rest_refl.
    + exists (tcp_send_empty_ack (upd tcp_ack_now s)).2, R, E'. by split_and!.
  - subst s1. simpl. rewrite Hn, Hs. rewrite <- Z.add_sub_assoc. autorewrite with seq.
    rewrite seq_between by (unfold near; lia). rewrite (proj2 (Z.leb_le R a)), (proj2 (Z.leb_le a _)) by lia. cbn [andb].
    rewrite seq_eq by (unfold near; lia). destruct (Z.eqb_spec R a) as [<-|Hne'].
    + destruct (recv_in_order_ok R E s) as (s' & R' & -> & Hadv & HR'); try done; try lia.
      exists s', R', E. split; [done|]. split; [lia|]. split; [done|lia].
    + destruct (recv_out_of_order_ok a R E s) as (s' & E' & -> & HE & Hadv); try done; [lia|].
      exists s', R, E'. split; [done|]. split; [lia|]. split; [done|lia].
Qed.
End stream.
