(* ===== verification/TcpProps.v ===== *)
(** * What the receive path of TCP promises

    The properties of [TcpRecv] and of the receive window, from the lemmas of
    [TcpStream]: one segment, a burst of segments in any order, the announced
    window, and the case of a peer that ignores it. *)

From S2P Require Import Prelude Chain Tcp TcpRecv TcpStream.

Section props.
  Context (byte_at : Z -> Z) (fin : option Z).
  Context {N : Type} `{!TcpNet N}.
  Implicit Type s : input N.

(** ** A burst of segments *)

(** A segment of the peer: the piece of its stream at [a], at most [2 ^ 30] behind
    the window that ends at [W], and not beyond the announced edge [E]. *)
Definition from_peer (W E : Z) (g : segment) : Prop :=
  exists a, sg_seqno g = u32 a /\ sg_p g <> [] /\
    piece byte_at fin a (tot_len (sg_p g)) (sg_flags g) (sg_p g) /\
    tcp_len (tot_len (sg_p g)) (sg_flags g) <= 0xffff /\ W - 2 ^ 30 <= a /\
    a + tcp_len (tot_len (sg_p g)) (sg_flags g) <= E.

(** The segments are processed one after the other, up to a FIN; the result is
    what is passed on to the application. *)
Fixpoint run (gs : list segment) s : outcome (list Z * input N) :=
  match gs with
  | [] => Ret ([], s)
  | g :: gs' =>
      match tcp_input_len g with
      | None => run gs' s
      | Some t =>
          s ← receive_text (tcp_input_setup g t s);
          if has (recv_flags s) TF_GOT_FIN then Ret (passed s, s)
          else '(out, s') ← run gs' s; Ret (passed s ++ out, s')
      end
  end.

(** How far a receiver without a queue gets. *)
Fixpoint in_order_end (x : Z) (gs : list segment) : Z :=
  match gs with
  | [] => x
  | g :: gs' =>
      let a := x - s32 (x - sg_seqno g) in
      in_order_end (if a <=? x then Z.max x (a + tcp_len (tot_len (sg_p g)) (sg_flags g)) else x) gs'
  end.

Lemma setup_arrives W E R g s : recv_ok byte_at fin R E (pcb s) -> W = R + rcv_wnd (rcv (pcb s)) ->
  from_peer W E g -> state_num (state (pcb s)) < state_num CLOSE_WAIT ->
  exists a t, tcp_input_len g = Some t /\ arrives byte_at fin a R E (tcp_input_setup g t s) /\
    sg_seqno g = u32 a /\ R - s32 (R - sg_seqno g) = a /\ t = tcp_len (tot_len (sg_p g)) (sg_flags g).
Proof.
  intros [Hw _] HW (a & Hs & Hne & Hp & Hmax & Hpast & He) Hst. pose proof (wo_wnd _ _ _ Hw) as Hwnd.
  pose proof (wo_le _ _ _ Hw). pose proof (wo_ann _ _ _ Hw). pose proof (pc_pos _ _ _ _ _ _ Hp) as Hpos.
  pose proof (tot_len_nonneg (sg_p g)) as Hlen.
  assert (tot_len (sg_p g) <= 0xffff) by (unfold tcp_len in *; destruct (has _ _); lia).
  exists a, (tcp_len (tot_len (sg_p g)) (sg_flags g)). split_and!; try done.
  - unfold tcp_input_len. rewrite (u16_small (tot_len (sg_p g))) by lia. unfold tcp_len in *.
    destruct (has _ _); [|f_equal; lia]. rewrite u16_small by lia. by rewrite (proj2 (Z.ltb_ge _ _)) by lia.
  - split; simpl; rewrite ?u16_small by lia; try done; [|lia]. split; try done. simpl. rewrite u16_small by lia.
    by exists (sg_p g).
  - rewrite Hs. replace (R - u32 a) with (R - u32 a) by done. unfold s32. autorewrite with seq. fold (s32 (R - a)).
    rewrite s32_small by lia. lia.
Qed.

Lemma in_order_end_mono W E gs : forall x y, Forall (from_peer W E) gs -> W - 0xffff <= x -> x <= y -> y <= W ->
  E <= W -> in_order_end x gs <= in_order_end y gs.
Proof.
  induction gs as [|g gs IH]; intros x y Hgs Hx Hxy Hy HE; simpl; [done|].
  apply Forall_cons in Hgs as [(a & Hs & _ & Hp & Hmax & Hpast & He) Hgs].
  pose proof (pc_pos _ _ _ _ _ _ Hp) as Hpos.
  assert (forall z, W - 0xffff <= z <= W -> z - s32 (z - sg_seqno g) = a) as Ha.
  { intros z Hz. rewrite Hs. unfold s32. autorewrite with seq. fold (s32 (z - a)). rewrite s32_small by lia. lia. }
  rewrite !Ha by lia. apply IH; try done; destruct (Z.leb_spec a x), (Z.leb_spec a y); lia.
Qed.
(** No segment ends behind the edge. *)
Lemma in_order_end_edge W E gs : forall x, Forall (from_peer W E) gs -> W - 0xffff <= x -> x <= E -> E <= W -> in_order_end x gs <= E.
Proof.
  induction gs as [|g gs IH]; intros x Hgs Hlo Hx HE; simpl; [done|].
  apply Forall_cons in Hgs as [(a & Hs & _ & Hp & Hmax & Hpast & He) Hgs]. pose proof (pc_pos _ _ _ _ _ _ Hp) as Hpos.
  assert (x - s32 (x - sg_seqno g) = a) as ->.
  { rewrite Hs. unfold s32. autorewrite with seq. fold (s32 (x - a)). rewrite s32_small by lia. lia. }
  apply IH; try done; destruct (Z.leb_spec a x); lia.
Qed.
(** No segment ends behind the FIN. *)
Lemma in_order_end_fin W E F gs : fin = Some F -> forall x, Forall (from_peer W E) gs -> x <= F + 1 ->
  W - 0xffff <= x -> F + 1 <= W -> E <= W -> in_order_end x gs <= F + 1.
Proof.
  intros HF. induction gs as [|g gs IH]; intros x Hgs Hx Hlo Hhi HE; simpl; [done|].
  apply Forall_cons in Hgs as [(a & Hs & _ & Hp & Hmax & Hpast & He) Hgs].
  pose proof (pc_end _ _ _ _ _ _ Hp F HF) as Hend. pose proof (pc_pos _ _ _ _ _ _ Hp) as Hpos.
  assert (x - s32 (x - sg_seqno g) = a) as ->.
  { rewrite Hs. unfold s32. autorewrite with seq. fold (s32 (x - a)). rewrite s32_small by lia. lia. }
  assert (a + tcp_len (tot_len (sg_p g)) (sg_flags g) <= F + 1).
  { rewrite (piece_tcplen _ _ _ _ _ _ Hp). destruct (has _ _); lia. }
  apply IH; try done; destruct (Z.leb_spec a x); lia.
Qed.

Lemma run_ok gs : forall W R E E0 s, recv_ok byte_at fin R E (pcb s) -> upto fin R = R ->
  state_num (state (pcb s)) < state_num CLOSE_WAIT -> W = R + rcv_wnd (rcv (pcb s)) -> E0 <= E ->
  Forall (from_peer W E0) gs ->
  exists out s' R' E', run gs s = Ret (out, s') /\ recv_ok byte_at fin R' E' (pcb s') /\ E <= E' /\
    R' + rcv_wnd (rcv (pcb s')) = W /\ out = stream byte_at R (upto fin R' - R) /\ in_order_end R gs <= R' /\
    R <= R' /\ segs_total s' = segs_total s /\ snd (pcb s') = snd (pcb s) /\
    (has (recv_flags s') TF_GOT_FIN = true -> s' = s \/ fin = Some (R' - 1)).
Proof.
  induction gs as [|g gs IH]; intros W R E E0 s Hok Hlive Hst HW HE0 Hgs.
  { exists [], s, R, E. split; [done|]. rewrite Hlive, stream_nil by lia. split_and!; try done; try lia. by left. }
  apply Forall_cons in Hgs as [Hg Hgs].
  assert (from_peer W E g) as HgE by (destruct Hg as (a & ? & ? & ? & ? & ? & ?); exists a; split_and!; try done; lia).
  destruct (setup_arrives W E R g s Hok HW HgE Hst) as (a & t & Ht & Harr & Hs & Ha & Htl).
  destruct (receive_text_ok byte_at fin a R E (tcp_input_setup g t s)) as (s1 & R1 & E1 & Hr & HE1 & Hadv & Hprog);
    try done.
  destruct Hadv as [W1 Q1 L1 D1 P1 F1 Z1 T1 K1]. simpl in P1, F1, D1, T1, Hprog.
  pose proof (wo_wnd _ _ _ W1) as Hw1. pose proof (wo_ann _ _ _ W1) as Ha1. pose proof (wo_le _ _ _ W1) as Hl1.
  destruct Hok as [W0 Q0]. pose proof (wo_wnd _ _ _ W0) as Hw0. pose proof (wo_ann _ _ _ W0) as Ha0.
  pose proof (wo_le _ _ _ W0) as Hl0.
  unfold run. fold run. rewrite Ht, Hr. cbn [mbind outcome_bind].
  assert (in_order_end R (g :: gs) <= in_order_end R1 gs) as Hmono.
  { cbn [in_order_end]. rewrite Ha, <- Htl. apply (in_order_end_mono W E0); try done; try lia;
      destruct (Z.leb_spec a R); lia. }
  destruct (has (recv_flags s1) TF_GOT_FIN) eqn:HF.
  - symmetry in F1. simpl in F1. apply bool_decide_eq_true in F1 as [HR HF1].
    exists (passed s1), s1, R1, E1. split; [done|]. split_and!; try done; try lia.
    + etransitivity; [exact Hmono|]. replace R1 with (R1 - 1 + 1) at 2 by lia.
      apply (in_order_end_fin W E0); try done; lia.
    + by destruct K1.
    + by right.
  - assert (upto fin R1 = R1) as Hlive1.
    { symmetry in F1. simpl in F1. apply bool_decide_eq_false in F1. unfold upto in *. destruct fin as [F|]; [|done].
      specialize (Z1 F eq_refl). destruct (decide (F = R1 - 1)) as [->|]; [|lia]. destruct F1. split; [lia|done]. }
    destruct (IH W R1 E1 E0 s1) as (out & s2 & R2 & E2 & -> & Hok2 & HE2 & D2 & -> & Hp2 & L2 & T2 & S2 & X2);
      try done; try lia.
    { destruct K1 as (_ & _ & _ & [->|(_ & _ & K1)] & _); [done|]. by rewrite K1 in HF. }
    cbn [mbind outcome_bind]. eexists _, s2, R2, E2. split; [done|]. split_and!; try done; try lia.
    + rewrite P1, Hlive1. replace R1 with (R + (R1 - R)) at 2 by lia.
      rewrite <- (stream_app byte_at); [f_equal; lia|lia|]. unfold upto in *. destruct fin; lia.
    + etransitivity; [exact T2|exact T1].
    + rewrite S2. by destruct K1.
    + intros HX. destruct (X2 HX) as [->|]; [congruence|by right].
Qed.

(** ** The properties *)

(** C3: (one segment) a segment of the peer that stays within the announced window is
    processed without a failed assertion, whatever it overlaps; the text passed on
    is the stream from [R] to the new position [R'], FIN is reported when it is
    reached, a segment that starts at or before [R] is passed on to its end, the
    window shrinks by what was passed on and its right edge never moves left,
    segments of the pool are neither lost nor duplicated, and the sending half is left
    alone. *)
Theorem receive_in_stream a R E s : recv_ok byte_at fin R E (pcb s) -> arrives byte_at fin a R E s -> upto fin R = R ->
  exists s' R' E', receive_text s = Ret s' /\ recv_ok byte_at fin R' E' (pcb s') /\ E <= E' /\ R <= R' /\
    passed s' = stream byte_at R (upto fin R' - R) /\
    (has (recv_flags s') TF_GOT_FIN = true <->
       has (recv_flags s) TF_GOT_FIN = true \/ R < R' /\ fin = Some (R' - 1)) /\
    (a <= R -> a + tcplen s <= R') /\
    R' + rcv_wnd (rcv (pcb s')) = R + rcv_wnd (rcv (pcb s)) /\
    segs_total s' = segs_total s /\ rest_same s s'.
Proof.
  intros Hok Harr Hlive. destruct (receive_text_ok byte_at fin a R E s Hok Harr Hlive)
    as (s' & R' & E' & Hr & HE & [W Q L D P F Z T K] & Hp).
  exists s', R', E'. rewrite F, orb_true_iff, bool_decide_eq_true. split_and!; try done.
  rewrite P. unfold passed. by rewrite (ar_fresh _ _ _ _ _ _ Harr).
Qed.

(** C2: (any order) segments of the peer's stream within the announced window, in any
    order, overlapping and repeated: nothing asserts, what is passed on is a
    contiguous part of the stream from [R] on without gap or repetition, and it reaches at
    least as far as a receiver without a queue would get. *)
Theorem segments_in_any_order gs R E s : recv_ok byte_at fin R E (pcb s) -> upto fin R = R ->
  state_num (state (pcb s)) < state_num CLOSE_WAIT ->
  Forall (from_peer (R + rcv_wnd (rcv (pcb s))) E) gs ->
  exists out s' R', run gs s = Ret (out, s') /\ out = stream byte_at R (upto fin R' - R) /\
    in_order_end R gs <= R' /\ (exists E', E <= E' /\ recv_ok byte_at fin R' E' (pcb s')) /\
    segs_total s' = segs_total s.
Proof.
  intros Hok Hlive Hst Hgs.
  destruct (run_ok gs (R + rcv_wnd (rcv (pcb s))) R E E s) as
    (out & s' & R' & E' & Hr & Hok' & HE & D & Hout & Hp & L & T & _ & _); try done.
  exists out, s', R'. split_and!; try done. by exists E'.
Qed.

(** (the announced window) when the application has taken [n] bytes, the window
    grows by [n] up to [TCP_WND], 16-bit overflow included, and what is announced
    never retracts the right edge that the peer knows. *)
Theorem recved_opens_window R E (p : tcp_pcb) n : recv_ok byte_at fin R E p -> rcv_wnd (rcv p) <= TCP_WND ->
  0 <= n <= 0xffff -> is_bypass p = true -> state p <> LISTEN ->
  exists p', tcp_recved p n = Ret p' /\ recv_ok byte_at fin R E p' /\
    rcv_wnd (rcv p') = Z.min TCP_WND (rcv_wnd (rcv p) + n) /\ E <= R + rcv_ann_wnd (rcv p').
Proof.
  intros [Hw Hq] HW Hn Hb Hst. pose proof Hw as [Hx Hed Hwnd Hann Hle Hmss]. unfold tcp_recved. rewrite Hb.
  rewrite bool_decide_false by done. cbn [negb lwip_assert mbind outcome_bind].
  set (w := Z.min TCP_WND (rcv_wnd (rcv p) + n)).
  assert ((if (TCP_WND <? u16 (rcv_wnd (rcv p) + n)) || (u16 (rcv_wnd (rcv p) + n) <? rcv_wnd (rcv p))
           then TCP_WND else u16 (rcv_wnd (rcv p) + n)) = w) as ->.
  { subst w. change TCP_WND with 4000 in *. unfold u16. change (2 ^ 16) with 65536.
    destruct (Z.lt_ge_cases (rcv_wnd (rcv p) + n) 65536) as [Hs|Hs].
    - rewrite Z.mod_small by lia. rewrite (proj2 (Z.ltb_ge (rcv_wnd (rcv p) + n) _)), orb_false_r by lia.
      destruct (Z.ltb_spec 4000 (rcv_wnd (rcv p) + n)); lia.
    - replace ((rcv_wnd (rcv p) + n) mod 65536) with (rcv_wnd (rcv p) + n - 65536).
      + rewrite (proj2 (Z.ltb_lt (rcv_wnd (rcv p) + n - 65536) _)), orb_true_r by lia. lia.
      + apply (Z.mod_unique _ _ 1); lia. }
  assert (window_ok R E (set_rcv_wnd w p)) as Hw'.
  { subst w. change TCP_WND with 4000 in *. split; simpl; try done; lia. }
  destruct (update_ann_ok R E (set_rcv_wnd w p)) as (v & ann & -> & Hok); [by left|]. cbn [mbind outcome_bind].
  pose proof (wo_ann _ _ _ Hok) as Ha.
  eexists. split; [done|]. destruct (TCP_WND_UPDATE_THRESHOLD <=? v); simpl in *; split_and!; try done; try lia;
    (split; [|done]); destruct Hok; by split.
Qed.

(** Text ahead of sequence with an empty queue: queued as it is. *)
Lemma ahead_queued a R E s p : window_ok R E (pcb s) -> ooseq (rcv (pcb s)) = [] -> seqno s = u32 a ->
  i_p s = Some p -> R < a < R + rcv_wnd (rcv (pcb s)) -> 0 < tcplen s <= 0xffff ->
  state_num (state (pcb s)) < state_num CLOSE_WAIT -> 0 < segs_avail s ->
  receive_text s = Ret (tcp_send_empty_ack (upd (set_ooseq [Seg (i_seqno s) (i_len s) (i_flags s) p true false])
                                              (set_segs_avail (segs_avail s - 1) s))).2.
Proof.
  intros [Hn Hed Hwnd Hann Hle Hmss] Hq Hs Hip Ha Ht Hst Hav. unfold receive_text, recv_trim.
  rewrite (proj2 (Z.ltb_lt 0 (tcplen s))), (proj2 (Z.ltb_lt (state_num _) _)) by lia. cbn [andb].
  rewrite Hn, Hs. rewrite <- (Z.add_sub_assoc (u32 a)). autorewrite with seq.
  rewrite seq_between by (unfold near; lia). rewrite (proj2 (Z.leb_gt (a + 1) R)) by lia. cbn [andb].
  rewrite seq_lt by (unfold near; lia). rewrite (proj2 (Z.ltb_ge a R)) by lia. cbn [mbind outcome_bind].
  rewrite Hn, Hs. rewrite <- (Z.add_sub_assoc (u32 R)). autorewrite with seq.
  rewrite seq_between by (unfold near; lia). rewrite (proj2 (Z.leb_le R a)), (proj2 (Z.leb_le a _)) by lia. cbn [andb].
  rewrite seq_eq by (unfold near; lia). rewrite (proj2 (Z.eqb_neq R a)) by lia.
  unfold recv_out_of_order, tcp_seg_copy. rewrite Hq, Hip, (proj2 (Z.leb_gt (segs_avail s) 0)) by lia. done.
Qed.

(** One byte fills the gap before a queued segment that is longer than the window. *)
Lemma gap_filled R E s b p L : window_ok R E (pcb s) -> R < E ->
  ooseq (rcv (pcb s)) = [Seg (u32 (R + 1)) L TCP_ACK p true false] -> seqno s = u32 R -> i_p s = Some [[b]] ->
  i_len s = 1 -> i_flags s = TCP_ACK -> tcplen s = 1 -> state_num (state (pcb s)) < state_num CLOSE_WAIT ->
  2 <= rcv_wnd (rcv (pcb s)) <= L -> L <= 0xfffe -> receive_text s = Assert.
Proof.
  intros Hw HE Hq Hs Hip Hil Hif Ht Hst Hl HL. pose proof Hw as [Hn Hed Hwnd Hann Hle Hmss].
  unfold receive_text, recv_trim. rewrite (proj2 (Z.ltb_lt (state_num _) _)) by lia. rewrite Ht. cbn [andb Z.ltb Z.compare].
  rewrite Hn, Hs. rewrite <- (Z.add_sub_assoc (u32 R)). autorewrite with seq.
  rewrite seq_between by (unfold near; lia). rewrite (proj2 (Z.leb_gt (R + 1) R)) by lia. cbn [andb].
  rewrite seq_lt by (unfold near; lia). rewrite (proj2 (Z.ltb_ge R R)) by lia. cbn [mbind outcome_bind].
  rewrite Hn, Hs. rewrite <- (Z.add_sub_assoc (u32 R)). autorewrite with seq.
  rewrite seq_between by (unfold near; lia). rewrite (proj2 (Z.leb_le R R)), (proj2 (Z.leb_le R _)) by lia. cbn [andb].
  rewrite Z.eqb_refl. unfold recv_in_order. rewrite Hil, Hif. change (u16 (tcp_len 1 TCP_ACK)) with 1.
  set (s0 := set_tcplen 1 s).
  assert (recv_fit_window s0 = Ret s0) as ->.
  { unfold recv_fit_window. simpl. by rewrite (proj2 (Z.ltb_ge _ _)) by lia. }
  cbn [mbind outcome_bind].
  assert (recv_against_ooseq s0 = Ret (upd (set_ooseq (ooseq (rcv (pcb s)))) s0)) as ->.
  { unfold recv_against_ooseq. subst s0. simpl. rewrite Hq. simpl. rewrite Hif. simpl. rewrite Hs.
    autorewrite with seq. rewrite seq_geq by (unfold near; lia). rewrite (proj2 (Z.leb_gt (R + 1 + L) (R + 1))) by lia.
    cbn [seqno set_tcplen tcplen seg_seqno]. rewrite Hs. autorewrite with seq. rewrite seq_gt by (unfold near; lia).
    by rewrite Z.ltb_irrefl. }
  cbn [mbind outcome_bind]. unfold recv_deliver. simpl. rewrite Hs, (proj2 (Z.leb_le 1 _)) by lia. simpl.
  destruct (step_ann R E (upd (set_ooseq (ooseq (rcv (pcb s)))) s0) 1) as (an & Hu & Hok);
    [by destruct Hw; split|lia|lia|].
  subst s0. simpl in Hu. autorewrite with seq. unfold upd in *. simpl in *. rewrite Hu. simpl. rewrite Hip. simpl.
  rewrite Hif. simpl. rewrite Hq. simpl. rewrite Z.eqb_refl. unfold recv_one. simpl.
  rewrite (proj2 (Z.leb_gt _ _)); [done|]. unfold TCP_TCPLEN. simpl. unfold tcp_len. simpl. lia.
Qed.

(** (error) a peer that ignores the window stops the program: text ahead of
    sequence is queued uncut when the queue is empty, and when the gap before it is
    filled the queued segment exceeds the window and an assertion fails. *)
Theorem window_overrun_asserts R E s b text : window_ok R E (pcb s) -> ooseq (rcv (pcb s)) = [] ->
  state_num (state (pcb s)) < state_num CLOSE_WAIT -> 0 < segs_avail s ->
  2 <= rcv_wnd (rcv (pcb s)) <= Z.of_nat (length text) -> Z.of_nat (length text) <= 0xfffe -> R < E ->
  run [Segment (u32 (R + 1)) (ackno s) TCP_ACK 0 [text]; Segment (u32 R) (ackno s) TCP_ACK 0 [[b]]] s = Assert.
Proof.
  intros Hw Hq Hst Hav Hwnd Hlen HE. pose proof Hw as [Hn Hed Hwnd' Hann Hle Hmss].
  unfold run, tcp_input_len, tot_len. simpl concat. rewrite app_nil_r. simpl sg_flags.
  change (has TCP_ACK (Z.lor TCP_FIN TCP_SYN)) with false. change (u16 (Z.of_nat (length [b]))) with 1. cbv iota.
  rewrite u16_small by lia.
  rewrite (ahead_queued (R + 1) R E _ [text]); try done; simpl; try lia.
  match goal with |- context [tcp_send_empty_ack ?x] => set (s2 := x) end.
  destruct (send_empty_ack_ok R E s2) as (E' & fl & n & -> & HE'); [by destruct Hw; split|].
  simpl. rewrite (gap_filled R E' _ b [text] (Z.of_nat (length text))); try done; simpl; try lia.
  - destruct Hw; split; simpl; try done; simpl in *; lia.
  - rewrite u16_small; [|unfold tot_len; simpl; rewrite app_nil_r; lia]. unfold tot_len. simpl. by rewrite app_nil_r.
Qed.
End props.

(** ** Examples *)
Module Examples.
(** A network that takes every packet. *)
#[local] Instance sink : TcpNet unit := { hdr_alloc n := (true, n); output_control n _ _ _ := (ERR_OK, n) }.

(** The stream: position modulo 256, a FIN behind the text at 1012. *)
Definition text (i : Z) : Z := i mod 256.
Definition ends : option Z := Some 1012.
(** A connection that expects position 1000 and announced 4000 bytes. *)
Definition conn : tcp_pcb :=
  Pcb ESTABLISHED 0 1000 1 80 2 8080 true None (Receiver 1000 4000 4000 5000 [])
    (Sender 7 0 0 7 4000 4000 4096 0 7 [] []) (Congestion 1000 4000 0 0) (Timing (-1) 0 0 0 0 3 0 0 0 0 0 0 0 0 0 0 false).
Definition input0 : input unit := Input conn 0 0 0 None 0 0 0 0 0 0 0 None 4 0 tt.
Definition seg (a n fl : Z) : segment := Segment (u32 a) 7 (Z.lor TCP_ACK fl) 4096 [stream text a n].
(** The end first, overlaps, a repetition, and the gap last. *)
Definition burst : list segment :=
  [seg 1008 4 TCP_FIN; seg 1002 4 0; seg 1004 3 0; seg 1006 4 0; seg 1002 4 0; seg 998 4 0].

Lemma conn_ok : recv_ok text ends 1000 5000 conn.
Proof. split; [by split; simpl|done]. Qed.

(** [seg a n fl] is a piece of the stream. *)
Lemma seg_from_peer a n fl : 0 <= n -> a + n <= 1012 -> n + 1 <= 0xffff -> (fl = 0 /\ 0 < n \/ fl = TCP_FIN /\ a + n = 1012) ->
  5000 - 2 ^ 30 <= a -> from_peer text ends 5000 5000 (seg a n fl).
Proof.
  intros Hn Hend Hmax Hfl Hpast. exists a.
  assert (tot_len (sg_p (seg a n fl)) = n) as Ht by (unfold tot_len; simpl; rewrite app_nil_r; by apply length_stream).
  destruct Hfl as [[-> Hp]|[-> HF]]; rewrite ?Ht; (split_and!; [|done|split|..]); simpl;
    rewrite ?app_nil_r; try done; try (intros F [= <-]); try (unfold tcp_len; simpl; lia); try lia.
  intros _. unfold ends. f_equal. lia.
Qed.

(** The segment [seg a n fl] is being processed. *)
Definition arriving (a n fl : Z) : input unit := tcp_input_setup (seg a n fl) (tcp_len n (Z.lor TCP_ACK fl)) input0.

Lemma receive_in_stream_witness :
  exists s' R' E', receive_text (arriving 998 4 0) = Ret s' /\ recv_ok text ends R' E' (pcb s') /\ 5000 <= E' /\
    1000 <= R' /\ passed s' = stream text 1000 (upto ends R' - 1000) /\
    (has (recv_flags s') TF_GOT_FIN = true <->
       has (recv_flags (arriving 998 4 0)) TF_GOT_FIN = true \/ 1000 < R' /\ ends = Some (R' - 1)) /\
    (998 <= 1000 -> 998 + tcplen (arriving 998 4 0) <= R') /\
    R' + rcv_wnd (rcv (pcb s')) = 1000 + rcv_wnd (rcv (pcb (arriving 998 4 0))) /\
    segs_total s' = segs_total (arriving 998 4 0) /\ rest_same (arriving 998 4 0) s'.
Proof.
  apply (receive_in_stream text ends 998 1000 5000 (arriving 998 4 0)); [exact conn_ok| |reflexivity].
  destruct (seg_from_peer 998 4 0) as (a & H1 & H2 & H3 & H4 & H5 & H6); try lia.
  split; try done; try lia. split; try done. exists (sg_p (seg 998 4 0)). split; [done|]. split; [done|].
  split; try done. by intros F [= <-].
Defined.

Lemma segments_in_any_order_witness :
  (exists out s' R', run burst input0 = Ret (out, s') /\ out = stream text 1000 (upto ends R' - 1000) /\
     in_order_end 1000 burst <= R' /\ (exists E', 5000 <= E' /\ recv_ok text ends R' E' (pcb s')) /\
     segs_total s' = segs_total input0) /\
  fst <$> (match run burst input0 with Ret r => Some r | _ => None end) = Some (stream text 1000 12).
Proof.
  split; [|by vm_compute].
  apply (segments_in_any_order text ends burst 1000 5000 input0); [exact conn_ok|reflexivity|reflexivity|].
  repeat constructor; apply seg_from_peer; try lia; auto; left; lia.
Defined.

Lemma recved_opens_window_witness :
  exists p', tcp_recved (set_rcv_ann_wnd 2000 (set_rcv_ann_right_edge 3000 (set_rcv_wnd 2000 conn))) 65000 = Ret p' /\
    recv_ok text ends 1000 3000 p' /\
    rcv_wnd (rcv p') = Z.min TCP_WND (2000 + 65000) /\ 3000 <= 1000 + rcv_ann_wnd (rcv p').
Proof.
  apply (recved_opens_window text ends 1000 3000 (set_rcv_ann_wnd 2000 (set_rcv_ann_right_edge 3000 (set_rcv_wnd 2000 conn))) 65000);
    done.
Defined.

Lemma window_overrun_asserts_witness :
  run [Segment (u32 (1000 + 1)) (ackno input0) TCP_ACK 0 [replicate 4000 0];
       Segment (u32 1000) (ackno input0) TCP_ACK 0 [[65]]] input0 = Assert.
Proof.
  apply (window_overrun_asserts 1000 5000 input0 65 (replicate 4000 0)); done.
Defined.
End Examples.
