(* ===== verification/TcpAck.v ===== *)
(** * TCP acknowledgements: the first half of [tcp_receive] ([tcp_in.c])

    What an acknowledgement does to the sending half of a connection: the window
    of the peer, duplicate acknowledgements and fast retransmit, the release of
    acknowledged segments, congestion control, the round-trip time.

    [send_ok] is the invariant of the sending half: the two queues are sorted
    stretches of the sequence space, and [snd_buf] and [snd_queuelen] account for
    what they hold. *)

From S2P Require Import Prelude Chain Tcp TcpRecv.
From Stdlib Require Import Sorted.

Section ack.
  Context {N : Type} `{!TcpNet N}.
  Implicit Type s : input N.

(** ** Acknowledged segments *)

(** [tcp_free_acked_segments(pcb, seg_list, _, dbg_other_seg_list)]. *)
Fixpoint tcp_free_acked_segments (seg_list other : list tcp_seg) s : outcome (list tcp_seg * input N) :=
  match seg_list with
  | [] => Ret ([], s)
  | next :: rest =>
      if TCP_SEQ_LEQ (u32 (seg_seqno next + TCP_TCPLEN next)) (ackno s) then
        let clen := chain_clen (seg_p next) in
        lwip_assert (clen <=? snd_queuelen (snd (pcb s)));;
        let s := upd (set_snd_queuelen (u16 (snd_queuelen (snd (pcb s)) - clen))) s in
        let s := tcp_seg_free (set_recv_acked (u16 (recv_acked s + seg_len next)) s) in
        lwip_assert ((snd_queuelen (snd (pcb s)) =? 0) || negb (bool_decide (rest = [] /\ other = [])));;
        tcp_free_acked_segments rest other s
      else Ret (seg_list, s)
  end.

(** ** The peer's window *)
Definition window_news s : bool :=
  let d := snd (pcb s) in
  TCP_SEQ_LT (snd_wl1 d) (seqno s)
  || ((snd_wl1 d =? seqno s) && TCP_SEQ_LT (snd_wl2 d) (ackno s))
  || ((snd_wl2 d =? ackno s) && (snd_wnd d <? in_wnd s)).
Definition ack_window s : input N :=
  if window_news s then
    let s := upd (set_snd_wnd (in_wnd s)) s in
    let s := if snd_wnd_max (snd (pcb s)) <? snd_wnd (snd (pcb s))
             then upd (set_snd_wnd_max (snd_wnd (snd (pcb s)))) s else s in
    upd (set_snd_wl2 (ackno s)) (upd (set_snd_wl1 (seqno s)) s)
  else s.

(** ** Duplicate acknowledgements *)
Definition ack_duplicate (right_wnd_edge : Z) s : input N :=
  let p := pcb s in
  if (tcplen s =? 0) && (u32 (snd_wl2 (snd p) + snd_wnd (snd p)) =? right_wnd_edge)
     && (0 <=? rtime (tim p)) && (lastack (snd p) =? ackno s) then
    let s := if dupacks (cng (pcb s)) <? u8 (dupacks (cng (pcb s)) + 1)
             then upd (set_dupacks (dupacks (cng (pcb s)) + 1)) s else s in
    let s := if 3 <? dupacks (cng (pcb s))
             then upd (set_cwnd (TCP_WND_INC (cwnd (cng (pcb s))) (mss (pcb s)))) s else s in
    if 3 <=? dupacks (cng (pcb s)) then upd tcp_rexmit_fast s else s
  else upd (set_dupacks 0) s.

(** ** New data acknowledged *)

(** Slow start and congestion avoidance (RFC 3465). *)
Definition ack_congestion (acked : Z) (p : tcp_pcb) : tcp_pcb :=
  if cwnd (cng p) <? ssthresh (cng p) then
    let num_seg := if has (flags p) TF_RTO then 1 else 2 in
    let increase := Z.min acked (u16 (num_seg * mss p)) in
    set_cwnd (TCP_WND_INC (cwnd (cng p)) increase) p
  else
    let p := set_bytes_acked (TCP_WND_INC (bytes_acked (cng p)) acked) p in
    if cwnd (cng p) <=? bytes_acked (cng p) then
      let p := set_bytes_acked (u16 (bytes_acked (cng p) - cwnd (cng p))) p in
      set_cwnd (TCP_WND_INC (cwnd (cng p)) (mss p)) p
    else p.

(** Is the retransmission after a time-out done? *)
Definition ack_rto_done (p : tcp_pcb) : tcp_pcb :=
  if has (flags p) TF_RTO then
    match unacked (snd p), unsent (snd p) with
    | [], [] => tcp_clear_flags TF_RTO p
    | [], g :: _ | g :: _, _ =>
        if TCP_SEQ_LEQ (rto_end (tim p)) (seg_seqno g) then tcp_clear_flags TF_RTO p else p
    end
  else p.

(** [lastack] moves; the state of retransmission and congestion control. *)
Definition ack_advance s : input N :=
  let s := if has (flags (pcb s)) TF_INFR then
             let s := upd (tcp_clear_flags TF_INFR) s in
             let s := upd (set_cwnd (ssthresh (cng (pcb s)))) s in
             upd (set_bytes_acked 0) s
           else s in
  let s := upd (set_nrtx 0) s in
  let s := upd (set_rto (s16 (Z.shiftr (sa (tim (pcb s))) 3 + sv (tim (pcb s))))) s in
  let acked := u16 (ackno s - lastack (snd (pcb s))) in
  let s := upd (set_lastack (ackno s)) (upd (set_dupacks 0) s) in
  if state_num ESTABLISHED <=? state_num (state (pcb s)) then upd (ack_congestion acked) s else s.

(** Acknowledged segments leave both queues. *)
Definition ack_release s : outcome (input N) :=
  '(q, s) ← tcp_free_acked_segments (unacked (snd (pcb s))) (unsent (snd (pcb s))) s;
  let s := upd (set_unacked q) s in
  '(q, s) ← tcp_free_acked_segments (unsent (snd (pcb s))) (unacked (snd (pcb s))) s;
  Ret (upd (set_unsent q) s).

(** The timer and the buffer. *)
Definition ack_finish s : input N :=
  let s := upd (set_rtime (if bool_decide (unacked (snd (pcb s)) = []) then -1 else 0)) s in
  let s := upd (set_polltmr 0) s in
  let s := upd (set_snd_buf (u16 (snd_buf (snd (pcb s)) + recv_acked s))) s in
  upd ack_rto_done s.

Definition ack_new s : outcome (input N) := s ← ack_release (ack_advance s); Ret (ack_finish s).

(** ** The round-trip time (Jacobson) *)
Definition ack_rtt s : input N :=
  let t := tim (pcb s) in
  if negb (rttest t =? 0) && TCP_SEQ_LT (rtseq t) (ackno s) then
    let m := s16 (u32 (tcp_ticks s - rttest t)) in
    let m := s16 (m - Z.shiftr (sa t) 3) in
    let sa' := s16 (sa t + m) in
    let m := if m <? 0 then s16 (- m) else m in
    let m := s16 (m - Z.shiftr (sv t) 2) in
    let sv' := s16 (sv t + m) in
    upd (fun p => set_rttest 0 (set_rto (s16 (Z.shiftr sa' 3 + sv')) (set_sv sv' (set_sa sa' p)))) s
  else s.

(** ** [tcp_receive] *)
Definition receive_ack s : outcome (input N) :=
  if has (in_flags s) TCP_ACK then
    let right_wnd_edge := u32 (snd_wnd (snd (pcb s)) + snd_wl2 (snd (pcb s))) in
    let s := ack_window s in
    let d := snd (pcb s) in
    s ← (if TCP_SEQ_LEQ (ackno s) (lastack d) then Ret (ack_duplicate right_wnd_edge s)
         else if TCP_SEQ_BETWEEN (ackno s) (u32 (lastack d + 1)) (snd_nxt d) then ack_new s
         else Ret (tcp_send_empty_ack s).2);
    Ret (ack_rtt s)
  else Ret s.

Definition tcp_receive s : outcome (input N) :=
  lwip_assert (state_num ESTABLISHED <=? state_num (state (pcb s)));;
  s ← receive_ack s;
  receive_text s.

(** ** The sending half *)

(** A segment at its position in the stream that is sent. *)
Definition placed : Type := Z * tcp_seg.
Definition ends_at (x : placed) : Z := x.1 + TCP_TCPLEN x.2.
Definition before (x y : placed) : Prop := ends_at x <= y.1.
Definition lens (q : list placed) : Z := foldr (fun x n => seg_len x.2 + n) 0 q.
Definition clens (q : list placed) : Z := foldr (fun x n => chain_clen (seg_p x.2) + n) 0 q.
(** Not yet acknowledged by [A]. *)
Definition keeps (A : Z) (x : placed) : Prop := A < ends_at x.
#[global] Instance keeps_dec A x : Decision (keeps A x) := Z_lt_dec _ _.

(** [x] is a segment of the stretch from [U], acknowledged so far, to [L]. *)
Record placed_ok (U L : Z) (x : placed) : Prop := {
  pl_seq : seg_seqno x.2 = u32 x.1;
  pl_len : 0 <= seg_len x.2;
  pl_pos : 0 < TCP_TCPLEN x.2 <= 0xffff;
  pl_lo : U - 0xffff <= x.1;
  pl_hi : ends_at x <= L }.

Lemma lens_app q1 q2 : lens (q1 ++ q2) = lens q1 + lens q2.
Proof. induction q1; simpl; lia. Qed.
Lemma clens_app q1 q2 : clens (q1 ++ q2) = clens q1 + clens q2.
Proof. induction q1; simpl; lia. Qed.
Lemma clens_nonneg q : 0 <= clens q.
Proof. induction q; simpl; unfold chain_clen; lia. Qed.
Lemma lens_nonneg U L q : Forall (placed_ok U L) q -> 0 <= lens q.
Proof. induction 1 as [|x q H]; simpl; [lia|]. pose proof (pl_len _ _ _ H). lia. Qed.
Lemma lens_filter A q : lens q = lens (filter (keeps A) q) + lens (filter (fun x => ~ keeps A x) q).
Proof. induction q as [|x q IH]; [done|]. rewrite !filter_cons. repeat case_decide; simpl; try lia; done. Qed.
Lemma clens_filter A q : clens q = clens (filter (keeps A) q) + clens (filter (fun x => ~ keeps A x) q).
Proof. induction q as [|x q IH]; [done|]. rewrite !filter_cons. repeat case_decide; simpl; try lia; done. Qed.

Lemma sorted_filter A q : StronglySorted before q -> StronglySorted before (filter (keeps A) q).
Proof.
  induction 1 as [|x q Hq IH Hx]; [constructor|]. rewrite filter_cons. case_decide; [|done]. constructor; [done|].
  rewrite Forall_forall in Hx |- *. intros y [_ Hy]%list_elem_of_filter. by apply Hx.
Qed.

(** Behind a segment that is kept, all are. *)
Lemma sorted_kept A x q : StronglySorted before (x :: q) -> Forall (fun y => 0 < TCP_TCPLEN y.2) q -> keeps A x ->
  filter (keeps A) (x :: q) = x :: q /\ filter (fun y => ~ keeps A y) (x :: q) = [].
Proof.
  intros Hs Hpos Hx. apply StronglySorted_inv in Hs as [_ Hb].
  assert (Forall (keeps A) (x :: q)) as Hall.
  { constructor; [done|]. rewrite Forall_forall in Hb, Hpos |- *. intros y Hy. specialize (Hb y Hy). specialize (Hpos y Hy).
    unfold keeps, before, ends_at in *. lia. }
  clear Hb Hpos Hx. induction Hall as [|y l Hy Hl IH]; [done|]. destruct IH as [IH1 IH2].
  rewrite !filter_cons, !decide_True, decide_False by naive_solver. by rewrite IH1, IH2.
Qed.

(** What the release of the segments [d] does. *)
Definition released (d : list placed) s : input N :=
  set_segs_avail (segs_avail s + Z.of_nat (length d))
    (set_recv_acked (recv_acked s + lens d) (upd (set_snd_queuelen (snd_queuelen (snd (pcb s)) - clens d)) s)).

Lemma free_acked_ok U L A q other : forall s, StronglySorted before q -> Forall (placed_ok U L) q ->
  ackno s = u32 A -> U <= A <= L -> L <= U + 2 ^ 30 ->
  snd_queuelen (snd (pcb s)) = clens q + clens other -> snd_queuelen (snd (pcb s)) <= 0xffff ->
  0 <= recv_acked s -> recv_acked s + lens q <= 0xffff ->
  tcp_free_acked_segments q.*2 other.*2 s
  = Ret ((filter (keeps A) q).*2, released (filter (fun x => ~ keeps A x) q) s).
Proof.
  induction q as [|x q IH]; intros s Hs Hok Ha HA HL Hql Hql2 Hra Hra2.
  { simpl. unfold released. simpl. do 2 f_equal. rewrite !Z.add_0_r, Z.sub_0_r. by destruct s as [[? ? ? ? ? ? ? ? ? ? []]]. }
  pose proof Hok as Hok'. apply Forall_cons in Hok as [[Hseq Hlen Hpos Hlo Hhi] Hok].
  pose proof (lens_nonneg _ _ _ Hok) as Hln. unfold ends_at in Hhi.
  cbn [fmap list_fmap tcp_free_acked_segments]. rewrite Hseq, Ha. autorewrite with seq.
  rewrite seq_leq by (unfold near; lia). destruct (Z.leb_spec (x.1 + TCP_TCPLEN x.2) A) as [Hle|Hgt].
  2:{ destruct (sorted_kept A x q Hs) as [-> ->]; [|unfold keeps, ends_at; lia|].
      - eapply Forall_impl; [exact Hok|]. intros y Hy. apply (pl_pos _ _ _ Hy).
      - unfold released. simpl. do 2 f_equal. rewrite !Z.add_0_r, Z.sub_0_r. by destruct s as [[? ? ? ? ? ? ? ? ? ? []]]. }
  simpl in Hql, Hra2. pose proof (clens_nonneg q). pose proof (clens_nonneg other).
  assert (0 <= chain_clen (seg_p x.2)) by (unfold chain_clen; lia).
  rewrite (proj2 (Z.leb_le (chain_clen _) _)) by lia. cbn [lwip_assert mbind outcome_bind].
  rewrite !u16_small by (simpl; lia). simpl.
  match goal with |- context [lwip_assert ?b] => assert (b = true) as -> end.
  { apply orb_true_iff. destruct q as [|y q]; [|by right].
    destruct other as [|y other]; [|by right]. left. apply Z.eqb_eq. simpl in *. lia. }
  cbn [lwip_assert mbind outcome_bind]. apply StronglySorted_inv in Hs as [Hs _].
  rewrite IH; try done; simpl; try lia.
  rewrite !filter_cons. rewrite decide_False by (unfold keeps, ends_at; lia). rewrite decide_True by (unfold keeps, ends_at; lia).
  do 2 f_equal. unfold released. cbn [length lens clens foldr].
  by rewrite Nat2Z.inj_succ, <- Z.add_1_l, Z.sub_add_distr, !Z.add_assoc.
Qed.

(** [U]: acknowledged so far; [S]: sent once; [L]: buffered; [B]: the size of the send
    buffer; [qa] and [qs]: [unacked] and [unsent] with their positions. *)
Record send_ok (U S L B : Z) (qa qs : list placed) (p : tcp_pcb) : Prop := {
  so_una : lastack (snd p) = u32 U;
  so_nxt : snd_nxt (snd p) = u32 S;
  so_order : U <= S <= L;
  so_range : L <= U + 2 ^ 30;
  so_unacked : unacked (snd p) = qa.*2;
  so_unsent : unsent (snd p) = qs.*2;
  so_sorted_a : StronglySorted before qa;
  so_sorted_s : StronglySorted before qs;
  so_apart : forall x y, x ∈ qa -> y ∈ qs -> before x y \/ before y x;
  so_placed : Forall (placed_ok U L) (qa ++ qs);
  so_new : Forall (keeps U) (qa ++ qs);
  so_cover : forall i, U <= i < L -> exists x, x ∈ qa ++ qs /\ x.1 <= i < ends_at x;
  so_buf : snd_buf (snd p) + lens (qa ++ qs) = B;
  so_buf_range : 0 <= snd_buf (snd p) /\ B <= 0xffff;
  so_qlen : snd_queuelen (snd p) = clens (qa ++ qs);
  so_qlen_range : snd_queuelen (snd p) <= 0xffff }.

Lemma send_ok_snd U S L B qa qs p p' : send_ok U S L B qa qs p -> snd p' = snd p -> send_ok U S L B qa qs p'.
Proof. intros [] E. by split; rewrite ?E. Qed.

(** What [send_ok] looks at, and the rest of the state that an acknowledgement
    leaves alone. *)
Definition sent_same s s' : Prop :=
  let d := snd (pcb s) in let d' := snd (pcb s') in
  (lastack d', snd_nxt d', unacked d', unsent d', snd_buf d', snd_queuelen d')
    = (lastack d, snd_nxt d, unacked d, unsent d, snd_buf d, snd_queuelen d) /\
  (rcv (pcb s'), state (pcb s'), mss (pcb s')) = (rcv (pcb s), state (pcb s), mss (pcb s)) /\
  (seqno s', ackno s', in_flags s', tcplen s', recv_acked s', recv_flags s', recv_data s', segs_avail s')
    = (seqno s, ackno s, in_flags s, tcplen s, recv_acked s, recv_flags s, recv_data s, segs_avail s) /\
  (i_seqno s', i_len s', i_flags s', i_p s') = (i_seqno s, i_len s, i_flags s, i_p s).

(** What [tcp_process] and the text half of [tcp_receive] read besides [rcv]. *)
Definition text_same s s' : Prop :=
  (mss (pcb s'), state (pcb s'), seqno s', tcplen s', recv_flags s', recv_data s', i_seqno s', i_len s', i_flags s', i_p s',
    in_flags s', ackno s')
  = (mss (pcb s), state (pcb s), seqno s, tcplen s, recv_flags s, recv_data s, i_seqno s, i_len s, i_flags s, i_p s,
     in_flags s, ackno s).

Lemma sent_text s s' : sent_same s s' -> text_same s s'.
Proof. intros (_ & [= ? ? ?] & [= ? ? ? ? ? ? ? ?] & [= ? ? ? ?]). unfold text_same. congruence. Qed.
Lemma text_trans s1 s2 s3 : text_same s1 s2 -> text_same s2 s3 -> text_same s1 s3.
Proof. unfold text_same. intros H1 H2. by rewrite H2, H1. Qed.
Lemma sent_trans s1 s2 s3 : sent_same s1 s2 -> sent_same s2 s3 -> sent_same s1 s3.
Proof. intros (A1 & A2 & A3 & A4) (B1 & B2 & B3 & B4). unfold sent_same in *. by rewrite B1, B2, B3, B4. Qed.
Lemma sent_fields s s' : sent_same s s' ->
  rcv (pcb s') = rcv (pcb s) /\ ackno s' = ackno s /\ recv_acked s' = recv_acked s /\ segs_avail s' = segs_avail s.
Proof. by intros (_ & [= ? ? ?] & [= ? ? ? ? ? ? ? ?] & _). Qed.
Lemma send_ok_same U S L B qa qs s s' : sent_same s s' -> send_ok U S L B qa qs (pcb s) ->
  send_ok U S L B qa qs (pcb s').
Proof. intros ([= E1 E2 E3 E4 E5 E6] & _) []. split; rewrite ?E1, ?E2, ?E3, ?E4, ?E5, ?E6; done. Qed.

Lemma ack_window_same s : sent_same s (ack_window s).
Proof. unfold ack_window. destruct (window_news s); [|done]. simpl. by destruct (_ <? _). Qed.
Lemma ack_rtt_same s : sent_same s (ack_rtt s).
Proof. unfold ack_rtt. by destruct (_ && _). Qed.
Lemma congestion_same a s : sent_same s (upd (ack_congestion a) s).
Proof. unfold upd, ack_congestion. destruct (_ <? _); [done|]. simpl. by destruct (_ <=? _). Qed.
Lemma rto_done_same s : sent_same s (upd ack_rto_done s).
Proof.
  unfold upd, ack_rto_done. destruct (has _ _); [|by repeat split].
  destruct (unacked _) as [|g q]; [destruct (unsent _); [done|]|]; by destruct (TCP_SEQ_LEQ _ _).
Qed.

Lemma ack_finish_same s :
  sent_same (upd (set_snd_buf (u16 (snd_buf (snd (pcb s)) + recv_acked s))) s) (ack_finish s).
Proof. eapply sent_trans; [|apply rto_done_same]. done. Qed.

Lemma filter_cover A i qa qs x : x ∈ qa ++ qs -> A <= i -> x.1 <= i < ends_at x ->
  exists y, y ∈ filter (keeps A) qa ++ filter (keeps A) qs /\ y.1 <= i < ends_at y.
Proof.
  intros Hx Hi Hy. exists x. split; [|done]. rewrite <- filter_app. apply list_elem_of_filter. split; [|done].
  unfold keeps. lia.
Qed.

(** The invariant after the release of what [A] acknowledges. *)
Lemma send_ok_acked U S L B qa qs p p' A : send_ok U S L B qa qs p -> U < A <= S ->
  lastack (snd p') = u32 A -> snd_nxt (snd p') = snd_nxt (snd p) ->
  unacked (snd p') = (filter (keeps A) qa).*2 -> unsent (snd p') = (filter (keeps A) qs).*2 ->
  snd_buf (snd p') = snd_buf (snd p) + lens (filter (fun x => ~ keeps A x) (qa ++ qs)) ->
  snd_queuelen (snd p') = snd_queuelen (snd p) - clens (filter (fun x => ~ keeps A x) (qa ++ qs)) ->
  send_ok A S L B (filter (keeps A) qa) (filter (keeps A) qs) p'.
Proof.
  intros [] HA E1 E2 E3 E4 E5 E6.
  pose proof (lens_filter A (qa ++ qs)) as HL. pose proof (clens_filter A (qa ++ qs)) as HC.
  pose proof (clens_nonneg (filter (fun x => ~ keeps A x) (qa ++ qs))) as Hc0.
  assert (0 <= lens (filter (fun x => ~ keeps A x) (qa ++ qs))) as Hl0.
  { apply (lens_nonneg U L), Forall_forall. intros x [_ Hx]%list_elem_of_filter. rewrite Forall_forall in so_placed0. by apply so_placed0. }
  split; rewrite ?E1, ?E2, ?E3, ?E4, ?E5, ?E6, <- ?filter_app; try done; try lia.
  - by apply sorted_filter.
  - by apply sorted_filter.
  - intros x y [_ Hx]%list_elem_of_filter [_ Hy]%list_elem_of_filter. by apply so_apart0.
  - rewrite Forall_forall in so_placed0. apply Forall_forall. intros x [Hk Hx]%list_elem_of_filter.
    destruct (so_placed0 x Hx). split; try done. unfold keeps, ends_at in *. lia.
  - apply Forall_forall. by intros x [Hk Hx]%list_elem_of_filter.
  - intros i Hi. destruct (so_cover0 i) as (x & Hx & Hxi); [lia|]. rewrite filter_app. apply (filter_cover A i qa qs x); lia || done.
Qed.

Lemma ack_advance_same s : sent_same (upd (set_lastack (ackno s)) s) (ack_advance s).
Proof.
  unfold ack_advance. destruct (has (flags (pcb s)) TF_INFR); simpl;
    (destruct (_ <=? _); [eapply sent_trans; [|apply congestion_same]; done|done]).
Qed.

Lemma ack_release_ok U L A qa qs s : StronglySorted before qa -> StronglySorted before qs ->
  Forall (placed_ok U L) (qa ++ qs) -> unacked (snd (pcb s)) = qa.*2 -> unsent (snd (pcb s)) = qs.*2 ->
  ackno s = u32 A -> U <= A <= L -> L <= U + 2 ^ 30 ->
  snd_queuelen (snd (pcb s)) = clens (qa ++ qs) -> snd_queuelen (snd (pcb s)) <= 0xffff ->
  recv_acked s = 0 -> lens (qa ++ qs) <= 0xffff ->
  ack_release s = Ret (upd (set_unsent (filter (keeps A) qs).*2) (upd (set_unacked (filter (keeps A) qa).*2)
    (released (filter (fun x => ~ keeps A x) (qa ++ qs)) s))).
Proof.
  intros Hsa Hss Hok Hua Hus Ha HA HL Hql Hql2 Hra Hlen. rewrite clens_app in Hql. rewrite lens_app in Hlen.
  apply Forall_app in Hok as [Hoka Hoks]. pose proof (lens_nonneg _ _ _ Hoka). pose proof (lens_nonneg _ _ _ Hoks).
  pose proof (lens_filter A qa) as HLa. pose proof (clens_filter A qa) as HCa.
  assert (0 <= lens (filter (keeps A) qa) /\ 0 <= lens (filter (fun x => ~ keeps A x) qa)) as [Hk1 Hk2].
  { split; apply (lens_nonneg U L), Forall_forall; intros x [_ Hx]%list_elem_of_filter;
      rewrite Forall_forall in Hoka; by apply Hoka. }
  unfold ack_release. rewrite Hua, Hus. rewrite (free_acked_ok U L A); try done; try lia.
  cbn [mbind outcome_bind].
  set (s1 := released _ s).
  assert (unsent (snd (pcb (upd (set_unacked (filter (keeps A) qa).*2) s1))) = qs.*2) as -> by done.
  assert (unacked (snd (pcb (upd (set_unacked (filter (keeps A) qa).*2) s1))) = (filter (keeps A) qa).*2) as -> by done.
  rewrite (free_acked_ok U L A); try done;
    try (subst s1; unfold released; simpl; pose proof (clens_nonneg (filter (fun x => ~ keeps A x) qa)); lia).
  cbn [mbind outcome_bind]. subst s1. rewrite filter_app. unfold released. simpl.
  by rewrite lens_app, clens_app, length_app, Nat2Z.inj_add, Z.sub_add_distr, !Z.add_assoc.
Qed.

(** A state after the release of the segments [d] and the queues [ua], [us] left. *)
Record freed (ua us : list tcp_seg) (d : list placed) s s' : Prop := {
  fr_una : lastack (snd (pcb s')) = lastack (snd (pcb s));
  fr_nxt : snd_nxt (snd (pcb s')) = snd_nxt (snd (pcb s));
  fr_unacked : unacked (snd (pcb s')) = ua;
  fr_unsent : unsent (snd (pcb s')) = us;
  fr_buf : snd_buf (snd (pcb s')) = snd_buf (snd (pcb s));
  fr_qlen : snd_queuelen (snd (pcb s')) = snd_queuelen (snd (pcb s)) - clens d;
  fr_acked : recv_acked s' = recv_acked s + lens d;
  fr_segs : segs_avail s' = segs_avail s + Z.of_nat (length d);
  fr_rcv : rcv (pcb s') = rcv (pcb s);
  fr_text : text_same s s' }.

Lemma released_freed ua us d s : freed ua us d s (upd (set_unsent us) (upd (set_unacked ua) (released d s))).
Proof. by split. Qed.

Lemma freed_same ua us d s0 s1 s2 : sent_same s0 s1 -> freed ua us d s1 s2 -> freed ua us d s0 s2.
Proof.
  intros Hs [G1 G2 G3 G4 G5 G6 G7 G8 G9 G10]. pose proof (sent_text _ _ Hs) as Ht. revert Hs.
  intros ([= E1 E2 E3 E4 E5 E6] & [= E7 E8 E9] & [= F1 F2 F3 F4 F5 F6 F7 F8] & _).
  split; [congruence..|by eapply text_trans].
Qed.

Lemma lens_filtered U L A q : Forall (placed_ok U L) q -> 0 <= lens (filter (fun x => ~ keeps A x) q) <= lens q.
Proof.
  intros Hq. pose proof (lens_filter A q).
  enough (0 <= lens (filter (keeps A) q) /\ 0 <= lens (filter (fun x => ~ keeps A x) q)) by lia.
  split; apply (lens_nonneg U L), Forall_forall; intros x [_ Hx]%list_elem_of_filter;
    rewrite Forall_forall in Hq; by apply Hq.
Qed.

Lemma ack_finish_ok U S L B qa qs s A s2 : send_ok U S L B qa qs (pcb s) -> U < A <= S -> recv_acked s = 0 ->
  freed (filter (keeps A) qa).*2 (filter (keeps A) qs).*2 (filter (fun x => ~ keeps A x) (qa ++ qs))
    (upd (set_lastack (u32 A)) s) s2 ->
  send_ok A S L B (filter (keeps A) qa) (filter (keeps A) qs) (pcb (ack_finish s2)).
Proof.
  intros Hok HA Hr [G1 G2 G3 G4 G5 G6 G7 G8 G9 _]. simpl in G1, G2, G5, G6, G7. pose proof Hok as [].
  pose proof (lens_filtered U L A (qa ++ qs) so_placed0) as Hl.
  eapply send_ok_same; [apply ack_finish_same|]. apply (send_ok_acked U S L B qa qs (pcb s)); try done; simpl.
  rewrite G5, G7, Hr, u16_small; lia.
Qed.

Lemma ack_new_ok U S L B qa qs s A : send_ok U S L B qa qs (pcb s) -> ackno s = u32 A -> U < A <= S ->
  recv_acked s = 0 ->
  exists s', ack_new s = Ret s' /\ send_ok A S L B (filter (keeps A) qa) (filter (keeps A) qs) (pcb s') /\
    recv_acked s' = lens (filter (fun x => ~ keeps A x) (qa ++ qs)) /\
    segs_avail s' = segs_avail s + Z.of_nat (length (filter (fun x => ~ keeps A x) (qa ++ qs))) /\
    rcv (pcb s') = rcv (pcb s) /\ text_same s s'.
Proof.
  intros Hok Ha HA Hr. unfold ack_new. pose proof (ack_advance_same s) as Hsame. rewrite Ha in Hsame.
  generalize dependent (ack_advance s). intros s1 Hsame.
  assert (exists s2, ack_release s1 = Ret s2 /\
    freed (filter (keeps A) qa).*2 (filter (keeps A) qs).*2 (filter (fun x => ~ keeps A x) (qa ++ qs)) s1 s2)
    as (s2 & -> & Hfr).
  { eexists. split; [|apply released_freed].
    destruct Hsame as ([= E1 E2 E3 E4 E5 E6] & [= E7 E8 E9] & [= F1 F2 F3 F4 F5 F6 F7 F8] & _).
    pose proof Hok as []. apply (ack_release_ok U L); try done; try congruence; lia. }
  cbn [mbind outcome_bind]. exists (ack_finish s2). split; [done|].
  pose proof (freed_same _ _ _ _ _ _ Hsame Hfr) as Hfr2.
  split; [by apply (ack_finish_ok U S L B qa qs s A s2)|].
  pose proof (sent_text _ _ (ack_finish_same s2)) as Ht.
  destruct (sent_fields _ _ (ack_finish_same s2)) as (-> & _ & -> & ->).
  destruct Hfr2 as [_ _ _ _ _ _ G7 G8 G9 G10]. split_and!; [|exact G8|exact G9|].
  - rewrite <- (Z.add_0_l (lens _)), <- Hr. exact G7.
  - eapply text_trans; [exact G10|exact Ht].
Qed.

(** ** Retransmission keeps the queues *)

(** [insert_unsent] with positions. *)
Fixpoint insert_placed (x : placed) (q : list placed) : list placed :=
  match q with
  | [] => [x]
  | y :: q' => if y.1 <? x.1 then y :: insert_placed x q' else x :: q
  end.

Lemma insert_placed_perm x q : insert_placed x q ≡ₚ x :: q.
Proof.
  induction q as [|y q IH]; [done|]. simpl. destruct (y.1 <? x.1); [|done]. rewrite IH. apply Permutation_swap.
Qed.
Lemma insert_unsent_placed U L x q : placed_ok U L x -> Forall (placed_ok U L) q -> L <= U + 2 ^ 30 ->
  insert_unsent x.2 q.*2 = (insert_placed x q).*2.
Proof.
  intros Hx Hq HL. induction Hq as [|y q Hy Hq IH]; [done|]. simpl.
  destruct Hx as [Hx1 _ Hx2 Hx3 Hx4], Hy as [Hy1 _ Hy2 Hy3 Hy4]. unfold ends_at in *.
  rewrite Hx1, Hy1, seq_lt by (unfold near; lia). destruct (y.1 <? x.1); [exact (f_equal (cons y.2) IH)|done].
Qed.
Lemma insert_placed_sorted x q : StronglySorted before q -> 0 < TCP_TCPLEN x.2 ->
  Forall (fun y => 0 < TCP_TCPLEN y.2) q -> (forall y, y ∈ q -> before x y \/ before y x) ->
  StronglySorted before (insert_placed x q).
Proof.
  intros Hs Hx. induction Hs as [|y q Hs IH Hy]; intros Hpos Hap; simpl; [by repeat constructor|].
  apply Forall_cons in Hpos as [Hp Hpos].
  assert (before x y \/ before y x) as Hxy by (apply Hap; left).
  destruct (Z.ltb_spec y.1 x.1) as [Hlt|Hge].
  - constructor; [apply IH; [done|]; intros z Hz; apply Hap; by right|]. rewrite insert_placed_perm. constructor; [|done].
    unfold before, ends_at in *. lia.
  - assert (before x y) as Hb by (unfold before, ends_at in *; lia). constructor; [by constructor|]. constructor; [done|].
    rewrite Forall_forall in Hy |- *. intros z Hz. specialize (Hy z Hz). unfold before, ends_at in *. lia.
Qed.

(** The invariant for other queues of the same segments. *)
Lemma send_ok_moved U S L B x qa qs p p' : send_ok U S L B (x :: qa) qs p ->
  lastack (snd p') = lastack (snd p) -> snd_nxt (snd p') = snd_nxt (snd p) ->
  unacked (snd p') = qa.*2 -> unsent (snd p') = (insert_placed x qs).*2 ->
  snd_buf (snd p') = snd_buf (snd p) -> snd_queuelen (snd p') = snd_queuelen (snd p) ->
  send_ok U S L B qa (insert_placed x qs) p'.
Proof.
  intros [] E1 E2 E3 E4 E5 E6.
  assert (qa ++ insert_placed x qs ≡ₚ (x :: qa) ++ qs) as Hp.
  { rewrite insert_placed_perm. simpl. by rewrite Permutation_middle. }
  assert (forall q q', q ≡ₚ q' -> lens q = lens q' /\ clens q = clens q') as Hsum.
  { intros q q' Hq. induction Hq; simpl in *; lia. }
  destruct (Hsum _ _ Hp) as [Hl Hc]. apply StronglySorted_inv in so_sorted_a0 as [Hsa Hxa].
  pose proof so_placed0 as Hpl. rewrite Forall_forall in Hpl.
  split; rewrite ?E1, ?E2, ?E3, ?E4, ?E5, ?E6; try done; try lia.
  - apply insert_placed_sorted; try done.
    + apply (Hpl x). left.
    + apply Forall_forall. intros y Hy. apply (Hpl y). simpl. rewrite elem_of_cons, elem_of_app. auto.
    + intros y Hy. apply so_apart0; [left|done].
  - intros y z Hy. rewrite insert_placed_perm, elem_of_cons. intros [->|Hz].
    + right. rewrite Forall_forall in Hxa. by apply Hxa.
    + apply so_apart0; [by right|done].
  - by rewrite Hp.
  - by rewrite Hp.
  - intros i Hi. setoid_rewrite Hp. by apply so_cover0.
Qed.

(** [p'] differs from [p] in congestion control, timers and flags, and its queues
    hold the same segments. *)
Definition requeued (U S L B : Z) (qa qs : list placed) (p p' : tcp_pcb) : Prop :=
  exists qa' qs', send_ok U S L B qa' qs' p' /\ (qa' ++ qs' ≡ₚ qa ++ qs /\ qa' ⊆ qa) /\
    (rcv p', state p', mss p') = (rcv p, state p, mss p).

Lemma tcp_rexmit_ok U S L B qa qs p : send_ok U S L B qa qs p ->
  requeued U S L B qa qs p (tcp_rexmit p).2.
Proof.
  intros Hok. unfold tcp_rexmit. rewrite (so_unacked _ _ _ _ _ _ _ Hok).
  assert (requeued U S L B qa qs p p) as Hsame by (by exists qa, qs).
  destruct qa as [|x qa]; [done|]. simpl. destruct (seg_busy x.2); [done|]. simpl.
  exists qa, (insert_placed x qs). split; [|split].
  - apply (send_ok_moved U S L B x qa qs p); try done; destruct (_ <? _); try done; simpl;
      destruct Hok as []; rewrite so_unsent0; apply (insert_unsent_placed U L); try done;
      apply Forall_app in so_placed0 as [[]%Forall_cons ?]; done.
  - split; [|set_solver]. rewrite insert_placed_perm. simpl. by rewrite Permutation_middle.
  - by destruct (_ <? _).
Qed.
Lemma tcp_rexmit_fast_ok U S L B qa qs p : send_ok U S L B qa qs p ->
  requeued U S L B qa qs p (tcp_rexmit_fast p).
Proof.
  intros Hok. unfold tcp_rexmit_fast. destruct (_ && _); [|by exists qa, qs].
  destruct (tcp_rexmit_ok _ _ _ _ _ _ _ Hok) as (qa' & qs' & H1 & H2 & H3).
  destruct (tcp_rexmit p) as [e p1]. cbn [Datatypes.snd] in *. destruct e; exists qa', qs'; (split; [|done]); try done.
  destruct H1. by split.
Qed.

Lemma requeued_same U S L B qa qs p p1 p2 : requeued U S L B qa qs p1 p2 ->
  (rcv p1, state p1, mss p1) = (rcv p, state p, mss p) -> requeued U S L B qa qs p p2.
Proof. intros (qa' & qs' & H1 & H2 & H3) E. exists qa', qs'. by rewrite H3, E. Qed.

Lemma ack_duplicate_ok U S L B qa qs e s : send_ok U S L B qa qs (pcb s) ->
  exists p, ack_duplicate e s = set_pcb p s /\ requeued U S L B qa qs (pcb s) p.
Proof.
  intros Hok. unfold ack_duplicate. destruct (_ && _ && _ && _).
  2:{ eexists. split; [done|]. exists qa, qs. split; [by destruct Hok; split|done]. }
  set (p1 := if dupacks _ <? _ then _ else _).
  assert (exists c, p1 = set_pcb (set_cng c (pcb s)) s) as [c ->].
  { subst p1. destruct (_ <? _); [by eexists|]. exists (cng (pcb s)). by destruct s as [[]]. }
  set (p2 := if 3 <? _ then _ else _).
  assert (exists c, p2 = set_pcb (set_cng c (pcb s)) s) as [c2 ->].
  { subst p2. destruct (_ <? _); by eexists. }
  destruct (_ <=? _); (eexists; split; [done|]).
  - eapply requeued_same; [apply tcp_rexmit_fast_ok|]; [by destruct Hok; split|done].
  - exists qa, qs. split; [by destruct Hok; split|done].
Qed.
End ack.
