(* ===== verification/TcpReceive.v ===== *)
(** * The whole of [tcp_receive]

    Both halves of [tcp_receive] together: an acknowledgement releases exactly what
    it acknowledges, whatever is not acknowledged stays queued, and the text of
    the same segment is passed on in the order of the peer's stream. *)

From S2P Require Import Prelude Chain Tcp TcpRecv TcpStream TcpAck.
From Stdlib Require Import Sorted.


Section receive.
  Context (byte_at : Z -> Z) (fin : option Z).
  Context {N : Type} `{!TcpNet N}.
  Implicit Type s : input N.

(** What is acknowledged after an acknowledgement of [A]: beyond [S] it does not count. *)
Definition acked_to (U S A : Z) : Z := if A <=? S then Z.max U A else U.

Lemma filter_new U q : Forall (keeps U) q -> filter (keeps U) q = q /\ filter (fun x => ~ keeps U x) q = [].
Proof.
  induction 1 as [|x q Hx Hq [IH1 IH2]]; [done|]. rewrite !filter_cons, decide_True, decide_False by naive_solver.
  by rewrite IH1, IH2.
Qed.

Lemma window_same R E p p' : rcv p' = rcv p -> mss p' = mss p -> window_ok R E p -> window_ok R E p'.
Proof. intros H1 H2 []. split; by rewrite ?H1, ?H2. Qed.

(** The acknowledgement of [A] is processed: [s] becomes [s']. *)
Record acknowledged (U S L B R E A : Z) (qa qs : list placed) s s' : Prop := {
  ac_send : exists qa' qs', send_ok (acked_to U S A) S L B qa' qs' (pcb s') /\
              (qa' ++ qs' ≡ₚ filter (keeps (acked_to U S A)) (qa ++ qs) /\ qa' ⊆ qa);
  ac_acked : recv_acked s' = lens (filter (fun x => ~ keeps (acked_to U S A) x) (qa ++ qs));
  ac_segs : segs_avail s' = segs_avail s + Z.of_nat (length (filter (fun x => ~ keeps (acked_to U S A) x) (qa ++ qs)));
  ac_window : exists E', E <= E' /\ window_ok R E' (pcb s');
  ac_queue : ooseq (rcv (pcb s')) = ooseq (rcv (pcb s)) /\ rcv_wnd (rcv (pcb s')) = rcv_wnd (rcv (pcb s));
  ac_text : text_same s s' }.

Lemma acknowledged_same U S L B R E A qa qs s s0 s1 s' : acknowledged U S L B R E A qa qs s0 s1 ->
  sent_same s s0 -> sent_same s1 s' -> acknowledged U S L B R E A qa qs s s'.
Proof.
  intros [(qa' & qs' & H1 & H1') H2 H3 (E' & H4 & H4') H5 H6] Hs1 Hs2.
  pose proof (sent_text _ _ Hs1) as T1. pose proof (sent_text _ _ Hs2) as T2.
  destruct (sent_fields _ _ Hs1) as (K1 & _ & K2 & K3). destruct (sent_fields _ _ Hs2) as (L1 & _ & L2 & L3).
  split; rewrite ?L1, ?L2, ?L3, ?H2, ?H3, ?K3; try done.
  - exists qa', qs'. split; [by eapply send_ok_same|done].
  - exists E'. split; [done|]. eapply window_same; [exact L1| |exact H4']. by injection T2.
  - by rewrite <- K1.
  - eapply text_trans; [exact T1|]. by eapply text_trans.
Qed.

Lemma receive_ack_ok U S L B R E qa qs s A : send_ok U S L B qa qs (pcb s) -> window_ok R E (pcb s) ->
  ackno s = u32 A -> U - 2 ^ 29 <= A <= U + 2 ^ 30 -> recv_acked s = 0 -> has (in_flags s) TCP_ACK = true ->
  exists s', receive_ack s = Ret s' /\ acknowledged U S L B R E A qa qs s s'.
Proof.
  intros Hok Hw Ha HA Hr Hfl. unfold receive_ack. rewrite Hfl.
  pose proof (ack_window_same s) as Hs1. set (e := u32 (snd_wnd _ + _)).
  generalize dependent (ack_window s). intros s0 Hs0.
  destruct (sent_fields _ _ Hs0) as (K1 & K2 & K3 & K4). pose proof (send_ok_same _ _ _ _ _ _ _ _ Hs0 Hok) as Hok0.
  assert (window_ok R E (pcb s0)) as Hw0.
  { eapply window_same; [exact K1| |exact Hw]. by injection (sent_text _ _ Hs0). }
  enough (exists s1, (if TCP_SEQ_LEQ (ackno s0) (lastack (snd (pcb s0))) then Ret (ack_duplicate e s0)
         else if TCP_SEQ_BETWEEN (ackno s0) (u32 (lastack (snd (pcb s0)) + 1)) (snd_nxt (snd (pcb s0))) then ack_new s0
         else Ret (tcp_send_empty_ack s0).2) = Ret s1 /\ acknowledged U S L B R E A qa qs s0 s1) as (s1 & -> & Hac).
  { exists (ack_rtt s1). split; [done|]. eapply acknowledged_same; [done..|]. apply ack_rtt_same. }
  clear Hs0. pose proof Hok0 as [U1 U2 U3 U4 U5 U6 U7 U8 U9 U10 U11 U12 U13 U14 U15 U16].
  rewrite K2, Ha, U1, U2. autorewrite with seq.
  rewrite seq_leq, seq_between by (unfold near; lia).
  destruct (Z.leb_spec A U) as [HAU|HAU]; [|destruct (Z.leb_spec A S) as [HAS|HAS]].
  - assert (acked_to U S A = U) as HU by (unfold acked_to; destruct (A <=? S); lia).
    destruct (filter_new U (qa ++ qs) U11) as [HF1 HF2].
    destruct (ack_duplicate_ok U S L B qa qs e s0 Hok0) as (p & -> & qa' & qs' & Hp & Hperm & [= E1 E2 E3]).
    exists (set_pcb p s0). split; [done|]. split; rewrite ?HU, ?HF1, ?HF2; simpl; try lia; try congruence.
    + by exists qa', qs'.
    + exists E. split; [lia|]. by apply (window_same R E (pcb s0)).
    + by rewrite E1.
    + unfold text_same. simpl. by rewrite E2, E3.
  - rewrite (proj2 (Z.leb_le (U + 1) A)) by lia. cbn [andb].
    assert (acked_to U S A = A) as HU by (unfold acked_to; rewrite (proj2 (Z.leb_le A S)); lia).
    destruct (ack_new_ok U S L B qa qs s0 A Hok0) as (s1 & -> & H1 & H2 & H3 & H4 & H5); try congruence; try lia.
    exists s1. split; [done|]. split; rewrite ?HU; try done; rewrite ?H4; try done.
    + eexists _, _. split; [exact H1|]. split; [by rewrite filter_app|]. intros x [_ Hx]%list_elem_of_filter. exact Hx.
    + exists E. split; [lia|]. apply (window_same R E (pcb s0)); try done. by injection H5.
  - rewrite andb_false_r.
    assert (acked_to U S A = U) as HU by (unfold acked_to; rewrite (proj2 (Z.leb_gt A S)); lia).
    destruct (filter_new U (qa ++ qs) U11) as [HF1 HF2].
    destruct (send_empty_ack_ok R E s0 Hw0) as (E' & fl & n & -> & HE).
    eexists. split; [done|]. split; rewrite ?HU, ?HF1, ?HF2; simpl; try lia; try congruence; try done.
    + exists qa, qs. split; [by split|done].
    + exists E'. split; [lia|]. destruct Hw0; split; simpl; try done; lia.
Qed.

Lemma arrives_same a R E E' s s' : E <= E' -> text_same s s' -> arrives byte_at fin a R E s -> arrives byte_at fin a R E' s'.
Proof.
  intros HE [= E1 E2 E3 E4 E5 E6 E7 E8 E9 E10 _ _] [[I1 I2 (p & I3 & I4 & I5)] A1 A2 A3 A4 A5 A6].
  split; rewrite ?E2, ?E4, ?E6, ?E8, ?E9; try done; [|lia]. split; rewrite ?E3, ?E7, ?E8, ?E9; try done.
  exists p. by rewrite E10.
Qed.

Lemma tcp_receive_ok U S L B qa qs A a R E s :
  send_ok U S L B qa qs (pcb s) -> recv_ok byte_at fin R E (pcb s) ->
  has (in_flags s) TCP_ACK = true -> ackno s = u32 A -> U - 2 ^ 29 <= A <= U + 2 ^ 30 -> recv_acked s = 0 ->
  arrives byte_at fin a R E s -> upto fin R = R -> state_num ESTABLISHED <= state_num (state (pcb s)) ->
  exists s' R' E' qa' qs', tcp_receive s = Ret s' /\
    send_ok (acked_to U S A) S L B qa' qs' (pcb s') /\
    (qa' ++ qs' ≡ₚ filter (keeps (acked_to U S A)) (qa ++ qs) /\ qa' ⊆ qa) /\
    recv_acked s' = lens (filter (fun x => ~ keeps (acked_to U S A) x) (qa ++ qs)) /\
    recv_ok byte_at fin R' E' (pcb s') /\ E <= E' /\ R <= R' /\ (a <= R -> a + tcplen s <= R') /\
    passed s' = stream byte_at R (upto fin R' - R) /\
    segs_total s' = segs_total s + Z.of_nat (length (filter (fun x => ~ keeps (acked_to U S A) x) (qa ++ qs))) /\
    (recv_flags s = 0 -> has (recv_flags s') TF_GOT_FIN = bool_decide (R < R' /\ fin = Some (R' - 1))) /\
    (in_flags s', ackno s') = (in_flags s, ackno s) /\
    (state (pcb s') = state (pcb s) \/
       state (pcb s) = ESTABLISHED /\ state (pcb s') = CLOSE_WAIT /\ has (recv_flags s') TF_GOT_FIN = true) /\
    (recv_flags s = 0 -> recv_flags s' = 0 \/ recv_flags s' = TF_GOT_FIN).
Proof.
  intros Hs Hr Hfl Ha HA Hra Harr Hlive Hst. unfold tcp_receive. rewrite (proj2 (Z.leb_le _ _)) by lia.
  cbn [lwip_assert mbind outcome_bind].
  destruct (receive_ack_ok U S L B R E qa qs s A Hs (proj1 Hr) Ha HA Hra Hfl) as (s1 & -> & Hac).
  destruct Hac as [(qa' & qs' & H1 & H1' & Hin) H2 H3 (E1 & H4 & H4') [H5 H5'] H6]. cbn [mbind outcome_bind].
  pose proof (arrives_same a R E E1 s s1 H4 H6 Harr) as Harr1.
  destruct (receive_text_ok byte_at fin a R E1 s1) as (s' & R' & E' & -> & HE & [W Q Le D P F Z T K] & Hp); try done.
  { split; [done|]. rewrite H5. eapply queue_weaken; [| |exact (proj2 Hr)]; lia. }
  destruct K as (K1 & _ & _ & K3 & KF & [= K4 K5 _ K2 _]).
  pose proof H6 as [= _ M2 _ M4 M5 _ _ _ _ _ M6 M7].
  exists s', R', E', qa', qs'. split; [done|]. split_and!; try done; try lia.
  - destruct H1. by split; rewrite ?K1.
  - rewrite P. unfold passed. by rewrite (ar_fresh _ _ _ _ _ _ Harr1).
  - rewrite T. unfold segs_total. rewrite H3, H5. lia.
  - intros H0. by rewrite F, M5, H0.
  - by rewrite K4, K5, M6, M7.
  - by rewrite <- M2.
  - intros H0. rewrite M5, H0 in KF. auto.
Qed.

(** ** Segments without text, and states that ignore it *)

Lemma receive_text_none s : tcplen s = 0 \/ state_num CLOSE_WAIT <= state_num (state (pcb s)) ->
  receive_text s = Ret s \/ receive_text s = Ret (upd tcp_ack_now s).
Proof.
  intros H. unfold receive_text.
  assert ((0 <? tcplen s) && (state_num (state (pcb s)) <? state_num CLOSE_WAIT) = false) as ->.
  { apply andb_false_iff. destruct H as [->|H]; [by left|right]. by apply Z.ltb_ge. }
  destruct (TCP_SEQ_BETWEEN _ _ _); auto.
Qed.

(** What [tcp_receive] does to a connection with both halves in order. *)
Record received (U S L B A R E R' : Z) (qa qs : list placed) s s' : Prop := {
  re_send : exists qa' qs', send_ok (acked_to U S A) S L B qa' qs' (pcb s') /\
              (qa' ++ qs' ≡ₚ filter (keeps (acked_to U S A)) (qa ++ qs) /\ qa' ⊆ qa);
  re_recv : exists E', E <= E' /\ recv_ok byte_at fin R' E' (pcb s');
  re_le : R <= R';
  re_data : passed s' = stream byte_at R (upto fin R' - R);
  re_segs : segs_total s' = segs_total s + Z.of_nat (length (filter (fun x => ~ keeps (acked_to U S A) x) (qa ++ qs)));
  re_fin : has (recv_flags s') TF_GOT_FIN = bool_decide (R < R' /\ fin = Some (R' - 1));
  re_acks : (in_flags s', ackno s') = (in_flags s, ackno s);
  re_state : state (pcb s') = state (pcb s) \/
     state (pcb s) = ESTABLISHED /\ state (pcb s') = CLOSE_WAIT /\ has (recv_flags s') TF_GOT_FIN = true;
  re_closed : recv_flags s' = 0 \/ recv_flags s' = TF_GOT_FIN }.

Lemma upto_le x : upto fin x <= x.
Proof. unfold upto. destruct fin; lia. Qed.

Lemma tcp_receive_none U S L B qa qs A R E s :
  send_ok U S L B qa qs (pcb s) -> recv_ok byte_at fin R E (pcb s) ->
  has (in_flags s) TCP_ACK = true -> ackno s = u32 A -> U - 2 ^ 29 <= A <= U + 2 ^ 30 -> recv_acked s = 0 ->
  recv_flags s = 0 -> recv_data s = None -> state_num ESTABLISHED <= state_num (state (pcb s)) ->
  tcplen s = 0 \/ state_num CLOSE_WAIT <= state_num (state (pcb s)) ->
  exists s', tcp_receive s = Ret s' /\ received U S L B A R E R qa qs s s'.
Proof.
  intros Hs Hr Hfl Ha HA Hra Hrf Hrd Hst Hnone. unfold tcp_receive. rewrite (proj2 (Z.leb_le _ _)) by lia.
  cbn [lwip_assert mbind outcome_bind].
  destruct (receive_ack_ok U S L B R E qa qs s A Hs (proj1 Hr) Ha HA Hra Hfl) as (s1 & -> & Hac).
  destruct Hac as [(qa' & qs' & H1 & H1') H2 H3 (E1 & H4 & H4') [H5 H5'] H6]. cbn [mbind outcome_bind].
  pose proof H6 as [= _ M2 _ M4 M5 M8 _ _ _ _ M6 M7].
  assert (received U S L B A R E R qa qs s s1) as Hrec.
  { split; try congruence.
    - by exists qa', qs'.
    - exists E1. split; [done|]. split; [done|]. rewrite H5. eapply queue_weaken; [| |exact (proj2 Hr)]; lia.
    - lia.
    - unfold passed. rewrite M8, Hrd. simpl. rewrite stream_nil; [done|]. pose proof (upto_le R). lia.
    - unfold segs_total. rewrite H3, H5. lia.
    - rewrite M5, Hrf. by rewrite bool_decide_false by lia.
    - left. congruence.
    - left. congruence. }
  destruct (receive_text_none s1) as [-> | ->]; [by rewrite M4, M2|by exists s1|].
  exists (upd tcp_ack_now s1). split; [done|]. destruct Hrec as [(qa2 & qs2 & [] & G1') (E2 & G2 & [[] G2'']) G3 G4 G5 G6 G7 G8 G9].
  split; try done; [exists qa2, qs2; split; [by split|done]|exists E2; split; [done|]; split; [by split|done]].
Qed.

(** A segment with or without text. *)
Definition with_text (a R E : Z) s : Prop :=
  (tcplen s = 0 \/ state_num CLOSE_WAIT <= state_num (state (pcb s))) \/ arrives byte_at fin a R E s.

Lemma tcp_receive_any U S L B qa qs A a R E s :
  send_ok U S L B qa qs (pcb s) -> recv_ok byte_at fin R E (pcb s) ->
  has (in_flags s) TCP_ACK = true -> ackno s = u32 A -> U - 2 ^ 29 <= A <= U + 2 ^ 30 -> recv_acked s = 0 ->
  recv_flags s = 0 -> recv_data s = None -> state_num ESTABLISHED <= state_num (state (pcb s)) ->
  with_text a R E s -> (state_num (state (pcb s)) < state_num CLOSE_WAIT -> upto fin R = R) ->
  exists s' R', tcp_receive s = Ret s' /\ received U S L B A R E R' qa qs s s'.
Proof.
  intros Hs Hr Hfl Ha HA Hra Hrf Hrd Hst [Hn|Harr] Hlive.
  - destruct (tcp_receive_none U S L B qa qs A R E s) as (s' & H1 & H2); try done. by exists s', R.
  - destruct (tcp_receive_ok U S L B qa qs A a R E s) as
      (s' & R' & E' & qa' & qs' & G1 & G2 & G3 & G4 & G5 & G6 & G7 & G8 & G9 & G10 & G11 & G12 & G13 & G14); try done; [by apply Hlive, Harr|].
    exists s', R'. split; [done|]. split; try done; [by exists qa', qs'|by exists E'|by apply G11|by apply G14].
Qed.

(** C25: (both halves) [tcp_receive] on a segment with text and an acknowledgement:
    no assertion fails; exactly the segments acknowledged leave the send queues and
    the send buffer grows by their length; every byte that is not acknowledged
    stays in a queue, fast retransmit included; an acknowledgement of what was never
    sent changes nothing; the text is passed on in the order of the stream; no
    segment of the pool is lost. *)
Theorem tcp_receive_both_halves U S L B qa qs A a R E s :
  send_ok U S L B qa qs (pcb s) -> recv_ok byte_at fin R E (pcb s) ->
  has (in_flags s) TCP_ACK = true -> ackno s = u32 A -> U - 2 ^ 29 <= A <= U + 2 ^ 30 -> recv_acked s = 0 ->
  arrives byte_at fin a R E s -> upto fin R = R -> state_num ESTABLISHED <= state_num (state (pcb s)) ->
  exists s' R' E' qa' qs', tcp_receive s = Ret s' /\
    send_ok (acked_to U S A) S L B qa' qs' (pcb s') /\
    qa' ++ qs' ≡ₚ filter (keeps (acked_to U S A)) (qa ++ qs) /\
    recv_acked s' = lens (filter (fun x => ~ keeps (acked_to U S A) x) (qa ++ qs)) /\
    recv_ok byte_at fin R' E' (pcb s') /\ E <= E' /\ R <= R' /\ (a <= R -> a + tcplen s <= R') /\
    passed s' = stream byte_at R (upto fin R' - R) /\
    segs_total s' = segs_total s + Z.of_nat (length (filter (fun x => ~ keeps (acked_to U S A) x) (qa ++ qs))).
Proof.
  intros H1 H2 H3 H4 H5 H6 H7 H8 H9.
  destruct (tcp_receive_ok U S L B qa qs A a R E s H1 H2 H3 H4 H5 H6 H7 H8 H9)
    as (s' & R' & E' & qa' & qs' & ? & ? & [? _] & ? & ? & ? & ? & ? & ? & ? & _ & _ & _ & _).
  by exists s', R', E', qa', qs'.
Qed.

(** ** Fast retransmit *)

(** The segment is a duplicate acknowledgement (RFC 5681): it carries no text,
    acknowledges nothing new, does not change the window, and data is outstanding. *)
Record dup_ack s : Prop := {
  da_ack : has (in_flags s) TCP_ACK = true;
  da_no : ackno s = lastack (snd (pcb s));
  da_len : tcplen s = 0;
  da_window : window_news s = false;
  da_timer : 0 <= rtime (tim (pcb s)) }.

(** What one duplicate acknowledgement does to the connection. *)
Definition dup_step (p : tcp_pcb) : tcp_pcb :=
  let d := Z.min 255 (dupacks (cng p) + 1) in
  let p := set_dupacks d p in
  let p := if 3 <? d then set_cwnd (TCP_WND_INC (cwnd (cng p)) (mss p)) p else p in
  if 3 <=? d then tcp_rexmit_fast p else p.

Lemma wnd_inc w i : 0 <= w <= 0xffff -> 0 <= i <= 0xffff -> TCP_WND_INC w i = Z.min 0xffff (w + i).
Proof.
  intros. unfold TCP_WND_INC. destruct (Z.le_gt_cases (w + i) 0xffff).
  - rewrite u16_small by lia. rewrite (proj2 (Z.leb_le _ _)); lia.
  - assert (u16 (w + i) = w + i - 2 ^ 16) as ->.
    { unfold u16. symmetry. apply (Z.mod_unique _ _ 1); lia. }
    rewrite (proj2 (Z.leb_gt _ _)); lia.
Qed.

Lemma dup_ack_step s : dup_ack s -> 0 <= dupacks (cng (pcb s)) <= 255 ->
  receive_ack s = Ret (ack_rtt (upd dup_step s)).
Proof.
  intros [Hf Hn Hl Hw Ht] Hd. unfold receive_ack, ack_window. rewrite Hf, Hw, Hn. unfold TCP_SEQ_LEQ. rewrite Z.sub_diag. simpl.
  unfold ack_duplicate. rewrite Hl, Hn, (Z.add_comm (snd_wl2 _)), !Z.eqb_refl, (proj2 (Z.leb_le 0 _)) by lia.
  simpl. do 2 f_equal. unfold upd, dup_step. destruct (Z.eq_dec (dupacks (cng (pcb s))) 255) as [He|He].
  - assert (set_dupacks 255 (pcb s) = pcb s) as Hset by (rewrite <- He; by destruct s as [[? ? ? ? ? ? ? ? ? ? ? []]]).
    rewrite (Z.min_l 255) by lia. rewrite Hset, !He. change (255 <? u8 (255 + 1)) with false. cbv iota. rewrite !He.
    change (3 <? 255) with true. cbv iota. simpl. by rewrite He.
  - rewrite !(u8_small (dupacks (cng (pcb s)) + 1)), (proj2 (Z.ltb_lt _ (_ + 1))), Z.min_r by lia. simpl.
    by destruct (3 <? _), (3 <=? _).
Qed.

(** What decides whether the next acknowledgement is a duplicate. *)
Definition dup_view (p : tcp_pcb) :=
  (lastack (snd p), snd_wl1 (snd p), snd_wl2 (snd p), snd_wnd (snd p), mss p).

Lemma fast_view p : dup_view (tcp_rexmit_fast p) = dup_view p /\
  (0 <= rtime (tim p) -> 0 <= rtime (tim (tcp_rexmit_fast p))) /\ dupacks (cng (tcp_rexmit_fast p)) = dupacks (cng p).
Proof.
  unfold tcp_rexmit_fast, tcp_rexmit. destruct (_ && _); [|done]. destruct (unacked (snd p)) as [|g q]; [done|].
  destruct (seg_busy g); [done|]. destruct (nrtx _ <? 255); simpl; (split; [done|]); (split; [lia|done]).
Qed.
Lemma step_view p : dup_view (dup_step p) = dup_view p /\
  (0 <= rtime (tim p) -> 0 <= rtime (tim (dup_step p))) /\
  dupacks (cng (dup_step p)) = Z.min 255 (dupacks (cng p) + 1).
Proof.
  unfold dup_step. set (d := Z.min 255 _). destruct (3 <? d), (3 <=? d); try done;
    match goal with |- context [tcp_rexmit_fast ?x] => destruct (fast_view x) as (-> & H & ->) end; done.
Qed.

Lemma ack_rtt_tim s : exists t, ack_rtt s = upd (set_tim t) s /\ rtime t = rtime (tim (pcb s)).
Proof.
  unfold ack_rtt. destruct (_ && _); [by eexists|]. exists (tim (pcb s)). split; [|done]. by destruct s as [[]].
Qed.

Lemma dup_ack_next s : dup_ack s -> dup_ack (ack_rtt (upd dup_step s)).
Proof.
  intros [Hf Hn Hl Hw Ht]. destruct (ack_rtt_tim (upd dup_step s)) as (t & -> & Htt).
  destruct (step_view (pcb s)) as ([= V1 V2 V3 V4 V5] & Hr & _). unfold window_news in *. simpl in *.
  split; simpl; try done; [congruence|unfold window_news; simpl; by rewrite V2, V3, V4|]. rewrite Htt. auto.
Qed.

(** [n] acknowledgements of the same kind in a row. *)
Fixpoint acks (n : nat) s : outcome (input N) :=
  match n with O => Ret s | S n => s ← receive_ack s; acks n s end.

(** After [n] duplicate acknowledgements; [g] was the first unacknowledged segment. *)
Record after_dups (n : Z) (g : tcp_seg) (q us : list tcp_seg) (w T M : Z) s : Prop := {
  ad_dup : dup_ack s;
  ad_count : dupacks (cng (pcb s)) = Z.min 255 n;
  ad_mss : mss (pcb s) = M;
  ad_thresh : Z.max (2 * M) (Z.min w (snd_wnd (snd (pcb s))) / 2) = T;
  ad_infr : has (flags (pcb s)) TF_INFR = (3 <=? n);
  ad_queues : (unacked (snd (pcb s)), unsent (snd (pcb s)))
              = (if n <? 3 then (g :: q, us) else (q, insert_unsent g us));
  ad_cwnd : cwnd (cng (pcb s)) = if n <? 3 then w else Z.min 0xffff (T + 3 * M + (n - 3) * M);
  ad_ssthresh : 3 <= n -> ssthresh (cng (pcb s)) = T }.

Lemma fast_infr p : has (flags p) TF_INFR = true -> tcp_rexmit_fast p = p.
Proof. intros H. unfold tcp_rexmit_fast. by rewrite H, andb_false_r. Qed.

Lemma infr_set f : has (u16 (Z.lor f TF_INFR)) TF_INFR = true.
Proof.
  change TF_INFR with (2 ^ 2). rewrite has_pow2 by lia. unfold u16. rewrite Z.mod_pow2_bits_low by lia.
  rewrite Z.lor_spec. apply orb_true_r.
Qed.

Lemma fast_moves p g q : has (flags p) TF_INFR = false -> unacked (snd p) = g :: q -> seg_busy g = false ->
  0 < mss p <= TCP_MSS -> 0 <= cwnd (cng p) <= 0xffff ->
  let T := Z.max (2 * mss p) (Z.min (cwnd (cng p)) (snd_wnd (snd p)) / 2) in
  let p' := tcp_rexmit_fast p in
  unacked (snd p') = q /\ unsent (snd p') = insert_unsent g (unsent (snd p)) /\ ssthresh (cng p') = T /\
  cwnd (cng p') = T + 3 * mss p /\ has (flags p') TF_INFR = true.
Proof.
  intros Hf Hu Hb Hm Hc. unfold tcp_rexmit_fast, tcp_rexmit. rewrite Hu, Hf, Hb. rewrite bool_decide_false by done. simpl.
  change TCP_MSS with 1000 in Hm.
  assert (Z.min (cwnd (cng p)) (snd_wnd (snd p)) / 2 <= 32767) as Hmax.
  { etransitivity; [apply (Z.div_le_mono _ 65535); lia|done]. }
  destruct (nrtx _ <? 255); simpl; rewrite infr_set;
    (destruct (Z.ltb_spec (Z.min (cwnd (cng p)) (snd_wnd (snd p)) / 2) (2 * mss p));
     rewrite !u16_small by lia; split_and!; try done; lia).
Qed.

Lemma dup_step_low p : 0 <= dupacks (cng p) < 2 -> dup_step p = set_dupacks (dupacks (cng p) + 1) p.
Proof.
  intros H. unfold dup_step. rewrite Z.min_r by lia.
  by rewrite (proj2 (Z.ltb_ge 3 _)), (proj2 (Z.leb_gt 3 _)) by lia.
Qed.
Lemma dup_step_third p : dupacks (cng p) = 2 -> dup_step p = tcp_rexmit_fast (set_dupacks 3 p).
Proof. intros H. unfold dup_step. by rewrite H. Qed.
Lemma dup_step_more p : 3 <= dupacks (cng p) -> has (flags p) TF_INFR = true ->
  dup_step p = set_cwnd (TCP_WND_INC (cwnd (cng p)) (mss p)) (set_dupacks (Z.min 255 (dupacks (cng p) + 1)) p).
Proof.
  intros H Hf. unfold dup_step. rewrite (proj2 (Z.ltb_lt 3 _)), (proj2 (Z.leb_le 3 _)) by lia. by rewrite fast_infr.
Qed.

Lemma after_dups_step n g q us w T M s : 0 <= n -> seg_busy g = false -> 0 < M <= TCP_MSS -> 0 <= w <= 0xffff ->
  after_dups n g q us w T M s -> after_dups (n + 1) g q us w T M (ack_rtt (upd dup_step s)).
Proof.
  intros Hn Hb HM Hw [D1 D2 D3 D4 D5 D6 D7 D8]. pose proof (dup_ack_next s D1) as Hnext. revert Hnext.
  destruct (ack_rtt_tim (upd dup_step s)) as (t & -> & _). intros Hnext.
  destruct (step_view (pcb s)) as ([= V1 V2 V3 V4 V5] & _ & V6). change TCP_MSS with 1000 in HM.
  destruct (Z.lt_trichotomy n 2) as [Hlt|[->|Hgt]]; (split; [done|simpl; lia|simpl; congruence|simpl; congruence|..]);
    simpl.
  1-4: rewrite dup_step_low by lia; simpl; rewrite ?D5, ?D6, ?D7;
    rewrite ?(proj2 (Z.ltb_lt n 3)), ?(proj2 (Z.ltb_lt (n + 1) 3)), ?(proj2 (Z.leb_gt 3 n)), ?(proj2 (Z.leb_gt 3 (n + 1))) by lia;
    (done || lia).
  1-4: rewrite dup_step_third by lia; simpl in D5, D6, D7; injection D6 as D6 D6';
    destruct (fast_moves (set_dupacks 3 (pcb s)) g q) as (F1 & F2 & F3 & F4 & F5); simpl; rewrite ?D3, ?D7; try done;
    simpl in F2, F3, F4; rewrite D7, D3, D4 in F3, F4; rewrite ?F1, ?F2, ?D6'; try done.
  - rewrite F4. assert (T <= 32767); [|lia]. rewrite <- D4.
    apply Z.max_lub; [lia|]. etransitivity; [apply (Z.div_le_mono _ 65535); lia|done].
  - rewrite (proj2 (Z.leb_le 3 n)) in D5 by lia. rewrite (proj2 (Z.ltb_ge n 3)) in D6, D7 by lia.
    rewrite dup_step_more by (lia || done). simpl. by rewrite D5, (proj2 (Z.leb_le 3 (n + 1))) by lia.
  - rewrite (proj2 (Z.leb_le 3 n)) in D5 by lia. rewrite (proj2 (Z.ltb_ge n 3)) in D6, D7 by lia.
    rewrite dup_step_more by (lia || done). simpl. by rewrite D6, (proj2 (Z.ltb_ge (n + 1) 3)) by lia.
  - rewrite (proj2 (Z.leb_le 3 n)) in D5 by lia. rewrite (proj2 (Z.ltb_ge n 3)) in D6, D7 by lia.
    rewrite dup_step_more by (lia || done). simpl. rewrite (proj2 (Z.ltb_ge (n + 1) 3)), D7, D3, wnd_inc by lia. lia.
  - rewrite (proj2 (Z.leb_le 3 n)) in D5 by lia. rewrite dup_step_more by (lia || done). simpl. intros _. apply D8. lia.
Qed.

(** (fast retransmit) a run of [n] duplicate acknowledgements: the first two change
    nothing; the third moves the first unacknowledged segment, and only this one, to its place
    in the unsent queue, sets the slow start threshold to half of the flight and
    opens the congestion window by three segments; each further one opens it by
    one more segment, up to what 16 bits hold, and retransmits nothing. *)
Theorem fast_retransmit_once n g q s : dup_ack s -> dupacks (cng (pcb s)) = 0 ->
  has (flags (pcb s)) TF_INFR = false -> unacked (snd (pcb s)) = g :: q -> seg_busy g = false ->
  0 < mss (pcb s) <= TCP_MSS -> 0 <= cwnd (cng (pcb s)) <= 0xffff ->
  exists s', acks n s = Ret s' /\
    let T := Z.max (2 * mss (pcb s)) (Z.min (cwnd (cng (pcb s))) (snd_wnd (snd (pcb s))) / 2) in
    after_dups (Z.of_nat n) g q (unsent (snd (pcb s))) (cwnd (cng (pcb s))) T (mss (pcb s)) s'.
Proof.
  intros Hd H0 Hf Hu Hb Hm Hc. set (T := Z.max _ _). set (us := unsent _). set (w := cwnd _) in *. set (M := mss _) in *.
  assert (forall n m s1, after_dups m g q us w T M s1 -> 0 <= m ->
    exists s', acks n s1 = Ret s' /\ after_dups (m + Z.of_nat n) g q us w T M s') as H.
  { clearbody T us w M. clear - Hb Hm Hc. induction n as [|n IH]; intros m s1 Had H0.
    - exists s1. split; [done|]. by rewrite Z.add_0_r.
    - simpl. rewrite dup_ack_step; [|apply Had|destruct Had; lia]. cbn [mbind outcome_bind].
      destruct (IH (m + 1) (ack_rtt (upd dup_step s1))) as (s' & -> & Had'); [by apply after_dups_step|lia|].
      exists s'. split; [done|]. by replace (m + _) with (m + 1 + Z.of_nat n) by lia. }
  apply (H n 0 s); [|lia]. split; try done; try lia. simpl. by rewrite Hu.
Qed.

(** ** Round-trip times *)

(** The estimator within its bounds. *)
Lemma rtt_bounded M s : 0 <= M <= 4095 -> 0 <= sa (tim (pcb s)) <= 8 * M -> 0 <= sv (tim (pcb s)) <= 4 * M ->
  0 < rttest (tim (pcb s)) <= tcp_ticks s -> tcp_ticks s < 2 ^ 32 -> tcp_ticks s - rttest (tim (pcb s)) <= M ->
  TCP_SEQ_LT (rtseq (tim (pcb s))) (ackno s) = true ->
  let m := tcp_ticks s - rttest (tim (pcb s)) in
  let err := m - sa (tim (pcb s)) / 8 in
  let t := tim (pcb (ack_rtt s)) in
  sa t = sa (tim (pcb s)) + err /\ sv t = sv (tim (pcb s)) + (Z.abs err - sv (tim (pcb s)) / 4) /\
  rto t = sa t / 8 + sv t /\ rttest t = 0 /\
  0 <= sa t <= 8 * M /\ 0 <= sv t <= 4 * M /\ 0 <= rto t <= 5 * M.
Proof.
  intros HM Hsa Hsv Hrt Htt Hm Hseq. unfold ack_rtt. rewrite Hseq, (proj2 (Z.eqb_neq (rttest _) 0)) by lia. simpl.
  rewrite u32_small by lia. rewrite !Z.shiftr_div_pow2 by lia. change (2 ^ 3) with 8. change (2 ^ 2) with 4.
  set (m := tcp_ticks s - _). set (A := sa _) in *. set (V := sv _) in *. assert (0 <= m <= M) as Hm' by lia. clearbody m A V.
  assert (0 <= A / 8 <= M) by (split; [apply Z.div_pos; lia|apply Z.div_le_upper_bound; lia]).
  assert (0 <= V / 4 <= M) by (split; [apply Z.div_pos; lia|apply Z.div_le_upper_bound; lia]).
  pose proof (Z.mul_div_le A 8). pose proof (Z.mod_pos_bound A 8). pose proof (Z.div_mod A 8).
  pose proof (Z.mod_pos_bound V 4). pose proof (Z.div_mod V 4).
  rewrite (s16_small m), (s16_small (m - A / 8)), (s16_small (A + (m - A / 8))), (s16_small (- (m - A / 8))) by lia.
  replace (if m - A / 8 <? 0 then - (m - A / 8) else m - A / 8) with (Z.abs (m - A / 8))
    by (destruct (Z.ltb_spec (m - A / 8) 0); lia).
  rewrite (s16_small (Z.abs _ - _)), (s16_small (V + _)) by lia.
  assert (0 <= (A + (m - A / 8)) / 8 <= M) by (split; [apply Z.div_pos; lia|apply Z.div_le_upper_bound; lia]).
  rewrite s16_small by lia. split_and!; try done; lia.
Qed.
(** C28: (round-trip times) the estimator of Jacobson and Karels in 16-bit arithmetic: as long as
    no sample exceeds [M] timer ticks, [M] up to 4095 (34 minutes), the smoothed
    mean and deviation stay within [8 * M] and [4 * M], nothing overflows, and the
    retransmission time-out is the mean plus four deviations, at most [5 * M]. *)
Theorem rtt_estimator_bounded M s : 0 <= M <= 4095 -> 0 <= sa (tim (pcb s)) <= 8 * M -> 0 <= sv (tim (pcb s)) <= 4 * M ->
  0 < rttest (tim (pcb s)) <= tcp_ticks s -> tcp_ticks s < 2 ^ 32 -> tcp_ticks s - rttest (tim (pcb s)) <= M ->
  TCP_SEQ_LT (rtseq (tim (pcb s))) (ackno s) = true ->
  let m := tcp_ticks s - rttest (tim (pcb s)) in
  let err := m - sa (tim (pcb s)) / 8 in
  let t := tim (pcb (ack_rtt s)) in
  sa t = sa (tim (pcb s)) + err /\ sv t = sv (tim (pcb s)) + (Z.abs err - sv (tim (pcb s)) / 4) /\
  rto t = sa t / 8 + sv t /\ rttest t = 0 /\
  0 <= sa t <= 8 * M /\ 0 <= sv t <= 4 * M /\ 0 <= rto t <= 5 * M.
Proof. apply rtt_bounded. Qed.
End receive.

(** ** Examples *)
Module ReceiveExamples.
#[local] Instance sink : TcpNet unit := { hdr_alloc n := (true, n); output_control n _ _ _ := (ERR_OK, n) }.

(** The peer's text, without a FIN. *)
Definition text (i : Z) : Z := i mod 256.
(** Two segments of ten bytes are on their way. *)
Definition seg (a : Z) : placed := (a, Seg a 10 TCP_ACK [replicate 30 0] false false).
Definition conn : tcp_pcb :=
  Pcb ESTABLISHED 0 1000 1 80 2 8080 true None (Receiver 1000 4000 4000 5000 [])
    (Sender 27 999 7 27 4000 4000 4076 2 7 [] [(seg 7).2; (seg 17).2]) (Congestion 2000 4000 0 0)
    (Timing 0 40 7 16 8 3 0 0 0 0 0 0 0 0 0 0 false).
(** A segment with four bytes of text that acknowledges position 17. *)
Definition arriving : input unit :=
  Input conn 1000 4 TCP_ACK (Some [stream text 1000 4]) 1000 17 TCP_ACK 4000 4 0 0 None 4 44 tt.
(** A duplicate acknowledgement. *)
Definition duplicate : input unit :=
  Input (set_snd_wl1 1000 conn) 1000 0 TCP_ACK (Some [[]]) 1000 7 TCP_ACK 4000 0 0 0 None 4 44 tt.

Lemma conn_sends : send_ok 7 27 27 4096 [seg 7; seg 17] [] conn.
Proof.
  split; try done; try (by repeat constructor).
  { intros x y _ Hy. by apply not_elem_of_nil in Hy. }
  intros i Hi. destruct (Z.lt_ge_cases i 17); [exists (seg 7)|exists (seg 17)]; (split; [set_solver|]);
    unfold ends_at; simpl; change (TCP_TCPLEN _) with 10; lia.
Qed.

Lemma tcp_receive_both_halves_witness :
  exists s' R' E' qa' qs', tcp_receive arriving = Ret s' /\
    send_ok (acked_to 7 27 17) 27 27 4096 qa' qs' (pcb s') /\
    qa' ++ qs' ≡ₚ filter (keeps (acked_to 7 27 17)) ([seg 7; seg 17] ++ []) /\
    recv_acked s' = lens (filter (fun x => ~ keeps (acked_to 7 27 17) x) ([seg 7; seg 17] ++ [])) /\
    recv_ok text None R' E' (pcb s') /\ 5000 <= E' /\ 1000 <= R' /\ (1000 <= 1000 -> 1000 + tcplen arriving <= R') /\
    passed s' = stream text 1000 (upto None R' - 1000) /\
    segs_total s' = segs_total arriving
      + Z.of_nat (length (filter (fun x => ~ keeps (acked_to 7 27 17) x) ([seg 7; seg 17] ++ []))).
Proof.
  apply (tcp_receive_both_halves text None 7 27 27 4096 [seg 7; seg 17] [] 17 1000 1000 5000 arriving);
    try done; [exact conn_sends|].
  split; try done. split; try done. exists [stream text 1000 4]. by split_and!.
Defined.

Lemma fast_retransmit_once_witness :
  exists s', acks 5 duplicate = Ret s' /\
    after_dups 5 (seg 7).2 [(seg 17).2] [] 2000 (Z.max (2 * 1000) (Z.min 2000 4000 / 2)) 1000 s'.
Proof. apply (fast_retransmit_once 5 (seg 7).2 [(seg 17).2] duplicate); done. Defined.

Lemma rtt_estimator_bounded_witness :
  let t := tim (pcb (ack_rtt arriving)) in
  sa t = 16 + (4 - 2) /\ sv t = 8 + (2 - 2) /\ rto t = sa t / 8 + sv t /\ rttest t = 0 /\
  0 <= sa t <= 8 * 4095 /\ 0 <= sv t <= 4 * 4095 /\ 0 <= rto t <= 5 * 4095.
Proof. apply (rtt_estimator_bounded 4095 arriving); try done. Defined.
End ReceiveExamples.
