(* ===== verification/TcpOpt.v ===== *)
(** * TCP options ([tcp_parseopt] of [tcp_in.c])

    The options of a segment lie behind the header in the first pbuf, or continue in
    the second. The memory there is a function of the index, so that reading
    behind the options has a meaning; [reads] is the list of indices read. *)

From S2P Require Import Prelude Chain Def Tcp.

(** [tcphdr_optlen], the bytes behind the header, [tcphdr_opt1len] and [tcphdr_opt2]. *)
Record options := Options {
  optlen : Z; opt1 : Z -> Z; opt1len : Z; opt2 : option (Z -> Z) }.

Definition tcp_get_next_optbyte (o : options) (optidx : Z) : Z :=
  match opt2 o with
  | None => opt1 o optidx
  | Some m => if optidx <? opt1len o then opt1 o optidx else m (u8 (optidx - opt1len o))
  end.

Definition LWIP_TCP_OPT_EOL : Z := 0.
Definition LWIP_TCP_OPT_NOP : Z := 1.
Definition LWIP_TCP_OPT_MSS : Z := 2.
Definition LWIP_TCP_OPT_LEN_MSS : Z := 4.

(** The loop of [tcp_parseopt]; the result is the segment size of the connection
    and the indices read. *)
Fixpoint parseopt_loop (fuel : nat) (o : options) (idx m : Z) (reads : list Z) : outcome (Z * list Z) :=
  match fuel with
  | O => Diverge
  | S fuel =>
      if idx <? optlen o then
        let opt := tcp_get_next_optbyte o idx in
        let reads := idx :: reads in
        let idx := u16 (idx + 1) in
        if opt =? LWIP_TCP_OPT_EOL then Ret (m, reads)
        else if opt =? LWIP_TCP_OPT_NOP then parseopt_loop fuel o idx m reads
        else if opt =? LWIP_TCP_OPT_MSS then
          let len := tcp_get_next_optbyte o idx in
          let reads := idx :: reads in
          let idx := u16 (idx + 1) in
          if negb (len =? LWIP_TCP_OPT_LEN_MSS) || (optlen o <? idx - 2 + LWIP_TCP_OPT_LEN_MSS) then Ret (m, reads)
          else
            let hi := tcp_get_next_optbyte o idx in
            let lo := tcp_get_next_optbyte o (u16 (idx + 1)) in
            let v := Z.lor (u16 (Z.shiftl hi 8)) lo in
            parseopt_loop fuel o (u16 (idx + 2)) (if (TCP_MSS <? v) || (v =? 0) then TCP_MSS else v)
              (u16 (idx + 1) :: idx :: reads)
        else
          let data := tcp_get_next_optbyte o idx in
          let reads := idx :: reads in
          let idx := u16 (idx + 1) in
          if data <? 2 then Ret (m, reads) else parseopt_loop fuel o (u16 (idx + data - 2)) m reads
      else Ret (m, reads)
  end.
(** [tcp_parseopt(pcb)]. *)
Definition tcp_parseopt (o : options) (p : tcp_pcb) : outcome tcp_pcb :=
  if negb (optlen o =? 0) then
    '(m, _) ← parseopt_loop (S (Z.to_nat (optlen o))) o 0 (mss p) []; Ret (set_mss m p)
  else Ret p.

(** ** Properties *)

(** The options are bytes and there are at most 40, as the header length field
    allows. *)
Record options_ok (o : options) : Prop := {
  oo_len : 0 <= optlen o <= 40;
  oo_bytes : forall i, 0 <= tcp_get_next_optbyte o i < 256 }.

Lemma parseopt_loop_ok o : options_ok o -> forall fuel idx m reads,
  0 <= idx <= 0x200 -> (Z.to_nat (optlen o - idx) < fuel)%nat ->
  exists m' new, parseopt_loop fuel o idx m reads = Ret (m', new ++ reads) /\
    Forall (fun i => 0 <= i <= optlen o) new /\ (m' = m \/ 1 <= m' <= TCP_MSS).
Proof.
  intros [Hl Hb]. induction fuel as [|fuel IH]; intros idx m reads Hi Hf; [lia|]. cbn [parseopt_loop].
  destruct (Z.ltb_spec idx (optlen o)) as [Hlt|Hge]; [|by exists m, []; auto].
  rewrite (u16_small (idx + 1)), (u16_small (idx + 1 + 1)) by lia.
  destruct (_ =? LWIP_TCP_OPT_EOL).
  { exists m, [idx]. split; [done|]. split; [repeat constructor; lia|by left]. }
  destruct (_ =? LWIP_TCP_OPT_NOP).
  { destruct (IH (idx + 1) m (idx :: reads)) as (m' & new & -> & H1 & H2); [lia|lia|].
    exists m', (new ++ [idx]). rewrite <- app_assoc. split; [done|]. split; [|done].
    apply Forall_app. split; [done|]. repeat constructor; lia. }
  destruct (_ =? LWIP_TCP_OPT_MSS).
  - destruct (negb _); cbn [orb].
    { exists m, [idx + 1; idx]. split; [done|]. split; [repeat constructor; lia|by left]. }
    destruct (Z.ltb_spec (optlen o) (idx + 1 + 1 - 2 + LWIP_TCP_OPT_LEN_MSS)) as [Hs|Hs].
    { exists m, [idx + 1; idx]. split; [done|]. split; [repeat constructor; lia|by left]. }
    unfold LWIP_TCP_OPT_LEN_MSS in Hs. rewrite (u16_small (idx + 1 + 1 + 2)), (u16_small (idx + 1 + 1 + 1)) by lia.
    match goal with |- context [parseopt_loop fuel o _ ?v ?r] => set (v0 := v); set (r0 := r) end.
    destruct (IH (idx + 1 + 1 + 2) v0 r0) as (m' & new & -> & H1 & H2); [lia|lia|].
    exists m', (new ++ [idx + 1 + 1 + 1; idx + 1 + 1; idx + 1; idx]). rewrite <- app_assoc. split; [done|].
    split; [apply Forall_app; split; [done|]; repeat constructor; lia|]. right. destruct H2 as [->|]; [|done].
    subst v0. match goal with |- context [?x =? 0] => set (v := x) end.
    assert (0 <= v) by (apply Z.lor_nonneg; split; [apply u16_range|apply Hb]).
    change TCP_MSS with 1000. destruct (Z.ltb_spec 1000 v), (Z.eqb_spec v 0); simpl; lia.
  - pose proof (Hb (idx + 1)) as Hd. destruct (Z.ltb_spec (tcp_get_next_optbyte o (idx + 1)) 2) as [Hs|Hs].
    { exists m, [idx + 1; idx]. split; [done|]. split; [repeat constructor; lia|by left]. }
    rewrite u16_small by lia.
    destruct (IH (idx + 1 + 1 + tcp_get_next_optbyte o (idx + 1) - 2) m (idx + 1 :: idx :: reads))
      as (m' & new & -> & H1 & H2); [lia|lia|].
    exists m', (new ++ [idx + 1; idx]). rewrite <- app_assoc. split; [done|]. split; [|done].
    apply Forall_app. split; [done|]. repeat constructor; lia.
Qed.

Lemma parseopt_ok o p : options_ok o ->
  exists m, tcp_parseopt o p = Ret (set_mss m p) /\ (m = mss p \/ 1 <= m <= TCP_MSS).
Proof.
  intros Ho. unfold tcp_parseopt. destruct (Z.eqb_spec (optlen o) 0) as [Hz|Hz].
  - exists (mss p). split; [by destruct p|by left].
  - destruct (parseopt_loop_ok o Ho (S (Z.to_nat (optlen o))) 0 (mss p) []) as (m & new & Heq & _ & H2); [lia|lia|].
    exists m. simpl negb. by rewrite Heq.
Qed.

(** (termination and bounds) whatever the option bytes, [tcp_parseopt] ends, reads no
    byte further than the one behind the options, and leaves a segment size
    that was there before or lies between 1 and [TCP_MSS]. *)
Theorem parseopt_total o p : options_ok o ->
  exists m new, tcp_parseopt o p = Ret (set_mss m p) /\ (m = mss p \/ 1 <= m <= TCP_MSS) /\
    Forall (fun i => 0 <= i <= optlen o) new /\
    (optlen o <> 0 -> parseopt_loop (S (Z.to_nat (optlen o))) o 0 (mss p) [] = Ret (m, new)).
Proof.
  intros Ho. unfold tcp_parseopt. destruct (Z.eqb_spec (optlen o) 0) as [Hz|Hz].
  - exists (mss p), []. split; [by destruct p|]. split; [by left|]. by split.
  - destruct (parseopt_loop_ok o Ho (S (Z.to_nat (optlen o))) 0 (mss p) []) as (m & new & Heq & H1 & H2); [lia|lia|].
    rewrite app_nil_r in Heq. exists m, new. simpl negb. rewrite Heq. by split_and!.
Qed.

(** ** The option that is sent *)

(** [TCP_BUILD_MSS_OPTION(mss)], a word in network byte order. *)
Definition TCP_BUILD_MSS_OPTION (m : Z) : Z := lwip_htonl (Z.lor 0x02040000 (Z.land m 0xffff)).
(** The word in the memory of this little-endian host. *)
Definition word_bytes (w i : Z) : Z := Z.land (Z.shiftr w (8 * i)) 0xff.

Lemma parse_mss (f : Z -> Z) v k n : f 0 = LWIP_TCP_OPT_MSS -> f 1 = LWIP_TCP_OPT_LEN_MSS ->
  Z.lor (u16 (Z.shiftl (f 2) 8)) (f 3) = v -> 1 <= v <= TCP_MSS ->
  parseopt_loop (S (S n)) (Options 4 f 4 None) 0 k [] = Ret (v, [3; 2; 1; 0]).
Proof.
  intros H0 H1 Hv Hr. cbn [parseopt_loop]. unfold tcp_get_next_optbyte. cbn [opt2 opt1 optlen].
  change (u16 (0 + 1)) with 1. change (u16 (1 + 1)) with 2. change (u16 (2 + 1)) with 3. rewrite H0, H1, Hv.
  rewrite (proj2 (Z.ltb_ge TCP_MSS v)), (proj2 (Z.eqb_neq v 0)) by lia. done.
Qed.
(** The bytes of the option. *)
Lemma mss_option_bytes : Forall (fun m => (word_bytes (TCP_BUILD_MSS_OPTION m) 0, word_bytes (TCP_BUILD_MSS_OPTION m) 1,
    Z.lor (u16 (Z.shiftl (word_bytes (TCP_BUILD_MSS_OPTION m) 2) 8)) (word_bytes (TCP_BUILD_MSS_OPTION m) 3))
    = (LWIP_TCP_OPT_MSS, LWIP_TCP_OPT_LEN_MSS, m)) (seqZ 1 TCP_MSS).
Proof. apply (bool_decide_unpack _). by vm_compute. Qed.

Lemma mss_parsed m p : 1 <= m <= TCP_MSS ->
  tcp_parseopt (Options 4 (word_bytes (TCP_BUILD_MSS_OPTION m)) 4 None) p = Ret (set_mss m p).
Proof.
  intros Hm. pose proof mss_option_bytes as Hb. rewrite Forall_forall in Hb.
  assert (m ∈ seqZ 1 TCP_MSS) as Hin by (apply elem_of_seqZ; lia). specialize (Hb m Hin). injection Hb as H0 H1 H2.
  unfold tcp_parseopt. cbn [optlen]. change (S (Z.to_nat 4)) with (S (S 3)). by rewrite (parse_mss _ m).
Qed.

(** (round trip) the segment size option that a SYN carries is read back as it was
    sent, for every segment size of the configuration. *)
Theorem mss_option_roundtrip m p : 1 <= m <= TCP_MSS ->
  tcp_parseopt (Options 4 (word_bytes (TCP_BUILD_MSS_OPTION m)) 4 None) p = Ret (set_mss m p).
Proof. exact (mss_parsed m p). Qed.

Lemma parseopt_total_witness :
  let o := Options 4 (word_bytes 0xff) 4 None in
  exists m new, tcp_parseopt o (Pcb CLOSED 0 536 0 0 0 0 false None (Receiver 0 0 0 0 []) (Sender 0 0 0 0 0 0 0 0 0 [] [])
    (Congestion 0 0 0 0) (Timing 0 0 0 0 0 0 0 0 0 0 0 0 0 0 0 0 false)) = Ret (set_mss m (Pcb CLOSED 0 536 0 0 0 0 false None
    (Receiver 0 0 0 0 []) (Sender 0 0 0 0 0 0 0 0 0 [] []) (Congestion 0 0 0 0) (Timing 0 0 0 0 0 0 0 0 0 0 0 0 0 0 0 0 false))) /\
    (m = 536 \/ 1 <= m <= TCP_MSS) /\ Forall (fun i => 0 <= i <= optlen o) new /\
    (optlen o <> 0 -> parseopt_loop (S (Z.to_nat (optlen o))) o 0 536 [] = Ret (m, new)).
Proof.
  apply (parseopt_total (Options 4 (word_bytes 0xff) 4 None) (Pcb CLOSED 0 536 0 0 0 0 false None (Receiver 0 0 0 0 [])
    (Sender 0 0 0 0 0 0 0 0 0 [] []) (Congestion 0 0 0 0) (Timing 0 0 0 0 0 0 0 0 0 0 0 0 0 0 0 0 false))).
  split; [simpl; lia|]. intros i. unfold tcp_get_next_optbyte, word_bytes. simpl. rewrite land_ff. apply Z.mod_pos_bound. lia.
Defined.
Lemma mss_option_roundtrip_witness :
  tcp_parseopt (Options 4 (word_bytes (TCP_BUILD_MSS_OPTION 536)) 4 None) (Pcb CLOSED 0 1000 0 0 0 0 false None
    (Receiver 0 0 0 0 []) (Sender 0 0 0 0 0 0 0 0 0 [] []) (Congestion 0 0 0 0) (Timing 0 0 0 0 0 0 0 0 0 0 0 0 0 0 0 0 false))
  = Ret (Pcb CLOSED 0 536 0 0 0 0 false None (Receiver 0 0 0 0 []) (Sender 0 0 0 0 0 0 0 0 0 [] []) (Congestion 0 0 0 0)
    (Timing 0 0 0 0 0 0 0 0 0 0 0 0 0 0 0 0 false)).
Proof. apply (mss_option_roundtrip 536). unfold TCP_MSS. lia. Defined.
