(* ===== verification/TcpProcess.v ===== *)
(** * The TCP state machine ([tcp_process] of [tcp_in.c])

    A segment that belongs to a connection: resets, connection establishment from
    both sides, data transfer and the closing handshake. The connection is
    known by its address [me] in the lists [tcp_bound_pcbs], [tcp_active_pcbs] and
    [tcp_tw_pcbs].

    The application is the class [TcpApp]: its callbacks may change the whole
    state. While a segment is processed [tcp_input_pcb] is the connection, so
    that [tcp_output] returns at once. *)

From S2P Require Import Prelude Chain Tcp TcpRecv TcpAck TcpOpt.

(** ** What surrounds a connection *)

(** [listener_open]: [pcb->listener] is there; [accept_cb], [connected_cb],
    [err_cb]: the callbacks; [route_mtu]: the [mtu] of the interface that [ip_route]
    finds. *)
Class TcpApp (N : Type) := {
  listener_open : N -> bool;
  accept_cb : input N -> err_t * input N;
  connected_cb : input N -> err_t * input N;
  err_cb : err_t -> N -> N;
  route_mtu : N -> Z -> Z -> option Z }.

Record conn (N : Type) := Conn {
  inp : input N; me : Z; bound : list Z; active : list Z; tw : list Z; active_changed : bool; freed_pcb : bool }.
Arguments Conn {N}.
Arguments inp {N}.
Arguments me {N}.
Arguments bound {N}.
Arguments active {N}.
Arguments tw {N}.
Arguments active_changed {N}.
Arguments freed_pcb {N}.

(** [TCP_RMV(pcbs, npcb)]. *)
Fixpoint TCP_RMV (l : list Z) (a : Z) : list Z :=
  match l with
  | [] => []
  | b :: l' => if b =? a then l' else b :: TCP_RMV l' a
  end.

Section process.
  Context {N : Type} `{!TcpNet N} `{!TcpApp N}.
  Implicit Type s : input N.
  Implicit Type c : conn N.

Definition set_inp s c : conn N := Conn s (me c) (bound c) (active c) (tw c) (active_changed c) (freed_pcb c).
Definition updc (f : input N -> input N) c : conn N := set_inp (f (inp c)) c.
Definition cpcb c : tcp_pcb := pcb (inp c).

Definition rmv_bound c : conn N :=
  Conn (inp c) (me c) (TCP_RMV (bound c) (me c)) (active c) (tw c) (active_changed c) (freed_pcb c).
Definition rmv_tw c : conn N :=
  Conn (inp c) (me c) (bound c) (active c) (TCP_RMV (tw c) (me c)) (active_changed c) (freed_pcb c).
Definition TCP_RMV_ACTIVE c : conn N :=
  Conn (inp c) (me c) (bound c) (TCP_RMV (active c) (me c)) (tw c) true (freed_pcb c).
(** [TCP_REG(&tcp_tw_pcbs, pcb)]. *)
Definition TCP_REG_TW c : conn N :=
  Conn (inp c) (me c) (bound c) (active c) (me c :: tw c) (active_changed c) (freed_pcb c).

(** ** Purging and aborting ([tcp.c]) *)

Definition tcp_free_ooseq s : input N := upd (set_ooseq []) (tcp_segs_free (ooseq (rcv (pcb s))) s).

(** The queues of a connection; those of its nodes are [TcpNetml.purge_nodes]. *)
Definition tcp_pcb_purge s : input N :=
  if decide (state (pcb s) <> CLOSED /\ state (pcb s) <> TIME_WAIT /\ state (pcb s) <> LISTEN) then
    let s := upd (set_refused_data None) s in
    let s := tcp_free_ooseq s in
    let s := upd (set_rtime (-1)) s in
    let s := tcp_segs_free (unacked (snd (pcb s))) (tcp_segs_free (unsent (snd (pcb s))) s) in
    upd (set_unsent []) (upd (set_unacked []) s)
  else s.

(** [tcp_pcb_remove(pcblist, pcb)]; [rmv] takes the connection from the list. *)
Definition tcp_pcb_remove (rmv : conn N -> conn N) c : outcome (conn N) :=
  let c := rmv c in
  let c := updc tcp_pcb_purge c in
  let p := cpcb c in
  let c := if decide (state p <> TIME_WAIT /\ state p <> LISTEN) then
             if has (flags p) TF_ACK_DELAY then updc (upd tcp_ack_now) c else c
           else c in
  let p := cpcb c in
  lwip_assert (bool_decide (state p = LISTEN) || bool_decide (unsent (snd p) = []));;
  lwip_assert (bool_decide (state p = LISTEN) || bool_decide (unacked (snd p) = []));;
  lwip_assert (bool_decide (state p = LISTEN) || bool_decide (ooseq (rcv p) = []));;
  Ret (updc (fun s => upd (set_local_port 0) (upd (set_state CLOSED) s)) c).

Definition tcp_free c : outcome (conn N) :=
  lwip_assert (negb (bool_decide (state (cpcb c) = LISTEN)));;
  Ret (Conn (inp c) (me c) (bound c) (active c) (tw c) (active_changed c) true).

Definition tcp_abandon (reset : bool) c : outcome (conn N) :=
  let p := cpcb c in
  lwip_assert (negb (bool_decide (state p = LISTEN)));;
  if decide (state p = TIME_WAIT) then c ← tcp_pcb_remove rmv_tw c; tcp_free c
  else
    let seq := snd_nxt (snd p) in
    let ack := rcv_nxt (rcv p) in
    '(send_rst, lport, c) ←
      (if decide (state p = CLOSED) then
         Ret (false, 0, if negb (local_port p =? 0) then rmv_bound c else c)
       else c ← tcp_pcb_remove TCP_RMV_ACTIVE c; Ret (reset, local_port p, c));
    let c := updc (fun s => tcp_segs_free (unacked (snd (pcb s))) s) c in
    let c := updc (fun s => tcp_segs_free (unsent (snd (pcb s))) s) c in
    let c := updc (fun s => tcp_segs_free (ooseq (rcv (pcb s))) s) c in
    let p := cpcb c in
    let c := if (send_rst : bool) then
               updc (tcp_rst seq ack (local_ip p) (remote_ip p) lport (remote_port p) (is_bypass p)) c
             else c in
    c ← tcp_free c;
    Ret (updc (fun s => set_net (err_cb ERR_ABRT (net s)) s) c).
Definition tcp_abort c : outcome (conn N) := tcp_abandon true c.

(** ** Connection establishment *)

Definition LWIP_TCP_CALC_INITIAL_CWND (m : Z) : Z := u16 (Z.min (4 * m) (Z.max (2 * m) 4380)).

(** [tcp_eff_send_mss_netif(sendmss, outif, dest)] with the [mtu] of [outif]. *)
Definition tcp_eff_send_mss_netif (sendmss : Z) (mtu : option Z) : Z :=
  match mtu with
  | None => sendmss
  | Some mtu => if mtu =? 0 then sendmss else Z.min sendmss (if 40 <? mtu then u16 (mtu - 40) else 0)
  end.

(** A reset for the segment that is processed. *)
Definition reset_peer s : input N :=
  let p := pcb s in
  tcp_rst (ackno s) (u32 (seqno s + tcplen s)) (local_ip p) (remote_ip p) (local_port p) (remote_port p) (is_bypass p) s.

Definition tcp_rexmit_rto (p : tcp_pcb) : tcp_pcb :=
  match tcp_rexmit_rto_prepare p with
  | (ERR_OK, p) => if nrtx (tim p) <? 0xff then set_nrtx (nrtx (tim p) + 1) p else p
  | (_, p) => p
  end.

(** The acknowledged SYN leaves its queue. *)
Definition drop_syn s : outcome (input N) :=
  match unacked (snd (pcb s)), unsent (snd (pcb s)) with
  | _ :: q, _ => Ret (tcp_seg_free (upd (set_unacked q) s))
  | [], _ :: q => Ret (tcp_seg_free (upd (set_unsent q) s))
  | [], [] => Assert
  end.

(** SYN-SENT: a SYN+ACK for our SYN. *)
Definition syn_sent_accept s : outcome (err_t * input N) :=
  let s := upd (set_rcv_nxt (u32 (seqno s + 1))) s in
  let s := upd (set_rcv_ann_right_edge (rcv_nxt (rcv (pcb s)))) s in
  let s := upd (set_lastack (ackno s)) s in
  let s := upd (set_snd_wnd (in_wnd s)) s in
  let s := upd (set_snd_wnd_max (snd_wnd (snd (pcb s)))) s in
  let s := upd (set_snd_wl1 (u32 (seqno s - 1))) s in
  let s := upd (set_state ESTABLISHED) s in
  let s := upd (set_mss (tcp_eff_send_mss_netif (mss (pcb s))
                           (route_mtu (net s) (local_ip (pcb s)) (remote_ip (pcb s))))) s in
  let s := upd (set_cwnd (LWIP_TCP_CALC_INITIAL_CWND (mss (pcb s)))) s in
  lwip_assert (0 <? snd_queuelen (snd (pcb s)));;
  let s := upd (set_snd_queuelen (snd_queuelen (snd (pcb s)) - 1)) s in
  s ← drop_syn s;
  let s := if bool_decide (unacked (snd (pcb s)) = []) then upd (set_rtime (-1)) s
           else upd (set_nrtx 0) (upd (set_rtime 0) s) in
  let '(err, s) := connected_cb s in
  Ret (if decide (err = ERR_ABRT) then (ERR_ABRT, s) else (ERR_OK, (tcp_send_empty_ack s).2)).

Definition process_syn_sent c : outcome (err_t * conn N) :=
  let s := inp c in
  if has (in_flags s) TCP_ACK && has (in_flags s) TCP_SYN && (ackno s =? u32 (lastack (snd (pcb s)) + 1)) then
    '(err, s) ← syn_sent_accept s; Ret (err, set_inp s c)
  else if has (in_flags s) TCP_ACK then
    let s := reset_peer s in
    let s := if nrtx (tim (pcb s)) <? TCP_SYNMAXRTX then upd tcp_rexmit_rto (upd (set_rtime 0) s) else s in
    Ret (ERR_OK, set_inp s c)
  else Ret (ERR_OK, c).

(** SYN-RCVD: our SYN+ACK is acknowledged. *)
Definition syn_rcvd_accept c : outcome (err_t * conn N) :=
  let c := updc (upd (set_state ESTABLISHED)) c in
  let '(err, s) := if listener_open (net (inp c)) then accept_cb (inp c) else (ERR_VAL, inp c) in
  let c := set_inp s c in
  if decide (err <> ERR_OK) then
    c ← (if decide (err <> ERR_ABRT) then tcp_abort c else Ret c);
    Ret (ERR_ABRT, c)
  else
    s ← tcp_receive (inp c);
    let s := if negb (recv_acked s =? 0) then set_recv_acked (recv_acked s - 1) s else s in
    let s := upd (set_cwnd (LWIP_TCP_CALC_INITIAL_CWND (mss (pcb s)))) s in
    let s := if has (recv_flags s) TF_GOT_FIN then upd (set_state CLOSE_WAIT) (upd tcp_ack_now s) else s in
    Ret (ERR_OK, set_inp s c).

Definition process_syn_rcvd c : outcome (err_t * conn N) :=
  let s := inp c in
  if has (in_flags s) TCP_ACK then
    if TCP_SEQ_BETWEEN (ackno s) (u32 (lastack (snd (pcb s)) + 1)) (snd_nxt (snd (pcb s))) then syn_rcvd_accept c
    else Ret (ERR_OK, updc reset_peer c)
  else if has (in_flags s) TCP_SYN && (seqno s =? u32 (rcv_nxt (rcv (pcb s)) - 1)) then
    Ret (ERR_OK, updc (upd (fun p => (tcp_rexmit p).2)) c)
  else Ret (ERR_OK, c).

(** ** Closing *)

(** Our FIN is acknowledged. *)
Definition fin_acked s : bool :=
  has (in_flags s) TCP_ACK && (ackno s =? snd_nxt (snd (pcb s))) && bool_decide (unsent (snd (pcb s)) = []).

Definition to_time_wait c : conn N :=
  let c := updc tcp_pcb_purge c in
  let c := TCP_RMV_ACTIVE c in
  let c := updc (upd (set_state TIME_WAIT)) c in
  TCP_REG_TW c.

Definition process_established c : outcome (err_t * conn N) :=
  s ← tcp_receive (inp c);
  Ret (ERR_OK, set_inp (if has (recv_flags s) TF_GOT_FIN then upd (set_state CLOSE_WAIT) (upd tcp_ack_now s) else s) c).

Definition process_fin_wait_1 c : outcome (err_t * conn N) :=
  s ← tcp_receive (inp c);
  let c := set_inp s c in
  Ret (ERR_OK,
    if has (recv_flags s) TF_GOT_FIN then
      if fin_acked s then to_time_wait (updc (upd tcp_ack_now) c)
      else updc (upd (set_state CLOSING)) (updc (upd tcp_ack_now) c)
    else if fin_acked s then updc (upd (set_state FIN_WAIT_2)) c else c).

Definition process_fin_wait_2 c : outcome (err_t * conn N) :=
  s ← tcp_receive (inp c);
  let c := set_inp s c in
  Ret (ERR_OK, if has (recv_flags s) TF_GOT_FIN then to_time_wait (updc (upd tcp_ack_now) c) else c).

Definition process_closing c : outcome (err_t * conn N) :=
  s ← tcp_receive (inp c);
  let c := set_inp s c in
  Ret (ERR_OK, if fin_acked s then to_time_wait c else c).

Definition process_last_ack c : outcome (err_t * conn N) :=
  s ← tcp_receive (inp c);
  let s := if fin_acked s then set_recv_flags (Z.lor (recv_flags s) TF_CLOSED) s else s in
  Ret (ERR_OK, set_inp s c).

(** ** [tcp_process] *)

(** A segment with RST: accepted in SYN-SENT if it acknowledges the SYN, elsewhere if
    it has the next sequence number; within the window it is challenged (RFC 5961). *)
Definition process_rst c : outcome (err_t * conn N) :=
  let s := inp c in
  let p := pcb s in
  let '(acceptable, s) :=
    if decide (state p = SYN_SENT) then (ackno s =? snd_nxt (snd p), s)
    else if seqno s =? rcv_nxt (rcv p) then (true, s)
    else if TCP_SEQ_BETWEEN (seqno s) (rcv_nxt (rcv p)) (u32 (rcv_nxt (rcv p) + rcv_wnd (rcv p)))
         then (false, upd tcp_ack_now s) else (false, s) in
  if acceptable then
    lwip_assert (negb (bool_decide (state (pcb s) = CLOSED)));;
    let s := set_recv_flags (Z.lor (recv_flags s) TF_RESET) s in
    Ret (ERR_RST, set_inp (upd (tcp_clear_flags TF_ACK_DELAY) s) c)
  else Ret (ERR_OK, set_inp s c).

(** The segment is a sign of life. *)
Definition alive s : input N :=
  let s := if negb (has (flags (pcb s)) TF_RXCLOSED) then upd (set_tmr (tcp_ticks s)) s else s in
  upd (set_persist_probe 0) (upd (set_keep_cnt_sent 0) s).

(** [switch (pcb->state)]. *)
Definition process_state c : outcome (err_t * conn N) :=
  match state (cpcb c) with
  | SYN_SENT => process_syn_sent c
  | SYN_RCVD => process_syn_rcvd c
  | CLOSE_WAIT | ESTABLISHED => process_established c
  | FIN_WAIT_1 => process_fin_wait_1 c
  | FIN_WAIT_2 => process_fin_wait_2 c
  | CLOSING => process_closing c
  | LAST_ACK => process_last_ack c
  | CLOSED | LISTEN | TIME_WAIT => Ret (ERR_OK, c)
  end.

Definition tcp_process (o : options) c : outcome (err_t * conn N) :=
  let s := inp c in
  if has (in_flags s) TCP_RST then process_rst c
  else if has (in_flags s) TCP_SYN && negb (bool_decide (state (pcb s) = SYN_SENT \/ state (pcb s) = SYN_RCVD)) then
    Ret (ERR_OK, updc (upd tcp_ack_now) c)
  else
    let s := alive s in
    p ← tcp_parseopt o (pcb s);
    process_state (set_inp (set_pcb p s) c).
End process.
