(* ===== verification/TcpClose.v ===== *)
(** * The state machine follows RFC 793

    What [tcp_process] does to a connection in a synchronised state, against the
    transitions of RFC 793, with the invariants of both directions carried along. *)

From S2P Require Import Prelude Chain Tcp TcpRecv TcpStream TcpAck TcpReceive TcpOpt TcpProcess.

(** ** The transitions of RFC 793 for an arriving segment *)

(** [peer_fin]: the segment completes the peer's stream, FIN included;
    [fin_acked]: it acknowledges all that was sent, our FIN included. *)
Definition rfc_next (st : tcp_state) (peer_fin our_fin_acked : bool) : tcp_state :=
  match st, peer_fin, our_fin_acked with
  | ESTABLISHED, true, _ => CLOSE_WAIT
  | FIN_WAIT_1, true, true => TIME_WAIT
  | FIN_WAIT_1, true, false => CLOSING
  | FIN_WAIT_1, false, true => FIN_WAIT_2
  | FIN_WAIT_2, true, _ => TIME_WAIT
  | CLOSING, _, true => TIME_WAIT
  | _, _, _ => st
  end.

Section close.
  Context (byte_at : Z -> Z) (fin : option Z).
  Context {N : Type} `{!TcpNet N} `{!TcpApp N}.
  Implicit Type s : input N.
  Implicit Type c : conn N.

(** All segments: free, received and waiting, sent and waiting. *)
Definition segs_all s : Z :=
  segs_total s + Z.of_nat (length (unacked (snd (pcb s)))) + Z.of_nat (length (unsent (snd (pcb s)))).

(** The queues are empty. *)
Definition purged (p : tcp_pcb) : Prop :=
  unacked (snd p) = [] /\ unsent (snd p) = [] /\ ooseq (rcv p) = [] /\ refused_data p = None.

Lemma purge_ok s : state (pcb s) <> CLOSED -> state (pcb s) <> TIME_WAIT -> state (pcb s) <> LISTEN ->
  purged (pcb (tcp_pcb_purge s)) /\ segs_all (tcp_pcb_purge s) = segs_all s /\
  recv_flags (tcp_pcb_purge s) = recv_flags s /\ recv_data (tcp_pcb_purge s) = recv_data s.
Proof.
  intros H1 H2 H3. unfold tcp_pcb_purge. rewrite decide_True by done.
  split; [done|]. split; [|done]. unfold segs_all, segs_total. simpl. lia.
Qed.

Lemma to_time_wait_ok c : state (cpcb c) <> CLOSED -> state (cpcb c) <> TIME_WAIT -> state (cpcb c) <> LISTEN ->
  let c' := to_time_wait c in
  state (cpcb c') = TIME_WAIT /\ active c' = TCP_RMV (active c) (me c) /\ tw c' = me c :: tw c /\
  purged (cpcb c') /\ segs_all (inp c') = segs_all (inp c) /\
  recv_flags (inp c') = recv_flags (inp c) /\ recv_data (inp c') = recv_data (inp c).
Proof.
  intros H1 H2 H3 c'. destruct (purge_ok (inp c) H1 H2 H3) as (P1 & P2 & P3 & P4).
  subst c'. unfold to_time_wait, cpcb. simpl. by split_and!.
Qed.

(** ** Segments are neither lost nor duplicated *)
Lemma filter_lengths A (q : list placed) :
  Z.of_nat (length q) = Z.of_nat (length (filter (keeps A) q)) + Z.of_nat (length (filter (fun x => ~ keeps A x) q)).
Proof. induction q as [|x q IH]; [done|]. rewrite !filter_cons. repeat case_decide; simpl; try lia; done. Qed.

Lemma received_segs U S L B A R E R' qa qs s s' : send_ok U S L B qa qs (pcb s) ->
  received byte_at fin U S L B A R E R' qa qs s s' -> segs_all s' = segs_all s.
Proof.
  intros Hs [(qa' & qs' & G1 & G2 & _) _ _ _ G5 _ _ _ _]. unfold segs_all. rewrite G5.
  rewrite (so_unacked _ _ _ _ _ _ _ Hs), (so_unsent _ _ _ _ _ _ _ Hs), (so_unacked _ _ _ _ _ _ _ G1), (so_unsent _ _ _ _ _ _ _ G1).
  apply Permutation_length in G2. rewrite !length_app in G2. rewrite !length_fmap.
  pose proof (filter_lengths (acked_to U S A) (qa ++ qs)) as Hf. rewrite length_app in Hf. unfold placed in *. lia.
Qed.

(** All that was sent is acknowledged by [A] and nothing waits to be sent. *)
Definition all_acked (A S : Z) (qs : list placed) : bool := match qs with [] => A =? S | _ => false end.

(** [fin_acked] after the acknowledgement of [A]. *)
Lemma fin_acked_ok U S L B A qa qs s : send_ok U S L B qa qs (pcb s) -> has (in_flags s) TCP_ACK = true ->
  ackno s = u32 A -> near A S -> fin_acked s = all_acked A S qs.
Proof.
  intros Hs Hf Ha Hn. unfold fin_acked.
  rewrite Hf, Ha, (so_nxt _ _ _ _ _ _ _ Hs), seq_eq, (so_unsent _ _ _ _ _ _ _ Hs) by done. cbn [andb].
  destruct qs; simpl; [|apply andb_false_r]. apply andb_true_r.
Qed.

(** ** A segment in a synchronised state *)

(** The segment that is processed: neither RST nor SYN, it acknowledges [A] and carries text at
    [a] or none. *)
Record segment_ok (U A a R E : Z) s : Prop := {
  sk_rst : has (in_flags s) TCP_RST = false;
  sk_syn : has (in_flags s) TCP_SYN = false;
  sk_ack : has (in_flags s) TCP_ACK = true;
  sk_ackno : ackno s = u32 A;
  sk_range : U - 2 ^ 29 <= A <= U + 2 ^ 30;
  sk_fresh : (recv_acked s, recv_flags s, recv_data s) = (0, 0, None);
  sk_text : with_text byte_at fin a R E s;
  sk_live : state_num (state (pcb s)) < state_num CLOSE_WAIT -> upto fin R = R }.

(** The state machine is entered with new timers and, perhaps, a smaller segment size. *)
Lemma process_enter o c : options_ok o -> has (in_flags (inp c)) TCP_RST = false ->
  has (in_flags (inp c)) TCP_SYN = false \/ state (cpcb c) = SYN_SENT \/ state (cpcb c) = SYN_RCVD ->
  exists t m, tcp_process o c = process_state (set_inp (set_pcb (set_mss m (set_tim t (cpcb c))) (inp c)) c) /\
    (m = mss (cpcb c) \/ 1 <= m <= TCP_MSS).
Proof.
  intros Ho Hr Hs. unfold tcp_process. rewrite Hr.
  replace (has (in_flags (inp c)) TCP_SYN && _) with false; cycle 1.
  { destruct Hs as [->|Hs]; [done|]. by rewrite bool_decide_true, andb_false_r. }
  assert (exists t, alive (inp c) = upd (set_tim t) (inp c)) as [t ->].
  { unfold alive. destruct (negb _); by eexists. }
  destruct (parseopt_ok o (pcb (upd (set_tim t) (inp c))) Ho) as (m & -> & Hm). by exists t, m.
Qed.

(** [tcp_receive] on a connection whose timers, segment size and state are [p]'s. *)
Lemma receive_from U S L B qa qs A a R E s p : segment_ok U A a R E s ->
  send_ok U S L B qa qs (pcb s) -> recv_ok byte_at fin R E (pcb s) -> snd p = snd (pcb s) -> rcv p = rcv (pcb s) ->
  0 <= mss p <= 0xffff -> state_num ESTABLISHED <= state_num (state p) ->
  state_num (state (pcb s)) <= state_num (state p) ->
  state p = state (pcb s) \/ state_num (state p) < state_num CLOSE_WAIT ->
  exists s' R', tcp_receive (set_pcb p s) = Ret s' /\ received byte_at fin U S L B A R E R' qa qs (set_pcb p s) s' /\
    send_ok U S L B qa qs (pcb (set_pcb p s)).
Proof.
  intros [Hrst Hsyn Hack Hno Hrange [= Hra Hrf Hrd] Htext Hlive] Hs Hr E1 E2 Hm Hst Hmono Hsame.
  set (s1 := set_pcb p s). assert (s1 = set_pcb p s) as Hs1 by done.
  assert (send_ok U S L B qa qs (pcb s1)) as Hs1s by (by destruct Hs; split; simpl; rewrite ?E1).
  assert (recv_ok byte_at fin R E (pcb s1)) as Hs1r.
  { destruct Hr as [[W1 W2 W3 W4 W5 W6] Hq]. split; [by split; simpl; rewrite ?E2|simpl; by rewrite E2]. }
  assert (with_text byte_at fin a R E s1) as Hs1t.
  { destruct Htext as [[Ht1|Ht1]|[[I1 I2 I3] A1 A2 A3 A4 A5 A6]]; [by left; left|left; right; by etrans; [exact Ht1|exact Hmono]|right].
    split; try done. simpl. by destruct Hsame as [->|]. }
  clearbody s1.
  destruct (tcp_receive_any byte_at fin U S L B qa qs A a R E s1) as (s' & R' & Hrec & Hok); try done;
    try (rewrite Hs1; done).
  - rewrite Hs1. intros Hl. apply Hlive. by eapply Z.le_lt_trans; [exact Hmono|].
  - exists s', R'. subst s1. by split_and!.
Qed.

(** The state in which [tcp_receive] is called. *)
Lemma prologue_ok o U S L B qa qs A a R E c : options_ok o -> state_num ESTABLISHED <= state_num (state (cpcb c)) ->
  segment_ok U A a R E (inp c) -> send_ok U S L B qa qs (cpcb c) -> recv_ok byte_at fin R E (cpcb c) ->
  0 <= mss (cpcb c) <= 0xffff ->
  exists s1 s' R', received byte_at fin U S L B A R E R' qa qs s1 s' /\ tcp_receive s1 = Ret s' /\
    send_ok U S L B qa qs (pcb s1) /\ state (pcb s1) = state (cpcb c) /\
    segs_all s1 = segs_all (inp c) /\ ackno s1 = ackno (inp c) /\ has (in_flags s1) TCP_ACK = true /\
    tcp_process o c = process_state (set_inp s1 c).
Proof.
  intros Ho Hst Hseg Hs Hr Hm.
  destruct (process_enter o c Ho (sk_rst _ _ _ _ _ _ Hseg) (or_introl (sk_syn _ _ _ _ _ _ Hseg))) as (t & m & -> & Hmss).
  assert (0 <= m <= 0xffff) as Hm0 by (destruct Hmss as [->|]; [done|change TCP_MSS with 1000 in *; lia]).
  destruct (receive_from U S L B qa qs A a R E (inp c) (set_mss m (set_tim t (cpcb c)))) as (s' & R' & Hrun & Hrec & Hs1);
    try done; [by left|].
  eexists _, s', R'. split_and!; try done. apply Hseg.
Qed.

(** What holds of the connection [c'] that [tcp_process] leaves: [tc] says whether our
    FIN was acknowledged in LAST-ACK. *)
Record processed (U S L B A R E R' : Z) (qa qs qs' : list placed) (st : tcp_state) (tc : bool) c c' : Prop := {
  pr_state : state (cpcb c') = st;
  pr_segs : segs_all (inp c') = segs_all (inp c);
  pr_data : passed (inp c') = stream byte_at R (upto fin R' - R);
  pr_closed : has (recv_flags (inp c')) TF_CLOSED = tc;
  pr_lists : if decide (st = TIME_WAIT)
             then active c' = TCP_RMV (active c) (me c) /\ tw c' = me c :: tw c /\ purged (cpcb c')
             else active c' = active c /\ tw c' = tw c /\
                  (exists qa', send_ok (acked_to U S A) S L B qa' qs' (cpcb c') /\
                     qa' ++ qs' ≡ₚ filter (keeps (acked_to U S A)) (qa ++ qs)) /\
                  (exists E', E <= E' /\ recv_ok byte_at fin R' E' (cpcb c')) }.

(** Both halves after a change of the state and of the flags. *)
Lemma recv_ok_rcv R E p p' : recv_ok byte_at fin R E p -> rcv p' = rcv p -> mss p' = mss p -> recv_ok byte_at fin R E p'.
Proof. intros [[] Hq] E1 E2. split; [by split; rewrite ?E1, ?E2|by rewrite E1]. Qed.

(** The connection stays active in state [st]; [f] is the recorded closing flag. *)
Lemma processed_stay U S L B A R E R' qa qs qa' qs' st c s1 s' p f tc :
  received byte_at fin U S L B A R E R' qa qs s1 s' -> send_ok U S L B qa qs (pcb s1) ->
  segs_all s1 = segs_all (inp c) -> send_ok (acked_to U S A) S L B qa' qs' (pcb s') ->
  qa' ++ qs' ≡ₚ filter (keeps (acked_to U S A)) (qa ++ qs) ->
  state p = st -> st <> TIME_WAIT -> snd p = snd (pcb s') -> rcv p = rcv (pcb s') -> mss p = mss (pcb s') ->
  has f TF_CLOSED = tc ->
  processed U S L B A R E R' qa qs qs' st tc c (set_inp (set_recv_flags f (set_pcb p s')) c).
Proof.
  intros Hrec Hs Hseg Hs' Hperm Hst Hne E1 E2 E3 Hf. pose proof (received_segs _ _ _ _ _ _ _ _ _ _ _ _ Hs Hrec) as Hall.
  destruct Hrec as [_ (E' & HE & Hr) _ Hd _ _ _ _ _]. split; try done.
  - etransitivity; [|by rewrite <- Hseg, <- Hall]. unfold segs_all, segs_total. simpl. by rewrite E1, E2.
  - rewrite decide_False by done. split_and!; try done.
    + exists qa'. split; [by eapply send_ok_snd|done].
    + exists E'. split; [done|]. by eapply recv_ok_rcv.
Qed.
(** The connection goes to TIME-WAIT. *)
Lemma processed_leave U S L B A R E R' qa qs qs' c s1 s' p :
  received byte_at fin U S L B A R E R' qa qs s1 s' -> send_ok U S L B qa qs (pcb s1) ->
  segs_all s1 = segs_all (inp c) ->
  state p <> CLOSED -> state p <> TIME_WAIT -> state p <> LISTEN -> snd p = snd (pcb s') -> rcv p = rcv (pcb s') ->
  processed U S L B A R E R' qa qs qs' TIME_WAIT false c (to_time_wait (set_inp (set_pcb p s') c)).
Proof.
  intros Hrec Hs Hseg N1 N2 N3 E1 E2. pose proof (received_segs _ _ _ _ _ _ _ _ _ _ _ _ Hs Hrec) as Hall.
  destruct Hrec as [_ _ _ Hd _ _ _ _ Hf].
  destruct (to_time_wait_ok (set_inp (set_pcb p s') c)) as (T1 & T2 & T3 & T4 & T5 & T6 & T7); try done.
  set (c' := to_time_wait _) in *. clearbody c'. split.
  - done.
  - rewrite T5, <- Hseg, <- Hall. unfold segs_all, segs_total. simpl. by rewrite E1, E2.
  - unfold passed in *. by rewrite T7.
  - rewrite T6. simpl. by destruct Hf as [-> | ->].
  - by rewrite decide_True.
Qed.

(** What every arm of the state machine needs: [tcp_receive] returns [s'], and what
    follows if the connection stays, unchanged or in a new state, or leaves for TIME-WAIT. *)
Record arm U S L B A R E R' qa qs qs' c s1 s' : Prop := {
  am_run : tcp_receive s1 = Ret s';
  am_fin : has (recv_flags s') TF_GOT_FIN = bool_decide (R < R' /\ fin = Some (R' - 1));
  am_acked : fin_acked s' = all_acked A S qs';
  am_state : has (recv_flags s') TF_GOT_FIN = false \/ state_num CLOSE_WAIT < state_num (state (cpcb c)) ->
    state (pcb s') = state (cpcb c);
  am_open : state (pcb s') <> CLOSED /\ state (pcb s') <> TIME_WAIT /\ state (pcb s') <> LISTEN;
  am_stay : forall p f, state p <> TIME_WAIT -> snd p = snd (pcb s') -> rcv p = rcv (pcb s') -> mss p = mss (pcb s') ->
    processed U S L B A R E R' qa qs qs' (state p) (has f TF_CLOSED) c (set_inp (set_recv_flags f (set_pcb p s')) c);
  am_leave : forall p, state p = state (pcb s') -> snd p = snd (pcb s') -> rcv p = rcv (pcb s') ->
    processed U S L B A R E R' qa qs qs' TIME_WAIT false c (to_time_wait (set_inp (set_pcb p s') c));
  am_flags : has (recv_flags s') TF_CLOSED = false /\ has (Z.lor (recv_flags s') TF_CLOSED) TF_CLOSED = true }.

(** If all that waits for its acknowledgement was sent, our FIN is acknowledged when nothing is left in the queues. *)
Lemma all_acked_queues U S L B A qa qs qa' qs' p : send_ok (acked_to U S A) S L B qa' qs' p -> U <= S ->
  qa' ++ qs' ≡ₚ filter (keeps (acked_to U S A)) (qa ++ qs) -> qa' ⊆ qa -> Forall (fun x => ends_at x <= S) qa ->
  all_acked A S qs' = all_acked A S (filter (keeps (acked_to U S A)) (qa ++ qs)).
Proof.
  intros Hs HU Hp Hin Hq. unfold all_acked. destruct (Z.eqb_spec A S) as [->|Hne]; [|by destruct qs', (filter _ _)].
  assert (acked_to U S S = S) as E by (unfold acked_to; rewrite Z.leb_refl; lia). rewrite E in *.
  assert (qa' = []) as ->.
  { destruct qa' as [|x qa']; [done|]. pose proof (so_new _ _ _ _ _ _ _ Hs) as [Hk _]%Forall_cons. unfold keeps in Hk.
    rewrite Forall_forall in Hq. specialize (Hq x (Hin x ltac:(left))). lia. }
  simpl in Hp. destruct qs' as [|y q]; [by apply Permutation_nil in Hp as ->|]. destruct (filter _ _) as [|z l]; [|done].
  symmetry in Hp. by apply Permutation_nil in Hp.
Qed.

Lemma arm_ok o U S L B qa qs A a R E c : options_ok o ->
  state_num ESTABLISHED <= state_num (state (cpcb c)) < state_num TIME_WAIT ->
  segment_ok U A a R E (inp c) -> send_ok U S L B qa qs (cpcb c) -> recv_ok byte_at fin R E (cpcb c) ->
  0 <= mss (cpcb c) <= 0xffff ->
  exists s1 s' R' qs', tcp_process o c = process_state (set_inp s1 c) /\ state (pcb s1) = state (cpcb c) /\
    (Forall (fun x => ends_at x <= S) qa -> all_acked A S qs' = all_acked A S (filter (keeps (acked_to U S A)) (qa ++ qs))) /\
    arm U S L B A R E R' qa qs qs' c s1 s'.
Proof.
  intros Ho Hst Hseg Hs Hr Hm.
  destruct (prologue_ok o U S L B qa qs A a R E c Ho ltac:(lia) Hseg Hs Hr Hm)
    as (s1 & s' & R' & Hrec & Hrun & Hs1 & Hst1 & Hall & Hno & Hfl & Heq).
  pose proof Hrec as [(qa' & qs' & G1 & G2 & G3) _ _ _ _ G6 [= G7 G7'] G8 G9].
  assert (state (pcb s') <> CLOSED /\ state (pcb s') <> TIME_WAIT /\ state (pcb s') <> LISTEN) as Hopen.
  { destruct G8 as [->|(? & -> & _)]; [|done]. rewrite Hst1. by destruct (state (cpcb c)); simpl in Hst; split_and?; try lia. }
  exists s1, s', R', qs'. split_and!; [done|done| |].
  { apply (all_acked_queues U S L B A qa qs qa' qs' (pcb s')); try done. pose proof (so_order _ _ _ _ _ _ _ Hs). lia. }
  split; try done.
  - apply (fin_acked_ok _ S L B A qa' qs' s' G1); [by rewrite G7|rewrite G7', Hno; apply Hseg|].
    pose proof (sk_range _ _ _ _ _ _ Hseg). pose proof (so_order _ _ _ _ _ _ _ Hs). pose proof (so_range _ _ _ _ _ _ _ Hs).
    unfold near. lia.
  - intros Hn. destruct G8 as [|(F1 & F2 & F3)]; [congruence|]. destruct Hn as [Hn|Hn]; [congruence|]. exfalso.
    rewrite <- Hst1, F1 in Hn. simpl in Hn. lia.
  - intros p f N1 E1 E2 E3. by eapply (processed_stay _ _ _ _ _ _ _ _ _ _ qa' qs' _ c s1 s' p).
  - intros p N1 E1 E2. destruct Hopen as (O1 & O2 & O3). by eapply processed_leave; rewrite ?N1.
  - by destruct G9 as [-> | ->].
Qed.

(** Runs [tcp_receive] in one arm of the state machine. *)
Ltac run_arm R q :=
  cbn [inp set_inp];
  match goal with H : tcp_receive _ = Ret _ |- _ => rewrite H end;
  cbn [mbind outcome_bind]; eexists _, R, q; split; [reflexivity|].

Lemma process_synchronised o U S L B qa qs A a R E c : options_ok o ->
  state_num ESTABLISHED <= state_num (state (cpcb c)) < state_num TIME_WAIT ->
  segment_ok U A a R E (inp c) -> send_ok U S L B qa qs (cpcb c) -> recv_ok byte_at fin R E (cpcb c) ->
  0 <= mss (cpcb c) <= 0xffff ->
  exists c' R' qs', tcp_process o c = Ret (ERR_OK, c') /\
    let peer_fin := bool_decide (R < R' /\ fin = Some (R' - 1)) in
    let our_fin_acked := all_acked A S qs' in
    (Forall (fun x => ends_at x <= S) qa -> our_fin_acked = all_acked A S (filter (keeps (acked_to U S A)) (qa ++ qs))) /\
    processed U S L B A R E R' qa qs qs' (rfc_next (state (cpcb c)) peer_fin our_fin_acked)
      (bool_decide (state (cpcb c) = LAST_ACK) && our_fin_acked) c c'.
Proof.
  intros Ho Hst Hseg Hs Hr Hm.
  destruct (arm_ok o U S L B qa qs A a R E c Ho Hst Hseg Hs Hr Hm) as (s1 & s' & R' & qs' & -> & Hst1 & Hpin & Harm).
  destruct Harm as [Hrun Hfin Hack Hsame (O1 & O2 & O3) Hstay Hleave [F1 F2]].
  set (P := processed U S L B A R E R' qa qs qs') in *.
  assert (set_recv_flags (recv_flags s') (set_pcb (pcb s') s') = s') as Hid by (by destruct s').
  assert (state (pcb s') = state (cpcb c) -> P (state (cpcb c)) false c (set_inp s' c)) as Hidle.
  { intros <-. specialize (Hstay (pcb s') (recv_flags s')). rewrite Hid, F1 in Hstay. by apply Hstay. }
  assert (forall st, st <> TIME_WAIT -> P st false c (set_inp (upd (set_state st) s') c)) as Hto.
  { intros st Hne. rewrite <- F1. by apply (Hstay (set_state st (pcb s')) (recv_flags s')). }
  assert (forall st, st <> TIME_WAIT -> P st false c (set_inp (upd (set_state st) (upd tcp_ack_now s')) c)) as Hack_to.
  { intros st Hne. rewrite <- F1. by apply (Hstay (set_state st (tcp_ack_now (pcb s'))) (recv_flags s')). }
  assert (P TIME_WAIT false c (to_time_wait (set_inp (upd tcp_ack_now s') c))) as Hwait by (by apply Hleave).
  assert (P TIME_WAIT false c (to_time_wait (set_inp s' c))) as Hwait'.
  { replace s' with (set_pcb (pcb s') s') by (by destruct s'). by apply Hleave. }
  assert (state (pcb s') = state (cpcb c) ->
    P (state (cpcb c)) true c (set_inp (set_recv_flags (Z.lor (recv_flags s') TF_CLOSED) s') c)) as Hlast.
  { intros <-. specialize (Hstay (pcb s') (Z.lor (recv_flags s') TF_CLOSED)). rewrite F2 in Hstay. by apply Hstay. }
  unfold process_state, process_established, process_fin_wait_1, process_fin_wait_2, process_closing, process_last_ack.
  change (cpcb (set_inp s1 c)) with (pcb s1). rewrite Hst1.
  destruct (state (cpcb c)) eqn:Hc; simpl in Hst; try lia;
    run_arm R' qs'; (split; [exact Hpin|]);
    rewrite <- Hfin, <- Hack; destruct (has (recv_flags s') TF_GOT_FIN) eqn:HF, (fin_acked s'); simpl;
    try (first [exact Hwait|exact Hwait'|by apply Hack_to|by apply Hto|(apply Hidle || apply Hlast); apply Hsame; first [by left|right; simpl; lia]]).
Qed.
(** C24: (state machine) a segment with an acknowledgement, without RST and SYN, for a connection in one of the states
    ESTABLISHED to LAST-ACK with both directions in order, all of whose unacknowledged segments were sent; the number it acknowledges
    is at most [2^29] behind or [2^30] ahead of the oldest unacknowledged one, and its text, if it has any, is part of the peer's stream within the window ([segment_ok]):
    [tcp_process] returns; the new state is the one of RFC 793 for whether the segment
    completes the peer's stream and whether our FIN is acknowledged, which is so exactly if it
    acknowledges everything sent and nothing is left in the queues; the text passed on is the stream, no
    segment of the pool is lost, entering TIME-WAIT moves the connection between
    the lists and empties its queues, anywhere else both directions keep their
    invariants, and LAST-ACK ends exactly with the acknowledgement of our FIN. *)
Theorem process_follows_rfc793 o U S L B qa qs A a R E c : options_ok o ->
  state_num ESTABLISHED <= state_num (state (cpcb c)) < state_num TIME_WAIT ->
  segment_ok U A a R E (inp c) -> send_ok U S L B qa qs (cpcb c) -> recv_ok byte_at fin R E (cpcb c) ->
  0 <= mss (cpcb c) <= 0xffff -> Forall (fun x => ends_at x <= S) qa ->
  exists c' R' qs', tcp_process o c = Ret (ERR_OK, c') /\
    let peer_fin := bool_decide (R < R' /\ fin = Some (R' - 1)) in
    let our_fin_acked := all_acked A S (filter (keeps (acked_to U S A)) (qa ++ qs)) in
    processed U S L B A R E R' qa qs qs' (rfc_next (state (cpcb c)) peer_fin our_fin_acked)
      (bool_decide (state (cpcb c) = LAST_ACK) && our_fin_acked) c c'.
Proof.
  intros H1 H2 H3 H4 H5 H6 Hq. destruct (process_synchronised o U S L B qa qs A a R E c H1 H2 H3 H4 H5 H6) as (c' & R' & qs' & Hrun & Hpin & Hp).
  exists c', R', qs'. split; [exact Hrun|]. rewrite (Hpin Hq) in Hp. exact Hp.
Qed.
End close.

(** ** Examples *)
Module CloseExamples.
#[export] Instance sink : TcpNet unit := { hdr_alloc n := (true, n); output_control n _ _ _ := (ERR_OK, n) }.
(** An application that agrees to everything, on an Ethernet. *)
#[export] Instance willing : TcpApp unit := {
  listener_open _ := true; accept_cb s := (ERR_OK, s); connected_cb s := (ERR_OK, s); err_cb _ n := n;
  route_mtu _ _ _ := Some 1500 }.

Definition no_options : options := Options 0 (fun _ => 0) 0 None.
Lemma no_options_ok : options_ok no_options.
Proof. split; [done|]. intros i. unfold tcp_get_next_optbyte, no_options. simpl. lia. Qed.

(** The peer has one byte of text and a FIN left, which arrive while our FIN, the last
    segment at position 27, is on its way; the segment acknowledges it. *)
Definition text (i : Z) : Z := i mod 256.
Definition fin_seg : placed := (27, Seg 27 0 (Z.lor TCP_FIN TCP_ACK) [replicate 20 0] false false).
Definition closing : tcp_pcb :=
  Pcb FIN_WAIT_1 0 1000 1 80 2 8080 true None (Receiver 1000 4000 4000 5000 [])
    (Sender 28 999 27 28 4000 4000 4096 1 27 [] [fin_seg.2]) (Congestion 2000 4000 0 0) (Timing 0 0 0 0 0 0 0 0 0 0 0 0 0 0 0 0 false).
Definition last_segment : conn unit :=
  Conn (Input closing 1000 1 (Z.lor TCP_FIN TCP_ACK) (Some [stream text 1000 1]) 1000 28 (Z.lor TCP_FIN TCP_ACK) 4000 2
          0 0 None 4 44 tt) 7 [] [3; 7; 9] [5] false false.

Lemma closing_sends : send_ok 27 28 28 4096 [fin_seg] [] closing.
Proof.
  split; try done; try (by repeat constructor).
  { intros x y _ Hy. by apply not_elem_of_nil in Hy. }
  intros i Hi. exists fin_seg. split; [set_solver|]. unfold ends_at. simpl. change (TCP_TCPLEN _) with 1. lia.
Qed.

Lemma process_follows_rfc793_witness :
  exists c' R' qs', tcp_process no_options last_segment = Ret (ERR_OK, c') /\
    let peer_fin := bool_decide (1000 < R' /\ Some 1001 = Some (R' - 1)) in
    processed text (Some 1001) 27 28 28 4096 28 1000 5000 R' [fin_seg] [] qs'
      (rfc_next FIN_WAIT_1 peer_fin true) false last_segment c'.
Proof.
  apply (process_follows_rfc793 text (Some 1001) no_options 27 28 28 4096 [fin_seg] [] 28 1000 1000 5000 last_segment);
    try done; [|exact closing_sends|by constructor].
  split; try done. right. split; try done. split; try done. exists [stream text 1000 1]. split_and!; try done.
  split; try done. intros F [= <-]. simpl. lia.
Defined.
End CloseExamples.
