(* ===== verification/TcpHandshake.v ===== *)
(** * Connection establishment and resets

    The three-way handshake from both sides makes the invariants of data transfer true;
    a connection the application refuses is aborted and freed; a reset or a SYN that
    does not fit exactly changes nothing (RFC 5961). *)

From S2P Require Import Prelude Chain Tcp TcpRecv TcpStream TcpAck TcpReceive TcpOpt TcpProcess TcpClose.

Section handshake.
  Context (byte_at : Z -> Z) (fin : option Z).
  Context {N : Type} `{!TcpNet N} `{!TcpApp N}.
  Implicit Type s : input N.
  Implicit Type c : conn N.

(** ** Active open *)

(** The connection has sent its SYN at position [I], which is still queued. *)
Record syn_queued (I B : Z) (x : placed) (p : tcp_pcb) : Prop := {
  sq_send : send_ok I (I + 1) (I + 1) B [x] [] p;
  sq_len : seg_len x.2 = 0;
  sq_clen : chain_clen (seg_p x.2) = 1 }.

(** The receive window is as [tcp_alloc] left it. *)
Record fresh_window (p : tcp_pcb) : Prop := {
  fw_wnd : rcv_wnd (rcv p) = TCP_WND /\ rcv_ann_wnd (rcv p) = TCP_WND;
  fw_queue : ooseq (rcv p) = [];
  fw_mss : 0 <= mss p <= 0xffff }.

Lemma eff_mss_range m mtu : 0 <= m <= 0xffff -> 0 <= tcp_eff_send_mss_netif m mtu <= 0xffff.
Proof.
  intros Hm. unfold tcp_eff_send_mss_netif. destruct mtu as [u|]; [|done]. destruct (u =? 0); [done|].
  pose proof (u16_range (u - 40)). destruct (40 <? u); lia.
Qed.

(** Nothing is outstanding. *)
Lemma send_ok_empty U B p : lastack (snd p) = u32 U -> snd_nxt (snd p) = u32 U -> unacked (snd p) = [] ->
  unsent (snd p) = [] -> snd_buf (snd p) = B -> 0 <= B <= 0xffff -> snd_queuelen (snd p) = 0 ->
  send_ok U U U B [] [] p.
Proof.
  intros. split; try done; simpl; try lia; try (by constructor).
  - intros x y Hx. by apply not_elem_of_nil in Hx.
Qed.

(** What the callbacks and the acknowledgement do not touch. *)
Record established (I J B : Z) (n : Z) s : Prop := {
  es_state : state (pcb s) = ESTABLISHED;
  es_send : send_ok (I + 1) (I + 1) (I + 1) B [] [] (pcb s);
  es_recv : recv_ok byte_at fin (J + 1) (J + 1) (pcb s);
  es_wnd : rcv_wnd (rcv (pcb s)) = TCP_WND;
  es_segs : segs_all s = n }.

(** The connection when [connected] is called. *)
Lemma syn_sent_established I J B x s : syn_queued I B x (pcb s) -> fresh_window (pcb s) ->
  ackno s = u32 (I + 1) -> seqno s = u32 J ->
  exists s', established I J B (segs_all s) s' /\
    syn_sent_accept s = let '(err, s) := connected_cb s' in
      Ret (if decide (err = ERR_ABRT) then (ERR_ABRT, s) else (ERR_OK, (tcp_send_empty_ack s).2)).
Proof.
  intros [Hs Hl Hc] [[Hw1 Hw2] Hq Hm] Hno Hseq.
  destruct Hs as [_ Hnxt _ _ Hua Hus _ _ _ _ _ _ Hbuf Hbr Hql _]. simpl in *. rewrite Hl in Hbuf. rewrite Hc in Hql.
  assert (0 < snd_queuelen (snd (pcb s))) as Hpos by lia.
  eexists. split; [|unfold syn_sent_accept, drop_syn; simpl; rewrite Hua; simpl;
    rewrite (proj2 (Z.ltb_lt _ _) Hpos); simpl; reflexivity].
  split; [done| | |done|].
  - apply send_ok_empty; simpl; try done; lia.
  - split; [split|]; simpl; rewrite ?Hseq, ?Hw1, ?Hw2, ?Hq, ?u32_add_l; try done; try (change TCP_WND with 4000; lia).
    by apply eff_mss_range.
  - unfold segs_all, segs_total. simpl. rewrite Hua. simpl. lia.
Qed.

(** Sending the acknowledgement keeps all of it, but the announced edge moves. *)
Lemma established_ack I J B n s : established I J B n s ->
  exists E', state (pcb (tcp_send_empty_ack s).2) = ESTABLISHED /\
    send_ok (I + 1) (I + 1) (I + 1) B [] [] (pcb (tcp_send_empty_ack s).2) /\
    recv_ok byte_at fin (J + 1) E' (pcb (tcp_send_empty_ack s).2) /\
    rcv_wnd (rcv (pcb (tcp_send_empty_ack s).2)) = TCP_WND /\ segs_all (tcp_send_empty_ack s).2 = n.
Proof.
  intros [H1 H2 [[W1 W2 W3 W4 W5 W6] H4] H5 H6].
  destruct (send_empty_ack_ok (J + 1) (J + 1) s) as (E' & fl & m & -> & HE); [by split|].
  exists E'. split_and!; try done.
  - by apply (send_ok_snd _ _ _ _ _ _ (pcb s)).
  - split; [split; simpl; try done; lia|simpl]. by eapply queue_weaken; [| |apply H4]; lia.
Qed.

(** C26: (active open) a SYN+ACK for our SYN establishes the connection: the SYN leaves the
    queue, the send side is empty behind it, the receive side expects the byte
    behind the peer's SYN with the whole window open, no segment is lost, and the
    connection stays in its lists; these are the invariants data transfer relies on. *)
Theorem handshake_establishes o I J B x c : options_ok o -> state (cpcb c) = SYN_SENT ->
  syn_queued I B x (cpcb c) -> fresh_window (cpcb c) -> (forall s, connected_cb s = (ERR_OK, s)) ->
  has (in_flags (inp c)) TCP_RST = false -> has (in_flags (inp c)) TCP_SYN = true ->
  has (in_flags (inp c)) TCP_ACK = true -> ackno (inp c) = u32 (I + 1) -> seqno (inp c) = u32 J ->
  exists c' E', tcp_process o c = Ret (ERR_OK, c') /\ state (cpcb c') = ESTABLISHED /\
    send_ok (I + 1) (I + 1) (I + 1) B [] [] (cpcb c') /\
    recv_ok byte_at fin (J + 1) E' (cpcb c') /\ rcv_wnd (rcv (cpcb c')) = TCP_WND /\
    segs_all (inp c') = segs_all (inp c) /\ active c' = active c /\ tw c' = tw c.
Proof.
  intros Ho Hst Hsq [[Hw1 Hw2] Hq Hm] Hcb Hrst Hsyn Hack Hno Hseq.
  destruct (process_enter o c Ho Hrst (or_intror (or_introl Hst))) as (t & m & -> & Hmss).
  set (s1 := set_pcb (set_mss m (set_tim t (cpcb c))) (inp c)).
  unfold process_state. change (state (cpcb (set_inp s1 c))) with (state (cpcb c)). rewrite Hst.
  unfold process_syn_sent. change (inp (set_inp s1 c)) with s1.
  assert (syn_queued I B x (pcb s1)) as Hsq1 by (destruct Hsq; split; [by eapply send_ok_snd|done|done]).
  replace (ackno s1 =? _) with true by (subst s1; simpl; rewrite Hno, (so_una _ _ _ _ _ _ _ (sq_send _ _ _ _ Hsq)), u32_add_l; symmetry; apply Z.eqb_refl).
  change (in_flags s1) with (in_flags (inp c)). rewrite Hack, Hsyn. cbn [andb].
  destruct (syn_sent_established I J B x s1) as (s2 & He & ->); try done.
  { split; try done. simpl. destruct Hmss as [->|]; [done|change TCP_MSS with 1000 in *; lia]. }
  rewrite Hcb. cbn [decide mbind outcome_bind]. destruct (established_ack _ _ _ _ _ He) as (E' & R1 & R2 & R3 & R4 & R5).
  exists (set_inp (tcp_send_empty_ack s2).2 c), E'. by split_and!.
Qed.

(** ** Passive open *)

(** (passive open) the acknowledgement of our SYN+ACK establishes the connection, or
    half-closes it if the same segment completes the peer's stream: both
    directions keep their invariants, the text it carries is passed on, no
    segment is lost, and the congestion window is the initial one. *)
Theorem accepted_establishes o U S L B qa qs A a R E c : options_ok o -> state (cpcb c) = SYN_RCVD ->
  segment_ok byte_at fin U A a R E (inp c) -> send_ok U S L B qa qs (cpcb c) -> recv_ok byte_at fin R E (cpcb c) ->
  0 <= mss (cpcb c) <= 0xffff -> U + 1 <= A <= S -> listener_open (net (inp c)) = true ->
  (forall s, accept_cb s = (ERR_OK, s)) ->
  exists c' R' qs', tcp_process o c = Ret (ERR_OK, c') /\
    let peer_fin := bool_decide (R < R' /\ fin = Some (R' - 1)) in
    processed byte_at fin U S L B A R E R' qa qs qs' (if peer_fin then CLOSE_WAIT else ESTABLISHED) false c c' /\
    cwnd (cng (cpcb c')) = LWIP_TCP_CALC_INITIAL_CWND (mss (cpcb c')).
Proof.
  intros Ho Hst Hseg Hs Hr Hm HA Hopen Hcb.
  destruct (process_enter o c Ho (sk_rst _ _ _ _ _ _ _ _ Hseg) (or_intror (or_intror Hst))) as (t & m & -> & Hmss).
  assert (0 <= m <= 0xffff) as Hm0 by (destruct Hmss as [->|]; [done|change TCP_MSS with 1000 in *; lia]).
  set (p := set_state ESTABLISHED (set_mss m (set_tim t (cpcb c)))).
  destruct (receive_from byte_at fin U S L B qa qs A a R E (inp c) p) as (s' & R' & Hrun & Hrec & Hs1); try done.
  { unfold cpcb in Hst. by rewrite Hst. }
  { by right. }
  unfold process_state. change (state (cpcb (set_inp _ c))) with (state (cpcb c)). rewrite Hst.
  unfold process_syn_rcvd. cbn [inp set_inp]. simpl (has _ _). rewrite (sk_ack _ _ _ _ _ _ _ _ Hseg).
  replace (TCP_SEQ_BETWEEN _ _ _) with true; cycle 1.
  { symmetry. simpl. unfold cpcb in *. rewrite (sk_ackno _ _ _ _ _ _ _ _ Hseg), (so_una _ _ _ _ _ _ _ Hs), (so_nxt _ _ _ _ _ _ _ Hs), u32_add_l.
    pose proof (so_order _ _ _ _ _ _ _ Hs). pose proof (so_range _ _ _ _ _ _ _ Hs).
    rewrite seq_between by (unfold near; lia). apply andb_true_intro. lia. }
  unfold syn_rcvd_accept. simpl (net _). rewrite Hopen, Hcb. cbn [decide].
  rewrite decide_False by tauto. cbn [inp set_inp updc]. change (tcp_receive _) with (tcp_receive (set_pcb p (inp c))). rewrite Hrun. cbn [mbind outcome_bind].
  set (s2 := if negb (recv_acked s' =? 0) then _ else s').
  assert (exists v, s2 = set_recv_acked v s') as [v Hv].
  { subst s2. destruct (negb _); [by eexists|]. exists (recv_acked s'). by destruct s'. }
  assert (received byte_at fin U S L B A R E R' qa qs (set_pcb p (inp c)) s2) as Hrec2 by (rewrite Hv; by destruct Hrec; split).
  clearbody s2. pose proof Hrec2 as [(qa' & qs' & G1 & G2 & _) _ _ _ _ G6 _ G8 G9].
  eexists _, R', qs'. split; [reflexivity|]. cbn zeta. rewrite <- G6.
  assert (forall q, state q <> TIME_WAIT -> snd q = snd (pcb s2) -> rcv q = rcv (pcb s2) -> mss q = mss (pcb s2) ->
    processed byte_at fin U S L B A R E R' qa qs qs' (state q) (has (recv_flags s2) TF_CLOSED) c
      (set_inp (set_recv_flags (recv_flags s2) (set_pcb q s2)) c)) as Hstay.
  { intros q ????. by eapply (processed_stay _ _ _ _ _ _ _ _ _ _ _ _ qa' qs' _ c (set_pcb p (inp c)) s2 q). }
  replace (has (recv_flags s2) TF_CLOSED) with false in Hstay by (by destruct G9 as [-> | ->]).
  set (w := LWIP_TCP_CALC_INITIAL_CWND _).
  change (recv_flags (upd _ s2)) with (recv_flags s2).
  destruct (has (recv_flags s2) TF_GOT_FIN).
  - split; [|done]. by apply (Hstay (set_state CLOSE_WAIT (tcp_ack_now (set_cwnd w (pcb s2))))).
  - split; [|done]. assert (state (pcb s2) = ESTABLISHED) as He by (by destruct G8 as [|(_ & _ & [=])]).
    specialize (Hstay (set_cwnd w (pcb s2))). simpl in Hstay. rewrite He in Hstay. by apply Hstay.
Qed.

(** ** A refused connection *)

(** The assertions of [tcp_pcb_remove]. *)
Lemma empty_queues {A} p (k : outcome A) : unsent (snd p) = [] -> unacked (snd p) = [] -> ooseq (rcv p) = [] ->
  (lwip_assert (bool_decide (state p = LISTEN) || bool_decide (unsent (snd p) = []));;
   lwip_assert (bool_decide (state p = LISTEN) || bool_decide (unacked (snd p) = []));;
   lwip_assert (bool_decide (state p = LISTEN) || bool_decide (ooseq (rcv p) = []));; k) = k.
Proof. intros -> -> ->. by rewrite !(bool_decide_eq_true_2 (@nil tcp_seg = [])), !orb_true_r by done. Qed.
(** [tcp_pcb_remove] from the active list, with [s'] what purging leaves. *)
Lemma remove_active_ok c s' : s' = tcp_pcb_purge (inp c) -> state (pcb s') <> LISTEN -> unsent (snd (pcb s')) = [] ->
  unacked (snd (pcb s')) = [] -> ooseq (rcv (pcb s')) = [] ->
  exists f, tcp_pcb_remove TCP_RMV_ACTIVE c =
    Ret (set_inp (upd (fun p => set_local_port 0 (set_state CLOSED (set_flags f p))) s') (TCP_RMV_ACTIVE c)).
Proof.
  intros Hs H1 H2 H3 H4. unfold tcp_pcb_remove, updc. cbn [inp set_inp TCP_RMV_ACTIVE]. rewrite <- Hs. clear Hs.
  destruct (decide _) as [_|_]; [destruct (has _ _)|]; (rewrite empty_queues; [|done..]);
    first [by eexists|exists (flags (pcb s')); by destruct s' as [[]]].
Qed.
Lemma rst_net seq ack lip rip lport rport b s : exists n, tcp_rst seq ack lip rip lport rport b s = set_net n s.
Proof. unfold tcp_rst. destruct (hdr_alloc _) as [[] n]; [|by eexists]. simpl. destruct (output_control _ _ _ _) as [? m]. by exists m. Qed.

(** Aborting an active connection: it is freed, out of the list, and its segments are
    back in the pool. *)
Lemma abort_active c : state (cpcb c) <> CLOSED -> state (cpcb c) <> TIME_WAIT -> state (cpcb c) <> LISTEN ->
  exists c', tcp_abort c = Ret c' /\ freed_pcb c' = true /\ active c' = TCP_RMV (active c) (me c) /\
    state (cpcb c') = CLOSED /\ purged (cpcb c') /\ segs_all (inp c') = segs_all (inp c).
Proof.
  intros H1 H2 H3. unfold tcp_abort, tcp_abandon.
  rewrite (bool_decide_false _ H3), (decide_False _ _ H2), (decide_False _ _ H1). cbn [negb lwip_assert mbind outcome_bind].
  destruct (purge_ok (inp c) H1 H2 H3) as ((P1 & P2 & P3 & P4) & P5 & _ & _).
  assert (state (pcb (tcp_pcb_purge (inp c))) = state (cpcb c)) as P6.
  { unfold tcp_pcb_purge. rewrite decide_True by done. done. }
  destruct (remove_active_ok c (tcp_pcb_purge (inp c))) as (f & ->); try done; try congruence.
  set (s := tcp_pcb_purge (inp c)) in *. clearbody s. cbn [mbind outcome_bind].
  set (s1 := upd _ s).
  assert (unacked (snd (pcb s1)) = [] /\ unsent (snd (pcb s1)) = [] /\ ooseq (rcv (pcb s1)) = [] /\
    refused_data (pcb s1) = None /\ state (pcb s1) = CLOSED /\ segs_all s1 = segs_all (inp c)) as (Q1 & Q2 & Q3 & Q4 & Q5 & Q6).
  { subst s1. by split_and!. }
  clearbody s1. assert (forall l, l = [] -> tcp_segs_free l s1 = s1) as Hnil.
  { intros l ->. unfold tcp_segs_free, segs_freed. simpl. rewrite Z.add_0_r. by destruct s1. }
  unfold updc, cpcb. cbn [inp set_inp]. rewrite (Hnil _ Q1), (Hnil _ Q2), (Hnil _ Q3).
  destruct (rst_net (snd_nxt (snd (pcb (inp c)))) (rcv_nxt (rcv (pcb (inp c)))) (local_ip (pcb s1)) (remote_ip (pcb s1))
    (local_port (pcb (inp c))) (remote_port (pcb s1)) (is_bypass (pcb s1)) s1) as [n Hn].
  unfold tcp_free, cpcb. cbn [inp set_inp]. rewrite Hn. cbn [pcb set_net inp set_inp]. rewrite Q5.
  eexists. split; [reflexivity|]. by split_and!.
Qed.

(** (error) when the application refuses the connection, or the listener is gone, the
    connection is taken from the list and freed, the segments of its queues go back to the
    pool, and the caller learns that the block is gone. *)
Theorem refused_connection_freed o e c : options_ok o -> state (cpcb c) = SYN_RCVD ->
  has (in_flags (inp c)) TCP_RST = false -> has (in_flags (inp c)) TCP_ACK = true ->
  TCP_SEQ_BETWEEN (ackno (inp c)) (u32 (lastack (snd (cpcb c)) + 1)) (snd_nxt (snd (cpcb c))) = true ->
  listener_open (net (inp c)) = false \/ (forall s, accept_cb s = (e, s)) /\ e <> ERR_OK /\ e <> ERR_ABRT ->
  exists c', tcp_process o c = Ret (ERR_ABRT, c') /\ freed_pcb c' = true /\ active c' = TCP_RMV (active c) (me c) /\
    state (cpcb c') = CLOSED /\ purged (cpcb c') /\ segs_all (inp c') = segs_all (inp c).
Proof.
  intros Ho Hst Hrst Hack Hb Hno.
  destruct (process_enter o c Ho Hrst (or_intror (or_intror Hst))) as (t & m & -> & _).
  unfold process_state. change (state (cpcb (set_inp _ c))) with (state (cpcb c)). rewrite Hst.
  unfold process_syn_rcvd. cbn [inp set_inp]. simpl (has _ _). rewrite Hack. change (TCP_SEQ_BETWEEN _ _ _) with
    (TCP_SEQ_BETWEEN (ackno (inp c)) (u32 (lastack (snd (cpcb c)) + 1)) (snd_nxt (snd (cpcb c)))). rewrite Hb.
  unfold syn_rcvd_accept. set (c1 := updc (upd (set_state ESTABLISHED)) _).
  assert (net (inp c1) = net (inp c) /\ state (cpcb c1) = ESTABLISHED /\ active c1 = active c /\ me c1 = me c /\
    segs_all (inp c1) = segs_all (inp c)) as (E1 & E2 & E3 & E4 & E5) by done. clearbody c1. rewrite E1.
  assert (exists e', (if listener_open (net (inp c)) then accept_cb (inp c1) else (ERR_VAL, inp c1)) = (e', inp c1) /\
    e' <> ERR_OK /\ e' <> ERR_ABRT) as (e' & -> & N1 & N2).
  { destruct Hno as [->|(Hno & N1 & N2)]; [by exists ERR_VAL|]. rewrite Hno. destruct (listener_open _); [by exists e|by exists ERR_VAL]. }
  replace (set_inp (inp c1) c1) with c1 by (by destruct c1). rewrite (decide_True _ _ N1), (decide_True _ _ N2).
  destruct (abort_active c1) as (c' & -> & A1 & A2 & A3 & A4 & A5); try (by rewrite E2).
  exists c'. rewrite E3, E4 in A2. rewrite E5 in A5. by split_and!.
Qed.

(** ** Blind resets *)

(** Comparisons for any distance that 32 bits can tell. *)
Lemma seq_eq_any a R : R - 2 ^ 31 <= a < R + 2 ^ 31 -> (u32 a =? u32 R) = (a =? R).
Proof.
  intros H. destruct (Z.eqb_spec a R) as [->|Hne]; [apply Z.eqb_refl|]. apply Z.eqb_neq. intros E.
  assert (s32 (u32 a - u32 R) = 0) as E0 by (rewrite E, Z.sub_diag; done). rewrite s32_u32, s32_small in E0 by lia. lia.
Qed.
Lemma seq_window_any a R w : R - 2 ^ 31 <= a < R + 2 ^ 31 -> 0 <= w < 2 ^ 31 ->
  TCP_SEQ_BETWEEN (u32 a) (u32 R) (u32 (R + w)) = (R <=? a) && (a <=? R + w).
Proof.
  intros H Hw. unfold TCP_SEQ_BETWEEN, TCP_SEQ_GEQ, TCP_SEQ_LEQ. rewrite !s32_u32, (s32_small (a - R)) by lia.
  destruct (Z.leb_spec R a); [|by rewrite (proj2 (Z.leb_gt 0 _)) by lia]. rewrite (proj2 (Z.leb_le 0 _)) by lia. cbn [andb].
  rewrite s32_small by lia. destruct (Z.leb_spec a (R + w)); [apply Z.leb_le|apply Z.leb_gt]; lia.
Qed.

(** C27: (RFC 5961) a RST or a SYN, whatever its sequence number [a], on a connection in a synchronised state
    that expects the number [R] next. A RST is accepted only at [R]. Elsewhere in the window it asks for an acknowledgement and changes
    nothing else, outside of the window it changes nothing. A SYN without RST asks for an acknowledgement and changes nothing else. *)
Theorem blind_segments_challenged o R E a c : recv_ok byte_at fin R E (cpcb c) -> seqno (inp c) = u32 a ->
  R - 2 ^ 31 <= a < R + 2 ^ 31 -> state_num ESTABLISHED <= state_num (state (cpcb c)) ->
  has (in_flags (inp c)) TCP_RST = true \/ has (in_flags (inp c)) TCP_SYN = true ->
  tcp_process o c =
    (if has (in_flags (inp c)) TCP_RST then
       if a =? R then Ret (ERR_RST, updc (fun s => upd (tcp_clear_flags TF_ACK_DELAY) (set_recv_flags (Z.lor (recv_flags s) TF_RESET) s)) c)
       else if (R <=? a) && (a <=? R + rcv_wnd (rcv (cpcb c))) then Ret (ERR_OK, updc (upd tcp_ack_now) c)
       else Ret (ERR_OK, c)
     else Ret (ERR_OK, updc (upd tcp_ack_now) c)).
Proof.
  intros Hr Hq Ha Hst Hf. unfold tcp_process. pose proof Hr as [[W1 W2 W3 W4 W5 W6] _].
  destruct (has (in_flags (inp c)) TCP_RST) eqn:Hrst; cbn [andb].
  - unfold process_rst. rewrite decide_False by (intros Hs; unfold cpcb in Hst; rewrite Hs in Hst; simpl in Hst; lia).
    unfold cpcb in *. rewrite Hq, W1, u32_add_l, seq_eq_any, seq_window_any by lia.
    destruct (Z.eqb_spec a R) as [->|Hne].
    + by rewrite bool_decide_false by (intros Hs; rewrite Hs in Hst; simpl in Hst; lia).
    + destruct ((R <=? a) && (a <=? R + rcv_wnd (rcv (pcb (inp c))))); [done|]. by destruct c.
  - destruct Hf as [[=]|Hf]. rewrite Hf, bool_decide_false; [done|].
    unfold cpcb in Hst. intros [Hs|Hs]; rewrite Hs in Hst; simpl in Hst; lia.
Qed.
End handshake.

(** ** Examples *)
Module HandshakeExamples.
Import CloseExamples.

(** Our SYN, with the option for the segment size, is at position 6509. *)
Definition syn_seg : placed := (6509, Seg 6509 0 TCP_SYN [replicate 24 0] false true).
Definition opening (st : tcp_state) (nxt : Z) (q : list tcp_seg) : tcp_pcb :=
  Pcb st 0 536 1 80 2 8080 true None (Receiver nxt 4000 4000 (nxt + 4000) [])
    (Sender 6510 0 6508 6509 0 0 4096 1 6509 [] q) (Congestion 1 4000 0 0) (Timing 0 0 0 0 0 0 0 0 0 0 0 0 0 0 0 0 false).
Definition connecting : conn unit :=
  Conn (Input (opening SYN_SENT 0 [syn_seg.2]) 999 0 (Z.lor TCP_SYN TCP_ACK) None 999 6510 (Z.lor TCP_SYN TCP_ACK) 4000 1
          0 0 None 4 44 tt) 7 [] [7; 9] [] false false.
(** The peer's acknowledgement, with four bytes of text. *)
Definition accepting : conn unit :=
  Conn (Input (opening SYN_RCVD 1000 [syn_seg.2]) 1000 4 TCP_ACK (Some [stream text 1000 4]) 1000 6510 TCP_ACK 4000 4
          0 0 None 4 44 tt) 7 [] [7; 9] [] false false.

(** A reset in the window. *)
Definition reset_segment : conn unit :=
  Conn (Input (opening ESTABLISHED 1000 []) 1500 0 TCP_RST None 1500 0 TCP_RST 0 0 0 0 None 4 44 tt) 7 [] [7; 9] []
    false false.
(** An application without memory for another connection. *)
Definition refusing : TcpApp unit := {|
  listener_open _ := true; accept_cb s := (ERR_MEM, s); connected_cb s := (ERR_OK, s); err_cb _ n := n;
  route_mtu _ _ _ := None |}.

Lemma opening_sends st nxt : send_ok 6509 6510 6510 4096 [syn_seg] [] (opening st nxt [syn_seg.2]).
Proof.
  split; try done; try (by repeat constructor).
  { intros x y _ Hy. by apply not_elem_of_nil in Hy. }
  intros i Hi. exists syn_seg. split; [set_solver|]. unfold ends_at. simpl. change (TCP_TCPLEN _) with 1. lia.
Qed.

Lemma handshake_establishes_witness :
  exists c' E', tcp_process no_options connecting = Ret (ERR_OK, c') /\ state (cpcb c') = ESTABLISHED /\
    send_ok (6509 + 1) (6509 + 1) (6509 + 1) 4096 [] [] (cpcb c') /\
    recv_ok text None (999 + 1) E' (cpcb c') /\ rcv_wnd (rcv (cpcb c')) = TCP_WND /\
    segs_all (inp c') = segs_all (inp connecting) /\ active c' = active connecting /\ tw c' = tw connecting.
Proof.
  apply (handshake_establishes text None no_options 6509 999 4096 syn_seg connecting); try done.
  split; try done. apply opening_sends.
Defined.

Lemma accepted_establishes_witness :
  exists c' R' qs', tcp_process no_options accepting = Ret (ERR_OK, c') /\
    let peer_fin := bool_decide (1000 < R' /\ Some 2000 = Some (R' - 1)) in
    processed text (Some 2000) 6509 6510 6510 4096 6510 1000 5000 R' [syn_seg] [] qs'
      (if peer_fin then CLOSE_WAIT else ESTABLISHED) false accepting c' /\
    cwnd (cng (cpcb c')) = LWIP_TCP_CALC_INITIAL_CWND (mss (cpcb c')).
Proof.
  apply (accepted_establishes text (Some 2000) no_options 6509 6510 6510 4096 [syn_seg] [] 6510 1000 1000 5000 accepting);
    try done; [|apply opening_sends].
  split; try done. right. split; try done. split; try done. exists [stream text 1000 4]. split_and!; try done.
  split; try done. intros F [= <-]. simpl. lia.
Defined.

Lemma refused_connection_freed_witness :
  exists c', @tcp_process unit _ refusing no_options accepting = Ret (ERR_ABRT, c') /\ freed_pcb c' = true /\
    active c' = [9] /\ state (cpcb c') = CLOSED /\ purged (cpcb c') /\ segs_all (inp c') = segs_all (inp accepting).
Proof. apply (refused_connection_freed no_options ERR_MEM accepting); try done. by right. Defined.

Lemma blind_segments_challenged_witness : tcp_process no_options reset_segment = Ret (ERR_OK, updc (upd tcp_ack_now) reset_segment).
Proof. apply (blind_segments_challenged text None no_options 1000 5000 1500 reset_segment); try done. by left. Defined.
End HandshakeExamples.
