(* ===== verification/TcpOut.v ===== *)
(** * TCP output ([tcp_out.c])

    Queueing ([tcp_write], [tcp_enqueue_flags], [tcp_send_fin], [tcp_split_unsent_seg]) and sending
    ([tcp_output]). The state is the one of the input path: the connection, the
    number of free segments, the clock and what is below.

    A segment keeps the fields of its TCP header; the bytes of the header are only a
    length in front of its first pbuf ([HDR]). A connection sends on one path
    ([is_bypass]) or to several nodes; [tcp_write] is the same for both, and the bits that
    [tcp_write_netml] puts into the header are not modelled. *)

From S2P Require Import Prelude Chain Tcp TcpOpt TcpProcess.

Definition TCP_HLEN : Z := 20.
(** The header room of a pbuf of the layer [PBUF_TRANSPORT]. *)
Definition TRANSPORT_ROOM : Z := 56.
Definition TCP_SND_QUEUELEN : Z := 512.
Definition TCP_SNDQUEUELEN_OVERFLOW : Z := 0xffff - 3.
Definition TCP_WRITE_FLAG_COPY : Z := 0x01.
Definition TCP_WRITE_FLAG_MORE : Z := 0x02.
Definition TF_FIN : Z := 0x20.
Definition TF_NODELAY : Z := 0x40.
Definition TF_NAGLEMEMERR : Z := 0x80.

(** [pbuf_alloc] of a [PBUF_RAM] of a length and of a [PBUF_ROM], [pbuf_free] of a chain of
    so many pbufs. *)
Class TcpBufs (N : Type) := {
  ram_alloc : N -> Z -> bool * N;
  rom_alloc : N -> bool * N;
  bufs_free : N -> Z -> N }.

(** The pbufs in use: what [pbuf.c] promises. *)
Class TcpBufsLaws (N : Type) `{!TcpBufs N} := {
  in_use : N -> Z;
  ram_alloc_use n len : in_use (ram_alloc n len).2 = in_use n + (if (ram_alloc n len).1 then 1 else 0);
  rom_alloc_use n : in_use (rom_alloc n).2 = in_use n + (if (rom_alloc n).1 then 1 else 0);
  bufs_free_use n k : in_use (bufs_free n k) = in_use n - k }.

(** [tcp_route]: the [mtu] of the interface, if there is one; [link_ip]: its address;
    [ip_output_if]: sending a segment with its header, the value of its option and its
    text, and whether the driver keeps the pbuf. *)
Class TcpLink (N : Type) := {
  tcp_route : N -> Z -> Z -> option Z;
  link_ip : N -> Z -> Z;
  ip_output_if : N -> Z -> Z -> ctl_hdr -> option Z -> list Z -> err_t * bool * N }.

(** [LWIP_TCP_OPT_LENGTH]. *)
Definition opt_length (m : bool) : Z := if m then LWIP_TCP_OPT_LEN_MSS else 0.

Section output.
  Context {N : Type} `{!TcpNet N} `{!TcpBufs N} `{!TcpLink N}.
  Implicit Type s : input N.

Definition free_bufs (k : Z) s : input N := set_net (bufs_free (net s) k) s.
Definition alloc_ram (len : Z) s : bool * input N := let '(ok, n) := ram_alloc (net s) len in (ok, set_net n s).
Definition alloc_rom s : bool * input N := let '(ok, n) := rom_alloc (net s) in (ok, set_net n s).

(** ** Creating segments *)

(** The bytes of a TCP header in front of a segment. *)
Definition HDR : list Z := replicate 20 0.
(** [pbuf_add_header(p, TCP_HLEN)] on a pbuf with [room] bytes in front. *)
Definition add_tcp_header (room : Z) (p : chain) : option chain :=
  match p with
  | c :: p' => if room <? TCP_HLEN then None else Some ((HDR ++ c) :: p')
  | [] => None
  end.

Definition tcp_create_segment (room : Z) (p : chain) (hdrflags seq : Z) (opts : bool) s : outcome (option tcp_seg * input N) :=
  let optlen := opt_length opts in
  if segs_avail s <=? 0 then Ret (None, free_bufs (chain_clen p) s)
  else
    let s := set_segs_avail (segs_avail s - 1) s in
    lwip_assert (optlen <=? tot_len p);;
    let len := u16 (tot_len p - optlen) in
    match add_tcp_header room p with
    | None => Ret (None, free_bufs (chain_clen p) (tcp_seg_free s))
    | Some p => Ret (Some (Seg seq len hdrflags p false opts), s)
    end.

(** ** [tcp_write] *)

Definition tcp_write_checks (len : Z) (p : tcp_pcb) : outcome (err_t * tcp_pcb) :=
  if negb (bool_decide (state p = ESTABLISHED \/ state p = CLOSE_WAIT \/ state p = SYN_SENT \/ state p = SYN_RCVD))
  then Ret (ERR_CONN, p)
  else if len =? 0 then Ret (ERR_OK, p)
  else if snd_buf (snd p) <? len then Ret (ERR_MEM, tcp_set_flags TF_NAGLEMEMERR p)
  else if Z.min TCP_SND_QUEUELEN (TCP_SNDQUEUELEN_OVERFLOW + 1) <=? snd_queuelen (snd p) then
    Ret (ERR_MEM, tcp_set_flags TF_NAGLEMEMERR p)
  else
    lwip_assert (if negb (snd_queuelen (snd p) =? 0)
                 then negb (bool_decide (unacked (snd p) = [] /\ unsent (snd p) = []))
                 else bool_decide (unacked (snd p) = [] /\ unsent (snd p) = []));;
    Ret (ERR_OK, p).

(** [len] bytes of [dat] at [pos]. *)
Definition part (dat : list Z) (pos len : Z) : list Z := take (Z.to_nat len) (drop (Z.to_nat pos) dat).

(** The pbuf, or header and data pbufs, for a new segment. *)
Definition write_pbuf (copy : bool) (bytes : list Z) s : option chain * input N :=
  if copy then
    let '(ok, s) := alloc_ram (Z.of_nat (length bytes)) s in
    (if (ok : bool) then Some [bytes] else None, s)
  else
    let '(ok2, s) := alloc_rom s in
    if (ok2 : bool) then
      let '(ok, s) := alloc_ram 0 s in
      if (ok : bool) then (Some [[]; bytes], s) else (None, free_bufs 1 s)
    else (None, s).

(** Phase 3: [queue] are the new segments so far. The result says whether there was memory
    for all. *)
Fixpoint write_segs (fuel : nat) (copy : bool) (mss_local : Z) (dat : list Z) (pos queuelen : Z) (queue : list tcp_seg) s
    : outcome (bool * Z * list tcp_seg * input N) :=
  match fuel with
  | O => Diverge
  | S fuel =>
      let len := Z.of_nat (length dat) in
      if pos <? len then
        let seglen := Z.min (u16 (len - pos)) mss_local in
        match write_pbuf copy (part dat pos seglen) s with
        | (None, s) => Ret (false, queuelen, queue, s)
        | (Some p, s) =>
            let queuelen := u16 (queuelen + chain_clen p) in
            if Z.min TCP_SND_QUEUELEN TCP_SNDQUEUELEN_OVERFLOW <? queuelen then
              Ret (false, queuelen, queue, free_bufs (chain_clen p) s)
            else
              '(g, s) ← tcp_create_segment TRANSPORT_ROOM p 0 (u32 (snd_lbb (snd (pcb s)) + pos)) false s;
              match g with
              | None => Ret (false, queuelen, queue, s)
              | Some g => write_segs fuel copy mss_local dat (u16 (pos + seglen)) queuelen (queue ++ [g]) s
              end
        end
      else Ret (true, queuelen, queue, s)
  end.

(** Phase 2: what becomes of the last unsent segment. *)
Inductive tail : Set := NoTail | Concat (bytes : list Z) | Extend (bytes : list Z).
Definition tail_len (t : tail) : Z :=
  match t with NoTail => 0 | Concat b | Extend b => Z.of_nat (length b) end.

(** [adjacent]: the last pbuf refers to memory that ends where [dat] begins. *)
Definition write_tail (copy adjacent : bool) (mss_local : Z) (dat : list Z) s : outcome (option (tail * Z) * input N) :=
  let len := Z.of_nat (length dat) in
  let queuelen := snd_queuelen (snd (pcb s)) in
  match last (unsent (snd (pcb s))) with
  | None => Ret (Some (NoTail, queuelen), s)
  | Some g =>
      let unsent_optlen := opt_length (seg_mss g) in
      lwip_assert (seg_len g + unsent_optlen <=? mss_local);;
      let space := u16 (mss_local - (seg_len g + unsent_optlen)) in
      if (0 <? len) && (0 <? space) && (0 <? seg_len g) then
        let bytes := part dat 0 (Z.min space len) in
        if copy then
          let '(ok, s) := alloc_ram (Z.of_nat (length bytes)) s in
          Ret (if (ok : bool) then Some (Concat bytes, u16 (queuelen + 1)) else None, s)
        else if adjacent then Ret (Some (Extend bytes, queuelen), s)
        else
          let '(ok, s) := alloc_rom s in
          Ret (if (ok : bool) then Some (Concat bytes, u16 (queuelen + 1)) else None, s)
      else Ret (Some (NoTail, queuelen), s)
  end.

Fixpoint extend_last (p : chain) (bytes : list Z) : chain :=
  match p with
  | [] => []
  | [c] => [c ++ bytes]
  | c :: p' => c :: extend_last p' bytes
  end.
Definition extend_tail (t : tail) (g : tcp_seg) : tcp_seg :=
  match t with
  | NoTail => g
  | Concat b => set_seg_len (u16 (seg_len g + Z.of_nat (length b))) (set_seg_p (seg_p g ++ [b]) g)
  | Extend b => set_seg_len (u16 (seg_len g + Z.of_nat (length b))) (set_seg_p (extend_last (seg_p g) b) g)
  end.
(** The last element of a queue. *)
Fixpoint on_last {A} (f : A -> A) (q : list A) : list A :=
  match q with
  | [] => []
  | [g] => [f g]
  | g :: q' => g :: on_last f q'
  end.
Definition set_psh (g : tcp_seg) : tcp_seg := set_seg_flags (Z.lor (seg_flags g) TCP_PSH) g.

(** The pbufs and the segments of a queue go back. *)
Definition chains_clen (q : list tcp_seg) : Z := foldr (fun g n => chain_clen (seg_p g) + n) 0 q.
Definition discard (q : list tcp_seg) s : input N := free_bufs (chains_clen q) (tcp_segs_free q s).

Definition queues_valid (p : tcp_pcb) : bool :=
  (snd_queuelen (snd p) =? 0) || negb (bool_decide (unacked (snd p) = [] /\ unsent (snd p) = [])).

(** The commit of the three phases. *)
Definition write_commit (more : bool) (dat : list Z) (t : tail) (queue : list tcp_seg) (queuelen : Z) s : outcome (input N) :=
  let len := Z.of_nat (length dat) in
  let s := upd (fun p => set_unsent (on_last (extend_tail t) (unsent (snd p)) ++ queue) p) s in
  let s := upd (fun p => set_snd_lbb (u32 (snd_lbb (snd p) + len)) p) s in
  let s := upd (fun p => set_snd_buf (u16 (snd_buf (snd p) - len)) p) s in
  let s := upd (set_snd_queuelen queuelen) s in
  lwip_assert (queues_valid (pcb s));;
  let tampered := negb (bool_decide (queue = [])) || match t with NoTail => false | _ => true end in
  Ret (if tampered && negb more then upd (fun p => set_unsent (on_last set_psh (unsent (snd p))) p) s else s).

(** [memerr]. *)
Definition write_memerr (t : tail) (queue : list tcp_seg) s : outcome (err_t * input N) :=
  let s := upd (tcp_set_flags TF_NAGLEMEMERR) s in
  let s := match t with Concat _ => free_bufs 1 s | _ => s end in
  let s := discard queue s in
  lwip_assert (queues_valid (pcb s));;
  Ret (ERR_MEM, s).

Definition mss_local (p : tcp_pcb) : Z :=
  let m := Z.min (mss p) (snd_wnd_max (snd p) / 2) in if m =? 0 then mss p else m.

(** [tcp_write(pcb, arg, len, apiflags)]. *)
Definition tcp_write (fuel : nat) (dat : list Z) (apiflags : Z) (adjacent : bool) s : outcome (err_t * input N) :=
  let m := mss_local (pcb s) in
  let copy := has apiflags TCP_WRITE_FLAG_COPY in
  '(err, p) ← tcp_write_checks (Z.of_nat (length dat)) (pcb s);
  let s := set_pcb p s in
  if decide (err <> ERR_OK) then Ret (err, s)
  else
    '(t, s) ← write_tail copy adjacent m dat s;
    match t with
    | None => write_memerr NoTail [] s
    | Some (t, queuelen) =>
        '(ok, queuelen, queue, s) ← write_segs fuel copy m dat (tail_len t) queuelen [] s;
        if (ok : bool) then s ← write_commit (has apiflags TCP_WRITE_FLAG_MORE) dat t queue queuelen s; Ret (ERR_OK, s)
        else write_memerr t queue s
    end.

(** ** SYN, FIN, splitting *)

Definition tcp_enqueue_flags (fl : Z) s : outcome (err_t * input N) :=
  lwip_assert (has fl (Z.lor TCP_SYN TCP_FIN));;
  let opts := has fl TCP_SYN in
  let optlen := opt_length opts in
  let '(ok, s) := alloc_ram optlen s in
  if negb ok then Ret (ERR_MEM, upd (tcp_set_flags TF_NAGLEMEMERR) s)
  else
    '(g, s) ← tcp_create_segment TRANSPORT_ROOM [replicate (Z.to_nat optlen) 0] fl (snd_lbb (snd (pcb s))) opts s;
    match g with
    | None => Ret (ERR_MEM, upd (tcp_set_flags TF_NAGLEMEMERR) s)
    | Some g =>
        lwip_assert (seg_len g =? 0);;
        let s := upd (fun p => set_unsent (unsent (snd p) ++ [g]) p) s in
        let s := upd (fun p => set_snd_lbb (u32 (snd_lbb (snd p) + 1)) p) s in
        let s := if has fl TCP_FIN then upd (tcp_set_flags TF_FIN) s else s in
        let s := upd (fun p => set_snd_queuelen (u16 (snd_queuelen (snd p) + chain_clen (seg_p g))) p) s in
        lwip_assert (queues_valid (pcb s));;
        Ret (ERR_OK, s)
    end.

Definition tcp_send_fin s : outcome (err_t * input N) :=
  match last (unsent (snd (pcb s))) with
  | Some g =>
      if negb (has (seg_flags g) (Z.lor TCP_SYN (Z.lor TCP_FIN TCP_RST))) then
        let s := upd (fun p => set_unsent (on_last (fun g => set_seg_flags (Z.lor (seg_flags g) TCP_FIN) g) (unsent (snd p))) p) s in
        Ret (ERR_OK, upd (tcp_set_flags TF_FIN) s)
      else tcp_enqueue_flags TCP_FIN s
  | None => tcp_enqueue_flags TCP_FIN s
  end.

(** A pbuf that may have been freed already: freeing it again is undefined. *)
Inductive buf : Set := Owned (k : Z) | Freed.
Definition pbuf_free_var (b : buf) s : outcome (input N) :=
  match b with Owned k => Ret (free_bufs k s) | Freed => Undef end.

(** [pbuf_copy_partial(p, buf, len, offset)] with all bytes there. *)
Definition copy_partial (p : chain) (len offset : Z) : list Z := part (concat p) offset len.

(** PSH and FIN move to the remainder: the flags for the head and for the remainder. *)
Definition migrate_flags (fl : Z) : Z * Z :=
  let '(split_flags, remainder_flags) :=
    if has fl TCP_PSH then (Z.land fl (Z.lnot TCP_PSH), TCP_PSH) else (fl, 0) in
  if has split_flags TCP_FIN then (Z.land split_flags (Z.lnot TCP_FIN), Z.lor remainder_flags TCP_FIN)
  else (split_flags, remainder_flags).

(** The head [g] is cut and the new segment [r] put behind it. *)
Definition split_commit (g r : tcp_seg) (q : list tcp_seg) (remainder split_flags : Z) s : input N :=
  let queuelen := u16 (snd_queuelen (snd (pcb s)) - chain_clen (seg_p g)) in
  let p' := chain_realloc (seg_p g) (u16 (tot_len (seg_p g) - remainder)) in
  let s := free_bufs (chain_clen (seg_p g) - chain_clen p') s in
  let g := set_seg_p p' g in
  let g := set_seg_len (u16 (seg_len g - remainder)) g in
  let g := set_seg_flags (Z.lor (seg_flags g) split_flags) g in
  let queuelen := u16 (queuelen + chain_clen (seg_p g)) in
  let queuelen := u16 (queuelen + chain_clen (seg_p r)) in
  upd (fun p => set_snd_queuelen queuelen (set_unsent (g :: r :: q) p)) s.

(** The head [g] of the unsent queue keeps [split] bytes, the rest is a new segment. *)
Definition tcp_split_unsent_seg (split : Z) s : outcome (err_t * input N) :=
  match unsent (snd (pcb s)) with
  | [] => Ret (ERR_MEM, s)
  | g :: q =>
      lwip_assert (negb (split =? 0));;
      if seg_len g <=? split then Ret (ERR_OK, s)
      else
        lwip_assert (split <=? mss (pcb s));;
        lwip_assert (0 <? seg_len g);;
        let optlen := opt_length (seg_mss g) in
        let remainder := u16 (seg_len g - split) in
        let '(ok, s) := alloc_ram (u16 (remainder + optlen)) s in
        if negb ok then Ret (ERR_MEM, s)
        else
          let offset := u16 (tot_len (seg_p g) - seg_len g + split) in
          let bytes := copy_partial (seg_p g) remainder offset in
          if negb (Z.of_nat (length bytes) =? remainder) then s ← pbuf_free_var (Owned 1) s; Ret (ERR_MEM, s)
          else
            let '(split_flags, remainder_flags) := migrate_flags (seg_flags g) in
            let p := [replicate (Z.to_nat optlen) 0 ++ bytes] in
            '(r, s) ← tcp_create_segment TRANSPORT_ROOM p remainder_flags (u32 (seg_seqno g + split)) (seg_mss g) s;
            match r with
            | None => s ← pbuf_free_var Freed s; Ret (ERR_MEM, s)
            | Some r => Ret (ERR_OK, split_commit g r q remainder split_flags s)
            end
  end.

(** ** Sending *)

Definition set_seg_busy (b : bool) (g : tcp_seg) : tcp_seg :=
  Seg (seg_seqno g) (seg_len g) (seg_flags g) (seg_p g) b (seg_mss g).
(** The text behind header and options. *)
Definition seg_text (g : tcp_seg) : list Z := part (concat (seg_p g)) (tot_len (seg_p g) - seg_len g) (seg_len g).

(** [tcp_output_segment(seg, pcb, netif)] with the [mtu] of [netif]. *)
Definition tcp_output_segment (g : tcp_seg) (mtu : Z) s : err_t * tcp_seg * input N :=
  if seg_busy g then (ERR_OK, g, s)
  else
    let r := rcv (pcb s) in
    let p := pcb s in
    let h := CtlHdr (local_port p) (remote_port p) (seg_seqno g) (rcv_nxt r) (seg_flags g) (rcv_ann_wnd r) (is_bypass p) in
    let s := upd (set_rcv_ann_right_edge (u32 (rcv_nxt r + rcv_ann_wnd r))) s in
    let opt := if seg_mss g then Some (TCP_BUILD_MSS_OPTION (tcp_eff_send_mss_netif TCP_MSS (Some mtu))) else None in
    let s := if rtime (tim (pcb s)) <? 0 then upd (set_rtime 0) s else s in
    let s := if rttest (tim (pcb s)) =? 0 then upd (set_rtseq (seg_seqno g)) (upd (set_rttest (tcp_ticks s)) s) else s in
    let '(err, busy, n) := ip_output_if (net s) (local_ip p) (remote_ip p) h opt (seg_text g) in
    (err, set_seg_busy busy g, set_net n s).

Definition tcp_do_output_nagle (p : tcp_pcb) : bool :=
  bool_decide (unacked (snd p) = []) || has (flags p) (Z.lor TF_NODELAY TF_INFR) ||
  match unsent (snd p) with
  | [] => false
  | [g] => mss p <=? seg_len g
  | _ => true
  end || ((snd_buf (snd p) =? 0) || (TCP_SND_QUEUELEN <=? snd_queuelen (snd p))).

(** A sent segment in the [unacked] queue: at its end, or at its place ([insert_unsent] is the
    same walk). *)
Definition put_unacked (g : tcp_seg) (q : list tcp_seg) : list tcp_seg :=
  match last q with
  | None => [g]
  | Some u => if TCP_SEQ_LT (seg_seqno g) (seg_seqno u) then insert_unsent g q else q ++ [g]
  end.

(** The head [g] of the unsent queue was sent. *)
Definition output_sent (g : tcp_seg) (q : list tcp_seg) s : input N :=
  let s := upd (set_unsent q) s in
  let s := if decide (state (pcb s) <> SYN_SENT) then upd (tcp_clear_flags (Z.lor TF_ACK_DELAY TF_ACK_NOW)) s else s in
  let nxt := u32 (seg_seqno g + TCP_TCPLEN g) in
  let s := if TCP_SEQ_LT (snd_nxt (snd (pcb s))) nxt then upd (set_snd_nxt nxt) s else s in
  if 0 <? TCP_TCPLEN g then upd (fun p => set_unacked (put_unacked g (unacked (snd p))) p) s
  else discard [g] s.

Fixpoint output_loop (fuel : nat) (mtu : Z) s : outcome (err_t * input N) :=
  match fuel with
  | O => Diverge
  | S fuel =>
      match unsent (snd (pcb s)) with
      | [] => Ret (ERR_OK, upd (tcp_clear_flags TF_NAGLEMEMERR) s)
      | g :: q =>
          lwip_assert (negb (has (seg_flags g) TCP_RST));;
          if negb (tcp_do_output_nagle (pcb s)) && negb (has (flags (pcb s)) (Z.lor TF_NAGLEMEMERR TF_FIN)) then
            Ret (ERR_OK, upd (tcp_clear_flags TF_NAGLEMEMERR) s)
          else
            let '(err, g, s) := tcp_output_segment g mtu s in
            if decide (err <> ERR_OK) then
              Ret (err, upd (fun p => tcp_set_flags TF_NAGLEMEMERR (set_unsent (g :: q) p)) s)
            else output_loop fuel mtu (output_sent g q s)
      end
  end.

(** [tcp_output(pcb)]; [input_pcb]: [tcp_input_pcb] is the connection. *)
Definition tcp_output (input_pcb : bool) s : outcome (err_t * input N) :=
  lwip_assert (negb (bool_decide (state (pcb s) = LISTEN)));;
  if input_pcb then Ret (ERR_OK, s)
  else
    let p := pcb s in
    let wnd := Z.min (snd_wnd (snd p)) (cwnd (cng p)) in
    match unsent (snd p) with
    | [] =>
        if has (flags p) TF_ACK_NOW && is_bypass p then Ret (tcp_send_empty_ack s)
        else Ret (ERR_OK, upd (tcp_clear_flags TF_NAGLEMEMERR) s)
    | g :: q =>
        match tcp_route (net s) (local_ip p) (remote_ip p) with
        | None => Ret (ERR_RTE, s)
        | Some mtu =>
            let s := if local_ip p =? 0 then upd (set_local_ip (link_ip (net s) (remote_ip p))) s else s in
            if is_bypass p && (wnd <? u32 (seg_seqno g - lastack (snd p) + seg_len g)) then
              let s := if (wnd =? snd_wnd (snd p)) && bool_decide (unacked (snd p) = []) && (persist_backoff (tim p) =? 0)
                       then upd (set_persist_probe 0) (upd (set_persist_backoff 1) (upd (set_persist_cnt 0) s)) else s in
              if has (flags p) TF_ACK_NOW then Ret (tcp_send_empty_ack s)
              else Ret (ERR_OK, upd (tcp_clear_flags TF_NAGLEMEMERR) s)
            else
              output_loop (S (length (unsent (snd p)))) mtu (upd (set_persist_backoff 0) s)
        end
    end.
End output.
