(* ===== verification/TcpSend.v ===== *)
(** * What the send path of TCP promises: queueing

    [tcp_write] appends to the stream that is sent, or changes nothing and gives
    everything back; a FIN is queued behind it. The invariant is [send_ok] of [TcpAck]
    together with the text of every queued segment. *)

From Stdlib Require Import Sorted.
From S2P Require Import Prelude Chain Tcp TcpStream TcpAck TcpOpt TcpProcess TcpOut.

(** ** Text of segments *)
Lemma part_app_r h b n : n = Z.of_nat (length b) -> part (h ++ b) (Z.of_nat (length h)) n = b.
Proof. intros ->. unfold part. rewrite !Nat2Z.id, drop_app_length. by rewrite firstn_all. Qed.

Lemma seg_text_eq g h b : concat (seg_p g) = h ++ b -> seg_len g = Z.of_nat (length b) -> seg_text g = b.
Proof.
  intros Hp Hl. unfold seg_text, tot_len. rewrite Hp, length_app, Hl.
  replace (Z.of_nat (length h + length b) - Z.of_nat (length b)) with (Z.of_nat (length h)) by lia. by apply part_app_r.
Qed.
(** A segment whose text is as long as it says: headers, then text. *)
Lemma seg_text_split g : 0 <= seg_len g -> Z.of_nat (length (seg_text g)) = seg_len g ->
  concat (seg_p g) = take (Z.to_nat (tot_len (seg_p g) - seg_len g)) (concat (seg_p g)) ++ seg_text g.
Proof.
  intros Hn Hl. unfold seg_text, part, tot_len in *. rewrite length_take, length_drop in Hl.
  rewrite <- (take_drop (Z.to_nat (Z.of_nat (length (concat (seg_p g))) - seg_len g)) (concat (seg_p g))) at 1.
  f_equal. rewrite firstn_all2; [done|]. rewrite length_drop. lia.
Qed.

Lemma concat_extend_last p b : p <> [] -> concat (extend_last p b) = concat p ++ b.
Proof.
  induction p as [|c p IH]; [done|]. intros _. destruct p as [|d p]; [simpl; by rewrite !app_nil_r|].
  change (c ++ concat (extend_last (d :: p) b) = (c ++ concat (d :: p)) ++ b). rewrite IH by done. by rewrite app_assoc.
Qed.
Lemma length_extend_last p b : length (extend_last p b) = length p.
Proof. induction p as [|c p IH]; [done|]. destruct p as [|d p]; [done|]. simpl in *. by rewrite IH. Qed.

Section send.
  Context (byte_at : Z -> Z).
  Context {N : Type} `{!TcpNet N} `{!TcpBufs N} `{!TcpBufsLaws N} `{!TcpLink N}.
  Implicit Type s : input N.

(** A queued segment: its text is the stream's at its position, in at least one pbuf. *)
Record carries (x : placed) : Prop := {
  ca_text : seg_text x.2 = stream byte_at x.1 (seg_len x.2);
  ca_bufs : 0 < chain_clen (seg_p x.2) }.

(** A segment as [tcp_write] creates it, of at most [m] bytes. *)
Record new_seg (m : Z) (x : placed) : Prop := {
  ns_seq : seg_seqno x.2 = u32 x.1;
  ns_len : 0 < seg_len x.2 <= m;
  ns_flags : seg_flags x.2 = 0 /\ seg_mss x.2 = false;
  ns_carries : carries x }.
(** Segments that follow each other from [a] to [b]. *)
Fixpoint tiles (m a b : Z) (q : list placed) : Prop :=
  match q with
  | [] => a = b
  | x :: q' => x.1 = a /\ new_seg m x /\ tiles m (a + seg_len x.2) b q'
  end.

(** [s'] is [s] with [k] segments less and [b] pbufs more. *)
Definition used (k b : Z) s s' : Prop :=
  (exists n, s' = set_net n (set_segs_avail (segs_avail s - k) s)) /\ in_use (net s') = in_use (net s) + b.

Lemma used_refl s : used 0 0 s s.
Proof. split; [exists (net s); rewrite Z.sub_0_r; by destruct s|lia]. Qed.
Lemma used_trans k1 b1 k2 b2 s1 s2 s3 : used k1 b1 s1 s2 -> used k2 b2 s2 s3 -> used (k1 + k2) (b1 + b2) s1 s3.
Proof.
  intros [[n1 ->] H1] [[n2 ->] H2]. split; [|simpl in *; lia]. exists n2. simpl. by rewrite Z.sub_add_distr.
Qed.
Lemma used_eq k b k' b' s s' : k = k' -> b = b' -> used k b s s' -> used k' b' s s'.
Proof. by intros -> ->. Qed.
Lemma used_free k s : used 0 (- k) s (free_bufs k s).
Proof.
  split; [exists (bufs_free (net s) k); rewrite Z.sub_0_r; by destruct s|]. simpl. rewrite bufs_free_use. lia.
Qed.
Lemma used_ram len s ok s' : alloc_ram len s = (ok, s') -> used 0 (if ok then 1 else 0) s s'.
Proof.
  unfold alloc_ram. pose proof (ram_alloc_use (net s) len) as H. destruct (ram_alloc _ _) as [ok' n]. simpl in H.
  intros [= <- <-]. split; [exists n; rewrite Z.sub_0_r; by destruct s|done].
Qed.
Lemma used_rom s ok s' : alloc_rom s = (ok, s') -> used 0 (if ok then 1 else 0) s s'.
Proof.
  unfold alloc_rom. pose proof (rom_alloc_use (net s)) as H. destruct (rom_alloc _) as [ok' n]. simpl in H.
  intros [= <- <-]. split; [exists n; rewrite Z.sub_0_r; by destruct s|done].
Qed.
Lemma used_pcb k b s s' : used k b s s' -> pcb s' = pcb s.
Proof. by intros [[n ->] _]. Qed.

Lemma write_pbuf_ok copy bytes s :
  exists p s', write_pbuf copy bytes s = (p, s') /\
    match p with
    | Some p => used 0 (chain_clen p) s s' /\ p <> [] /\ (p = [bytes] \/ p = [[]; bytes])
    | None => used 0 0 s s'
    end.
Proof.
  unfold write_pbuf. destruct copy.
  - destruct (alloc_ram _ s) as [ok s1] eqn:E. apply used_ram in E. destruct ok; eexists _, s1; split; try done. by split_and!; auto.
  - destruct (alloc_rom s) as [ok s1] eqn:E. apply used_rom in E. destruct ok; [|by eexists _, s1].
    destruct (alloc_ram 0 s1) as [ok s2] eqn:E2. apply used_ram in E2. destruct ok.
    + eexists _, s2. split; [done|]. split_and!; auto. apply (used_trans _ _ _ _ _ _ _ E E2).
    + eexists _, _. split; [done|]. eapply used_eq; [| |exact (used_trans _ _ _ _ _ _ _ E (used_trans _ _ _ _ _ _ _ E2 (used_free 1 s2)))]; lia.
Qed.

(** A segment of [bytes], if there is one in the pool. *)
Lemma create_ok p fl seq bytes s : p <> [] -> concat p = bytes -> Z.of_nat (length bytes) <= 0xffff ->
  exists g s', tcp_create_segment TRANSPORT_ROOM p fl seq false s = Ret (g, s') /\
    match g with
    | Some g => used 1 0 s s' /\ seg_seqno g = seq /\ seg_len g = Z.of_nat (length bytes) /\ seg_flags g = fl /\
                seg_mss g = false /\ seg_text g = bytes /\ chain_clen (seg_p g) = chain_clen p
    | None => used 0 (- chain_clen p) s s'
    end.
Proof.
  intros Hp Hb Hl. unfold tcp_create_segment. cbn [opt_length]. destruct (Z.leb_spec (segs_avail s) 0).
  { eexists _, _. split; [done|]. apply used_free. }
  assert (tot_len p = Z.of_nat (length bytes)) as Ht by (unfold tot_len; by rewrite Hb).
  rewrite Ht, (proj2 (Z.leb_le 0 _)), Z.sub_0_r, u16_small by lia. cbn [lwip_assert mbind outcome_bind].
  destruct p as [|c p]; [done|]. cbn [add_tcp_header]. change (TRANSPORT_ROOM <? TCP_HLEN) with false. cbn iota.
  eexists _, _. split; [reflexivity|]. cbn [seg_seqno seg_len seg_flags seg_mss]. split_and!; try done.
  - split; [exists (net s); by destruct s|simpl; lia].
  - apply (seg_text_eq _ HDR); [|done]. cbn [seg_p concat]. rewrite <- app_assoc. f_equal. exact Hb.
Qed.

Lemma part_stream L dat pos n : stream byte_at L (Z.of_nat (length dat)) = dat -> 0 <= pos -> 0 <= n ->
  pos + n <= Z.of_nat (length dat) -> part dat pos n = stream byte_at (L + pos) n.
Proof.
  intros <- H1 H2 H3. rewrite length_stream in H3 by lia. unfold part.
  rewrite stream_drop, stream_take by lia. done.
Qed.
Lemma length_part dat pos n : 0 <= pos -> 0 <= n -> pos + n <= Z.of_nat (length dat) -> Z.of_nat (length (part dat pos n)) = n.
Proof. intros. unfold part. rewrite length_take, length_drop. lia. Qed.

(** Phase 3 uses exactly what it returns, and with enough memory the new segments are the text. *)
Lemma write_segs_ok copy m L dat : 0 < m -> Z.of_nat (length dat) <= 0xffff ->
  stream byte_at L (Z.of_nat (length dat)) = dat -> forall fuel pos qlen queue s,
  0 <= pos <= Z.of_nat (length dat) -> (Z.to_nat (Z.of_nat (length dat) - pos) < fuel)%nat ->
  (pos < Z.of_nat (length dat) -> 0 <= qlen <= TCP_SND_QUEUELEN + 1) -> snd_lbb (snd (pcb s)) = u32 L ->
  exists ok qlen' q s', write_segs fuel copy m dat pos qlen queue s = Ret (ok, qlen', queue ++ q.*2, s') /\
    used (Z.of_nat (length q)) (clens q) s s' /\
    ((ok : bool) -> tiles m (L + pos) (L + Z.of_nat (length dat)) q /\ qlen' = qlen + clens q /\
      (qlen' <= TCP_SND_QUEUELEN \/ q = [])).
Proof.
  intros Hm Hlen Hdat. induction fuel as [|fuel IH]; intros pos qlen queue s Hpos Hfuel Hq Hlbb; [lia|].
  cbn [write_segs]. destruct (Z.ltb_spec pos (Z.of_nat (length dat))) as [Hlt|Hge]; cycle 1.
  { exists true, qlen, [], s. rewrite app_nil_r. split; [done|]. split; [exact (used_refl s)|]. intros _. simpl.
    split_and!; [lia|lia|by right]. }
  specialize (Hq Hlt). rewrite u16_small by lia. set (n := Z.min _ m). assert (0 < n <= m /\ pos + n <= Z.of_nat (length dat)) as Hn by lia.
  destruct (write_pbuf_ok copy (part dat pos n) s) as (p & s1 & -> & Hp).
  destruct p as [p|]; cycle 1.
  { exists false, qlen, [], s1. rewrite app_nil_r. split; [done|]. by split. }
  destruct Hp as (Hu1 & Hne & Hpp).
  assert (0 < chain_clen p <= 2) as Hc by (destruct Hpp as [-> | ->]; unfold chain_clen; simpl; lia).
  rewrite u16_small by (unfold TCP_SND_QUEUELEN in *; lia).
  change (Z.min TCP_SND_QUEUELEN TCP_SNDQUEUELEN_OVERFLOW) with TCP_SND_QUEUELEN.
  destruct (Z.ltb_spec TCP_SND_QUEUELEN (qlen + chain_clen p)).
  { exists false, (qlen + chain_clen p), [], (free_bufs (chain_clen p) s1). rewrite app_nil_r. split; [done|]. split; [|done].
    eapply used_eq; [| |exact (used_trans _ _ _ _ _ _ _ Hu1 (used_free _ s1))]; simpl; lia. }
  destruct (create_ok p 0 (u32 (snd_lbb (snd (pcb s1)) + pos)) (part dat pos n) s1) as (g & s2 & -> & Hg); try done.
  { by destruct Hpp as [-> | ->]; simpl; rewrite ?app_nil_r. }
  { rewrite length_part; lia. }
  cbn [mbind outcome_bind]. destruct g as [g|]; cycle 1.
  { exists false, (qlen + chain_clen p), [], s2. rewrite app_nil_r. split; [done|]. split; [|done].
    eapply used_eq; [| |exact (used_trans _ _ _ _ _ _ _ Hu1 Hg)]; simpl; lia. }
  destruct Hg as (Hu2 & G1 & G2 & G3 & G4 & G5 & G6). rewrite length_part in G2 by lia.
  rewrite (used_pcb _ _ _ _ Hu1), Hlbb, u32_add_l in G1.
  rewrite u16_small by lia.
  destruct (IH (pos + n) (qlen + chain_clen p) (queue ++ [g]) s2) as (ok & qlen' & q & s3 & -> & Hu3 & Hok); try lia.
  { by rewrite (used_pcb _ _ _ _ Hu2), (used_pcb _ _ _ _ Hu1). }
  exists ok, qlen', ((L + pos, g) :: q), s3. split; [by rewrite fmap_cons, <- app_assoc|]. split.
  { eapply used_eq; [| |exact (used_trans _ _ _ _ _ _ _ Hu1 (used_trans _ _ _ _ _ _ _ Hu2 Hu3))]; simpl; lia. }
  intros Hok'. destruct (Hok Hok') as (H1 & H2 & H3). split_and!.
  - simpl. split; [done|]. split; [|by rewrite G2, <- Z.add_assoc].
    split; simpl; try done; [lia|]. split; simpl; [|lia]. rewrite G2, G5. apply part_stream; first [done|lia].
  - simpl. lia.
  - left. destruct H3 as [|Hq0]; [done|]. subst q. simpl in H2. lia.
Qed.

(** ** The queues grow *)

Lemma new_tcplen m x : new_seg m x -> TCP_TCPLEN x.2 = seg_len x.2.
Proof. intros [_ _ [Hf _] _]. unfold TCP_TCPLEN, tcp_len. rewrite Hf. apply Z.add_0_r. Qed.

Lemma tiles_le m a b q : tiles m a b q -> a <= b.
Proof. revert a. induction q as [|x q IH]; intros a; simpl; [lia|]. intros (_ & Hx & Ht). destruct Hx. specialize (IH _ Ht). lia. Qed.
Lemma tiles_lens m a b q : tiles m a b q -> lens q = b - a.
Proof. revert a. induction q as [|x q IH]; intros a; simpl; [lia|]. intros (_ & Hx & Ht). rewrite (IH _ Ht). lia. Qed.
Lemma tiles_in m a b q : tiles m a b q -> forall x, x ∈ q -> new_seg m x /\ a <= x.1 /\ ends_at x <= b.
Proof.
  revert a. induction q as [|y q IH]; intros a; simpl; [intros _ x Hx; by apply not_elem_of_nil in Hx|].
  intros (Ha & Hy & Ht) x [->|Hx]%elem_of_cons.
  - split; [done|]. unfold ends_at. rewrite (new_tcplen m) by done. pose proof (tiles_le _ _ _ _ Ht). lia.
  - destruct (IH _ Ht x Hx) as (H1 & H2 & H3). destruct Hy. split_and!; try done. lia.
Qed.
Lemma tiles_sorted m a b q : tiles m a b q -> StronglySorted before q.
Proof.
  revert a. induction q as [|x q IH]; intros a; simpl; [constructor|]. intros (Ha & Hx & Ht).
  constructor; [by eapply IH|]. apply Forall_forall. intros y Hy. destruct (tiles_in _ _ _ _ Ht y Hy) as (_ & H1 & _).
  unfold before, ends_at. rewrite (new_tcplen m) by done. lia.
Qed.
Lemma tiles_cover m a b q : tiles m a b q -> forall i, a <= i < b -> exists x, x ∈ q /\ x.1 <= i < ends_at x.
Proof.
  revert a. induction q as [|x q IH]; intros a; simpl; [lia|]. intros (Ha & Hx & Ht) i Hi.
  destruct (Z.lt_ge_cases i (a + seg_len x.2)).
  - exists x. split; [left|]. unfold ends_at. rewrite (new_tcplen m) by done. lia.
  - destruct (IH _ Ht i) as (y & Hy & Hi'); [lia|]. exists y. split; [by right|done].
Qed.

Lemma placed_mono U L L' x : placed_ok U L x -> L <= L' -> placed_ok U L' x.
Proof. intros [] H. split; try done. lia. Qed.

Lemma sorted_app q1 q2 : StronglySorted before q1 -> StronglySorted before q2 ->
  (forall x y, x ∈ q1 -> y ∈ q2 -> before x y) -> StronglySorted before (q1 ++ q2).
Proof.
  intros H1 H2 H. induction H1 as [|x q1 Hs IH Hx]; [done|]. simpl. constructor.
  - apply IH. intros y z Hy Hz. apply H; [by right|done].
  - apply Forall_app. split; [done|]. apply Forall_forall. intros y Hy. apply H; [left|done].
Qed.

(** Segments [q] that fill the stretch from [L] to [L'] join the unsent queue. *)
Lemma send_ok_behind U S L L' B qa qs q p p' : send_ok U S L B qa qs p ->
  (forall x, x ∈ q -> placed_ok U L' x /\ L <= x.1) -> StronglySorted before q ->
  (forall i, L <= i < L' -> exists x, x ∈ q /\ x.1 <= i < ends_at x) -> L <= L' ->
  L' <= U + 2 ^ 30 -> lastack (snd p') = lastack (snd p) -> snd_nxt (snd p') = snd_nxt (snd p) ->
  unacked (snd p') = unacked (snd p) -> unsent (snd p') = unsent (snd p) ++ q.*2 ->
  snd_buf (snd p') = snd_buf (snd p) - lens q -> 0 <= snd_buf (snd p') ->
  snd_queuelen (snd p') = snd_queuelen (snd p) + clens q -> snd_queuelen (snd p') <= 0xffff ->
  send_ok U S L' B qa (qs ++ q) p'.
Proof.
  intros [O_una O_nxt O_order O_range O_unacked O_unsent O_sorted_a O_sorted_s O_apart O_placed O_new O_cover
    O_buf O_buf_range O_qlen O_qlen_range] Hq Hsort Hcov Hle HL E1 E2 E3 E4 E5 E6 E7 E8.
  assert (forall x y, x ∈ qa ++ qs -> y ∈ q -> before x y) as Hbef.
  { intros x y Hx Hy. rewrite Forall_forall in O_placed. specialize (O_placed x Hx). destruct (Hq y Hy).
    unfold before. destruct O_placed. lia. }
  assert (forall x, x ∈ qa ++ qs -> placed_ok U L' x) as Hold.
  { intros x Hx. rewrite Forall_forall in O_placed. by eapply placed_mono; [apply O_placed|]. }
  split; rewrite ?E1, ?E2, ?E3, ?E4; try done; try lia.
  - by rewrite O_unsent, fmap_app.
  - apply sorted_app; [done|done|]. intros x y Hx. apply Hbef, elem_of_app. by right.
  - intros x y Hx [Hy|Hy]%elem_of_app; [by apply O_apart|left; apply Hbef; [apply elem_of_app; by left|done]].
  - rewrite app_assoc. apply Forall_app. split; apply Forall_forall; [done|]. intros x Hx. by apply Hq.
  - rewrite app_assoc. apply Forall_app. split; [done|]. apply Forall_forall. intros x Hx. destruct (Hq x Hx) as [[] ?].
    unfold keeps, ends_at in *. lia.
  - intros i Hi. setoid_rewrite app_assoc. setoid_rewrite elem_of_app. destruct (Z.lt_ge_cases i L) as [Hlt|Hge].
    + destruct (O_cover i) as (x & Hx & Hi'); [lia|]. exists x. auto.
    + destruct (Hcov i) as (x & Hx & Hi'); [lia|]. exists x. auto.
  - rewrite E5, app_assoc, lens_app. lia.
  - rewrite E7, app_assoc, clens_app. lia.
Qed.
Lemma send_ok_append m U S L L' B qa qs q p p' : send_ok U S L B qa qs p -> tiles m L L' q -> m <= 0xffff ->
  L' <= U + 2 ^ 30 -> lastack (snd p') = lastack (snd p) -> snd_nxt (snd p') = snd_nxt (snd p) ->
  unacked (snd p') = unacked (snd p) -> unsent (snd p') = unsent (snd p) ++ q.*2 ->
  snd_buf (snd p') = snd_buf (snd p) - (L' - L) -> 0 <= snd_buf (snd p') ->
  snd_queuelen (snd p') = snd_queuelen (snd p) + clens q -> snd_queuelen (snd p') <= 0xffff ->
  send_ok U S L' B qa (qs ++ q) p'.
Proof.
  intros Hs Ht Hm HL E1 E2 E3 E4 E5 E6 E7 E8. pose proof (so_order _ _ _ _ _ _ _ Hs).
  apply (send_ok_behind U S L L' B qa qs q p); try done.
  - intros x Hx. destruct (tiles_in _ _ _ _ Ht x Hx) as (Hnew & H1 & H2). split; [|done].
    split; try apply Hnew; rewrite ?(new_tcplen m _ Hnew); destruct Hnew; lia.
  - by eapply tiles_sorted.
  - by eapply tiles_cover.
  - by eapply tiles_le.
  - by rewrite (tiles_lens _ _ _ _ Ht).
Qed.

(** The last unsent segment [x], which ends at [L], becomes [x']: [n] positions and [k] bytes more. *)
Lemma send_ok_extend U S L B qa q x x' n k p p' : send_ok U S L B qa (q ++ [x]) p -> ends_at x = L ->
  x'.1 = x.1 -> seg_seqno x'.2 = seg_seqno x.2 -> TCP_TCPLEN x'.2 = TCP_TCPLEN x.2 + n -> seg_len x'.2 = seg_len x.2 + k ->
  TCP_TCPLEN x'.2 <= 0xffff -> 0 <= n -> 0 <= k -> L + n <= U + 2 ^ 30 ->
  lastack (snd p') = lastack (snd p) -> snd_nxt (snd p') = snd_nxt (snd p) ->
  unacked (snd p') = unacked (snd p) -> unsent (snd p') = (q ++ [x']).*2 ->
  snd_buf (snd p') = snd_buf (snd p) - k -> 0 <= snd_buf (snd p') ->
  snd_queuelen (snd p') = snd_queuelen (snd p) + (chain_clen (seg_p x'.2) - chain_clen (seg_p x.2)) ->
  snd_queuelen (snd p') <= 0xffff ->
  send_ok U S (L + n) B qa (q ++ [x']) p'.
Proof.
  intros [O_una O_nxt O_order O_range O_unacked O_unsent O_sorted_a O_sorted_s O_apart O_placed O_new O_cover
    O_buf O_buf_range O_qlen O_qlen_range] He X1 X2 X3 X4 X5 Hn Hk HL E1 E2 E3 E4 E5 E6 E7 E8.
  rewrite Forall_forall in O_placed, O_new.
  assert (x ∈ qa ++ q ++ [x]) as Hx by (apply elem_of_app; right; apply elem_of_app; right; left).
  pose proof (O_placed x Hx) as [P1 P2 P3 P4 P5]. pose proof (O_new x Hx) as Hkx.
  assert (forall y, y ∈ qa ++ q -> y ∈ qa ++ q ++ [x]) as Hin by (intros y; rewrite !elem_of_app; tauto).
  assert (forall y, y ∈ qa ++ q -> before y x) as Hbef.
  { intros y [Hy|Hy]%elem_of_app.
    - destruct (O_apart y x) as [Hb|Hb]; [done|apply elem_of_app; right; left|done|]. exfalso.
      pose proof (O_placed y (Hin y ltac:(apply elem_of_app; by left))) as [_ _ ? _ ?]. unfold before, ends_at in *. lia.
    - assert (forall q, StronglySorted before (q ++ [x]) -> y ∈ q -> before y x) as Hs; [|by apply (Hs q)].
      clear. induction q as [|z q IH]; intros Hs Hy; [by apply not_elem_of_nil in Hy|].
      apply StronglySorted_inv in Hs as [Hs Hz]. apply elem_of_cons in Hy as [->|Hy]; [|by apply IH].
      rewrite Forall_forall in Hz. apply Hz, elem_of_app. right; left. }
  assert (forall y, before y x -> before y x') as Hb' by (unfold before; intros; lia).
  split; rewrite ?E1, ?E2, ?E3, ?E4; try done; try lia.
  - apply sorted_app; [|repeat constructor|].
    + clear - O_sorted_s. induction q as [|z q IH]; [constructor|]. apply StronglySorted_inv in O_sorted_s as [Hs Hz].
      constructor; [by apply IH|]. by apply Forall_app in Hz as [? _].
    + intros y z Hy ->%list_elem_of_singleton. apply Hb', Hbef, elem_of_app. by right.
  - intros y z Hy [Hz|Hz]%elem_of_app; [apply O_apart; [done|apply elem_of_app; by left]|].
    apply list_elem_of_singleton in Hz as ->. left. apply Hb', Hbef, elem_of_app. by left.
  - rewrite app_assoc. apply Forall_app. split; [apply Forall_forall; intros y Hy; eapply placed_mono; [by apply O_placed, Hin|lia]|].
    constructor; [|constructor]. split; try congruence; unfold ends_at in *; lia.
  - rewrite app_assoc. apply Forall_app. split; [apply Forall_forall; intros y Hy; by apply O_new, Hin|].
    constructor; [|constructor]. unfold keeps, ends_at in *. lia.
  - intros i Hi. setoid_rewrite app_assoc. setoid_rewrite elem_of_app. destruct (Z.lt_ge_cases i x.1) as [Hlt|Hge].
    + destruct (O_cover i) as (y & Hy & Hi'); [unfold ends_at in *; lia|]. exists y. split; [|done].
      rewrite app_assoc, elem_of_app in Hy. destruct Hy as [Hy|Hy]; [by left|].
      apply list_elem_of_singleton in Hy as ->. lia.
    + exists x'. split; [right; left|]. unfold ends_at in *. lia.
  - rewrite E5, <- O_buf, !lens_app. simpl. lia.
  - rewrite E7, O_qlen, !clens_app. simpl. lia.
Qed.

(** ** [tcp_write] *)

(** What phase 2 may do to the last unsent segment. *)
Definition open_tail (L m : Z) (qs : list placed) : Prop :=
  match last qs with
  | None => True
  | Some x => ends_at x = L /\ seg_len x.2 + opt_length (seg_mss x.2) <= m /\
              (0 < seg_len x.2 -> has (seg_flags x.2) (Z.lor TCP_FIN TCP_SYN) = false)
  end.
Definition tail_bufs (t : tail) : Z := match t with Concat _ => 1 | _ => 0 end.
Definition tail_bytes (t : tail) : list Z := match t with NoTail => [] | Concat b | Extend b => b end.
(** The tail [t] of [dat] fits behind the last unsent segment. *)
Definition fits_tail (m : Z) (dat : list Z) (qs : list placed) (t : tail) : Prop :=
  t = NoTail \/ exists q x, qs = q ++ [x] /\ 0 < seg_len x.2 /\ tail_bytes t = part dat 0 (tail_len t) /\
    0 < tail_len t <= Z.of_nat (length dat) /\
    seg_len x.2 + opt_length (seg_mss x.2) + tail_len t <= m.

Lemma last_snoc_inv {A} (l : list A) y : last l = Some y -> exists l', l = l' ++ [y].
Proof. intros H. by apply last_Some in H. Qed.

Lemma write_tail_ok copy adjacent m L dat qs s : 0 <= m <= 0xffff -> unsent (snd (pcb s)) = qs.*2 ->
  open_tail L m qs -> Z.of_nat (length dat) <= 0xffff -> (0 < Z.of_nat (length dat) -> 0 <= snd_queuelen (snd (pcb s)) < 0xffff) ->
  Forall (fun x => 0 <= seg_len x.2) qs ->
  exists r s', write_tail copy adjacent m dat s = Ret (r, s') /\
    match r with
    | None => used 0 0 s s'
    | Some (t, qlen) => used 0 (tail_bufs t) s s' /\ qlen = snd_queuelen (snd (pcb s)) + tail_bufs t /\ fits_tail m dat qs t
    end.
Proof.
  intros Hm Hu Ho Hd Hq Hnn. unfold write_tail. rewrite Hu, fmap_last. unfold open_tail, placed in *.
  destruct (last qs) as [x|] eqn:Hl; cbn [fmap option_fmap option_map].
  all: try rewrite Hl in Ho.
  2:{ eexists _, s. split; [done|]. split_and!; [apply used_refl|simpl; lia|by left]. }
  destruct Ho as (_ & Hfit & _). apply last_snoc_inv in Hl as [q ->].
  apply Forall_app in Hnn as [_ [Hx _]%Forall_cons].
  assert (0 <= opt_length (seg_mss x.2)) by (unfold opt_length, LWIP_TCP_OPT_LEN_MSS; destruct (seg_mss _); lia).
  rewrite (proj2 (Z.leb_le _ _) Hfit). cbn [lwip_assert mbind outcome_bind]. rewrite u16_small by lia.
  set (space := m - _). destruct (_ && _) eqn:Hb; cycle 1.
  { eexists _, s. split; [done|]. split_and!; [apply used_refl|simpl; lia|by left]. }
  apply andb_true_iff in Hb as [[Hb1 Hb2]%andb_true_iff Hb3]. apply Z.ltb_lt in Hb1, Hb2, Hb3. specialize (Hq Hb1).
  set (n := Z.min space _). assert (Z.of_nat (length (part dat 0 n)) = n) as Hn by (apply length_part; lia).
  assert (forall t, tail_bytes t = part dat 0 n -> tail_len t = n -> fits_tail m dat (q ++ [x]) t) as Hfits.
  { intros t H1 H2. right. exists q, x. rewrite H1, H2. split_and!; try done; lia. }
  destruct copy; [|destruct adjacent].
  - destruct (alloc_ram _ s) as [ok s1] eqn:E. apply used_ram in E.
    destruct ok; eexists _, s1; (split; [reflexivity|]); [|done]. split_and!; [done|by rewrite u16_small by lia|by apply Hfits].
  - eexists _, s. split; [reflexivity|]. split_and!; [apply used_refl|simpl; lia|by apply Hfits].
  - destruct (alloc_rom s) as [ok s1] eqn:E. apply used_rom in E.
    destruct ok; eexists _, s1; (split; [reflexivity|]); [|done]. split_and!; [done|by rewrite u16_small by lia|by apply Hfits].
Qed.

Lemma on_last_snoc {A} (f : A -> A) q x : on_last f (q ++ [x]) = q ++ [f x].
Proof. induction q as [|y q IH]; [done|]. simpl. destruct (q ++ [x]) as [|z l] eqn:E; [by destruct q|]. by rewrite IH. Qed.

(** The extended segment. *)
Definition extended (t : tail) (x : placed) : placed := (x.1, extend_tail t x.2).
Lemma extended_ok m L dat t x : stream byte_at L (Z.of_nat (length dat)) = dat -> t <> NoTail -> ends_at x = L ->
  has (seg_flags x.2) (Z.lor TCP_FIN TCP_SYN) = false -> 0 < seg_len x.2 -> carries x -> m <= 0xffff ->
  tail_bytes t = part dat 0 (tail_len t) -> 0 < tail_len t <= Z.of_nat (length dat) -> seg_len x.2 + tail_len t <= m ->
  let x' := extended t x in
  carries x' /\ seg_len x'.2 = seg_len x.2 + tail_len t /\ seg_flags x'.2 = seg_flags x.2 /\ seg_mss x'.2 = seg_mss x.2 /\
  seg_seqno x'.2 = seg_seqno x.2 /\ chain_clen (seg_p x'.2) = chain_clen (seg_p x.2) + tail_bufs t.
Proof.
  intros Hdat Ht He Hf Hpos [Hc1 Hc2] Hm Hb Hn Hfit x'.
  assert (L = x.1 + seg_len x.2) as HL.
  { rewrite <- He. unfold ends_at, TCP_TCPLEN, tcp_len. rewrite Hf. lia. }
  assert (concat (seg_p x'.2) = concat (seg_p x.2) ++ tail_bytes t /\ seg_len x'.2 = seg_len x.2 + tail_len t /\
    seg_flags x'.2 = seg_flags x.2 /\ seg_mss x'.2 = seg_mss x.2 /\ seg_seqno x'.2 = seg_seqno x.2 /\
    chain_clen (seg_p x'.2) = chain_clen (seg_p x.2) + tail_bufs t) as (D1 & D2 & D3 & D4 & D5 & D6).
  { destruct t as [|b|b]; [done| |]; simpl in *; (split; [|rewrite u16_small by lia; split_and!; try done]).
    - by rewrite concat_app; simpl; rewrite app_nil_r.
    - unfold chain_clen. rewrite length_app. simpl. lia.
    - apply concat_extend_last. intros E. unfold chain_clen in Hc2. rewrite E in Hc2. done.
    - unfold chain_clen. rewrite length_extend_last. lia. }
  split_and!; try done. split; [|rewrite D6; destruct t; simpl; lia].
  pose proof (seg_text_split x.2) as Hsp. rewrite Hc1, length_stream in Hsp by lia. specialize (Hsp ltac:(lia) eq_refl).
  rewrite D2. etransitivity; [apply (seg_text_eq _ (take (Z.to_nat (tot_len (seg_p x.2) - seg_len x.2)) (concat (seg_p x.2)))
    (stream byte_at x.1 (seg_len x.2) ++ tail_bytes t))|].
  - rewrite D1, app_assoc. f_equal. exact Hsp.
  - rewrite D2, length_app, Nat2Z.inj_add, length_stream by lia. destruct t; simpl; done || lia.
  - change (x'.1) with x.1. rewrite stream_app by lia. f_equal. rewrite Hb, <- HL.
    rewrite (part_stream L) by (done || lia). by rewrite Z.add_0_r.
Qed.

(** The sending half with its text: [L] is also [snd_lbb]. *)
Record sender_ok (U S L B : Z) (qa qs : list placed) (p : tcp_pcb) : Prop := {
  sn_send : send_ok U S L B qa qs p;
  sn_carries : Forall carries (qa ++ qs);
  sn_lbb : snd_lbb (snd p) = u32 L;
  sn_tail : open_tail L (mss_local p) qs }.

(** The variables of the sending half after [k] bytes more are queued. *)
Definition queued (us : list tcp_seg) (lbb k qlen : Z) (p : tcp_pcb) : tcp_pcb :=
  set_snd_queuelen qlen (set_snd_buf (snd_buf (snd p) - k) (set_snd_lbb lbb (set_unsent us p))).

(** Whatever of [qs'] is not in [qs] has at most [m] bytes of text and options. *)
Definition cut_to (m : Z) (qs qs' : list placed) : Prop := Forall (fun x => x ∈ qs \/ seg_len x.2 + opt_length (seg_mss x.2) <= m) qs'.
Lemma cut_to_same m qs : cut_to m qs qs.
Proof. apply Forall_forall. auto. Qed.
Lemma cut_to_trans m q1 q2 q3 : cut_to m q1 q2 -> cut_to m q2 q3 -> cut_to m q1 q3.
Proof. unfold cut_to. rewrite !Forall_forall. intros H1 H2 x Hx. destruct (H2 x Hx) as [Hx'|]; auto. Qed.

(** Phase 2 committed. *)
Lemma tail_committed m U S L B qa qs dat t p : sender_ok U S L B qa qs p -> m = mss_local p -> m <= 0xffff ->
  stream byte_at L (Z.of_nat (length dat)) = dat -> fits_tail m dat qs t -> Z.of_nat (length dat) <= snd_buf (snd p) ->
  L + Z.of_nat (length dat) <= U + 2 ^ 30 -> snd_queuelen (snd p) + tail_bufs t <= 0xffff ->
  exists qs', on_last (extend_tail t) (unsent (snd p)) = qs'.*2 /\ (length qs' = length qs /\ cut_to m qs qs') /\
    sender_ok U S (L + tail_len t) B qa qs'
      (queued qs'.*2 (u32 (L + tail_len t)) (tail_len t) (snd_queuelen (snd p) + tail_bufs t) p).
Proof.
  intros [Hs Hc Hl Ht] -> Hm Hdat Hfits Hbuf HL Hql. pose proof (so_unsent _ _ _ _ _ _ _ Hs) as Hu.
  destruct Hfits as [->|(q & x & -> & Hx & Hb & Hn & Hfit)].
  { exists qs. simpl. rewrite Hu, !Z.add_0_r. split; [|split; [split; [done|apply cut_to_same]|]].
    - clear. assert (forall l : list tcp_seg, on_last (fun g => g) l = l) as H.
      { induction l as [|g l IH]; [done|]. destruct l as [|h l]; [done|]. simpl in *. by rewrite IH. }
      apply H.
    - split; try done. destruct Hs; split; simpl; try done; lia. }
  assert (tail_len t <> 0) as Htn by lia. assert (t <> NoTail) as Hne by (by intros ->).
  unfold open_tail in Ht. rewrite last_snoc in Ht. destruct Ht as (He & Hlen & Hfl).
  rewrite app_assoc in Hc. apply Forall_app in Hc as [Hc [Hcx _]%Forall_cons].
  assert (0 <= opt_length (seg_mss x.2)) by (unfold opt_length, LWIP_TCP_OPT_LEN_MSS; destruct (seg_mss _); lia).
  destruct (extended_ok (mss_local p) L dat t x) as (D1 & D2 & D3 & D4 & D5 & D6); try done; [by apply Hfl|lia|].
  set (x' := extended t x) in *.
  exists (q ++ [x']). split; [rewrite Hu, !fmap_app; simpl; by rewrite on_last_snoc|]. split.
  { split; [by rewrite !length_app|]. apply Forall_app. split; [apply Forall_forall; intros y Hy; left; by apply elem_of_app; left|].
    apply Forall_singleton. right. rewrite D2, D4. lia. }
  assert (TCP_TCPLEN x'.2 = TCP_TCPLEN x.2 + tail_len t) as Htl by (unfold TCP_TCPLEN, tcp_len; rewrite D2, D3; lia).
  assert (TCP_TCPLEN x'.2 <= 0xffff) as Hmax.
  { unfold TCP_TCPLEN, tcp_len. rewrite D2, D3, Hfl by done. lia. }
  split.
  - apply (send_ok_extend U S L B qa q x x' (tail_len t) (tail_len t) p); try done; simpl; try lia.
    change (extend_tail t x.2) with (x'.2). lia.
  - rewrite app_assoc. apply Forall_app. split; [done|]. by constructor.
  - done.
  - unfold open_tail. rewrite last_snoc. split_and!.
    + unfold ends_at in *. change (x'.1) with x.1. lia.
    + change (mss_local (queued _ _ _ _ p)) with (mss_local p). rewrite D2, D4. lia.
    + rewrite D3. auto.
Qed.

(** Phase 3 committed. *)
Lemma segs_committed m U S L L' B qa qs q lbb p : sender_ok U S L B qa qs p -> m = mss_local p -> m <= 0xffff ->
  tiles m L L' q -> L' <= U + 2 ^ 30 -> L' - L <= snd_buf (snd p) -> snd_queuelen (snd p) + clens q <= 0xffff ->
  lbb = u32 L' ->
  sender_ok U S L' B qa (qs ++ q) (queued (qs ++ q).*2 lbb (L' - L) (snd_queuelen (snd p) + clens q) p).
Proof.
  intros [Hs Hc Hl Ht] -> Hm Htl HL Hbuf Hql ->. pose proof (tiles_in _ _ _ _ Htl) as Hin. split.
  - eapply (send_ok_append (mss_local p) U S L L' B qa qs q p); try done; simpl; try lia.
    by rewrite fmap_app, (so_unsent _ _ _ _ _ _ _ Hs).
  - rewrite app_assoc. apply Forall_app. split; [done|]. apply Forall_forall. intros x Hx. by apply (Hin x Hx).
  - done.
  - change (mss_local (queued _ _ _ _ p)) with (mss_local p). unfold open_tail.
    destruct (last q) as [x|] eqn:Hlq.
    + apply last_snoc_inv in Hlq as [q' ->]. rewrite app_assoc, last_snoc.
      destruct (Hin x ltac:(apply elem_of_app; right; left)) as (Hx & _ & _).
      assert (tiles (mss_local p) (ends_at x) L' []) as He.
      { clear - Htl. revert L Htl. induction q' as [|y q' IH]; intros L; simpl.
        - intros (Ha & Hx & He). unfold ends_at. rewrite (new_tcplen _ _ Hx). lia.
        - intros (_ & _ & H). by apply IH in H. }
      simpl in He. split; [done|]. destruct Hx as [_ Hx [Hf ->] _]. rewrite Hf. split; [simpl; lia|done].
    + apply last_None in Hlq as ->. simpl in Htl. subst L'. by rewrite app_nil_r.
Qed.

(** PSH on the last segment. *)
Lemma psh_committed U S L B qa qs p : sender_ok U S L B qa qs p -> qs <> [] ->
  exists qs', on_last set_psh (unsent (snd p)) = qs'.*2 /\ (length qs' = length qs /\ cut_to (mss_local p) qs qs') /\ clens qs' = clens qs /\
    sender_ok U S L B qa qs' (set_unsent qs'.*2 p).
Proof.
  intros [Hs Hc Hl Ht] Hne. destruct (last qs) as [x|] eqn:Hlq; [|by apply last_None in Hlq].
  apply last_snoc_inv in Hlq as [q ->]. pose proof (so_unsent _ _ _ _ _ _ _ Hs) as Hu.
  unfold open_tail in Ht. rewrite last_snoc in Ht. destruct Ht as (He & Hlen & Hfl).
  assert (has (Z.lor (seg_flags x.2) TCP_PSH) (Z.lor TCP_FIN TCP_SYN) = has (seg_flags x.2) (Z.lor TCP_FIN TCP_SYN)) as Hpsh.
  { unfold has. do 2 f_equal. rewrite Z.land_lor_distr_l. apply Z.lor_0_r. }
  set (x' := (x.1, set_psh x.2)). exists (q ++ [x']).
  rewrite app_assoc in Hc. apply Forall_app in Hc as [Hc [Hcx _]%Forall_cons].
  assert (TCP_TCPLEN x'.2 = TCP_TCPLEN x.2 + 0) as Htl by (unfold TCP_TCPLEN, tcp_len; simpl; rewrite Hpsh; lia).
  pose proof (so_placed _ _ _ _ _ _ _ Hs) as Hp. rewrite Forall_forall in Hp.
  specialize (Hp x ltac:(rewrite !elem_of_app; right; right; left)).
  split; [rewrite Hu, !fmap_app; simpl; by rewrite on_last_snoc|]. split.
  { split; [by rewrite !length_app|]. apply Forall_app. split; [apply Forall_forall; intros y Hy; left; by apply elem_of_app; left|].
    apply Forall_singleton. by right. }
  split; [by rewrite !clens_app|]. split.
  - rewrite <- (Z.add_0_r L). apply (send_ok_extend U S L B qa q x x' 0 0 p); try done; simpl; try lia.
    + change (set_psh x.2) with (x'.2). rewrite Htl. destruct Hp. lia.
    + pose proof (so_range _ _ _ _ _ _ _ Hs). lia.
    + pose proof (so_buf_range _ _ _ _ _ _ _ Hs). lia.
    + apply (so_qlen_range _ _ _ _ _ _ _ Hs).
  - rewrite app_assoc. apply Forall_app. split; [done|]. constructor; [|done]. by destruct Hcx; split.
  - done.
  - unfold open_tail. rewrite last_snoc. change (mss_local (set_unsent _ p)) with (mss_local p).
    split; [unfold ends_at in *; change (x'.1) with x.1; lia|]. split; [done|]. simpl. rewrite Hpsh. done.
Qed.

Lemma queues_valid_ok U S L B qa qs p : send_ok U S L B qa qs p -> queues_valid p = true.
Proof.
  intros Hs. unfold queues_valid. rewrite (so_qlen _ _ _ _ _ _ _ Hs), (so_unacked _ _ _ _ _ _ _ Hs), (so_unsent _ _ _ _ _ _ _ Hs).
  destruct qa; [|by rewrite orb_true_r]. destruct qs; [done|by rewrite orb_true_r].
Qed.
(** The assertion of [tcp_write_checks]. *)
Lemma checks_valid U S L B qa qs p : sender_ok U S L B qa qs p ->
  (if negb (snd_queuelen (snd p) =? 0) then negb (bool_decide (unacked (snd p) = [] /\ unsent (snd p) = []))
   else bool_decide (unacked (snd p) = [] /\ unsent (snd p) = [])) = true.
Proof.
  intros [Hs Hc _ _]. rewrite (so_qlen _ _ _ _ _ _ _ Hs), (so_unacked _ _ _ _ _ _ _ Hs), (so_unsent _ _ _ _ _ _ _ Hs).
  destruct (qa ++ qs) as [|x q] eqn:E.
  - apply app_eq_nil in E as [-> ->]. done.
  - apply Forall_cons in Hc as [[_ Hx] _]. simpl. pose proof (clens_nonneg q).
    rewrite (proj2 (Z.eqb_neq _ 0)) by lia. simpl. destruct qa; [|done]. simpl in E. by subst qs.
Qed.

(** All phases committed. *)
Lemma write_commit_ok U S L B qa qs more dat t q qlen s : sender_ok U S L B qa qs (pcb s) ->
  mss_local (pcb s) <= 0xffff -> stream byte_at L (Z.of_nat (length dat)) = dat ->
  fits_tail (mss_local (pcb s)) dat qs t -> tiles (mss_local (pcb s)) (L + tail_len t) (L + Z.of_nat (length dat)) q ->
  Z.of_nat (length dat) <= snd_buf (snd (pcb s)) -> L + Z.of_nat (length dat) <= U + 2 ^ 30 ->
  qlen = snd_queuelen (snd (pcb s)) + tail_bufs t + clens q -> qlen <= 0xffff ->
  exists qs' p', write_commit more dat t q.*2 qlen s = Ret (set_pcb p' s) /\
    sender_ok U S (L + Z.of_nat (length dat)) B qa qs' p' /\
    length qs' = (length qs + length q)%nat /\ clens qs' = clens qs + tail_bufs t + clens q /\ cut_to (mss_local (pcb s)) qs qs'.
Proof.
  intros Hok Hm Hdat Hfits Htl Hbuf HL -> Hql. set (p := pcb s) in *. set (n := Z.of_nat (length dat)) in *.
  pose proof (clens_nonneg q) as Hcq. pose proof (tiles_le _ _ _ _ Htl) as Hle.
  pose proof (so_buf_range _ _ _ _ _ _ _ (sn_send _ _ _ _ _ _ _ Hok)) as Hbr.
  pose proof (sn_lbb _ _ _ _ _ _ _ Hok) as Hlbb.
  pose proof (lens_nonneg _ _ _ (so_placed _ _ _ _ _ _ _ (sn_send _ _ _ _ _ _ _ Hok))) as Hln.
  pose proof (so_buf _ _ _ _ _ _ _ (sn_send _ _ _ _ _ _ _ Hok)) as Hb.
  destruct (tail_committed _ _ _ _ _ _ _ dat t p Hok eq_refl Hm Hdat Hfits Hbuf HL ltac:(lia)) as (q1 & Hq1 & [Hl1 Hcut1] & Hok1).
  pose proof (so_qlen _ _ _ _ _ _ _ (sn_send _ _ _ _ _ _ _ Hok1)) as Hc1.
  pose proof (so_qlen _ _ _ _ _ _ _ (sn_send _ _ _ _ _ _ _ Hok)) as Hc0. simpl in Hc1. rewrite !clens_app in *.
  assert (0 <= tail_len t) as Htn by (destruct t; simpl; lia).
  apply (segs_committed (mss_local p) _ _ _ (L + n) _ _ _ q (u32 (L + n))) in Hok1; try done; simpl; try lia.
  unfold write_commit. fold n.
  set (p2 := queued _ _ _ _ _) in Hok1.
  assert (p2 = set_snd_queuelen (snd_queuelen (snd p) + tail_bufs t + clens q) (set_snd_buf (u16 (snd_buf (snd p) - n))
    (set_snd_lbb (u32 (snd_lbb (snd p) + n)) (set_unsent (on_last (extend_tail t) (unsent (snd p)) ++ q.*2) p)))) as Hp2.
  { subst p2. unfold queued. rewrite Hq1, Hlbb, u32_add_l, u16_small, fmap_app by lia. 
    by replace (snd_buf (snd p) - n) with (snd_buf (snd p) - tail_len t - (L + n - (L + tail_len t))) by lia. }
  change (pcb (upd (set_snd_queuelen _) _)) with (set_snd_queuelen (snd_queuelen (snd p) + tail_bufs t + clens q) (set_snd_buf (u16 (snd_buf (snd p) - n))
    (set_snd_lbb (u32 (snd_lbb (snd p) + n)) (set_unsent (on_last (extend_tail t) (unsent (snd p)) ++ q.*2) p)))).
  rewrite <- Hp2, (queues_valid_ok _ _ _ _ _ _ _ (sn_send _ _ _ _ _ _ _ Hok1)). cbn [lwip_assert mbind outcome_bind].
  assert (clens (q1 ++ q) = clens qs + tail_bufs t + clens q) as Hcl by (rewrite clens_app; lia).
  assert (cut_to (mss_local p) qs (q1 ++ q)) as Hcut.
  { apply Forall_app. split; [done|]. apply Forall_forall. intros x Hx. right. destruct (tiles_in _ _ _ _ Htl x Hx) as ([_ Hx' [_ ->] _] & _). simpl. lia. }
  destruct (_ && negb more) eqn:Hpsh.
  - assert (q1 ++ q <> []) as Hne.
    { intros [-> ->]%app_eq_nil. simpl in Hl1. destruct qs; [|done]. destruct Hfits as [->|(q' & x & E & _)]; [done|by destruct q']. }
    destruct (psh_committed _ _ _ _ _ _ _ Hok1 Hne) as (q2 & Hq2 & [Hl2 Hcut2] & Hc2 & Hok2).
    exists q2, (set_unsent q2.*2 p2). split; [|split_and!; [done|unfold placed in *; rewrite Hl2, length_app; lia|exact (eq_trans Hc2 Hcl)|by eapply cut_to_trans]].
    f_equal. rewrite <- Hq2, Hp2. by destruct s.
  - exists (q1 ++ q), p2. split; [|split_and!; [done|unfold placed in *; rewrite length_app; lia|done|done]].
    f_equal. rewrite Hp2. by destruct s.
Qed.

Lemma chains_placed q : chains_clen q.*2 = clens q.
Proof. induction q as [|x q IH]; [done|]. simpl. by rewrite <- IH. Qed.

(** [memerr] gives back what was used. *)
Lemma write_memerr_ok U S L B qa qs t q s s' : send_ok U S L B qa qs (pcb s) ->
  used (Z.of_nat (length q)) (tail_bufs t + clens q) s s' ->
  exists s2, write_memerr t q.*2 s' = Ret (ERR_MEM, s2) /\ pcb s2 = tcp_set_flags TF_NAGLEMEMERR (pcb s) /\
    segs_avail s2 = segs_avail s /\ in_use (net s2) = in_use (net s).
Proof.
  intros Hs [[n ->] Hu]. simpl in Hu. unfold write_memerr, discard, tcp_segs_free, segs_freed, free_bufs.
  rewrite chains_placed, length_fmap.
  assert (queues_valid (tcp_set_flags TF_NAGLEMEMERR (pcb s)) = true) as Hv by exact (queues_valid_ok _ _ _ _ _ _ _ Hs).
  destruct t; cbn [tail_bufs] in Hu; simpl; rewrite Hv; (eexists; split; [reflexivity|]); simpl;
    (split_and!; [done|unfold placed in *; lia|rewrite !bufs_free_use; lia]).
Qed.

Definition writable (p : tcp_pcb) : Prop :=
  state p = ESTABLISHED \/ state p = CLOSE_WAIT \/ state p = SYN_SENT \/ state p = SYN_RCVD.

Lemma mss_local_pos p : 0 < mss p <= 0xffff -> 0 <= snd_wnd_max (snd p) -> 0 < mss_local p <= 0xffff.
Proof.
  intros Hm Hw. unfold mss_local. pose proof (Z.div_pos (snd_wnd_max (snd p)) 2 Hw ltac:(lia)).
  destruct (Z.eqb_spec (Z.min (mss p) (snd_wnd_max (snd p) / 2)) 0); lia.
Qed.

(** [dat] is queued behind the stream up to [L]; or there was no memory. *)
Definition appended (U S L B : Z) (qa qs : list placed) (dat : list Z) s (err : err_t) s' : Prop :=
  match err with
  | ERR_OK => exists qs', sender_ok U S (L + Z.of_nat (length dat)) B qa qs' (pcb s') /\
      segs_avail s' + Z.of_nat (length qs') = segs_avail s + Z.of_nat (length qs) /\
      in_use (net s') - clens qs' = in_use (net s) - clens qs /\ cut_to (mss_local (pcb s)) qs qs'
  | ERR_MEM => pcb s' = tcp_set_flags TF_NAGLEMEMERR (pcb s) /\ segs_avail s' = segs_avail s /\
      in_use (net s') = in_use (net s)
  | _ => False
  end.

(** [tcp_write] behind its checks. *)
Lemma write_rest_ok U S L B qa qs fuel dat apiflags adjacent s :
  sender_ok U S L B qa qs (pcb s) -> 0 < mss_local (pcb s) <= 0xffff ->
  stream byte_at L (Z.of_nat (length dat)) = dat -> Z.of_nat (length dat) <= 0xffff ->
  L + Z.of_nat (length dat) <= U + 2 ^ 30 -> (length dat < fuel)%nat ->
  Z.of_nat (length dat) <= snd_buf (snd (pcb s)) ->
  (0 < Z.of_nat (length dat) -> snd_queuelen (snd (pcb s)) < TCP_SND_QUEUELEN) ->
  let m := mss_local (pcb s) in
  let copy := has apiflags TCP_WRITE_FLAG_COPY in
  exists err s',
    ('(t, s) ← write_tail copy adjacent m dat s;
     match t with
     | None => write_memerr NoTail [] s
     | Some (t, queuelen) =>
         '(ok, queuelen, queue, s) ← write_segs fuel copy m dat (tail_len t) queuelen [] s;
         if (ok : bool) then s ← write_commit (has apiflags TCP_WRITE_FLAG_MORE) dat t queue queuelen s; Ret (ERR_OK, s)
         else write_memerr t queue s
     end) = Ret (err, s') /\
    appended U S L B qa qs dat s err s'.
Proof.
  intros Hok Hm Hdat Hlen HL Hfuel Hbuf Hql m copy. set (n := Z.of_nat (length dat)) in *.
  pose proof (sn_send _ _ _ _ _ _ _ Hok) as Hs. pose proof (so_unsent _ _ _ _ _ _ _ Hs) as Hu.
  pose proof (clens_nonneg (qa ++ qs)) as Hc. rewrite <- (so_qlen _ _ _ _ _ _ _ Hs) in Hc.
  destruct (write_tail_ok copy adjacent m L dat qs s) as (r & s1 & -> & Hr); try done; try lia.
  { apply (sn_tail _ _ _ _ _ _ _ Hok). }
  { intros Hn. specialize (Hql Hn). unfold TCP_SND_QUEUELEN in *. lia. }
  { pose proof (so_placed _ _ _ _ _ _ _ Hs) as [_ Hp]%Forall_app. eapply Forall_impl; [exact Hp|]. by intros x []. }
  cbn [mbind outcome_bind]. destruct r as [[t qlen]|]; cycle 1.
  { destruct (write_memerr_ok U S L B qa qs NoTail [] s s1 Hs Hr) as (s2 & E & H1 & H2 & H3).
    exists ERR_MEM, s2. by split_and!. }
  destruct Hr as (Hu1 & -> & Hfits). pose proof (used_pcb _ _ _ _ Hu1) as Hp1.
  assert (0 <= tail_len t <= n) as Htn.
  { destruct Hfits as [->|(? & ? & _ & _ & _ & H & _)]; [simpl; lia|]. lia. }
  assert (0 <= tail_bufs t <= 1) as Htb by (destruct t; simpl; lia).
  destruct (write_segs_ok copy m L dat ltac:(lia) Hlen Hdat fuel (tail_len t) (snd_queuelen (snd (pcb s)) + tail_bufs t) [] s1)
    as (ok & qlen & q & s2 & -> & Hu2 & Hq); [lia|lia| |rewrite Hp1; apply (sn_lbb _ _ _ _ _ _ _ Hok)|].
  { intros Hn. specialize (Hql ltac:(lia)). lia. }
  cbn [mbind outcome_bind]. rewrite app_nil_l.
  pose proof (used_trans _ _ _ _ _ _ _ Hu1 Hu2) as Hu3. destruct ok; cycle 1.
  { destruct (write_memerr_ok U S L B qa qs t q s s2 Hs Hu3) as (s3 & E & H1 & H2 & H3). exists ERR_MEM, s3. by split_and!. }
  destruct (Hq I) as (Htl & -> & Hqmax). pose proof (used_pcb _ _ _ _ Hu3) as Hp3.
  destruct (write_commit_ok U S L B qa qs (has apiflags TCP_WRITE_FLAG_MORE) dat t q
    (snd_queuelen (snd (pcb s)) + tail_bufs t + clens q) s2) as (qs' & p' & -> & Hok' & Hl' & Hc' & Hcut); rewrite ?Hp3; try done; try lia.
  { pose proof (so_qlen_range _ _ _ _ _ _ _ Hs). unfold TCP_SND_QUEUELEN in *. destruct Hqmax as [|Hq0]; [lia|].
    destruct Hfits as [Ht|(? & ? & _ & _ & _ & H2 & _)]; [rewrite Ht, Hq0; simpl; lia|]. specialize (Hql ltac:(lia)).
    rewrite Hq0. simpl. lia. }
  exists ERR_OK, (set_pcb p' s2). split; [done|]. exists qs'. split; [done|].
  rewrite Hp3 in Hcut. destruct Hu3 as [[k ->] Hu3]. simpl in *. unfold placed in *. split_and!; [lia|lia|done].
Qed.

Lemma write_ok U S L B qa qs fuel dat apiflags adjacent s :
  sender_ok U S L B qa qs (pcb s) -> writable (pcb s) -> 0 < mss (pcb s) <= 0xffff -> 0 <= snd_wnd_max (snd (pcb s)) ->
  stream byte_at L (Z.of_nat (length dat)) = dat -> Z.of_nat (length dat) <= 0xffff ->
  L + Z.of_nat (length dat) <= U + 2 ^ 30 -> (length dat < fuel)%nat ->
  exists err s', tcp_write fuel dat apiflags adjacent s = Ret (err, s') /\
    appended U S L B qa qs dat s err s'.
Proof.
  intros Hok Hst Hmss Hwm Hdat Hlen HL Hfuel. pose proof (mss_local_pos _ Hmss Hwm) as Hm.
  pose proof (sn_send _ _ _ _ _ _ _ Hok) as Hs. pose proof (so_unsent _ _ _ _ _ _ _ Hs) as Hu.
  unfold tcp_write, tcp_write_checks. rewrite bool_decide_true by done. cbn [negb].
  set (n := Z.of_nat (length dat)) in *.
  assert (forall p, pcb s = p -> set_pcb p s = s) as Hid by (intros p <-; by destruct s).
  destruct (Z.eqb_spec n 0) as [Hz|Hnz]; [|destruct (Z.ltb_spec (snd_buf (snd (pcb s))) n)].
  2:{ eexists _, _. split; [reflexivity|]. by split_and!. }
  2: change (Z.min TCP_SND_QUEUELEN (TCP_SNDQUEUELEN_OVERFLOW + 1)) with TCP_SND_QUEUELEN;
     destruct (Z.leb_spec TCP_SND_QUEUELEN (snd_queuelen (snd (pcb s)))).
  2:{ eexists _, _. split; [reflexivity|]. by split_and!. }
  2: rewrite (checks_valid _ _ _ _ _ _ _ Hok).
  all: cbn [lwip_assert mbind outcome_bind]; rewrite (Hid _ eq_refl); cbn [decide]; rewrite decide_False by tauto.
  all: pose proof (so_buf_range _ _ _ _ _ _ _ Hs).
  all: apply (write_rest_ok U S L B qa qs fuel dat apiflags adjacent s); try done; try lia; intros; lia.
Qed.

(** C4: (tcp_write) for a connection whose queues hold the stream up to [L], the last unsent segment ending there and holding at
    most the present segment size ([sender_ok]), [tcp_write] returns, whatever memory there is. With
    [ERR_OK] the bytes are the next part of the stream that is sent: the queues, the send buffer
    and the length of the queue account for them, each segment that is new or was extended has at most the segment size, options included,
    and carries the text of its position, and pool and pbufs are used for nothing else. With
    [ERR_MEM] the connection is as before but for the flag that remembers the failure, and
    everything is given back. *)
Theorem write_appends U S L B qa qs fuel dat apiflags adjacent s :
  sender_ok U S L B qa qs (pcb s) -> writable (pcb s) -> 0 < mss (pcb s) <= 0xffff -> 0 <= snd_wnd_max (snd (pcb s)) ->
  stream byte_at L (Z.of_nat (length dat)) = dat -> Z.of_nat (length dat) <= 0xffff ->
  L + Z.of_nat (length dat) <= U + 2 ^ 30 -> (length dat < fuel)%nat ->
  exists err s', tcp_write fuel dat apiflags adjacent s = Ret (err, s') /\
    appended U S L B qa qs dat s err s'.
Proof. exact (write_ok U S L B qa qs fuel dat apiflags adjacent s). Qed.
End send.
