(* ===== verification/TcpOutput.v ===== *)
(** * What the send path of TCP promises: FIN and sending

    A FIN is queued behind the text. [tcp_output] sends segments of the unsent queue in order and
    moves them to the queue of those that wait for an acknowledgement. *)

From Stdlib Require Import Sorted.
From S2P Require Import Prelude Chain Tcp TcpStream TcpAck TcpOpt TcpProcess TcpOut TcpSend.

Section fin.
  Context (byte_at : Z -> Z).
  Context {N : Type} `{!TcpNet N} `{!TcpBufs N} `{!TcpBufsLaws N} `{!TcpLink N}.
  Implicit Type s : input N.

(** ** FIN *)

Lemma fin_len g : has (seg_flags g) (Z.lor TCP_FIN TCP_SYN) = false ->
  TCP_TCPLEN (set_seg_flags (Z.lor (seg_flags g) TCP_FIN) g) = TCP_TCPLEN g + 1.
Proof.
  intros H. unfold TCP_TCPLEN, tcp_len. simpl. rewrite H, has_or, fin_lor. simpl. lia.
Qed.

(** A FIN joined the stream at [L], or there was no memory and nothing has changed. *)
Definition fin_queued (U S L B : Z) (qa : list placed) s (err : err_t) s' : Prop :=
  match err with
  | ERR_OK => exists q x, send_ok U S (L + 1) B qa (q ++ [x]) (pcb s') /\ Forall (carries byte_at) (qa ++ q ++ [x]) /\
      ends_at x = L + 1 /\ has (seg_flags x.2) TCP_FIN = true /\ flags (pcb s') = u16 (Z.lor (flags (pcb s)) TF_FIN)
  | ERR_MEM => pcb s' = tcp_set_flags TF_NAGLEMEMERR (pcb s) /\ segs_avail s' = segs_avail s /\
      in_use (net s') = in_use (net s)
  | _ => False
  end.

(** The FIN has its own segment. *)
Lemma enqueue_fin_ok U S L B qa qs s : sender_ok byte_at U S L B qa qs (pcb s) -> L + 1 <= U + 2 ^ 30 ->
  snd_queuelen (snd (pcb s)) < 0xffff ->
  exists err s', tcp_enqueue_flags TCP_FIN s = Ret (err, s') /\
    fin_queued U S L B qa s err s'.
Proof.
  intros [Hs Hc Hl Ht] HL Hq. unfold tcp_enqueue_flags. change (has TCP_FIN (Z.lor TCP_SYN TCP_FIN)) with true. cbn [lwip_assert mbind outcome_bind].
  change (has TCP_FIN TCP_SYN) with false. cbn [opt_length]. destruct (alloc_ram 0 s) as [ok s1] eqn:E. apply used_ram in E.
  destruct ok; cbn [negb]; cycle 1.
  { eexists _, _. split; [reflexivity|]. destruct E as [[n ->] E]. simpl in *. rewrite Z.sub_0_r. split_and!; [done|done|lia]. }
  destruct (create_ok [[]] TCP_FIN (snd_lbb (snd (pcb s1))) [] s1) as (g & s2 & Hrun & Hg); try done.
  change (replicate (Z.to_nat 0) 0) with (@nil Z). rewrite Hrun. cbn [mbind outcome_bind].
  destruct g as [g|]; cycle 1.
  { eexists _, _. split; [reflexivity|]. pose proof (used_trans _ _ _ _ _ _ _ E Hg) as [[n ->] Hu].
    change (chain_clen [[]]) with 1 in Hu. simpl in *. rewrite Z.sub_0_r. split_and!; [done|done|lia]. }
  destruct Hg as (Hu & G1 & G2 & G3 & G4 & G5 & G6). pose proof (used_trans _ _ _ _ _ _ _ E Hu) as Hu2.
  pose proof (used_pcb _ _ _ _ E) as Hp1. pose proof (used_pcb _ _ _ _ Hu2) as Hp2.
  rewrite G2. cbn [lwip_assert mbind outcome_bind Z.of_nat length Z.eqb].
  rewrite Hp1, Hl in G1. set (x := (L, g)).
  assert (send_ok U S (L + 1) B qa (qs ++ [x]) (set_snd_queuelen (u16 (snd_queuelen (snd (pcb s)) + chain_clen (seg_p g)))
    (tcp_set_flags TF_FIN (set_snd_lbb (u32 (L + 1)) (set_unsent (unsent (snd (pcb s)) ++ [g]) (pcb s)))))) as Hs'.
  { assert (TCP_TCPLEN g = 1) as Hlen by (unfold TCP_TCPLEN, tcp_len; rewrite G2, G3; done).
    change (chain_clen [[]]) with 1 in G6. pose proof (so_order _ _ _ _ _ _ _ Hs). pose proof (so_buf_range _ _ _ _ _ _ _ Hs).
    pose proof (clens_nonneg (qa ++ qs)) as Hcn. rewrite <- (so_qlen _ _ _ _ _ _ _ Hs) in Hcn.
    apply (send_ok_behind U S L (L + 1) B qa qs [x] (pcb s)); try done; simpl; rewrite ?G6, ?u16_small by lia; try lia.
    - intros y ->%list_elem_of_singleton. split; [|simpl; lia]. split; simpl; rewrite ?Hlen; try done; try lia.
      unfold ends_at. simpl. lia.
    - repeat constructor.
    - intros i Hi. exists x. split; [left|]. unfold ends_at. simpl. lia.
    - rewrite G2. simpl. lia. }
  change (has TCP_FIN TCP_FIN) with true. cbn iota. pose proof (queues_valid_ok _ _ _ _ _ _ _ Hs') as Hv.
  set (p' := set_snd_queuelen _ _) in Hs', Hv.
  exists ERR_OK, (set_pcb p' s2). destruct Hu2 as [[n ->] _]. split.
  - unfold upd. cbn [pcb set_pcb set_net set_segs_avail]. simpl (snd_lbb _). rewrite Hl, u32_add_l.
    change (set_snd_queuelen _ _) with p'. by rewrite Hv.
  - exists qs, x. split_and!; [exact Hs'| |unfold ends_at; simpl|by simpl; rewrite G3|done].
    + rewrite app_assoc. apply Forall_app. split; [done|]. constructor; [|done]. split; simpl; [by rewrite G5, G2|by rewrite G6].
    + unfold TCP_TCPLEN, tcp_len. by rewrite G2, G3.
Qed.

Lemma send_fin_ok U S L B qa qs s : sender_ok byte_at U S L B qa qs (pcb s) -> L + 1 <= U + 2 ^ 30 ->
  snd_queuelen (snd (pcb s)) < 0xffff -> mss_local (pcb s) < 0xffff ->
  exists err s', tcp_send_fin s = Ret (err, s') /\
    fin_queued U S L B qa s err s'.
Proof.
  intros Hok HL Hq Hm. pose proof Hok as [Hs Hc Hl Ht]. pose proof (so_unsent _ _ _ _ _ _ _ Hs) as Hu.
  pose proof (enqueue_fin_ok U S L B qa qs s Hok HL Hq) as Hown.
  unfold tcp_send_fin. rewrite Hu, fmap_last. unfold open_tail, placed in *. destruct (last qs) as [x|] eqn:Hlast;
    cbn [fmap option_fmap option_map]; [|exact Hown].
  try rewrite Hlast in Ht. destruct Ht as (He & Hfit & Hfl). apply last_snoc_inv in Hlast as [q ->].
  destruct (has (seg_flags x.2) (Z.lor TCP_SYN (Z.lor TCP_FIN TCP_RST))) eqn:Hflags; cbn [negb]; [exact Hown|].
  rewrite !has_or in Hflags. apply orb_false_iff in Hflags as [F1 [F2 _]%orb_false_iff].
  assert (has (seg_flags x.2) (Z.lor TCP_FIN TCP_SYN) = false) as Hno by (by rewrite has_or, F1, F2).
  set (f := fun g => set_seg_flags (Z.lor (seg_flags g) TCP_FIN) g). set (x' := (x.1, f x.2) : placed).
  exists ERR_OK. eexists. split; [reflexivity|]. exists q, x'.
  rewrite app_assoc in Hc. apply Forall_app in Hc as [Hc [Hcx _]%Forall_cons].
  pose proof (fin_len x.2 Hno) as Hlen. fold (f x.2) in Hlen. change (f x.2) with (x'.2) in Hlen.
  pose proof (so_placed _ _ _ _ _ _ _ Hs) as Hp. rewrite Forall_forall in Hp.
  specialize (Hp x ltac:(rewrite !elem_of_app; right; right; left)).
  assert (TCP_TCPLEN x.2 < 0xffff) as Hmax.
  { unfold TCP_TCPLEN, tcp_len. rewrite Hno. pose proof (pl_len _ _ _ Hp).
    assert (0 <= opt_length (seg_mss x.2)) by (unfold opt_length, LWIP_TCP_OPT_LEN_MSS; destruct (seg_mss _); lia). lia. }
  split_and!.
  - apply (send_ok_extend byte_at U S L B qa q x x' 1 0 (pcb s)); try done; simpl; try lia.
    + change (f x.2) with (x'.2). lia.
    + rewrite Hu, !fmap_app. simpl. by rewrite on_last_snoc.
    + pose proof (so_buf_range _ _ _ _ _ _ _ Hs). lia.
  - rewrite app_assoc. apply Forall_app. split; [done|]. constructor; [|done]. by destruct Hcx; split.
  - unfold ends_at in *. change (x'.1) with x.1. lia.
  - simpl. apply fin_lor.
  - done.
Qed.

(** (tcp_send_fin) the FIN is the position behind the text: it is put on the last unsent
    segment, if that has no SYN or FIN, or on a segment of its own; either way the queues cover
    the stream up to and with the FIN, the connection is marked, and without memory
    the connection is as before and everything is given back. *)
Theorem fin_behind_text U S L B qa qs s : sender_ok byte_at U S L B qa qs (pcb s) -> L + 1 <= U + 2 ^ 30 ->
  snd_queuelen (snd (pcb s)) < 0xffff -> mss_local (pcb s) < 0xffff ->
  exists err s', tcp_send_fin s = Ret (err, s') /\
    fin_queued U S L B qa s err s'.
Proof. exact (send_fin_ok U S L B qa qs s). Qed.
End fin.

(** ** Sending *)

(** What the link has accepted, in order: nothing but sending a segment changes it. *)
Class TcpLinkLaws (N : Type) `{!TcpNet N} `{!TcpBufs N} `{!TcpLink N} := {
  sent_log : N -> list (ctl_hdr * list Z);
  log_output n lip rip h opt text : sent_log (ip_output_if n lip rip h opt text).2 =
    sent_log n ++ (if decide ((ip_output_if n lip rip h opt text).1.1 = ERR_OK) then [(h, text)] else []);
  log_ram n len : sent_log (ram_alloc n len).2 = sent_log n;
  log_rom n : sent_log (rom_alloc n).2 = sent_log n;
  log_free n k : sent_log (bufs_free n k) = sent_log n;
  log_alloc n : sent_log (hdr_alloc n).2 = sent_log n;
  log_control n lip rip h : sent_log (output_control n lip rip h).2 = sent_log n }.

Section sending.
  Context (byte_at : Z -> Z).
  Context {N : Type} `{!TcpNet N} `{!TcpBufs N} `{!TcpLink N} `{!TcpLinkLaws N}.
  Implicit Type s : input N.

(** A segment apart from whether the driver holds it. *)
Definition unbusy (x : placed) : placed := (x.1, set_seg_busy false x.2).
(** The placed form of [put_unacked]. *)
Definition put_placed (x : placed) (q : list placed) : list placed :=
  match last q with
  | None => [x]
  | Some u => if x.1 <? u.1 then insert_placed x q else q ++ [x]
  end.

Lemma put_placed_perm x q : put_placed x q ≡ₚ x :: q.
Proof.
  unfold put_placed. destruct (last q) as [u|] eqn:E; [|by apply last_None in E as ->].
  destruct (_ <? _); [apply insert_placed_perm|]. by rewrite Permutation_app_comm.
Qed.

Lemma put_unacked_placed U L x q : placed_ok U L x -> Forall (placed_ok U L) q -> L <= U + 2 ^ 30 ->
  put_unacked x.2 q.*2 = (put_placed x q).*2.
Proof.
  intros Hx Hq HL. unfold put_unacked, put_placed. rewrite fmap_last. unfold placed in *.
  destruct (last q) as [u|] eqn:E; [|done]. cbn [fmap option_fmap option_map].
  assert (placed_ok U L u) as Hu.
  { apply last_snoc_inv in E as [q' ->]. by apply Forall_app in Hq as [_ [Hu _]%Forall_cons]. }
  rewrite (pl_seq _ _ _ Hx), (pl_seq _ _ _ Hu). destruct Hx, Hu. unfold ends_at in *.
  rewrite seq_lt by (unfold near; lia). destruct (_ <? _); [by apply (insert_unsent_placed U L)|].
  by rewrite fmap_app.
Qed.

Lemma put_placed_sorted x q : StronglySorted before q -> 0 < TCP_TCPLEN x.2 ->
  Forall (fun y => 0 < TCP_TCPLEN y.2) q -> (forall y, y ∈ q -> before x y \/ before y x) ->
  StronglySorted before (put_placed x q).
Proof.
  intros Hs Hx Hpos Hap. unfold put_placed. destruct (last q) as [u|] eqn:E; [|by repeat constructor].
  destruct (Z.ltb_spec x.1 u.1); [by apply insert_placed_sorted|].
  apply last_snoc_inv in E as [q' ->].
  assert (before u x) as Hu.
  { destruct (Hap u) as [Hb|Hb]; [apply elem_of_app; right; left| |done].
    apply Forall_app in Hpos as [_ [Hp _]%Forall_cons]. unfold before, ends_at in *. lia. }
  apply sorted_app; [done|repeat constructor|]. intros y z [Hy|Hy]%elem_of_app ->%list_elem_of_singleton;
    [|by apply list_elem_of_singleton in Hy as ->].
  assert (before y u) as Hyu.
  { clear - Hs Hy. induction q' as [|z q' IH]; [by apply not_elem_of_nil in Hy|].
    apply StronglySorted_inv in Hs as [Hs Hz]. apply elem_of_cons in Hy as [->|Hy]; [|by apply IH].
    rewrite Forall_forall in Hz. apply Hz, elem_of_app. right; left. }
  apply Forall_app in Hpos as [_ [Hp _]%Forall_cons]. unfold before, ends_at in *. lia.
Qed.

(** The head of the unsent queue joins the others. *)
Lemma send_ok_sent U S L B qa qs x x' p p' : send_ok U S L B qa (x :: qs) p -> unbusy x' = unbusy x ->
  lastack (snd p') = lastack (snd p) -> snd_nxt (snd p') = u32 (Z.max S (ends_at x)) ->
  unacked (snd p') = (put_placed x' qa).*2 -> unsent (snd p') = qs.*2 ->
  snd_buf (snd p') = snd_buf (snd p) -> snd_queuelen (snd p') = snd_queuelen (snd p) ->
  send_ok U (Z.max S (ends_at x)) L B (put_placed x' qa) qs p'.
Proof.
  intros [O_una O_nxt O_order O_range O_unacked O_unsent O_sorted_a O_sorted_s O_apart O_placed O_new O_cover
    O_buf O_buf_range O_qlen O_qlen_range] Hx E1 E2 E3 E4 E5 E6.
  assert (x'.1 = x.1 /\ seg_seqno x'.2 = seg_seqno x.2 /\ seg_len x'.2 = seg_len x.2 /\ TCP_TCPLEN x'.2 = TCP_TCPLEN x.2 /\
    seg_p x'.2 = seg_p x.2) as (X1 & X2 & X3 & X4 & X5).
  { destruct x as [a []], x' as [a' []]. unfold unbusy in Hx. simpl in *. injection Hx. intros. subst. done. }
  assert (put_placed x' qa ++ qs ≡ₚ x' :: qa ++ qs) as Hperm by (by rewrite put_placed_perm).
  assert (qa ++ x :: qs ≡ₚ x :: qa ++ qs) as Hold by (by rewrite Permutation_middle).
  assert (forall q q', q ≡ₚ q' -> lens q = lens q' /\ clens q = clens q') as Hsum.
  { intros q q' Hq. induction Hq; simpl in *; lia. }
  destruct (Hsum _ _ Hperm) as [L1 C1]. destruct (Hsum _ _ Hold) as [L2 C2]. simpl in L1, C1, L2, C2.
  rewrite X3 in L1. rewrite X5 in C1. rewrite Hold in O_placed, O_new.
  apply Forall_cons in O_placed as [Hpx Hpl], O_new as [Hkx Hkl]. destruct Hpx as [P1 P2 P3 P4 P5].
  assert (placed_ok U L x') as Hpx'. { split; rewrite ?X1, ?X2, ?X3, ?X4; try done. unfold ends_at in *. lia. }
  apply StronglySorted_inv in O_sorted_s as [Hss Hsx]. rewrite Forall_forall in Hsx.
  assert (forall y, y ∈ qa -> before x' y \/ before y x') as Hap.
  { intros y Hy. destruct (O_apart y x Hy ltac:(left)); unfold before, ends_at in *; [right|left]; lia. }
  split; rewrite ?E1, ?E2, ?E3, ?E4; try done; try lia.
  - apply put_placed_sorted; try done; [lia|]. apply Forall_app in Hpl as [Hpl _].
    eapply Forall_impl; [exact Hpl|]. by intros y [_ _ [? _] _ _].
  - intros y z. rewrite put_placed_perm, elem_of_cons. intros [->|Hy] Hz.
    + left. specialize (Hsx z Hz). unfold before, ends_at in *. lia.
    + apply O_apart; [done|by right].
  - rewrite Hperm. by constructor.
  - rewrite Hperm. constructor; [|done]. unfold keeps, ends_at in *. lia.
  - intros i Hi. destruct (O_cover i Hi) as (y & Hy & Hi'). setoid_rewrite Hperm. rewrite Hold, elem_of_cons in Hy.
    destruct Hy as [->|Hy]; [exists x'; split; [left|unfold ends_at in *; lia]|exists y; split; [by right|done]].
Qed.

(** The header and the text of a segment on the wire. *)
Definition on_wire (p : tcp_pcb) (x : placed) (m : ctl_hdr * list Z) : Prop :=
  h_src m.1 = local_port p /\ h_dest m.1 = remote_port p /\ h_seqno m.1 = u32 x.1 /\ h_flags m.1 = seg_flags x.2 /\
  h_ackno m.1 = rcv_nxt (rcv p) /\ h_wnd m.1 = rcv_ann_wnd (rcv p) /\ m.2 = stream byte_at x.1 (seg_len x.2).

(** The right edge that the peer knows: as before, or as the segment announces it. *)
Definition edge_sent (p p' : tcp_pcb) : Prop :=
  rcv_ann_right_edge (rcv p') = rcv_ann_right_edge (rcv p) \/
  rcv_ann_right_edge (rcv p') = u32 (rcv_nxt (rcv p) + rcv_ann_wnd (rcv p)).
#[local] Hint Extern 0 (edge_sent _ _) => left; reflexivity : core.
#[local] Hint Extern 0 (edge_sent _ _) => right; reflexivity : core.
(** What sending leaves alone. *)
Definition send_frame (p p' : tcp_pcb) : Prop :=
  (rcv_nxt (rcv p'), rcv_wnd (rcv p'), rcv_ann_wnd (rcv p'), ooseq (rcv p')) =
    (rcv_nxt (rcv p), rcv_wnd (rcv p), rcv_ann_wnd (rcv p), ooseq (rcv p)) /\
  (state p', mss p', local_port p', remote_port p', snd_lbb (snd p'), snd_wnd (snd p'), snd_wnd_max (snd p'), cng p')
    = (state p, mss p, local_port p, remote_port p, snd_lbb (snd p), snd_wnd (snd p), snd_wnd_max (snd p), cng p) /\
  edge_sent p p'.

Lemma frame_refl p : send_frame p p.
Proof. done. Qed.
Lemma frame_trans p1 p2 p3 : send_frame p1 p2 -> send_frame p2 p3 -> send_frame p1 p3.
Proof.
  intros (H1 & H2 & H3) (H4 & H5 & H6). split; [congruence|]. split; [congruence|]. revert H3 H6. unfold edge_sent. injection H1 as -> _ -> _.
  intros [-> | ->] [-> | ->]; auto.
Qed.

(** One segment is given to the link. *)
Lemma output_segment_ok U S L B qa qs x mtu s : send_ok U S L B qa qs (pcb s) -> placed_ok U L x -> carries byte_at x ->
  exists err x' s' out, tcp_output_segment x.2 mtu s = (err, x'.2, s') /\ unbusy x' = unbusy x /\
    send_ok U S L B qa qs (pcb s') /\ send_frame (pcb s) (pcb s') /\
    flags (pcb s') = flags (pcb s) /\ snd (pcb s') = snd (pcb s) /\
    segs_avail s' = segs_avail s /\ sent_log (net s') = sent_log (net s) ++ out /\ Forall (on_wire (pcb s) x) out /\
    (seg_busy x.2 = false -> err = ERR_OK -> length out = 1%nat).
Proof.
  intros Hs Hp [Ht _]. unfold tcp_output_segment. destruct (seg_busy x.2) eqn:Hb.
  { exists ERR_OK, x, s, []. rewrite app_nil_r. split_and!; try done. }
  set (s0 := if rttest _ =? 0 then _ else _). set (h := CtlHdr _ _ _ _ _ _ _). set (o := if seg_mss _ then _ else _).
  assert (net s0 = net s /\ segs_avail s0 = segs_avail s /\ snd (pcb s0) = snd (pcb s) /\ flags (pcb s0) = flags (pcb s) /\
    send_frame (pcb s) (pcb s0)) as (F1 & F2 & F3 & F4 & F5).
  { subst s0. destruct (rtime _ <? 0); (match goal with |- context [if ?b then _ else _] => destruct b end); done. }
  clearbody s0. pose proof (log_output (net s0) (local_ip (pcb s)) (remote_ip (pcb s)) h o (seg_text x.2)) as Hlog.
  destruct (ip_output_if _ _ _ _ _ _) as [[err busy] n]. simpl in Hlog.
  exists err, (x.1, set_seg_busy busy x.2), (set_net n s0). eexists. split; [reflexivity|]. split; [done|].
  split; [by apply (send_ok_snd U S L B qa qs (pcb s))|]. rewrite F1 in Hlog. split_and!; try done.
  - destruct (decide _); [|done]. constructor; [|done]. unfold on_wire. simpl. split_and!; try done. apply Hp.
  - intros _ ->. rewrite decide_True by done. done.
Qed.

Lemma on_wire_frame p p' x m : send_frame p p' -> on_wire p' x m -> on_wire p x m.
Proof. intros ([= F1 F2 F3 F4] & [= G1 G2 G3 G4 G5 G6 G7 G8] & _). unfold on_wire. by rewrite F1, F3, G3, G4. Qed.

Lemma unbusy_eq x x' : unbusy x' = unbusy x -> x'.1 = x.1 /\ seg_seqno x'.2 = seg_seqno x.2 /\ TCP_TCPLEN x'.2 = TCP_TCPLEN x.2 /\
  (carries byte_at x -> carries byte_at x') /\ seg_len x'.2 = seg_len x.2 /\ seg_flags x'.2 = seg_flags x.2.
Proof.
  destruct x as [a []], x' as [a' []]. unfold unbusy. simpl. intros [= -> -> -> -> -> ->]. split_and!; try done. intros []. by split.
Qed.

(** The head was sent: it waits for its acknowledgement. *)
Lemma output_sent_ok U S L B qa qs x x' s : send_ok U S L B qa (x :: qs) (pcb s) -> unbusy x' = unbusy x ->
  let s' := output_sent x'.2 qs.*2 s in
  send_ok U (Z.max S (ends_at x)) L B (put_placed x' qa) qs (pcb s') /\ net s' = net s /\ segs_avail s' = segs_avail s /\
  send_frame (pcb s) (pcb s') /\ unsent (snd (pcb s')) = qs.*2.
Proof.
  intros Hs Hx s'. destruct (unbusy_eq _ _ Hx) as (X1 & X2 & X3 & _ & X5 & X6).
  pose proof (so_placed _ _ _ _ _ _ _ Hs) as Hp. rewrite Forall_forall in Hp.
  pose proof (Hp x ltac:(rewrite elem_of_app; right; left)) as Hpx. pose proof Hpx as [P1 P2 P3 P4 P5].
  assert (placed_ok U L x') as Hpx' by (split; unfold ends_at in *; rewrite ?X1, ?X2, ?X3, ?X5; done).
  assert (Forall (placed_ok U L) qa) as Hqa by (by pose proof (so_placed _ _ _ _ _ _ _ Hs) as [? _]%Forall_app).
  pose proof (so_range _ _ _ _ _ _ _ Hs) as HL. pose proof (so_order _ _ _ _ _ _ _ Hs) as HO.
  subst s'. unfold output_sent. set (s1 := if decide _ then _ else _).
  assert (net s1 = net s /\ segs_avail s1 = segs_avail s /\ send_frame (pcb s) (pcb s1) /\
    snd (pcb s1) = snd (set_unsent qs.*2 (pcb s))) as (F1 & F2 & F3 & F4).
  { subst s1. destruct (decide _); done. }
  clearbody s1. rewrite F4. cbn [snd_nxt snd set_unsent set_snd].
  rewrite (so_nxt _ _ _ _ _ _ _ Hs), X2, X3, P1, u32_add_l, seq_lt by (unfold near, ends_at in *; lia).
  rewrite (proj2 (Z.ltb_lt 0 _)) by lia.
  assert (forall n s2, s2 = upd (fun p => set_unacked (put_unacked x'.2 (unacked (snd p))) p) s1 \/
     s2 = upd (fun p => set_unacked (put_unacked x'.2 (unacked (snd p))) p) (upd (set_snd_nxt n) s1) ->
     snd_nxt (snd (pcb s2)) = u32 (Z.max S (ends_at x)) ->
     send_ok U (Z.max S (ends_at x)) L B (put_placed x' qa) qs (pcb s2) /\ net s2 = net s /\ segs_avail s2 = segs_avail s /\
     send_frame (pcb s) (pcb s2) /\ unsent (snd (pcb s2)) = qs.*2) as Hfin.
  { intros n s2 Hs2 Hn. split; [|destruct Hs2 as [-> | ->]; simpl; rewrite ?F4; by split_and!].
    apply (send_ok_sent U S L B qa qs x x' (pcb s)); try done;
      destruct Hs2 as [-> | ->]; simpl; rewrite ?F4; try done; simpl;
      rewrite (so_unacked _ _ _ _ _ _ _ Hs); by apply (put_unacked_placed U L). }
  destruct (Z.ltb_spec S (x.1 + TCP_TCPLEN x.2)).
  - apply (Hfin (u32 (x.1 + TCP_TCPLEN x.2))); [by right|]. simpl. f_equal. unfold ends_at. lia.
  - apply (Hfin 0); [by left|]. simpl. rewrite F4. simpl. rewrite (so_nxt _ _ _ _ _ _ _ Hs). f_equal. unfold ends_at. lia.
Qed.

(** What a run of [tcp_output] did: [S'] is the end of what was sent once, [qa'] and [qs'] are the
    queues, [out] is what the link accepted. *)
Record outputs (U L B : Z) (qa qs : list placed) s (S' : Z) (qa' qs' : list placed) (out : list (ctl_hdr * list Z)) s' : Prop := {
  ou_send : send_ok U S' L B qa' qs' (pcb s');
  ou_same : unbusy <$> qa' ++ qs' ≡ₚ unbusy <$> qa ++ qs;
  ou_order : exists q0, unbusy <$> qs = q0 ++ (unbusy <$> qs');
  ou_carries : Forall (carries byte_at) (qa' ++ qs');
  ou_log : sent_log (net s') = sent_log (net s) ++ out;
  ou_wire : Forall (fun m => exists x, x ∈ qs /\ on_wire (pcb s) x m) out;
  ou_frame : send_frame (pcb s) (pcb s');
  ou_segs : segs_avail s' = segs_avail s }.

(** Nothing was sent; the text of the connection is as before. *)
Lemma outputs_none U S L B qa qs s s' : send_ok U S L B qa qs (pcb s) -> Forall (carries byte_at) (qa ++ qs) ->
  snd (pcb s') = snd (pcb s) -> send_frame (pcb s) (pcb s') -> sent_log (net s') = sent_log (net s) ->
  segs_avail s' = segs_avail s -> outputs U L B qa qs s S qa qs [] s'.
Proof.
  intros. split; try done; [by eapply send_ok_snd|by exists []|by rewrite app_nil_r].
Qed.

(** Whether the driver holds the head does not matter. *)
Lemma send_ok_busy U S L B qa qs x x' p p' : send_ok U S L B qa (x :: qs) p -> unbusy x' = unbusy x ->
  lastack (snd p') = lastack (snd p) -> snd_nxt (snd p') = snd_nxt (snd p) -> unacked (snd p') = unacked (snd p) ->
  unsent (snd p') = (x' :: qs).*2 -> snd_buf (snd p') = snd_buf (snd p) -> snd_queuelen (snd p') = snd_queuelen (snd p) ->
  send_ok U S L B qa (x' :: qs) p'.
Proof.
  intros [O_una O_nxt O_order O_range O_unacked O_unsent O_sorted_a O_sorted_s O_apart O_placed O_new O_cover
    O_buf O_buf_range O_qlen O_qlen_range] Hx E1 E2 E3 E4 E5 E6.
  destruct (unbusy_eq _ _ Hx) as (X1 & X2 & X3 & _ & X5 & X6).
  assert (seg_p x'.2 = seg_p x.2) as X7. { destruct x as [? []], x' as [? []]. by injection Hx. }
  assert (forall y, before x y <-> before x' y) as B1 by (intros y; unfold before, ends_at; rewrite X1, X3; done).
  assert (forall y, before y x <-> before y x') as B2 by (intros y; unfold before, ends_at; rewrite X1; done).
  apply Forall_app in O_placed as [Pa [Px Ps]%Forall_cons], O_new as [Na [Nx Ns]%Forall_cons].
  apply StronglySorted_inv in O_sorted_s as [Ss Sx].
  split; rewrite ?E1, ?E2, ?E3, ?E4, ?E5, ?E6; try done.
  - constructor; [done|]. eapply Forall_impl; [exact Sx|]. intros y. apply B1.
  - intros y z Hy [->|Hz]%elem_of_cons; [rewrite <- B1, <- B2; apply O_apart; [done|left]|apply O_apart; [done|by right]].
  - apply Forall_app. split; [done|]. constructor; [|done]. destruct Px. split; unfold ends_at in *; rewrite ?X1, ?X2, ?X3, ?X5; done.
  - apply Forall_app. split; [done|]. constructor; [|done]. unfold keeps, ends_at in *. by rewrite X1, X3.
  - intros i Hi. destruct (O_cover i Hi) as (y & Hy & Hi'). rewrite elem_of_app, elem_of_cons in Hy.
    setoid_rewrite elem_of_app. setoid_rewrite elem_of_cons. destruct Hy as [Hy|[->|Hy]]; [exists y; auto| |exists y; auto].
    exists x'. split; [auto|]. unfold ends_at in *. by rewrite X1, X3.
  - rewrite <- O_buf, !lens_app. simpl. by rewrite X5.
  - rewrite O_qlen, !clens_app. simpl. by rewrite X7.
Qed.

Lemma fmap_unbusy_cons x x' q : unbusy x' = unbusy x -> unbusy <$> x' :: q = unbusy <$> x :: q.
Proof. intros E. rewrite !fmap_cons. by rewrite E. Qed.

(** A first segment, then the rest. *)
Lemma outputs_cons U S L B qa qs x x' out0 s s1 S' qa' qs' out s' : send_ok U S L B qa (x :: qs) (pcb s) ->
  unbusy x' = unbusy x -> sent_log (net s1) = sent_log (net s) ++ out0 -> Forall (on_wire (pcb s) x) out0 ->
  send_frame (pcb s) (pcb s1) -> segs_avail s1 = segs_avail s ->
  outputs U L B (put_placed x' qa) qs s1 S' qa' qs' out s' -> outputs U L B qa (x :: qs) s S' qa' qs' (out0 ++ out) s'.
Proof.
  intros Hs Hx Hlog Hw Hf Hseg [O1 O2 [q0 O3] O4 O5 O6 O7 O8]. split; try done.
  - rewrite O2, put_placed_perm, <- Permutation_middle. change (unbusy x' :: (unbusy <$> qa ++ qs) ≡ₚ unbusy x :: (unbusy <$> qa ++ qs)).
    by rewrite Hx.
  - exists (unbusy x :: q0). rewrite fmap_cons, O3. done.
  - by rewrite O5, Hlog, app_assoc.
  - apply Forall_app. split.
    + eapply Forall_impl; [exact Hw|]. intros m Hm. exists x. split; [left|done].
    + eapply Forall_impl; [exact O6|]. intros m (y & Hy & Hm). exists y. split; [by right|]. by eapply on_wire_frame.
  - by eapply frame_trans.
  - congruence.
Qed.

Lemma output_loop_ok U L B mtu fuel : forall S qa qs s, (length qs < fuel)%nat -> send_ok U S L B qa qs (pcb s) ->
  Forall (carries byte_at) (qa ++ qs) -> Forall (fun x => has (seg_flags x.2) TCP_RST = false) qs ->
  exists err s' S' qa' qs' out, output_loop fuel mtu s = Ret (err, s') /\ S <= S' <= L /\
    outputs U L B qa qs s S' qa' qs' out s'.
Proof.
  induction fuel as [|fuel IH]; intros S qa qs s Hfuel Hs Hc Hr; [lia|]. cbn [output_loop].
  pose proof (so_order _ _ _ _ _ _ _ Hs) as HO. rewrite (so_unsent _ _ _ _ _ _ _ Hs).
  destruct qs as [|x qs]; cbn [fmap list_fmap].
  { eexists _, _, S, qa, [], []. split; [reflexivity|]. split; [lia|]. by apply (outputs_none U S L B). }
  apply Forall_cons in Hr as [Hrx Hr]. rewrite Hrx. cbn [negb lwip_assert mbind outcome_bind].
  destruct (_ && _).
  { eexists _, _, S, qa, (x :: qs), []. split; [reflexivity|]. split; [lia|]. by apply (outputs_none U S L B). }
  pose proof (so_placed _ _ _ _ _ _ _ Hs) as Hp. rewrite Forall_forall in Hp.
  pose proof (Hp x ltac:(rewrite elem_of_app; right; left)) as Hpx.
  assert (carries byte_at x) as Hcx by (by apply Forall_app in Hc as [_ [? _]%Forall_cons]).
  destruct (output_segment_ok U S L B qa (x :: qs) x mtu s Hs Hpx Hcx)
    as (err & x' & s1 & out0 & -> & Hx & Hs1 & Hf1 & Hfl1 & Hsnd1 & Hseg1 & Hlog1 & Hw1 & _).
  destruct (unbusy_eq _ _ Hx) as (X1 & X2 & X3 & X4 & X5 & X6).
  assert (Forall (carries byte_at) (qa ++ qs)) as Hcq.
  { apply Forall_app in Hc as [? [_ ?]%Forall_cons]. by apply Forall_app. }
  destruct (decide (err <> ERR_OK)) as [He|He].
  - eexists err, _, S, qa, (x' :: qs), out0. split; [reflexivity|]. split; [lia|]. split; try done.
    + by eapply (send_ok_busy U S L B qa qs x x' (pcb s1)).
    + rewrite !fmap_app. by rewrite (fmap_unbusy_cons _ _ _ Hx).
    + exists []. by rewrite (fmap_unbusy_cons _ _ _ Hx).
    + apply Forall_app in Hc as [? [_ ?]%Forall_cons]. apply Forall_app. split; [done|]. constructor; auto.
    + eapply Forall_impl; [exact Hw1|]. intros m Hm. exists x. split; [left|done].
  - destruct (output_sent_ok U S L B qa qs x x' s1 Hs1 Hx) as (Hs2 & Hn2 & Hg2 & Hf2 & Hu2).
    set (s2 := output_sent _ _ s1) in *. clearbody s2.
    destruct (IH (Z.max S (ends_at x)) (put_placed x' qa) qs s2) as (err' & s3 & S' & qa' & qs' & out & Hrun & HS & Hout);
      try done; [simpl in Hfuel; lia|rewrite put_placed_perm; simpl; constructor; auto|].
    exists err', s3, S', qa', qs', (out0 ++ out). split; [done|]. split; [lia|].
    apply (outputs_cons U S L B qa qs x x' out0 s s2); try done; [by rewrite Hn2|by eapply frame_trans|congruence].
Qed.

Lemma empty_ack_frame s : let s' := (tcp_send_empty_ack s).2 in
  snd (pcb s') = snd (pcb s) /\ send_frame (pcb s) (pcb s') /\ sent_log (net s') = sent_log (net s) /\
  segs_avail s' = segs_avail s.
Proof.
  unfold tcp_send_empty_ack, tcp_output_alloc_header. pose proof (log_alloc (net s)) as Ha.
  destruct (hdr_alloc (net s)) as [[] n]; simpl in *; [|by rewrite Ha].
  match goal with |- context [output_control ?a ?b ?c ?d] => pose proof (log_control a b c d) as Hc; destruct (output_control a b c d) as [err m] end.
  simpl in *. destruct (decide _); simpl; by rewrite Hc, Ha.
Qed.

Lemma tcp_output_ok U S L B qa qs s : send_ok U S L B qa qs (pcb s) -> Forall (carries byte_at) (qa ++ qs) ->
  Forall (fun x => has (seg_flags x.2) TCP_RST = false) qs -> state (pcb s) <> LISTEN ->
  exists err s' S' qa' qs' out, tcp_output false s = Ret (err, s') /\ S <= S' <= L /\
    outputs U L B qa qs s S' qa' qs' out s'.
Proof.
  intros Hs Hc Hr Hst. unfold tcp_output. rewrite (bool_decide_false _ Hst). cbn [negb lwip_assert mbind outcome_bind].
  pose proof (so_order _ _ _ _ _ _ _ Hs) as HO.
  assert (forall s', snd (pcb s') = snd (pcb s) -> send_frame (pcb s) (pcb s') -> sent_log (net s') = sent_log (net s) ->
    segs_avail s' = segs_avail s -> exists S' qa' qs' out, S <= S' <= L /\ outputs U L B qa qs s S' qa' qs' out s') as Hnone.
  { intros s' ????. exists S, qa, qs, []. split; [lia|]. by apply (outputs_none U S L B). }
  assert (forall s1, snd (pcb s1) = snd (pcb s) -> send_frame (pcb s) (pcb s1) -> sent_log (net s1) = sent_log (net s) ->
    segs_avail s1 = segs_avail s -> exists S' qa' qs' out, S <= S' <= L /\ outputs U L B qa qs s S' qa' qs' out (tcp_send_empty_ack s1).2) as Hack.
  { intros s1 E1 E2 E3 E4. destruct (empty_ack_frame s1) as (F1 & F2 & F3 & F4).
    apply Hnone; [congruence|by eapply frame_trans|congruence|congruence]. }
  rewrite (so_unsent _ _ _ _ _ _ _ Hs). destruct qs as [|x qs]; cbn [fmap list_fmap].
  { destruct (_ && _).
    - destruct (Hack s) as (S' & qa' & qs' & out & H1 & H2); try done.
      destruct (tcp_send_empty_ack s) as [e s']. by exists e, s', S', qa', qs', out.
    - destruct (Hnone (upd (tcp_clear_flags TF_NAGLEMEMERR) s)) as (S' & qa' & qs' & out & H1 & H2); try done.
      eexists _, _, S', qa', qs', out. split; [reflexivity|by split]. }
  destruct (tcp_route _ _ _) as [mtu|]; cycle 1.
  { destruct (Hnone s) as (S' & qa' & qs' & out & H1 & H2); try done. eexists _, _, S', qa', qs', out. split; [reflexivity|by split]. }
  set (s1 := if local_ip (pcb s) =? 0 then _ else s).
  assert (snd (pcb s1) = snd (pcb s) /\ send_frame (pcb s) (pcb s1) /\ net s1 = net s /\ segs_avail s1 = segs_avail s) as (E1 & E2 & E3 & E4).
  { subst s1. by destruct (_ =? 0). }
  clearbody s1. destruct (is_bypass _ && _).
  - set (s2 := if _ && _ && _ then _ else s1).
    assert (snd (pcb s2) = snd (pcb s) /\ send_frame (pcb s) (pcb s2) /\ net s2 = net s /\ segs_avail s2 = segs_avail s) as (G1 & G2 & G3 & G4).
    { subst s2. by destruct (_ && _ && _). }
    clearbody s2. destruct (has _ _).
    + destruct (Hack s2) as (S' & qa' & qs' & out & H1 & H2); try done; [by rewrite G3|].
      destruct (tcp_send_empty_ack s2) as [e s']. by exists e, s', S', qa', qs', out.
    + destruct (Hnone (upd (tcp_clear_flags TF_NAGLEMEMERR) s2)) as (S' & qa' & qs' & out & H1 & H2); try done; [simpl; by rewrite G3|].
      eexists _, _, S', qa', qs', out. split; [reflexivity|by split].
  - destruct (output_loop_ok U L B mtu (Datatypes.S (length (x.2 :: qs.*2))) S qa (x :: qs) (upd (set_persist_backoff 0) s1))
      as (err & s' & S' & qa' & qs' & out & H1 & H2 & [O1 O2 O3 O4 O5 O6 O7 O8]); try done.
    { simpl. rewrite length_fmap. unfold placed in *; lia. }
    { apply (send_ok_snd _ _ _ _ _ _ (pcb s)); [done|]. simpl. exact E1. }
    exists err, s', S', qa', qs', out. split; [done|]. split; [done|]. split; try done.
    + rewrite O5. simpl. by rewrite E3.
    + eapply Forall_impl; [exact O6|]. intros m (y & Hy & Hm). exists y. split; [done|]. by eapply on_wire_frame.
    + by eapply frame_trans.
    + etransitivity; [exact O8|exact E4].
Qed.

(** C5: (tcp_output) whatever windows, Nagle's algorithm, routes and the link say, [tcp_output] returns;
    no segment is lost: those that were sent join the others that wait for their acknowledgement, in
    order, the rest stays in order; what the link accepted are segments of the unsent queue,
    each with the text of the stream at its sequence number, the acknowledgement and the
    window of the connection. *)
Theorem output_in_stream U S L B qa qs s : send_ok U S L B qa qs (pcb s) -> Forall (carries byte_at) (qa ++ qs) ->
  Forall (fun x => has (seg_flags x.2) TCP_RST = false) qs -> state (pcb s) <> LISTEN ->
  exists err s' S' qa' qs' out, tcp_output false s = Ret (err, s') /\ S <= S' <= L /\
    outputs U L B qa qs s S' qa' qs' out s'.
Proof. exact (tcp_output_ok U S L B qa qs s). Qed.
End sending.
