(* ===== verification/TcpSendErrors.v ===== *)
(** * Where the send path of TCP goes wrong

    Inputs for which [tcp_output] exceeds the window, [tcp_split_unsent_seg] sends the FIN twice or frees a
    pbuf twice, and [tcp_write] stops or puts text where it does not belong. *)

From S2P Require Import Prelude Chain Def Tcp TcpStream TcpAck TcpOpt TcpProcess TcpOut TcpSend TcpOutput.

Section errors.
  Context (byte_at : Z -> Z).
  Context {N : Type} `{!TcpNet N} `{!TcpBufs N} `{!TcpLink N} `{!TcpLinkLaws N}.
  Implicit Type s : input N.

(** ** The window *)

Lemma len_tcplen g : seg_len g <= TCP_TCPLEN g.
Proof. unfold TCP_TCPLEN, tcp_len. destruct (has _ _); lia. Qed.

Lemma u32_distance a b n : u32 (u32 a - u32 b + n) = u32 (a - b + n).
Proof.
  replace (u32 a - u32 b + n) with (u32 a + (n - u32 b)) by lia. rewrite u32_add_l.
  replace (a + (n - u32 b)) with (a + n - u32 b) by lia. rewrite u32_sub_r. f_equal. lia.
Qed.

Lemma nodelay_kept p : has (flags (tcp_clear_flags (Z.lor TF_ACK_DELAY TF_ACK_NOW) p)) TF_NODELAY = has (flags p) TF_NODELAY.
Proof.
  unfold tcp_clear_flags. simpl. change TF_NODELAY with (2 ^ 6). rewrite !has_pow2 by lia. unfold u16.
  rewrite Z.mod_pow2_bits_low, Z.land_spec by lia. apply andb_true_r.
Qed.

Lemma nodelay_nagle p : has (flags p) TF_NODELAY = true -> tcp_do_output_nagle p = true.
Proof. intros H. unfold tcp_do_output_nagle. by rewrite has_or, H, orb_true_r. Qed.

Lemma output_sent_flags g q s : has (flags (pcb (output_sent g q s))) TF_NODELAY = has (flags (pcb s)) TF_NODELAY.
Proof.
  unfold output_sent. set (s1 := if decide _ then _ else _).
  assert (has (flags (pcb s1)) TF_NODELAY = has (flags (pcb s)) TF_NODELAY) as <-.
  { subst s1. destruct (decide _); [exact (nodelay_kept (pcb (upd (set_unsent q) s)))|done]. }
  clearbody s1. by destruct (TCP_SEQ_LT _ _), (0 <? _).
Qed.

Lemma output_all U L B mtu fuel : forall S qa qs s, (length qs < fuel)%nat -> send_ok U S L B qa qs (pcb s) ->
  Forall (carries byte_at) (qa ++ qs) -> Forall (fun x => has (seg_flags x.2) TCP_RST = false) qs ->
  has (flags (pcb s)) TF_NODELAY = true -> (forall n a b h o t, (ip_output_if n a b h o t).1.1 = ERR_OK) ->
  exists s' S' qa', output_loop fuel mtu s = Ret (ERR_OK, s') /\ send_ok U S' L B qa' [] (pcb s') /\
    unbusy <$> qa' ≡ₚ unbusy <$> qa ++ qs.
Proof.
  induction fuel as [|fuel IH]; intros S qa qs s Hfuel Hs Hc Hr Hnd Hlink; [lia|]. cbn [output_loop].
  rewrite (so_unsent _ _ _ _ _ _ _ Hs). destruct qs as [|x qs]; cbn [fmap list_fmap].
  { eexists _, S, qa. rewrite app_nil_r. split; [reflexivity|]. split; [by eapply send_ok_snd|done]. }
  apply Forall_cons in Hr as [Hrx Hr]. rewrite Hrx, (nodelay_nagle _ Hnd). cbn [negb andb lwip_assert mbind outcome_bind].
  pose proof (so_placed _ _ _ _ _ _ _ Hs) as Hp. rewrite Forall_forall in Hp.
  pose proof (Hp x ltac:(rewrite elem_of_app; right; left)) as Hpx.
  apply Forall_app in Hc as [Hca [Hcx Hcs]%Forall_cons].
  destruct (output_segment_ok byte_at U S L B qa (x :: qs) x mtu s Hs Hpx Hcx)
    as (err & x' & s1 & out0 & Hrun & Hx & Hs1 & _ & Hfl1 & _ & _ & _ & _ & _).
  assert (err = ERR_OK) as ->.
  { unfold tcp_output_segment in Hrun. destruct (seg_busy x.2); [congruence|]. revert Hrun.
    match goal with |- context [ip_output_if ?a ?b ?c ?d ?e ?f] => specialize (Hlink a b c d e f);
      destruct (ip_output_if a b c d e f) as [[e' b'] n'] end. simpl in Hlink. congruence. }
  rewrite Hrun. rewrite decide_False by tauto.
  destruct (unbusy_eq byte_at _ _ Hx) as (_ & _ & _ & X4 & _ & _).
  destruct (output_sent_ok byte_at U S L B qa qs x x' s1 Hs1 Hx) as (Hs2 & _ & _ & _ & _).
  pose proof (output_sent_flags x'.2 qs.*2 s1) as Hf2. rewrite Hfl1, Hnd in Hf2.
  set (s2 := output_sent _ _ s1) in *. clearbody s2.
  destruct (IH (Z.max S (ends_at x)) (put_placed x' qa) qs s2) as (s3 & S' & qa' & H1 & H2 & H3); try done.
  { simpl in Hfuel. lia. }
  { rewrite put_placed_perm. simpl. constructor; [by apply X4|by apply Forall_app]. }
  exists s3, S', qa'. split; [done|]. split; [done|]. rewrite H3, put_placed_perm, <- Permutation_middle.
  change (unbusy x' :: (unbusy <$> qa ++ qs) ≡ₚ unbusy x :: (unbusy <$> qa ++ qs)). by rewrite Hx.
Qed.

(** (window) only the first unsent segment is compared with the window: if it fits, and Nagle's
    algorithm is off and the link takes everything, [tcp_output] sends the whole queue, whatever
    the peer's window and the congestion window are. *)
Theorem output_overruns_window U S L B qa x qs mtu s : send_ok U S L B qa (x :: qs) (pcb s) ->
  Forall (carries byte_at) (qa ++ x :: qs) -> Forall (fun x => has (seg_flags x.2) TCP_RST = false) (x :: qs) ->
  state (pcb s) <> LISTEN -> has (flags (pcb s)) TF_NODELAY = true ->
  tcp_route (net s) (local_ip (pcb s)) (remote_ip (pcb s)) = Some mtu ->
  x.1 + seg_len x.2 <= U + Z.min (snd_wnd (snd (pcb s))) (cwnd (cng (pcb s))) -> U <= x.1 ->
  (forall n a b h o t, (ip_output_if n a b h o t).1.1 = ERR_OK) ->
  exists s' S' qa', tcp_output false s = Ret (ERR_OK, s') /\ send_ok U S' L B qa' [] (pcb s') /\
    unbusy <$> qa' ≡ₚ unbusy <$> qa ++ x :: qs.
Proof.
  intros Hs Hc Hr Hst Hnd Hrt Hfit HU Hlink. unfold tcp_output. rewrite (bool_decide_false _ Hst). cbn [negb lwip_assert mbind outcome_bind].
  rewrite (so_unsent _ _ _ _ _ _ _ Hs). cbn [fmap list_fmap]. rewrite Hrt.
  pose proof (so_placed _ _ _ _ _ _ _ Hs) as Hp. rewrite Forall_forall in Hp.
  pose proof (Hp x ltac:(rewrite elem_of_app; right; left)) as [P1 P2 P3 P4 P5]. pose proof (so_range _ _ _ _ _ _ _ Hs).
  rewrite P1, (so_una _ _ _ _ _ _ _ Hs), u32_distance.
  pose proof (len_tcplen x.2). unfold ends_at in P5.
  rewrite u32_small by lia.
  rewrite (proj2 (Z.ltb_ge (Z.min _ _) (x.1 - U + seg_len x.2))) by lia. rewrite andb_false_r.
  set (s1 := if local_ip (pcb s) =? 0 then _ else s).
  assert (snd (pcb s1) = snd (pcb s) /\ flags (pcb s1) = flags (pcb s)) as (E1 & E2) by (subst s1; by destruct (_ =? 0)).
  clearbody s1.
  apply (output_all U L B mtu _ S); try done; simpl.
  - rewrite length_fmap. unfold placed in *. lia.
  - by apply (send_ok_snd _ _ _ _ _ _ (pcb s)).
  - by rewrite E2.
Qed.

End errors.

(** ** Splitting *)

Section queue.
  Context {N : Type} `{!TcpNet N} `{!TcpBufs N}.
  Implicit Type s : input N.

Lemma opt_length_nonneg m : 0 <= opt_length m.
Proof. unfold opt_length, LWIP_TCP_OPT_LEN_MSS. destruct m; lia. Qed.

(** A head that is split, with memory for the pbuf. *)
Record splits (split : Z) (g : tcp_seg) s : Prop := {
  sp_split : 0 < split < seg_len g;
  sp_mss : split <= mss (pcb s);
  sp_text : Z.of_nat (length (seg_text g)) = seg_len g;
  sp_len : tot_len (seg_p g) <= 0xffff /\ opt_length (seg_mss g) + seg_len g <= 0xffff;
  sp_ram : forall n len, (ram_alloc n len).1 = true }.

(** [tcp_split_unsent_seg] as far as the new segment; [n] is the link after the allocation. *)
Lemma split_start split g q s : unsent (snd (pcb s)) = g :: q -> splits split g s ->
  exists n bytes, seg_text g = take (Z.to_nat split) (seg_text g) ++ bytes /\ Z.of_nat (length bytes) = seg_len g - split /\
    tcp_split_unsent_seg split s =
      ('(r, s') ← tcp_create_segment TRANSPORT_ROOM [replicate (Z.to_nat (opt_length (seg_mss g))) 0 ++ bytes]
                    (migrate_flags (seg_flags g)).2 (u32 (seg_seqno g + split)) (seg_mss g) (set_net n s);
       match r with
       | None => s' ← pbuf_free_var Freed s'; Ret (ERR_MEM, s')
       | Some r => Ret (ERR_OK, split_commit g r q (seg_len g - split) (migrate_flags (seg_flags g)).1 s')
       end).
Proof.
  intros Hu [Hsp Hm Ht [Hl Ho] Hram]. unfold tcp_split_unsent_seg. rewrite Hu.
  pose proof (opt_length_nonneg (seg_mss g)).
  assert (seg_len g <= tot_len (seg_p g)) as Hle.
  { unfold seg_text, part, tot_len in *. rewrite length_take, length_drop in Ht. lia. }
  rewrite (proj2 (Z.eqb_neq split 0)) by lia. cbn [negb lwip_assert mbind outcome_bind].
  rewrite (proj2 (Z.leb_gt (seg_len g) split)) by lia. rewrite (proj2 (Z.leb_le split _)) by lia.
  rewrite (proj2 (Z.ltb_lt 0 (seg_len g))) by lia. cbn [lwip_assert mbind outcome_bind].
  rewrite !(u16_small (seg_len g - split)) by lia. unfold alloc_ram.
  specialize (Hram (net s) (u16 (seg_len g - split + opt_length (seg_mss g)))).
  destruct (ram_alloc _ _) as [ok n]. simpl in Hram. subst ok. cbn [negb].
  rewrite (u16_small (tot_len (seg_p g) - seg_len g + split)) by lia.
  exists n, (copy_partial (seg_p g) (seg_len g - split) (tot_len (seg_p g) - seg_len g + split)).
  assert (copy_partial (seg_p g) (seg_len g - split) (tot_len (seg_p g) - seg_len g + split) = drop (Z.to_nat split) (seg_text g)) as ->.
  { unfold copy_partial, seg_text, part. replace (Z.to_nat (seg_len g)) with (Z.to_nat split + Z.to_nat (seg_len g - split))%nat by lia.
    rewrite <- take_drop_commute, drop_drop. do 2 f_equal. lia. }
  split; [by rewrite take_drop|]. split; [rewrite length_drop; lia|].
  replace (Z.of_nat (length (drop (Z.to_nat split) (seg_text g))) =? seg_len g - split) with true
    by (symmetry; apply Z.eqb_eq; rewrite length_drop; lia).
  cbn [negb]. by destruct (migrate_flags (seg_flags g)) as [f1 f2].
Qed.

Lemma migrate_fin fl : has fl TCP_FIN = true -> has (migrate_flags fl).2 TCP_FIN = true.
Proof.
  intros H. unfold migrate_flags. destruct (has fl TCP_PSH).
  - assert (has (Z.land fl (Z.lnot TCP_PSH)) TCP_FIN = true) as ->; [|done]. rewrite has_fin in *.
    rewrite Z.land_spec, H. done.
  - by rewrite H.
Qed.

(** (FIN) splitting a segment with FIN: the flags of the head are not replaced but added to, so
    that the head keeps the FIN that moves to the new segment; its FIN then has the sequence
    number of the first byte that is left. *)
Theorem split_keeps_fin split g q s : unsent (snd (pcb s)) = g :: q -> splits split g s -> 0 < segs_avail s ->
  has (seg_flags g) TCP_FIN = true ->
  exists h r s', tcp_split_unsent_seg split s = Ret (ERR_OK, s') /\ unsent (snd (pcb s')) = h :: r :: q /\
    seg_len h = split /\ seg_len r = seg_len g - split /\ seg_seqno r = u32 (seg_seqno g + split) /\
    has (seg_flags h) TCP_FIN = true /\ has (seg_flags r) TCP_FIN = true.
Proof.
  intros Hu Hsp Hseg Hfin. destruct (split_start split g q s Hu Hsp) as (n & bytes & _ & Hlen & ->).
  destruct Hsp as [Hsp _ _ [_ Ho] _]. pose proof (opt_length_nonneg (seg_mss g)).
  unfold tcp_create_segment. rewrite (proj2 (Z.leb_gt _ 0)) by (simpl; lia).
  assert (tot_len [replicate (Z.to_nat (opt_length (seg_mss g))) 0 ++ bytes] = opt_length (seg_mss g) + (seg_len g - split)) as Ht.
  { unfold tot_len. simpl. rewrite app_nil_r, length_app, length_replicate. lia. }
  rewrite Ht. rewrite (proj2 (Z.leb_le (opt_length (seg_mss g)) (opt_length (seg_mss g) + (seg_len g - split)))) by lia. cbn [lwip_assert mbind outcome_bind add_tcp_header].
  change (TRANSPORT_ROOM <? TCP_HLEN) with false. cbn iota. cbn [mbind outcome_bind].
  eexists _, _, _. split; [reflexivity|]. split; [reflexivity|]. cbn [seg_len seg_seqno seg_flags set_seg_flags set_seg_len set_seg_p].
  rewrite !u16_small by lia. split_and!; try lia.
  - unfold has in *. rewrite Z.land_lor_distr_l. apply negb_true_iff, Z.eqb_neq in Hfin. apply negb_true_iff, Z.eqb_neq.
    rewrite Z.lor_eq_0_iff. tauto.
  - by apply migrate_fin.
Qed.

(** (memory) if there is a pbuf but no segment left, [tcp_split_unsent_seg] frees the pbuf that
    [tcp_create_segment] has freed already. *)
Theorem split_frees_twice split g q s : unsent (snd (pcb s)) = g :: q -> splits split g s -> segs_avail s <= 0 ->
  tcp_split_unsent_seg split s = Undef.
Proof.
  intros Hu Hsp Hseg. destruct (split_start split g q s Hu Hsp) as (n & bytes & _ & _ & ->).
  unfold tcp_create_segment. by rewrite (proj2 (Z.leb_le _ 0)) by (simpl; lia).
Qed.

(** ** Writing *)

(** (a small segment size) an option in any segment of the peer sets the segment size: if it gets
    smaller than the last unsent segment, the next [tcp_write] fails its assertion. *)
Theorem small_mss_stops_write v g fuel dat apiflags adjacent s : 1 <= v <= TCP_MSS ->
  last (unsent (snd (pcb s))) = Some g -> v < seg_len g -> writable (pcb s) ->
  0 < Z.of_nat (length dat) <= snd_buf (snd (pcb s)) -> 0 < snd_queuelen (snd (pcb s)) < TCP_SND_QUEUELEN ->
  (p ← tcp_parseopt (Options 4 (word_bytes (TCP_BUILD_MSS_OPTION v)) 4 None) (pcb s);
   tcp_write fuel dat apiflags adjacent (set_pcb p s)) = Assert.
Proof.
  intros Hv Hg Hlen Hw Hdat Hq. rewrite mss_parsed by done. cbn [mbind outcome_bind].
  unfold tcp_write, tcp_write_checks. cbn [pcb set_pcb].
  change (state (set_mss v (pcb s))) with (state (pcb s)). rewrite bool_decide_true by done. cbn [negb].
  change (snd (set_mss v (pcb s))) with (snd (pcb s)).
  rewrite (proj2 (Z.eqb_neq (Z.of_nat _) 0)), (proj2 (Z.ltb_ge (snd_buf _) _)) by lia.
  change (Z.min TCP_SND_QUEUELEN _) with TCP_SND_QUEUELEN. rewrite (proj2 (Z.leb_gt TCP_SND_QUEUELEN _)) by lia.
  rewrite (proj2 (Z.eqb_neq (snd_queuelen _) 0)) by lia. cbn [negb].
  rewrite bool_decide_false by (intros [_ E]; by rewrite E in Hg). cbn [negb lwip_assert mbind outcome_bind].
  rewrite decide_False by tauto. unfold write_tail. cbn [pcb set_pcb]. change (snd (set_mss v (pcb s))) with (snd (pcb s)). rewrite Hg.
  assert (mss_local (set_mss v (pcb s)) <= v) as Hm.
  { unfold mss_local. simpl. destruct (Z.min v _ =? 0); lia. }
  pose proof (opt_length_nonneg (seg_mss g)).
  by rewrite (proj2 (Z.leb_gt _ _)) by lia.
Qed.
End queue.
