(* ===== verification/TcpSession.v ===== *)
(** * A session of TCP, from end to end

    What one side writes, queues and sends, the other side reads: sender ([tcp_write],
    [tcp_send_fin], [tcp_output], acknowledgements) and receiver ([receive_text]) together, over a link that
    loses, repeats and reorders segments. *)

From stdpp Require Import sorting.
From S2P Require Import Prelude Chain Tcp TcpRecv TcpStream TcpProps TcpAck TcpReceive TcpOpt TcpProcess TcpOut TcpSend TcpOutput.

Section frames.
  Context {N : Type} `{!TcpNet N} `{!TcpBufs N} `{!TcpBufsLaws N} `{!TcpLink N} `{!TcpLinkLaws N}.
  Implicit Type s : input N.

(** ** What queueing leaves alone *)

(** Nothing was sent, and the receiving half is the same. *)
Definition quiet s s' : Prop :=
  sent_log (net s') = sent_log (net s) /\
  (rcv (pcb s'), state (pcb s'), mss (pcb s')) = (rcv (pcb s), state (pcb s), mss (pcb s)).
(** A segment without SYN, FIN, RST. *)
Definition plain (g : tcp_seg) : Prop := has (seg_flags g) (Z.lor TCP_SYN (Z.lor TCP_FIN TCP_RST)) = false.

Lemma quiet_refl s : quiet s s.
Proof. done. Qed.
Lemma quiet_trans s1 s2 s3 : quiet s1 s2 -> quiet s2 s3 -> quiet s1 s3.
Proof. unfold quiet. by intros [-> ->] [-> ->]. Qed.
Lemma quiet_free k s : quiet s (free_bufs k s).
Proof. split; [apply log_free|done]. Qed.
Lemma quiet_ram len s : quiet s (alloc_ram len s).2 /\ pcb (alloc_ram len s).2 = pcb s.
Proof. unfold alloc_ram. pose proof (log_ram (net s) len) as H. destruct (ram_alloc _ _) as [ok n]. by split. Qed.
Lemma quiet_rom s : quiet s (alloc_rom s).2 /\ pcb (alloc_rom s).2 = pcb s.
Proof. unfold alloc_rom. pose proof (log_rom (net s)) as H. destruct (rom_alloc _) as [ok n]. by split. Qed.

Lemma quiet_create room p fl seq o s r s' : tcp_create_segment room p fl seq o s = Ret (r, s') ->
  quiet s s' /\ pcb s' = pcb s /\ (forall g, r = Some g -> seg_flags g = fl).
Proof.
  unfold tcp_create_segment. destruct (_ <=? 0); [intros [= <- <-]; split_and!; [apply quiet_free|done|done]|].
  destruct (_ <=? _); [|done]. cbn [lwip_assert mbind outcome_bind].
  destruct (add_tcp_header room p); intros [= <- <-]; split_and!; try done.
  - by intros g [= <-].
  - split; [exact (log_free _ (chain_clen p))|done].
Qed.

Lemma quiet_pbuf copy b s : quiet s (write_pbuf copy b s).2 /\ pcb (write_pbuf copy b s).2 = pcb s.
Proof.
  unfold write_pbuf. destruct copy.
  - pose proof (quiet_ram (Z.of_nat (length b)) s). by destruct (alloc_ram _ _).
  - pose proof (quiet_rom s) as [H1 H2]. destruct (alloc_rom s) as [[] s1]; [|done]. simpl in *.
    pose proof (quiet_ram 0 s1) as [H3 H4]. destruct (alloc_ram 0 s1) as [[] s2]; simpl in *; rewrite <- H2, <- H4.
    + split; [by eapply quiet_trans|done].
    + split; [|done]. eapply quiet_trans; [exact H1|]. eapply quiet_trans; [exact H3|]. apply quiet_free.
Qed.

Lemma quiet_segs copy m dat fuel : forall pos ql q s r ql' q' s', Forall plain q ->
  write_segs fuel copy m dat pos ql q s = Ret (r, ql', q', s') -> quiet s s' /\ pcb s' = pcb s /\ Forall plain q'.
Proof.
  induction fuel as [|fuel IH]; intros pos ql q s r ql' q' s' Hq; [done|]. cbn [write_segs].
  destruct (pos <? _); [|by intros [= <- <- <- <-]].
  pose proof (quiet_pbuf copy (part dat pos (Z.min (u16 (Z.of_nat (length dat) - pos)) m)) s) as [H1 H2].
  destruct (write_pbuf _ _ s) as [[p|] s1]; simpl in H1, H2; [|by intros [= <- <- <- <-]].
  destruct (_ <? u16 _).
  { intros [= <- <- <- <-]. split_and!; [|done|done]. eapply quiet_trans; [exact H1|apply quiet_free]. }
  destruct (tcp_create_segment _ _ _ _ _ s1) as [[g s2]| | |] eqn:E; try done. cbn [mbind outcome_bind].
  apply quiet_create in E as (E1 & E2 & E3). destruct g as [g|].
  - intros H. apply IH in H as (H3 & H4 & H5).
    + split_and!; [|congruence|done]. eapply quiet_trans; [exact H1|]. by eapply quiet_trans.
    + apply Forall_app. split; [done|]. constructor; [|done]. unfold plain. by rewrite (E3 g eq_refl).
  - intros [= <- <- <- <-]. split_and!; [|congruence|done]. by eapply quiet_trans.
Qed.

Lemma quiet_tail copy adj m dat s r s' : write_tail copy adj m dat s = Ret (r, s') -> quiet s s' /\ pcb s' = pcb s.
Proof.
  unfold write_tail. destruct (last _) as [g|]; [|by intros [= _ <-]]. destruct (_ <=? _); [|done].
  cbn [lwip_assert mbind outcome_bind]. destruct (_ && _ && _); [|by intros [= _ <-]].
  destruct copy; [|destruct adj; [by intros [= _ <-]|]].
  - match goal with |- context [alloc_ram ?l ?t] => pose proof (quiet_ram l t); destruct (alloc_ram l t) as [ok s1] end.
    by intros [= _ <-].
  - pose proof (quiet_rom s). destruct (alloc_rom s) as [ok s1]. by intros [= _ <-].
Qed.

Lemma on_last_plain f q : (forall g, plain g -> plain (f g)) -> Forall plain q -> Forall plain (on_last f q).
Proof.
  intros Hf Hq. induction Hq as [|g q Hg Hq IH]; [done|]. simpl. destruct q; [by repeat constructor; auto|]. by constructor.
Qed.
Lemma extend_plain t g : plain g -> plain (extend_tail t g).
Proof. by destruct t. Qed.
Lemma psh_plain g : plain g -> plain (set_psh g).
Proof. unfold plain, has, set_psh. simpl. rewrite Z.land_lor_distr_l. change (Z.land TCP_PSH _) with 0. by rewrite Z.lor_0_r. Qed.

Lemma quiet_commit more dat t q ql s s' : Forall plain (unsent (snd (pcb s))) -> Forall plain q ->
  write_commit more dat t q ql s = Ret s' -> quiet s s' /\ Forall plain (unsent (snd (pcb s'))).
Proof.
  intros Hu Hq. unfold write_commit. destruct (queues_valid _); [|done]. cbn [lwip_assert mbind outcome_bind].
  assert (Forall plain (on_last (extend_tail t) (unsent (snd (pcb s))) ++ q)) as Hall.
  { apply Forall_app. split; [|done]. apply on_last_plain; [apply extend_plain|done]. }
  destruct (_ && negb more); intros [= <-]; (split; [done|]); simpl; [|done]. apply on_last_plain; [apply psh_plain|done].
Qed.
Lemma quiet_memerr t q s e s' : write_memerr t q s = Ret (e, s') -> quiet s s' /\ unsent (snd (pcb s')) = unsent (snd (pcb s)).
Proof.
  unfold write_memerr. destruct (queues_valid _); [|done]. cbn [lwip_assert mbind outcome_bind]. intros [= _ <-].
  split; [|by destruct t]. unfold quiet, discard. destruct t; simpl; by rewrite ?log_free.
Qed.

Lemma quiet_write fuel dat fl adj s e s' : Forall plain (unsent (snd (pcb s))) ->
  tcp_write fuel dat fl adj s = Ret (e, s') -> quiet s s' /\ Forall plain (unsent (snd (pcb s'))).
Proof.
  intros Hu. unfold tcp_write. destruct (tcp_write_checks _ _) as [[e0 p]| | |] eqn:Hc; try done. cbn [mbind outcome_bind].
  assert (quiet s (set_pcb p s) /\ unsent (snd p) = unsent (snd (pcb s))) as [Hq Hp].
  { revert Hc. unfold tcp_write_checks. do 4 (case_match; [by intros [= _ <-]|]). destruct (if negb _ then _ else _); [|done]. by intros [= _ <-]. }
  set (s1 := set_pcb p s) in *. assert (Forall plain (unsent (snd (pcb s1)))) as Hu1 by (subst s1; simpl; by rewrite Hp).
  clearbody s1. destruct (decide _); [by intros [= _ <-]|].
  destruct (write_tail _ _ _ _ s1) as [[t s2]| | |] eqn:Ht; try done. cbn [mbind outcome_bind].
  apply quiet_tail in Ht as [H2 P2]. pose proof (quiet_trans _ _ _ Hq H2) as Hq2. rewrite <- P2 in Hu1. destruct t as [[t ql]|].
  2:{ intros [H3 P3]%quiet_memerr. rewrite P3. split; [by eapply quiet_trans|done]. }
  destruct (write_segs _ _ _ _ _ _ _ s2) as [[[[ok ql'] q] s3]| | |] eqn:Hs; try done. cbn [mbind outcome_bind].
  apply quiet_segs in Hs as (H3 & P3 & Hqs); [|done]. pose proof (quiet_trans _ _ _ Hq2 H3) as Hq3. rewrite <- P3 in Hu1. destruct ok.
  - destruct (write_commit _ _ _ _ _ s3) as [s4| | |] eqn:Hw; try done. cbn [mbind outcome_bind]. intros [= _ <-].
    apply quiet_commit in Hw as [H4 P4]; try done. split; [by eapply quiet_trans|done].
  - intros [H4 P4]%quiet_memerr. rewrite P4. split; [by eapply quiet_trans|done].
Qed.

(** The FIN goes to the last segment. *)
Lemma quiet_fin s e s' : Forall plain (unsent (snd (pcb s))) -> tcp_send_fin s = Ret (e, s') ->
  quiet s s' /\ (unsent (snd (pcb s')) = unsent (snd (pcb s)) \/ exists q g, unsent (snd (pcb s')) = q ++ [g] /\ Forall plain q /\
    has (seg_flags g) (Z.lor TCP_SYN TCP_RST) = false).
Proof.
  intros Hu. assert (tcp_enqueue_flags TCP_FIN s = Ret (e, s') ->
    quiet s s' /\ (unsent (snd (pcb s')) = unsent (snd (pcb s)) \/ exists q g, unsent (snd (pcb s')) = q ++ [g] /\ Forall plain q /\
    has (seg_flags g) (Z.lor TCP_SYN TCP_RST) = false)) as Hown.
  { unfold tcp_enqueue_flags. cbn [lwip_assert mbind outcome_bind]. change (has TCP_FIN TCP_SYN) with false. cbn [opt_length].
    pose proof (quiet_ram 0 s) as [H1 P1]. destruct (alloc_ram 0 s) as [[] s1]; cbn [negb]; simpl in H1, P1.
    2:{ intros [= _ <-]. split; [done|]. left. simpl. by rewrite P1. }
    destruct (tcp_create_segment _ _ _ _ _ s1) as [[g s2]| | |] eqn:E; try done. cbn [mbind outcome_bind].
    apply quiet_create in E as (H2 & P2 & Hfl). pose proof (quiet_trans _ _ _ H1 H2) as Hq. destruct g as [g|].
    2:{ intros [= _ <-]. split; [done|]. left. simpl. by rewrite P2, P1. }
    destruct (_ =? 0); [|done]. cbn [lwip_assert mbind outcome_bind]. destruct (queues_valid _); [|done]. cbn [lwip_assert mbind outcome_bind].
    intros [= _ <-]. split; [done|]. right. exists (unsent (snd (pcb s))), g. simpl. rewrite P2, P1. split_and!; [done|done|].
    by rewrite (Hfl g eq_refl). }
  unfold tcp_send_fin. destruct (last _) as [g|] eqn:Hl; [|exact Hown]. destruct (has (seg_flags g) _) eqn:Hf; [exact Hown|].
  cbn [negb]. intros [= _ <-]. split; [done|]. right. apply last_snoc_inv in Hl as [q Hq].
  exists q, (set_seg_flags (Z.lor (seg_flags g) TCP_FIN) g). simpl. rewrite Hq, on_last_snoc in *. apply Forall_app in Hu as [Hu _].
  split_and!; [done|done|]. revert Hf. unfold has. simpl. rewrite Z.land_lor_distr_l. change (Z.land TCP_FIN _) with 0. rewrite Z.lor_0_r.
  rewrite !negb_false_iff, !Z.eqb_eq. intros Hf. apply Z.bits_inj_0. intros i.
  apply (f_equal (fun z => Z.testbit z i)) in Hf. revert Hf. rewrite !Z.land_spec, !Z.lor_spec, Z.bits_0.
  destruct (Z.testbit (seg_flags g) i), (Z.testbit TCP_SYN i), (Z.testbit TCP_RST i), (Z.testbit TCP_FIN i); done.
Qed.

(** ** What an acknowledgement leaves alone *)

(** No text was sent and none was queued. *)
Definition unsending s s' : Prop := sent_log (net s') = sent_log (net s) /\ snd_lbb (snd (pcb s')) = snd_lbb (snd (pcb s)).

Lemma unsending_trans s1 s2 s3 : unsending s1 s2 -> unsending s2 s3 -> unsending s1 s3.
Proof. unfold unsending. by intros [-> ->] [-> ->]. Qed.
Lemma free_acked_unsending q o : forall s r s', tcp_free_acked_segments q o s = Ret (r, s') -> unsending s s'.
Proof.
  induction q as [|g q IH]; intros s r s'; [by intros [= _ <-]|]. cbn [tcp_free_acked_segments].
  destruct (TCP_SEQ_LEQ _ _); [|by intros [= _ <-]].
  destruct (_ <=? _); [|done]. cbn [lwip_assert mbind outcome_bind].
  match goal with |- context [lwip_assert ?b] => destruct b end; [|done]. cbn [lwip_assert mbind outcome_bind].
  intros H%IH. exact H.
Qed.
Lemma rexmit_lbb p : snd_lbb (snd (tcp_rexmit_fast p)) = snd_lbb (snd p).
Proof.
  unfold tcp_rexmit_fast, tcp_rexmit. destruct (negb _ && _); [|done]. destruct (unacked (snd p)); [done|].
  destruct (seg_busy _); [done|]. by destruct (_ <? 255).
Qed.
Lemma ack_new_unsending s s' : ack_new s = Ret s' -> unsending s s'.
Proof.
  unfold ack_new, ack_release. intros H.
  assert (unsending s (ack_advance s)) as H0.
  { unfold ack_advance. destruct (has (flags (pcb s)) TF_INFR); simpl; (destruct (_ <=? _); [|done]); unfold upd, ack_congestion;
      (destruct (_ <? _); [done|]); simpl; by destruct (_ <=? _). }
  revert H. destruct (tcp_free_acked_segments _ _ (ack_advance s)) as [[q s1]| | |] eqn:E1; try done. cbn [mbind outcome_bind].
  destruct (tcp_free_acked_segments _ _ (upd (set_unacked q) s1)) as [[q2 s2]| | |] eqn:E2; try done. cbn [mbind outcome_bind].
  apply free_acked_unsending in E1, E2. intros [= <-]. eapply unsending_trans; [exact H0|]. eapply unsending_trans; [exact E1|].
  eapply unsending_trans; [exact E2|]. unfold ack_finish, ack_rto_done, upd. simpl.
  destruct (has _ TF_RTO); [|done]. destruct (unacked _); [destruct q2; [done|]|]; by destruct (TCP_SEQ_LEQ _ _).
Qed.
Lemma receive_ack_unsending s s' : receive_ack s = Ret s' -> unsending s s'.
Proof.
  unfold receive_ack. destruct (has _ TCP_ACK); [|by intros [= <-]]. set (e := u32 _).
  assert (unsending s (ack_window s)) as H0.
  { unfold ack_window. destruct (window_news s); [|done]. simpl. by destruct (_ <? _). }
  generalize dependent (ack_window s). intros s1 H0.
  assert (forall s2, unsending s1 s2 -> unsending s (ack_rtt s2)) as Hrtt.
  { intros s2 H2. eapply unsending_trans; [exact H0|]. eapply unsending_trans; [exact H2|]. unfold ack_rtt. by destruct (_ && _). }
  destruct (TCP_SEQ_LEQ _ _); [|destruct (TCP_SEQ_BETWEEN _ _ _)].
  - intros [= <-]. apply Hrtt. unfold ack_duplicate. destruct (_ && _ && _ && _); [|done].
    destruct (dupacks _ <? _); destruct (3 <? _); (destruct (3 <=? _); [|done]); split; try done; simpl; by rewrite rexmit_lbb.
  - destruct (ack_new s1) as [s2| | |] eqn:E; try done. intros [= <-]. by apply Hrtt, ack_new_unsending.
  - intros [= <-]. apply Hrtt. destruct (empty_ack_frame s1) as (F1 & F2 & F3 & F4). unfold unsending. by rewrite F3, F1.
Qed.
End frames.

(** ** Sessions *)

(** A connection on which the application may write: the states of the checks, the ranges of the
    segment size and the window, and no retransmission at the end of the unsent queue. *)
Record write_ready (p : tcp_pcb) : Prop := {
  wr_state : writable p;
  wr_mss : 0 < mss p < 0xffff;
  wr_wnd : 0 <= snd_wnd_max (snd p);
  wr_tail : forall g, last (unsent (snd p)) = Some g ->
    u32 (seg_seqno g + TCP_TCPLEN g) = snd_lbb (snd p) /\ seg_len g + opt_length (seg_mss g) <= mss_local p }.

(** An acknowledgement without text, of something near. *)
Record pure_ack (g : segment) (p : tcp_pcb) : Prop := {
  pa_len : tcp_input_len g = Some 0;
  pa_ack : has (sg_flags g) TCP_ACK = true;
  pa_range : 0 <= sg_ackno g < 2 ^ 32;
  pa_near : - 2 ^ 29 <= s32 (sg_ackno g - lastack (snd p)) <= 2 ^ 30 }.

Section session.
  Context {N : Type} `{!TcpNet N} `{!TcpBufs N} `{!TcpBufsLaws N} `{!TcpLink N} `{!TcpLinkLaws N}.
  Implicit Type s : input N.

(** A session of the sending side that began in [s0]: whether a FIN was queued, what was written
    so far, and the state. Writes and FIN may fail; [tcp_output] is called at any time; acknowledgements
    come in any order, duplicates that lead to a fast retransmit included. *)
Inductive session s0 : bool -> list Z -> input N -> Prop :=
| session_start : session s0 false [] s0
| session_write w s fuel dat fl adj err s' : session s0 false w s -> write_ready (pcb s) ->
    Z.of_nat (length dat) <= 0xffff -> (length dat < fuel)%nat -> tcp_write fuel dat fl adj s = Ret (err, s') ->
    session s0 false (if decide (err = ERR_OK) then w ++ dat else w) s'
| session_fin w s err s' : session s0 false w s -> write_ready (pcb s) -> snd_queuelen (snd (pcb s)) < 0xffff ->
    tcp_send_fin s = Ret (err, s') -> session s0 (bool_decide (err = ERR_OK)) w s'
| session_output c w s err s' : session s0 c w s -> tcp_output false s = Ret (err, s') -> session s0 c w s'
| session_ack c w s g s' : session s0 c w s -> pure_ack g (pcb s) ->
    tcp_receive (tcp_input_setup g 0 s) = Ret s' -> session s0 c w s'.

(** An established connection that has not sent yet: its stream begins at [I]. *)
Record fresh (I : Z) s : Prop := {
  fs_send : exists B, send_ok I I I B [] [] (pcb s);
  fs_lbb : snd_lbb (snd (pcb s)) = u32 I;
  fs_log : sent_log (net s) = [];
  fs_recv : exists R E, window_ok R E (pcb s);
  fs_state : state_num ESTABLISHED <= state_num (state (pcb s)) }.

Section stream.
  Context (I : Z) (byte_at : Z -> Z) (fin : option Z).

(** [byte_at] and [fin] extend what was written. *)
Definition agrees (c : bool) (w : list Z) : Prop :=
  stream byte_at I (Z.of_nat (length w)) = w /\
  if c then fin = Some (I + Z.of_nat (length w)) else forall F, fin = Some F -> I + Z.of_nat (length w) <= F.

(** A queued segment is a piece of the stream. *)
Record in_stream (x : placed) : Prop := {
  is_carries : carries byte_at x;
  is_flags : has (seg_flags x.2) (Z.lor TCP_SYN TCP_RST) = false;
  is_fin : has (seg_flags x.2) TCP_FIN = true -> fin = Some (x.1 + seg_len x.2);
  is_end : forall F, fin = Some F -> x.1 + seg_len x.2 <= F }.

(** A segment on the wire is a piece of the stream that ends at or before [L]. *)
Definition sent_at (L a : Z) (m : ctl_hdr * list Z) : Prop :=
  h_seqno m.1 = u32 a /\ I - 0xffff <= a /\ piece byte_at fin a (Z.of_nat (length m.2)) (h_flags m.1) [m.2] /\
  tcp_len (Z.of_nat (length m.2)) (h_flags m.1) <= 0xffff /\ a + tcp_len (Z.of_nat (length m.2)) (h_flags m.1) <= L.

Record holds (c : bool) (w : list Z) s (U S L B : Z) (qa qs : list placed) : Prop := {
  hd_end : L = I + Z.of_nat (length w) + (if c then 1 else 0);
  hd_send : send_ok U S L B qa qs (pcb s);
  hd_una : I <= U;
  hd_stream : Forall in_stream (qa ++ qs);
  hd_open : c = false -> snd_lbb (snd (pcb s)) = u32 L /\ Forall plain (qa ++ qs).*2;
  hd_recv : exists R E, window_ok R E (pcb s);
  hd_state : state_num ESTABLISHED <= state_num (state (pcb s));
  hd_log : Forall (fun m => exists a, sent_at L a m) (sent_log (net s)) }.

Lemma start_holds s : fresh I s -> exists U S L B qa qs, holds false [] s U S L B qa qs.
Proof.
  intros [[B H1] H2 H3 H4 H5]. exists I, I, I, B, [], []. split; simpl; try done; try lia.
  - by rewrite H3.
Qed.
Lemma open_unsent w s U S L B qa qs : holds false w s U S L B qa qs -> Forall plain (unsent (snd (pcb s))).
Proof.
  intros H. destruct (hd_open _ _ _ _ _ _ _ _ _ H eq_refl) as [_ Hp]. rewrite fmap_app in Hp. apply Forall_app in Hp as [_ Hp].
  by rewrite (so_unsent _ _ _ _ _ _ _ (hd_send _ _ _ _ _ _ _ _ _ H)).
Qed.

Lemma sent_mono L L' a m : L <= L' -> sent_at L a m -> sent_at L' a m.
Proof. intros HL (H1 & H2 & H3 & H4 & H5). unfold sent_at. split_and!; try done. lia. Qed.
Lemma log_mono L L' l : L <= L' -> Forall (fun m => exists a, sent_at L a m) l -> Forall (fun m => exists a, sent_at L' a m) l.
Proof. intros HL H. eapply Forall_impl; [exact H|]. intros m [a Ha]. exists a. by eapply sent_mono. Qed.

(** A segment of the queues that was sent. *)
Lemma wire_sent U L x p m : I <= U -> placed_ok U L x -> in_stream x -> on_wire byte_at p x m -> sent_at L x.1 m.
Proof.
  intros HU [P1 P2 P3 P4 P5] [C1 C2 C3 C4] (_ & _ & W3 & W4 & _ & _ & W7). unfold sent_at, ends_at, TCP_TCPLEN in *.
  assert (Z.of_nat (length m.2) = seg_len x.2) as Hlen by (rewrite W7; by apply length_stream).
  rewrite Hlen, W4. rewrite has_or in C2. apply orb_false_iff in C2 as [C2 _]. split_and!; try done; [lia| |lia].
  split; try done; [by simpl; rewrite app_nil_r|lia].
Qed.

(** ** Every step keeps the invariant *)

(** Where two streams agree, a segment carries both. *)
Lemma stream_ext f g a n : (forall i, a <= i < a + n -> f i = g i) -> stream f a n = stream g a n.
Proof. intros H. unfold stream. apply list_fmap_ext. intros i x Hx%list_elem_of_lookup_2%elem_of_seqZ. apply H. lia. Qed.
Lemma carries_ext f g x : (forall i, x.1 <= i < x.1 + seg_len x.2 -> f i = g i) -> carries f x -> carries g x.
Proof. intros H [C1 C2]. split; [|done]. by rewrite C1, (stream_ext f g). Qed.

Lemma ready_tail w s U S L B qa qs : holds false w s U S L B qa qs -> write_ready (pcb s) ->
  open_tail L (mss_local (pcb s)) qs.
Proof.
  intros H [_ _ _ Hr]. destruct (hd_open _ _ _ _ _ _ _ _ _ H eq_refl) as [Hl _]. pose proof (open_unsent _ _ _ _ _ _ _ _ H) as Hp. pose proof (hd_send _ _ _ _ _ _ _ _ _ H) as Hs.
  rewrite (so_unsent _ _ _ _ _ _ _ Hs), ?fmap_last in *. unfold open_tail, placed in *. destruct (last qs) as [x|] eqn:E; [|done].
  specialize (Hr x.2 eq_refl) as [H1 H2]. apply last_snoc_inv in E as [q ->].
  pose proof (so_placed _ _ _ _ _ _ _ Hs) as Hpl. rewrite Forall_forall in Hpl.
  specialize (Hpl x ltac:(rewrite !elem_of_app; right; right; left)) as [P1 P2 P3 P4 P5].
  rewrite fmap_app in Hp. apply Forall_app in Hp as [_ [Hp _]%Forall_cons]. pose proof (so_range _ _ _ _ _ _ _ Hs).
  split_and!; [|done|].
  - rewrite P1, Hl, u32_add_l in H1. apply Z.eqb_eq. change (x.1 + TCP_TCPLEN x.2) with (ends_at x) in H1.
    apply Z.eqb_eq in H1. rewrite seq_eq in H1; [done|]. unfold near, ends_at in *. lia.
  - intros _. unfold plain in Hp. rewrite !has_or in *. by destruct (has _ TCP_SYN), (has _ TCP_FIN).
Qed.

Lemma ready_sender f w s U S L B qa qs : holds false w s U S L B qa qs -> write_ready (pcb s) ->
  (forall i, i < L -> f i = byte_at i) -> sender_ok f U S L B qa qs (pcb s).
Proof.
  intros H Hr Hf. pose proof (hd_send _ _ _ _ _ _ _ _ _ H) as Hs. split; [done| | |by eapply ready_tail].
  - pose proof (hd_stream _ _ _ _ _ _ _ _ _ H) as Hi. pose proof (so_placed _ _ _ _ _ _ _ Hs) as Hp.
    rewrite Forall_forall in *. intros x Hx. apply (carries_ext byte_at); [|by apply Hi].
    intros i Hxi. symmetry. apply Hf. destruct (Hp x Hx) as [P1 P2 P3 P4 P5]. unfold ends_at, TCP_TCPLEN, tcp_len in *.
    destruct (has _ _); lia.
  - by apply (hd_open _ _ _ _ _ _ _ _ _ H).
Qed.

(** No queue has changed. *)
Lemma same_holds c w s s' U S L B qa qs : holds c w s U S L B qa qs -> snd (pcb s') = snd (pcb s) -> quiet s s' ->
  holds c w s' U S L B qa qs.
Proof.
  intros [H1 H2 H3 H4 H5 (R & E & H6) H7 H8] Hsnd [Q1 [= Q2 Q3 Q4]]. split; rewrite ?Hsnd, ?Q1, ?Q3; try done.
  - by eapply send_ok_snd.
  - exists R, E. by eapply window_same.
Qed.

(** The stream [byte_at] up to [L], then [dat]. *)
Definition spliced (L : Z) (dat : list Z) (i : Z) : Z := if i <? L then byte_at i else nth (Z.to_nat (i - L)) dat 0.
Lemma spliced_dat L dat : stream (spliced L dat) L (Z.of_nat (length dat)) = dat.
Proof.
  apply (list_eq_same_length _ _ (length dat)); [done| |].
  { pose proof (length_stream (spliced L dat) L (Z.of_nat (length dat)) ltac:(lia)). lia. }
  intros i x y Hi. unfold stream. rewrite list_lookup_fmap, lookup_seqZ_lt by lia. simpl. intros [= <-] Hy. unfold spliced.
  rewrite (proj2 (Z.ltb_ge _ _)) by lia. replace (Z.to_nat (L + Z.of_nat i - L)) with i by lia. by apply nth_lookup_Some.
Qed.

Lemma spliced_eq L dat i : stream byte_at L (Z.of_nat (length dat)) = dat -> i < L + Z.of_nat (length dat) -> spliced L dat i = byte_at i.
Proof.
  intros Hd Hi. unfold spliced. destruct (Z.ltb_spec i L); [done|]. rewrite <- Hd. apply nth_lookup_Some.
  unfold stream. rewrite list_lookup_fmap, lookup_seqZ_lt by lia. simpl. do 2 f_equal. lia.
Qed.
(** What extends [w ++ dat] extends [w]. *)
Lemma agrees_app w dat : stream byte_at I (Z.of_nat (length (w ++ dat))) = w ++ dat ->
  stream byte_at I (Z.of_nat (length w)) = w /\ stream byte_at (I + Z.of_nat (length w)) (Z.of_nat (length dat)) = dat.
Proof.
  rewrite length_app, Nat2Z.inj_add, stream_app by lia. intros H. apply app_inj_1 in H; [done|].
  pose proof (length_stream byte_at I (Z.of_nat (length w))). lia.
Qed.

Lemma plain_flags g : plain g -> has (seg_flags g) TCP_FIN = false /\ has (seg_flags g) (Z.lor TCP_SYN TCP_RST) = false.
Proof. unfold plain. rewrite !has_or. by destruct (has _ TCP_SYN), (has _ TCP_FIN), (has _ TCP_RST). Qed.
Lemma len_ends x : x.1 + seg_len x.2 <= ends_at x.
Proof. unfold ends_at, TCP_TCPLEN, tcp_len. destruct (has _ _); lia. Qed.

(** Segments without FIN that end at or before what was written. *)
Lemma plain_in_stream U L q : Forall (carries byte_at) q -> Forall plain q.*2 -> Forall (placed_ok U L) q ->
  (forall F, fin = Some F -> L <= F) -> Forall in_stream q.
Proof.
  rewrite Forall_fmap, !Forall_forall. intros Hc Hp Hpl HF x Hx. destruct (plain_flags _ (Hp x Hx)) as [F1 F2].
  split; [by apply Hc|done|by rewrite F1|]. intros F E. specialize (HF F E). pose proof (len_ends x).
  pose proof (pl_hi _ _ _ (Hpl x Hx)). lia.
Qed.

Lemma write_holds w s U S L B qa qs fuel dat fl adj err s' : holds false w s U S L B qa qs -> write_ready (pcb s) ->
  Z.of_nat (length dat) <= 0xffff -> (length dat < fuel)%nat -> tcp_write fuel dat fl adj s = Ret (err, s') ->
  let w' := if decide (err = ERR_OK) then w ++ dat else w in
  agrees false w' -> Z.of_nat (length w) + Z.of_nat (length dat) <= 2 ^ 30 ->
  exists U S L B qa qs, holds false w' s' U S L B qa qs.
Proof.
  intros H Hr Hlen Hfuel Hrun w' [Ha HF] Hmax. pose proof (hd_end _ _ _ _ _ _ _ _ _ H) as HL. rewrite Z.add_0_r in HL.
  pose proof (hd_una _ _ _ _ _ _ _ _ _ H) as HU. pose proof Hr as [Hr1 Hr2 Hr3 Hr4].
  assert (sender_ok (spliced L dat) U S L B qa qs (pcb s)) as Hsn.
  { eapply ready_sender; try done. intros i Hi. unfold spliced. by rewrite (proj2 (Z.ltb_lt i L)) by lia. }
  destruct (write_ok (spliced L dat) U S L B qa qs fuel dat fl adj s) as (err1 & s1 & Hw & Happ); try done; try lia.
  { apply spliced_dat. }
  rewrite Hrun in Hw. injection Hw as <- <-. pose proof (open_unsent _ _ _ _ _ _ _ _ H) as Hp.
  destruct (quiet_write _ _ _ _ _ _ _ Hp Hrun) as [Hq Hp']. destruct err; try done; cbn [appended] in Happ; subst w'.
  2:{ destruct Happ as (Hpcb & _). exists U, S, L, B, qa, qs. apply (same_holds _ _ s); try done. by rewrite Hpcb. }
  destruct Happ as (qs' & [Hs' Hc' Hl' _] & _). rewrite decide_True in * by done. pose proof Hq as [Q1 [= Q2 Q3 Q4]].
  destruct H as [_ _ _ H4 H5 (R & E & H6) H7 H8]. apply agrees_app in Ha as [_ Ha]. rewrite <- HL in Ha.
  rewrite length_app, Nat2Z.inj_add in HF. exists U, S, (L + Z.of_nat (length dat)), B, qa, qs'. split; try done.
  - rewrite length_app, Nat2Z.inj_add. lia.
  - apply Forall_app in H4 as [H4 _]. apply Forall_app. split; [done|]. apply Forall_app in Hc' as [_ Hc'].
    pose proof (so_placed _ _ _ _ _ _ _ Hs') as [_ Hpl]%Forall_app.
    apply (plain_in_stream U (L + Z.of_nat (length dat))); try done.
    + rewrite Forall_forall in *. intros x Hx. apply (carries_ext (spliced L dat)); [|by apply Hc'].
      intros i Hi. pose proof (len_ends x). pose proof (pl_hi _ _ _ (Hpl x Hx)).
      apply spliced_eq; [done|lia].
    + by rewrite <- (so_unsent _ _ _ _ _ _ _ Hs').
    + intros F EF. specialize (HF F EF). lia.
  - intros _. destruct (H5 eq_refl) as [_ Hpq]. rewrite fmap_app in *. apply Forall_app in Hpq as [Hpq _]. split; [done|].
    apply Forall_app. split; [done|]. by rewrite <- (so_unsent _ _ _ _ _ _ _ Hs').
  - exists R, E. by eapply window_same.
  - by rewrite Q3.
  - rewrite Q1. eapply log_mono; [|done]. lia.
Qed.

Lemma fin_holds w s U S L B qa qs err s' : holds false w s U S L B qa qs -> write_ready (pcb s) ->
  snd_queuelen (snd (pcb s)) < 0xffff -> tcp_send_fin s = Ret (err, s') ->
  agrees (bool_decide (err = ERR_OK)) w -> Z.of_nat (length w) < 2 ^ 30 ->
  exists U S L B qa qs, holds (bool_decide (err = ERR_OK)) w s' U S L B qa qs.
Proof.
  intros H Hr Hq Hrun [Ha HF] Hmax. pose proof (hd_end _ _ _ _ _ _ _ _ _ H) as HL. rewrite Z.add_0_r in HL.
  pose proof (hd_una _ _ _ _ _ _ _ _ _ H) as HU. pose proof (open_unsent _ _ _ _ _ _ _ _ H) as Hp.
  assert (mss_local (pcb s) < 0xffff) as Hm.
  { destruct Hr as [_ Hm Hwm _]. unfold mss_local. destruct (_ =? 0); lia. }
  pose proof (ready_sender byte_at _ _ _ _ _ _ _ _ H Hr (fun _ _ => eq_refl)) as Hsn.
  destruct (send_fin_ok byte_at U S L B qa qs s) as (err1 & s1 & Hw & Hfin); try done; try lia.
  rewrite Hrun in Hw. injection Hw as <- <-. destruct (quiet_fin _ _ _ Hp Hrun) as [HQ Hu'].
  destruct err; try done; cbn [fin_queued] in Hfin; cycle 1.
  { destruct Hfin as (Hpcb & _). exists U, S, L, B, qa, qs. apply (same_holds _ _ s); try done. by rewrite Hpcb. }
  destruct Hfin as (q & x & Hs' & Hc' & He & Hfx & _). pose proof (so_unsent _ _ _ _ _ _ _ Hs') as Hus. rewrite fmap_app in Hus. simpl in Hus.
  assert (Forall plain q.*2 /\ has (seg_flags x.2) (Z.lor TCP_SYN TCP_RST) = false) as [Hpq Hfl].
  { destruct Hu' as [Hu'|(q' & g & Hu' & Hq' & Hg)].
    - rewrite Hu' in Hus. rewrite Hus in Hp. apply Forall_app in Hp as [_ [Hp _]%Forall_cons]. apply plain_flags in Hp as [Hp _]. congruence.
    - rewrite Hus in Hu'. apply app_inj_2 in Hu' as [<- [= <-]]; done. }
  rewrite bool_decide_true in * by done. pose proof HQ as [Q1 [= Q2 Q3 Q4]]. destruct H as [_ _ _ H4 _ (R & E & H6) H7 H8].
  assert (x.1 + seg_len x.2 = L) as Hx.
  { unfold ends_at, TCP_TCPLEN, tcp_len in He. rewrite has_or, Hfx in He. simpl in He. lia. }
  exists U, S, (L + 1), B, qa, (q ++ [x]). split; try done.
  - lia.
  - apply Forall_app in H4 as [H4 _]. rewrite !Forall_app in Hc'. destruct Hc' as (_ & Hcq & [Hcx _]%Forall_cons).
    apply Forall_app. split; [done|]. apply Forall_app. split; [|constructor; [|done]].
    + pose proof (so_placed _ _ _ _ _ _ _ Hs') as [_ [Hpl [Hplx _]%Forall_cons]%Forall_app]%Forall_app.
      pose proof (so_sorted_s _ _ _ _ _ _ _ Hs') as Hso. apply (plain_in_stream U L); try done; [|intros F; rewrite HF; intros [= <-]; lia].
      rewrite Forall_forall in *. intros y Hy. destruct (Hpl y Hy) as [P1 P2 P3 P4 P5]. split; try done.
      assert (before y x) as Hb by (eapply StronglySorted_app_1_elem_of; [exact Hso|done|left]).
      unfold before in Hb. pose proof (pl_len _ _ _ Hplx). lia.
    + split; try done; [intros _; rewrite HF; f_equal; lia|]. intros F. rewrite HF. intros [= <-]. lia.
  - exists R, E. by eapply window_same.
  - by rewrite Q3.
  - rewrite Q1. eapply log_mono; [|done]. lia.
Qed.

Lemma unbusy_in_stream x y : unbusy x = unbusy y -> in_stream y -> in_stream x.
Proof.
  intros Hxy [C1 C2 C3 C4]. destruct (unbusy_eq byte_at y x Hxy) as (E1 & E2 & E3 & E4 & E5 & E6).
  split; rewrite ?E1, ?E5, ?E6; auto.
Qed.

Lemma output_holds c w s U S L B qa qs err s' : holds c w s U S L B qa qs -> tcp_output false s = Ret (err, s') ->
  exists U S L B qa qs, holds c w s' U S L B qa qs.
Proof.
  intros H Hrun. pose proof H as [H1 H2 H3 H4 H5 (R & E & H6) H7 H8].
  destruct (tcp_output_ok byte_at U S L B qa qs s) as (err1 & s1 & S' & qa' & qs' & out & Hw & HS & Hout); try done.
  { eapply Forall_impl; [exact H4|]. by intros x []. }
  { apply Forall_app in H4 as [_ H4]. eapply Forall_impl; [exact H4|]. intros x [_ C2 _ _]. rewrite has_or in C2. by apply orb_false_iff in C2 as [_ ?]. }
  { intros Hst. rewrite Hst in H7. simpl in H7. lia. }
  rewrite Hrun in Hw. injection Hw as <- <-. destruct Hout as [O1 O2 (q0 & O3) O4 O5 O6 ([= F1 F2 F3 F4] & [= F5 F6 F7 F8 F9 F10 F11 F12] & Fe) O8].
  assert (forall x, x ∈ qs -> placed_ok U L x /\ in_stream x) as Hqs.
  { pose proof (so_placed _ _ _ _ _ _ _ H2) as Hp. rewrite Forall_forall in *. intros x Hx. split; [apply Hp|apply H4]; apply elem_of_app; by right. }
  exists U, S', L, B, qa', qs'. split; try done.
  - rewrite Forall_forall in *. intros x Hx. assert (unbusy x ∈ unbusy <$> qa ++ qs) as (y & Hy & Hyin)%list_elem_of_fmap.
    { rewrite <- O2. by apply list_elem_of_fmap_2. }
    by eapply unbusy_in_stream; [|apply H4].
  - intros Hc. destruct (H5 Hc) as [G1 G2]. split; [by rewrite F9|]. rewrite Forall_fmap, Forall_forall in *. intros x Hx.
    assert (unbusy x ∈ unbusy <$> qa ++ qs) as (y & Hy & Hyin)%list_elem_of_fmap.
    { rewrite <- O2. by apply list_elem_of_fmap_2. }
    destruct (unbusy_eq byte_at y x Hy) as (_ & _ & _ & _ & _ & E6). specialize (G2 y Hyin). unfold plain in *. simpl in *. by rewrite E6.
  - destruct H6 as [W1 W2 W3 W4 W5 W6]. destruct Fe as [Fe|Fe]; [exists R, E|exists R, (R + rcv_ann_wnd (rcv (pcb s)))];
      split; rewrite ?F1, ?F2, ?F3, ?F6, ?Fe; try done; try lia. by rewrite W1, u32_add_l.
  - by rewrite F5.
  - rewrite O5. apply Forall_app. split; [done|]. rewrite Forall_forall in O6 |- *. intros m Hm. destruct (O6 m Hm) as (x & Hx & Hwire).
    exists x.1. destruct (Hqs x Hx). by eapply wire_sent.
Qed.

Lemma u32_s32 a x : u32 (a + s32 x) = u32 (a + x).
Proof.
  unfold s32. destruct (_ <? _); [apply u32_add_r|]. unfold u32. rewrite Z.add_sub_assoc, Zminus_mod, Z_mod_same_full, Z.sub_0_r, Zmod_mod.
  apply Zplus_mod_idemp_r.
Qed.

Lemma ack_holds c w s U S L B qa qs g s' : holds c w s U S L B qa qs -> pure_ack g (pcb s) ->
  tcp_receive (tcp_input_setup g 0 s) = Ret s' -> exists U S L B qa qs, holds c w s' U S L B qa qs.
Proof.
  intros H [Hg1 Hg2 Hg3 Hg4]. pose proof H as [H1 H2 H3 H4 H5 (R & E & H6) H7 H8]. set (s1 := tcp_input_setup g 0 s).
  unfold tcp_receive. rewrite (proj2 (Z.leb_le _ _)) by done. cbn [lwip_assert mbind outcome_bind].
  set (A := U + s32 (sg_ackno g - lastack (snd (pcb s)))).
  assert (ackno s1 = u32 A) as HA.
  { unfold A. rewrite u32_s32, (so_una _ _ _ _ _ _ _ H2), Z.add_sub_assoc, u32_sub_r. simpl. rewrite Z.add_simpl_l. symmetry. by apply Z.mod_small. }
  destruct (receive_ack_ok U S L B R E qa qs s1 A) as (s2 & Hr & [(qa' & qs' & K1 & K2 & _) _ _ (E' & K3 & K4) _ K5]); try done; [lia|].
  rewrite Hr. cbn [mbind outcome_bind]. apply receive_ack_unsending in Hr as [V1 V2]. simpl in V1, V2.
  injection K5 as T1 T2 _ T3 _ _ _ _ _ _ _ _. simpl in T1, T2, T3.
  assert (forall x, x ∈ qa' ++ qs' -> x ∈ qa ++ qs) as Hsub.
  { intros x. rewrite K2. by intros [_ ?]%list_elem_of_filter. }
  assert (acked_to U S A >= U) as HU by (unfold acked_to; destruct (_ <=? _); lia).
  assert (holds c w s2 (acked_to U S A) S L B qa' qs') as H'.
  { split; rewrite ?V1, ?V2, ?T2; try done; try lia.
    - rewrite Forall_forall in *. auto.
    - intros Hc. destruct (H5 Hc) as [G1 G2]. split; [done|]. rewrite Forall_fmap, Forall_forall in *. auto.
    - by exists R, E'. }
  destruct (receive_text_none s2) as [-> | ->]; [by left|intros [= <-]; do 6 eexists; exact H'|].
  intros [= <-]. do 6 eexists. by apply (same_holds _ _ s2).
Qed.
End stream.

(** ** The properties *)

Lemma session_holds I s0 c w s : fresh I s0 -> session s0 c w s -> forall byte_at fin, agrees I byte_at fin c w ->
  Z.of_nat (length w) <= 2 ^ 30 - 2 ^ 16 -> exists U S L B qa qs, holds I byte_at fin c w s U S L B qa qs.
Proof.
  intros H0. induction 1 as [|w s fuel dat fl adj err s' Hse IH Hr Hlen Hfuel Hrun|w s err s' Hse IH Hr Hq Hrun|
    c w s err s' Hse IH Hrun|c w s g s' Hse IH Hg Hrun]; intros byte_at fin Ha Hmax.
  - by apply start_holds.
  - assert (agrees I byte_at fin false w /\ Z.of_nat (length w) <= 2 ^ 30 - 2 ^ 16) as [Ha0 Hw].
    { destruct (decide _); [|done]. destruct Ha as [Ha HF]. apply agrees_app in Ha as [Ha _]. rewrite length_app in *.
      split; [split; [done|]|lia]. intros F EF. specialize (HF F EF). lia. }
    destruct (IH byte_at fin Ha0 Hw) as (U & S & L & B & qa & qs & H). eapply write_holds; try done. lia.
  - assert (agrees I byte_at fin false w) as Ha0.
    { destruct Ha as [Ha HF]. split; [done|]. intros F EF. case_bool_decide; [|by apply HF]. rewrite HF in EF. injection EF as <-. lia. }
    destruct (IH byte_at fin Ha0 Hmax) as (U & S & L & B & qa & qs & H). eapply fin_holds; try done. lia.
  - destruct (IH byte_at fin Ha Hmax) as (U & S & L & B & qa & qs & H). by eapply output_holds.
  - destruct (IH byte_at fin Ha Hmax) as (U & S & L & B & qa & qs & H). by eapply ack_holds.
Qed.

(** A segment on the wire as the other side reads it. *)
Definition as_segment (m : ctl_hdr * list Z) : segment :=
  Segment (h_seqno m.1) (h_ackno m.1) (h_flags m.1) (h_wnd m.1) [m.2].
(** It stays within the window up to [E], counted from the beginning [I] of the stream. *)
Definition in_window (I E : Z) (m : ctl_hdr * list Z) : Prop :=
  I + s32 (h_seqno m.1 - I) + tcp_len (Z.of_nat (length m.2)) (h_flags m.1) <= E.

Lemma sent_from_peer I byte_at fin L a W E m : sent_at I byte_at fin L a m -> L <= I + 2 ^ 30 -> in_window I E m ->
  W <= I + 0xffff -> from_peer byte_at fin W E (as_segment m).
Proof.
  intros (H1 & H2 & H3 & H4 & H5) HL Hw HW. pose proof (pc_pos _ _ _ _ _ _ H3).
  assert (tot_len (sg_p (as_segment m)) = Z.of_nat (length m.2)) as Ht by (unfold tot_len; simpl; by rewrite app_nil_r).
  unfold in_window in Hw. rewrite H1 in Hw. unfold s32 in Hw. rewrite u32_sub_l in Hw. fold (s32 (a - I)) in Hw.
  rewrite s32_small in Hw by lia. exists a. rewrite Ht. change (sg_flags (as_segment m)) with (h_flags m.1). split_and!; try done; lia.
Qed.

(** The bytes of a list as a stream from [I] on. *)
Definition written (I : Z) (w : list Z) : Z -> Z := spliced (fun _ => 0) I w.

Lemma session_read I s0 c w s fin r E ms : fresh I s0 -> session s0 c w s -> Z.of_nat (length w) <= 2 ^ 30 - 2 ^ 16 ->
  agrees I (written I w) fin c w -> window_ok I E (pcb r) -> ooseq (rcv (pcb r)) = [] -> recv_flags r = 0 ->
  state_num (state (pcb r)) < state_num CLOSE_WAIT ->
  Forall (fun m => m ∈ sent_log (net s) /\ in_window I E m) ms ->
  exists R' r', run (as_segment <$> ms) r = Ret (stream (written I w) I (upto fin R' - I), r') /\ I <= R' /\
    in_order_end I (as_segment <$> ms) <= R' /\ (has (recv_flags r') TF_GOT_FIN = true -> fin = Some (R' - 1)) /\
    (forall F, fin = Some F -> in_order_end I (as_segment <$> ms) <= F + 1).
Proof.
  intros H0 Hse Hmax Ha Hw Hq Hf Hst Hms. destruct (session_holds I s0 c w s H0 Hse _ fin Ha Hmax) as (U & S & L & B & qa & qs & H).
  pose proof (hd_end _ _ _ _ _ _ _ _ _ _ _ _ H) as HL. pose proof (wo_wnd _ _ _ Hw) as Hwnd. pose proof (wo_ann _ _ _ Hw).
  assert (Forall (from_peer (written I w) fin (I + rcv_wnd (rcv (pcb r))) E) (as_segment <$> ms)) as Hgs.
  { apply Forall_fmap. pose proof (hd_log _ _ _ _ _ _ _ _ _ _ _ _ H) as Hlog. rewrite Forall_forall in *. intros m Hm.
    destruct (Hms m Hm) as [Hin Hwin]. destruct (Hlog m Hin) as [a Hm']. eapply sent_from_peer; try done; [|lia].
    destruct c; lia. }
  destruct (run_ok (written I w) fin (as_segment <$> ms) (I + rcv_wnd (rcv (pcb r))) I E E r)
    as (out & r' & R' & E' & Hr & _ & _ & _ & -> & Hp & HR & _ & _ & HX); try done.
  { split; [done|]. by rewrite Hq. }
  { destruct Ha as [_ HF]. unfold upto. destruct fin as [F|]; [|done]. destruct c; [injection HF as ->|specialize (HF F eq_refl)]; lia. }
  exists R', r'. split_and!; try done.
  - intros HG. destruct (HX HG) as [->|]; [|done]. by rewrite Hf in HG.
  - intros F EF. pose proof (wo_le _ _ _ Hw). destruct (Z.le_gt_cases (F + 1) (I + rcv_wnd (rcv (pcb r)))).
    + apply (in_order_end_fin (written I w) fin (I + rcv_wnd (rcv (pcb r))) E); try done; try lia.
      destruct Ha as [_ HF]. rewrite EF in HF. destruct c; [injection HF as ->|specialize (HF F eq_refl)]; lia.
    + pose proof (in_order_end_edge (written I w) fin (I + rcv_wnd (rcv (pcb r))) E (as_segment <$> ms) I Hgs). lia.
Qed.

(** C1: (end to end) one side writes [w] with any sequence of [tcp_write], [tcp_send_fin], [tcp_output] and
    acknowledgements, whatever fails in between, fast retransmits included, but with writes and FINs only while the last unsent segment, if there is
    one, ends at [snd_lbb] and is no longer than the segment size ([write_ready]); the other side gets segments that the link has accepted,
    in any order, repeated or not at all, within the window it announced. Then no assertion fails on
    the receiving side, and its application reads a prefix of [w]; the end of the stream is reported only if
    the sender closed and all of [w] was read; and what arrives in order is read. *)
Theorem session_end_to_end I s0 c w s r E ms : fresh I s0 -> session s0 c w s -> Z.of_nat (length w) <= 2 ^ 30 - 2 ^ 16 ->
  window_ok I E (pcb r) -> ooseq (rcv (pcb r)) = [] -> recv_flags r = 0 -> state_num (state (pcb r)) < state_num CLOSE_WAIT ->
  Forall (fun m => m ∈ sent_log (net s) /\ in_window I E m) ms ->
  exists out r', run (as_segment <$> ms) r = Ret (out, r') /\ out `prefix_of` w /\
    (has (recv_flags r') TF_GOT_FIN = true -> c = true /\ out = w) /\
    in_order_end I (as_segment <$> ms) <= I + Z.of_nat (length out) + (if c then 1 else 0).
Proof.
  intros H0 Hse Hmax Hw Hq Hf Hst Hms. set (n := Z.of_nat (length w)) in *.
  assert (stream (written I w) I n = w) as Hwr by apply spliced_dat.
  assert (forall f, f = Some (I + n) \/ (f = None /\ c = false) -> agrees I (written I w) f c w) as Hag.
  { intros f Hf'. split; [done|]. destruct Hf' as [->|[-> ->]]; [|done]. destruct c; [done|]. intros F [= <-]. lia. }
  destruct (session_read I s0 c w s (Some (I + n)) r E ms) as (R' & r' & Hr & HR & Hp & HX & HF); try done; [auto|].
  set (k := Z.min R' (I + n) - I). change (upto (Some (I + n)) R' - I) with k in Hr.
  assert (stream (written I w) I k = take (Z.to_nat k) w) as Hk.
  { rewrite <- Hwr at 2. symmetry. apply stream_take. lia. }
  exists (take (Z.to_nat k) w), r'. rewrite Hk in Hr. split; [done|]. split; [apply prefix_take|].
  assert (c = false -> exists R2, in_order_end I (as_segment <$> ms) <= R2 /\ take (Z.to_nat k) w = stream (written I w) I (R2 - I) /\
    has (recv_flags r') TF_GOT_FIN = false) as Hopen.
  { intros ->. destruct (session_read I s0 false w s None r E ms) as (R2 & r2 & Hr2 & HR2 & Hp2 & HX2 & _); try done.
    rewrite Hr in Hr2. injection Hr2 as Hout <-. exists R2. split_and!; try done. destruct (has _ _); [by specialize (HX2 eq_refl)|done]. }
  split.
  - intros HG. split; [|rewrite take_ge; [done|]].
    + destruct c; [done|]. destruct (Hopen eq_refl) as (_ & _ & _ & HG'). congruence.
    + specialize (HX HG). injection HX as HX. lia.
  - specialize (HF _ eq_refl). rewrite length_take. destruct c; [lia|]. destruct (Hopen eq_refl) as (R2 & H2 & Ho & _).
    apply (f_equal length) in Ho. rewrite length_take in Ho. destruct (Z.le_gt_cases I R2).
    + pose proof (length_stream (written I w) I (R2 - I) ltac:(lia)). lia.
    + lia.
Qed.
End session.
