(* ===== verification/TcpSendExamples.v ===== *)
(** * The send path of TCP: examples

    A connection over a link that counts pbufs and keeps what it has sent. *)

From Stdlib Require Import Sorted.
From S2P Require Import Prelude Chain Def Tcp TcpRecv TcpStream TcpProps TcpAck TcpReceive TcpOpt TcpProcess TcpOut TcpSend TcpOutput TcpSendErrors TcpSession.

Module SendExamples.
(** The pbufs in use and what was sent. *)
Definition link : Type := Z * list (ctl_hdr * list Z).
#[export] Instance link_net : TcpNet link := { hdr_alloc n := (true, n); output_control n _ _ _ := (ERR_OK, n) }.
#[export] Instance link_bufs : TcpBufs link := {
  ram_alloc n _ := (true, (n.1 + 1, n.2)); rom_alloc n := (true, (n.1 + 1, n.2)); bufs_free n k := (n.1 - k, n.2) }.
#[export] Instance link_bufs_laws : TcpBufsLaws link.
Proof. refine {| in_use n := n.1 |}; intros; simpl; lia. Defined.
#[export] Instance link_out : TcpLink link := {
  tcp_route _ _ _ := Some 1500; link_ip _ _ := 1; ip_output_if n _ _ h _ text := (ERR_OK, false, (n.1, n.2 ++ [(h, text)])) }.
#[export] Instance link_laws : TcpLinkLaws link.
Proof. by refine {| sent_log n := n.2 |}. Defined.

(** The text: one segment with ten bytes was sent, one with five bytes waits. *)
Definition text (i : Z) : Z := i mod 256.
Definition seg (a n : Z) : placed := (a, Seg a n 0 [replicate 20 0 ++ stream text a n] false false).
Definition conn (nodelay wnd : Z) (q : list placed) (lbb : Z) : tcp_pcb :=
  Pcb ESTABLISHED nodelay 1000 1 80 2 8080 true None (Receiver 1000 4000 4000 5000 [])
    (Sender 17 999 7 lbb wnd 4000 (4096 - lens ([seg 7 10] ++ q)) (clens ([seg 7 10] ++ q)) 7 q.*2 [(seg 7 10).2])
    (Congestion 2000 4000 0 0) (Timing 0 40 7 16 8 3 0 0 0 0 0 0 0 0 0 0 false).
Definition st (segs : Z) (p : tcp_pcb) : input link := Input p 0 0 0 None 0 0 0 0 0 0 0 None segs 44 (2, []).
Definition waiting : tcp_pcb := conn 0 4000 [seg 17 5] 22.

Lemma seg_carries a n : 0 <= n -> carries text (seg a n).
Proof.
  intros Hn. split; [|done]. unfold seg_text, part, seg, tot_len. cbn [Datatypes.snd fst seg_p seg_len concat].
  pose proof (length_stream text a n Hn). rewrite app_nil_r, length_app. change (length (replicate 20 0)) with 20%nat.
  rewrite drop_app_length' by (change (length (replicate 20 0)) with 20%nat; lia). apply take_ge. lia.
Qed.

Lemma conn_sending nd wnd : send_ok 7 17 22 4096 [seg 7 10] [seg 17 5] (conn nd wnd [seg 17 5] 22).
Proof.
  split; try done; try (by repeat constructor).
  { intros x y ->%list_elem_of_singleton ->%list_elem_of_singleton. by left. }
  intros i Hi. destruct (Z.lt_ge_cases i 17); [exists (seg 7 10)|exists (seg 17 5)]; (split; [set_solver|]);
    unfold ends_at; simpl; [change (TCP_TCPLEN _) with 10|change (TCP_TCPLEN _) with 5]; lia.
Qed.
Lemma waiting_ok : sender_ok text 7 17 22 4096 [seg 7 10] [seg 17 5] waiting.
Proof.
  split; [apply conn_sending| |done|done].
  repeat constructor; try done; by apply seg_carries.
Qed.

(** Six bytes more: they go to the waiting segment. *)
Lemma write_appends_witness :
  exists err s', tcp_write 7 (stream text 22 6) TCP_WRITE_FLAG_COPY false (st 5 waiting) = Ret (err, s') /\
    appended text 7 17 22 4096 [seg 7 10] [seg 17 5] (stream text 22 6) (st 5 waiting) err s'.
Proof.
  apply (write_appends text 7 17 22 4096 [seg 7 10] [seg 17 5] 7 (stream text 22 6) TCP_WRITE_FLAG_COPY false (st 5 waiting)); try done;
    [exact waiting_ok|by left|simpl; lia].
Defined.

Lemma fin_behind_text_witness : exists err s', tcp_send_fin (st 5 waiting) = Ret (err, s') /\
  fin_queued text 7 17 22 4096 [seg 7 10] (st 5 waiting) err s'.
Proof. apply (fin_behind_text text 7 17 22 4096 [seg 7 10] [seg 17 5] (st 5 waiting)); try done. exact waiting_ok. Defined.

(** Without Nagle's algorithm, a window of one byte and an acknowledged position 7: the waiting segment
    does not fit; with a window of 15 bytes it does. *)
Definition eager (wnd : Z) : input link := st 5 (conn TF_NODELAY wnd [seg 17 5] 22).

Lemma output_in_stream_witness : exists err s' S' qa' qs' out, tcp_output false (eager 4000) = Ret (err, s') /\ 17 <= S' <= 22 /\
  outputs text 7 22 4096 [seg 7 10] [seg 17 5] (eager 4000) S' qa' qs' out s'.
Proof.
  apply (output_in_stream text 7 17 22 4096 [seg 7 10] [seg 17 5] (eager 4000)); try done;
    [exact (conn_sending TF_NODELAY 4000)|exact (sn_carries _ _ _ _ _ _ _ _ waiting_ok)|by repeat constructor].
Defined.

(** Two segments wait, the window is full after the first. *)
Definition two : tcp_pcb := conn TF_NODELAY 15 [seg 17 5; seg 22 5] 27.
Lemma two_sends : send_ok 7 17 27 4096 [seg 7 10] [seg 17 5; seg 22 5] two.
Proof.
  split; try done; try (by repeat constructor).
  { intros x y ->%list_elem_of_singleton [->|[->|[]%not_elem_of_nil]%elem_of_cons]%elem_of_cons; by left. }
  intros i Hi. destruct (Z.lt_ge_cases i 17); [exists (seg 7 10)|destruct (Z.lt_ge_cases i 22); [exists (seg 17 5)|exists (seg 22 5)]];
    (split; [set_solver|]); unfold ends_at; simpl; [change (TCP_TCPLEN _) with 10|change (TCP_TCPLEN _) with 5..]; lia.
Qed.

Lemma output_overruns_window_witness :
  exists s' S' qa', tcp_output false (st 5 two) = Ret (ERR_OK, s') /\ send_ok 7 S' 27 4096 qa' [] (pcb s') /\
    unbusy <$> qa' ≡ₚ unbusy <$> [seg 7 10; seg 17 5; seg 22 5].
Proof.
  apply (output_overruns_window text 7 17 27 4096 [seg 7 10] (seg 17 5) [seg 22 5] 1500 (st 5 two)); try done;
    [exact two_sends|repeat constructor; try done; by apply seg_carries|by repeat constructor].
Defined.

(** A segment of ten bytes with FIN is split after four. *)
Definition last_seg : tcp_seg := Seg 7 10 TCP_FIN [replicate 20 0 ++ stream text 7 10] false false.
Definition closing : tcp_pcb :=
  Pcb FIN_WAIT_1 TF_FIN 1000 1 80 2 8080 true None (Receiver 1000 4000 4000 5000 [])
    (Sender 7 999 7 18 4 4000 4086 1 7 [last_seg] [])
    (Congestion 2000 4000 0 0) (Timing 0 40 7 16 8 3 0 0 0 0 0 0 0 0 0 0 false).
Lemma last_splits k : splits 4 last_seg (st k closing).
Proof. by split. Qed.

Lemma split_keeps_fin_witness :
  exists h r s', tcp_split_unsent_seg 4 (st 5 closing) = Ret (ERR_OK, s') /\ unsent (snd (pcb s')) = [h; r] /\
    seg_len h = 4 /\ seg_len r = 6 /\ seg_seqno r = 11 /\ has (seg_flags h) TCP_FIN = true /\ has (seg_flags r) TCP_FIN = true.
Proof. apply (split_keeps_fin 4 last_seg [] (st 5 closing)); done. Defined.

Lemma split_frees_twice_witness : tcp_split_unsent_seg 4 (st 0 closing) = Undef.
Proof. apply (split_frees_twice 4 last_seg [] (st 0 closing)); done. Defined.

(** The peer sends the option of a segment size of four bytes behind the segment with five. *)
Lemma small_mss_stops_write_witness :
  (p ← tcp_parseopt (Options 4 (word_bytes (TCP_BUILD_MSS_OPTION 4)) 4 None) waiting;
   tcp_write 7 (stream text 22 6) TCP_WRITE_FLAG_COPY false (set_pcb p (st 5 waiting))) = Assert.
Proof.
  apply (small_mss_stops_write 4 (seg 17 5).2 7 (stream text 22 6) TCP_WRITE_FLAG_COPY false (st 5 waiting)); try done. by left.
Defined.

(** ** A session: six bytes, FIN, both sent, and an acknowledgement of the text *)
Definition idle : tcp_pcb :=
  Pcb ESTABLISHED TF_NODELAY 1000 1 80 2 8080 true None (Receiver 1000 4000 4000 5000 [])
    (Sender 7 999 7 7 4000 4000 4096 0 7 [] []) (Congestion 2000 4000 0 0) (Timing (-1) 0 0 16 8 3 0 0 0 0 0 0 0 0 0 0 false).
Definition ok_state {A} (d : input link) (o : outcome (A * input link)) : input link := match o with Ret (_, s) => s | _ => d end.
Definition message : list Z := [104; 101; 108; 108; 111; 33].
Definition begun : input link := st 5 idle.
Definition said : input link := ok_state begun (tcp_write 7 message TCP_WRITE_FLAG_COPY false begun).
Definition closed : input link := ok_state begun (tcp_send_fin said).
Definition sent : input link := ok_state begun (tcp_output false closed).

Lemma idle_fresh : fresh 7 begun.
Proof.
  split; try done; [|by exists 1000, 5000]. exists 4096. split; try done; try (by repeat constructor).
  - intros x y Hx. by apply not_elem_of_nil in Hx.
  - intros i Hi. lia.
Qed.

Lemma whole_session : session begun true message sent.
Proof.
  apply (session_output _ _ _ closed ERR_OK); [|by vm_compute].
  apply (session_fin _ message said ERR_OK closed); [|split; [by left|done|done|]|done|by vm_compute].
  - apply (session_write _ [] begun 7 message TCP_WRITE_FLAG_COPY false ERR_OK said); [constructor| |done|simpl; lia|by vm_compute].
    by split; [left| | |].
  - intros g Hg. assert (last (unsent (snd (pcb said))) = Some (Seg 7 6 TCP_PSH [HDR ++ message] false false)) as E by (by vm_compute).
    rewrite E in Hg. injection Hg as <-. split; by vm_compute.
Qed.

(** The segment arrives twice. *)
Definition reader : input link := st 5 (set_rcv_nxt 7 (set_rcv_ann_right_edge 4007 idle)).
Definition only_segment : ctl_hdr * list Z := (CtlHdr 80 8080 7 1000 (Z.lor TCP_PSH TCP_FIN) 4000 true, message).
Lemma sent_segment : sent_log (net sent) = [only_segment].
Proof. by vm_compute. Qed.
Lemma session_end_to_end_witness :
  exists out r', run (as_segment <$> [only_segment; only_segment]) reader = Ret (out, r') /\ out `prefix_of` message /\
    (has (recv_flags r') TF_GOT_FIN = true -> true = true /\ out = message) /\
    in_order_end 7 (as_segment <$> [only_segment; only_segment]) <= 7 + Z.of_nat (length out) + 1.
Proof.
  apply (session_end_to_end 7 begun true message sent reader 4007 [only_segment; only_segment]); try done;
    [exact idle_fresh|exact whole_session|]. rewrite sent_segment. repeat constructor; done.
Defined.

(** ** A write behind a fast retransmit *)

(** Two parts of the message are sent in segments of their own; the first is lost. After three duplicate acknowledgements it waits, alone, in
    the unsent queue, and [tcp_write] puts the next bytes behind it, as if it were the end of the stream. *)
Definition first_part : input link := ok_state begun (tcp_output false (ok_state begun (tcp_write 7 [104; 101; 108] TCP_WRITE_FLAG_COPY false begun))).
Definition both_parts : input link := ok_state begun (tcp_output false (ok_state begun (tcp_write 7 [108; 111; 33] TCP_WRITE_FLAG_COPY false first_part))).
Definition duplicated : input link := match acks 3 (set_in_flags TCP_ACK (set_ackno 7 (set_in_wnd 4000 (set_seqno 999 both_parts)))) with Ret s => s | _ => begun end.
Definition corrupted : input link := ok_state begun (tcp_output false (ok_state begun (tcp_write 7 [63; 63; 63] TCP_WRITE_FLAG_COPY false duplicated))).
Definition resent : list (ctl_hdr * list Z) := drop 2 (sent_log (net corrupted)) ++ drop 1 (take 2 (sent_log (net corrupted))).
(** The peer gets what was sent again, and then the second part: it reads "hel???" where "hello!" was written. *)
Example write_behind_retransmit :
  map Datatypes.snd (sent_log (net corrupted)) = [[104; 101; 108]; [108; 111; 33]; [104; 101; 108; 63; 63; 63]] /\
  match run (as_segment <$> resent) reader with Ret (out, _) => out = [104; 101; 108; 63; 63; 63] | _ => False end.
Proof. by vm_compute. Qed.
End SendExamples.
