(* ===== verification/TcpStack.v ===== *)
(** * TCP control blocks and their lists ([tcp.c])

    All control blocks of the stack by their addresses, the four lists, and the calls that end a
    connection: [tcp_close], [tcp_shutdown], [tcp_abort]. What happens to one connection is a function on
    [input], the state of [Tcp] and [TcpOut]; [at_pcb] applies it to the block at an address. A block that was
    freed is gone: using its address afterwards is undefined.

    The application's callbacks are the class [TcpEvents]: they may change the whole stack. *)

From stdpp Require Import gmap.
From S2P Require Import Prelude Chain Tcp TcpProcess TcpOut.

Definition TF_CLOSEPEND : Z := 0x08.

(** [struct tcp_pcb] of a connection or of a listener: the variables of the connection, [last_timer], the
    [listener], [prio], the options [SOF_REUSEADDR], [netif_idx], and whether the refused pbuf has
    [PBUF_FLAG_TCP_FIN]. *)
Record block := Block {
  tcb : tcp_pcb; last_timer : Z; listener : option Z; prio : Z; reuseaddr : bool; netif_idx : Z; refused_fin : bool }.
Definition set_tcb (v : tcp_pcb) (b : block) : block :=
  Block v (last_timer b) (listener b) (prio b) (reuseaddr b) (netif_idx b) (refused_fin b).
Definition set_last_timer (v : Z) (b : block) : block :=
  Block (tcb b) v (listener b) (prio b) (reuseaddr b) (netif_idx b) (refused_fin b).
Definition set_listener (v : option Z) (b : block) : block :=
  Block (tcb b) (last_timer b) v (prio b) (reuseaddr b) (netif_idx b) (refused_fin b).

(** The variables of [tcp.c]: the blocks, [tcp_active_pcbs], [tcp_tw_pcbs], [tcp_bound_pcbs],
    [tcp_listen_pcbs], [tcp_active_pcbs_changed], [tcp_timer_ctr], [tcp_timer], [tcp_input_pcb], the free
    elements of [MEMP_TCP_PCB] and [MEMP_TCP_PCB_LISTEN], [tcp_port]. [regs] has the variables of [tcp_in.c], the
    pool of segments, [tcp_ticks] and the network; its [pcb] is the connection last worked on. *)
Record stack (N : Type) := Stack {
  blocks : gmap Z block; active_pcbs : list Z; tw_pcbs : list Z; bound_pcbs : list Z; listen_pcbs : list Z;
  pcbs_changed : bool; timer_ctr : Z; tcp_timer : Z; tcp_input_pcb : option Z; free_tcp : list Z; free_listen : list Z;
  tcp_port : Z; regs : input N }.
Arguments Stack {N}.
Arguments blocks {N}.
Arguments active_pcbs {N}.
Arguments tw_pcbs {N}.
Arguments bound_pcbs {N}.
Arguments listen_pcbs {N}.
Arguments pcbs_changed {N}.
Arguments timer_ctr {N}.
Arguments tcp_timer {N}.
Arguments tcp_input_pcb {N}.
Arguments free_tcp {N}.
Arguments free_listen {N}.
Arguments tcp_port {N}.
Arguments regs {N}.

Section setters.
  Context {N : Type}.
  Implicit Type t : stack N.
Definition set_blocks (v : gmap Z block) t : stack N :=
  Stack v (active_pcbs t) (tw_pcbs t) (bound_pcbs t) (listen_pcbs t) (pcbs_changed t) (timer_ctr t) (tcp_timer t)
    (tcp_input_pcb t) (free_tcp t) (free_listen t) (tcp_port t) (regs t).
Definition set_active (v : list Z) t : stack N :=
  Stack (blocks t) v (tw_pcbs t) (bound_pcbs t) (listen_pcbs t) (pcbs_changed t) (timer_ctr t) (tcp_timer t)
    (tcp_input_pcb t) (free_tcp t) (free_listen t) (tcp_port t) (regs t).
Definition set_tw (v : list Z) t : stack N :=
  Stack (blocks t) (active_pcbs t) v (bound_pcbs t) (listen_pcbs t) (pcbs_changed t) (timer_ctr t) (tcp_timer t)
    (tcp_input_pcb t) (free_tcp t) (free_listen t) (tcp_port t) (regs t).
Definition set_bound (v : list Z) t : stack N :=
  Stack (blocks t) (active_pcbs t) (tw_pcbs t) v (listen_pcbs t) (pcbs_changed t) (timer_ctr t) (tcp_timer t)
    (tcp_input_pcb t) (free_tcp t) (free_listen t) (tcp_port t) (regs t).
Definition set_listen (v : list Z) t : stack N :=
  Stack (blocks t) (active_pcbs t) (tw_pcbs t) (bound_pcbs t) v (pcbs_changed t) (timer_ctr t) (tcp_timer t)
    (tcp_input_pcb t) (free_tcp t) (free_listen t) (tcp_port t) (regs t).
Definition set_changed (v : bool) t : stack N :=
  Stack (blocks t) (active_pcbs t) (tw_pcbs t) (bound_pcbs t) (listen_pcbs t) v (timer_ctr t) (tcp_timer t)
    (tcp_input_pcb t) (free_tcp t) (free_listen t) (tcp_port t) (regs t).
Definition set_timer_ctr (v : Z) t : stack N :=
  Stack (blocks t) (active_pcbs t) (tw_pcbs t) (bound_pcbs t) (listen_pcbs t) (pcbs_changed t) v (tcp_timer t)
    (tcp_input_pcb t) (free_tcp t) (free_listen t) (tcp_port t) (regs t).
Definition set_tcp_timer (v : Z) t : stack N :=
  Stack (blocks t) (active_pcbs t) (tw_pcbs t) (bound_pcbs t) (listen_pcbs t) (pcbs_changed t) (timer_ctr t) v
    (tcp_input_pcb t) (free_tcp t) (free_listen t) (tcp_port t) (regs t).
Definition set_free_tcp (v : list Z) t : stack N :=
  Stack (blocks t) (active_pcbs t) (tw_pcbs t) (bound_pcbs t) (listen_pcbs t) (pcbs_changed t) (timer_ctr t) (tcp_timer t)
    (tcp_input_pcb t) v (free_listen t) (tcp_port t) (regs t).
Definition set_free_listen (v : list Z) t : stack N :=
  Stack (blocks t) (active_pcbs t) (tw_pcbs t) (bound_pcbs t) (listen_pcbs t) (pcbs_changed t) (timer_ctr t) (tcp_timer t)
    (tcp_input_pcb t) (free_tcp t) v (tcp_port t) (regs t).
Definition set_tcp_port (v : Z) t : stack N :=
  Stack (blocks t) (active_pcbs t) (tw_pcbs t) (bound_pcbs t) (listen_pcbs t) (pcbs_changed t) (timer_ctr t) (tcp_timer t)
    (tcp_input_pcb t) (free_tcp t) (free_listen t) v (regs t).
Definition set_regs (v : input N) t : stack N :=
  Stack (blocks t) (active_pcbs t) (tw_pcbs t) (bound_pcbs t) (listen_pcbs t) (pcbs_changed t) (timer_ctr t) (tcp_timer t)
    (tcp_input_pcb t) (free_tcp t) (free_listen t) (tcp_port t) v.

Definition alter_block (f : block -> block) (a : Z) t : stack N := set_blocks (alter f a (blocks t)) t.

(** [f] on the connection at [a]. *)
Definition at_pcb {A} (a : Z) (f : input N -> outcome (A * input N)) t : outcome (A * stack N) :=
  b ← deref (blocks t !! a);
  '(r, s) ← f (set_pcb (tcb b) (regs t));
  Ret (r, set_regs s (set_blocks (<[a := set_tcb (pcb s) b]> (blocks t)) t)).
Definition pcb_at (a : Z) t : outcome tcp_pcb := b ← deref (blocks t !! a); Ret (tcb b).

(** [TCP_RMV_ACTIVE], [TCP_REG_ACTIVE]. *)
Definition rmv_active (a : Z) t : stack N := set_changed true (set_active (TCP_RMV (active_pcbs t) a) t).
Definition reg_active (a : Z) t : stack N := set_changed true (set_active (a :: active_pcbs t) t).
End setters.

(** What the application registered for a connection: [errf], [poll] and [recv], by the address of its
    block; [None] is the call of [recv] with no pbuf. *)
Class TcpEvents (N : Type) := {
  ev_err : Z -> err_t -> stack N -> stack N;
  ev_poll : Z -> stack N -> err_t * stack N;
  ev_recv : Z -> option chain -> stack N -> err_t * stack N }.

Section stack.
  Context {N : Type} `{!TcpNet N} `{!TcpBufs N} `{!TcpLink N} `{!TcpEvents N}.
  Implicit Type s : input N.
  Implicit Type t : stack N.

(** Whether [tcp_output] returns at once for the connection at [a]. *)
Definition is_input (a : Z) t : bool := bool_decide (tcp_input_pcb t = Some a).
Definition output_at (a : Z) t : outcome (err_t * stack N) := at_pcb a (tcp_output (is_input a t)) t.

(** ** Removing and freeing *)

Definition pcb_free (a : Z) t : outcome (stack N) :=
  p ← pcb_at a t;
  lwip_assert (negb (bool_decide (state p = LISTEN)));;
  Ret (set_free_tcp (a :: free_tcp t) (set_blocks (delete a (blocks t)) t)).
Definition pcb_free_listen (a : Z) t : outcome (stack N) :=
  p ← pcb_at a t;
  lwip_assert (negb (bool_decide (state p = LISTEN)));;
  Ret (set_free_listen (a :: free_listen t) (set_blocks (delete a (blocks t)) t)).

(** [tcp_pcb_remove] after [TCP_RMV]. *)
Definition remove_rest (input_pcb : bool) s : outcome (unit * input N) :=
  let s := tcp_pcb_purge s in
  s ← (if bool_decide (state (pcb s) <> TIME_WAIT /\ state (pcb s) <> LISTEN) && has (flags (pcb s)) TF_ACK_DELAY
       then '(_, s) ← tcp_output input_pcb (upd tcp_ack_now s); Ret s else Ret s);
  let p := pcb s in
  lwip_assert (bool_decide (state p = LISTEN) || bool_decide (unsent (snd p) = []));;
  lwip_assert (bool_decide (state p = LISTEN) || bool_decide (unacked (snd p) = []));;
  lwip_assert (bool_decide (state p = LISTEN) || bool_decide (ooseq (rcv p) = []));;
  Ret (tt, upd (set_local_port 0) (upd (set_state CLOSED) s)).
Definition pcb_remove (a : Z) t : outcome (stack N) := '(_, t) ← at_pcb a (remove_rest (is_input a t)) t; Ret t.
(** [TCP_PCB_REMOVE_ACTIVE]. *)
Definition remove_active (a : Z) t : outcome (stack N) :=
  t ← pcb_remove a (set_active (TCP_RMV (active_pcbs t) a) t); Ret (set_changed true t).

(** The segments of a connection go back once more (there are none left), and a reset with the given numbers. *)
Definition abandon_rest (send_rst : bool) (seq ack lport : Z) s : outcome (unit * input N) :=
  let s := tcp_segs_free (unacked (snd (pcb s))) s in
  let s := tcp_segs_free (unsent (snd (pcb s))) s in
  let s := tcp_segs_free (ooseq (rcv (pcb s))) s in
  let p := pcb s in
  Ret (tt, if send_rst then tcp_rst seq ack (local_ip p) (remote_ip p) lport (remote_port p) (is_bypass p) s else s).

(** [tcp_abandon(pcb, reset)]. *)
Definition abandon (a : Z) (reset : bool) t : outcome (stack N) :=
  p ← pcb_at a t;
  lwip_assert (negb (bool_decide (state p = LISTEN)));;
  if decide (state p = TIME_WAIT) then
    t ← pcb_remove a (set_tw (TCP_RMV (tw_pcbs t) a) t);
    pcb_free a t
  else
    '(send_rst, lport, t) ←
      (if decide (state p = CLOSED) then
         Ret (false, 0, if negb (local_port p =? 0) then set_bound (TCP_RMV (bound_pcbs t) a) t else t)
       else t ← remove_active a t; Ret (reset, local_port p, t));
    '(_, t) ← at_pcb a (abandon_rest send_rst (snd_nxt (snd p)) (rcv_nxt (rcv p)) lport) t;
    t ← pcb_free a t;
    Ret (ev_err a ERR_ABRT t).
Definition abort a t : outcome (stack N) := abandon a true t.

(** ** Closing *)

Definition remove_listener (l : list Z) (a : Z) t : stack N :=
  fold_left (fun t q => alter_block (fun b => if decide (listener b = Some a) then set_listener None b else b) q t) l t.
Definition tcp_listen_closed (a : Z) t : stack N :=
  remove_listener (tw_pcbs t) a (remove_listener (active_pcbs t) a (remove_listener (bound_pcbs t) a t)).

(** [tcp_close_shutdown_fin(pcb)]. *)
Definition tcp_close_shutdown_fin (input_pcb : bool) s : outcome (err_t * input N) :=
  let st := state (pcb s) in
  if decide (st = SYN_RCVD \/ st = ESTABLISHED \/ st = CLOSE_WAIT) then
    '(err, s) ← tcp_send_fin s;
    if decide (err = ERR_OK) then
      let s := upd (set_state (if decide (st = CLOSE_WAIT) then LAST_ACK else FIN_WAIT_1)) s in
      '(_, s) ← tcp_output input_pcb s; Ret (ERR_OK, s)
    else if decide (err = ERR_MEM) then Ret (ERR_OK, upd (tcp_set_flags TF_CLOSEPEND) s)
    else Ret (err, s)
  else Ret (ERR_OK, s).
Definition close_fin_at (a : Z) t : outcome (err_t * stack N) := at_pcb a (tcp_close_shutdown_fin (is_input a t)) t.

(** The reset of a connection whose data were not all received. *)
Definition close_reset (s : input N) : outcome (unit * input N) :=
  let p := pcb s in
  lwip_assert (has (flags p) TF_RXCLOSED);;
  let s := tcp_rst (snd_nxt (snd p)) (rcv_nxt (rcv p)) (local_ip p) (remote_ip p) (local_port p) (remote_port p) (is_bypass p) s in
  Ret (tt, tcp_pcb_purge s).
(** [tcp_trigger_input_pcb_close]. *)
Definition trigger_close t : stack N := set_regs (set_recv_flags (Z.lor (recv_flags (regs t)) TF_CLOSED) (regs t)) t.

Definition data_unread (p : tcp_pcb) : bool :=
  bool_decide (state p = ESTABLISHED \/ state p = CLOSE_WAIT) &&
  (negb (bool_decide (refused_data p = None)) || negb (rcv_wnd (rcv p) =? TCP_WND)).

Definition tcp_close_shutdown (a : Z) (rst_on_unacked_data : bool) t : outcome (err_t * stack N) :=
  p ← pcb_at a t;
  if rst_on_unacked_data && data_unread p then
    '(_, t) ← at_pcb a close_reset t;
    let t := rmv_active a t in
    t ← (if is_input a t then Ret (trigger_close t) else pcb_free a t);
    Ret (ERR_OK, t)
  else
    match state p with
    | CLOSED =>
        let t := if negb (local_port p =? 0) then set_bound (TCP_RMV (bound_pcbs t) a) t else t in
        t ← pcb_free a t; Ret (ERR_OK, t)
    | LISTEN =>
        let t := tcp_listen_closed a t in
        t ← pcb_remove a (set_listen (TCP_RMV (listen_pcbs t) a) t);
        t ← pcb_free_listen a t; Ret (ERR_OK, t)
    | SYN_SENT => t ← remove_active a t; t ← pcb_free a t; Ret (ERR_OK, t)
    | _ => close_fin_at a t
    end.

Definition set_flags_at (fl a : Z) t : stack N := alter_block (fun b => set_tcb (tcp_set_flags fl (tcb b)) b) a t.

Definition tcp_close (a : Z) t : outcome (err_t * stack N) :=
  p ← pcb_at a t;
  let t := if decide (state p <> LISTEN) then set_flags_at TF_RXCLOSED a t else t in
  tcp_close_shutdown a true t.

Definition tcp_shutdown (a : Z) (shut_rx shut_tx : bool) t : outcome (err_t * stack N) :=
  p ← pcb_at a t;
  if decide (state p = LISTEN) then Ret (ERR_CONN, t)
  else if shut_rx && shut_tx then tcp_close_shutdown a true (set_flags_at TF_RXCLOSED a t)
  else
    let t := if shut_rx then alter_block (fun b => set_tcb (set_refused_data None (tcb b)) b) a (set_flags_at TF_RXCLOSED a t) else t in
    if shut_tx then
      if decide (state p = SYN_RCVD \/ state p = ESTABLISHED \/ state p = CLOSE_WAIT) then tcp_close_shutdown a shut_rx t
      else Ret (ERR_CONN, t)
    else Ret (ERR_OK, t).
End stack.
