(* ===== verification/TcpTimer.v ===== *)
(** * The TCP timers ([tcp_tmr], [tcp_slowtmr], [tcp_fasttmr], [tcp_txnow] of [tcp.c])

    The work for one connection is a function on [input]; the loops walk the lists of the stack, restart when a
    callback changed the list of active connections, and know by [last_timer] which connections are done. The persist
    timer is compiled out ([LWIP_NETML]). *)

From stdpp Require Import gmap.
From S2P Require Import Prelude Chain Tcp TcpProcess TcpOut TcpStack.

Definition TCP_MAXRTX : Z := 12.
Definition TCP_SLOW_INTERVAL : Z := 500.
Definition TCP_FIN_WAIT_TIMEOUT : Z := 20000.
Definition TCP_SYN_RCVD_TIMEOUT : Z := 20000.
Definition TCP_OOSEQ_TIMEOUT : Z := 6.
Definition TCP_MSL : Z := 60000.
Definition TCP_KEEPINTVL_DEFAULT : Z := 75000.
Definition TCP_KEEPCNT_DEFAULT : Z := 9.
Definition TCP_MAXIDLE : Z := TCP_KEEPCNT_DEFAULT * TCP_KEEPINTVL_DEFAULT.
Definition tcp_backoff : list Z := [1; 2; 3; 4; 5; 6; 7; 7; 7; 7; 7; 7; 7].

Section timer.
  Context {N : Type} `{!TcpNet N} `{!TcpBufs N} `{!TcpLink N} `{!TcpEvents N}.
  Implicit Type s : input N.
  Implicit Type t : stack N.

(** ** Retransmission *)

Definition tcp_rexmit_rto_commit (input_pcb : bool) s : outcome (input N) :=
  let s := if nrtx (tim (pcb s)) <? 0xff then upd (set_nrtx (nrtx (tim (pcb s)) + 1)) s else s in
  '(_, s) ← tcp_output input_pcb s; Ret s.

(** The time-out after [nrtx] retransmissions; shifting a negative number is undefined. *)
Definition backed_off (p : tcp_pcb) : outcome Z :=
  let base := Z.shiftr (sa (tim p)) 3 + sv (tim p) in
  if base <? 0 then Undef
  else
    k ← deref (tcp_backoff !! Z.to_nat (Z.min (nrtx (tim p)) 12));
    Ret (s16 (Z.min (Z.shiftl base k) 0x7fff)).

Definition rto_windows (p : tcp_pcb) : tcp_pcb :=
  let eff_wnd := Z.min (cwnd (cng p)) (snd_wnd (snd p)) in
  let p := set_ssthresh (Z.shiftr eff_wnd 1) p in
  let p := if ssthresh (cng p) <? u16 (2 * mss p) then set_ssthresh (u16 (2 * mss p)) p else p in
  set_bytes_acked 0 (set_cwnd (mss p) p).

(** The retransmission timer of [tcp_slowtmr]. *)
Definition slowtmr_retransmit (input_pcb : bool) s : outcome (input N) :=
  let s := if (0 <=? rtime (tim (pcb s))) && (rtime (tim (pcb s)) <? 0x7fff)
           then upd (set_rtime (rtime (tim (pcb s)) + 1)) s else s in
  if rto (tim (pcb s)) <=? rtime (tim (pcb s)) then
    let '(err, p) := tcp_rexmit_rto_prepare (pcb s) in
    let s := set_pcb p s in
    if bool_decide (err = ERR_OK) || (bool_decide (unacked (snd p) = []) && negb (bool_decide (unsent (snd p) = []))) then
      s ← (if decide (state p <> SYN_SENT) then r ← backed_off p; Ret (upd (set_rto r) s) else Ret s);
      let s := upd (set_rtime 0) s in
      tcp_rexmit_rto_commit input_pcb (upd rto_windows s)
    else Ret s
  else Ret s.

(** ** Keepalive *)

Definition tcp_keepalive s : err_t * input N :=
  let '(h, s) := tcp_output_alloc_header (u32 (snd_nxt (snd (pcb s)) - 1)) s in
  match h with
  | None => (ERR_MEM, s)
  | Some h =>
      let '(err, n) := output_control (net s) (local_ip (pcb s)) (remote_ip (pcb s)) h in
      (err, set_net n s)
  end.

(** How long the connection has been idle, in ticks. *)
Definition idle_ticks s : Z := u32 (tcp_ticks s - tmr (tim (pcb s))).

(** The ticks after which the connection is dead, and after which the next probe is due (64-bit numbers). *)
Definition keep_over (p : tcp_pcb) : Z := (keep_idle (tim p) + TCP_MAXIDLE) / TCP_SLOW_INTERVAL.
Definition keep_next (p : tcp_pcb) : Z :=
  (keep_idle (tim p) + keep_cnt_sent (tim p) * TCP_KEEPINTVL_DEFAULT) / TCP_SLOW_INTERVAL.

(** The two flags [pcb_remove], [pcb_reset] and what is sent. *)
Definition slowtmr_keepalive s : bool * input N :=
  let p := pcb s in
  if keepalive (tim p) && bool_decide (state p = ESTABLISHED \/ state p = CLOSE_WAIT) then
    if keep_over p <? idle_ticks s then (true, s)
    else if keep_next p <? idle_ticks s then
      let '(err, s) := tcp_keepalive s in
      (false, if decide (err = ERR_OK) then upd (set_keep_cnt_sent (u8 (keep_cnt_sent (tim (pcb s)) + 1))) s else s)
    else (false, s)
  else (false, s).

(** ** One connection *)

Definition retries_over (p : tcp_pcb) : bool :=
  (bool_decide (state p = SYN_SENT) && (TCP_SYNMAXRTX <=? nrtx (tim p))) || (TCP_MAXRTX <=? nrtx (tim p)).

(** A state in which the connection has stayed too long. *)
Definition stuck s : bool :=
  match state (pcb s) with
  | FIN_WAIT_2 => has (flags (pcb s)) TF_RXCLOSED && (TCP_FIN_WAIT_TIMEOUT / TCP_SLOW_INTERVAL <? idle_ticks s)
  | SYN_RCVD => TCP_SYN_RCVD_TIMEOUT / TCP_SLOW_INTERVAL <? idle_ticks s
  | LAST_ACK => 2 * TCP_MSL / TCP_SLOW_INTERVAL <? idle_ticks s
  | _ => false
  end.

Definition slowtmr_ooseq s : input N :=
  if negb (bool_decide (ooseq (rcv (pcb s)) = [])) && (u32 (rto (tim (pcb s)) * TCP_OOSEQ_TIMEOUT) <=? idle_ticks s)
  then tcp_free_ooseq s else s.

(** [pcb_remove], [pcb_reset]. *)
Definition slowtmr_pcb (input_pcb : bool) s : outcome (bool * bool * input N) :=
  let over := retries_over (pcb s) in
  s ← (if over then Ret s else slowtmr_retransmit input_pcb s);
  let '(dead, s) := slowtmr_keepalive s in
  let s := slowtmr_ooseq s in
  Ret (over || dead || stuck s, dead, s).

(** Purging a connection that is removed, with a reset if [dead]. *)
Definition slowtmr_purge (dead : bool) s : outcome (unit * input N) :=
  let s := tcp_pcb_purge s in
  let p := pcb s in
  Ret (tt, if dead then tcp_rst (snd_nxt (snd p)) (rcv_nxt (rcv p)) (local_ip p) (remote_ip p) (local_port p)
                          (remote_port p) (is_bypass p) s else s).

(** ** The loops *)

(** [pcb->next] of an element of a list. *)
Fixpoint next_in (l : list Z) (a : Z) : outcome (option Z) :=
  match l with
  | [] => Undef
  | b :: l' => if b =? a then Ret (head l') else next_in l' a
  end.
(** [prev->next = pcb->next], where [pcb] is the element behind [prev]. *)
Fixpoint cut_behind (l : list Z) (prev : Z) : list Z :=
  match l with
  | [] => []
  | b :: l' => if b =? prev then b :: List.tl l' else b :: cut_behind l' prev
  end.
(** Unlinking [a], with the assertions. *)
Definition unlink (l : list Z) (prev : option Z) (a : Z) : outcome (list Z) :=
  match prev with
  | Some b => lwip_assert (negb (bool_decide (head l = Some a)));; Ret (cut_behind l b)
  | None => lwip_assert (bool_decide (head l = Some a));; Ret (List.tl l)
  end.

Definition is_active (st : tcp_state) : bool :=
  match st with CLOSED | LISTEN | TIME_WAIT => false | _ => true end.

(** The application is polled and what it wrote is sent. The result says whether to start again. *)
Definition slowtmr_poll (a : Z) t : outcome (bool * stack N) :=
  '(due, t) ← at_pcb a (fun s =>
    let s := upd (set_polltmr (u8 (polltmr (tim (pcb s)) + 1))) s in
    if pollinterval (tim (pcb s)) <=? polltmr (tim (pcb s)) then Ret (true, upd (set_polltmr 0) s) else Ret (false, s)) t;
  if (due : bool) then
    let '(err, t) := ev_poll a (set_changed false t) in
    if pcbs_changed t then Ret (true, t)
    else if decide (err = ERR_OK) then '(_, t) ← output_at a t; Ret (false, t) else Ret (false, t)
  else Ret (false, t).

Fixpoint slowtmr_active (fuel : nat) (prev cur : option Z) t : outcome (stack N) :=
  match fuel, cur with
  | O, _ => Diverge
  | _, None => Ret t
  | S fuel, Some a =>
      b ← deref (blocks t !! a);
      lwip_assert (is_active (state (tcb b)));;
      if last_timer b =? timer_ctr t then
        n ← next_in (active_pcbs t) a; slowtmr_active fuel (Some a) n t
      else
        let t := alter_block (set_last_timer (timer_ctr t)) a t in
        '(remove, dead, t) ← at_pcb a (slowtmr_pcb (is_input a t)) t;
        if (remove : bool) then
          '(_, t) ← at_pcb a (slowtmr_purge dead) t;
          n ← next_in (active_pcbs t) a;
          l ← unlink (active_pcbs t) prev a;
          t ← pcb_free a (set_active l t);
          let t := ev_err a ERR_ABRT (set_changed false t) in
          if pcbs_changed t then slowtmr_active fuel None (head (active_pcbs t)) t
          else slowtmr_active fuel prev n t
        else
          n ← next_in (active_pcbs t) a;
          '(restart, t) ← slowtmr_poll a t;
          if (restart : bool) then slowtmr_active fuel None (head (active_pcbs t)) t
          else slowtmr_active fuel (Some a) n t
  end.

Fixpoint slowtmr_tw (fuel : nat) (prev cur : option Z) t : outcome (stack N) :=
  match fuel, cur with
  | O, _ => Diverge
  | _, None => Ret t
  | S fuel, Some a =>
      p ← pcb_at a t;
      lwip_assert (bool_decide (state p = TIME_WAIT));;
      n ← next_in (tw_pcbs t) a;
      if 2 * TCP_MSL / TCP_SLOW_INTERVAL <? u32 (tcp_ticks (regs t) - tmr (tim p)) then
        '(_, t) ← at_pcb a (fun s => Ret (tt, tcp_pcb_purge s)) t;
        l ← unlink (tw_pcbs t) prev a;
        t ← pcb_free a (set_tw l t);
        slowtmr_tw fuel prev n t
      else slowtmr_tw fuel (Some a) n t
  end.

Definition tick t : stack N := set_regs (set_tcp_ticks (u32 (tcp_ticks (regs t) + 1)) (regs t)) t.
Definition next_ctr t : stack N := set_timer_ctr (u8 (timer_ctr t + 1)) t.

Definition tcp_slowtmr (fuel : nat) t : outcome (stack N) :=
  let t := next_ctr (tick t) in
  t ← slowtmr_active fuel None (head (active_pcbs t)) t;
  slowtmr_tw (S (length (tw_pcbs t))) None (head (tw_pcbs t)) t.

(** ** The fast timer *)

(** [tcp_process_refused_data(pcb)]. *)
Definition tcp_process_refused_data (a : Z) t : outcome (err_t * stack N) :=
  b ← deref (blocks t !! a);
  let refused := refused_data (tcb b) in
  _ ← deref refused;
  let t := alter_block (fun b => set_tcb (set_refused_data None (tcb b)) b) a t in
  let '(err, t) := ev_recv a refused t in
  match err with
  | ERR_OK =>
      if refused_fin b then
        '(_, t) ← at_pcb a (fun s =>
          Ret (tt, if negb (rcv_wnd (rcv (pcb s)) =? TCP_WND) then upd (set_rcv_wnd (u16 (rcv_wnd (rcv (pcb s)) + 1))) s else s)) t;
        let '(err, t) := ev_recv a None t in
        Ret (if decide (err = ERR_ABRT) then ERR_ABRT else ERR_OK, t)
      else Ret (ERR_OK, t)
  | ERR_ABRT => Ret (ERR_ABRT, t)
  | _ => '(_, t) ← at_pcb a (fun s => Ret (tt, upd (set_refused_data refused) s)) t; Ret (ERR_INPROGRESS, t)
  end.

(** Delayed acknowledgements and pending FINs. *)
Definition fasttmr_pcb (input_pcb : bool) s : outcome (unit * input N) :=
  s ← (if has (flags (pcb s)) TF_ACK_DELAY then
         '(_, s) ← tcp_output input_pcb (upd tcp_ack_now s);
         Ret (upd (tcp_clear_flags (Z.lor TF_ACK_DELAY TF_ACK_NOW)) s)
       else Ret s);
  if has (flags (pcb s)) TF_CLOSEPEND then
    '(_, s) ← tcp_close_shutdown_fin input_pcb (upd (tcp_clear_flags TF_CLOSEPEND) s); Ret (tt, s)
  else Ret (tt, s).

Fixpoint fasttmr_loop (fuel : nat) (cur : option Z) t : outcome (stack N) :=
  match fuel, cur with
  | O, _ => Diverge
  | _, None => Ret t
  | S fuel, Some a =>
      b ← deref (blocks t !! a);
      if last_timer b =? timer_ctr t then n ← next_in (active_pcbs t) a; fasttmr_loop fuel n t
      else
        let t := alter_block (set_last_timer (timer_ctr t)) a t in
        '(_, t) ← at_pcb a (fasttmr_pcb (is_input a t)) t;
        n ← next_in (active_pcbs t) a;
        p ← pcb_at a t;
        if bool_decide (refused_data p = None) then fasttmr_loop fuel n t
        else
          '(_, t) ← tcp_process_refused_data a (set_changed false t);
          if pcbs_changed t then fasttmr_loop fuel (head (active_pcbs t)) t else fasttmr_loop fuel n t
  end.
Definition tcp_fasttmr (fuel : nat) t : outcome (stack N) :=
  let t := next_ctr t in fasttmr_loop fuel (head (active_pcbs t)) t.

Definition tcp_tmr (fuel : nat) t : outcome (stack N) :=
  t ← tcp_fasttmr fuel t;
  let t := set_tcp_timer (u8 (tcp_timer t + 1)) t in
  if has (tcp_timer t) 1 then tcp_slowtmr fuel t else Ret t.

Fixpoint txnow_loop (l : list Z) t : outcome (stack N) :=
  match l with
  | [] => Ret t
  | a :: l =>
      p ← pcb_at a t;
      t ← (if has (flags p) TF_NAGLEMEMERR then '(_, t) ← output_at a t; Ret t else Ret t);
      txnow_loop l t
  end.
Definition tcp_txnow t : outcome (stack N) := txnow_loop (active_pcbs t) t.
End timer.
