(* ===== verification/TcpTimerOk.v ===== *)
(** * What one connection goes through in a timer

    [tcp_output] and [tcp_send_fin] return for every connection without RST segments, and what they leave
    alone; the same for the slow and the fast timer of a connection. *)

From stdpp Require Import gmap.
From S2P Require Import Prelude Chain Tcp TcpAck TcpOpt TcpProcess TcpOut TcpStack TcpTimer.

(** ** Flags *)

Lemma flag_set k m p : 0 <= k < 16 -> Z.testbit m k = false -> Z.testbit (flags (tcp_set_flags m p)) k = Z.testbit (flags p) k.
Proof. intros Hk Hm. unfold tcp_set_flags, u16. simpl. by rewrite Z.mod_pow2_bits_low, Z.lor_spec, Hm, orb_false_r by lia. Qed.
Lemma flag_clear k m p : 0 <= k < 16 -> Z.testbit m k = false -> Z.testbit (flags (tcp_clear_flags m p)) k = Z.testbit (flags p) k.
Proof.
  intros Hk Hm. unfold tcp_clear_flags, u16. simpl. change 0xffff with (Z.ones 16).
  by rewrite Z.mod_pow2_bits_low, !Z.land_spec, Z.lnot_spec, Hm, Z.ones_spec_low, andb_true_r by lia.
Qed.

Section output.
  Context {N : Type} `{!TcpNet N} `{!TcpBufs N} `{!TcpLink N} `{!TcpEvents N}.
  Implicit Type s : input N.

(** ** [tcp_output] *)

(** What [tcp_output] leaves alone. *)
Record out_frame s s' : Prop := {
  of_ids : (state (pcb s'), mss (pcb s'), local_port (pcb s'), remote_port (pcb s'), remote_ip (pcb s'), is_bypass (pcb s'),
            refused_data (pcb s'), cng (pcb s')) =
           (state (pcb s), mss (pcb s), local_port (pcb s), remote_port (pcb s), remote_ip (pcb s), is_bypass (pcb s),
            refused_data (pcb s), cng (pcb s));
  of_rcv : (rcv_nxt (rcv (pcb s')), rcv_wnd (rcv (pcb s')), rcv_ann_wnd (rcv (pcb s')), ooseq (rcv (pcb s'))) =
           (rcv_nxt (rcv (pcb s)), rcv_wnd (rcv (pcb s)), rcv_ann_wnd (rcv (pcb s)), ooseq (rcv (pcb s)));
  of_snd : (snd_lbb (snd (pcb s')), snd_wnd (snd (pcb s')), snd_wnd_max (snd (pcb s')), snd_buf (snd (pcb s')),
            snd_queuelen (snd (pcb s')), lastack (snd (pcb s'))) =
           (snd_lbb (snd (pcb s)), snd_wnd (snd (pcb s)), snd_wnd_max (snd (pcb s)), snd_buf (snd (pcb s)),
            snd_queuelen (snd (pcb s)), lastack (snd (pcb s)));
  of_tim : (nrtx (tim (pcb s')), rto (tim (pcb s')), sa (tim (pcb s')), sv (tim (pcb s')), tmr (tim (pcb s')),
            keep_cnt_sent (tim (pcb s')), pollinterval (tim (pcb s')), polltmr (tim (pcb s')), keep_idle (tim (pcb s')),
            keepalive (tim (pcb s'))) =
           (nrtx (tim (pcb s)), rto (tim (pcb s)), sa (tim (pcb s)), sv (tim (pcb s)), tmr (tim (pcb s)),
            keep_cnt_sent (tim (pcb s)), pollinterval (tim (pcb s)), polltmr (tim (pcb s)), keep_idle (tim (pcb s)),
            keepalive (tim (pcb s)));
  of_rtime : 0 <= rtime (tim (pcb s)) -> rtime (tim (pcb s')) = rtime (tim (pcb s));
  of_flags : Z.testbit (flags (pcb s')) 3 = Z.testbit (flags (pcb s)) 3 /\ Z.testbit (flags (pcb s')) 4 = Z.testbit (flags (pcb s)) 4;
  of_regs : (tcp_ticks s', recv_flags s', recv_data s', recv_acked s') = (tcp_ticks s, recv_flags s, recv_data s, recv_acked s) }.

Lemma of_refl s : out_frame s s.
Proof. by split. Qed.
Lemma of_trans s1 s2 s3 : out_frame s1 s2 -> out_frame s2 s3 -> out_frame s1 s3.
Proof.
  intros [A1 A2 A3 A4 A5 [A6 A7] A8] [B1 B2 B3 B4 B5 [B6 B7] B8]. split; try congruence; [|split; congruence].
  intros H. rewrite B5; rewrite A5; done.
Qed.
Lemma of_set m s : Z.testbit m 3 = false -> Z.testbit m 4 = false -> out_frame s (upd (tcp_set_flags m) s).
Proof. intros H3 H4. split; try done. split; by apply flag_set. Qed.
Lemma of_clear m s : Z.testbit m 3 = false -> Z.testbit m 4 = false -> out_frame s (upd (tcp_clear_flags m) s).
Proof. intros H3 H4. split; try done. split; by apply flag_clear. Qed.
Hint Resolve of_refl : core.

Lemma of_segment g mtu s e g' s' : tcp_output_segment g mtu s = (e, g', s') -> out_frame s s' /\ snd (pcb s') = snd (pcb s).
Proof.
  unfold tcp_output_segment. destruct (seg_busy g); [by intros [= <- <- <-]|].
  set (s0 := if rttest _ =? 0 then _ else _).
  assert (out_frame s s0 /\ snd (pcb s0) = snd (pcb s)) as [F1 F2].
  { subst s0. assert (out_frame s (upd (set_rcv_ann_right_edge (u32 (rcv_nxt (rcv (pcb s)) + rcv_ann_wnd (rcv (pcb s))))) s)) as F by (by split).
    destruct (Z.ltb_spec (rtime (tim (pcb s))) 0) as [Hr|Hr]; simpl; (rewrite (proj2 (Z.ltb_lt _ _) Hr) || rewrite (proj2 (Z.ltb_ge _ _) Hr));
      (match goal with |- context [if ?b then _ else _] => destruct b end); (split; [|done]); split; simpl; try done; intros; lia. }
  clearbody s0. destruct (ip_output_if _ _ _ _ _ _) as [[e' b] n]. intros [= <- <- <-]. split; [|done]. by destruct F1; split.
Qed.
Lemma of_sent g q s : out_frame s (output_sent g q s).
Proof.
  unfold output_sent. set (s1 := if decide _ then _ else _).
  assert (out_frame s s1) as F.
  { subst s1. assert (out_frame s (upd (set_unsent q) s)) as F by (by split). destruct (decide _); [|done].
    eapply of_trans; [exact F|]. by apply of_clear. }
  clearbody s1. eapply of_trans; [exact F|]. destruct (TCP_SEQ_LT _ _), (0 <? _); by split.
Qed.
Lemma of_empty_ack s : out_frame s (tcp_send_empty_ack s).2.
Proof.
  unfold tcp_send_empty_ack, tcp_output_alloc_header. destruct (hdr_alloc (net s)) as [[] n]; simpl.
  - destruct (output_control _ _ _ _) as [e m]. simpl. destruct (decide _); simpl;
      (eapply of_trans; [|first [by apply of_clear | by apply of_set]]); by split.
  - eapply of_trans; [|by apply of_set]. by split.
Qed.

Lemma of_loop mtu fuel : forall s e s', output_loop fuel mtu s = Ret (e, s') -> out_frame s s'.
Proof.
  induction fuel as [|fuel IH]; intros s e s'; [done|]. cbn [output_loop]. destruct (unsent (snd (pcb s))) as [|g q].
  { intros [= <- <-]. by apply of_clear. }
  destruct (has (seg_flags g) TCP_RST); [done|]. cbn [negb lwip_assert mbind outcome_bind].
  destruct (_ && _); [intros [= <- <-]; by apply of_clear|].
  destruct (tcp_output_segment g mtu s) as [[e1 g1] s1] eqn:E. apply of_segment in E as [E _]. destruct (decide _).
  - intros [= <- <-]. eapply of_trans; [exact E|]. apply (of_trans _ (upd (set_unsent (g1 :: q)) s1)); [by split|].
    by apply (of_set TF_NAGLEMEMERR (upd (set_unsent (g1 :: q)) s1)).
  - intros H. eapply of_trans; [exact E|]. eapply of_trans; [apply of_sent|]. exact (IH _ _ _ H).
Qed.
Lemma output_frame b s e s' : tcp_output b s = Ret (e, s') -> out_frame s s'.
Proof.
  unfold tcp_output. destruct (bool_decide (state _ = LISTEN)); cbn [negb lwip_assert mbind outcome_bind]; [done|].
  destruct b; [by intros [= <- <-]|]. destruct (unsent (snd (pcb s))) as [|g q].
  { destruct (_ && _); [|intros [= <- <-]; by apply of_clear].
    pose proof (of_empty_ack s) as F. destruct (tcp_send_empty_ack s). by intros [= <- <-]. }
  destruct (tcp_route _ _ _) as [mtu|]; [|by intros [= <- <-]].
  set (s1 := if local_ip _ =? 0 then _ else s). assert (out_frame s s1) as F by (subst s1; by destruct (_ =? 0)).
  clearbody s1. destruct (_ && _).
  - set (s2 := if _ && _ && _ then _ else s1).
    assert (out_frame s s2) as G. { eapply of_trans; [exact F|]. subst s2. by destruct (_ && _ && _). }
    clearbody s2. destruct (has _ _).
    + pose proof (of_empty_ack s2) as H. destruct (tcp_send_empty_ack s2). intros [= <- <-]. by eapply of_trans.
    + intros [= <- <-]. eapply of_trans; [exact G|]. by apply of_clear.
  - intros H%of_loop. eapply of_trans; [exact F|]. eapply of_trans; [|exact H]. by split.
Qed.

(** The segments of a connection. *)
Definition queued (p : tcp_pcb) : list tcp_seg := unacked (snd p) ++ unsent (snd p).

Section segments.
  (** A property of segments that giving them to the link keeps. *)
  Context (P : tcp_seg -> Prop).
  Hypothesis P_link : forall g n lip rip h o text, P g -> P (set_seg_busy (ip_output_if n lip rip h o text).1.2 g).

Lemma segment_kept g mtu s e g' s' : tcp_output_segment g mtu s = (e, g', s') -> P g -> P g'.
Proof.
  unfold tcp_output_segment. destruct (seg_busy g); [by intros [= <- <- <-]|]. intros H Hg. revert H.
  match goal with |- context [ip_output_if ?a ?b ?c ?d ?e ?f] => specialize (P_link g a b c d e f Hg);
    destruct (ip_output_if a b c d e f) as [[e' b'] n'] end. by intros [= <- <- <-].
Qed.
Lemma insert_kept g q : P g -> Forall P q -> Forall P (insert_unsent g q).
Proof. intros Hg. induction 1; simpl; [auto|]. destruct (TCP_SEQ_LT _ _); auto. Qed.
Lemma put_kept g q : P g -> Forall P q -> Forall P (put_unacked g q).
Proof.
  intros Hg Hq. unfold put_unacked. destruct (last q); [|auto]. destruct (TCP_SEQ_LT _ _); [by apply insert_kept|].
  apply Forall_app. auto.
Qed.
Lemma sent_kept g q s : unsent (snd (pcb s)) = g :: q -> P g -> Forall P (queued (pcb s)) -> forall g', P g' ->
  Forall P (queued (pcb (output_sent g' q s))).
Proof.
  intros Hu Hg Hq g' Hg'. unfold queued in *. rewrite Hu in Hq. apply Forall_app in Hq as [Ha [_ Hq]%Forall_cons].
  unfold output_sent. set (s1 := if decide _ then _ else _).
  assert (unacked (snd (pcb s1)) = unacked (snd (pcb s)) /\ unsent (snd (pcb s1)) = q) as [E1 E2] by (subst s1; by destruct (decide _)).
  clearbody s1. apply Forall_app. destruct (TCP_SEQ_LT _ _), (0 <? _); simpl; rewrite ?E1, ?E2; split; try done; by apply put_kept.
Qed.
Lemma loop_kept mtu fuel : forall s e s', output_loop fuel mtu s = Ret (e, s') -> Forall P (queued (pcb s)) -> Forall P (queued (pcb s')).
Proof.
  induction fuel as [|fuel IH]; intros s e s'; [done|]. cbn [output_loop]. destruct (unsent (snd (pcb s))) as [|g q] eqn:Hu.
  { by intros [= <- <-]. }
  destruct (has (seg_flags g) TCP_RST); [done|]. cbn [negb lwip_assert mbind outcome_bind].
  destruct (_ && _); [by intros [= <- <-]|].
  destruct (tcp_output_segment g mtu s) as [[e1 g1] s1] eqn:E. intros H Hq.
  assert (P g) as Hg. { unfold queued in Hq. rewrite Hu in Hq. by apply Forall_app in Hq as [_ [? _]%Forall_cons]. }
  pose proof (segment_kept _ _ _ _ _ _ E Hg) as Hg1. apply of_segment in E as [_ E]. revert H. destruct (decide _).
  - intros [= <- <-]. unfold queued in *. simpl. rewrite E. rewrite Hu in Hq. apply Forall_app in Hq as [? [_ ?]%Forall_cons].
    apply Forall_app. auto.
  - intros H. eapply IH; [exact H|]. apply (sent_kept g); try done; unfold queued; by rewrite E.
Qed.
Lemma output_kept b s e s' : tcp_output b s = Ret (e, s') -> Forall P (queued (pcb s)) -> Forall P (queued (pcb s')).
Proof.
  unfold tcp_output. destruct (bool_decide (state _ = LISTEN)); cbn [negb lwip_assert mbind outcome_bind]; [done|].
  assert (forall s1, queued (pcb (tcp_send_empty_ack s1).2) = queued (pcb s1)) as Hack.
  { intros s1. unfold tcp_send_empty_ack, tcp_output_alloc_header. destruct (hdr_alloc (net s1)) as [[] n]; simpl; [|done].
    destruct (output_control _ _ _ _) as [e1 m]. simpl. by destruct (decide _). }
  destruct b; [by intros [= <- <-]|]. destruct (unsent (snd (pcb s))) as [|g q].
  { destruct (_ && _); [|by intros [= <- <-]]. specialize (Hack s). destruct (tcp_send_empty_ack s). intros [= <- <-]. by rewrite <- Hack. }
  destruct (tcp_route _ _ _) as [mtu|]; [|by intros [= <- <-]].
  set (s1 := if local_ip _ =? 0 then _ else s). assert (queued (pcb s1) = queued (pcb s)) as <- by (subst s1; by destruct (_ =? 0)).
  clearbody s1. destruct (_ && _).
  - set (s2 := if _ && _ && _ then _ else s1).
    assert (queued (pcb s2) = queued (pcb s1)) as <- by (subst s2; by destruct (_ && _ && _)).
    clearbody s2. destruct (has _ _); [|by intros [= <- <-]].
    specialize (Hack s2). destruct (tcp_send_empty_ack s2). intros [= <- <-]. by rewrite <- Hack.
  - change (queued (pcb s1)) with (queued (pcb (upd (set_persist_backoff 0) s1))). apply loop_kept.
Qed.
End segments.

(** Segments without RST, of which [tcp_output] can send any. *)
Definition no_rst (g : tcp_seg) : Prop := has (seg_flags g) TCP_RST = false.
Lemma no_rst_link g n lip rip h o text : no_rst g -> no_rst (set_seg_busy (ip_output_if n lip rip h o text).1.2 g).
Proof. done. Qed.

Lemma loop_total mtu fuel : forall s, (length (unsent (snd (pcb s))) < fuel)%nat -> Forall no_rst (queued (pcb s)) ->
  exists e s', output_loop fuel mtu s = Ret (e, s').
Proof.
  induction fuel as [|fuel IH]; intros s Hf Hq; [lia|]. cbn [output_loop]. destruct (unsent (snd (pcb s))) as [|g q] eqn:Hu; [eauto|].
  assert (no_rst g) as Hg. { unfold queued in Hq. rewrite Hu in Hq. by apply Forall_app in Hq as [_ [? _]%Forall_cons]. }
  rewrite Hg. cbn [negb lwip_assert mbind outcome_bind]. destruct (_ && _); [eauto|].
  destruct (tcp_output_segment g mtu s) as [[e1 g1] s1] eqn:E.
  pose proof (segment_kept _ no_rst_link _ _ _ _ _ _ E Hg) as Hg1. apply of_segment in E as [_ E].
  destruct (decide _); [eauto|]. apply IH.
  - simpl in Hf. unfold output_sent. set (s2 := if decide _ then _ else _).
    assert (unsent (snd (pcb s2)) = q) as E2 by (subst s2; by destruct (decide _)). clearbody s2.
    destruct (TCP_SEQ_LT _ _), (0 <? _); simpl; rewrite E2; lia.
  - apply (sent_kept _ g); try done; unfold queued; by rewrite E.
Qed.
Lemma output_total b s : Forall no_rst (queued (pcb s)) -> state (pcb s) <> LISTEN ->
  exists e s', tcp_output b s = Ret (e, s') /\ Forall no_rst (queued (pcb s')) /\ out_frame s s'.
Proof.
  intros Hq Hst. assert (exists e s', tcp_output b s = Ret (e, s')) as (e & s' & H).
  { unfold tcp_output. rewrite (bool_decide_false _ Hst). cbn [negb lwip_assert mbind outcome_bind].
    destruct b; [eauto|]. destruct (unsent (snd (pcb s))) as [|g q] eqn:Hu.
    { destruct (_ && _); [|eauto]. destruct (tcp_send_empty_ack s); eauto. }
    destruct (tcp_route _ _ _) as [mtu|]; [|eauto]. set (s1 := if local_ip _ =? 0 then _ else s).
    assert (snd (pcb s1) = snd (pcb s)) as E by (subst s1; by destruct (_ =? 0)). clearbody s1.
    destruct (_ && _).
    - destruct (has _ _); [|eauto]. match goal with |- context [tcp_send_empty_ack ?x] => destruct (tcp_send_empty_ack x) end; eauto.
    - apply loop_total; unfold queued; simpl; rewrite E; [rewrite Hu; simpl; lia|exact Hq]. }
  exists e, s'. split; [done|]. split; [by eapply output_kept|by eapply output_frame].
Qed.
End output.

(** ** A connection in the timers *)

(** Segments without RST; the estimates of the round-trip time give a time-out. *)
Record pcb_ok (p : tcp_pcb) : Prop := {
  po_segs : Forall no_rst (queued p);
  po_rtt : 0 <= Z.shiftr (sa (tim p)) 3 + sv (tim p) }.

Section pcb.
  Context {N : Type} `{!TcpNet N} `{!TcpBufs N} `{!TcpLink N} `{!TcpEvents N}.
  Implicit Type s : input N.

(** The variables of the stack that the work for one connection leaves alone. *)
Definition regs_same s s' : Prop := (tcp_ticks s', recv_flags s') = (tcp_ticks s, recv_flags s).

Lemma of_same s s' : out_frame s s' -> state (pcb s') = state (pcb s) /\ regs_same s s' /\
  sa (tim (pcb s')) = sa (tim (pcb s)) /\ sv (tim (pcb s')) = sv (tim (pcb s)).
Proof. intros [F1 _ _ F4 _ _ F7]. injection F1 as ->. injection F4. injection F7. unfold regs_same. intros. split_and!; congruence. Qed.

Lemma sending_ok b s : pcb_ok (pcb s) -> state (pcb s) <> LISTEN ->
  exists e s', tcp_output b s = Ret (e, s') /\ pcb_ok (pcb s') /\ out_frame s s'.
Proof.
  intros [H1 H2] Hst. destruct (output_total b s H1 Hst) as (e & s' & H & Hq & F). exists e, s'. split; [done|].
  split; [|done]. split; [done|]. by destruct (of_same _ _ F) as (_ & _ & -> & ->).
Qed.

(** [tcp_send_fin] always returns. *)
Lemma enqueue_fin_total s : exists e s', tcp_enqueue_flags TCP_FIN s = Ret (e, s') /\ (e = ERR_OK \/ e = ERR_MEM) /\
  (exists q l n, (unacked (snd (pcb s')), unsent (snd (pcb s')), snd_lbb (snd (pcb s')), snd_queuelen (snd (pcb s'))) =
     (unacked (snd (pcb s)), unsent (snd (pcb s)) ++ q, l, n) /\
     Forall (fun g => seg_flags g = TCP_FIN /\ seg_busy g = false /\ seg_len g = 0) q) /\
  (state (pcb s'), tim (pcb s'), rcv (pcb s'), refused_data (pcb s'), local_port (pcb s')) =
  (state (pcb s), tim (pcb s), rcv (pcb s), refused_data (pcb s), local_port (pcb s)) /\ regs_same s s'.
Proof.
  unfold tcp_enqueue_flags. change (has TCP_FIN (Z.lor TCP_SYN TCP_FIN)) with true. cbn [lwip_assert mbind outcome_bind].
  change (has TCP_FIN TCP_SYN) with false. cbn [opt_length]. unfold alloc_ram. destruct (ram_alloc _ _) as [ok n]. destruct ok; cbn [negb]; cycle 1.
  { eexists _, _. split; [reflexivity|]. split; [auto|]. split; [|by split].
    exists [], (snd_lbb (snd (pcb s))), (snd_queuelen (snd (pcb s))). simpl. by rewrite app_nil_r. }
  unfold tcp_create_segment. simpl. destruct (_ <=? 0); simpl.
  { eexists _, _. split; [reflexivity|]. split; [auto|]. split; [|by split].
    exists [], (snd_lbb (snd (pcb s))), (snd_queuelen (snd (pcb s))). simpl. by rewrite app_nil_r. }
  change (TRANSPORT_ROOM <? TCP_HLEN) with false. cbn iota. simpl.
  unfold queues_valid. simpl. rewrite bool_decide_false by (intros [_ H]; by destruct (unsent (snd (pcb s)))).
  rewrite orb_true_r. simpl. eexists _, _. split; [reflexivity|]. split; [auto|]. split; [|by split].
  eexists [_], _, _. split; [reflexivity|]. by repeat constructor.
Qed.
(** Queueing a FIN keeps a property of segments that a FIN does not change and that a FIN alone has. *)
Definition fin_kept (P : tcp_seg -> Prop) : Prop :=
  (forall g, P g -> P (set_seg_flags (Z.lor (seg_flags g) TCP_FIN) g)) /\
  (forall g, seg_flags g = TCP_FIN -> seg_busy g = false -> seg_len g = 0 -> P g).
Lemma send_fin_total s : exists e s', tcp_send_fin s = Ret (e, s') /\ (e = ERR_OK \/ e = ERR_MEM) /\
  (forall P, fin_kept P -> Forall P (queued (pcb s)) -> Forall P (queued (pcb s'))) /\
  (length (queued (pcb s)) <= length (queued (pcb s')))%nat /\
  (state (pcb s'), tim (pcb s'), rcv (pcb s'), refused_data (pcb s'), local_port (pcb s')) =
  (state (pcb s), tim (pcb s), rcv (pcb s), refused_data (pcb s), local_port (pcb s)) /\ regs_same s s'.
Proof.
  assert (exists e s', tcp_enqueue_flags TCP_FIN s = Ret (e, s') /\ (e = ERR_OK \/ e = ERR_MEM) /\
    (forall P, fin_kept P -> Forall P (queued (pcb s)) -> Forall P (queued (pcb s'))) /\
    (length (queued (pcb s)) <= length (queued (pcb s')))%nat /\
    (state (pcb s'), tim (pcb s'), rcv (pcb s'), refused_data (pcb s'), local_port (pcb s')) =
    (state (pcb s), tim (pcb s), rcv (pcb s), refused_data (pcb s), local_port (pcb s)) /\ regs_same s s') as Hown.
  { destruct (enqueue_fin_total s) as (e & s' & H & He & (q & l & n & Hq & Hr) & Hs). exists e, s'. injection Hq as E1 E2 _ _.
    split_and!; try done; try apply Hs; unfold queued; rewrite E1, E2, app_assoc.
    - intros P [_ HP] Hf. apply Forall_app. split; [done|]. eapply Forall_impl; [exact Hr|]. intros g (? & ? & ?). auto.
    - rewrite (length_app _ q). lia. }
  unfold tcp_send_fin. destruct (last (unsent (snd (pcb s)))) as [g|] eqn:Hl; [|exact Hown].
  destruct (has _ _); cbn [negb]; [exact Hown|]. eexists _, _. split; [reflexivity|]. split; [auto|].
  assert (forall P q, fin_kept P -> Forall P q -> Forall P (on_last (fun g => set_seg_flags (Z.lor (seg_flags g) TCP_FIN) g) q)) as Hon.
  { intros P q [HP _] Hq. induction Hq as [|x q Hx Hq IH]; simpl; [done|]. destruct q; auto. }
  assert (forall q, length (on_last (fun g => set_seg_flags (Z.lor (seg_flags g) TCP_FIN) g) q) = length q) as Hlen.
  { induction q as [|x [|y q] IH]; simpl in *; auto. }
  split_and!; try done; unfold queued; simpl.
  - intros P HP [Ha Hu]%Forall_app. apply Forall_app. split; [done|]. by apply Hon.
  - rewrite !length_app, Hlen. lia.
Qed.
Lemma fin_no_rst : fin_kept no_rst.
Proof.
  split; unfold no_rst; [|by intros g ->]. intros g Hg. simpl. change TCP_RST with (2 ^ 2) in *. rewrite has_pow2 in * by lia. by rewrite Z.lor_spec, Hg.
Qed.

Lemma close_fin_ok b s : pcb_ok (pcb s) -> state (pcb s) <> LISTEN ->
  exists e s', tcp_close_shutdown_fin b s = Ret (e, s') /\ pcb_ok (pcb s') /\ regs_same s s' /\ e = ERR_OK /\
    (state (pcb s') = state (pcb s) \/ state (pcb s') = FIN_WAIT_1 \/ state (pcb s') = LAST_ACK) /\
    (is_active (state (pcb s)) = false -> s' = s).
Proof.
  intros [H1 H2] Hst. unfold tcp_close_shutdown_fin. destruct (decide _) as [Hs|Hs]; cycle 1.
  { exists ERR_OK, s. split_and!; try done. by left. }
  destruct (send_fin_total s) as (e & s1 & -> & He & Hr & _ & Hf & Hg). specialize (Hr _ fin_no_rst). injection Hf as F1 F2 F3 F4 F5. cbn [mbind outcome_bind].
  assert (pcb_ok (pcb s1)) as Hok by (split; [auto|by rewrite F2]).
  assert (is_active (state (pcb s)) = true) as Ha by (destruct Hs as [-> | [-> | ->]]; done).
  destruct (decide (e = ERR_OK)) as [->|Hne].
  - set (s2 := upd _ s1). destruct (sending_ok b s2) as (e & s3 & -> & Ho & F).
    { subst s2. simpl. by destruct Hok; split. }
    { subst s2. simpl. by destruct (decide (state (pcb s) = CLOSE_WAIT)). }
    cbn [mbind outcome_bind]. destruct (of_same _ _ F) as (E & E2 & _). exists ERR_OK, s3. split_and!; try done.
    + unfold regs_same in *. rewrite E2. exact Hg.
    + rewrite E. subst s2. simpl. destruct (decide (state (pcb s) = CLOSE_WAIT)); auto.
    + congruence.
  - destruct He as [->| ->]; [done|]. rewrite decide_True by done. exists ERR_OK. eexists. split; [reflexivity|].
    split; [by destruct Hok; split|]. split_and!; try done; [by left|congruence].
Qed.

Lemma fasttmr_ok b s : pcb_ok (pcb s) -> is_active (state (pcb s)) = true ->
  exists s', fasttmr_pcb b s = Ret (tt, s') /\ pcb_ok (pcb s') /\ regs_same s s' /\ is_active (state (pcb s')) = true.
Proof.
  intros Hok Ha. unfold fasttmr_pcb.
  assert (exists s1, (if has (flags (pcb s)) TF_ACK_DELAY then
         '(_, s) ← tcp_output b (upd tcp_ack_now s);
         Ret (upd (tcp_clear_flags (Z.lor TF_ACK_DELAY TF_ACK_NOW)) s)
       else Ret s) = Ret s1 /\ pcb_ok (pcb s1) /\ regs_same s s1 /\ state (pcb s1) = state (pcb s)) as (s1 & -> & H1 & H2 & H3).
  { destruct (has _ _); [|by exists s]. destruct (sending_ok b (upd tcp_ack_now s)) as (e & s1 & -> & Ho & F).
    { by destruct Hok; split. } { simpl. intros E. by rewrite E in Ha. }
    cbn [mbind outcome_bind]. destruct (of_same _ _ F) as (E & E2 & _). eexists. split; [reflexivity|]. split; [by destruct Ho; split|].
    by split. }
  cbn [mbind outcome_bind]. destruct (has _ _).
  - destruct (close_fin_ok b (upd (tcp_clear_flags TF_CLOSEPEND) s1)) as (e & s2 & -> & G1 & G2 & _ & G3 & _).
    { by destruct H1; split. } { simpl. rewrite H3. intros E. by rewrite E in Ha. }
    cbn [mbind outcome_bind]. exists s2. split_and!; try done; [unfold regs_same in *; by rewrite G2|].
    simpl in G3. rewrite H3 in G3. by destruct G3 as [-> | [-> | ->]].
  - exists s1. split_and!; try done. by rewrite H3.
Qed.

(** ** The slow timer of a connection *)

(** What a retransmission leaves alone. *)
Record rt_frame s s' : Prop := {
  rf_ids : (state (pcb s'), mss (pcb s'), local_port (pcb s'), remote_port (pcb s'), remote_ip (pcb s'), is_bypass (pcb s'),
            refused_data (pcb s')) =
           (state (pcb s), mss (pcb s), local_port (pcb s), remote_port (pcb s), remote_ip (pcb s), is_bypass (pcb s),
            refused_data (pcb s));
  rf_rcv : (rcv_nxt (rcv (pcb s')), rcv_wnd (rcv (pcb s')), rcv_ann_wnd (rcv (pcb s')), ooseq (rcv (pcb s'))) =
           (rcv_nxt (rcv (pcb s)), rcv_wnd (rcv (pcb s)), rcv_ann_wnd (rcv (pcb s)), ooseq (rcv (pcb s)));
  rf_tim : (sa (tim (pcb s')), sv (tim (pcb s')), tmr (tim (pcb s')),
            keep_cnt_sent (tim (pcb s')), pollinterval (tim (pcb s')), polltmr (tim (pcb s')), keep_idle (tim (pcb s')),
            keepalive (tim (pcb s'))) =
           (sa (tim (pcb s)), sv (tim (pcb s)), tmr (tim (pcb s)),
            keep_cnt_sent (tim (pcb s)), pollinterval (tim (pcb s)), polltmr (tim (pcb s)), keep_idle (tim (pcb s)),
            keepalive (tim (pcb s)));
  rf_flags : Z.testbit (flags (pcb s')) 3 = Z.testbit (flags (pcb s)) 3 /\ Z.testbit (flags (pcb s')) 4 = Z.testbit (flags (pcb s)) 4;
  rf_regs : (tcp_ticks s', recv_flags s', recv_data s', recv_acked s') = (tcp_ticks s, recv_flags s, recv_data s, recv_acked s) }.
Lemma rf_refl s : rt_frame s s.
Proof. by split. Qed.
Lemma rf_trans s1 s2 s3 : rt_frame s1 s2 -> rt_frame s2 s3 -> rt_frame s1 s3.
Proof. intros [A1 A2 A3 [A4 A5] A6] [B1 B2 B3 [B4 B5] B6]. split; try congruence. split; congruence. Qed.
Lemma of_rf s s' : out_frame s s' -> rt_frame s s'.
Proof.
  intros [A1 A2 A3 A4 A5 A6 A7]. split; [|done| |done|done].
  - injection A1. intros. congruence.
  - injection A4. intros. congruence.
Qed.

(** All unacked segments are unsent again; the timer of the connection goes on. *)
Lemma prepare_cases p : let '(e, p') := tcp_rexmit_rto_prepare p in
  (e = ERR_OK /\ existsb seg_busy (unacked (snd p)) = false /\ unacked (snd p) <> [] /\
     (exists x, p' = set_rttest 0 (set_rto_end x (tcp_set_flags TF_RTO (set_unacked [] (set_unsent (queued p) p))))) ) \/
  (e = ERR_VAL /\ p' = p /\ (unacked (snd p) = [] \/ existsb seg_busy (unacked (snd p)) = true)).
Proof.
  unfold tcp_rexmit_rto_prepare. destruct (last (unacked (snd p))) as [g|] eqn:Hl; cycle 1.
  { right. split_and!; try done. left. by apply last_None in Hl. }
  destruct (existsb _ _) eqn:Hb; [by right; auto|]. left. split_and!; try done; [by intros H; rewrite H in Hl|by eexists].
Qed.

Lemma backed_off_ok p : pcb_ok p -> exists r, backed_off p = Ret r /\ 0 <= r <= 0x7fff.
Proof.
  intros [_ Hr]. unfold backed_off. rewrite (proj2 (Z.ltb_ge _ _)) by lia. set (b := _ + sv (tim p)) in *.
  assert (exists k, tcp_backoff !! Z.to_nat (Z.min (nrtx (tim p)) 12) = Some k /\ 0 <= k) as (k & -> & Hk).
  { assert (Z.to_nat (Z.min (nrtx (tim p)) 12) < 13)%nat as Hi by lia. revert Hi. generalize (Z.to_nat (Z.min (nrtx (tim p)) 12)).
    intros i Hi. do 13 (destruct i as [|i]; [by eexists|]). lia. }
  cbn [deref mbind outcome_bind]. eexists. split; [reflexivity|].
  assert (0 <= Z.shiftl b k) by (by apply Z.shiftl_nonneg). rewrite s16_small; lia.
Qed.

Lemma backed_off_value p r : backed_off p = Ret r -> 0 <= nrtx (tim p) ->
  r = Z.min ((Z.shiftr (sa (tim p)) 3 + sv (tim p)) * 2 ^ Z.min (nrtx (tim p) + 1) 7) 0x7fff.
Proof.
  unfold backed_off. set (b := _ + sv (tim p)). destruct (Z.ltb_spec b 0) as [|Hb]; [done|]. intros Hr Hn.
  assert (tcp_backoff !! Z.to_nat (Z.min (nrtx (tim p)) 12) = Some (Z.min (nrtx (tim p) + 1) 7)) as Ek.
  { set (k := nrtx (tim p)) in *. clearbody k. assert (k < 12 \/ 12 <= k) as [Hk|Hk] by lia.
    - rewrite <- (Z2Nat.id k Hn) in *. generalize dependent (Z.to_nat k). clear. intros i _ Hi. do 12 (destruct i as [|i]; [done|]). lia.
    - by rewrite !Z.min_r by lia. }
  rewrite Ek in Hr. cbn [deref mbind outcome_bind] in Hr. injection Hr as <-. rewrite Z.shiftl_mul_pow2 by lia.
  assert (0 <= b * 2 ^ Z.min (nrtx (tim p) + 1) 7) by (apply Z.mul_nonneg_nonneg; [done|apply Z.pow_nonneg; lia]). rewrite s16_small; lia.
Qed.

Lemma rto_windows_cng p : exists c, rto_windows p = set_cng c p /\ cwnd c = mss p.
Proof. unfold rto_windows. destruct (_ <? _); by eexists. Qed.

(** What starts after the time-out: windows and timers are set, everything that waits is sent again. *)
Lemma retransmit_cases b s : pcb_ok (pcb s) -> state (pcb s) <> LISTEN ->
  exists s', slowtmr_retransmit b s = Ret s' /\ pcb_ok (pcb s') /\ rt_frame s s'.
Proof.
  intros Hok Hst. unfold slowtmr_retransmit. set (s1 := if (_ && _) then _ else s).
  assert (rt_frame s s1 /\ pcb_ok (pcb s1)) as [F1 O1]. { subst s1. destruct (_ && _); [|by split; [apply rf_refl|]]. destruct Hok. by split. }
  clearbody s1. destruct (rto _ <=? _); [|by exists s1].
  assert (state (pcb s1) <> LISTEN) as Hst1 by (destruct F1 as [[= ->] _ _ _ _]; done).
  pose proof (prepare_cases (pcb s1)) as Hp. destruct (tcp_rexmit_rto_prepare (pcb s1)) as [e p1].
  assert (rt_frame s1 (set_pcb p1 s1) /\ pcb_ok p1) as [F2 O2].
  { destruct Hp as [(-> & _ & _ & x & ->)|(-> & -> & _)]; [|by destruct s1; split].
    split; [|destruct O1; by split]. split; try done. split; by apply (flag_set _ _ (set_unacked [] (set_unsent (queued (pcb s1)) (pcb s1)))). }
  clear Hp. assert (rt_frame s (set_pcb p1 s1)) as F3 by (by eapply rf_trans). destruct (_ || _); [|eexists; by split].
  assert (state p1 <> LISTEN) as Hst2 by (destruct F2 as [[= E] _ _ _ _]; simpl in E; by rewrite E).
  assert (exists s2, (if decide (state p1 <> SYN_SENT) then r ← backed_off p1; Ret (upd (set_rto r) (set_pcb p1 s1)) else Ret (set_pcb p1 s1)) = Ret s2 /\
    rt_frame s s2 /\ pcb_ok (pcb s2) /\ state (pcb s2) <> LISTEN) as (s2 & -> & F4 & O4 & Hst4).
  { destruct (decide _); [|by eexists]. destruct (backed_off_ok p1 O2) as (r & -> & _). cbn [mbind outcome_bind].
    eexists. split; [reflexivity|]. split; [|by destruct O2; split]. eapply rf_trans; [exact F3|]. by split. }
  cbn [mbind outcome_bind]. unfold tcp_rexmit_rto_commit. set (s3 := if _ <? 0xff then _ else _).
  assert (rt_frame s2 s3 /\ pcb_ok (pcb s3)) as [F5 O5].
  { subst s3. assert (exists c, upd rto_windows (upd (set_rtime 0) s2) = upd (set_cng c) (upd (set_rtime 0) s2)) as [c ->].
    { unfold upd. simpl. destruct (rto_windows_cng (set_rtime 0 (pcb s2))) as (c & -> & _). by exists c. }
    destruct O4. by destruct (nrtx _ <? _). }
  clearbody s3. destruct (sending_ok b s3 O5) as (e' & s' & -> & O6 & F6).
  { destruct F5 as [[= ->] _ _ _ _]. done. }
  cbn [mbind outcome_bind]. exists s'. split_and!; try done. eapply rf_trans; [exact F4|]. eapply rf_trans; [exact F5|]. by apply of_rf.
Qed.

Lemma keepalive_frame s : let s' := (slowtmr_keepalive s).2 in
  (state (pcb s'), snd (pcb s'), flags (pcb s'), refused_data (pcb s'), ooseq (rcv (pcb s'))) =
  (state (pcb s), snd (pcb s), flags (pcb s), refused_data (pcb s), ooseq (rcv (pcb s))) /\
  set_keep_cnt_sent 0 (pcb s') = set_rcv_ann_right_edge (rcv_ann_right_edge (rcv (pcb s'))) (set_keep_cnt_sent 0 (pcb s)) /\
  (tcp_ticks s', recv_flags s', recv_data s', recv_acked s', segs_avail s') =
  (tcp_ticks s, recv_flags s, recv_data s, recv_acked s, segs_avail s).
Proof.
  unfold slowtmr_keepalive. assert (forall p, set_keep_cnt_sent 0 p = set_rcv_ann_right_edge (rcv_ann_right_edge (rcv p)) (set_keep_cnt_sent 0 p)) as Hid
    by (by intros [?????????[]???]).
  destruct (_ && _); [|by rewrite <- Hid]. destruct (_ <? _); [by rewrite <- Hid|]. destruct (_ <? _); [|by rewrite <- Hid].
  unfold tcp_keepalive, tcp_output_alloc_header. destruct (hdr_alloc (net s)) as [[] n].
  - simpl. destruct (output_control _ _ _ _) as [e m]. simpl. by destruct (decide _).
  - simpl. by rewrite <- Hid.
Qed.

Lemma keepalive_dead s : (slowtmr_keepalive s).1 =
  (keepalive (tim (pcb s)) && bool_decide (state (pcb s) = ESTABLISHED \/ state (pcb s) = CLOSE_WAIT)) && (keep_over (pcb s) <? idle_ticks s).
Proof.
  unfold slowtmr_keepalive. destruct (_ && _); [|done]. destruct (_ <? _); [done|]. destruct (_ <? _); [|done]. by destruct (tcp_keepalive s).
Qed.
Lemma ooseq_frame s : exists k, slowtmr_ooseq s = s \/ slowtmr_ooseq s = upd (set_ooseq []) (segs_freed k s).
Proof. unfold slowtmr_ooseq. destruct (_ && _); [|exists 0%nat; by left]. eexists. by right. Qed.

(** When a connection is given up. *)
Definition given_up s : bool :=
  retries_over (pcb s) || (keepalive (tim (pcb s)) && bool_decide (state (pcb s) = ESTABLISHED \/ state (pcb s) = CLOSE_WAIT) &&
    (keep_over (pcb s) <? idle_ticks s)) || stuck s.

Lemma slowtmr_pcb_ok b s : pcb_ok (pcb s) -> state (pcb s) <> LISTEN ->
  exists d s', slowtmr_pcb b s = Ret (given_up s, d, s') /\ pcb_ok (pcb s') /\ state (pcb s') = state (pcb s) /\ regs_same s s'.
Proof.
  intros Hok Hst. unfold slowtmr_pcb.
  assert (exists s1, (if retries_over (pcb s) then Ret s else slowtmr_retransmit b s) = Ret s1 /\ pcb_ok (pcb s1) /\ rt_frame s s1)
    as (s1 & -> & O1 & F1). { destruct (retries_over _); [exists s; split_and!; [done|done|apply rf_refl]|by apply retransmit_cases]. }
  cbn [mbind outcome_bind]. pose proof (keepalive_frame s1) as (K1 & Kp & K2). pose proof (keepalive_dead s1) as Kd.
  destruct (slowtmr_keepalive s1) as [d s2]. cbn [fst Datatypes.snd] in *.
  destruct F1 as [G1 G2 G3 [G4 G5] G6]. injection G1 as G1 _ _ _ _ _ _. injection G2 as _ _ _ Goo.
  injection G3 as Ga Gb Gc Gd Ge Gf Gg Gh. injection G6 as G6 G7 _ _.
  injection K1 as K1 Ks Kf Kr Ko. injection K2 as Kt Krf _ _ _.
  assert (tim (set_keep_cnt_sent 0 (pcb s2)) = tim (set_keep_cnt_sent 0 (pcb s1))) as Ht by (by rewrite Kp).
  destruct (ooseq_frame s2) as (k & Hoo). set (s3 := slowtmr_ooseq s2) in *.
  assert (state (pcb s3) = state (pcb s2) /\ snd (pcb s3) = snd (pcb s2) /\ tim (pcb s3) = tim (pcb s2) /\ flags (pcb s3) = flags (pcb s2) /\
    tcp_ticks s3 = tcp_ticks s2 /\ recv_flags s3 = recv_flags s2) as (E1 & E2 & E3 & E4 & E5 & E6) by (destruct Hoo as [-> | ->]; done).
  clearbody s3. clear Hoo.
  assert (sa (tim (pcb s2)) = sa (tim (pcb s1)) /\ sv (tim (pcb s2)) = sv (tim (pcb s1)) /\ tmr (tim (pcb s2)) = tmr (tim (pcb s1))) as (T1 & T2 & T3)
    by (by injection Ht).
  exists d, s3. split_and!; try congruence.
  - do 3 f_equal. unfold given_up. f_equal; [f_equal|].
    + rewrite Kd. unfold keep_over, idle_ticks. by rewrite Gh, G1, Gg, G6, Gc.
    + unfold stuck, idle_ticks. rewrite E1, K1, G1, E5, Kt, G6, E3, T3, Gc, E4, Kf.
      change TF_RXCLOSED with (2 ^ 4). by rewrite !has_pow2, G5 by lia.
  - destruct O1 as [P1 P2]. split; unfold queued; [by rewrite E2, Ks|]. by rewrite E3, T1, T2.
Qed.

Lemma purged_ok s : is_active (state (pcb s)) = true -> let s' := tcp_pcb_purge s in
  pcb s' = set_unsent [] (set_unacked [] (set_rtime (-1) (set_ooseq [] (set_refused_data None (pcb s))))) /\ regs_same s s' /\
  segs_avail s' = segs_avail s + Z.of_nat (length (queued (pcb s)) + length (ooseq (rcv (pcb s)))).
Proof.
  intros Ha. unfold tcp_pcb_purge. rewrite decide_True by (destruct (state (pcb s)); done). simpl.
  split_and!; [done|done|]. unfold queued. rewrite length_app. lia.
Qed.
Lemma slowtmr_purge_ok d s : is_active (state (pcb s)) = true -> exists s', slowtmr_purge d s = Ret (tt, s') /\
  pcb s' = pcb (tcp_pcb_purge s) /\ regs_same s s' /\ segs_avail s' = segs_avail (tcp_pcb_purge s).
Proof.
  intros Ha. unfold slowtmr_purge. destruct (purged_ok s Ha) as (_ & Hr & _). set (s1 := tcp_pcb_purge s) in *. clearbody s1.
  destruct d; [|by exists s1]. unfold tcp_rst. destruct (hdr_alloc (net s1)) as [[] n]; simpl; [|by eexists].
  destruct (output_control _ _ _ _). by eexists.
Qed.
End pcb.
