(* ===== verification/TcpStackOk.v ===== *)
(** * The lists of control blocks

    The rules that [tcp_priv.h] states for the lists, as an invariant: a control block that is not closed is in
    exactly the list of its state, no list has it twice, and what is free is in no list. Closing, shutting down
    and aborting keep it. *)

From stdpp Require Import gmap.
From S2P Require Import Prelude Chain Tcp TcpAck TcpOpt TcpProcess TcpOut TcpStack TcpTimer TcpTimerOk.

(** ** Lists *)

Lemma rmv_notin l a : a ∉ l -> TCP_RMV l a = l.
Proof.
  induction l as [|b l IH]; intros H; simpl; [done|]. rewrite not_elem_of_cons in H. destruct H as [Hb Hl].
  destruct (Z.eqb_spec b a); [congruence|]. by rewrite IH.
Qed.
Lemma elem_of_rmv l a b : NoDup l -> b ∈ TCP_RMV l a <-> b ∈ l /\ b <> a.
Proof.
  induction 1 as [|c l Hc Hn IH]; simpl; [set_solver|]. destruct (Z.eqb_spec c a) as [->|Hne]; rewrite ?elem_of_cons, ?IH; set_solver.
Qed.
Lemma nodup_rmv l a : NoDup l -> NoDup (TCP_RMV l a).
Proof.
  induction 1 as [|c l Hc Hn IH]; simpl; [constructor|]. destruct (Z.eqb_spec c a); [done|]. constructor; [|done].
  rewrite elem_of_rmv by done. tauto.
Qed.

(** ** The invariant *)

Section invariant.
  Context {N : Type}.
  Implicit Type t : stack N.

Definition state_at (a : Z) t : option tcp_state := (fun b => state (tcb b)) <$> blocks t !! a.

(** Nothing is queued. *)
Definition idle_pcb (p : tcp_pcb) : Prop := queued p = [] /\ ooseq (rcv p) = [].

Record stack_ok t : Prop := {
  sk_nodup : NoDup (active_pcbs t) /\ NoDup (tw_pcbs t) /\ NoDup (bound_pcbs t) /\ NoDup (listen_pcbs t);
  sk_active a : a ∈ active_pcbs t <-> exists st, state_at a t = Some st /\ is_active st = true;
  sk_tw a : a ∈ tw_pcbs t <-> state_at a t = Some TIME_WAIT;
  sk_listen a : a ∈ listen_pcbs t <-> state_at a t = Some LISTEN;
  sk_bound a : a ∈ bound_pcbs t -> exists b, blocks t !! a = Some b /\ state (tcb b) = CLOSED /\ local_port (tcb b) <> 0;
  sk_pcbs a b : blocks t !! a = Some b -> pcb_ok (tcb b) /\ (is_active (state (tcb b)) = false -> idle_pcb (tcb b));
  sk_free : NoDup (free_tcp t ++ free_listen t) /\ forall a, a ∈ free_tcp t ++ free_listen t -> blocks t !! a = None }.

(** What the invariant is about. *)
Definition parts t := (blocks t, (active_pcbs t, tw_pcbs t, bound_pcbs t, listen_pcbs t), (free_tcp t, free_listen t)).
Lemma stack_ok_ext t t' : parts t' = parts t -> stack_ok t -> stack_ok t'.
Proof.
  intros [= E1 E2 E3 E4 E5 E6 E7] []. split; unfold state_at in *; rewrite ?E1, ?E2, ?E3, ?E4, ?E5, ?E6, ?E7; done.
Qed.

Lemma at_pcb_run {A} a (f : input N -> outcome (A * input N)) t b r s : blocks t !! a = Some b ->
  f (set_pcb (tcb b) (regs t)) = Ret (r, s) ->
  at_pcb a f t = Ret (r, set_regs s (set_blocks (<[a := set_tcb (pcb s) b]> (blocks t)) t)).
Proof. intros H1 H2. unfold at_pcb. rewrite H1. cbn [deref mbind outcome_bind]. by rewrite H2. Qed.
Lemma pcb_at_run a t b : blocks t !! a = Some b -> pcb_at a t = Ret (tcb b).
Proof. intros H. unfold pcb_at. by rewrite H. Qed.

(** A block may change as long as it belongs into the same list. *)
Definition same_list (st st' : tcp_state) : Prop := st' = st \/ (is_active st = true /\ is_active st' = true).
Lemma stack_ok_update t a b b' t' : stack_ok t -> blocks t !! a = Some b -> same_list (state (tcb b)) (state (tcb b')) ->
  (state (tcb b) = CLOSED -> local_port (tcb b') = local_port (tcb b)) -> pcb_ok (tcb b') ->
  (is_active (state (tcb b')) = false -> idle_pcb (tcb b')) ->
  parts t' = (<[a := b']> (blocks t), (active_pcbs t, tw_pcbs t, bound_pcbs t, listen_pcbs t), (free_tcp t, free_listen t)) ->
  stack_ok t'.
Proof.
  intros [I1 I2 I3 I4 I5 I6 [I7 I8]] Hb Hl Hc Hp Hi [= E1 E2 E3 E4 E5 E6 E7].
  assert (forall c, state_at c t' = if decide (c = a) then Some (state (tcb b')) else state_at c t) as Hst.
  { intros c. unfold state_at. rewrite E1. destruct (decide (c = a)) as [->|]; [by rewrite lookup_insert_eq|by rewrite lookup_insert_ne]. }
  assert (state_at a t = Some (state (tcb b))) as Ha by (unfold state_at; by rewrite Hb).
  assert (forall st, is_active st = false -> state_at a t = Some st <-> Some (state (tcb b')) = Some st) as Hsame.
  { intros st Hst'. rewrite Ha. destruct Hl as [->|[H1 H2]]; [done|]. split; intros [= <-]; congruence. }
  split; rewrite ?E2, ?E3, ?E4, ?E5, ?E6, ?E7; try done.
  - intros c. rewrite Hst, I2. destruct (decide (c = a)) as [->|]; [|done]. rewrite Ha.
    destruct Hl as [->|[H1 H2]]; [done|]. split; intros _; by eexists.
  - intros c. rewrite Hst, I3. destruct (decide (c = a)) as [->|]; [|done]. by apply Hsame.
  - intros c. rewrite Hst, I4. destruct (decide (c = a)) as [->|]; [|done]. by apply Hsame.
  - intros c Hin. rewrite E1. destruct (I5 c Hin) as (bc & H1 & H2 & H3). destruct (decide (c = a)) as [->|Hne].
    + rewrite lookup_insert_eq. exists b'. simplify_eq. split; [done|]. rewrite (Hc H2). split; [|done].
      destruct Hl as [->|[H4 _]]; [done|]. by rewrite H2 in H4.
    + rewrite lookup_insert_ne by done. by exists bc.
  - intros c bc. rewrite E1. destruct (decide (c = a)) as [->|]; [rewrite lookup_insert_eq; by intros [= <-]|].
    rewrite lookup_insert_ne by done. apply I6.
  - split; [done|]. intros c Hin. rewrite E1. destruct (decide (c = a)) as [->|]; [by rewrite I8 in Hb|].
    rewrite lookup_insert_ne by done. by apply I8.
Qed.

(** A block is freed and taken from the lists. *)
Lemma stack_ok_gone t a b t' : stack_ok t -> blocks t !! a = Some b -> state (tcb b) <> LISTEN ->
  parts t' = (delete a (blocks t), (TCP_RMV (active_pcbs t) a, TCP_RMV (tw_pcbs t) a, TCP_RMV (bound_pcbs t) a, listen_pcbs t),
              (a :: free_tcp t, free_listen t)) ->
  stack_ok t'.
Proof.
  intros [(N1 & N2 & N3 & N4) I2 I3 I4 I5 I6 [I7 I8]] Hb Hl [= E1 E2 E3 E4 E5 E6 E7].
  assert (forall c, state_at c t' = if decide (c = a) then None else state_at c t) as Hst.
  { intros c. unfold state_at. rewrite E1. destruct (decide (c = a)) as [->|]; [by rewrite lookup_delete_eq|by rewrite lookup_delete_ne]. }
  assert (state_at a t = Some (state (tcb b))) as Ha by (unfold state_at; by rewrite Hb).
  split; rewrite ?E2, ?E3, ?E4, ?E5, ?E6, ?E7.
  - split_and!; by try apply nodup_rmv.
  - intros c. rewrite Hst, elem_of_rmv, I2 by done. destruct (decide (c = a)); naive_solver.
  - intros c. rewrite Hst, elem_of_rmv, I3 by done. destruct (decide (c = a)); naive_solver.
  - intros c. rewrite Hst, I4. destruct (decide (c = a)) as [->|]; [|done]. rewrite Ha. naive_solver.
  - intros c. rewrite elem_of_rmv, E1 by done. intros [Hin Hne]. rewrite lookup_delete_ne by done. by apply I5.
  - intros c bc. rewrite E1. intros [_ H]%lookup_delete_Some. by eapply I6.
  - split.
    + simpl. constructor; [|done]. intros Hin. by rewrite I8 in Hb.
    + intros c. simpl. rewrite E1, elem_of_cons. intros [->|Hin]; [by rewrite lookup_delete_eq|].
      destruct (decide (c = a)) as [->|]; [by rewrite lookup_delete_eq|]. rewrite lookup_delete_ne by done. by apply I8.
Qed.

(** Where a block is not. *)
Lemma not_active t a b : stack_ok t -> blocks t !! a = Some b -> is_active (state (tcb b)) = false -> a ∉ active_pcbs t.
Proof. intros Hok Hb Ha Hin. apply (sk_active _ Hok) in Hin as (st & H1 & H2). unfold state_at in H1. rewrite Hb in H1. simpl in H1. congruence. Qed.
Lemma not_tw t a b : stack_ok t -> blocks t !! a = Some b -> state (tcb b) <> TIME_WAIT -> a ∉ tw_pcbs t.
Proof. intros Hok Hb Ha Hin. apply (sk_tw _ Hok) in Hin. unfold state_at in Hin. rewrite Hb in Hin. simpl in Hin. congruence. Qed.
Lemma not_bound t a b : stack_ok t -> blocks t !! a = Some b -> state (tcb b) <> CLOSED \/ local_port (tcb b) = 0 -> a ∉ bound_pcbs t.
Proof. intros Hok Hb Ha Hin. apply (sk_bound _ Hok) in Hin as (b' & H1 & H2 & H3). rewrite Hb in H1. simplify_eq. tauto. Qed.
Lemma active_block t a : stack_ok t -> a ∈ active_pcbs t -> exists b, blocks t !! a = Some b /\ is_active (state (tcb b)) = true /\ pcb_ok (tcb b).
Proof.
  intros Hok Hin. pose proof Hin as (st & H1 & H2)%(sk_active _ Hok). unfold state_at in H1. destruct (blocks t !! a) as [b|] eqn:Hb; [|done].
  injection H1 as <-. exists b. split_and!; try done. by apply (sk_pcbs _ Hok a b).
Qed.

(** ** What a call does to the stack *)

(** A connection that the current run of a timer has not seen. *)
Definition todo (a : Z) t : Prop := exists b, blocks t !! a = Some b /\ is_active (state (tcb b)) = true /\ last_timer b <> timer_ctr t.

(** What the application does with calls of the interface: the invariant holds again, a changed list of active
    connections is known to be changed, and new connections count as seen. *)
Record app_step t t' : Prop := {
  as_ok : stack_ok t';
  as_vars : (timer_ctr t', tcp_timer t', tcp_input_pcb t', tcp_ticks (regs t')) = (timer_ctr t, tcp_timer t, tcp_input_pcb t, tcp_ticks (regs t));
  as_changed : pcbs_changed t' = false -> pcbs_changed t = false /\ active_pcbs t' = active_pcbs t;
  as_todo a : todo a t' -> todo a t }.

Lemma as_refl t : stack_ok t -> app_step t t.
Proof. by split. Qed.
Lemma as_trans t1 t2 t3 : app_step t1 t2 -> app_step t2 t3 -> app_step t1 t3.
Proof.
  intros [A1 A2 A3 A4] [B1 B2 B3 B4]. split; [done|congruence| |auto].
  intros H. destruct (B3 H) as [H1 H2]. destruct (A3 H1) as [H3 H4]. split; congruence.
Qed.

(** The variables that only timers and input change. *)
Definition vars t := (timer_ctr t, tcp_timer t, tcp_input_pcb t, tcp_ticks (regs t)).

Lemma as_update t a b b' t' : stack_ok t -> blocks t !! a = Some b -> same_list (state (tcb b)) (state (tcb b')) ->
  (state (tcb b) = CLOSED -> local_port (tcb b') = local_port (tcb b)) -> pcb_ok (tcb b') ->
  (is_active (state (tcb b')) = false -> idle_pcb (tcb b')) -> last_timer b' = last_timer b ->
  parts t' = (<[a := b']> (blocks t), (active_pcbs t, tw_pcbs t, bound_pcbs t, listen_pcbs t), (free_tcp t, free_listen t)) ->
  vars t' = vars t -> (pcbs_changed t' = false -> pcbs_changed t = false) -> app_step t t'.
Proof.
  intros Hok Hb Hl Hc Hp Hi Ht E V C. split; [by eapply stack_ok_update|done| |].
  - injection E as E1 E2 E3 E4 E5 E6 E7. intros H. auto.
  - injection E as E1 E2 E3 E4 E5 E6 E7. injection V as V1 _ _ _. intros c (bc & H1 & H2 & H3). rewrite E1 in H1. rewrite V1 in H3.
    destruct (decide (c = a)) as [->|Hne]; [|rewrite lookup_insert_ne in H1 by done; by exists bc].
    rewrite lookup_insert_eq in H1. injection H1 as <-. exists b. split_and!; [done| |congruence].
    destruct Hl as [Hl|[Hl _]]; congruence.
Qed.
Lemma as_gone t a b t' : stack_ok t -> blocks t !! a = Some b -> state (tcb b) <> LISTEN ->
  parts t' = (delete a (blocks t), (TCP_RMV (active_pcbs t) a, TCP_RMV (tw_pcbs t) a, TCP_RMV (bound_pcbs t) a, listen_pcbs t),
              (a :: free_tcp t, free_listen t)) ->
  vars t' = vars t -> (pcbs_changed t' = false -> pcbs_changed t = false /\ is_active (state (tcb b)) = false) -> app_step t t'.
Proof.
  intros Hok Hb Hl E V C. split; [by eapply stack_ok_gone|done| |].
  - injection E as E1 E2 E3 E4 E5 E6 E7. intros H. destruct (C H) as [H1 H2]. split; [done|]. rewrite E2. apply rmv_notin. by eapply not_active.
  - injection E as E1 E2 E3 E4 E5 E6 E7. injection V as V1 _ _ _. intros c (bc & H1 & H2 & H3). rewrite E1 in H1. rewrite V1 in H3.
    apply lookup_delete_Some in H1 as [_ H1]. by exists bc.
Qed.
End invariant.

(** A FIN waits behind data that were refused. *)
Definition fin_waits {N} (a : Z) (t : stack N) : bool := default false (refused_fin <$> blocks t !! a).
(** What the application's callbacks may do. The one for data may also close the connection and say [ERR_OK], or abort it and say [ERR_ABRT]; if it
    says that the data are refused, the connection is still there, and also if it takes data behind which a FIN waits. *)
Class TcpEventsLaws (N : Type) `{!TcpEvents N} := {
  err_step a e (t : stack N) : stack_ok t -> tcp_input_pcb t = None -> app_step t (ev_err a e t);
  poll_step a (t : stack N) : stack_ok t -> tcp_input_pcb t = None -> a ∈ active_pcbs t -> app_step t (ev_poll a t).2;
  recv_step a d (t : stack N) : stack_ok t -> tcp_input_pcb t = None -> is_Some (blocks t !! a) -> app_step t (ev_recv a d t).2 /\
    ((ev_recv a d t).1 <> ERR_ABRT -> ((ev_recv a d t).1 = ERR_OK -> fin_waits a t = true /\ d <> None) -> is_Some (blocks (ev_recv a d t).2 !! a)) }.

Section calls.
  Context {N : Type} `{!TcpNet N} `{!TcpBufs N} `{!TcpLink N} `{!TcpEvents N} `{!TcpEventsLaws N}.
  Implicit Type s : input N.
  Implicit Type t : stack N.

Lemma forall_false {A} (l : list A) : Forall (fun _ => False) l <-> l = [].
Proof. split; [by destruct 1|by intros ->]. Qed.

(** ** Removing *)

Lemma remove_rest_ok i s : pcb_ok (pcb s) -> (is_active (state (pcb s)) = false -> idle_pcb (pcb s)) ->
  exists s', remove_rest i s = Ret (tt, s') /\ state (pcb s') = CLOSED /\ pcb_ok (pcb s') /\ regs_same s s'.
Proof.
  intros Hok Hi. unfold remove_rest. set (s1 := tcp_pcb_purge s).
  assert (pcb_ok (pcb s1) /\ idle_pcb (pcb s1) /\ state (pcb s1) = state (pcb s) /\ regs_same s s1) as (O1 & I1 & E1 & R1).
  { subst s1. destruct (is_active (state (pcb s))) eqn:Ha.
    - destruct (purged_ok s Ha) as (-> & Hr & _). split_and!; try done. destruct Hok. split; [by constructor|done].
    - unfold tcp_pcb_purge. rewrite decide_False; [by split; [|split; [apply Hi|]]|]. intros H. destruct (state (pcb s)); naive_solver. }
  clearbody s1.
  assert (exists s2, (if bool_decide (state (pcb s1) <> TIME_WAIT /\ state (pcb s1) <> LISTEN) && has (flags (pcb s1)) TF_ACK_DELAY
       then '(_, s) ← tcp_output i (upd tcp_ack_now s1); Ret s else Ret s1) = Ret s2 /\ pcb_ok (pcb s2) /\ idle_pcb (pcb s2) /\ regs_same s s2)
    as (s2 & -> & O2 & I2 & R2).
  { destruct (bool_decide_reflect (state (pcb s1) <> TIME_WAIT /\ state (pcb s1) <> LISTEN)) as [[_ Hl]|]; [|by exists s1].
    destruct (has _ _); [|by exists s1]. cbn [andb].
    destruct (sending_ok i (upd tcp_ack_now s1)) as (e & s2 & H & O2 & F2); [by destruct O1; split|done|]. rewrite H. cbn [mbind outcome_bind].
    exists s2. split_and!; try done; [|destruct (of_same _ _ F2) as (_ & R & _); unfold regs_same in *; by rewrite R].
    destruct I1 as [Q1 Q2]. split; [|destruct F2 as [_ [= _ _ _ ->] _ _ _ _ _]; done].
    apply forall_false. eapply (output_kept (fun _ => False)); [done|exact H|by apply forall_false]. }
  cbn [mbind outcome_bind]. destruct I2 as [[Q1 Q2]%app_eq_nil Q3]. rewrite Q1, Q2, Q3, !(bool_decide_true ([] = [])) by done. rewrite !orb_true_r.
  cbn [lwip_assert mbind outcome_bind]. eexists. split; [reflexivity|]. split; [done|]. split; [by destruct O2; split|done].
Qed.

Lemma pcb_free_run a t b : blocks t !! a = Some b -> state (tcb b) <> LISTEN ->
  pcb_free a t = Ret (set_free_tcp (a :: free_tcp t) (set_blocks (delete a (blocks t)) t)).
Proof. intros Hb Hl. unfold pcb_free. rewrite (pcb_at_run _ _ _ Hb). cbn [mbind outcome_bind]. by rewrite (bool_decide_false _ Hl). Qed.

Lemma pcb_remove_run a t b : blocks t !! a = Some b -> pcb_ok (tcb b) -> (is_active (state (tcb b)) = false -> idle_pcb (tcb b)) ->
  exists s, pcb_remove a t = Ret (set_regs s (set_blocks (<[a := set_tcb (pcb s) b]> (blocks t)) t)) /\
    state (pcb s) = CLOSED /\ pcb_ok (pcb s) /\ tcp_ticks s = tcp_ticks (regs t).
Proof.
  intros Hb Ho Hi. destruct (remove_rest_ok (is_input a t) (set_pcb (tcb b) (regs t))) as (s & H & H1 & H2 & H3); [done|done|].
  exists s. unfold pcb_remove. rewrite (at_pcb_run _ _ _ _ _ _ Hb H). injection H3 as H3 _. by split_and!.
Qed.

Lemma abandon_rest_run r q k l s : exists s', abandon_rest r q k l s = Ret (tt, s') /\ pcb s' = pcb s /\ tcp_ticks s' = tcp_ticks s.
Proof.
  unfold abandon_rest. simpl. destruct r; [|by eexists]. unfold tcp_rst. destruct (hdr_alloc _) as [[] n]; simpl; [|by eexists].
  destruct (output_control _ _ _ _). by eexists.
Qed.

(** ** Aborting *)

(** The state [t1] before the callback, if there is one. *)
Lemma abandon_run a r t b : stack_ok t -> blocks t !! a = Some b -> state (tcb b) <> LISTEN ->
  exists t1, app_step t t1 /\ blocks t1 !! a = None /\ abandon a r t = Ret (if decide (state (tcb b) = TIME_WAIT) then t1 else ev_err a ERR_ABRT t1).
Proof.
  intros Hok Hb Hl. destruct (sk_pcbs _ Hok _ _ Hb) as [Ho Hi]. unfold abandon. rewrite (pcb_at_run _ _ _ Hb). cbn [mbind outcome_bind].
  rewrite (bool_decide_false _ Hl). cbn [negb lwip_assert mbind outcome_bind]. destruct (decide (state (tcb b) = TIME_WAIT)) as [Htw|Htw].
  { destruct (pcb_remove_run a (set_tw (TCP_RMV (tw_pcbs t) a) t) b) as (s & -> & H1 & H2 & H3); [done|done|done|]. cbn [mbind outcome_bind].
    erewrite pcb_free_run; [|simpl; apply lookup_insert_eq|by simpl; rewrite H1]. eexists. split; [|split; [|reflexivity]; simpl; apply lookup_delete_eq].
    apply (as_gone t a b); try done; simpl.
    - unfold parts. simpl. rewrite delete_insert_eq, (rmv_notin (active_pcbs t)), (rmv_notin (bound_pcbs t)); [done|..].
      + eapply not_bound; [done|done|left; congruence].
      + eapply not_active; [done|done|by rewrite Htw].
    - unfold vars. simpl. by rewrite H3.
    - by rewrite Htw. }
  assert (exists sr lp t1 b1, (if decide (state (tcb b) = CLOSED) then
         Ret (false, 0, if negb (local_port (tcb b) =? 0) then set_bound (TCP_RMV (bound_pcbs t) a) t else t)
       else t ← remove_active a t; Ret (r, local_port (tcb b), t)) = Ret (sr, lp, t1) /\
    parts t1 = (<[a := b1]> (blocks t), (TCP_RMV (active_pcbs t) a, TCP_RMV (tw_pcbs t) a, TCP_RMV (bound_pcbs t) a, listen_pcbs t), (free_tcp t, free_listen t)) /\
    state (tcb b1) = CLOSED /\ vars t1 = vars t /\ (pcbs_changed t1 = false -> pcbs_changed t = false /\ is_active (state (tcb b)) = false))
    as (sr & lp & t1 & b1 & -> & P1 & S1 & V1 & C1).
  { assert (TCP_RMV (tw_pcbs t) a = tw_pcbs t) as Htw' by (apply rmv_notin; by eapply not_tw).
    destruct (decide (state (tcb b) = CLOSED)) as [Hc|Hc].
    - eexists _, _, _, b. split; [reflexivity|]. rewrite (rmv_notin (active_pcbs t)) by (eapply not_active; [done|done|by rewrite Hc]).
      rewrite Htw', insert_id, Hc by done. destruct (Z.eqb_spec (local_port (tcb b)) 0) as [Hp|Hp]; cbn [negb]; [|by split_and!].
      rewrite (rmv_notin (bound_pcbs t)) by (eapply not_bound; [done|done|by right]). by split_and!.
    - unfold remove_active. destruct (pcb_remove_run a (set_active (TCP_RMV (active_pcbs t) a) t) b) as (s & -> & H1 & H2 & H3); [done|done|done|].
      cbn [mbind outcome_bind]. eexists _, _, _, (set_tcb (pcb s) b). split; [reflexivity|]. unfold parts, vars. simpl.
      rewrite Htw', H3, (rmv_notin (bound_pcbs t)) by (eapply not_bound; [done|done|by left]). by split_and!. }
  cbn [mbind outcome_bind]. injection P1 as E1 E2 E3 E4 E5 E6 E7.
  assert (blocks t1 !! a = Some b1) as Hb1 by (rewrite E1; apply lookup_insert_eq).
  destruct (abandon_rest_run sr (snd_nxt (snd (tcb b))) (rcv_nxt (rcv (tcb b))) lp (set_pcb (tcb b1) (regs t1))) as (s2 & H2 & Hs2 & Ht2).
  rewrite (at_pcb_run _ _ _ _ _ _ Hb1 H2). cbn [mbind outcome_bind].
  erewrite pcb_free_run; [|simpl; apply lookup_insert_eq|by simpl; rewrite Hs2; simpl; rewrite S1]. cbn [mbind outcome_bind].
  set (t2 := set_free_tcp _ _). exists t2. split; [|split; [|done]; simpl; apply lookup_delete_eq].
  apply (as_gone t a b); try done; subst t2; simpl.
  - unfold parts. simpl. by rewrite delete_insert_eq, E1, E2, E3, E4, E5, E6, E7, delete_insert_eq.
  - unfold vars in *. simpl. by rewrite Ht2.
Qed.
Lemma abandon_ok a r t b : stack_ok t -> tcp_input_pcb t = None -> blocks t !! a = Some b -> state (tcb b) <> LISTEN ->
  exists t', abandon a r t = Ret t' /\ app_step t t'.
Proof.
  intros Hok Hin Hb Hl. destruct (abandon_run a r t b) as (t1 & A & _ & ->); [done..|]. eexists. split; [reflexivity|]. destruct (decide _); [done|].
  eapply as_trans; [exact A|]. apply err_step; [apply A|]. pose proof (as_vars _ _ A) as [= _ _ -> _]. done.
Qed.

(** ** Closing *)

(** Only [listener] fields have changed. *)
Definition relisted t t' : Prop := (exists m, t' = set_blocks m t) /\ forall c,
  (fun b => (tcb b, last_timer b)) <$> blocks t' !! c = (fun b => (tcb b, last_timer b)) <$> blocks t !! c.
Lemma relisted_trans t1 t2 t3 : relisted t1 t2 -> relisted t2 t3 -> relisted t1 t3.
Proof. intros [[m1 ->] H1] [[m2 ->] H2]. split; [by exists m2|]. intros c. by rewrite H2, H1. Qed.
Lemma remove_listener_ok l a : forall t, relisted t (remove_listener l a t).
Proof.
  unfold remove_listener. induction l as [|q l IH]; intros t; simpl; [split; [exists (blocks t); by destruct t|done]|].
  eapply relisted_trans; [|apply IH]. split; [by eexists|]. intros c. unfold alter_block. simpl.
  destruct (decide (q = c)) as [->|]; [rewrite lookup_alter_eq|by rewrite lookup_alter_ne].
  destruct (blocks t !! c) as [b|]; [|done]. simpl. by destruct (decide _).
Qed.
Lemma listen_closed_ok a t : relisted t (tcp_listen_closed a t).
Proof. unfold tcp_listen_closed. eapply relisted_trans; [|apply remove_listener_ok]. eapply relisted_trans; apply remove_listener_ok. Qed.

Lemma relisted_block t t' a b' : relisted t t' -> blocks t' !! a = Some b' -> exists b, blocks t !! a = Some b /\ tcb b' = tcb b /\ last_timer b' = last_timer b.
Proof. intros [_ H] Hb. specialize (H a). rewrite Hb in H. destruct (blocks t !! a) as [b|]; [|done]. simpl in H. exists b. split; [done|]. by injection H as -> ->. Qed.
Lemma relisted_step t t' : stack_ok t -> relisted t t' -> app_step t t'.
Proof.
  intros Hok Hr. assert (forall c, state_at c t' = state_at c t) as Hst.
  { intros c. destruct Hr as [_ H]. specialize (H c). unfold state_at. destruct (blocks t' !! c), (blocks t !! c); simplify_eq/=; congruence. }
  pose proof (relisted_block t t') as Hb. pose proof Hr as [[m ->] H]. split; try done.
  - destruct Hok as [I1 I2 I3 I4 I5 I6 [I7 I8]]. split; try done; try (intros c; rewrite Hst); try done.
    + intros c Hin. destruct (I5 c Hin) as (b & H1 & H2). specialize (H c). rewrite H1 in H. simpl in *.
      destruct (m !! c) as [b'|]; [|done]. exists b'. simpl in H. injection H as -> _. done.
    + intros c b' Hb'. destruct (Hb c b' Hr Hb') as (b & H1 & -> & _). by eapply I6.
    + split; [done|]. intros c Hin. specialize (H c). simpl in *. rewrite (I8 c Hin) in H. by destruct (m !! c).
  - intros c (b' & H1 & H2 & H3). destruct (Hb c b' Hr H1) as (b & H4 & E1 & E2). exists b. rewrite E1 in H2. rewrite E2 in H3. by split_and!.
Qed.

(** A listener is freed. *)
Lemma gone_listen t a b t' : stack_ok t -> blocks t !! a = Some b -> state (tcb b) = LISTEN ->
  parts t' = (delete a (blocks t), (active_pcbs t, tw_pcbs t, bound_pcbs t, TCP_RMV (listen_pcbs t) a), (free_tcp t, a :: free_listen t)) ->
  vars t' = vars t -> pcbs_changed t' = pcbs_changed t -> app_step t t'.
Proof.
  intros Hok Hb Hl E V C. pose proof Hok as [(N1 & N2 & N3 & N4) I2 I3 I4 I5 I6 [I7 I8]]. injection E as E1 E2 E3 E4 E5 E6 E7.
  assert (forall c, state_at c t' = if decide (c = a) then None else state_at c t) as Hst.
  { intros c. unfold state_at. rewrite E1. destruct (decide (c = a)) as [->|]; [by rewrite lookup_delete_eq|by rewrite lookup_delete_ne]. }
  assert (state_at a t = Some LISTEN) as Ha by (unfold state_at; by rewrite Hb; simpl; rewrite Hl).
  split; [|done|intros; split; congruence|].
  - split; rewrite ?E2, ?E3, ?E4, ?E5, ?E6, ?E7.
    + split_and!; by try apply nodup_rmv.
    + intros c. rewrite Hst, I2. destruct (decide (c = a)) as [->|]; [|done]. rewrite Ha. naive_solver.
    + intros c. rewrite Hst, I3. destruct (decide (c = a)) as [->|]; [|done]. rewrite Ha. naive_solver.
    + intros c. rewrite Hst, elem_of_rmv, I4 by done. destruct (decide (c = a)); naive_solver.
    + intros c Hin. destruct (I5 c Hin) as (bc & H1 & H2 & H3). rewrite E1. destruct (decide (c = a)) as [->|]; [congruence|].
      rewrite lookup_delete_ne by done. by exists bc.
    + intros c bc. rewrite E1. intros [_ H]%lookup_delete_Some. by eapply I6.
    + assert (a ∉ free_tcp t ++ free_listen t) as Hn by (intros Hin; by rewrite I8 in Hb).
      split; [rewrite <- Permutation_middle; by constructor|]. intros c. rewrite E1, elem_of_app, elem_of_cons. intros Hin.
      destruct (decide (c = a)) as [->|Hne]; [by rewrite lookup_delete_eq|]. rewrite lookup_delete_ne by done. apply I8, elem_of_app. tauto.
  - injection V as V1 _ _ _. intros c (bc & H1 & H2 & H3). rewrite E1 in H1. rewrite V1 in H3. apply lookup_delete_Some in H1 as [_ H1]. by exists bc.
Qed.

Lemma close_reset_run s : has (flags (pcb s)) TF_RXCLOSED = true -> is_active (state (pcb s)) = true ->
  exists s', close_reset s = Ret (tt, s') /\ state (pcb s') = state (pcb s) /\ tcp_ticks s' = tcp_ticks s.
Proof.
  intros Hf Ha. unfold close_reset. rewrite Hf. cbn [lwip_assert mbind outcome_bind]. eexists. split; [reflexivity|].
  match goal with |- context [tcp_pcb_purge ?x] => assert (pcb x = pcb s /\ tcp_ticks x = tcp_ticks s) as [E1 E2]; [|set (s1 := x) in *] end.
  { unfold tcp_rst. destruct (hdr_alloc _) as [[] n]; simpl; [|done]. by destruct (output_control _ _ _ _). }
  clearbody s1. destruct (purged_ok s1) as (-> & [= -> _] & _); [by rewrite E1|]. simpl. by rewrite E1.
Qed.

Lemma shutdown_fin_at a t b : stack_ok t -> tcp_input_pcb t = None -> blocks t !! a = Some b -> state (tcb b) <> LISTEN ->
  exists t', close_fin_at a t = Ret (ERR_OK, t') /\ app_step t t'.
Proof.
  intros Hok Hin Hb Hl. destruct (sk_pcbs _ Hok _ _ Hb) as [Ho Hi].
  destruct (close_fin_ok (is_input a t) (set_pcb (tcb b) (regs t)) Ho Hl) as (e & s & H & H1 & H2 & -> & H3 & H4).
  unfold close_fin_at. rewrite (at_pcb_run _ _ _ _ _ _ Hb H). eexists. split; [reflexivity|].
  destruct (is_active (state (tcb b))) eqn:Ha.
  - apply (as_update t a b (set_tcb (pcb s) b)); try done; simpl.
    + destruct H3 as [-> | H3]; [by left|right]. split; [done|]. by destruct H3 as [-> | ->].
    + intros E. by rewrite E in Ha.
    + intros E. destruct H3 as [H3|[H3|H3]]; rewrite H3 in E; [|done..]. simpl in E. congruence.
    + injection H2 as H2 _. unfold vars. simpl. by rewrite H2.
  - rewrite (H4 Ha). apply (as_update t a b (set_tcb (tcb b) b)); try done; simpl; [by left|by auto].
Qed.

Lemma close_shutdown_ok a r t b : stack_ok t -> tcp_input_pcb t = None -> blocks t !! a = Some b ->
  (r = true -> has (flags (tcb b)) TF_RXCLOSED = true \/ state (tcb b) = LISTEN) ->
  exists e t', tcp_close_shutdown a r t = Ret (e, t') /\ app_step t t'.
Proof.
  intros Hok Hin Hb Hrx. destruct (sk_pcbs _ Hok _ _ Hb) as [Ho Hi]. unfold tcp_close_shutdown. rewrite (pcb_at_run _ _ _ Hb). cbn [mbind outcome_bind].
  destruct (r && data_unread (tcb b)) eqn:Hd.
  { apply andb_true_iff in Hd as [-> Hd]. unfold data_unread in Hd. apply andb_true_iff in Hd as [Hd%bool_decide_eq_true _].
    assert (is_active (state (tcb b)) = true) as Ha by (destruct Hd as [-> | ->]; done).
    assert (has (flags (tcb b)) TF_RXCLOSED = true) as Hf. { destruct Hrx as [|E]; [done|done|]. by rewrite E in Ha. }
    destruct (close_reset_run (set_pcb (tcb b) (regs t)) Hf Ha) as (s & H & H1 & H2).
    rewrite (at_pcb_run _ _ _ _ _ _ Hb H). cbn [mbind outcome_bind]. unfold is_input. simpl. rewrite Hin, bool_decide_false by done.
    erewrite pcb_free_run; [|simpl; apply lookup_insert_eq|simpl; rewrite H1; simpl; intros E; by rewrite E in Ha].
    cbn [mbind outcome_bind]. eexists _, _. split; [reflexivity|]. apply (as_gone t a b); try done; simpl.
    - intros E. by rewrite E in Ha.
    - unfold parts. simpl. rewrite delete_insert_eq, (rmv_notin (tw_pcbs t)), (rmv_notin (bound_pcbs t)); [done|..].
      + eapply not_bound; [done|done|left; intros E; by rewrite E in Ha].
      + eapply not_tw; [done|done|]. intros E. by rewrite E in Ha.
    - unfold vars. simpl. by rewrite H2. }
  assert (state (tcb b) <> LISTEN -> exists e t', close_fin_at a t = Ret (e, t') /\ app_step t t') as Hfin.
  { intros Hl. destruct (shutdown_fin_at a t b Hok Hin Hb Hl) as (t' & -> & H). by eexists _, t'. }
  destruct (state (tcb b)) eqn:Hst; try (by apply Hfin).
  - assert (TCP_RMV (active_pcbs t) a = active_pcbs t /\ TCP_RMV (tw_pcbs t) a = tw_pcbs t) as [E1 E2].
    { split; apply rmv_notin; [eapply not_active|eapply not_tw]; try done; by rewrite Hst. }
    set (t1 := if negb _ then _ else t).
    assert (parts t1 = (blocks t, (active_pcbs t, tw_pcbs t, TCP_RMV (bound_pcbs t) a, listen_pcbs t), (free_tcp t, free_listen t)) /\
      vars t1 = vars t /\ pcbs_changed t1 = pcbs_changed t) as ([= P1 P2 P3 P4 P5 P6 P7] & V1 & C1).
    { subst t1. destruct (Z.eqb_spec (local_port (tcb b)) 0); simpl; [|done]. rewrite (rmv_notin (bound_pcbs t)); [done|].
      eapply not_bound; [done|done|by right]. }
    clearbody t1. erewrite pcb_free_run; [|by rewrite P1|by rewrite Hst]. cbn [mbind outcome_bind]. eexists _, _. split; [reflexivity|].
    apply (as_gone t a b); try done; simpl; [by rewrite Hst|..].
    + unfold parts. simpl. by rewrite P1, P2, P3, P4, P5, P6, P7, E1, E2.
    + intros H. split; [congruence|by rewrite Hst].
  - pose proof (listen_closed_ok a t) as Hr. pose proof (relisted_step _ _ Hok Hr) as A1. set (t1 := tcp_listen_closed a t) in *. clearbody t1.
    assert (exists b1, blocks t1 !! a = Some b1 /\ state (tcb b1) = LISTEN) as (b1 & Hb1 & Hs1).
    { destruct Hr as [_ Hr]. specialize (Hr a). rewrite Hb in Hr. destruct (blocks t1 !! a) as [b1|]; [|done]. exists b1. split; [done|].
      simpl in Hr. injection Hr as -> _. done. }
    pose proof (as_ok _ _ A1) as Hok1. destruct (sk_pcbs _ Hok1 _ _ Hb1) as [Ho1 Hi1].
    destruct (pcb_remove_run a (set_listen (TCP_RMV (listen_pcbs t1) a) t1) b1 Hb1 Ho1 Hi1) as (s & -> & H1 & H2 & H3).
    cbn [mbind outcome_bind]. unfold pcb_free_listen. erewrite pcb_at_run; [|simpl; apply lookup_insert_eq]. cbn [mbind outcome_bind]. simpl.
    rewrite H1. simpl. eexists _, _. split; [reflexivity|]. eapply as_trans; [exact A1|].
    apply (gone_listen t1 a b1); try done; simpl.
    + unfold parts. simpl. by rewrite delete_insert_eq.
    + unfold vars. simpl. by rewrite H3.
  - unfold remove_active. destruct (pcb_remove_run a (set_active (TCP_RMV (active_pcbs t) a) t) b) as (s & -> & H1 & H2 & H3); try done; [by rewrite Hst|].
    cbn [mbind outcome_bind]. erewrite pcb_free_run; [|simpl; apply lookup_insert_eq|by simpl; rewrite H1].
    cbn [mbind outcome_bind]. eexists _, _. split; [reflexivity|]. apply (as_gone t a b); try done; simpl; [by rewrite Hst|..].
    + unfold parts. simpl. rewrite delete_insert_eq, (rmv_notin (tw_pcbs t)), (rmv_notin (bound_pcbs t)); [done|..].
      * eapply not_bound; [done|done|left; by rewrite Hst].
      * eapply not_tw; [done|done|by rewrite Hst].
    + unfold vars. simpl. by rewrite H3.
Qed.

(** A change of one connection that keeps its queues and its state. *)
Lemma alter_step a f t b : stack_ok t -> blocks t !! a = Some b ->
  (state (f (tcb b)), snd (f (tcb b)), ooseq (rcv (f (tcb b))), tim (f (tcb b)), local_port (f (tcb b))) =
    (state (tcb b), snd (tcb b), ooseq (rcv (tcb b)), tim (tcb b), local_port (tcb b)) ->
  let t' := alter_block (fun b => set_tcb (f (tcb b)) b) a t in
  app_step t t' /\ blocks t' !! a = Some (set_tcb (f (tcb b)) b) /\ tcp_input_pcb t' = tcp_input_pcb t.
Proof.
  intros Hok Hb E t'. injection E as E1 E2 E3 E4 E5. destruct (sk_pcbs _ Hok _ _ Hb) as [[Ho1 Ho2] Hi].
  assert (blocks t' = <[a := set_tcb (f (tcb b)) b]> (blocks t)) as Eb.
  { apply map_eq. intros c. subst t'. simpl. destruct (decide (c = a)) as [->|]; [by rewrite lookup_alter_eq, Hb, lookup_insert_eq|].
    by rewrite lookup_alter_ne, lookup_insert_ne by done. }
  split_and!; [|by rewrite Eb, lookup_insert_eq|done].
  apply (as_update t a b (set_tcb (f (tcb b)) b)); try done; simpl.
  - by left.
  - split; unfold queued; [by rewrite E2|by rewrite E4].
  - rewrite E1. intros Ha. destruct (Hi Ha) as [Q1 Q2]. split; [unfold queued; by rewrite E2|by rewrite E3].
  - unfold parts. by rewrite Eb.
Qed.

Lemma tcp_close_ok a t b : stack_ok t -> tcp_input_pcb t = None -> blocks t !! a = Some b ->
  exists e t', tcp_close a t = Ret (e, t') /\ app_step t t'.
Proof.
  intros Hok Hin Hb. unfold tcp_close. rewrite (pcb_at_run _ _ _ Hb). cbn [mbind outcome_bind].
  destruct (decide (state (tcb b) <> LISTEN)) as [Hl|Hl].
  - destruct (alter_step a (tcp_set_flags TF_RXCLOSED) t b Hok Hb) as (A1 & Hb1 & Hin1); [done|].
    change (alter_block _ a t) with (set_flags_at TF_RXCLOSED a t) in *. set (t1 := set_flags_at _ _ t) in *. clearbody t1.
    edestruct (close_shutdown_ok a true t1) as (e & t2 & -> & A2); [by destruct A1|congruence|exact Hb1| |].
    { intros _. left. simpl. change TF_RXCLOSED with (2 ^ 4). rewrite has_pow2 by lia. unfold u16. by rewrite Z.mod_pow2_bits_low, Z.lor_spec, orb_true_r. }
    exists e, t2. split; [done|]. by eapply as_trans.
  - apply (close_shutdown_ok a true t b); try done. intros _. right. destruct (state (tcb b)); naive_solver.
Qed.

Lemma tcp_shutdown_ok a rx tx t b : stack_ok t -> tcp_input_pcb t = None -> blocks t !! a = Some b ->
  exists e t', tcp_shutdown a rx tx t = Ret (e, t') /\ app_step t t'.
Proof.
  intros Hok Hin Hb. unfold tcp_shutdown. rewrite (pcb_at_run _ _ _ Hb). cbn [mbind outcome_bind].
  destruct (decide (state (tcb b) = LISTEN)) as [Hl|Hl]; [eexists _, t; split; [reflexivity|by apply as_refl]|].
  destruct (alter_step a (tcp_set_flags TF_RXCLOSED) t b Hok Hb) as (A1 & Hb1 & Hin1); [done|].
  change (alter_block _ a t) with (set_flags_at TF_RXCLOSED a t) in *. set (t1 := set_flags_at _ _ t) in *. clearbody t1.
  assert (has (flags (tcp_set_flags TF_RXCLOSED (tcb b))) TF_RXCLOSED = true) as Hf.
  { simpl. change TF_RXCLOSED with (2 ^ 4). rewrite has_pow2 by lia. unfold u16. by rewrite Z.mod_pow2_bits_low, Z.lor_spec, orb_true_r. }
  pose proof (as_ok _ _ A1) as Hok1. destruct (rx && tx) eqn:Hrt.
  { edestruct (close_shutdown_ok a true t1) as (e & t2 & -> & A2); [done|congruence|exact Hb1|by left|].
    exists e, t2. split; [done|]. by eapply as_trans. }
  destruct rx.
  - destruct tx; [done|].
    destruct (alter_step a (set_refused_data None) t1 _ Hok1 Hb1) as (A2 & Hb2 & Hin2); [done|].
    eexists _, _. split; [reflexivity|]. by eapply as_trans.
  - destruct tx; [|eexists _, t; split; [reflexivity|by apply as_refl]].
    destruct (decide _); [|eexists _, t; split; [reflexivity|by apply as_refl]]. by apply (close_shutdown_ok a false t b).
Qed.
End calls.
