(* ===== verification/TcpTimerProps.v ===== *)
(** * The TCP timers return and see every connection

    Whatever the application does in its callbacks, the loops of [tcp_slowtmr] and [tcp_fasttmr] end, without a
    failed assertion or an access to a control block that was freed, and every active connection has been
    seen once. *)

From stdpp Require Import gmap.
From S2P Require Import Prelude Chain Tcp TcpAck TcpOpt TcpProcess TcpOut TcpStack TcpTimer TcpTimerOk TcpStackOk.

(** ** Lists *)

Lemma next_in_split l1 a l2 : a ∉ l1 -> next_in (l1 ++ a :: l2) a = Ret (head l2).
Proof.
  induction l1 as [|b l1 IH]; intros Hn; simpl; [by rewrite Z.eqb_refl|]. rewrite not_elem_of_cons in Hn. destruct Hn as [Hb Hl].
  destruct (Z.eqb_spec b a); [congruence|]. by apply IH.
Qed.
Lemma rmv_split l1 a l2 : a ∉ l1 -> TCP_RMV (l1 ++ a :: l2) a = l1 ++ l2.
Proof.
  induction l1 as [|b l1 IH]; intros Hn; simpl; [by rewrite Z.eqb_refl|]. rewrite not_elem_of_cons in Hn. destruct Hn as [Hb Hl].
  destruct (Z.eqb_spec b a); [congruence|]. by rewrite IH.
Qed.
Lemma cut_behind_split l1 p a l2 : NoDup (l1 ++ [p]) -> cut_behind ((l1 ++ [p]) ++ a :: l2) p = (l1 ++ [p]) ++ l2.
Proof.
  induction l1 as [|b l1 IH]; intros Hn; simpl; [by rewrite Z.eqb_refl|]. apply NoDup_cons in Hn as [Hb Hn].
  destruct (Z.eqb_spec b p) as [->|]; [|by rewrite IH]. exfalso. apply Hb, elem_of_app. right. left.
Qed.
Lemma unlink_split l1 a l2 : NoDup (l1 ++ a :: l2) -> unlink (l1 ++ a :: l2) (last l1) a = Ret (l1 ++ l2).
Proof.
  intros Hn. pose proof Hn as (N1 & N2 & _)%NoDup_app. unfold unlink. destruct (last l1) as [p|] eqn:Hl.
  - apply last_Some in Hl as [q ->]. rewrite cut_behind_split by done. rewrite bool_decide_false; [done|].
    destruct q as [|b q]; simpl; intros [= ->]; (apply (N2 a); left).
  - apply last_None in Hl as ->. simpl. by rewrite bool_decide_true.
Qed.

Lemma filter_agree (f g : Z -> bool) (l : list Z) : (forall a, a ∈ l -> f a = g a) -> filter (fun a => f a = false) l = filter (fun a => g a = false) l.
Proof.
  induction l as [|a l IH]; intros H; [done|]. rewrite !filter_cons, IH by (intros; apply H; by right). specialize (H a ltac:(left)).
  destruct (decide (f a = false)), (decide (g a = false)); congruence.
Qed.

Section timers.
  Context {N : Type} `{!TcpNet N} `{!TcpBufs N} `{!TcpLink N} `{!TcpEvents N} `{!TcpEventsLaws N}.
  Implicit Type s : input N.
  Implicit Type t : stack N.

(** ** Connections still to be seen *)

Definition todo_b t (a : Z) : bool :=
  match blocks t !! a with Some b => is_active (state (tcb b)) && negb (last_timer b =? timer_ctr t) | None => false end.
Lemma todo_spec t a : todo a t <-> todo_b t a = true.
Proof.
  unfold todo, todo_b. destruct (blocks t !! a) as [b|]; [|naive_solver]. rewrite andb_true_iff, negb_true_iff, Z.eqb_neq. naive_solver.
Qed.
Definition todos t : nat := length (filter (fun a => todo_b t a = true) (active_pcbs t)).

(** Between two points of a run: the invariant holds, and nothing new is to be seen. *)
Record run t t' : Prop := {
  ru_ok : stack_ok t';
  ru_vars : vars t' = vars t;
  ru_todo a : todo a t' -> todo a t }.
Lemma run_trans t1 t2 t3 : run t1 t2 -> run t2 t3 -> run t1 t3.
Proof. intros [A1 A2 A3] [B1 B2 B3]. split; [done|congruence|auto]. Qed.
Lemma step_run t t' : app_step t t' -> run t t'.
Proof. by intros [A1 A2 A3 A4]. Qed.

Lemma todos_le t t' : stack_ok t -> run t t' -> (todos t' <= todos t)%nat.
Proof.
  intros Hok [Hok' _ Ht]. unfold todos. apply submseteq_length, NoDup_submseteq; [apply NoDup_filter, Hok'|].
  intros a. rewrite !list_elem_of_filter. intros [H1 _]. apply todo_spec, Ht in H1. split; [by apply todo_spec|].
  destruct H1 as (b & Hb & Ha & _). apply (sk_active _ Hok). exists (state (tcb b)). split; [|done]. unfold state_at. by rewrite Hb.
Qed.
Lemma todos_lt t t' a : stack_ok t -> run t t' -> todo a t -> ~ todo a t' -> (todos t' < todos t)%nat.
Proof.
  intros Hok [Hok' _ Ht] Ha Hn. unfold todos.
  assert (a :: filter (fun a => todo_b t' a = true) (active_pcbs t') ⊆+ filter (fun a => todo_b t a = true) (active_pcbs t)) as H%submseteq_length.
  { assert (forall c, todo c t -> c ∈ filter (fun a => todo_b t a = true) (active_pcbs t)) as Hc.
    { intros c Hc. apply list_elem_of_filter. split; [by apply todo_spec|]. destruct Hc as (b & Hb & Hc & _).
      apply (sk_active _ Hok). exists (state (tcb b)). split; [|done]. unfold state_at. by rewrite Hb. }
    apply NoDup_submseteq.
    - constructor; [|apply NoDup_filter, Hok']. intros [H _]%list_elem_of_filter. by apply todo_spec in H.
    - intros c [->|[H _]%list_elem_of_filter]%elem_of_cons; [by apply Hc|]. by apply Hc, Ht, todo_spec. }
  simpl in H. lia.
Qed.
Lemma set_changed_run v t : stack_ok t -> run t (set_changed v t).
Proof. intros Hok. split; [by apply (stack_ok_ext t)|done|done]. Qed.

(** ** One connection in its turn *)

(** The connection at [a] is marked as seen and [f] has worked for it. *)
Lemma turn_ok {A} a (f : input N -> outcome (A * input N)) t b r s : stack_ok t -> blocks t !! a = Some b ->
  is_active (state (tcb b)) = true -> f (set_pcb (tcb b) (regs t)) = Ret (r, s) ->
  pcb_ok (pcb s) -> is_active (state (pcb s)) = true -> tcp_ticks s = tcp_ticks (regs t) ->
  let b' := set_tcb (pcb s) (set_last_timer (timer_ctr t) b) in
  exists t', at_pcb a f (alter_block (set_last_timer (timer_ctr t)) a t) = Ret (r, t') /\ run t t' /\ ~ todo a t' /\
    blocks t' = <[a := b']> (blocks t) /\ regs t' = s /\
    (active_pcbs t', tw_pcbs t', bound_pcbs t', listen_pcbs t', free_tcp t', free_listen t', pcbs_changed t') =
    (active_pcbs t, tw_pcbs t, bound_pcbs t, listen_pcbs t, free_tcp t, free_listen t, pcbs_changed t).
Proof.
  intros Hok Hb Ha Hf Hp Ha' Ht b'. set (t1 := alter_block _ a t).
  assert (blocks t1 !! a = Some (set_last_timer (timer_ctr t) b)) as Hb1 by (subst t1; simpl; by rewrite lookup_alter_eq, Hb).
  rewrite (at_pcb_run _ _ _ _ _ _ Hb1 Hf). set (t2 := set_regs _ _).
  assert (blocks t2 = <[a := b']> (blocks t)) as Eb.
  { apply map_eq. intros c. subst t2 t1. simpl. destruct (decide (c = a)) as [->|]; [by rewrite !lookup_insert_eq|].
    by rewrite !lookup_insert_ne, lookup_alter_ne by done. }
  exists t2. split; [done|]. split_and!; try done.
  - split.
    + apply (stack_ok_update t a b b'); try done; simpl.
      * right. by split.
      * intros E. by rewrite E in Ha.
      * congruence.
      * unfold parts. by rewrite Eb.
    + unfold vars. simpl. by rewrite Ht.
    + intros c (bc & H1 & H2 & H3). rewrite Eb in H1. destruct (decide (c = a)) as [->|Hne].
      * rewrite lookup_insert_eq in H1. injection H1 as <-. done.
      * rewrite lookup_insert_ne in H1 by done. by exists bc.
  - intros (bc & H1 & H2 & H3). rewrite Eb, lookup_insert_eq in H1. injection H1 as <-. done.
Qed.

(** Work for an active connection that has been seen. *)
Lemma work_ok {A} a (f : input N -> outcome (A * input N)) t b r s : stack_ok t -> blocks t !! a = Some b ->
  f (set_pcb (tcb b) (regs t)) = Ret (r, s) -> pcb_ok (pcb s) -> same_list (state (tcb b)) (state (pcb s)) -> is_active (state (tcb b)) = true ->
  tcp_ticks s = tcp_ticks (regs t) ->
  exists t', at_pcb a f t = Ret (r, t') /\ app_step t t' /\ active_pcbs t' = active_pcbs t /\ pcbs_changed t' = pcbs_changed t /\
    blocks t' = <[a := set_tcb (pcb s) b]> (blocks t).
Proof.
  intros Hok Hb Hf Hp Hl Ha Ht. rewrite (at_pcb_run _ _ _ _ _ _ Hb Hf). eexists. split; [reflexivity|]. split_and!; try done.
  apply (as_update t a b (set_tcb (pcb s) b)); try done; simpl.
  - intros E. by rewrite E in Ha.
  - destruct Hl as [-> | [_ ->]]; congruence.
  - unfold vars. simpl. by rewrite Ht.
Qed.

Lemma gone_run a t b l1 l2 : stack_ok t -> active_pcbs t = l1 ++ a :: l2 -> blocks t !! a = Some b -> is_active (state (tcb b)) = true ->
  exists t', pcb_free a (set_active (l1 ++ l2) t) = Ret t' /\ run t t' /\ active_pcbs t' = l1 ++ l2.
Proof.
  intros Hok El Hb Ha. assert (state (tcb b) <> LISTEN) as Hl by (intros E; by rewrite E in Ha).
  rewrite (pcb_free_run a (set_active (l1 ++ l2) t) b) by done. eexists. split; [reflexivity|]. split; [|done]. set (t' := set_free_tcp _ _).
  assert (NoDup (active_pcbs t)) as Hn by apply Hok. rewrite El in Hn. pose proof Hn as (N1 & N2 & _)%NoDup_app.
  assert (a ∉ l1) as Hna by (intros Hin; apply (N2 a Hin); left).
  assert (TCP_RMV (tw_pcbs t) a = tw_pcbs t) as Htw. { apply rmv_notin. eapply not_tw; [done|done|]. intros E. by rewrite E in Ha. }
  assert (TCP_RMV (bound_pcbs t) a = bound_pcbs t) as Hbo.
  { apply rmv_notin. eapply not_bound; [done|done|]. left. intros E. by rewrite E in Ha. }
  assert (app_step t (set_changed true t')) as A.
  { apply (as_gone t a b); try done. unfold parts. subst t'. simpl. by rewrite El, (rmv_split l1 a l2 Hna), Htw, Hbo. }
  apply step_run in A as [A1 A2 A3]. split; [|done|done]. by apply (stack_ok_ext (set_changed true t')).
Qed.

Lemma removal_ok a d t b l1 l2 : stack_ok t -> active_pcbs t = l1 ++ a :: l2 -> blocks t !! a = Some b -> is_active (state (tcb b)) = true ->
  exists t', ('(_, t) ← at_pcb a (slowtmr_purge d) t;
    n ← next_in (active_pcbs t) a; l ← unlink (active_pcbs t) (last l1) a; t ← pcb_free a (set_active l t); Ret (n, t)) =
    Ret (head l2, t') /\ run t t' /\ active_pcbs t' = l1 ++ l2.
Proof.
  intros Hok El Hb Ha. destruct (sk_pcbs _ Hok _ _ Hb) as [Ho _].
  destruct (slowtmr_purge_ok d (set_pcb (tcb b) (regs t)) Ha) as (s & Hs & Hp & [= Hr _] & _).
  destruct (purged_ok (set_pcb (tcb b) (regs t)) Ha) as (Hp' & _). rewrite Hp' in Hp. simpl in Hp.
  destruct (work_ok a (slowtmr_purge d) t b tt s Hok Hb Hs) as (t1 & -> & A1 & E1 & _ & Eb); try done.
  { rewrite Hp. destruct Ho. split; [constructor|done]. } { rewrite Hp. by left. }
  cbn [mbind outcome_bind]. pose proof (as_ok _ _ A1) as Hok1. assert (NoDup (active_pcbs t1)) as Hn by apply Hok1. rewrite E1, El in Hn |- *.
  pose proof Hn as (N1 & N2 & _)%NoDup_app.
  rewrite next_in_split by (intros Hin; apply (N2 a Hin); left). rewrite unlink_split by done. cbn [mbind outcome_bind].
  destruct (gone_run a t1 (set_tcb (pcb s) b) l1 l2 Hok1) as (t2 & -> & R2 & E2); [congruence|by rewrite Eb, lookup_insert_eq|simpl; by rewrite Hp|].
  cbn [mbind outcome_bind]. exists t2. split; [done|]. split; [|done]. eapply run_trans; [by apply step_run|done].
Qed.

Lemma output_step a t b : stack_ok t -> blocks t !! a = Some b -> is_active (state (tcb b)) = true ->
  exists e t', output_at a t = Ret (e, t') /\ app_step t t' /\ active_pcbs t' = active_pcbs t /\ pcbs_changed t' = pcbs_changed t.
Proof.
  intros Hok Hb Ha. destruct (sk_pcbs _ Hok _ _ Hb) as [Ho _].
  destruct (sending_ok (is_input a t) (set_pcb (tcb b) (regs t)) Ho) as (e & s & Hs & Hp & F). { intros E. simpl in E. by rewrite E in Ha. }
  destruct (of_same _ _ F) as (E1 & [= E2 _] & _). unfold output_at.
  destruct (work_ok a _ t b e s Hok Hb Hs) as (t1 & -> & A1 & A2 & A3 & _); try done; [by left|]. by exists e, t1.
Qed.

Lemma poll_ok a t : stack_ok t -> tcp_input_pcb t = None -> a ∈ active_pcbs t ->
  exists r t', slowtmr_poll a t = Ret (r, t') /\ run t t' /\ (r = false -> active_pcbs t' = active_pcbs t).
Proof.
  intros Hok Hin Hact. destruct (active_block _ _ Hok Hact) as (b & Hb & Ha & Ho). unfold slowtmr_poll.
  match goal with |- context [at_pcb a ?g t] => set (f := g) end.
  assert (exists r s, f (set_pcb (tcb b) (regs t)) = Ret (r, s) /\ pcb_ok (pcb s) /\ state (pcb s) = state (tcb b) /\ tcp_ticks s = tcp_ticks (regs t))
    as (r & s & Hf & F1 & F2 & F3).
  { subst f. simpl. destruct (_ <=? _); eexists _, _; (split; [reflexivity|]); by destruct Ho; split_and!. }
  destruct (work_ok a f t b r s Hok Hb Hf F1 ltac:(by left) Ha F3) as (t1 & -> & A1 & E1 & C1 & _). cbn [mbind outcome_bind].
  pose proof (as_ok _ _ A1) as Hok1. pose proof (as_vars _ _ A1) as V1.
  destruct r; [|exists false, t1; by split_and!; [|apply step_run|]].
  set (t2 := set_changed false t1). pose proof (set_changed_run false t1 Hok1) as R2. fold t2 in R2. pose proof (ru_ok _ _ R2) as Hok2.
  pose proof (poll_step a t2 Hok2) as A3. destruct (ev_poll a t2) as [e t3]. cbn [Datatypes.snd] in A3.
  destruct A3 as [A3 A4 A5 A6]; [subst t2; simpl; congruence|subst t2; simpl; by rewrite E1|].
  assert (run t t3) as R3. { eapply run_trans; [by apply step_run|]. eapply run_trans; [exact R2|]. by apply step_run; split. }
  destruct (pcbs_changed t3); [by exists true, t3|]. destruct (A5 eq_refl) as [_ E3]. subst t2. simpl in E3.
  destruct (decide (e = ERR_OK)); [|exists false, t3; split_and!; try done; congruence].
  destruct (active_block t3 a A3) as (b3 & Hb3 & Ha3 & _); [congruence|].
  destruct (output_step a t3 b3 A3 Hb3 Ha3) as (e4 & t4 & -> & A7 & E4 & _). cbn [mbind outcome_bind].
  exists false, t4. split; [done|]. split; [eapply run_trans; [exact R3|by apply step_run]|congruence].
Qed.

(** ** The loop of the slow timer *)

Lemma input_same t t' : vars t' = vars t -> tcp_input_pcb t' = tcp_input_pcb t.
Proof. intros [= _ _ H _]; exact H. Qed.

(** The turn of a connection that has not been seen: it is removed, or its application is polled; then the loop goes
    on or starts again. *)
Lemma slowtmr_turn t l1 a l2 b : stack_ok t -> tcp_input_pcb t = None -> active_pcbs t = l1 ++ a :: l2 -> blocks t !! a = Some b ->
  is_active (state (tcb b)) = true -> last_timer b <> timer_ctr t ->
  exists (r restart : bool) t', run t t' /\ ~ todo a t' /\ let front := if r then l1 else l1 ++ [a] in
    (restart = false -> active_pcbs t' = front ++ l2) /\
    (forall fuel, slowtmr_active (S fuel) (last l1) (Some a) t =
      if restart then slowtmr_active fuel None (head (active_pcbs t')) t' else slowtmr_active fuel (last front) (head l2) t').
Proof.
  intros Hok Hin El Hb Ha Htodo. destruct (sk_pcbs _ Hok _ _ Hb) as [Ho _].
  assert (NoDup (active_pcbs t)) as Hn by apply Hok. rewrite El in Hn. pose proof Hn as (_ & N2 & _)%NoDup_app.
  assert (a ∉ l1) as Hna by (intros H; apply (N2 a H); left).
  destruct (slowtmr_pcb_ok (is_input a t) (set_pcb (tcb b) (regs t)) Ho) as (d & s & Hs & S1 & S2 & [= S3 _]).
  { intros E. simpl in E. by rewrite E in Ha. }
  set (r := given_up _) in Hs. simpl in S2.
  destruct (turn_ok a (slowtmr_pcb (is_input a t)) t b (r, d) s Hok Hb Ha Hs S1) as (t1 & Et1 & R1 & Hd1 & Eb1 & _ & [= L1 L2 L3 L4 L5 L6 L7]);
    [by rewrite S2|done|]. clearbody r. pose proof (ru_ok _ _ R1) as Hok1. pose proof (input_same _ _ (ru_vars _ _ R1)) as Hin1. rewrite Hin in Hin1.
  assert (blocks t1 !! a = Some (set_tcb (pcb s) (set_last_timer (timer_ctr t) b))) as Hb1 by (by rewrite Eb1, lookup_insert_eq).
  assert (forall fuel, slowtmr_active (S fuel) (last l1) (Some a) t =
    if r then '(n, t) ← ('(_, t) ← at_pcb a (slowtmr_purge d) t1;
        n ← next_in (active_pcbs t) a; l ← unlink (active_pcbs t) (last l1) a; t ← pcb_free a (set_active l t); Ret (n, t));
      let t := ev_err a ERR_ABRT (set_changed false t) in
      if pcbs_changed t then slowtmr_active fuel None (head (active_pcbs t)) t else slowtmr_active fuel (last l1) n t
    else '(restart, t) ← slowtmr_poll a t1;
      if (restart : bool) then slowtmr_active fuel None (head (active_pcbs t)) t else slowtmr_active fuel (Some a) (head l2) t) as Hstep.
  { intros fuel. cbn [slowtmr_active]. rewrite Hb. cbn [deref mbind outcome_bind]. rewrite Ha. cbn [lwip_assert mbind outcome_bind].
    rewrite (proj2 (Z.eqb_neq _ _) Htodo). change (is_input a (alter_block (set_last_timer (timer_ctr t)) a t)) with (is_input a t). rewrite Et1.
    cbn [mbind outcome_bind]. destruct r.
    - destruct (at_pcb a (slowtmr_purge d) t1) as [[[] t1']| | |]; try done. cbn [mbind outcome_bind]. destruct (next_in _ a); try done. cbn [mbind outcome_bind].
      destruct (unlink _ _ a); try done. cbn [mbind outcome_bind]. by destruct (pcb_free a _).
    - by rewrite L1, El, next_in_split. }
  exists r. destruct r.
  - destruct (removal_ok a d t1 _ l1 l2 Hok1 ltac:(congruence) Hb1) as (t2 & Hrm & R2 & E2); [simpl; by rewrite S2|].
    setoid_rewrite Hrm in Hstep. cbn [mbind outcome_bind] in Hstep. set (t3 := ev_err a ERR_ABRT (set_changed false t2)) in *.
    assert (app_step (set_changed false t2) t3) as A3.
    { apply err_step; [by apply (stack_ok_ext t2), (ru_ok _ _ R2)|]. simpl. by rewrite (input_same _ _ (ru_vars _ _ R2)). }
    assert (run t1 t3) as R3. { eapply run_trans; [exact R2|]. eapply run_trans; [apply set_changed_run, R2|]. by apply step_run. }
    exists (pcbs_changed t3), t3. split; [by eapply run_trans|]. split; [intros H; by apply Hd1, (ru_todo _ _ R3)|]. split; [|exact Hstep].
    intros H. destruct (as_changed _ _ A3 H) as [_ ->]. done.
  - destruct (poll_ok a t1 Hok1 Hin1) as (r2 & t2 & Hp & R2 & E2); [rewrite L1, El; apply elem_of_app; right; left|].
    setoid_rewrite Hp in Hstep. cbn [mbind outcome_bind] in Hstep.
    exists r2, t2. split; [by eapply run_trans|]. split; [intros H; by apply Hd1, (ru_todo _ _ R2)|]. split; [|cbn zeta; setoid_rewrite last_snoc; exact Hstep].
    intros H. by rewrite (E2 H), L1, El, <- app_assoc.
Qed.

(** With enough steps the loop ends; what is in front of the cursor has been seen. *)
Lemma slowtmr_active_ok : forall k m t l1 l2, (todos t <= k)%nat -> (length l2 <= m)%nat -> stack_ok t -> tcp_input_pcb t = None ->
  active_pcbs t = l1 ++ l2 -> (forall a, a ∈ l1 -> ~ todo a t) ->
  exists n t', (forall fuel, (n <= fuel)%nat -> slowtmr_active fuel (last l1) (head l2) t = Ret t') /\ run t t' /\ forall a, ~ todo a t'.
Proof.
  induction k as [k IHk] using lt_wf_ind. induction m as [m IHm] using lt_wf_ind. intros t l1 l2 Hk Hm Hok Hin El Hseen.
  destruct l2 as [|a l2].
  { exists 1%nat, t. split; [intros [|fuel] Hf; [lia|done]|]. split; [by split|]. intros a Ha. rewrite app_nil_r in El.
    apply (Hseen a); [|done]. rewrite <- El. destruct Ha as (b & Hb & Ha & _). apply (sk_active _ Hok). exists (state (tcb b)). split; [|done]. unfold state_at. by rewrite Hb. }
  assert (a ∈ active_pcbs t) as Hact by (rewrite El; apply elem_of_app; right; left).
  destruct (active_block _ _ Hok Hact) as (b & Hb & Ha & Ho).
  assert (NoDup (active_pcbs t)) as Hn by apply Hok. rewrite El in Hn. pose proof Hn as (_ & N2 & _)%NoDup_app.
  assert (a ∉ l1) as Hna by (intros H; apply (N2 a H); left).
  destruct (Z.eqb_spec (last_timer b) (timer_ctr t)) as [Hseen'|Htodo].
  { destruct (IHm (length l2) ltac:(simpl in Hm; lia) t (l1 ++ [a]) l2) as (n & t' & H1 & H2 & H3); try done; [by rewrite <- app_assoc| |].
    { intros c [Hc| ->%list_elem_of_singleton]%elem_of_app; [by apply Hseen|]. intros (b' & H1 & _ & H2). by simplify_eq. }
    exists (S n), t'. split; [|done]. intros [|fuel] Hf; [lia|]. cbn [slowtmr_active head]. rewrite Hb. cbn [deref mbind outcome_bind].
    rewrite Ha, Hseen', Z.eqb_refl. cbn [lwip_assert mbind outcome_bind]. rewrite El, next_in_split by done. cbn [mbind outcome_bind].
    rewrite <- (last_snoc a l1). apply H1. lia. }
  assert (todo a t) as Hta by (by exists b).
  destruct (slowtmr_turn t l1 a l2 b Hok Hin El Hb Ha Htodo) as (r & r2 & t2 & R & Hd2 & El2 & Hrun). pose proof (ru_ok _ _ R) as Hok2.
  pose proof (todos_lt t t2 a Hok R Hta Hd2) as Hlt. assert (tcp_input_pcb t2 = None) as Hin2 by (by rewrite (input_same _ _ (ru_vars _ _ R))).
  assert (exists n t', (forall fuel, (n <= fuel)%nat -> (if r2 : bool then slowtmr_active fuel None (head (active_pcbs t2)) t2
      else slowtmr_active fuel (last (if r then l1 else l1 ++ [a])) (head l2) t2) = Ret t') /\ run t2 t' /\ forall a, ~ todo a t') as (n & t' & H1 & H2 & H3).
  { destruct r2.
    - apply (IHk (todos t2) ltac:(lia) (length (active_pcbs t2)) t2 [] (active_pcbs t2)); try done. intros c Hc. by apply not_elem_of_nil in Hc.
    - apply (IHk (todos t2) ltac:(lia) (length l2) t2 _ l2); try done; [by apply El2|].
      intros c Hc Hx. assert (c ∈ l1 \/ c = a) as [Hc'| ->]; [|by apply (Hseen c), (ru_todo _ _ R)|done].
      destruct r; [by left|]. apply elem_of_app in Hc as [?| ->%list_elem_of_singleton]; auto. }
  exists (S n), t'. split; [|split; [by eapply run_trans|done]]. intros [|fuel] Hf; [lia|]. simpl head. rewrite Hrun. apply H1. lia.
Qed.

(** ** TIME-WAIT *)

(** A connection that has been in TIME-WAIT for two segment lifetimes. *)
Definition expired t (a : Z) : bool :=
  match blocks t !! a with Some b => 2 * TCP_MSL / TCP_SLOW_INTERVAL <? u32 (tcp_ticks (regs t) - tmr (tim (tcb b))) | None => false end.

Lemma slowtmr_tw_ok : forall l2 l1 t, stack_ok t -> tw_pcbs t = l1 ++ l2 ->
  exists t', slowtmr_tw (S (length l2)) (last l1) (head l2) t = Ret t' /\ run t t' /\ active_pcbs t' = active_pcbs t /\
    tw_pcbs t' = l1 ++ filter (fun a => expired t a = false) l2 /\ (forall a, a ∉ l2 \/ expired t a = false -> blocks t' !! a = blocks t !! a).
Proof.
  induction l2 as [|a l2 IH]; intros l1 t Hok El.
  { exists t. split; [done|]. split; [by split|done]. }
  assert (a ∈ tw_pcbs t) as Hact by (rewrite El; apply elem_of_app; right; left).
  pose proof Hact as Hst%(sk_tw _ Hok). unfold state_at in Hst. destruct (blocks t !! a) as [b|] eqn:Hb; [|done]. injection Hst as Hst.
  assert (NoDup (tw_pcbs t)) as Hn by apply Hok. rewrite El in Hn. pose proof Hn as (_ & N2 & N3)%NoDup_app. apply NoDup_cons in N3 as [N3 _].
  assert (a ∉ l1) as Hna by (intros H; apply (N2 a H); left).
  change (S (length (a :: l2))) with (S (S (length l2))). remember (S (length l2)) as fuel eqn:Hfuel. cbn [slowtmr_tw head]. rewrite (pcb_at_run _ _ _ Hb).
  cbn [mbind outcome_bind]. rewrite (bool_decide_true _ Hst). cbn [lwip_assert mbind outcome_bind]. rewrite El, next_in_split by done. cbn [mbind outcome_bind].
  assert (expired t a = (2 * TCP_MSL / TCP_SLOW_INTERVAL <? u32 (tcp_ticks (regs t) - tmr (tim (tcb b))))) as He by (unfold expired; by rewrite Hb).
  rewrite filter_cons. destruct (_ <? _); cycle 1.
  { rewrite decide_True by done. destruct (IH (l1 ++ [a]) t Hok) as (t' & H1 & H2 & H3 & H4 & H5); [by rewrite <- app_assoc|].
    exists t'. rewrite last_snoc in H1. split_and!; try done; [by rewrite H4, <- app_assoc|]. intros c [Hc|Hc]; apply H5; [left; set_solver|by right]. }
  rewrite decide_False by congruence.
  assert (tcp_pcb_purge (set_pcb (tcb b) (regs t)) = set_pcb (tcb b) (regs t)) as Hpurge.
  { unfold tcp_pcb_purge. rewrite decide_False; [done|]. simpl. rewrite Hst. tauto. }
  erewrite (at_pcb_run a _ t b tt (set_pcb (tcb b) (regs t)) Hb) by (by rewrite Hpurge). cbn [mbind outcome_bind].
  simpl. rewrite El, unlink_split by (by rewrite <- El; apply Hok). cbn [mbind outcome_bind].
  erewrite pcb_free_run; [|simpl; apply lookup_insert_eq|by simpl; rewrite Hst]. cbn [mbind outcome_bind]. set (t1 := set_free_tcp _ _).
  assert (app_step t t1) as A1.
  { apply (as_gone t a b); try done; subst t1; simpl; [by rewrite Hst| |by rewrite Hst]. unfold parts. simpl.
    rewrite El, (rmv_split l1 a l2 Hna), (rmv_notin (active_pcbs t)), (rmv_notin (bound_pcbs t)); [by rewrite delete_insert_eq|..].
    - eapply not_bound; [done|done|left; by rewrite Hst].
    - eapply not_active; [done|done|by rewrite Hst]. }
  assert (forall c, c <> a -> blocks t1 !! c = blocks t !! c) as Hbl.
  { intros c Hc. subst t1. simpl. by rewrite lookup_delete_ne, lookup_insert_ne by done. }
  destruct (IH l1 t1) as (t' & H1 & H2 & H3 & H4 & H5); [by destruct A1|done|].
  exists t'. split; [done|]. split; [eapply run_trans; [by apply step_run|done]|]. split; [done|]. split.
  - rewrite H4. f_equal. apply filter_agree. intros c Hc. unfold expired. rewrite Hbl; [done|]. by intros ->.
  - intros c Hc. assert (c <> a) as Hne by (destruct Hc as [Hc|Hc]; [set_solver|congruence]).
    rewrite H5, Hbl; [done|done|]. destruct Hc as [Hc|Hc]; [left; set_solver|right]. unfold expired in *. by rewrite Hbl.
Qed.

(** ** The slow timer *)

Lemma slowtmr_ok t : stack_ok t -> tcp_input_pcb t = None ->
  exists n t', (forall fuel, (n <= fuel)%nat -> tcp_slowtmr fuel t = Ret t') /\ run (next_ctr (tick t)) t' /\ (forall a, ~ todo a t') /\
    (forall a, a ∈ tw_pcbs t' -> expired t' a = false).
Proof.
  intros Hok Hin. set (t1 := next_ctr (tick t)). assert (stack_ok t1) as Hok1 by (by apply (stack_ok_ext t)).
  destruct (slowtmr_active_ok (todos t1) (length (active_pcbs t1)) t1 [] (active_pcbs t1)) as (n & t2 & H1 & R2 & H3); try done.
  { intros c Hc. by apply not_elem_of_nil in Hc. }
  pose proof (ru_ok _ _ R2) as Hok2. destruct (slowtmr_tw_ok (tw_pcbs t2) [] t2 Hok2 eq_refl) as (t3 & H4 & R3 & _ & H5 & H6).
  exists n, t3. split_and!.
  - intros fuel Hf. unfold tcp_slowtmr. fold t1. change (last []) with (@None Z) in H1. rewrite (H1 fuel Hf). cbn [mbind outcome_bind]. exact H4.
  - by eapply run_trans.
  - intros a Ha. by apply (H3 a), (ru_todo _ _ R3).
  - intros a Ha. rewrite H5 in Ha. simpl in Ha. apply list_elem_of_filter in Ha as [Ha Hin2].
    pose proof (ru_vars _ _ R3) as [= _ _ _ Ht]. unfold expired. by rewrite H6, Ht by (by right).
Qed.

(** ** The fast timer *)

(** A change of variables of one connection, whatever its state is. *)
Lemma touch_ok a f t b : stack_ok t -> blocks t !! a = Some b ->
  (state (f (tcb b)), snd (f (tcb b)), ooseq (rcv (f (tcb b))), tim (f (tcb b)), local_port (f (tcb b))) =
    (state (tcb b), snd (tcb b), ooseq (rcv (tcb b)), tim (tcb b), local_port (tcb b)) ->
  exists t', at_pcb a (fun s => Ret (tt, upd f s)) t = Ret (tt, t') /\ app_step t t' /\ is_Some (blocks t' !! a).
Proof.
  intros Hok Hb E. injection E as E1 E2 E3 E4 E5. destruct (sk_pcbs _ Hok _ _ Hb) as [[Ho1 Ho2] Hi].
  rewrite (at_pcb_run a _ t b tt (upd f (set_pcb (tcb b) (regs t))) Hb eq_refl). eexists. split; [reflexivity|].
  split; [|simpl; rewrite lookup_insert_eq; by eexists].
  apply (as_update t a b (set_tcb (f (tcb b)) b)); try done; simpl.
  - by left.
  - split; unfold queued; [by rewrite E2|by rewrite E4].
  - rewrite E1. intros Ha. destruct (Hi Ha) as [Q1 Q2]. split; [unfold queued; by rewrite E2|by rewrite E3].
Qed.

Lemma process_refused_ok a t b : stack_ok t -> tcp_input_pcb t = None -> blocks t !! a = Some b -> refused_data (tcb b) <> None ->
  exists e t', tcp_process_refused_data a t = Ret (e, t') /\ app_step t t'.
Proof.
  intros Hok Hin Hb Hr. unfold tcp_process_refused_data. rewrite Hb. cbn [deref mbind outcome_bind].
  destruct (refused_data (tcb b)) as [p|]; [|done]. cbn [deref mbind outcome_bind].
  destruct (alter_step a (set_refused_data None) t b Hok Hb) as (A1 & Hb1 & Hin1); [done|].
  assert (fin_waits a (alter_block (fun b => set_tcb (set_refused_data None (tcb b)) b) a t) = refused_fin b) as Hfin by (unfold fin_waits; by rewrite Hb1).
  set (t1 := alter_block _ a t) in *. clearbody t1.
  destruct (recv_step a (Some p) t1) as [A2 Hs2]; [by destruct A1|congruence|by eexists|]. destruct (ev_recv a (Some p) t1) as [e t2]. simpl in A2, Hs2.
  assert (app_step t t2) as A by (by eapply as_trans). pose proof (as_ok _ _ A2) as Hok2. pose proof (input_same t t2 (as_vars _ _ A)) as Hin2.
  assert (e <> ERR_ABRT -> e <> ERR_OK -> exists e' t', ('(_, t) ← at_pcb a (fun s => Ret (tt, upd (set_refused_data (Some p)) s)) t2; Ret (ERR_INPROGRESS, t)) = Ret (e', t') /\ app_step t t') as Hback.
  { intros He1 He2. destruct (Hs2 He1) as [b2 Hb2]; [done|]. destruct (touch_ok a (set_refused_data (Some p)) t2 b2) as (t3 & -> & A3 & _); try done.
    cbn [mbind outcome_bind]. eexists _, t3. split; [reflexivity|]. by eapply as_trans. }
  destruct e; try (by apply Hback); [|by eexists _, t2].
  destruct (refused_fin b); [|by eexists _, t2]. destruct (Hs2 ltac:(done)) as [b2 Hb2]; [done|].
  set (f := fun q => if negb (rcv_wnd (rcv q) =? TCP_WND) then set_rcv_wnd (u16 (rcv_wnd (rcv q) + 1)) q else q).
  assert (forall s, (if negb (rcv_wnd (rcv (pcb s)) =? TCP_WND) then upd (set_rcv_wnd (u16 (rcv_wnd (rcv (pcb s)) + 1))) s else s) = upd f s) as Hf.
  { intros s. unfold upd, f. destruct (negb _); [done|by destruct s]. }
  assert (at_pcb a (fun s => Ret (tt, if negb (rcv_wnd (rcv (pcb s)) =? TCP_WND) then upd (set_rcv_wnd (u16 (rcv_wnd (rcv (pcb s)) + 1))) s else s)) t2 =
    at_pcb a (fun s => Ret (tt, upd f s)) t2) as -> by (unfold at_pcb; rewrite Hb2; cbn [deref mbind outcome_bind]; by rewrite Hf).
  destruct (touch_ok a f t2 b2) as (t3 & -> & A3 & Hs3); [done|done|unfold f; by destruct (negb _)|]. cbn [mbind outcome_bind].
  pose proof (as_ok _ _ A3) as Hok3. pose proof (input_same t2 t3 (as_vars _ _ A3)) as Hin3.
  destruct (recv_step a None t3) as [A4 _]; [done|congruence|done|]. destruct (ev_recv a None t3) as [e t4]. simpl in A4.
  eexists _, t4. split; [reflexivity|]. eapply as_trans; [exact A|]. by eapply as_trans.
Qed.

Lemma fasttmr_loop_ok : forall k m t l1 l2, (todos t <= k)%nat -> (length l2 <= m)%nat -> stack_ok t -> tcp_input_pcb t = None ->
  active_pcbs t = l1 ++ l2 -> (forall a, a ∈ l1 -> ~ todo a t) ->
  exists n t', (forall fuel, (n <= fuel)%nat -> fasttmr_loop fuel (head l2) t = Ret t') /\ run t t' /\ forall a, ~ todo a t'.
Proof.
  induction k as [k IHk] using lt_wf_ind. induction m as [m IHm] using lt_wf_ind. intros t l1 l2 Hk Hm Hok Hin El Hseen.
  destruct l2 as [|a l2].
  { exists 1%nat, t. split; [intros [|fuel] Hf; [lia|done]|]. split; [by split|]. intros a Ha. rewrite app_nil_r in El.
    apply (Hseen a); [|done]. rewrite <- El. destruct Ha as (b & Hb & Ha & _). apply (sk_active _ Hok). exists (state (tcb b)). split; [|done]. unfold state_at. by rewrite Hb. }
  assert (a ∈ active_pcbs t) as Hact by (rewrite El; apply elem_of_app; right; left).
  destruct (active_block _ _ Hok Hact) as (b & Hb & Ha & Ho).
  assert (NoDup (active_pcbs t)) as Hn by apply Hok. rewrite El in Hn. pose proof Hn as (_ & N2 & _)%NoDup_app.
  assert (a ∉ l1) as Hna by (intros H; apply (N2 a H); left).
  destruct (Z.eqb_spec (last_timer b) (timer_ctr t)) as [Hseen'|Htodo].
  { destruct (IHm (length l2) ltac:(simpl in Hm; lia) t (l1 ++ [a]) l2) as (n & t' & H1 & H2 & H3); try done; [by rewrite <- app_assoc| |].
    { intros c [Hc| ->%list_elem_of_singleton]%elem_of_app; [by apply Hseen|]. intros (b' & H1 & _ & H2). by simplify_eq. }
    exists (S n), t'. split; [|done]. intros [|fuel] Hf; [lia|]. cbn [fasttmr_loop head]. rewrite Hb. cbn [deref mbind outcome_bind].
    rewrite Hseen', Z.eqb_refl. rewrite El, next_in_split by done. cbn [mbind outcome_bind]. apply H1. lia. }
  assert (todo a t) as Hta by (by exists b).
  destruct (fasttmr_ok (is_input a t) (set_pcb (tcb b) (regs t)) Ho Ha) as (s & Hs & S1 & [= S3 _] & S2).
  destruct (turn_ok a (fasttmr_pcb (is_input a t)) t b tt s Hok Hb Ha Hs S1 S2 S3) as (t1 & Et1 & R1 & Hd1 & Eb1 & _ & [= L1 L2 L3 L4 L5 L6 L7]).
  pose proof (ru_ok _ _ R1) as Hok1. pose proof (input_same _ _ (ru_vars _ _ R1)) as Hin1. rewrite Hin in Hin1.
  set (b1 := set_tcb _ _) in Eb1. assert (blocks t1 !! a = Some b1) as Hb1 by (by rewrite Eb1, lookup_insert_eq).
  assert (exists (r : bool) t2, run t1 t2 /\ (r = false -> active_pcbs t2 = active_pcbs t1) /\
    (forall fuel, fasttmr_loop (S fuel) (Some a) t = if r then fasttmr_loop fuel (head (active_pcbs t2)) t2 else fasttmr_loop fuel (head l2) t2))
    as (r & t2 & R2 & E2 & Hrun).
  { assert (forall fuel, fasttmr_loop (S fuel) (Some a) t =
      if bool_decide (refused_data (tcb b1) = None) then fasttmr_loop fuel (head l2) t1
      else '(_, t) ← tcp_process_refused_data a (set_changed false t1);
           if pcbs_changed t then fasttmr_loop fuel (head (active_pcbs t)) t else fasttmr_loop fuel (head l2) t) as Hstep.
    { intros fuel. cbn [fasttmr_loop]. rewrite Hb. cbn [deref mbind outcome_bind]. rewrite (proj2 (Z.eqb_neq _ _) Htodo).
      change (is_input a (alter_block (set_last_timer (timer_ctr t)) a t)) with (is_input a t). rewrite Et1. cbn [mbind outcome_bind].
      rewrite L1, El, next_in_split by done. cbn [mbind outcome_bind]. rewrite (pcb_at_run _ _ _ Hb1). done. }
    destruct (bool_decide_reflect (refused_data (tcb b1) = None)) as [_|Hr]; [exists false, t1; split_and!; [by split|done|exact Hstep]|].
    destruct (process_refused_ok a (set_changed false t1) b1) as (e & t2 & Hp & A2); try done; [by apply (stack_ok_ext t1)|].
    setoid_rewrite Hp in Hstep. cbn [mbind outcome_bind] in Hstep. exists (pcbs_changed t2), t2. split; [|split; [|exact Hstep]].
    - eapply run_trans; [by apply (set_changed_run false)|]. by apply step_run.
    - intros H. by destruct (as_changed _ _ A2 H). }
  assert (run t t2) as R by (by eapply run_trans). pose proof (ru_ok _ _ R) as Hok2.
  assert (~ todo a t2) as Hd2 by (intros H; by apply Hd1, (ru_todo _ _ R2)).
  pose proof (todos_lt t t2 a Hok R Hta Hd2) as Hlt. assert (tcp_input_pcb t2 = None) as Hin2 by (by rewrite (input_same _ _ (ru_vars _ _ R))).
  assert (exists n t', (forall fuel, (n <= fuel)%nat -> (if r : bool then fasttmr_loop fuel (head (active_pcbs t2)) t2
      else fasttmr_loop fuel (head l2) t2) = Ret t') /\ run t2 t' /\ forall a, ~ todo a t') as (n & t' & H1 & H2 & H3).
  { destruct r.
    - apply (IHk (todos t2) ltac:(lia) (length (active_pcbs t2)) t2 [] (active_pcbs t2)); try done. intros c Hc. by apply not_elem_of_nil in Hc.
    - apply (IHk (todos t2) ltac:(lia) (length l2) t2 (l1 ++ [a]) l2); try done; [by rewrite (E2 eq_refl), L1, El, <- app_assoc|].
      intros c [Hc| ->%list_elem_of_singleton]%elem_of_app Hx; [by apply (Hseen c), (ru_todo _ _ R)|done]. }
  exists (S n), t'. split; [|split; [by eapply run_trans|done]]. intros [|fuel] Hf; [lia|]. simpl head. rewrite Hrun. apply H1. lia.
Qed.

Lemma tcp_fasttmr_ok t : stack_ok t -> tcp_input_pcb t = None ->
  exists n t', (forall fuel, (n <= fuel)%nat -> tcp_fasttmr fuel t = Ret t') /\ run (next_ctr t) t' /\ forall a, ~ todo a t'.
Proof.
  intros Hok Hin. set (t1 := next_ctr t). assert (stack_ok t1) as Hok1 by (by apply (stack_ok_ext t)).
  destruct (fasttmr_loop_ok (todos t1) (length (active_pcbs t1)) t1 [] (active_pcbs t1)) as (n & t2 & H1 & R2 & H3); try done.
  { intros c Hc. by apply not_elem_of_nil in Hc. }
  exists n, t2. by split_and!.
Qed.

(** Incrementing the counter makes every connection unseen. *)
Lemma ctr_fresh t a b : 0 <= timer_ctr t < 256 -> blocks t !! a = Some b -> is_active (state (tcb b)) = true -> ~ todo a t -> todo a (next_ctr t).
Proof.
  intros Hc Hb Ha Hn. exists b. split_and!; [done|done|]. simpl. assert (last_timer b = timer_ctr t) as ->.
  { destruct (decide (last_timer b = timer_ctr t)); [done|]. exfalso. apply Hn. by exists b. }
  unfold u8. destruct (Z.eq_dec (timer_ctr t) 255) as [->|]; [done|]. rewrite Z.mod_small by lia. lia.
Qed.

(** C6: (timers) a run of [tcp_tmr] ends, without a failed assertion and without touching a control block that was freed, whatever the application does in
    its callbacks: it may open, close and abort connections, the one of the callback included, with one exception: it does not free the connection when it
    takes refused data behind which the peer's FIN waits ([TcpEventsLaws]; [refused_fin_use_after_free] shows what
    happens then). Afterwards the lists are right again, and every connection that is active then has been seen by it. *)
Theorem timers_return t : stack_ok t -> tcp_input_pcb t = None -> 0 <= timer_ctr t < 256 -> (forall a, ~ todo a t) ->
  (forall a, a ∈ active_pcbs t -> todo a (next_ctr t)) /\
  exists n t', (forall fuel, (n <= fuel)%nat -> tcp_tmr fuel t = Ret t') /\ stack_ok t' /\ tcp_input_pcb t' = None /\
    0 <= timer_ctr t' < 256 /\ forall a, ~ todo a t'.
Proof.
  intros Hok Hin Hc Hn. split; [intros a Ha; destruct (active_block _ _ Hok Ha) as (b & Hb & Hs & _); by eapply ctr_fresh|].
  assert (forall x, 0 <= u8 x < 256) as Hu8 by (intros x; apply Z.mod_pos_bound; lia).
  destruct (tcp_fasttmr_ok t Hok Hin) as (n1 & t1 & H1 & [O1 [= V1 V2 V3 _] _] & N1).
  set (t2 := set_tcp_timer (u8 (tcp_timer t1 + 1)) t1). assert (stack_ok t2) as O2 by (by apply (stack_ok_ext t1)).
  assert (tcp_input_pcb t2 = None) as Hin2 by (simpl; congruence).
  destruct (slowtmr_ok t2 O2 Hin2) as (n2 & t3 & H3 & [O3 [= W1 _ W3 _] _] & N3 & _).
  destruct (has (tcp_timer t2) 1) eqn:Hodd.
  - exists (n1 `max` n2)%nat, t3. split_and!; try done; [|congruence|rewrite W1; apply Hu8|rewrite W1; apply Hu8].
    intros fuel Hf. unfold tcp_tmr. rewrite H1 by lia. cbn [mbind outcome_bind]. fold t2. rewrite Hodd. apply H3. lia.
  - exists n1, t2. split_and!; try done; [|simpl; rewrite V1; apply Hu8|simpl; rewrite V1; apply Hu8].
    intros fuel Hf. unfold tcp_tmr. rewrite H1 by lia. cbn [mbind outcome_bind]. fold t2. by rewrite Hodd.
Qed.
End timers.
