(* ===== verification/TcpTimeouts.v ===== *)
(** * Time-outs of a TCP connection

    A connection whose segments are not acknowledged sends them again and is given up in the end; a FIN that could not be
    queued is tried again by the fast timer. And where the timers do not do what they are there for: a closed window is
    never probed, an acknowledgement that could not be sent is forgotten, and data that the application refused may be
    delivered to a control block that was freed. *)

From Stdlib Require Import Sorted.
From stdpp Require Import gmap.
From S2P Require Import Prelude Chain Tcp TcpStream TcpAck TcpOpt TcpProcess TcpOut TcpSend TcpOutput TcpSendErrors TcpStack TcpTimer TcpTimerOk TcpStackOk.

Section queue.
  Context {N : Type} `{!TcpNet N} `{!TcpBufs N} `{!TcpLink N}.
  Implicit Type s : input N.

(** ** Nothing that waits for an acknowledgement is dropped *)

Lemma length_insert g q : length (insert_unsent g q) = S (length q).
Proof. induction q as [|c q IH]; simpl; [done|]. destruct (TCP_SEQ_LT _ _); simpl; by rewrite ?IH. Qed.
Lemma length_put g q : length (put_unacked g q) = S (length q).
Proof.
  unfold put_unacked. destruct (last q) as [u|] eqn:Hl; [|by apply last_None in Hl as ->].
  destruct (TCP_SEQ_LT _ _); [apply length_insert|]. rewrite length_app. simpl. lia.
Qed.
(** A segment that takes up sequence numbers. *)
Definition counts (g : tcp_seg) : Prop := 0 < TCP_TCPLEN g.
Lemma counts_link g n lip rip h o text : counts g -> counts (set_seg_busy (ip_output_if n lip rip h o text).1.2 g).
Proof. done. Qed.

Lemma length_loop mtu fuel : forall s e s', output_loop fuel mtu s = Ret (e, s') -> Forall counts (queued (pcb s)) ->
  length (queued (pcb s')) = length (queued (pcb s)).
Proof.
  induction fuel as [|fuel IH]; intros s e s'; [done|]. cbn [output_loop]. destruct (unsent (snd (pcb s))) as [|g q] eqn:Hu.
  { by intros [= <- <-]. }
  destruct (has (seg_flags g) TCP_RST); [done|]. cbn [negb lwip_assert mbind outcome_bind].
  destruct (_ && _); [by intros [= <- <-]|].
  destruct (tcp_output_segment g mtu s) as [[e1 g1] s1] eqn:E. intros H Hq.
  assert (counts g) as Hg. { unfold queued in Hq. rewrite Hu in Hq. by apply Forall_app in Hq as [_ [? _]%Forall_cons]. }
  pose proof (segment_kept _ counts_link _ _ _ _ _ _ E Hg) as Hg1. apply of_segment in E as [_ E]. revert H. destruct (decide _).
  - intros [= <- <-]. unfold queued. simpl. by rewrite E, Hu, !length_app.
  - intros H. rewrite (IH _ _ _ H); [|apply (sent_kept _ g); try done; unfold queued; by rewrite E].
    unfold output_sent. set (s2 := if decide _ then _ else _).
    assert (unacked (snd (pcb s2)) = unacked (snd (pcb s)) /\ unsent (snd (pcb s2)) = q) as [E1 E2].
    { subst s2. destruct (decide _); simpl; by rewrite E. }
    clearbody s2. rewrite (proj2 (Z.ltb_lt _ _) Hg1). unfold queued. rewrite Hu.
    destruct (TCP_SEQ_LT _ _); simpl; rewrite !length_app, length_put, E1, E2; simpl; lia.
Qed.
Lemma length_output b s e s' : tcp_output b s = Ret (e, s') -> Forall counts (queued (pcb s)) ->
  length (queued (pcb s')) = length (queued (pcb s)).
Proof.
  unfold tcp_output. destruct (bool_decide (state _ = LISTEN)); cbn [negb lwip_assert mbind outcome_bind]; [done|].
  assert (forall s1, queued (pcb (tcp_send_empty_ack s1).2) = queued (pcb s1)) as Hack.
  { intros s1. unfold tcp_send_empty_ack, tcp_output_alloc_header. destruct (hdr_alloc (net s1)) as [[] n]; simpl; [|done].
    destruct (output_control _ _ _ _) as [e1 m]. simpl. by destruct (decide _). }
  destruct b; [by intros [= <- <-]|]. destruct (unsent (snd (pcb s))) as [|g q].
  { destruct (_ && _); [|by intros [= <- <-]]. specialize (Hack s). destruct (tcp_send_empty_ack s). intros [= <- <-]. by rewrite <- Hack. }
  destruct (tcp_route _ _ _) as [mtu|]; [|by intros [= <- <-]].
  set (s1 := if local_ip _ =? 0 then _ else s). assert (queued (pcb s1) = queued (pcb s)) as <- by (subst s1; by destruct (_ =? 0)).
  clearbody s1. destruct (_ && _).
  - set (s2 := if _ && _ && _ then _ else s1).
    assert (queued (pcb s2) = queued (pcb s1)) as <- by (subst s2; by destruct (_ && _ && _)).
    clearbody s2. destruct (has _ _); [|by intros [= <- <-]].
    specialize (Hack s2). destruct (tcp_send_empty_ack s2). intros [= <- <-]. by rewrite <- Hack.
  - change (queued (pcb s1)) with (queued (pcb (upd (set_persist_backoff 0) s1))). apply length_loop.
Qed.
End queue.

Section silence.
  Context {N : Type} `{!TcpNet N} `{!TcpBufs N} `{!TcpLink N}.
  Implicit Type s : input N.

(** ** A silent peer *)

(** The timers work for a connection that gets no segments, and [tcp_output] is called whenever the application likes:
    [n] ticks of the slow timer, after none of which it was given up. *)
Definition ticked s : input N := set_tcp_ticks (u32 (tcp_ticks s + 1)) s.
Inductive silence : nat -> input N -> input N -> Prop :=
| silent_start s : silence 0 s s
| silent_slow n s s1 d s2 : silence n s s1 -> slowtmr_pcb false (ticked s1) = Ret (false, d, s2) -> silence (S n) s s2
| silent_fast n s s1 s2 : silence n s s1 -> fasttmr_pcb false s1 = Ret (tt, s2) -> silence n s s2
| silent_output n s s1 e s2 : silence n s s1 -> tcp_output false s1 = Ret (e, s2) -> silence n s s2.

(** A segment that the driver does not hold, without RST, that waits to be acknowledged. *)
Definition resendable (g : tcp_seg) : Prop := counts g /\ seg_busy g = false /\ no_rst g.

(** Segments wait, and the retransmission timer runs. *)
Record waits s : Prop := {
  wa_some : queued (pcb s) <> [];
  wa_segs : Forall resendable (queued (pcb s));
  wa_rtime : 0 <= rtime (tim (pcb s)) <= 0x7fff;
  wa_rto : rto (tim (pcb s)) <= 0x7fff;
  wa_nrtx : 0 <= nrtx (tim (pcb s));
  wa_rtt : 0 <= Z.shiftr (sa (tim (pcb s))) 3 + sv (tim (pcb s));
  wa_state : state (pcb s) <> LISTEN }.

Hypothesis link_frees : forall n lip rip h o text, (ip_output_if n lip rip h o text).1.2 = false.

Lemma resendable_link g n lip rip h o text : resendable g -> resendable (set_seg_busy (ip_output_if n lip rip h o text).1.2 g).
Proof. intros (H1 & _ & H3). split_and!; [done|apply link_frees|done]. Qed.
Lemma resendable_fin : fin_kept resendable.
Proof.
  destruct fin_no_rst as [R1 R2]. split.
  - intros g (H1 & H2 & H3). split_and!; [|done|by apply R1]. unfold counts, TCP_TCPLEN, tcp_len in *. simpl. rewrite has_or, fin_lor. simpl.
    destruct (has (seg_flags g) _); lia.
  - intros g Hf Hb Hl. split_and!; [|done|by apply R2]. unfold counts, TCP_TCPLEN, tcp_len. by rewrite Hf, Hl.
Qed.

Lemma waits_ok s : waits s -> pcb_ok (pcb s).
Proof. intros []. split; [|done]. eapply Forall_impl; [exact wa_segs0|]. by intros g (_ & _ & ?). Qed.
Lemma length_some (p p' : tcp_pcb) : (length (queued p) <= length (queued p'))%nat -> queued p <> [] -> queued p' <> [].
Proof. intros H Hp E. rewrite E in H. destruct (queued p); [done|]. simpl in H. lia. Qed.
Lemma segs_count s : Forall resendable (queued (pcb s)) -> Forall counts (queued (pcb s)).
Proof. intros H. eapply Forall_impl; [exact H|]. by intros g (? & _). Qed.

Lemma waits_output s e s' : waits s -> tcp_output false s = Ret (e, s') -> waits s' /\
  nrtx (tim (pcb s')) = nrtx (tim (pcb s)) /\ rtime (tim (pcb s')) = rtime (tim (pcb s)).
Proof.
  intros Hw H. pose proof Hw as [W1 W2 W3 W4 W5 W6 W7]. pose proof (output_frame _ _ _ _ H) as F.
  destruct F as [[= F1 _ _ _ _ _ _ _] _ _ [= F2 F3 F4 F5 _ _ _ _ _ _] F6 _ _]. rewrite F6 by lia. split; [|done].
  split; rewrite ?F1, ?F2, ?F3, ?F4, ?F5, ?F6 by lia; try done.
  - eapply length_some; [|exact W1]. rewrite (length_output _ _ _ _ H); [done|by apply segs_count].
  - eapply output_kept; [exact resendable_link|exact H|done].
Qed.

Lemma waits_fast s s' : waits s -> fasttmr_pcb false s = Ret (tt, s') -> waits s' /\
  nrtx (tim (pcb s')) = nrtx (tim (pcb s)) /\ rtime (tim (pcb s')) = rtime (tim (pcb s)).
Proof.
  intros Hw. unfold fasttmr_pcb. pose proof (waits_ok _ Hw) as Hok.
  assert (forall s1, (if has (flags (pcb s)) TF_ACK_DELAY then '(_, s) ← tcp_output false (upd tcp_ack_now s);
       Ret (upd (tcp_clear_flags (Z.lor TF_ACK_DELAY TF_ACK_NOW)) s) else Ret s) = Ret s1 ->
    waits s1 /\ nrtx (tim (pcb s1)) = nrtx (tim (pcb s)) /\ rtime (tim (pcb s1)) = rtime (tim (pcb s))) as Hack.
  { intros s1. destruct (has _ _); [|by intros [= <-]]. destruct (tcp_output false (upd tcp_ack_now s)) as [[e s2]| | |] eqn:E; try done.
    intros [= <-]. destruct (waits_output (upd tcp_ack_now s) e s2) as ([] & H2 & H3); [by destruct Hw; split|done|]. split; [by split|done]. }
  destruct (if has (flags (pcb s)) TF_ACK_DELAY then _ else _) as [s1| | |]; try done. cbn [mbind outcome_bind].
  destruct (Hack s1 eq_refl) as (Hw1 & E1 & E2). clear Hack. destruct (has _ _); [|by intros [= <-]].
  set (s2 := upd (tcp_clear_flags TF_CLOSEPEND) s1). assert (waits s2) as Hw2 by (by destruct Hw1; split).
  change (nrtx (tim (pcb s1))) with (nrtx (tim (pcb s2))) in E1. change (rtime (tim (pcb s1))) with (rtime (tim (pcb s2))) in E2.
  clearbody s2. clear Hw1. unfold tcp_close_shutdown_fin. destruct (decide _); [|by intros [= <-]].
  destruct (send_fin_total s2) as (e & s3 & -> & He & Hf & Hl & [= F1 F2 F3 F4 F5] & _). cbn [mbind outcome_bind].
  assert (waits s3) as Hw3.
  { destruct Hw2 as [W1 W2 W3 W4 W5 W6 W7]. split; rewrite ?F1, ?F2; try done; [by eapply length_some|]. by apply (Hf _ resendable_fin). }
  destruct (decide (e = ERR_OK)); [|destruct (decide (e = ERR_MEM)); intros [= <-]; simpl; rewrite F2; (split; [by destruct Hw3; split|done])].
  set (s5 := upd _ s3). assert (waits s5) as Hw5 by (destruct Hw3; split; try done; subst s5; simpl; by destruct (decide _)).
  destruct (tcp_output false s5) as [[e4 s4]| | |] eqn:E; try done. intros [= <-].
  destruct (waits_output _ _ _ Hw5 E) as (Hw4 & G1 & G2). simpl in G1, G2.
  rewrite F2 in G1, G2. split; [done|]. split; congruence.
Qed.

Lemma busy_none q : Forall resendable q -> existsb seg_busy q = false.
Proof. induction 1 as [|g q (_ & Hb & _) _ IH]; simpl; [done|]. by rewrite Hb, IH. Qed.

(** With segments that can be sent again a time-out always takes effect. *)
Lemma waits_retransmit s s' : waits s -> nrtx (tim (pcb s)) < TCP_MAXRTX -> slowtmr_retransmit false s = Ret s' -> waits s' /\
  ((nrtx (tim (pcb s')) = nrtx (tim (pcb s)) /\ rtime (tim (pcb s')) = rtime (tim (pcb s)) + 1) \/
   (nrtx (tim (pcb s')) = nrtx (tim (pcb s)) + 1 /\ rtime (tim (pcb s')) = 0)).
Proof.
  intros Hw Hn. unfold TCP_MAXRTX in Hn. pose proof Hw as [W1 W2 W3 W4 W5 W6 W7]. unfold slowtmr_retransmit.
  rewrite (proj2 (Z.leb_le 0 (rtime (tim (pcb s))))) by lia. cbn [andb]. set (s1 := if _ <? 0x7fff then _ else s).
  assert (snd (pcb s1) = snd (pcb s) /\ set_rtime 0 (pcb s1) = set_rtime 0 (pcb s) /\ net s1 = net s /\
    rtime (tim (pcb s1)) = Z.min (rtime (tim (pcb s)) + 1) 0x7fff) as (E1 & E2 & E3 & E4).
  { subst s1. destruct (Z.ltb_spec (rtime (tim (pcb s))) 0x7fff); simpl; split_and!; try done; lia. }
  assert (rto (tim (pcb s1)) = rto (tim (pcb s)) /\ nrtx (tim (pcb s1)) = nrtx (tim (pcb s)) /\ sa (tim (pcb s1)) = sa (tim (pcb s)) /\
    sv (tim (pcb s1)) = sv (tim (pcb s)) /\ state (pcb s1) = state (pcb s)) as (T1 & T2 & T3 & T4 & T5).
  { assert (tim (set_rtime 0 (pcb s1)) = tim (set_rtime 0 (pcb s)) /\ state (set_rtime 0 (pcb s1)) = state (set_rtime 0 (pcb s))) as [Ht Hs] by (by rewrite E2).
    injection Ht. intros. by split_and!. }
  clearbody s1. destruct (Z.leb_spec (rto (tim (pcb s1))) (rtime (tim (pcb s1)))); cycle 1.
  { intros [= <-]. split; [|left; split; lia]. unfold queued in *. split; unfold queued; rewrite ?E1, ?T1, ?T2, ?T3, ?T4, ?T5; try done; lia. }
  pose proof (prepare_cases (pcb s1)) as Hp. destruct (tcp_rexmit_rto_prepare (pcb s1)) as [e p1].
  assert (queued p1 = queued (pcb s1) /\ unacked (snd p1) = [] /\ unsent (snd p1) <> [] /\ tim (set_rttest 0 (set_rto_end 0 p1)) = tim (set_rttest 0 (set_rto_end 0 (pcb s1))) /\
    state p1 = state (pcb s1)) as (Q1 & Q2 & Q3 & Q4 & Q5).
  { unfold queued in *. rewrite <- E1 in W1, W2. destruct Hp as [(-> & _ & _ & x & ->)|(-> & -> & Hp)]; [done|].
    destruct Hp as [Hp|Hp]; [|rewrite busy_none in Hp; [done|by apply Forall_app in W2 as [? _]]].
    rewrite Hp in W1 |- *. done. }
  clear Hp. rewrite Q2, (bool_decide_true ([] = [])), (bool_decide_false (unsent _ = [])), orb_true_r by done. cbn [negb andb].
  assert (sa (tim p1) = sa (tim (pcb s1)) /\ sv (tim p1) = sv (tim (pcb s1)) /\ rto (tim p1) = rto (tim (pcb s1)) /\
    nrtx (tim p1) = nrtx (tim (pcb s1))) as (N1 & N2 & N3 & N4) by (injection Q4; intros; by split_and!).
  assert (pcb_ok p1) as Hok1.
  { split; [|by rewrite N1, N2, T3, T4]. rewrite Q1. unfold queued. rewrite E1. eapply Forall_impl; [exact W2|]. by intros g (_ & _ & ?). }
  destruct (if decide (state p1 <> SYN_SENT) then _ else _) as [s2| | |] eqn:Es2; try done. cbn [mbind outcome_bind].
  assert (exists r, 0 <= r <= 0x7fff /\ (s2 = upd (set_rto r) (set_pcb p1 s1)) \/ s2 = set_pcb p1 s1) as (r & Hs2).
  { destruct (decide _); [|injection Es2 as <-; exists 0; by right]. destruct (backed_off_ok p1 Hok1) as (r & Hr & Hr'). rewrite Hr in Es2.
    injection Es2 as <-. exists r. by left. }
  clear Es2. unfold tcp_rexmit_rto_commit. destruct (rto_windows_cng (pcb (upd (set_rtime 0) s2))) as (c & Hc & _).
  assert (upd rto_windows (upd (set_rtime 0) s2) = upd (set_cng c) (upd (set_rtime 0) s2)) as -> by (unfold upd in *; simpl in *; by rewrite Hc).
  clear Hc. set (s3 := if _ <? 0xff then _ else _).
  assert (waits s3 /\ nrtx (tim (pcb s3)) = nrtx (tim (pcb s)) + 1 /\ rtime (tim (pcb s3)) = 0) as (Hw3 & G1 & G2).
  { assert (s3 = upd (set_nrtx (nrtx (tim (pcb s2)) + 1)) (upd (set_cng c) (upd (set_rtime 0) s2))) as ->.
    { subst s3. simpl. rewrite (proj2 (Z.ltb_lt _ 0xff)); [done|]. destruct Hs2 as [[_ ->] | ->]; simpl; lia. }
    split; [|split; [simpl; destruct Hs2 as [[_ ->] | ->]; simpl; lia|done]].
    destruct Hs2 as [[Hr ->] | ->]; (split; simpl; try done; try lia; unfold queued in *; simpl; rewrite ?Q1, ?E1; try done; congruence). }
  clearbody s3. destruct (tcp_output false s3) as [[e3 s4]| | |] eqn:E; try done. intros [= <-].
  destruct (waits_output _ _ _ Hw3 E) as (Hw4 & G3 & G4). split; [done|]. right. split; lia.
Qed.

(** A tick of the slow timer: the timer goes on, or there was a time-out. *)
Lemma waits_slow s d s' : waits s -> slowtmr_pcb false (ticked s) = Ret (false, d, s') -> waits s' /\ nrtx (tim (pcb s)) < TCP_MAXRTX /\
  ((nrtx (tim (pcb s')) = nrtx (tim (pcb s)) /\ rtime (tim (pcb s')) = rtime (tim (pcb s)) + 1) \/
   (nrtx (tim (pcb s')) = nrtx (tim (pcb s)) + 1 /\ rtime (tim (pcb s')) = 0)).
Proof.
  intros Hw. unfold slowtmr_pcb. change (pcb (ticked s)) with (pcb s). destruct (retries_over (pcb s)) eqn:Ho.
  { simpl. by destruct (slowtmr_keepalive (ticked s)). }
  assert (nrtx (tim (pcb s)) < TCP_MAXRTX) as Hn. { unfold retries_over in Ho. apply orb_false_iff in Ho as [_ Ho%Z.leb_gt]. done. }
  destruct (slowtmr_retransmit false (ticked s)) as [s1| | |] eqn:E; try done. cbn [mbind outcome_bind orb].
  destruct (waits_retransmit (ticked s) s1) as (Hw1 & Hc); [by destruct Hw; split|done|done|]. change (pcb (ticked s)) with (pcb s) in Hc.
  pose proof (keepalive_frame s1) as ([= K1 Ks _ _ _] & Kp & _). destruct (slowtmr_keepalive s1) as [dd s2]. cbn [fst Datatypes.snd] in *.
  assert (tim (set_keep_cnt_sent 0 (pcb s2)) = tim (set_keep_cnt_sent 0 (pcb s1))) as Ht by (by rewrite Kp).
  destruct (ooseq_frame s2) as (k & Hoo). intros [= _ _ <-].
  assert (sa (tim (pcb s2)) = sa (tim (pcb s1)) /\ sv (tim (pcb s2)) = sv (tim (pcb s1)) /\ rto (tim (pcb s2)) = rto (tim (pcb s1)) /\
    nrtx (tim (pcb s2)) = nrtx (tim (pcb s1)) /\ rtime (tim (pcb s2)) = rtime (tim (pcb s1))) as (T1 & T2 & T3 & T4 & T5) by (injection Ht; intros; by split_and!).
  assert (waits s2) as Hw2. { destruct Hw1 as [W1 W2 W3 W4 W5 W6 W7]. split; unfold queued in *; rewrite ?Ks, ?K1, ?T1, ?T2, ?T3, ?T4, ?T5; done. }
  destruct Hoo as [-> | ->]; (split; [by destruct Hw2; split|]); (split; [done|]); simpl; lia.
Qed.

Lemma silence_waits n s s' : waits s -> silence n s s' -> waits s' /\
  Z.of_nat n <= (nrtx (tim (pcb s')) - nrtx (tim (pcb s))) * 0x8000 + rtime (tim (pcb s')) - rtime (tim (pcb s)) /\ nrtx (tim (pcb s')) <= Z.max (nrtx (tim (pcb s))) TCP_MAXRTX.
Proof.
  intros Hw. induction 1 as [s|n s s1 d s2 Hs IH H|n s s1 s2 Hs IH H|n s s1 e s2 Hs IH H]; [split_and!; [done|lia|lia]|..];
    destruct (IH Hw) as (Hw1 & H1 & H2); pose proof (wa_rtime _ Hw1) as Hr.
  - destruct (waits_slow _ _ _ Hw1 H) as (Hw2 & Hn & [[E1 E2]|[E1 E2]]); (split; [done|]); unfold TCP_MAXRTX in *; lia.
  - destruct (waits_fast _ _ Hw1 H) as (Hw2 & E1 & E2). split; [done|]. lia.
  - destruct (waits_output _ _ _ Hw1 H) as (Hw2 & E1 & E2). split; [done|]. lia.
Qed.

(** C7: (a silent peer) a connection with segments that are never acknowledged is given up, over a link that keeps no pbuf behind its call ([link_frees]) and
    with no segment held by the driver at the beginning ([waits]): whatever the timers and [tcp_output] do, the slow timer always returns, and less than
    [13 * 2^15] ticks (of half a second) pass before it says that the connection is to be removed. *)
Theorem silent_peer_given_up n s s' : waits s -> silence n s s' ->
  Z.of_nat n < (TCP_MAXRTX + 1) * 0x8000 /\ exists r d s2, slowtmr_pcb false (ticked s') = Ret (r, d, s2).
Proof.
  intros Hw H. destruct (silence_waits n s s' Hw H) as (Hw' & H1 & H2).
  assert (nrtx (tim (pcb s)) < TCP_MAXRTX \/ n = 0%nat) as Hn.
  { clear H1 H2. induction H as [s|n s s1 d s2 Hs IH Hd|n s s1 s2 Hs IH Hd|n s s1 e s2 Hs IH Hd]; [by right|..].
    - left. destruct (silence_waits _ _ _ Hw Hs) as (Hw1 & H1 & _). destruct (waits_slow _ _ _ Hw1 Hd) as (_ & Hn & _).
      pose proof (wa_rtime _ Hw1). pose proof (wa_rtime _ Hw). unfold TCP_MAXRTX in *. lia.
    - by apply IH; destruct (silence_waits _ _ _ Hw Hs).
    - by apply IH; destruct (silence_waits _ _ _ Hw Hs). }
  pose proof (wa_rtime _ Hw'). pose proof (wa_rtime _ Hw). pose proof (wa_nrtx _ Hw). unfold TCP_MAXRTX in *. split; [destruct Hn; lia|].
  destruct (slowtmr_pcb_ok false (ticked s') (waits_ok _ Hw') (wa_state _ Hw')) as (d & s2 & -> & _). by eexists _, d, s2.
Qed.
End silence.

Section resending.
  Context (byte_at : Z -> Z).
  Context {N : Type} `{!TcpNet N} `{!TcpBufs N} `{!TcpLink N} `{!TcpLinkLaws N}.
  Implicit Type s : input N.

(** ** Retransmission *)

(** All segments are unsent again. *)
Lemma send_ok_requeue U S L B qa qs p p' : send_ok U S L B qa qs p -> (forall x y, x ∈ qa -> y ∈ qs -> before x y) ->
  (lastack (snd p'), snd_nxt (snd p'), snd_buf (snd p'), snd_queuelen (snd p')) =
    (lastack (snd p), snd_nxt (snd p), snd_buf (snd p), snd_queuelen (snd p)) ->
  unacked (snd p') = [] -> unsent (snd p') = queued p -> send_ok U S L B [] (qa ++ qs) p'.
Proof.
  intros [O_una O_nxt O_order O_range O_unacked O_unsent O_sorted_a O_sorted_s O_apart O_placed O_new O_cover
    O_buf O_buf_range O_qlen O_qlen_range] Hord [= E1 E2 E3 E4] E5 E6. unfold queued in E6. rewrite O_unacked, O_unsent in E6.
  split; rewrite ?E1, ?E2, ?E3, ?E4, ?E5, ?E6; try done.
  - by rewrite fmap_app.
  - constructor.
  - by apply sorted_app.
  - intros x y Hx. by apply not_elem_of_nil in Hx.
Qed.

(** The segment [x] at the front of the unsent queue is sent if nothing else is in flight and it fits into the windows. *)
Lemma output_first U S L B x qs mtu s : send_ok U S L B [] (x :: qs) (pcb s) -> Forall (carries byte_at) (x :: qs) ->
  Forall (fun x => has (seg_flags x.2) TCP_RST = false) (x :: qs) -> state (pcb s) <> LISTEN -> seg_busy x.2 = false ->
  tcp_route (net s) (local_ip (pcb s)) (remote_ip (pcb s)) = Some mtu ->
  x.1 + seg_len x.2 <= U + Z.min (snd_wnd (snd (pcb s))) (cwnd (cng (pcb s))) ->
  (forall n a b h o t, (ip_output_if n a b h o t).1.1 = ERR_OK) ->
  exists err s' S' qa' qs' m out, tcp_output false s = Ret (err, s') /\ send_ok U S' L B qa' qs' (pcb s') /\
    unbusy <$> qa' ++ qs' ≡ₚ unbusy <$> x :: qs /\ Forall (carries byte_at) (qa' ++ qs') /\
    sent_log (net s') = sent_log (net s) ++ m :: out /\ on_wire byte_at (pcb s) x m.
Proof.
  intros Hs Hc Hr Hst Hb Hrt Hfit Hlink. unfold tcp_output. rewrite (bool_decide_false _ Hst). cbn [negb lwip_assert mbind outcome_bind].
  rewrite (so_unsent _ _ _ _ _ _ _ Hs). cbn [fmap list_fmap]. rewrite Hrt.
  pose proof (so_placed _ _ _ _ _ _ _ Hs) as Hp. rewrite Forall_forall in Hp.
  pose proof (Hp x ltac:(left)) as Hpx. pose proof Hpx as [P1 P2 P3 P4 P5]. pose proof (so_range _ _ _ _ _ _ _ Hs).
  pose proof (so_new _ _ _ _ _ _ _ Hs) as Hk. apply Forall_cons in Hk as [Hk _]. unfold keeps, ends_at in Hk.
  assert (TCP_TCPLEN x.2 <= seg_len x.2 + 1) by (unfold TCP_TCPLEN, tcp_len; destruct (has _ _); lia).
  rewrite P1, (so_una _ _ _ _ _ _ _ Hs), u32_distance. pose proof (len_tcplen x.2). unfold ends_at in P5.
  rewrite u32_small by lia. rewrite (proj2 (Z.ltb_ge (Z.min _ _) (x.1 - U + seg_len x.2))) by lia. rewrite andb_false_r.
  set (s1 := upd (set_persist_backoff 0) (if local_ip (pcb s) =? 0 then _ else s)).
  assert (snd (pcb s1) = snd (pcb s) /\ net s1 = net s /\ send_frame (pcb s) (pcb s1)) as (E1 & E2 & E3).
  { subst s1. destruct (_ =? 0); (split; [done|split; [done|split; [done|split; [done|by left]]]]). }
  clearbody s1. assert (send_ok U S L B [] (x :: qs) (pcb s1)) as Hs1 by (by eapply send_ok_snd).
  remember (length (x.2 :: qs.*2)) as fuel eqn:Hfuel. cbn [output_loop]. rewrite (so_unsent _ _ _ _ _ _ _ Hs1). cbn [fmap list_fmap].
  apply Forall_cons in Hr as [Hrx Hr]. rewrite Hrx. cbn [negb lwip_assert mbind outcome_bind].
  assert (tcp_do_output_nagle (pcb s1) = true) as -> by (unfold tcp_do_output_nagle; by rewrite (so_unacked _ _ _ _ _ _ _ Hs1)). cbn [negb andb].
  apply Forall_cons in Hc as [Hcx Hc].
  destruct (output_segment_ok byte_at U S L B [] (x :: qs) x mtu s1 Hs1 Hpx Hcx)
    as (err & x' & s2 & out0 & Hrun & Hx & Hs2 & F2 & _ & _ & _ & Hlog & Hw & Hone).
  assert (err = ERR_OK) as ->.
  { unfold tcp_output_segment in Hrun. rewrite Hb in Hrun. revert Hrun.
    match goal with |- context [ip_output_if ?a ?b ?c ?d ?e ?f] => specialize (Hlink a b c d e f);
      destruct (ip_output_if a b c d e f) as [[e' b'] n'] end. simpl in Hlink. congruence. }
  rewrite Hrun, decide_False by tauto. destruct out0 as [|m [|]]; try (specialize (Hone Hb eq_refl); simpl in Hone; lia).
  destruct (unbusy_eq byte_at _ _ Hx) as (_ & _ & _ & X4 & _ & _).
  destruct (output_sent_ok byte_at U S L B [] qs x x' s2 Hs2 Hx) as (Hs3 & Hn3 & _ & _ & _).
  set (s3 := output_sent _ _ s2) in *. clearbody s3.
  destruct (output_loop_ok byte_at U L B mtu fuel (Z.max S (ends_at x)) (put_placed x' []) qs s3) as (e & s4 & S' & qa' & qs' & out & -> & _ & Ho); try done.
  { subst fuel. simpl. rewrite length_fmap. unfold placed. lia. } { rewrite put_placed_perm. simpl. constructor; [by apply X4|done]. }
  destruct Ho as [O1 O2 _ O4 O5 _ _ _]. exists e, s4, S', qa', qs', m, out. split_and!; try done.
  - rewrite O2, put_placed_perm. simpl. by rewrite Hx.
  - rewrite O5, Hn3, Hlog, E2, <- app_assoc. done.
  - apply Forall_cons in Hw as [Hw _]. by eapply on_wire_frame.
Qed.

(** The time is up for the segments [x :: qa], which the driver does not hold and which are in front of the unsent ones. *)
Record due (U S L B : Z) (x : placed) (qa qs : list placed) s : Prop := {
  du_send : send_ok U S L B (x :: qa) qs (pcb s);
  du_order : forall y z, y ∈ x :: qa -> z ∈ qs -> before y z;
  du_text : Forall (carries byte_at) (x :: qa ++ qs);
  du_rst : Forall (fun y => has (seg_flags y.2) TCP_RST = false) (x :: qa ++ qs);
  du_free : Forall (fun y => seg_busy y.2 = false) (x :: qa);
  du_state : state (pcb s) <> LISTEN;
  du_rtt : 0 <= Z.shiftr (sa (tim (pcb s))) 3 + sv (tim (pcb s));
  du_time : 0 <= rtime (tim (pcb s)) < 0x7fff /\ rto (tim (pcb s)) <= rtime (tim (pcb s)) + 1;
  du_nrtx : 0 <= nrtx (tim (pcb s)) < 0xff;
  du_mss : 0 <= mss (pcb s);
  du_wnd : x.1 + seg_len x.2 <= U + Z.min (snd_wnd (snd (pcb s))) (mss (pcb s)) }.

(** C8: (retransmission) the time is up for the segments [x :: qa], in front of the unsent ones, none of which the driver still holds ([due]); there is a route, the link takes
    what it gets, and [x] fits into the peer's window and into one segment. Then [x] is the next thing on
    the wire, with its text; the retransmission is counted, the timer starts again, slow start begins with one segment, and no segment is lost. The
    time-out is backed off: after [k] retransmissions it is the estimate times [2 ^ (k + 1)], with at most seven doublings and at most [0x7fff]; while a connection is opened
    it stays as it was. *)
Theorem timeout_resends U S L B x qa qs mtu s : due U S L B x qa qs s ->
  tcp_route (net s) (local_ip (pcb s)) (remote_ip (pcb s)) = Some mtu -> (forall n a b h o t, (ip_output_if n a b h o t).1.1 = ERR_OK) ->
  exists s' S' qa' qs' m out, slowtmr_retransmit false s = Ret s' /\ send_ok U S' L B qa' qs' (pcb s') /\
    unbusy <$> qa' ++ qs' ≡ₚ unbusy <$> x :: qa ++ qs /\ Forall (carries byte_at) (qa' ++ qs') /\
    sent_log (net s') = sent_log (net s) ++ m :: out /\ on_wire byte_at (pcb s) x m /\
    nrtx (tim (pcb s')) = nrtx (tim (pcb s)) + 1 /\ rtime (tim (pcb s')) = 0 /\ cwnd (cng (pcb s')) = mss (pcb s) /\
    (state (pcb s) = SYN_SENT -> rto (tim (pcb s')) = rto (tim (pcb s))) /\ (state (pcb s) <> SYN_SENT -> rto (tim (pcb s')) =
      Z.min ((Z.shiftr (sa (tim (pcb s))) 3 + sv (tim (pcb s))) * 2 ^ Z.min (nrtx (tim (pcb s)) + 1) 7) 0x7fff).
Proof.
  intros [Hs Hord Hc Hr Hfree Hst Hrtt [Ht Hto] Hn Hm Hw] Hrt Hlink. unfold slowtmr_retransmit.
  rewrite (proj2 (Z.leb_le 0 _)), (proj2 (Z.ltb_lt _ 0x7fff)) by lia. cbn [andb]. set (s1 := upd _ s).
  assert (rto (tim (pcb s1)) <= rtime (tim (pcb s1))) as Hup%Z.leb_le by (subst s1; simpl; lia). rewrite Hup.
  pose proof (prepare_cases (pcb s1)) as Hp. change (snd (pcb s1)) with (snd (pcb s)) in Hp.
  assert (existsb seg_busy (unacked (snd (pcb s))) = false) as Hbusy.
  { rewrite (so_unacked _ _ _ _ _ _ _ Hs). clear - Hfree. induction Hfree as [|y q Hy _ IH]; [done|]. simpl. by rewrite Hy. }
  destruct (tcp_rexmit_rto_prepare _) as [e p1]. destruct Hp as [(-> & _ & _ & w & Hp1)|(_ & _ & [Hx|Hx])];
    [|by rewrite (so_unacked _ _ _ _ _ _ _ Hs) in Hx|congruence].
  rewrite (bool_decide_true (ERR_OK = ERR_OK)) by done. cbn [orb].
  assert (state p1 = state (pcb s)) as Est by (by rewrite Hp1). rewrite Est.
  assert (pcb_ok p1) as Hok1.
  { rewrite Hp1. split; [|exact Hrtt]. unfold queued. simpl. unfold queued. simpl. rewrite (so_unacked _ _ _ _ _ _ _ Hs), (so_unsent _ _ _ _ _ _ _ Hs), <- fmap_app.
    apply Forall_fmap. exact Hr. }
  destruct (backed_off_ok p1 Hok1) as (r & Er & _). rewrite Er. cbn [mbind outcome_bind].
  assert (nrtx (tim p1) = nrtx (tim (pcb s)) /\ sa (tim p1) = sa (tim (pcb s)) /\ sv (tim p1) = sv (tim (pcb s))) as (T1 & T2 & T3) by (by rewrite Hp1).
  apply backed_off_value in Er; [|rewrite T1; lia]. rewrite T1, T2, T3 in Er.
  assert (exists p2, (if decide (state (pcb s) <> SYN_SENT) then Ret (upd (set_rto r) (set_pcb p1 s1)) else Ret (set_pcb p1 s1)) = Ret (set_pcb p2 s) /\
    (p2 = p1 \/ p2 = set_rto r p1) /\ rto (tim p2) = if decide (state (pcb s) <> SYN_SENT) then r else rto (tim (pcb s))) as (p2 & -> & Hp2 & Hrto).
  { destruct (decide _); eexists; (split; [reflexivity|]); (split; [by auto|]); by rewrite ?Hp1. }
  cbn [mbind outcome_bind]. unfold tcp_rexmit_rto_commit. destruct (rto_windows_cng (set_rtime 0 p2)) as (c & Hcw & Hcwnd).
  change (upd rto_windows (upd (set_rtime 0) (set_pcb p2 s))) with (set_pcb (rto_windows (set_rtime 0 p2)) s). rewrite Hcw. cbn [pcb set_pcb].
  change (nrtx (tim (set_cng c (set_rtime 0 p2)))) with (nrtx (tim p2)). assert (nrtx (tim p2) = nrtx (tim (pcb s)) /\ mss p2 = mss (pcb s)) as [En Em] by (destruct Hp2 as [-> | ->]; by rewrite Hp1).
  rewrite En, (proj2 (Z.ltb_lt _ 0xff)) by lia. set (s3 := upd _ _).
  assert (send_ok U S L B [] ((x :: qa) ++ qs) (pcb s3)) as Hs3.
  { apply (send_ok_requeue U S L B (x :: qa) qs (pcb s)); try done; subst s3; destruct Hp2 as [-> | ->]; by rewrite Hp1. }
  destruct (output_first U S L B x (qa ++ qs) mtu s3) as (err & s4 & S' & qa' & qs' & m & out & Hout & O1 & O2 & O3 & O4 & O5); try done.
  { subst s3. simpl. destruct Hp2 as [-> | ->]; by rewrite Hp1. }
  { by apply Forall_cons in Hfree as [? _]. }
  { subst s3. simpl. destruct Hp2 as [-> | ->]; by rewrite Hp1. }
  { subst s3. simpl. rewrite Hcwnd. simpl. rewrite Em. assert (snd_wnd (snd p2) = snd_wnd (snd (pcb s))) as -> by (destruct Hp2 as [-> | ->]; by rewrite Hp1). done. }
  rewrite Hout. cbn [mbind outcome_bind]. pose proof (output_frame _ _ _ _ Hout) as F.
  destruct F as [[= _ _ _ _ _ _ _ F1] _ _ [= F2 F3 _ _ _ _ _ _ _ _] F4 _ _].
  assert (on_wire byte_at (pcb s) x m) as Hwire.
  { assert (local_port (pcb s3) = local_port (pcb s) /\ remote_port (pcb s3) = remote_port (pcb s) /\ rcv (pcb s3) = rcv (pcb s)) as (G1 & G2 & G3).
    { subst s3. simpl. destruct Hp2 as [-> | ->]; by rewrite Hp1. }
    unfold on_wire in *. by rewrite G1, G2, G3 in O5. }
  exists s4, S', qa', qs', m, out. do 6 (split; [done|]). split_and!.
  - by rewrite F2.
  - by rewrite F4.
  - rewrite F1. subst s3. simpl. by rewrite Hcwnd.
  - intros E. change (rto (tim (pcb s3))) with (rto (tim p2)) in F3. rewrite F3, Hrto. destruct (decide _); [tauto|done].
  - change (rto (tim (pcb s3))) with (rto (tim p2)) in F3. rewrite F3, Hrto. destruct (decide _); [done|tauto].
Qed.

(** ** A closed window *)

(** The peer has closed its window; everything sent is acknowledged, more waits, and no probe is asked for. *)
Record shut_out s : Prop := {
  sh_state : state (pcb s) = ESTABLISHED \/ state (pcb s) = CLOSE_WAIT;
  sh_path : is_bypass (pcb s) = true;
  sh_keep : keepalive (tim (pcb s)) = false;
  sh_nrtx : nrtx (tim (pcb s)) < TCP_MAXRTX;
  sh_unacked : unacked (snd (pcb s)) = [];
  sh_unsent : exists g q, unsent (snd (pcb s)) = g :: q /\ 0 < u32 (seg_seqno g - lastack (snd (pcb s)) + seg_len g);
  sh_wnd : snd_wnd (snd (pcb s)) = 0;
  sh_cwnd : 0 <= cwnd (cng (pcb s));
  sh_timer : rtime (tim (pcb s)) = -1;
  sh_rto : 0 <= rto (tim (pcb s));
  sh_pend : Z.testbit (flags (pcb s)) 3 = false }.

(** Nothing of the stream was sent. *)
Definition stalled s s' : Prop := snd (pcb s') = snd (pcb s) /\ sent_log (net s') = sent_log (net s).

Lemma shut_out_frame s s' : shut_out s -> out_frame s s' -> rtime (tim (pcb s')) = rtime (tim (pcb s)) -> stalled s s' -> shut_out s'.
Proof.
  intros [] [[= E1 _ _ _ _ E2 _ E3] _ _ [= E4 E5 _ _ _ _ _ _ _ E6] _ [E7 _] _] Hr [Es _]. split; rewrite ?E1, ?E2, ?E3, ?E4, ?E5, ?E6, ?E7, ?Es, ?Hr; done.
Qed.
Lemma shut_out_output s e s' : shut_out s -> tcp_output false s = Ret (e, s') -> shut_out s' /\ stalled s s'.
Proof.
  intros Hs H. assert (rtime (tim (pcb s')) = rtime (tim (pcb s)) /\ stalled s s') as [Hr Hst];
    [|split; [by eapply shut_out_frame; [|eapply output_frame| |]|done]].
  revert H. destruct Hs as [S1 S2 S3 S4 S5 (g & q & S6 & S6') S7 S8 S9 S10 S11]. unfold tcp_output.
  rewrite (bool_decide_false (state (pcb s) = LISTEN)) by (destruct S1 as [-> | ->]; done). cbn [negb lwip_assert mbind outcome_bind]. rewrite S6, S7, S2.
  destruct (tcp_route _ _ _) as [mtu|]; [|by intros [= <- <-]]. rewrite Z.min_l by lia. rewrite (proj2 (Z.ltb_lt 0 _)) by lia. cbn [andb].
  set (s1 := if local_ip _ =? 0 then _ else s).
  assert (rtime (tim (pcb s1)) = rtime (tim (pcb s)) /\ stalled s s1) as [R1 [T1 T2]] by (subst s1; by destruct (_ =? 0)). clearbody s1.
  set (s2 := if _ && _ && _ then _ else s1).
  assert (rtime (tim (pcb s2)) = rtime (tim (pcb s)) /\ stalled s s2) as [R2 [T3 T4]] by (subst s2; by destruct (_ && _ && _)). clearbody s2.
  destruct (has _ _); [|by intros [= <- <-]].
  pose proof (empty_ack_frame s2) as (A1 & _ & A3 & _).
  assert (rtime (tim (pcb (tcp_send_empty_ack s2).2)) = rtime (tim (pcb s2))) as A4.
  { unfold tcp_send_empty_ack, tcp_output_alloc_header. destruct (hdr_alloc (net s2)) as [[] n]; simpl; [|done].
    destruct (output_control _ _ _ _) as [e1 m]. simpl. by destruct (decide _). }
  destruct (tcp_send_empty_ack s2) as [e2 s3]. intros [= <- <-]. simpl in *. split; [congruence|]. split; congruence.
Qed.

Lemma shut_out_set s p' : shut_out s -> (state p', is_bypass p', snd p', cng p') = (state (pcb s), is_bypass (pcb s), snd (pcb s), cng (pcb s)) ->
  (keepalive (tim p'), nrtx (tim p'), rtime (tim p'), rto (tim p')) =
    (keepalive (tim (pcb s)), nrtx (tim (pcb s)), rtime (tim (pcb s)), rto (tim (pcb s))) ->
  Z.testbit (flags p') 3 = Z.testbit (flags (pcb s)) 3 -> forall s', pcb s' = p' -> shut_out s'.
Proof. intros [] [= E1 E2 E3 E4] [= E5 E6 E7 E8] E9 s' Hp. split; rewrite Hp, ?E1, ?E2, ?E3, ?E4, ?E5, ?E6, ?E7, ?E8, ?E9; done. Qed.

Lemma shut_out_fast s s' : shut_out s -> fasttmr_pcb false s = Ret (tt, s') -> shut_out s' /\ stalled s s'.
Proof.
  intros Hs. unfold fasttmr_pcb.
  assert (forall s1, (if has (flags (pcb s)) TF_ACK_DELAY then '(_, s) ← tcp_output false (upd tcp_ack_now s);
       Ret (upd (tcp_clear_flags (Z.lor TF_ACK_DELAY TF_ACK_NOW)) s) else Ret s) = Ret s1 -> shut_out s1 /\ stalled s s1) as Hack.
  { intros s1. destruct (has _ _); [|by intros [= <-]]. destruct (tcp_output false (upd tcp_ack_now s)) as [[e s2]| | |] eqn:E; try done.
    intros [= <-]. destruct (shut_out_output (upd tcp_ack_now s) e s2) as [H1 [H2 H3]]; [|done|].
    { by apply (shut_out_set s (tcp_ack_now (pcb s))); [| | |exact (flag_set 3 TF_ACK_NOW (pcb s) ltac:(lia) eq_refl)|]. }
    split; [|done]. set (m := Z.lor TF_ACK_DELAY TF_ACK_NOW). by apply (shut_out_set s2 (tcp_clear_flags m (pcb s2))); [| | |exact (flag_clear 3 m (pcb s2) ltac:(lia) eq_refl)|]. }
  destruct (if has (flags (pcb s)) TF_ACK_DELAY then _ else _) as [s1| | |]; try done. cbn [mbind outcome_bind]. destruct (Hack s1 eq_refl) as [H1 H2].
  assert (has (flags (pcb s1)) TF_CLOSEPEND = false) as ->; [|by intros [= <-]]. change TF_CLOSEPEND with (2 ^ 3). rewrite has_pow2 by lia. apply H1.
Qed.

Lemma shut_out_slow s : shut_out s -> exists s', slowtmr_pcb false (ticked s) = Ret (false, false, s') /\ shut_out s' /\ stalled s s'.
Proof.
  intros Hs. pose proof Hs as [S1 S2 S3 S4 S5 (g & q & S6 & S6') S7 S8 S9 S10 S11]. unfold slowtmr_pcb. change (pcb (ticked s)) with (pcb s).
  assert (retries_over (pcb s) = false) as ->.
  { unfold retries_over. rewrite (bool_decide_false (state (pcb s) = SYN_SENT)) by (destruct S1 as [-> | ->]; done). simpl. apply Z.leb_gt. lia. }
  unfold slowtmr_retransmit. change (pcb (ticked s)) with (pcb s). rewrite S9. cbn [Z.leb Z.compare andb]. change (pcb (ticked s)) with (pcb s).
  rewrite S9, (proj2 (Z.leb_gt (rto _) (-1))) by lia. cbn [mbind outcome_bind]. unfold slowtmr_keepalive. change (pcb (ticked s)) with (pcb s).
  rewrite S3. cbn [andb orb]. destruct (ooseq_frame (ticked s)) as (k & Hoo). set (s1 := slowtmr_ooseq (ticked s)) in *.
  assert (stuck s1 = false) as ->. { unfold stuck. destruct Hoo as [-> | ->]; simpl; by destruct S1 as [-> | ->]. }
  exists s1. split; [done|]. destruct Hoo as [-> | ->]; (split; [|done]); [by apply (shut_out_set s (pcb s))|by apply (shut_out_set s (set_ooseq [] (pcb s)))].
Qed.

(** C40: (a closed window) with the persist timer compiled out, nothing ever probes a closed window: whatever time passes, the connection
    stays as it is, nothing of what waits is sent, and it is not given up either; a lost window update stops it for good. *)
Theorem zero_window_stalls s : shut_out s ->
  (forall n s', silence n s s' -> stalled s s' /\ snd_wnd (snd (pcb s')) = 0) /\ (forall n, exists s', silence n s s').
Proof.
  intros Hs. assert (forall n s', silence n s s' -> shut_out s' /\ stalled s s') as Hall.
  { intros n s' H. revert Hs. induction H as [s|n s s1 d s2 _ IH H|n s s1 s2 _ IH H|n s s1 e s2 _ IH H]; intros Hs; [done|..];
      destruct (IH Hs) as [H1 [T1 T2]].
    - destruct (shut_out_slow s1 H1) as (s3 & E & H3 & [T3 T4]). rewrite E in H. injection H as <- <-. split; [done|]. split; congruence.
    - destruct (shut_out_fast _ _ H1 H) as [H3 [T3 T4]]. split; [done|]. split; congruence.
    - destruct (shut_out_output _ _ _ H1 H) as [H3 [T3 T4]]. split; [done|]. split; congruence. }
  split; [intros n s' H; destruct (Hall n s' H) as [[] ?]; done|]. induction n as [|n [s1 IH]]; [by exists s; constructor|].
  destruct (shut_out_slow s1) as (s2 & E & _); [by apply (Hall n)|]. exists s2. by eapply silent_slow.
Qed.

(** ** Acknowledgements *)

(** (a forgotten acknowledgement) [tcp_send_empty_ack] leaves an acknowledgement that cannot be sent for [tcp_fasttmr] to try again;
    but the fast timer clears the request also when it fails once more. *)
Theorem failed_ack_forgotten s : is_bypass (pcb s) = true -> state (pcb s) <> LISTEN -> unsent (snd (pcb s)) = [] ->
  has (flags (pcb s)) TF_ACK_DELAY = true -> has (flags (pcb s)) TF_CLOSEPEND = false -> (hdr_alloc (net s)).1 = false ->
  exists s', fasttmr_pcb false s = Ret (tt, s') /\ net s' = (hdr_alloc (net s)).2 /\
    has (flags (pcb s')) TF_ACK_DELAY = false /\ has (flags (pcb s')) TF_ACK_NOW = false.
Proof.
  intros Hb Hl Hu Hd Hp Ha. unfold fasttmr_pcb. rewrite Hd. unfold tcp_output. change (state (pcb (upd tcp_ack_now s))) with (state (pcb s)).
  rewrite (bool_decide_false _ Hl). cbn [negb lwip_assert mbind outcome_bind]. change (snd (pcb (upd tcp_ack_now s))) with (snd (pcb s)). rewrite Hu.
  change (is_bypass (pcb (upd tcp_ack_now s))) with (is_bypass (pcb s)). rewrite Hb.
  assert (has (flags (pcb (upd tcp_ack_now s))) TF_ACK_NOW = true) as ->.
  { simpl. change TF_ACK_NOW with (2 ^ 1). rewrite has_pow2 by lia. unfold u16. by rewrite Z.mod_pow2_bits_low, Z.lor_spec, orb_true_r. }
  cbn [andb]. unfold tcp_send_empty_ack, tcp_output_alloc_header. change (net (upd tcp_ack_now s)) with (net s).
  destruct (hdr_alloc (net s)) as [ok n]. simpl in Ha. subst ok. cbn [mbind outcome_bind]. set (s1 := upd (tcp_clear_flags _) _).
  assert (forall k, 0 <= k < 16 -> Z.testbit (flags (pcb s1)) k = Z.testbit (flags (pcb s)) k && negb (Z.testbit (Z.lor TF_ACK_DELAY TF_ACK_NOW) k)) as Hbit.
  { intros k Hk. subst s1. simpl. unfold u16. rewrite Z.mod_pow2_bits_low, Z.land_spec by lia. rewrite Z.mod_pow2_bits_low, Z.lor_spec, Z.mod_pow2_bits_low, Z.lor_spec by lia.
    change (Z.land (Z.lnot (Z.lor TF_ACK_DELAY TF_ACK_NOW)) 0xffff) with 0xfffc. change (Z.lor TF_ACK_DELAY TF_ACK_NOW) with 3. change TF_ACK_NOW with 2.
    assert (k = 0 \/ k = 1 \/ 2 <= k) as [-> | [-> | Hk2]] by lia; [by rewrite !andb_false_r..|].
    assert (Z.testbit 0xfffc k = true) as ->.
    { change 0xfffc with (Z.shiftl (Z.ones 14) 2). rewrite Z.shiftl_spec by lia. apply Z.ones_spec_low. lia. }
    assert (Z.testbit 3 k = false /\ Z.testbit 2 k = false) as [-> ->]; [|by rewrite !orb_false_r].
    split; apply Z.bits_above_log2; simpl; lia. }
  assert (has (flags (pcb s1)) TF_CLOSEPEND = false) as ->.
  { change TF_CLOSEPEND with (2 ^ 3) in *. rewrite has_pow2 in * by lia. by rewrite Hbit, Hp by lia. }
  exists s1. split; [done|]. split; [done|]. change TF_ACK_DELAY with (2 ^ 0). change TF_ACK_NOW with (2 ^ 1). rewrite !has_pow2, !Hbit by lia. by rewrite !andb_false_r.
Qed.
End resending.

Section closing.
  Context (byte_at : Z -> Z).
  Context {N : Type} `{!TcpNet N} `{!TcpBufs N} `{!TcpBufsLaws N} `{!TcpLink N} `{!TcpLinkLaws N}.
  Implicit Type s : input N.

(** ** Pending FINs *)




End closing.

Section refused.
  Context {N : Type} `{!TcpNet N} `{!TcpBufs N} `{!TcpLink N} `{!TcpEvents N}.
  Implicit Type t : stack N.

(** ** Refused data *)

(** (closing in the callback) the application refused data with a FIN before; when the timer offers them again it takes them and closes the
    connection, and returns [ERR_OK]. Since it has not called [tcp_recved], [tcp_close] resets and frees the connection, and
    [tcp_process_refused_data] goes on to use it. *)
Theorem refused_fin_use_after_free a t b p : blocks t !! a = Some b -> tcp_input_pcb t = None ->
  state (tcb b) = ESTABLISHED \/ state (tcb b) = CLOSE_WAIT -> refused_data (tcb b) = Some p -> refused_fin b = true ->
  rcv_wnd (rcv (tcb b)) <> TCP_WND ->
  (forall t1 e t2, tcp_close a t1 = Ret (e, t2) -> ev_recv a (Some p) t1 = (ERR_OK, t2)) ->
  tcp_process_refused_data a t = Undef.
Proof.
  intros Hb Hin Hst Hr Hf Hw Hcb. unfold tcp_process_refused_data. rewrite Hb. cbn [deref mbind outcome_bind]. rewrite Hr. cbn [deref mbind outcome_bind].
  set (t1 := alter_block _ a t). assert (blocks t1 !! a = Some (set_tcb (set_refused_data None (tcb b)) b)) as Hb1 by (subst t1; simpl; by rewrite lookup_alter_eq, Hb).
  assert (tcp_input_pcb t1 = None) as Hin1 by done. clearbody t1.
  assert (exists e t2, tcp_close a t1 = Ret (e, t2) /\ blocks t2 !! a = None) as (e & t2 & Hc & Hg).
  { unfold tcp_close. rewrite (pcb_at_run _ _ _ Hb1). cbn [mbind outcome_bind]. rewrite decide_True by (simpl; destruct Hst as [-> | ->]; done).
    set (b2 := set_tcb (tcp_set_flags TF_RXCLOSED (set_refused_data None (tcb b))) b).
    assert (blocks (set_flags_at TF_RXCLOSED a t1) !! a = Some b2) as Hb2 by (simpl; by rewrite lookup_alter_eq, Hb1).
    set (t2 := set_flags_at _ _ t1) in *. assert (tcp_input_pcb t2 = None) as Hin2 by done. clearbody t2. unfold tcp_close_shutdown. rewrite (pcb_at_run _ _ _ Hb2). cbn [mbind outcome_bind andb].
    assert (data_unread (tcb b2) = true) as ->.
    { unfold data_unread. simpl. rewrite bool_decide_true by done. by rewrite (proj2 (Z.eqb_neq _ _) Hw). }
    destruct (close_reset_run (set_pcb (tcb b2) (regs t2))) as (s & H & H1 & _).
    { simpl. change TF_RXCLOSED with (2 ^ 4). rewrite has_pow2 by lia. unfold u16. by rewrite Z.mod_pow2_bits_low, Z.lor_spec, orb_true_r. }
    { simpl. destruct Hst as [-> | ->]; done. }
    rewrite (at_pcb_run _ _ _ _ _ _ Hb2 H). cbn [mbind outcome_bind]. unfold is_input. simpl. rewrite Hin2, bool_decide_false by done.
    erewrite pcb_free_run; [|simpl; apply lookup_insert_eq|simpl; rewrite H1; simpl; destruct Hst as [-> | ->]; done]. cbn [mbind outcome_bind].
    eexists _, _. split; [reflexivity|]. simpl. apply lookup_delete_eq. }
  rewrite (Hcb _ _ _ Hc), Hf. unfold at_pcb. by rewrite Hg.
Qed.
End refused.
