(* ===== verification/TcpTimerExamples.v ===== *)
(** * The TCP timers: examples

    Connections over the link of [TcpSendExamples], with an application that closes its connections when it is
    polled. *)

From stdpp Require Import gmap.
From S2P Require Import Prelude Chain Def Tcp TcpRecv TcpStream TcpProps TcpAck TcpReceive TcpOpt TcpProcess TcpOut TcpSend TcpOutput TcpSendErrors TcpSession TcpSendExamples TcpStack TcpTimer TcpTimerOk TcpStackOk TcpTimerProps TcpTimeouts.

Module TimerExamples.
Import SendExamples.

(** ** The application *)

(** It takes all data, and closes when it is polled. *)
#[export] Instance app_events : TcpEvents link := {
  ev_err _ _ t := t;
  ev_poll a t := match @tcp_close link _ _ _ a t with Ret (e, t') => (e, t') | _ => (ERR_VAL, t) end;
  ev_recv _ _ t := (ERR_OK, t) }.
#[export] Instance app_events_laws : TcpEventsLaws link.
Proof.
  split.
  - intros a e t Ht _. by apply as_refl.
  - intros a t Ht Hi Ha. destruct (active_block t a Ht Ha) as (b & Hb & _).
    destruct (tcp_close_ok a t b Ht Hi Hb) as (e & t' & E & H). simpl. by rewrite E.
  - intros a d t Ht _ Hs. simpl. split; [by apply as_refl|done].
Qed.

(** Three connections: one with a segment that waits for its acknowledgement, one in TIME-WAIT, one that listens. *)
Definition tw : tcp_pcb :=
  Pcb TIME_WAIT 0 1000 1 81 2 8081 true None (Receiver 1000 4000 4000 5000 [])
    (Sender 17 999 17 17 4000 4000 4096 0 17 [] []) (Congestion 2000 4000 0 0) (Timing (-1) 0 7 16 8 3 0 0 0 0 0 0 0 0 0 0 false).
Definition listening : tcp_pcb := set_state LISTEN tw.
Definition three : stack link :=
  Stack {[100 := Block waiting 9 None 64 false 0 false; 200 := Block tw 9 None 64 false 0 false; 300 := Block listening 9 None 64 false 0 false]}
    [100] [200] [] [300] false 9 0 None [400; 500] [600] 49152 (st 5 waiting).

Lemma three_ok : stack_ok three.
Proof.
  assert (forall a, state_at a three =
    if decide (a = 100) then Some ESTABLISHED else if decide (a = 200) then Some TIME_WAIT else if decide (a = 300) then Some LISTEN else None) as Hst.
  { intros a. unfold state_at, three. simpl. destruct (decide (a = 100)) as [->|]; [done|]. rewrite lookup_insert_ne by done.
    destruct (decide (a = 200)) as [->|]; [done|]. rewrite lookup_insert_ne by done. destruct (decide (a = 300)) as [->|]; [done|].
    by rewrite lookup_singleton_ne. }
  split.
  - split_and!; apply (bool_decide_unpack _); by vm_compute.
  - intros a. rewrite Hst. simpl. rewrite list_elem_of_singleton. repeat case_decide; naive_solver.
  - intros a. rewrite Hst. simpl. rewrite list_elem_of_singleton. repeat case_decide; naive_solver.
  - intros a. rewrite Hst. simpl. rewrite list_elem_of_singleton. repeat case_decide; naive_solver.
  - intros a Ha. by apply not_elem_of_nil in Ha.
  - intros a b Hb. simpl in Hb. apply lookup_insert_Some in Hb as [[<- <-]|[_ Hb]]; [split; [|done]; split; [by repeat constructor|done]|].
    apply lookup_insert_Some in Hb as [[<- <-]|[_ Hb]]; [split; [split; [by repeat constructor|done]|done]|].
    apply lookup_singleton_Some in Hb as [<- <-]. split; [split; [by repeat constructor|done]|done].
  - split; [apply (bool_decide_unpack _); by vm_compute|]. intros a Ha. simpl in Ha. rewrite !elem_of_cons in Ha.
    destruct Ha as [->|[->|[->|[]%not_elem_of_nil]]]; done.
Qed.
Lemma three_seen a : ~ todo a three.
Proof.
  intros (b & Hb & Ha & Hl). simpl in Hb. apply lookup_insert_Some in Hb as [[<- <-]|[_ Hb]]; [done|].
  apply lookup_insert_Some in Hb as [[<- <-]|[_ Hb]]; [done|]. by apply lookup_singleton_Some in Hb as [<- <-].
Qed.

Lemma timers_return_witness :
  (forall a, a ∈ active_pcbs three -> todo a (next_ctr three)) /\
  exists n t', (forall fuel, (n <= fuel)%nat -> tcp_tmr fuel three = Ret t') /\ stack_ok t' /\ tcp_input_pcb t' = None /\
    0 <= timer_ctr t' < 256 /\ forall a, ~ todo a t'.
Proof. apply (timers_return three); try done; [exact three_ok|exact three_seen]. Defined.

(** ** Retransmission *)

(** Four runs of the slow timer with no answer: the segment was sent again. *)
Definition slow (s : input link) : input link := match slowtmr_pcb false (ticked s) with Ret (_, _, s') => s' | _ => s end.
Definition slowly : input link := slow (slow (slow (slow (st 5 waiting)))).
Lemma slow_silence n s s' : silence n s s' -> (match slowtmr_pcb false (ticked s') with Ret (false, _, _) => true | _ => false end) = true ->
  silence (S n) s (slow s').
Proof. intros H E. unfold slow. destruct (slowtmr_pcb _ _) as [[[[] d] s2]| | |] eqn:Ed; try done. by eapply silent_slow. Qed.
Lemma slowly_silent : silence 4 (st 5 waiting) slowly /\ nrtx (tim (pcb slowly)) = 1.
Proof. split; [|by vm_compute]. do 4 (apply slow_silence; [|by vm_compute]). constructor. Qed.
Lemma silent_peer_given_up_witness :
  Z.of_nat 4 < (TCP_MAXRTX + 1) * 0x8000 /\ exists r d s2, slowtmr_pcb false (ticked slowly) = Ret (r, d, s2).
Proof.
  apply (silent_peer_given_up (N := link) ltac:(done) 4 (st 5 waiting) slowly); [|exact (proj1 slowly_silent)].
  split; try done. by repeat constructor.
Defined.

(** The segment at 7 was sent, and its time-out is over with the next tick. *)
Definition late : tcp_pcb := set_rtime 2 (conn TF_NODELAY 4000 [seg 17 5] 22).
Lemma timeout_resends_witness :
  exists s' S' qa' qs' m out, slowtmr_retransmit false (st 5 late) = Ret s' /\ send_ok 7 S' 22 4096 qa' qs' (pcb s') /\
    unbusy <$> qa' ++ qs' ≡ₚ unbusy <$> seg 7 10 :: [] ++ [seg 17 5] /\ Forall (carries text) (qa' ++ qs') /\
    sent_log (net s') = sent_log (net (st 5 late)) ++ m :: out /\ on_wire text (pcb (st 5 late)) (seg 7 10) m /\
    nrtx (tim (pcb s')) = nrtx (tim (pcb (st 5 late))) + 1 /\ rtime (tim (pcb s')) = 0 /\ cwnd (cng (pcb s')) = mss (pcb (st 5 late)) /\
    (state (pcb (st 5 late)) = SYN_SENT -> rto (tim (pcb s')) = rto (tim (pcb (st 5 late)))) /\
    (state (pcb (st 5 late)) <> SYN_SENT -> rto (tim (pcb s')) =
      Z.min ((Z.shiftr (sa (tim (pcb (st 5 late)))) 3 + sv (tim (pcb (st 5 late)))) * 2 ^ Z.min (nrtx (tim (pcb (st 5 late))) + 1) 7) 0x7fff).
Proof.
  apply (timeout_resends text 7 17 22 4096 (seg 7 10) [] [seg 17 5] 1500 (st 5 late)); try done. split; try done.
  - exact (send_ok_snd _ _ _ _ _ _ (conn TF_NODELAY 4000 [seg 17 5] 22) late (conn_sending TF_NODELAY 4000) eq_refl).
  - intros y z ->%list_elem_of_singleton ->%list_elem_of_singleton. done.
  - exact (sn_carries _ _ _ _ _ _ _ _ waiting_ok).
  - by repeat constructor.
  - by repeat constructor.
Defined.

(** ** A closed window, acknowledgements, pending FINs, refused data *)

Definition closed_window : tcp_pcb :=
  Pcb ESTABLISHED 0 1000 1 80 2 8080 true None (Receiver 1000 4000 4000 5000 [])
    (Sender 17 999 17 22 0 4000 4091 1 17 [(seg 17 5).2] []) (Congestion 2000 4000 0 0) (Timing (-1) 0 7 16 8 3 0 0 0 0 0 0 0 0 0 0 false).
Lemma zero_window_stalls_witness :
  (forall n s', silence n (st 5 closed_window) s' -> stalled (st 5 closed_window) s' /\ snd_wnd (snd (pcb s')) = 0) /\
  (forall n, exists s', silence n (st 5 closed_window) s').
Proof.
  apply (zero_window_stalls (st 5 closed_window)). split; try done; [by left|]. by exists (seg 17 5).2, [].
Defined.

(** A link without memory for headers. *)
Definition dry : Type := list (ctl_hdr * list Z).
#[export] Instance dry_net : TcpNet dry := { hdr_alloc n := (false, n); output_control n _ _ _ := (ERR_OK, n) }.
#[export] Instance dry_bufs : TcpBufs dry := { ram_alloc n _ := (false, n); rom_alloc n := (false, n); bufs_free := fun n _ => n }.
#[export] Instance dry_out : TcpLink dry := {
  tcp_route _ _ _ := Some 1500; link_ip _ _ := 1; ip_output_if n _ _ h _ text := (ERR_OK, false, n ++ [(h, text)]) }.
#[export] Instance dry_laws : TcpLinkLaws dry.
Proof. by refine {| sent_log n := n |}. Defined.
Definition acking : tcp_pcb := set_flags TF_ACK_DELAY idle.
Definition dry_st : input dry := Input acking 0 0 0 None 0 0 0 0 0 0 0 None 5 44 [].
Lemma failed_ack_forgotten_witness :
  exists s', fasttmr_pcb false dry_st = Ret (tt, s') /\ net s' = (hdr_alloc (net dry_st)).2 /\ has (flags (pcb s')) TF_ACK_DELAY = false /\ has (flags (pcb s')) TF_ACK_NOW = false.
Proof. apply (failed_ack_forgotten dry_st); done. Defined.

(** An application that closes the connection when it gets the last data, keeps to the laws. *)
Definition closer : Type := link.
#[local] Instance closer_events : TcpEvents closer := {
  ev_err _ _ t := t; ev_poll _ t := (ERR_OK, t);
  ev_recv a _ t := if fin_waits a t then (ERR_OK, t) else match @tcp_close closer _ _ _ a t with Ret (_, t') => (ERR_OK, t') | _ => (ERR_OK, t) end }.
#[local] Instance closer_laws : TcpEventsLaws closer.
Proof.
  split; [intros; by apply as_refl|intros; by apply as_refl|]. intros a d t Ht Hi [b Hb]. simpl. destruct (fin_waits a t) eqn:Hf.
  - split; [by apply as_refl|]. intros _ _. by exists b.
  - destruct (tcp_close_ok a t b Ht Hi Hb) as (e & t' & -> & H). split; [done|]. intros _ Hx. by destruct (Hx eq_refl).
Qed.

(** An application that closes the connection as soon as it gets data. *)
Definition hasty : Type := link.
#[local] Instance hasty_events : TcpEvents hasty := {
  ev_err _ _ t := t; ev_poll _ t := (ERR_OK, t);
  ev_recv a d t := match @tcp_close hasty _ _ _ a t with Ret (_, t') => (ERR_OK, t') | _ => (ERR_OK, t) end }.
Definition refusing : tcp_pcb := set_refused_data (Some [[1; 2; 3]]) (set_rcv_wnd 3996 (set_state CLOSE_WAIT idle)).
Definition refused_stack : stack hasty :=
  Stack {[100 := Block refusing 9 None 64 false 0 true]} [100] [] [] [] false 9 0 None [400] [] 49152 (st 5 idle).
Lemma refused_fin_use_after_free_witness : tcp_process_refused_data 100 refused_stack = Undef.
Proof.
  apply (refused_fin_use_after_free (N := hasty) 100 refused_stack (Block refusing 9 None 64 false 0 true) [[1; 2; 3]]); try done.
  - by right.
  - intros t1 e t2 H. simpl. by rewrite H.
Defined.
End TimerExamples.
