(* ===== verification/TcpNetml.v ===== *)
(** * The multi-node extension of TCP ([LWIP_NETML] in [tcp_in.c] and [tcp_out.c])

    A connection that is not a bypass talks to several nodes behind one peer. Data segments have an internal header behind the
    TCP header, with the node of the sender, a sequence number of their own and the position in the stream of this node
    ([int_tunlno]); the receiver keeps a stream per node ([internal_conn]) and acknowledges every segment by its end.

    The send queues are doubly linked here, and the code goes through the pointers in both directions, so the segments are
    kept in a store by their addresses ([segs]); following the address of a segment that was freed is undefined. The fields of
    headers that stay in memory keep their byte order: [n_word] and [internal_hdr] are what the (little-endian) host reads. *)

From stdpp Require Import gmap.
From S2P Require Import Prelude Chain Def Tcp TcpProcess TcpOut.

(** ** Headers *)

Definition TCPH_FLAGS (w : Z) : Z := Z.land (lwip_htons w) 0x3f.
Definition TCPH_HDRLEN_FLAGS_SET (len fl : Z) : Z := lwip_htons (Z.lor (u16 (Z.shiftl len 12)) fl).
(** The four bits between the header length and the flags. *)
Definition TCPH_OFFSET_FLAGS (w : Z) : Z := Z.land (Z.shiftr (lwip_htons w) 8) 0xf.
Definition TCPH_OFFSET_SETBIT (w offset : Z) : Z := Z.lor w (lwip_htons (u16 (Z.shiftl offset 8))).
Definition TCPH_OFFSET_CLEAR (w : Z) : Z := Z.land w 0xf0ff.

Definition NETML_BYPASS : Z := 0x08.
Definition NETML_COLD : Z := 0x04.
Definition NETML_COLD_RE : Z := 0x06.
Definition NETML_HOT : Z := 0x07.
Definition NETML_HOT_RE : Z := 0x02.
Definition NETML_AGG_ACK : Z := 0x0d.
Definition NETML_AGG : Z := 0x0e.
Definition NETML_MAX_NODE : Z := 128.
Definition INTERNAL_HLEN : Z := 12.

(** [struct internal_hdr], as it is stored. *)
Record internal_hdr := IntHdr { dst_id : Z; src_id : Z; int_seqno : Z; int_tunlno : Z }.

(** The internal header at the beginning of a packet, and its bytes. *)
Definition read_hdr (c : list Z) : outcome internal_hdr :=
  if Z.of_nat (length c) <? INTERNAL_HLEN then Undef
  else Ret (IntHdr (get8 c 0 + 256 * get8 c 1) (get8 c 2 + 256 * get8 c 3) (get_ip c 4) (get_ip c 8)).
Definition hdr_bytes (h : internal_hdr) : list Z :=
  [dst_id h mod 256; dst_id h / 256 mod 256; src_id h mod 256; src_id h / 256 mod 256] ++ ip_bytes (int_seqno h) ++ ip_bytes (int_tunlno h).

(** ** Segments and nodes *)

(** [struct tcp_seg]: [n_seqno] is the sequence number of its TCP header, [n_word] the word with the flags, [n_p] the
    payloads of its pbufs without the headers. *)
Record nseg := NSeg {
  n_seqno : Z; n_len : Z; n_word : Z; n_p : chain; n_busy : bool; n_hdr : internal_hdr; n_next : option Z; n_prev : option Z; n_resent : bool }.
Definition set_n_word (v : Z) (g : nseg) : nseg :=
  NSeg (n_seqno g) (n_len g) v (n_p g) (n_busy g) (n_hdr g) (n_next g) (n_prev g) (n_resent g).
Definition set_n_busy (v : bool) (g : nseg) : nseg :=
  NSeg (n_seqno g) (n_len g) (n_word g) (n_p g) v (n_hdr g) (n_next g) (n_prev g) (n_resent g).
Definition set_n_next (v : option Z) (g : nseg) : nseg :=
  NSeg (n_seqno g) (n_len g) (n_word g) (n_p g) (n_busy g) (n_hdr g) v (n_prev g) (n_resent g).
Definition set_n_prev (v : option Z) (g : nseg) : nseg :=
  NSeg (n_seqno g) (n_len g) (n_word g) (n_p g) (n_busy g) (n_hdr g) (n_next g) v (n_resent g).
Definition set_n_resent (v : bool) (g : nseg) : nseg :=
  NSeg (n_seqno g) (n_len g) (n_word g) (n_p g) (n_busy g) (n_hdr g) (n_next g) (n_prev g) v.
Definition n_tcplen (g : nseg) : Z := tcp_len (n_len g) (TCPH_FLAGS (n_word g)).

(** [struct tcp_internal_id]; the elements of [ooseq] with their addresses. *)
Record internal_id := Node { nxtwish : Z; intseq : Z; intack : Z; inttunl : Z; inid : Z; node_ooseq : list (Z * nseg) }.
Definition set_nxtwish (v : Z) (w : internal_id) : internal_id := Node v (intseq w) (intack w) (inttunl w) (inid w) (node_ooseq w).
Definition set_intseq (v : Z) (w : internal_id) : internal_id := Node (nxtwish w) v (intack w) (inttunl w) (inid w) (node_ooseq w).
Definition set_intack (v : Z) (w : internal_id) : internal_id := Node (nxtwish w) (intseq w) v (inttunl w) (inid w) (node_ooseq w).
Definition set_inttunl (v : Z) (w : internal_id) : internal_id := Node (nxtwish w) (intseq w) (intack w) v (inid w) (node_ooseq w).
Definition set_node_ooseq (v : list (Z * nseg)) (w : internal_id) : internal_id :=
  Node (nxtwish w) (intseq w) (intack w) (inttunl w) (inid w) v.

(** The part of [tcp_alloc] for the nodes. *)
Definition new_nodes : list internal_id := (fun t : nat => Node 1 1 1 1 (Z.of_nat t + 8) []) <$> seq 0 (Z.to_nat NETML_MAX_NODE).

(** A connection with its nodes and queues. [core] has the variables of [tcp_in.c] and of the control block; the queues of its
    [pcb] and its count of segments are not used. [seg_pool] are the free elements of [MEMP_TCP_SEG]. *)
Record multi (N : Type) := Multi {
  core : input N; local_id : Z; internal_conn : list internal_id; unsent_head : option Z; unacked_head : option Z;
  segs : gmap Z nseg; seg_pool : list Z }.
Arguments Multi {N}.
Arguments core {N}.
Arguments local_id {N}.
Arguments internal_conn {N}.
Arguments unsent_head {N}.
Arguments unacked_head {N}.
Arguments segs {N}.
Arguments seg_pool {N}.

(** A segment on the wire, from a local to a remote address: ports, numbers, the word with the flags, the window, the internal header
    and the data; the result says whether the driver keeps the pbuf. *)
Record wire_frame := Frame { f_src : Z; f_dest : Z; f_seqno : Z; f_ackno : Z; f_word : Z; f_wnd : Z; f_hdr : internal_hdr; f_data : list Z }.
Class MultiNet (N : Type) := { frame_out : N -> Z -> Z -> wire_frame -> err_t * bool * N }.

Section netml.
  Context {N : Type} `{!TcpNet N} `{!TcpBufs N} `{!TcpLink N} `{!MultiNet N}.
  Implicit Type m : multi N.

Definition set_core (v : input N) m : multi N := Multi v (local_id m) (internal_conn m) (unsent_head m) (unacked_head m) (segs m) (seg_pool m).
Definition set_nodes (v : list internal_id) m : multi N := Multi (core m) (local_id m) v (unsent_head m) (unacked_head m) (segs m) (seg_pool m).
Definition set_unsent_head (v : option Z) m : multi N := Multi (core m) (local_id m) (internal_conn m) v (unacked_head m) (segs m) (seg_pool m).
Definition set_unacked_head (v : option Z) m : multi N := Multi (core m) (local_id m) (internal_conn m) (unsent_head m) v (segs m) (seg_pool m).
Definition set_segs (v : gmap Z nseg) m : multi N := Multi (core m) (local_id m) (internal_conn m) (unsent_head m) (unacked_head m) v (seg_pool m).
Definition set_seg_pool (v : list Z) m : multi N := Multi (core m) (local_id m) (internal_conn m) (unsent_head m) (unacked_head m) (segs m) v.
Definition set_local_id (v : Z) m : multi N := Multi (core m) v (internal_conn m) (unsent_head m) (unacked_head m) (segs m) (seg_pool m).
Definition updp (f : tcp_pcb -> tcp_pcb) m : multi N := set_core (upd f (core m)) m.
Definition mpcb m : tcp_pcb := pcb (core m).

(** A store through the address of a segment. *)
Definition upd_seg (f : nseg -> nseg) (a : Z) m : outcome (multi N) :=
  g ← deref (segs m !! a); Ret (set_segs (<[a := f g]> (segs m)) m).
(** [&pcb->internal_conn[i]]: using an element outside of the array is undefined. *)
Definition node_at (i : Z) m : outcome internal_id := if i <? 0 then Undef else deref (internal_conn m !! Z.to_nat i).
Definition upd_node (f : internal_id -> internal_id) (i : Z) m : multi N := set_nodes (alter f (Z.to_nat i) (internal_conn m)) m.

(** [tcp_seg_free(seg)]. *)
Definition free_seg (a : Z) m : outcome (multi N) :=
  g ← deref (segs m !! a);
  Ret (set_core (free_bufs (chain_clen (n_p g)) (core m)) (set_seg_pool (a :: seg_pool m) (set_segs (delete a (segs m)) m))).

(** The part of [tcp_pcb_purge] for the nodes: what waits in their queues is freed. (The table [seq_history] of the package DPDK is
    given back as well; it is no part of the model.) *)
Definition free_waiting (x : Z * nseg) m : multi N :=
  set_core (free_bufs (chain_clen (n_p x.2)) (core m)) (set_seg_pool (x.1 :: seg_pool m) m).
Definition purge_nodes m : multi N :=
  if decide (state (mpcb m) <> CLOSED /\ state (mpcb m) <> TIME_WAIT /\ state (mpcb m) <> LISTEN) then
    set_nodes (set_node_ooseq [] <$> internal_conn m) (fold_left (fun m w => fold_left (fun m x => free_waiting x m) (node_ooseq w) m) (internal_conn m) m)
  else m.

(** ** Queues *)

Definition remove_from_unack (a : Z) m : outcome (multi N) :=
  g ← deref (segs m !! a);
  match n_prev g, n_next g with
  | None, None => Ret (set_unacked_head None m)
  | Some b, None => upd_seg (set_n_next None) b m
  | None, Some c => upd_seg (set_n_prev None) c (set_unacked_head (Some c) m)
  | Some b, Some c => m ← upd_seg (set_n_next (Some c)) b m; upd_seg (set_n_prev (Some b)) c m
  end.
Definition remove_from_unsent (a : Z) m : outcome (multi N) :=
  g ← deref (segs m !! a);
  match n_prev g, n_next g with
  | None, None => Ret (set_unsent_head None m)
  | Some b, None => upd_seg (set_n_next None) b m
  | None, Some c => upd_seg (set_n_prev None) c (set_unsent_head (Some c) m)
  | Some b, Some c => m ← upd_seg (set_n_next (Some c)) b m; upd_seg (set_n_prev (Some b)) c m
  end.

(** The walk to the place of a sequence number: what was passed last and what comes next. *)
Fixpoint find_place (fuel : nat) (sq : Z) (prev cur : option Z) m : outcome (option Z * option Z) :=
  match fuel, cur with
  | O, _ => Diverge
  | _, None => Ret (prev, None)
  | S fuel, Some c =>
      g ← deref (segs m !! c);
      if TCP_SEQ_LT (n_seqno g) sq then find_place fuel sq (Some c) (n_next g) m else Ret (prev, Some c)
  end.
Definition walk_fuel m : nat := S (size (segs m)).

(** [tcp_rexmit_data(pcb, seg)]. *)
Definition tcp_rexmit_data (a : Z) m : outcome (multi N) :=
  g ← deref (segs m !! a);
  if n_busy g then Ret m
  else
    m ← upd_seg (set_n_resent true) a m;
    m ← match unsent_head m with
        | None => upd_seg (fun g => set_n_prev None (set_n_next None g)) a (set_unsent_head (Some a) m)
        | Some h =>
            '(prev, cur) ← find_place (walk_fuel m) (n_seqno g) None (Some h) m;
            match cur with
            | Some c =>
                gc ← deref (segs m !! c);
                m ← upd_seg (set_n_prev (n_prev gc)) a m;
                m ← upd_seg (set_n_prev (Some a)) c m;
                m ← upd_seg (set_n_next (Some c)) a m;
                match prev with
                | None => Ret (set_unsent_head (Some a) m)
                | Some b => upd_seg (set_n_next (Some a)) b m
                end
            | None =>
                b ← deref prev;
                m ← upd_seg (set_n_next (Some a)) b m;
                upd_seg (fun g => set_n_next None (set_n_prev (Some b) g)) a m
            end
        end;
    Ret (updp (fun p => set_rttest 0 (set_nrtx (u8 (nrtx (tim p) + 1)) p)) m).

(** ** Acknowledgements *)

(** The first segment of a queue that ends at [ack]. *)
Fixpoint find_acked (fuel : nat) (ack : Z) (cur : option Z) m : outcome (option Z) :=
  match fuel, cur with
  | O, _ => Diverge
  | _, None => Ret None
  | S fuel, Some a =>
      g ← deref (segs m !! a);
      if u32 (n_seqno g + n_tcplen g) =? ack then Ret (Some a) else find_acked fuel ack (n_next g) m
  end.

(** The bookkeeping for an acknowledged segment, which is freed. *)
Definition account_acked (a : Z) m : outcome (multi N) :=
  g ← deref (segs m !! a);
  let m := set_core (set_recv_acked (u16 (recv_acked (core m) + n_len g)) (core m)) m in
  let m := updp (fun p => set_snd_queuelen (u16 (snd_queuelen (snd p) - chain_clen (n_p g))) p) m in
  m ← free_seg a m;
  lwip_assert ((snd_queuelen (snd (mpcb m)) =? 0) || negb (bool_decide (unacked_head m = None /\ unsent_head m = None)));;
  Ret m.

Definition ack_unsent m : outcome (multi N) :=
  r ← find_acked (walk_fuel m) (ackno (core m)) (unsent_head m) m;
  match r with
  | None => Ret m
  | Some a => m ← remove_from_unsent a m; account_acked a m
  end.

(** The segments before the acknowledged one are sent again. *)
Fixpoint resend_before (fuel : nat) (cur : option Z) m : outcome (multi N) :=
  match fuel, cur with
  | O, _ => Diverge
  | _, None => Ret m
  | S fuel, Some a =>
      g ← deref (segs m !! a);
      m ← (if n_resent g then Ret m else m ← remove_from_unack a m; tcp_rexmit_data a m);
      g ← deref (segs m !! a);
      resend_before fuel (n_prev g) m
  end.

Definition ack_unacked m : outcome (multi N) :=
  r ← find_acked (walk_fuel m) (ackno (core m)) (unacked_head m) m;
  match r with
  | None => Ret m
  | Some a =>
      let m := updp (fun p => set_rto (s16 (Z.shiftr (sa (tim p)) 3 + sv (tim p))) (set_nrtx 0 p)) m in
      m ← remove_from_unack a m;
      g ← deref (segs m !! a);
      m ← account_acked a m;
      m ← resend_before (walk_fuel m) (n_prev g) m;
      let m := if bool_decide (unacked_head m = None) then updp (set_rtime (-1)) m
               else if rtime (tim (mpcb m)) <? 0 then updp (set_rtime 0) m else m in
      Ret (updp (set_polltmr 0) m)
  end.

(** The round-trip time. *)
Definition netml_rtt (ticks ack : Z) (p : tcp_pcb) : tcp_pcb :=
  if negb (rttest (tim p) =? 0) && TCP_SEQ_LT (rtseq (tim p)) ack then
    let m := s16 (ticks - rttest (tim p)) in
    let m := s16 (m - Z.shiftr (sa (tim p)) 3) in
    let p := set_sa (s16 (sa (tim p) + m)) p in
    let m := if m <? 0 then s16 (- m) else m in
    let m := s16 (m - Z.shiftr (sv (tim p)) 2) in
    let p := set_sv (s16 (sv (tim p) + m)) p in
    set_rttest 0 (set_rto (s16 (Z.shiftr (sa (tim p)) 3 + sv (tim p))) p)
  else p.

Definition netml_receive_ack m : outcome (multi N) :=
  m ← ack_unsent m;
  m ← ack_unacked m;
  let s := core m in
  let m := updp (fun p => set_lastack (ackno s) (set_snd_buf (u16 (snd_buf (snd p) + recv_acked s)) p)) m in
  Ret (updp (netml_rtt (tcp_ticks s) (ackno s)) m).

(** ** Data *)

(** [tcp_seg_copy(&inseg)]; [g] is [inseg]. *)
Definition copy_seg (g : nseg) m : option (Z * nseg) * multi N :=
  match seg_pool m with
  | [] => (None, m)
  | a :: pool => (Some (a, g), set_seg_pool pool m)
  end.

(** The loop that takes segments from the front of [ooseq]; [wanted] is a 16-bit variable. *)
Fixpoint drain_ooseq (q : list (Z * nseg)) (wanted : Z) (dat : option chain) (pool : list Z) : list (Z * nseg) * Z * option chain * list Z :=
  match q with
  | [] => ([], wanted, dat, pool)
  | (a, g) :: q' =>
      if int_tunlno (n_hdr g) =? wanted then
        let dat := match dat with Some d => Some (d ++ n_p g) | None => Some (n_p g) end in
        let wanted := if TCPH_OFFSET_FLAGS (n_word g) =? NETML_AGG then u16 (int_tunlno (n_hdr g))
                      else u16 (int_tunlno (n_hdr g) + n_len g) in
        drain_ooseq q' wanted dat (a :: pool)
      else (q, wanted, dat, pool)
  end.

(** The place of an out-of-order segment at [tunl]. *)
Fixpoint split_ooseq (tunl : Z) (q : list (Z * nseg)) : list (Z * nseg) * list (Z * nseg) :=
  match q with
  | [] => ([], [])
  | x :: q' => if int_tunlno (n_hdr x.2) <=? tunl then let '(q1, q2) := split_ooseq tunl q' in (x :: q1, q2) else ([], q)
  end.

(** The segment [g] of the node [i], at the position [tunl]. *)
Definition receive_segment (i tunl off : Z) (g : nseg) m : outcome (multi N) :=
  w ← node_at i m;
  if nxtwish w =? tunl then
    match node_ooseq w with
    | [] =>
        let m := upd_node (set_nxtwish (if off =? NETML_AGG then tunl else u32 (tunl + tot_len (n_p g)))) i m in
        Ret (set_core (set_i_p None (set_recv_data (Some (n_p g)) (core m))) m)
    | q =>
        let '(c, m) := copy_seg g m in
        c ← deref c;
        let '(q, wanted, dat, pool) := drain_ooseq (c :: q) (u16 (int_tunlno (n_hdr g))) (recv_data (core m)) (seg_pool m) in
        let m := set_core (set_recv_data dat (core m)) (set_seg_pool pool m) in
        Ret (upd_node (fun w => set_nxtwish wanted (set_node_ooseq q w)) i m)
    end
  else if nxtwish w <? tunl then
    match node_ooseq w with
    | [] => let '(c, m) := copy_seg g m in Ret (upd_node (set_node_ooseq (option_list c)) i m)
    | q =>
        let '(q1, q2) := split_ooseq tunl q in
        let '(c, m) := copy_seg g m in
        match c, q2 with
        | Some c, _ => Ret (upd_node (set_node_ooseq (q1 ++ c :: q2)) i m)
        | None, [] => Ret (upd_node (set_node_ooseq q1) i m)
        | None, _ => Undef
        end
    end
  else Ret m.

(** [tcp_send_empty_ack_netml(pcb, worker, is_agg)]. *)
Definition tcp_send_empty_ack_netml (w : internal_id) (is_agg : bool) m : err_t * multi N :=
  let p := mpcb m in
  let '(h, s) := tcp_output_alloc_header (snd_nxt (snd p)) (core m) in
  let m := set_core s m in
  match h with
  | None => (ERR_BUF, m)
  | Some _ =>
      let word := TCPH_OFFSET_SETBIT (TCPH_OFFSET_CLEAR (TCPH_HDRLEN_FLAGS_SET 5 TCP_ACK)) (if is_agg then NETML_AGG_ACK else NETML_COLD) in
      let hdr := IntHdr (lwip_htons (inid w)) (lwip_htons (local_id m)) (lwip_htonl (intack w)) (lwip_htonl (inttunl w)) in
      let f := Frame (local_port p) (remote_port p) (snd_nxt (snd p)) (rcv_nxt (rcv p)) word (rcv_ann_wnd (rcv p)) hdr [] in
      let '(err, _, n) := frame_out (net s) (local_ip p) (remote_ip p) f in
      let m := set_core (set_net n s) m in
      (err, if decide (err = ERR_OK) then updp (tcp_clear_flags (Z.lor TF_ACK_DELAY TF_ACK_NOW)) m
            else updp (tcp_set_flags (Z.lor TF_ACK_DELAY TF_ACK_NOW)) m)
  end.

(** [tcp_receive_data(pcb)] for the segment [g] with the number [sq] and the position [tunl] of its node and the bits [off]. *)
Definition tcp_receive_data (sq tunl off : Z) (g : nseg) m : outcome (multi N) :=
  let i := src_id (n_hdr g) - 8 in
  if has (in_flags (core m)) TCP_ACK then netml_receive_ack m
  else
    m ← receive_segment i tunl off g m;
    let m := upd_node (set_intack (u32 (sq + tcplen (core m)))) i m in
    let m := updp (set_rcv_nxt (u32 (seqno (core m) + tcplen (core m)))) m in
    w ← node_at i m;
    Ret (tcp_send_empty_ack_netml w (off =? NETML_AGG) m).2.

(** The first part of [tcp_netml_input(p)], for the connection it finds: the internal header and the segment. [word] is the word with
    the flags in the TCP header. *)
Definition netml_setup (word : Z) (p : chain) m : outcome (Z * Z * nseg * multi N) :=
  match p with
  | [] => Undef
  | c :: p' =>
      h ← read_hdr c;
      let sq := lwip_htonl (int_seqno h) in
      let tunl := lwip_htonl (int_tunlno h) in
      let h := IntHdr (lwip_htons (dst_id h)) (lwip_htons (src_id h)) (int_seqno h) (int_tunlno h) in
      let p := drop (Z.to_nat INTERNAL_HLEN) c :: p' in
      let m := set_core (set_tcplen (u16 (tcplen (core m) - INTERNAL_HLEN)) (core m)) m in
      let m := if local_id m =? 0xffff then set_local_id (dst_id h) m else m in
      let m := set_core (set_recv_acked 0 (set_recv_flags 0 (set_recv_data None (set_i_p (Some p) (core m))))) m in
      Ret (sq, tunl, NSeg (seqno (core m)) (u16 (tot_len p)) word p true h None None false, m)
  end.
(** A packet for a connection that holds no refused data, up to the events for the application. *)
Definition netml_receive (word : Z) (p : chain) m : outcome (multi N) :=
  '(sq, tunl, g, m) ← netml_setup word p m;
  tcp_receive_data sq tunl (TCPH_OFFSET_FLAGS word) g m.

(** ** Writing *)

(** The last segment of a queue. *)
Fixpoint last_seg_of (fuel : nat) (a : Z) m : outcome Z :=
  match fuel with
  | O => Diverge
  | S fuel => g ← deref (segs m !! a); match n_next g with None => Ret a | Some b => last_seg_of fuel b m end
  end.

(** [tcp_write_checks(pcb, len)]. *)
Definition netml_write_checks (len : Z) m : outcome (err_t * multi N) :=
  let p := mpcb m in
  if negb (bool_decide (state p = ESTABLISHED \/ state p = CLOSE_WAIT \/ state p = SYN_SENT \/ state p = SYN_RCVD)) then Ret (ERR_CONN, m)
  else if len =? 0 then Ret (ERR_OK, m)
  else if snd_buf (snd p) <? len then Ret (ERR_MEM, updp (tcp_set_flags TF_NAGLEMEMERR) m)
  else if Z.min TCP_SND_QUEUELEN (TCP_SNDQUEUELEN_OVERFLOW + 1) <=? snd_queuelen (snd p) then Ret (ERR_MEM, updp (tcp_set_flags TF_NAGLEMEMERR) m)
  else
    lwip_assert (if negb (snd_queuelen (snd p) =? 0) then negb (bool_decide (unacked_head m = None /\ unsent_head m = None))
                 else bool_decide (unacked_head m = None /\ unsent_head m = None));;
    Ret (ERR_OK, m).

(** A new segment with [bytes] for the node in the slot [remote_id]: the pbufs, the segment, its headers and the counters of the node.
    [None]: no memory. *)
Definition netml_segment (remote_id : Z) (hot : bool) (bytes : list Z) (pos queuelen : Z) m : outcome (option Z * Z * multi N) :=
  let '(ok2, s) := alloc_rom (core m) in
  if negb ok2 then Ret (None, queuelen, set_core s m)
  else
    let '(ok, s) := alloc_ram INTERNAL_HLEN s in
    if negb ok then Ret (None, queuelen, set_core (free_bufs 1 s) m)
    else
      let m := set_core s m in
      let queuelen := u16 (queuelen + 2) in
      if Z.min TCP_SND_QUEUELEN TCP_SNDQUEUELEN_OVERFLOW <? queuelen then Ret (None, queuelen, set_core (free_bufs 2 (core m)) m)
      else
        match seg_pool m with
        | [] => Ret (None, queuelen, set_core (free_bufs 2 (core m)) m)
        | a :: pool =>
            w ← node_at remote_id m;
            let hdr := IntHdr (lwip_htons remote_id) (lwip_htons (local_id m)) (lwip_htonl (intseq w)) (lwip_htonl (inttunl w)) in
            let word := TCPH_HDRLEN_FLAGS_SET 5 0 in
            let word := if is_bypass (mpcb m) then TCPH_OFFSET_SETBIT word NETML_BYPASS else word in
            let word := TCPH_OFFSET_SETBIT word (if hot then NETML_HOT else NETML_COLD) in
            let seglen := Z.of_nat (length bytes) in
            let g := NSeg (u32 (snd_lbb (snd (mpcb m)) + pos)) seglen word [[]; bytes] false hdr None None false in
            let m := set_segs (<[a := g]> (segs m)) (set_seg_pool pool m) in
            let m := upd_node (fun w => set_intseq (u32 (intseq w + seglen)) (if hot then w else set_inttunl (u32 (inttunl w + seglen)) w)) remote_id m in
            Ret (Some a, queuelen, m)
        end.

(** [while (pos < len)]: [queue] are the new segments, the last one first. *)
Fixpoint netml_segments (fuel : nat) (remote_id : Z) (hot : bool) (dat : list Z) (max_len pos queuelen : Z) (queue : list Z) m
    : outcome (bool * Z * list Z * multi N) :=
  match fuel with
  | O => Diverge
  | S fuel =>
      let len := Z.of_nat (length dat) in
      if pos <? len then
        let seglen := Z.min (u16 (len - pos)) max_len in
        '(a, queuelen, m) ← netml_segment remote_id hot (part dat pos seglen) pos queuelen m;
        match a with
        | None => Ret (false, queuelen, queue, m)
        | Some a =>
            m ← match queue with
                | [] => Ret m
                | b :: _ => m ← upd_seg (set_n_next (Some a)) b m; upd_seg (set_n_prev (Some b)) a m
                end;
            netml_segments fuel remote_id hot dat max_len (u16 (pos + seglen)) queuelen (a :: queue) m
        end
      else Ret (true, queuelen, queue, m)
  end.

(** [tcp_segs_free(queue)]. *)
Fixpoint free_segs (l : list Z) m : outcome (multi N) :=
  match l with
  | [] => Ret m
  | a :: l => m ← free_seg a m; free_segs l m
  end.

Definition netml_queues_valid m : bool :=
  (snd_queuelen (snd (mpcb m)) =? 0) || negb (bool_decide (unacked_head m = None /\ unsent_head m = None)).

(** [tcp_write_netml(pcb, arg, len, remote_id, is_hot)]. When memory is short the function ends without a [return]: [None]. *)
Definition tcp_write_netml (fuel : nat) (dat : list Z) (remote_id : Z) (hot : bool) m : outcome (option err_t * multi N) :=
  let len := Z.of_nat (length dat) in
  if local_id m =? 0xffff then Ret (Some ERR_VAL, m)
  else
    '(err, m) ← netml_write_checks len m;
    if decide (err <> ERR_OK) then Ret (Some err, m)
    else
      last ← match unsent_head m with None => Ret None | Some a => b ← last_seg_of (walk_fuel m) a m; Ret (Some b) end;
      '(ok, queuelen, queue, m) ← netml_segments fuel remote_id hot dat (u16 (mss_local (mpcb m) - INTERNAL_HLEN)) 0 (snd_queuelen (snd (mpcb m))) [] m;
      if (ok : bool) then
        m ← match last with
            | None => Ret (set_unsent_head (head (rev queue)) m)
            | Some b => upd_seg (set_n_next (head (rev queue))) b m
            end;
        let m := updp (fun p => set_snd_queuelen queuelen (set_snd_buf (u16 (snd_buf (snd p) - len)) (set_snd_lbb (u32 (snd_lbb (snd p) + len)) p))) m in
        lwip_assert (netml_queues_valid m);;
        Ret (Some ERR_OK, m)
      else
        let m := updp (tcp_set_flags TF_NAGLEMEMERR) m in
        m ← free_segs (rev queue) m;
        lwip_assert (netml_queues_valid m);;
        Ret (None, m).

(** ** Sending *)

(** [tcp_output_segment(seg, pcb, netif)]. *)
Definition netml_output_segment (a : Z) m : outcome (err_t * multi N) :=
  g ← deref (segs m !! a);
  if n_busy g then Ret (ERR_OK, m)
  else
    let p := mpcb m in
    let r := rcv p in
    let f := Frame (local_port p) (remote_port p) (n_seqno g) (rcv_nxt r) (n_word g) (rcv_ann_wnd r) (n_hdr g) (concat (n_p g)) in
    let m := updp (set_rcv_ann_right_edge (u32 (rcv_nxt r + rcv_ann_wnd r))) m in
    let m := if rtime (tim (mpcb m)) <? 0 then updp (set_rtime 0) m else m in
    let m := if rttest (tim (mpcb m)) =? 0 then updp (fun p => set_rtseq (n_seqno g) (set_rttest (tcp_ticks (core m)) p)) m else m in
    let '(err, busy, n) := frame_out (net (core m)) (local_ip p) (remote_ip p) f in
    m ← upd_seg (set_n_busy busy) a (set_core (set_net n (core m)) m);
    Ret (err, m).

(** The mark of a segment that was sent once. *)
Definition mark_resend (w : Z) : Z :=
  if TCPH_OFFSET_FLAGS w =? NETML_COLD then TCPH_OFFSET_SETBIT (TCPH_OFFSET_CLEAR w) NETML_COLD_RE
  else if TCPH_OFFSET_FLAGS w =? NETML_HOT then TCPH_OFFSET_SETBIT (TCPH_OFFSET_CLEAR w) NETML_HOT_RE
  else w.

Definition netml_nagle m : outcome bool :=
  let p := mpcb m in
  first ← match unsent_head m with
          | None => Ret false
          | Some a => g ← deref (segs m !! a); Ret (negb (bool_decide (n_next g = None)) || (mss p <=? n_len g))
          end;
  Ret (bool_decide (unacked_head m = None) || has (flags p) (Z.lor TF_NODELAY TF_INFR) || first ||
       ((snd_buf (snd p) =? 0) || (TCP_SND_QUEUELEN <=? snd_queuelen (snd p)))).

(** The sent segment [a] in the queue [unacked], whose last element is [useg]. *)
Definition netml_put_unacked (a : Z) (useg : option Z) m : outcome (option Z * multi N) :=
  g ← deref (segs m !! a);
  match unacked_head m with
  | None => Ret (Some a, set_unacked_head (Some a) m)
  | Some h =>
      u ← deref useg;
      gu ← deref (segs m !! u);
      if TCP_SEQ_LT (n_seqno g) (n_seqno gu) then
        '(prev, cur) ← find_place (walk_fuel m) (n_seqno g) None (Some h) m;
        c ← deref cur;
        gc ← deref (segs m !! c);
        m ← upd_seg (set_n_prev (n_prev gc)) a m;
        m ← upd_seg (set_n_prev (Some a)) c m;
        m ← upd_seg (set_n_next (Some c)) a m;
        m ← match prev with
            | None => Ret (set_unacked_head (Some a) m)
            | Some b => upd_seg (set_n_next (Some a)) b m
            end;
        Ret (useg, m)
      else
        m ← upd_seg (set_n_next (Some a)) u m;
        m ← upd_seg (set_n_prev (Some u)) a m;
        Ret (Some a, m)
  end.

(** The head [a] of the unsent queue was sent. *)
Definition netml_sent (a : Z) (useg : option Z) m : outcome (option Z * multi N) :=
  g ← deref (segs m !! a);
  let m := set_unsent_head (n_next g) m in
  let m := if decide (state (mpcb m) <> SYN_SENT) then updp (tcp_clear_flags (Z.lor TF_ACK_DELAY TF_ACK_NOW)) m else m in
  let nxt := u32 (n_seqno g + n_tcplen g) in
  let m := if TCP_SEQ_LT (snd_nxt (snd (mpcb m))) nxt then updp (set_snd_nxt nxt) m else m in
  '(useg, m) ←
    (if 0 <? n_tcplen g then
       m ← upd_seg (fun g => set_n_word (mark_resend (n_word g)) (set_n_prev None (set_n_next None g))) a m;
       netml_put_unacked a useg m
     else m ← free_seg a m; Ret (useg, m));
  m ← match unsent_head m with None => Ret m | Some b => upd_seg (set_n_prev None) b m end;
  Ret (useg, m).

Fixpoint netml_output_loop (fuel : nat) (useg : option Z) m : outcome (err_t * multi N) :=
  match fuel, unsent_head m with
  | O, _ => Diverge
  | _, None => Ret (ERR_OK, updp (tcp_clear_flags TF_NAGLEMEMERR) m)
  | S fuel, Some a =>
      g ← deref (segs m !! a);
      lwip_assert (negb (has (TCPH_FLAGS (n_word g)) TCP_RST));;
      nagle ← netml_nagle m;
      if negb nagle && negb (has (flags (mpcb m)) (Z.lor TF_NAGLEMEMERR TF_FIN)) then Ret (ERR_OK, updp (tcp_clear_flags TF_NAGLEMEMERR) m)
      else
        '(err, m) ← netml_output_segment a m;
        if decide (err <> ERR_OK) then Ret (err, updp (tcp_set_flags TF_NAGLEMEMERR) m)
        else '(useg, m) ← netml_sent a useg m; netml_output_loop fuel useg m
  end.

(** [tcp_output(pcb)] of a connection that is not a bypass. *)
Definition netml_output m : outcome (err_t * multi N) :=
  let p := mpcb m in
  lwip_assert (negb (bool_decide (state p = LISTEN)));;
  match unsent_head m with
  | None => Ret (ERR_OK, updp (tcp_clear_flags TF_NAGLEMEMERR) m)
  | Some _ =>
      match tcp_route (net (core m)) (local_ip p) (remote_ip p) with
      | None => Ret (ERR_RTE, m)
      | Some _ =>
          let m := if local_ip p =? 0 then updp (set_local_ip (link_ip (net (core m)) (remote_ip p))) m else m in
          useg ← match unacked_head m with None => Ret None | Some a => b ← last_seg_of (walk_fuel m) a m; Ret (Some b) end;
          netml_output_loop (walk_fuel m) useg (updp (set_persist_backoff 0) m)
      end
  end.
End netml.

(** ** The whole handler *)

(** [pcb->recv]: the answer of the application. It calls no function of the connection, except [tcp_abort] when it answers [ERR_ABRT]. *)
Class MultiApp (N : Type) := { app_recv : N -> chain -> err_t * N }.

Section handler.
  Context {N : Type} `{!TcpNet N} `{!TcpBufs N} `{!TcpLink N} `{!MultiNet N} `{!MultiApp N}.
  Implicit Type m : multi N.

Definition give (d : chain) m : err_t * multi N :=
  let '(err, n) := app_recv (net (core m)) d in (err, set_core (set_net n (core m)) m).

(** [tcp_process_refused_data(pcb)], for data behind which no FIN was received. *)
Definition netml_refused (d : chain) m : err_t * multi N :=
  let '(err, m) := give d (updp (set_refused_data None) m) in
  match err with
  | ERR_OK => (ERR_OK, m)
  | ERR_ABRT => (ERR_ABRT, m)
  | _ => (ERR_INPROGRESS, updp (set_refused_data (Some d)) m)
  end.

(** The received data for the application. *)
Definition netml_deliver m : outcome (err_t * multi N) :=
  match recv_data (core m) with
  | None => Ret (ERR_OK, m)
  | Some d =>
      lwip_assert (bool_decide (refused_data (mpcb m) = None));;
      let '(err, m) := give d m in
      Ret (err, if decide (err = ERR_OK \/ err = ERR_ABRT) then m else updp (set_refused_data (Some d)) m)
  end.

(** [tcp_netml_input(p)] for the connection it finds; [None]: the application has aborted it. *)
Definition tcp_netml_input (word : Z) (p : chain) m : outcome (option (multi N)) :=
  '(sq, tunl, g, m) ← netml_setup word p m;
  let '(err, m) := match refused_data (mpcb m) with None => (ERR_OK, m) | Some d => netml_refused d m end in
  if decide (err = ERR_ABRT) then Ret None
  else if negb (bool_decide (refused_data (mpcb m) = None)) && (0 <? tcplen (core m)) then Ret (Some m)
  else
    m ← tcp_receive_data sq tunl (TCPH_OFFSET_FLAGS word) g m;
    '(err, m) ← netml_deliver m;
    if decide (err = ERR_ABRT) then Ret None
    else
      '(_, m) ← netml_output m;
      Ret (Some (set_core (set_i_p None (set_recv_data None (core m))) m)).
End handler.

(** ** Packets *)

(** A packet for the connection, behind the TCP header: its sequence and acknowledgement numbers, the word with the flags, and the pbufs. *)
Record pkt := Pkt { k_seqno : Z; k_ackno : Z; k_word : Z; k_p : chain }.

Section packets.
  Context {N : Type} `{!TcpNet N} `{!MultiNet N} `{!TcpBufs N}.
  Implicit Type m : multi N.

(** What [tcp_input] does before it calls [tcp_netml_input]. *)
Definition receive_packet (k : pkt) m : outcome (multi N) :=
  let s := set_ackno (k_ackno k) (set_seqno (k_seqno k) (core m)) in
  let s := set_in_flags (TCPH_FLAGS (k_word k)) s in
  let s := set_tcplen (u16 (tot_len (k_p k))) s in
  netml_receive (k_word k) (k_p k) (set_core s m).

(** Packets one after another, and for each the node in its header and the data that are passed on. *)
Definition node_of (k : pkt) : Z :=
  match k_p k with c :: _ => lwip_htons (get8 c 2 + 256 * get8 c 3) | [] => 0 end.
Fixpoint netml_run (ks : list pkt) m : outcome (list (Z * list Z) * multi N) :=
  match ks with
  | [] => Ret ([], m)
  | k :: ks =>
      m ← receive_packet k m;
      '(out, m') ← netml_run ks m;
      Ret ((node_of k, concat (default [] (recv_data (core m)))) :: out, m')
  end.
End packets.
