(* ===== verification/TcpNetmlProps.v ===== *)
(** * Streams of several nodes over one connection

    What the receiver of [TcpNetml] gets right: the streams of the nodes are kept apart and passed on in order as long as no
    segment overtakes another one. And where it fails: a segment that arrives early stops the stream of its node. *)

From stdpp Require Import gmap.
From S2P Require Import Prelude Chain Def Tcp TcpRecv TcpStream TcpProcess TcpOut TcpNetml.

(** ** What a packet carries *)

(** The position in the stream of its node, and the data. *)
Definition tunl_of (k : pkt) : Z := match k_p k with c :: _ => lwip_htonl (get_ip c 8) | [] => 0 end.
Definition data_of (k : pkt) : list Z := match k_p k with c :: p => drop 12 c ++ concat p | [] => [] end.
Definition len_of (k : pkt) : Z := Z.of_nat (length (data_of k)).

(** A data packet: the internal header is in the first pbuf, the node is one of the nodes of the connection. *)
Record data_pkt (k : pkt) : Prop := {
  dp_hdr : exists c p, k_p k = c :: p /\ 12 <= Z.of_nat (length c);
  dp_node : 0 <= node_of k - 8 < NETML_MAX_NODE;
  dp_bytes : Forall bytes (k_p k);
  dp_size : tot_len (k_p k) < 2 ^ 16;
  dp_flags : has (TCPH_FLAGS (k_word k)) TCP_ACK = false }.

(** It carries its part of the streams [byte_at], and is not an aggregate. *)
Record streams_pkt (byte_at : Z -> Z -> Z) (k : pkt) : Prop := {
  sp_data : data_pkt k;
  sp_text : data_of k = stream (byte_at (node_of k)) (tunl_of k) (len_of k);
  sp_range : tunl_of k + len_of k < 2 ^ 32;
  sp_agg : TCPH_OFFSET_FLAGS (k_word k) <> NETML_AGG }.

Section receive.
  Context {N : Type} `{!TcpNet N} `{!MultiNet N} `{!TcpBufs N}.
  Implicit Type m : multi N.

(** ** One packet *)

Lemma empty_ack_keeps w agg m : internal_conn (tcp_send_empty_ack_netml w agg m).2 = internal_conn m /\
  recv_data (core (tcp_send_empty_ack_netml w agg m).2) = recv_data (core m).
Proof.
  unfold tcp_send_empty_ack_netml, tcp_output_alloc_header. destruct (hdr_alloc _) as [[] n]; simpl; [|done].
  destruct (frame_out _ _ _ _) as [[e b] n']. simpl. by destruct (decide _).
Qed.

(** The segment that [tcp_netml_input] makes of a packet. *)
Definition seg_of (k : pkt) : nseg :=
  match k_p k with
  | c :: p => NSeg (k_seqno k) (u16 (len_of k)) (k_word k) (drop 12 c :: p) true
                (IntHdr (lwip_htons (get8 c 0 + 256 * get8 c 1)) (node_of k) (get_ip c 4) (get_ip c 8)) None None false
  | [] => NSeg 0 0 0 [] true (IntHdr 0 0 0 0) None None false
  end.

Lemma node_at_lookup i m : 0 <= i -> node_at i m = deref (internal_conn m !! Z.to_nat i).
Proof. intros H. unfold node_at. by rewrite (proj2 (Z.ltb_ge i 0)) by lia. Qed.

(** A data packet: the segment is received at its node, and the acknowledgement changes no stream. *)
Lemma receive_packet_spec k m : data_pkt k ->
  exists m0, internal_conn m0 = internal_conn m /\ seg_pool m0 = seg_pool m /\ recv_data (core m0) = None /\
  match receive_segment (node_of k - 8) (tunl_of k) (TCPH_OFFSET_FLAGS (k_word k)) (seg_of k) m0 with
  | Ret m1 => is_Some (internal_conn m1 !! Z.to_nat (node_of k - 8)) ->
      exists m2 v, receive_packet k m = Ret m2 /\ internal_conn m2 = internal_conn (upd_node (set_intack v) (node_of k - 8) m1) /\
      recv_data (core m2) = recv_data (core m1)
  | Assert => receive_packet k m = Assert
  | Undef => receive_packet k m = Undef
  | Diverge => receive_packet k m = Diverge
  end.
Proof.
  intros [(c & p & Hk & Hc) Hn _ Hs Hf]. unfold receive_packet, netml_receive, netml_setup, seg_of, node_of, tunl_of in *. rewrite Hk in *.
  unfold read_hdr. rewrite (proj2 (Z.ltb_ge _ INTERNAL_HLEN)) by (unfold INTERNAL_HLEN; lia). cbn [mbind outcome_bind src_id dst_id int_seqno int_tunlno].
  set (h := IntHdr _ _ _ _) at 2. set (m1 := set_core (set_tcplen _ _) _). set (m2 := if local_id m1 =? 0xffff then _ else m1).
  assert (internal_conn m2 = internal_conn m /\ seg_pool m2 = seg_pool m /\ core m2 = core m1) as (E1 & E2 & E3) by (subst m2; by destruct (_ =? _)).
  set (m3 := set_core _ m2). exists m3.
  assert (internal_conn m3 = internal_conn m /\ seg_pool m3 = seg_pool m /\ recv_data (core m3) = None) as (F1 & F2 & F3) by (subst m3; simpl; by rewrite E1, E2).
  assert (u16 (tot_len (drop (Z.to_nat INTERNAL_HLEN) c :: p)) = u16 (len_of k)) as Hlen.
  { unfold len_of, data_of, tot_len. rewrite Hk. done. }
  assert (seqno (core m3) = k_seqno k) as Hseq by (subst m3; simpl; by rewrite E3). rewrite Hlen, Hseq.
  assert (in_flags (core m3) = TCPH_FLAGS (k_word k)) as Hfl by (subst m3; simpl; by rewrite E3).
  split_and!; try done. unfold tcp_receive_data. rewrite Hfl, Hf. simpl src_id.
  change (drop (Z.to_nat INTERNAL_HLEN) c) with (drop 12 c).
  set (i := lwip_htons _ - 8) in *. clearbody m3. destruct (receive_segment _ _ _ _ m3) as [m4| | |]; try done. intros [w Hw]. cbn [mbind outcome_bind].
  set (m5 := updp _ _). rewrite node_at_lookup by lia. assert (exists w', internal_conn m5 !! Z.to_nat i = Some w') as (w' & Hw').
  { subst m5. simpl. rewrite list_lookup_alter_eq, Hw. by eexists. }
  rewrite Hw'. cbn [deref mbind outcome_bind]. eexists _, (u32 (lwip_htonl (get_ip c 4) + tcplen (core m4))). split; [reflexivity|].
  destruct (empty_ack_keeps w' (TCPH_OFFSET_FLAGS (k_word k) =? NETML_AGG) m5) as [-> ->]. done.
Qed.

(** ** Streams *)

(** Every node waits for its position and has nothing queued. *)
Definition waits_at (nxt : Z -> Z) m : Prop :=
  length (internal_conn m) = Z.to_nat NETML_MAX_NODE /\
  forall (i : nat) w, internal_conn m !! i = Some w -> node_ooseq w = [] /\ nxtwish w = nxt (Z.of_nat i + 8).
Definition advance (nxt : Z -> Z) (k : pkt) (i : Z) : Z :=
  if decide (i = node_of k /\ tunl_of k = nxt i) then nxt i + len_of k else nxt i.
(** Packets without a gap: each begins where its node waits, or before. *)
Inductive series : (Z -> Z) -> list pkt -> (Z -> Z) -> Prop :=
| series_nil nxt : series nxt [] nxt
| series_cons nxt k ks nxt' : tunl_of k <= nxt (node_of k) -> series (advance nxt k) ks nxt' -> series nxt (k :: ks) nxt'.

Lemma data_concat k : k_p k <> [] -> concat (n_p (seg_of k)) = data_of k /\ tot_len (n_p (seg_of k)) = len_of k.
Proof. unfold seg_of, data_of, len_of, tot_len. intros H. unfold data_of. by destruct (k_p k). Qed.

Lemma packet_step byte_at nxt k m : streams_pkt byte_at k -> waits_at nxt m -> tunl_of k <= nxt (node_of k) ->
  exists m', receive_packet k m = Ret m' /\ waits_at (advance nxt k) m' /\
    concat (default [] (recv_data (core m'))) = if decide (tunl_of k = nxt (node_of k)) then data_of k else [].
Proof.
  intros [Hd Ht Hr Ha] [Hlen Hw] Hle. pose proof (dp_node _ Hd) as Hn.
  destruct (receive_packet_spec k m Hd) as (m0 & E1 & E2 & E3 & H). set (i := node_of k - 8) in *.
  destruct (lookup_lt_is_Some_2 (internal_conn m) (Z.to_nat i)) as [w Hi]; [unfold NETML_MAX_NODE in *; lia|].
  destruct (Hw _ _ Hi) as [Hq Hx]. replace (Z.of_nat (Z.to_nat i) + 8) with (node_of k) in Hx by lia.
  destruct (data_concat k) as [Hc Htl]; [destruct (dp_hdr _ Hd) as (c & p & -> & _); done|].
  unfold receive_segment in H. rewrite node_at_lookup, E1, Hi in H by lia. cbn [deref mbind outcome_bind] in H. rewrite Hx in H.
  assert (forall f v, (forall w, node_ooseq (f w) = node_ooseq w) -> (forall j w, internal_conn m !! j = Some w -> nxtwish (f w) = if decide (j = Z.to_nat i) then advance nxt k (node_of k) else nxtwish (f w)) ->
    forall m', internal_conn m' = alter (set_intack v) (Z.to_nat i) (alter f (Z.to_nat i) (internal_conn m)) -> waits_at (advance nxt k) m') as Hwait.
  { intros f v Hf1 Hf2 m' Em. split; [by rewrite Em, !length_alter|]. intros j x. rewrite Em.
    assert (j = Z.to_nat i \/ j <> Z.to_nat i) as [-> | Hj] by lia.
    - rewrite !list_lookup_alter_eq, Hi. simpl. intros [= <-]. simpl. rewrite Hf1. split; [done|].
      rewrite (Hf2 _ _ Hi), decide_True by done. f_equal. lia.
    - rewrite !list_lookup_alter_ne by done. intros Hj'. destruct (Hw _ _ Hj') as [G1 G2]. split; [done|]. rewrite G2. unfold advance.
      rewrite decide_False; [done|]. intros [E _]. lia. }
  destruct (Z.eqb_spec (nxt (node_of k)) (tunl_of k)) as [He|He].
  - rewrite Hq in H. rewrite (proj2 (Z.eqb_neq _ NETML_AGG) Ha) in H.
    destruct H as (m2 & v & R & C & D). { simpl. rewrite list_lookup_alter_eq, E1, Hi. by eexists. }
    exists m2. split; [done|]. rewrite D. simpl. rewrite decide_True by done. split; [|done].
    eapply (Hwait (set_nxtwish (u32 (tunl_of k + tot_len (n_p (seg_of k))))) v); [done| |by rewrite C; simpl; rewrite E1].
    intros j x Hj. destruct (decide (j = Z.to_nat i)) as [->|]; [|done]. simpl. unfold advance. rewrite decide_True by done.
    rewrite Htl, He. apply u32_small. assert (0 <= len_of k) by (unfold len_of; lia). split; [|done].
    unfold tunl_of. destruct (k_p k) as [|c p]; [unfold len_of in *; lia|]. assert (0 <= lwip_htonl (get_ip c 8)); [|lia].
    unfold lwip_htonl. repeat (apply Z.lor_nonneg; split). all: repeat first [apply Z.shiftl_nonneg | apply Z.shiftr_nonneg | apply Z.land_nonneg; right | apply Z.lor_nonneg; split]; done.
  - rewrite (proj2 (Z.ltb_ge _ _)) in H by lia. destruct H as (m2 & v & R & C & D). { rewrite E1, Hi. by eexists. }
    exists m2. split; [done|]. rewrite D, E3, decide_False by done. split; [|done].
    eapply (Hwait id v); [done| |by rewrite C; simpl; rewrite E1, (list_alter_id id)].
    intros j x Hj. destruct (decide (j = Z.to_nat i)) as [->|]; [|done]. simplify_eq. unfold advance. rewrite decide_False by (intros [_ ?]; done). exact Hx.
Qed.

Lemma advance_le nxt k i : nxt i <= advance nxt k i.
Proof. unfold advance, len_of. destruct (decide _); lia. Qed.

Lemma netml_streams_ok byte_at nxt ks nxt' m : Forall (streams_pkt byte_at) ks -> series nxt ks nxt' -> waits_at nxt m ->
  exists out m', netml_run ks m = Ret (out, m') /\ waits_at nxt' m' /\
    forall i, nxt i <= nxt' i /\ concat (filter (fun x => x.1 = i) out).*2 = stream (byte_at i) (nxt i) (nxt' i - nxt i).
Proof.
  intros Hks Hser. revert m. induction Hser as [nxt|nxt k ks nxt' Hle _ IH]; intros m Hm.
  { exists [], m. split_and!; try done. intros i. split; [lia|]. by rewrite stream_nil by lia. }
  apply Forall_cons in Hks as [Hk Hks]. destruct (packet_step byte_at nxt k m Hk Hm Hle) as (m1 & E1 & Hm1 & Hout).
  destruct (IH Hks m1 Hm1) as (out & m2 & E2 & Hm2 & Hi). simpl. rewrite E1. cbn [mbind outcome_bind]. rewrite E2. cbn [mbind outcome_bind].
  eexists _, m2. split_and!; [done|done|]. intros i. destruct (Hi i) as [Hn Hc]. pose proof (advance_le nxt k i). split; [lia|].
  rewrite filter_cons, Hout. simpl fst. destruct (decide (node_of k = i)) as [<-|Hne].
  - rewrite fmap_cons. cbn [concat]. simpl Datatypes.snd. rewrite Hc. unfold advance in *. destruct (decide (tunl_of k = nxt (node_of k))) as [He|He].
    + rewrite decide_True in * by done. destruct Hk as [_ Ht _ _]. rewrite Ht, He. rewrite <- stream_app by (unfold len_of in *; lia). f_equal. lia.
    + rewrite decide_False in * by (intros [_ ?]; done). done.
  - rewrite Hc. unfold advance. by rewrite decide_False by (intros [? _]; done).
Qed.

(** C11: (streams) packets of all nodes, interleaved and repeated, none of them ahead of its stream: every one is received, and what is passed on
    for a node is exactly its stream, from where it waited to the end of the last packet that continued it. *)
Theorem netml_streams byte_at nxt ks nxt' m : Forall (streams_pkt byte_at) ks -> series nxt ks nxt' -> waits_at nxt m ->
  exists out m', netml_run ks m = Ret (out, m') /\ waits_at nxt' m' /\
    forall i, nxt i <= nxt' i /\ concat (filter (fun x => x.1 = i) out).*2 = stream (byte_at i) (nxt i) (nxt' i - nxt i).
Proof. apply netml_streams_ok. Qed.

(** ** A segment that is early *)

Lemma get8_byte (c : list Z) i : bytes c -> is_byte (get8 c i).
Proof.
  intros H. unfold get8. destruct (c !! i) as [b|] eqn:E; [|done]. simpl. by apply (Forall_lookup_1 _ _ _ _ H E).
Qed.
(** The stored form of a position below 2^16 has no low bits. *)
Lemma tunl_low k : data_pkt k -> 0 < tunl_of k < 2 ^ 16 -> u16 (int_tunlno (n_hdr (seg_of k))) = 0 /\ int_tunlno (n_hdr (seg_of k)) <> 0.
Proof.
  intros Hd. destruct (dp_hdr _ Hd) as (c & p & Hk & _). pose proof (dp_bytes _ Hd) as Hb. unfold tunl_of, seg_of. rewrite Hk in *.
  apply Forall_cons in Hb as [Hb _]. simpl. unfold get_ip. pose proof (get8_byte c 8 Hb). pose proof (get8_byte c (8 + 1) Hb).
  pose proof (get8_byte c (8 + 2) Hb). pose proof (get8_byte c (8 + 3) Hb).
  set (b0 := get8 c 8) in *. set (b1 := get8 c (8 + 1)) in *. set (b2 := get8 c (8 + 2)) in *. set (b3 := get8 c (8 + 3)) in *.
  replace (b0 + 256 * b1 + 65536 * b2 + 16777216 * b3) with (b3 * 16777216 + b2 * 65536 + b1 * 256 + b0) by lia.
  rewrite lwip_htonl_digits by done. unfold is_byte in *. intros Ht. assert (b0 = 0 /\ b1 = 0) as [-> ->] by lia. split; [|lia].
  unfold u16. replace (b3 * 16777216 + b2 * 65536 + 0 * 256 + 0) with ((b3 * 256 + b2) * 65536) by lia. apply Z.mod_mul. lia.
Qed.

(** The node [i] waits for the position 0, which no packet has. *)
Definition stopped (i : Z) m : Prop := exists w, internal_conn m !! Z.to_nat i = Some w /\ nxtwish w = 0.

Lemma stopped_upd i f j m v : stopped i m -> 0 <= i -> 0 <= j -> (j = i -> forall w, nxtwish (f w) = nxtwish w) ->
  stopped i (upd_node (set_intack v) j (upd_node f j m)).
Proof.
  intros (w & Hw & Hn) Hi Hj Hf. unfold stopped. simpl. destruct (decide (j = i)) as [->|Hne].
  - rewrite !list_lookup_alter_eq, Hw. eexists. split; [reflexivity|]. simpl. by rewrite Hf.
  - rewrite !list_lookup_alter_ne by lia. by exists w.
Qed.
Lemma copy_seg_keeps g m : internal_conn (copy_seg g m).2 = internal_conn m /\ recv_data (core (copy_seg g m).2) = recv_data (core m).
Proof. unfold copy_seg. by destruct (seg_pool m). Qed.

(** What [receive_segment] does to the nodes: it changes one, and passes data on only for the segment that this one waits for. *)
Lemma receive_segment_node i tunl off g m m' : 0 <= i -> receive_segment i tunl off g m = Ret m' ->
  exists f w, internal_conn m !! Z.to_nat i = Some w /\ internal_conn m' = internal_conn (upd_node f i m) /\
    (nxtwish w <> tunl -> (forall w, nxtwish (f w) = nxtwish w) /\ recv_data (core m') = recv_data (core m)).
Proof.
  intros Hi. unfold receive_segment. rewrite node_at_lookup by done. destruct (internal_conn m !! Z.to_nat i) as [w|] eqn:Hw; [|done].
  cbn [deref mbind outcome_bind]. assert (internal_conn (upd_node id i m) = internal_conn m) as Eid by (simpl; by apply list_alter_id).
  destruct (copy_seg_keeps g m) as [C1 C2]. destruct (Z.eqb_spec (nxtwish w) tunl) as [He|He].
  - destruct (node_ooseq w) as [|x q]; [intros [= <-]; by eexists _, w|]. destruct (copy_seg g m) as [[c|] m1]; [|done]. cbn [deref mbind outcome_bind].
    destruct (drain_ooseq _ _ _ _) as [[[q' wn] d] pl]. intros [= <-]. eexists _, w. split_and!; [done| |done]. simpl in *. by rewrite C1.
  - destruct (nxtwish w <? tunl); [|intros [= <-]; exists id, w; by rewrite Eid].
    destruct (node_ooseq w) as [|x q].
    { destruct (copy_seg g m) as [c m1]. intros [= <-]. eexists _, w. split_and!; [done|simpl in *; by rewrite C1|]. intros _. split; [done|]. exact C2. }
    destruct (split_ooseq tunl (x :: q)) as [q1 q2]. destruct (copy_seg g m) as [[c|] m1]; [|destruct q2; [|done]]; intros [= <-];
      (eexists _, w; split_and!; [done|simpl in *; by rewrite C1|]; intros _; split; [done|exact C2]).
Qed.

Lemma stopped_step i k m m' : 0 <= i -> data_pkt k -> (node_of k - 8 = i -> 0 < tunl_of k) -> stopped i m -> receive_packet k m = Ret m' ->
  stopped i m' /\ (node_of k - 8 = i -> recv_data (core m') = None).
Proof.
  intros Hi Hd Ht Hst Hrun. pose proof (dp_node _ Hd) as Hn. destruct (receive_packet_spec k m Hd) as (m0 & E1 & _ & E3 & H).
  assert (stopped i m0) as Hst0 by (destruct Hst as (w & ? & ?); exists w; by rewrite E1).
  destruct (receive_segment _ _ _ _ m0) as [m1| | |] eqn:Hr; [|congruence..].
  destruct (receive_segment_node (node_of k - 8) _ _ _ m0 m1 ltac:(lia) Hr) as (f & w & Hw & Ec & Hf).
  destruct H as (m2 & v & R & C & D). { rewrite Ec. simpl. rewrite list_lookup_alter_eq, Hw. by eexists. }
  rewrite R in Hrun. injection Hrun as <-.
  assert (node_of k - 8 = i -> nxtwish w <> tunl_of k) as Hne.
  { intros E. destruct Hst0 as (w' & Hw' & Hz). rewrite <- E in Hw'. specialize (Ht E). assert (w' = w) by congruence. subst. lia. }
  split; [|intros E; rewrite D; destruct (Hf (Hne E)) as [_ ->]; done].
  destruct (stopped_upd i f (node_of k - 8) m0 v Hst0 Hi ltac:(lia)) as (w' & Hw' & Hz); [intros E; by apply Hf, Hne|].
  exists w'. split; [|done]. rewrite C. simpl in *. by rewrite Ec.
Qed.

(** (early segments) when a segment arrives that a node waits for, at a position below [2 ^ 16] and with a free segment in the pool, and another one is queued behind it, the stream of the node stops: the
    segment is not passed on, and nothing of what this node sends afterwards is. *)
Theorem early_segment_stops k ks m w : data_pkt k -> 0 < tunl_of k < 2 ^ 16 -> seg_pool m <> [] ->
  internal_conn m !! Z.to_nat (node_of k - 8) = Some w -> nxtwish w = tunl_of k -> node_ooseq w <> [] ->
  Forall (fun j => data_pkt j /\ (node_of j = node_of k -> 0 < tunl_of j)) ks ->
  exists m1, receive_packet k m = Ret m1 /\ recv_data (core m1) = None /\
    forall out m', netml_run ks m1 = Ret (out, m') -> Forall (fun x => x.1 = node_of k -> x.2 = []) out.
Proof.
  intros Hd Ht Hp Hw Hx Hq Hks. pose proof (dp_node _ Hd) as Hn. set (i := node_of k - 8) in *.
  assert (exists m1, receive_packet k m = Ret m1 /\ recv_data (core m1) = None /\ stopped i m1) as (m1 & R & D & Hst).
  { destruct (receive_packet_spec k m Hd) as (m0 & E1 & E2 & E3 & H). fold i in H. unfold receive_segment in H.
    rewrite node_at_lookup, E1, Hw in H by lia. cbn [deref mbind outcome_bind] in H. rewrite Hx, Z.eqb_refl in H.
    destruct (node_ooseq w) as [|x q]; [done|]. unfold copy_seg in H. rewrite E2 in H. destruct (seg_pool m) as [|a pool]; [done|].
    cbn [deref mbind outcome_bind drain_ooseq] in H. destruct (tunl_low k Hd Ht) as [L1 L2]. rewrite L1 in H.
    rewrite (proj2 (Z.eqb_neq _ 0) L2) in H. destruct H as (m2 & v & R & C & D). { simpl. rewrite list_lookup_alter_eq, E1, Hw. by eexists. }
    exists m2. split; [done|]. rewrite D. split; [done|]. unfold stopped. rewrite C. simpl. rewrite !list_lookup_alter_eq, E1, Hw. by eexists. }
  exists m1. split_and!; [done|done|]. clear R D Hw. revert m1 Hst. induction Hks as [|j ks [Hj Hpos] _ IH]; intros m1 Hst out m'; simpl; [by intros [= <- _]|].
  destruct (receive_packet j m1) as [m2| | |] eqn:R; try done. cbn [mbind outcome_bind].
  destruct (netml_run ks m2) as [[o m3]| | |] eqn:R2; try done. cbn [mbind outcome_bind]. intros [= <- <-].
  destruct (stopped_step i j m1 m2) as [Hst2 Hdat]; try done; [lia|intros E; apply Hpos; lia|].
  constructor; [|by apply (IH m2 Hst2 o m3)]. simpl. intros E. by rewrite Hdat by lia.
Qed.

(** (unknown nodes) the node in the internal header is not checked: a packet with a number outside of the array is undefined. *)
Theorem unknown_node_undefined c p sq ack word m : 12 <= Z.of_nat (length c) ->
  length (internal_conn m) = Z.to_nat NETML_MAX_NODE -> has (TCPH_FLAGS word) TCP_ACK = false ->
  node_of (Pkt sq ack word (c :: p)) < 8 \/ 8 + NETML_MAX_NODE <= node_of (Pkt sq ack word (c :: p)) ->
  receive_packet (Pkt sq ack word (c :: p)) m = Undef.
Proof.
  intros Hc Hl Hf Hn. unfold receive_packet, netml_receive, netml_setup, read_hdr. cbn [k_p]. rewrite (proj2 (Z.ltb_ge _ INTERNAL_HLEN)) by (unfold INTERNAL_HLEN; lia).
  cbn [mbind outcome_bind src_id dst_id int_seqno int_tunlno]. set (m1 := set_core (set_tcplen _ _) _). set (m2 := if local_id m1 =? 0xffff then _ else m1).
  assert (internal_conn m2 = internal_conn m /\ in_flags (core m2) = TCPH_FLAGS word) as (E1 & E3) by (subst m2; by destruct (_ =? _)).
  set (m3 := set_core _ m2). unfold tcp_receive_data. change (in_flags (core m3)) with (in_flags (core m2)). rewrite E3, Hf. simpl src_id.
  unfold receive_segment. assert (node_at (node_of (Pkt sq ack word (c :: p)) - 8) m3 = Undef) as Hu.
  { unfold node_at. destruct (Z.ltb_spec (node_of (Pkt sq ack word (c :: p)) - 8) 0); [done|]. change (internal_conn m3) with (internal_conn m2).
    rewrite E1, lookup_ge_None_2; [done|]. unfold NETML_MAX_NODE in *. lia. }
  unfold node_of in Hu. simpl k_p in Hu. by rewrite Hu.
Qed.
End receive.

(** ** The application *)

Section handler.
  Context {N : Type} `{!TcpNet N} `{!TcpBufs N} `{!TcpLink N} `{!MultiNet N} `{!MultiApp N}.
  Implicit Type m : multi N.

Lemma setup_spec word c p m : 12 <= Z.of_nat (length c) ->
  exists sq tunl g m1, netml_setup word (c :: p) m = Ret (sq, tunl, g, m1) /\
    mpcb m1 = mpcb m /\ net (core m1) = net (core m) /\ tcplen (core m1) = u16 (tcplen (core m) - 12) /\ recv_data (core m1) = None /\
    (internal_conn m1, unsent_head m1, unacked_head m1, segs m1, seg_pool m1) = (internal_conn m, unsent_head m, unacked_head m, segs m, seg_pool m).
Proof.
  intros Hc. unfold netml_setup, read_hdr. rewrite (proj2 (Z.ltb_ge _ INTERNAL_HLEN)) by (unfold INTERNAL_HLEN; lia). cbn [mbind outcome_bind].
  eexists _, _, _, _. split; [reflexivity|]. by destruct (_ =? 0xffff).
Qed.

(** (refusal) while the application refuses the data it was given, a data packet of any node is dropped without an acknowledgement, so
    that its sender repeats it: no position moves and the refused data are kept. An acknowledgement is still processed. *)
Theorem refused_drops word c p m d err n : 12 < Z.of_nat (length c) + tot_len p -> 12 <= Z.of_nat (length c) -> Z.of_nat (length c) + tot_len p < 2 ^ 16 ->
  tcplen (core m) = Z.of_nat (length c) + tot_len p -> refused_data (mpcb m) = Some d -> app_recv (net (core m)) d = (err, n) ->
  err <> ERR_OK -> err <> ERR_ABRT ->
  exists m', tcp_netml_input word (c :: p) m = Ret (Some m') /\ refused_data (mpcb m') = Some d /\ net (core m') = n /\
    (internal_conn m', unsent_head m', unacked_head m', segs m', seg_pool m') = (internal_conn m, unsent_head m, unacked_head m, segs m, seg_pool m).
Proof.
  intros Hl Hc Hs Ht Hr Happ He1 He2. unfold tcp_netml_input. destruct (setup_spec word c p m Hc) as (sq & tunl & g & m1 & -> & E1 & E2 & E3 & _ & E5).
  cbn [mbind outcome_bind]. rewrite E1, Hr. unfold netml_refused, give. change (net (core (updp (set_refused_data None) m1))) with (net (core m1)).
  rewrite E2, Happ. injection E5 as F1 F2 F3 F4 F5. rewrite Ht in E3. rewrite u16_small in E3 by lia.
  destruct err; try done; rewrite decide_False by done; simpl; rewrite E3, (proj2 (Z.ltb_lt 0 _)) by lia;
    (eexists; split; [reflexivity|]; simpl; by rewrite F1, F2, F3, F4, F5).
Qed.

(** (delivery) when nothing was refused and the application takes the data, the handler gives it exactly what the packet has added. *)
Theorem handler_delivers k m m1 n : k_p k <> [] -> refused_data (mpcb m) = None -> receive_packet k m = Ret m1 ->
  match recv_data (core m1) with None => n = net (core m1) | Some d => refused_data (mpcb m1) = None /\ app_recv (net (core m1)) d = (ERR_OK, n) end ->
  unsent_head m1 = None -> state (mpcb m1) <> LISTEN ->
  exists m', tcp_netml_input (k_word k) (k_p k) (set_core (set_tcplen (u16 (tot_len (k_p k))) (set_in_flags (TCPH_FLAGS (k_word k))
    (set_ackno (k_ackno k) (set_seqno (k_seqno k) (core m))))) m) = Ret (Some m') /\ net (core m') = n /\ internal_conn m' = internal_conn m1 /\
    refused_data (mpcb m') = refused_data (mpcb m1).
Proof.
  intros Hk Hr Hrun Happ Hu Hst. unfold receive_packet, netml_receive in Hrun. unfold tcp_netml_input.
  set (m0 := set_core _ m) in *. assert (refused_data (mpcb m0) = None) as Hr0 by done. clearbody m0.
  destruct (netml_setup (k_word k) (k_p k) m0) as [[[[sq tunl] g] m2]| | |] eqn:Es; try done. cbn [mbind outcome_bind] in *.
  assert (mpcb m2 = mpcb m0) as Ep.
  { unfold netml_setup in Es. destruct (k_p k) as [|c p]; [done|]. destruct (read_hdr c) as [h| | |]; try done. cbn [mbind outcome_bind] in Es.
    injection Es as <- <- <- <-. by destruct (_ =? 0xffff). }
  rewrite Ep, Hr0. cbv iota beta. rewrite decide_False, Ep, Hr0 by done. rewrite bool_decide_true by done. cbn [negb andb]. rewrite Hrun. cbn [mbind outcome_bind].
  unfold netml_deliver, give. destruct (recv_data (core m1)) as [d|].
  - destruct Happ as [Hr1 Happ]. rewrite bool_decide_true, Happ by done. unfold netml_output. simpl. rewrite bool_decide_false, Hu by done. simpl. eexists. split; [reflexivity|]. done.
  - subst n. cbn [mbind outcome_bind]. rewrite decide_False by done. unfold netml_output. rewrite bool_decide_false, Hu by done. simpl.
    eexists. split; [reflexivity|]. done.
Qed.
End handler.
