(* ===== verification/TcpNetmlSend.v ===== *)
(** * Writing to a node

    What [tcp_write_netml] queues, that the peer gets it, and what it leaves behind when memory is short. *)

From stdpp Require Import gmap.
From S2P Require Import Prelude Chain Def Tcp TcpRecv TcpStream TcpProcess TcpOut TcpNetml TcpNetmlProps.

(** ** Flags in the header *)

Lemma land_byte_mask b d : 0 <= b < 256 -> 0 <= Z.land b d < 256.
Proof.
  intros Hb. assert (Z.land b d = Z.land b d mod 256) as ->; [|apply Z.mod_pos_bound; lia]. change 256 with (2 ^ 8).
  rewrite <- Z.land_ones, <- Z.land_assoc, (Z.land_comm d), Z.land_assoc, Z.land_ones, Z.mod_small by lia. done.
Qed.
Lemma lor_byte b d : 0 <= b < 256 -> 0 <= d < 256 -> 0 <= Z.lor b d < 256.
Proof.
  intros Hb Hd. split; [apply Z.lor_nonneg; lia|]. assert (Z.lor b d = Z.lor b d mod 256) as ->; [|apply Z.mod_pos_bound; lia]. change 256 with (2 ^ 8).
  rewrite <- Z.land_ones, Z.land_lor_distr_l, !Z.land_ones, !Z.mod_small by lia. done.
Qed.
Lemma word_bits a b i : 0 <= b < 256 -> 0 <= i -> Z.testbit (256 * a + b) i = if i <? 8 then Z.testbit b i else Z.testbit a (i - 8).
Proof.
  intros Hb Hi. destruct (Z.ltb_spec i 8).
  - rewrite <- (Z.mod_pow2_bits_low (256 * a + b) 8) by lia. f_equal. change (2 ^ 8) with 256.
    rewrite Z.add_comm, Z.mul_comm, Z_mod_plus_full. apply Z.mod_small. lia.
  - replace i with (i - 8 + 8) at 1 by lia. rewrite <- Z.div_pow2_bits by lia. f_equal.
    change (2 ^ 8) with 256. rewrite Z.mul_comm, Z.div_add_l by lia. rewrite Z.div_small; lia.
Qed.
Lemma word_land a b c d : 0 <= b < 256 -> 0 <= d < 256 -> Z.land (256 * a + b) (256 * c + d) = 256 * Z.land a c + Z.land b d.
Proof.
  intros Hb Hd. pose proof (land_byte_mask b d Hb) as Hl.
  apply Z.bits_inj'. intros i Hi. rewrite Z.land_spec, !word_bits by done. destruct (_ <? _); by rewrite Z.land_spec.
Qed.
Lemma word_lor a b d : 0 <= b < 256 -> 0 <= d < 256 -> Z.lor (256 * a + b) d = 256 * a + Z.lor b d.
Proof.
  intros Hb Hd. pose proof (lor_byte b d Hb Hd). replace d with (256 * 0 + d) at 1 by lia. apply Z.bits_inj'. intros i Hi. rewrite Z.lor_spec, !word_bits by done.
  destruct (_ <? _); [by rewrite Z.lor_spec|]. by rewrite Z.bits_0, orb_false_r.
Qed.

(** The two bytes of the word: the flags, and the length with the bits of the extension. *)
Lemma flags_word h l : 0 <= h < 256 -> 0 <= l < 256 ->
  TCPH_FLAGS (256 * h + l) = Z.land h 0x3f /\ TCPH_OFFSET_FLAGS (256 * h + l) = Z.land l 0xf /\
  TCPH_OFFSET_CLEAR (256 * h + l) = 256 * Z.land h 0xf0 + l /\
  forall off, 0 <= off < 16 -> TCPH_OFFSET_SETBIT (256 * h + l) off = 256 * h + Z.lor l off.
Proof.
  intros Hh Hl. assert (lwip_htons (256 * h + l) = 256 * l + h) as E.
  { rewrite lwip_htons_arith by lia. replace (256 * h + l) with (h * 256 + l) by lia. rewrite Z.div_add_l, (Z.add_comm _ l), Z_mod_plus_full, Z.mod_small, Z.div_small by lia. lia. }
  unfold TCPH_FLAGS, TCPH_OFFSET_FLAGS, TCPH_OFFSET_CLEAR, TCPH_OFFSET_SETBIT. rewrite E. split_and!.
  - change 0x3f with (256 * 0 + 0x3f) at 1. rewrite word_land by lia. by rewrite Z.land_0_r.
  - f_equal. rewrite Z.shiftr_div_pow2 by lia. change (2 ^ 8) with 256. rewrite Z.mul_comm, Z.div_add_l by lia. rewrite Z.div_small; lia.
  - change 0xf0ff with (256 * 0xf0 + 0xff). rewrite word_land by lia. f_equal. change 0xff with (Z.ones 8). rewrite Z.land_ones by lia. apply Z.mod_small. lia.
  - intros off Ho. assert (lwip_htons (u16 (Z.shiftl off 8)) = off) as ->.
    { rewrite Z.shiftl_mul_pow2 by lia. change (2 ^ 8) with 256. unfold u16. rewrite Z.mod_small by lia. rewrite lwip_htons_arith by lia.
      rewrite Z.mod_mul, Z.div_mul by lia. lia. }
    apply word_lor; lia.
Qed.
Lemma bytes_word w : 0 <= w < 2 ^ 16 -> exists h l, w = 256 * h + l /\ 0 <= h < 256 /\ 0 <= l < 256.
Proof.
  intros Hw. exists (w / 256), (w mod 256). pose proof (Z.mod_pos_bound w 256 ltac:(lia)). pose proof (Z.div_mod w 256 ltac:(lia)). lia.
Qed.

(** (resend marks) a cold segment that was sent is marked as such for the next time, but a hot one is not; and the mark of either takes
    FIN, SYN, RST and PSH from the header, since the bits are cleared in the wrong byte. *)
Theorem resend_marks w : 0 <= w < 2 ^ 16 ->
  (TCPH_OFFSET_FLAGS w = NETML_COLD -> TCPH_OFFSET_FLAGS (mark_resend w) = NETML_COLD_RE) /\
  (TCPH_OFFSET_FLAGS w = NETML_HOT -> TCPH_OFFSET_FLAGS (mark_resend w) = NETML_HOT) /\
  (TCPH_OFFSET_FLAGS w = NETML_COLD \/ TCPH_OFFSET_FLAGS w = NETML_HOT -> TCPH_FLAGS (mark_resend w) = Z.land (TCPH_FLAGS w) 0x30).
Proof.
  intros (h & l & -> & Hh & Hl)%bytes_word. destruct (flags_word h l Hh Hl) as (F1 & F2 & F3 & _).
  pose proof (land_byte_mask h 0xf0 Hh) as Hc.
  destruct (flags_word _ l Hc Hl) as (G1 & G2 & _ & G4). unfold mark_resend. rewrite F1, F2, F3.
  assert (Z.land (Z.land h 0xf0) 0x3f = Z.land (Z.land h 0x3f) 0x30) as Eland by (by rewrite <- !Z.land_assoc).
  assert (forall off, 0 <= off < 16 -> 0 <= Z.lor l off < 256) as Hor by (intros; apply lor_byte; lia).
  split_and!; intros E.
  - rewrite E. cbn [Z.eqb Pos.eqb NETML_COLD]. rewrite G4 by (unfold NETML_COLD_RE; lia).
    destruct (flags_word _ _ Hc (Hor NETML_COLD_RE ltac:(unfold NETML_COLD_RE; lia))) as (_ & -> & _). by rewrite Z.land_lor_distr_l, E.
  - rewrite E. cbn [Z.eqb Pos.eqb NETML_COLD NETML_HOT]. rewrite G4 by (unfold NETML_HOT_RE; lia).
    destruct (flags_word _ _ Hc (Hor NETML_HOT_RE ltac:(unfold NETML_HOT_RE; lia))) as (_ & -> & _). by rewrite Z.land_lor_distr_l, E.
  - assert (exists off, 0 <= off < 16 /\ (if Z.land l 15 =? NETML_COLD then TCPH_OFFSET_SETBIT (256 * Z.land h 240 + l) NETML_COLD_RE
      else if Z.land l 15 =? NETML_HOT then TCPH_OFFSET_SETBIT (256 * Z.land h 240 + l) NETML_HOT_RE else 256 * h + l) = TCPH_OFFSET_SETBIT (256 * Z.land h 240 + l) off) as (off & Ho & ->).
    { destruct E as [-> | ->]; [exists NETML_COLD_RE|exists NETML_HOT_RE]; split; try done; unfold NETML_COLD_RE, NETML_HOT_RE; lia. }
    rewrite G4 by done. destruct (flags_word _ _ Hc (Hor off Ho)) as (-> & _). exact Eland.
Qed.

(** ** New segments *)

(** A segment without its links. *)
Definition unlinked (g : nseg) : nseg := set_n_prev None (set_n_next None g).

Section write.
  Context {N : Type} `{!TcpNet N} `{!TcpBufs N} `{!TcpLink N} `{!MultiNet N}.
  Implicit Type m : multi N.

(** What a write starts from: the node's counters, the local number and the next sequence number. *)
Record start := Start { s_id : Z; s_local : Z; s_seq : Z; s_tunl : Z; s_lbb : Z; s_bypass : bool; s_hot : bool; s_dat : list Z }.
Definition seg_word (b : start) : Z :=
  let word := TCPH_HDRLEN_FLAGS_SET 5 0 in
  let word := if s_bypass b then TCPH_OFFSET_SETBIT word NETML_BYPASS else word in
  TCPH_OFFSET_SETBIT word (if s_hot b then NETML_HOT else NETML_COLD).
Definition tunl_at (b : start) (pos : Z) : Z := if s_hot b then s_tunl b else u32 (s_tunl b + pos).
(** The segment with [n] bytes at [pos]. *)
Definition piece (b : start) (pos n : Z) : nseg :=
  NSeg (u32 (s_lbb b + pos)) n (seg_word b) [[]; part (s_dat b) pos n] false
    (IntHdr (lwip_htons (s_id b)) (lwip_htons (s_local b)) (lwip_htonl (u32 (s_seq b + pos))) (lwip_htonl (tunl_at b pos))) None None false.

(** The segments [l] have the data up to [pos]. *)
Inductive pieces (b : start) (sg : gmap Z nseg) : list Z -> Z -> Prop :=
| pieces_nil : pieces b sg [] 0
| pieces_snoc l pos a g n : pieces b sg l pos -> sg !! a = Some g -> unlinked g = piece b pos n -> 0 < n ->
    pos + n <= Z.of_nat (length (s_dat b)) -> pieces b sg (l ++ [a]) (pos + n).

Lemma pieces_mono b sg sg' l pos : pieces b sg l pos ->
  (forall a g, a ∈ l -> sg !! a = Some g -> exists g', sg' !! a = Some g' /\ unlinked g' = unlinked g) -> pieces b sg' l pos.
Proof.
  induction 1 as [|l pos a g n Hp IH Ha Hg Hn Hlen]; intros Hs; [constructor|].
  destruct (Hs a g) as (g' & Ha' & Hg'); [apply elem_of_app; right; left|done|]. eapply pieces_snoc; [|done|congruence|done|done].
  apply IH. intros. apply Hs; [|done]. apply elem_of_app. by left.
Qed.
Lemma pieces_range b sg l pos : pieces b sg l pos -> 0 <= pos <= Z.of_nat (length (s_dat b)).
Proof. induction 1; lia. Qed.

(** The links of the segments in both directions. *)
Fixpoint linked (sg : gmap Z nseg) (prev : option Z) (l : list Z) : Prop :=
  match l with
  | [] => True
  | a :: l' => exists g, sg !! a = Some g /\ n_prev g = prev /\ n_next g = head l' /\ linked sg (Some a) l'
  end.
Lemma linked_mono sg sg' l : forall prev, linked sg prev l -> (forall a, a ∈ l -> sg' !! a = sg !! a) -> linked sg' prev l.
Proof.
  induction l as [|a l IH]; intros prev Hl Hs; [done|]. destruct Hl as (g & Ha & H1 & H2 & H3). exists g.
  rewrite Hs by left. split_and!; try done. apply IH; [done|]. intros. apply Hs. by right.
Qed.
Lemma linked_elem sg l : forall prev a, linked sg prev l -> a ∈ l -> is_Some (sg !! a).
Proof.
  induction l as [|b l IH]; intros prev a Hl Ha; [by apply not_elem_of_nil in Ha|]. destruct Hl as (g & Hb & _ & _ & H3).
  apply elem_of_cons in Ha as [->|Ha]; [by eexists|by eapply IH].
Qed.
(** A new segment behind the last one. *)
Lemma linked_snoc sg l b a gb ga : forall prev, linked sg prev (l ++ [b]) -> NoDup (l ++ [b; a]) -> sg !! b = Some gb -> sg !! a = Some ga -> n_next ga = None ->
  linked (<[a := set_n_prev (Some b) ga]> (<[b := set_n_next (Some a) gb]> sg)) prev (l ++ [b; a]).
Proof.
  induction l as [|c l IH]; intros prev Hl Hn Hb Ha Hga.
  - destruct Hl as (g & Hg & H1 & H2 & _). simplify_eq. apply NoDup_cons in Hn as [Hne _]. rewrite list_elem_of_singleton in Hne.
    exists (set_n_next (Some a) g). rewrite lookup_insert_ne, lookup_insert_eq by done. split_and!; try done.
    exists (set_n_prev (Some b) ga). rewrite lookup_insert_eq. by split_and!.
  - destruct Hl as (g & Hg & H1 & H2 & H3). apply NoDup_cons in Hn as [Hne Hn]. rewrite elem_of_app, !elem_of_cons in Hne.
    exists g. rewrite !lookup_insert_ne by naive_solver. split_and!; try done; [by rewrite H2; destruct l|]. by apply IH.
Qed.

(** One more segment. *)
Lemma netml_segment_spec rid (hot : bool) dat pos n ql m w : 0 <= rid -> internal_conn m !! Z.to_nat rid = Some w -> Z.of_nat (length (part dat pos n)) = n ->
  let b := Start rid (local_id m) (u32 (intseq w - pos)) (if hot then inttunl w else u32 (inttunl w - pos)) (snd_lbb (snd (mpcb m))) (is_bypass (mpcb m)) hot dat in
  exists r ql' m', netml_segment rid hot (part dat pos n) pos ql m = Ret (r, ql', m') /\
    (mpcb m', local_id m', unsent_head m', unacked_head m') = (mpcb m, local_id m, unsent_head m, unacked_head m) /\
    match r with
    | None => (segs m', seg_pool m', internal_conn m') = (segs m, seg_pool m, internal_conn m)
    | Some a => segs m' = <[a := NSeg (u32 (s_lbb b + pos)) n (seg_word b) [[]; part dat pos n] false
          (IntHdr (lwip_htons rid) (lwip_htons (local_id m)) (lwip_htonl (intseq w)) (lwip_htonl (inttunl w))) None None false]> (segs m) /\
        seg_pool m = a :: seg_pool m' /\
        internal_conn m' = alter (fun w => set_intseq (u32 (intseq w + n)) (if hot then w else set_inttunl (u32 (inttunl w + n)) w)) (Z.to_nat rid) (internal_conn m) /\
        ql' = u16 (ql + 2) /\ ql' <= TCP_SND_QUEUELEN
    end.
Proof.
  intros Hr Hw Hn b. unfold netml_segment, alloc_rom, alloc_ram. destruct (rom_alloc _) as [[] n1]; simpl; [|by eexists _, _, _].
  destruct (ram_alloc _ _) as [[] n2]; simpl; [|by eexists _, _, _]. destruct (Z.ltb_spec (Z.min TCP_SND_QUEUELEN TCP_SNDQUEUELEN_OVERFLOW) (u16 (ql + 2))) as [|Hmax]; [by eexists _, _, _|].
  destruct (seg_pool m) as [|a pool] eqn:Hp; [eexists _, _, _; split_and!; try done; simpl; by rewrite Hp|].
  rewrite node_at_lookup by done. simpl. rewrite Hw. cbn [deref mbind outcome_bind]. eexists _, _, _. split; [reflexivity|]. split; [done|].
  simpl. rewrite Hn. split_and!; try done.
Qed.

(** ** A write *)

(** The data from the buffer on. *)
Definition counters (b : start) (pos : Z) (w : internal_id) : internal_id :=
  set_intseq (u32 (s_seq b + pos)) (if s_hot b then w else set_inttunl (u32 (s_tunl b + pos)) w).
(** The state [m] while the data are cut: the segments [l] were made from [m0]. *)
Record writing (b : start) (m0 : multi N) (l : list Z) (pos : Z) m : Prop := {
  wr_rest : (mpcb m, local_id m, unsent_head m, unacked_head m) = (mpcb m0, local_id m0, unsent_head m0, unacked_head m0);
  wr_pieces : pieces b (segs m) l pos;
  wr_linked : linked (segs m) None l;
  wr_pool : seg_pool m0 = l ++ seg_pool m;
  wr_old a : a ∉ l -> segs m !! a = segs m0 !! a;
  wr_nodes : internal_conn m = alter (counters b pos) (Z.to_nat (s_id b)) (internal_conn m0) }.

(** What a write needs: a node of the connection, and segments in the pool that are free. *)
Record writable (b : start) (w : internal_id) m : Prop := {
  wb_start : b = Start (s_id b) (local_id m) (intseq w) (inttunl w) (snd_lbb (snd (mpcb m))) (is_bypass (mpcb m)) (s_hot b) (s_dat b);
  wb_node : 0 <= s_id b /\ internal_conn m !! Z.to_nat (s_id b) = Some w;
  wb_range : 0 <= intseq w < 2 ^ 32 /\ 0 <= inttunl w < 2 ^ 32;
  wb_pool : NoDup (seg_pool m) /\ forall a, a ∈ seg_pool m -> segs m !! a = None }.

Lemma writing_start b w m : writable b w m -> writing b m [] 0 m.
Proof.
  intros [Eb [H1 H2] [R1 R2] _]. split; try done; [constructor|]. symmetry. apply list_eq. intros i. destruct (decide (i = Z.to_nat (s_id b))) as [->|].
  - rewrite list_lookup_alter_eq, H2. simpl. unfold counters. rewrite Eb. simpl. rewrite !Z.add_0_r, !u32_small by lia. f_equal. by destruct w, (s_hot b).
  - by rewrite list_lookup_alter_ne.
Qed.

Lemma piece_new b pos n w m0 : writable b w m0 ->
  NSeg (u32 (s_lbb b + pos)) n (seg_word b) [[]; part (s_dat b) pos n] false (IntHdr (lwip_htons (s_id b)) (lwip_htons (local_id m0))
    (lwip_htonl (intseq (counters b pos w))) (lwip_htonl (inttunl (counters b pos w)))) None None false = piece b pos n.
Proof. intros [Eb _ _ _]. unfold piece, tunl_at, counters. rewrite Eb. simpl. by destruct (s_hot b). Qed.
Lemma counters_add b pos n w : (fun w => set_intseq (u32 (intseq w + n)) (if s_hot b then w else set_inttunl (u32 (inttunl w + n)) w)) (counters b pos w) = counters b (pos + n) w.
Proof.
  unfold counters. destruct (s_hot b); simpl; rewrite ?u32_add_l; replace (s_seq b + pos + n) with (s_seq b + (pos + n)) by lia; [done|].
  by replace (s_tunl b + pos + n) with (s_tunl b + (pos + n)) by lia.
Qed.

Lemma alter_then {A} (f g h : A -> A) i (l : list A) : (forall x, f (g x) = h x) -> alter f i (alter g i l) = alter h i l.
Proof.
  intros H. apply list_eq. intros j. destruct (decide (j = i)) as [->|].
  - rewrite !list_lookup_alter_eq. destruct (l !! i); simpl; [by rewrite H|done].
  - by rewrite !list_lookup_alter_ne.
Qed.

(** The links to a new segment. *)
Definition link_last (q : list Z) (a : Z) m : outcome (multi N) :=
  match q with [] => Ret m | c :: _ => m ← upd_seg (set_n_next (Some a)) c m; upd_seg (set_n_prev (Some c)) a m end.

Lemma writing_step b w m0 l pos m a n m1 : writable b w m0 -> writing b m0 l pos m -> 0 < n -> pos + n <= Z.of_nat (length (s_dat b)) ->
  (mpcb m1, local_id m1, unsent_head m1, unacked_head m1) = (mpcb m, local_id m, unsent_head m, unacked_head m) ->
  segs m1 = <[a := piece b pos n]> (segs m) -> seg_pool m = a :: seg_pool m1 ->
  internal_conn m1 = alter (counters b (pos + n)) (Z.to_nat (s_id b)) (internal_conn m0) ->
  exists m2, link_last (rev l) a m1 = Ret m2 /\ writing b m0 (l ++ [a]) (pos + n) m2.
Proof.
  intros [Eb Hnode Hrng [Hnd Hfree]] [W1 W2 W3 W4 W5 W6] Hn Hlen E1 E2 E3 E4.
  assert (seg_pool m0 = (l ++ [a]) ++ seg_pool m1) as Ep by (by rewrite W4, E3, <- app_assoc). rewrite Ep in Hnd.
  apply NoDup_app in Hnd as (Hnd & _ & _). assert (a ∉ l) as Hal by (apply NoDup_app in Hnd as (_ & H & _); intros Hin; apply (H a Hin); left).
  assert (pieces b (segs m1) l pos) as W2'.
  { apply (pieces_mono _ _ _ _ _ W2). intros c g Hc Hg. exists g. rewrite E2, lookup_insert_ne by (by intros ->). done. }
  assert (linked (segs m1) None l) as W3'.
  { apply (linked_mono (segs m)); [done|]. intros c Hc. rewrite E2, lookup_insert_ne by (by intros ->). done. }
  assert (segs m1 !! a = Some (piece b pos n)) as Ha by (by rewrite E2, lookup_insert_eq).
  assert (forall c, c ∉ l ++ [a] -> segs m1 !! c = segs m0 !! c) as W5'.
  { intros c Hc. rewrite elem_of_app, list_elem_of_singleton in Hc. rewrite E2, lookup_insert_ne by naive_solver. apply W5. tauto. }
  destruct l as [|c l _] using rev_ind.
  { exists m1. split; [done|]. split; try done; [congruence|by eapply pieces_snoc|]. by exists (piece b pos n). }
  rewrite rev_app_distr. simpl. destruct (linked_elem _ _ _ c W3') as [gc Hc]; [apply elem_of_app; right; left|].
  assert (c <> a) as Hca by (intros ->; apply Hal, elem_of_app; right; left).
  unfold upd_seg. rewrite Hc. cbn [deref mbind outcome_bind]. simpl. rewrite lookup_insert_ne, Ha by done. cbn [deref mbind outcome_bind].
  eexists. split; [reflexivity|]. split; simpl; try done; [exact (eq_trans E1 W1)| | |].
  - eapply (pieces_snoc _ _ _ _ a); [|apply lookup_insert_eq|done|done|done]. apply (pieces_mono _ _ _ _ _ W2'). intros d g Hd Hg.
    assert (d <> a) by (by intros ->). destruct (decide (d = c)) as [->|].
    + exists (set_n_next (Some a) gc). rewrite lookup_insert_ne, lookup_insert_eq by done. split; [done|]. by assert (g = gc) as -> by congruence.
    + exists g. rewrite !lookup_insert_ne by done. done.
  - rewrite <- !app_assoc in *. by apply linked_snoc.
  - intros d Hd. pose proof (W5' d Hd) as Hd'. rewrite !elem_of_app, !list_elem_of_singleton in Hd. rewrite !lookup_insert_ne by naive_solver. exact Hd'.
Qed.

Lemma segments_run b w m0 max_len ql0 fuel : forall l pos m, writable b w m0 -> writing b m0 l pos m -> 0 < max_len ->
  Z.of_nat (length (s_dat b)) < 2 ^ 16 -> Z.of_nat (length (s_dat b)) - pos < Z.of_nat fuel -> ql0 + 2 * Z.of_nat (length l) <= TCP_SND_QUEUELEN -> 0 <= ql0 ->
  exists ok ql l' pos' m', netml_segments fuel (s_id b) (s_hot b) (s_dat b) max_len pos (ql0 + 2 * Z.of_nat (length l)) (rev l) m = Ret (ok, ql, rev l', m') /\
    writing b m0 l' pos' m' /\ (ok = true -> pos' = Z.of_nat (length (s_dat b)) /\ ql = ql0 + 2 * Z.of_nat (length l')).
Proof.
  induction fuel as [|fuel IH]; intros l pos m Hb Hw Hmax Hlen Hfuel Hql Hql0; [pose proof (pieces_range _ _ _ _ (wr_pieces _ _ _ _ _ Hw)); lia|].
  pose proof (pieces_range _ _ _ _ (wr_pieces _ _ _ _ _ Hw)) as Hpos. cbn [netml_segments]. destruct (Z.ltb_spec pos (Z.of_nat (length (s_dat b)))) as [Hlt|Hge].
  2:{ eexists true, _, l, pos, m. split_and!; try done. intros _. split; [lia|done]. }
  rewrite (u16_small (Z.of_nat (length (s_dat b)) - pos)) by lia. set (n := Z.min _ max_len).
  assert (Z.of_nat (length (part (s_dat b) pos n)) = n) as Hpart by (unfold part; rewrite length_take, length_drop; lia).
  pose proof Hw as [W1 _ _ W4 _ W6]. injection W1 as P1 P2 P3 P4. pose proof Hb as [Eb [Hid Hnode] _ _].
  destruct (netml_segment_spec (s_id b) (s_hot b) (s_dat b) pos n (ql0 + 2 * Z.of_nat (length l)) m (counters b pos w)) as (r & ql' & m1 & -> & F & Hr); [done| |done|].
  { by rewrite W6, list_lookup_alter_eq, Hnode. }
  cbn [mbind outcome_bind]. destruct r as [a|].
  - destruct Hr as (G1 & G2 & G3 & G4 & G5). assert (n <= Z.of_nat (length (s_dat b)) - pos /\ 0 < n) as [Hn1 Hn2] by lia.
    destruct (writing_step b w m0 l pos m a n m1) as (m2 & E & Hw2); try done; [lia| | |].
    { assert (snd_lbb (snd (mpcb m)) = s_lbb b /\ is_bypass (mpcb m) = s_bypass b) as [L1 L2] by (rewrite P1, Eb; done).
      rewrite G1. f_equal. rewrite <- (piece_new b pos n w m0 Hb). unfold seg_word. simpl. by rewrite L1, L2, P2. }
    { rewrite G3, W6. apply alter_then. intros x. by rewrite <- counters_add. }
    fold (link_last (rev l) a m1). rewrite E. cbn [mbind outcome_bind]. rewrite (u16_small (pos + n)) by lia.
    assert (ql' = ql0 + 2 * Z.of_nat (length (l ++ [a]))) as ->.
    { rewrite G4, length_app. simpl length. rewrite u16_small; [lia|]. unfold TCP_SND_QUEUELEN in *. lia. }
    replace (a :: rev l) with (rev (l ++ [a])) by (by rewrite rev_app_distr). apply IH; try done; lia.
  - injection Hr as G1 G2 G3. eexists false, _, l, pos, m1. split_and!; try done. destruct Hw as [V1 V2 V3 V4 V5 V6]. split; rewrite ?G1, ?G2, ?G3; try done. congruence.
Qed.
(** ** The queue of unsent segments *)

(** The segments [l] are linked forwards. *)
Fixpoint nexts (sg : gmap Z nseg) (l : list Z) : Prop :=
  match l with
  | [] => True
  | a :: l' => exists g, sg !! a = Some g /\ n_next g = head l' /\ nexts sg l'
  end.
Lemma linked_nexts sg l : forall prev, linked sg prev l -> nexts sg l.
Proof. induction l as [|a l IH]; intros prev; [done|]. intros (g & H1 & _ & H2 & H3). exists g. split_and!; try done. by eapply IH. Qed.
Lemma nexts_elem sg l a : nexts sg l -> a ∈ l -> is_Some (sg !! a).
Proof.
  induction l as [|b l IH]; intros Hl Ha; [by apply not_elem_of_nil in Ha|]. destruct Hl as (g & Hb & _ & H3).
  apply elem_of_cons in Ha as [->|Ha]; [by eexists|by eapply IH].
Qed.
Lemma nexts_mono sg sg' l : nexts sg l -> (forall a, a ∈ l -> sg' !! a = sg !! a) -> nexts sg' l.
Proof.
  induction l as [|a l IH]; intros Hl Hs; [done|]. destruct Hl as (g & Ha & H1 & H2). exists g. rewrite Hs by left. split_and!; try done.
  apply IH; [done|]. intros. apply Hs. by right.
Qed.
Lemma nexts_size sg l : nexts sg l -> NoDup l -> (length l <= size sg)%nat.
Proof.
  intros Hl Hn. rewrite <- size_dom, <- (size_list_to_set (C := gset Z) l Hn). apply subseteq_size. intros a Ha%elem_of_list_to_set.
  apply elem_of_dom. by eapply nexts_elem.
Qed.
(** Joining two queues at the last segment of the first. *)
Lemma nexts_join sg q a l g : nexts sg (q ++ [a]) -> nexts sg l -> sg !! a = Some g -> a ∉ q -> a ∉ l ->
  nexts (<[a := set_n_next (head l) g]> sg) ((q ++ [a]) ++ l).
Proof.
  intros Hq Hl Ha Hna Hnl. induction q as [|b q IH].
  - exists (set_n_next (head l) g). rewrite lookup_insert_eq. split_and!; try done. apply (nexts_mono sg); [done|]. intros c Hc.
    rewrite lookup_insert_ne; [done|]. by intros ->.
  - destruct Hq as (gb & Hb & H1 & H2). apply not_elem_of_cons in Hna as [Hne Hna]. exists gb. rewrite lookup_insert_ne by done. split_and!; try done.
    + rewrite H1. by destruct q.
    + by apply IH.
Qed.
Lemma last_default {A} (l : list A) x y z : List.last (x :: l) y = List.last (x :: l) z.
Proof. revert x. induction l as [|a l IH]; intros x; [done|]. exact (IH a). Qed.
Lemma last_seg_run m l : forall a fuel, nexts (segs m) (a :: l) -> (length l < fuel)%nat -> last_seg_of fuel a m = Ret (List.last (a :: l) a).
Proof.
  induction l as [|b l IH]; intros a fuel (g & Ha & H1 & H2) Hf; (destruct fuel as [|fuel]; [simpl in Hf; lia|]); cbn [last_seg_of]; rewrite Ha;
    cbn [deref mbind outcome_bind]; rewrite H1; [done|]. cbn [head]. rewrite (IH b fuel) by (done || simpl in Hf; lia). f_equal.
  change (List.last (a :: b :: l) a) with (List.last (b :: l) a). apply last_default.
Qed.

(** The segments of a write that failed go back. *)
Lemma free_segs_run l : forall m, NoDup l -> (forall a, a ∈ l -> is_Some (segs m !! a)) ->
  exists m', free_segs l m = Ret m' /\ (mpcb m', local_id m', internal_conn m', unsent_head m', unacked_head m') = (mpcb m, local_id m, internal_conn m, unsent_head m, unacked_head m) /\
    seg_pool m' = rev l ++ seg_pool m /\ forall a, segs m' !! a = if decide (a ∈ l) then None else segs m !! a.
Proof.
  induction l as [|a l IH]; intros m Hn Hs; [exists m; by split_and!|]. apply NoDup_cons in Hn as [Ha Hn]. destruct (Hs a) as [g Hg]; [left|].
  simpl. unfold free_seg. rewrite Hg. cbn [deref mbind outcome_bind]. set (m1 := set_core _ _). destruct (IH m1 Hn) as (m2 & -> & E1 & E2 & E3).
  { intros b Hb. subst m1. simpl. rewrite lookup_delete_ne by (by intros ->). apply Hs. by right. }
  exists m2. split_and!; [done|rewrite E1; done|rewrite E2; simpl; by rewrite <- app_assoc|]. intros b. rewrite E3. subst m1. simpl.
  destruct (decide (b = a)) as [->|Hne].
  - rewrite (decide_False (P := a ∈ l)), lookup_delete_eq by done. by rewrite decide_True by left.
  - rewrite lookup_delete_ne by done. destruct (decide (b ∈ l)); [by rewrite decide_True by (by right)|]. rewrite decide_False; [done|]. by intros [->|]%elem_of_cons.
Qed.

(** A connection that takes [len] bytes, with the unsent segments [lu]. *)
Record accepts (len : Z) (lu : list Z) m : Prop := {
  ac_state : state (mpcb m) = ESTABLISHED \/ state (mpcb m) = CLOSE_WAIT \/ state (mpcb m) = SYN_SENT \/ state (mpcb m) = SYN_RCVD;
  ac_id : local_id m <> 0xffff;
  ac_mss : INTERNAL_HLEN < mss_local (mpcb m) < 2 ^ 16;
  ac_len : 0 < len <= snd_buf (snd (mpcb m)) /\ snd_buf (snd (mpcb m)) < 2 ^ 16;
  ac_queuelen : 0 <= snd_queuelen (snd (mpcb m)) < TCP_SND_QUEUELEN;
  ac_empty : snd_queuelen (snd (mpcb m)) = 0 <-> unacked_head m = None /\ unsent_head m = None;
  ac_unsent : unsent_head m = head lu /\ nexts (segs m) lu /\ NoDup lu }.

(** All data were queued: segments with their numbers and positions, behind the queue. *)
Record write_done (b : start) (lu l : list Z) m m' : Prop := {
  wd_pieces : pieces b (segs m') l (Z.of_nat (length (s_dat b)));
  wd_linked : linked (segs m') None l;
  wd_queue : unsent_head m' = head (lu ++ l) /\ nexts (segs m') (lu ++ l);
  wd_lbb : snd_lbb (snd (mpcb m')) = u32 (snd_lbb (snd (mpcb m)) + Z.of_nat (length (s_dat b)));
  wd_buf : snd_buf (snd (mpcb m')) = snd_buf (snd (mpcb m)) - Z.of_nat (length (s_dat b));
  wd_queuelen : snd_queuelen (snd (mpcb m')) = snd_queuelen (snd (mpcb m)) + 2 * Z.of_nat (length l);
  wd_nodes : internal_conn m' = alter (counters b (Z.of_nat (length (s_dat b)))) (Z.to_nat (s_id b)) (internal_conn m) }.
(** Nothing was queued, but the numbers of [pos] bytes are gone. *)
Record write_failed (b : start) (pos : Z) m m' : Prop := {
  wf_pos : 0 <= pos <= Z.of_nat (length (s_dat b));
  wf_segs : segs m' = segs m /\ seg_pool m' ≡ₚ seg_pool m;
  wf_queues : (unsent_head m', unacked_head m', snd (mpcb m')) = (unsent_head m, unacked_head m, snd (mpcb m));
  wf_nodes : internal_conn m' = alter (counters b pos) (Z.to_nat (s_id b)) (internal_conn m) }.

Lemma write_netml_ok b w lu fuel m : writable b w m -> accepts (Z.of_nat (length (s_dat b))) lu m -> (length (s_dat b) < fuel)%nat ->
  exists r m', tcp_write_netml fuel (s_dat b) (s_id b) (s_hot b) m = Ret (r, m') /\
    ((r = Some ERR_OK /\ exists l, write_done b lu l m m') \/ (r = None /\ exists pos, write_failed b pos m m')).
Proof.
  intros Hb [A1 A2 A3 [A4 A4'] A5 A6 (A7 & A8 & A9)] Hfuel. unfold tcp_write_netml. rewrite (proj2 (Z.eqb_neq _ _) A2).
  assert (netml_write_checks (Z.of_nat (length (s_dat b))) m = Ret (ERR_OK, m)) as ->.
  { unfold netml_write_checks. rewrite bool_decide_true by done. cbn [negb]. rewrite (proj2 (Z.eqb_neq _ 0)), (proj2 (Z.ltb_ge _ _)) by lia.
    change (Z.min TCP_SND_QUEUELEN (TCP_SNDQUEUELEN_OVERFLOW + 1)) with TCP_SND_QUEUELEN. rewrite (proj2 (Z.leb_gt _ _)) by lia.
    destruct (Z.eqb_spec (snd_queuelen (snd (mpcb m))) 0) as [E|E]; cbn [negb].
    - rewrite bool_decide_true; [done|tauto].
    - rewrite bool_decide_false; [done|tauto]. }
  cbn [mbind outcome_bind]. rewrite decide_False by tauto.
  assert (match unsent_head m with None => Ret None | Some a => c ← last_seg_of (walk_fuel m) a m; Ret (Some c) end = Ret (last lu)) as Hlast.
  { rewrite A7. destruct lu as [|a lu]; [done|]. change (head (a :: lu)) with (Some a). cbv iota. pose proof (nexts_size _ _ A8 A9) as Hsz. simpl in Hsz.
    rewrite (last_seg_run m lu a) by (done || unfold walk_fuel; lia). cbn [mbind outcome_bind]. f_equal. clear. revert a.
    induction lu as [|b lu IH]; intros a; [done|]. change (List.last (a :: b :: lu) a) with (List.last (b :: lu) a). rewrite (last_default lu b a b), IH. done. }
  rewrite Hlast. cbn [mbind outcome_bind]. clear Hlast. unfold INTERNAL_HLEN in A3. rewrite (u16_small (mss_local (mpcb m) - INTERNAL_HLEN)) by (unfold INTERNAL_HLEN; lia).
  destruct (segments_run b w m (mss_local (mpcb m) - INTERNAL_HLEN) (snd_queuelen (snd (mpcb m))) fuel [] 0 m) as (ok & ql & l & pos & m1 & Hrun & Hw & Hok);
    [done|by eapply writing_start|unfold INTERNAL_HLEN; lia|lia|lia|simpl; lia|lia|]. simpl length in Hrun. rewrite Z.add_0_r in Hrun. simpl rev in Hrun. rewrite Hrun.
  cbn [mbind outcome_bind]. rewrite rev_involutive. pose proof Hw as [W1 W2 W3 W4 W5 W6]. injection W1 as P1 P2 P3 P4. pose proof Hb as [_ _ _ [Hnd Hfree]].
  assert (forall a, a ∈ l -> segs m !! a = None) as Hfl by (intros a Ha; apply Hfree; rewrite W4; apply elem_of_app; by left).
  rewrite W4 in Hnd. apply NoDup_app in Hnd as (Hndl & _ & _). destruct ok.
  - destruct (Hok eq_refl) as [-> ->]. assert (l <> []) as Hl by (intros ->; inversion W2; [lia|by destruct l]).
    assert (forall a, a ∈ lu -> a ∉ l) as Hdis.
    { intros a Ha Hin. destruct (nexts_elem _ _ _ A8 Ha) as [g Hg]. by rewrite Hfl in Hg. }
    assert (exists m2, match last lu with None => Ret (set_unsent_head (head l) m1) | Some c => upd_seg (set_n_next (head l)) c m1 end = Ret m2 /\
      mpcb m2 = mpcb m /\ internal_conn m2 = internal_conn m1 /\ unacked_head m2 = unacked_head m /\ unsent_head m2 = head (lu ++ l) /\
      nexts (segs m2) (lu ++ l) /\ forall a, a ∈ l -> segs m2 !! a = segs m1 !! a) as (m2 & -> & Q1 & Q2 & Q2' & Q3 & Q4 & Q5).
    { destruct lu as [|c lu _] using rev_ind.
      - eexists. split; [reflexivity|]. split_and!; try done. simpl. by eapply linked_nexts.
      - rewrite last_snoc. destruct (nexts_elem _ _ c A8) as [g Hg]; [apply elem_of_app; right; left|]. unfold upd_seg.
        assert (c ∉ l) as Hcl by (apply Hdis, elem_of_app; right; left). rewrite W5, Hg by done. cbn [deref mbind outcome_bind]. eexists. split; [reflexivity|].
        split_and!; try done; simpl.
        + rewrite P3, A7. by destruct lu.
        + apply nexts_join; [|by eapply linked_nexts|by rewrite W5| |done].
          * apply (nexts_mono (segs m)); [done|]. intros a Ha. apply W5. by apply Hdis.
          * apply NoDup_app in A9 as (_ & H & _). intros Hin. apply (H c Hin). left.
        + intros a Ha. rewrite lookup_insert_ne; [done|]. by intros ->. }
    cbn [mbind outcome_bind]. set (m3 := updp _ m2). assert (netml_queues_valid m3 = true) as ->.
    { unfold netml_queues_valid. subst m3. simpl. rewrite Q3. apply orb_true_iff. right. rewrite bool_decide_false; [done|]. intros [_ H].
      destruct lu; [by destruct l|done]. }
    cbn [mbind outcome_bind lwip_assert]. eexists _, m3. split; [reflexivity|]. left. split; [done|]. exists l. subst m3. split; simpl; try done.
    + apply (pieces_mono _ _ _ _ _ W2). intros a g Ha Hg. exists g. by rewrite Q5.
    + apply (linked_mono (segs m1)); [done|]. exact Q5.
    + unfold mpcb in Q1. by rewrite Q1.
    + unfold mpcb in Q1. rewrite Q1. apply u16_small. lia.
    + by rewrite Q2.
  - set (m2 := updp _ m1). destruct (free_segs_run l m2 Hndl) as (m3 & -> & F1 & F2 & F3); [intros a Ha; by eapply linked_elem|].
    cbn [mbind outcome_bind]. injection F1 as G1 G2 G3 G4 G5.
    assert (snd (mpcb m3) = snd (mpcb m)) as Hsnd by (rewrite G1; simpl; by unfold mpcb in P1; rewrite P1).
    assert (netml_queues_valid m3 = true) as ->.
    { unfold netml_queues_valid. rewrite Hsnd, G4, G5. simpl. rewrite P3, P4. destruct (Z.eqb_spec (snd_queuelen (snd (mpcb m))) 0); [done|].
      simpl. rewrite bool_decide_false; [done|tauto]. }
    cbn [mbind outcome_bind lwip_assert]. eexists _, m3. split; [reflexivity|]. right. split; [done|]. exists pos. split.
    + by apply (pieces_range b (segs m1) l).
    + split; [|rewrite F2, W4; apply Permutation_app; [symmetry; apply Permutation_rev|done]].
      apply map_eq. intros a. rewrite F3. destruct (decide (a ∈ l)) as [Ha|Ha]; [by rewrite Hfl|]. by apply W5.
    + rewrite G4, G5, Hsnd. simpl. by rewrite P3, P4.
    + by rewrite G3.
Qed.

(** C12: (write) [tcp_write_netml] with data to send returns. Either all of it is queued, cut into segments with consecutive numbers and positions for
    the node, behind what waits already; or nothing is queued, but the positions that were given to the first segments are lost, so
    that the stream has a hole, and no error code is returned. *)
Theorem write_netml_queues b w lu fuel m : writable b w m -> accepts (Z.of_nat (length (s_dat b))) lu m -> (length (s_dat b) < fuel)%nat ->
  exists r m', tcp_write_netml fuel (s_dat b) (s_id b) (s_hot b) m = Ret (r, m') /\
    ((r = Some ERR_OK /\ exists l, write_done b lu l m m') \/ (r = None /\ exists pos, write_failed b pos m m')).
Proof. apply write_netml_ok. Qed.
End write.
