(* ===== verification/TcpNetmlRound.v ===== *)
(** * From one node to another

    What [tcp_write_netml] queues at one end is passed on at the other end, through the bytes of the internal header. *)

From stdpp Require Import gmap.
From S2P Require Import Prelude Chain Def Tcp TcpRecv TcpStream TcpProcess TcpOut TcpNetml TcpNetmlProps TcpNetmlSend.

(** The packet of a segment, behind the TCP header, as [netml_output_segment] sends it. *)
Definition pkt_of (ack : Z) (g : nseg) : pkt := Pkt (n_seqno g) ack (n_word g) [hdr_bytes (n_hdr g) ++ concat (n_p g)].

(** ** The internal header *)

Lemma raw16 x : 0 <= x < 2 ^ 16 -> x mod 256 + 256 * (x / 256 mod 256) = x.
Proof. intros. rewrite (Z.mod_small (x / 256)) by (split; [apply Z.div_pos; lia|apply Z.div_lt_upper_bound; lia]). pose proof (Z.div_mod x 256). lia. Qed.
Lemma raw32 x : 0 <= x < 2 ^ 32 -> x mod 256 + 256 * (x / 256 mod 256) + 65536 * (x / 65536 mod 256) + 16777216 * (x / 16777216 mod 256) = x.
Proof.
  intros Hx. change 65536 with (256 * 256). change 16777216 with (256 * 256 * 256). rewrite <- !Z.div_div by lia.
  pose proof (Z.div_mod x 256 ltac:(lia)). pose proof (Z.div_mod (x / 256) 256 ltac:(lia)). pose proof (Z.div_mod (x / 256 / 256) 256 ltac:(lia)).
  assert (x / 256 / 256 / 256 < 256) by (apply Z.div_lt_upper_bound; [lia|]; apply Z.div_lt_upper_bound; [lia|]; apply Z.div_lt_upper_bound; lia).
  assert (0 <= x / 256 / 256 / 256) by (repeat apply Z.div_pos; lia). rewrite (Z.mod_small (x / 256 / 256 / 256)) by lia. lia.
Qed.
Lemma hdr_bytes_range h : bytes (hdr_bytes h).
Proof. repeat constructor; apply Z.mod_pos_bound; lia. Qed.

(** What the receiver reads. *)
Lemma pkt_of_fields ack g : 0 <= src_id (n_hdr g) < 2 ^ 16 -> 0 <= int_tunlno (n_hdr g) < 2 ^ 32 ->
  node_of (pkt_of ack g) = lwip_htons (src_id (n_hdr g)) /\ tunl_of (pkt_of ack g) = lwip_htonl (int_tunlno (n_hdr g)) /\ data_of (pkt_of ack g) = concat (n_p g).
Proof.
  intros H1 H2. unfold node_of, tunl_of, data_of, pkt_of. simpl. unfold get_ip, get8. simpl. rewrite raw16, raw32 by done. split_and!; try done.
  by rewrite app_nil_r, drop_0.
Qed.

(** ** The packets of a write *)

(** The stream of the writer, from the position of its first byte on. *)
Definition written (b : start) (i x : Z) : Z := default 0 (s_dat b !! Z.to_nat (x - s_tunl b)).
Lemma written_part b i pos n : 0 <= pos -> 0 <= n -> pos + n <= Z.of_nat (length (s_dat b)) ->
  part (s_dat b) pos n = stream (written b i) (s_tunl b + pos) n.
Proof.
  intros Hp Hn Hl. unfold part, stream. apply list_eq. intros j. destruct (decide (Z.of_nat j < n)) as [Hj|Hj].
  - rewrite lookup_take_lt, lookup_drop by lia. rewrite list_lookup_fmap, lookup_seqZ_lt by lia. simpl. unfold written.
    replace (Z.to_nat (s_tunl b + pos + Z.of_nat j - s_tunl b)) with (Z.to_nat pos + j)%nat by lia.
    destruct (lookup_lt_is_Some_2 (s_dat b) (Z.to_nat pos + j)) as [x ->]; [lia|done].
  - rewrite !lookup_ge_None_2; [done| |]; [rewrite length_fmap, length_seqZ|rewrite length_take, length_drop]; lia.
Qed.

Lemma series_app nxt ks1 nxt1 ks2 nxt2 : series nxt ks1 nxt1 -> series nxt1 ks2 nxt2 -> series nxt (ks1 ++ ks2) nxt2.
Proof. induction 1 as [|nxt k ks nxt1 Hle _ IH]; intros H2; [done|]. simpl. constructor; [done|]. by apply IH. Qed.

(** A cold write to a node of the connection that fits into the space of positions. *)
Record cold_write (b : start) : Prop := {
  cw_kind : s_hot b = false /\ s_bypass b = false;
  cw_local : 0 <= s_local b - 8 < NETML_MAX_NODE;
  cw_tunl : 0 <= s_tunl b /\ s_tunl b + Z.of_nat (length (s_dat b)) < 2 ^ 32;
  cw_bytes : bytes (s_dat b);
  cw_size : Z.of_nat (length (s_dat b)) < 2 ^ 16 - INTERNAL_HLEN }.

Lemma piece_packet ack b g pos n : cold_write b -> unlinked g = piece b pos n -> 0 < n -> 0 <= pos -> pos + n <= Z.of_nat (length (s_dat b)) ->
  streams_pkt (written b) (pkt_of ack g) /\ node_of (pkt_of ack g) = s_local b /\ tunl_of (pkt_of ack g) = s_tunl b + pos /\ len_of (pkt_of ack g) = n.
Proof.
  intros [[Hh Hbp] Hl Ht Hb Hsz] Hg Hn Hpos Hlen. unfold NETML_MAX_NODE, INTERNAL_HLEN in *.
  assert (n_hdr g = n_hdr (piece b pos n) /\ n_p g = n_p (piece b pos n) /\ n_word g = seg_word b) as (E1 & E2 & E3) by (split_and!; [by rewrite <- Hg..|]; change (n_word g) with (n_word (unlinked g)); by rewrite Hg).
  assert (tunl_at b pos = s_tunl b + pos) as Etunl by (unfold tunl_at; rewrite Hh; apply u32_small; lia).
  assert (0 <= lwip_htonl (s_tunl b + pos) < 2 ^ 32) as Hraw by (apply lwip_htonl_range; lia).
  destruct (pkt_of_fields ack g) as (F1 & F2 & F3); [rewrite E1; simpl; apply lwip_htons_range|rewrite E1; simpl; by rewrite Etunl|].
  rewrite E1 in F1, F2. simpl in F1, F2. rewrite Etunl in F2. rewrite htons_involutive in F1 by lia. rewrite htonl_involutive in F2 by lia.
  assert (data_of (pkt_of ack g) = part (s_dat b) pos n) as F4 by (rewrite F3, E2; simpl; apply app_nil_r).
  assert (len_of (pkt_of ack g) = n) as F5 by (unfold len_of; rewrite F4; unfold part; rewrite length_take, length_drop; lia).
  assert (seg_word b = TCPH_OFFSET_SETBIT (TCPH_HDRLEN_FLAGS_SET 5 0) NETML_COLD) as Ew by (unfold seg_word; by rewrite Hh, Hbp).
  split_and!; try done. split.
  - split.
    + unfold pkt_of. simpl. eexists _, _. split; [reflexivity|]. simpl. lia.
    + rewrite F1. done.
    + unfold pkt_of. cbn [k_p]. constructor; [|constructor]. apply bytes_app. split; [apply hdr_bytes_range|]. rewrite E2. change (concat (n_p (piece b pos n))) with (part (s_dat b) pos n ++ []). rewrite app_nil_r.
      unfold part. by apply bytes_take, bytes_drop.
    + unfold pkt_of, tot_len. cbn [k_p concat]. rewrite app_nil_r, length_app, E2. change (concat (n_p (piece b pos n))) with (part (s_dat b) pos n ++ []). rewrite app_nil_r. change (length (hdr_bytes (n_hdr g))) with 12%nat. unfold part. rewrite length_take, length_drop. lia.
    + unfold pkt_of. simpl k_word. rewrite E3, Ew. by vm_compute.
  - rewrite F4, F1, F2, F5. by apply written_part; lia.
  - lia.
  - unfold pkt_of. simpl k_word. rewrite E3, Ew. by vm_compute.
Qed.

Lemma pieces_series ack b sg l pos nxt : pieces b sg l pos -> cold_write b -> nxt (s_local b) = s_tunl b ->
  exists gs nxt', Forall2 (fun a g => sg !! a = Some g) l gs /\ Forall (streams_pkt (written b)) (pkt_of ack <$> gs) /\
    series nxt (pkt_of ack <$> gs) nxt' /\ nxt' (s_local b) = s_tunl b + pos.
Proof.
  intros Hp Hc Hn. induction Hp as [|l pos a g n Hp IH Ha Hg Hn0 Hlen]; [exists [], nxt; split_and!; try done; [constructor|lia]|].
  destruct IH as (gs & nxt1 & I1 & I2 & I3 & I4). pose proof (pieces_range _ _ _ _ Hp) as Hpos.
  destruct (piece_packet ack b g pos n) as (P1 & P2 & P3 & P4); try done; [lia|].
  exists (gs ++ [g]), (advance nxt1 (pkt_of ack g)). split_and!.
  - by apply Forall2_app; [|constructor].
  - rewrite fmap_app. apply Forall_app. split; [done|]. by constructor.
  - rewrite fmap_app. eapply series_app; [done|]. constructor; [|constructor]. rewrite P2, P3, I4. lia.
  - unfold advance. rewrite P2, P3, P4, I4, decide_True by done. lia.
Qed.

Section round_trip.
  Context {N : Type} `{!TcpNet N} `{!TcpBufs N} `{!TcpLink N} `{!MultiNet N}.
  Implicit Type m : multi N.

(** C10: (round trip) a write that returns [ERR_OK] has put segments behind the queue, and when a peer that waits for the position of the writer
    receives them in this order, it passes on exactly the bytes that were written. *)
Theorem netml_round_trip b w lu fuel ms ms' mr nxt ack : writable b w ms -> accepts (Z.of_nat (length (s_dat b))) lu ms -> (length (s_dat b) < fuel)%nat ->
  cold_write b -> waits_at nxt mr -> nxt (s_local b) = s_tunl b -> tcp_write_netml fuel (s_dat b) (s_id b) (s_hot b) ms = Ret (Some ERR_OK, ms') ->
  exists l gs out mr' nxt', unsent_head ms' = head (lu ++ l) /\ nexts (segs ms') (lu ++ l) /\ Forall2 (fun a g => segs ms' !! a = Some g) l gs /\
    netml_run (pkt_of ack <$> gs) mr = Ret (out, mr') /\ concat (filter (fun x => x.1 = s_local b) out).*2 = s_dat b /\
    waits_at nxt' mr' /\ nxt' (s_local b) = s_tunl b + Z.of_nat (length (s_dat b)).
Proof.
  intros Hw Ha Hf Hc Hr Hn Hrun. destruct (write_netml_ok b w lu fuel ms Hw Ha Hf) as (r & m1 & E & Hres). rewrite E in Hrun. injection Hrun as -> ->.
  destruct Hres as [[_ (l & D)]|[? _]]; [|done]. destruct D as [D1 _ [D2 D3] _ _ _ _].
  destruct (pieces_series ack b (segs ms') l _ nxt D1 Hc Hn) as (gs & nxt' & P1 & P2 & P3 & P4).
  destruct (netml_streams_ok (written b) nxt (pkt_of ack <$> gs) nxt' mr P2 P3 Hr) as (out & mr' & R1 & R2 & R3).
  exists l, gs, out, mr', nxt'. split_and!; try done. destruct (R3 (s_local b)) as [_ ->]. rewrite P4, Hn.
  replace (s_tunl b + Z.of_nat (length (s_dat b)) - s_tunl b) with (Z.of_nat (length (s_dat b))) by lia.
  replace (s_tunl b) with (s_tunl b + 0) by lia. rewrite <- written_part by lia. unfold part. rewrite drop_0. apply take_ge. lia.
Qed.
End round_trip.
