(* ===== verification/TcpNetmlAck.v ===== *)
(** * Acknowledgements of a multi-node connection

    An acknowledgement names the end of one segment, which is taken from the queue; the segments before it count as lost. *)

From stdpp Require Import gmap.
From S2P Require Import Prelude Chain Def Tcp TcpRecv TcpStream TcpProcess TcpOut TcpNetml TcpNetmlProps TcpNetmlSend.

(** ** Taking a segment from a queue *)

(** The address before the segment behind [l]. *)
Definition before (prev : option Z) (l : list Z) : option Z := match last l with Some b => Some b | None => prev end.
Lemma before_cons prev x l : before prev (x :: l) = before (Some x) l.
Proof. unfold before. rewrite last_cons. by destruct (last l). Qed.

(** The neighbours [b] and [c] are linked to each other. *)
Definition join (b c : option Z) (sg : gmap Z nseg) : gmap Z nseg :=
  let sg := match b with Some b => alter (set_n_next c) b sg | None => sg end in
  match c with Some c => alter (set_n_prev b) c sg | None => sg end.

Lemma linked_at sg l1 a l2 : forall prev, linked sg prev (l1 ++ a :: l2) ->
  exists g, sg !! a = Some g /\ n_prev g = before prev l1 /\ n_next g = head l2.
Proof.
  induction l1 as [|x l1 IH]; intros prev; [intros (g & ? & ? & ? & ?); by exists g|]. intros (g & _ & _ & _ & H).
  destruct (IH _ H) as (g' & ? & ? & ?). exists g'. by rewrite before_cons.
Qed.
Lemma join_other b c sg x : b <> Some x -> c <> Some x -> join b c sg !! x = sg !! x.
Proof. intros Hb Hc. unfold join. destruct b, c; rewrite ?lookup_alter_ne by congruence; done. Qed.
Lemma join_unlinked b c sg x : fmap unlinked (join b c sg !! x) = fmap unlinked (sg !! x).
Proof.
  assert (forall f y (s : gmap Z nseg), (forall g, unlinked (f g) = unlinked g) -> fmap unlinked (alter f y s !! x) = fmap unlinked (s !! x)) as H.
  { intros f y s Hf. destruct (decide (x = y)) as [->|]; [|by rewrite lookup_alter_ne]. rewrite lookup_alter_eq. destruct (s !! y); simpl; [by rewrite Hf|done]. }
  unfold join. destruct b, c; by rewrite ?H.
Qed.
Lemma before_elem prev l x : before prev l = Some x -> x ∈ l \/ (l = [] /\ prev = Some x).
Proof. unfold before. destruct (last l) eqn:E; [intros [= <-]; left; by apply last_Some_elem_of|]. apply last_None in E. by right. Qed.
Lemma head_elem {A} (l : list A) x : head l = Some x -> x ∈ l.
Proof. destruct l; [done|]. intros [= ->]. left. Qed.

Lemma linked_join sg l1 a l2 : forall prev, linked sg prev (l1 ++ a :: l2) -> NoDup (l1 ++ a :: l2) -> (forall p, prev = Some p -> p ∉ l1 ++ a :: l2) ->
  linked (join (before prev l1) (head l2) sg) prev (l1 ++ l2).
Proof.
  induction l1 as [|x l1 IH]; intros prev Hl Hn Hp.
  - destruct Hl as (g & _ & _ & _ & Hl). simpl. change (before prev []) with prev. apply NoDup_cons in Hn as [Ha Hn]. destruct l2 as [|c l2]; [done|].
    destruct Hl as (gc & Hc & H1 & H2 & H3). apply NoDup_cons in Hn as [Hc2 Hn].
    assert (forall y, y ∈ c :: l2 -> prev <> Some y) as Hpy by (intros y Hy E; apply (Hp y E); by right).
    exists (set_n_prev prev gc). assert ((match prev with Some b => alter (set_n_next (Some c)) b sg | None => sg end) !! c = Some gc) as Hcc.
    { pose proof (Hpy c ltac:(left)). destruct prev; [|done]. by rewrite lookup_alter_ne by congruence. }
    simpl. unfold join. rewrite lookup_alter_eq, Hcc. split_and!; try done. apply (linked_mono sg); [done|]. intros y Hy.
    change (alter (set_n_prev prev) c _) with (join prev (Some c) sg). apply join_other; [apply Hpy; by right|]. intros [= ->]. done.
  - destruct Hl as (g & Hx & H1 & H2 & H3). rewrite before_cons. simpl. apply NoDup_cons in Hn as [Hxn Hn].
    assert (head l2 <> Some x) as Hhd by (intros E%head_elem; apply Hxn, elem_of_app; right; by right).
    assert (linked (join (before (Some x) l1) (head l2) sg) (Some x) (l1 ++ l2)) as Hrec by (apply IH; try done; by intros p [= <-]).
    destruct l1 as [|y l1].
    + simpl in *. change (before (Some x) []) with (Some x) in *. exists (set_n_next (head l2) g). split_and!; try done. unfold join.
      destruct (head l2); rewrite ?lookup_alter_ne by congruence; by rewrite lookup_alter_eq, Hx.
    + exists g. split_and!; try done. rewrite join_other; [done| |done]. intros E. rewrite before_cons in E.
      apply before_elem in E as [E|[-> [= ->]]]; apply Hxn; [simpl; right; apply elem_of_app; by left|left].
Qed.

(** The pbufs of the segments [l]. *)
Definition clen_at (sg : gmap Z nseg) (a : Z) : Z := match sg !! a with Some g => chain_clen (n_p g) | None => 0 end.
Definition qclens (sg : gmap Z nseg) (l : list Z) : Z := foldr (fun a n => clen_at sg a + n) 0 l.

Section queues.
  Context {N : Type} `{!TcpNet N} `{!TcpBufs N} `{!TcpLink N} `{!MultiNet N}.
  Implicit Type m : multi N.

(** The two queues of a connection. *)
Record queues_ok (lu lk : list Z) m : Prop := {
  qo_unsent : unsent_head m = head lu /\ nexts (segs m) lu;
  qo_unacked : unacked_head m = head lk /\ linked (segs m) None lk;
  qo_nodup : NoDup (lu ++ lk);
  qo_len : snd_queuelen (snd (mpcb m)) = qclens (segs m) (lu ++ lk) /\ qclens (segs m) (lu ++ lk) < 2 ^ 16 }.

(** What stays of a segment when it is taken from a queue. *)
Definition same_segs (sg sg' : gmap Z nseg) : Prop := forall x, fmap unlinked (sg' !! x) = fmap unlinked (sg !! x).
Lemma same_seg sg sg' x g : same_segs sg sg' -> sg !! x = Some g -> exists g', sg' !! x = Some g' /\ unlinked g' = unlinked g.
Proof. intros H Hx. specialize (H x). rewrite Hx in H. destruct (sg' !! x) as [g'|]; [|done]. exists g'. split; [done|]. change (Some (unlinked g') = Some (unlinked g)) in H. congruence. Qed.
Lemma same_clens sg sg' l : same_segs sg sg' -> qclens sg' l = qclens sg l.
Proof.
  intros H. unfold qclens. induction l as [|a l IH]; [done|]. simpl. rewrite IH. f_equal. unfold clen_at. specialize (H a).
  destruct (sg !! a) as [g|], (sg' !! a) as [g'|]; try done. change (Some (unlinked g') = Some (unlinked g)) in H. assert (unlinked g' = unlinked g) as E by congruence. change (n_p g') with (n_p (unlinked g')). by rewrite E.
Qed.

Lemma upd_seg_alter f a m g : segs m !! a = Some g -> upd_seg f a m = Ret (set_segs (alter f a (segs m)) m).
Proof. intros H. unfold upd_seg. rewrite H. cbn [deref mbind outcome_bind]. do 2 f_equal. apply map_eq. intros x. destruct (decide (x = a)) as [->|]; [by rewrite lookup_insert_eq, lookup_alter_eq, H|]. by rewrite lookup_insert_ne, lookup_alter_ne. Qed.

Lemma remove_from_unack_ok l1 a l2 m : unacked_head m = head (l1 ++ a :: l2) -> linked (segs m) None (l1 ++ a :: l2) -> NoDup (l1 ++ a :: l2) ->
  remove_from_unack a m = Ret (set_unacked_head (head (l1 ++ l2)) (set_segs (join (last l1) (head l2) (segs m)) m)).
Proof.
  intros Hh Hl Hn. unfold remove_from_unack. destruct (linked_at _ _ _ _ _ Hl) as (g & Ha & Hp & Hx). rewrite Ha. cbn [deref mbind outcome_bind].
  change (before None l1) with (match last l1 with Some b => Some b | None => None end) in Hp. assert (n_prev g = last l1) as -> by (by destruct (last l1)). rewrite Hx.
  assert (forall b, last l1 = Some b -> is_Some (segs m !! b) /\ head l2 <> Some b) as Hb.
  { intros b E%last_Some_elem_of. split; [eapply linked_elem; [done|]; apply elem_of_app; by left|]. intros E2%head_elem.
    apply NoDup_app in Hn as (_ & Hd & _). apply (Hd b E). by right. }
  assert (forall c, head l2 = Some c -> is_Some (segs m !! c)) as Hc.
  { intros c E%head_elem. eapply linked_elem; [done|]. apply elem_of_app. right. by right. }
  assert (forall v, l1 <> [] -> set_unacked_head (head (l1 ++ l2)) (set_segs v m) = set_segs v m) as Hhd.
  { intros v H1. destruct l1 as [|x l1]; [done|]. simpl in *. rewrite <- Hh. by destruct m. }
  destruct (last l1) as [b|] eqn:Eb.
  - assert (l1 <> []) as Hne by (by intros ->). destruct (Hb b eq_refl) as [[gb Egb] Hbc]. unfold join. destruct (head l2) as [c|] eqn:Ec.
    + rewrite (upd_seg_alter _ _ _ _ Egb). cbn [mbind outcome_bind]. destruct (Hc c eq_refl) as [gc Egc].
      rewrite (upd_seg_alter _ _ _ gc) by (simpl; rewrite lookup_alter_ne by congruence; done). simpl. by rewrite Hhd.
    + rewrite (upd_seg_alter _ _ _ _ Egb). by rewrite Hhd.
  - apply last_None in Eb as ->. simpl in *. destruct l2 as [|c l2]; simpl in *; [by destruct m|]. destruct (Hc c eq_refl) as [gc Egc].
    rewrite (upd_seg_alter _ _ _ gc) by done. done.
Qed.

(** The search for the segment that ends at [ack]. *)
Definition ends (ack : Z) (sg : gmap Z nseg) (a : Z) : Prop := exists g, sg !! a = Some g /\ u32 (n_seqno g + n_tcplen g) = ack.
Lemma find_acked_none ack l m : forall fuel, nexts (segs m) l -> (length l < fuel)%nat -> Forall (fun a => ~ ends ack (segs m) a) l ->
  find_acked fuel ack (head l) m = Ret None.
Proof.
  induction l as [|a l IH]; intros [|fuel] Hl Hf Hno; simpl in Hf; try lia; [done|]. destruct Hl as (g & Ha & H1 & H2). apply Forall_cons in Hno as [Hna Hno].
  cbn [head find_acked]. rewrite Ha. cbn [deref mbind outcome_bind]. rewrite (proj2 (Z.eqb_neq _ _)) by (intros E; apply Hna; by exists g). rewrite H1. apply IH; try done. lia.
Qed.
Lemma find_acked_some ack l1 a l2 m : forall fuel, nexts (segs m) (l1 ++ a :: l2) -> (length l1 < fuel)%nat -> Forall (fun a => ~ ends ack (segs m) a) l1 ->
  ends ack (segs m) a -> find_acked fuel ack (head (l1 ++ a :: l2)) m = Ret (Some a).
Proof.
  induction l1 as [|b l1 IH]; intros [|fuel] Hl Hf Hno (ga & Hga & He); simpl in Hf; try lia.
  - cbn [app head find_acked]. rewrite Hga. cbn [deref mbind outcome_bind]. by rewrite He, Z.eqb_refl.
  - destruct Hl as (g & Ha & H1 & H2). apply Forall_cons in Hno as [Hna Hno]. cbn [app head find_acked]. rewrite Ha. cbn [deref mbind outcome_bind].
    rewrite (proj2 (Z.eqb_neq _ _)) by (intros E; apply Hna; by exists g). rewrite H1. apply IH; try done; [lia|by exists ga].
Qed.
(** ** One acknowledged segment *)

Lemma qclens_app sg l1 l2 : qclens sg (l1 ++ l2) = qclens sg l1 + qclens sg l2.
Proof. unfold qclens. induction l1 as [|a l1 IH]; simpl; [lia|]. rewrite IH. lia. Qed.
Lemma qclens_one sg a g : sg !! a = Some g -> qclens sg [a] = chain_clen (n_p g).
Proof. intros H. unfold qclens, clen_at. simpl. rewrite H. lia. Qed.
Lemma qclens_mono sg sg' l : (forall x, x ∈ l -> sg' !! x = sg !! x) -> qclens sg' l = qclens sg l.
Proof.
  intros H. unfold qclens. induction l as [|a l IH]; [done|]. simpl. rewrite IH by (intros; apply H; by right). unfold clen_at. by rewrite H by left.
Qed.
Lemma qclens_nonneg sg l : 0 <= qclens sg l.
Proof.
  induction l as [|a l IH]; unfold qclens in *; simpl; [done|]. assert (0 <= clen_at sg a) by (unfold clen_at, chain_clen; destruct (sg !! a); lia). lia.
Qed.

(** What the steps below leave alone. *)
Definition kept m := (snd_buf (snd (mpcb m)), internal_conn m, local_id m, recv_acked (core m), ackno (core m), state (mpcb m)).

Lemma queues_updp lu lk f m : (forall p, snd_queuelen (snd (f p)) = snd_queuelen (snd p)) -> queues_ok lu lk m -> queues_ok lu lk (updp f m).
Proof. intros Hf [Q1 Q2 Q3 Q4]. split; try done. unfold mpcb, updp, upd. simpl. by rewrite Hf. Qed.

(** The segments of [lu] and [lk] after [a] was taken from [unacked]. *)
Lemma taken_from_unack lu l1 a l2 m : queues_ok lu (l1 ++ a :: l2) m ->
  exists m2, remove_from_unack a m = Ret m2 /\ segs m2 !! a = segs m !! a /\ same_segs (segs m) (segs m2) /\
    unacked_head m2 = head (l1 ++ l2) /\ linked (segs m2) None (l1 ++ l2) /\ nexts (segs m2) lu /\
    (core m2, local_id m2, internal_conn m2, unsent_head m2, seg_pool m2) = (core m, local_id m, internal_conn m, unsent_head m, seg_pool m).
Proof.
  intros [[U1 U2] [K1 K2] Hn [L1 L2]]. apply NoDup_app in Hn as (Hnu & Hd & Hnk). rewrite (remove_from_unack_ok l1 a l2) by done.
  eexists. split; [reflexivity|]. simpl. assert (last l1 = before None l1) as El by (unfold before; by destruct (last l1)).
  assert (forall x, last l1 = Some x \/ head l2 = Some x -> x ∈ l1 ++ a :: l2 /\ x <> a) as Hin.
  { intros x [E%last_Some_elem_of|E%head_elem]; (split; [apply elem_of_app|intros ->]); [by left| |by right; right|].
    - apply NoDup_app in Hnk as (_ & H & _). apply (H a E). left.
    - apply NoDup_app in Hnk as (_ & _ & H). by apply NoDup_cons in H as [? _]. }
  split_and!; try done.
  - apply join_other; intros E; by destruct (Hin a) as [_ ?]; auto.
  - intros x. apply join_unlinked.
  - rewrite El. by apply (linked_join _ l1 a l2).
  - apply (nexts_mono (segs m)); [done|]. intros x Hx. apply join_other; intros E; apply (Hd x Hx), Hin; auto.
Qed.

Lemma acked_segment lu l1 a l2 m g : queues_ok lu (l1 ++ a :: l2) m -> segs m !! a = Some g ->
  exists m2 m3, remove_from_unack a m = Ret m2 /\ segs m2 !! a = Some g /\ n_prev g = last l1 /\ account_acked a m2 = Ret m3 /\
    queues_ok lu (l1 ++ l2) m3 /\ segs m3 !! a = None /\ seg_pool m3 = a :: seg_pool m /\
    (forall x, x <> a -> fmap unlinked (segs m3 !! x) = fmap unlinked (segs m !! x)) /\
    kept m3 = (snd_buf (snd (mpcb m)), internal_conn m, local_id m, u16 (recv_acked (core m) + n_len g), ackno (core m), state (mpcb m)).
Proof.
  intros Hq Hg. destruct (taken_from_unack _ _ _ _ _ Hq) as (m2 & -> & E1 & E2 & E3 & E4 & E5 & E6). injection E6 as F1 F2 F3 F4 F5.
  pose proof Hq as [[U1 U2] [K1 K2] Hn [L1 L2]]. assert (n_prev g = last l1) as Hprev.
  { destruct (linked_at _ _ _ _ _ K2) as (g' & Hg' & Hp & _). simplify_eq. rewrite Hp. unfold before. by destruct (last l1). }
  exists m2. unfold account_acked. rewrite E1, Hg. cbn [deref mbind outcome_bind]. unfold free_seg. simpl segs. rewrite E1, Hg. cbn [deref mbind outcome_bind].
  set (m3 := set_core _ (set_seg_pool _ _)). assert (qclens (segs m) (lu ++ l1 ++ a :: l2) = chain_clen (n_p g) + qclens (segs m) (lu ++ l1 ++ l2)) as Hlen.
  { rewrite !qclens_app. change (a :: l2) with ([a] ++ l2). rewrite qclens_app, (qclens_one _ _ _ Hg). lia. }
  assert (a ∉ lu ++ l1 ++ l2 /\ NoDup (lu ++ l1 ++ l2)) as [Hna Hnd].
  { rewrite app_assoc in Hn |- *. rewrite <- Permutation_middle in Hn. by apply NoDup_cons in Hn. }
  assert (forall x, x ∈ lu ++ l1 ++ l2 -> segs m3 !! x = segs m2 !! x) as Hx.
  { intros x Hx. subst m3. simpl. rewrite lookup_delete_ne; [done|]. by intros ->. }
  assert (qclens (segs m3) (lu ++ l1 ++ l2) = qclens (segs m) (lu ++ l1 ++ l2)) as Hc by (rewrite (qclens_mono (segs m2)) by done; by apply same_clens).
  assert (snd_queuelen (snd (mpcb m3)) = qclens (segs m3) (lu ++ l1 ++ l2)) as Hql.
  { subst m3. simpl in *. unfold mpcb in L1. rewrite F1, L1, Hlen, Hc. rewrite u16_small; [lia|]. pose proof (qclens_nonneg (segs m) (lu ++ l1 ++ l2)). unfold chain_clen in *. lia. }
  assert (queues_ok lu (l1 ++ l2) m3) as Hok.
  { split; [split; [by subst m3; simpl; rewrite F4|]|split; [done|]|done|].
    - apply (nexts_mono (segs m2)); [done|]. intros x Hxx. apply Hx. apply elem_of_app. by left.
    - apply (linked_mono (segs m2)); [done|]. intros x Hxx. apply Hx. apply elem_of_app. by right.
    - split; [done|]. rewrite Hc. unfold chain_clen in *. lia. }
  exists m3. split_and!; try done.
  - destruct Hok as [[V1 _] [V2 _] _ _]. destruct (Z.eqb_spec (snd_queuelen (snd (mpcb m3))) 0) as [|Hnz]; [done|]. cbn [orb].
    rewrite bool_decide_false; [done|]. rewrite V1, V2. intros [X1 X2]. apply Hnz. rewrite Hql. destruct lu; [|done]. by destruct (l1 ++ l2).
  - subst m3. simpl. by rewrite lookup_delete_eq.
  - subst m3. simpl. by rewrite F5.
  - intros x Hne. subst m3. simpl. rewrite lookup_delete_ne by done. apply E2.
  - subst m3. unfold kept, mpcb. simpl. by rewrite F1, F2, F3.
Qed.
(** ** The segments before it *)

Definition at_seg (P : nseg -> Prop) (sg : gmap Z nseg) (a : Z) : Prop := exists g, sg !! a = Some g /\ P g.
(** It does not speak of links. *)
Definition links_free (P : nseg -> Prop) : Prop := forall g g', unlinked g = unlinked g' -> P g -> P g'.
Lemma at_seg_same P sg sg' a : links_free P -> fmap unlinked (sg' !! a) = fmap unlinked (sg !! a) ->
  at_seg P sg a -> at_seg P sg' a.
Proof.
  intros HP H (g & Hg & Hp). rewrite Hg in H. destruct (sg' !! a) as [g'|] eqn:E; [|done]. change (Some (unlinked g') = Some (unlinked g)) in H.
  exists g'. split; [done|]. apply (HP g); [congruence|done].
Qed.
Definition is_resent (g : nseg) : Prop := n_resent g = true.
Definition idle (g : nseg) : Prop := n_busy g = false.
Lemma resent_links : links_free is_resent.
Proof. intros x y E. unfold is_resent. change (n_resent x) with (n_resent (unlinked x)). by rewrite E. Qed.
Lemma idle_links : links_free idle.
Proof. intros x y E. unfold idle. change (n_busy x) with (n_busy (unlinked x)). by rewrite E. Qed.
Lemma at_segs_same P sg sg' l : links_free P -> (forall x, x ∈ l -> fmap unlinked (sg' !! x) = fmap unlinked (sg !! x)) ->
  Forall (at_seg P sg) l -> Forall (at_seg P sg') l.
Proof. intros HP H. rewrite !Forall_forall. intros Hl x Hx. by apply (at_seg_same P sg); [|apply H|apply Hl]. Qed.

(** A segment that was not sent twice yet goes to the empty queue [unsent]. *)
Lemma resent_segment l1 a l2 m g : queues_ok [] (l1 ++ a :: l2) m -> segs m !! a = Some g -> idle g ->
  exists m', (m ← remove_from_unack a m; tcp_rexmit_data a m) = Ret m' /\ queues_ok [a] (l1 ++ l2) m' /\
    (exists g', segs m' !! a = Some g' /\ n_prev g' = None /\ is_resent g') /\ seg_pool m' = seg_pool m /\ kept m' = kept m /\
    rtime (tim (mpcb m')) = rtime (tim (mpcb m)).
Proof.
  intros Hq Hg Hb. destruct (taken_from_unack _ _ _ _ _ Hq) as (m2 & -> & E1 & E2 & E3 & E4 & E5 & E6). injection E6 as F1 F2 F3 F4 F5.
  pose proof Hq as [[U1 U2] [K1 K2] Hn [L1 L2]]. cbn [mbind outcome_bind]. unfold tcp_rexmit_data. rewrite E1, Hg. cbn [deref mbind outcome_bind].
  rewrite Hb, (upd_seg_alter _ _ _ g) by (by rewrite E1). cbn [mbind outcome_bind]. simpl unsent_head. rewrite F4, U1. change (head []) with (@None Z). cbv iota.
  rewrite (upd_seg_alter _ _ _ (set_n_resent true g)) by (simpl; by rewrite lookup_alter_eq, E1, Hg). cbn [mbind outcome_bind].
  set (m3 := updp (N := N) _ _). exists m3. assert (a ∉ l1 ++ l2) as Hna.
  { simpl in Hn. rewrite <- Permutation_middle in Hn. by apply NoDup_cons in Hn as [? _]. }
  assert (segs m3 !! a = Some (set_n_prev None (set_n_next None (set_n_resent true g)))) as Ha by (subst m3; simpl; by rewrite !lookup_alter_eq, E1, Hg).
  assert (forall x, x <> a -> segs m3 !! x = segs m2 !! x) as Hx by (intros x Hx; subst m3; simpl; by rewrite !lookup_alter_ne).
  assert (qclens (segs m3) (l1 ++ l2) = qclens (segs m) (l1 ++ l2)) as Hc.
  { rewrite (qclens_mono (segs m2)) by (intros x Hxx; apply Hx; by intros ->). by apply same_clens. }
  assert (qclens (segs m3) ([a] ++ l1 ++ l2) = qclens (segs m) (l1 ++ a :: l2)) as Hl.
  { change (a :: l2) with ([a] ++ l2). rewrite !qclens_app in *. rewrite (qclens_one _ _ _ Ha), (qclens_one _ _ _ Hg). simpl n_p. lia. }
  split_and!; try done.
  - split; [split; [done|]|split|..].
    + eexists. rewrite Ha. done.
    + exact E3.
    + apply (linked_mono (segs m2)); [done|]. intros x Hxx. apply Hx. by intros ->.
    + simpl in *. rewrite <- Permutation_middle in Hn. done.
    + rewrite Hl. subst m3. simpl in *. unfold mpcb in *. simpl. rewrite F1. done.
  - eexists. by split_and!.
  - subst m3. unfold kept, mpcb. simpl. by rewrite F1, F2, F3.
  - subst m3. unfold mpcb. simpl. by rewrite F1.
Qed.

Definition moved (l1 l2 lu : list Z) m m' : Prop :=
  (Forall (at_seg is_resent (segs m)) l1 /\ m' = m) \/
  (lu = [] /\ exists l0 b l3, l1 = l0 ++ b :: l3 /\ ~ at_seg is_resent (segs m) b /\ Forall (at_seg is_resent (segs m)) l3 /\
     queues_ok [b] (l0 ++ l3 ++ l2) m' /\ at_seg is_resent (segs m') b /\ seg_pool m' = seg_pool m /\ kept m' = kept m).

Lemma resend_before_ok lu l1 : forall l2 fuel m, queues_ok lu (l1 ++ l2) m -> (length l1 < fuel)%nat -> Forall (at_seg idle (segs m)) l1 ->
  lu = [] \/ Forall (at_seg is_resent (segs m)) l1 -> exists m', resend_before fuel (last l1) m = Ret m' /\ moved l1 l2 lu m m'.
Proof.
  induction l1 as [|b l1 IH] using rev_ind; intros l2 fuel m Hq Hf Hi Hr.
  { destruct fuel as [|fuel]; [simpl in Hf; lia|]. exists m. split; [done|]. left. by split; [constructor|]. }
  rewrite last_snoc. rewrite length_app in Hf. simpl in Hf. destruct fuel as [|fuel]; [lia|]. cbn [resend_before]. rewrite <- app_assoc in Hq. simpl in Hq.
  apply Forall_app in Hi as [Hi1 Hi2]. apply Forall_singleton in Hi2 as (g & Hg & Hb).
  destruct (linked_at _ _ _ _ _ (proj2 (qo_unacked _ _ _ Hq))) as (g' & Hg' & Hp & _). rewrite Hg in Hg'. injection Hg' as <-.
  change (before None l1) with (match last l1 with Some b => Some b | None => None end) in Hp. assert (n_prev g = last l1) as Ep by (by destruct (last l1)).
  rewrite Hg. cbn [deref mbind outcome_bind]. destruct (n_resent g) eqn:Hre.
  - cbn [mbind outcome_bind]. rewrite Hg. cbn [deref mbind outcome_bind]. rewrite Ep. destruct (IH (b :: l2) fuel m) as (m' & -> & Hm); try done; [lia| |].
    { destruct Hr as [|Hr]; [by left|]. right. by apply Forall_app in Hr as [? _]. }
    exists m'. split; [done|]. destruct Hm as [[M1 ->]|(-> & l0 & c & l3 & -> & M1 & M2 & M3 & M4 & M5 & M6)].
    + left. split; [|done]. apply Forall_app. split; [done|]. apply Forall_singleton. by exists g.
    + right. split; [done|]. exists l0, c, (l3 ++ [b]). split_and!; try done; [by rewrite <- app_assoc|apply Forall_app; split; [done|apply Forall_singleton; by exists g]|by rewrite <- app_assoc].
  - assert (~ at_seg is_resent (segs m) b) as Hnr by (intros (g' & E & E'); unfold is_resent in E'; congruence).
    assert (lu = []) as ->. { destruct Hr as [|Hr]; [done|]. apply Forall_app in Hr as [_ Hr]. inversion Hr; subst. by destruct Hnr. }
    destruct (resent_segment l1 b l2 m g Hq Hg Hb) as (m' & -> & R1 & (g' & R2 & R3 & R4) & R5 & R6 & _). cbn [mbind outcome_bind]. rewrite R2. cbn [deref mbind outcome_bind].
    rewrite R3. destruct fuel as [|fuel]; [lia|]. exists m'. split; [done|]. right. split; [done|]. exists l1, b, []. split_and!; try done. by exists g'.
Qed.
(** ** An acknowledgement *)

Lemma netml_rtt_keeps ticks ack p : snd (netml_rtt ticks ack p) = snd p.
Proof. unfold netml_rtt. by destruct (_ && _). Qed.

(** The segment [a] of [unacked] is the first one that ends at the number of the acknowledgement. *)
Record acks (lu l1 : list Z) (a : Z) m : Prop := {
  ak_seg : ends (ackno (core m)) (segs m) a;
  ak_unsent : Forall (fun x => ~ ends (ackno (core m)) (segs m) x) lu;
  ak_before : Forall (fun x => ~ ends (ackno (core m)) (segs m) x) l1 }.

(** C13: (acknowledgements) an acknowledgement that names a segment of [unacked] and none of [unsent], when none of the earlier segments is held by the driver, and
    [unsent] is empty or all the earlier ones were sent twice: the segment that it names is taken from the queue and freed, and its bytes are free in the send
    buffer. Of the segments before it, which were sent earlier and are not acknowledged, one goes back to the queue of unsent segments
    when this is empty: the last one that was not sent twice. *)
Theorem netml_ack_frees lu l1 a l2 m g : queues_ok lu (l1 ++ a :: l2) m -> acks lu l1 a m -> segs m !! a = Some g ->
  Forall (at_seg idle (segs m)) l1 -> lu = [] \/ Forall (at_seg is_resent (segs m)) l1 ->
  exists m', netml_receive_ack m = Ret m' /\ seg_pool m' = a :: seg_pool m /\ internal_conn m' = internal_conn m /\
    snd_buf (snd (mpcb m')) = u16 (snd_buf (snd (mpcb m)) + u16 (recv_acked (core m) + n_len g)) /\ lastack (snd (mpcb m')) = ackno (core m) /\
    ((Forall (at_seg is_resent (segs m)) l1 /\ queues_ok lu (l1 ++ l2) m') \/
     (exists l0 b l3, l1 = l0 ++ b :: l3 /\ ~ at_seg is_resent (segs m) b /\ Forall (at_seg is_resent (segs m)) l3 /\
        queues_ok [b] (l0 ++ l3 ++ l2) m' /\ at_seg is_resent (segs m') b)).
Proof.
  intros Hq [A1 A2 A3] Hg Hi Hr. pose proof Hq as [[U1 U2] [K1 K2] Hn _]. pose proof (linked_nexts _ _ _ K2) as K3. apply NoDup_app in Hn as (Hnu & _ & Hnk).
  pose proof (nexts_size _ _ U2 Hnu) as Hs1. pose proof (nexts_size _ _ K3 Hnk) as Hs2. rewrite length_app in Hs2.
  unfold netml_receive_ack, ack_unsent. rewrite U1, find_acked_none by (done || unfold walk_fuel; lia). cbn [mbind outcome_bind].
  unfold ack_unacked. rewrite K1, (find_acked_some _ l1 a l2) by (done || unfold walk_fuel; lia). cbn [mbind outcome_bind].
  set (m1 := updp _ m). assert (queues_ok lu (l1 ++ a :: l2) m1) as Hq1 by (by apply queues_updp).
  destruct (acked_segment lu l1 a l2 m1 g Hq1 Hg) as (m2 & m3 & -> & E1 & E2 & E3 & Hq3 & E4 & E5 & E6 & E7). cbn [mbind outcome_bind].
  rewrite E1. cbn [deref mbind outcome_bind]. rewrite E3, E2. cbn [mbind outcome_bind].
  assert (forall x, x ∈ l1 -> x <> a) as Hne by (intros x Hx ->; apply NoDup_app in Hnk as (_ & H & _); apply (H a Hx); left).
  assert (forall P, links_free P -> forall l, (forall x, x ∈ l -> x <> a) -> Forall (at_seg P (segs m)) l <-> Forall (at_seg P (segs m3)) l) as Hiff.
  { intros P HP l Hl. split; apply at_segs_same; try done; intros x Hx; [|symmetry]; apply E6; by apply Hl. }
  pose proof (nexts_size _ _ (linked_nexts _ _ _ (proj2 (qo_unacked _ _ _ Hq3)))) as Hs3. rewrite length_app in Hs3.
  destruct (resend_before_ok lu l1 l2 (walk_fuel m3) m3 Hq3) as (m4 & -> & Hm).
  { unfold walk_fuel. destruct Hq3 as [_ _ Hn3 _]. apply NoDup_app in Hn3 as (_ & _ & Hn3). specialize (Hs3 Hn3). lia. }
  { by apply (Hiff idle idle_links). } { destruct Hr as [|Hr]; [by left|right; by apply (Hiff is_resent resent_links)]. }
  cbn [mbind outcome_bind]. set (m5 := if bool_decide (unacked_head m4 = None) then _ else _).
  assert (kept m4 = kept m3 /\ seg_pool m4 = seg_pool m3) as [Hk Hsp].
  { destruct Hm as [[_ ->]|(_ & l0 & b & l3 & _ & _ & _ & _ & _ & ? & ?)]; done. }
  assert (exists f, m5 = updp f m4 /\ forall p, snd (f p) = snd p) as (f & Ef & Hf).
  { subst m5. destruct (bool_decide _); [by exists (set_rtime (-1))|]. destruct (_ <? 0); [by exists (set_rtime 0)|]. exists id. split; [|done]. by destruct m4 as [[] ?]. }
  eexists. split; [reflexivity|]. rewrite Ef. unfold kept in Hk, E7. rewrite E7 in Hk. injection Hk as G1 G2 G3 G4 G5 _.
  split_and!.
  - simpl. by rewrite Hsp.
  - simpl. by rewrite G2.
  - unfold mpcb in *. simpl. rewrite netml_rtt_keeps. simpl. rewrite Hf. simpl. by rewrite G1, G4.
  - unfold mpcb in *. simpl. rewrite netml_rtt_keeps. simpl. by rewrite G5.
  - assert (forall q k, queues_ok q k m4 -> queues_ok q k (updp (netml_rtt (tcp_ticks (core m4)) (ackno (core m4)))
      (updp (fun p => set_lastack (ackno (core m4)) (set_snd_buf (u16 (snd_buf (snd p) + recv_acked (core m4))) p)) (updp (set_polltmr 0) (updp f m4))))) as Hqk.
    { intros q k H. apply queues_updp; [intros; by rewrite netml_rtt_keeps|]. apply queues_updp; [done|]. apply queues_updp; [done|]. apply queues_updp; [intros; by rewrite Hf|done]. }
    destruct Hm as [[M1 ->]|(_ & l0 & b & l3 & -> & M1 & M2 & M3 & M4 & _)].
    + left. split; [by apply (Hiff is_resent resent_links)|]. by apply Hqk.
    + right. exists l0, b, l3. assert (b <> a /\ forall x, x ∈ l3 -> x <> a) as [Hba Hl3] by (split; [apply Hne; set_solver|intros; apply Hne; set_solver]).
      split_and!; try done; [|by apply (Hiff is_resent resent_links)|by apply Hqk]. intros H. apply M1.
      apply (at_seg_same _ (segs m)); [exact resent_links| |done]. by apply E6.
Qed.
Lemma busy_segment_gone b a m gb g : queues_ok [] [b; a] m -> acks [] [b] a m -> segs m !! a = Some g -> segs m !! b = Some gb ->
  n_busy gb = true -> n_resent gb = false -> n_p gb <> [] ->
  exists m', netml_receive_ack m = Ret m' /\ unsent_head m' = None /\ unacked_head m' = None /\ is_Some (segs m' !! b) /\
    local_id m' = local_id m /\ state (mpcb m') = state (mpcb m) /\ 0 < snd_queuelen (snd (mpcb m')).
Proof.
  intros Hq [A1 A2 A3] Hg Hgb Hb Hnr Hne. pose proof Hq as [[U1 U2] [K1 K2] Hn _]. pose proof (linked_nexts _ _ _ K2) as K3.
  pose proof (nexts_size _ _ K3 Hn) as Hs. simpl in Hs.
  unfold netml_receive_ack, ack_unsent. rewrite U1, find_acked_none by (done || unfold walk_fuel; simpl; lia). cbn [mbind outcome_bind].
  unfold ack_unacked. rewrite K1, (find_acked_some _ [b] a []) by (done || unfold walk_fuel; simpl; lia). cbn [mbind outcome_bind].
  set (m1 := updp _ m). assert (queues_ok [] ([b] ++ [a]) m1) as Hq1 by (by apply queues_updp).
  destruct (acked_segment [] [b] a [] m1 g Hq1 Hg) as (m2 & m3 & E0 & E1 & E2 & E3 & Hq3 & E4 & E5 & E6 & E7). rewrite E0. cbn [mbind outcome_bind].
  rewrite E1. cbn [deref mbind outcome_bind]. rewrite E3, E2. cbn [mbind outcome_bind last].
  assert (b <> a) as Hba by (apply NoDup_cons in Hn as [Hn _]; rewrite list_elem_of_singleton in Hn; done).
  destruct (linked_at _ [] b [] _ (proj2 (qo_unacked _ _ _ Hq3))) as (g3 & Hg3 & Hp & _).
  assert (unlinked g3 = unlinked gb) as Eu by (specialize (E6 b Hba); rewrite Hg3 in E6; change (segs m1) with (segs m) in E6; rewrite Hgb in E6; change (Some (unlinked g3) = Some (unlinked gb)) in E6; congruence).
  assert (n_busy g3 = true /\ n_resent g3 = false /\ n_p g3 = n_p gb) as (B1 & B2 & B3).
  { change (n_busy g3) with (n_busy (unlinked g3)). change (n_resent g3) with (n_resent (unlinked g3)). change (n_p g3) with (n_p (unlinked g3)). by rewrite Eu. }
  assert (exists f, walk_fuel m3 = S (S f)) as (f & ->).
  { unfold walk_fuel. destruct (size (segs m3)) eqn:Es; [|by eexists]. apply map_size_empty_inv in Es. by rewrite Es in Hg3. }
  cbn [resend_before]. rewrite Hg3. cbn [deref mbind outcome_bind]. rewrite B2. destruct Hq3 as [[V1 _] [V2 V3] V4 [V5 _]].
  rewrite (remove_from_unack_ok [] b []) by done. cbn [mbind outcome_bind]. set (m4 := set_unacked_head _ _).
  assert (segs m4 !! b = Some g3) as Hg4 by done. unfold tcp_rexmit_data. rewrite Hg4. cbn [deref mbind outcome_bind]. rewrite B1. cbn [mbind outcome_bind].
  rewrite Hg4. cbn [deref mbind outcome_bind]. rewrite Hp. change (before None []) with (@None Z). cbn [resend_before mbind outcome_bind].
  assert (0 < snd_queuelen (snd (mpcb m3))) as Hpos.
  { rewrite V5. simpl app. rewrite (qclens_one _ _ _ Hg3), B3. unfold chain_clen. destruct (n_p gb); [done|]. simpl length. lia. }
  assert (local_id m3 = local_id m /\ state (mpcb m3) = state (mpcb m)) as [L1 L2] by (unfold kept in E7; injection E7 as _ _ L _ _ S; by split).
  change (unacked_head m4) with (@None Z). rewrite bool_decide_true by done.
  assert (unsent_head m4 = None /\ local_id m4 = local_id m3 /\ mpcb m4 = mpcb m3 /\ unacked_head m4 = None) as (W1 & W2 & W3 & W4) by (by split_and!).
  clearbody m4. rewrite <- L1, <- L2, <- W2, <- W3. rewrite <- W3 in Hpos. clear -Hpos W1 W4 Hg4. eexists. split; [reflexivity|].
  split_and!; try done; [unfold mpcb, netml_rtt; simpl; by destruct (_ && _)|]. unfold mpcb. simpl. rewrite netml_rtt_keeps. exact Hpos.
Qed.

(** (lost segment) of two segments in [unacked], with nothing unsent, the driver still holds the first when the second is acknowledged: the first is taken from the queue and is in no queue
    afterwards, but it is still counted, and the next write fails an assertion. *)
Theorem busy_segment_lost b a m gb g : queues_ok [] [b; a] m -> acks [] [b] a m -> segs m !! a = Some g -> segs m !! b = Some gb ->
  n_busy gb = true -> n_resent gb = false -> n_p gb <> [] -> state (mpcb m) = ESTABLISHED -> local_id m <> 0xffff ->
  exists m', netml_receive_ack m = Ret m' /\ unsent_head m' = None /\ unacked_head m' = None /\ is_Some (segs m' !! b) /\
    forall fuel dat id hot, 0 < Z.of_nat (length dat) <= snd_buf (snd (mpcb m')) -> snd_queuelen (snd (mpcb m')) < TCP_SND_QUEUELEN ->
      tcp_write_netml fuel dat id hot m' = Assert.
Proof.
  intros Hq Ha Hg Hgb Hb Hnr Hne Hst Hid. destruct (busy_segment_gone b a m gb g) as (m' & E & E1 & E2 & E3 & E4 & E5 & E6); try done.
  exists m'. split_and!; try done. intros fuel dat id hot Hlen Hql. unfold tcp_write_netml. rewrite (proj2 (Z.eqb_neq _ 0xffff)) by congruence.
  unfold netml_write_checks. rewrite bool_decide_true by (left; congruence). cbn [negb]. rewrite (proj2 (Z.eqb_neq _ 0)), (proj2 (Z.ltb_ge _ _)) by lia.
  change (Z.min TCP_SND_QUEUELEN (TCP_SNDQUEUELEN_OVERFLOW + 1)) with TCP_SND_QUEUELEN. rewrite (proj2 (Z.leb_gt _ _)) by lia.
  rewrite (proj2 (Z.eqb_neq _ 0)) by lia. cbn [negb]. by rewrite bool_decide_true.
Qed.

(** ** Purging *)

Lemma free_waiting_all l m : let m' := fold_left (fun m x => free_waiting x m) l m in
  seg_pool m' = rev l.*1 ++ seg_pool m /\ internal_conn m' = internal_conn m /\ segs m' = segs m /\ mpcb m' = mpcb m.
Proof.
  revert m. induction l as [|x l IH]; intros m; [done|]. cbn zeta. simpl fold_left. destruct (IH (free_waiting x m)) as (-> & -> & -> & ->). split; [|done].
  simpl. by rewrite <- app_assoc.
Qed.
(** (purging) every segment that waits for a node goes back to the pool, once, and no node keeps one; the positions of the nodes stay. *)
Theorem purge_nodes_frees m : state (mpcb m) <> CLOSED -> state (mpcb m) <> TIME_WAIT -> state (mpcb m) <> LISTEN ->
  seg_pool (purge_nodes m) = rev (concat (node_ooseq <$> internal_conn m)).*1 ++ seg_pool m /\
  internal_conn (purge_nodes m) = set_node_ooseq [] <$> internal_conn m /\ segs (purge_nodes m) = segs m.
Proof.
  intros H1 H2 H3. unfold purge_nodes. rewrite decide_True by done. set (f := fun m w => _). simpl.
  assert (forall l m, seg_pool (fold_left f l m) = rev (concat (node_ooseq <$> l)).*1 ++ seg_pool m /\ segs (fold_left f l m) = segs m) as H.
  { clear. induction l as [|w l IH]; intros m; [done|]. simpl. destruct (IH (f m w)) as [-> ->]. destruct (free_waiting_all (node_ooseq w) m) as (E1 & _ & E2 & _).
    split; [|exact E2]. unfold f at 1. rewrite E1, fmap_app, rev_app_distr, app_assoc. done. }
  destruct (H (internal_conn m) m) as [-> ->]. done.
Qed.
End queues.
