(* ===== verification/TcpNetmlExamples.v ===== *)
(** * The multi-node extension of TCP: examples

    A connection with three free segments, over a link that keeps what was sent, and an application that takes data or does not. *)

From stdpp Require Import gmap.
From S2P Require Import Prelude Chain Def Tcp TcpRecv TcpStream TcpProcess TcpOut TcpNetml TcpNetmlProps TcpNetmlSend TcpNetmlRound TcpNetmlAck.

Module NetmlExamples.
(** Whether the application takes data, what it has taken, and the frames that were sent. *)
Definition mlink : Type := bool * list chain * list wire_frame.
#[export] Instance mlink_net : TcpNet mlink := { hdr_alloc n := (true, n); output_control n _ _ _ := (ERR_OK, n) }.
#[export] Instance mlink_bufs : TcpBufs mlink := { ram_alloc n _ := (true, n); rom_alloc n := (true, n); bufs_free n _ := n }.
#[export] Instance mlink_out : TcpLink mlink := {
  tcp_route _ _ _ := Some 1500; link_ip _ _ := 1; ip_output_if n _ _ _ _ _ := (ERR_OK, false, n) }.
#[export] Instance mlink_frames : MultiNet mlink := { frame_out n _ _ f := (ERR_OK, false, (n.1, n.2 ++ [f])) }.
#[export] Instance mlink_app : MultiApp mlink := {
  app_recv n d := if n.1.1 then (ERR_OK, (true, n.1.2 ++ [d], n.2)) else (ERR_MEM, n) }.

Definition peer (segments : Z) (refused : option chain) : tcp_pcb :=
  Pcb ESTABLISHED 0 16 1 80 2 8080 false refused (Receiver 1000 4000 4000 5000 [])
    (Sender 500 999 7 500 4000 4000 1000 segments 500 [] []) (Congestion 2000 4000 0 0) (Timing 0 40 7 16 8 3 0 0 0 0 0 0 0 0 0 0 false).
Definition ml (segments : Z) (refused : option chain) (ack len : Z) (takes : bool) (nodes : list internal_id) (unacked : option Z) (sg : gmap Z nseg) (pool : list Z) : multi mlink :=
  Multi (Input (peer segments refused) 0 0 0 None 0 ack 0 0 len 0 0 None 5 44 (takes, [], [])) 9 nodes None unacked sg pool.
Definition fresh : multi mlink := ml 0 None 0 0 true new_nodes None ∅ [50; 51; 52].

(** The packet of the node [i] at the position [t]. *)
Definition cold : Z := TCPH_OFFSET_SETBIT (TCPH_HDRLEN_FLAGS_SET 5 0) NETML_COLD.
Definition packet (i t : Z) (d : list Z) : pkt :=
  Pkt 700 0 cold [hdr_bytes (IntHdr (lwip_htons 9) (lwip_htons i) (lwip_htonl 1) (lwip_htonl t)) ++ d].
Lemma packet_data i t d : 8 <= i < 8 + NETML_MAX_NODE -> bytes d -> Z.of_nat (length d) < 1000 -> data_pkt (packet i t d).
Proof.
  intros Hi Hd Hl. unfold NETML_MAX_NODE in *. assert (node_of (packet i t d) = i) as Hn.
  { unfold node_of, packet. cbn [k_p]. simpl. unfold get8. simpl. rewrite raw16 by apply lwip_htons_range. apply htons_involutive. lia. }
  split; [|rewrite Hn; unfold NETML_MAX_NODE; lia| | |done].
  - eexists _, _. split; [reflexivity|]. rewrite length_app. change (length (hdr_bytes _)) with 12%nat. lia.
  - constructor; [|constructor]. apply bytes_app. split; [apply hdr_bytes_range|done].
  - unfold packet, tot_len. cbn [k_p concat]. rewrite app_nil_r, length_app. change (length (hdr_bytes _)) with 12%nat. lia.
Qed.

(** The streams of the nodes 9 and 10: the bytes are the positions. *)
Definition text (i x : Z) : Z := (x + i) mod 256.
Definition some_packets : list pkt := [packet 9 1 [10; 11]; packet 10 1 [11]; packet 9 1 [10; 11]; packet 9 3 [12]].
Definition start_at (i : Z) : Z := 1.
Lemma fresh_waits : waits_at start_at fresh.
Proof.
  split; [done|]. intros i w. simpl. unfold new_nodes. rewrite list_lookup_fmap. intros (j & _ & ->)%fmap_Some. done.
Qed.
Lemma netml_streams_witness : exists out m', netml_run some_packets fresh = Ret (out, m') /\
  concat (filter (fun x => x.1 = 9) out).*2 = [10; 11; 12] /\ concat (filter (fun x => x.1 = 10) out).*2 = [11].
Proof.
  destruct (netml_streams text start_at some_packets (fold_left advance some_packets start_at) fresh) as (out & m' & H1 & _ & H3).
  - repeat constructor; try (apply packet_data; [unfold NETML_MAX_NODE; lia|repeat constructor|done]); vm_compute; done.
  - repeat (apply series_cons; [by vm_compute|]). constructor.
  - exact fresh_waits.
  - exists out, m'. split; [done|]. split; [exact (proj2 (H3 9))|exact (proj2 (H3 10))].
Defined.

(** The segment at 3 of node 9 came first and waits; then the one at 1, and repetitions. *)
Definition early : multi mlink := match receive_packet (packet 9 3 [12]) fresh with Ret m => m | _ => fresh end.
Lemma early_segment_stops_witness : exists m1, receive_packet (packet 9 1 [10; 11]) early = Ret m1 /\ recv_data (core m1) = None /\
  forall out m', netml_run [packet 9 1 [10; 11]; packet 9 3 [12]; packet 9 4 [13]] m1 = Ret (out, m') -> Forall (fun x => x.1 = 9 -> x.2 = []) out.
Proof.
  assert (exists w, internal_conn early !! 1%nat = Some w /\ nxtwish w = 1 /\ node_ooseq w <> []) as (w & H1 & H2 & H3) by (vm_compute; by eexists).
  assert (node_of (packet 9 1 [10; 11]) = 9 /\ tunl_of (packet 9 1 [10; 11]) = 1 /\ seg_pool early = [51; 52]) as (Hn & Ht & Hp) by (by vm_compute).
  assert (data_pkt (packet 9 1 [10; 11]) /\ Forall (fun j => data_pkt j /\ (node_of j = 9 -> 0 < tunl_of j)) [packet 9 1 [10; 11]; packet 9 3 [12]; packet 9 4 [13]]) as [Hd Hs].
  { split; [|repeat (apply Forall_cons_2; [split|]); [..|by apply Forall_nil_2]]; first [intros _; by vm_compute|by apply packet_data; [unfold NETML_MAX_NODE; lia|repeat constructor|]]. }
  pose proof (early_segment_stops (packet 9 1 [10; 11]) [packet 9 1 [10; 11]; packet 9 3 [12]; packet 9 4 [13]] early w Hd) as T.
  rewrite Hn, Ht, Hp in T. apply T; [lia|discriminate|exact H1|exact H2|exact H3|exact Hs].
Defined.

Lemma unknown_node_undefined_witness : receive_packet (Pkt 700 0 cold [hdr_bytes (IntHdr 0 (lwip_htons 7) 0 0)]) fresh = Undef.
Proof. apply (unknown_node_undefined (hdr_bytes (IntHdr 0 (lwip_htons 7) 0 0)) [] 700 0 cold fresh); [vm_compute; done..|by left]. Defined.

(** A hot segment with the PSH flag. *)
Definition hot : Z := TCPH_OFFSET_SETBIT (TCPH_HDRLEN_FLAGS_SET 5 TCP_PSH) NETML_HOT.
Lemma resend_marks_witness : TCPH_OFFSET_FLAGS (mark_resend hot) = NETML_HOT /\ TCPH_FLAGS (mark_resend hot) = 0.
Proof.
  destruct (resend_marks hot) as (_ & H1 & H2); [by vm_compute|]. split; [by apply H1|]. rewrite H2 by (by right). by vm_compute.
Defined.

(** The application does not take [7], so the packet is dropped; another one takes what comes. *)
Definition full : multi mlink := ml 0 (Some [[7]]) 0 13 false new_nodes None ∅ [50].
Lemma refused_drops_witness : exists m', tcp_netml_input cold [hdr_bytes (IntHdr 0 (lwip_htons 9) 0 (lwip_htonl 1)) ++ [1]] full = Ret (Some m') /\
  refused_data (mpcb m') = Some [[7]] /\ net (core m') = (false, [], []) /\ internal_conn m' = new_nodes.
Proof.
  destruct (refused_drops cold (hdr_bytes (IntHdr 0 (lwip_htons 9) 0 (lwip_htonl 1)) ++ [1]) [] full [[7]] ERR_MEM (false, [], [])) as (m' & H1 & H2 & H3 & H4);
    [by vm_compute..|done|done|done|done|done|]. exists m'. split_and!; try done. by injection H4 as -> _ _ _.
Defined.
(** Two nodes are enough to receive for node 9. *)
Definition two : multi mlink := ml 0 None 0 0 true [Node 1 1 1 1 8 []; Node 1 1 1 1 9 []] None ∅ [50].
Lemma handler_delivers_witness : exists k m', k = packet 9 1 [10; 11] /\
  tcp_netml_input (k_word k) (k_p k) (set_core (set_tcplen (u16 (tot_len (k_p k))) (set_in_flags (TCPH_FLAGS (k_word k))
    (set_ackno (k_ackno k) (set_seqno (k_seqno k) (core two))))) two) = Ret (Some m') /\ (net (core m')).1 = (true, [[[10; 11]]]).
Proof.
  assert (exists m1 n, receive_packet (packet 9 1 [10; 11]) two = Ret m1 /\ recv_data (core m1) = Some [[10; 11]] /\ refused_data (mpcb m1) = None /\
    app_recv (net (core m1)) [[10; 11]] = (ERR_OK, n) /\ n.1 = (true, [[[10; 11]]]) /\ unsent_head m1 = None /\ state (mpcb m1) <> LISTEN) as (m1 & n & H1 & H2 & H3 & H4 & H5 & H6 & H7).
  { vm_compute. eexists _, _. split; [reflexivity|]. by split_and!. }
  assert (exists k, k = packet 9 1 [10; 11] /\ k_p k <> []) as (k & Hk & Hp) by (eexists; split; [reflexivity|done]). rewrite <- Hk in H1.
  destruct (handler_delivers k two m1 n Hp eq_refl H1) as (m' & E1 & E2 & _); [by rewrite H2|exact H6|exact H7|].
  exists k, m'. split; [exact Hk|]. split; [exact E1|]. rewrite E2. exact H5.
Defined.

(** Ten bytes for the node in the slot 1: three segments. *)
Definition ten : list Z := [1; 2; 3; 4; 5; 6; 7; 8; 9; 10].
Lemma ten_bytes : bytes ten.
Proof. repeat (apply Forall_cons_2; [unfold is_byte; lia|]). by apply Forall_nil_2. Qed.
Definition from_9 (dat : list Z) : start := Start 1 9 1 1 500 false false dat.
Lemma fresh_writable dat pool : NoDup pool -> writable (from_9 dat) (Node 1 1 1 1 9 []) (set_seg_pool pool fresh).
Proof. intros Hp. split; [done|by split|simpl; lia|by split]. Qed.
Lemma fresh_accepts n pool : 0 < n <= 1000 -> accepts n [] (set_seg_pool pool fresh).
Proof. intros Hn. split; [by left|done|by vm_compute|simpl; lia|done|done|]. split_and!; [done|done|constructor]. Qed.
Lemma write_netml_queues_witness : exists r m', tcp_write_netml 11 ten 1 false fresh = Ret (r, m') /\
  ((r = Some ERR_OK /\ exists l, write_done (from_9 ten) [] l fresh m') \/ (r = None /\ exists pos, write_failed (from_9 ten) pos fresh m')).
Proof.
  apply (write_netml_queues (from_9 ten) (Node 1 1 1 1 9 []) [] 11 fresh); [|apply (fresh_accepts 10 [50; 51; 52]); lia|simpl; lia].
  apply (fresh_writable ten [50; 51; 52]). by apply (bool_decide_unpack (NoDup [50; 51; 52])).
Defined.

Lemma netml_round_trip_witness : exists ms' gs out mr', tcp_write_netml 11 ten 1 false fresh = Ret (Some ERR_OK, ms') /\
  netml_run (pkt_of 0 <$> gs) fresh = Ret (out, mr') /\ concat (filter (fun x => x.1 = 9) out).*2 = ten.
Proof.
  assert (match tcp_write_netml 11 ten 1 false fresh with Ret (Some ERR_OK, _) => true | _ => false end = true) as Hok by (by vm_compute).
  destruct (tcp_write_netml 11 ten 1 false fresh) as [[[[]|] ms']| | |] eqn:Ew; try discriminate Hok. clear Hok. exists ms'.
  destruct (netml_round_trip (from_9 ten) (Node 1 1 1 1 9 []) [] 11 fresh ms' fresh start_at 0) as (l & gs & out & mr' & _ & _ & _ & _ & H1 & H2 & _).
  - apply (fresh_writable ten [50; 51; 52]). by apply (bool_decide_unpack (NoDup [50; 51; 52])).
  - apply (fresh_accepts 10 [50; 51; 52]). lia.
  - simpl. lia.
  - split.
    + split; reflexivity.
    + cbn [s_local from_9]. unfold NETML_MAX_NODE. lia.
    + cbn [s_tunl s_dat from_9]. change (Z.of_nat (length ten)) with 10. lia.
    + exact ten_bytes.
    + cbn [s_dat from_9]. change (Z.of_nat (length ten)) with 10. unfold INTERNAL_HLEN. lia.
  - exact fresh_waits.
  - done.
  - exact Ew.
  - exists gs, out, mr'. split; [done|]. by split.
Defined.

(** With two free segments the write fails, and the node has lost the positions of eight bytes. *)
Definition short : multi mlink := set_seg_pool [50; 51] fresh.
Example failed_write_loses_positions : exists m', tcp_write_netml 11 ten 1 false short = Ret (None, m') /\
  (inttunl <$> internal_conn m' !! 1%nat) = Some 9 /\ snd_lbb (snd (mpcb m')) = 500 /\ unsent_head m' = None.
Proof.
  assert (match tcp_write_netml 11 ten 1 false short with
          | Ret (None, m') => bool_decide ((inttunl <$> internal_conn m' !! 1%nat) = Some 9 /\ snd_lbb (snd (mpcb m')) = 500 /\ unsent_head m' = None)
          | _ => false end = true) as Hok by (by vm_compute).
  destruct (tcp_write_netml 11 ten 1 false short) as [[[]  m']| | |]; try discriminate Hok. exists m'. split; [done|]. by apply bool_decide_eq_true in Hok.
Qed.

(** Three segments were sent; the second one is acknowledged. *)
Definition sent (sq : Z) (busy : bool) (prev next : option Z) : nseg :=
  NSeg sq 4 cold [[]; [1; 2; 3; 4]] busy (IntHdr (lwip_htons 1) (lwip_htons 9) (lwip_htonl 1) (lwip_htonl 1)) next prev false.
Definition three : multi mlink :=
  ml 6 None 508 0 true [] (Some 60) {[60 := sent 500 false None (Some 61); 61 := sent 504 false (Some 60) (Some 62); 62 := sent 508 false (Some 61) None]} [].
Lemma sent_three_ok : queues_ok [] [60; 61; 62] three.
Proof.
  split; [done| |by apply (bool_decide_unpack (NoDup [60; 61; 62]))|by vm_compute]. split; [done|].
  eexists. split_and!; [by vm_compute|done|done|]. eexists. split_and!; [by vm_compute|done|done|]. eexists. by split_and!; [by vm_compute|..].
Qed.
Lemma not_ends ack sg a g : sg !! a = Some g -> u32 (n_seqno g + n_tcplen g) <> ack -> ~ ends ack sg a.
Proof. intros H1 H2 (g' & H3 & H4). congruence. Qed.
Lemma netml_ack_frees_witness : exists m', netml_receive_ack three = Ret m' /\ seg_pool m' = [61] /\ snd_buf (snd (mpcb m')) = 1004 /\ queues_ok [60] [62] m'.
Proof.
  assert (segs three !! 60 = Some (sent 500 false None (Some 61)) /\ segs three !! 61 = Some (sent 504 false (Some 60) (Some 62))) as [S1 S2] by (by vm_compute).
  destruct (netml_ack_frees [] [60] 61 [62] three (sent 504 false (Some 60) (Some 62))) as (m' & E1 & E2 & E3 & E4 & E5 & Hm).
  - exact sent_three_ok.
  - split; [eexists; split; [exact S2|by vm_compute]|constructor|]. constructor; [|constructor]. eapply not_ends; [exact S1|by vm_compute].
  - exact S2.
  - constructor; [|constructor]. eexists. by split; [exact S1|].
  - by left.
  - exists m'. split; [exact E1|]. split; [exact E2|]. split; [exact E4|]. destruct Hm as [[H _]|(l0 & b & l3 & E & _ & _ & Hq & _)].
    + apply Forall_cons in H as [(g & Hg & Hr) _]. rewrite S1 in Hg. by injection Hg as <-.
    + destruct l0 as [|x l0]; [injection E as <- <-; done|]. by destruct l0.
Defined.

(** The driver still holds the first of two segments. *)
Definition held : multi mlink :=
  ml 4 None 508 0 true [] (Some 60) {[60 := sent 500 true None (Some 61); 61 := sent 504 false (Some 60) None]} [].
Lemma busy_segment_lost_witness : exists m', netml_receive_ack held = Ret m' /\ tcp_write_netml 11 ten 1 false m' = Assert.
Proof.
  assert (segs held !! 60 = Some (sent 500 true None (Some 61)) /\ segs held !! 61 = Some (sent 504 false (Some 60) None)) as [S1 S2] by (by vm_compute).
  assert (match netml_receive_ack held with Ret m' => (snd_buf (snd (mpcb m')) =? 1004) && (snd_queuelen (snd (mpcb m')) =? 2) | _ => false end = true) as Hv by (by vm_compute).
  destruct (busy_segment_lost 60 61 held (sent 500 true None (Some 61)) (sent 504 false (Some 60) None)) as (m' & E1 & _ & _ & _ & H); [| |exact S2|exact S1|reflexivity|reflexivity|discriminate|reflexivity|discriminate|].
  - split; [done| |by apply (bool_decide_unpack (NoDup [60; 61]))|by vm_compute]. split; [done|].
    eexists. split_and!; [exact S1|done|done|]. eexists. by split_and!; [exact S2|..].
  - split; [eexists; split; [exact S2|by vm_compute]|constructor|]. constructor; [|constructor]. eapply not_ends; [exact S1|by vm_compute].
  - exists m'. split; [done|]. rewrite E1 in Hv. apply andb_prop in Hv as [V1%Z.eqb_eq V2%Z.eqb_eq]. apply H; [simpl; lia|rewrite V2; done].
Defined.

(** Two writes queue two segments, and the second does not point back to the first. An acknowledgement that names the second, which was not sent yet, empties the
    queue with the first in it; the first is still counted, and an assertion fails. *)
Definition written (d : list Z) (m : multi mlink) : multi mlink := match tcp_write_netml 11 d 1 false m with Ret (_, m) => m | _ => m end.
Definition two_unsent : multi mlink := written [4; 5; 6] (written [1; 2; 3] fresh).
Example unsent_ack_stops : netml_receive_ack (set_core (set_ackno 506 (core two_unsent)) two_unsent) = Assert.
Proof. by vm_compute. Qed.

(** A segment waits for node 9; purging gives it back. *)
Lemma purge_nodes_frees_witness : seg_pool (purge_nodes early) = [50; 51; 52].
Proof.
  destruct (purge_nodes_frees early) as (-> & _); [by vm_compute..|]. by vm_compute.
Defined.
End NetmlExamples.
