(* ===== verification/TcpApi.v ===== *)
(** * Opening TCP connections ([tcp.c])

    New control blocks and what is given up for them, ports, [tcp_bind], [tcp_listen], [tcp_connect], and what happens when the
    address of an interface changes. Lists and blocks are those of [TcpStack]. *)

From stdpp Require Import gmap.
From S2P Require Import Prelude Chain Tcp TcpProcess TcpOut TcpStack TcpTimer.

Definition TCP_LOCAL_PORT_RANGE_START : Z := 0xc000.
Definition TCP_LOCAL_PORT_RANGE_END : Z := 0xffff.
Definition TCP_ENSURE_LOCAL_PORT_RANGE (port : Z) : Z :=
  u16 (Z.land port (Z.land (Z.lnot TCP_LOCAL_PORT_RANGE_START) 0xffff) + TCP_LOCAL_PORT_RANGE_START).
Definition INITIAL_MSS : Z := 536.
Definition TCP_SND_BUF : Z := 4096.
Definition TCP_KEEPIDLE_DEFAULT : Z := 7200000.
Definition TCP_PRIO_NORMAL : Z := 64.
Definition TCP_PRIO_MAX : Z := 127.
Definition NETIF_NO_INDEX : Z := 0.

Definition set_prio (v : Z) (b : block) : block := Block (tcb b) (last_timer b) (listener b) v (reuseaddr b) (netif_idx b) (refused_fin b).
Definition set_netif_idx (v : Z) (b : block) : block := Block (tcb b) (last_timer b) (listener b) (prio b) (reuseaddr b) v (refused_fin b).
Definition upd_tcb (f : tcp_pcb -> tcp_pcb) (b : block) : block := set_tcb (f (tcb b)) b.

(** The interface of an index: its MTU, if there is one, and its address. *)
Class NetifIndex (N : Type) := { netif_mtu : N -> Z -> option Z; netif_ip : N -> Z -> Z }.

(** What [tcp_alloc] fills in. *)
Definition new_pcb (ticks : Z) : tcp_pcb :=
  Pcb CLOSED 0 INITIAL_MSS 0 0 0 0 false None (Receiver 0 TCP_WND TCP_WND 0 []) (Sender 0 0 0 0 0 0 TCP_SND_BUF 0 0 [] [])
    (Congestion 1 TCP_SND_BUF 0 0) (Timing (-1) 0 0 0 (3000 / TCP_SLOW_INTERVAL) (3000 / TCP_SLOW_INTERVAL) 0 0 0 ticks 0 0 0 0 0 TCP_KEEPIDLE_DEFAULT false).
(** A listener has the address, the port and the options of the connection it replaces. *)
Definition listen_pcb (p : tcp_pcb) : tcp_pcb :=
  Pcb LISTEN 0 0 (local_ip p) (local_port p) 0 0 false None (Receiver 0 0 0 0 []) (Sender 0 0 0 0 0 0 0 0 0 [] [])
    (Congestion 0 0 0 0) (Timing 0 0 0 0 0 0 0 0 0 0 0 0 0 0 0 0 (keepalive (tim p))).
(** What [tcp_connect] sets before the SYN; the sequence numbers begin at 0. *)
Definition connect_pcb (mtu : Z) (p : tcp_pcb) : tcp_pcb :=
  let p := set_rcv_nxt 0 p in
  let p := set_snd_lbb 0 (set_snd_wl2 0 (set_lastack 0 (set_snd_nxt 1 p))) in
  let p := set_rcv_ann_right_edge 0 (set_rcv_ann_wnd TCP_WND (set_rcv_wnd TCP_WND p)) in
  set_cwnd 1 (set_mss (tcp_eff_send_mss_netif INITIAL_MSS (Some mtu)) (set_snd_wnd TCP_WND p)).

Section api.
  Context {N : Type} `{!TcpNet N} `{!TcpBufs N} `{!TcpLink N} `{!TcpEvents N} `{!NetifIndex N}.
  Implicit Type s : input N.
  Implicit Type t : stack N.

Definition tcp_init (rand : Z) t : stack N := set_tcp_port (TCP_ENSURE_LOCAL_PORT_RANGE rand) t.

(** A walk along a list, until [f] holds. *)
Fixpoint any_block (f : block -> bool) (l : list Z) t : outcome bool :=
  match l with
  | [] => Ret false
  | a :: l => b ← deref (blocks t !! a); if f b then Ret true else any_block f l t
  end.
(** [tcp_pcb_lists]. *)
Definition pcb_lists t : list (list Z) := [listen_pcbs t; bound_pcbs t; active_pcbs t; tw_pcbs t].

(** ** Ports *)

Fixpoint tcp_new_port_loop (fuel : nat) (n : Z) t : outcome (Z * stack N) :=
  match fuel with
  | O => Diverge
  | S fuel =>
      let port := u16 (tcp_port t + 1) in
      let port := if port =? TCP_LOCAL_PORT_RANGE_END then TCP_LOCAL_PORT_RANGE_START else port in
      let t := set_tcp_port port t in
      used ← any_block (fun b => local_port (tcb b) =? port) (concat (pcb_lists t)) t;
      if (used : bool) then
        let n := u16 (n + 1) in
        if TCP_LOCAL_PORT_RANGE_END - TCP_LOCAL_PORT_RANGE_START <? n then Ret (0, t) else tcp_new_port_loop fuel n t
      else Ret (port, t)
  end.
Definition tcp_new_port t : outcome (Z * stack N) := tcp_new_port_loop (Z.to_nat 0x4000) 0 t.

(** Whether the block [b] keeps another one from binding to [ip], [port]. *)
Definition bind_clash (reuse : bool) (ip port : Z) (b : block) : bool :=
  (local_port (tcb b) =? port) && (negb reuse || negb (reuseaddr b)) &&
  ((local_ip (tcb b) =? 0) || (ip =? 0) || (local_ip (tcb b) =? ip)).

(** [tcp_bind(pcb, ipaddr, port)]. Putting a block into the list that it is in already makes the list cyclic, which counts as
    undefined here. *)
Definition tcp_bind (a ip port : Z) t : outcome (err_t * stack N) :=
  b ← deref (blocks t !! a);
  lwip_assert (bool_decide (state (tcb b) = CLOSED));;
  let lists := if reuseaddr b then [listen_pcbs t; bound_pcbs t; active_pcbs t] else pcb_lists t in
  '(err, port, t) ←
    (if port =? 0 then '(port, t) ← tcp_new_port t; Ret (if port =? 0 then ERR_BUF else ERR_OK, port, t)
     else used ← any_block (bind_clash (reuseaddr b) ip port) (concat lists) t; Ret (if (used : bool) then ERR_USE else ERR_OK, port, t));
  if decide (err <> ERR_OK) then Ret (err, t)
  else if decide (a ∈ bound_pcbs t) then Undef
  else
    let t := alter_block (upd_tcb (fun p => set_local_port port (if ip =? 0 then p else set_local_ip ip p))) a t in
    Ret (ERR_OK, set_bound (a :: bound_pcbs t) t).

Definition tcp_bind_netif (a : Z) (idx : option Z) t : outcome (stack N) :=
  _ ← deref (blocks t !! a); Ret (alter_block (set_netif_idx (default NETIF_NO_INDEX idx)) a t).
Definition tcp_setprio (a v : Z) t : outcome (stack N) := _ ← deref (blocks t !! a); Ret (alter_block (set_prio v) a t).

(** [tcp_listen_with_backlog_and_err(pcb, backlog, err)]: the error and the new block. *)
Definition tcp_listen (a : Z) t : outcome (err_t * option Z * stack N) :=
  b ← deref (blocks t !! a);
  let p := tcb b in
  lwip_assert (bool_decide (state p = CLOSED));;
  used ← (if reuseaddr b then any_block (fun l => (local_port (tcb l) =? local_port p) && (local_ip (tcb l) =? local_ip p)) (listen_pcbs t) t else Ret false);
  if (used : bool) then Ret (ERR_USE, None, t)
  else
    match free_listen t with
    | [] => Ret (ERR_MEM, None, t)
    | l :: free =>
        let t := set_blocks (<[l := Block (listen_pcb p) 0 None (prio b) (reuseaddr b) NETIF_NO_INDEX false]> (blocks t)) (set_free_listen free t) in
        let t := if negb (local_port p =? 0) then set_bound (TCP_RMV (bound_pcbs t) a) t else t in
        t ← pcb_free a t;
        Ret (ERR_OK, Some l, set_listen (l :: listen_pcbs t) t)
    end.

(** ** Connecting *)

(** The same connection: ports and addresses. *)
Definition same_conn (p : tcp_pcb) (b : block) : bool :=
  (local_port (tcb b) =? local_port p) && (remote_port (tcb b) =? remote_port p) &&
  (local_ip (tcb b) =? local_ip p) && (remote_ip (tcb b) =? remote_ip p).

(** The interface for the connection: its MTU and its address. *)
Definition connect_netif (b : block) (ip : Z) t : option (Z * Z) :=
  let n := net (regs t) in
  if negb (netif_idx b =? NETIF_NO_INDEX) then (fun mtu => (mtu, netif_ip n (netif_idx b))) <$> netif_mtu n (netif_idx b)
  else (fun mtu => (mtu, link_ip n ip)) <$> tcp_route n (local_ip (tcb b)) ip.

(** [tcp_connect(pcb, ipaddr, port, connected)]. *)
Definition tcp_connect (a ip port : Z) t : outcome (err_t * stack N) :=
  b ← deref (blocks t !! a);
  lwip_assert (bool_decide (state (tcb b) = CLOSED));;
  let t := alter_block (upd_tcb (fun p => set_remote_port port (set_remote_ip ip p))) a t in
  match connect_netif b ip t with
  | None => Ret (ERR_RTE, t)
  | Some (mtu, addr) =>
      let t := if local_ip (tcb b) =? 0 then alter_block (upd_tcb (set_local_ip addr)) a t else t in
      let old_local_port := local_port (tcb b) in
      '(err, t) ←
        (if old_local_port =? 0 then
           '(port, t) ← tcp_new_port t;
           Ret (if port =? 0 then ERR_BUF else ERR_OK, alter_block (upd_tcb (set_local_port port)) a t)
         else if reuseaddr b then
           p ← pcb_at a t;
           used ← any_block (same_conn p) (concat [active_pcbs t; tw_pcbs t]) t;
           Ret (if (used : bool) then ERR_USE else ERR_OK, t)
         else Ret (ERR_OK, t));
      if decide (err <> ERR_OK) then Ret (err, t)
      else
        '(ret, t) ← at_pcb a (fun s => tcp_enqueue_flags TCP_SYN (upd (connect_pcb mtu) s)) t;
        if decide (ret = ERR_OK) then
          let t := alter_block (upd_tcb (set_state SYN_SENT)) a t in
          let t := if negb (old_local_port =? 0) then set_bound (TCP_RMV (bound_pcbs t) a) t else t in
          '(_, t) ← output_at a (reg_active a t);
          Ret (ERR_OK, t)
        else Ret (ret, t)
  end.

(** ** New control blocks *)

Definition inactive_for (b : block) t : Z := u32 (tcp_ticks (regs t) - tmr (tim (tcb b))).
(** The block of the list that was inactive the longest, of those that [f] selects. *)
Fixpoint oldest (f : block -> bool) (l : list Z) (inactivity : Z) (inactive : option Z) t : outcome (option Z) :=
  match l with
  | [] => Ret inactive
  | a :: l =>
      b ← deref (blocks t !! a);
      if f b && (inactivity <=? inactive_for b t) then oldest f l (inactive_for b t) (Some a) t else oldest f l inactivity inactive t
  end.
(** The one with the lowest priority up to [mprio], and among those the oldest. *)
Fixpoint lowest (l : list Z) (mprio inactivity : Z) (inactive : option Z) t : outcome (option Z) :=
  match l with
  | [] => Ret inactive
  | a :: l =>
      b ← deref (blocks t !! a);
      if (prio b <? mprio) || ((prio b =? mprio) && (inactivity <=? inactive_for b t)) then lowest l (prio b) (inactive_for b t) (Some a) t
      else lowest l mprio inactivity inactive t
  end.

Definition tcp_kill_timewait t : outcome (stack N) :=
  r ← oldest (fun _ => true) (tw_pcbs t) 0 None t;
  match r with None => Ret t | Some a => abort a t end.
Definition tcp_kill_state (st : tcp_state) t : outcome (stack N) :=
  lwip_assert (bool_decide (st = CLOSING \/ st = LAST_ACK));;
  r ← oldest (fun b => bool_decide (state (tcb b) = st)) (active_pcbs t) 0 None t;
  match r with None => Ret t | Some a => abandon a false t end.
Definition tcp_kill_prio (v : Z) t : outcome (stack N) :=
  let mprio := Z.min TCP_PRIO_MAX v in
  if mprio =? 0 then Ret t
  else
    r ← lowest (active_pcbs t) (mprio - 1) 0 None t;
    match r with None => Ret t | Some a => abort a t end.

Fixpoint closepend_loop (l : list Z) t : outcome (stack N) :=
  match l with
  | [] => Ret t
  | a :: l =>
      p ← pcb_at a t;
      t ← (if has (flags p) TF_CLOSEPEND then '(_, t) ← close_fin_at a (alter_block (upd_tcb (tcp_clear_flags TF_CLOSEPEND)) a t); Ret t else Ret t);
      closepend_loop l t
  end.
Definition tcp_handle_closepend t : outcome (stack N) := closepend_loop (active_pcbs t) t.

(** When no element of the pool is free, [f] is called to free one. *)
Definition or_free (f : stack N -> outcome (stack N)) t : outcome (stack N) := match free_tcp t with [] => f t | _ => Ret t end.

(** [tcp_alloc(prio)]. *)
Definition tcp_alloc (v : Z) t : outcome (option Z * stack N) :=
  t ← or_free (fun t => t ← tcp_handle_closepend t; tcp_kill_timewait t) t;
  t ← or_free (tcp_kill_state LAST_ACK) t;
  t ← or_free (tcp_kill_state CLOSING) t;
  t ← or_free (tcp_kill_prio v) t;
  match free_tcp t with
  | [] => Ret (None, t)
  | a :: free =>
      let b := Block (new_pcb (tcp_ticks (regs t))) (timer_ctr t) None v false NETIF_NO_INDEX false in
      Ret (Some a, set_blocks (<[a := b]> (blocks t)) (set_free_tcp free t))
  end.
Definition tcp_new t : outcome (option Z * stack N) := tcp_alloc TCP_PRIO_NORMAL t.

(** ** An address that has changed *)

(** [pcb->next], in the list that has [a]. *)
Fixpoint next_ptr (ls : list (list Z)) (a : Z) : outcome (option Z) :=
  match ls with [] => Undef | l :: ls => if decide (a ∈ l) then next_in l a else next_ptr ls a end.
(** [tcp_netif_ip_addr_changed_pcblist]. *)
Fixpoint addr_changed_list (fuel : nat) (old : Z) (cur : option Z) t : outcome (stack N) :=
  match fuel, cur with
  | O, _ => Diverge
  | _, None => Ret t
  | S fuel, Some a =>
      p ← pcb_at a t;
      next ← next_ptr (pcb_lists t) a;
      t ← (if local_ip p =? old then abort a t else Ret t);
      addr_changed_list fuel old next t
  end.
Definition tcp_netif_ip_addr_changed (fuel : nat) (old new : Z) t : outcome (stack N) :=
  if negb (old =? 0) then
    t ← addr_changed_list fuel old (head (active_pcbs t)) t;
    t ← addr_changed_list fuel old (head (bound_pcbs t)) t;
    Ret (if negb (new =? 0) then
           fold_left (fun t l => alter_block (upd_tcb (fun p => if local_ip p =? old then set_local_ip new p else p)) l t) (listen_pcbs t) t
         else t)
  else Ret t.
End api.
