(* ===== verification/TcpApiProps.v ===== *)
(** * Opening TCP connections: the invariant of the lists and the theorems

    [tcp_new], [tcp_bind], [tcp_listen] and [tcp_connect] keep [stack_ok], and so does any series of calls. *)

From stdpp Require Import gmap.
From S2P Require Import Prelude Chain Tcp TcpAck TcpOpt TcpProcess TcpOut TcpStack TcpTimer TcpTimerOk TcpStackOk TcpApi.

Section lists.
  Context {N : Type}.
  Implicit Type t : stack N.

(** ** Walks along lists *)

Lemma any_block_ok f l t : (forall a, a ∈ l -> is_Some (blocks t !! a)) ->
  exists r, any_block f l t = Ret r /\ (r = true <-> exists a b, a ∈ l /\ blocks t !! a = Some b /\ f b = true).
Proof.
  induction l as [|a l IH]; intros H; simpl.
  { exists false. split; [done|]. split; [done|]. intros (a & b & Ha & _). by apply not_elem_of_nil in Ha. }
  destruct (H a) as [b Hb]; [left|]. rewrite Hb. cbn [deref mbind outcome_bind]. destruct (f b) eqn:Hf.
  { exists true. split; [done|]. split; [|done]. intros _. exists a, b. split; [left|done]. }
  destruct IH as (r & -> & Hr); [intros; apply H; by right|]. exists r. split; [done|]. rewrite Hr. split.
  - intros (c & bc & Hc & ?). exists c, bc. split; [by right|done].
  - intros (c & bc & [->|Hc]%elem_of_cons & Hbc & Hfc); [congruence|]. by exists c, bc.
Qed.
Lemma listed_block t a : stack_ok t -> a ∈ concat (pcb_lists t) -> is_Some (blocks t !! a).
Proof.
  intros Hok. unfold pcb_lists. simpl. rewrite !elem_of_app. intros [H|[H|[H|[H|H]]]]; [| | | |by apply not_elem_of_nil in H].
  - apply (sk_listen _ Hok) in H. unfold state_at in H. destruct (blocks t !! a); [done|done].
  - apply (sk_bound _ Hok) in H as (b & -> & _). done.
  - apply (sk_active _ Hok) in H as (st & H & _). unfold state_at in H. destruct (blocks t !! a); [done|done].
  - apply (sk_tw _ Hok) in H. unfold state_at in H. destruct (blocks t !! a); [done|done].
Qed.

(** ** Ports *)

Definition port_taken (port : Z) t : Prop := exists a b, a ∈ concat (pcb_lists t) /\ blocks t !! a = Some b /\ local_port (tcb b) = port.
Definition next_port (q : Z) : Z := let x := u16 (q + 1) in if x =? TCP_LOCAL_PORT_RANGE_END then TCP_LOCAL_PORT_RANGE_START else x.

(** One step of the search. *)
Lemma new_port_step fuel n t : stack_ok t -> let x := next_port (tcp_port t) in
  (port_taken x t /\ tcp_new_port_loop (S fuel) n t =
     (if TCP_LOCAL_PORT_RANGE_END - TCP_LOCAL_PORT_RANGE_START <? u16 (n + 1) then Ret (0, set_tcp_port x t)
      else tcp_new_port_loop fuel (u16 (n + 1)) (set_tcp_port x t))) \/
  (~ port_taken x t /\ tcp_new_port_loop (S fuel) n t = Ret (x, set_tcp_port x t)).
Proof.
  intros Hok x. cbn [tcp_new_port_loop]. fold (next_port (tcp_port t)). change (next_port (tcp_port t)) with x.
  destruct (any_block_ok (fun b => local_port (tcb b) =? x) (concat (pcb_lists (set_tcp_port x t))) (set_tcp_port x t)) as (r & -> & Hr);
    [intros a Ha; by apply (listed_block t)|]. cbn [mbind outcome_bind].
  assert (r = true <-> port_taken x t) as Hr'.
  { rewrite Hr. unfold port_taken. split; intros (a & b & H1 & H2 & H3); exists a, b; (split; [done|]; split; [done|]); [by apply Z.eqb_eq|by apply Z.eqb_eq in H3]. }
  destruct r; [left|right]; (split; [|done]); [by apply Hr'|]. rewrite <- Hr'. done.
Qed.

(** The search ends, whatever the last port was. *)
Lemma new_port_runs t : stack_ok t -> exists port x, tcp_new_port t = Ret (port, set_tcp_port x t) /\ (port = 0 \/ ~ port_taken port t).
Proof.
  intros Hok. unfold tcp_new_port. assert (forall fuel n t, stack_ok t -> 0 <= n -> n + Z.of_nat fuel = 0x4000 -> (0 < fuel)%nat ->
    exists port x, tcp_new_port_loop fuel n t = Ret (port, set_tcp_port x t) /\ (port = 0 \/ ~ port_taken port t)) as H; [|apply H; try done; lia].
  clear. induction fuel as [|fuel IH]; intros n t Hok Hn Hf H0; [lia|].
  destruct (new_port_step fuel n t Hok) as [[Ht ->]|[Ht ->]]; [|by eexists _, _; split; [reflexivity|right]].
  rewrite u16_small by lia. unfold TCP_LOCAL_PORT_RANGE_END, TCP_LOCAL_PORT_RANGE_START. destruct (Z.ltb_spec (0xffff - 0xc000) (n + 1)).
  { by eexists _, _; split; [reflexivity|left]. }
  destruct (IH (n + 1) (set_tcp_port (next_port (tcp_port t)) t)) as (port & x & -> & Hp); [by eapply stack_ok_ext; [|exact Hok]|lia|lia|lia|].
  exists port, x. done.
Qed.

(** The [k]th port behind [p]. *)
Definition tcp_nth_port (p k : Z) : Z := TCP_LOCAL_PORT_RANGE_START + (p - TCP_LOCAL_PORT_RANGE_START + k) mod 0x3fff.
Definition port_in_range (p : Z) : Prop := TCP_LOCAL_PORT_RANGE_START <= p < TCP_LOCAL_PORT_RANGE_END.
Lemma tcp_nth_range p k : port_in_range (tcp_nth_port p k).
Proof. unfold port_in_range, tcp_nth_port, TCP_LOCAL_PORT_RANGE_START, TCP_LOCAL_PORT_RANGE_END. pose proof (Z.mod_pos_bound (p - 0xc000 + k) 0x3fff). lia. Qed.
Lemma tcp_nth_next p k : next_port (tcp_nth_port p k) = tcp_nth_port p (k + 1).
Proof.
  unfold next_port, tcp_nth_port, TCP_LOCAL_PORT_RANGE_START, TCP_LOCAL_PORT_RANGE_END. rewrite (Z.add_assoc _ k 1). set (x := p - 0xc000 + k).
  pose proof (Z.mod_pos_bound x 0x3fff). rewrite (Z.add_mod x 1) by lia. change (1 mod 0x3fff) with 1. rewrite u16_small by lia.
  destruct (Z.eqb_spec (0xc000 + x mod 0x3fff + 1) 0xffff) as [E|E].
  - replace (x mod 0x3fff) with 0x3ffe by lia. done.
  - rewrite (Z.mod_small (x mod 0x3fff + 1)) by lia. lia.
Qed.
Lemma tcp_nth_0 p : port_in_range p -> tcp_nth_port p 0 = p.
Proof. unfold port_in_range, tcp_nth_port, TCP_LOCAL_PORT_RANGE_START, TCP_LOCAL_PORT_RANGE_END. intros. rewrite Z.mod_small; lia. Qed.
Lemma tcp_nth_onto p q : port_in_range q -> exists k, 1 <= k <= 0x3fff /\ tcp_nth_port p k = q.
Proof.
  unfold port_in_range, tcp_nth_port, TCP_LOCAL_PORT_RANGE_START, TCP_LOCAL_PORT_RANGE_END. intros Hq. set (d := (q - p - 1) mod 0x3fff).
  pose proof (Z.mod_pos_bound (q - p - 1) 0x3fff). exists (d + 1). split; [unfold d; lia|].
  replace (p - 49152 + (d + 1)) with (d + (p - 49151)) by lia. unfold d. rewrite Zplus_mod_idemp_l.
  replace (q - p - 1 + (p - 49151)) with (q - 49152) by lia. rewrite Z.mod_small; lia.
Qed.
Lemma new_port_finds_ok t : stack_ok t -> port_in_range (tcp_port t) ->
  exists port x, tcp_new_port t = Ret (port, set_tcp_port x t) /\ port_in_range x /\
    (port = 0 /\ (forall q, port_in_range q -> port_taken q t) \/ port = x /\ ~ port_taken x t).
Proof.
  intros Hok Hr. unfold tcp_new_port. assert (forall fuel n t, stack_ok t -> tcp_port t = tcp_nth_port (tcp_port t) 0 ->
    forall p, tcp_port t = tcp_nth_port p n -> (forall k, 1 <= k <= n -> port_taken (tcp_nth_port p k) t) ->
    0 <= n -> n + Z.of_nat fuel = 0x4000 -> (0 < fuel)%nat ->
    exists port x, tcp_new_port_loop fuel n t = Ret (port, set_tcp_port x t) /\ port_in_range x /\
      (port = 0 /\ (forall q, port_in_range q -> port_taken q t) \/ port = x /\ ~ port_taken x t)) as H.
  2:{ apply (H _ 0 t Hok) with (p := tcp_port t); try lia; symmetry; by apply tcp_nth_0. }
  clear. induction fuel as [|fuel IH]; intros n t Hok _ p Hp Hk Hn Hf H0; [lia|].
  pose proof (new_port_step fuel n t Hok) as Hs. cbv zeta in Hs. rewrite Hp, tcp_nth_next in Hs. set (x := tcp_nth_port p (n + 1)) in *.
  assert (port_in_range x) as Hx by apply tcp_nth_range.
  destruct Hs as [[Ht ->]|[Ht ->]]; [|eexists _, x; split; [reflexivity|]; split; [done|by right]].
  assert (forall k, 1 <= k <= n + 1 -> port_taken (tcp_nth_port p k) t) as Hk'.
  { intros k Hkk. destruct (decide (k = n + 1)) as [->|]; [done|]. apply Hk. lia. }
  rewrite u16_small by lia. unfold TCP_LOCAL_PORT_RANGE_END, TCP_LOCAL_PORT_RANGE_START. destruct (Z.ltb_spec (0xffff - 0xc000) (n + 1)).
  { eexists _, x. split; [reflexivity|]. split; [done|]. left. split; [done|]. intros q Hq. destruct (tcp_nth_onto p q Hq) as (k & Hkk & <-). apply Hk'. lia. }
  destruct (IH (n + 1) (set_tcp_port x t)) with (p := p) as (port & y & -> & Hy); try done; try lia.
  - by eapply stack_ok_ext; [|exact Hok].
  - simpl. symmetry. by apply tcp_nth_0.
  - exists port, y. done.
Qed.
(** ** Changes of the lists *)

(** A closed block changes, and with it the list of bound blocks. *)
Lemma closed_update t a b b' bound t' : stack_ok t -> blocks t !! a = Some b -> state (tcb b) = CLOSED -> state (tcb b') = CLOSED ->
  pcb_ok (tcb b') -> idle_pcb (tcb b') -> NoDup bound -> (forall c, c ∈ bound -> c <> a -> c ∈ bound_pcbs t) -> (a ∈ bound -> local_port (tcb b') <> 0) ->
  parts t' = (<[a := b']> (blocks t), (active_pcbs t, tw_pcbs t, bound, listen_pcbs t), (free_tcp t, free_listen t)) -> stack_ok t'.
Proof.
  intros Hok Hb Hc Hc' Hp Hi Hn Hbn Hba [= E1 E2 E3 E4 E5 E6 E7]. pose proof Hok as [(N1 & N2 & N3 & N4) I2 I3 I4 I5 I6 [I7 I8]].
  assert (forall c, state_at c t' = state_at c t) as Hst.
  { intros c. unfold state_at. rewrite E1. destruct (decide (c = a)) as [->|]; [rewrite lookup_insert_eq, Hb; simpl; by rewrite Hc, Hc'|by rewrite lookup_insert_ne]. }
  split; rewrite ?E2, ?E3, ?E4, ?E5, ?E6, ?E7; try done; try (intros c; rewrite Hst; done).
  - intros c Hin. rewrite E1. destruct (decide (c = a)) as [->|Hne]; [rewrite lookup_insert_eq; exists b'; by auto|].
    rewrite lookup_insert_ne by done. apply I5. by apply Hbn.
  - intros c bc. rewrite E1. destruct (decide (c = a)) as [->|]; [rewrite lookup_insert_eq; by intros [= <-]|]. rewrite lookup_insert_ne by done. apply I6.
  - split; [done|]. intros c Hin. rewrite E1. destruct (decide (c = a)) as [->|]; [by rewrite I8 in Hb|]. rewrite lookup_insert_ne by done. by apply I8.
Qed.

(** A block that was free is used; a closed one is in no list, a listener in its own. *)
Lemma new_block t a b active tw listen ft fl t' : stack_ok t -> a ∈ free_tcp t ++ free_listen t -> pcb_ok (tcb b) -> idle_pcb (tcb b) ->
  (state (tcb b) = CLOSED /\ listen = listen_pcbs t \/ state (tcb b) = LISTEN /\ listen = a :: listen_pcbs t) ->
  active = active_pcbs t -> tw = tw_pcbs t -> free_tcp t ++ free_listen t ≡ₚ a :: ft ++ fl ->
  parts t' = (<[a := b]> (blocks t), (active, tw, bound_pcbs t, listen), (ft, fl)) -> stack_ok t'.
Proof.
  intros Hok Ha Hp Hi Hs -> -> Hperm [= E1 E2 E3 E4 E5 E6 E7]. pose proof Hok as [(N1 & N2 & N3 & N4) I2 I3 I4 I5 I6 [I7 I8]].
  pose proof (I8 a Ha) as Hnone. assert (state_at a t = None) as Hna by (unfold state_at; by rewrite Hnone).
  assert (forall c, state_at c t' = if decide (c = a) then Some (state (tcb b)) else state_at c t) as Hst.
  { intros c. unfold state_at. rewrite E1. destruct (decide (c = a)) as [->|]; [by rewrite lookup_insert_eq|by rewrite lookup_insert_ne]. }
  rewrite Hperm in I7. apply NoDup_cons in I7 as [Hna' I7].
  split; rewrite ?E2, ?E3, ?E4, ?E5, ?E6, ?E7.
  - split_and!; try done. destruct Hs as [[_ ->]|[_ ->]]; [done|]. constructor; [|done]. rewrite I4, Hna. done.
  - intros c. rewrite Hst, I2. destruct (decide (c = a)) as [->|]; [|done]. rewrite Hna. destruct Hs as [[-> _]|[-> _]]; naive_solver.
  - intros c. rewrite Hst, I3. destruct (decide (c = a)) as [->|]; [|done]. rewrite Hna. destruct Hs as [[-> _]|[-> _]]; naive_solver.
  - intros c. rewrite Hst. destruct Hs as [[-> ->]|[-> ->]]; rewrite ?elem_of_cons, I4; destruct (decide (c = a)) as [->|]; rewrite ?Hna; naive_solver.
  - intros c Hin. destruct (I5 c Hin) as (bc & H1 & H2). rewrite E1. rewrite lookup_insert_ne; [by exists bc|]. by intros <-; rewrite Hnone in H1.
  - intros c bc. rewrite E1. destruct (decide (c = a)) as [->|]; [rewrite lookup_insert_eq; by intros [= <-]|]. rewrite lookup_insert_ne by done. apply I6.
  - split; [done|]. intros c Hin. rewrite E1, lookup_insert_ne by (by intros <-). apply I8. rewrite Hperm. by right.
Qed.

(** A closed block becomes active. *)
Lemma opened t a b b' t' : stack_ok t -> blocks t !! a = Some b -> state (tcb b) = CLOSED -> is_active (state (tcb b')) = true -> pcb_ok (tcb b') ->
  parts t' = (<[a := b']> (blocks t), (a :: active_pcbs t, tw_pcbs t, TCP_RMV (bound_pcbs t) a, listen_pcbs t), (free_tcp t, free_listen t)) -> stack_ok t'.
Proof.
  intros Hok Hb Hc Hs Hp [= E1 E2 E3 E4 E5 E6 E7]. pose proof Hok as [(N1 & N2 & N3 & N4) I2 I3 I4 I5 I6 [I7 I8]].
  assert (state_at a t = Some CLOSED) as Ha by (unfold state_at; by rewrite Hb; simpl; rewrite Hc).
  assert (forall c, state_at c t' = if decide (c = a) then Some (state (tcb b')) else state_at c t) as Hst.
  { intros c. unfold state_at. rewrite E1. destruct (decide (c = a)) as [->|]; [by rewrite lookup_insert_eq|by rewrite lookup_insert_ne]. }
  split; rewrite ?E2, ?E3, ?E4, ?E5, ?E6, ?E7.
  - split_and!; try done; [|by apply nodup_rmv]. constructor; [|done]. rewrite I2, Ha. naive_solver.
  - intros c. rewrite Hst, elem_of_cons, I2. destruct (decide (c = a)) as [->|]; naive_solver.
  - intros c. rewrite Hst, I3. destruct (decide (c = a)) as [->|]; [|done]. rewrite Ha. split; [done|]. intros [= E]. by rewrite E in Hs.
  - intros c. rewrite Hst, I4. destruct (decide (c = a)) as [->|]; [|done]. rewrite Ha. split; [done|]. intros [= E]. by rewrite E in Hs.
  - intros c. rewrite elem_of_rmv, E1 by done. intros [Hin Hne]. rewrite lookup_insert_ne by done. by apply I5.
  - intros c bc. rewrite E1. destruct (decide (c = a)) as [->|]; [rewrite lookup_insert_eq; intros [= <-]; split; [done|]; by rewrite Hs|]. rewrite lookup_insert_ne by done. apply I6.
  - split; [done|]. intros c Hin. rewrite E1. destruct (decide (c = a)) as [->|]; [by rewrite I8 in Hb|]. rewrite lookup_insert_ne by done. by apply I8.
Qed.
End lists.

Section calls.
  Context {N : Type} `{!TcpNet N} `{!TcpBufs N} `{!TcpLink N} `{!TcpEvents N} `{!TcpEventsLaws N} `{!NetifIndex N}.
  Implicit Type s : input N.
  Implicit Type t : stack N.

(** The invariant, and no segment is being processed. *)
Definition calm t : Prop := stack_ok t /\ tcp_input_pcb t = None.

Lemma alter_block_insert f a t b : blocks t !! a = Some b -> alter_block f a t = set_blocks (<[a := f b]> (blocks t)) t.
Proof.
  intros H. unfold alter_block. f_equal. apply map_eq. intros x. destruct (decide (x = a)) as [->|]; [by rewrite lookup_alter_eq, lookup_insert_eq, H|].
  by rewrite lookup_alter_ne, lookup_insert_ne.
Qed.
Lemma calm_step t t' : calm t -> app_step t t' -> calm t'.
Proof. intros [_ Hi] A. split; [by apply A|]. pose proof (as_vars _ _ A) as [= _ _ -> _]. done. Qed.

(** Fields of a block that the invariant does not speak of. *)
Lemma calm_alter f a t b : calm t -> blocks t !! a = Some b -> state (tcb (f b)) = state (tcb b) -> local_port (tcb (f b)) = local_port (tcb b) ->
  (queued (tcb (f b)), ooseq (rcv (tcb (f b))), sa (tim (tcb (f b))), sv (tim (tcb (f b)))) = (queued (tcb b), ooseq (rcv (tcb b)), sa (tim (tcb b)), sv (tim (tcb b))) ->
  calm (alter_block f a t).
Proof.
  intros [Hok Hin] Hb Hs Hl [= E1 E2 E3 E4]. split; [|done]. rewrite (alter_block_insert _ _ _ _ Hb). destruct (sk_pcbs _ Hok _ _ Hb) as [[P1 P2] Hi].
  eapply (stack_ok_update t a b (f b)); try done; [by left; congruence|split; [by rewrite E1|by rewrite E3, E4]|].
  rewrite Hs. intros H. destruct (Hi H). split; congruence.
Qed.

(** ** Binding *)

Lemma clash_lists b t : stack_ok t -> forall c, c ∈ concat (if reuseaddr b then [listen_pcbs t; bound_pcbs t; active_pcbs t] else pcb_lists t) -> is_Some (blocks t !! c).
Proof.
  intros Hok c Hc. apply (listed_block t); [done|]. destruct (reuseaddr b); [|done]. unfold pcb_lists. simpl in *. rewrite !elem_of_app in *. tauto.
Qed.

(** What [tcp_bind] answers. *)
Definition bound_to (a ip port : Z) b t t' : Prop :=
  a ∈ bound_pcbs t' /\ blocks t' !! a = Some (upd_tcb (fun p => set_local_port port (if ip =? 0 then p else set_local_ip ip p)) b) /\
  (forall c, c <> a -> blocks t' !! c = blocks t !! c).
Definition in_use (ip port : Z) b t : Prop :=
  exists c bc, c ∈ concat (if reuseaddr b then [listen_pcbs t; bound_pcbs t; active_pcbs t] else pcb_lists t) /\ blocks t !! c = Some bc /\
    bind_clash (reuseaddr b) ip port bc = true.
Lemma bind_registers a ip port b t : calm t -> blocks t !! a = Some b -> state (tcb b) = CLOSED -> a ∉ bound_pcbs t -> port <> 0 ->
  let t' := alter_block (upd_tcb (fun p => set_local_port port (if ip =? 0 then p else set_local_ip ip p))) a t in
  calm (set_bound (a :: bound_pcbs t') t') /\ bound_to a ip port b t (set_bound (a :: bound_pcbs t') t').
Proof.
  intros [Hok Hin] Hb Hc Hna Hp t'. subst t'. rewrite (alter_block_insert _ _ _ _ Hb). set (b' := upd_tcb _ b).
  destruct (sk_pcbs _ Hok _ _ Hb) as [[P1 P2] Hi]. rewrite Hc in Hi. destruct (Hi eq_refl) as [Q1 Q2].
  assert (state (tcb b') = CLOSED /\ queued (tcb b') = queued (tcb b) /\ ooseq (rcv (tcb b')) = ooseq (rcv (tcb b)) /\ tim (tcb b') = tim (tcb b) /\ local_port (tcb b') = port)
    as (F1 & F2 & F3 & F4 & F5) by (subst b'; simpl; by destruct (ip =? 0)).
  split; [split; [|done]|].
  - eapply (closed_update t a b b' (a :: bound_pcbs t)); try done.
    + split; [by rewrite F2|by rewrite F4].
    + split; congruence.
    + constructor; [done|apply Hok].
    + intros c Hcin Hne. by apply elem_of_cons in Hcin as [->|].
  - split; [left|]. split; [simpl; apply lookup_insert_eq|]. intros c Hne. simpl. by rewrite lookup_insert_ne.
Qed.

Lemma tcp_bind_ok a ip port b t : calm t -> blocks t !! a = Some b -> state (tcb b) = CLOSED -> a ∉ bound_pcbs t ->
  exists err t', tcp_bind a ip port t = Ret (err, t') /\ calm t' /\
    (port <> 0 -> in_use ip port b t /\ err = ERR_USE /\ t' = t \/ ~ in_use ip port b t /\ err = ERR_OK /\ bound_to a ip port b t t') /\
    (port = 0 -> err = ERR_BUF \/ err = ERR_OK /\ exists port', port' <> 0 /\ ~ port_taken port' t /\ bound_to a ip port' b t t').
Proof.
  intros Hcalm Hb Hc Hna. pose proof Hcalm as [Hok Hin]. unfold tcp_bind. rewrite Hb. cbn [deref mbind outcome_bind]. rewrite bool_decide_true by done. cbn [lwip_assert mbind outcome_bind].
  destruct (Z.eqb_spec port 0) as [->|Hp].
  - destruct (new_port_runs t Hok) as (port & x & -> & Hport). cbn [mbind outcome_bind]. assert (calm (set_tcp_port x t)) as Hcalm' by (split; [by eapply stack_ok_ext; [|exact Hok]|done]).
    destruct (Z.eqb_spec port 0) as [->|Hp]; [rewrite decide_True by done; eexists _, _; split; [reflexivity|]; by split_and!; [|done|auto]|].
    rewrite decide_False, decide_False by (by auto). destruct (bind_registers a ip port b (set_tcp_port x t)) as [G1 G2]; try done.
    eexists _, _. split; [reflexivity|]. split_and!; [done|done|]. intros _. right. split; [done|]. exists port. split_and!; try done. by destruct Hport.
  - destruct (any_block_ok (bind_clash (reuseaddr b) ip port) (concat (if reuseaddr b then [listen_pcbs t; bound_pcbs t; active_pcbs t] else pcb_lists t)) t) as (r & -> & Hr);
      [by apply clash_lists|]. cbn [mbind outcome_bind]. destruct r.
    + rewrite decide_True by done. eexists _, _. split; [reflexivity|]. split_and!; try done. intros _. left. split_and!; try done. by apply Hr.
    + rewrite decide_False, decide_False by (by auto). destruct (bind_registers a ip port b t) as [G1 G2]; try done.
      eexists _, _. split; [reflexivity|]. split_and!; try done. intros _. right. split_and!; try done; try apply G2. intros Hu. by apply Hr in Hu.
Qed.
(** ** Listening *)

Lemma tcp_listen_ok a b t : calm t -> blocks t !! a = Some b -> state (tcb b) = CLOSED ->
  exists err r t', tcp_listen a t = Ret (err, r, t') /\ calm t' /\
    match r with
    | None => (err = ERR_USE \/ err = ERR_MEM) /\ t' = t
    | Some l => err = ERR_OK /\ blocks t' !! a = None /\ l ∈ listen_pcbs t' /\
        (exists bl, blocks t' !! l = Some bl /\ tcb bl = listen_pcb (tcb b))
    end.
Proof.
  intros [Hok Hin] Hb Hc. unfold tcp_listen. rewrite Hb. cbn [deref mbind outcome_bind]. rewrite bool_decide_true by done. cbn [lwip_assert mbind outcome_bind].
  set (f := fun l : block => _). assert (exists r, (if reuseaddr b then any_block f (listen_pcbs t) t else Ret false) = Ret r) as (r & ->).
  { destruct (reuseaddr b); [|by exists false]. destruct (any_block_ok f (listen_pcbs t) t) as (r & -> & _); [|by exists r].
    intros c H. apply (listed_block t); [done|]. unfold pcb_lists. simpl. apply elem_of_app. by left. }
  cbn [mbind outcome_bind]. destruct r; [eexists _, _, t; split; [reflexivity|]; by split_and!; auto|].
  destruct (free_listen t) as [|l free] eqn:Ef; [eexists _, _, t; split; [reflexivity|]; by split_and!; auto|].
  set (bl := Block (listen_pcb (tcb b)) _ _ _ _ _ _). set (t0 := set_blocks _ (set_free_listen free t)).
  assert (l ∈ free_tcp t ++ free_listen t) as Hl by (rewrite Ef; apply elem_of_app; right; left).
  assert (l <> a) as Hla by (intros ->; by rewrite (proj2 (sk_free _ Hok) a Hl) in Hb).
  set (t1 := set_listen (l :: listen_pcbs t) t0). assert (stack_ok t1) as Hok1.
  { eapply (new_block t l bl _ _ (l :: listen_pcbs t) (free_tcp t) free); try done; [by right|]. rewrite Ef. by rewrite Permutation_middle. }
  assert (blocks t1 !! a = Some b) as Hb1 by (simpl; by rewrite lookup_insert_ne).
  set (t2 := if negb (local_port (tcb b) =? 0) then _ else t0).
  assert (blocks t2 = blocks t0 /\ listen_pcbs t2 = listen_pcbs t /\ parts t2 = (blocks t0, (active_pcbs t, tw_pcbs t, TCP_RMV (bound_pcbs t) a, listen_pcbs t), (free_tcp t, free)) /\ tcp_input_pcb t2 = None)
    as (F1 & F2 & F3 & F4).
  { subst t2. destruct (Z.eqb_spec (local_port (tcb b)) 0) as [Hz|Hz]; cbn [negb]; [|by split_and!].
    split_and!; try done. unfold parts. simpl. rewrite (rmv_notin (bound_pcbs t)); [done|]. eapply not_bound; [done|done|by right]. }
  rewrite (pcb_free_run _ _ b) by (by rewrite ?F1, ?Hc). cbn [mbind outcome_bind]. eexists _, _, _. split; [reflexivity|]. injection F3 as G1 G2 G3 G4 G5 G6 G7.
  assert (a ∉ active_pcbs t /\ a ∉ tw_pcbs t) as [Hna Hnt] by (split; [apply (not_active t a b Hok Hb); by rewrite Hc|apply (not_tw t a b Hok Hb); by rewrite Hc]).
  split_and!; try done.
  - split; [|done]. eapply (stack_ok_gone t1 a b); try done; [by rewrite Hc|]. unfold parts. simpl. rewrite F1, G2, G3, G4, F2, G6, G7. simpl. by rewrite (rmv_notin (active_pcbs t)), (rmv_notin (tw_pcbs t)) by done.
  - simpl. by rewrite lookup_delete_eq.
  - simpl. left.
  - exists bl. split; [|done]. simpl. rewrite lookup_delete_ne, F1 by done. simpl. by rewrite lookup_insert_eq.
Qed.

(** ** Connecting *)

Lemma enqueue_syn_total fl s : has fl TCP_SYN = true -> has fl TCP_FIN = false -> has fl TCP_RST = false -> exists e s', tcp_enqueue_flags fl s = Ret (e, s') /\
  (e = ERR_OK \/ e = ERR_MEM /\ queued (pcb s') = queued (pcb s)) /\ (Forall no_rst (queued (pcb s)) -> Forall no_rst (queued (pcb s'))) /\
  (state (pcb s'), tim (pcb s'), rcv (pcb s'), local_port (pcb s'), remote_port (pcb s'), remote_ip (pcb s')) =
  (state (pcb s), tim (pcb s), rcv (pcb s), local_port (pcb s), remote_port (pcb s), remote_ip (pcb s)).
Proof.
  intros Hsyn Hfin Hrst. unfold tcp_enqueue_flags. assert (has fl (Z.lor TCP_SYN TCP_FIN) = true) as ->.
  { unfold has in *. rewrite Z.land_lor_distr_r. apply negb_true_iff, Z.eqb_neq. intros [E _]%Z.lor_eq_0_iff. by rewrite E in Hsyn. }
  rewrite Hsyn, Hfin. cbn [lwip_assert mbind outcome_bind]. unfold alloc_ram. destruct (ram_alloc _ _) as [ok n]. destruct ok; cbn [negb]; cycle 1.
  { eexists _, _. split; [reflexivity|]. split; [by right|done]. }
  unfold tcp_create_segment. simpl. destruct (_ <=? 0); simpl.
  { eexists _, _. split; [reflexivity|]. split; [by right|done]. }
  change (TRANSPORT_ROOM <? TCP_HLEN) with false. cbn iota. simpl.
  unfold queues_valid. simpl. rewrite bool_decide_false by (intros [_ H]; by destruct (unsent (snd (pcb s)))).
  rewrite orb_true_r. simpl. eexists _, _. split; [reflexivity|]. split; [by left|]. split; [|done].
  unfold queued. simpl. intros H. rewrite app_assoc. apply Forall_app. split; [done|]. by repeat constructor.
Qed.

(** The block of a closed connection. *)
Definition closed_at (a : Z) (port : Z) t b : Prop := blocks t !! a = Some b /\ state (tcb b) = CLOSED /\ local_port (tcb b) = port.

(** The local port of a connection that is to be opened. *)
Lemma connect_port a t b : calm t -> closed_at a 0 t b ->
  exists port x, tcp_new_port t = Ret (port, set_tcp_port x t) /\ (port = 0 \/ ~ port_taken port t) /\
    let t' := alter_block (upd_tcb (set_local_port port)) a (set_tcp_port x t) in
    calm t' /\ closed_at a port t' (upd_tcb (set_local_port port) b) /\ bound_pcbs t' = bound_pcbs t /\ a ∉ bound_pcbs t.
Proof.
  intros [Hok Hin] (Hb & Hc & Hp). destruct (new_port_runs t Hok) as (port & x & E & Hport). exists port, x. split; [done|]. split; [done|]. cbv zeta.
  assert (a ∉ bound_pcbs t) as Hnb by (eapply not_bound; [done|done|by right]).
  rewrite (alter_block_insert _ _ _ b) by done. split_and!; try done.
  - split; [|done]. destruct (sk_pcbs _ Hok _ _ Hb) as [[P1 P2] Hi]. rewrite Hc in Hi. apply (closed_update t a b (upd_tcb (set_local_port port) b) (bound_pcbs t)); try done; [by apply Hi|apply Hok].
  - split; [|done]. simpl. by rewrite lookup_insert_eq.
Qed.

(** The SYN is queued and sent, or there is no memory for it. *)
Definition syn_queued (a old mtu : Z) t : outcome (err_t * stack N) :=
  '(ret, t) ← at_pcb a (fun s => tcp_enqueue_flags TCP_SYN (upd (connect_pcb mtu) s)) t;
  if decide (ret = ERR_OK) then
    let t := alter_block (upd_tcb (set_state SYN_SENT)) a t in
    let t := if negb (old =? 0) then set_bound (TCP_RMV (bound_pcbs t) a) t else t in
    '(_, t) ← output_at a (reg_active a t);
    Ret (ERR_OK, t)
  else Ret (ret, t).
Lemma syn_queued_ok a old mtu port t b : calm t -> closed_at a port t b -> (old = 0 -> a ∉ bound_pcbs t) ->
  exists err t', syn_queued a old mtu t = Ret (err, t') /\ calm t' /\
    (err = ERR_OK /\ state_at a t' = Some SYN_SENT /\ a ∈ active_pcbs t' \/ err = ERR_MEM /\ state_at a t' = Some CLOSED).
Proof.
  intros [Hok Hin] (Hb & Hc & Hp) Hold. unfold syn_queued. destruct (sk_pcbs _ Hok _ _ Hb) as [[P1 P2] Hi]. rewrite Hc in Hi. destruct (Hi eq_refl) as [Q1 Q2].
  destruct (enqueue_syn_total TCP_SYN (upd (connect_pcb mtu) (set_pcb (tcb b) (regs t)))) as (e & s & H & He & Hr & Hf); try done. injection Hf as F1 F2 F3 F4 _ _.
  assert (pcb_ok (pcb s)) as Hpo by (split; [by apply Hr|by rewrite F2]).
  erewrite at_pcb_run; [|exact Hb|exact H]. cbn [mbind outcome_bind]. destruct He as [->|[-> He]].
  - rewrite decide_True by done. set (t1 := set_regs s _). set (b2 := upd_tcb (set_state SYN_SENT) (set_tcb (pcb s) b)).
    rewrite (alter_block_insert _ _ t1 (set_tcb (pcb s) b)) by (simpl; apply lookup_insert_eq). set (t2 := set_blocks _ t1).
    set (t3 := if negb (old =? 0) then _ else t2). assert (parts (reg_active a t3) = (<[a := b2]> (blocks t), (a :: active_pcbs t, tw_pcbs t, TCP_RMV (bound_pcbs t) a, listen_pcbs t), (free_tcp t, free_listen t))
      /\ tcp_input_pcb (reg_active a t3) = None) as [E3 Hin3].
    { subst t3 t2. destruct (Z.eqb_spec old 0) as [Hz|Hz]; cbn [negb]; (split; [|done]); unfold parts; simpl; rewrite insert_insert_eq; [|done]. by rewrite rmv_notin by auto. }
    assert (pcb_ok (tcb b2)) as Hpo2 by (destruct Hpo; by split). assert (stack_ok (reg_active a t3)) as Hok3 by (by apply (opened t a b b2)).
    set (t4 := reg_active a t3) in *. clearbody t4. injection E3 as G1 G2 G3 G4 G5 G6 G7.
    assert (blocks t4 !! a = Some b2) as Hb4 by (rewrite G1; apply lookup_insert_eq).
    destruct (sending_ok (is_input a t4) (set_pcb (tcb b2) (regs t4))) as (e & s5 & H5 & Hp5 & Hf5); [done|done|]. destruct (of_same _ _ Hf5) as (E5 & _).
    unfold output_at. erewrite at_pcb_run; [|exact Hb4|exact H5]. cbn [mbind outcome_bind]. eexists _, _. split; [reflexivity|]. split; [split; [|done]|left].
    + eapply (stack_ok_update t4 a b2 (set_tcb (pcb s5) b2)); try done; [left; simpl; by rewrite E5|]. simpl. by rewrite E5.
    + split; [done|]. split; [unfold state_at; simpl; rewrite lookup_insert_eq; simpl; by rewrite E5|]. simpl. rewrite G2. left.
  - rewrite decide_False by done. eexists _, _. split; [reflexivity|]. split; [split; [|done]|right].
    + apply (stack_ok_update t a b (set_tcb (pcb s) b)); try done; [by left|]. intros _. split; [by rewrite <- Q1|simpl; by rewrite F3].
    + split; [done|]. unfold state_at. simpl. rewrite lookup_insert_eq. simpl. rewrite F1. simpl. by rewrite Hc.
Qed.
Lemma closed_at_state a port t b : closed_at a port t b -> state_at a t = Some CLOSED.
Proof. intros (H1 & H2 & _). unfold state_at. rewrite H1. simpl. by rewrite H2. Qed.
Lemma calm_closed f a port t b : calm t -> closed_at a port t b -> state (tcb (f b)) = state (tcb b) -> local_port (tcb (f b)) = local_port (tcb b) ->
  (queued (tcb (f b)), ooseq (rcv (tcb (f b))), sa (tim (tcb (f b))), sv (tim (tcb (f b)))) = (queued (tcb b), ooseq (rcv (tcb b)), sa (tim (tcb b)), sv (tim (tcb b))) ->
  calm (alter_block f a t) /\ closed_at a port (alter_block f a t) (f b).
Proof.
  intros Hcalm (Hb & Hc & Hp) H1 H2 H3. split; [by eapply calm_alter|]. split; [|by rewrite H1, H2]. unfold alter_block. simpl. by rewrite lookup_alter_eq, Hb.
Qed.

Lemma tcp_connect_ok a ip port b t : calm t -> blocks t !! a = Some b -> state (tcb b) = CLOSED ->
  exists err t', tcp_connect a ip port t = Ret (err, t') /\ calm t' /\
    (err = ERR_OK /\ state_at a t' = Some SYN_SENT /\ a ∈ active_pcbs t' \/ err <> ERR_OK /\ state_at a t' = Some CLOSED).
Proof.
  intros Hcalm Hb Hc. unfold tcp_connect. rewrite Hb. cbn [deref mbind outcome_bind]. rewrite bool_decide_true by done. cbn [lwip_assert mbind outcome_bind].
  destruct (calm_closed (upd_tcb (fun p => set_remote_port port (set_remote_ip ip p))) a (local_port (tcb b)) t b Hcalm) as [Hcalm1 Hcl1]; try done.
  set (t1 := alter_block _ a t) in *. set (b1 := upd_tcb _ b) in *. assert (local_port (tcb b1) = local_port (tcb b) /\ reuseaddr b1 = reuseaddr b) as [Hl1 Hr1] by done. clearbody t1 b1.
  rewrite <- Hl1 in Hcl1. destruct (connect_netif b ip t1) as [[mtu addr]|]; [|exists ERR_RTE, t1; split_and!; try done; right; split; [done|by eapply closed_at_state]].
  set (t2 := if local_ip (tcb b) =? 0 then _ else t1). assert (exists b2, calm t2 /\ closed_at a (local_port (tcb b)) t2 b2) as (b2 & Hcalm2 & Hcl2).
  { subst t2. rewrite <- Hl1. destruct (_ =? 0); [|by exists b1]. eexists. by apply (calm_closed (upd_tcb (set_local_ip addr))). }
  clearbody t2. clear Hcalm1 Hcl1 Hl1 Hr1 t1 b1. fold (syn_queued a (local_port (tcb b)) mtu).
  assert (forall t b2 port, calm t -> closed_at a port t b2 -> (local_port (tcb b) = 0 -> a ∉ bound_pcbs t) -> exists err t', syn_queued a (local_port (tcb b)) mtu t = Ret (err, t') /\ calm t' /\
    (err = ERR_OK /\ state_at a t' = Some SYN_SENT /\ a ∈ active_pcbs t' \/ err <> ERR_OK /\ state_at a t' = Some CLOSED)) as Hsyn.
  { intros t3 b3 port3 H1 H2 H3. destruct (syn_queued_ok a (local_port (tcb b)) mtu port3 t3 b3 H1 H2 H3) as (err & t' & -> & Hcalm' & Hres). exists err, t'.
    split_and!; try done. destruct Hres as [?|[-> ?]]; [by left|by right]. }
  destruct (Z.eqb_spec (local_port (tcb b)) 0) as [Hz|Hz].
  - rewrite Hz in Hcl2. destruct (connect_port a t2 b2 Hcalm2 Hcl2) as (p & x & -> & _ & Hcalm3 & Hcl3 & Hbd & Hnb). cbn [mbind outcome_bind].
    set (t3 := alter_block _ a (set_tcp_port x t2)) in *. clearbody t3. destruct (Z.eqb_spec p 0) as [->|Hp].
    + rewrite decide_True by done. exists ERR_BUF, t3. split_and!; try done. right. split; [done|]. by eapply closed_at_state.
    + rewrite decide_False by auto. destruct (Hsyn t3 _ p Hcalm3 Hcl3) as (err & t' & E & ?); [intros _; by rewrite Hbd|]. exists err, t'. split; [|done]. rewrite <- E. unfold syn_queued. by rewrite Hz.
  - assert (exists err, (if reuseaddr b then p ← pcb_at a t2; used ← any_block (same_conn p) (concat [active_pcbs t2; tw_pcbs t2]) t2;
      Ret (if (used : bool) then ERR_USE else ERR_OK, t2) else Ret (ERR_OK, t2)) = Ret (err, t2)) as (err & ->).
    { destruct (reuseaddr b); [|by eexists]. destruct Hcl2 as (H1 & _). unfold pcb_at. rewrite H1. cbn [deref mbind outcome_bind].
      destruct (any_block_ok (same_conn (tcb b2)) (concat [active_pcbs t2; tw_pcbs t2]) t2) as (r & -> & _); [|by eexists].
      intros c H. apply (listed_block t2); [apply Hcalm2|]. unfold pcb_lists. simpl in *. rewrite !elem_of_app in *. tauto. }
    cbn [mbind outcome_bind]. destruct (decide (err <> ERR_OK)) as [He|He].
    + exists err, t2. split_and!; try done. right. split; [done|]. by eapply closed_at_state.
    + destruct (Hsyn t2 b2 _ Hcalm2 Hcl2) as (err' & t' & E & ?); [done|]. exists err', t'. split; [|done]. rewrite <- E. unfold syn_queued. by rewrite (proj2 (Z.eqb_neq _ 0) Hz).
Qed.
End calls.

Section alloc.
  Context {N : Type} `{!TcpNet N} `{!TcpBufs N} `{!TcpLink N} `{!TcpEvents N} `{!TcpEventsLaws N} `{!NetifIndex N}.
  Implicit Type t : stack N.

(** ** What is given up for a new block *)

Definition longest (f : block -> bool) (l : list Z) t (a : Z) : Prop :=
  exists b, a ∈ l /\ blocks t !! a = Some b /\ f b = true /\ forall c bc, c ∈ l -> blocks t !! c = Some bc -> f bc = true -> inactive_for bc t <= inactive_for b t.
Lemma oldest_ok f l t : (forall a, a ∈ l -> is_Some (blocks t !! a)) -> forall i c, exists r, oldest f l i c t = Ret r /\
  ((exists a b, r = Some a /\ longest f l t a /\ blocks t !! a = Some b /\ i <= inactive_for b t) \/
   (r = c /\ forall x bx, x ∈ l -> blocks t !! x = Some bx -> f bx = true -> inactive_for bx t < i)).
Proof.
  induction l as [|a l IH]; intros H i c; simpl.
  { exists c. split; [done|]. right. split; [done|]. intros x bx Hx. by apply not_elem_of_nil in Hx. }
  destruct (H a) as [b Hb]; [left|]. rewrite Hb. cbn [deref mbind outcome_bind]. assert (forall x, x ∈ l -> is_Some (blocks t !! x)) as H' by (intros; apply H; by right).
  destruct (f b && (i <=? inactive_for b t)) eqn:Hf.
  - apply andb_prop in Hf as [Hf Hi%Z.leb_le]. destruct (IH H' (inactive_for b t) (Some a)) as (r & -> & Hr). exists r. split; [done|]. left.
    destruct Hr as [(x & bx & -> & (b' & L1 & L2 & L3 & L4) & L5 & L6)|[-> Hr]].
    + simplify_eq. exists x, b'. split_and!; try done; [|lia]. exists b'. split_and!; try done; [by right|].
      intros y ye [->|Hy]%elem_of_cons Hye Hfy; [|by eapply L4]. simplify_eq. done.
    + exists a, b. split_and!; try done. exists b. split_and!; try done; [left|]. intros y ye [->|Hy]%elem_of_cons Hye Hfy; [by simplify_eq|]. pose proof (Hr y ye Hy Hye Hfy). lia.
  - destruct (IH H' i c) as (r & -> & Hr). exists r. split; [done|].
    assert (f b = true -> inactive_for b t < i) as Hb' by (intros E; rewrite E in Hf; by apply Z.leb_gt in Hf).
    destruct Hr as [(x & bx & -> & (b' & L1 & L2 & L3 & L4) & L5 & L6)|[-> Hr]].
    + left. simplify_eq. exists x, b'. split_and!; try done. exists b'. split_and!; try done; [by right|].
      intros y ye [->|Hy]%elem_of_cons Hye Hfy; [|by eapply L4]. simplify_eq. specialize (Hb' Hfy). lia.
    + right. split; [done|]. intros y ye [->|Hy]%elem_of_cons Hye Hfy; [|by eapply Hr]. simplify_eq. auto.
Qed.
Lemma lowest_ok l t : (forall a, a ∈ l -> is_Some (blocks t !! a)) -> forall v i c, exists r, lowest l v i c t = Ret r /\ (r = c \/ exists a, r = Some a /\ a ∈ l).
Proof.
  induction l as [|a l IH]; intros H v i c; simpl; [exists c; auto|]. destruct (H a) as [b Hb]; [left|]. rewrite Hb. cbn [deref mbind outcome_bind].
  assert (forall x, x ∈ l -> is_Some (blocks t !! x)) as H' by (intros; apply H; by right). destruct (_ || _).
  - destruct (IH H' (prio b) (inactive_for b t) (Some a)) as (r & -> & [->|(x & -> & Hx)]); eexists; (split; [reflexivity|]); right; eexists; (split; [reflexivity|]); [left|by right].
  - destruct (IH H' v i c) as (r & -> & [->|(x & -> & Hx)]); eexists; (split; [reflexivity|]); [by left|]. right. eexists. split; [reflexivity|]. by right.
Qed.

Lemma active_listed t a : stack_ok t -> a ∈ active_pcbs t -> is_Some (blocks t !! a).
Proof. intros Hok Ha. apply (listed_block t); [done|]. unfold pcb_lists. simpl. rewrite !elem_of_app. tauto. Qed.
Lemma tw_listed t a : stack_ok t -> a ∈ tw_pcbs t -> is_Some (blocks t !! a).
Proof. intros Hok Ha. apply (listed_block t); [done|]. unfold pcb_lists. simpl. rewrite !elem_of_app. tauto. Qed.

Lemma abandon_calm a r t b : calm t -> blocks t !! a = Some b -> state (tcb b) <> LISTEN -> exists t', abandon a r t = Ret t' /\ calm t'.
Proof. intros Hc Hb Hl. destruct (abandon_ok a r t b) as (t' & E & A); [apply Hc|apply Hc|done|done|]. exists t'. split; [done|]. by eapply calm_step. Qed.
Lemma active_state t a b : stack_ok t -> a ∈ active_pcbs t -> blocks t !! a = Some b -> state (tcb b) <> LISTEN.
Proof. intros Hok Ha Hb E. apply (sk_active _ Hok) in Ha as (st & H1 & H2). unfold state_at in H1. rewrite Hb in H1. injection H1 as <-. by rewrite E in H2. Qed.

Lemma kill_state_ok st t : calm t -> st = CLOSING \/ st = LAST_ACK -> exists t', tcp_kill_state st t = Ret t' /\ calm t'.
Proof.
  intros Hc Hst. unfold tcp_kill_state. rewrite bool_decide_true by done. cbn [lwip_assert mbind outcome_bind].
  destruct (oldest_ok (fun b => bool_decide (state (tcb b) = st)) (active_pcbs t) t) with (i := 0) (c := @None Z) as (r & -> & Hr); [intros; apply active_listed; [apply Hc|done]|].
  cbn [mbind outcome_bind]. destruct Hr as [(a & b & -> & (b' & L1 & L2 & _) & L3 & _)|[-> _]]; [|by exists t]. apply (abandon_calm a false t b); try done. eapply active_state; [apply Hc|done|done].
Qed.
Lemma kill_prio_ok v t : calm t -> exists t', tcp_kill_prio v t = Ret t' /\ calm t'.
Proof.
  intros Hc. unfold tcp_kill_prio. destruct (_ =? 0); [by exists t|]. destruct (lowest_ok (active_pcbs t) t) with (v := Z.min TCP_PRIO_MAX v - 1) (i := 0) (c := @None Z) as (r & -> & Hr);
    [intros; apply active_listed; [apply Hc|done]|]. cbn [mbind outcome_bind]. destruct Hr as [->|(a & -> & Ha)]; [by exists t|].
  destruct (active_listed t a) as [b Hb]; [apply Hc|done|]. apply (abandon_calm a true t b); try done. eapply active_state; [apply Hc|done|done].
Qed.
Lemma kill_timewait_ok t : calm t -> exists t', tcp_kill_timewait t = Ret t' /\ calm t'.
Proof.
  intros Hc. unfold tcp_kill_timewait. destruct (oldest_ok (fun _ => true) (tw_pcbs t) t) with (i := 0) (c := @None Z) as (r & -> & Hr); [intros; apply tw_listed; [apply Hc|done]|].
  cbn [mbind outcome_bind]. destruct Hr as [(a & b & -> & (b' & L1 & L2 & _) & L3 & _)|[-> _]]; [|by exists t]. apply (abandon_calm a true t b); try done.
  apply (sk_tw _ (proj1 Hc)) in L1. unfold state_at in L1. rewrite L3 in L1. injection L1 as ->. done.
Qed.

(** What the pending closes leave alone. *)
Definition same_lists t t' : Prop :=
  (active_pcbs t', tw_pcbs t', free_tcp t', tcp_ticks (regs t')) = (active_pcbs t, tw_pcbs t, free_tcp t, tcp_ticks (regs t)) /\
  forall a, a ∉ active_pcbs t -> blocks t' !! a = blocks t !! a.
Lemma same_lists_trans t1 t2 t3 : same_lists t1 t2 -> same_lists t2 t3 -> same_lists t1 t3.
Proof. intros [[= E1 E2 E3 E4] H1] [[= F1 F2 F3 F4] H2]. split; [congruence|]. intros a Ha. rewrite H2 by congruence. by apply H1. Qed.

Lemma closepend_ok l : forall t, calm t -> (forall a, a ∈ l -> a ∈ active_pcbs t) -> exists t', closepend_loop l t = Ret t' /\ calm t' /\ same_lists t t'.
Proof.
  induction l as [|a l IH]; intros t Hc Hl; simpl; [by exists t|]. assert (a ∈ active_pcbs t) as Ha by (apply Hl; left).
  destruct (active_listed t a) as [b Hb]; [apply Hc|done|]. rewrite (pcb_at_run _ _ _ Hb). cbn [mbind outcome_bind].
  assert (exists t1, (if has (flags (tcb b)) TF_CLOSEPEND then '(_, t) ← close_fin_at a (alter_block (upd_tcb (tcp_clear_flags TF_CLOSEPEND)) a t); Ret t else Ret t) = Ret t1 /\
    calm t1 /\ same_lists t t1) as (t1 & -> & Hc1 & Hs1).
  { destruct (has _ _); [|by exists t]. assert (calm (alter_block (upd_tcb (tcp_clear_flags TF_CLOSEPEND)) a t)) as Hc1 by (by eapply calm_alter).
    assert (same_lists t (alter_block (upd_tcb (tcp_clear_flags TF_CLOSEPEND)) a t)) as Hs1.
    { split; [done|]. intros x Hx. simpl. rewrite lookup_alter_ne; [done|]. by intros ->. }
    set (t1 := alter_block _ a t) in *. assert (blocks t1 !! a = Some (upd_tcb (tcp_clear_flags TF_CLOSEPEND) b)) as Hb1 by (simpl; by rewrite lookup_alter_eq, Hb). clearbody t1.
    destruct (shutdown_fin_at a t1 _ (proj1 Hc1) (proj2 Hc1) Hb1) as (t2 & E2 & A2); [simpl; eapply active_state; [apply Hc|done|done]|]. rewrite E2. cbn [mbind outcome_bind].
    exists t2. split; [done|]. split; [by eapply calm_step|]. eapply same_lists_trans; [exact Hs1|]. unfold close_fin_at, at_pcb in E2. rewrite Hb1 in E2. cbn [deref mbind outcome_bind] in E2.
    pose proof (as_vars _ _ A2) as [= _ _ _ Ht]. destruct (tcp_close_shutdown_fin _ _) as [[r s]| | |]; try done. injection E2 as _ <-. split; [simpl in *; by rewrite Ht|].
    intros x Hx. simpl. rewrite lookup_insert_ne; [done|]. intros <-. apply Hx. destruct Hs1 as [[= -> _ _ _] _]. done. }
  cbn [mbind outcome_bind]. destruct (IH t1 Hc1) as (t2 & -> & Hc2 & Hs2); [intros x Hx; destruct Hs1 as [[= -> _ _ _] _]; apply Hl; by right|].
  exists t2. split_and!; try done. by eapply same_lists_trans.
Qed.

Lemma or_free_ok f t : calm t -> (forall t, calm t -> exists t', f t = Ret t' /\ calm t') -> exists t', or_free f t = Ret t' /\ calm t' /\ (free_tcp t <> [] -> t' = t).
Proof. intros Hc Hf. unfold or_free. destruct (free_tcp t); [|by exists t]. destruct (Hf t Hc) as (t' & -> & ?). by exists t'. Qed.

(** The block that [tcp_alloc] takes. *)
Definition take_block (v : Z) t : outcome (option Z * stack N) :=
  match free_tcp t with
  | [] => Ret (None, t)
  | a :: free =>
      let b := Block (new_pcb (tcp_ticks (regs t))) (timer_ctr t) None v false NETIF_NO_INDEX false in
      Ret (Some a, set_blocks (<[a := b]> (blocks t)) (set_free_tcp free t))
  end.
Lemma take_block_ok v t : calm t -> exists r t', take_block v t = Ret (r, t') /\ calm t' /\
  match r with None => free_tcp t = [] | Some a => head (free_tcp t) = Some a /\ state_at a t' = Some CLOSED /\ a ∉ bound_pcbs t' end.
Proof.
  intros [Hok Hin]. unfold take_block. destruct (free_tcp t) as [|a free] eqn:Ef; [by eexists _, t|]. eexists _, _. split; [reflexivity|].
  assert (a ∈ free_tcp t ++ free_listen t) as Ha by (rewrite Ef; left).
  split_and!; [split; [|done]|done| |].
  - set (b := Block _ _ _ _ _ _ _). eapply (new_block t a b _ _ (listen_pcbs t) free (free_listen t)); try done; [by left|]. by rewrite Ef.
  - unfold state_at. simpl. by rewrite lookup_insert_eq.
  - intros Hb. apply (sk_bound _ Hok) in Hb as (b & Hb & _). by rewrite (proj2 (sk_free _ Hok) a Ha) in Hb.
Qed.
Lemma timewait_killed t : calm t -> tw_pcbs t <> [] -> exists a t', tcp_kill_timewait t = Ret t' /\ longest (fun _ => true) (tw_pcbs t) t a /\
  free_tcp t' = a :: free_tcp t /\ active_pcbs t' = active_pcbs t /\ calm t'.
Proof.
  intros Hc Htw. destruct (kill_timewait_ok t Hc) as (t' & E & Hc'). unfold tcp_kill_timewait in *.
  destruct (oldest_ok (fun _ => true) (tw_pcbs t) t) with (i := 0) (c := @None Z) as (r & Hr1 & Hr); [intros; apply tw_listed; [apply Hc|done]|]. rewrite Hr1 in *. cbn [mbind outcome_bind] in *.
  destruct Hr as [(a & b & -> & L & Hb & _)|[-> Hr]].
  2:{ destruct (tw_pcbs t) as [|a l] eqn:El; [done|]. destruct (tw_listed t a) as [b Hb]; [apply Hc|rewrite El; left|].
      pose proof (Hr a b ltac:(left) Hb eq_refl). unfold inactive_for, u32 in *. pose proof (Z.mod_pos_bound (tcp_ticks (regs t) - tmr (tim (tcb b))) (2 ^ 32)). lia. }
  exists a, t'. split; [done|]. split; [done|]. destruct L as (b' & L1 & _). pose proof L1 as Hst. apply (sk_tw _ (proj1 Hc)) in Hst. unfold state_at in Hst. rewrite Hb in Hst. injection Hst as Hst.
  unfold abort, abandon in E. rewrite (pcb_at_run _ _ _ Hb) in E. cbn [mbind outcome_bind] in E. rewrite Hst in E. rewrite bool_decide_false in E by done. cbn [negb lwip_assert mbind outcome_bind] in E.
  rewrite decide_True in E by done. destruct (sk_pcbs _ (proj1 Hc) _ _ Hb) as [P Q].
  destruct (pcb_remove_run a (set_tw (TCP_RMV (tw_pcbs t) a) t) b) as (s & Er & S1 & _); [done|done|done|]. rewrite Er in E. cbn [mbind outcome_bind] in E.
  erewrite pcb_free_run in E; [|simpl; apply lookup_insert_eq|by simpl; rewrite S1]. injection E as <-. done.
Qed.

Lemma tcp_alloc_ok v t : calm t -> exists r t', tcp_alloc v t = Ret (r, t') /\ calm t' /\
  match r with None => free_tcp t' = [] | Some a => state_at a t' = Some CLOSED /\ a ∉ bound_pcbs t' end.
Proof.
  intros Hc. unfold tcp_alloc. set (f := fun t => t ← tcp_handle_closepend t; tcp_kill_timewait t). destruct (or_free_ok f t Hc) as (t1 & -> & Hc1 & _).
  { intros t0 H0. subst f. cbv beta. unfold tcp_handle_closepend. destruct (closepend_ok (active_pcbs t0) t0 H0) as (t' & -> & H' & _); [done|]. cbn [mbind outcome_bind]. by apply kill_timewait_ok. }
  cbn [mbind outcome_bind]. destruct (or_free_ok (tcp_kill_state LAST_ACK) t1 Hc1) as (t2 & -> & Hc2 & _); [intros; apply kill_state_ok; auto|]. cbn [mbind outcome_bind].
  destruct (or_free_ok (tcp_kill_state CLOSING) t2 Hc2) as (t3 & -> & Hc3 & _); [intros; apply kill_state_ok; auto|]. cbn [mbind outcome_bind].
  destruct (or_free_ok (tcp_kill_prio v) t3 Hc3) as (t4 & -> & Hc4 & _); [intros; by apply kill_prio_ok|]. cbn [mbind outcome_bind].
  destruct (take_block_ok v t4 Hc4) as (r & t' & E & Hc' & Hr). exists r, t'. split; [exact E|]. split; [done|]. destruct r; [by destruct Hr as [_ ?]|].
  unfold take_block in E. rewrite Hr in E. by injection E as <-.
Qed.

(** (new connections) when all control blocks are in use and one of them is in TIME-WAIT, [tcp_alloc] returns a block: the one that was in
    this state for the longest time. No active connection is given up. *)
Theorem alloc_takes_timewait v t : calm t -> free_tcp t = [] -> tw_pcbs t <> [] ->
  exists a t', tcp_alloc v t = Ret (Some a, t') /\ longest (fun _ => true) (tw_pcbs t) t a /\ state_at a t' = Some CLOSED /\ active_pcbs t' = active_pcbs t /\ calm t'.
Proof.
  intros Hc Hf Htw. unfold tcp_alloc. assert (forall f, or_free f t = f t) as -> by (intros f; unfold or_free; by rewrite Hf). unfold tcp_handle_closepend.
  destruct (closepend_ok (active_pcbs t) t Hc) as (t0 & -> & Hc0 & [[= A1 A2 A3 A4] A5]); [done|]. cbn [mbind outcome_bind].
  destruct (timewait_killed t0 Hc0) as (a & t1 & -> & L & F1 & F2 & Hc1); [by rewrite A2|]. cbn [mbind outcome_bind]. rewrite A3, Hf in F1.
  assert (forall f, or_free f t1 = Ret t1) as Hnop by (intros f; unfold or_free; by rewrite F1). rewrite !Hnop. cbn [mbind outcome_bind]. rewrite Hnop. cbn [mbind outcome_bind]. rewrite Hnop. cbn [mbind outcome_bind].
  destruct (take_block_ok v t1 Hc1) as (r & t' & E & Hc' & Hr). unfold take_block in E. rewrite F1 in E. injection E as <- <-. destruct Hr as (_ & Hr & _).
  rewrite F1. eexists a, _. split; [reflexivity|]. split_and!; try done; [|simpl; by rewrite F2].
  assert (forall c bc, c ∈ tw_pcbs t -> blocks t !! c = Some bc -> blocks t0 !! c = Some bc) as Hsame.
  { intros c bc Hin Hb. rewrite A5; [done|]. intros Ha. apply (sk_tw _ (proj1 Hc)) in Hin. apply (sk_active _ (proj1 Hc)) in Ha as (st & H1 & H2). rewrite Hin in H1. by injection H1 as <-. }
  destruct L as (b & L1 & L2 & _ & L4). rewrite A2 in L1, L4. destruct (tw_listed t a) as [b' Hb']; [apply Hc|done|]. pose proof (Hsame a b' L1 Hb') as Hb''. assert (b' = b) as -> by congruence.
  exists b. split_and!; try done. intros c bc Hin Hbc _. specialize (L4 c bc Hin (Hsame c bc Hin Hbc) eq_refl). unfold inactive_for in *. by rewrite A4 in L4.
Qed.

(** ** Any series of calls *)

Inductive tcp_call : Type :=
  | CNew (v : Z) | CBind (a ip port : Z) | CBindNetif (a : Z) (idx : option Z) | CSetPrio (a v : Z) | CListen (a : Z) | CConnect (a ip port : Z)
  | CClose (a : Z) | CShutdown (a : Z) (rx tx : bool) | CAbort (a : Z).
Definition run_call (x : tcp_call) t : outcome (stack N) :=
  match x with
  | CNew v => '(_, t) ← tcp_alloc v t; Ret t
  | CBind a ip port => '(_, t) ← tcp_bind a ip port t; Ret t
  | CBindNetif a idx => tcp_bind_netif a idx t
  | CSetPrio a v => tcp_setprio a v t
  | CListen a => '(_, t) ← tcp_listen a t; Ret t
  | CConnect a ip port => '(_, t) ← tcp_connect a ip port t; Ret t
  | CClose a => '(_, t) ← tcp_close a t; Ret t
  | CShutdown a rx tx => '(_, t) ← tcp_shutdown a rx tx t; Ret t
  | CAbort a => abort a t
  end.
(** The block is there and in the state the function asks for; one that is bound is not bound again. *)
Definition call_legal (x : tcp_call) t : Prop :=
  match x with
  | CNew _ => True
  | CBind a _ _ => state_at a t = Some CLOSED /\ a ∉ bound_pcbs t
  | CListen a | CConnect a _ _ => state_at a t = Some CLOSED
  | CAbort a => exists st, state_at a t = Some st /\ st <> LISTEN
  | CBindNetif a _ | CSetPrio a _ | CClose a | CShutdown a _ _ => is_Some (blocks t !! a)
  end.
Fixpoint run_calls (xs : list tcp_call) t : outcome (stack N) := match xs with [] => Ret t | x :: xs => t ← run_call x t; run_calls xs t end.
Fixpoint calls_legal (xs : list tcp_call) t : Prop :=
  match xs with [] => True | x :: xs => call_legal x t /\ forall t', run_call x t = Ret t' -> calls_legal xs t' end.

Lemma state_block a t st : state_at a t = Some st -> exists b, blocks t !! a = Some b /\ state (tcb b) = st.
Proof. unfold state_at. destruct (blocks t !! a) as [b|]; [|done]. intros [= <-]. by exists b. Qed.
Lemma run_call_ok x t : calm t -> call_legal x t -> exists t', run_call x t = Ret t' /\ calm t'.
Proof.
  intros Hc. destruct x as [v|a ip port|a idx|a v|a|a ip port|a|a rx tx|a]; cbn [run_call call_legal].
  - intros _. destruct (tcp_alloc_ok v t Hc) as (r & t' & -> & ? & _). by exists t'.
  - intros [(b & Hb & Hs)%state_block Hn]. destruct (tcp_bind_ok a ip port b t Hc Hb Hs Hn) as (e & t' & -> & ? & _). by exists t'.
  - intros [b Hb]. unfold tcp_bind_netif. rewrite Hb. eexists. split; [reflexivity|]. by eapply calm_alter.
  - intros [b Hb]. unfold tcp_setprio. rewrite Hb. eexists. split; [reflexivity|]. by eapply calm_alter.
  - intros (b & Hb & Hs)%state_block. destruct (tcp_listen_ok a b t Hc Hb Hs) as (e & r & t' & -> & ? & _). by exists t'.
  - intros (b & Hb & Hs)%state_block. destruct (tcp_connect_ok a ip port b t Hc Hb Hs) as (e & t' & -> & ? & _). by exists t'.
  - intros [b Hb]. destruct (tcp_close_ok a t b (proj1 Hc) (proj2 Hc) Hb) as (e & t' & -> & A). exists t'. split; [done|]. by eapply calm_step.
  - intros [b Hb]. destruct (tcp_shutdown_ok a rx tx t b (proj1 Hc) (proj2 Hc) Hb) as (e & t' & -> & A). exists t'. split; [done|]. by eapply calm_step.
  - intros (st & (b & Hb & <-)%state_block & Hl). by eapply abandon_calm.
Qed.

(** C15: (calls) an application makes a series of calls outside of the processing of a segment, each with a block that exists; it binds, listens and connects
    only with closed blocks, binds none that is in the list of bound ones, and does not abort a listener ([calls_legal]); its error callbacks keep the lists right. Then each
    call returns, without a failed assertion and without touching a freed block; every block that is not closed is afterwards in exactly the list of its
    state, no list has a block twice, and the free blocks are in no list. *)
Theorem tcp_calls_keep_lists xs t : stack_ok t -> tcp_input_pcb t = None -> calls_legal xs t -> exists t', run_calls xs t = Ret t' /\ stack_ok t'.
Proof.
  intros Hok Hin. assert (calm t) as Hc by done. clear Hok Hin. revert t Hc. induction xs as [|x xs IH]; intros t Hc Hl; simpl; [exists t; split; [done|apply Hc]|].
  destruct Hl as [H1 H2]. destruct (run_call_ok x t Hc H1) as (t1 & E & Hc1). rewrite E. cbn [mbind outcome_bind]. by apply IH; [|apply H2].
Qed.
(** ** Ports *)

(** (binding) [tcp_bind] with a port says [ERR_USE], and changes nothing, exactly if a block of the lists it looks at has this port and an overlapping address, unless both
    blocks have [SOF_REUSEADDR]; otherwise the block has the address and the port afterwards and is in the list of bound blocks. Without a port it
    gets one that no block of any list has. *)
Theorem tcp_bind_answers a ip port b t : stack_ok t -> tcp_input_pcb t = None -> blocks t !! a = Some b -> state (tcb b) = CLOSED -> a ∉ bound_pcbs t ->
  exists err t', tcp_bind a ip port t = Ret (err, t') /\ stack_ok t' /\
    (port <> 0 -> in_use ip port b t /\ err = ERR_USE /\ t' = t \/ ~ in_use ip port b t /\ err = ERR_OK /\ bound_to a ip port b t t') /\
    (port = 0 -> err = ERR_BUF \/ err = ERR_OK /\ exists port', port' <> 0 /\ ~ port_taken port' t /\ bound_to a ip port' b t t').
Proof.
  intros Hok Hin Hb Hs Hn. destruct (tcp_bind_ok a ip port b t) as (err & t' & E & [Hok' _] & H); try done. by exists err, t'.
Qed.

(** (free ports) from a last port of the range on, [tcp_new_port] finds a port of the range that no block has, or says 0 when all of them are taken. *)
Theorem tcp_new_port_finds t : stack_ok t -> port_in_range (tcp_port t) ->
  exists port t', tcp_new_port t = Ret (port, t') /\ port_in_range (tcp_port t') /\
    (port = 0 /\ (forall q, port_in_range q -> port_taken q t) \/ port_in_range port /\ ~ port_taken port t).
Proof.
  intros Hok Hr. destruct (new_port_finds_ok t Hok Hr) as (port & x & E & Hx & H). exists port, (set_tcp_port x t). split_and!; try done. destruct H as [?|[-> ?]]; [by left|by right].
Qed.

Lemma wrapped_port t : stack_ok t -> tcp_port t = 0xffff -> ~ port_taken 0 t -> tcp_new_port t = Ret (0, set_tcp_port 0 t).
Proof.
  intros Hok Hp H0. unfold tcp_new_port. assert (exists n, Z.to_nat 0x4000 = S n) as (n & ->) by (exists (Z.to_nat 0x3fff); lia).
  pose proof (new_port_step n 0 t Hok) as H. cbv zeta in H. rewrite Hp in H. change (next_port 0xffff) with 0 in H. by destruct H as [[Ht _]|[_ ->]].
Qed.
(** (wrapped port) [tcp_init] may set the last port to the end of the range, which [tcp_new_port] never uses: the port behind it is 0, so that a block without
    a port cannot be bound although all ports are free. *)
Theorem wrapped_port_refused a ip b t : stack_ok t -> tcp_input_pcb t = None -> blocks t !! a = Some b -> state (tcb b) = CLOSED -> a ∉ bound_pcbs t ->
  ~ port_taken 0 t -> exists t', tcp_bind a ip 0 (tcp_init 0xffff t) = Ret (ERR_BUF, t') /\ tcp_port t' = 0.
Proof.
  intros Hok Hin Hb Hs Hn H0. set (t0 := tcp_init 0xffff t). assert (tcp_port t0 = 0xffff /\ blocks t0 = blocks t /\ stack_ok t0 /\ ~ port_taken 0 t0) as (E1 & E2 & E3 & E4).
  { split_and!; try done. by eapply stack_ok_ext; [|exact Hok]. }
  clearbody t0. clear Hok Hin H0. assert (forall port, port = 0 -> exists t', tcp_bind a ip port t0 = Ret (ERR_BUF, t') /\ tcp_port t' = 0) as H; [|by apply H].
  intros port Hp. pose proof (wrapped_port t0 E3 E1 E4) as Hw. unfold tcp_bind. rewrite E2, Hb. cbn [deref mbind outcome_bind]. rewrite bool_decide_true by done. cbn [lwip_assert mbind outcome_bind].
  rewrite (proj2 (Z.eqb_eq port 0) Hp), Hw. cbn [mbind outcome_bind]. rewrite Z.eqb_refl, decide_True by done. by eexists.
Qed.

(** ** A changed address *)

Lemma abandon_err a r t b : calm t -> blocks t !! a = Some b -> is_active (state (tcb b)) = true ->
  exists t1, abandon a r t = Ret (ev_err a ERR_ABRT t1) /\ blocks t1 !! a = None.
Proof.
  intros Hc Hb Hs. destruct (abandon_run a r t b) as (t1 & _ & Hn & E); [apply Hc|done|by intros H; rewrite H in Hs|].
  rewrite decide_False in E by (by intros H; rewrite H in Hs). by exists t1.
Qed.

(** (use after free) when the address of an interface changes, the loop over the connections goes on with the next one, even if the error callback of the connection
    that was aborted has freed it. *)
Theorem addr_changed_use_after_free fuel old new a c l b t : stack_ok t -> tcp_input_pcb t = None -> active_pcbs t = a :: c :: l -> blocks t !! a = Some b ->
  old <> 0 -> local_ip (tcb b) = old -> (forall t1, blocks (ev_err a ERR_ABRT t1) !! c = None) -> tcp_netif_ip_addr_changed (S (S fuel)) old new t = Undef.
Proof.
  intros Hok Hin Ha Hb Ho Hl Hev. assert (a ∈ active_pcbs t) as Hina by (rewrite Ha; left). pose proof Hina as (st & Hst & Hact)%(sk_active _ Hok).
  unfold state_at in Hst. rewrite Hb in Hst. injection Hst as <-. unfold tcp_netif_ip_addr_changed. rewrite (proj2 (Z.eqb_neq _ _) Ho). cbn [negb]. rewrite Ha. change (head (a :: c :: l)) with (Some a).
  cbn [addr_changed_list]. rewrite (pcb_at_run _ _ _ Hb). cbn [mbind outcome_bind]. unfold pcb_lists. cbn [next_ptr].
  assert (a ∉ listen_pcbs t /\ a ∉ bound_pcbs t) as [H1 H2].
  { split; [|eapply not_bound; [done|done|left; by intros E; rewrite E in Hact]]. intros H. apply (sk_listen _ Hok) in H. unfold state_at in H. rewrite Hb in H. injection H as E. by rewrite E in Hact. }
  rewrite decide_False, decide_False, decide_True by (done || by rewrite Ha). rewrite Ha. cbn [next_in]. rewrite Z.eqb_refl. change (head (c :: l)) with (Some c). cbn [mbind outcome_bind].
  rewrite (proj2 (Z.eqb_eq _ _) Hl). destruct (abandon_err a true t b) as (t1 & E & _); [done|done|done|]. unfold abort. rewrite E. cbn [mbind outcome_bind]. unfold pcb_at. by rewrite Hev.
Qed.
End alloc.
