(* ===== verification/TcpInput.v ===== *)
(** * Segments that arrive ([tcp_in.c])

    [tcp_input] behind the checks of the header: which connection a segment is for, and what happens to one for a listener, for a connection in
    TIME-WAIT, or for nobody. A segment for an active connection goes on to [tcp_process] ([TcpProcess]). *)

From stdpp Require Import gmap.
From S2P Require Import Prelude Chain Tcp TcpOpt TcpProcess TcpOut TcpStack TcpTimer TcpApi.

(** A segment as it arrives: addresses, ports, the index of the interface, whether it is marked as bypass, and its options. Numbers, flags, window and length
    are in [regs]. *)
Record arrival := Arrival { ar_src : Z; ar_dest : Z; ar_sport : Z; ar_dport : Z; ar_netif : Z; ar_bypass : bool; ar_opts : options }.

Definition on_netif (x : arrival) (b : block) : bool := (netif_idx b =? NETIF_NO_INDEX) || (netif_idx b =? ar_netif x).
Definition conn_matches (x : arrival) (b : block) : bool :=
  let p := tcb b in
  on_netif x b && ((remote_port p =? ar_sport x) && (local_port p =? ar_dport x) && (remote_ip p =? ar_src x) && (local_ip p =? ar_dest x)).

(** Where a segment goes. *)
Inductive target : Set := ToActive (a : Z) | ToTimeWait (a : Z) | ToListen (a : Z) | ToNobody.

(** The call of [accept] when there is no block for a new connection. *)
Class TcpAccept (N : Type) := { ev_no_block : Z -> stack N -> stack N }.

(** What [tcp_listen_input] fills in. *)
Definition syn_rcvd_pcb (x : arrival) (port sq : Z) (p : tcp_pcb) : tcp_pcb :=
  let p := set_remote_ip (ar_src x) (set_local_ip (ar_dest x) p) in
  let p := set_state SYN_RCVD (set_remote_port (ar_sport x) (set_local_port port p)) in
  let p := set_rcv_ann_right_edge (u32 (sq + 1)) (set_rcv_nxt (u32 (sq + 1)) p) in
  let p := set_snd_wl1 (u32 (sq - 1)) (set_snd_lbb 0 (set_lastack 0 (set_snd_nxt 1 (set_snd_wl2 0 p)))) in
  if ar_bypass x then set_is_bypass true p else p.

Section input.
  Context {N : Type} `{!TcpNet N} `{!TcpBufs N} `{!TcpLink N} `{!TcpEvents N} `{!NetifIndex N} `{!TcpAccept N}.
  Implicit Type s : input N.
  Implicit Type t : stack N.

(** ** Choosing the connection *)

(** The first block for which [f] holds; [check] is asserted on the way. *)
Fixpoint find_block (check f : block -> bool) (l : list Z) t : outcome (option Z) :=
  match l with
  | [] => Ret None
  | a :: l =>
      b ← deref (blocks t !! a);
      lwip_assert (check b);;
      if f b then Ret (Some a) else find_block check f l t
  end.
(** The listener with the address of the segment, or else the last one without an address ([lpcb_any]). *)
Fixpoint find_listener (x : arrival) (l : list Z) (any : option Z) t : outcome (option Z) :=
  match l with
  | [] => Ret any
  | a :: l =>
      b ← deref (blocks t !! a);
      if on_netif x b && (local_port (tcb b) =? ar_dport x) then
        if local_ip (tcb b) =? ar_dest x then Ret (Some a)
        else find_listener x l (if local_ip (tcb b) =? 0 then Some a else any) t
      else find_listener x l any t
  end.
(** The element is moved to the front of its list. *)
Definition to_front (a : Z) (l : list Z) : list Z := a :: TCP_RMV l a.

Definition demux (x : arrival) t : outcome (target * stack N) :=
  r ← find_block (fun b => is_active (state (tcb b))) (conn_matches x) (active_pcbs t) t;
  match r with
  | Some a => Ret (ToActive a, set_active (to_front a (active_pcbs t)) t)
  | None =>
      r ← find_block (fun b => bool_decide (state (tcb b) = TIME_WAIT)) (conn_matches x) (tw_pcbs t) t;
      match r with
      | Some a => Ret (ToTimeWait a, t)
      | None =>
          r ← find_listener x (listen_pcbs t) None t;
          match r with
          | Some l => Ret (ToListen l, set_listen (to_front l (listen_pcbs t)) t)
          | None => Ret (ToNobody, t)
          end
      end
  end.

(** ** TIME-WAIT *)

(** A reset as the answer to the segment. *)
Definition reset_arrival (x : arrival) (bypass : bool) s : input N :=
  tcp_rst (ackno s) (u32 (seqno s + tcplen s)) (ar_dest x) (ar_src x) (ar_dport x) (ar_sport x) bypass s.

Definition tcp_timewait_input (x : arrival) (input_pcb : bool) s : outcome (unit * input N) :=
  let r := rcv (pcb s) in
  if has (in_flags s) TCP_RST then Ret (tt, s)
  else if has (in_flags s) TCP_SYN && TCP_SEQ_BETWEEN (seqno s) (rcv_nxt r) (u32 (rcv_nxt r + rcv_wnd r)) then
    Ret (tt, reset_arrival x (is_bypass (pcb s)) s)
  else
    let s := if negb (has (in_flags s) TCP_SYN) && has (in_flags s) TCP_FIN then upd (set_tmr (tcp_ticks s)) s else s in
    if 0 <? tcplen s then '(_, s) ← tcp_output input_pcb (upd tcp_ack_now s); Ret (tt, s) else Ret (tt, s).

(** ** LISTEN *)

(** Options, window and segment size of the new connection, and the SYN+ACK. *)
Definition answer_syn (x : arrival) s : outcome (err_t * input N) :=
  p ← tcp_parseopt (ar_opts x) (pcb s);
  let s := set_pcb p s in
  let s := upd (fun p => set_snd_wnd_max (in_wnd s) (set_snd_wnd (in_wnd s) p)) s in
  let s := upd (fun p => set_mss (tcp_eff_send_mss_netif (mss p) (tcp_route (net s) (local_ip p) (remote_ip p))) p) s in
  tcp_enqueue_flags (Z.lor TCP_SYN TCP_ACK) s.

Definition tcp_listen_input (x : arrival) (l : Z) t : outcome (stack N) :=
  let s := regs t in
  if has (in_flags s) TCP_RST then Ret t
  else if has (in_flags s) TCP_ACK then Ret (set_regs (reset_arrival x (ar_bypass x) s) t)
  else if has (in_flags s) TCP_SYN then
    bl ← deref (blocks t !! l);
    '(r, t) ← tcp_alloc (prio bl) t;
    match r with
    | None => Ret (ev_no_block l t)
    | Some a =>
        bl ← deref (blocks t !! l);
        let t := alter_block (fun b => Block (set_keepalive (keepalive (tim (tcb bl))) (syn_rcvd_pcb x (local_port (tcb bl)) (seqno s) (tcb b)))
                                (last_timer b) (Some l) (prio b) (reuseaddr bl) (netif_idx bl) false) a t in
        '(rc, t) ← at_pcb a (answer_syn x) (reg_active a t);
        if decide (rc = ERR_OK) then '(_, t) ← output_at a t; Ret t
        else abandon a false t
    end
  else Ret t.

(** ** A segment *)

(** The connection that goes on with the segment, if it is for an active one. *)
Definition tcp_dispatch (x : arrival) t : outcome (option Z * stack N) :=
  '(tg, t) ← demux x t;
  match tg with
  | ToActive a => Ret (Some a, t)
  | ToTimeWait a => '(_, t) ← at_pcb a (tcp_timewait_input x (is_input a t)) t; Ret (None, t)
  | ToListen l => t ← tcp_listen_input x l t; Ret (None, t)
  | ToNobody => Ret (None, if negb (has (in_flags (regs t)) TCP_RST) then set_regs (reset_arrival x (ar_bypass x) (regs t)) t else t)
  end.
End input.
