(* ===== verification/TcpInputProps.v ===== *)
(** * Segments that arrive: theorems *)

From stdpp Require Import gmap.
From S2P Require Import Prelude Chain Tcp TcpAck TcpOpt TcpProcess TcpOut TcpStack TcpTimer TcpTimerOk TcpStackOk TcpApi TcpApiProps TcpInput.

Section demux.
  Context {N : Type} `{!TcpNet N} `{!TcpBufs N} `{!TcpLink N} `{!TcpEvents N} `{!TcpEventsLaws N} `{!NetifIndex N} `{!TcpAccept N}.
  Implicit Type t : stack N.

(** ** Searching *)

(** [f] holds for the block at [a]; it holds for none of a list. *)
Definition fits (f : block -> bool) t (a : Z) : Prop := exists b, blocks t !! a = Some b /\ f b = true.
Definition none_fits (f : block -> bool) t (l : list Z) : Prop := forall a, a ∈ l -> ~ fits f t a.

Lemma find_block_ok check f l t : (forall a, a ∈ l -> exists b, blocks t !! a = Some b /\ check b = true) ->
  exists r, find_block check f l t = Ret r /\ match r with Some a => a ∈ l /\ fits f t a | None => none_fits f t l end.
Proof.
  induction l as [|a l IH]; intros H; simpl; [exists None; split; [done|]; by intros a ?%not_elem_of_nil|].
  destruct (H a) as (b & Hb & Hc); [left|]. rewrite Hb. cbn [deref mbind outcome_bind]. rewrite Hc. cbn [lwip_assert mbind outcome_bind]. destruct (f b) eqn:Hf.
  { exists (Some a). split; [done|]. split; [left|]. by exists b. }
  destruct IH as (r & -> & Hr); [intros; apply H; by right|]. exists r. split; [done|]. destruct r as [c|]; [destruct Hr; split; [by right|done]|].
  intros c [->|Hc']%elem_of_cons; [intros (b' & ? & ?); congruence|by apply Hr].
Qed.

(** A listener for the address of the segment, or for any address. *)
Definition exact_listener (x : arrival) (b : block) : bool := on_netif x b && (local_port (tcb b) =? ar_dport x) && (local_ip (tcb b) =? ar_dest x).
Definition any_listener (x : arrival) (b : block) : bool := on_netif x b && (local_port (tcb b) =? ar_dport x) && (local_ip (tcb b) =? 0).
Lemma find_listener_ok x l t : (forall a, a ∈ l -> is_Some (blocks t !! a)) -> forall any, exists r, find_listener x l any t = Ret r /\
  ((exists a, r = Some a /\ a ∈ l /\ fits (exact_listener x) t a) \/
   (none_fits (exact_listener x) t l /\ ((exists a, r = Some a /\ a ∈ l /\ fits (any_listener x) t a) \/ (r = any /\ none_fits (any_listener x) t l)))).
Proof.
  induction l as [|a l IH]; intros H any; simpl.
  { exists any. split; [done|]. right. split; [by intros a ?%not_elem_of_nil|]. right. split; [done|]. by intros a ?%not_elem_of_nil. }
  destruct (H a) as [b Hb]; [left|]. rewrite Hb. cbn [deref mbind outcome_bind]. assert (forall c, c ∈ l -> is_Some (blocks t !! c)) as H' by (intros; apply H; by right).
  assert (forall f, f b = false -> none_fits f t l -> none_fits f t (a :: l)) as Hcons.
  { intros f Hf Hn c [->|Hc]%elem_of_cons; [intros (b' & ? & ?); congruence|by apply Hn]. }
  destruct (on_netif x b && (local_port (tcb b) =? ar_dport x)) eqn:Hport.
  2:{ destruct (IH H' any) as (r & -> & Hr). exists r. split; [done|]. destruct Hr as [(c & -> & Hc & Hf)|[Hn Hr]]; [left; exists c; split_and!; [done|by right|done]|].
      right. split; [apply Hcons; [unfold exact_listener; by rewrite Hport|done]|]. destruct Hr as [(c & -> & Hc & Hf)|[-> Hr]]; [left; exists c; split_and!; [done|by right|done]|].
      right. split; [done|]. apply Hcons; [unfold any_listener; by rewrite Hport|done]. }
  destruct (local_ip (tcb b) =? ar_dest x) eqn:Hip.
  { exists (Some a). split; [done|]. left. exists a. split_and!; [done|left|]. exists b. split; [done|]. unfold exact_listener. by rewrite Hport, Hip. }
  destruct (IH H' (if local_ip (tcb b) =? 0 then Some a else any)) as (r & -> & Hr). exists r. split; [done|].
  destruct Hr as [(c & -> & Hc & Hf)|[Hn Hr]]; [left; exists c; split_and!; [done|by right|done]|].
  right. split; [apply Hcons; [unfold exact_listener; by rewrite Hport, Hip|done]|]. destruct Hr as [(c & -> & Hc & Hf)|[-> Hr]]; [left; exists c; split_and!; [done|by right|done]|].
  destruct (local_ip (tcb b) =? 0) eqn:Hz.
  - left. exists a. split_and!; [done|left|]. exists b. split; [done|]. unfold any_listener. by rewrite Hport, Hz.
  - right. split; [done|]. apply Hcons; [unfold any_listener; by rewrite Hport, Hz|done].
Qed.

(** ** Lists *)

Lemma front_perm a l : a ∈ l -> to_front a l ≡ₚ l.
Proof.
  intros Ha. unfold to_front. induction l as [|b l IH]; [by apply not_elem_of_nil in Ha|]. simpl. destruct (Z.eqb_spec b a) as [->|Hne]; [done|].
  apply elem_of_cons in Ha as [->|Ha]; [done|]. by rewrite Permutation_swap, IH.
Qed.
Lemma calm_reorder t active listen : calm t -> active ≡ₚ active_pcbs t -> listen ≡ₚ listen_pcbs t -> calm (set_listen listen (set_active active t)).
Proof.
  intros [[(N1 & N2 & N3 & N4) I2 I3 I4 I5 I6 I7] Hin] Ea El. split; [|done]. split; try done; simpl.
  - split_and!; try done; [by rewrite Ea|by rewrite El].
  - intros a. rewrite <- (I2 a). by rewrite Ea.
  - intros a. rewrite <- (I4 a). by rewrite El.
Qed.

Lemma calm_regs s t : calm t -> calm (set_regs s t).
Proof. intros [[] Hin]. by split; [split|]. Qed.

(** Where a segment should go. *)
Definition right_target (x : arrival) (tg : target) t : Prop :=
  match tg with
  | ToActive a => a ∈ active_pcbs t /\ fits (conn_matches x) t a
  | ToTimeWait a => none_fits (conn_matches x) t (active_pcbs t) /\ a ∈ tw_pcbs t /\ fits (conn_matches x) t a
  | ToListen l => none_fits (conn_matches x) t (active_pcbs t ++ tw_pcbs t) /\ l ∈ listen_pcbs t /\
      (fits (exact_listener x) t l \/ none_fits (exact_listener x) t (listen_pcbs t) /\ fits (any_listener x) t l)
  | ToNobody => none_fits (conn_matches x) t (active_pcbs t ++ tw_pcbs t) /\ none_fits (exact_listener x) t (listen_pcbs t) /\ none_fits (any_listener x) t (listen_pcbs t)
  end.
Lemma none_fits_app f t l1 l2 : none_fits f t l1 -> none_fits f t l2 -> none_fits f t (l1 ++ l2).
Proof. intros H1 H2 a [?|?]%elem_of_app; auto. Qed.

Lemma demux_ok x t : calm t -> exists tg t', demux x t = Ret (tg, t') /\ calm t' /\ right_target x tg t /\
  active_pcbs t' ≡ₚ active_pcbs t /\ listen_pcbs t' ≡ₚ listen_pcbs t /\
  (blocks t', tw_pcbs t', bound_pcbs t', free_tcp t', free_listen t', regs t') = (blocks t, tw_pcbs t, bound_pcbs t, free_tcp t, free_listen t, regs t).
Proof.
  intros Hc. pose proof Hc as [Hok _]. unfold demux.
  destruct (find_block_ok (fun b => is_active (state (tcb b))) (conn_matches x) (active_pcbs t) t) as (r & -> & Hr).
  { intros a Ha. destruct (active_block t a Hok Ha) as (b & Hb & H1 & _). by exists b. }
  cbn [mbind outcome_bind]. destruct r as [a|].
  { destruct Hr as [Ha Hf]. eexists _, _. split; [reflexivity|]. pose proof (front_perm a _ Ha) as Hp. split_and!; try done.
    replace (set_active (to_front a (active_pcbs t)) t) with (set_listen (listen_pcbs t) (set_active (to_front a (active_pcbs t)) t)) by (by destruct t). by apply calm_reorder. }
  destruct (find_block_ok (fun b => bool_decide (state (tcb b) = TIME_WAIT)) (conn_matches x) (tw_pcbs t) t) as (r & -> & Hr2).
  { intros a Ha. destruct (tw_listed t a Hok Ha) as [b Hb]. exists b. split; [done|]. apply bool_decide_eq_true. apply (sk_tw _ Hok) in Ha. unfold state_at in Ha. rewrite Hb in Ha. by injection Ha. }
  cbn [mbind outcome_bind]. destruct r as [a|]; [destruct Hr2; by eexists _, t|].
  destruct (find_listener_ok x (listen_pcbs t) t) with (any := @None Z) as (r & -> & Hl).
  { intros a Ha. apply (listed_block t); [done|]. unfold pcb_lists. simpl. apply elem_of_app. by left. }
  cbn [mbind outcome_bind]. pose proof (none_fits_app _ _ _ _ Hr Hr2) as Hno. destruct r as [l|].
  - assert (l ∈ listen_pcbs t /\ (fits (exact_listener x) t l \/ none_fits (exact_listener x) t (listen_pcbs t) /\ fits (any_listener x) t l)) as [Hin Hfit].
    { destruct Hl as [(c & [= <-] & Hc' & Hf)|[Hn [(c & [= <-] & Hc' & Hf)|[? _]]]]; [by auto|by auto|done]. }
    eexists _, _. split; [reflexivity|]. pose proof (front_perm l _ Hin) as Hp. split_and!; try done.
    replace (set_listen (to_front l (listen_pcbs t)) t) with (set_listen (to_front l (listen_pcbs t)) (set_active (active_pcbs t) t)) by (by destruct t). by apply calm_reorder.
  - destruct Hl as [(c & ? & _)|[Hn [(c & ? & _)|[_ Hn2]]]]; [done|done|]. by eexists _, t.
Qed.
Lemma demux_head x a t t' : demux x t = Ret (ToActive a, t') -> head (active_pcbs t') = Some a.
Proof.
  unfold demux. destruct (find_block _ _ (active_pcbs t) t) as [[c|]| | |]; try done; cbn [mbind outcome_bind]; [by intros [= -> <-]|].
  destruct (find_block _ _ _ _) as [[c|]| | |]; try done; cbn [mbind outcome_bind]. destruct (find_listener _ _ _ _) as [[c|]| | |]; by cbn [mbind outcome_bind].
Qed.
(** C16: (demultiplexing) while the lists are right and no other segment is processed, a segment goes to an active connection with its addresses and ports, on its interface or on none, if there is one; else to
    one in TIME-WAIT; else to a listener of the port, rather one with the address of the segment than one for any address; else to nobody. The lists are only reordered. *)
Theorem demux_right x t : stack_ok t -> tcp_input_pcb t = None -> exists tg t', demux x t = Ret (tg, t') /\ stack_ok t' /\ right_target x tg t /\
  active_pcbs t' ≡ₚ active_pcbs t /\ listen_pcbs t' ≡ₚ listen_pcbs t /\ blocks t' = blocks t /\ tw_pcbs t' = tw_pcbs t.
Proof.
  intros Hok Hin. destruct (demux_ok x t) as (tg & t' & E & [Hok' _] & Hr & H1 & H2 & [= E1 E2 _ _ _ _]); [done|]. by exists tg, t'.
Qed.

(** ** TIME-WAIT *)

Lemma idle_sending i s : pcb_ok (pcb s) -> idle_pcb (pcb s) -> state (pcb s) <> LISTEN ->
  exists e s', tcp_output i s = Ret (e, s') /\ pcb_ok (pcb s') /\ idle_pcb (pcb s') /\ out_frame s s'.
Proof.
  intros Ho [Q1 Q2] Hl. destruct (sending_ok i s Ho Hl) as (e & s' & H & O & F). exists e, s'. split_and!; try done. split; [|destruct F as [_ [= _ _ _ ->] _ _ _ _ _]; done].
  apply forall_false. eapply (output_kept (fun _ => False)); [done|exact H|by apply forall_false].
Qed.
Lemma reset_keeps x bp s : pcb (reset_arrival x bp s) = pcb s /\ tcp_ticks (reset_arrival x bp s) = tcp_ticks s.
Proof. unfold reset_arrival, tcp_rst. destruct (hdr_alloc _) as [[] n]; simpl; [|done]. by destruct (output_control _ _ _ _). Qed.

Lemma timewait_ok x i s : pcb_ok (pcb s) -> idle_pcb (pcb s) -> state (pcb s) = TIME_WAIT -> exists s', tcp_timewait_input x i s = Ret (tt, s') /\
  pcb_ok (pcb s') /\ idle_pcb (pcb s') /\ state (pcb s') = TIME_WAIT /\ local_port (pcb s') = local_port (pcb s) /\
  tmr (tim (pcb s')) = (if negb (has (in_flags s) TCP_RST) && negb (has (in_flags s) TCP_SYN) && has (in_flags s) TCP_FIN then tcp_ticks s else tmr (tim (pcb s))).
Proof.
  intros Ho Hi Hs. unfold tcp_timewait_input. destruct (has (in_flags s) TCP_RST); [by exists s|]. cbn [negb andb].
  destruct (has (in_flags s) TCP_SYN && _) eqn:Hsyn.
  { apply andb_prop in Hsyn as [-> _]. cbn [negb andb]. eexists. split; [reflexivity|]. destruct (reset_keeps x (is_bypass (pcb s)) s) as [-> _]. done. }
  clear Hsyn. set (c := negb (has (in_flags s) TCP_SYN) && has (in_flags s) TCP_FIN). set (s1 := if c then _ else s).
  assert (pcb_ok (pcb s1) /\ idle_pcb (pcb s1) /\ state (pcb s1) = TIME_WAIT /\ local_port (pcb s1) = local_port (pcb s) /\ tmr (tim (pcb s1)) = if c then tcp_ticks s else tmr (tim (pcb s)))
    as (A1 & A2 & A3 & A4 & A5) by (subst s1; destruct c; [|done]; destruct Ho, Hi; split_and!; try done; by split).
  clearbody s1 c. destruct (0 <? tcplen s1); [|by exists s1]. destruct (idle_sending i (upd tcp_ack_now s1)) as (e & s2 & H & B1 & B2 & F); [by destruct A1; split|by destruct A2; split|simpl; by rewrite A3|].
  rewrite H. cbn [mbind outcome_bind]. exists s2. split; [done|]. destruct F as [[= F1 _ F2 _ _ _ _ _] _ _ [= _ _ _ _ F3 _ _ _ _ _] _ _ _]. simpl in *. split_and!; congruence.
Qed.
Lemma timewait_at x a t : calm t -> a ∈ tw_pcbs t -> exists b s,
  let t' := set_regs s (set_blocks (<[a := set_tcb (pcb s) b]> (blocks t)) t) in
  at_pcb a (tcp_timewait_input x (is_input a t)) t = Ret (tt, t') /\ blocks t !! a = Some b /\ calm t' /\
  state (pcb s) = TIME_WAIT /\ idle_pcb (pcb s) /\ local_port (pcb s) = local_port (tcb b) /\
  (has (in_flags (regs t)) TCP_RST = true -> set_tcb (pcb s) b = b /\ net s = net (regs t)) /\
  tmr (tim (pcb s)) = (if negb (has (in_flags (regs t)) TCP_RST) && negb (has (in_flags (regs t)) TCP_SYN) && has (in_flags (regs t)) TCP_FIN then tcp_ticks (regs t) else tmr (tim (tcb b))).
Proof.
  intros [Hok Hin] Ha. destruct (tw_listed t a Hok Ha) as [b Hb]. apply (sk_tw _ Hok) in Ha. unfold state_at in Ha. rewrite Hb in Ha. injection Ha as Hs.
  destruct (sk_pcbs _ Hok _ _ Hb) as [Ho Hi]. rewrite Hs in Hi. destruct (timewait_ok x (is_input a t) (set_pcb (tcb b) (regs t))) as (s & H & O & I & S & L & T); [done|by apply Hi|done|].
  exists b, s. erewrite at_pcb_run; [|exact Hb|exact H]. split_and!; try done.
  - split; [|done]. apply (stack_ok_update t a b (set_tcb (pcb s) b)); try done; left; simpl; congruence.
  - unfold tcp_timewait_input in H. simpl in H. destruct (has _ TCP_RST); [|done]. intros _. injection H as <-. by destruct b.
Qed.

(** ** LISTEN *)

Lemma answer_syn_total x s : options_ok (ar_opts x) -> exists e s', answer_syn x s = Ret (e, s') /\ (e = ERR_OK \/ e = ERR_MEM) /\
  (Forall no_rst (queued (pcb s)) -> Forall no_rst (queued (pcb s'))) /\
  (state (pcb s'), tim (pcb s'), rcv (pcb s'), local_port (pcb s'), remote_port (pcb s'), remote_ip (pcb s')) =
  (state (pcb s), tim (pcb s), rcv (pcb s), local_port (pcb s), remote_port (pcb s), remote_ip (pcb s)).
Proof.
  intros Ho. unfold answer_syn. destruct (parseopt_ok (ar_opts x) (pcb s) Ho) as (m & -> & _). cbn [mbind outcome_bind].
  match goal with |- context [tcp_enqueue_flags _ ?y] => set (s1 := y) end. destruct (enqueue_syn_total (Z.lor TCP_SYN TCP_ACK) s1) as (e & s' & -> & He & Hr & Hf); try done.
  exists e, s'. split_and!; try done. destruct He as [?|[? _]]; auto.
Qed.

(** A new connection for a SYN, without memory for the answer there is none. *)
Definition syn_answered (x : arrival) (l a : Z) sq bl t' : Prop :=
  a ∈ active_pcbs t' /\ exists b, blocks t' !! a = Some b /\ listener b = Some l /\ netif_idx b = netif_idx bl /\ state (tcb b) = SYN_RCVD /\
    local_port (tcb b) = local_port (tcb bl) /\ remote_port (tcb b) = ar_sport x /\ remote_ip (tcb b) = ar_src x /\ rcv_nxt (rcv (tcb b)) = u32 (sq + 1).

Lemma listen_syn_ok x l t bl a free : calm t -> options_ok (ar_opts x) -> blocks t !! l = Some bl -> free_tcp t = a :: free ->
  has (in_flags (regs t)) TCP_RST = false -> has (in_flags (regs t)) TCP_ACK = false -> has (in_flags (regs t)) TCP_SYN = true ->
  exists t', tcp_listen_input x l t = Ret t' /\ calm t' /\ (syn_answered x l a (seqno (regs t)) bl t' \/ exists t1, t' = ev_err a ERR_ABRT t1 /\ blocks t1 !! a = None).
Proof.
  intros Hc Ho Hl Hf F1 F2 F3. unfold tcp_listen_input. rewrite F1, F2, F3, Hl. cbn [deref mbind outcome_bind]. pose proof Hc as [Hok Hin].
  assert (a ∈ free_tcp t ++ free_listen t) as Hfa by (rewrite Hf; left). pose proof (proj2 (sk_free _ Hok) a Hfa) as Hna. assert (a <> l) as Hal by (intros ->; congruence).
  assert (forall f, or_free f t = Ret t) as Hnop by (intros f; unfold or_free; by rewrite Hf). unfold tcp_alloc. rewrite Hnop. cbn [mbind outcome_bind]. rewrite !Hnop. cbn [mbind outcome_bind]. rewrite Hnop.
  cbn [mbind outcome_bind]. rewrite Hnop. cbn [mbind outcome_bind]. rewrite Hf. cbn [mbind outcome_bind].
  destruct (take_block_ok (prio bl) t Hc) as (r & t0 & E0 & Hc0 & Hr0). unfold take_block in E0. rewrite Hf in E0. injection E0 as <- E0. rewrite E0. set (b0 := Block (new_pcb _) _ _ _ _ _ _) in E0.
  assert (blocks t0 !! a = Some b0 /\ blocks t0 !! l = Some bl) as [Hb0 Hl0] by (rewrite <- E0; simpl; by rewrite lookup_insert_eq, lookup_insert_ne). destruct Hr0 as (_ & _ & Hnb). clear E0.
  rewrite Hl0. cbn [deref mbind outcome_bind]. set (sq := seqno (regs t)). rewrite (alter_block_insert _ _ t0 b0) by done. set (b1 := Block (set_keepalive _ _) _ _ _ _ _ _). set (t1 := reg_active a _).
  assert (pcb_ok (tcb b1) /\ state (tcb b1) = SYN_RCVD /\ local_port (tcb b1) = local_port (tcb bl) /\ remote_port (tcb b1) = ar_sport x /\ remote_ip (tcb b1) = ar_src x /\
    rcv_nxt (rcv (tcb b1)) = u32 (sq + 1) /\ listener b1 = Some l /\ netif_idx b1 = netif_idx bl) as (O1 & S1 & P1 & P2 & P3 & P4 & P5 & P6).
  { subst b1. simpl. unfold syn_rcvd_pcb. destruct (ar_bypass x); split_and!; try done; (split; [by constructor|done]). }
  clearbody b1. assert (stack_ok t1 /\ tcp_input_pcb t1 = None /\ blocks t1 !! a = Some b1 /\ active_pcbs t1 = a :: active_pcbs t0) as (Hok1 & Hin1 & Hb1 & Ha1).
  { split_and!; [|apply Hc0|simpl; apply lookup_insert_eq|done]. apply (opened t0 a b0 b1); try done; [apply Hc0|by rewrite S1|]. unfold parts. simpl. by rewrite (rmv_notin (bound_pcbs t0)). }
  clearbody t1. destruct (answer_syn_total x (set_pcb (tcb b1) (regs t1)) Ho) as (e & s & H & He & Hno & [= G1 G2 G3 G4 G5 G6]). simpl in G1, G2, G3, G4, G5, G6. rewrite S1 in G1. erewrite at_pcb_run; [|exact Hb1|exact H]. cbn [mbind outcome_bind].
  assert (pcb_ok (pcb s)) as O2 by (destruct O1; split; [by apply Hno|by rewrite G2]). set (b2 := set_tcb (pcb s) b1). set (t2 := set_regs s _).
  assert (stack_ok t2 /\ tcp_input_pcb t2 = None /\ blocks t2 !! a = Some b2 /\ a ∈ active_pcbs t2) as (Hok2 & Hin2 & Hb2 & Ha2).
  { split_and!; [|done|simpl; apply lookup_insert_eq|simpl; rewrite Ha1; left]. apply (stack_ok_update t1 a b1 b2); try done; [left; simpl; congruence|simpl; by rewrite G1]. }
  assert (state (tcb b2) = SYN_RCVD) as S2 by (exact G1). destruct (decide (e = ERR_OK)) as [->|Hne].
  - destruct (sending_ok (is_input a t2) (set_pcb (tcb b2) (regs t2))) as (e & s3 & H3 & O3 & F); [done|simpl; by rewrite G1|].
    unfold output_at. erewrite at_pcb_run; [|exact Hb2|exact H3]. cbn [mbind outcome_bind]. eexists. split; [reflexivity|].
    destruct F as [[= K1 _ K2 K3 K4 _ _ _] [= K5 _ _ _] _ _ _ _ _]. simpl in K1, K2, K3, K4, K5. split; [split; [|done]|left].
    + apply (stack_ok_update t2 a b2 (set_tcb (pcb s3) b2)); try done; [left; exact K1|]. simpl. by rewrite K1, G1.
    + split; [done|]. exists (set_tcb (pcb s3) b2). simpl. rewrite lookup_insert_eq. split_and!; try done; simpl; rewrite ?K1, ?K2, ?K3, ?K4, ?K5, ?G1, ?G3, ?G4, ?G5, ?G6; done.
  - destruct (abandon_err a false t2 b2) as (t3 & E & Hgone); [done|done|by rewrite S2|]. destruct (abandon_calm a false t2 b2) as (t4 & E4 & Hc4); [done|done|by rewrite S2|].
    rewrite E in E4. injection E4 as <-. rewrite E. eexists. split; [reflexivity|]. split; [done|]. right. by exists t3.
Qed.
Lemma listen_input_ok x l t : calm t -> options_ok (ar_opts x) -> l ∈ listen_pcbs t -> free_tcp t <> [] -> exists t', tcp_listen_input x l t = Ret t' /\ calm t'.
Proof.
  intros Hc Ho Hl Hf. destruct (has (in_flags (regs t)) TCP_RST) eqn:F1; [exists t; unfold tcp_listen_input; by rewrite F1|].
  destruct (has (in_flags (regs t)) TCP_ACK) eqn:F2; [|destruct (has (in_flags (regs t)) TCP_SYN) eqn:F3].
  - unfold tcp_listen_input. rewrite F1, F2. eexists. split; [reflexivity|]. by apply calm_regs.
  - destruct (listed_block t l) as [bl Hb]; [apply Hc|unfold pcb_lists; simpl; apply elem_of_app; by left|]. destruct (free_tcp t) as [|a free] eqn:Ef; [done|].
    destruct (listen_syn_ok x l t bl a free) as (t' & E & H & _); try done. by exists t'.
  - unfold tcp_listen_input. rewrite F1, F2, F3. by exists t.
Qed.

(** ** A segment *)

(** (dispatch) while a block is free, every segment with readable options is handled without a failed assertion and without touching a freed block, and the lists stay
    in order; a segment goes on to [tcp_process] exactly if an active connection has its addresses and ports, with that connection at the head of the list. *)
Theorem dispatch_keeps_lists x t : stack_ok t -> tcp_input_pcb t = None -> options_ok (ar_opts x) -> free_tcp t <> [] ->
  exists r t', tcp_dispatch x t = Ret (r, t') /\ stack_ok t' /\
    match r with Some a => head (active_pcbs t') = Some a /\ fits (conn_matches x) t' a | None => none_fits (conn_matches x) t (active_pcbs t) end.
Proof.
  intros Hok Hin Ho Hf. unfold tcp_dispatch. destruct (demux_ok x t) as (tg & t1 & E & Hc1 & Hr & H1 & H2 & [= E1 E2 E3 E4 E5 E6]); [done|]. rewrite E. cbn [mbind outcome_bind].
  destruct tg as [a|a|l|].
  - exists (Some a), t1. split_and!; [done|apply Hc1| |unfold fits; rewrite E1; apply Hr]. eapply demux_head, E.
  - destruct Hr as (Hn & Ha & _). destruct (timewait_at x a t1) as (b & s & -> & _ & Hc2 & _); [done|by rewrite E2|]. eexists None, _. split; [reflexivity|]. split; [apply Hc2|done].
  - destruct Hr as (Hn & Hl & _). destruct (listen_input_ok x l t1) as (t2 & -> & Hc2); [done|done|by rewrite H2|by rewrite E4|]. exists None, t2. split_and!; [done|apply Hc2|].
    intros a Ha. apply Hn. apply elem_of_app. by left.
  - destruct Hr as (Hn & _). eexists None, _. split; [reflexivity|]. split; [destruct (negb _); [by apply calm_regs|apply Hc1]|]. intros a Ha. apply Hn. apply elem_of_app. by left.
Qed.
Lemma syn_dispatched x t a free : stack_ok t -> tcp_input_pcb t = None -> options_ok (ar_opts x) -> free_tcp t = a :: free ->
  has (in_flags (regs t)) TCP_RST = false -> has (in_flags (regs t)) TCP_ACK = false -> has (in_flags (regs t)) TCP_SYN = true ->
  none_fits (conn_matches x) t (active_pcbs t ++ tw_pcbs t) -> (exists l, l ∈ listen_pcbs t /\ (fits (exact_listener x) t l \/ fits (any_listener x) t l)) ->
  exists l bl t', right_target x (ToListen l) t /\ blocks t !! l = Some bl /\ tcp_dispatch x t = Ret (None, t') /\ stack_ok t' /\
    (syn_answered x l a (seqno (regs t)) bl t' \/ exists t1, t' = ev_err a ERR_ABRT t1 /\ blocks t1 !! a = None).
Proof.
  intros Hok Hin Ho Hf F1 F2 F3 Hn (l0 & Hl0 & Hfit). unfold tcp_dispatch. destruct (demux_ok x t) as (tg & t1 & E & Hc1 & Hr & H1 & H2 & [= E1 E2 E3 E4 E5 E6]); [done|]. rewrite E. cbn [mbind outcome_bind].
  destruct tg as [c|c|l|].
  - destruct Hr as [Ha ?]. destruct (Hn c); [apply elem_of_app; by left|done].
  - destruct Hr as (_ & Ha & ?). destruct (Hn c); [apply elem_of_app; by right|done].
  - pose proof Hr as (_ & Hl & _). destruct (listed_block t l) as [bl Hb]; [done|unfold pcb_lists; simpl; apply elem_of_app; by left|].
    rewrite <- E6 in *. rewrite <- E4 in Hf. destruct (listen_syn_ok x l t1 bl a free) as (t2 & -> & Hc2 & H); try done; [by rewrite E1|]. exists l, bl, t2. split_and!; try done. apply Hc2.
  - destruct Hr as (_ & Hx & Hy). destruct Hfit; [by destruct (Hx l0)|by destruct (Hy l0)].
Qed.
(** (passive open) a SYN that no connection has the addresses and ports of, but some listener has the port of, opens a connection for the best of these listeners: the free block
    is taken and put into the list of active connections in SYN-RECEIVED, with the ports and addresses of the segment, the number after its sequence number expected, and the
    listener and interface it came by. If there is no memory for the answer, the block is free again before the error callback runs. *)
Theorem syn_opens_connection x t a free : stack_ok t -> tcp_input_pcb t = None -> options_ok (ar_opts x) -> free_tcp t = a :: free ->
  has (in_flags (regs t)) TCP_RST = false -> has (in_flags (regs t)) TCP_ACK = false -> has (in_flags (regs t)) TCP_SYN = true ->
  none_fits (conn_matches x) t (active_pcbs t ++ tw_pcbs t) -> (exists l, l ∈ listen_pcbs t /\ (fits (exact_listener x) t l \/ fits (any_listener x) t l)) ->
  exists l bl t', right_target x (ToListen l) t /\ blocks t !! l = Some bl /\ tcp_dispatch x t = Ret (None, t') /\ stack_ok t' /\
    (syn_answered x l a (seqno (regs t)) bl t' \/ exists t1, t' = ev_err a ERR_ABRT t1 /\ blocks t1 !! a = None).
Proof. apply syn_dispatched. Qed.
(** (TIME-WAIT) a segment for a connection in TIME-WAIT leaves it there, with its ports and nothing queued; a reset changes nothing, and only a FIN without SYN starts its timer again. *)
Theorem timewait_answers x t a t1 : stack_ok t -> tcp_input_pcb t = None -> demux x t = Ret (ToTimeWait a, t1) ->
  exists t' b b', tcp_dispatch x t = Ret (None, t') /\ stack_ok t' /\ blocks t !! a = Some b /\ blocks t' !! a = Some b' /\ state (tcb b') = TIME_WAIT /\
    idle_pcb (tcb b') /\ local_port (tcb b') = local_port (tcb b) /\ (has (in_flags (regs t)) TCP_RST = true -> b' = b /\ net (regs t') = net (regs t)) /\
    tmr (tim (tcb b')) = (if negb (has (in_flags (regs t)) TCP_RST) && negb (has (in_flags (regs t)) TCP_SYN) && has (in_flags (regs t)) TCP_FIN
                          then tcp_ticks (regs t) else tmr (tim (tcb b))).
Proof.
  intros Hok Hin E. unfold tcp_dispatch. rewrite E. cbn [mbind outcome_bind]. destruct (demux_ok x t) as (tg & t2 & E' & Hc1 & Hr & H1 & H2 & [= E1 E2 E3 E4 E5 E6]); [done|].
  rewrite E in E'. injection E' as <- <-. destruct Hr as (_ & Ha & _). rewrite <- E2 in Ha. destruct (timewait_at x a t1 Hc1 Ha) as (b & s & -> & Hb & Hc2 & S1 & S2 & S3 & S4 & S5).
  cbn [mbind outcome_bind]. eexists _, b, _. split; [reflexivity|]. split; [apply Hc2|]. split; [by rewrite <- E1|]. split; [simpl; apply lookup_insert_eq|]. rewrite <- E6. split_and!; try done.
Qed.
End demux.
