(* ===== verification/TcpHeader.v ===== *)
(** * The TCP header ([tcp_in.c])

    The beginning of [tcp_input]: the checks of the header, options that go on in the second pbuf, and the fields in host byte order. A packet with
    multi-node flags goes to [tcp_netml_input] ([TcpNetml]), the others are segments of TCP proper ([TcpInput]). *)

From stdpp Require Import gmap.
From S2P Require Import Prelude Chain Def Ip4Addr Route Ip4Hdr Tcp TcpOpt TcpProcess TcpOut TcpNetml.

Definition NETML_CTL : Z := 0x00.
Definition NETML_CTL_SW : Z := 0x01.
Definition INTH_BYPASS (fl : Z) : bool := fl =? NETML_BYPASS.
Definition INTH_CTL (fl : Z) : bool := (fl =? NETML_CTL) || (fl =? NETML_CTL_SW).
Definition TCPH_HDRLEN (w : Z) : Z := Z.shiftr (lwip_htons w) 12.
Definition TCPH_HDRLEN_BYTES (w : Z) : Z := u8 (Z.shiftl (TCPH_HDRLEN w) 2).

(** [struct tcp_hdr] with the fields that are read; [t_word] is [_hdrlen_rsvd_flags] as it is stored, the others are in host byte order. *)
Record tcp_hdr := TcpHdr { t_src : Z; t_dest : Z; t_seqno : Z; t_ackno : Z; t_word : Z; t_wnd : Z }.
Definition read_tcp_hdr (d : list Z) : tcp_hdr :=
  TcpHdr (get16 d 0) (get16 d 2) (lwip_htonl (get_ip d 4)) (lwip_htonl (get_ip d 8)) (get8 d 12 + 256 * get8 d 13) (get16 d 14).

(** The header, the options and the packet behind them; [None] if the packet is dropped. *)
Definition tcp_header (c : ip_ctx) (p : chain) : outcome (option (tcp_hdr * options * chain)) :=
  match p with
  | [] => Undef
  | d :: p =>
      if Z.of_nat (length d) <? TCP_HLEN then Ret None
      else if ip4_addr_isbroadcast (ctx_dest c) (ctx_netif c) || ip4_addr_ismulticast (ctx_dest c) then Ret None
      else
        let h := read_tcp_hdr d in
        let hdrlen_bytes := TCPH_HDRLEN_BYTES (t_word h) in
        if (hdrlen_bytes <? TCP_HLEN) || (tot_len (d :: p) <? hdrlen_bytes) then Ret None
        else
          let tcphdr_optlen := u16 (hdrlen_bytes - TCP_HLEN) in
          let opt1 i := get8 d (Z.to_nat (TCP_HLEN + i)) in
          if hdrlen_bytes <=? Z.of_nat (length d) then
            Ret (Some (h, Options tcphdr_optlen opt1 tcphdr_optlen None, drop (Z.to_nat hdrlen_bytes) d :: p))
          else
            match p with
            | [] => Assert
            | e :: p =>
                let opt1len := Z.of_nat (length d) - TCP_HLEN in
                let opt2len := u16 (tcphdr_optlen - opt1len) in
                if Z.of_nat (length e) <? opt2len then Ret None
                else Ret (Some (h, Options tcphdr_optlen opt1 opt1len (Some (fun i => get8 e (Z.to_nat i))), [] :: drop (Z.to_nat opt2len) e :: p))
            end
  end.

(** What becomes of a packet: nothing, a packet of the multi-node extension, or a segment: its header, whether it is marked as bypass, its options,
    [tcplen] and the packet. *)
Inductive tcp_packet : Type :=
  | Dropped_segment
  | Netml_packet (h : tcp_hdr) (k : pkt)
  | Segment (h : tcp_hdr) (bypass : bool) (o : options) (tcplen : Z) (p : chain).

Definition tcp_classify (c : ip_ctx) (p : chain) : outcome tcp_packet :=
  r ← tcp_header c p;
  Ret match r with
  | None => Dropped_segment
  | Some (h, o, p) =>
      let netml_flags := TCPH_OFFSET_FLAGS (t_word h) in
      let is_bypass := INTH_BYPASS netml_flags in
      let is_ctl := negb is_bypass && INTH_CTL netml_flags in
      let tcplen := u16 (tot_len p) in
      if negb is_bypass && negb is_ctl then Netml_packet h (Pkt (t_seqno h) (t_ackno h) (t_word h) p)
      else if has (TCPH_FLAGS (t_word h)) (Z.lor TCP_FIN TCP_SYN) then
        if u16 (tcplen + 1) <? tot_len p then Dropped_segment else Segment h is_bypass o (u16 (tcplen + 1)) p
      else Segment h is_bypass o tcplen p
  end.

(** [tcp_output_alloc_header_common]: the bytes of the header of a control segment with [optlen] bytes of options. *)
Definition ctl_word (optlen fl : Z) (bypass : bool) : Z :=
  let w := TCPH_HDRLEN_FLAGS_SET (5 + optlen / 4) fl in
  if bypass then TCPH_OFFSET_SETBIT w NETML_BYPASS else w.
Definition ctl_hdr_bytes (h : ctl_hdr) (optlen : Z) : list Z :=
  let w := ctl_word optlen (h_flags h) (h_bypass h) in
  be16 (h_src h) ++ be16 (h_dest h) ++ ip_bytes (lwip_htonl (h_seqno h)) ++ ip_bytes (lwip_htonl (h_ackno h)) ++
  [w mod 256; w / 256] ++ be16 (h_wnd h) ++ [0; 0; 0; 0].

(** ** Properties *)

Lemma ctl_word_fields k fl bp : 0 <= k <= 10 -> 0 <= fl < 64 ->
  let w := ctl_word (4 * k) fl bp in
  0 <= w < 65536 /\ TCPH_FLAGS w = fl /\ TCPH_HDRLEN_BYTES w = 20 + 4 * k /\ TCPH_OFFSET_FLAGS w = if bp then NETML_BYPASS else NETML_CTL.
Proof.
  intros Hk Hf w. subst w.
  assert (forallb (fun k => forallb (fun fl => forallb (fun bp => let w := ctl_word (4 * k) fl bp in
    (0 <=? w) && (w <? 65536) && (TCPH_FLAGS w =? fl) && (TCPH_HDRLEN_BYTES w =? 20 + 4 * k) && (TCPH_OFFSET_FLAGS w =? if bp then NETML_BYPASS else NETML_CTL)) [true; false]) (seqZ 0 64)) (seqZ 0 11) = true) as H
    by (by vm_compute).
  rewrite forallb_forall in H. specialize (H k). rewrite <- list_elem_of_In, elem_of_seqZ in H. specialize (H ltac:(lia)). cbv beta in H.
  rewrite forallb_forall in H. specialize (H fl). rewrite <- list_elem_of_In, elem_of_seqZ in H. specialize (H ltac:(lia)). cbv beta in H. rewrite forallb_forall in H.
  specialize (H bp ltac:(destruct bp; simpl; auto)). cbv beta zeta in H. rewrite !andb_true_iff in H. lia.
Qed.

Lemma get8_app_l l l' i : (i < length l)%nat -> get8 (l ++ l') i = get8 l i.
Proof. intros H. unfold get8. by rewrite lookup_app_l. Qed.
Lemma get8_app_r l l' i : get8 (l ++ l') (length l + i) = get8 l' i.
Proof. unfold get8. rewrite lookup_app_r by lia. do 2 f_equal. lia. Qed.

(** The header as it is read. *)
Definition sent_hdr (h : ctl_hdr) (optlen : Z) : tcp_hdr :=
  TcpHdr (h_src h) (h_dest h) (h_seqno h) (h_ackno h) (ctl_word optlen (h_flags h) (h_bypass h)) (h_wnd h).
Definition ctl_hdr_ok (h : ctl_hdr) : Prop :=
  (0 <= h_src h < 65536) /\ (0 <= h_dest h < 65536) /\ (0 <= h_seqno h < 2 ^ 32) /\ (0 <= h_ackno h < 2 ^ 32) /\ (0 <= h_flags h < 64) /\ (0 <= h_wnd h < 65536).
Lemma read_ctl_hdr h k l : ctl_hdr_ok h -> 0 <= k <= 10 -> read_tcp_hdr (ctl_hdr_bytes h (4 * k) ++ l) = sent_hdr h (4 * k).
Proof.
  intros (R1 & R2 & R3 & R4 & R5 & R6) Hk. destruct (ctl_word_fields k (h_flags h) (h_bypass h) Hk R5) as ([W1 W2] & _). unfold sent_hdr, ctl_hdr_bytes. set (w := ctl_word _ _ _) in *. clearbody w.
  rewrite <- (htonl_involutive _ R3) at 2. rewrite <- (htonl_involutive _ R4) at 2. apply lwip_htonl_range in R3, R4. set (x := lwip_htonl (h_seqno h)) in *. set (y := lwip_htonl (h_ackno h)) in *. clearbody x y.
  unfold read_tcp_hdr, get_ip, get16, get8, ip_bytes, be16. simpl. change (2 ^ 32) with 4294967296 in *. f_equal; try f_equal; zdm.
Qed.

(** The options as they are read, wherever the first pbuf ends. *)
Definition opts_read (o : options) (opts : list Z) : Prop :=
  optlen o = Z.of_nat (length opts) /\ forall i, 0 <= i < optlen o -> tcp_get_next_optbyte o i = get8 opts (Z.to_nat i).
(** Whom the header is sent to. *)
Definition unicast (c : ip_ctx) : Prop := ip4_addr_isbroadcast (ctx_dest c) (ctx_netif c) = false /\ ip4_addr_ismulticast (ctx_dest c) = false.

Lemma header_split c h k hdr d p opts data : ctl_hdr_ok h -> 0 <= k <= 10 -> unicast c -> hdr = ctl_hdr_bytes h (4 * k) -> Z.of_nat (length opts) = 4 * k ->
  concat (d :: p) = opts ++ data -> (length opts <= length d + length (default [] (head p)))%nat ->
  exists o q, tcp_header c ((hdr ++ d) :: p) = Ret (Some (sent_hdr h (4 * k), o, q)) /\ concat q = data /\ opts_read o opts.
Proof.
  intros Hh Hk [Hb Hm] Hhdr Ho Hc Hl. unfold tcp_header. assert (length hdr = 20%nat) as Hlen by (by subst hdr).
  assert (forall i, get8 (hdr ++ d) (Z.to_nat (TCP_HLEN + i)) = get8 (hdr ++ d) (length hdr + Z.to_nat i) \/ i < 0) as Hget.
  { intros i. destruct (Z.lt_ge_cases i 0); [by right|left]. f_equal. rewrite Hlen. unfold TCP_HLEN. lia. }
  rewrite (proj2 (Z.ltb_ge _ _)) by (rewrite length_app, Hlen; unfold TCP_HLEN; lia). rewrite Hb, Hm. cbn [orb]. assert (read_tcp_hdr (hdr ++ d) = sent_hdr h (4 * k)) as -> by (subst hdr; by apply read_ctl_hdr).
  destruct (ctl_word_fields k (h_flags h) (h_bypass h) Hk) as (_ & _ & Hw & _); [apply Hh|]. cbn [sent_hdr t_word]. rewrite Hw.
  assert (tot_len ((hdr ++ d) :: p) = 20 + Z.of_nat (length opts) + Z.of_nat (length data)) as Ht.
  { unfold tot_len. cbn [concat]. rewrite <- app_assoc. change (d ++ concat p) with (concat (d :: p)). rewrite Hc, !length_app. lia. }
  rewrite Ht, (proj2 (Z.ltb_ge _ _)), (proj2 (Z.ltb_ge _ _)) by (unfold TCP_HLEN; lia). cbn [orb]. replace (u16 (20 + 4 * k - TCP_HLEN)) with (4 * k) by (unfold u16, TCP_HLEN; rewrite Z.mod_small; lia).
  rewrite length_app, Hlen. destruct (Z.leb_spec (20 + 4 * k) (Z.of_nat (20 + length d))) as [Hle|Hgt].
  - eexists _, _. split; [reflexivity|]. split.
    + rewrite (drop_app_ge hdr) by lia. cbn [concat]. rewrite <- drop_app_le by lia. change (d ++ concat p) with (concat (d :: p)). rewrite Hc. replace (Z.to_nat (20 + 4 * k) - length hdr)%nat with (length opts) by lia. by rewrite drop_app_length.
    + split; [done|]. intros i Hi. unfold tcp_get_next_optbyte. cbn [opt2 opt1 optlen] in *. destruct (Hget i) as [->|]; [|lia]. rewrite get8_app_r, <- (get8_app_l d (concat p)) by lia.
      change (d ++ concat p) with (concat (d :: p)). rewrite Hc. apply get8_app_l. lia.
  - destruct p as [|e p]; [simpl in Hl; lia|]. simpl in Hl. replace (u16 (4 * k - (Z.of_nat (20 + length d) - TCP_HLEN))) with (4 * k - Z.of_nat (length d)) by (unfold u16, TCP_HLEN; rewrite Z.mod_small; lia).
    rewrite (proj2 (Z.ltb_ge _ _)) by lia. cbn [concat] in Hc. eexists _, _. split; [reflexivity|]. split.
    + cbn [concat app]. rewrite <- drop_app_le by lia. rewrite <- (drop_app_length opts data), <- Hc. rewrite (drop_app_ge d) by lia. f_equal. lia.
    + split; [done|]. intros i Hi. unfold tcp_get_next_optbyte. cbn [opt2 opt1 optlen opt1len] in *. destruct (Hget i) as [->|]; [|lia].
      assert (get8 opts (Z.to_nat i) = get8 (d ++ e ++ concat p) (Z.to_nat i)) as -> by (rewrite Hc; symmetry; apply get8_app_l; lia).
      destruct (Z.ltb_spec i (Z.of_nat (20 + length d) - TCP_HLEN)) as [H1|H1]; unfold TCP_HLEN in H1.
      * rewrite get8_app_r. symmetry. apply get8_app_l. lia.
      * assert (Z.to_nat i = (length d + Z.to_nat (i - Z.of_nat (length d)))%nat) as -> by lia. rewrite get8_app_r, get8_app_l by lia. f_equal. unfold u8, TCP_HLEN. rewrite Z.mod_small by lia. lia.
Qed.
Lemma header_reads c h k d p opts data : ctl_hdr_ok h -> 0 <= k <= 10 -> unicast c -> Z.of_nat (length opts) = 4 * k ->
  concat (d :: p) = ctl_hdr_bytes h (4 * k) ++ opts ++ data -> (20 <= length d)%nat -> (20 + length opts <= length d + length (default [] (head p)))%nat ->
  tot_len (d :: p) < 65536 -> exists o q,
    tcp_classify c (d :: p) = Ret (Segment (sent_hdr h (4 * k)) (h_bypass h) o (tcp_len (Z.of_nat (length data)) (h_flags h)) q) /\ concat q = data /\ opts_read o opts.
Proof.
  intros Hh Hk Hu Ho Hc Hd Hl Ht. set (hdr := ctl_hdr_bytes h (4 * k)) in *. assert (length hdr = 20%nat) as Hlen by done. cbn [concat] in Hc.
  assert (d = hdr ++ drop 20 d) as Hsplit.
  { rewrite <- (take_drop 20 d) at 1. f_equal. apply (f_equal (take 20)) in Hc. by rewrite take_app_le, take_app_le, (take_ge hdr) in Hc by lia. }
  rewrite Hsplit in Hc. rewrite <- app_assoc in Hc. apply app_inv_head in Hc.
  destruct (header_split c h k hdr (drop 20 d) p opts data) as (o & q & E & Hq & Hr); try done; [rewrite length_drop; lia|]. rewrite <- Hsplit in E. exists o, q. split; [|done].
  unfold tcp_classify. rewrite E. cbn [mbind outcome_bind]. destruct (ctl_word_fields k (h_flags h) (h_bypass h) Hk) as (_ & H1 & _ & H2); [apply Hh|]. cbn [sent_hdr t_word]. rewrite H1, H2.
  assert (tot_len q = Z.of_nat (length data)) as -> by (unfold tot_len; by rewrite Hq).
  assert (Z.of_nat (length data) <= 65515) as Hmax. { unfold tot_len in Ht. cbn [concat] in Ht. rewrite Hsplit, <- app_assoc, Hc, !length_app, Hlen in Ht. lia. }
  unfold tcp_len, u16. rewrite (Z.mod_small (Z.of_nat (length data))) by lia.
  destruct (h_bypass h); cbn [INTH_BYPASS INTH_CTL negb andb orb Z.eqb]; (destruct (has _ _); [rewrite Z.mod_small, (proj2 (Z.ltb_ge _ _)) by lia; done|by rewrite Z.add_0_r]).
Qed.
(** C17: (header) what the sender writes into the header of a segment is what the receiver reads, when the segment was sent neither to a broadcast nor to a multicast address and
    has less than 65536 bytes, however the packet is cut into pbufs, as long as the first one has
    the whole header and the first two the options: ports, numbers, window, the mark of the extension, every byte of the options, and the data behind them; [tcplen]
    counts SYN and FIN. *)
Theorem header_roundtrip c h k d p opts data : ctl_hdr_ok h -> 0 <= k <= 10 -> unicast c -> Z.of_nat (length opts) = 4 * k ->
  concat (d :: p) = ctl_hdr_bytes h (4 * k) ++ opts ++ data -> (20 <= length d)%nat -> (20 + length opts <= length d + length (default [] (head p)))%nat ->
  tot_len (d :: p) < 65536 -> exists o q,
    tcp_classify c (d :: p) = Ret (Segment (sent_hdr h (4 * k)) (h_bypass h) o (tcp_len (Z.of_nat (length data)) (h_flags h)) q) /\ concat q = data /\ opts_read o opts.
Proof. apply header_reads. Qed.

(** Whatever arrives, the header is read within the packet: the options are bytes of it, and the data are what is behind them. *)
Lemma header_checked c d p : bytes (concat (d :: p)) -> exists r, tcp_header c (d :: p) = Ret r /\
  (forall h o q, r = Some (h, o, q) -> options_ok o /\ concat q = drop (Z.to_nat (20 + optlen o)) (concat (d :: p)) /\
    (Z.to_nat (20 + optlen o) <= length (concat (d :: p)))%nat).
Proof.
  intros Hby. unfold tcp_header. destruct (Z.ltb_spec (Z.of_nat (length d)) TCP_HLEN) as [|Hd]; [by exists None|]. destruct (_ || _); [by exists None|].
  set (h := read_tcp_hdr d). set (n := TCPH_HDRLEN_BYTES (t_word h)). assert (20 <= n -> 20 <= n <= 60) as Hn.
  { subst n. unfold TCPH_HDRLEN_BYTES, TCPH_HDRLEN. assert (0 <= lwip_htons (t_word h) < 65536) as Hw by apply lwip_htons_range. rewrite Z.shiftr_div_pow2, Z.shiftl_mul_pow2 by lia.
    set (w := lwip_htons _) in *. clearbody w. change (2 ^ 12) with 4096. change (2 ^ 2) with 4. unfold u8. assert (w / 4096 < 16) by (apply Z.div_lt_upper_bound; lia).
    assert (0 <= w / 4096) by (apply Z.div_pos; lia). rewrite Z.mod_small; lia. }
  clearbody n. clearbody h. unfold TCP_HLEN in *. destruct (Z.ltb_spec n 20) as [|H20]; [by exists None|]. specialize (Hn H20). cbn [orb]. destruct (Z.ltb_spec (tot_len (d :: p)) n) as [|Ht]; [by exists None|].
  unfold tot_len in Ht. cbn [concat] in Ht. rewrite length_app in Ht.
  assert (forall l i, bytes l -> 0 <= get8 l i < 256) as Hb8.
  { intros l i Hl. unfold get8. destruct (l !! i) as [x|] eqn:E; [|simpl; lia]. apply (Forall_lookup_1 _ _ _ _ Hl E). }
  assert (u16 (n - 20) = n - 20) as -> by (unfold u16; rewrite Z.mod_small; lia). apply bytes_app in Hby as [B1 B2]. destruct (Z.leb_spec n (Z.of_nat (length d))) as [Hle|Hgt].
  - eexists. split; [reflexivity|]. intros h' o q [= _ <- <-]. split; [split; simpl; [lia|]; intros i; by apply Hb8|]. cbn [optlen concat]. replace (20 + (n - 20)) with n by lia.
    rewrite drop_app_le, length_app by lia. split; [done|lia].
  - destruct p as [|e p]; [simpl in Ht; lia|]. assert (u16 (n - 20 - (Z.of_nat (length d) - 20)) = n - Z.of_nat (length d)) as -> by (unfold u16; rewrite Z.mod_small; lia).
    destruct (Z.ltb_spec (Z.of_nat (length e)) (n - Z.of_nat (length d))) as [|He]; [by exists None|]. cbn [concat] in B2. apply bytes_app in B2 as [B2 B3].
    eexists. split; [reflexivity|]. intros h' o q [= _ <- <-]. split.
    + split; simpl; [lia|]. intros i. unfold tcp_get_next_optbyte. simpl. destruct (_ <? _); by apply Hb8.
    + cbn [optlen concat app]. replace (20 + (n - 20)) with n by lia. rewrite (drop_app_ge d), drop_app_le, !length_app by lia. split; [do 2 f_equal; lia|lia].
Qed.
