(* ===== verification/TcpEvents.v ===== *)
(** * Segments for active connections ([tcp_in.c])

    The rest of [tcp_input]: refused data are offered again, [tcp_process] works on the segment, and then the application is told what happened. While it is
    told, [tcp_input_pcb] is the connection: an application that closes it in a callback only marks it ([TF_CLOSED]), and [tcp_input_delayed_close] frees it.
    The callbacks are those of [TcpEvents] and [ev_sent]; [accept] and [connected], which [tcp_process] calls, are those of [TcpApp]. *)

From stdpp Require Import gmap.
From S2P Require Import Prelude Chain Def Ip4Addr Route Ip4Hdr Tcp TcpRecv TcpAck TcpOpt TcpProcess TcpOut TcpStack TcpTimer TcpNetml TcpApi TcpInput TcpHeader.

(** The [sent] callback. *)
Class TcpSent (N : Type) := { ev_sent : Z -> Z -> stack N -> err_t * stack N }.

Definition set_refused_fin (v : bool) (b : block) : block := Block (tcb b) (last_timer b) (listener b) (prio b) (reuseaddr b) (netif_idx b) v.

Section events.
  Context {N : Type} `{!TcpNet N} `{!TcpBufs N} `{!TcpLink N} `{!TcpEvents N} `{!NetifIndex N} `{!TcpAccept N} `{!TcpApp N} `{!TcpSent N}.
  Implicit Type s : input N.
  Implicit Type t : stack N.

Definition set_input_pcb (v : option Z) t : stack N :=
  Stack (blocks t) (active_pcbs t) (tw_pcbs t) (bound_pcbs t) (listen_pcbs t) (pcbs_changed t) (timer_ctr t) (tcp_timer t) v (free_tcp t) (free_listen t) (tcp_port t) (regs t).

(** ** The segment *)

(** [inseg], [recv_data], [recv_flags] and [recv_acked]. *)
Definition set_inseg (p : chain) s : input N :=
  let s := set_i_flags (in_flags s) (set_i_seqno (seqno s) (set_i_p (Some p) (set_i_len (tot_len p) s))) in
  set_recv_acked 0 (set_recv_flags 0 (set_recv_data None s)).

(** The connection for [tcp_process], and the lists afterwards. A callback that says [ERR_ABRT] has aborted the connection, which is then free. *)
Definition to_conn (a : Z) (b : block) t : conn N := Conn (set_pcb (tcb b) (regs t)) a (bound_pcbs t) (active_pcbs t) (tw_pcbs t) (pcbs_changed t) false.
Definition of_conn (err : err_t) (b : block) (c : conn N) t : stack N :=
  let a := me c in
  let t := set_regs (inp c) (set_changed (active_changed c) (set_bound (bound c) (set_active (active c) (set_tw (tw c) t)))) in
  if decide (err = ERR_ABRT) then
    set_free_tcp (a :: free_tcp t) (set_blocks (delete a (blocks t)) (set_active (TCP_RMV (active c) a) t))
  else set_blocks (<[a := set_tcb (cpcb c) b]> (blocks t)) t.
Definition process_at (o : options) (a : Z) t : outcome (err_t * stack N) :=
  b ← deref (blocks t !! a);
  '(err, c) ← tcp_process o (to_conn a b t);
  Ret (err, of_conn err b c t).

(** ** Steps; they say whether to go to [aborted] *)

(** Data that the application has refused before. *)
Definition input_refused (a : Z) t : outcome (bool * stack N) :=
  p ← pcb_at a t;
  if bool_decide (refused_data p = None) then Ret (false, t)
  else
    '(err, t) ← tcp_process_refused_data a t;
    stop ← (if decide (err = ERR_ABRT) then Ret true else p ← pcb_at a t; Ret (negb (bool_decide (refused_data p = None)) && (0 <? tcplen (regs t))));
    if (stop : bool) then
      p ← pcb_at a t;
      t ← (if rcv_ann_wnd (rcv p) =? 0 then '(_, t) ← at_pcb a (fun s => Ret (tcp_send_empty_ack s)) t; Ret t else Ret t);
      Ret (true, t)
    else Ret (false, t).

(** [tcp_pcb_remove(&tcp_active_pcbs, pcb)] and [tcp_free(pcb)]. *)
Definition input_free (a : Z) t : outcome (stack N) := t ← pcb_remove a (set_active (TCP_RMV (active_pcbs t) a) t); pcb_free a t.

Definition tcp_input_delayed_close (a : Z) t : outcome (bool * stack N) :=
  if has (recv_flags (regs t)) TF_CLOSED then
    p ← pcb_at a t;
    let t := if negb (has (flags p) TF_RXCLOSED) then ev_err a ERR_CLSD t else t in
    t ← input_free a t; Ret (true, t)
  else Ret (false, t).

Definition input_sent (a : Z) t : outcome (bool * stack N) :=
  if 0 <? recv_acked (regs t) then
    let '(err, t) := ev_sent a (recv_acked (regs t)) t in
    Ret (if decide (err = ERR_ABRT) then (true, t) else (false, set_regs (set_recv_acked 0 (regs t)) t))
  else Ret (false, t).

Definition input_data (a : Z) t : outcome (bool * stack N) :=
  match recv_data (regs t) with
  | None => Ret (false, t)
  | Some d =>
      p ← pcb_at a t;
      lwip_assert (bool_decide (refused_data p = None));;
      if has (flags p) TF_RXCLOSED then t ← abort a t; Ret (true, t)
      else
        let '(err, t) := ev_recv a (Some d) t in
        match err with
        | ERR_ABRT => Ret (true, t)
        | ERR_OK => Ret (false, t)
        | _ => _ ← pcb_at a t; Ret (false, alter_block (fun b => set_refused_fin false (upd_tcb (set_refused_data (Some d)) b)) a t)
        end
  end.

Definition input_fin (a : Z) t : outcome (bool * stack N) :=
  if has (recv_flags (regs t)) TF_GOT_FIN then
    p ← pcb_at a t;
    if bool_decide (refused_data p = None) then
      let t := if negb (rcv_wnd (rcv p) =? TCP_WND) then alter_block (upd_tcb (set_rcv_wnd (u16 (rcv_wnd (rcv p) + 1)))) a t else t in
      let '(err, t) := ev_recv a None t in
      Ret (bool_decide (err = ERR_ABRT), t)
    else Ret (false, alter_block (set_refused_fin true) a t)
  else Ret (false, t).

Definition input_output (a : Z) t : outcome (bool * stack N) := '(_, t) ← output_at a t; Ret (false, t).

(** One step after another, until one of them stops. *)
Fixpoint run_steps (l : list (stack N -> outcome (bool * stack N))) t : outcome (bool * stack N) :=
  match l with
  | [] => Ret (false, t)
  | f :: l => '(stop, t) ← f t; if (stop : bool) then Ret (true, t) else run_steps l t
  end.
Definition input_events (a : Z) : list (stack N -> outcome (bool * stack N)) :=
  [input_sent a; tcp_input_delayed_close a; input_data a; input_fin a;
   (fun t => Ret (false, set_input_pcb None t)); tcp_input_delayed_close a; input_output a].

(** [aborted:]. *)
Definition input_end t : stack N := set_regs (set_i_p None (set_recv_data None (regs t))) (set_input_pcb None t).

(** A segment for the connection at [a]. *)
Definition input_active (o : options) (p : chain) (a : Z) t : outcome (stack N) :=
  '(stop, t) ← input_refused a (set_regs (set_inseg p (regs t)) t);
  if (stop : bool) then Ret (input_end t)
  else
    '(err, t) ← process_at o a (set_input_pcb (Some a) t);
    if decide (err = ERR_ABRT) then Ret (input_end t)
    else if has (recv_flags (regs t)) TF_RESET then t ← input_free a (ev_err a ERR_RST t); Ret (input_end t)
    else '(_, t) ← run_steps (input_events a) t; Ret (input_end t).

(** ** [tcp_input(p, inp)] *)

(** A packet of the extension is handed on. *)
Definition tcp_input (c : ip_ctx) (p : chain) t : outcome (option pkt * stack N) :=
  k ← tcp_classify c p;
  match k with
  | Dropped_segment => Ret (None, t)
  | Netml_packet _ k => Ret (Some k, t)
  | Segment h bypass o len p =>
      let s := set_tcplen len (set_in_wnd (t_wnd h) (set_in_flags (TCPH_FLAGS (t_word h)) (set_ackno (t_ackno h) (set_seqno (t_seqno h) (regs t))))) in
      '(r, t) ← tcp_dispatch (Arrival (ctx_src c) (ctx_dest c) (t_src h) (t_dest h) (ctx_inp_idx c) bypass o) (set_regs s t);
      match r with
      | None => Ret (None, t)
      | Some a => t ← input_active o p a t; Ret (None, t)
      end
  end.
End events.
