(* ===== verification/TcpEventsProps.v ===== *)
(** * Segments for active connections: theorems

    First what [tcp_process] leaves alone: [tcp_receive] touches neither refused data nor the ports, and of the timers only those of the
    acknowledgement. Then the events. *)

From stdpp Require Import gmap.
From S2P Require Import Prelude Def Chain Ip4Hdr Tcp TcpRecv TcpStream TcpAck TcpReceive TcpOpt TcpProcess TcpClose TcpOut TcpStack TcpTimer TcpTimerOk TcpStackOk TcpTimerProps TcpApi TcpApiProps TcpInput TcpInputProps TcpHeader TcpEvents.

Section frame.
  Context {N : Type} `{!TcpNet N}.
  Implicit Type s : input N.





(** ** Acknowledgements *)



(** ** [tcp_process] *)

Context `{!TcpApp N}.
Implicit Type c : conn N.


End frame.

Section invariant.
  Context {N : Type}.
  Implicit Type t : stack N.

(** The stack once the connection at [a] is free. *)
Definition freed (a : Z) t : stack N :=
  set_free_tcp (a :: free_tcp t) (set_blocks (delete a (blocks t)) (set_tw (TCP_RMV (tw_pcbs t) a) (set_active (TCP_RMV (active_pcbs t) a) t))).

(** While events of the connection at [a] are reported, it may already be out of its list; it is then marked, and about to be freed. *)
Record in_input (a : Z) t : Prop := {
  ii_rest : stack_ok (freed a t);
  ii_block : exists b, blocks t !! a = Some b /\ pcb_ok (tcb b) /\ state (tcb b) <> LISTEN /\ (is_active (state (tcb b)) = false -> idle_pcb (tcb b));
  ii_open : has (recv_flags (regs t)) TF_CLOSED = false -> stack_ok t;
  ii_tw : has (recv_flags (regs t)) TF_CLOSED = true -> a ∉ tw_pcbs t }.
Definition refused_at (a : Z) t : option chain := blocks t !! a ≫= fun b => refused_data (tcb b).
(** What a callback does. *)
Definition in_step (a : Z) t (r : err_t * stack N) : Prop :=
  tcp_input_pcb r.2 = tcp_input_pcb t /\
  if decide (r.1 = ERR_ABRT) then stack_ok r.2 else in_input a r.2 /\ (refused_at a t = None -> refused_at a r.2 = None).

Lemma freed_ok t a b : stack_ok t -> blocks t !! a = Some b -> state (tcb b) <> LISTEN -> state (tcb b) <> CLOSED -> stack_ok (freed a t).
Proof. intros Hok Hb Hl Hc. apply (stack_ok_gone t a b); try done. unfold parts. simpl. rewrite (rmv_notin (bound_pcbs t)); [done|]. eapply not_bound; [done|done|by left]. Qed.
Lemma in_input_start t a b : stack_ok t -> blocks t !! a = Some b -> state (tcb b) <> LISTEN -> state (tcb b) <> CLOSED ->
  (has (recv_flags (regs t)) TF_CLOSED = true -> state (tcb b) <> TIME_WAIT) -> in_input a t.
Proof.
  intros Hok Hb Hl Hc Htw. destruct (sk_pcbs _ Hok _ _ Hb) as [Ho Hi]. split; [by eapply freed_ok|by exists b|done|]. intros H. eapply not_tw; [done|done|by apply Htw].
Qed.

(** Changes that do not matter. *)
Lemma in_input_ext t t' a : in_input a t -> parts (freed a t') = parts (freed a t) -> tw_pcbs t' = tw_pcbs t -> has (recv_flags (regs t')) TF_CLOSED = has (recv_flags (regs t)) TF_CLOSED ->
  (exists b, blocks t' !! a = Some b /\ pcb_ok (tcb b) /\ state (tcb b) <> LISTEN /\ (is_active (state (tcb b)) = false -> idle_pcb (tcb b))) -> (stack_ok t -> stack_ok t') -> in_input a t'.
Proof. intros [I1 I2 I3 I4] E1 E2 E3 Hb Hok. split; rewrite ?E2, ?E3; auto. by apply (stack_ok_ext (freed a t)). Qed.
Lemma in_input_alter f t a : in_input a t -> (forall b, blocks t !! a = Some b ->
    state (tcb (f b)) = state (tcb b) /\ local_port (tcb (f b)) = local_port (tcb b) /\ tim (tcb (f b)) = tim (tcb b) /\ queued (tcb (f b)) = queued (tcb b) /\ ooseq (rcv (tcb (f b))) = ooseq (rcv (tcb b))) ->
  in_input a (alter_block f a t).
Proof.
  intros Hi Hf. destruct (ii_block _ _ Hi) as (b & Hb & Ho & Hl & Hid). destruct (Hf b Hb) as (F1 & F2 & F3 & F4 & F5).
  assert (pcb_ok (tcb (f b))) as Ho' by (destruct Ho; split; [by rewrite F4|by rewrite F3]). assert (is_active (state (tcb (f b))) = false -> idle_pcb (tcb (f b))) as Hid' by (unfold idle_pcb; rewrite F1, F4, F5; exact Hid).
  apply (in_input_ext t); try done.
  - unfold parts, alter_block. simpl. by rewrite delete_alter_eq.
  - exists (f b). unfold alter_block. simpl. rewrite lookup_alter_eq, Hb, F1. split_and!; try done. by rewrite <- F1.
  - intros Hok. rewrite (alter_block_insert f a t b Hb). by apply (stack_ok_update t a b (f b)); try done; left.
Qed.
End invariant.

(** The callbacks while a segment is processed: they may use the interface, close the connection, or abort it and say so; an error callback leaves the
    connection alone, which is about to be freed. *)
Class TcpInputLaws (N : Type) `{!TcpEvents N} `{!TcpSent N} := {
  il_sent a n (t : stack N) : in_input a t -> tcp_input_pcb t = Some a -> in_step a t (ev_sent a n t);
  il_recv a d (t : stack N) : in_input a t -> tcp_input_pcb t = Some a -> in_step a t (ev_recv a d t);
  il_err a e (t : stack N) : in_input a t -> a ∉ tw_pcbs t -> in_input a (ev_err a e t) /\ a ∉ tw_pcbs (ev_err a e t) /\ tcp_input_pcb (ev_err a e t) = tcp_input_pcb t;
  il_freed a e (t : stack N) : stack_ok t -> blocks t !! a = None -> stack_ok (ev_err a e t) /\ tcp_input_pcb (ev_err a e t) = tcp_input_pcb t }.


Section events.
  Context {N : Type} `{!TcpNet N} `{!TcpBufs N} `{!TcpLink N} `{!TcpEvents N} `{!NetifIndex N} `{!TcpAccept N} `{!TcpApp N} `{!TcpSent N} `{!TcpInputLaws N}.
  Implicit Type s : input N.
  Implicit Type t : stack N.

(** ** Steps *)


Lemma input_free_ok a t : in_input a t -> a ∉ tw_pcbs t -> exists t', input_free a t = Ret t' /\ stack_ok t' /\ blocks t' !! a = None /\ a ∈ free_tcp t' /\ tcp_input_pcb t' = tcp_input_pcb t.
Proof.
  intros Hi Htw. destruct (ii_block _ _ Hi) as (b & Hb & Ho & Hl & Hid). unfold input_free. destruct (pcb_remove_run a (set_active (TCP_RMV (active_pcbs t) a) t) b) as (s & -> & S1 & S2 & _); try done.
  cbn [mbind outcome_bind]. erewrite pcb_free_run; [|simpl; apply lookup_insert_eq|by simpl; rewrite S1]. eexists. split; [reflexivity|]. split_and!; [|simpl; apply lookup_delete_eq|simpl; left|done].
  apply (stack_ok_ext (freed a t)); [|apply Hi]. unfold parts. simpl. by rewrite delete_insert_eq, (rmv_notin (tw_pcbs t)).
Qed.
Lemma in_input_block a t b : in_input a t -> blocks t !! a = Some b -> pcb_ok (tcb b) /\ state (tcb b) <> LISTEN /\ (is_active (state (tcb b)) = false -> idle_pcb (tcb b)).
Proof. intros Hi Hb. destruct (ii_block _ _ Hi) as (b' & Hb' & H). rewrite Hb in Hb'. by injection Hb' as <-. Qed.


(** ** All events *)

Lemma input_end_ok t : stack_ok t -> stack_ok (input_end t).
Proof. intros Hok. by apply (stack_ok_ext t). Qed.

(** ** A segment *)

Section segment.
  Context (byte_at : Z -> Z) (fin : option Z).


Lemma process_at_run o a t b e c : blocks t !! a = Some b -> tcp_process o (to_conn a b t) = Ret (e, c) -> process_at o a t = Ret (e, of_conn e b c t).
Proof. intros Hb H. unfold process_at. rewrite Hb. cbn [deref mbind outcome_bind]. by rewrite H. Qed.

(** The stack when [tcp_process] begins. *)
Definition at_segment (p : chain) (a : Z) t : stack N := set_input_pcb (Some a) (set_regs (set_inseg p (regs t)) t).
Lemma not_refused p a t b : blocks t !! a = Some b -> refused_data (tcb b) = None -> input_refused a (set_regs (set_inseg p (regs t)) t) = Ret (false, set_regs (set_inseg p (regs t)) t).
Proof. intros Hb Hr. unfold input_refused. rewrite (pcb_at_run a (set_regs _ t) b Hb). cbn [mbind outcome_bind]. by rewrite bool_decide_true. Qed.

End segment.

(** ** Resets *)

Lemma process_reset o (c : conn N) : has (in_flags (inp c)) TCP_RST = true -> state (cpcb c) <> SYN_SENT -> state (cpcb c) <> CLOSED -> seqno (inp c) = rcv_nxt (rcv (cpcb c)) ->
  tcp_process o c = Ret (ERR_RST, set_inp (upd (tcp_clear_flags TF_ACK_DELAY) (set_recv_flags (Z.lor (recv_flags (inp c)) TF_RESET) (inp c))) c).
Proof.
  intros Hf H1 H2 Hq. unfold tcp_process, process_rst, cpcb in *. rewrite Hf, (decide_False _ _ H1), (proj2 (Z.eqb_eq _ _) Hq). by rewrite bool_decide_false.
Qed.
Lemma reset_at o p a t b : stack_ok t -> blocks t !! a = Some b -> is_active (state (tcb b)) = true -> state (tcb b) <> SYN_SENT ->
  has (in_flags (regs t)) TCP_RST = true -> seqno (regs t) = rcv_nxt (rcv (tcb b)) ->
  exists t', process_at o a (at_segment p a t) = Ret (ERR_RST, t') /\ in_input a t' /\ a ∉ tw_pcbs t' /\ recv_flags (regs t') = TF_RESET.
Proof.
  intros Hok Hb Ha Hs Hf Hq. assert (state (tcb b) <> CLOSED /\ state (tcb b) <> LISTEN /\ state (tcb b) <> TIME_WAIT) as (D1 & D2 & D3) by (split_and!; intros E; by rewrite E in Ha).
  rewrite (process_at_run o a (at_segment p a t) b _ _ Hb (process_reset o (to_conn a b (at_segment p a t)) Hf Hs D1 Hq)). set (t1 := of_conn _ _ _ _).
  set (b1 := set_tcb (tcp_clear_flags TF_ACK_DELAY (tcb b)) b). assert (parts t1 = parts (set_blocks (<[a := b1]> (blocks t)) t) /\ recv_flags (regs t1) = TF_RESET) as [P1 P2].
  { subst t1. unfold of_conn. by rewrite decide_False. }
  clearbody t1. assert (stack_ok t1) as H1.
  { destruct (sk_pcbs _ Hok _ _ Hb) as [Ho Hi]. apply (stack_ok_update t a b b1); try done; [by left|by destruct Ho; split]. }
  assert (blocks t1 !! a = Some b1) as H2 by (injection P1 as -> _; apply lookup_insert_eq). exists t1. split_and!; [done| | |done].
  - eapply in_input_start; [done|exact H2|done|done|by rewrite P2].
  - eapply not_tw; [done|exact H2|done].
Qed.

(** (reset) a reset with the expected number ends a connection: the error callback is called, and then the connection is out of its list and its block is free. *)
Theorem reset_frees o p a t b : stack_ok t -> blocks t !! a = Some b -> is_active (state (tcb b)) = true -> state (tcb b) <> SYN_SENT -> refused_data (tcb b) = None ->
  has (in_flags (regs t)) TCP_RST = true -> seqno (regs t) = rcv_nxt (rcv (tcb b)) ->
  exists t', input_active o p a t = Ret t' /\ stack_ok t' /\ blocks t' !! a = None /\ a ∈ free_tcp t' /\ tcp_input_pcb t' = None.
Proof.
  intros Hok Hb Ha Hs Hr Hf Hq. unfold input_active. rewrite (not_refused p a t b Hb Hr). cbn [mbind outcome_bind]. change (set_input_pcb (Some a) _) with (at_segment p a t).
  destruct (reset_at o p a t b) as (t1 & -> & Hi & Htw & Hfl); try done. cbn [mbind outcome_bind]. rewrite decide_False by done. rewrite Hfl, (eq_refl : has TF_RESET TF_RESET = true).
  destruct (il_err a ERR_RST t1 Hi Htw) as (K1 & K2 & _). destruct (input_free_ok a _ K1 K2) as (t2 & -> & L1 & L2 & L3 & _). cbn [mbind outcome_bind].
  exists (input_end t2). split_and!; try done. by apply input_end_ok.
Qed.

(** ** Refused data *)

(** (refused data) data that the application does not take are kept, and offered again in front of the next segment. *)
Theorem refused_data_kept a t d e t1 : in_input a t -> tcp_input_pcb t = Some a -> refused_at a t = None -> recv_data (regs t) = Some d ->
  (forall b, blocks t !! a = Some b -> has (flags (tcb b)) TF_RXCLOSED = false) -> ev_recv a (Some d) t = (e, t1) -> e <> ERR_OK -> e <> ERR_ABRT ->
  exists t2, input_data a t = Ret (false, t2) /\ refused_at a t2 = Some d /\ in_input a t2 /\
    forall t3, refused_at a t3 = Some d -> exists b t4, blocks t3 !! a = Some b /\ t4 = alter_block (fun b => set_tcb (set_refused_data None (tcb b)) b) a t3 /\
      ((ev_recv a (Some d) t4).1 = ERR_ABRT -> tcp_process_refused_data a t3 = Ret (ERR_ABRT, (ev_recv a (Some d) t4).2)) /\
      ((ev_recv a (Some d) t4).1 = ERR_OK -> refused_fin b = false -> tcp_process_refused_data a t3 = Ret (ERR_OK, (ev_recv a (Some d) t4).2)).
Proof.
  intros Hi Hin Hr Hd Hrx Hev He1 He2. destruct (ii_block _ _ Hi) as (b & Hb & _). pose proof (il_recv a (Some d) t Hi Hin) as [H1 H2]. rewrite Hev in H1, H2. simpl in H1, H2. rewrite decide_False in H2 by done. destruct H2 as [Hi1 Hr1].
  destruct (ii_block _ _ Hi1) as (b1 & Hb1 & _). exists (alter_block (fun b => set_refused_fin false (upd_tcb (set_refused_data (Some d)) b)) a t1). split_and!.
  - unfold input_data. rewrite Hd, (pcb_at_run _ _ _ Hb). cbn [mbind outcome_bind]. unfold refused_at in Hr. rewrite Hb in Hr. rewrite bool_decide_true by done. cbn [lwip_assert mbind outcome_bind].
    rewrite (Hrx b Hb), Hev. destruct e; try done; by rewrite (pcb_at_run _ _ _ Hb1).
  - unfold refused_at, alter_block. simpl. by rewrite lookup_alter_eq, Hb1.
  - by apply in_input_alter.
  - intros t3 H3. unfold refused_at in H3. destruct (blocks t3 !! a) as [b3|] eqn:Hb3; [|done]. simpl in H3. eexists b3, _. split; [done|]. split; [reflexivity|]. unfold tcp_process_refused_data. rewrite Hb3. cbn [deref mbind outcome_bind].
    rewrite H3. cbn [deref mbind outcome_bind]. set (r := ev_recv a (Some d) (alter_block _ a t3)). clearbody r. destruct r as [e4 t5]. cbn [fst Datatypes.snd]. split; [by intros ->|]. by intros -> ->.
Qed.

(** (use after free) when the application takes the refused data by aborting the connection, [tcp_input] still reads the window of the connection that was freed. *)
Theorem aborted_connection_read o p a t b d : blocks t !! a = Some b -> refused_data (tcb b) = Some d ->
  (forall t1, (ev_recv a (Some d) t1).1 = ERR_ABRT /\ blocks (ev_recv a (Some d) t1).2 !! a = None) -> input_active o p a t = Undef.
Proof.
  intros Hb Hr Hev. unfold input_active. set (t0 := set_regs _ t). assert (blocks t0 !! a = Some b) as Hb0 by done. clearbody t0. unfold input_refused. rewrite (pcb_at_run _ _ _ Hb0). cbn [mbind outcome_bind].
  rewrite Hr, bool_decide_false by done. unfold tcp_process_refused_data. rewrite Hb0. cbn [deref mbind outcome_bind]. rewrite Hr. cbn [deref mbind outcome_bind].
  set (t1 := alter_block _ a t0). destruct (Hev t1) as [H1 H2]. destruct (ev_recv a (Some d) t1) as [e t2]. simpl in H1, H2. rewrite H1. cbn [mbind outcome_bind]. rewrite decide_True by done. cbn [mbind outcome_bind]. unfold pcb_at. by rewrite H2.
Qed.

(** ** Closing in a callback *)

Lemma freed_twice a t : in_input a t -> TCP_RMV (TCP_RMV (active_pcbs t) a) a = TCP_RMV (active_pcbs t) a.
Proof.
  intros Hi. apply rmv_notin. intros H. assert (a ∈ active_pcbs (freed a t)) as (st & Hs & _)%(sk_active _ (ii_rest _ _ Hi)) by done. unfold state_at in Hs. simpl in Hs. by rewrite lookup_delete_eq in Hs.
Qed.
Lemma in_input_not_tw a t b : in_input a t -> blocks t !! a = Some b -> is_active (state (tcb b)) = true -> a ∉ tw_pcbs t.
Proof.
  intros Hi Hb Ha. destruct (has (recv_flags (regs t)) TF_CLOSED) eqn:Hc; [by apply Hi|]. eapply not_tw; [by apply Hi|exact Hb|]. intros E. by rewrite E in Ha.
Qed.
Lemma close_reset_kept s : has (flags (pcb s)) TF_RXCLOSED = true -> is_active (state (pcb s)) = true ->
  exists s', close_reset s = Ret (tt, s') /\ state (pcb s') = state (pcb s) /\ queued (pcb s') = [] /\ (sa (tim (pcb s')), sv (tim (pcb s'))) = (sa (tim (pcb s)), sv (tim (pcb s))).
Proof.
  intros Hf Ha. unfold close_reset. rewrite Hf. cbn [lwip_assert mbind outcome_bind]. eexists. split; [reflexivity|].
  match goal with |- context [tcp_pcb_purge ?x] => assert (pcb x = pcb s) as E1; [|set (s1 := x) in *] end.
  { unfold tcp_rst. destruct (hdr_alloc _) as [[] n]; simpl; [|done]. by destruct (output_control _ _ _ _). }
  clearbody s1. unfold tcp_pcb_purge. rewrite decide_True by (rewrite E1; split_and!; intros E; by rewrite E in Ha). simpl. by rewrite E1.
Qed.
(** With data that were not read: a reset. *)
Lemma close_unread a t b : in_input a t -> tcp_input_pcb t = Some a -> blocks t !! a = Some b -> has (flags (tcb b)) TF_RXCLOSED = true -> data_unread (tcb b) = true ->
  exists t', tcp_close_shutdown a true t = Ret (ERR_OK, t') /\ in_input a t' /\ tcp_input_pcb t' = Some a.
Proof.
  intros Hi Hin Hb Hf Hd. unfold tcp_close_shutdown. rewrite (pcb_at_run _ _ _ Hb). cbn [mbind outcome_bind]. rewrite Hd. cbn [andb]. unfold data_unread in Hd. apply andb_true_iff in Hd as [Hd%bool_decide_eq_true _].
  assert (is_active (state (tcb b)) = true) as Ha by (destruct Hd as [-> | ->]; done). destruct (close_reset_kept (set_pcb (tcb b) (regs t)) Hf Ha) as (s & H & H1 & H2 & [= H3 H4]). simpl in H1, H3, H4.
  rewrite (at_pcb_run _ _ _ _ _ _ Hb H). cbn [mbind outcome_bind]. unfold is_input. simpl. rewrite Hin, bool_decide_true by done. cbn [mbind outcome_bind]. eexists. split; [reflexivity|]. split; [|done].
  destruct (in_input_block a t b Hi Hb) as ([Ho1 Ho2] & Hl & _). split; simpl.
  - apply (stack_ok_ext (freed a t)); [|apply Hi]. unfold parts. simpl. by rewrite delete_insert_eq, (freed_twice a t Hi).
  - eexists. split; [apply lookup_insert_eq|]. simpl. rewrite H1, Ha. split_and!; try done. split; [by rewrite H2|by rewrite H3, H4].
  - rewrite has_lor_self; [done|]. unfold TF_CLOSED. lia.
  - intros _. by eapply in_input_not_tw.
Qed.
(** Otherwise a FIN is queued, if there was none. *)
Lemma close_fin_in a t b : in_input a t -> blocks t !! a = Some b ->
  exists t', close_fin_at a t = Ret (ERR_OK, t') /\ in_input a t' /\ tcp_input_pcb t' = tcp_input_pcb t /\ recv_flags (regs t') = recv_flags (regs t).
Proof.
  intros Hi Hb. destruct (in_input_block a t b Hi Hb) as (Ho & Hl & Hid). destruct (close_fin_ok (is_input a t) (set_pcb (tcb b) (regs t)) Ho Hl) as (e & s & H & H1 & [= _ H2] & -> & H3 & H4).
  unfold close_fin_at. rewrite (at_pcb_run _ _ _ _ _ _ Hb H). eexists. split; [reflexivity|]. split; [|done]. simpl in H2, H3, H4.
  assert (same_list (state (tcb b)) (state (pcb s)) /\ state (pcb s) <> LISTEN /\ (is_active (state (pcb s)) = false -> idle_pcb (pcb s)) /\ (state (tcb b) = CLOSED -> local_port (pcb s) = local_port (tcb b))) as (L1 & L2 & L3 & L4).
  { destruct (is_active (state (tcb b))) eqn:Ha; [|rewrite (H4 eq_refl); split_and!; [by left|done|by intros _; apply Hid|done]]. split_and!.
    - destruct H3 as [->|[->| ->]]; [by left|by right..].
    - destruct H3 as [->|[->| ->]]; done.
    - destruct H3 as [->|[->| ->]]; simpl; congruence.
    - intros E. by rewrite E in Ha. }
  apply (in_input_ext t); try done.
  - unfold parts. simpl. by rewrite delete_insert_eq.
  - simpl. by rewrite H2.
  - eexists. split; [simpl; apply lookup_insert_eq|done].
  - intros Hok. by apply (stack_ok_update t a b (set_tcb (pcb s) b)).
Qed.
(** (close in a callback) an application may close the connection of the segment in a callback: the call returns, and the connection is still there for the rest of [tcp_input];
    it is marked to be freed only if it was reset, since data were not read. *)
Theorem close_in_callback a t b : in_input a t -> tcp_input_pcb t = Some a -> blocks t !! a = Some b -> state_num ESTABLISHED <= state_num (state (tcb b)) ->
  exists t', tcp_close a t = Ret (ERR_OK, t') /\ in_input a t' /\ tcp_input_pcb t' = Some a /\
    (data_unread (tcb b) = false -> recv_flags (regs t') = recv_flags (regs t)).
Proof.
  intros Hi Hin Hb Hst. unfold tcp_close. rewrite (pcb_at_run _ _ _ Hb). cbn [mbind outcome_bind]. destruct (in_input_block a t b Hi Hb) as (_ & Hl & _). rewrite decide_True by done.
  assert (in_input a (set_flags_at TF_RXCLOSED a t)) as Hi1 by (by apply in_input_alter). set (b1 := set_tcb (tcp_set_flags TF_RXCLOSED (tcb b)) b).
  assert (blocks (set_flags_at TF_RXCLOSED a t) !! a = Some b1) as Hb1 by (simpl; by rewrite lookup_alter_eq, Hb). assert (tcp_input_pcb (set_flags_at TF_RXCLOSED a t) = Some a /\ regs (set_flags_at TF_RXCLOSED a t) = regs t) as [Hin1 Hr1] by done.
  set (t1 := set_flags_at _ a t) in *. clearbody t1. assert (has (flags (tcb b1)) TF_RXCLOSED = true) as Hf.
  { simpl. change TF_RXCLOSED with (2 ^ 4). rewrite has_pow2 by lia. unfold u16. by rewrite Z.mod_pow2_bits_low, Z.lor_spec, orb_true_r. }
  assert (data_unread (tcb b1) = data_unread (tcb b) /\ state (tcb b1) = state (tcb b)) as [Hd Hs] by done. clearbody b1. destruct (data_unread (tcb b)) eqn:Hu.
  - destruct (close_unread a t1 b1) as (t2 & -> & H2 & H3); try done. by exists t2.
  - unfold tcp_close_shutdown. rewrite (pcb_at_run _ _ _ Hb1). cbn [mbind outcome_bind]. rewrite Hd, Hs. cbn [andb]. destruct (close_fin_in a t1 b1 Hi1 Hb1) as (t2 & E2 & H2 & H3 & H4).
    exists t2. rewrite Hin1 in H3. rewrite Hr1 in H4. split; [|done]. destruct (state (tcb b)); simpl in Hst; try lia; done.
Qed.
End events.

(** ** A packet *)

Section packet.
  Context {N : Type} `{!TcpNet N} `{!TcpBufs N} `{!TcpLink N} `{!TcpEvents N} `{!TcpEventsLaws N} `{!NetifIndex N} `{!TcpAccept N} `{!TcpApp N} `{!TcpSent N}.
  Implicit Type t : stack N.

(** What arrives, of a packet with the header [h] and the options [o]. *)
Definition arrival_of (c : ip_ctx) (h : ctl_hdr) (o : options) : arrival := Arrival (ctx_src c) (ctx_dest c) (h_src h) (h_dest h) (ctx_inp_idx c) (h_bypass h) o.
(** (passive open, from the wire) the bytes of a SYN, cut into pbufs in any way that leaves header and options in the first two, open a connection for a listener
    of their port: the options are read as they were written, and the connection has the ports, the addresses and the number of the packet. *)
Theorem syn_packet_opens c h k d p opts t a free : stack_ok t -> tcp_input_pcb t = None -> free_tcp t = a :: free ->
  ctl_hdr_ok h -> h_flags h = TCP_SYN -> 0 <= k <= 10 -> unicast c -> Z.of_nat (length opts) = 4 * k -> concat (d :: p) = ctl_hdr_bytes h (4 * k) ++ opts -> bytes (concat (d :: p)) ->
  (20 <= length d)%nat -> (20 + length opts <= length d + length (default [] (head p)))%nat ->
  (forall o, none_fits (conn_matches (arrival_of c h o)) t (active_pcbs t ++ tw_pcbs t)) ->
  (exists l, l ∈ listen_pcbs t /\ forall o, fits (exact_listener (arrival_of c h o)) t l \/ fits (any_listener (arrival_of c h o)) t l) ->
  exists o l bl t', opts_read o opts /\ right_target (arrival_of c h o) (ToListen l) t /\ blocks t !! l = Some bl /\ tcp_input c (d :: p) t = Ret (None, t') /\ stack_ok t' /\
    (syn_answered (arrival_of c h o) l a (h_seqno h) bl t' \/ exists t1, t' = ev_err a ERR_ABRT t1 /\ blocks t1 !! a = None).
Proof.
  intros Hok Hin Hf Hh Hfl Hk Hu Ho Hc Hby Hd Hl Hno (l0 & Hl0 & Hfit).
  destruct (header_reads c h k d p opts []) as (o & q & E & Hq & Hr); try done; [by rewrite app_nil_r| |].
  { unfold tot_len. rewrite Hc, length_app. change (length (ctl_hdr_bytes h (4 * k))) with 20%nat. lia. }
  assert (options_ok o) as Hoo.
  { unfold tcp_classify in E. destruct (header_checked c d p Hby) as (r & Er & Hrr). rewrite Er in E. cbn [mbind outcome_bind] in E. destruct r as [[[h' o'] q']|]; [|done].
    destruct (negb _ && negb _); [done|]. destruct (has _ _); [destruct (_ <? _); [done|]|]; injection E as _ _ -> _ _; by destruct (Hrr _ _ _ eq_refl). }
  unfold tcp_input. rewrite E. cbn [mbind outcome_bind]. set (x := Arrival _ _ _ _ _ _ _). change x with (arrival_of c h o). clear x. set (s := set_tcplen _ _). set (t0 := set_regs s t).
  destruct (ctl_word_fields k (h_flags h) (h_bypass h) Hk) as (_ & W & _); [apply Hh|]. assert (in_flags s = TCP_SYN /\ seqno s = h_seqno h) as [F1 F2] by (subst s; simpl; by rewrite W).
  clearbody s. destruct (syn_dispatched (arrival_of c h o) t0 a free) as (l & bl & t' & Ht & Hb & E' & Hok' & H); try done; [by apply (stack_ok_ext t)|cbn [regs set_regs t0]; rewrite F1; done..|exact (Hno o)|exists l0; split; [done|apply Hfit]|].
  rewrite E'. cbn [mbind outcome_bind]. exists o, l, bl, t'. split_and!; try done. destruct H as [H|H]; [left|by right]. simpl in H. by rewrite F2 in H.
Qed.
End packet.
