(* ===== verification/TcpInputExamples.v ===== *)
(** * Opening connections and segments that arrive: examples

    Calls on the connections of [TcpTimerExamples], and segments for them. *)

From stdpp Require Import gmap.
From S2P Require Import Prelude Def Ip4Addr Route Chain Ip4Hdr UdpExamples Tcp TcpRecv TcpStream TcpProps TcpAck TcpReceive TcpOpt TcpProcess TcpClose TcpOut TcpSend TcpOutput TcpSendErrors TcpSession TcpSendExamples TcpStack TcpTimer TcpTimerOk TcpStackOk TcpTimerProps TcpTimeouts TcpTimerExamples TcpNetml TcpApi TcpApiProps TcpInput TcpInputProps TcpHeader TcpEvents TcpEventsProps.

Module ApiExamples.
Import SendExamples TimerExamples.

#[export] Instance link_index : NetifIndex link := { netif_mtu _ i := if i =? 1 then Some 1500 else None; netif_ip _ _ := 1 }.

(** A server: a new block is bound to port 82 and listens. *)
Definition serve : list tcp_call := [CNew 64; CBind 400 0 82; CListen 400].
Lemma tcp_calls_keep_lists_witness : exists t', run_calls serve three = Ret t' /\ stack_ok t'.
Proof.
  apply (tcp_calls_keep_lists serve three); [exact three_ok|done|].
  split; [exact I|]. intros t1 E1. assert (state_at 400 t1 = Some CLOSED /\ bound_pcbs t1 = []) as (H1 & H2).
  { vm_compute in E1. injection E1 as <-. done. }
  split; [split; [done|rewrite H2; apply not_elem_of_nil]|]. intros t2 E2. split; [|done].
  vm_compute in E1. injection E1 as <-. vm_compute in E2. injection E2 as <-. done.
Defined.

(** No block is free. *)
Definition crowded : stack link := set_free_tcp [] three.
Lemma crowded_calm : calm crowded.
Proof.
  split; [|done]. destruct three_ok as [I1 I2 I3 I4 I5 I6 [I7 I8]]. split; try done. split; [apply (bool_decide_unpack _); by vm_compute|].
  intros a Ha. apply I8. apply elem_of_app. by right.
Qed.
Lemma alloc_takes_timewait_witness : exists a t', tcp_alloc 64 crowded = Ret (Some a, t') /\ a = 200 /\ active_pcbs t' = [100].
Proof.
  destruct (alloc_takes_timewait 64 crowded) as (a & t' & H1 & (b & H2 & _) & _ & H4 & _); [exact crowded_calm|done|done|].
  exists a, t'. split_and!; try done. by apply list_elem_of_singleton in H2.
Defined.

(** The new block has the address 400. *)
Definition with_new : stack link := match tcp_alloc 64 three with Ret (_, t) => t | _ => three end.
Definition fresh_block : block := Block (new_pcb 44) 9 None 64 false 0 false.
Lemma with_new_ok : stack_ok with_new /\ tcp_input_pcb with_new = None /\ blocks with_new !! 400 = Some fresh_block /\ bound_pcbs with_new = [].
Proof.
  destruct (tcp_alloc_ok 64 three) as (r & t' & E & [H1 H2] & _); [by split; [exact three_ok|]|]. unfold with_new. rewrite E. split_and!; try done; vm_compute in E; by injection E as _ <-.
Qed.
Lemma tcp_bind_answers_witness : exists err t', tcp_bind 400 0 80 with_new = Ret (err, t') /\ stack_ok t' /\
  (in_use 0 80 fresh_block with_new /\ err = ERR_USE /\ t' = with_new \/ ~ in_use 0 80 fresh_block with_new /\ err = ERR_OK /\ bound_to 400 0 80 fresh_block with_new t').
Proof.
  destruct with_new_ok as (H1 & H2 & H3 & H4). destruct (tcp_bind_answers 400 0 80 fresh_block with_new H1 H2 H3) as (err & t' & E & Hok & Hp & _);
    [done|rewrite H4; apply not_elem_of_nil|]. exists err, t'. split_and!; [done|done|]. by apply Hp.
Defined.
Lemma tcp_new_port_finds_witness : exists port t', tcp_new_port three = Ret (port, t') /\
  (port = 0 /\ (forall q, port_in_range q -> port_taken q three) \/ port_in_range port /\ ~ port_taken port three).
Proof.
  destruct (tcp_new_port_finds three) as (port & t' & E & _ & H); [exact three_ok|by vm_compute|]. by exists port, t'.
Defined.
Lemma wrapped_port_refused_witness : exists t', tcp_bind 400 0 0 (tcp_init 0xffff with_new) = Ret (ERR_BUF, t') /\ tcp_port t' = 0.
Proof.
  destruct with_new_ok as (H1 & H2 & H3 & H4). apply (wrapped_port_refused 400 0 fresh_block with_new H1 H2 H3); [done|rewrite H4; apply not_elem_of_nil|].
  intros (a & b & Ha & Hb & Hl). assert (concat (pcb_lists with_new) = [300; 100; 200]) as El by (by vm_compute). rewrite El, !elem_of_cons in Ha.
  assert (blocks with_new !! 300 = Some (Block listening 9 None 64 false 0 false) /\ blocks with_new !! 100 = Some (Block waiting 9 None 64 false 0 false) /\
    blocks with_new !! 200 = Some (Block tw 9 None 64 false 0 false)) as (B1 & B2 & B3) by (by vm_compute).
  destruct Ha as [->|[->|[->|Ha]]]; [rewrite B1 in Hb|rewrite B2 in Hb|rewrite B3 in Hb|by apply not_elem_of_nil in Ha]; injection Hb as <-; done.
Defined.
(** An application that gives up the connection 200 when another one ends. *)
Definition drop_200 {N} (t : stack N) : stack N :=
  match blocks t !! 200 with
  | None => t
  | Some b =>
      if decide (state (tcb b) = LISTEN) then
        set_free_listen (200 :: free_listen t) (set_listen (TCP_RMV (listen_pcbs t) 200) (set_blocks (delete 200 (blocks t)) t))
      else
        set_free_tcp (200 :: free_tcp t) (set_changed true (set_blocks (delete 200 (blocks t))
          (set_bound (TCP_RMV (bound_pcbs t) 200) (set_tw (TCP_RMV (tw_pcbs t) 200) (set_active (TCP_RMV (active_pcbs t) 200) t)))))
  end.
Definition partner : Type := link.
#[local] Instance partner_events : TcpEvents partner := { ev_err _ _ t := drop_200 t; ev_poll _ t := (ERR_OK, t); ev_recv _ _ t := (ERR_OK, t) }.
#[local] Instance partner_laws : TcpEventsLaws partner.
Proof.
  split.
  - intros a e t Ht _. simpl. unfold drop_200. destruct (blocks t !! 200) as [b|] eqn:Hb; [|by apply as_refl]. destruct (decide _) as [Hl|Hl].
    + by apply (gone_listen t 200 b).
    + by apply (as_gone t 200 b).
  - intros a t Ht _ _. by apply as_refl.
  - intros a d t Ht _ Hs. simpl. split; [by apply as_refl|done].
Qed.
Definition pair : stack partner :=
  Stack {[100 := Block waiting 9 None 64 false 0 false; 200 := Block waiting 9 None 64 false 0 false]} [100; 200] [] [] [] false 9 0 None [400] [] 49152 (st 5 waiting).
Lemma pair_ok : stack_ok pair.
Proof.
  assert (forall a, state_at a pair = if decide (a = 100 \/ a = 200) then Some ESTABLISHED else None) as Hst.
  { intros a. unfold state_at, pair. simpl. destruct (decide (a = 100)) as [->|]; [done|]. rewrite lookup_insert_ne by done.
    destruct (decide (a = 200)) as [->|]; [done|]. rewrite lookup_singleton_ne by done. rewrite decide_False by tauto. done. }
  split.
  - split_and!; apply (bool_decide_unpack _); by vm_compute.
  - intros a. rewrite Hst. simpl. rewrite elem_of_cons, list_elem_of_singleton. case_decide; naive_solver.
  - intros a. rewrite Hst. simpl. split; [by intros ?%not_elem_of_nil|]. by case_decide.
  - intros a. rewrite Hst. simpl. split; [by intros ?%not_elem_of_nil|]. by case_decide.
  - intros a Ha. by apply not_elem_of_nil in Ha.
  - intros a b Hb. simpl in Hb. apply lookup_insert_Some in Hb as [[<- <-]|[_ Hb]]; [split; [|done]; split; [by repeat constructor|done]|].
    apply lookup_singleton_Some in Hb as [<- <-]. split; [|done]. split; [by repeat constructor|done].
  - split; [apply (bool_decide_unpack _); by vm_compute|]. intros a Ha. simpl in Ha. apply list_elem_of_singleton in Ha as ->. done.
Qed.
Lemma addr_changed_use_after_free_witness : tcp_netif_ip_addr_changed (N := partner) 2 1 7 pair = Undef.
Proof.
  apply (addr_changed_use_after_free (N := partner) 0 1 7 100 200 [] (Block waiting 9 None 64 false 0 false) pair); try done; [exact pair_ok|].
  intros t1. simpl. unfold drop_200. destruct (blocks t1 !! 200) as [b|] eqn:Hb; [|done]. destruct (decide _); simpl; by rewrite lookup_delete_eq.
Defined.

(** Without memory for the SYN a block keeps the port it got, but the port is not reserved: another block can be bound to it. *)
Definition poor : Type := unit.
#[local] Instance poor_net : TcpNet poor := { hdr_alloc n := (false, n); output_control n _ _ _ := (ERR_OK, n) }.
#[local] Instance poor_bufs : TcpBufs poor := { ram_alloc n _ := (false, n); rom_alloc n := (false, n); bufs_free n _ := n }.
#[local] Instance poor_link : TcpLink poor := { tcp_route _ _ _ := Some 1500; link_ip _ _ := 1; ip_output_if n _ _ _ _ _ := (ERR_OK, false, n) }.
#[local] Instance poor_events : TcpEvents poor := { ev_err _ _ t := t; ev_poll _ t := (ERR_OK, t); ev_recv _ _ t := (ERR_OK, t) }.
#[local] Instance poor_index : NetifIndex poor := { netif_mtu _ _ := None; netif_ip _ _ := 0 }.
Definition two_closed : stack poor :=
  Stack {[400 := fresh_block; 500 := fresh_block]} [] [] [] [] false 9 0 None [] [] 49152 (Input (new_pcb 44) 0 0 0 None 0 0 0 0 0 0 0 None 5 44 tt).
Example failed_connect_port_unreserved :
  match tcp_connect 400 9 7 two_closed with
  | Ret (ERR_MEM, t) =>
      (fun b => local_port (tcb b)) <$> blocks t !! 400 = Some 49153 /\
      match tcp_bind 500 0 49153 t with Ret (ERR_OK, _) => True | _ => False end
  | _ => False
  end.
Proof. by vm_compute. Qed.
End ApiExamples.

Module InputExamples.
Import SendExamples TimerExamples ApiExamples.

#[export] Instance link_accept : TcpAccept link := { ev_no_block _ t := t }.

Definition no_options : options := Options 0 (fun _ => 0) 0 None.
Definition from (sport dport : Z) : arrival := Arrival 2 1 sport dport 1 false no_options.
(** A segment of length 1 with number 777 arrives. *)
Definition arrived (fl : Z) : stack link := set_regs (Input waiting 0 0 0 None 777 0 fl 3000 1 0 0 None 5 44 (2, [])) three.
Lemma arrived_calm fl : calm (arrived fl).
Proof. by apply calm_regs; split; [exact three_ok|]. Qed.
Lemma from_options_ok x y : options_ok (ar_opts (from x y)).
Proof. by split. Qed.

Lemma demux_right_witness : exists tg t', demux (from 8080 80) (arrived 0) = Ret (tg, t') /\ tg = ToActive 100 /\ right_target (from 8080 80) tg (arrived 0).
Proof.
  destruct (demux_right (from 8080 80) (arrived 0)) as (tg & t' & E & _ & H & _); [apply arrived_calm|done|]. exists tg, t'. split_and!; [done| |done].
  vm_compute in E. by injection E as <-.
Defined.
Lemma dispatch_keeps_lists_witness : exists t', tcp_dispatch (from 8080 80) (arrived 0) = Ret (Some 100, t') /\ stack_ok t'.
Proof.
  destruct (dispatch_keeps_lists (from 8080 80) (arrived 0)) as (r & t' & E & H & _); [apply arrived_calm|done|apply from_options_ok|done|]. exists t'. split; [|done]. rewrite E. f_equal. f_equal.
  vm_compute in E. by injection E as <-.
Defined.

(** A SYN for port 81, from a port that has no connection yet. *)
Lemma syn_free : none_fits (conn_matches (from 9000 81)) (arrived TCP_SYN) (active_pcbs (arrived TCP_SYN) ++ tw_pcbs (arrived TCP_SYN)).
Proof. intros a Ha (b & Hb & Hf). simpl in Ha. rewrite !elem_of_cons in Ha. destruct Ha as [->|[->|Ha]]; [| |by apply not_elem_of_nil in Ha]; vm_compute in Hb; injection Hb as <-; by vm_compute in Hf. Qed.
Lemma syn_opens_connection_witness : exists l bl t', tcp_dispatch (from 9000 81) (arrived TCP_SYN) = Ret (None, t') /\ l = 300 /\ syn_answered (from 9000 81) l 400 777 bl t'.
Proof.
  destruct (syn_opens_connection (from 9000 81) (arrived TCP_SYN) 400 [500]) as (l & bl & t' & (_ & Hl & _) & _ & E & _ & H);
    [apply arrived_calm|done|apply from_options_ok|done|done|done|done|exact syn_free| |].
  { exists 300. split; [left|]. left. eexists. by split. }
  simpl in Hl. apply list_elem_of_singleton in Hl. exists l, bl, t'. split_and!; [done|done|]. destruct H as [H|(t1 & -> & Hn)]; [done|].
  assert (is_Some (blocks t1 !! 400)) as [b Hb]; [|by rewrite Hn in Hb]. simpl in E. vm_compute in E. injection E as <-. by vm_compute.
Defined.

(** A FIN for the connection in TIME-WAIT. *)
Lemma timewait_answers_witness : exists t' b', tcp_dispatch (from 8081 81) (arrived TCP_FIN) = Ret (None, t') /\ blocks t' !! 200 = Some b' /\ state (tcb b') = TIME_WAIT /\ tmr (tim (tcb b')) = 44.
Proof.
  destruct (timewait_answers (from 8081 81) (arrived TCP_FIN) 200 (arrived TCP_FIN)) as (t' & b & b' & E & _ & _ & Hb' & Hs & _ & _ & _ & Ht); [apply arrived_calm|done|by vm_compute|].
  by exists t', b'.
Defined.

(** Without a free block the SYN ends another connection, whose error callback closes the listener: the listener is used after that. *)
Definition server : Type := link.
#[local] Instance server_events : TcpEvents server := { ev_err _ _ t := drop_200 t; ev_poll _ t := (ERR_OK, t); ev_recv _ _ t := (ERR_OK, t) }.
#[local] Instance server_accept : TcpAccept server := { ev_no_block _ t := t }.
Definition full : stack server :=
  Stack {[100 := Block waiting 9 None 32 false 0 false; 200 := Block listening 9 None 64 false 0 false]} [100] [] [] [200] false 9 0 None [] [] 49152
    (Input waiting 0 0 0 None 777 0 TCP_SYN 3000 1 0 0 None 5 44 (2, [])).
Example listener_closed_by_alloc : tcp_dispatch (N := server) (from 9000 81) full = Undef.
Proof. by vm_compute. Qed.
End InputExamples.

Module EventsExamples.
Import SendExamples TimerExamples ApiExamples InputExamples.

(** ** An application that takes everything *)

#[export] Instance link_app : TcpApp link := {
  listener_open _ := true; accept_cb s := (ERR_OK, s); connected_cb s := (ERR_OK, s); err_cb _ n := n; route_mtu _ _ _ := Some 1500 }.
#[export] Instance link_sent : TcpSent link := { ev_sent _ _ t := (ERR_OK, t) }.
#[export] Instance link_input_laws : TcpInputLaws link.
Proof. split; [done|done|done|done]. Qed.

(** A stack with one connection. *)
Definition alone (p : tcp_pcb) (inp : option Z) (r : input link) : stack link :=
  Stack {[100 := Block p 9 None 64 false 0 false]} [100] [] [] [] false 9 0 inp [400] [] 49152 r.
Lemma alone_ok p i r : is_active (state p) = true -> pcb_ok p -> stack_ok (alone p i r).
Proof.
  intros Ha Hp. assert (forall a, state_at a (alone p i r) = if decide (a = 100) then Some (state p) else None) as Hst.
  { intros a. unfold state_at, alone. simpl. destruct (decide (a = 100)) as [->|]; [done|]. by rewrite lookup_singleton_ne. }
  split.
  - split_and!; apply (bool_decide_unpack _); by vm_compute.
  - intros a. rewrite Hst. simpl. rewrite list_elem_of_singleton. case_decide; naive_solver.
  - intros a. rewrite Hst. simpl. split; [by intros ?%not_elem_of_nil|]. case_decide; [|done]. intros [= E]. by rewrite E in Ha.
  - intros a. rewrite Hst. simpl. split; [by intros ?%not_elem_of_nil|]. case_decide; [|done]. intros [= E]. by rewrite E in Ha.
  - intros a H. by apply not_elem_of_nil in H.
  - intros a b Hb. simpl in Hb. apply lookup_singleton_Some in Hb as [<- <-]. simpl. split; [done|]. congruence.
  - split; [apply (bool_decide_unpack _); by vm_compute|]. intros a H. simpl in H. apply list_elem_of_singleton in H as ->. done.
Qed.
Lemma closing_ok : pcb_ok CloseExamples.closing.
Proof. split; [by repeat constructor|done]. Qed.

(** The last byte and the FIN of the peer, with the acknowledgement of our FIN. *)
Definition fin_regs (fl : Z) : input link := Input CloseExamples.closing 0 0 0 None 1000 28 fl 4000 2 0 0 None 4 44 (2, []).
Definition ending (fl : Z) : stack link := alone CloseExamples.closing None (fin_regs fl).
Lemma reset_frees_witness : exists t', input_active CloseExamples.no_options [[]] 100 (ending TCP_RST) = Ret t' /\ stack_ok t' /\ blocks t' !! 100 = None /\ 100 ∈ free_tcp t' /\ tcp_input_pcb t' = None.
Proof.
  apply (reset_frees CloseExamples.no_options [[]] 100 (ending TCP_RST) (Block CloseExamples.closing 9 None 64 false 0 false)); try done. by apply alone_ok; [|exact closing_ok].
Defined.
Lemma close_in_callback_witness : exists t', tcp_close 100 (alone CloseExamples.closing (Some 100) (fin_regs 0)) = Ret (ERR_OK, t') /\ in_input 100 t' /\ tcp_input_pcb t' = Some 100 /\
  (data_unread CloseExamples.closing = false -> recv_flags (regs t') = 0).
Proof.
  apply (close_in_callback 100 (alone CloseExamples.closing (Some 100) (fin_regs 0)) (Block CloseExamples.closing 9 None 64 false 0 false)); try done.
  eapply in_input_start; [by apply alone_ok; [|exact closing_ok]|done|done|done|done].
Defined.

(** ** A SYN from the wire *)

(** From port 9000 to port 81 with the option MSS 1000, in two pbufs. *)
Definition syn_ctx : ip_ctx := Ctx UdpExamples.eth UdpExamples.eth 1 2 1.
Definition syn_hdr : ctl_hdr := CtlHdr 9000 81 777 0 TCP_SYN 3000 false.
Definition mss_1000 : list Z := [2; 4; 3; 232].
Definition syn_front : list Z := ctl_hdr_bytes syn_hdr 4 ++ [2; 4].
Lemma header_roundtrip_witness : exists o q, tcp_classify syn_ctx [syn_front; [3; 232]] = Ret (Segment (sent_hdr syn_hdr 4) false o 1 q) /\ concat q = [] /\ opts_read o mss_1000.
Proof. apply (header_roundtrip syn_ctx syn_hdr 1 syn_front [[3; 232]] mss_1000 []); try done; simpl; lia. Defined.
Lemma syn_unmatched o : none_fits (conn_matches (arrival_of syn_ctx syn_hdr o)) three (active_pcbs three ++ tw_pcbs three).
Proof. intros a Ha (b & Hb & Hf). simpl in Ha. rewrite !elem_of_cons in Ha. destruct Ha as [->|[->|Ha]]; [| |by apply not_elem_of_nil in Ha]; vm_compute in Hb; injection Hb as <-; by vm_compute in Hf. Qed.
Lemma syn_packet_opens_witness : exists o l t', opts_read o mss_1000 /\ l ∈ listen_pcbs three /\ tcp_input syn_ctx [syn_front; [3; 232]] three = Ret (None, t') /\ stack_ok t'.
Proof.
  destruct (syn_packet_opens syn_ctx syn_hdr 1 syn_front [[3; 232]] mss_1000 three 400 [500]) as (o & l & bl & t' & H1 & (_ & H2 & _) & _ & H3 & H4 & _);
    [exact three_ok|done|done|done|done|done|done|done|done| | | |exact syn_unmatched| |].
  - apply (bool_decide_unpack _). by vm_compute.
  - simpl. lia.
  - simpl. lia.
  - exists 300. split; [left|]. intros o. left. eexists. by split.
  - exists o, l, t'. exact (conj H1 (conj H2 (conj H3 H4))).
Defined.

(** ** Data that are refused *)

(** An application without room for data. *)
Definition busy : Type := link.
#[local] Instance busy_events : TcpEvents busy := { ev_err _ _ t := t; ev_poll _ t := (ERR_OK, t); ev_recv _ _ t := (ERR_MEM, t) }.
#[local] Instance busy_laws : TcpInputLaws busy.
Proof. split; [done|done|done|done]. Qed.
Definition with_data : stack busy := alone CloseExamples.closing (Some 100) (Input CloseExamples.closing 0 0 0 None 1000 28 0 4000 2 0 0 (Some [[7; 8]]) 4 44 (2, [])).
Lemma refused_data_kept_witness : exists t2, input_data (N := busy) 100 with_data = Ret (false, t2) /\ refused_at 100 t2 = Some [[7; 8]] /\ in_input 100 t2.
Proof.
  destruct (refused_data_kept (N := busy) 100 with_data [[7; 8]] ERR_MEM with_data) as (t2 & H1 & H2 & H3 & _); try done; [| |by exists t2].
  - eapply in_input_start; [by apply alone_ok; [|exact closing_ok]|done|done|done|done].
  - intros b Hb. vm_compute in Hb. by injection Hb as <-.
Defined.

(** An application that aborts the connection when it gets data. *)
Definition cross : Type := link.
#[local] Instance cross_events : TcpEvents cross := { ev_err _ _ t := t; ev_poll _ t := (ERR_OK, t);
  ev_recv a _ t := match @abort cross _ _ _ {| ev_err := fun _ _ t => t; ev_poll := fun _ t => (ERR_OK, t); ev_recv := fun _ _ t => (ERR_OK, t) |} a t with
                   | Ret t' => (ERR_ABRT, set_blocks (delete a (blocks t')) t') | _ => (ERR_ABRT, set_blocks (delete a (blocks t)) t) end }.
Lemma aborted_connection_read_witness : input_active (N := cross) CloseExamples.no_options [[9]] 100 (refused_stack : stack cross) = Undef.
Proof.
  apply (aborted_connection_read (N := cross) CloseExamples.no_options [[9]] 100 refused_stack (Block refusing 9 None 64 false 0 true) [[1; 2; 3]]); try done.
  intros t1. simpl. destruct (abort _ _); simpl; by rewrite lookup_delete_eq.
Defined.
End EventsExamples.
